(* ===== verification/_CoqProject ===== *)
-Q . S2P
Prelude.v
CString.v
EventType.v
EventTable.v
Memory.v
Uthash.v
HashMap.v
OpType.v
Regex.v
Lexer.v
Float.v
Ast.v
AstHeap.v
AstPrint.v
Parser.v
Syntax.v
Output.v
Match.v
RuleSemantics.v
Yaml.v
YamlFree.v
ThreadPool.v
Alert.v
RuleSet.v
RuleLoad.v
Release.v
Config.v
Log.v
Startup.v
ProcFs.v
ProcessCache.v
MachineStatus.v
EventRich.v
Bpf.v
Ringbuf.v
Programs1.v
Programs2.v
Programs3.v
Programs4.v
Programs.v
Engine.v
KmodCodes.v
KmodEvent.v
KmodRing.v
KmodDevice.v
KmodFiles.v
KmodUser.v
Daemon.v
Signal.v
SyscallTable.v
CollectorPath.v
CollectorRing.v
CollectorPrograms1.v
CollectorPrograms2.v
PluginFormat.v
Collector.v
PluginLog.v
PluginFile.v
PluginConfig.v
PluginEbpf.v
PluginLine.v
PluginRich.v
Plugin.v
Xdp.v
