(* ===== verification/Prelude.v ===== *)
(** * linx_apd: a model of the program and its theorems

    linx_apd watches the system calls of a Linux machine.  A program in the
    kernel turns every system call into an event, user space enriches the
    event with what /proc and the user data base say, matches it against rules
    written in YAML, and prints an alert for the first rule that holds.  This
    library models the parts of src/ that do this, function by function, and
    proves what makes them correct.

    ** How the parts interact

    - the kernel side: [sys_enter] and [sys_exit] (kernel/ebpf) filter a system
      call and jump to its program in kernel/ebpf/tail_calls, which fills the
      buffer of its CPU ([ringbuf_func.h]) and sends it to a ring;
    - [main] (userspace/linx_apd) parses the arguments, loads the
      configuration, opens the log, registers the fields of the structures
      rules can name, starts the process cache, loads the rules, and starts
      the engine (userspace/linx_engine), which puts the programs in place;
    - the event loop takes an event from the ring, enriches it
      (userspace/linx_event_rich, with the process cache and the machine's
      users) and matches the rules (userspace/linx_rule_engine);
    - a rule's condition goes through lexer, parser, syntax tree and the
      compiler to matchers; its output through the template compiler; a match
      formats the output and hands it to the alerts, which print from the
      tasks of a thread pool;
    - kernel/kmod is a second way to collect events, with a program of its
      own: probes of a kernel module write the events of the running task into
      a ring per consumer, and the reader (kernel/kmod/user) maps the ring and
      writes a line per event;
    - kernel/ebpf/ebpf and kernel/ebpf/plugin are a third one, for another
      program, Falco: a collector with the arguments of every system call and
      the paths of the open files in its events, and a plugin that starts it,
      hands the events to Falco, prints the fields Falco asks for, and can
      write a line per event into a file.

    ** Files

    Every definition keeps the name of the C function or type it models where
    Rocq allows it; the manifest gives file and lines.

    - [Prelude] (this file): outcomes with undefined behaviour, machine
      integers, hints.  [CString]: the functions of string.h, ctype.h, stdlib.h
      and printf the program calls.  [Memory]: bytes at addresses.
    - [EventType], [EventTable]: include/linx_event_type.h and the table of
      parameters of every event.
    - [Uthash], [HashMap]: the registry of fields, linx_hash_map.c, over the
      uthash macros.
    - [OpType]: rule_engine_match's operator tables.  [Regex]: linx_regex.c.
      [Lexer]: linx_lexer.c.  [Float]: strtof, reading and printing of floats.
      [Ast]: ast_node.c, trees as values; [AstHeap]: the same as blocks, with
      their destructor; [AstPrint]: how the parser prints them.  [Parser]: the condition grammar of
      linx_rule_engine_ast.c.  [Syntax]: a
      grammar of conditions with its printer, and the round trip through the
      parser.
    - [Output]: message templates, output_match_func.c.  [Match]: the matchers
      and their compiler.  [RuleSemantics]: what a condition means, without
      matchers.
    - [Yaml]: linx_yaml over the events of libyaml.  [YamlFree]: freeing its
      trees and its stack.  [ThreadPool]:
      linx_thread_pool.c as a transition system.  [Alert]: linx_alert.c.
      [RuleSet], [RuleLoad]: the set of rules and its loading from files.
      [Release]: what the destructors of rules, templates, messages and tables
      free.
    - [Config]: linx_config.c.  [Log]: linx_log.c.  [Startup]:
      linx_arg_parser.c and the first part of [main].
    - [ProcFs], [ProcessCache]: the readers of /proc and the process cache.
      [MachineStatus]: user and group.  [EventRich]: linx_event_rich.c.
    - [Bpf]: the objects and helpers of the kernel, get_pt_regs.h and
      extract_from_kernel.h.  [Ringbuf]: ringbuf_func.h.  [Programs1] to
      [Programs4]: the 712 programs of the numbered files of tail_calls, one
      definition each.  [Programs]: the programs by name and what holds of
      all of them.  [Engine]: the start of the engine, the two entry programs
      and the delivery of events.
    - [KmodCodes], [KmodEvent]: the event codes, the header of an event, its
      tables and fillers, and the probes of kernel/kmod.  [KmodRing]: the ring
      with its producers and its reader.  [KmodDevice]: open, release, ioctl,
      mmap, the walk over the consumers, and loading the module.  [KmodFiles]:
      several openings of the device by several processes, and the table of
      tracepoints.  [KmodUser]: the reader's log, self test and main function.
    - [Daemon]: [main] from the registry on, the event loop and the release of
      resources.  [Signal]: linx_signal.c.
    - [SyscallTable]: the macro file of the system calls and the table made of
      it.  [CollectorPath], [CollectorRing]: ringbuf_func.h of the collector,
      the walk to the path of a file and the event with its stores.
      [CollectorPrograms1], [CollectorPrograms2]: its 712 programs.
      [Collector]: the programs against the table, and from the registers of a
      call to its printed arguments.
    - [PluginFormat]: linx_event_get.c.  [PluginLog]: linx_log of the plugin.
      [PluginFile], [PluginLine]: linx_event_putfile.c, the mapped file and
      the line.  [PluginConfig]: plugin_config.  [PluginEbpf]: ebpf_user and
      the two entry programs.  [PluginRich]: linx_event_rich.c and the fields.
      [Plugin]: the life of the plugin, from loading to destroying it.  [Xdp]:
      the program for packets.

    ** How state and effects are modelled

    State is passed explicitly: a record per static variable or heap object,
    [option] for a pointer that may be null.  A function that can meet
    undefined behaviour returns an [outcome]: a value with the list of writes
    that went past a block without stopping, or the fault that stops it.
    Shared structures (trees of YAML, matchers, cache blocks, tasks) are
    stores with identifiers, so that aliasing and use after free can be
    stated.  Threads are interleaved steps, each critical section one step.
    Integers have the width of their C type ([wrap], [sext]).  Bytes are
    numbers below 256 and integers lie in memory with the low byte first.

    ** What the theorems show

    The number of a claim is its place in the manifest; in groups:

    - rules: a file of rules is loaded and the first rule whose condition means
      true fires with its text ([RuleLoad.rules_file_first_match]); compiled
      conditions decide what [RuleSemantics] says
      ([RuleSemantics.rule_condition_correct], [Match.str_match_decides]);
      printed conditions parse back and every text is parsed or refused
      ([Syntax.condition_to_ast_print], [Parser.condition_to_ast_total]); the
      lexer stays in its text; templates print their pieces in order and within
      their buffer ([Output.output_format_concat]).
    - events: the programs agree with the event table
      ([Programs.programs_match_table]), stay in their buffers
      ([Programs.programs_fill_event], [Programs.sendto_snaplen_bound]), and
      user space reads back what they stored
      ([Engine.delivered_event_describes]); a call runs its own programs,
      exactly when the configuration says so ([Engine.engine_dispatches]); the
      enrichment fills every field and parameter
      ([EventRich.event_rich_describes]); of the events of one poll only the
      last is handled ([Daemon.event_loop_handles_last]), and its enrichment
      never leaves the event ([Daemon.kernel_events_enriched]).
    - data: the registry and the process cache refine maps
      ([HashMap.hash_map_refines_registry],
      [ProcessCache.process_cache_refines]); a YAML document, a line of
      /proc and a configuration are read back as what they mean, but for paths
      that name an entry within a sequence of a document
      ([Yaml.yaml_load_answers]).
    - memory of conditions: destroying a tree frees no block twice and leaves
      what lies below boolean operators ([AstHeap.ast_destroy_built]).
    - memory of documents and rules: freeing the tree of a document frees every
      block the loader made, once ([YamlFree.yaml_document_freed]); of a message
      template the array and the variables' segments stay
      ([Release.output_match_leaks]).
    - tasks: the thread pool keeps tasks in order and never touches a freed
      one; its destructor ends when every loop that runs has been told to stop
      and waits for ever when one has not
      ([ThreadPool.thread_pool_destroy_terminates]); alerts and log lines come
      out once and in order.
    - the kernel module: under every interleaving of CPUs and reader in which
      no CPU reads a tail that the reader has stored past the end, the ring
      is a queue ([KmodRing.kmod_ring_fifo]) that one CPU at most is in
      ([KmodRing.kmod_ring_exclusive]); a call of [linx_record_event] that
      nobody disturbs appends its event or counts a drop, and the step machine
      is its code ([KmodRing.record_event_solo]); a probe
      reaches every consumer ([KmodDevice.enter_probe_reaches_all]) and the
      log's line says what the task did ([KmodUser.kmod_line_describes]).  Whatever processes do with the device, each
      file is a queue of its own ([KmodFiles.device_refines_queues]).  Two
      requests leave the mutex taken ([KmodDevice.protected_ioctl_deadlocks]),
      and the reader runs off its mapping after 132 events
      ([KmodRing.kmod_reader_leaves_mapping]).
    - the plugin: what a call was made with and who made it is what Falco is
      shown, from the registers over program, ring, batch and field
      ([Plugin.plugin_reports_syscall], [Collector.collected_arguments_printed],
      [SyscallTable.syscall_table_agrees]); a started collector runs the
      programs of the calls of interest that no filter holds back
      ([PluginEbpf.collector_dispatches]); paths have the names of their
      directories, twelve at most ([CollectorPath.file_path_names]); the file
      of events grows by whole lines unless one crosses a window
      ([PluginFile.events_file_appends]) and a line names every field
      ([PluginLine.event_line_written]); documents are read member by member
      ([PluginConfig.open_config_reads], [PluginConfig.init_config_reads]).
      The packet program reads inside its packet and passes all of them
      ([Xdp.xdp_pass_total]).  Null texts shift what follows ([Collector.null_text_shifts]), half of a
      buffer stays unused ([PluginFormat.arguments_fill_half]), and an incomplete
      first document stops the plugin
      ([PluginConfig.incomplete_config_stops]).
    - errors: the places where the code fails are theorems too: which runs of
      events end in an invalid free, which fields of rules are never set,
      what a release reads, what a start without options does.

    ** Fuel and bounds

    A task of the thread pool runs for any number of steps ([Pass]); its bound
    is a parameter of the theorem on the end of the pool.  Loops and recursion
    over a text ([Lexer], [Parser], [Output.compile_loop],
    [ProcFs.status_loop]) have one more than the length of the text as fuel,
    since every pass takes a character at least;
    [Parser.condition_to_ast_total] shows that the parser's is enough for
    every text.  [Memory.load_cstr] has the size of the memory, which bounds a
    string, and [Yaml.path_loop] the length of the path.  All other recursion
    is on the data or on the number of passes the code's own loop makes.

    ** Parameters

    Code that is not under src/ is a parameter with its documented behaviour as
    named hypotheses: PCRE2 ([Regex.Pcre2], [Regex.Pcre2Laws]), cJSON
    ([Config.CJson]), the kernel's helpers ([Bpf.kernel], [Bpf.kernel_ok]),
    libbpf ([Engine.host], [Engine.poll_law], [PluginEbpf.poll_law]), the
    values of a JSON document ([PluginConfig.CJsonValues]), the layout of the
    kernel's objects ([CollectorPath.layout]), Falco's encoding of events (in
    [Plugin]).  Files, /proc, clocks and the data base of users are inputs.  Each theorem with such a hypothesis has an
    example with a concrete instance.

    ** Not modelled

    - linx_event_queue has empty bodies, linx_event_processor is not built and
      calls functions that do not exist (a stray parenthesis in its check of the
      configuration keeps it from being compiled).
    - the files of kernel/ebpf/tail_calls without a number, copies of
      those in kernel/ebpf/ebpf/tail_calls, but for unlink and unlinkat.
    - of the plugin, the types of events and the version of the interface it
      announces, messages to Falco (their pointer is modelled), and the
      printing of libbpf's messages.
    - in kernel/kmod, the probe of task switches, which is empty, two lines of
      debugging output, and [linx_test_txt], which nothing calls.  Its mutex
      is a flag: a call that finds it taken waits for ever, since calls run one
      after another; the probes run on several CPUs only in [KmodRing].
    - in the engine's ringbuf_func.h, the paths of files and descriptors and
      [apply_snaplen], which are not called there, and a null answer of
      [linx_ringbuf_get], whose map has an element per CPU.
    - failures of malloc, strdup and pthread, except where the manifest says
      otherwise; the destructor of the lexer, which frees its one block.
    - src/local_depends (uthash apart), headers generated from a kernel,
      scripts, tests and documents.

    What is left has no body, is not built, or belongs to somebody else: the
    rest of src/ that runs is modelled. *)
From stdpp Require Export base numbers gmap strings list fin_maps relations.
From Stdlib Require Export ZArith Lia.

Declare Scope linx_scope.
Delimit Scope linx_scope with linx.

(** ** Undefined behaviour and the outcome monad

    A C operation can reach behaviour the standard does not define.  The model
    names the reason.  [Ub] stops the execution.  [Ret] carries the list of
    out-of-bounds writes that the execution performed without stopping: the
    bytes written past a block or an array land in memory the model does not
    track (padding, or another block), and the value the code computes is the
    intended one. *)
Inductive fault :=
  | NullDeref         (* a null pointer is read through *)
  | UninitRead        (* an indeterminate value is used *)
  | HeapOverflow      (* a write past the end of a block or an array *)
  | OutOfBounds       (* an access outside an array *)
  | BadAddress        (* a read of memory the model does not hold *)
  | InvalidFree       (* free of a pointer that malloc did not return *)
  | WildCall.         (* a call through an indeterminate function pointer *)

#[export] Instance fault_eq_dec : EqDecision fault.
Proof. solve_decision. Defined.

Inductive outcome (A : Type) :=
  | Ret (log : list fault) (a : A)
  | Ub (f : fault)
  | NoFuel.
Arguments Ret {A} log a.
Arguments Ub {A} f.
Arguments NoFuel {A}.

#[export] Instance outcome_ret : MRet outcome := λ A a, Ret [] a.
#[export] Instance outcome_bind : MBind outcome := λ A B k m,
  match m with
  | Ret w a =>
      match k a with
      | Ret w' b => Ret (w ++ w') b
      | Ub f => Ub f
      | NoFuel => NoFuel
      end
  | Ub f => Ub f
  | NoFuel => NoFuel
  end.

#[export] Instance outcome_fmap : FMap outcome := λ A B f m, a ← m; mret (f a).

(** A write past a block or an array that does not stop the execution. *)
Definition overflow : outcome unit := Ret [HeapOverflow] ().

(** Reading a value that may be indeterminate. *)
Definition init_or_ub {A} (x : option A) : outcome A :=
  match x with Some a => mret a | None => Ub UninitRead end.

Definition from_opt {A} (f : fault) (x : option A) : outcome A :=
  match x with Some a => mret a | None => Ub f end.

(** [clean m a]: [m] returns [a] without any undefined behaviour. *)
Definition clean {A} (m : outcome A) (a : A) : Prop := m = Ret [] a.

Section outcome_lemmas.
Context {A B : Type}.

Lemma bind_ret_l (a : A) (k : A → outcome B) : mret a ≫= k = k a.
Proof. cbn. by destruct (k a). Qed.

Lemma bind_Ret_nil (a : A) (k : A → outcome B) : Ret [] a ≫= k = k a.
Proof. apply bind_ret_l. Qed.

Lemma from_opt_some f (a : A) : from_opt f (Some a) = Ret [] a.
Proof. done. Qed.

Lemma bind_Ub f (k : A → outcome B) : Ub f ≫= k = Ub f.
Proof. done. Qed.

Lemma bind_Ret_inv (m : outcome A) (k : A → outcome B) w b :
  m ≫= k = Ret w b →
  ∃ w1 w2 a, m = Ret w1 a ∧ k a = Ret w2 b ∧ w = w1 ++ w2.
Proof.
  destruct m as [w1 a| |]; cbn; [|done..].
  destruct (k a) as [w2 b'| |] eqn:E; [|done..].
  intros [= <- <-]. eauto 10.
Qed.

Lemma bind_NoFuel_inv (m : outcome A) (k : A → outcome B) :
  m ≫= k = NoFuel → m = NoFuel ∨ ∃ w a, m = Ret w a ∧ k a = NoFuel.
Proof.
  destruct m as [w1 a| |]; cbn; [|done|by left].
  destruct (k a) eqn:E; naive_solver.
Qed.

Lemma bind_clean (m : outcome A) (k : A → outcome B) a b :
  clean m a → clean (k a) b → clean (m ≫= k) b.
Proof. unfold clean. intros -> H. by rewrite bind_Ret_nil. Qed.
End outcome_lemmas.

(** [bind_inv H] opens every monadic bind of the hypothesis [H]. *)
Ltac bind_inv H :=
  lazymatch type of H with
  | mbind _ _ = Ret _ _ =>
      let w1 := fresh "w" in let w2 := fresh "w" in let a := fresh "a" in
      let H1 := fresh "Hm" in let H2 := fresh "Hk" in let Hw := fresh "Hw" in
      apply bind_Ret_inv in H as (w1 & w2 & a & H1 & H2 & Hw); bind_inv H2
  | _ => idtac
  end.

(** ** Machine integers *)
Definition wrap (w z : Z) : Z := (z `mod` 2 ^ w)%Z.
Definition sext (w z : Z) : Z :=
  let u := wrap w z in if (u <? 2 ^ (w - 1))%Z then u else (u - 2 ^ w)%Z.

Lemma wrap_range w z : (0 ≤ w)%Z → (0 ≤ wrap w z < 2 ^ w)%Z.
Proof. intros Hw. unfold wrap. apply Z.mod_pos_bound. by apply Z.pow_pos_nonneg. Qed.

Lemma wrap_small w z : (0 ≤ z < 2 ^ w)%Z → wrap w z = z.
Proof. intros H. unfold wrap. by apply Z.mod_small. Qed.

Lemma sext_wrap w z : sext w (wrap w z) = sext w z.
Proof. unfold sext. assert (wrap w (wrap w z) = wrap w z) as -> by (unfold wrap; apply Zmod_mod). done. Qed.

Lemma sext_range w z : (0 < w)%Z → (- 2 ^ (w - 1) ≤ sext w z < 2 ^ (w - 1))%Z.
Proof.
  intros Hw. unfold sext.
  pose proof (wrap_range w z ltac:(lia)) as Hr.
  assert (2 ^ w = 2 * 2 ^ (w - 1))%Z as Hp.
  { rewrite <- Z.pow_succ_r by lia. f_equal. lia. }
  destruct (Z.ltb_spec (wrap w z) (2 ^ (w - 1))); lia.
Qed.

Lemma sext_small w z :
  (0 < w)%Z → (- 2 ^ (w - 1) ≤ z < 2 ^ (w - 1))%Z → sext w z = z.
Proof.
  intros Hw Hz.
  assert (2 ^ w = 2 * 2 ^ (w - 1))%Z as Hp.
  { rewrite <- Z.pow_succ_r by lia. f_equal. lia. }
  unfold sext, wrap. destruct (decide (0 ≤ z)%Z).
  - rewrite Z.mod_small by lia. destruct (Z.ltb_spec z (2 ^ (w - 1))); lia.
  - replace (z `mod` 2 ^ w)%Z with (z + 2 ^ w)%Z.
    + destruct (Z.ltb_spec (z + 2 ^ w) (2 ^ (w - 1))); lia.
    + apply Z.mod_unique with (-1)%Z; lia.
Qed.

(** ** Hints shared by the development *)
Create HintDb linx.
Create Rewrite HintDb linx.
#[export] Hint Resolve bind_clean : linx.
#[export] Hint Rewrite @bind_Ret_nil @bind_ret_l @bind_Ub : linx.
