(* ===== verification/CString.v ===== *)
(** * C strings

    The C library functions the program calls on NUL-terminated strings.  A
    C string is a [string] without NUL characters (the terminator is not
    part of the value), so that [strlen] is [String.length]; memory that may
    hold no terminator is modelled in [Memory]. *)
From S2P Require Import Prelude.
From Stdlib Require Import Ascii String.
From stdpp Require Export pretty.

Definition code (c : ascii) : Z := Z.of_N (N_of_ascii c).
Definition chr (z : Z) : ascii := ascii_of_N (Z.to_N z).
Abbreviation strlen := String.length.

Definition DOT : ascii := "."%char.

(** ** Slices *)
Fixpoint sdrop (n : nat) (s : string) {struct n} : string :=
  match n, s with
  | S n', String _ s' => sdrop n' s'
  | _, _ => s
  end.

Fixpoint stake (n : nat) (s : string) {struct n} : string :=
  match n, s with
  | S n', String c s' => String c (stake n' s')
  | _, _ => EmptyString
  end.

(** ** strcmp, strncmp, strchr, strstr *)
Definition streq (a b : string) : bool := String.eqb a b.

(** [strncmp a b n == 0] *)
Fixpoint strncmp0 (a b : string) (n : nat) {struct n} : bool :=
  match n with
  | O => true
  | S n' =>
      match a, b with
      | EmptyString, EmptyString => true
      | String x a', String y b' => Ascii.eqb x y && strncmp0 a' b' n'
      | _, _ => false
      end
  end.

(** [strstr h n != NULL] *)
Fixpoint strstr (h n : string) : bool :=
  strncmp0 h n (strlen n) ||
  match h with
  | EmptyString => false
  | String _ h' => strstr h' n
  end.

(** ** Character classes of the C locale *)
Definition isspace (c : ascii) : bool :=
  let z := code c in ((z =? 32) || ((9 <=? z) && (z <=? 13)))%Z.
Definition isdigit (c : ascii) : bool :=
  let z := code c in ((48 <=? z) && (z <=? 57))%Z.
Definition isupper (c : ascii) : bool :=
  let z := code c in ((65 <=? z) && (z <=? 90))%Z.
Definition islower (c : ascii) : bool :=
  let z := code c in ((97 <=? z) && (z <=? 122))%Z.
Definition isalpha (c : ascii) : bool := isupper c || islower c.
Definition isxdigit (c : ascii) : bool :=
  let z := code c in
  (isdigit c || ((65 <=? z) && (z <=? 70)) || ((97 <=? z) && (z <=? 102)))%Z.
Definition tolower (c : ascii) : ascii :=
  if isupper c then chr (code c + 32) else c.

(** ** Spans *)
Fixpoint span (p : ascii → bool) (s : string) : string * string :=
  match s with
  | String c s' =>
      if p c then let '(a, b) := span p s' in (String c a, b) else (EmptyString, s)
  | EmptyString => (EmptyString, EmptyString)
  end.

(** ** strtok: the token and what is left for the next call *)
Definition strtok (d : ascii) (s : string) : option (string * string) :=
  match (span (Ascii.eqb d) s).2 with
  | EmptyString => None
  | s' =>
      let '(tok, rest) := span (λ c, negb (Ascii.eqb d c)) s' in
      Some (tok, sdrop 1 rest)
  end.

(** ** strtol and strtoul: the value and what follows the digits

    [long] is 64 bits wide; a value out of range saturates. *)
Definition digit_val (c : ascii) : Z :=
  let z := code c in
  (if isdigit c then z - 48
   else if islower c then z - 87
   else z - 55)%Z.

Fixpoint digits_val (base acc : Z) (s : string) : Z :=
  match s with
  | EmptyString => acc
  | String c s' => digits_val base (acc * base + digit_val c)%Z s'
  end.

Definition sign_of (s : string) : bool * string :=
  match s with
  | String "+" s' => (false, s')
  | String "-" s' => (true, s')
  | _ => (false, s)
  end.

Definition LONG_MAX : Z := 2 ^ 63 - 1.
Definition LONG_MIN : Z := - 2 ^ 63.
Definition ULONG_MAX : Z := 2 ^ 64 - 1.

Definition strtol10 (s : string) : Z * string :=
  let '(neg, s1) := sign_of (span isspace s).2 in
  let '(ds, rest) := span isdigit s1 in
  if streq ds "" then (0%Z, s)
  else
    let v := digits_val 10 0 ds in
    let v := if neg then (- v)%Z else v in
    (Z.max LONG_MIN (Z.min LONG_MAX v), rest).

(** [strtoul s NULL 16] *)
Definition strtoul16 (s : string) : Z :=
  let '(neg, s1) := sign_of (span isspace s).2 in
  let s2 := match s1 with
            | String "0" (String x (String h _ as r)) =>
                if (Ascii.eqb x "x" || Ascii.eqb x "X") && isxdigit h then r else s1
            | _ => s1
            end in
  let v := digits_val 16 0 (span isxdigit s2).1 in
  if (ULONG_MAX <? v)%Z then ULONG_MAX
  else if neg then wrap 64 (- v) else v.

(** ** Printing: the conversions of printf used by the program *)
Definition show_int (z : Z) : string := pretty z.

Fixpoint slower (s : string) : string :=
  match s with
  | EmptyString => EmptyString
  | String c s' => String (tolower c) (slower s')
  end.

(** ** Lemmas *)
#[global] Arguments String.append : simpl nomatch.

Lemma strlen_app a b : strlen (a +:+ b) = strlen a + strlen b.
Proof. induction a as [|c a IH]; [done|]. cbn in *. by rewrite IH. Qed.

Lemma sapp_assoc (a b c : string) : (a +:+ b) +:+ c = a +:+ (b +:+ c).
Proof. induction a as [|x a IH]; [done|]. cbn. by f_equal. Qed.

Lemma sapp_nil_r (a : string) : a +:+ "" = a.
Proof. induction a as [|x a IH]; [done|]. cbn. by f_equal. Qed.

Lemma stake_sdrop n s : stake n s +:+ sdrop n s = s.
Proof. revert s. induction n as [|n IH]; intros [|c s]; cbn; [done..|]. by f_equal. Qed.

Lemma sdrop_sdrop n m s : sdrop n (sdrop m s) = sdrop (m + n) s.
Proof.
  revert s. induction m as [|m IH]; intros [|c s]; cbn; try done. by destruct n.
Qed.

Lemma strlen_sdrop n s : strlen (sdrop n s) = strlen s - n.
Proof. revert s. induction n as [|n IH]; intros [|c s]; cbn; [done..|]. apply IH. Qed.

Lemma strlen_stake n s : strlen (stake n s) = n `min` strlen s.
Proof.
  revert s. induction n as [|n IH]; intros [|c s]; cbn; [done..|]. f_equal. apply IH.
Qed.

Lemma stake_app_length a b : stake (strlen a) (a +:+ b) = a.
Proof. induction a as [|c a IH]; cbn; [by destruct b|]. by f_equal. Qed.

Lemma sdrop_app_length a b : sdrop (strlen a) (a +:+ b) = b.
Proof. induction a as [|c a IH]; cbn; [done|]. done. Qed.

Lemma sdrop_all s n : strlen s ≤ n → sdrop n s = "".
Proof. revert n. induction s as [|c s IH]; intros [|n] ?; cbn in *; auto with lia. Qed.

Lemma sdrop_0 s : sdrop 0 s = s.
Proof. done. Qed.

Lemma sdrop_stake_comm n m s : stake n (sdrop m s) = sdrop m (stake (m + n) s).
Proof. revert s. induction m as [|m IH]; intros [|c s]; cbn; try done. by destruct n. Qed.

Lemma stake_all s : stake (strlen s) s = s.
Proof. induction s as [|c s IH]; cbn; [done|]. by f_equal. Qed.

Lemma stake_idemp n s : stake n (stake n s) = stake n s.
Proof. revert s. induction n as [|n IH]; intros [|c s]; cbn; [done..|]. by f_equal. Qed.

Lemma streq_true a b : streq a b = true ↔ a = b.
Proof. apply String.eqb_eq. Qed.

Lemma streq_refl a : streq a a = true.
Proof. by apply streq_true. Qed.

Lemma streq_spec a b : reflect (a = b) (streq a b).
Proof. apply iff_reflect. symmetry. apply streq_true. Qed.

(** [strncmp] over the length of the second argument decides the prefix
    relation. *)
Lemma strncmp0_prefix s p : strncmp0 s p (strlen p) = true ↔ ∃ t, s = p +:+ t.
Proof.
  revert s. induction p as [|c p IH]; intros s.
  - cbn. split; [by exists s|done].
  - destruct s as [|x s]; cbn.
    + split; [done|]. by intros [t [=]].
    + rewrite andb_true_iff, Ascii.eqb_eq, IH. split.
      * intros [-> [t ->]]. by exists t.
      * intros [t [= -> ->]]. eauto.
Qed.

(** [strncmp] over the length of the first argument with equal lengths is
    equality. *)
Lemma strncmp0_eq a b : strlen a = strlen b → strncmp0 a b (strlen b) = true ↔ a = b.
Proof.
  intros Hl. rewrite strncmp0_prefix. split; [|intros ->; exists ""; by rewrite sapp_nil_r].
  intros [t ->]. rewrite strlen_app in Hl. destruct t; cbn in Hl; [by rewrite sapp_nil_r|lia].
Qed.

(** [strstr] decides the substring relation. *)
Lemma strstr_spec h n : strstr h n = true ↔ ∃ a b, h = a +:+ n +:+ b.
Proof.
  revert n. induction h as [|c h IH]; intros n; cbn [strstr].
  - rewrite orb_false_r, strncmp0_prefix. split.
    + intros [t Ht]. by exists "", t.
    + intros ([|? a] & b & H); [by exists b|done].
  - rewrite orb_true_iff, IH, strncmp0_prefix. split.
    + intros [[t Ht]|(a & b & ->)]; [by exists "", t|by exists (String c a), b].
    + intros ([|x a] & b & H); [left; by exists b|].
      cbn in H. injection H as -> ->. right. eauto.
Qed.

Lemma span_app p s : (span p s).1 +:+ (span p s).2 = s.
Proof.
  induction s as [|c s IH]; cbn; [done|]. destruct (p c); [|done].
  destruct (span p s) as [a b]; cbn in *. by rewrite IH.
Qed.

Lemma slower_length s : strlen (slower s) = strlen s.
Proof. induction s as [|c s IH]; cbn; [done|]. by f_equal. Qed.

(** ** Printed numbers are read back *)
Definition sforall (p : ascii → bool) (s : string) : bool := forallb p (String.list_ascii_of_string s).

Lemma sforall_app p a b : sforall p (a +:+ b) = sforall p a && sforall p b.
Proof. induction a as [|c a IH]; [done|]. unfold sforall in *. cbn. by rewrite IH, andb_assoc. Qed.

Lemma sforall_impl (p q : ascii → bool) s :
  (∀ c, p c = true → q c = true) → sforall p s = true → sforall q s = true.
Proof.
  intros Hpq. induction s as [|c s IH]; [done|]. unfold sforall in *; cbn.
  rewrite !andb_true_iff. naive_solver.
Qed.

Lemma span_all p s : sforall p s = true → span p s = (s, "").
Proof.
  induction s as [|c s IH]; [done|]. unfold sforall in *. cbn [String.list_ascii_of_string forallb span].
  intros [-> H]%andb_true_iff. by rewrite IH.
Qed.

Lemma digits_val_app base acc a b : digits_val base acc (a +:+ b) = digits_val base (digits_val base acc a) b.
Proof. revert acc. induction a as [|c a IH]; intros acc; [done|]. cbn. apply IH. Qed.

Lemma pretty_char_digit x :
  (x < 10)%N → isdigit (pretty_N_char x) = true ∧ digit_val (pretty_N_char x) = Z.of_N x.
Proof.
  intros Hx. assert (∃ n : nat, (n < 10)%nat ∧ x = N.of_nat n) as (n & Hn & ->) by (exists (N.to_nat x); lia).
  do 10 (destruct n as [|n]; [done|]). lia.
Qed.

Lemma pretty_go_digits x t :
  ∃ d, pretty_N_go x t = d +:+ t ∧ sforall isdigit d = true ∧ (x ≠ 0%N → d ≠ "")
    ∧ (∀ k : nat, (x < 10 ^ N.of_nat k)%N → strlen d ≤ k)
    ∧ ∀ acc, digits_val 10 acc d = (acc * 10 ^ Z.of_nat (strlen d) + Z.of_N x)%Z.
Proof.
  revert t. induction (N.lt_wf_0 x) as [x _ IH]. intros t. destruct (decide (x = 0%N)) as [->|Hx].
  { exists "". rewrite pretty_N_go_0. split; [done|]. split; [done|]. split; [done|].
    split; [intros k _; cbn; lia|]. intros acc. cbn. lia. }
  rewrite pretty_N_go_step by lia.
  destruct (IH (x `div` 10)%N (N.div_lt x 10 ltac:(lia) ltac:(lia)) (String (pretty_N_char (x `mod` 10)) t))
    as (d & -> & Hd & _ & Hk & Hv).
  destruct (pretty_char_digit (x `mod` 10) (N.mod_lt x 10 ltac:(lia))) as [Hc1 Hc2].
  exists (d +:+ String (pretty_N_char (x `mod` 10)) ""). split; [by rewrite sapp_assoc|].
  split; [|split; [|split]].
  - rewrite sforall_app, Hd. unfold sforall. cbn -[pretty_N_char isdigit]. by rewrite Hc1.
  - intros _ He. by destruct d.
  - intros [|k] Hlt; [cbn in Hlt; lia|]. rewrite strlen_app. change (strlen (String _ "")) with 1%nat.
    rewrite Nat2N.inj_succ, N.pow_succ_r' in Hlt. specialize (Hk k ltac:(apply N.Div0.div_lt_upper_bound; lia)). lia.
  - intros acc. rewrite digits_val_app, Hv. cbn [digits_val]. rewrite Hc2, strlen_app.
    change (strlen (String _ "")) with 1%nat. rewrite Nat2Z.inj_add, Z.pow_add_r by lia.
    change (10 ^ Z.of_nat 1)%Z with 10%Z. pose proof (N.div_mod x 10 ltac:(lia)). lia.
Qed.

Lemma show_int_digits z :
  (0 ≤ z)%Z →
  show_int z ≠ "" ∧ sforall isdigit (show_int z) = true ∧ digits_val 10 0 (show_int z) = z
  ∧ ((z < 2 ^ 64)%Z → strlen (show_int z) ≤ 20).
Proof.
  intros Hz. destruct z as [|p|p]; [split; [done|]; split; [done|]; split; [done|]; cbn; lia| |lia].
  change (show_int (Z.pos p)) with (pretty_N_go (N.pos p) "").
  destruct (pretty_go_digits (N.pos p) "") as (d & -> & Hd & Hne & Hk & Hv). rewrite sapp_nil_r.
  split; [by apply Hne|]. split; [done|]. split; [rewrite Hv; lia|].
  intros Hlt. apply Hk. change (10 ^ N.of_nat 20)%N with 100000000000000000000%N. lia.
Qed.

Lemma strtol10_show_int z : (0 ≤ z ≤ LONG_MAX)%Z → strtol10 (show_int z) = (z, "").
Proof.
  intros Hz. destruct (show_int_digits z ltac:(lia)) as (Hne & Hd & Hv & _). unfold strtol10.
  assert (Hs : (span isspace (show_int z)).2 = show_int z ∧ sign_of (show_int z) = (false, show_int z)).
  { destruct (show_int z) as [|c r]; [done|]. unfold sforall in Hd. cbn [String.list_ascii_of_string forallb] in Hd.
    apply andb_true_iff in Hd as [Hc _].
    assert (isspace c = false) as Hsp by (unfold isspace, isdigit in *; lia). cbn [span]. rewrite Hsp. split; [done|].
    unfold sign_of. destruct c as [[] [] [] [] [] [] [] []]; done. }
  destruct Hs as [-> ->]. rewrite span_all by done. rewrite Hv.
  destruct (streq_spec (show_int z) ""); [done|]. f_equal. unfold LONG_MIN, LONG_MAX in *. lia.
Qed.

#[export] Hint Rewrite strlen_app strlen_sdrop strlen_stake sdrop_app_length
  stake_app_length sdrop_sdrop streq_refl sapp_nil_r : linx.

Example strtol10_ex1 : strtol10 " -12x" = ((-12)%Z, "x"). Proof. reflexivity. Qed.
Example strtol10_ex2 : strtol10 "abc" = (0%Z, "abc"). Proof. reflexivity. Qed.
Example strtol10_sat : (strtol10 "99999999999999999999").1 = LONG_MAX. Proof. reflexivity. Qed.
Example strtoul16_ex : strtoul16 "0x1F" = 31%Z. Proof. reflexivity. Qed.
Example strtok_ex : strtok "." "..evt.arg" = Some ("evt", "arg"). Proof. reflexivity. Qed.
Example strstr_ex : strstr "/usr/bin/find" "bin" = true. Proof. reflexivity. Qed.
