(* ===== verification/EventType.v ===== *)
(** * Event types (include/linx_event_type.h)

    The enumerators of [linx_event_type_t] with the values the header gives
    them: twice the number of the system call for its entry, and one more for
    its exit. *)
From S2P Require Import Prelude.

#[local] Open Scope Z_scope.

Definition LINX_EVENT_TYPE_READ_E : Z := 0.
Definition LINX_EVENT_TYPE_READ_X : Z := 1.
Definition LINX_EVENT_TYPE_WRITE_E : Z := 2.
Definition LINX_EVENT_TYPE_WRITE_X : Z := 3.
Definition LINX_EVENT_TYPE_OPEN_E : Z := 4.
Definition LINX_EVENT_TYPE_OPEN_X : Z := 5.
Definition LINX_EVENT_TYPE_CLOSE_E : Z := 6.
Definition LINX_EVENT_TYPE_CLOSE_X : Z := 7.
Definition LINX_EVENT_TYPE_STAT_E : Z := 8.
Definition LINX_EVENT_TYPE_STAT_X : Z := 9.
Definition LINX_EVENT_TYPE_FSTAT_E : Z := 10.
Definition LINX_EVENT_TYPE_FSTAT_X : Z := 11.
Definition LINX_EVENT_TYPE_LSTAT_E : Z := 12.
Definition LINX_EVENT_TYPE_LSTAT_X : Z := 13.
Definition LINX_EVENT_TYPE_POLL_E : Z := 14.
Definition LINX_EVENT_TYPE_POLL_X : Z := 15.
Definition LINX_EVENT_TYPE_LSEEK_E : Z := 16.
Definition LINX_EVENT_TYPE_LSEEK_X : Z := 17.
Definition LINX_EVENT_TYPE_MMAP_E : Z := 18.
Definition LINX_EVENT_TYPE_MMAP_X : Z := 19.
Definition LINX_EVENT_TYPE_MPROTECT_E : Z := 20.
Definition LINX_EVENT_TYPE_MPROTECT_X : Z := 21.
Definition LINX_EVENT_TYPE_MUNMAP_E : Z := 22.
Definition LINX_EVENT_TYPE_MUNMAP_X : Z := 23.
Definition LINX_EVENT_TYPE_BRK_E : Z := 24.
Definition LINX_EVENT_TYPE_BRK_X : Z := 25.
Definition LINX_EVENT_TYPE_RT_SIGACTION_E : Z := 26.
Definition LINX_EVENT_TYPE_RT_SIGACTION_X : Z := 27.
Definition LINX_EVENT_TYPE_RT_SIGPROCMASK_E : Z := 28.
Definition LINX_EVENT_TYPE_RT_SIGPROCMASK_X : Z := 29.
Definition LINX_EVENT_TYPE_RT_SIGRETURN_E : Z := 30.
Definition LINX_EVENT_TYPE_RT_SIGRETURN_X : Z := 31.
Definition LINX_EVENT_TYPE_IOCTL_E : Z := 32.
Definition LINX_EVENT_TYPE_IOCTL_X : Z := 33.
Definition LINX_EVENT_TYPE_PREAD64_E : Z := 34.
Definition LINX_EVENT_TYPE_PREAD64_X : Z := 35.
Definition LINX_EVENT_TYPE_PWRITE64_E : Z := 36.
Definition LINX_EVENT_TYPE_PWRITE64_X : Z := 37.
Definition LINX_EVENT_TYPE_READV_E : Z := 38.
Definition LINX_EVENT_TYPE_READV_X : Z := 39.
Definition LINX_EVENT_TYPE_WRITEV_E : Z := 40.
Definition LINX_EVENT_TYPE_WRITEV_X : Z := 41.
Definition LINX_EVENT_TYPE_ACCESS_E : Z := 42.
Definition LINX_EVENT_TYPE_ACCESS_X : Z := 43.
Definition LINX_EVENT_TYPE_PIPE_E : Z := 44.
Definition LINX_EVENT_TYPE_PIPE_X : Z := 45.
Definition LINX_EVENT_TYPE_SELECT_E : Z := 46.
Definition LINX_EVENT_TYPE_SELECT_X : Z := 47.
Definition LINX_EVENT_TYPE_SCHED_YIELD_E : Z := 48.
Definition LINX_EVENT_TYPE_SCHED_YIELD_X : Z := 49.
Definition LINX_EVENT_TYPE_MREMAP_E : Z := 50.
Definition LINX_EVENT_TYPE_MREMAP_X : Z := 51.
Definition LINX_EVENT_TYPE_MSYNC_E : Z := 52.
Definition LINX_EVENT_TYPE_MSYNC_X : Z := 53.
Definition LINX_EVENT_TYPE_MINCORE_E : Z := 54.
Definition LINX_EVENT_TYPE_MINCORE_X : Z := 55.
Definition LINX_EVENT_TYPE_MADVISE_E : Z := 56.
Definition LINX_EVENT_TYPE_MADVISE_X : Z := 57.
Definition LINX_EVENT_TYPE_SHMGET_E : Z := 58.
Definition LINX_EVENT_TYPE_SHMGET_X : Z := 59.
Definition LINX_EVENT_TYPE_SHMAT_E : Z := 60.
Definition LINX_EVENT_TYPE_SHMAT_X : Z := 61.
Definition LINX_EVENT_TYPE_SHMCTL_E : Z := 62.
Definition LINX_EVENT_TYPE_SHMCTL_X : Z := 63.
Definition LINX_EVENT_TYPE_DUP_E : Z := 64.
Definition LINX_EVENT_TYPE_DUP_X : Z := 65.
Definition LINX_EVENT_TYPE_DUP2_E : Z := 66.
Definition LINX_EVENT_TYPE_DUP2_X : Z := 67.
Definition LINX_EVENT_TYPE_PAUSE_E : Z := 68.
Definition LINX_EVENT_TYPE_PAUSE_X : Z := 69.
Definition LINX_EVENT_TYPE_NANOSLEEP_E : Z := 70.
Definition LINX_EVENT_TYPE_NANOSLEEP_X : Z := 71.
Definition LINX_EVENT_TYPE_GETITIMER_E : Z := 72.
Definition LINX_EVENT_TYPE_GETITIMER_X : Z := 73.
Definition LINX_EVENT_TYPE_ALARM_E : Z := 74.
Definition LINX_EVENT_TYPE_ALARM_X : Z := 75.
Definition LINX_EVENT_TYPE_SETITIMER_E : Z := 76.
Definition LINX_EVENT_TYPE_SETITIMER_X : Z := 77.
Definition LINX_EVENT_TYPE_GETPID_E : Z := 78.
Definition LINX_EVENT_TYPE_GETPID_X : Z := 79.
Definition LINX_EVENT_TYPE_SENDFILE_E : Z := 80.
Definition LINX_EVENT_TYPE_SENDFILE_X : Z := 81.
Definition LINX_EVENT_TYPE_SOCKET_E : Z := 82.
Definition LINX_EVENT_TYPE_SOCKET_X : Z := 83.
Definition LINX_EVENT_TYPE_CONNECT_E : Z := 84.
Definition LINX_EVENT_TYPE_CONNECT_X : Z := 85.
Definition LINX_EVENT_TYPE_ACCEPT_E : Z := 86.
Definition LINX_EVENT_TYPE_ACCEPT_X : Z := 87.
Definition LINX_EVENT_TYPE_SENDTO_E : Z := 88.
Definition LINX_EVENT_TYPE_SENDTO_X : Z := 89.
Definition LINX_EVENT_TYPE_RECVFROM_E : Z := 90.
Definition LINX_EVENT_TYPE_RECVFROM_X : Z := 91.
Definition LINX_EVENT_TYPE_SENDMSG_E : Z := 92.
Definition LINX_EVENT_TYPE_SENDMSG_X : Z := 93.
Definition LINX_EVENT_TYPE_RECVMSG_E : Z := 94.
Definition LINX_EVENT_TYPE_RECVMSG_X : Z := 95.
Definition LINX_EVENT_TYPE_SHUTDOWN_E : Z := 96.
Definition LINX_EVENT_TYPE_SHUTDOWN_X : Z := 97.
Definition LINX_EVENT_TYPE_BIND_E : Z := 98.
Definition LINX_EVENT_TYPE_BIND_X : Z := 99.
Definition LINX_EVENT_TYPE_LISTEN_E : Z := 100.
Definition LINX_EVENT_TYPE_LISTEN_X : Z := 101.
Definition LINX_EVENT_TYPE_GETSOCKNAME_E : Z := 102.
Definition LINX_EVENT_TYPE_GETSOCKNAME_X : Z := 103.
Definition LINX_EVENT_TYPE_GETPEERNAME_E : Z := 104.
Definition LINX_EVENT_TYPE_GETPEERNAME_X : Z := 105.
Definition LINX_EVENT_TYPE_SOCKETPAIR_E : Z := 106.
Definition LINX_EVENT_TYPE_SOCKETPAIR_X : Z := 107.
Definition LINX_EVENT_TYPE_SETSOCKOPT_E : Z := 108.
Definition LINX_EVENT_TYPE_SETSOCKOPT_X : Z := 109.
Definition LINX_EVENT_TYPE_GETSOCKOPT_E : Z := 110.
Definition LINX_EVENT_TYPE_GETSOCKOPT_X : Z := 111.
Definition LINX_EVENT_TYPE_CLONE_E : Z := 112.
Definition LINX_EVENT_TYPE_CLONE_X : Z := 113.
Definition LINX_EVENT_TYPE_FORK_E : Z := 114.
Definition LINX_EVENT_TYPE_FORK_X : Z := 115.
Definition LINX_EVENT_TYPE_VFORK_E : Z := 116.
Definition LINX_EVENT_TYPE_VFORK_X : Z := 117.
Definition LINX_EVENT_TYPE_EXECVE_E : Z := 118.
Definition LINX_EVENT_TYPE_EXECVE_X : Z := 119.
Definition LINX_EVENT_TYPE_EXIT_E : Z := 120.
Definition LINX_EVENT_TYPE_EXIT_X : Z := 121.
Definition LINX_EVENT_TYPE_WAIT4_E : Z := 122.
Definition LINX_EVENT_TYPE_WAIT4_X : Z := 123.
Definition LINX_EVENT_TYPE_KILL_E : Z := 124.
Definition LINX_EVENT_TYPE_KILL_X : Z := 125.
Definition LINX_EVENT_TYPE_UNAME_E : Z := 126.
Definition LINX_EVENT_TYPE_UNAME_X : Z := 127.
Definition LINX_EVENT_TYPE_SEMGET_E : Z := 128.
Definition LINX_EVENT_TYPE_SEMGET_X : Z := 129.
Definition LINX_EVENT_TYPE_SEMOP_E : Z := 130.
Definition LINX_EVENT_TYPE_SEMOP_X : Z := 131.
Definition LINX_EVENT_TYPE_SEMCTL_E : Z := 132.
Definition LINX_EVENT_TYPE_SEMCTL_X : Z := 133.
Definition LINX_EVENT_TYPE_SHMDT_E : Z := 134.
Definition LINX_EVENT_TYPE_SHMDT_X : Z := 135.
Definition LINX_EVENT_TYPE_MSGGET_E : Z := 136.
Definition LINX_EVENT_TYPE_MSGGET_X : Z := 137.
Definition LINX_EVENT_TYPE_MSGSND_E : Z := 138.
Definition LINX_EVENT_TYPE_MSGSND_X : Z := 139.
Definition LINX_EVENT_TYPE_MSGRCV_E : Z := 140.
Definition LINX_EVENT_TYPE_MSGRCV_X : Z := 141.
Definition LINX_EVENT_TYPE_MSGCTL_E : Z := 142.
Definition LINX_EVENT_TYPE_MSGCTL_X : Z := 143.
Definition LINX_EVENT_TYPE_FCNTL_E : Z := 144.
Definition LINX_EVENT_TYPE_FCNTL_X : Z := 145.
Definition LINX_EVENT_TYPE_FLOCK_E : Z := 146.
Definition LINX_EVENT_TYPE_FLOCK_X : Z := 147.
Definition LINX_EVENT_TYPE_FSYNC_E : Z := 148.
Definition LINX_EVENT_TYPE_FSYNC_X : Z := 149.
Definition LINX_EVENT_TYPE_FDATASYNC_E : Z := 150.
Definition LINX_EVENT_TYPE_FDATASYNC_X : Z := 151.
Definition LINX_EVENT_TYPE_TRUNCATE_E : Z := 152.
Definition LINX_EVENT_TYPE_TRUNCATE_X : Z := 153.
Definition LINX_EVENT_TYPE_FTRUNCATE_E : Z := 154.
Definition LINX_EVENT_TYPE_FTRUNCATE_X : Z := 155.
Definition LINX_EVENT_TYPE_GETDENTS_E : Z := 156.
Definition LINX_EVENT_TYPE_GETDENTS_X : Z := 157.
Definition LINX_EVENT_TYPE_GETCWD_E : Z := 158.
Definition LINX_EVENT_TYPE_GETCWD_X : Z := 159.
Definition LINX_EVENT_TYPE_CHDIR_E : Z := 160.
Definition LINX_EVENT_TYPE_CHDIR_X : Z := 161.
Definition LINX_EVENT_TYPE_FCHDIR_E : Z := 162.
Definition LINX_EVENT_TYPE_FCHDIR_X : Z := 163.
Definition LINX_EVENT_TYPE_RENAME_E : Z := 164.
Definition LINX_EVENT_TYPE_RENAME_X : Z := 165.
Definition LINX_EVENT_TYPE_MKDIR_E : Z := 166.
Definition LINX_EVENT_TYPE_MKDIR_X : Z := 167.
Definition LINX_EVENT_TYPE_RMDIR_E : Z := 168.
Definition LINX_EVENT_TYPE_RMDIR_X : Z := 169.
Definition LINX_EVENT_TYPE_CREAT_E : Z := 170.
Definition LINX_EVENT_TYPE_CREAT_X : Z := 171.
Definition LINX_EVENT_TYPE_LINK_E : Z := 172.
Definition LINX_EVENT_TYPE_LINK_X : Z := 173.
Definition LINX_EVENT_TYPE_UNLINK_E : Z := 174.
Definition LINX_EVENT_TYPE_UNLINK_X : Z := 175.
Definition LINX_EVENT_TYPE_SYMLINK_E : Z := 176.
Definition LINX_EVENT_TYPE_SYMLINK_X : Z := 177.
Definition LINX_EVENT_TYPE_READLINK_E : Z := 178.
Definition LINX_EVENT_TYPE_READLINK_X : Z := 179.
Definition LINX_EVENT_TYPE_CHMOD_E : Z := 180.
Definition LINX_EVENT_TYPE_CHMOD_X : Z := 181.
Definition LINX_EVENT_TYPE_FCHMOD_E : Z := 182.
Definition LINX_EVENT_TYPE_FCHMOD_X : Z := 183.
Definition LINX_EVENT_TYPE_CHOWN_E : Z := 184.
Definition LINX_EVENT_TYPE_CHOWN_X : Z := 185.
Definition LINX_EVENT_TYPE_FCHOWN_E : Z := 186.
Definition LINX_EVENT_TYPE_FCHOWN_X : Z := 187.
Definition LINX_EVENT_TYPE_LCHOWN_E : Z := 188.
Definition LINX_EVENT_TYPE_LCHOWN_X : Z := 189.
Definition LINX_EVENT_TYPE_UMASK_E : Z := 190.
Definition LINX_EVENT_TYPE_UMASK_X : Z := 191.
Definition LINX_EVENT_TYPE_GETTIMEOFDAY_E : Z := 192.
Definition LINX_EVENT_TYPE_GETTIMEOFDAY_X : Z := 193.
Definition LINX_EVENT_TYPE_GETRLIMIT_E : Z := 194.
Definition LINX_EVENT_TYPE_GETRLIMIT_X : Z := 195.
Definition LINX_EVENT_TYPE_GETRUSAGE_E : Z := 196.
Definition LINX_EVENT_TYPE_GETRUSAGE_X : Z := 197.
Definition LINX_EVENT_TYPE_SYSINFO_E : Z := 198.
Definition LINX_EVENT_TYPE_SYSINFO_X : Z := 199.
Definition LINX_EVENT_TYPE_TIMES_E : Z := 200.
Definition LINX_EVENT_TYPE_TIMES_X : Z := 201.
Definition LINX_EVENT_TYPE_PTRACE_E : Z := 202.
Definition LINX_EVENT_TYPE_PTRACE_X : Z := 203.
Definition LINX_EVENT_TYPE_GETUID_E : Z := 204.
Definition LINX_EVENT_TYPE_GETUID_X : Z := 205.
Definition LINX_EVENT_TYPE_SYSLOG_E : Z := 206.
Definition LINX_EVENT_TYPE_SYSLOG_X : Z := 207.
Definition LINX_EVENT_TYPE_GETGID_E : Z := 208.
Definition LINX_EVENT_TYPE_GETGID_X : Z := 209.
Definition LINX_EVENT_TYPE_SETUID_E : Z := 210.
Definition LINX_EVENT_TYPE_SETUID_X : Z := 211.
Definition LINX_EVENT_TYPE_SETGID_E : Z := 212.
Definition LINX_EVENT_TYPE_SETGID_X : Z := 213.
Definition LINX_EVENT_TYPE_GETEUID_E : Z := 214.
Definition LINX_EVENT_TYPE_GETEUID_X : Z := 215.
Definition LINX_EVENT_TYPE_GETEGID_E : Z := 216.
Definition LINX_EVENT_TYPE_GETEGID_X : Z := 217.
Definition LINX_EVENT_TYPE_SETPGID_E : Z := 218.
Definition LINX_EVENT_TYPE_SETPGID_X : Z := 219.
Definition LINX_EVENT_TYPE_GETPPID_E : Z := 220.
Definition LINX_EVENT_TYPE_GETPPID_X : Z := 221.
Definition LINX_EVENT_TYPE_GETPGRP_E : Z := 222.
Definition LINX_EVENT_TYPE_GETPGRP_X : Z := 223.
Definition LINX_EVENT_TYPE_SETSID_E : Z := 224.
Definition LINX_EVENT_TYPE_SETSID_X : Z := 225.
Definition LINX_EVENT_TYPE_SETREUID_E : Z := 226.
Definition LINX_EVENT_TYPE_SETREUID_X : Z := 227.
Definition LINX_EVENT_TYPE_SETREGID_E : Z := 228.
Definition LINX_EVENT_TYPE_SETREGID_X : Z := 229.
Definition LINX_EVENT_TYPE_GETGROUPS_E : Z := 230.
Definition LINX_EVENT_TYPE_GETGROUPS_X : Z := 231.
Definition LINX_EVENT_TYPE_SETGROUPS_E : Z := 232.
Definition LINX_EVENT_TYPE_SETGROUPS_X : Z := 233.
Definition LINX_EVENT_TYPE_SETRESUID_E : Z := 234.
Definition LINX_EVENT_TYPE_SETRESUID_X : Z := 235.
Definition LINX_EVENT_TYPE_GETRESUID_E : Z := 236.
Definition LINX_EVENT_TYPE_GETRESUID_X : Z := 237.
Definition LINX_EVENT_TYPE_SETRESGID_E : Z := 238.
Definition LINX_EVENT_TYPE_SETRESGID_X : Z := 239.
Definition LINX_EVENT_TYPE_GETRESGID_E : Z := 240.
Definition LINX_EVENT_TYPE_GETRESGID_X : Z := 241.
Definition LINX_EVENT_TYPE_GETPGID_E : Z := 242.
Definition LINX_EVENT_TYPE_GETPGID_X : Z := 243.
Definition LINX_EVENT_TYPE_SETFSUID_E : Z := 244.
Definition LINX_EVENT_TYPE_SETFSUID_X : Z := 245.
Definition LINX_EVENT_TYPE_SETFSGID_E : Z := 246.
Definition LINX_EVENT_TYPE_SETFSGID_X : Z := 247.
Definition LINX_EVENT_TYPE_GETSID_E : Z := 248.
Definition LINX_EVENT_TYPE_GETSID_X : Z := 249.
Definition LINX_EVENT_TYPE_CAPGET_E : Z := 250.
Definition LINX_EVENT_TYPE_CAPGET_X : Z := 251.
Definition LINX_EVENT_TYPE_CAPSET_E : Z := 252.
Definition LINX_EVENT_TYPE_CAPSET_X : Z := 253.
Definition LINX_EVENT_TYPE_RT_SIGPENDING_E : Z := 254.
Definition LINX_EVENT_TYPE_RT_SIGPENDING_X : Z := 255.
Definition LINX_EVENT_TYPE_RT_SIGTIMEDWAIT_E : Z := 256.
Definition LINX_EVENT_TYPE_RT_SIGTIMEDWAIT_X : Z := 257.
Definition LINX_EVENT_TYPE_RT_SIGQUEUEINFO_E : Z := 258.
Definition LINX_EVENT_TYPE_RT_SIGQUEUEINFO_X : Z := 259.
Definition LINX_EVENT_TYPE_RT_SIGSUSPEND_E : Z := 260.
Definition LINX_EVENT_TYPE_RT_SIGSUSPEND_X : Z := 261.
Definition LINX_EVENT_TYPE_SIGALTSTACK_E : Z := 262.
Definition LINX_EVENT_TYPE_SIGALTSTACK_X : Z := 263.
Definition LINX_EVENT_TYPE_UTIME_E : Z := 264.
Definition LINX_EVENT_TYPE_UTIME_X : Z := 265.
Definition LINX_EVENT_TYPE_MKNOD_E : Z := 266.
Definition LINX_EVENT_TYPE_MKNOD_X : Z := 267.
Definition LINX_EVENT_TYPE_USELIB_E : Z := 268.
Definition LINX_EVENT_TYPE_USELIB_X : Z := 269.
Definition LINX_EVENT_TYPE_PERSONALITY_E : Z := 270.
Definition LINX_EVENT_TYPE_PERSONALITY_X : Z := 271.
Definition LINX_EVENT_TYPE_USTAT_E : Z := 272.
Definition LINX_EVENT_TYPE_USTAT_X : Z := 273.
Definition LINX_EVENT_TYPE_STATFS_E : Z := 274.
Definition LINX_EVENT_TYPE_STATFS_X : Z := 275.
Definition LINX_EVENT_TYPE_FSTATFS_E : Z := 276.
Definition LINX_EVENT_TYPE_FSTATFS_X : Z := 277.
Definition LINX_EVENT_TYPE_SYSFS_E : Z := 278.
Definition LINX_EVENT_TYPE_SYSFS_X : Z := 279.
Definition LINX_EVENT_TYPE_GETPRIORITY_E : Z := 280.
Definition LINX_EVENT_TYPE_GETPRIORITY_X : Z := 281.
Definition LINX_EVENT_TYPE_SETPRIORITY_E : Z := 282.
Definition LINX_EVENT_TYPE_SETPRIORITY_X : Z := 283.
Definition LINX_EVENT_TYPE_SCHED_SETPARAM_E : Z := 284.
Definition LINX_EVENT_TYPE_SCHED_SETPARAM_X : Z := 285.
Definition LINX_EVENT_TYPE_SCHED_GETPARAM_E : Z := 286.
Definition LINX_EVENT_TYPE_SCHED_GETPARAM_X : Z := 287.
Definition LINX_EVENT_TYPE_SCHED_SETSCHEDULER_E : Z := 288.
Definition LINX_EVENT_TYPE_SCHED_SETSCHEDULER_X : Z := 289.
Definition LINX_EVENT_TYPE_SCHED_GETSCHEDULER_E : Z := 290.
Definition LINX_EVENT_TYPE_SCHED_GETSCHEDULER_X : Z := 291.
Definition LINX_EVENT_TYPE_SCHED_GET_PRIORITY_MAX_E : Z := 292.
Definition LINX_EVENT_TYPE_SCHED_GET_PRIORITY_MAX_X : Z := 293.
Definition LINX_EVENT_TYPE_SCHED_GET_PRIORITY_MIN_E : Z := 294.
Definition LINX_EVENT_TYPE_SCHED_GET_PRIORITY_MIN_X : Z := 295.
Definition LINX_EVENT_TYPE_SCHED_RR_GET_INTERVAL_E : Z := 296.
Definition LINX_EVENT_TYPE_SCHED_RR_GET_INTERVAL_X : Z := 297.
Definition LINX_EVENT_TYPE_MLOCK_E : Z := 298.
Definition LINX_EVENT_TYPE_MLOCK_X : Z := 299.
Definition LINX_EVENT_TYPE_MUNLOCK_E : Z := 300.
Definition LINX_EVENT_TYPE_MUNLOCK_X : Z := 301.
Definition LINX_EVENT_TYPE_MLOCKALL_E : Z := 302.
Definition LINX_EVENT_TYPE_MLOCKALL_X : Z := 303.
Definition LINX_EVENT_TYPE_MUNLOCKALL_E : Z := 304.
Definition LINX_EVENT_TYPE_MUNLOCKALL_X : Z := 305.
Definition LINX_EVENT_TYPE_VHANGUP_E : Z := 306.
Definition LINX_EVENT_TYPE_VHANGUP_X : Z := 307.
Definition LINX_EVENT_TYPE_MODIFY_LDT_E : Z := 308.
Definition LINX_EVENT_TYPE_MODIFY_LDT_X : Z := 309.
Definition LINX_EVENT_TYPE_PIVOT_ROOT_E : Z := 310.
Definition LINX_EVENT_TYPE_PIVOT_ROOT_X : Z := 311.
Definition LINX_EVENT_TYPE__SYSCTL_E : Z := 312.
Definition LINX_EVENT_TYPE__SYSCTL_X : Z := 313.
Definition LINX_EVENT_TYPE_PRCTL_E : Z := 314.
Definition LINX_EVENT_TYPE_PRCTL_X : Z := 315.
Definition LINX_EVENT_TYPE_ARCH_PRCTL_E : Z := 316.
Definition LINX_EVENT_TYPE_ARCH_PRCTL_X : Z := 317.
Definition LINX_EVENT_TYPE_ADJTIMEX_E : Z := 318.
Definition LINX_EVENT_TYPE_ADJTIMEX_X : Z := 319.
Definition LINX_EVENT_TYPE_SETRLIMIT_E : Z := 320.
Definition LINX_EVENT_TYPE_SETRLIMIT_X : Z := 321.
Definition LINX_EVENT_TYPE_CHROOT_E : Z := 322.
Definition LINX_EVENT_TYPE_CHROOT_X : Z := 323.
Definition LINX_EVENT_TYPE_SYNC_E : Z := 324.
Definition LINX_EVENT_TYPE_SYNC_X : Z := 325.
Definition LINX_EVENT_TYPE_ACCT_E : Z := 326.
Definition LINX_EVENT_TYPE_ACCT_X : Z := 327.
Definition LINX_EVENT_TYPE_SETTIMEOFDAY_E : Z := 328.
Definition LINX_EVENT_TYPE_SETTIMEOFDAY_X : Z := 329.
Definition LINX_EVENT_TYPE_MOUNT_E : Z := 330.
Definition LINX_EVENT_TYPE_MOUNT_X : Z := 331.
Definition LINX_EVENT_TYPE_UMOUNT2_E : Z := 332.
Definition LINX_EVENT_TYPE_UMOUNT2_X : Z := 333.
Definition LINX_EVENT_TYPE_SWAPON_E : Z := 334.
Definition LINX_EVENT_TYPE_SWAPON_X : Z := 335.
Definition LINX_EVENT_TYPE_SWAPOFF_E : Z := 336.
Definition LINX_EVENT_TYPE_SWAPOFF_X : Z := 337.
Definition LINX_EVENT_TYPE_REBOOT_E : Z := 338.
Definition LINX_EVENT_TYPE_REBOOT_X : Z := 339.
Definition LINX_EVENT_TYPE_SETHOSTNAME_E : Z := 340.
Definition LINX_EVENT_TYPE_SETHOSTNAME_X : Z := 341.
Definition LINX_EVENT_TYPE_SETDOMAINNAME_E : Z := 342.
Definition LINX_EVENT_TYPE_SETDOMAINNAME_X : Z := 343.
Definition LINX_EVENT_TYPE_IOPL_E : Z := 344.
Definition LINX_EVENT_TYPE_IOPL_X : Z := 345.
Definition LINX_EVENT_TYPE_IOPERM_E : Z := 346.
Definition LINX_EVENT_TYPE_IOPERM_X : Z := 347.
Definition LINX_EVENT_TYPE_CREATE_MODULE_E : Z := 348.
Definition LINX_EVENT_TYPE_CREATE_MODULE_X : Z := 349.
Definition LINX_EVENT_TYPE_INIT_MODULE_E : Z := 350.
Definition LINX_EVENT_TYPE_INIT_MODULE_X : Z := 351.
Definition LINX_EVENT_TYPE_DELETE_MODULE_E : Z := 352.
Definition LINX_EVENT_TYPE_DELETE_MODULE_X : Z := 353.
Definition LINX_EVENT_TYPE_GET_KERNEL_SYMS_E : Z := 354.
Definition LINX_EVENT_TYPE_GET_KERNEL_SYMS_X : Z := 355.
Definition LINX_EVENT_TYPE_QUERY_MODULE_E : Z := 356.
Definition LINX_EVENT_TYPE_QUERY_MODULE_X : Z := 357.
Definition LINX_EVENT_TYPE_QUOTACTL_E : Z := 358.
Definition LINX_EVENT_TYPE_QUOTACTL_X : Z := 359.
Definition LINX_EVENT_TYPE_NFSSERVCTL_E : Z := 360.
Definition LINX_EVENT_TYPE_NFSSERVCTL_X : Z := 361.
Definition LINX_EVENT_TYPE_GETTID_E : Z := 372.
Definition LINX_EVENT_TYPE_GETTID_X : Z := 373.
Definition LINX_EVENT_TYPE_READAHEAD_E : Z := 374.
Definition LINX_EVENT_TYPE_READAHEAD_X : Z := 375.
Definition LINX_EVENT_TYPE_SETXATTR_E : Z := 376.
Definition LINX_EVENT_TYPE_SETXATTR_X : Z := 377.
Definition LINX_EVENT_TYPE_LSETXATTR_E : Z := 378.
Definition LINX_EVENT_TYPE_LSETXATTR_X : Z := 379.
Definition LINX_EVENT_TYPE_FSETXATTR_E : Z := 380.
Definition LINX_EVENT_TYPE_FSETXATTR_X : Z := 381.
Definition LINX_EVENT_TYPE_GETXATTR_E : Z := 382.
Definition LINX_EVENT_TYPE_GETXATTR_X : Z := 383.
Definition LINX_EVENT_TYPE_LGETXATTR_E : Z := 384.
Definition LINX_EVENT_TYPE_LGETXATTR_X : Z := 385.
Definition LINX_EVENT_TYPE_FGETXATTR_E : Z := 386.
Definition LINX_EVENT_TYPE_FGETXATTR_X : Z := 387.
Definition LINX_EVENT_TYPE_LISTXATTR_E : Z := 388.
Definition LINX_EVENT_TYPE_LISTXATTR_X : Z := 389.
Definition LINX_EVENT_TYPE_LLISTXATTR_E : Z := 390.
Definition LINX_EVENT_TYPE_LLISTXATTR_X : Z := 391.
Definition LINX_EVENT_TYPE_FLISTXATTR_E : Z := 392.
Definition LINX_EVENT_TYPE_FLISTXATTR_X : Z := 393.
Definition LINX_EVENT_TYPE_REMOVEXATTR_E : Z := 394.
Definition LINX_EVENT_TYPE_REMOVEXATTR_X : Z := 395.
Definition LINX_EVENT_TYPE_LREMOVEXATTR_E : Z := 396.
Definition LINX_EVENT_TYPE_LREMOVEXATTR_X : Z := 397.
Definition LINX_EVENT_TYPE_FREMOVEXATTR_E : Z := 398.
Definition LINX_EVENT_TYPE_FREMOVEXATTR_X : Z := 399.
Definition LINX_EVENT_TYPE_TKILL_E : Z := 400.
Definition LINX_EVENT_TYPE_TKILL_X : Z := 401.
Definition LINX_EVENT_TYPE_TIME_E : Z := 402.
Definition LINX_EVENT_TYPE_TIME_X : Z := 403.
Definition LINX_EVENT_TYPE_FUTEX_E : Z := 404.
Definition LINX_EVENT_TYPE_FUTEX_X : Z := 405.
Definition LINX_EVENT_TYPE_SCHED_SETAFFINITY_E : Z := 406.
Definition LINX_EVENT_TYPE_SCHED_SETAFFINITY_X : Z := 407.
Definition LINX_EVENT_TYPE_SCHED_GETAFFINITY_E : Z := 408.
Definition LINX_EVENT_TYPE_SCHED_GETAFFINITY_X : Z := 409.
Definition LINX_EVENT_TYPE_SET_THREAD_AREA_E : Z := 410.
Definition LINX_EVENT_TYPE_SET_THREAD_AREA_X : Z := 411.
Definition LINX_EVENT_TYPE_IO_SETUP_E : Z := 412.
Definition LINX_EVENT_TYPE_IO_SETUP_X : Z := 413.
Definition LINX_EVENT_TYPE_IO_DESTROY_E : Z := 414.
Definition LINX_EVENT_TYPE_IO_DESTROY_X : Z := 415.
Definition LINX_EVENT_TYPE_IO_GETEVENTS_E : Z := 416.
Definition LINX_EVENT_TYPE_IO_GETEVENTS_X : Z := 417.
Definition LINX_EVENT_TYPE_IO_SUBMIT_E : Z := 418.
Definition LINX_EVENT_TYPE_IO_SUBMIT_X : Z := 419.
Definition LINX_EVENT_TYPE_IO_CANCEL_E : Z := 420.
Definition LINX_EVENT_TYPE_IO_CANCEL_X : Z := 421.
Definition LINX_EVENT_TYPE_GET_THREAD_AREA_E : Z := 422.
Definition LINX_EVENT_TYPE_GET_THREAD_AREA_X : Z := 423.
Definition LINX_EVENT_TYPE_LOOKUP_DCOOKIE_E : Z := 424.
Definition LINX_EVENT_TYPE_LOOKUP_DCOOKIE_X : Z := 425.
Definition LINX_EVENT_TYPE_EPOLL_CREATE_E : Z := 426.
Definition LINX_EVENT_TYPE_EPOLL_CREATE_X : Z := 427.
Definition LINX_EVENT_TYPE_REMAP_FILE_PAGES_E : Z := 432.
Definition LINX_EVENT_TYPE_REMAP_FILE_PAGES_X : Z := 433.
Definition LINX_EVENT_TYPE_GETDENTS64_E : Z := 434.
Definition LINX_EVENT_TYPE_GETDENTS64_X : Z := 435.
Definition LINX_EVENT_TYPE_SET_TID_ADDRESS_E : Z := 436.
Definition LINX_EVENT_TYPE_SET_TID_ADDRESS_X : Z := 437.
Definition LINX_EVENT_TYPE_RESTART_SYSCALL_E : Z := 438.
Definition LINX_EVENT_TYPE_RESTART_SYSCALL_X : Z := 439.
Definition LINX_EVENT_TYPE_SEMTIMEDOP_E : Z := 440.
Definition LINX_EVENT_TYPE_SEMTIMEDOP_X : Z := 441.
Definition LINX_EVENT_TYPE_FADVISE64_E : Z := 442.
Definition LINX_EVENT_TYPE_FADVISE64_X : Z := 443.
Definition LINX_EVENT_TYPE_TIMER_CREATE_E : Z := 444.
Definition LINX_EVENT_TYPE_TIMER_CREATE_X : Z := 445.
Definition LINX_EVENT_TYPE_TIMER_SETTIME_E : Z := 446.
Definition LINX_EVENT_TYPE_TIMER_SETTIME_X : Z := 447.
Definition LINX_EVENT_TYPE_TIMER_GETTIME_E : Z := 448.
Definition LINX_EVENT_TYPE_TIMER_GETTIME_X : Z := 449.
Definition LINX_EVENT_TYPE_TIMER_GETOVERRUN_E : Z := 450.
Definition LINX_EVENT_TYPE_TIMER_GETOVERRUN_X : Z := 451.
Definition LINX_EVENT_TYPE_TIMER_DELETE_E : Z := 452.
Definition LINX_EVENT_TYPE_TIMER_DELETE_X : Z := 453.
Definition LINX_EVENT_TYPE_CLOCK_SETTIME_E : Z := 454.
Definition LINX_EVENT_TYPE_CLOCK_SETTIME_X : Z := 455.
Definition LINX_EVENT_TYPE_CLOCK_GETTIME_E : Z := 456.
Definition LINX_EVENT_TYPE_CLOCK_GETTIME_X : Z := 457.
Definition LINX_EVENT_TYPE_CLOCK_GETRES_E : Z := 458.
Definition LINX_EVENT_TYPE_CLOCK_GETRES_X : Z := 459.
Definition LINX_EVENT_TYPE_CLOCK_NANOSLEEP_E : Z := 460.
Definition LINX_EVENT_TYPE_CLOCK_NANOSLEEP_X : Z := 461.
Definition LINX_EVENT_TYPE_EXIT_GROUP_E : Z := 462.
Definition LINX_EVENT_TYPE_EXIT_GROUP_X : Z := 463.
Definition LINX_EVENT_TYPE_EPOLL_WAIT_E : Z := 464.
Definition LINX_EVENT_TYPE_EPOLL_WAIT_X : Z := 465.
Definition LINX_EVENT_TYPE_EPOLL_CTL_E : Z := 466.
Definition LINX_EVENT_TYPE_EPOLL_CTL_X : Z := 467.
Definition LINX_EVENT_TYPE_TGKILL_E : Z := 468.
Definition LINX_EVENT_TYPE_TGKILL_X : Z := 469.
Definition LINX_EVENT_TYPE_UTIMES_E : Z := 470.
Definition LINX_EVENT_TYPE_UTIMES_X : Z := 471.
Definition LINX_EVENT_TYPE_MBIND_E : Z := 474.
Definition LINX_EVENT_TYPE_MBIND_X : Z := 475.
Definition LINX_EVENT_TYPE_SET_MEMPOLICY_E : Z := 476.
Definition LINX_EVENT_TYPE_SET_MEMPOLICY_X : Z := 477.
Definition LINX_EVENT_TYPE_GET_MEMPOLICY_E : Z := 478.
Definition LINX_EVENT_TYPE_GET_MEMPOLICY_X : Z := 479.
Definition LINX_EVENT_TYPE_MQ_OPEN_E : Z := 480.
Definition LINX_EVENT_TYPE_MQ_OPEN_X : Z := 481.
Definition LINX_EVENT_TYPE_MQ_UNLINK_E : Z := 482.
Definition LINX_EVENT_TYPE_MQ_UNLINK_X : Z := 483.
Definition LINX_EVENT_TYPE_MQ_TIMEDSEND_E : Z := 484.
Definition LINX_EVENT_TYPE_MQ_TIMEDSEND_X : Z := 485.
Definition LINX_EVENT_TYPE_MQ_TIMEDRECEIVE_E : Z := 486.
Definition LINX_EVENT_TYPE_MQ_TIMEDRECEIVE_X : Z := 487.
Definition LINX_EVENT_TYPE_MQ_NOTIFY_E : Z := 488.
Definition LINX_EVENT_TYPE_MQ_NOTIFY_X : Z := 489.
Definition LINX_EVENT_TYPE_MQ_GETSETATTR_E : Z := 490.
Definition LINX_EVENT_TYPE_MQ_GETSETATTR_X : Z := 491.
Definition LINX_EVENT_TYPE_KEXEC_LOAD_E : Z := 492.
Definition LINX_EVENT_TYPE_KEXEC_LOAD_X : Z := 493.
Definition LINX_EVENT_TYPE_WAITID_E : Z := 494.
Definition LINX_EVENT_TYPE_WAITID_X : Z := 495.
Definition LINX_EVENT_TYPE_ADD_KEY_E : Z := 496.
Definition LINX_EVENT_TYPE_ADD_KEY_X : Z := 497.
Definition LINX_EVENT_TYPE_REQUEST_KEY_E : Z := 498.
Definition LINX_EVENT_TYPE_REQUEST_KEY_X : Z := 499.
Definition LINX_EVENT_TYPE_KEYCTL_E : Z := 500.
Definition LINX_EVENT_TYPE_KEYCTL_X : Z := 501.
Definition LINX_EVENT_TYPE_IOPRIO_SET_E : Z := 502.
Definition LINX_EVENT_TYPE_IOPRIO_SET_X : Z := 503.
Definition LINX_EVENT_TYPE_IOPRIO_GET_E : Z := 504.
Definition LINX_EVENT_TYPE_IOPRIO_GET_X : Z := 505.
Definition LINX_EVENT_TYPE_INOTIFY_INIT_E : Z := 506.
Definition LINX_EVENT_TYPE_INOTIFY_INIT_X : Z := 507.
Definition LINX_EVENT_TYPE_INOTIFY_ADD_WATCH_E : Z := 508.
Definition LINX_EVENT_TYPE_INOTIFY_ADD_WATCH_X : Z := 509.
Definition LINX_EVENT_TYPE_INOTIFY_RM_WATCH_E : Z := 510.
Definition LINX_EVENT_TYPE_INOTIFY_RM_WATCH_X : Z := 511.
Definition LINX_EVENT_TYPE_MIGRATE_PAGES_E : Z := 512.
Definition LINX_EVENT_TYPE_MIGRATE_PAGES_X : Z := 513.
Definition LINX_EVENT_TYPE_OPENAT_E : Z := 514.
Definition LINX_EVENT_TYPE_OPENAT_X : Z := 515.
Definition LINX_EVENT_TYPE_MKDIRAT_E : Z := 516.
Definition LINX_EVENT_TYPE_MKDIRAT_X : Z := 517.
Definition LINX_EVENT_TYPE_MKNODAT_E : Z := 518.
Definition LINX_EVENT_TYPE_MKNODAT_X : Z := 519.
Definition LINX_EVENT_TYPE_FCHOWNAT_E : Z := 520.
Definition LINX_EVENT_TYPE_FCHOWNAT_X : Z := 521.
Definition LINX_EVENT_TYPE_FUTIMESAT_E : Z := 522.
Definition LINX_EVENT_TYPE_FUTIMESAT_X : Z := 523.
Definition LINX_EVENT_TYPE_NEWFSTATAT_E : Z := 524.
Definition LINX_EVENT_TYPE_NEWFSTATAT_X : Z := 525.
Definition LINX_EVENT_TYPE_UNLINKAT_E : Z := 526.
Definition LINX_EVENT_TYPE_UNLINKAT_X : Z := 527.
Definition LINX_EVENT_TYPE_RENAMEAT_E : Z := 528.
Definition LINX_EVENT_TYPE_RENAMEAT_X : Z := 529.
Definition LINX_EVENT_TYPE_LINKAT_E : Z := 530.
Definition LINX_EVENT_TYPE_LINKAT_X : Z := 531.
Definition LINX_EVENT_TYPE_SYMLINKAT_E : Z := 532.
Definition LINX_EVENT_TYPE_SYMLINKAT_X : Z := 533.
Definition LINX_EVENT_TYPE_READLINKAT_E : Z := 534.
Definition LINX_EVENT_TYPE_READLINKAT_X : Z := 535.
Definition LINX_EVENT_TYPE_FCHMODAT_E : Z := 536.
Definition LINX_EVENT_TYPE_FCHMODAT_X : Z := 537.
Definition LINX_EVENT_TYPE_FACCESSAT_E : Z := 538.
Definition LINX_EVENT_TYPE_FACCESSAT_X : Z := 539.
Definition LINX_EVENT_TYPE_PSELECT6_E : Z := 540.
Definition LINX_EVENT_TYPE_PSELECT6_X : Z := 541.
Definition LINX_EVENT_TYPE_PPOLL_E : Z := 542.
Definition LINX_EVENT_TYPE_PPOLL_X : Z := 543.
Definition LINX_EVENT_TYPE_UNSHARE_E : Z := 544.
Definition LINX_EVENT_TYPE_UNSHARE_X : Z := 545.
Definition LINX_EVENT_TYPE_SET_ROBUST_LIST_E : Z := 546.
Definition LINX_EVENT_TYPE_SET_ROBUST_LIST_X : Z := 547.
Definition LINX_EVENT_TYPE_GET_ROBUST_LIST_E : Z := 548.
Definition LINX_EVENT_TYPE_GET_ROBUST_LIST_X : Z := 549.
Definition LINX_EVENT_TYPE_SPLICE_E : Z := 550.
Definition LINX_EVENT_TYPE_SPLICE_X : Z := 551.
Definition LINX_EVENT_TYPE_TEE_E : Z := 552.
Definition LINX_EVENT_TYPE_TEE_X : Z := 553.
Definition LINX_EVENT_TYPE_SYNC_FILE_RANGE_E : Z := 554.
Definition LINX_EVENT_TYPE_SYNC_FILE_RANGE_X : Z := 555.
Definition LINX_EVENT_TYPE_VMSPLICE_E : Z := 556.
Definition LINX_EVENT_TYPE_VMSPLICE_X : Z := 557.
Definition LINX_EVENT_TYPE_MOVE_PAGES_E : Z := 558.
Definition LINX_EVENT_TYPE_MOVE_PAGES_X : Z := 559.
Definition LINX_EVENT_TYPE_UTIMENSAT_E : Z := 560.
Definition LINX_EVENT_TYPE_UTIMENSAT_X : Z := 561.
Definition LINX_EVENT_TYPE_EPOLL_PWAIT_E : Z := 562.
Definition LINX_EVENT_TYPE_EPOLL_PWAIT_X : Z := 563.
Definition LINX_EVENT_TYPE_SIGNALFD_E : Z := 564.
Definition LINX_EVENT_TYPE_SIGNALFD_X : Z := 565.
Definition LINX_EVENT_TYPE_TIMERFD_CREATE_E : Z := 566.
Definition LINX_EVENT_TYPE_TIMERFD_CREATE_X : Z := 567.
Definition LINX_EVENT_TYPE_EVENTFD_E : Z := 568.
Definition LINX_EVENT_TYPE_EVENTFD_X : Z := 569.
Definition LINX_EVENT_TYPE_FALLOCATE_E : Z := 570.
Definition LINX_EVENT_TYPE_FALLOCATE_X : Z := 571.
Definition LINX_EVENT_TYPE_TIMERFD_SETTIME_E : Z := 572.
Definition LINX_EVENT_TYPE_TIMERFD_SETTIME_X : Z := 573.
Definition LINX_EVENT_TYPE_TIMERFD_GETTIME_E : Z := 574.
Definition LINX_EVENT_TYPE_TIMERFD_GETTIME_X : Z := 575.
Definition LINX_EVENT_TYPE_ACCEPT4_E : Z := 576.
Definition LINX_EVENT_TYPE_ACCEPT4_X : Z := 577.
Definition LINX_EVENT_TYPE_SIGNALFD4_E : Z := 578.
Definition LINX_EVENT_TYPE_SIGNALFD4_X : Z := 579.
Definition LINX_EVENT_TYPE_EVENTFD2_E : Z := 580.
Definition LINX_EVENT_TYPE_EVENTFD2_X : Z := 581.
Definition LINX_EVENT_TYPE_EPOLL_CREATE1_E : Z := 582.
Definition LINX_EVENT_TYPE_EPOLL_CREATE1_X : Z := 583.
Definition LINX_EVENT_TYPE_DUP3_E : Z := 584.
Definition LINX_EVENT_TYPE_DUP3_X : Z := 585.
Definition LINX_EVENT_TYPE_PIPE2_E : Z := 586.
Definition LINX_EVENT_TYPE_PIPE2_X : Z := 587.
Definition LINX_EVENT_TYPE_INOTIFY_INIT1_E : Z := 588.
Definition LINX_EVENT_TYPE_INOTIFY_INIT1_X : Z := 589.
Definition LINX_EVENT_TYPE_PREADV_E : Z := 590.
Definition LINX_EVENT_TYPE_PREADV_X : Z := 591.
Definition LINX_EVENT_TYPE_PWRITEV_E : Z := 592.
Definition LINX_EVENT_TYPE_PWRITEV_X : Z := 593.
Definition LINX_EVENT_TYPE_RT_TGSIGQUEUEINFO_E : Z := 594.
Definition LINX_EVENT_TYPE_RT_TGSIGQUEUEINFO_X : Z := 595.
Definition LINX_EVENT_TYPE_PERF_EVENT_OPEN_E : Z := 596.
Definition LINX_EVENT_TYPE_PERF_EVENT_OPEN_X : Z := 597.
Definition LINX_EVENT_TYPE_RECVMMSG_E : Z := 598.
Definition LINX_EVENT_TYPE_RECVMMSG_X : Z := 599.
Definition LINX_EVENT_TYPE_FANOTIFY_INIT_E : Z := 600.
Definition LINX_EVENT_TYPE_FANOTIFY_INIT_X : Z := 601.
Definition LINX_EVENT_TYPE_FANOTIFY_MARK_E : Z := 602.
Definition LINX_EVENT_TYPE_FANOTIFY_MARK_X : Z := 603.
Definition LINX_EVENT_TYPE_PRLIMIT64_E : Z := 604.
Definition LINX_EVENT_TYPE_PRLIMIT64_X : Z := 605.
Definition LINX_EVENT_TYPE_NAME_TO_HANDLE_AT_E : Z := 606.
Definition LINX_EVENT_TYPE_NAME_TO_HANDLE_AT_X : Z := 607.
Definition LINX_EVENT_TYPE_OPEN_BY_HANDLE_AT_E : Z := 608.
Definition LINX_EVENT_TYPE_OPEN_BY_HANDLE_AT_X : Z := 609.
Definition LINX_EVENT_TYPE_CLOCK_ADJTIME_E : Z := 610.
Definition LINX_EVENT_TYPE_CLOCK_ADJTIME_X : Z := 611.
Definition LINX_EVENT_TYPE_SYNCFS_E : Z := 612.
Definition LINX_EVENT_TYPE_SYNCFS_X : Z := 613.
Definition LINX_EVENT_TYPE_SENDMMSG_E : Z := 614.
Definition LINX_EVENT_TYPE_SENDMMSG_X : Z := 615.
Definition LINX_EVENT_TYPE_SETNS_E : Z := 616.
Definition LINX_EVENT_TYPE_SETNS_X : Z := 617.
Definition LINX_EVENT_TYPE_GETCPU_E : Z := 618.
Definition LINX_EVENT_TYPE_GETCPU_X : Z := 619.
Definition LINX_EVENT_TYPE_PROCESS_VM_READV_E : Z := 620.
Definition LINX_EVENT_TYPE_PROCESS_VM_READV_X : Z := 621.
Definition LINX_EVENT_TYPE_PROCESS_VM_WRITEV_E : Z := 622.
Definition LINX_EVENT_TYPE_PROCESS_VM_WRITEV_X : Z := 623.
Definition LINX_EVENT_TYPE_KCMP_E : Z := 624.
Definition LINX_EVENT_TYPE_KCMP_X : Z := 625.
Definition LINX_EVENT_TYPE_FINIT_MODULE_E : Z := 626.
Definition LINX_EVENT_TYPE_FINIT_MODULE_X : Z := 627.
Definition LINX_EVENT_TYPE_SCHED_SETATTR_E : Z := 628.
Definition LINX_EVENT_TYPE_SCHED_SETATTR_X : Z := 629.
Definition LINX_EVENT_TYPE_SCHED_GETATTR_E : Z := 630.
Definition LINX_EVENT_TYPE_SCHED_GETATTR_X : Z := 631.
Definition LINX_EVENT_TYPE_RENAMEAT2_E : Z := 632.
Definition LINX_EVENT_TYPE_RENAMEAT2_X : Z := 633.
Definition LINX_EVENT_TYPE_SECCOMP_E : Z := 634.
Definition LINX_EVENT_TYPE_SECCOMP_X : Z := 635.
Definition LINX_EVENT_TYPE_GETRANDOM_E : Z := 636.
Definition LINX_EVENT_TYPE_GETRANDOM_X : Z := 637.
Definition LINX_EVENT_TYPE_MEMFD_CREATE_E : Z := 638.
Definition LINX_EVENT_TYPE_MEMFD_CREATE_X : Z := 639.
Definition LINX_EVENT_TYPE_KEXEC_FILE_LOAD_E : Z := 640.
Definition LINX_EVENT_TYPE_KEXEC_FILE_LOAD_X : Z := 641.
Definition LINX_EVENT_TYPE_BPF_E : Z := 642.
Definition LINX_EVENT_TYPE_BPF_X : Z := 643.
Definition LINX_EVENT_TYPE_EXECVEAT_E : Z := 644.
Definition LINX_EVENT_TYPE_EXECVEAT_X : Z := 645.
Definition LINX_EVENT_TYPE_USERFAULTFD_E : Z := 646.
Definition LINX_EVENT_TYPE_USERFAULTFD_X : Z := 647.
Definition LINX_EVENT_TYPE_MEMBARRIER_E : Z := 648.
Definition LINX_EVENT_TYPE_MEMBARRIER_X : Z := 649.
Definition LINX_EVENT_TYPE_MLOCK2_E : Z := 650.
Definition LINX_EVENT_TYPE_MLOCK2_X : Z := 651.
Definition LINX_EVENT_TYPE_COPY_FILE_RANGE_E : Z := 652.
Definition LINX_EVENT_TYPE_COPY_FILE_RANGE_X : Z := 653.
Definition LINX_EVENT_TYPE_PREADV2_E : Z := 654.
Definition LINX_EVENT_TYPE_PREADV2_X : Z := 655.
Definition LINX_EVENT_TYPE_PWRITEV2_E : Z := 656.
Definition LINX_EVENT_TYPE_PWRITEV2_X : Z := 657.
Definition LINX_EVENT_TYPE_PKEY_MPROTECT_E : Z := 658.
Definition LINX_EVENT_TYPE_PKEY_MPROTECT_X : Z := 659.
Definition LINX_EVENT_TYPE_PKEY_ALLOC_E : Z := 660.
Definition LINX_EVENT_TYPE_PKEY_ALLOC_X : Z := 661.
Definition LINX_EVENT_TYPE_PKEY_FREE_E : Z := 662.
Definition LINX_EVENT_TYPE_PKEY_FREE_X : Z := 663.
Definition LINX_EVENT_TYPE_STATX_E : Z := 664.
Definition LINX_EVENT_TYPE_STATX_X : Z := 665.
Definition LINX_EVENT_TYPE_IO_PGETEVENTS_E : Z := 666.
Definition LINX_EVENT_TYPE_IO_PGETEVENTS_X : Z := 667.
Definition LINX_EVENT_TYPE_RSEQ_E : Z := 668.
Definition LINX_EVENT_TYPE_RSEQ_X : Z := 669.
Definition LINX_EVENT_TYPE_PIDFD_SEND_SIGNAL_E : Z := 848.
Definition LINX_EVENT_TYPE_PIDFD_SEND_SIGNAL_X : Z := 849.
Definition LINX_EVENT_TYPE_IO_URING_SETUP_E : Z := 850.
Definition LINX_EVENT_TYPE_IO_URING_SETUP_X : Z := 851.
Definition LINX_EVENT_TYPE_IO_URING_ENTER_E : Z := 852.
Definition LINX_EVENT_TYPE_IO_URING_ENTER_X : Z := 853.
Definition LINX_EVENT_TYPE_IO_URING_REGISTER_E : Z := 854.
Definition LINX_EVENT_TYPE_IO_URING_REGISTER_X : Z := 855.
Definition LINX_EVENT_TYPE_OPEN_TREE_E : Z := 856.
Definition LINX_EVENT_TYPE_OPEN_TREE_X : Z := 857.
Definition LINX_EVENT_TYPE_MOVE_MOUNT_E : Z := 858.
Definition LINX_EVENT_TYPE_MOVE_MOUNT_X : Z := 859.
Definition LINX_EVENT_TYPE_FSOPEN_E : Z := 860.
Definition LINX_EVENT_TYPE_FSOPEN_X : Z := 861.
Definition LINX_EVENT_TYPE_FSCONFIG_E : Z := 862.
Definition LINX_EVENT_TYPE_FSCONFIG_X : Z := 863.
Definition LINX_EVENT_TYPE_FSMOUNT_E : Z := 864.
Definition LINX_EVENT_TYPE_FSMOUNT_X : Z := 865.
Definition LINX_EVENT_TYPE_FSPICK_E : Z := 866.
Definition LINX_EVENT_TYPE_FSPICK_X : Z := 867.
Definition LINX_EVENT_TYPE_PIDFD_OPEN_E : Z := 868.
Definition LINX_EVENT_TYPE_PIDFD_OPEN_X : Z := 869.
Definition LINX_EVENT_TYPE_CLONE3_E : Z := 870.
Definition LINX_EVENT_TYPE_CLONE3_X : Z := 871.
Definition LINX_EVENT_TYPE_CLOSE_RANGE_E : Z := 872.
Definition LINX_EVENT_TYPE_CLOSE_RANGE_X : Z := 873.
Definition LINX_EVENT_TYPE_OPENAT2_E : Z := 874.
Definition LINX_EVENT_TYPE_OPENAT2_X : Z := 875.
Definition LINX_EVENT_TYPE_PIDFD_GETFD_E : Z := 876.
Definition LINX_EVENT_TYPE_PIDFD_GETFD_X : Z := 877.
Definition LINX_EVENT_TYPE_FACCESSAT2_E : Z := 878.
Definition LINX_EVENT_TYPE_FACCESSAT2_X : Z := 879.
Definition LINX_EVENT_TYPE_PROCESS_MADVISE_E : Z := 880.
Definition LINX_EVENT_TYPE_PROCESS_MADVISE_X : Z := 881.
Definition LINX_EVENT_TYPE_EPOLL_PWAIT2_E : Z := 882.
Definition LINX_EVENT_TYPE_EPOLL_PWAIT2_X : Z := 883.
Definition LINX_EVENT_TYPE_MOUNT_SETATTR_E : Z := 884.
Definition LINX_EVENT_TYPE_MOUNT_SETATTR_X : Z := 885.
Definition LINX_EVENT_TYPE_QUOTACTL_FD_E : Z := 886.
Definition LINX_EVENT_TYPE_QUOTACTL_FD_X : Z := 887.
Definition LINX_EVENT_TYPE_LANDLOCK_CREATE_RULESET_E : Z := 888.
Definition LINX_EVENT_TYPE_LANDLOCK_CREATE_RULESET_X : Z := 889.
Definition LINX_EVENT_TYPE_LANDLOCK_ADD_RULE_E : Z := 890.
Definition LINX_EVENT_TYPE_LANDLOCK_ADD_RULE_X : Z := 891.
Definition LINX_EVENT_TYPE_LANDLOCK_RESTRICT_SELF_E : Z := 892.
Definition LINX_EVENT_TYPE_LANDLOCK_RESTRICT_SELF_X : Z := 893.
Definition LINX_EVENT_TYPE_MEMFD_SECRET_E : Z := 894.
Definition LINX_EVENT_TYPE_MEMFD_SECRET_X : Z := 895.
Definition LINX_EVENT_TYPE_PROCESS_MRELEASE_E : Z := 896.
Definition LINX_EVENT_TYPE_PROCESS_MRELEASE_X : Z := 897.
Definition LINX_EVENT_TYPE_FUTEX_WAITV_E : Z := 898.
Definition LINX_EVENT_TYPE_FUTEX_WAITV_X : Z := 899.
Definition LINX_EVENT_TYPE_SET_MEMPOLICY_HOME_NODE_E : Z := 900.
Definition LINX_EVENT_TYPE_SET_MEMPOLICY_HOME_NODE_X : Z := 901.
Definition LINX_EVENT_TYPE_CACHESTAT_E : Z := 902.
Definition LINX_EVENT_TYPE_CACHESTAT_X : Z := 903.
Definition LINX_EVENT_TYPE_FCHMODAT2_E : Z := 904.
Definition LINX_EVENT_TYPE_FCHMODAT2_X : Z := 905.
Definition LINX_EVENT_TYPE_MAX : Z := 906.

(** The enumerators by name, without [LINX_EVENT_TYPE_] and the last one. *)
Definition linx_event_types_1 : list (string * Z) :=
  [("READ_E", LINX_EVENT_TYPE_READ_E); ("READ_X", LINX_EVENT_TYPE_READ_X); ("WRITE_E", LINX_EVENT_TYPE_WRITE_E);
   ("WRITE_X", LINX_EVENT_TYPE_WRITE_X); ("OPEN_E", LINX_EVENT_TYPE_OPEN_E); ("OPEN_X", LINX_EVENT_TYPE_OPEN_X);
   ("CLOSE_E", LINX_EVENT_TYPE_CLOSE_E); ("CLOSE_X", LINX_EVENT_TYPE_CLOSE_X); ("STAT_E", LINX_EVENT_TYPE_STAT_E);
   ("STAT_X", LINX_EVENT_TYPE_STAT_X); ("FSTAT_E", LINX_EVENT_TYPE_FSTAT_E); ("FSTAT_X", LINX_EVENT_TYPE_FSTAT_X);
   ("LSTAT_E", LINX_EVENT_TYPE_LSTAT_E); ("LSTAT_X", LINX_EVENT_TYPE_LSTAT_X); ("POLL_E", LINX_EVENT_TYPE_POLL_E);
   ("POLL_X", LINX_EVENT_TYPE_POLL_X); ("LSEEK_E", LINX_EVENT_TYPE_LSEEK_E); ("LSEEK_X", LINX_EVENT_TYPE_LSEEK_X);
   ("MMAP_E", LINX_EVENT_TYPE_MMAP_E); ("MMAP_X", LINX_EVENT_TYPE_MMAP_X); ("MPROTECT_E", LINX_EVENT_TYPE_MPROTECT_E);
   ("MPROTECT_X", LINX_EVENT_TYPE_MPROTECT_X); ("MUNMAP_E", LINX_EVENT_TYPE_MUNMAP_E);
   ("MUNMAP_X", LINX_EVENT_TYPE_MUNMAP_X); ("BRK_E", LINX_EVENT_TYPE_BRK_E); ("BRK_X", LINX_EVENT_TYPE_BRK_X);
   ("RT_SIGACTION_E", LINX_EVENT_TYPE_RT_SIGACTION_E); ("RT_SIGACTION_X", LINX_EVENT_TYPE_RT_SIGACTION_X);
   ("RT_SIGPROCMASK_E", LINX_EVENT_TYPE_RT_SIGPROCMASK_E); ("RT_SIGPROCMASK_X", LINX_EVENT_TYPE_RT_SIGPROCMASK_X);
   ("RT_SIGRETURN_E", LINX_EVENT_TYPE_RT_SIGRETURN_E); ("RT_SIGRETURN_X", LINX_EVENT_TYPE_RT_SIGRETURN_X);
   ("IOCTL_E", LINX_EVENT_TYPE_IOCTL_E); ("IOCTL_X", LINX_EVENT_TYPE_IOCTL_X);
   ("PREAD64_E", LINX_EVENT_TYPE_PREAD64_E); ("PREAD64_X", LINX_EVENT_TYPE_PREAD64_X);
   ("PWRITE64_E", LINX_EVENT_TYPE_PWRITE64_E); ("PWRITE64_X", LINX_EVENT_TYPE_PWRITE64_X);
   ("READV_E", LINX_EVENT_TYPE_READV_E); ("READV_X", LINX_EVENT_TYPE_READV_X); ("WRITEV_E", LINX_EVENT_TYPE_WRITEV_E);
   ("WRITEV_X", LINX_EVENT_TYPE_WRITEV_X); ("ACCESS_E", LINX_EVENT_TYPE_ACCESS_E);
   ("ACCESS_X", LINX_EVENT_TYPE_ACCESS_X); ("PIPE_E", LINX_EVENT_TYPE_PIPE_E); ("PIPE_X", LINX_EVENT_TYPE_PIPE_X);
   ("SELECT_E", LINX_EVENT_TYPE_SELECT_E); ("SELECT_X", LINX_EVENT_TYPE_SELECT_X);
   ("SCHED_YIELD_E", LINX_EVENT_TYPE_SCHED_YIELD_E); ("SCHED_YIELD_X", LINX_EVENT_TYPE_SCHED_YIELD_X);
   ("MREMAP_E", LINX_EVENT_TYPE_MREMAP_E); ("MREMAP_X", LINX_EVENT_TYPE_MREMAP_X);
   ("MSYNC_E", LINX_EVENT_TYPE_MSYNC_E); ("MSYNC_X", LINX_EVENT_TYPE_MSYNC_X);
   ("MINCORE_E", LINX_EVENT_TYPE_MINCORE_E); ("MINCORE_X", LINX_EVENT_TYPE_MINCORE_X);
   ("MADVISE_E", LINX_EVENT_TYPE_MADVISE_E); ("MADVISE_X", LINX_EVENT_TYPE_MADVISE_X);
   ("SHMGET_E", LINX_EVENT_TYPE_SHMGET_E); ("SHMGET_X", LINX_EVENT_TYPE_SHMGET_X);
   ("SHMAT_E", LINX_EVENT_TYPE_SHMAT_E); ("SHMAT_X", LINX_EVENT_TYPE_SHMAT_X); ("SHMCTL_E", LINX_EVENT_TYPE_SHMCTL_E);
   ("SHMCTL_X", LINX_EVENT_TYPE_SHMCTL_X); ("DUP_E", LINX_EVENT_TYPE_DUP_E); ("DUP_X", LINX_EVENT_TYPE_DUP_X);
   ("DUP2_E", LINX_EVENT_TYPE_DUP2_E); ("DUP2_X", LINX_EVENT_TYPE_DUP2_X); ("PAUSE_E", LINX_EVENT_TYPE_PAUSE_E);
   ("PAUSE_X", LINX_EVENT_TYPE_PAUSE_X); ("NANOSLEEP_E", LINX_EVENT_TYPE_NANOSLEEP_E);
   ("NANOSLEEP_X", LINX_EVENT_TYPE_NANOSLEEP_X); ("GETITIMER_E", LINX_EVENT_TYPE_GETITIMER_E);
   ("GETITIMER_X", LINX_EVENT_TYPE_GETITIMER_X); ("ALARM_E", LINX_EVENT_TYPE_ALARM_E);
   ("ALARM_X", LINX_EVENT_TYPE_ALARM_X); ("SETITIMER_E", LINX_EVENT_TYPE_SETITIMER_E);
   ("SETITIMER_X", LINX_EVENT_TYPE_SETITIMER_X); ("GETPID_E", LINX_EVENT_TYPE_GETPID_E);
   ("GETPID_X", LINX_EVENT_TYPE_GETPID_X); ("SENDFILE_E", LINX_EVENT_TYPE_SENDFILE_E);
   ("SENDFILE_X", LINX_EVENT_TYPE_SENDFILE_X); ("SOCKET_E", LINX_EVENT_TYPE_SOCKET_E);
   ("SOCKET_X", LINX_EVENT_TYPE_SOCKET_X); ("CONNECT_E", LINX_EVENT_TYPE_CONNECT_E);
   ("CONNECT_X", LINX_EVENT_TYPE_CONNECT_X); ("ACCEPT_E", LINX_EVENT_TYPE_ACCEPT_E);
   ("ACCEPT_X", LINX_EVENT_TYPE_ACCEPT_X); ("SENDTO_E", LINX_EVENT_TYPE_SENDTO_E);
   ("SENDTO_X", LINX_EVENT_TYPE_SENDTO_X); ("RECVFROM_E", LINX_EVENT_TYPE_RECVFROM_E);
   ("RECVFROM_X", LINX_EVENT_TYPE_RECVFROM_X); ("SENDMSG_E", LINX_EVENT_TYPE_SENDMSG_E);
   ("SENDMSG_X", LINX_EVENT_TYPE_SENDMSG_X); ("RECVMSG_E", LINX_EVENT_TYPE_RECVMSG_E);
   ("RECVMSG_X", LINX_EVENT_TYPE_RECVMSG_X); ("SHUTDOWN_E", LINX_EVENT_TYPE_SHUTDOWN_E);
   ("SHUTDOWN_X", LINX_EVENT_TYPE_SHUTDOWN_X); ("BIND_E", LINX_EVENT_TYPE_BIND_E); ("BIND_X", LINX_EVENT_TYPE_BIND_X);
   ("LISTEN_E", LINX_EVENT_TYPE_LISTEN_E); ("LISTEN_X", LINX_EVENT_TYPE_LISTEN_X);
   ("GETSOCKNAME_E", LINX_EVENT_TYPE_GETSOCKNAME_E); ("GETSOCKNAME_X", LINX_EVENT_TYPE_GETSOCKNAME_X);
   ("GETPEERNAME_E", LINX_EVENT_TYPE_GETPEERNAME_E); ("GETPEERNAME_X", LINX_EVENT_TYPE_GETPEERNAME_X);
   ("SOCKETPAIR_E", LINX_EVENT_TYPE_SOCKETPAIR_E); ("SOCKETPAIR_X", LINX_EVENT_TYPE_SOCKETPAIR_X);
   ("SETSOCKOPT_E", LINX_EVENT_TYPE_SETSOCKOPT_E); ("SETSOCKOPT_X", LINX_EVENT_TYPE_SETSOCKOPT_X);
   ("GETSOCKOPT_E", LINX_EVENT_TYPE_GETSOCKOPT_E); ("GETSOCKOPT_X", LINX_EVENT_TYPE_GETSOCKOPT_X);
   ("CLONE_E", LINX_EVENT_TYPE_CLONE_E); ("CLONE_X", LINX_EVENT_TYPE_CLONE_X); ("FORK_E", LINX_EVENT_TYPE_FORK_E);
   ("FORK_X", LINX_EVENT_TYPE_FORK_X); ("VFORK_E", LINX_EVENT_TYPE_VFORK_E); ("VFORK_X", LINX_EVENT_TYPE_VFORK_X);
   ("EXECVE_E", LINX_EVENT_TYPE_EXECVE_E); ("EXECVE_X", LINX_EVENT_TYPE_EXECVE_X); ("EXIT_E", LINX_EVENT_TYPE_EXIT_E);
   ("EXIT_X", LINX_EVENT_TYPE_EXIT_X); ("WAIT4_E", LINX_EVENT_TYPE_WAIT4_E); ("WAIT4_X", LINX_EVENT_TYPE_WAIT4_X);
   ("KILL_E", LINX_EVENT_TYPE_KILL_E); ("KILL_X", LINX_EVENT_TYPE_KILL_X); ("UNAME_E", LINX_EVENT_TYPE_UNAME_E);
   ("UNAME_X", LINX_EVENT_TYPE_UNAME_X); ("SEMGET_E", LINX_EVENT_TYPE_SEMGET_E);
   ("SEMGET_X", LINX_EVENT_TYPE_SEMGET_X); ("SEMOP_E", LINX_EVENT_TYPE_SEMOP_E); ("SEMOP_X", LINX_EVENT_TYPE_SEMOP_X);
   ("SEMCTL_E", LINX_EVENT_TYPE_SEMCTL_E); ("SEMCTL_X", LINX_EVENT_TYPE_SEMCTL_X);
   ("SHMDT_E", LINX_EVENT_TYPE_SHMDT_E); ("SHMDT_X", LINX_EVENT_TYPE_SHMDT_X); ("MSGGET_E", LINX_EVENT_TYPE_MSGGET_E);
   ("MSGGET_X", LINX_EVENT_TYPE_MSGGET_X); ("MSGSND_E", LINX_EVENT_TYPE_MSGSND_E);
   ("MSGSND_X", LINX_EVENT_TYPE_MSGSND_X); ("MSGRCV_E", LINX_EVENT_TYPE_MSGRCV_E);
   ("MSGRCV_X", LINX_EVENT_TYPE_MSGRCV_X); ("MSGCTL_E", LINX_EVENT_TYPE_MSGCTL_E);
   ("MSGCTL_X", LINX_EVENT_TYPE_MSGCTL_X); ("FCNTL_E", LINX_EVENT_TYPE_FCNTL_E)].

Definition linx_event_types_2 : list (string * Z) :=
  [("FCNTL_X", LINX_EVENT_TYPE_FCNTL_X); ("FLOCK_E", LINX_EVENT_TYPE_FLOCK_E); ("FLOCK_X", LINX_EVENT_TYPE_FLOCK_X);
   ("FSYNC_E", LINX_EVENT_TYPE_FSYNC_E); ("FSYNC_X", LINX_EVENT_TYPE_FSYNC_X);
   ("FDATASYNC_E", LINX_EVENT_TYPE_FDATASYNC_E); ("FDATASYNC_X", LINX_EVENT_TYPE_FDATASYNC_X);
   ("TRUNCATE_E", LINX_EVENT_TYPE_TRUNCATE_E); ("TRUNCATE_X", LINX_EVENT_TYPE_TRUNCATE_X);
   ("FTRUNCATE_E", LINX_EVENT_TYPE_FTRUNCATE_E); ("FTRUNCATE_X", LINX_EVENT_TYPE_FTRUNCATE_X);
   ("GETDENTS_E", LINX_EVENT_TYPE_GETDENTS_E); ("GETDENTS_X", LINX_EVENT_TYPE_GETDENTS_X);
   ("GETCWD_E", LINX_EVENT_TYPE_GETCWD_E); ("GETCWD_X", LINX_EVENT_TYPE_GETCWD_X);
   ("CHDIR_E", LINX_EVENT_TYPE_CHDIR_E); ("CHDIR_X", LINX_EVENT_TYPE_CHDIR_X); ("FCHDIR_E", LINX_EVENT_TYPE_FCHDIR_E);
   ("FCHDIR_X", LINX_EVENT_TYPE_FCHDIR_X); ("RENAME_E", LINX_EVENT_TYPE_RENAME_E);
   ("RENAME_X", LINX_EVENT_TYPE_RENAME_X); ("MKDIR_E", LINX_EVENT_TYPE_MKDIR_E); ("MKDIR_X", LINX_EVENT_TYPE_MKDIR_X);
   ("RMDIR_E", LINX_EVENT_TYPE_RMDIR_E); ("RMDIR_X", LINX_EVENT_TYPE_RMDIR_X); ("CREAT_E", LINX_EVENT_TYPE_CREAT_E);
   ("CREAT_X", LINX_EVENT_TYPE_CREAT_X); ("LINK_E", LINX_EVENT_TYPE_LINK_E); ("LINK_X", LINX_EVENT_TYPE_LINK_X);
   ("UNLINK_E", LINX_EVENT_TYPE_UNLINK_E); ("UNLINK_X", LINX_EVENT_TYPE_UNLINK_X);
   ("SYMLINK_E", LINX_EVENT_TYPE_SYMLINK_E); ("SYMLINK_X", LINX_EVENT_TYPE_SYMLINK_X);
   ("READLINK_E", LINX_EVENT_TYPE_READLINK_E); ("READLINK_X", LINX_EVENT_TYPE_READLINK_X);
   ("CHMOD_E", LINX_EVENT_TYPE_CHMOD_E); ("CHMOD_X", LINX_EVENT_TYPE_CHMOD_X); ("FCHMOD_E", LINX_EVENT_TYPE_FCHMOD_E);
   ("FCHMOD_X", LINX_EVENT_TYPE_FCHMOD_X); ("CHOWN_E", LINX_EVENT_TYPE_CHOWN_E); ("CHOWN_X", LINX_EVENT_TYPE_CHOWN_X);
   ("FCHOWN_E", LINX_EVENT_TYPE_FCHOWN_E); ("FCHOWN_X", LINX_EVENT_TYPE_FCHOWN_X);
   ("LCHOWN_E", LINX_EVENT_TYPE_LCHOWN_E); ("LCHOWN_X", LINX_EVENT_TYPE_LCHOWN_X);
   ("UMASK_E", LINX_EVENT_TYPE_UMASK_E); ("UMASK_X", LINX_EVENT_TYPE_UMASK_X);
   ("GETTIMEOFDAY_E", LINX_EVENT_TYPE_GETTIMEOFDAY_E); ("GETTIMEOFDAY_X", LINX_EVENT_TYPE_GETTIMEOFDAY_X);
   ("GETRLIMIT_E", LINX_EVENT_TYPE_GETRLIMIT_E); ("GETRLIMIT_X", LINX_EVENT_TYPE_GETRLIMIT_X);
   ("GETRUSAGE_E", LINX_EVENT_TYPE_GETRUSAGE_E); ("GETRUSAGE_X", LINX_EVENT_TYPE_GETRUSAGE_X);
   ("SYSINFO_E", LINX_EVENT_TYPE_SYSINFO_E); ("SYSINFO_X", LINX_EVENT_TYPE_SYSINFO_X);
   ("TIMES_E", LINX_EVENT_TYPE_TIMES_E); ("TIMES_X", LINX_EVENT_TYPE_TIMES_X); ("PTRACE_E", LINX_EVENT_TYPE_PTRACE_E);
   ("PTRACE_X", LINX_EVENT_TYPE_PTRACE_X); ("GETUID_E", LINX_EVENT_TYPE_GETUID_E);
   ("GETUID_X", LINX_EVENT_TYPE_GETUID_X); ("SYSLOG_E", LINX_EVENT_TYPE_SYSLOG_E);
   ("SYSLOG_X", LINX_EVENT_TYPE_SYSLOG_X); ("GETGID_E", LINX_EVENT_TYPE_GETGID_E);
   ("GETGID_X", LINX_EVENT_TYPE_GETGID_X); ("SETUID_E", LINX_EVENT_TYPE_SETUID_E);
   ("SETUID_X", LINX_EVENT_TYPE_SETUID_X); ("SETGID_E", LINX_EVENT_TYPE_SETGID_E);
   ("SETGID_X", LINX_EVENT_TYPE_SETGID_X); ("GETEUID_E", LINX_EVENT_TYPE_GETEUID_E);
   ("GETEUID_X", LINX_EVENT_TYPE_GETEUID_X); ("GETEGID_E", LINX_EVENT_TYPE_GETEGID_E);
   ("GETEGID_X", LINX_EVENT_TYPE_GETEGID_X); ("SETPGID_E", LINX_EVENT_TYPE_SETPGID_E);
   ("SETPGID_X", LINX_EVENT_TYPE_SETPGID_X); ("GETPPID_E", LINX_EVENT_TYPE_GETPPID_E);
   ("GETPPID_X", LINX_EVENT_TYPE_GETPPID_X); ("GETPGRP_E", LINX_EVENT_TYPE_GETPGRP_E);
   ("GETPGRP_X", LINX_EVENT_TYPE_GETPGRP_X); ("SETSID_E", LINX_EVENT_TYPE_SETSID_E);
   ("SETSID_X", LINX_EVENT_TYPE_SETSID_X); ("SETREUID_E", LINX_EVENT_TYPE_SETREUID_E);
   ("SETREUID_X", LINX_EVENT_TYPE_SETREUID_X); ("SETREGID_E", LINX_EVENT_TYPE_SETREGID_E);
   ("SETREGID_X", LINX_EVENT_TYPE_SETREGID_X); ("GETGROUPS_E", LINX_EVENT_TYPE_GETGROUPS_E);
   ("GETGROUPS_X", LINX_EVENT_TYPE_GETGROUPS_X); ("SETGROUPS_E", LINX_EVENT_TYPE_SETGROUPS_E);
   ("SETGROUPS_X", LINX_EVENT_TYPE_SETGROUPS_X); ("SETRESUID_E", LINX_EVENT_TYPE_SETRESUID_E);
   ("SETRESUID_X", LINX_EVENT_TYPE_SETRESUID_X); ("GETRESUID_E", LINX_EVENT_TYPE_GETRESUID_E);
   ("GETRESUID_X", LINX_EVENT_TYPE_GETRESUID_X); ("SETRESGID_E", LINX_EVENT_TYPE_SETRESGID_E);
   ("SETRESGID_X", LINX_EVENT_TYPE_SETRESGID_X); ("GETRESGID_E", LINX_EVENT_TYPE_GETRESGID_E);
   ("GETRESGID_X", LINX_EVENT_TYPE_GETRESGID_X); ("GETPGID_E", LINX_EVENT_TYPE_GETPGID_E);
   ("GETPGID_X", LINX_EVENT_TYPE_GETPGID_X); ("SETFSUID_E", LINX_EVENT_TYPE_SETFSUID_E);
   ("SETFSUID_X", LINX_EVENT_TYPE_SETFSUID_X); ("SETFSGID_E", LINX_EVENT_TYPE_SETFSGID_E);
   ("SETFSGID_X", LINX_EVENT_TYPE_SETFSGID_X); ("GETSID_E", LINX_EVENT_TYPE_GETSID_E);
   ("GETSID_X", LINX_EVENT_TYPE_GETSID_X); ("CAPGET_E", LINX_EVENT_TYPE_CAPGET_E);
   ("CAPGET_X", LINX_EVENT_TYPE_CAPGET_X); ("CAPSET_E", LINX_EVENT_TYPE_CAPSET_E);
   ("CAPSET_X", LINX_EVENT_TYPE_CAPSET_X); ("RT_SIGPENDING_E", LINX_EVENT_TYPE_RT_SIGPENDING_E);
   ("RT_SIGPENDING_X", LINX_EVENT_TYPE_RT_SIGPENDING_X); ("RT_SIGTIMEDWAIT_E", LINX_EVENT_TYPE_RT_SIGTIMEDWAIT_E);
   ("RT_SIGTIMEDWAIT_X", LINX_EVENT_TYPE_RT_SIGTIMEDWAIT_X); ("RT_SIGQUEUEINFO_E", LINX_EVENT_TYPE_RT_SIGQUEUEINFO_E);
   ("RT_SIGQUEUEINFO_X", LINX_EVENT_TYPE_RT_SIGQUEUEINFO_X); ("RT_SIGSUSPEND_E", LINX_EVENT_TYPE_RT_SIGSUSPEND_E);
   ("RT_SIGSUSPEND_X", LINX_EVENT_TYPE_RT_SIGSUSPEND_X); ("SIGALTSTACK_E", LINX_EVENT_TYPE_SIGALTSTACK_E);
   ("SIGALTSTACK_X", LINX_EVENT_TYPE_SIGALTSTACK_X); ("UTIME_E", LINX_EVENT_TYPE_UTIME_E);
   ("UTIME_X", LINX_EVENT_TYPE_UTIME_X); ("MKNOD_E", LINX_EVENT_TYPE_MKNOD_E); ("MKNOD_X", LINX_EVENT_TYPE_MKNOD_X);
   ("USELIB_E", LINX_EVENT_TYPE_USELIB_E); ("USELIB_X", LINX_EVENT_TYPE_USELIB_X);
   ("PERSONALITY_E", LINX_EVENT_TYPE_PERSONALITY_E); ("PERSONALITY_X", LINX_EVENT_TYPE_PERSONALITY_X);
   ("USTAT_E", LINX_EVENT_TYPE_USTAT_E); ("USTAT_X", LINX_EVENT_TYPE_USTAT_X); ("STATFS_E", LINX_EVENT_TYPE_STATFS_E);
   ("STATFS_X", LINX_EVENT_TYPE_STATFS_X); ("FSTATFS_E", LINX_EVENT_TYPE_FSTATFS_E);
   ("FSTATFS_X", LINX_EVENT_TYPE_FSTATFS_X); ("SYSFS_E", LINX_EVENT_TYPE_SYSFS_E);
   ("SYSFS_X", LINX_EVENT_TYPE_SYSFS_X); ("GETPRIORITY_E", LINX_EVENT_TYPE_GETPRIORITY_E);
   ("GETPRIORITY_X", LINX_EVENT_TYPE_GETPRIORITY_X); ("SETPRIORITY_E", LINX_EVENT_TYPE_SETPRIORITY_E);
   ("SETPRIORITY_X", LINX_EVENT_TYPE_SETPRIORITY_X); ("SCHED_SETPARAM_E", LINX_EVENT_TYPE_SCHED_SETPARAM_E);
   ("SCHED_SETPARAM_X", LINX_EVENT_TYPE_SCHED_SETPARAM_X); ("SCHED_GETPARAM_E", LINX_EVENT_TYPE_SCHED_GETPARAM_E);
   ("SCHED_GETPARAM_X", LINX_EVENT_TYPE_SCHED_GETPARAM_X);
   ("SCHED_SETSCHEDULER_E", LINX_EVENT_TYPE_SCHED_SETSCHEDULER_E);
   ("SCHED_SETSCHEDULER_X", LINX_EVENT_TYPE_SCHED_SETSCHEDULER_X)].

Definition linx_event_types_3 : list (string * Z) :=
  [("SCHED_GETSCHEDULER_E", LINX_EVENT_TYPE_SCHED_GETSCHEDULER_E);
   ("SCHED_GETSCHEDULER_X", LINX_EVENT_TYPE_SCHED_GETSCHEDULER_X);
   ("SCHED_GET_PRIORITY_MAX_E", LINX_EVENT_TYPE_SCHED_GET_PRIORITY_MAX_E);
   ("SCHED_GET_PRIORITY_MAX_X", LINX_EVENT_TYPE_SCHED_GET_PRIORITY_MAX_X);
   ("SCHED_GET_PRIORITY_MIN_E", LINX_EVENT_TYPE_SCHED_GET_PRIORITY_MIN_E);
   ("SCHED_GET_PRIORITY_MIN_X", LINX_EVENT_TYPE_SCHED_GET_PRIORITY_MIN_X);
   ("SCHED_RR_GET_INTERVAL_E", LINX_EVENT_TYPE_SCHED_RR_GET_INTERVAL_E);
   ("SCHED_RR_GET_INTERVAL_X", LINX_EVENT_TYPE_SCHED_RR_GET_INTERVAL_X); ("MLOCK_E", LINX_EVENT_TYPE_MLOCK_E);
   ("MLOCK_X", LINX_EVENT_TYPE_MLOCK_X); ("MUNLOCK_E", LINX_EVENT_TYPE_MUNLOCK_E);
   ("MUNLOCK_X", LINX_EVENT_TYPE_MUNLOCK_X); ("MLOCKALL_E", LINX_EVENT_TYPE_MLOCKALL_E);
   ("MLOCKALL_X", LINX_EVENT_TYPE_MLOCKALL_X); ("MUNLOCKALL_E", LINX_EVENT_TYPE_MUNLOCKALL_E);
   ("MUNLOCKALL_X", LINX_EVENT_TYPE_MUNLOCKALL_X); ("VHANGUP_E", LINX_EVENT_TYPE_VHANGUP_E);
   ("VHANGUP_X", LINX_EVENT_TYPE_VHANGUP_X); ("MODIFY_LDT_E", LINX_EVENT_TYPE_MODIFY_LDT_E);
   ("MODIFY_LDT_X", LINX_EVENT_TYPE_MODIFY_LDT_X); ("PIVOT_ROOT_E", LINX_EVENT_TYPE_PIVOT_ROOT_E);
   ("PIVOT_ROOT_X", LINX_EVENT_TYPE_PIVOT_ROOT_X); ("_SYSCTL_E", LINX_EVENT_TYPE__SYSCTL_E);
   ("_SYSCTL_X", LINX_EVENT_TYPE__SYSCTL_X); ("PRCTL_E", LINX_EVENT_TYPE_PRCTL_E);
   ("PRCTL_X", LINX_EVENT_TYPE_PRCTL_X); ("ARCH_PRCTL_E", LINX_EVENT_TYPE_ARCH_PRCTL_E);
   ("ARCH_PRCTL_X", LINX_EVENT_TYPE_ARCH_PRCTL_X); ("ADJTIMEX_E", LINX_EVENT_TYPE_ADJTIMEX_E);
   ("ADJTIMEX_X", LINX_EVENT_TYPE_ADJTIMEX_X); ("SETRLIMIT_E", LINX_EVENT_TYPE_SETRLIMIT_E);
   ("SETRLIMIT_X", LINX_EVENT_TYPE_SETRLIMIT_X); ("CHROOT_E", LINX_EVENT_TYPE_CHROOT_E);
   ("CHROOT_X", LINX_EVENT_TYPE_CHROOT_X); ("SYNC_E", LINX_EVENT_TYPE_SYNC_E); ("SYNC_X", LINX_EVENT_TYPE_SYNC_X);
   ("ACCT_E", LINX_EVENT_TYPE_ACCT_E); ("ACCT_X", LINX_EVENT_TYPE_ACCT_X);
   ("SETTIMEOFDAY_E", LINX_EVENT_TYPE_SETTIMEOFDAY_E); ("SETTIMEOFDAY_X", LINX_EVENT_TYPE_SETTIMEOFDAY_X);
   ("MOUNT_E", LINX_EVENT_TYPE_MOUNT_E); ("MOUNT_X", LINX_EVENT_TYPE_MOUNT_X);
   ("UMOUNT2_E", LINX_EVENT_TYPE_UMOUNT2_E); ("UMOUNT2_X", LINX_EVENT_TYPE_UMOUNT2_X);
   ("SWAPON_E", LINX_EVENT_TYPE_SWAPON_E); ("SWAPON_X", LINX_EVENT_TYPE_SWAPON_X);
   ("SWAPOFF_E", LINX_EVENT_TYPE_SWAPOFF_E); ("SWAPOFF_X", LINX_EVENT_TYPE_SWAPOFF_X);
   ("REBOOT_E", LINX_EVENT_TYPE_REBOOT_E); ("REBOOT_X", LINX_EVENT_TYPE_REBOOT_X);
   ("SETHOSTNAME_E", LINX_EVENT_TYPE_SETHOSTNAME_E); ("SETHOSTNAME_X", LINX_EVENT_TYPE_SETHOSTNAME_X);
   ("SETDOMAINNAME_E", LINX_EVENT_TYPE_SETDOMAINNAME_E); ("SETDOMAINNAME_X", LINX_EVENT_TYPE_SETDOMAINNAME_X);
   ("IOPL_E", LINX_EVENT_TYPE_IOPL_E); ("IOPL_X", LINX_EVENT_TYPE_IOPL_X); ("IOPERM_E", LINX_EVENT_TYPE_IOPERM_E);
   ("IOPERM_X", LINX_EVENT_TYPE_IOPERM_X); ("CREATE_MODULE_E", LINX_EVENT_TYPE_CREATE_MODULE_E);
   ("CREATE_MODULE_X", LINX_EVENT_TYPE_CREATE_MODULE_X); ("INIT_MODULE_E", LINX_EVENT_TYPE_INIT_MODULE_E);
   ("INIT_MODULE_X", LINX_EVENT_TYPE_INIT_MODULE_X); ("DELETE_MODULE_E", LINX_EVENT_TYPE_DELETE_MODULE_E);
   ("DELETE_MODULE_X", LINX_EVENT_TYPE_DELETE_MODULE_X); ("GET_KERNEL_SYMS_E", LINX_EVENT_TYPE_GET_KERNEL_SYMS_E);
   ("GET_KERNEL_SYMS_X", LINX_EVENT_TYPE_GET_KERNEL_SYMS_X); ("QUERY_MODULE_E", LINX_EVENT_TYPE_QUERY_MODULE_E);
   ("QUERY_MODULE_X", LINX_EVENT_TYPE_QUERY_MODULE_X); ("QUOTACTL_E", LINX_EVENT_TYPE_QUOTACTL_E);
   ("QUOTACTL_X", LINX_EVENT_TYPE_QUOTACTL_X); ("NFSSERVCTL_E", LINX_EVENT_TYPE_NFSSERVCTL_E);
   ("NFSSERVCTL_X", LINX_EVENT_TYPE_NFSSERVCTL_X); ("GETTID_E", LINX_EVENT_TYPE_GETTID_E);
   ("GETTID_X", LINX_EVENT_TYPE_GETTID_X); ("READAHEAD_E", LINX_EVENT_TYPE_READAHEAD_E);
   ("READAHEAD_X", LINX_EVENT_TYPE_READAHEAD_X); ("SETXATTR_E", LINX_EVENT_TYPE_SETXATTR_E);
   ("SETXATTR_X", LINX_EVENT_TYPE_SETXATTR_X); ("LSETXATTR_E", LINX_EVENT_TYPE_LSETXATTR_E);
   ("LSETXATTR_X", LINX_EVENT_TYPE_LSETXATTR_X); ("FSETXATTR_E", LINX_EVENT_TYPE_FSETXATTR_E);
   ("FSETXATTR_X", LINX_EVENT_TYPE_FSETXATTR_X); ("GETXATTR_E", LINX_EVENT_TYPE_GETXATTR_E);
   ("GETXATTR_X", LINX_EVENT_TYPE_GETXATTR_X); ("LGETXATTR_E", LINX_EVENT_TYPE_LGETXATTR_E);
   ("LGETXATTR_X", LINX_EVENT_TYPE_LGETXATTR_X); ("FGETXATTR_E", LINX_EVENT_TYPE_FGETXATTR_E);
   ("FGETXATTR_X", LINX_EVENT_TYPE_FGETXATTR_X); ("LISTXATTR_E", LINX_EVENT_TYPE_LISTXATTR_E);
   ("LISTXATTR_X", LINX_EVENT_TYPE_LISTXATTR_X); ("LLISTXATTR_E", LINX_EVENT_TYPE_LLISTXATTR_E);
   ("LLISTXATTR_X", LINX_EVENT_TYPE_LLISTXATTR_X); ("FLISTXATTR_E", LINX_EVENT_TYPE_FLISTXATTR_E);
   ("FLISTXATTR_X", LINX_EVENT_TYPE_FLISTXATTR_X); ("REMOVEXATTR_E", LINX_EVENT_TYPE_REMOVEXATTR_E);
   ("REMOVEXATTR_X", LINX_EVENT_TYPE_REMOVEXATTR_X); ("LREMOVEXATTR_E", LINX_EVENT_TYPE_LREMOVEXATTR_E);
   ("LREMOVEXATTR_X", LINX_EVENT_TYPE_LREMOVEXATTR_X); ("FREMOVEXATTR_E", LINX_EVENT_TYPE_FREMOVEXATTR_E);
   ("FREMOVEXATTR_X", LINX_EVENT_TYPE_FREMOVEXATTR_X); ("TKILL_E", LINX_EVENT_TYPE_TKILL_E);
   ("TKILL_X", LINX_EVENT_TYPE_TKILL_X); ("TIME_E", LINX_EVENT_TYPE_TIME_E); ("TIME_X", LINX_EVENT_TYPE_TIME_X);
   ("FUTEX_E", LINX_EVENT_TYPE_FUTEX_E); ("FUTEX_X", LINX_EVENT_TYPE_FUTEX_X);
   ("SCHED_SETAFFINITY_E", LINX_EVENT_TYPE_SCHED_SETAFFINITY_E);
   ("SCHED_SETAFFINITY_X", LINX_EVENT_TYPE_SCHED_SETAFFINITY_X);
   ("SCHED_GETAFFINITY_E", LINX_EVENT_TYPE_SCHED_GETAFFINITY_E);
   ("SCHED_GETAFFINITY_X", LINX_EVENT_TYPE_SCHED_GETAFFINITY_X);
   ("SET_THREAD_AREA_E", LINX_EVENT_TYPE_SET_THREAD_AREA_E); ("SET_THREAD_AREA_X", LINX_EVENT_TYPE_SET_THREAD_AREA_X);
   ("IO_SETUP_E", LINX_EVENT_TYPE_IO_SETUP_E); ("IO_SETUP_X", LINX_EVENT_TYPE_IO_SETUP_X);
   ("IO_DESTROY_E", LINX_EVENT_TYPE_IO_DESTROY_E); ("IO_DESTROY_X", LINX_EVENT_TYPE_IO_DESTROY_X);
   ("IO_GETEVENTS_E", LINX_EVENT_TYPE_IO_GETEVENTS_E); ("IO_GETEVENTS_X", LINX_EVENT_TYPE_IO_GETEVENTS_X);
   ("IO_SUBMIT_E", LINX_EVENT_TYPE_IO_SUBMIT_E); ("IO_SUBMIT_X", LINX_EVENT_TYPE_IO_SUBMIT_X);
   ("IO_CANCEL_E", LINX_EVENT_TYPE_IO_CANCEL_E); ("IO_CANCEL_X", LINX_EVENT_TYPE_IO_CANCEL_X);
   ("GET_THREAD_AREA_E", LINX_EVENT_TYPE_GET_THREAD_AREA_E); ("GET_THREAD_AREA_X", LINX_EVENT_TYPE_GET_THREAD_AREA_X);
   ("LOOKUP_DCOOKIE_E", LINX_EVENT_TYPE_LOOKUP_DCOOKIE_E); ("LOOKUP_DCOOKIE_X", LINX_EVENT_TYPE_LOOKUP_DCOOKIE_X);
   ("EPOLL_CREATE_E", LINX_EVENT_TYPE_EPOLL_CREATE_E); ("EPOLL_CREATE_X", LINX_EVENT_TYPE_EPOLL_CREATE_X);
   ("REMAP_FILE_PAGES_E", LINX_EVENT_TYPE_REMAP_FILE_PAGES_E);
   ("REMAP_FILE_PAGES_X", LINX_EVENT_TYPE_REMAP_FILE_PAGES_X); ("GETDENTS64_E", LINX_EVENT_TYPE_GETDENTS64_E);
   ("GETDENTS64_X", LINX_EVENT_TYPE_GETDENTS64_X); ("SET_TID_ADDRESS_E", LINX_EVENT_TYPE_SET_TID_ADDRESS_E);
   ("SET_TID_ADDRESS_X", LINX_EVENT_TYPE_SET_TID_ADDRESS_X); ("RESTART_SYSCALL_E", LINX_EVENT_TYPE_RESTART_SYSCALL_E);
   ("RESTART_SYSCALL_X", LINX_EVENT_TYPE_RESTART_SYSCALL_X); ("SEMTIMEDOP_E", LINX_EVENT_TYPE_SEMTIMEDOP_E);
   ("SEMTIMEDOP_X", LINX_EVENT_TYPE_SEMTIMEDOP_X); ("FADVISE64_E", LINX_EVENT_TYPE_FADVISE64_E);
   ("FADVISE64_X", LINX_EVENT_TYPE_FADVISE64_X); ("TIMER_CREATE_E", LINX_EVENT_TYPE_TIMER_CREATE_E);
   ("TIMER_CREATE_X", LINX_EVENT_TYPE_TIMER_CREATE_X); ("TIMER_SETTIME_E", LINX_EVENT_TYPE_TIMER_SETTIME_E);
   ("TIMER_SETTIME_X", LINX_EVENT_TYPE_TIMER_SETTIME_X); ("TIMER_GETTIME_E", LINX_EVENT_TYPE_TIMER_GETTIME_E)].

Definition linx_event_types_4 : list (string * Z) :=
  [("TIMER_GETTIME_X", LINX_EVENT_TYPE_TIMER_GETTIME_X); ("TIMER_GETOVERRUN_E", LINX_EVENT_TYPE_TIMER_GETOVERRUN_E);
   ("TIMER_GETOVERRUN_X", LINX_EVENT_TYPE_TIMER_GETOVERRUN_X); ("TIMER_DELETE_E", LINX_EVENT_TYPE_TIMER_DELETE_E);
   ("TIMER_DELETE_X", LINX_EVENT_TYPE_TIMER_DELETE_X); ("CLOCK_SETTIME_E", LINX_EVENT_TYPE_CLOCK_SETTIME_E);
   ("CLOCK_SETTIME_X", LINX_EVENT_TYPE_CLOCK_SETTIME_X); ("CLOCK_GETTIME_E", LINX_EVENT_TYPE_CLOCK_GETTIME_E);
   ("CLOCK_GETTIME_X", LINX_EVENT_TYPE_CLOCK_GETTIME_X); ("CLOCK_GETRES_E", LINX_EVENT_TYPE_CLOCK_GETRES_E);
   ("CLOCK_GETRES_X", LINX_EVENT_TYPE_CLOCK_GETRES_X); ("CLOCK_NANOSLEEP_E", LINX_EVENT_TYPE_CLOCK_NANOSLEEP_E);
   ("CLOCK_NANOSLEEP_X", LINX_EVENT_TYPE_CLOCK_NANOSLEEP_X); ("EXIT_GROUP_E", LINX_EVENT_TYPE_EXIT_GROUP_E);
   ("EXIT_GROUP_X", LINX_EVENT_TYPE_EXIT_GROUP_X); ("EPOLL_WAIT_E", LINX_EVENT_TYPE_EPOLL_WAIT_E);
   ("EPOLL_WAIT_X", LINX_EVENT_TYPE_EPOLL_WAIT_X); ("EPOLL_CTL_E", LINX_EVENT_TYPE_EPOLL_CTL_E);
   ("EPOLL_CTL_X", LINX_EVENT_TYPE_EPOLL_CTL_X); ("TGKILL_E", LINX_EVENT_TYPE_TGKILL_E);
   ("TGKILL_X", LINX_EVENT_TYPE_TGKILL_X); ("UTIMES_E", LINX_EVENT_TYPE_UTIMES_E);
   ("UTIMES_X", LINX_EVENT_TYPE_UTIMES_X); ("MBIND_E", LINX_EVENT_TYPE_MBIND_E); ("MBIND_X", LINX_EVENT_TYPE_MBIND_X);
   ("SET_MEMPOLICY_E", LINX_EVENT_TYPE_SET_MEMPOLICY_E); ("SET_MEMPOLICY_X", LINX_EVENT_TYPE_SET_MEMPOLICY_X);
   ("GET_MEMPOLICY_E", LINX_EVENT_TYPE_GET_MEMPOLICY_E); ("GET_MEMPOLICY_X", LINX_EVENT_TYPE_GET_MEMPOLICY_X);
   ("MQ_OPEN_E", LINX_EVENT_TYPE_MQ_OPEN_E); ("MQ_OPEN_X", LINX_EVENT_TYPE_MQ_OPEN_X);
   ("MQ_UNLINK_E", LINX_EVENT_TYPE_MQ_UNLINK_E); ("MQ_UNLINK_X", LINX_EVENT_TYPE_MQ_UNLINK_X);
   ("MQ_TIMEDSEND_E", LINX_EVENT_TYPE_MQ_TIMEDSEND_E); ("MQ_TIMEDSEND_X", LINX_EVENT_TYPE_MQ_TIMEDSEND_X);
   ("MQ_TIMEDRECEIVE_E", LINX_EVENT_TYPE_MQ_TIMEDRECEIVE_E); ("MQ_TIMEDRECEIVE_X", LINX_EVENT_TYPE_MQ_TIMEDRECEIVE_X);
   ("MQ_NOTIFY_E", LINX_EVENT_TYPE_MQ_NOTIFY_E); ("MQ_NOTIFY_X", LINX_EVENT_TYPE_MQ_NOTIFY_X);
   ("MQ_GETSETATTR_E", LINX_EVENT_TYPE_MQ_GETSETATTR_E); ("MQ_GETSETATTR_X", LINX_EVENT_TYPE_MQ_GETSETATTR_X);
   ("KEXEC_LOAD_E", LINX_EVENT_TYPE_KEXEC_LOAD_E); ("KEXEC_LOAD_X", LINX_EVENT_TYPE_KEXEC_LOAD_X);
   ("WAITID_E", LINX_EVENT_TYPE_WAITID_E); ("WAITID_X", LINX_EVENT_TYPE_WAITID_X);
   ("ADD_KEY_E", LINX_EVENT_TYPE_ADD_KEY_E); ("ADD_KEY_X", LINX_EVENT_TYPE_ADD_KEY_X);
   ("REQUEST_KEY_E", LINX_EVENT_TYPE_REQUEST_KEY_E); ("REQUEST_KEY_X", LINX_EVENT_TYPE_REQUEST_KEY_X);
   ("KEYCTL_E", LINX_EVENT_TYPE_KEYCTL_E); ("KEYCTL_X", LINX_EVENT_TYPE_KEYCTL_X);
   ("IOPRIO_SET_E", LINX_EVENT_TYPE_IOPRIO_SET_E); ("IOPRIO_SET_X", LINX_EVENT_TYPE_IOPRIO_SET_X);
   ("IOPRIO_GET_E", LINX_EVENT_TYPE_IOPRIO_GET_E); ("IOPRIO_GET_X", LINX_EVENT_TYPE_IOPRIO_GET_X);
   ("INOTIFY_INIT_E", LINX_EVENT_TYPE_INOTIFY_INIT_E); ("INOTIFY_INIT_X", LINX_EVENT_TYPE_INOTIFY_INIT_X);
   ("INOTIFY_ADD_WATCH_E", LINX_EVENT_TYPE_INOTIFY_ADD_WATCH_E);
   ("INOTIFY_ADD_WATCH_X", LINX_EVENT_TYPE_INOTIFY_ADD_WATCH_X);
   ("INOTIFY_RM_WATCH_E", LINX_EVENT_TYPE_INOTIFY_RM_WATCH_E);
   ("INOTIFY_RM_WATCH_X", LINX_EVENT_TYPE_INOTIFY_RM_WATCH_X); ("MIGRATE_PAGES_E", LINX_EVENT_TYPE_MIGRATE_PAGES_E);
   ("MIGRATE_PAGES_X", LINX_EVENT_TYPE_MIGRATE_PAGES_X); ("OPENAT_E", LINX_EVENT_TYPE_OPENAT_E);
   ("OPENAT_X", LINX_EVENT_TYPE_OPENAT_X); ("MKDIRAT_E", LINX_EVENT_TYPE_MKDIRAT_E);
   ("MKDIRAT_X", LINX_EVENT_TYPE_MKDIRAT_X); ("MKNODAT_E", LINX_EVENT_TYPE_MKNODAT_E);
   ("MKNODAT_X", LINX_EVENT_TYPE_MKNODAT_X); ("FCHOWNAT_E", LINX_EVENT_TYPE_FCHOWNAT_E);
   ("FCHOWNAT_X", LINX_EVENT_TYPE_FCHOWNAT_X); ("FUTIMESAT_E", LINX_EVENT_TYPE_FUTIMESAT_E);
   ("FUTIMESAT_X", LINX_EVENT_TYPE_FUTIMESAT_X); ("NEWFSTATAT_E", LINX_EVENT_TYPE_NEWFSTATAT_E);
   ("NEWFSTATAT_X", LINX_EVENT_TYPE_NEWFSTATAT_X); ("UNLINKAT_E", LINX_EVENT_TYPE_UNLINKAT_E);
   ("UNLINKAT_X", LINX_EVENT_TYPE_UNLINKAT_X); ("RENAMEAT_E", LINX_EVENT_TYPE_RENAMEAT_E);
   ("RENAMEAT_X", LINX_EVENT_TYPE_RENAMEAT_X); ("LINKAT_E", LINX_EVENT_TYPE_LINKAT_E);
   ("LINKAT_X", LINX_EVENT_TYPE_LINKAT_X); ("SYMLINKAT_E", LINX_EVENT_TYPE_SYMLINKAT_E);
   ("SYMLINKAT_X", LINX_EVENT_TYPE_SYMLINKAT_X); ("READLINKAT_E", LINX_EVENT_TYPE_READLINKAT_E);
   ("READLINKAT_X", LINX_EVENT_TYPE_READLINKAT_X); ("FCHMODAT_E", LINX_EVENT_TYPE_FCHMODAT_E);
   ("FCHMODAT_X", LINX_EVENT_TYPE_FCHMODAT_X); ("FACCESSAT_E", LINX_EVENT_TYPE_FACCESSAT_E);
   ("FACCESSAT_X", LINX_EVENT_TYPE_FACCESSAT_X); ("PSELECT6_E", LINX_EVENT_TYPE_PSELECT6_E);
   ("PSELECT6_X", LINX_EVENT_TYPE_PSELECT6_X); ("PPOLL_E", LINX_EVENT_TYPE_PPOLL_E);
   ("PPOLL_X", LINX_EVENT_TYPE_PPOLL_X); ("UNSHARE_E", LINX_EVENT_TYPE_UNSHARE_E);
   ("UNSHARE_X", LINX_EVENT_TYPE_UNSHARE_X); ("SET_ROBUST_LIST_E", LINX_EVENT_TYPE_SET_ROBUST_LIST_E);
   ("SET_ROBUST_LIST_X", LINX_EVENT_TYPE_SET_ROBUST_LIST_X); ("GET_ROBUST_LIST_E", LINX_EVENT_TYPE_GET_ROBUST_LIST_E);
   ("GET_ROBUST_LIST_X", LINX_EVENT_TYPE_GET_ROBUST_LIST_X); ("SPLICE_E", LINX_EVENT_TYPE_SPLICE_E);
   ("SPLICE_X", LINX_EVENT_TYPE_SPLICE_X); ("TEE_E", LINX_EVENT_TYPE_TEE_E); ("TEE_X", LINX_EVENT_TYPE_TEE_X);
   ("SYNC_FILE_RANGE_E", LINX_EVENT_TYPE_SYNC_FILE_RANGE_E); ("SYNC_FILE_RANGE_X", LINX_EVENT_TYPE_SYNC_FILE_RANGE_X);
   ("VMSPLICE_E", LINX_EVENT_TYPE_VMSPLICE_E); ("VMSPLICE_X", LINX_EVENT_TYPE_VMSPLICE_X);
   ("MOVE_PAGES_E", LINX_EVENT_TYPE_MOVE_PAGES_E); ("MOVE_PAGES_X", LINX_EVENT_TYPE_MOVE_PAGES_X);
   ("UTIMENSAT_E", LINX_EVENT_TYPE_UTIMENSAT_E); ("UTIMENSAT_X", LINX_EVENT_TYPE_UTIMENSAT_X);
   ("EPOLL_PWAIT_E", LINX_EVENT_TYPE_EPOLL_PWAIT_E); ("EPOLL_PWAIT_X", LINX_EVENT_TYPE_EPOLL_PWAIT_X);
   ("SIGNALFD_E", LINX_EVENT_TYPE_SIGNALFD_E); ("SIGNALFD_X", LINX_EVENT_TYPE_SIGNALFD_X);
   ("TIMERFD_CREATE_E", LINX_EVENT_TYPE_TIMERFD_CREATE_E); ("TIMERFD_CREATE_X", LINX_EVENT_TYPE_TIMERFD_CREATE_X);
   ("EVENTFD_E", LINX_EVENT_TYPE_EVENTFD_E); ("EVENTFD_X", LINX_EVENT_TYPE_EVENTFD_X);
   ("FALLOCATE_E", LINX_EVENT_TYPE_FALLOCATE_E); ("FALLOCATE_X", LINX_EVENT_TYPE_FALLOCATE_X);
   ("TIMERFD_SETTIME_E", LINX_EVENT_TYPE_TIMERFD_SETTIME_E); ("TIMERFD_SETTIME_X", LINX_EVENT_TYPE_TIMERFD_SETTIME_X);
   ("TIMERFD_GETTIME_E", LINX_EVENT_TYPE_TIMERFD_GETTIME_E); ("TIMERFD_GETTIME_X", LINX_EVENT_TYPE_TIMERFD_GETTIME_X);
   ("ACCEPT4_E", LINX_EVENT_TYPE_ACCEPT4_E); ("ACCEPT4_X", LINX_EVENT_TYPE_ACCEPT4_X);
   ("SIGNALFD4_E", LINX_EVENT_TYPE_SIGNALFD4_E); ("SIGNALFD4_X", LINX_EVENT_TYPE_SIGNALFD4_X);
   ("EVENTFD2_E", LINX_EVENT_TYPE_EVENTFD2_E); ("EVENTFD2_X", LINX_EVENT_TYPE_EVENTFD2_X);
   ("EPOLL_CREATE1_E", LINX_EVENT_TYPE_EPOLL_CREATE1_E); ("EPOLL_CREATE1_X", LINX_EVENT_TYPE_EPOLL_CREATE1_X);
   ("DUP3_E", LINX_EVENT_TYPE_DUP3_E); ("DUP3_X", LINX_EVENT_TYPE_DUP3_X); ("PIPE2_E", LINX_EVENT_TYPE_PIPE2_E);
   ("PIPE2_X", LINX_EVENT_TYPE_PIPE2_X); ("INOTIFY_INIT1_E", LINX_EVENT_TYPE_INOTIFY_INIT1_E);
   ("INOTIFY_INIT1_X", LINX_EVENT_TYPE_INOTIFY_INIT1_X); ("PREADV_E", LINX_EVENT_TYPE_PREADV_E);
   ("PREADV_X", LINX_EVENT_TYPE_PREADV_X); ("PWRITEV_E", LINX_EVENT_TYPE_PWRITEV_E);
   ("PWRITEV_X", LINX_EVENT_TYPE_PWRITEV_X); ("RT_TGSIGQUEUEINFO_E", LINX_EVENT_TYPE_RT_TGSIGQUEUEINFO_E);
   ("RT_TGSIGQUEUEINFO_X", LINX_EVENT_TYPE_RT_TGSIGQUEUEINFO_X)].

Definition linx_event_types_5 : list (string * Z) :=
  [("PERF_EVENT_OPEN_E", LINX_EVENT_TYPE_PERF_EVENT_OPEN_E); ("PERF_EVENT_OPEN_X", LINX_EVENT_TYPE_PERF_EVENT_OPEN_X);
   ("RECVMMSG_E", LINX_EVENT_TYPE_RECVMMSG_E); ("RECVMMSG_X", LINX_EVENT_TYPE_RECVMMSG_X);
   ("FANOTIFY_INIT_E", LINX_EVENT_TYPE_FANOTIFY_INIT_E); ("FANOTIFY_INIT_X", LINX_EVENT_TYPE_FANOTIFY_INIT_X);
   ("FANOTIFY_MARK_E", LINX_EVENT_TYPE_FANOTIFY_MARK_E); ("FANOTIFY_MARK_X", LINX_EVENT_TYPE_FANOTIFY_MARK_X);
   ("PRLIMIT64_E", LINX_EVENT_TYPE_PRLIMIT64_E); ("PRLIMIT64_X", LINX_EVENT_TYPE_PRLIMIT64_X);
   ("NAME_TO_HANDLE_AT_E", LINX_EVENT_TYPE_NAME_TO_HANDLE_AT_E);
   ("NAME_TO_HANDLE_AT_X", LINX_EVENT_TYPE_NAME_TO_HANDLE_AT_X);
   ("OPEN_BY_HANDLE_AT_E", LINX_EVENT_TYPE_OPEN_BY_HANDLE_AT_E);
   ("OPEN_BY_HANDLE_AT_X", LINX_EVENT_TYPE_OPEN_BY_HANDLE_AT_X); ("CLOCK_ADJTIME_E", LINX_EVENT_TYPE_CLOCK_ADJTIME_E);
   ("CLOCK_ADJTIME_X", LINX_EVENT_TYPE_CLOCK_ADJTIME_X); ("SYNCFS_E", LINX_EVENT_TYPE_SYNCFS_E);
   ("SYNCFS_X", LINX_EVENT_TYPE_SYNCFS_X); ("SENDMMSG_E", LINX_EVENT_TYPE_SENDMMSG_E);
   ("SENDMMSG_X", LINX_EVENT_TYPE_SENDMMSG_X); ("SETNS_E", LINX_EVENT_TYPE_SETNS_E);
   ("SETNS_X", LINX_EVENT_TYPE_SETNS_X); ("GETCPU_E", LINX_EVENT_TYPE_GETCPU_E);
   ("GETCPU_X", LINX_EVENT_TYPE_GETCPU_X); ("PROCESS_VM_READV_E", LINX_EVENT_TYPE_PROCESS_VM_READV_E);
   ("PROCESS_VM_READV_X", LINX_EVENT_TYPE_PROCESS_VM_READV_X);
   ("PROCESS_VM_WRITEV_E", LINX_EVENT_TYPE_PROCESS_VM_WRITEV_E);
   ("PROCESS_VM_WRITEV_X", LINX_EVENT_TYPE_PROCESS_VM_WRITEV_X); ("KCMP_E", LINX_EVENT_TYPE_KCMP_E);
   ("KCMP_X", LINX_EVENT_TYPE_KCMP_X); ("FINIT_MODULE_E", LINX_EVENT_TYPE_FINIT_MODULE_E);
   ("FINIT_MODULE_X", LINX_EVENT_TYPE_FINIT_MODULE_X); ("SCHED_SETATTR_E", LINX_EVENT_TYPE_SCHED_SETATTR_E);
   ("SCHED_SETATTR_X", LINX_EVENT_TYPE_SCHED_SETATTR_X); ("SCHED_GETATTR_E", LINX_EVENT_TYPE_SCHED_GETATTR_E);
   ("SCHED_GETATTR_X", LINX_EVENT_TYPE_SCHED_GETATTR_X); ("RENAMEAT2_E", LINX_EVENT_TYPE_RENAMEAT2_E);
   ("RENAMEAT2_X", LINX_EVENT_TYPE_RENAMEAT2_X); ("SECCOMP_E", LINX_EVENT_TYPE_SECCOMP_E);
   ("SECCOMP_X", LINX_EVENT_TYPE_SECCOMP_X); ("GETRANDOM_E", LINX_EVENT_TYPE_GETRANDOM_E);
   ("GETRANDOM_X", LINX_EVENT_TYPE_GETRANDOM_X); ("MEMFD_CREATE_E", LINX_EVENT_TYPE_MEMFD_CREATE_E);
   ("MEMFD_CREATE_X", LINX_EVENT_TYPE_MEMFD_CREATE_X); ("KEXEC_FILE_LOAD_E", LINX_EVENT_TYPE_KEXEC_FILE_LOAD_E);
   ("KEXEC_FILE_LOAD_X", LINX_EVENT_TYPE_KEXEC_FILE_LOAD_X); ("BPF_E", LINX_EVENT_TYPE_BPF_E);
   ("BPF_X", LINX_EVENT_TYPE_BPF_X); ("EXECVEAT_E", LINX_EVENT_TYPE_EXECVEAT_E);
   ("EXECVEAT_X", LINX_EVENT_TYPE_EXECVEAT_X); ("USERFAULTFD_E", LINX_EVENT_TYPE_USERFAULTFD_E);
   ("USERFAULTFD_X", LINX_EVENT_TYPE_USERFAULTFD_X); ("MEMBARRIER_E", LINX_EVENT_TYPE_MEMBARRIER_E);
   ("MEMBARRIER_X", LINX_EVENT_TYPE_MEMBARRIER_X); ("MLOCK2_E", LINX_EVENT_TYPE_MLOCK2_E);
   ("MLOCK2_X", LINX_EVENT_TYPE_MLOCK2_X); ("COPY_FILE_RANGE_E", LINX_EVENT_TYPE_COPY_FILE_RANGE_E);
   ("COPY_FILE_RANGE_X", LINX_EVENT_TYPE_COPY_FILE_RANGE_X); ("PREADV2_E", LINX_EVENT_TYPE_PREADV2_E);
   ("PREADV2_X", LINX_EVENT_TYPE_PREADV2_X); ("PWRITEV2_E", LINX_EVENT_TYPE_PWRITEV2_E);
   ("PWRITEV2_X", LINX_EVENT_TYPE_PWRITEV2_X); ("PKEY_MPROTECT_E", LINX_EVENT_TYPE_PKEY_MPROTECT_E);
   ("PKEY_MPROTECT_X", LINX_EVENT_TYPE_PKEY_MPROTECT_X); ("PKEY_ALLOC_E", LINX_EVENT_TYPE_PKEY_ALLOC_E);
   ("PKEY_ALLOC_X", LINX_EVENT_TYPE_PKEY_ALLOC_X); ("PKEY_FREE_E", LINX_EVENT_TYPE_PKEY_FREE_E);
   ("PKEY_FREE_X", LINX_EVENT_TYPE_PKEY_FREE_X); ("STATX_E", LINX_EVENT_TYPE_STATX_E);
   ("STATX_X", LINX_EVENT_TYPE_STATX_X); ("IO_PGETEVENTS_E", LINX_EVENT_TYPE_IO_PGETEVENTS_E);
   ("IO_PGETEVENTS_X", LINX_EVENT_TYPE_IO_PGETEVENTS_X); ("RSEQ_E", LINX_EVENT_TYPE_RSEQ_E);
   ("RSEQ_X", LINX_EVENT_TYPE_RSEQ_X); ("PIDFD_SEND_SIGNAL_E", LINX_EVENT_TYPE_PIDFD_SEND_SIGNAL_E);
   ("PIDFD_SEND_SIGNAL_X", LINX_EVENT_TYPE_PIDFD_SEND_SIGNAL_X);
   ("IO_URING_SETUP_E", LINX_EVENT_TYPE_IO_URING_SETUP_E); ("IO_URING_SETUP_X", LINX_EVENT_TYPE_IO_URING_SETUP_X);
   ("IO_URING_ENTER_E", LINX_EVENT_TYPE_IO_URING_ENTER_E); ("IO_URING_ENTER_X", LINX_EVENT_TYPE_IO_URING_ENTER_X);
   ("IO_URING_REGISTER_E", LINX_EVENT_TYPE_IO_URING_REGISTER_E);
   ("IO_URING_REGISTER_X", LINX_EVENT_TYPE_IO_URING_REGISTER_X); ("OPEN_TREE_E", LINX_EVENT_TYPE_OPEN_TREE_E);
   ("OPEN_TREE_X", LINX_EVENT_TYPE_OPEN_TREE_X); ("MOVE_MOUNT_E", LINX_EVENT_TYPE_MOVE_MOUNT_E);
   ("MOVE_MOUNT_X", LINX_EVENT_TYPE_MOVE_MOUNT_X); ("FSOPEN_E", LINX_EVENT_TYPE_FSOPEN_E);
   ("FSOPEN_X", LINX_EVENT_TYPE_FSOPEN_X); ("FSCONFIG_E", LINX_EVENT_TYPE_FSCONFIG_E);
   ("FSCONFIG_X", LINX_EVENT_TYPE_FSCONFIG_X); ("FSMOUNT_E", LINX_EVENT_TYPE_FSMOUNT_E);
   ("FSMOUNT_X", LINX_EVENT_TYPE_FSMOUNT_X); ("FSPICK_E", LINX_EVENT_TYPE_FSPICK_E);
   ("FSPICK_X", LINX_EVENT_TYPE_FSPICK_X); ("PIDFD_OPEN_E", LINX_EVENT_TYPE_PIDFD_OPEN_E);
   ("PIDFD_OPEN_X", LINX_EVENT_TYPE_PIDFD_OPEN_X); ("CLONE3_E", LINX_EVENT_TYPE_CLONE3_E);
   ("CLONE3_X", LINX_EVENT_TYPE_CLONE3_X); ("CLOSE_RANGE_E", LINX_EVENT_TYPE_CLOSE_RANGE_E);
   ("CLOSE_RANGE_X", LINX_EVENT_TYPE_CLOSE_RANGE_X); ("OPENAT2_E", LINX_EVENT_TYPE_OPENAT2_E);
   ("OPENAT2_X", LINX_EVENT_TYPE_OPENAT2_X); ("PIDFD_GETFD_E", LINX_EVENT_TYPE_PIDFD_GETFD_E);
   ("PIDFD_GETFD_X", LINX_EVENT_TYPE_PIDFD_GETFD_X); ("FACCESSAT2_E", LINX_EVENT_TYPE_FACCESSAT2_E);
   ("FACCESSAT2_X", LINX_EVENT_TYPE_FACCESSAT2_X); ("PROCESS_MADVISE_E", LINX_EVENT_TYPE_PROCESS_MADVISE_E);
   ("PROCESS_MADVISE_X", LINX_EVENT_TYPE_PROCESS_MADVISE_X); ("EPOLL_PWAIT2_E", LINX_EVENT_TYPE_EPOLL_PWAIT2_E);
   ("EPOLL_PWAIT2_X", LINX_EVENT_TYPE_EPOLL_PWAIT2_X); ("MOUNT_SETATTR_E", LINX_EVENT_TYPE_MOUNT_SETATTR_E);
   ("MOUNT_SETATTR_X", LINX_EVENT_TYPE_MOUNT_SETATTR_X); ("QUOTACTL_FD_E", LINX_EVENT_TYPE_QUOTACTL_FD_E);
   ("QUOTACTL_FD_X", LINX_EVENT_TYPE_QUOTACTL_FD_X);
   ("LANDLOCK_CREATE_RULESET_E", LINX_EVENT_TYPE_LANDLOCK_CREATE_RULESET_E);
   ("LANDLOCK_CREATE_RULESET_X", LINX_EVENT_TYPE_LANDLOCK_CREATE_RULESET_X);
   ("LANDLOCK_ADD_RULE_E", LINX_EVENT_TYPE_LANDLOCK_ADD_RULE_E);
   ("LANDLOCK_ADD_RULE_X", LINX_EVENT_TYPE_LANDLOCK_ADD_RULE_X);
   ("LANDLOCK_RESTRICT_SELF_E", LINX_EVENT_TYPE_LANDLOCK_RESTRICT_SELF_E);
   ("LANDLOCK_RESTRICT_SELF_X", LINX_EVENT_TYPE_LANDLOCK_RESTRICT_SELF_X);
   ("MEMFD_SECRET_E", LINX_EVENT_TYPE_MEMFD_SECRET_E); ("MEMFD_SECRET_X", LINX_EVENT_TYPE_MEMFD_SECRET_X);
   ("PROCESS_MRELEASE_E", LINX_EVENT_TYPE_PROCESS_MRELEASE_E);
   ("PROCESS_MRELEASE_X", LINX_EVENT_TYPE_PROCESS_MRELEASE_X); ("FUTEX_WAITV_E", LINX_EVENT_TYPE_FUTEX_WAITV_E);
   ("FUTEX_WAITV_X", LINX_EVENT_TYPE_FUTEX_WAITV_X);
   ("SET_MEMPOLICY_HOME_NODE_E", LINX_EVENT_TYPE_SET_MEMPOLICY_HOME_NODE_E);
   ("SET_MEMPOLICY_HOME_NODE_X", LINX_EVENT_TYPE_SET_MEMPOLICY_HOME_NODE_X);
   ("CACHESTAT_E", LINX_EVENT_TYPE_CACHESTAT_E); ("CACHESTAT_X", LINX_EVENT_TYPE_CACHESTAT_X);
   ("FCHMODAT2_E", LINX_EVENT_TYPE_FCHMODAT2_E); ("FCHMODAT2_X", LINX_EVENT_TYPE_FCHMODAT2_X)].

Definition linx_event_types : list (string * Z) := linx_event_types_1 ++ linx_event_types_2 ++ linx_event_types_3 ++ linx_event_types_4 ++ linx_event_types_5.
