(* ===== verification/EventTable.v ===== *)
(** * Event table (include/linx_event_table.h, include/linx_event_type.h,
    include/linx_field_type.h, userspace/linx_event_table/linx_event_table.c)

    The table [g_linx_event_table] gives, for every event type, the name of
    the system call and the name and type of each parameter.  Entry [2 * k] is
    the entry event of system call [k] and entry [2 * k + 1] its exit event.
    The table is written in chunks that follow the source line by line; each
    pair gives the value of the enumerator in brackets and the initialiser. *)
From S2P Require Import Prelude CString EventType.

(** [linx_field_type_t] *)
Inductive linx_field_type_t :=
  | LINX_FIELD_TYPE_UNKNOWN
  | LINX_FIELD_TYPE_INT8
  | LINX_FIELD_TYPE_UINT8
  | LINX_FIELD_TYPE_INT16
  | LINX_FIELD_TYPE_UINT16
  | LINX_FIELD_TYPE_INT32
  | LINX_FIELD_TYPE_UINT32
  | LINX_FIELD_TYPE_INT64
  | LINX_FIELD_TYPE_UINT64
  | LINX_FIELD_TYPE_CHARBUF
  | LINX_FIELD_TYPE_BYTEBUF
  | LINX_FIELD_TYPE_CHARBUF_ARRAY
  | LINX_FIELD_TYPE_CHARBUF_PAIR_ARRAY
  | LINX_FIELD_TYPE_BYTEBUF_ARRAY
  | LINX_FIELD_TYPE_BOOL
  | LINX_FIELD_TYPE_FLOAT
  | LINX_FIELD_TYPE_DOUBLE
  | LINX_FIELD_TYPE_UID
  | LINX_FIELD_TYPE_PID
  | LINX_FIELD_TYPE_SOCKTUPLE
  | LINX_FIELD_TYPE_STRUCT.

#[export] Instance linx_field_type_eq_dec : EqDecision linx_field_type_t.
Proof. solve_decision. Defined.

(** [linx_param_info_t] *)
Record linx_param_info_t := mk_param {
  lp_name : string;
  lp_type : linx_field_type_t
}.

(** [linx_event_table_t] *)
Record linx_event_table_t := mk_event {
  le_name : string;
  le_nparams : Z;
  le_params : list linx_param_info_t
}.

#[local] Notation "'{' n ; t '}'" := (mk_param n t) (at level 0, only parsing).
#[local] Abbreviation ev n k l := (mk_event n k l) (only parsing).
#[local] Open Scope Z_scope.


(** linx_event_table.c, lines 4 to 152 *)
Definition event_table_01 : list (Z * linx_event_table_t) := [
  (0, ev "read" 2 [{"fd"; LINX_FIELD_TYPE_INT64}; {"size"; LINX_FIELD_TYPE_UINT32}]);
  (1, ev "read" 4 [
      {"res"; LINX_FIELD_TYPE_INT64};
      {"data"; LINX_FIELD_TYPE_BYTEBUF};
      {"fd"; LINX_FIELD_TYPE_INT64};
      {"size"; LINX_FIELD_TYPE_UINT32}]);
  (2, ev "write" 2 [{"fd"; LINX_FIELD_TYPE_INT64}; {"size"; LINX_FIELD_TYPE_UINT32}]);
  (3, ev "write" 4 [
      {"res"; LINX_FIELD_TYPE_INT64};
      {"data"; LINX_FIELD_TYPE_BYTEBUF};
      {"fd"; LINX_FIELD_TYPE_INT64};
      {"size"; LINX_FIELD_TYPE_UINT32}]);
  (4, ev "open" 0 []);
  (5, ev "open" 3 [
      {"filename"; LINX_FIELD_TYPE_CHARBUF};
      {"flags"; LINX_FIELD_TYPE_INT32};
      {"mode"; LINX_FIELD_TYPE_UINT16}]);
  (6, ev "close" 0 []);
  (7, ev "close" 1 [{"fd"; LINX_FIELD_TYPE_UINT32}]);
  (8, ev "stat" 0 []);
  (9, ev "stat" 2 [{"pathname"; LINX_FIELD_TYPE_CHARBUF}; {"buf"; LINX_FIELD_TYPE_UNKNOWN}]);
  (10, ev "fstat" 0 []);
  (11, ev "fstat" 2 [{"fd"; LINX_FIELD_TYPE_UINT32}; {"buf"; LINX_FIELD_TYPE_UNKNOWN}]);
  (12, ev "lstat" 0 []);
  (13, ev "lstat" 2 [{"pathname"; LINX_FIELD_TYPE_CHARBUF}; {"buf"; LINX_FIELD_TYPE_UNKNOWN}]);
  (14, ev "poll" 0 []);
  (15, ev "poll" 3 [
      {"ufds"; LINX_FIELD_TYPE_UNKNOWN};
      {"nfds"; LINX_FIELD_TYPE_UINT32};
      {"timeout_msecs"; LINX_FIELD_TYPE_INT32}]);
  (16, ev "lseek" 0 []);
  (17, ev "lseek" 3 [
      {"fd"; LINX_FIELD_TYPE_UINT32};
      {"offset"; LINX_FIELD_TYPE_INT64};
      {"whence"; LINX_FIELD_TYPE_UINT32}]);
  (18, ev "mmap" 0 []);
  (19, ev "mmap" 6 [
      {"addr"; LINX_FIELD_TYPE_UINT64};
      {"len"; LINX_FIELD_TYPE_UINT64};
      {"prot"; LINX_FIELD_TYPE_UINT64};
      {"flags"; LINX_FIELD_TYPE_UINT64};
      {"fd"; LINX_FIELD_TYPE_UINT64};
      {"off"; LINX_FIELD_TYPE_UINT64}]);
  (20, ev "mprotect" 0 []);
  (21, ev "mprotect" 3 [
      {"start"; LINX_FIELD_TYPE_UINT64};
      {"len"; LINX_FIELD_TYPE_UINT64};
      {"prot"; LINX_FIELD_TYPE_UINT64}]);
  (22, ev "munmap" 0 []);
  (23, ev "munmap" 2 [{"addr"; LINX_FIELD_TYPE_UINT64}; {"len"; LINX_FIELD_TYPE_UINT64}]) ].

(** linx_event_table.c, lines 153 to 298 *)
Definition event_table_02 : list (Z * linx_event_table_t) := [
  (24, ev "brk" 0 []);
  (25, ev "brk" 1 [{"brk"; LINX_FIELD_TYPE_UINT64}]);
  (26, ev "rt_sigaction" 0 []);
  (27, ev "rt_sigaction" 4 [
      {"sig"; LINX_FIELD_TYPE_INT32};
      {"act"; LINX_FIELD_TYPE_UNKNOWN};
      {"oact"; LINX_FIELD_TYPE_UNKNOWN};
      {"sigsetsize"; LINX_FIELD_TYPE_UINT64}]);
  (28, ev "rt_sigprocmask" 0 []);
  (29, ev "rt_sigprocmask" 4 [
      {"how"; LINX_FIELD_TYPE_INT32};
      {"nset"; LINX_FIELD_TYPE_UNKNOWN};
      {"oset"; LINX_FIELD_TYPE_UNKNOWN};
      {"sigsetsize"; LINX_FIELD_TYPE_UINT64}]);
  (30, ev "rt_sigreturn" 0 []);
  (31, ev "rt_sigreturn" 0 []);
  (32, ev "ioctl" 0 []);
  (33, ev "ioctl" 3 [
      {"fd"; LINX_FIELD_TYPE_UINT32};
      {"cmd"; LINX_FIELD_TYPE_UINT32};
      {"arg"; LINX_FIELD_TYPE_UINT64}]);
  (34, ev "pread64" 0 []);
  (35, ev "pread64" 4 [
      {"fd"; LINX_FIELD_TYPE_UINT32};
      {"buf"; LINX_FIELD_TYPE_CHARBUF};
      {"count"; LINX_FIELD_TYPE_UINT64};
      {"pos"; LINX_FIELD_TYPE_INT64}]);
  (36, ev "pwrite64" 0 []);
  (37, ev "pwrite64" 4 [
      {"fd"; LINX_FIELD_TYPE_UINT32};
      {"buf"; LINX_FIELD_TYPE_CHARBUF};
      {"count"; LINX_FIELD_TYPE_UINT64};
      {"pos"; LINX_FIELD_TYPE_INT64}]);
  (38, ev "readv" 0 []);
  (39, ev "readv" 3 [
      {"fd"; LINX_FIELD_TYPE_UINT64};
      {"vec"; LINX_FIELD_TYPE_UNKNOWN};
      {"vlen"; LINX_FIELD_TYPE_UINT64}]);
  (40, ev "writev" 0 []);
  (41, ev "writev" 3 [
      {"fd"; LINX_FIELD_TYPE_UINT64};
      {"vec"; LINX_FIELD_TYPE_UNKNOWN};
      {"vlen"; LINX_FIELD_TYPE_UINT64}]);
  (42, ev "access" 0 []);
  (43, ev "access" 2 [{"filename"; LINX_FIELD_TYPE_CHARBUF}; {"mode"; LINX_FIELD_TYPE_INT32}]);
  (44, ev "pipe" 0 []);
  (45, ev "pipe" 1 [{"fildes"; LINX_FIELD_TYPE_UNKNOWN}]);
  (46, ev "select" 0 []);
  (47, ev "select" 5 [
      {"n"; LINX_FIELD_TYPE_INT32};
      {"inp"; LINX_FIELD_TYPE_UNKNOWN};
      {"outp"; LINX_FIELD_TYPE_UNKNOWN};
      {"exp"; LINX_FIELD_TYPE_UNKNOWN};
      {"tvp"; LINX_FIELD_TYPE_UNKNOWN}]);
  (48, ev "sched_yield" 0 []) ].

(** linx_event_table.c, lines 299 to 447 *)
Definition event_table_03 : list (Z * linx_event_table_t) := [
  (49, ev "sched_yield" 0 []);
  (50, ev "mremap" 0 []);
  (51, ev "mremap" 5 [
      {"addr"; LINX_FIELD_TYPE_UINT64};
      {"old_len"; LINX_FIELD_TYPE_UINT64};
      {"new_len"; LINX_FIELD_TYPE_UINT64};
      {"flags"; LINX_FIELD_TYPE_UINT64};
      {"new_addr"; LINX_FIELD_TYPE_UINT64}]);
  (52, ev "msync" 0 []);
  (53, ev "msync" 3 [
      {"start"; LINX_FIELD_TYPE_UINT64};
      {"len"; LINX_FIELD_TYPE_UINT64};
      {"flags"; LINX_FIELD_TYPE_INT32}]);
  (54, ev "mincore" 0 []);
  (55, ev "mincore" 3 [
      {"start"; LINX_FIELD_TYPE_UINT64};
      {"len"; LINX_FIELD_TYPE_UINT64};
      {"vec"; LINX_FIELD_TYPE_UNKNOWN}]);
  (56, ev "madvise" 0 []);
  (57, ev "madvise" 3 [
      {"start"; LINX_FIELD_TYPE_UINT64};
      {"len_in"; LINX_FIELD_TYPE_UINT64};
      {"behavior"; LINX_FIELD_TYPE_INT32}]);
  (58, ev "shmget" 0 []);
  (59, ev "shmget" 3 [
      {"key"; LINX_FIELD_TYPE_INT32};
      {"size"; LINX_FIELD_TYPE_UINT64};
      {"shmflg"; LINX_FIELD_TYPE_INT32}]);
  (60, ev "shmat" 0 []);
  (61, ev "shmat" 3 [
      {"shmid"; LINX_FIELD_TYPE_INT32};
      {"shmaddr"; LINX_FIELD_TYPE_CHARBUF};
      {"shmflg"; LINX_FIELD_TYPE_INT32}]);
  (62, ev "shmctl" 0 []);
  (63, ev "shmctl" 3 [
      {"shmid"; LINX_FIELD_TYPE_INT32};
      {"cmd"; LINX_FIELD_TYPE_INT32};
      {"buf"; LINX_FIELD_TYPE_UNKNOWN}]);
  (64, ev "dup" 1 [{"fd"; LINX_FIELD_TYPE_INT64}]);
  (65, ev "dup" 2 [{"res"; LINX_FIELD_TYPE_INT64}; {"oldfd"; LINX_FIELD_TYPE_INT64}]);
  (66, ev "dup2" 1 [{"fd"; LINX_FIELD_TYPE_INT64}]);
  (67, ev "dup2" 3 [
      {"res"; LINX_FIELD_TYPE_INT64};
      {"oldfd"; LINX_FIELD_TYPE_INT64};
      {"newfd"; LINX_FIELD_TYPE_INT64}]);
  (68, ev "pause" 0 []);
  (69, ev "pause" 0 []);
  (70, ev "nanosleep" 0 []);
  (71, ev "nanosleep" 2 [{"rqtp"; LINX_FIELD_TYPE_UNKNOWN}; {"rmtp"; LINX_FIELD_TYPE_UNKNOWN}]);
  (72, ev "getitimer" 0 []);
  (73, ev "getitimer" 2 [{"which"; LINX_FIELD_TYPE_INT32}; {"value"; LINX_FIELD_TYPE_UNKNOWN}]) ].

(** linx_event_table.c, lines 448 to 596 *)
Definition event_table_04 : list (Z * linx_event_table_t) := [
  (74, ev "alarm" 0 []);
  (75, ev "alarm" 1 [{"seconds"; LINX_FIELD_TYPE_UINT32}]);
  (76, ev "setitimer" 0 []);
  (77, ev "setitimer" 3 [
      {"which"; LINX_FIELD_TYPE_INT32};
      {"value"; LINX_FIELD_TYPE_UNKNOWN};
      {"ovalue"; LINX_FIELD_TYPE_UNKNOWN}]);
  (78, ev "getpid" 0 []);
  (79, ev "getpid" 0 []);
  (80, ev "sendfile" 0 []);
  (81, ev "sendfile" 4 [
      {"out_fd"; LINX_FIELD_TYPE_INT32};
      {"in_fd"; LINX_FIELD_TYPE_INT32};
      {"offset"; LINX_FIELD_TYPE_UNKNOWN};
      {"count"; LINX_FIELD_TYPE_UINT64}]);
  (82, ev "socket" 0 []);
  (83, ev "socket" 3 [
      {"family"; LINX_FIELD_TYPE_INT32};
      {"type"; LINX_FIELD_TYPE_INT32};
      {"protocol"; LINX_FIELD_TYPE_INT32}]);
  (84, ev "connect" 0 []);
  (85, ev "connect" 3 [
      {"fd"; LINX_FIELD_TYPE_INT32};
      {"uservaddr"; LINX_FIELD_TYPE_UNKNOWN};
      {"addrlen"; LINX_FIELD_TYPE_INT32}]);
  (86, ev "accept" 0 []);
  (87, ev "accept" 3 [
      {"fd"; LINX_FIELD_TYPE_INT32};
      {"upeer_sockaddr"; LINX_FIELD_TYPE_UNKNOWN};
      {"upeer_addrlen"; LINX_FIELD_TYPE_UNKNOWN}]);
  (88, ev "sendto" 3 [
      {"fd"; LINX_FIELD_TYPE_INT64};
      {"size"; LINX_FIELD_TYPE_UINT32};
      {"tuple"; LINX_FIELD_TYPE_SOCKTUPLE}]);
  (89, ev "sendto" 2 [{"res"; LINX_FIELD_TYPE_INT64}; {"data"; LINX_FIELD_TYPE_BYTEBUF}]);
  (90, ev "recvfrom" 2 [{"fd"; LINX_FIELD_TYPE_INT64}; {"size"; LINX_FIELD_TYPE_UINT32}]);
  (91, ev "recvfrom" 3 [
      {"res"; LINX_FIELD_TYPE_INT32};
      {"data"; LINX_FIELD_TYPE_BYTEBUF};
      {"tuple"; LINX_FIELD_TYPE_SOCKTUPLE}]);
  (92, ev "sendmsg" 0 []);
  (93, ev "sendmsg" 3 [
      {"fd"; LINX_FIELD_TYPE_INT32};
      {"msg"; LINX_FIELD_TYPE_UNKNOWN};
      {"flags"; LINX_FIELD_TYPE_UINT32}]);
  (94, ev "recvmsg" 0 []);
  (95, ev "recvmsg" 3 [
      {"fd"; LINX_FIELD_TYPE_INT32};
      {"msg"; LINX_FIELD_TYPE_UNKNOWN};
      {"flags"; LINX_FIELD_TYPE_UINT32}]);
  (96, ev "shutdown" 0 []);
  (97, ev "shutdown" 2 [{"fd"; LINX_FIELD_TYPE_INT32}; {"how"; LINX_FIELD_TYPE_INT32}]);
  (98, ev "bind" 0 []) ].

(** linx_event_table.c, lines 597 to 745 *)
Definition event_table_05 : list (Z * linx_event_table_t) := [
  (99, ev "bind" 3 [
      {"fd"; LINX_FIELD_TYPE_INT32};
      {"umyaddr"; LINX_FIELD_TYPE_UNKNOWN};
      {"addrlen"; LINX_FIELD_TYPE_INT32}]);
  (100, ev "listen" 0 []);
  (101, ev "listen" 2 [{"fd"; LINX_FIELD_TYPE_INT32}; {"backlog"; LINX_FIELD_TYPE_INT32}]);
  (102, ev "getsockname" 0 []);
  (103, ev "getsockname" 3 [
      {"fd"; LINX_FIELD_TYPE_INT32};
      {"usockaddr"; LINX_FIELD_TYPE_UNKNOWN};
      {"usockaddr_len"; LINX_FIELD_TYPE_UNKNOWN}]);
  (104, ev "getpeername" 0 []);
  (105, ev "getpeername" 3 [
      {"fd"; LINX_FIELD_TYPE_INT32};
      {"usockaddr"; LINX_FIELD_TYPE_UNKNOWN};
      {"usockaddr_len"; LINX_FIELD_TYPE_UNKNOWN}]);
  (106, ev "socketpair" 0 []);
  (107, ev "socketpair" 4 [
      {"family"; LINX_FIELD_TYPE_INT32};
      {"type"; LINX_FIELD_TYPE_INT32};
      {"protocol"; LINX_FIELD_TYPE_INT32};
      {"usockvec"; LINX_FIELD_TYPE_UNKNOWN}]);
  (108, ev "setsockopt" 0 []);
  (109, ev "setsockopt" 5 [
      {"fd"; LINX_FIELD_TYPE_INT32};
      {"level"; LINX_FIELD_TYPE_INT32};
      {"optname"; LINX_FIELD_TYPE_INT32};
      {"optval"; LINX_FIELD_TYPE_CHARBUF};
      {"optlen"; LINX_FIELD_TYPE_INT32}]);
  (110, ev "getsockopt" 0 []);
  (111, ev "getsockopt" 5 [
      {"fd"; LINX_FIELD_TYPE_INT32};
      {"level"; LINX_FIELD_TYPE_INT32};
      {"optname"; LINX_FIELD_TYPE_INT32};
      {"optval"; LINX_FIELD_TYPE_CHARBUF};
      {"optlen"; LINX_FIELD_TYPE_UNKNOWN}]);
  (112, ev "clone" 0 []);
  (113, ev "clone" 5 [
      {"clone_flags"; LINX_FIELD_TYPE_UINT64};
      {"newsp"; LINX_FIELD_TYPE_UINT64};
      {"parent_tidptr"; LINX_FIELD_TYPE_UNKNOWN};
      {"child_tidptr"; LINX_FIELD_TYPE_UNKNOWN};
      {"tls"; LINX_FIELD_TYPE_UINT64}]);
  (114, ev "fork" 0 []);
  (115, ev "fork" 0 []);
  (116, ev "vfork" 0 []);
  (117, ev "vfork" 0 []);
  (118, ev "execve" 1 [{"filename"; LINX_FIELD_TYPE_CHARBUF}]);
  (119, ev "execve" 8 [
      {"exe"; LINX_FIELD_TYPE_CHARBUF};
      {"vm_size"; LINX_FIELD_TYPE_UINT32};
      {"vm_rss"; LINX_FIELD_TYPE_UINT32};
      {"comm"; LINX_FIELD_TYPE_CHARBUF};
      {"tty"; LINX_FIELD_TYPE_UINT32};
      {"env"; LINX_FIELD_TYPE_BYTEBUF};
      {"loginuid"; LINX_FIELD_TYPE_UID};
      {"pgid"; LINX_FIELD_TYPE_PID}]);
  (120, ev "exit" 0 []);
  (121, ev "exit" 1 [{"error_code"; LINX_FIELD_TYPE_INT32}]);
  (122, ev "wait4" 0 []) ].

(** linx_event_table.c, lines 746 to 888 *)
Definition event_table_06 : list (Z * linx_event_table_t) := [
  (123, ev "wait4" 4 [
      {"upid"; LINX_FIELD_TYPE_INT32};
      {"stat_addr"; LINX_FIELD_TYPE_UNKNOWN};
      {"options"; LINX_FIELD_TYPE_INT32};
      {"ru"; LINX_FIELD_TYPE_UNKNOWN}]);
  (124, ev "kill" 0 []);
  (125, ev "kill" 2 [{"pid"; LINX_FIELD_TYPE_INT32}; {"sig"; LINX_FIELD_TYPE_INT32}]);
  (126, ev "uname" 0 []);
  (127, ev "uname" 1 [{"name"; LINX_FIELD_TYPE_UNKNOWN}]);
  (128, ev "semget" 0 []);
  (129, ev "semget" 3 [
      {"key"; LINX_FIELD_TYPE_INT32};
      {"nsems"; LINX_FIELD_TYPE_INT32};
      {"semflg"; LINX_FIELD_TYPE_INT32}]);
  (130, ev "semop" 0 []);
  (131, ev "semop" 3 [
      {"semid"; LINX_FIELD_TYPE_INT32};
      {"tsops"; LINX_FIELD_TYPE_UNKNOWN};
      {"nsops"; LINX_FIELD_TYPE_UINT32}]);
  (132, ev "semctl" 0 []);
  (133, ev "semctl" 4 [
      {"semid"; LINX_FIELD_TYPE_INT32};
      {"semnum"; LINX_FIELD_TYPE_INT32};
      {"cmd"; LINX_FIELD_TYPE_INT32};
      {"arg"; LINX_FIELD_TYPE_UINT64}]);
  (134, ev "shmdt" 0 []);
  (135, ev "shmdt" 1 [{"shmaddr"; LINX_FIELD_TYPE_CHARBUF}]);
  (136, ev "msgget" 0 []);
  (137, ev "msgget" 2 [{"key"; LINX_FIELD_TYPE_INT32}; {"msgflg"; LINX_FIELD_TYPE_INT32}]);
  (138, ev "msgsnd" 0 []);
  (139, ev "msgsnd" 4 [
      {"msqid"; LINX_FIELD_TYPE_INT32};
      {"msgp"; LINX_FIELD_TYPE_UNKNOWN};
      {"msgsz"; LINX_FIELD_TYPE_UINT64};
      {"msgflg"; LINX_FIELD_TYPE_INT32}]);
  (140, ev "msgrcv" 0 []);
  (141, ev "msgrcv" 5 [
      {"msqid"; LINX_FIELD_TYPE_INT32};
      {"msgp"; LINX_FIELD_TYPE_UNKNOWN};
      {"msgsz"; LINX_FIELD_TYPE_UINT64};
      {"msgtyp"; LINX_FIELD_TYPE_INT64};
      {"msgflg"; LINX_FIELD_TYPE_INT32}]);
  (142, ev "msgctl" 0 []);
  (143, ev "msgctl" 3 [
      {"msqid"; LINX_FIELD_TYPE_INT32};
      {"cmd"; LINX_FIELD_TYPE_INT32};
      {"buf"; LINX_FIELD_TYPE_UNKNOWN}]);
  (144, ev "fcntl" 0 []);
  (145, ev "fcntl" 3 [
      {"fd"; LINX_FIELD_TYPE_UINT32};
      {"cmd"; LINX_FIELD_TYPE_UINT32};
      {"arg"; LINX_FIELD_TYPE_UINT64}]);
  (146, ev "flock" 0 []) ].

(** linx_event_table.c, lines 889 to 1034 *)
Definition event_table_07 : list (Z * linx_event_table_t) := [
  (147, ev "flock" 2 [{"fd"; LINX_FIELD_TYPE_UINT32}; {"cmd"; LINX_FIELD_TYPE_UINT32}]);
  (148, ev "fsync" 0 []);
  (149, ev "fsync" 1 [{"fd"; LINX_FIELD_TYPE_UINT32}]);
  (150, ev "fdatasync" 0 []);
  (151, ev "fdatasync" 1 [{"fd"; LINX_FIELD_TYPE_UINT32}]);
  (152, ev "truncate" 0 []);
  (153, ev "truncate" 2 [{"path"; LINX_FIELD_TYPE_CHARBUF}; {"length"; LINX_FIELD_TYPE_INT64}]);
  (154, ev "ftruncate" 0 []);
  (155, ev "ftruncate" 2 [{"fd"; LINX_FIELD_TYPE_UINT32}; {"length"; LINX_FIELD_TYPE_INT64}]);
  (156, ev "getdents" 0 []);
  (157, ev "getdents" 3 [
      {"fd"; LINX_FIELD_TYPE_UINT32};
      {"dirent"; LINX_FIELD_TYPE_UNKNOWN};
      {"count"; LINX_FIELD_TYPE_UINT32}]);
  (158, ev "getcwd" 0 []);
  (159, ev "getcwd" 2 [{"buf"; LINX_FIELD_TYPE_CHARBUF}; {"size"; LINX_FIELD_TYPE_UINT64}]);
  (160, ev "chdir" 0 []);
  (161, ev "chdir" 1 [{"filename"; LINX_FIELD_TYPE_CHARBUF}]);
  (162, ev "fchdir" 0 []);
  (163, ev "fchdir" 1 [{"fd"; LINX_FIELD_TYPE_UINT32}]);
  (164, ev "rename" 0 []);
  (165, ev "rename" 2 [{"oldname"; LINX_FIELD_TYPE_CHARBUF}; {"newname"; LINX_FIELD_TYPE_CHARBUF}]);
  (166, ev "mkdir" 0 []);
  (167, ev "mkdir" 2 [{"pathname"; LINX_FIELD_TYPE_CHARBUF}; {"mode"; LINX_FIELD_TYPE_UINT16}]);
  (168, ev "rmdir" 0 []);
  (169, ev "rmdir" 1 [{"pathname"; LINX_FIELD_TYPE_CHARBUF}]);
  (170, ev "creat" 0 []);
  (171, ev "creat" 2 [{"pathname"; LINX_FIELD_TYPE_CHARBUF}; {"mode"; LINX_FIELD_TYPE_UINT16}]);
  (172, ev "link" 0 []);
  (173, ev "link" 2 [{"oldname"; LINX_FIELD_TYPE_CHARBUF}; {"newname"; LINX_FIELD_TYPE_CHARBUF}]) ].

(** linx_event_table.c, lines 1035 to 1182 *)
Definition event_table_08 : list (Z * linx_event_table_t) := [
  (174, ev "unlink" 0 []);
  (175, ev "unlink" 1 [{"pathname"; LINX_FIELD_TYPE_CHARBUF}]);
  (176, ev "symlink" 0 []);
  (177, ev "symlink" 2 [{"oldname"; LINX_FIELD_TYPE_CHARBUF}; {"newname"; LINX_FIELD_TYPE_CHARBUF}]);
  (178, ev "readlink" 0 []);
  (179, ev "readlink" 3 [
      {"path"; LINX_FIELD_TYPE_CHARBUF};
      {"buf"; LINX_FIELD_TYPE_CHARBUF};
      {"bufsiz"; LINX_FIELD_TYPE_INT32}]);
  (180, ev "chmod" 0 []);
  (181, ev "chmod" 2 [{"filename"; LINX_FIELD_TYPE_CHARBUF}; {"mode"; LINX_FIELD_TYPE_UINT16}]);
  (182, ev "fchmod" 0 []);
  (183, ev "fchmod" 2 [{"fd"; LINX_FIELD_TYPE_UINT32}; {"mode"; LINX_FIELD_TYPE_UINT16}]);
  (184, ev "chown" 0 []);
  (185, ev "chown" 3 [
      {"filename"; LINX_FIELD_TYPE_CHARBUF};
      {"user"; LINX_FIELD_TYPE_UINT32};
      {"group"; LINX_FIELD_TYPE_UINT32}]);
  (186, ev "fchown" 0 []);
  (187, ev "fchown" 3 [
      {"fd"; LINX_FIELD_TYPE_UINT32};
      {"user"; LINX_FIELD_TYPE_UINT32};
      {"group"; LINX_FIELD_TYPE_UINT32}]);
  (188, ev "lchown" 0 []);
  (189, ev "lchown" 3 [
      {"filename"; LINX_FIELD_TYPE_CHARBUF};
      {"user"; LINX_FIELD_TYPE_UINT32};
      {"group"; LINX_FIELD_TYPE_UINT32}]);
  (190, ev "umask" 0 []);
  (191, ev "umask" 1 [{"mask"; LINX_FIELD_TYPE_INT32}]);
  (192, ev "gettimeofday" 0 []);
  (193, ev "gettimeofday" 2 [{"tv"; LINX_FIELD_TYPE_UNKNOWN}; {"tz"; LINX_FIELD_TYPE_UNKNOWN}]);
  (194, ev "getrlimit" 0 []);
  (195, ev "getrlimit" 2 [{"resource"; LINX_FIELD_TYPE_UINT32}; {"rlim"; LINX_FIELD_TYPE_UNKNOWN}]);
  (196, ev "getrusage" 0 []);
  (197, ev "getrusage" 2 [{"who"; LINX_FIELD_TYPE_INT32}; {"ru"; LINX_FIELD_TYPE_UNKNOWN}]);
  (198, ev "sysinfo" 0 []);
  (199, ev "sysinfo" 1 [{"info"; LINX_FIELD_TYPE_UNKNOWN}]);
  (200, ev "times" 0 []) ].

(** linx_event_table.c, lines 1183 to 1329 *)
Definition event_table_09 : list (Z * linx_event_table_t) := [
  (201, ev "times" 1 [{"tbuf"; LINX_FIELD_TYPE_UNKNOWN}]);
  (202, ev "ptrace" 0 []);
  (203, ev "ptrace" 4 [
      {"request"; LINX_FIELD_TYPE_INT64};
      {"pid"; LINX_FIELD_TYPE_INT64};
      {"addr"; LINX_FIELD_TYPE_UINT64};
      {"data"; LINX_FIELD_TYPE_UINT64}]);
  (204, ev "getuid" 0 []);
  (205, ev "getuid" 0 []);
  (206, ev "syslog" 0 []);
  (207, ev "syslog" 3 [
      {"type"; LINX_FIELD_TYPE_INT32};
      {"buf"; LINX_FIELD_TYPE_CHARBUF};
      {"len"; LINX_FIELD_TYPE_INT32}]);
  (208, ev "getgid" 0 []);
  (209, ev "getgid" 0 []);
  (210, ev "setuid" 0 []);
  (211, ev "setuid" 1 [{"uid"; LINX_FIELD_TYPE_UINT32}]);
  (212, ev "setgid" 0 []);
  (213, ev "setgid" 1 [{"gid"; LINX_FIELD_TYPE_UINT32}]);
  (214, ev "geteuid" 0 []);
  (215, ev "geteuid" 0 []);
  (216, ev "getegid" 0 []);
  (217, ev "getegid" 0 []);
  (218, ev "setpgid" 0 []);
  (219, ev "setpgid" 2 [{"pid"; LINX_FIELD_TYPE_INT32}; {"pgid"; LINX_FIELD_TYPE_INT32}]);
  (220, ev "getppid" 0 []);
  (221, ev "getppid" 0 []);
  (222, ev "getpgrp" 0 []);
  (223, ev "getpgrp" 0 []);
  (224, ev "setsid" 0 []);
  (225, ev "setsid" 0 []);
  (226, ev "setreuid" 0 []);
  (227, ev "setreuid" 2 [{"ruid"; LINX_FIELD_TYPE_UINT32}; {"euid"; LINX_FIELD_TYPE_UINT32}]);
  (228, ev "setregid" 0 []);
  (229, ev "setregid" 2 [{"rgid"; LINX_FIELD_TYPE_UINT32}; {"egid"; LINX_FIELD_TYPE_UINT32}]) ].

(** linx_event_table.c, lines 1330 to 1476 *)
Definition event_table_10 : list (Z * linx_event_table_t) := [
  (230, ev "getgroups" 0 []);
  (231, ev "getgroups" 2 [
      {"gidsetsize"; LINX_FIELD_TYPE_INT32};
      {"grouplist"; LINX_FIELD_TYPE_UNKNOWN}]);
  (232, ev "setgroups" 0 []);
  (233, ev "setgroups" 2 [
      {"gidsetsize"; LINX_FIELD_TYPE_INT32};
      {"grouplist"; LINX_FIELD_TYPE_UNKNOWN}]);
  (234, ev "setresuid" 0 []);
  (235, ev "setresuid" 3 [
      {"ruid"; LINX_FIELD_TYPE_UINT32};
      {"euid"; LINX_FIELD_TYPE_UINT32};
      {"suid"; LINX_FIELD_TYPE_UINT32}]);
  (236, ev "getresuid" 0 []);
  (237, ev "getresuid" 3 [
      {"ruidp"; LINX_FIELD_TYPE_UNKNOWN};
      {"euidp"; LINX_FIELD_TYPE_UNKNOWN};
      {"suidp"; LINX_FIELD_TYPE_UNKNOWN}]);
  (238, ev "setresgid" 0 []);
  (239, ev "setresgid" 3 [
      {"rgid"; LINX_FIELD_TYPE_UINT32};
      {"egid"; LINX_FIELD_TYPE_UINT32};
      {"sgid"; LINX_FIELD_TYPE_UINT32}]);
  (240, ev "getresgid" 0 []);
  (241, ev "getresgid" 3 [
      {"rgidp"; LINX_FIELD_TYPE_UNKNOWN};
      {"egidp"; LINX_FIELD_TYPE_UNKNOWN};
      {"sgidp"; LINX_FIELD_TYPE_UNKNOWN}]);
  (242, ev "getpgid" 0 []);
  (243, ev "getpgid" 1 [{"pid"; LINX_FIELD_TYPE_INT32}]);
  (244, ev "setfsuid" 0 []);
  (245, ev "setfsuid" 1 [{"uid"; LINX_FIELD_TYPE_UINT32}]);
  (246, ev "setfsgid" 0 []);
  (247, ev "setfsgid" 1 [{"gid"; LINX_FIELD_TYPE_UINT32}]);
  (248, ev "getsid" 0 []);
  (249, ev "getsid" 1 [{"pid"; LINX_FIELD_TYPE_INT32}]);
  (250, ev "capget" 0 []);
  (251, ev "capget" 2 [{"header"; LINX_FIELD_TYPE_UNKNOWN}; {"dataptr"; LINX_FIELD_TYPE_UNKNOWN}]);
  (252, ev "capset" 0 []);
  (253, ev "capset" 2 [{"header"; LINX_FIELD_TYPE_UNKNOWN}; {"data"; LINX_FIELD_TYPE_UNKNOWN}]);
  (254, ev "rt_sigpending" 0 []);
  (255, ev "rt_sigpending" 2 [
      {"uset"; LINX_FIELD_TYPE_UNKNOWN};
      {"sigsetsize"; LINX_FIELD_TYPE_UINT64}]);
  (256, ev "rt_sigtimedwait" 0 []) ].

(** linx_event_table.c, lines 1477 to 1622 *)
Definition event_table_11 : list (Z * linx_event_table_t) := [
  (257, ev "rt_sigtimedwait" 4 [
      {"uthese"; LINX_FIELD_TYPE_UNKNOWN};
      {"uinfo"; LINX_FIELD_TYPE_UNKNOWN};
      {"uts"; LINX_FIELD_TYPE_UNKNOWN};
      {"sigsetsize"; LINX_FIELD_TYPE_UINT64}]);
  (258, ev "rt_sigqueueinfo" 0 []);
  (259, ev "rt_sigqueueinfo" 3 [
      {"pid"; LINX_FIELD_TYPE_INT32};
      {"sig"; LINX_FIELD_TYPE_INT32};
      {"uinfo"; LINX_FIELD_TYPE_UNKNOWN}]);
  (260, ev "rt_sigsuspend" 0 []);
  (261, ev "rt_sigsuspend" 2 [
      {"unewset"; LINX_FIELD_TYPE_UNKNOWN};
      {"sigsetsize"; LINX_FIELD_TYPE_UINT64}]);
  (262, ev "sigaltstack" 0 []);
  (263, ev "sigaltstack" 2 [{"uss"; LINX_FIELD_TYPE_UNKNOWN}; {"uoss"; LINX_FIELD_TYPE_UNKNOWN}]);
  (264, ev "utime" 0 []);
  (265, ev "utime" 2 [{"filename"; LINX_FIELD_TYPE_CHARBUF}; {"times"; LINX_FIELD_TYPE_UNKNOWN}]);
  (266, ev "mknod" 0 []);
  (267, ev "mknod" 3 [
      {"filename"; LINX_FIELD_TYPE_CHARBUF};
      {"mode"; LINX_FIELD_TYPE_UINT16};
      {"dev"; LINX_FIELD_TYPE_UINT32}]);
  (268, ev "uselib" 0 []);
  (269, ev "uselib" 1 [{"library"; LINX_FIELD_TYPE_CHARBUF}]);
  (270, ev "personality" 0 []);
  (271, ev "personality" 1 [{"personality"; LINX_FIELD_TYPE_UINT32}]);
  (272, ev "ustat" 0 []);
  (273, ev "ustat" 2 [{"dev"; LINX_FIELD_TYPE_UINT32}; {"ubuf"; LINX_FIELD_TYPE_UNKNOWN}]);
  (274, ev "statfs" 0 []);
  (275, ev "statfs" 2 [{"pathname"; LINX_FIELD_TYPE_CHARBUF}; {"buf"; LINX_FIELD_TYPE_UNKNOWN}]);
  (276, ev "fstatfs" 0 []);
  (277, ev "fstatfs" 2 [{"fd"; LINX_FIELD_TYPE_UINT32}; {"buf"; LINX_FIELD_TYPE_UNKNOWN}]);
  (278, ev "sysfs" 0 []);
  (279, ev "sysfs" 3 [
      {"option"; LINX_FIELD_TYPE_INT32};
      {"arg1"; LINX_FIELD_TYPE_UINT64};
      {"arg2"; LINX_FIELD_TYPE_UINT64}]);
  (280, ev "getpriority" 0 []);
  (281, ev "getpriority" 2 [{"which"; LINX_FIELD_TYPE_INT32}; {"who"; LINX_FIELD_TYPE_INT32}]);
  (282, ev "setpriority" 0 []) ].

(** linx_event_table.c, lines 1623 to 1771 *)
Definition event_table_12 : list (Z * linx_event_table_t) := [
  (283, ev "setpriority" 3 [
      {"which"; LINX_FIELD_TYPE_INT32};
      {"who"; LINX_FIELD_TYPE_INT32};
      {"niceval"; LINX_FIELD_TYPE_INT32}]);
  (284, ev "sched_setparam" 0 []);
  (285, ev "sched_setparam" 2 [{"pid"; LINX_FIELD_TYPE_INT32}; {"param"; LINX_FIELD_TYPE_UNKNOWN}]);
  (286, ev "sched_getparam" 0 []);
  (287, ev "sched_getparam" 2 [{"pid"; LINX_FIELD_TYPE_INT32}; {"param"; LINX_FIELD_TYPE_UNKNOWN}]);
  (288, ev "sched_setscheduler" 0 []);
  (289, ev "sched_setscheduler" 3 [
      {"pid"; LINX_FIELD_TYPE_INT32};
      {"policy"; LINX_FIELD_TYPE_INT32};
      {"param"; LINX_FIELD_TYPE_UNKNOWN}]);
  (290, ev "sched_getscheduler" 0 []);
  (291, ev "sched_getscheduler" 1 [{"pid"; LINX_FIELD_TYPE_INT32}]);
  (292, ev "sched_get_priority_max" 0 []);
  (293, ev "sched_get_priority_max" 1 [{"policy"; LINX_FIELD_TYPE_INT32}]);
  (294, ev "sched_get_priority_min" 0 []);
  (295, ev "sched_get_priority_min" 1 [{"policy"; LINX_FIELD_TYPE_INT32}]);
  (296, ev "sched_rr_get_interval" 0 []);
  (297, ev "sched_rr_get_interval" 2 [
      {"pid"; LINX_FIELD_TYPE_INT32};
      {"interval"; LINX_FIELD_TYPE_UNKNOWN}]);
  (298, ev "mlock" 0 []);
  (299, ev "mlock" 2 [{"start"; LINX_FIELD_TYPE_UINT64}; {"len"; LINX_FIELD_TYPE_UINT64}]);
  (300, ev "munlock" 0 []);
  (301, ev "munlock" 2 [{"start"; LINX_FIELD_TYPE_UINT64}; {"len"; LINX_FIELD_TYPE_UINT64}]);
  (302, ev "mlockall" 0 []);
  (303, ev "mlockall" 1 [{"flags"; LINX_FIELD_TYPE_INT32}]);
  (304, ev "munlockall" 0 []);
  (305, ev "munlockall" 0 []);
  (306, ev "vhangup" 0 []);
  (307, ev "vhangup" 0 []);
  (308, ev "modify_ldt" 0 []);
  (309, ev "modify_ldt" 3 [
      {"func"; LINX_FIELD_TYPE_INT32};
      {"ptr"; LINX_FIELD_TYPE_UNKNOWN};
      {"bytecount"; LINX_FIELD_TYPE_UINT64}]);
  (310, ev "pivot_root" 0 []) ].

(** linx_event_table.c, lines 1772 to 1920 *)
Definition event_table_13 : list (Z * linx_event_table_t) := [
  (311, ev "pivot_root" 2 [
      {"new_root"; LINX_FIELD_TYPE_CHARBUF};
      {"put_old"; LINX_FIELD_TYPE_CHARBUF}]);
  (312, ev "_sysctl" 0 []);
  (313, ev "_sysctl" 1 [{"args"; LINX_FIELD_TYPE_UNKNOWN}]);
  (314, ev "prctl" 0 []);
  (315, ev "prctl" 5 [
      {"option"; LINX_FIELD_TYPE_INT32};
      {"arg2"; LINX_FIELD_TYPE_UINT64};
      {"arg3"; LINX_FIELD_TYPE_UINT64};
      {"arg4"; LINX_FIELD_TYPE_UINT64};
      {"arg5"; LINX_FIELD_TYPE_UINT64}]);
  (316, ev "arch_prctl" 0 []);
  (317, ev "arch_prctl" 2 [{"option"; LINX_FIELD_TYPE_INT32}; {"arg2"; LINX_FIELD_TYPE_UINT64}]);
  (318, ev "adjtimex" 0 []);
  (319, ev "adjtimex" 1 [{"txc_p"; LINX_FIELD_TYPE_UNKNOWN}]);
  (320, ev "setrlimit" 0 []);
  (321, ev "setrlimit" 2 [{"resource"; LINX_FIELD_TYPE_UINT32}; {"rlim"; LINX_FIELD_TYPE_UNKNOWN}]);
  (322, ev "chroot" 0 []);
  (323, ev "chroot" 1 [{"filename"; LINX_FIELD_TYPE_CHARBUF}]);
  (324, ev "sync" 0 []);
  (325, ev "sync" 0 []);
  (326, ev "acct" 0 []);
  (327, ev "acct" 1 [{"name"; LINX_FIELD_TYPE_CHARBUF}]);
  (328, ev "settimeofday" 0 []);
  (329, ev "settimeofday" 2 [{"tv"; LINX_FIELD_TYPE_UNKNOWN}; {"tz"; LINX_FIELD_TYPE_UNKNOWN}]);
  (330, ev "mount" 0 []);
  (331, ev "mount" 5 [
      {"dev_name"; LINX_FIELD_TYPE_CHARBUF};
      {"dir_name"; LINX_FIELD_TYPE_CHARBUF};
      {"type"; LINX_FIELD_TYPE_CHARBUF};
      {"flags"; LINX_FIELD_TYPE_UINT64};
      {"data"; LINX_FIELD_TYPE_UNKNOWN}]);
  (332, ev "umount2" 0 []);
  (333, ev "umount2" 2 [{"target"; LINX_FIELD_TYPE_CHARBUF}; {"flags"; LINX_FIELD_TYPE_INT32}]);
  (334, ev "swapon" 0 []);
  (335, ev "swapon" 2 [
      {"specialfile"; LINX_FIELD_TYPE_CHARBUF};
      {"swap_flags"; LINX_FIELD_TYPE_INT32}]);
  (336, ev "swapoff" 0 []);
  (337, ev "swapoff" 1 [{"specialfile"; LINX_FIELD_TYPE_CHARBUF}]) ].

(** linx_event_table.c, lines 1921 to 2069 *)
Definition event_table_14 : list (Z * linx_event_table_t) := [
  (338, ev "reboot" 0 []);
  (339, ev "reboot" 4 [
      {"magic1"; LINX_FIELD_TYPE_INT32};
      {"magic2"; LINX_FIELD_TYPE_INT32};
      {"cmd"; LINX_FIELD_TYPE_UINT32};
      {"arg"; LINX_FIELD_TYPE_UNKNOWN}]);
  (340, ev "sethostname" 0 []);
  (341, ev "sethostname" 2 [{"name"; LINX_FIELD_TYPE_CHARBUF}; {"len"; LINX_FIELD_TYPE_INT32}]);
  (342, ev "setdomainname" 0 []);
  (343, ev "setdomainname" 2 [{"name"; LINX_FIELD_TYPE_CHARBUF}; {"len"; LINX_FIELD_TYPE_INT32}]);
  (344, ev "iopl" 0 []);
  (345, ev "iopl" 1 [{"level"; LINX_FIELD_TYPE_UINT32}]);
  (346, ev "ioperm" 0 []);
  (347, ev "ioperm" 3 [
      {"from"; LINX_FIELD_TYPE_UINT64};
      {"num"; LINX_FIELD_TYPE_UINT64};
      {"turn_on"; LINX_FIELD_TYPE_INT32}]);
  (348, ev "create_module" 0 []);
  (349, ev "create_module" 2 [{"name"; LINX_FIELD_TYPE_CHARBUF}; {"size"; LINX_FIELD_TYPE_UINT64}]);
  (350, ev "init_module" 0 []);
  (351, ev "init_module" 3 [
      {"umod"; LINX_FIELD_TYPE_UNKNOWN};
      {"len"; LINX_FIELD_TYPE_UINT64};
      {"uargs"; LINX_FIELD_TYPE_CHARBUF}]);
  (352, ev "delete_module" 0 []);
  (353, ev "delete_module" 2 [
      {"name_user"; LINX_FIELD_TYPE_CHARBUF};
      {"flags"; LINX_FIELD_TYPE_UINT32}]);
  (354, ev "get_kernel_syms" 0 []);
  (355, ev "get_kernel_syms" 1 [{"table"; LINX_FIELD_TYPE_UNKNOWN}]);
  (356, ev "query_module" 0 []);
  (357, ev "query_module" 5 [
      {"name"; LINX_FIELD_TYPE_CHARBUF};
      {"which"; LINX_FIELD_TYPE_INT32};
      {"buf"; LINX_FIELD_TYPE_UNKNOWN};
      {"bufsize"; LINX_FIELD_TYPE_UINT64};
      {"ret"; LINX_FIELD_TYPE_UNKNOWN}]);
  (358, ev "quotactl" 0 []);
  (359, ev "quotactl" 4 [
      {"cmd"; LINX_FIELD_TYPE_UINT32};
      {"special"; LINX_FIELD_TYPE_CHARBUF};
      {"id"; LINX_FIELD_TYPE_UINT32};
      {"addr"; LINX_FIELD_TYPE_UNKNOWN}]);
  (360, ev "nfsservctl" 0 []);
  (361, ev "nfsservctl" 3 [
      {"cmd"; LINX_FIELD_TYPE_INT32};
      {"argp"; LINX_FIELD_TYPE_UNKNOWN};
      {"resp"; LINX_FIELD_TYPE_UNKNOWN}]);
  (372, ev "gettid" 0 []);
  (373, ev "gettid" 0 []) ].

(** linx_event_table.c, lines 2070 to 2213 *)
Definition event_table_15 : list (Z * linx_event_table_t) := [
  (374, ev "readahead" 0 []);
  (375, ev "readahead" 3 [
      {"fd"; LINX_FIELD_TYPE_INT32};
      {"offset"; LINX_FIELD_TYPE_INT64};
      {"count"; LINX_FIELD_TYPE_UINT64}]);
  (376, ev "setxattr" 0 []);
  (377, ev "setxattr" 5 [
      {"pathname"; LINX_FIELD_TYPE_CHARBUF};
      {"name"; LINX_FIELD_TYPE_CHARBUF};
      {"value"; LINX_FIELD_TYPE_UNKNOWN};
      {"size"; LINX_FIELD_TYPE_UINT64};
      {"flags"; LINX_FIELD_TYPE_INT32}]);
  (378, ev "lsetxattr" 0 []);
  (379, ev "lsetxattr" 5 [
      {"pathname"; LINX_FIELD_TYPE_CHARBUF};
      {"name"; LINX_FIELD_TYPE_CHARBUF};
      {"value"; LINX_FIELD_TYPE_UNKNOWN};
      {"size"; LINX_FIELD_TYPE_UINT64};
      {"flags"; LINX_FIELD_TYPE_INT32}]);
  (380, ev "fsetxattr" 0 []);
  (381, ev "fsetxattr" 5 [
      {"fd"; LINX_FIELD_TYPE_INT32};
      {"name"; LINX_FIELD_TYPE_CHARBUF};
      {"value"; LINX_FIELD_TYPE_UNKNOWN};
      {"size"; LINX_FIELD_TYPE_UINT64};
      {"flags"; LINX_FIELD_TYPE_INT32}]);
  (382, ev "getxattr" 0 []);
  (383, ev "getxattr" 4 [
      {"pathname"; LINX_FIELD_TYPE_CHARBUF};
      {"name"; LINX_FIELD_TYPE_CHARBUF};
      {"value"; LINX_FIELD_TYPE_UNKNOWN};
      {"size"; LINX_FIELD_TYPE_UINT64}]);
  (384, ev "lgetxattr" 0 []);
  (385, ev "lgetxattr" 4 [
      {"pathname"; LINX_FIELD_TYPE_CHARBUF};
      {"name"; LINX_FIELD_TYPE_CHARBUF};
      {"value"; LINX_FIELD_TYPE_UNKNOWN};
      {"size"; LINX_FIELD_TYPE_UINT64}]);
  (386, ev "fgetxattr" 0 []);
  (387, ev "fgetxattr" 4 [
      {"fd"; LINX_FIELD_TYPE_INT32};
      {"name"; LINX_FIELD_TYPE_CHARBUF};
      {"value"; LINX_FIELD_TYPE_UNKNOWN};
      {"size"; LINX_FIELD_TYPE_UINT64}]);
  (388, ev "listxattr" 0 []);
  (389, ev "listxattr" 3 [
      {"pathname"; LINX_FIELD_TYPE_CHARBUF};
      {"list"; LINX_FIELD_TYPE_CHARBUF};
      {"size"; LINX_FIELD_TYPE_UINT64}]);
  (390, ev "llistxattr" 0 []);
  (391, ev "llistxattr" 3 [
      {"pathname"; LINX_FIELD_TYPE_CHARBUF};
      {"list"; LINX_FIELD_TYPE_CHARBUF};
      {"size"; LINX_FIELD_TYPE_UINT64}]);
  (392, ev "flistxattr" 0 []);
  (393, ev "flistxattr" 3 [
      {"fd"; LINX_FIELD_TYPE_INT32};
      {"list"; LINX_FIELD_TYPE_CHARBUF};
      {"size"; LINX_FIELD_TYPE_UINT64}]);
  (394, ev "removexattr" 0 []);
  (395, ev "removexattr" 2 [
      {"pathname"; LINX_FIELD_TYPE_CHARBUF};
      {"name"; LINX_FIELD_TYPE_CHARBUF}]);
  (396, ev "lremovexattr" 0 []) ].

(** linx_event_table.c, lines 2214 to 2360 *)
Definition event_table_16 : list (Z * linx_event_table_t) := [
  (397, ev "lremovexattr" 2 [
      {"pathname"; LINX_FIELD_TYPE_CHARBUF};
      {"name"; LINX_FIELD_TYPE_CHARBUF}]);
  (398, ev "fremovexattr" 0 []);
  (399, ev "fremovexattr" 2 [{"fd"; LINX_FIELD_TYPE_INT32}; {"name"; LINX_FIELD_TYPE_CHARBUF}]);
  (400, ev "tkill" 0 []);
  (401, ev "tkill" 2 [{"pid"; LINX_FIELD_TYPE_INT32}; {"sig"; LINX_FIELD_TYPE_INT32}]);
  (402, ev "time" 0 []);
  (403, ev "time" 1 [{"tloc"; LINX_FIELD_TYPE_UNKNOWN}]);
  (404, ev "futex" 0 []);
  (405, ev "futex" 6 [
      {"uaddr"; LINX_FIELD_TYPE_UNKNOWN};
      {"op"; LINX_FIELD_TYPE_INT32};
      {"val"; LINX_FIELD_TYPE_UINT32};
      {"utime"; LINX_FIELD_TYPE_UNKNOWN};
      {"uaddr2"; LINX_FIELD_TYPE_UNKNOWN};
      {"val3"; LINX_FIELD_TYPE_UINT32}]);
  (406, ev "sched_setaffinity" 0 []);
  (407, ev "sched_setaffinity" 3 [
      {"pid"; LINX_FIELD_TYPE_INT32};
      {"len"; LINX_FIELD_TYPE_UINT32};
      {"user_mask_ptr"; LINX_FIELD_TYPE_UNKNOWN}]);
  (408, ev "sched_getaffinity" 0 []);
  (409, ev "sched_getaffinity" 3 [
      {"pid"; LINX_FIELD_TYPE_INT32};
      {"len"; LINX_FIELD_TYPE_UINT32};
      {"user_mask_ptr"; LINX_FIELD_TYPE_UNKNOWN}]);
  (410, ev "set_thread_area" 0 []);
  (411, ev "set_thread_area" 1 [{"u_info"; LINX_FIELD_TYPE_UNKNOWN}]);
  (412, ev "io_setup" 0 []);
  (413, ev "io_setup" 2 [{"nr_events"; LINX_FIELD_TYPE_UINT32}; {"ctxp"; LINX_FIELD_TYPE_UNKNOWN}]);
  (414, ev "io_destroy" 0 []);
  (415, ev "io_destroy" 1 [{"ctx"; LINX_FIELD_TYPE_UINT64}]);
  (416, ev "io_getevents" 0 []);
  (417, ev "io_getevents" 5 [
      {"ctx_id"; LINX_FIELD_TYPE_UINT64};
      {"min_nr"; LINX_FIELD_TYPE_INT64};
      {"nr"; LINX_FIELD_TYPE_INT64};
      {"events"; LINX_FIELD_TYPE_UNKNOWN};
      {"timeout"; LINX_FIELD_TYPE_UNKNOWN}]);
  (418, ev "io_submit" 0 []);
  (419, ev "io_submit" 3 [
      {"ctx_id"; LINX_FIELD_TYPE_UINT64};
      {"nr"; LINX_FIELD_TYPE_INT64};
      {"iocbpp"; LINX_FIELD_TYPE_UNKNOWN}]);
  (420, ev "io_cancel" 0 []);
  (421, ev "io_cancel" 3 [
      {"ctx_id"; LINX_FIELD_TYPE_UINT64};
      {"iocb"; LINX_FIELD_TYPE_UNKNOWN};
      {"result"; LINX_FIELD_TYPE_UNKNOWN}]) ].

(** linx_event_table.c, lines 2361 to 2509 *)
Definition event_table_17 : list (Z * linx_event_table_t) := [
  (422, ev "get_thread_area" 0 []);
  (423, ev "get_thread_area" 1 [{"u_info"; LINX_FIELD_TYPE_UNKNOWN}]);
  (424, ev "lookup_dcookie" 0 []);
  (425, ev "lookup_dcookie" 3 [
      {"cookie"; LINX_FIELD_TYPE_UINT64};
      {"buffer"; LINX_FIELD_TYPE_CHARBUF};
      {"len"; LINX_FIELD_TYPE_UINT64}]);
  (426, ev "epoll_create" 0 []);
  (427, ev "epoll_create" 1 [{"size"; LINX_FIELD_TYPE_INT32}]);
  (432, ev "remap_file_pages" 0 []);
  (433, ev "remap_file_pages" 5 [
      {"start"; LINX_FIELD_TYPE_UINT64};
      {"size"; LINX_FIELD_TYPE_UINT64};
      {"prot"; LINX_FIELD_TYPE_UINT64};
      {"pgoff"; LINX_FIELD_TYPE_UINT64};
      {"flags"; LINX_FIELD_TYPE_UINT64}]);
  (434, ev "getdents64" 0 []);
  (435, ev "getdents64" 3 [
      {"fd"; LINX_FIELD_TYPE_UINT32};
      {"dirent"; LINX_FIELD_TYPE_UNKNOWN};
      {"count"; LINX_FIELD_TYPE_UINT32}]);
  (436, ev "set_tid_address" 0 []);
  (437, ev "set_tid_address" 1 [{"tidptr"; LINX_FIELD_TYPE_UNKNOWN}]);
  (438, ev "restart_syscall" 0 []);
  (439, ev "restart_syscall" 0 []);
  (440, ev "semtimedop" 0 []);
  (441, ev "semtimedop" 4 [
      {"semid"; LINX_FIELD_TYPE_INT32};
      {"tsops"; LINX_FIELD_TYPE_UNKNOWN};
      {"nsops"; LINX_FIELD_TYPE_UINT32};
      {"timeout"; LINX_FIELD_TYPE_UNKNOWN}]);
  (442, ev "fadvise64" 0 []);
  (443, ev "fadvise64" 4 [
      {"fd"; LINX_FIELD_TYPE_INT32};
      {"offset"; LINX_FIELD_TYPE_INT64};
      {"len"; LINX_FIELD_TYPE_UINT64};
      {"advice"; LINX_FIELD_TYPE_INT32}]);
  (444, ev "timer_create" 0 []);
  (445, ev "timer_create" 3 [
      {"which_clock"; LINX_FIELD_TYPE_INT32};
      {"timer_event_spec"; LINX_FIELD_TYPE_UNKNOWN};
      {"created_timer_id"; LINX_FIELD_TYPE_UNKNOWN}]);
  (446, ev "timer_settime" 0 []);
  (447, ev "timer_settime" 4 [
      {"timer_id"; LINX_FIELD_TYPE_INT32};
      {"flags"; LINX_FIELD_TYPE_INT32};
      {"new_setting"; LINX_FIELD_TYPE_UNKNOWN};
      {"old_setting"; LINX_FIELD_TYPE_UNKNOWN}]);
  (448, ev "timer_gettime" 0 []);
  (449, ev "timer_gettime" 2 [
      {"timer_id"; LINX_FIELD_TYPE_INT32};
      {"setting"; LINX_FIELD_TYPE_UNKNOWN}]);
  (450, ev "timer_getoverrun" 0 []);
  (451, ev "timer_getoverrun" 1 [{"timer_id"; LINX_FIELD_TYPE_INT32}]) ].

(** linx_event_table.c, lines 2510 to 2655 *)
Definition event_table_18 : list (Z * linx_event_table_t) := [
  (452, ev "timer_delete" 0 []);
  (453, ev "timer_delete" 1 [{"timer_id"; LINX_FIELD_TYPE_INT32}]);
  (454, ev "clock_settime" 0 []);
  (455, ev "clock_settime" 2 [
      {"which_clock"; LINX_FIELD_TYPE_INT32};
      {"tp"; LINX_FIELD_TYPE_UNKNOWN}]);
  (456, ev "clock_gettime" 0 []);
  (457, ev "clock_gettime" 2 [
      {"which_clock"; LINX_FIELD_TYPE_INT32};
      {"tp"; LINX_FIELD_TYPE_UNKNOWN}]);
  (458, ev "clock_getres" 0 []);
  (459, ev "clock_getres" 2 [
      {"which_clock"; LINX_FIELD_TYPE_INT32};
      {"tp"; LINX_FIELD_TYPE_UNKNOWN}]);
  (460, ev "clock_nanosleep" 0 []);
  (461, ev "clock_nanosleep" 4 [
      {"which_clock"; LINX_FIELD_TYPE_INT32};
      {"flags"; LINX_FIELD_TYPE_INT32};
      {"rqtp"; LINX_FIELD_TYPE_UNKNOWN};
      {"rmtp"; LINX_FIELD_TYPE_UNKNOWN}]);
  (462, ev "exit_group" 0 []);
  (463, ev "exit_group" 1 [{"error_code"; LINX_FIELD_TYPE_INT32}]);
  (464, ev "epoll_wait" 0 []);
  (465, ev "epoll_wait" 4 [
      {"epfd"; LINX_FIELD_TYPE_INT32};
      {"events"; LINX_FIELD_TYPE_UNKNOWN};
      {"maxevents"; LINX_FIELD_TYPE_INT32};
      {"timeout"; LINX_FIELD_TYPE_INT32}]);
  (466, ev "epoll_ctl" 0 []);
  (467, ev "epoll_ctl" 4 [
      {"epfd"; LINX_FIELD_TYPE_INT32};
      {"op"; LINX_FIELD_TYPE_INT32};
      {"fd"; LINX_FIELD_TYPE_INT32};
      {"event"; LINX_FIELD_TYPE_UNKNOWN}]);
  (468, ev "tgkill" 0 []);
  (469, ev "tgkill" 3 [
      {"tgid"; LINX_FIELD_TYPE_INT32};
      {"pid"; LINX_FIELD_TYPE_INT32};
      {"sig"; LINX_FIELD_TYPE_INT32}]);
  (470, ev "utimes" 0 []);
  (471, ev "utimes" 2 [{"filename"; LINX_FIELD_TYPE_CHARBUF}; {"utimes"; LINX_FIELD_TYPE_UNKNOWN}]);
  (474, ev "mbind" 0 []);
  (475, ev "mbind" 6 [
      {"start"; LINX_FIELD_TYPE_UINT64};
      {"len"; LINX_FIELD_TYPE_UINT64};
      {"mode"; LINX_FIELD_TYPE_UINT64};
      {"nmask"; LINX_FIELD_TYPE_UNKNOWN};
      {"maxnode"; LINX_FIELD_TYPE_UINT64};
      {"flags"; LINX_FIELD_TYPE_UINT32}]);
  (476, ev "set_mempolicy" 0 []);
  (477, ev "set_mempolicy" 3 [
      {"mode"; LINX_FIELD_TYPE_INT32};
      {"nmask"; LINX_FIELD_TYPE_UNKNOWN};
      {"maxnode"; LINX_FIELD_TYPE_UINT64}]);
  (478, ev "get_mempolicy" 0 []) ].

(** linx_event_table.c, lines 2656 to 2797 *)
Definition event_table_19 : list (Z * linx_event_table_t) := [
  (479, ev "get_mempolicy" 5 [
      {"policy"; LINX_FIELD_TYPE_UNKNOWN};
      {"nmask"; LINX_FIELD_TYPE_UNKNOWN};
      {"maxnode"; LINX_FIELD_TYPE_UINT64};
      {"addr"; LINX_FIELD_TYPE_UINT64};
      {"flags"; LINX_FIELD_TYPE_UINT64}]);
  (480, ev "mq_open" 0 []);
  (481, ev "mq_open" 4 [
      {"u_name"; LINX_FIELD_TYPE_CHARBUF};
      {"oflag"; LINX_FIELD_TYPE_INT32};
      {"mode"; LINX_FIELD_TYPE_UINT16};
      {"u_attr"; LINX_FIELD_TYPE_UNKNOWN}]);
  (482, ev "mq_unlink" 0 []);
  (483, ev "mq_unlink" 1 [{"u_name"; LINX_FIELD_TYPE_CHARBUF}]);
  (484, ev "mq_timedsend" 0 []);
  (485, ev "mq_timedsend" 5 [
      {"mqdes"; LINX_FIELD_TYPE_INT32};
      {"u_msg_ptr"; LINX_FIELD_TYPE_CHARBUF};
      {"msg_len"; LINX_FIELD_TYPE_UINT64};
      {"msg_prio"; LINX_FIELD_TYPE_UINT32};
      {"u_abs_timeout"; LINX_FIELD_TYPE_UNKNOWN}]);
  (486, ev "mq_timedreceive" 0 []);
  (487, ev "mq_timedreceive" 5 [
      {"mqdes"; LINX_FIELD_TYPE_INT32};
      {"u_msg_ptr"; LINX_FIELD_TYPE_CHARBUF};
      {"msg_len"; LINX_FIELD_TYPE_UINT64};
      {"u_msg_prio"; LINX_FIELD_TYPE_UNKNOWN};
      {"u_abs_timeout"; LINX_FIELD_TYPE_UNKNOWN}]);
  (488, ev "mq_notify" 0 []);
  (489, ev "mq_notify" 2 [
      {"mqdes"; LINX_FIELD_TYPE_INT32};
      {"u_notification"; LINX_FIELD_TYPE_UNKNOWN}]);
  (490, ev "mq_getsetattr" 0 []);
  (491, ev "mq_getsetattr" 3 [
      {"mqdes"; LINX_FIELD_TYPE_INT32};
      {"u_mqstat"; LINX_FIELD_TYPE_UNKNOWN};
      {"u_omqstat"; LINX_FIELD_TYPE_UNKNOWN}]);
  (492, ev "kexec_load" 0 []);
  (493, ev "kexec_load" 4 [
      {"entry"; LINX_FIELD_TYPE_UINT64};
      {"nr_segments"; LINX_FIELD_TYPE_UINT64};
      {"segments"; LINX_FIELD_TYPE_UNKNOWN};
      {"flags"; LINX_FIELD_TYPE_UINT64}]);
  (494, ev "waitid" 0 []);
  (495, ev "waitid" 5 [
      {"which"; LINX_FIELD_TYPE_INT32};
      {"upid"; LINX_FIELD_TYPE_INT32};
      {"infop"; LINX_FIELD_TYPE_UNKNOWN};
      {"options"; LINX_FIELD_TYPE_INT32};
      {"ru"; LINX_FIELD_TYPE_UNKNOWN}]);
  (496, ev "add_key" 0 []);
  (497, ev "add_key" 5 [
      {"_type"; LINX_FIELD_TYPE_CHARBUF};
      {"_description"; LINX_FIELD_TYPE_CHARBUF};
      {"_payload"; LINX_FIELD_TYPE_UNKNOWN};
      {"plen"; LINX_FIELD_TYPE_UINT64};
      {"ringid"; LINX_FIELD_TYPE_INT32}]);
  (498, ev "request_key" 0 []);
  (499, ev "request_key" 4 [
      {"_type"; LINX_FIELD_TYPE_CHARBUF};
      {"_description"; LINX_FIELD_TYPE_CHARBUF};
      {"_callout_info"; LINX_FIELD_TYPE_CHARBUF};
      {"destringid"; LINX_FIELD_TYPE_INT32}]);
  (500, ev "keyctl" 0 []) ].

(** linx_event_table.c, lines 2798 to 2939 *)
Definition event_table_20 : list (Z * linx_event_table_t) := [
  (501, ev "keyctl" 5 [
      {"option"; LINX_FIELD_TYPE_INT32};
      {"arg2"; LINX_FIELD_TYPE_UINT64};
      {"arg3"; LINX_FIELD_TYPE_UINT64};
      {"arg4"; LINX_FIELD_TYPE_UINT64};
      {"arg5"; LINX_FIELD_TYPE_UINT64}]);
  (502, ev "ioprio_set" 0 []);
  (503, ev "ioprio_set" 3 [
      {"which"; LINX_FIELD_TYPE_INT32};
      {"who"; LINX_FIELD_TYPE_INT32};
      {"ioprio"; LINX_FIELD_TYPE_INT32}]);
  (504, ev "ioprio_get" 0 []);
  (505, ev "ioprio_get" 2 [{"which"; LINX_FIELD_TYPE_INT32}; {"who"; LINX_FIELD_TYPE_INT32}]);
  (506, ev "inotify_init" 0 []);
  (507, ev "inotify_init" 0 []);
  (508, ev "inotify_add_watch" 0 []);
  (509, ev "inotify_add_watch" 3 [
      {"fd"; LINX_FIELD_TYPE_INT32};
      {"pathname"; LINX_FIELD_TYPE_CHARBUF};
      {"mask"; LINX_FIELD_TYPE_UINT32}]);
  (510, ev "inotify_rm_watch" 0 []);
  (511, ev "inotify_rm_watch" 2 [{"fd"; LINX_FIELD_TYPE_INT32}; {"wd"; LINX_FIELD_TYPE_INT32}]);
  (512, ev "migrate_pages" 0 []);
  (513, ev "migrate_pages" 4 [
      {"pid"; LINX_FIELD_TYPE_INT32};
      {"maxnode"; LINX_FIELD_TYPE_UINT64};
      {"old_nodes"; LINX_FIELD_TYPE_UNKNOWN};
      {"new_nodes"; LINX_FIELD_TYPE_UNKNOWN}]);
  (514, ev "openat" 4 [
      {"dirfd"; LINX_FIELD_TYPE_INT64};
      {"name"; LINX_FIELD_TYPE_CHARBUF};
      {"flags"; LINX_FIELD_TYPE_INT32};
      {"mode"; LINX_FIELD_TYPE_UINT32}]);
  (515, ev "openat" 7 [
      {"fd"; LINX_FIELD_TYPE_INT64};
      {"dirfd"; LINX_FIELD_TYPE_INT64};
      {"name"; LINX_FIELD_TYPE_CHARBUF};
      {"flags"; LINX_FIELD_TYPE_INT32};
      {"mode"; LINX_FIELD_TYPE_UINT32};
      {"dev"; LINX_FIELD_TYPE_UINT32};
      {"ino"; LINX_FIELD_TYPE_UINT64}]);
  (516, ev "mkdirat" 0 []);
  (517, ev "mkdirat" 3 [
      {"dfd"; LINX_FIELD_TYPE_INT32};
      {"pathname"; LINX_FIELD_TYPE_CHARBUF};
      {"mode"; LINX_FIELD_TYPE_UINT16}]);
  (518, ev "mknodat" 0 []);
  (519, ev "mknodat" 4 [
      {"dfd"; LINX_FIELD_TYPE_INT32};
      {"filename"; LINX_FIELD_TYPE_CHARBUF};
      {"mode"; LINX_FIELD_TYPE_UINT16};
      {"dev"; LINX_FIELD_TYPE_UINT32}]);
  (520, ev "fchownat" 0 []);
  (521, ev "fchownat" 5 [
      {"dfd"; LINX_FIELD_TYPE_INT32};
      {"filename"; LINX_FIELD_TYPE_CHARBUF};
      {"user"; LINX_FIELD_TYPE_UINT32};
      {"group"; LINX_FIELD_TYPE_UINT32};
      {"flag"; LINX_FIELD_TYPE_INT32}]);
  (522, ev "futimesat" 0 []) ].

(** linx_event_table.c, lines 2940 to 3087 *)
Definition event_table_21 : list (Z * linx_event_table_t) := [
  (523, ev "futimesat" 3 [
      {"dfd"; LINX_FIELD_TYPE_INT32};
      {"filename"; LINX_FIELD_TYPE_CHARBUF};
      {"utimes"; LINX_FIELD_TYPE_UNKNOWN}]);
  (524, ev "newfstatat" 0 []);
  (525, ev "newfstatat" 4 [
      {"dfd"; LINX_FIELD_TYPE_INT32};
      {"filename"; LINX_FIELD_TYPE_CHARBUF};
      {"statbuf"; LINX_FIELD_TYPE_UNKNOWN};
      {"flag"; LINX_FIELD_TYPE_INT32}]);
  (526, ev "unlinkat" 0 []);
  (527, ev "unlinkat" 3 [
      {"dfd"; LINX_FIELD_TYPE_INT32};
      {"pathname"; LINX_FIELD_TYPE_CHARBUF};
      {"flag"; LINX_FIELD_TYPE_INT32}]);
  (528, ev "renameat" 0 []);
  (529, ev "renameat" 4 [
      {"olddfd"; LINX_FIELD_TYPE_INT32};
      {"oldname"; LINX_FIELD_TYPE_CHARBUF};
      {"newdfd"; LINX_FIELD_TYPE_INT32};
      {"newname"; LINX_FIELD_TYPE_CHARBUF}]);
  (530, ev "linkat" 0 []);
  (531, ev "linkat" 5 [
      {"olddfd"; LINX_FIELD_TYPE_INT32};
      {"oldname"; LINX_FIELD_TYPE_CHARBUF};
      {"newdfd"; LINX_FIELD_TYPE_INT32};
      {"newname"; LINX_FIELD_TYPE_CHARBUF};
      {"flags"; LINX_FIELD_TYPE_INT32}]);
  (532, ev "symlinkat" 0 []);
  (533, ev "symlinkat" 3 [
      {"oldname"; LINX_FIELD_TYPE_CHARBUF};
      {"newdfd"; LINX_FIELD_TYPE_INT32};
      {"newname"; LINX_FIELD_TYPE_CHARBUF}]);
  (534, ev "readlinkat" 0 []);
  (535, ev "readlinkat" 4 [
      {"dfd"; LINX_FIELD_TYPE_INT32};
      {"pathname"; LINX_FIELD_TYPE_CHARBUF};
      {"buf"; LINX_FIELD_TYPE_CHARBUF};
      {"bufsiz"; LINX_FIELD_TYPE_INT32}]);
  (536, ev "fchmodat" 0 []);
  (537, ev "fchmodat" 3 [
      {"dfd"; LINX_FIELD_TYPE_INT32};
      {"filename"; LINX_FIELD_TYPE_CHARBUF};
      {"mode"; LINX_FIELD_TYPE_UINT16}]);
  (538, ev "faccessat" 0 []);
  (539, ev "faccessat" 3 [
      {"dfd"; LINX_FIELD_TYPE_INT32};
      {"filename"; LINX_FIELD_TYPE_CHARBUF};
      {"mode"; LINX_FIELD_TYPE_INT32}]);
  (540, ev "pselect6" 0 []);
  (541, ev "pselect6" 6 [
      {"n"; LINX_FIELD_TYPE_INT32};
      {"inp"; LINX_FIELD_TYPE_UNKNOWN};
      {"outp"; LINX_FIELD_TYPE_UNKNOWN};
      {"exp"; LINX_FIELD_TYPE_UNKNOWN};
      {"tsp"; LINX_FIELD_TYPE_UNKNOWN};
      {"sig"; LINX_FIELD_TYPE_UNKNOWN}]);
  (542, ev "ppoll" 0 []);
  (543, ev "ppoll" 5 [
      {"ufds"; LINX_FIELD_TYPE_UNKNOWN};
      {"nfds"; LINX_FIELD_TYPE_UINT32};
      {"tsp"; LINX_FIELD_TYPE_UNKNOWN};
      {"sigmask"; LINX_FIELD_TYPE_UNKNOWN};
      {"sigsetsize"; LINX_FIELD_TYPE_UINT64}]);
  (544, ev "unshare" 0 []);
  (545, ev "unshare" 1 [{"unshare_flags"; LINX_FIELD_TYPE_UINT64}]) ].

(** linx_event_table.c, lines 3088 to 3234 *)
Definition event_table_22 : list (Z * linx_event_table_t) := [
  (546, ev "set_robust_list" 0 []);
  (547, ev "set_robust_list" 2 [{"head"; LINX_FIELD_TYPE_UNKNOWN}; {"len"; LINX_FIELD_TYPE_UINT64}]);
  (548, ev "get_robust_list" 0 []);
  (549, ev "get_robust_list" 3 [
      {"pid"; LINX_FIELD_TYPE_INT32};
      {"head_ptr"; LINX_FIELD_TYPE_UNKNOWN};
      {"len_ptr"; LINX_FIELD_TYPE_UNKNOWN}]);
  (550, ev "splice" 0 []);
  (551, ev "splice" 6 [
      {"fd_in"; LINX_FIELD_TYPE_INT32};
      {"off_in"; LINX_FIELD_TYPE_UNKNOWN};
      {"fd_out"; LINX_FIELD_TYPE_INT32};
      {"off_out"; LINX_FIELD_TYPE_UNKNOWN};
      {"len"; LINX_FIELD_TYPE_UINT64};
      {"flags"; LINX_FIELD_TYPE_UINT32}]);
  (552, ev "tee" 0 []);
  (553, ev "tee" 4 [
      {"fdin"; LINX_FIELD_TYPE_INT32};
      {"fdout"; LINX_FIELD_TYPE_INT32};
      {"len"; LINX_FIELD_TYPE_UINT64};
      {"flags"; LINX_FIELD_TYPE_UINT32}]);
  (554, ev "sync_file_range" 0 []);
  (555, ev "sync_file_range" 4 [
      {"fd"; LINX_FIELD_TYPE_INT32};
      {"offset"; LINX_FIELD_TYPE_INT64};
      {"nbytes"; LINX_FIELD_TYPE_INT64};
      {"flags"; LINX_FIELD_TYPE_UINT32}]);
  (556, ev "vmsplice" 0 []);
  (557, ev "vmsplice" 4 [
      {"fd"; LINX_FIELD_TYPE_INT32};
      {"uiov"; LINX_FIELD_TYPE_UNKNOWN};
      {"nr_segs"; LINX_FIELD_TYPE_UINT64};
      {"flags"; LINX_FIELD_TYPE_UINT32}]);
  (558, ev "move_pages" 0 []);
  (559, ev "move_pages" 6 [
      {"pid"; LINX_FIELD_TYPE_INT32};
      {"nr_pages"; LINX_FIELD_TYPE_UINT64};
      {"pages"; LINX_FIELD_TYPE_UNKNOWN};
      {"nodes"; LINX_FIELD_TYPE_UNKNOWN};
      {"status"; LINX_FIELD_TYPE_UNKNOWN};
      {"flags"; LINX_FIELD_TYPE_INT32}]);
  (560, ev "utimensat" 0 []);
  (561, ev "utimensat" 4 [
      {"dfd"; LINX_FIELD_TYPE_INT32};
      {"filename"; LINX_FIELD_TYPE_CHARBUF};
      {"utimes"; LINX_FIELD_TYPE_UNKNOWN};
      {"flags"; LINX_FIELD_TYPE_INT32}]);
  (562, ev "epoll_pwait" 0 []);
  (563, ev "epoll_pwait" 6 [
      {"epfd"; LINX_FIELD_TYPE_INT32};
      {"events"; LINX_FIELD_TYPE_UNKNOWN};
      {"maxevents"; LINX_FIELD_TYPE_INT32};
      {"timeout"; LINX_FIELD_TYPE_INT32};
      {"sigmask"; LINX_FIELD_TYPE_UNKNOWN};
      {"sigsetsize"; LINX_FIELD_TYPE_UINT64}]);
  (564, ev "signalfd" 0 []);
  (565, ev "signalfd" 3 [
      {"ufd"; LINX_FIELD_TYPE_INT32};
      {"user_mask"; LINX_FIELD_TYPE_UNKNOWN};
      {"sizemask"; LINX_FIELD_TYPE_UINT64}]);
  (566, ev "timerfd_create" 0 []);
  (567, ev "timerfd_create" 2 [
      {"clockid"; LINX_FIELD_TYPE_INT32};
      {"flags"; LINX_FIELD_TYPE_INT32}]);
  (568, ev "eventfd" 0 []) ].

(** linx_event_table.c, lines 3235 to 3378 *)
Definition event_table_23 : list (Z * linx_event_table_t) := [
  (569, ev "eventfd" 1 [{"count"; LINX_FIELD_TYPE_UINT32}]);
  (570, ev "fallocate" 0 []);
  (571, ev "fallocate" 4 [
      {"fd"; LINX_FIELD_TYPE_INT32};
      {"mode"; LINX_FIELD_TYPE_INT32};
      {"offset"; LINX_FIELD_TYPE_INT64};
      {"len"; LINX_FIELD_TYPE_INT64}]);
  (572, ev "timerfd_settime" 0 []);
  (573, ev "timerfd_settime" 4 [
      {"ufd"; LINX_FIELD_TYPE_INT32};
      {"flags"; LINX_FIELD_TYPE_INT32};
      {"utmr"; LINX_FIELD_TYPE_UNKNOWN};
      {"otmr"; LINX_FIELD_TYPE_UNKNOWN}]);
  (574, ev "timerfd_gettime" 0 []);
  (575, ev "timerfd_gettime" 2 [{"ufd"; LINX_FIELD_TYPE_INT32}; {"otmr"; LINX_FIELD_TYPE_UNKNOWN}]);
  (576, ev "accept4" 0 []);
  (577, ev "accept4" 4 [
      {"fd"; LINX_FIELD_TYPE_INT32};
      {"upeer_sockaddr"; LINX_FIELD_TYPE_UNKNOWN};
      {"upeer_addrlen"; LINX_FIELD_TYPE_UNKNOWN};
      {"flags"; LINX_FIELD_TYPE_INT32}]);
  (578, ev "signalfd4" 0 []);
  (579, ev "signalfd4" 4 [
      {"ufd"; LINX_FIELD_TYPE_INT32};
      {"user_mask"; LINX_FIELD_TYPE_UNKNOWN};
      {"sizemask"; LINX_FIELD_TYPE_UINT64};
      {"flags"; LINX_FIELD_TYPE_INT32}]);
  (580, ev "eventfd2" 0 []);
  (581, ev "eventfd2" 2 [{"count"; LINX_FIELD_TYPE_UINT32}; {"flags"; LINX_FIELD_TYPE_INT32}]);
  (582, ev "epoll_create1" 0 []);
  (583, ev "epoll_create1" 1 [{"flags"; LINX_FIELD_TYPE_INT32}]);
  (584, ev "dup3" 1 [{"fd"; LINX_FIELD_TYPE_INT64}]);
  (585, ev "dup3" 4 [
      {"res"; LINX_FIELD_TYPE_INT64};
      {"oldfd"; LINX_FIELD_TYPE_INT64};
      {"newfd"; LINX_FIELD_TYPE_INT64};
      {"flags"; LINX_FIELD_TYPE_INT32}]);
  (586, ev "pipe2" 0 []);
  (587, ev "pipe2" 2 [{"fildes"; LINX_FIELD_TYPE_UNKNOWN}; {"flags"; LINX_FIELD_TYPE_INT32}]);
  (588, ev "inotify_init1" 0 []);
  (589, ev "inotify_init1" 1 [{"flags"; LINX_FIELD_TYPE_INT32}]);
  (590, ev "preadv" 0 []);
  (591, ev "preadv" 5 [
      {"fd"; LINX_FIELD_TYPE_UINT64};
      {"vec"; LINX_FIELD_TYPE_UNKNOWN};
      {"vlen"; LINX_FIELD_TYPE_UINT64};
      {"pos_l"; LINX_FIELD_TYPE_UINT64};
      {"pos_h"; LINX_FIELD_TYPE_UINT64}]);
  (592, ev "pwritev" 0 []) ].

(** linx_event_table.c, lines 3379 to 3527 *)
Definition event_table_24 : list (Z * linx_event_table_t) := [
  (593, ev "pwritev" 5 [
      {"fd"; LINX_FIELD_TYPE_UINT64};
      {"vec"; LINX_FIELD_TYPE_UNKNOWN};
      {"vlen"; LINX_FIELD_TYPE_UINT64};
      {"pos_l"; LINX_FIELD_TYPE_UINT64};
      {"pos_h"; LINX_FIELD_TYPE_UINT64}]);
  (594, ev "rt_tgsigqueueinfo" 0 []);
  (595, ev "rt_tgsigqueueinfo" 4 [
      {"tgid"; LINX_FIELD_TYPE_INT32};
      {"pid"; LINX_FIELD_TYPE_INT32};
      {"sig"; LINX_FIELD_TYPE_INT32};
      {"uinfo"; LINX_FIELD_TYPE_UNKNOWN}]);
  (596, ev "perf_event_open" 0 []);
  (597, ev "perf_event_open" 5 [
      {"attr_uptr"; LINX_FIELD_TYPE_UNKNOWN};
      {"pid"; LINX_FIELD_TYPE_INT32};
      {"cpu"; LINX_FIELD_TYPE_INT32};
      {"group_fd"; LINX_FIELD_TYPE_INT32};
      {"flags"; LINX_FIELD_TYPE_UINT64}]);
  (598, ev "recvmmsg" 0 []);
  (599, ev "recvmmsg" 5 [
      {"fd"; LINX_FIELD_TYPE_INT32};
      {"mmsg"; LINX_FIELD_TYPE_UNKNOWN};
      {"vlen"; LINX_FIELD_TYPE_UINT32};
      {"flags"; LINX_FIELD_TYPE_UINT32};
      {"timeout"; LINX_FIELD_TYPE_UNKNOWN}]);
  (600, ev "fanotify_init" 0 []);
  (601, ev "fanotify_init" 2 [
      {"flags"; LINX_FIELD_TYPE_UINT32};
      {"event_f_flags"; LINX_FIELD_TYPE_UINT32}]);
  (602, ev "fanotify_mark" 0 []);
  (603, ev "fanotify_mark" 5 [
      {"fanotify_fd"; LINX_FIELD_TYPE_INT32};
      {"flags"; LINX_FIELD_TYPE_UINT32};
      {"mask"; LINX_FIELD_TYPE_UINT64};
      {"dfd"; LINX_FIELD_TYPE_INT32};
      {"pathname"; LINX_FIELD_TYPE_CHARBUF}]);
  (604, ev "prlimit64" 0 []);
  (605, ev "prlimit64" 4 [
      {"pid"; LINX_FIELD_TYPE_INT32};
      {"resource"; LINX_FIELD_TYPE_UINT32};
      {"new_rlim"; LINX_FIELD_TYPE_UNKNOWN};
      {"old_rlim"; LINX_FIELD_TYPE_UNKNOWN}]);
  (606, ev "name_to_handle_at" 0 []);
  (607, ev "name_to_handle_at" 5 [
      {"dfd"; LINX_FIELD_TYPE_INT32};
      {"name"; LINX_FIELD_TYPE_CHARBUF};
      {"handle"; LINX_FIELD_TYPE_UNKNOWN};
      {"mnt_id"; LINX_FIELD_TYPE_UNKNOWN};
      {"flag"; LINX_FIELD_TYPE_INT32}]);
  (608, ev "open_by_handle_at" 0 []);
  (609, ev "open_by_handle_at" 3 [
      {"mountdirfd"; LINX_FIELD_TYPE_INT32};
      {"handle"; LINX_FIELD_TYPE_UNKNOWN};
      {"flags"; LINX_FIELD_TYPE_INT32}]);
  (610, ev "clock_adjtime" 0 []);
  (611, ev "clock_adjtime" 2 [
      {"which_clock"; LINX_FIELD_TYPE_INT32};
      {"utx"; LINX_FIELD_TYPE_UNKNOWN}]);
  (612, ev "syncfs" 0 []);
  (613, ev "syncfs" 1 [{"fd"; LINX_FIELD_TYPE_INT32}]);
  (614, ev "sendmmsg" 0 []);
  (615, ev "sendmmsg" 4 [
      {"fd"; LINX_FIELD_TYPE_INT32};
      {"mmsg"; LINX_FIELD_TYPE_UNKNOWN};
      {"vlen"; LINX_FIELD_TYPE_UINT32};
      {"flags"; LINX_FIELD_TYPE_UINT32}]) ].

(** linx_event_table.c, lines 3528 to 3673 *)
Definition event_table_25 : list (Z * linx_event_table_t) := [
  (616, ev "setns" 0 []);
  (617, ev "setns" 2 [{"fd"; LINX_FIELD_TYPE_INT32}; {"flags"; LINX_FIELD_TYPE_INT32}]);
  (618, ev "getcpu" 0 []);
  (619, ev "getcpu" 3 [
      {"cpup"; LINX_FIELD_TYPE_UNKNOWN};
      {"nodep"; LINX_FIELD_TYPE_UNKNOWN};
      {"unused"; LINX_FIELD_TYPE_UNKNOWN}]);
  (620, ev "process_vm_readv" 0 []);
  (621, ev "process_vm_readv" 6 [
      {"pid"; LINX_FIELD_TYPE_INT32};
      {"lvec"; LINX_FIELD_TYPE_UNKNOWN};
      {"liovcnt"; LINX_FIELD_TYPE_UINT64};
      {"rvec"; LINX_FIELD_TYPE_UNKNOWN};
      {"riovcnt"; LINX_FIELD_TYPE_UINT64};
      {"flags"; LINX_FIELD_TYPE_UINT64}]);
  (622, ev "process_vm_writev" 0 []);
  (623, ev "process_vm_writev" 6 [
      {"pid"; LINX_FIELD_TYPE_INT32};
      {"lvec"; LINX_FIELD_TYPE_UNKNOWN};
      {"liovcnt"; LINX_FIELD_TYPE_UINT64};
      {"rvec"; LINX_FIELD_TYPE_UNKNOWN};
      {"riovcnt"; LINX_FIELD_TYPE_UINT64};
      {"flags"; LINX_FIELD_TYPE_UINT64}]);
  (624, ev "kcmp" 0 []);
  (625, ev "kcmp" 5 [
      {"pid1"; LINX_FIELD_TYPE_INT32};
      {"pid2"; LINX_FIELD_TYPE_INT32};
      {"type"; LINX_FIELD_TYPE_INT32};
      {"idx1"; LINX_FIELD_TYPE_UINT64};
      {"idx2"; LINX_FIELD_TYPE_UINT64}]);
  (626, ev "finit_module" 0 []);
  (627, ev "finit_module" 3 [
      {"fd"; LINX_FIELD_TYPE_INT32};
      {"uargs"; LINX_FIELD_TYPE_CHARBUF};
      {"flags"; LINX_FIELD_TYPE_INT32}]);
  (628, ev "sched_setattr" 0 []);
  (629, ev "sched_setattr" 3 [
      {"pid"; LINX_FIELD_TYPE_INT32};
      {"uattr"; LINX_FIELD_TYPE_UNKNOWN};
      {"flags"; LINX_FIELD_TYPE_UINT32}]);
  (630, ev "sched_getattr" 0 []);
  (631, ev "sched_getattr" 4 [
      {"pid"; LINX_FIELD_TYPE_INT32};
      {"uattr"; LINX_FIELD_TYPE_UNKNOWN};
      {"usize"; LINX_FIELD_TYPE_UINT32};
      {"flags"; LINX_FIELD_TYPE_UINT32}]);
  (632, ev "renameat2" 0 []);
  (633, ev "renameat2" 5 [
      {"olddfd"; LINX_FIELD_TYPE_INT32};
      {"oldname"; LINX_FIELD_TYPE_CHARBUF};
      {"newdfd"; LINX_FIELD_TYPE_INT32};
      {"newname"; LINX_FIELD_TYPE_CHARBUF};
      {"flags"; LINX_FIELD_TYPE_UINT32}]);
  (634, ev "seccomp" 0 []);
  (635, ev "seccomp" 3 [
      {"op"; LINX_FIELD_TYPE_UINT32};
      {"flags"; LINX_FIELD_TYPE_UINT32};
      {"uargs"; LINX_FIELD_TYPE_UNKNOWN}]);
  (636, ev "getrandom" 0 []);
  (637, ev "getrandom" 3 [
      {"ubuf"; LINX_FIELD_TYPE_CHARBUF};
      {"len"; LINX_FIELD_TYPE_UINT64};
      {"flags"; LINX_FIELD_TYPE_UINT32}]);
  (638, ev "memfd_create" 0 []) ].

(** linx_event_table.c, lines 3674 to 3816 *)
Definition event_table_26 : list (Z * linx_event_table_t) := [
  (639, ev "memfd_create" 2 [{"uname"; LINX_FIELD_TYPE_CHARBUF}; {"flags"; LINX_FIELD_TYPE_UINT32}]);
  (640, ev "kexec_file_load" 0 []);
  (641, ev "kexec_file_load" 5 [
      {"kernel_fd"; LINX_FIELD_TYPE_INT32};
      {"initrd_fd"; LINX_FIELD_TYPE_INT32};
      {"cmdline_len"; LINX_FIELD_TYPE_UINT64};
      {"cmdline_ptr"; LINX_FIELD_TYPE_CHARBUF};
      {"flags"; LINX_FIELD_TYPE_UINT64}]);
  (642, ev "bpf" 0 []);
  (643, ev "bpf" 3 [
      {"cmd"; LINX_FIELD_TYPE_INT32};
      {"uattr"; LINX_FIELD_TYPE_UNKNOWN};
      {"size"; LINX_FIELD_TYPE_UINT32}]);
  (644, ev "execveat" 0 []);
  (645, ev "execveat" 5 [
      {"fd"; LINX_FIELD_TYPE_INT32};
      {"filename"; LINX_FIELD_TYPE_CHARBUF};
      {"argv"; LINX_FIELD_TYPE_UNKNOWN};
      {"envp"; LINX_FIELD_TYPE_UNKNOWN};
      {"flags"; LINX_FIELD_TYPE_INT32}]);
  (646, ev "userfaultfd" 0 []);
  (647, ev "userfaultfd" 1 [{"flags"; LINX_FIELD_TYPE_INT32}]);
  (648, ev "membarrier" 0 []);
  (649, ev "membarrier" 3 [
      {"cmd"; LINX_FIELD_TYPE_INT32};
      {"flags"; LINX_FIELD_TYPE_UINT32};
      {"cpu_id"; LINX_FIELD_TYPE_INT32}]);
  (650, ev "mlock2" 0 []);
  (651, ev "mlock2" 3 [
      {"start"; LINX_FIELD_TYPE_UINT64};
      {"len"; LINX_FIELD_TYPE_UINT64};
      {"flags"; LINX_FIELD_TYPE_INT32}]);
  (652, ev "copy_file_range" 0 []);
  (653, ev "copy_file_range" 6 [
      {"fd_in"; LINX_FIELD_TYPE_INT32};
      {"off_in"; LINX_FIELD_TYPE_UNKNOWN};
      {"fd_out"; LINX_FIELD_TYPE_INT32};
      {"off_out"; LINX_FIELD_TYPE_UNKNOWN};
      {"len"; LINX_FIELD_TYPE_UINT64};
      {"flags"; LINX_FIELD_TYPE_UINT32}]);
  (654, ev "preadv2" 0 []);
  (655, ev "preadv2" 6 [
      {"fd"; LINX_FIELD_TYPE_UINT64};
      {"vec"; LINX_FIELD_TYPE_UNKNOWN};
      {"vlen"; LINX_FIELD_TYPE_UINT64};
      {"pos_l"; LINX_FIELD_TYPE_UINT64};
      {"pos_h"; LINX_FIELD_TYPE_UINT64};
      {"flags"; LINX_FIELD_TYPE_INT32}]);
  (656, ev "pwritev2" 0 []);
  (657, ev "pwritev2" 6 [
      {"fd"; LINX_FIELD_TYPE_UINT64};
      {"vec"; LINX_FIELD_TYPE_UNKNOWN};
      {"vlen"; LINX_FIELD_TYPE_UINT64};
      {"pos_l"; LINX_FIELD_TYPE_UINT64};
      {"pos_h"; LINX_FIELD_TYPE_UINT64};
      {"flags"; LINX_FIELD_TYPE_INT32}]);
  (658, ev "pkey_mprotect" 0 []);
  (659, ev "pkey_mprotect" 4 [
      {"start"; LINX_FIELD_TYPE_UINT64};
      {"len"; LINX_FIELD_TYPE_UINT64};
      {"prot"; LINX_FIELD_TYPE_UINT64};
      {"pkey"; LINX_FIELD_TYPE_INT32}]);
  (660, ev "pkey_alloc" 0 []) ].

(** linx_event_table.c, lines 3817 to 3964 *)
Definition event_table_27 : list (Z * linx_event_table_t) := [
  (661, ev "pkey_alloc" 2 [{"flags"; LINX_FIELD_TYPE_UINT64}; {"init_val"; LINX_FIELD_TYPE_UINT64}]);
  (662, ev "pkey_free" 0 []);
  (663, ev "pkey_free" 1 [{"pkey"; LINX_FIELD_TYPE_INT32}]);
  (664, ev "statx" 0 []);
  (665, ev "statx" 5 [
      {"dfd"; LINX_FIELD_TYPE_INT32};
      {"filename"; LINX_FIELD_TYPE_CHARBUF};
      {"flags"; LINX_FIELD_TYPE_UINT32};
      {"mask"; LINX_FIELD_TYPE_UINT32};
      {"buffer"; LINX_FIELD_TYPE_UNKNOWN}]);
  (666, ev "io_pgetevents" 0 []);
  (667, ev "io_pgetevents" 6 [
      {"ctx_id"; LINX_FIELD_TYPE_UINT64};
      {"min_nr"; LINX_FIELD_TYPE_INT64};
      {"nr"; LINX_FIELD_TYPE_INT64};
      {"events"; LINX_FIELD_TYPE_UNKNOWN};
      {"timeout"; LINX_FIELD_TYPE_UNKNOWN};
      {"usig"; LINX_FIELD_TYPE_UNKNOWN}]);
  (668, ev "rseq" 0 []);
  (669, ev "rseq" 4 [
      {"rseq"; LINX_FIELD_TYPE_UNKNOWN};
      {"rseq_len"; LINX_FIELD_TYPE_UINT32};
      {"flags"; LINX_FIELD_TYPE_INT32};
      {"sig"; LINX_FIELD_TYPE_UINT32}]);
  (848, ev "pidfd_send_signal" 0 []);
  (849, ev "pidfd_send_signal" 4 [
      {"pidfd"; LINX_FIELD_TYPE_INT32};
      {"sig"; LINX_FIELD_TYPE_INT32};
      {"info"; LINX_FIELD_TYPE_UNKNOWN};
      {"flags"; LINX_FIELD_TYPE_UINT32}]);
  (850, ev "io_uring_setup" 0 []);
  (851, ev "io_uring_setup" 2 [
      {"entries"; LINX_FIELD_TYPE_UINT32};
      {"params"; LINX_FIELD_TYPE_UNKNOWN}]);
  (852, ev "io_uring_enter" 0 []);
  (853, ev "io_uring_enter" 6 [
      {"fd"; LINX_FIELD_TYPE_UINT32};
      {"to_submit"; LINX_FIELD_TYPE_UINT32};
      {"min_complete"; LINX_FIELD_TYPE_UINT32};
      {"flags"; LINX_FIELD_TYPE_UINT32};
      {"argp"; LINX_FIELD_TYPE_UNKNOWN};
      {"argsz"; LINX_FIELD_TYPE_UINT64}]);
  (854, ev "io_uring_register" 0 []);
  (855, ev "io_uring_register" 4 [
      {"fd"; LINX_FIELD_TYPE_UINT32};
      {"opcode"; LINX_FIELD_TYPE_UINT32};
      {"arg"; LINX_FIELD_TYPE_UNKNOWN};
      {"nr_args"; LINX_FIELD_TYPE_UINT32}]);
  (856, ev "open_tree" 0 []);
  (857, ev "open_tree" 3 [
      {"dfd"; LINX_FIELD_TYPE_INT32};
      {"filename"; LINX_FIELD_TYPE_CHARBUF};
      {"flags"; LINX_FIELD_TYPE_UINT32}]);
  (858, ev "move_mount" 0 []);
  (859, ev "move_mount" 5 [
      {"from_dfd"; LINX_FIELD_TYPE_INT32};
      {"from_pathname"; LINX_FIELD_TYPE_CHARBUF};
      {"to_dfd"; LINX_FIELD_TYPE_INT32};
      {"to_pathname"; LINX_FIELD_TYPE_CHARBUF};
      {"flags"; LINX_FIELD_TYPE_UINT32}]);
  (860, ev "fsopen" 0 []);
  (861, ev "fsopen" 2 [{"_fs_name"; LINX_FIELD_TYPE_CHARBUF}; {"flags"; LINX_FIELD_TYPE_UINT32}]) ].

(** linx_event_table.c, lines 3965 to 4107 *)
Definition event_table_28 : list (Z * linx_event_table_t) := [
  (862, ev "fsconfig" 0 []);
  (863, ev "fsconfig" 5 [
      {"fd"; LINX_FIELD_TYPE_INT32};
      {"cmd"; LINX_FIELD_TYPE_UINT32};
      {"_key"; LINX_FIELD_TYPE_CHARBUF};
      {"_value"; LINX_FIELD_TYPE_UNKNOWN};
      {"aux"; LINX_FIELD_TYPE_INT32}]);
  (864, ev "fsmount" 0 []);
  (865, ev "fsmount" 3 [
      {"fs_fd"; LINX_FIELD_TYPE_INT32};
      {"flags"; LINX_FIELD_TYPE_UINT32};
      {"attr_flags"; LINX_FIELD_TYPE_UINT32}]);
  (866, ev "fspick" 0 []);
  (867, ev "fspick" 3 [
      {"dfd"; LINX_FIELD_TYPE_INT32};
      {"path"; LINX_FIELD_TYPE_CHARBUF};
      {"flags"; LINX_FIELD_TYPE_UINT32}]);
  (868, ev "pidfd_open" 0 []);
  (869, ev "pidfd_open" 2 [{"pid"; LINX_FIELD_TYPE_INT32}; {"flags"; LINX_FIELD_TYPE_UINT32}]);
  (870, ev "clone3" 0 []);
  (871, ev "clone3" 2 [{"uargs"; LINX_FIELD_TYPE_UNKNOWN}; {"size"; LINX_FIELD_TYPE_UINT64}]);
  (872, ev "close_range" 0 []);
  (873, ev "close_range" 3 [
      {"fd"; LINX_FIELD_TYPE_UINT32};
      {"max_fd"; LINX_FIELD_TYPE_UINT32};
      {"flags"; LINX_FIELD_TYPE_UINT32}]);
  (874, ev "openat2" 0 []);
  (875, ev "openat2" 4 [
      {"dfd"; LINX_FIELD_TYPE_INT32};
      {"filename"; LINX_FIELD_TYPE_CHARBUF};
      {"how"; LINX_FIELD_TYPE_UNKNOWN};
      {"usize"; LINX_FIELD_TYPE_UINT64}]);
  (876, ev "pidfd_getfd" 0 []);
  (877, ev "pidfd_getfd" 3 [
      {"pidfd"; LINX_FIELD_TYPE_INT32};
      {"fd"; LINX_FIELD_TYPE_INT32};
      {"flags"; LINX_FIELD_TYPE_UINT32}]);
  (878, ev "faccessat2" 0 []);
  (879, ev "faccessat2" 4 [
      {"dfd"; LINX_FIELD_TYPE_INT32};
      {"filename"; LINX_FIELD_TYPE_CHARBUF};
      {"mode"; LINX_FIELD_TYPE_INT32};
      {"flags"; LINX_FIELD_TYPE_INT32}]);
  (880, ev "process_madvise" 0 []);
  (881, ev "process_madvise" 5 [
      {"pidfd"; LINX_FIELD_TYPE_INT32};
      {"vec"; LINX_FIELD_TYPE_UNKNOWN};
      {"vlen"; LINX_FIELD_TYPE_UINT64};
      {"behavior"; LINX_FIELD_TYPE_INT32};
      {"flags"; LINX_FIELD_TYPE_UINT32}]);
  (882, ev "epoll_pwait2" 0 []);
  (883, ev "epoll_pwait2" 6 [
      {"epfd"; LINX_FIELD_TYPE_INT32};
      {"events"; LINX_FIELD_TYPE_UNKNOWN};
      {"maxevents"; LINX_FIELD_TYPE_INT32};
      {"timeout"; LINX_FIELD_TYPE_UNKNOWN};
      {"sigmask"; LINX_FIELD_TYPE_UNKNOWN};
      {"sigsetsize"; LINX_FIELD_TYPE_UINT64}]);
  (884, ev "mount_setattr" 0 []) ].

(** linx_event_table.c, lines 4108 to 4240 *)
Definition event_table_29 : list (Z * linx_event_table_t) := [
  (885, ev "mount_setattr" 5 [
      {"dfd"; LINX_FIELD_TYPE_INT32};
      {"path"; LINX_FIELD_TYPE_CHARBUF};
      {"flags"; LINX_FIELD_TYPE_UINT32};
      {"uattr"; LINX_FIELD_TYPE_UNKNOWN};
      {"usize"; LINX_FIELD_TYPE_UINT64}]);
  (886, ev "quotactl_fd" 0 []);
  (887, ev "quotactl_fd" 4 [
      {"fd"; LINX_FIELD_TYPE_UINT32};
      {"cmd"; LINX_FIELD_TYPE_UINT32};
      {"id"; LINX_FIELD_TYPE_UINT32};
      {"addr"; LINX_FIELD_TYPE_UNKNOWN}]);
  (888, ev "landlock_create_ruleset" 0 []);
  (889, ev "landlock_create_ruleset" 3 [
      {"attr"; LINX_FIELD_TYPE_UNKNOWN};
      {"size"; LINX_FIELD_TYPE_UINT64};
      {"flags"; LINX_FIELD_TYPE_UINT32}]);
  (890, ev "landlock_add_rule" 0 []);
  (891, ev "landlock_add_rule" 4 [
      {"ruleset_fd"; LINX_FIELD_TYPE_INT32};
      {"rule_type"; LINX_FIELD_TYPE_UINT32};
      {"rule_attr"; LINX_FIELD_TYPE_UNKNOWN};
      {"flags"; LINX_FIELD_TYPE_UINT32}]);
  (892, ev "landlock_restrict_self" 0 []);
  (893, ev "landlock_restrict_self" 2 [
      {"ruleset_fd"; LINX_FIELD_TYPE_INT32};
      {"flags"; LINX_FIELD_TYPE_UINT32}]);
  (894, ev "memfd_secret" 0 []);
  (895, ev "memfd_secret" 1 [{"flags"; LINX_FIELD_TYPE_UINT32}]);
  (896, ev "process_mrelease" 0 []);
  (897, ev "process_mrelease" 2 [
      {"pidfd"; LINX_FIELD_TYPE_INT32};
      {"flags"; LINX_FIELD_TYPE_UINT32}]);
  (898, ev "futex_waitv" 0 []);
  (899, ev "futex_waitv" 5 [
      {"waiters"; LINX_FIELD_TYPE_UNKNOWN};
      {"nr_futexes"; LINX_FIELD_TYPE_UINT32};
      {"flags"; LINX_FIELD_TYPE_UINT32};
      {"timeout"; LINX_FIELD_TYPE_UNKNOWN};
      {"clockid"; LINX_FIELD_TYPE_INT32}]);
  (900, ev "set_mempolicy_home_node" 0 []);
  (901, ev "set_mempolicy_home_node" 4 [
      {"start"; LINX_FIELD_TYPE_UINT64};
      {"len"; LINX_FIELD_TYPE_UINT64};
      {"home_node"; LINX_FIELD_TYPE_UINT64};
      {"flags"; LINX_FIELD_TYPE_UINT64}]);
  (902, ev "cachestat" 0 []);
  (903, ev "cachestat" 4 [
      {"fd"; LINX_FIELD_TYPE_UINT32};
      {"cstat_range"; LINX_FIELD_TYPE_UNKNOWN};
      {"cstat"; LINX_FIELD_TYPE_UNKNOWN};
      {"flags"; LINX_FIELD_TYPE_UINT32}]);
  (904, ev "fchmodat2" 0 []);
  (905, ev "fchmodat2" 4 [
      {"dfd"; LINX_FIELD_TYPE_INT32};
      {"filename"; LINX_FIELD_TYPE_CHARBUF};
      {"mode"; LINX_FIELD_TYPE_UINT16};
      {"flags"; LINX_FIELD_TYPE_UINT32}]) ].

(** The initialisers of the table, in the order of the source. *)
Definition event_table_entries : list (Z * linx_event_table_t) :=
  event_table_01 ++ event_table_02 ++ event_table_03 ++ event_table_04 ++ event_table_05
  ++ event_table_06 ++ event_table_07 ++ event_table_08 ++ event_table_09 ++ event_table_10
  ++ event_table_11 ++ event_table_12 ++ event_table_13 ++ event_table_14 ++ event_table_15
  ++ event_table_16 ++ event_table_17 ++ event_table_18 ++ event_table_19 ++ event_table_20
  ++ event_table_21 ++ event_table_22 ++ event_table_23 ++ event_table_24 ++ event_table_25
  ++ event_table_26 ++ event_table_27 ++ event_table_28 ++ event_table_29.

Definition event_table_map : gmap Z linx_event_table_t :=
  list_to_map event_table_entries.

(** An element of the array without an initialiser is zero. *)
Definition zero_event : linx_event_table_t := mk_event "" 0 [].

(** [g_linx_event_table[i]]; [None] when [i] is outside the array. *)
Definition g_linx_event_table (i : Z) : option linx_event_table_t :=
  if decide (0 ≤ i < LINX_EVENT_TYPE_MAX) then
    Some (default zero_event (event_table_map !! i))
  else None.

(** [params[i]] of an entry: an array of 32 elements whose tail is zero. *)
Definition event_param (e : linx_event_table_t) (i : Z) : option linx_param_info_t :=
  if decide (0 ≤ i < 32) then
    Some (default (mk_param "" LINX_FIELD_TYPE_UNKNOWN) (le_params e !! Z.to_nat i))
  else None.

(** ** Well-formedness

    What the readers of the table rely on: the parameter count is the number
    of initialised parameters and fits the array, names fit their buffers of
    32 bytes with the terminator, and the parameter names of one event differ
    (the look-up by name of [linx_hash_map_get_value_ptr] finds the first). *)
Definition event_wf (e : linx_event_table_t) : bool :=
  (le_nparams e =? Z.of_nat (length (le_params e)))
  && (le_nparams e <=? 32)
  && (Z.of_nat (strlen (le_name e)) <? 32)
  && forallb (λ p, Z.of_nat (strlen (lp_name p)) <? 32) (le_params e)
  && bool_decide (NoDup (lp_name <$> le_params e)).

Lemma event_table_entries_wf : forallb (λ p, event_wf p.2) event_table_entries = true.
Proof. vm_compute. reflexivity. Qed.

Lemma event_table_keys_nodup : bool_decide (NoDup event_table_entries.*1) = true.
Proof. vm_compute. reflexivity. Qed.

(** The closed tables are only ever evaluated by the virtual machine. *)
#[global] Opaque event_table_entries event_table_map.

Lemma event_table_map_lookup i e :
  event_table_map !! i = Some e → (i, e) ∈ event_table_entries.
Proof.
  with_strategy transparent [event_table_map] unfold event_table_map.
  apply elem_of_list_to_map_2.
Qed.

Lemma g_linx_event_table_wf i e : g_linx_event_table i = Some e → event_wf e = true.
Proof.
  unfold g_linx_event_table. case_decide; [|done]. intros [= <-].
  destruct (event_table_map !! i) as [e|] eqn:E; [|reflexivity].
  apply event_table_map_lookup in E. pose proof event_table_entries_wf as Hwf.
  rewrite forallb_forall in Hwf. apply (Hwf (i, e)). by apply list_elem_of_In.
Qed.

Lemma event_wf_nparams e : event_wf e = true → le_nparams e = Z.of_nat (length (le_params e)).
Proof. unfold event_wf. rewrite !andb_true_iff. intros H. by apply Z.eqb_eq, H. Qed.

Lemma event_wf_bound e : event_wf e = true → 0 ≤ le_nparams e ≤ 32.
Proof.
  intros H. pose proof (event_wf_nparams _ H). unfold event_wf in H.
  rewrite !andb_true_iff, !Z.leb_le in H. lia.
Qed.

(** Within the declared count, a parameter is the one of the initialiser. *)
Lemma event_param_in e i :
  event_wf e = true → 0 ≤ i < le_nparams e →
  event_param e i = le_params e !! Z.to_nat i ∧ is_Some (event_param e i).
Proof.
  intros Hwf Hi. pose proof (event_wf_nparams _ Hwf). pose proof (event_wf_bound _ Hwf).
  unfold event_param. rewrite decide_True by lia.
  destruct (lookup_lt_is_Some_2 (le_params e) (Z.to_nat i)) as [p Hp]; [lia|].
  rewrite Hp. eauto.
Qed.

(** ** Entry and exit events come in pairs with one name, and two system
    calls have different names *)
Definition event_name (i : Z) : string := from_option le_name "" (g_linx_event_table i).

Definition pairs_agree : bool :=
  forallb (λ k, streq (event_name (2 * Z.of_nat k)) (event_name (2 * Z.of_nat k + 1)))
          (seq 0 453).

(** The names of the entry events that have an initialiser. *)
Definition enter_names : list string :=
  filter (λ s, s ≠ "") ((λ k : nat, event_name (2 * Z.of_nat k)) <$> seq 0 453).

(** Every element of the event table, initialised or not, is well formed:
    its parameter count is the number of its parameters, at most 32, its
    names fit their 32-byte buffers and its parameter names are distinct;
    the entry and exit events of a system call carry the same name, and no
    two system calls share one. *)
Theorem event_table_well_formed :
  (∀ i e, g_linx_event_table i = Some e → event_wf e = true)
  ∧ (∀ k, 0 ≤ k < 453 → event_name (2 * k) = event_name (2 * k + 1))
  ∧ NoDup enter_names.
Proof.
  split; [exact g_linx_event_table_wf|]. split.
  - intros k Hk. assert (pairs_agree = true) as H by (vm_compute; reflexivity).
    unfold pairs_agree in H. rewrite forallb_forall in H.
    specialize (H (Z.to_nat k)). rewrite Z2Nat.id in H by lia.
    apply streq_true, H, in_seq. lia.
  - assert (bool_decide (NoDup enter_names) = true) as H by (vm_compute; reflexivity).
    by apply bool_decide_eq_true in H.
Qed.
