(* ===== verification/Memory.v ===== *)
(** * Byte memory

    The rule engine keeps offsets into C structs and reads the fields through
    raw pointers, so the values a rule is matched against are bytes at
    addresses.  A memory is a finite map from addresses to bytes (0..255);
    reading an address it does not hold is undefined behaviour.  Integers are
    little-endian (x86-64). *)
From S2P Require Import Prelude CString.
From Stdlib Require Import Ascii.

#[local] Open Scope Z_scope.

Abbreviation memory := (gmap Z Z).

(** ** Reads *)
Fixpoint load_le (m : memory) (a : Z) (n : nat) : option Z :=
  match n with
  | O => Some 0
  | S n' =>
      b ← m !! a;
      r ← load_le m (a + 1) n';
      Some (b + 256 * r)
  end.

Definition load_u64 (m : memory) (a : Z) : option Z := load_le m a 8.

(** The C string at [a]: the characters up to the first NUL byte. *)
Fixpoint load_cstr_fuel (fuel : nat) (m : memory) (a : Z) : option string :=
  match fuel with
  | O => None
  | S fuel' =>
      b ← m !! a;
      if b =? 0 then Some EmptyString
      else r ← load_cstr_fuel fuel' m (a + 1); Some (String (chr b) r)
  end.

(** A string within the memory has fewer characters than the memory has
    bytes, so this fuel is never the reason for [None]. *)
Definition load_cstr (m : memory) (a : Z) : option string :=
  load_cstr_fuel (S (size m)) m a.

(** ** Writes *)
Fixpoint write_bytes (m : memory) (a : Z) (bs : list Z) : memory :=
  match bs with
  | [] => m
  | b :: bs' => write_bytes (<[a := b]> m) (a + 1) bs'
  end.

(** ** Layouts: what a struct field holds *)
Fixpoint bytes_at (m : memory) (a : Z) (l : list Z) : Prop :=
  match l with
  | [] => True
  | b :: l' => m !! a = Some b ∧ bytes_at m (a + 1) l'
  end.

Fixpoint le_split (n : nat) (z : Z) : list Z :=
  match n with
  | O => []
  | S n' => z `mod` 256 :: le_split n' (z / 256)
  end.

Fixpoint cstr_bytes (s : string) : list Z :=
  match s with
  | EmptyString => [0]
  | String c s' => code c :: cstr_bytes s'
  end.

Definition int_at (m : memory) (a : Z) (n : nat) (z : Z) : Prop :=
  bytes_at m a (le_split n z).
Definition cstr_at (m : memory) (a : Z) (s : string) : Prop :=
  bytes_at m a (cstr_bytes s).

(** A C string holds no NUL character. *)
Fixpoint no_nul (s : string) : bool :=
  match s with
  | EmptyString => true
  | String c s' => negb (code c =? 0) && no_nul s'
  end.

(** The text of an array: what is before its first NUL. *)
Fixpoint text (l : list Z) : string :=
  match l with [] => "" | b :: l => if b =? 0 then "" else String (chr b) (text l) end.

(** Memory built from blocks, for concrete states. *)
Fixpoint mem_block (a : Z) (l : list Z) : memory :=
  match l with
  | [] => ∅
  | b :: l' => <[a := b]> (mem_block (a + 1) l')
  end.

#[export] Instance bytes_at_dec m a l : Decision (bytes_at m a l).
Proof. revert a. induction l; intros; cbn; apply _. Defined.

(** ** Lemmas *)
Lemma code_range c : 0 ≤ code c < 256.
Proof. unfold code. pose proof (N_ascii_bounded c). lia. Qed.

Lemma chr_code c : chr (code c) = c.
Proof. unfold chr, code. by rewrite N2Z.id, ascii_N_embedding. Qed.

Lemma code_chr z : 0 ≤ z < 256 → code (chr z) = z.
Proof. intros H. unfold chr, code. rewrite N_ascii_embedding by lia. lia. Qed.

Lemma le_split_length n z : length (le_split n z) = n.
Proof. revert z. induction n; intros; cbn; auto. Qed.

Lemma bytes_at_app m a l1 l2 :
  bytes_at m a (l1 ++ l2) ↔ bytes_at m a l1 ∧ bytes_at m (a + Z.of_nat (length l1)) l2.
Proof.
  revert a. induction l1 as [|b l1 IH]; intros a; cbn [app bytes_at length].
  - rewrite Z.add_0_r. tauto.
  - rewrite IH. replace (a + 1 + Z.of_nat (length l1)) with (a + Z.of_nat (S (length l1))) by lia.
    tauto.
Qed.

Lemma write_bytes_app m a l1 l2 :
  write_bytes m a (l1 ++ l2) = write_bytes (write_bytes m a l1) (a + Z.of_nat (length l1)) l2.
Proof.
  revert m a. induction l1 as [|b l1 IH]; intros m a; cbn [app write_bytes length]; [by rewrite Z.add_0_r|].
  rewrite IH. f_equal. lia.
Qed.

Lemma write_bytes_out m a bs i : i < a ∨ a + Z.of_nat (length bs) ≤ i → write_bytes m a bs !! i = m !! i.
Proof.
  revert m a. induction bs as [|b bs IH]; intros m a Hi; cbn [write_bytes length] in *; [done|].
  rewrite IH by lia. rewrite lookup_insert_ne by lia. done.
Qed.

Lemma write_bytes_at m a bs : bytes_at (write_bytes m a bs) a bs.
Proof.
  revert m a. induction bs as [|b bs IH]; intros m a; cbn [write_bytes bytes_at]; [done|].
  split; [|apply IH]. rewrite write_bytes_out by lia. by rewrite lookup_insert_eq.
Qed.

Lemma load_le_bytes m a n z :
  bytes_at m a (le_split n z) → load_le m a n = Some (z `mod` 256 ^ Z.of_nat n).
Proof.
  revert a z. induction n as [|n IH]; intros a z.
  - intros _. change (256 ^ Z.of_nat 0) with 1. cbn. by rewrite Z.mod_1_r.
  - cbn [le_split bytes_at load_le]. intros [Ha Hl]. rewrite Ha. cbn.
    rewrite (IH _ _ Hl). cbn. f_equal.
    rewrite Nat2Z.inj_succ, Z.pow_succ_r by lia.
    rewrite Z.rem_mul_r by lia. lia.
Qed.

Lemma load_u64_int_at m a z : int_at m a 8 z → load_u64 m a = Some (wrap 64 z).
Proof. intros H. unfold load_u64. by rewrite (load_le_bytes _ _ _ _ H). Qed.

(** Two adjacent 4-byte integers read as one 8-byte integer. *)
Lemma load_u64_two m a x y :
  int_at m a 4 x → int_at m (a + 4) 4 y → 0 ≤ x < 2 ^ 32 → 0 ≤ y < 2 ^ 32 →
  load_u64 m a = Some (x + 2 ^ 32 * y).
Proof.
  unfold int_at. intros H1 H2 Hx Hy.
  change (2 ^ 32) with 4294967296 in *.
  assert (H : bytes_at m a (le_split 8 (x + 4294967296 * y))).
  { replace (le_split 8 (x + 4294967296 * y)) with (le_split 4 x ++ le_split 4 y).
    - apply bytes_at_app. rewrite le_split_length. done.
    - cbn [le_split app]. repeat (f_equal; try (Z.div_mod_to_equations; lia)). }
  unfold load_u64. rewrite (load_le_bytes _ _ _ _ H).
  change (256 ^ Z.of_nat 8) with 18446744073709551616. by rewrite Z.mod_small by lia.
Qed.

Lemma load_cstr_fuel_at fuel m a s :
  no_nul s = true → cstr_at m a s → (strlen s < fuel)%nat → load_cstr_fuel fuel m a = Some s.
Proof.
  unfold cstr_at. revert a fuel. induction s as [|c s IH]; intros a [|fuel] Hn H Hf; cbn in Hf; try lia.
  - cbn in *. destruct H as [-> _]. done.
  - cbn [no_nul cstr_bytes bytes_at load_cstr_fuel] in *.
    apply andb_true_iff in Hn as [Hc Hn]. destruct H as [Ha H]. rewrite Ha. cbn.
    apply negb_true_iff in Hc. rewrite Hc, (IH _ fuel Hn H) by lia. cbn. by rewrite chr_code.
Qed.

Lemma bytes_at_subset m a l :
  bytes_at m a l → mem_block a l ⊆ m.
Proof.
  revert a. induction l as [|b l IH]; intros a H; cbn in *; [apply map_empty_subseteq|].
  destruct H as [Ha H]. by apply insert_subseteq_l; [|apply IH].
Qed.

Lemma mem_block_lookup_lt a l i : i < a → mem_block a l !! i = None.
Proof.
  revert a. induction l as [|b l IH]; intros a H; cbn; [apply lookup_empty|].
  rewrite lookup_insert_ne by lia. apply IH. lia.
Qed.

Lemma mem_block_size a l : size (mem_block a l) = length l.
Proof.
  revert a. induction l as [|b l IH]; intros a; cbn; [done|].
  rewrite map_size_insert_None; [by rewrite IH|]. apply mem_block_lookup_lt. lia.
Qed.

Lemma cstr_bytes_length s : length (cstr_bytes s) = S (strlen s).
Proof. induction s; cbn; auto. Qed.

Lemma load_cstr_at m a s : no_nul s = true → cstr_at m a s → load_cstr m a = Some s.
Proof.
  intros Hn H. apply load_cstr_fuel_at; [done..|].
  pose proof (map_subseteq_size _ _ (bytes_at_subset _ _ _ H)) as Hs.
  rewrite mem_block_size, cstr_bytes_length in Hs. lia.
Qed.

(** A C string among bytes. *)
Lemma text_bytes bs :
  Forall (λ b, b ≠ 0) bs → Forall (λ b, 0 ≤ b < 256) bs → cstr_bytes (text bs) = bs ++ [0] ∧ no_nul (text bs) = true.
Proof.
  induction bs as [|b bs IH]; intros Hn Hb; cbn [text]; [done|].
  inversion Hn as [|? ? Hn1 Hn2]; inversion Hb as [|? ? Hb1 Hb2]; subst. destruct (IH Hn2 Hb2) as [E1 E2].
  apply Z.eqb_neq in Hn1 as Hn'. rewrite Hn'. cbn [cstr_bytes no_nul]. rewrite code_chr, E1, E2, Hn' by done. done.
Qed.

#[export] Hint Resolve load_u64_int_at load_cstr_at : linx.
