(* ===== verification/Uthash.v ===== *)
(** * Hash tables of the program (local_depends/uthash, as the program uses it)

    A uthash table is a doubly linked list of elements in insertion order with
    an index from keys to elements.  The program only adds an element after a
    look-up of its key has failed, so keys are unique.  The model is the list;
    the refinement lemmas relate it to a finite map. *)
From S2P Require Import Prelude.

Section uthash.
Context {K A : Type} `{Countable K} (key : A → K).

(** [HASH_FIND] *)
Fixpoint ut_find (k : K) (l : list A) : option A :=
  match l with
  | [] => None
  | a :: l' => if decide (key a = k) then Some a else ut_find k l'
  end.

(** [HASH_ADD] links the element at the end of the list. *)
Definition ut_add (a : A) (l : list A) : list A := l ++ [a].

(** [HASH_DEL] of the element found under [k]. *)
Fixpoint ut_del (k : K) (l : list A) : list A :=
  match l with
  | [] => []
  | a :: l' => if decide (key a = k) then l' else a :: ut_del k l'
  end.

(** A write through the pointer [HASH_FIND] returned. *)
Fixpoint ut_alter (f : A → A) (k : K) (l : list A) : list A :=
  match l with
  | [] => []
  | a :: l' => if decide (key a = k) then f a :: l' else a :: ut_alter f k l'
  end.

Definition ut_wf (l : list A) : Prop := NoDup (key <$> l).

(** The finite map an insertion-ordered table stands for. *)
Fixpoint ut_map (l : list A) : gmap K A :=
  match l with
  | [] => ∅
  | a :: l' => <[key a := a]> (ut_map l')
  end.

Lemma ut_find_map k l : ut_find k l = ut_map l !! k.
Proof.
  induction l as [|a l IH]; cbn; [by rewrite lookup_empty|].
  rewrite lookup_insert, IH. by repeat case_decide.
Qed.

Lemma ut_find_key k l a : ut_find k l = Some a → key a = k.
Proof. induction l as [|x l IH]; cbn; [done|]. case_decide; [by intros [= <-]|done]. Qed.

Lemma ut_find_elem k l a : ut_find k l = Some a → a ∈ l.
Proof.
  induction l as [|x l IH]; cbn; [done|]. case_decide; intros E.
  - simplify_eq. left.
  - right. auto.
Qed.

Lemma ut_find_None k l : ut_find k l = None ↔ k ∉ key <$> l.
Proof.
  induction l as [|x l IH]; cbn; [set_solver|]. case_decide.
  - split; [done|]. intros Hn. destruct Hn. subst k. left.
  - rewrite IH, not_elem_of_cons. naive_solver.
Qed.

Lemma ut_find_Some_wf l a : ut_wf l → a ∈ l → ut_find (key a) l = Some a.
Proof.
  unfold ut_wf. induction l as [|x l IH]; cbn; [set_solver|].
  intros [Hn Hd]%NoDup_cons [->|Ha]%elem_of_cons; [by rewrite decide_True|].
  rewrite decide_False; [auto|]. intros Heq. apply Hn. rewrite Heq. by apply list_elem_of_fmap_2.
Qed.

Lemma ut_add_wf a l : ut_wf l → ut_find (key a) l = None → ut_wf (ut_add a l).
Proof.
  unfold ut_wf, ut_add. rewrite ut_find_None, fmap_app. intros Hd Hn.
  apply NoDup_app. split; [done|]. split; [|apply NoDup_singleton]. set_solver.
Qed.

Lemma ut_add_map a l :
  ut_find (key a) l = None → ut_map (ut_add a l) = <[key a := a]> (ut_map l).
Proof.
  unfold ut_add. induction l as [|x l IH]; cbn; [done|].
  case_decide; [done|]. intros Hf. rewrite IH by done. by rewrite insert_insert_ne.
Qed.

Lemma ut_find_add k a l :
  ut_find (key a) l = None →
  ut_find k (ut_add a l) = if decide (key a = k) then Some a else ut_find k l.
Proof. intros Hf. rewrite !ut_find_map, ut_add_map, lookup_insert by done. done. Qed.

Lemma ut_del_sublist k l : sublist (ut_del k l) l.
Proof. induction l as [|a l IH]; cbn; [done|]. case_decide; by constructor. Qed.

Lemma ut_del_Forall (P : A → Prop) k l : Forall P l → Forall P (ut_del k l).
Proof. induction 1 as [|a l Ha Hl IH]; cbn; [constructor|]. case_decide; [done|by constructor]. Qed.

Lemma ut_del_wf k l : ut_wf l → ut_wf (ut_del k l).
Proof.
  unfold ut_wf. intros Hd. eapply sublist_NoDup; [done|]. apply fmap_sublist, ut_del_sublist.
Qed.

Lemma ut_del_map k l : ut_wf l → ut_map (ut_del k l) = delete k (ut_map l).
Proof.
  unfold ut_wf. induction l as [|a l IH]; cbn; [by rewrite delete_empty|].
  intros [Hn Hd]%NoDup_cons. case_decide as Hk.
  - subst k. rewrite delete_insert_eq, delete_id; [done|].
    rewrite <- ut_find_map. by apply ut_find_None.
  - cbn. rewrite IH, delete_insert_ne by done. done.
Qed.

Lemma ut_alter_keys f k l :
  (∀ a, key (f a) = key a) → key <$> ut_alter f k l = key <$> l.
Proof. intros Hf. induction l as [|a l IH]; cbn; [done|]. case_decide; cbn; by rewrite ?Hf, ?IH. Qed.

Lemma ut_alter_wf f k l : (∀ a, key (f a) = key a) → ut_wf l → ut_wf (ut_alter f k l).
Proof. intros Hf. unfold ut_wf. by rewrite ut_alter_keys. Qed.

Lemma ut_find_alter f k k' l :
  (∀ a, key (f a) = key a) →
  ut_find k' (ut_alter f k l) = if decide (k = k') then f <$> ut_find k' l else ut_find k' l.
Proof.
  intros Hf. destruct (decide (k = k')) as [<-|Hk];
    (induction l as [|a l IH]; cbn; [done|]);
    case_decide; cbn; rewrite ?Hf, ?IH; case_decide; cbn; congruence.
Qed.

Lemma ut_map_alter f k l :
  (∀ a, key (f a) = key a) → ut_map (ut_alter f k l) = alter f k (ut_map l).
Proof.
  intros Hf. apply map_eq. intros k'.
  rewrite lookup_alter, <- !ut_find_map, ut_find_alter by done. case_decide; by subst.
Qed.
End uthash.

#[export] Hint Resolve ut_add_wf ut_del_wf ut_alter_wf : linx.
