(* ===== verification/HashMap.v ===== *)
(** * Field registry (userspace/linx_hash_map)

    The registry maps a table name ("evt", "proc", ...) to the base address of
    a C struct and to the offset, size and type of each of its fields.  The
    rule compiler resolves a field path once; a matcher turns the resolved
    field into a pointer at every event.  Character pointers that may be NULL
    are [option string]; [void *] is an address with 0 for NULL. *)
From S2P Require Import Prelude CString Memory EventTable Uthash.

#[local] Open Scope Z_scope.

(** ** State (linx_hash_map.h, field_table.h, field_info.h) *)
Record field_info_t := mk_field_info {
  fi_key : string;
  fi_offset : Z;
  fi_size : Z;
  fi_type : linx_field_type_t
}.

Record field_table_t := mk_field_table {
  ft_table_name : string;
  ft_fields : list field_info_t;
  ft_base_addr : Z
}.

(** [size] is not initialised by [linx_hash_map_init]; no operation reads it. *)
Record linx_hash_map_t := mk_hash_map {
  hm_tables : list field_table_t;
  hm_size : option Z
}.

(** [s_linx_hash_map] *)
Abbreviation hash_map_state := (option linx_hash_map_t).

Record field_mapping_t := mk_mapping {
  fm_field_name : string;
  fm_offset : Z;
  fm_size : Z;
  fm_type : linx_field_type_t
}.

Record field_result_t := mk_field_result {
  fr_offset : Z;
  fr_type : linx_field_type_t;
  fr_size : Z;
  fr_found : bool;
  fr_table_name : option string;
  fr_field_name : option string;
  fr_arg : option string;
  fr_event_type : Z
}.

Definition zero_result : field_result_t :=
  mk_field_result 0 LINX_FIELD_TYPE_UNKNOWN 0 false None None None 0.

Definition set_base (a : Z) (t : field_table_t) : field_table_t :=
  mk_field_table (ft_table_name t) (ft_fields t) a.
Definition set_fields (l : list field_info_t) (t : field_table_t) : field_table_t :=
  mk_field_table (ft_table_name t) l (ft_base_addr t).
Definition with_tables (ts : list field_table_t) (h : linx_hash_map_t) : linx_hash_map_t :=
  mk_hash_map ts (hm_size h).

(** ** Operations (linx_hash_map.c) *)
Definition linx_hash_map_init (s : hash_map_state) : Z * hash_map_state :=
  match s with
  | Some _ => (-1, s)
  | None => (0, Some (mk_hash_map [] None))
  end.

Definition linx_hash_map_deinit (s : hash_map_state) : hash_map_state := None.

Definition linx_hash_map_create_table (table_name : option string) (base_addr : Z)
    (s : hash_map_state) : Z * hash_map_state :=
  match s, table_name with
  | Some h, Some n =>
      match ut_find ft_table_name n (hm_tables h) with
      | Some _ => (-1, s)
      | None => (0, Some (with_tables (ut_add (mk_field_table n [] base_addr) (hm_tables h)) h))
      end
  | _, _ => (-1, s)
  end.

Definition linx_hash_map_remove_table (table_name : option string)
    (s : hash_map_state) : Z * hash_map_state :=
  match s, table_name with
  | Some h, Some n =>
      match ut_find ft_table_name n (hm_tables h) with
      | None => (-1, s)
      | Some _ => (0, Some (mk_hash_map (ut_del ft_table_name n (hm_tables h))
                                        ((λ z, wrap 64 (z - 1)) <$> hm_size h)))
      end
  | _, _ => (-1, s)
  end.

Definition linx_hash_map_add_field (table_name field_name : option string)
    (offset size : Z) (type : linx_field_type_t) (s : hash_map_state) : Z * hash_map_state :=
  match s, table_name, field_name with
  | Some h, Some n, Some f =>
      match ut_find ft_table_name n (hm_tables h) with
      | None => (-1, s)
      | Some t =>
          match ut_find fi_key f (ft_fields t) with
          | Some _ => (-1, s)
          | None =>
              let t' := set_fields (ut_add (mk_field_info f offset size type) (ft_fields t)) t in
              (0, Some (with_tables (ut_alter ft_table_name (λ _, t') n (hm_tables h)) h))
          end
      end
  | _, _, _ => (-1, s)
  end.

(** The loop of [linx_hash_map_add_field_batch]: it stops at the first field
    that cannot be added and keeps the ones before it. *)
Fixpoint add_field_loop (table_name : option string) (ms : list field_mapping_t)
    (ret : Z) (s : hash_map_state) : Z * hash_map_state :=
  match ms with
  | [] => (ret, s)
  | m :: ms' =>
      let '(r, s') := linx_hash_map_add_field table_name (Some (fm_field_name m))
                        (fm_offset m) (fm_size m) (fm_type m) s in
      if r =? 0 then add_field_loop table_name ms' r s' else (r, s')
  end.

Definition linx_hash_map_add_field_batch (table_name : option string)
    (mappings : option (list field_mapping_t)) (s : hash_map_state) : Z * hash_map_state :=
  match s, table_name, mappings with
  | Some _, Some _, Some ms =>
      let '(r, s') := linx_hash_map_create_table table_name 0 s in
      if r =? 0 then add_field_loop table_name ms r s' else (r, s')
  | _, _, _ => (-1, s)
  end.

Definition linx_hash_map_get_field (table_name field_name : option string)
    (s : hash_map_state) : field_result_t :=
  match s, table_name, field_name with
  | Some h, Some n, Some f =>
      match ut_find ft_table_name n (hm_tables h) with
      | None => zero_result
      | Some t =>
          match ut_find fi_key f (ft_fields t) with
          | None => zero_result
          | Some i =>
              mk_field_result (fi_offset i) (fi_type i) (fi_size i) true
                (Some (ft_table_name t)) (Some (fi_key i)) None 0
          end
      end
  | _, _, _ => zero_result
  end.

Definition set_arg (arg : option string) (ev : Z) (r : field_result_t) : field_result_t :=
  mk_field_result (fr_offset r) (fr_type r) (fr_size r) (fr_found r)
    (fr_table_name r) (fr_field_name r) arg ev.

(** [evt_num] is the address of the event number of [linx_event_rich.c].
    The function also truncates the buffer [path] in place ([strtok]); its
    callers do not read the buffer again. *)
Definition linx_hash_map_get_field_by_path (evt_num : Z) (path : option string)
    (s : hash_map_state) : field_result_t :=
  match path with
  | None => zero_result
  | Some p =>
      match strtok DOT p with
      | None => zero_result
      | Some (table_name, r1) =>
          match strtok DOT r1 with
          | None => zero_result
          | Some (field_name, r2) =>
              let result := linx_hash_map_get_field (Some table_name) (Some field_name) s in
              set_arg (fst <$> strtok DOT r2) evt_num result
          end
      end
  end.

Definition linx_hash_map_get_table_base (table_name : option string) (s : hash_map_state) : Z :=
  match s, table_name with
  | Some h, Some n =>
      match ut_find ft_table_name n (hm_tables h) with
      | None => 0
      | Some t => ft_base_addr t
      end
  | _, _ => 0
  end.

(** The loop that looks a parameter up by name: the index of the first
    parameter with that name, or the number of parameters. *)
Fixpoint param_index (arg : string) (ps : list linx_param_info_t) (i : Z) : Z :=
  match ps with
  | [] => i
  | p :: ps' => if streq (lp_name p) arg then i else param_index arg ps' (i + 1)
  end.

(** The index an argument denotes: a decimal number as it is written, any
    other text through the parameter names of the event. *)
Definition arg_index (e : linx_event_table_t) (arg : string) : Z :=
  let '(v, rest) := strtol10 arg in
  if streq rest "" then v
  else param_index arg (take (Z.to_nat (le_nparams e)) (le_params e)) 0.

(** The pointer to the value of a field and the contents of [*type], which is
    written only when a pointer is returned.  A negative index is below the
    bound that is checked, and reads outside [params]. *)
Definition linx_hash_map_get_value_ptr (m : memory) (s : hash_map_state)
    (field : field_result_t) (type : option linx_field_type_t)
    : outcome (Z * option linx_field_type_t) :=
  if negb (fr_found field) then mret (0, type)
  else
    let base_addr := linx_hash_map_get_table_base (fr_table_name field) s in
    if base_addr =? 0 then mret (0, type)
    else
      match fr_arg field with
      | Some arg =>
          num ← from_opt BadAddress (load_u64 m (fr_event_type field));
          e ← from_opt OutOfBounds (g_linx_event_table num);
          let index := arg_index e arg in
          if le_nparams e <=? index then mret (0, type)
          else
            p ← from_opt OutOfBounds (event_param e index);
            mret (wrap 64 (base_addr + fr_offset field + index * 8), Some (lp_type p))
      | None => mret (wrap 64 (base_addr + fr_offset field), Some (fr_type field))
      end.

Definition linx_hash_map_update_table_base (table_name : option string) (base_addr : Z)
    (s : hash_map_state) : Z * hash_map_state :=
  match s, table_name with
  | Some h, Some n =>
      match ut_find ft_table_name n (hm_tables h) with
      | None => (-1, s)
      | Some _ =>
          (0, Some (with_tables (ut_alter ft_table_name (set_base base_addr) n (hm_tables h)) h))
      end
  | _, _ => (-1, s)
  end.

Fixpoint update_tables_loop (ts : list (string * Z)) (ret : Z) (s : hash_map_state)
    : Z * hash_map_state :=
  match ts with
  | [] => (ret, s)
  | (n, a) :: ts' =>
      let '(r, s') := linx_hash_map_update_table_base (Some n) a s in
      if r =? 0 then update_tables_loop ts' r s' else (r, s')
  end.

Definition linx_hash_map_update_tables_base (tables : option (list (string * Z)))
    (s : hash_map_state) : Z * hash_map_state :=
  match s, tables with
  | Some _, Some ts => update_tables_loop ts 0 s
  | _, _ => (-1, s)
  end.

(** The names written to [*table_names], in insertion order. *)
Definition linx_hash_map_list_tables (s : hash_map_state) : Z * list string :=
  match s with
  | Some h => (0, ft_table_name <$> hm_tables h)
  | None => (-1, [])
  end.

(** ** Abstract specification

    The registry promises a map from table names to a base address and a map
    of fields.  [cmd] lists the operations that change it. *)
Module Spec.
Abbreviation fields := (gmap string field_info_t).
Abbreviation registry := (gmap string (Z * fields)).
Abbreviation state := (option registry).

Definition create (n : string) (a : Z) (r : registry) : Z * registry :=
  if decide (is_Some (r !! n)) then (-1, r) else (0, <[n := (a, ∅)]> r).

Definition remove (n : string) (r : registry) : Z * registry :=
  if decide (is_Some (r !! n)) then (0, delete n r) else (-1, r).

Definition add_field (n : string) (i : field_info_t) (r : registry) : Z * registry :=
  match r !! n with
  | Some (a, fs) =>
      if decide (is_Some (fs !! fi_key i)) then (-1, r)
      else (0, <[n := (a, <[fi_key i := i]> fs)]> r)
  | None => (-1, r)
  end.

Definition update_base (n : string) (a : Z) (r : registry) : Z * registry :=
  match r !! n with
  | Some (_, fs) => (0, <[n := (a, fs)]> r)
  | None => (-1, r)
  end.

Definition get_field (n f : string) (r : registry) : option field_info_t :=
  '(_, fs) ← r !! n; fs !! f.

Definition base (n : string) (r : registry) : Z := from_option fst 0 (r !! n).
End Spec.

Inductive cmd :=
  | CInit
  | CDeinit
  | CCreate (n : string) (a : Z)
  | CRemove (n : string)
  | CAddField (n : string) (i : field_info_t)
  | CUpdate (n : string) (a : Z).

Definition run_cmd (c : cmd) (s : hash_map_state) : Z * hash_map_state :=
  match c with
  | CInit => linx_hash_map_init s
  | CDeinit => (0, linx_hash_map_deinit s)
  | CCreate n a => linx_hash_map_create_table (Some n) a s
  | CRemove n => linx_hash_map_remove_table (Some n) s
  | CAddField n i =>
      linx_hash_map_add_field (Some n) (Some (fi_key i)) (fi_offset i) (fi_size i) (fi_type i) s
  | CUpdate n a => linx_hash_map_update_table_base (Some n) a s
  end.

Definition spec_cmd (c : cmd) (s : Spec.state) : Z * Spec.state :=
  let on f := match s with Some r => let '(z, r') := f r in (z, Some r') | None => (-1, s) end in
  match c with
  | CInit => match s with Some _ => (-1, s) | None => (0, Some ∅) end
  | CDeinit => (0, None)
  | CCreate n a => on (Spec.create n a)
  | CRemove n => on (Spec.remove n)
  | CAddField n i => on (Spec.add_field n i)
  | CUpdate n a => on (Spec.update_base n a)
  end.

Fixpoint run_cmds (cs : list cmd) (s : hash_map_state) : list Z * hash_map_state :=
  match cs with
  | [] => ([], s)
  | c :: cs' => let '(z, s1) := run_cmd c s in
                let '(zs, s2) := run_cmds cs' s1 in (z :: zs, s2)
  end.

Fixpoint spec_cmds (cs : list cmd) (s : Spec.state) : list Z * Spec.state :=
  match cs with
  | [] => ([], s)
  | c :: cs' => let '(z, s1) := spec_cmd c s in
                let '(zs, s2) := spec_cmds cs' s1 in (z :: zs, s2)
  end.

(** ** Invariant and abstraction *)
Definition table_wf (t : field_table_t) : Prop := ut_wf fi_key (ft_fields t).

Definition hm_wf (s : hash_map_state) : Prop :=
  match s with
  | Some h => ut_wf ft_table_name (hm_tables h) ∧ Forall table_wf (hm_tables h)
  | None => True
  end.

Definition abs_table (t : field_table_t) : Z * Spec.fields :=
  (ft_base_addr t, ut_map fi_key (ft_fields t)).

Definition abs_tables (ts : list field_table_t) : Spec.registry :=
  abs_table <$> ut_map ft_table_name ts.

#[local] Arguments abs_tables : simpl never.

Definition abs (s : hash_map_state) : Spec.state :=
  match s with Some h => Some (abs_tables (hm_tables h)) | None => None end.

Section refinement.
Implicit Types (h : linx_hash_map_t) (ts : list field_table_t) (t : field_table_t) (n f : string).

Lemma abs_tables_lookup ts n :
  abs_tables ts !! n = abs_table <$> ut_find ft_table_name n ts.
Proof. unfold abs_tables. by rewrite lookup_fmap, <- ut_find_map. Qed.

Lemma Forall_ut_alter (P : field_table_t → Prop) g n ts :
  Forall P ts → (∀ t, ut_find ft_table_name n ts = Some t → P (g t)) →
  Forall P (ut_alter ft_table_name g n ts).
Proof.
  induction 1 as [|t ts Ht Hts IH]; cbn; intros Hg; [constructor|].
  case_decide as Hd; constructor; auto.
Qed.

Lemma abs_tables_alter g n ts :
  (∀ t, ft_table_name (g t) = ft_table_name t) →
  abs_tables (ut_alter ft_table_name g n ts) =
  match ut_find ft_table_name n ts with
  | Some t => <[n := abs_table (g t)]> (abs_tables ts)
  | None => abs_tables ts
  end.
Proof.
  intros Hg. apply map_eq. intros k. rewrite abs_tables_lookup, ut_find_alter by done.
  destruct (ut_find ft_table_name n ts) as [t|] eqn:E.
  - rewrite lookup_insert. case_decide as Hk; [subst; by rewrite E|].
    by rewrite abs_tables_lookup.
  - rewrite abs_tables_lookup. case_decide; [subst; by rewrite E|done].
Qed.

(** [ut_alter] with a constant function whose table name may differ agrees
    with the name-preserving one at the found element. *)
Lemma ut_alter_ext g g' n ts :
  (∀ t, ut_find ft_table_name n ts = Some t → g t = g' t) →
  ut_alter ft_table_name g n ts = ut_alter ft_table_name g' n ts.
Proof. induction ts as [|t ts IH]; cbn; [done|]. case_decide; intros Hg; f_equal; auto. Qed.

Lemma table_found_wf ts n t :
  Forall table_wf ts → ut_find ft_table_name n ts = Some t → table_wf t.
Proof. rewrite Forall_forall. intros H Hf. eapply H, ut_find_elem, Hf. Qed.

(** Adding a field replaces the table by one with the field appended. *)
Lemma add_field_alter ts n t i :
  ut_find ft_table_name n ts = Some t →
  ut_alter ft_table_name (λ _, set_fields (ut_add i (ft_fields t)) t) n ts =
  ut_alter ft_table_name (λ u, set_fields (ut_add i (ft_fields u)) u) n ts.
Proof. intros Hf. apply ut_alter_ext. naive_solver. Qed.

Lemma run_cmd_refines c s :
  hm_wf s → hm_wf (run_cmd c s).2 ∧ spec_cmd c (abs s) = ((run_cmd c s).1, abs (run_cmd c s).2).
Proof.
  intros Hwf. destruct c as [| |n a|n|n i|n a], s as [h|]; cbn in *; try done;
    try (by repeat constructor); destruct Hwf as [Hn Ht];
    unfold Spec.create, Spec.remove, Spec.add_field, Spec.update_base;
    rewrite abs_tables_lookup; destruct (ut_find _ n (hm_tables h)) as [t|] eqn:E; cbn; try done.
  - split; [split|].
    + apply ut_add_wf; done.
    + apply Forall_app. repeat constructor; done.
    + unfold abs_tables. rewrite ut_add_map by done. by rewrite fmap_insert.
  - split; [split|].
    + by apply ut_del_wf.
    + by apply ut_del_Forall.
    + unfold abs_tables. by rewrite ut_del_map, fmap_delete.
  - rewrite <- ut_find_map. destruct (ut_find fi_key _ _) as [j|] eqn:Ei; cbn; [done|].
    destruct i as [k o z ty]; cbn in *. pose proof (table_found_wf _ _ _ Ht E) as Htw.
    rewrite add_field_alter by done. split; [split|].
    + by apply ut_alter_wf.
    + apply Forall_ut_alter; [done|]. intros u Hu. simplify_eq. by apply ut_add_wf.
    + rewrite abs_tables_alter, E by done. unfold abs_table, set_fields; cbn.
      by rewrite (ut_add_map fi_key).
  - split; [split|].
    + by apply ut_alter_wf.
    + apply Forall_ut_alter; [done|]. intros u Hu. simplify_eq. exact (table_found_wf _ _ _ Ht E).
    + by rewrite abs_tables_alter, E.
Qed.

Lemma run_cmds_refines cs s :
  hm_wf s → hm_wf (run_cmds cs s).2 ∧ spec_cmds cs (abs s) = ((run_cmds cs s).1, abs (run_cmds cs s).2).
Proof.
  revert s. induction cs as [|c cs IH]; intros s Hwf; [done|]. cbn.
  destruct (run_cmd_refines c s Hwf) as [Hw Hs]. rewrite Hs.
  destruct (run_cmd c s) as [z s1]; cbn in *. destruct (IH s1 Hw) as [Hw' Hs'].
  rewrite Hs'. destruct (run_cmds cs s1) as [zs s2]; cbn in *. done.
Qed.

(** What the readers see is the abstract registry. *)
Lemma get_field_spec h n f :
  hm_wf (Some h) →
  linx_hash_map_get_field (Some n) (Some f) (Some h) =
  match Spec.get_field n f (abs_tables (hm_tables h)) with
  | Some i => mk_field_result (fi_offset i) (fi_type i) (fi_size i) true (Some n) (Some f) None 0
  | None => zero_result
  end.
Proof.
  intros _. unfold Spec.get_field. cbn. rewrite abs_tables_lookup.
  destruct (ut_find ft_table_name n _) as [t|] eqn:E; cbn; [|done].
  rewrite <- ut_find_map. destruct (ut_find fi_key f _) as [i|] eqn:Ei; [|done].
  by rewrite (ut_find_key _ _ _ _ E), (ut_find_key _ _ _ _ Ei).
Qed.

Lemma get_table_base_spec h n :
  linx_hash_map_get_table_base (Some n) (Some h) = Spec.base n (abs_tables (hm_tables h)).
Proof.
  unfold Spec.base. cbn. rewrite abs_tables_lookup. by destruct (ut_find _ _ _).
Qed.
End refinement.

#[export] Hint Resolve run_cmd_refines : linx.

(** ** Properties *)

(** C29: the registry refines the abstract map of tables.  Whatever sequence of
    operations runs from the uninitialised state, each returns the code the
    specification returns, the final registry stands for the specified one
    with unique table and field names, and the readers [get_field] and
    [get_table_base] answer from it. *)
Theorem hash_map_refines_registry (cs : list cmd) :
  let '(zs, s) := run_cmds cs None in
  hm_wf s
  ∧ spec_cmds cs None = (zs, abs s)
  ∧ ∀ r n f, abs s = Some r →
      linx_hash_map_get_table_base (Some n) s = Spec.base n r
      ∧ linx_hash_map_get_field (Some n) (Some f) s =
        match Spec.get_field n f r with
        | Some i => mk_field_result (fi_offset i) (fi_type i) (fi_size i) true (Some n) (Some f) None 0
        | None => zero_result
        end.
Proof.
  destruct (run_cmds_refines cs None I) as [Hw Hs]. destruct (run_cmds cs None) as [zs s].
  cbn in *. split; [done|]. split; [done|]. intros r n f Hr.
  destruct s as [h|]; simplify_eq/=. split; [apply get_table_base_spec|by apply get_field_spec].
Qed.

Section batch.
Implicit Types (ms : list field_mapping_t).

Definition mapping_info (m : field_mapping_t) : field_info_t :=
  mk_field_info (fm_field_name m) (fm_offset m) (fm_size m) (fm_type m).

(** One step of the batch loop on a table with the fields [fs]. *)
Lemma add_field_step h n t m :
  hm_wf (Some h) → ut_find ft_table_name n (hm_tables h) = Some t →
  ut_find fi_key (fm_field_name m) (ft_fields t) = None →
  ∃ h', linx_hash_map_add_field (Some n) (Some (fm_field_name m)) (fm_offset m) (fm_size m)
          (fm_type m) (Some h) = (0, Some h')
        ∧ hm_wf (Some h')
        ∧ ∀ k, ut_find ft_table_name k (hm_tables h') =
               if decide (n = k) then Some (set_fields (ut_add (mapping_info m) (ft_fields t)) t)
               else ut_find ft_table_name k (hm_tables h).
Proof.
  intros Hwf E Ei. pose proof (run_cmd_refines (CAddField n (mapping_info m)) (Some h) Hwf) as [Hw _].
  cbn in *. rewrite E, Ei in *. eexists. split; [done|]. split; [exact Hw|]. intros k. cbn.
  change (mk_field_info _ _ _ _) with (mapping_info m).
  rewrite (add_field_alter _ _ _ (mapping_info m) E), ut_find_alter by done.
  case_decide; [subst; by rewrite E|done].
Qed.

Lemma add_field_loop_ok ms h n t :
  hm_wf (Some h) → ut_find ft_table_name n (hm_tables h) = Some t →
  NoDup ((fi_key <$> ft_fields t) ++ (fm_field_name <$> ms)) →
  ∃ h', add_field_loop (Some n) ms 0 (Some h) = (0, Some h')
        ∧ hm_wf (Some h')
        ∧ ∀ k, ut_find ft_table_name k (hm_tables h') =
               if decide (n = k) then Some (set_fields (ft_fields t ++ (mapping_info <$> ms)) t)
               else ut_find ft_table_name k (hm_tables h).
Proof.
  revert h t. induction ms as [|m ms IH]; intros h t Hwf E Hnd.
  - exists h. split; [done|]. split; [done|]. intros k. case_decide; [|done].
    subst k. rewrite E, app_nil_r. by destruct t.
  - cbn [add_field_loop]. destruct (add_field_step h n t m Hwf E) as (h1 & -> & Hw1 & Hf1).
    { apply ut_find_None. apply NoDup_app in Hnd as (_ & Hd & _).
      intros Hin. apply (Hd _ Hin). cbn. left. }
    cbn [Z.eqb].
    destruct (IH h1 (set_fields (ut_add (mapping_info m) (ft_fields t)) t))
      as (h2 & -> & Hw2 & Hf2); [done| | |].
    { rewrite Hf1, decide_True by done. done. }
    { unfold set_fields, ut_add; cbn [ft_fields]. rewrite fmap_app, <- app_assoc. done. }
    exists h2. split; [done|]. split; [done|]. intros k. rewrite Hf2, Hf1.
    case_decide; [|done]. unfold set_fields, ut_add; cbn [ft_fields ft_table_name ft_base_addr].
    by rewrite <- app_assoc.
Qed.

(** A field name that is already taken stops the loop. *)
Lemma add_field_loop_dup ms1 m ms2 h n t :
  hm_wf (Some h) → ut_find ft_table_name n (hm_tables h) = Some t →
  NoDup ((fi_key <$> ft_fields t) ++ (fm_field_name <$> ms1)) →
  fm_field_name m ∈ (fi_key <$> ft_fields t) ++ (fm_field_name <$> ms1) →
  ∃ h', add_field_loop (Some n) (ms1 ++ m :: ms2) 0 (Some h) = (-1, Some h')
        ∧ ut_find ft_table_name n (hm_tables h') =
          Some (set_fields (ft_fields t ++ (mapping_info <$> ms1)) t).
Proof.
  revert h t. induction ms1 as [|m1 ms1 IH]; intros h t Hwf E Hnd Hin.
  - cbn [app add_field_loop]. rewrite app_nil_r in *. exists h.
    destruct (ut_find fi_key (fm_field_name m) (ft_fields t)) as [i|] eqn:Ei.
    + cbn. rewrite E, Ei. cbn. split; [done|]. by destruct t.
    + apply ut_find_None in Ei. done.
  - cbn [app add_field_loop]. destruct (add_field_step h n t m1 Hwf E) as (h1 & -> & Hw1 & Hf1).
    { apply ut_find_None. apply NoDup_app in Hnd as (_ & Hd & _).
      intros Hi. apply (Hd _ Hi). cbn. left. }
    cbn [Z.eqb].
    destruct (IH h1 (set_fields (ut_add (mapping_info m1) (ft_fields t)) t))
      as (h2 & -> & Hf2); [done| | | |].
    { rewrite Hf1, decide_True by done. done. }
    { unfold set_fields, ut_add; cbn [ft_fields]. rewrite fmap_app, <- app_assoc. done. }
    { unfold set_fields, ut_add; cbn [ft_fields]. rewrite fmap_app, <- app_assoc. done. }
    exists h2. split; [done|]. rewrite Hf2. unfold set_fields, ut_add; cbn [ft_fields ft_table_name ft_base_addr].
    by rewrite <- app_assoc.
Qed.

Lemma mapping_find ms m :
  NoDup (fm_field_name <$> ms) → m ∈ ms →
  ut_find fi_key (fm_field_name m) (mapping_info <$> ms) = Some (mapping_info m).
Proof.
  intros Hnd Hm. change (fm_field_name m) with (fi_key (mapping_info m)).
  apply ut_find_Some_wf; [|by apply list_elem_of_fmap_2].
  unfold ut_wf. rewrite <- list_fmap_compose. done.
Qed.
End batch.

(** Registering a batch under a fresh table name.  With distinct field
    names it returns 0, every mapping is then found with the offset, size and
    type it was given, the table starts without a base address and every
    other table is as before.  When a name repeats an earlier one of the
    batch, it returns -1 and the registry keeps the table with exactly the
    fields that precede the repetition. *)
Theorem add_field_batch_registers (h : linx_hash_map_t) (n : string) (ms : list field_mapping_t) :
  hm_wf (Some h) →
  ut_find ft_table_name n (hm_tables h) = None →
  (NoDup (fm_field_name <$> ms) →
   ∃ h', linx_hash_map_add_field_batch (Some n) (Some ms) (Some h) = (0, Some h')
     ∧ hm_wf (Some h')
     ∧ linx_hash_map_get_table_base (Some n) (Some h') = 0
     ∧ (∀ m, m ∈ ms →
          linx_hash_map_get_field (Some n) (Some (fm_field_name m)) (Some h') =
          mk_field_result (fm_offset m) (fm_type m) (fm_size m) true (Some n)
            (Some (fm_field_name m)) None 0)
     ∧ (∀ k f, k ≠ n → linx_hash_map_get_field (Some k) (Some f) (Some h') =
                       linx_hash_map_get_field (Some k) (Some f) (Some h)))
  ∧ (∀ ms1 m ms2, ms = ms1 ++ m :: ms2 → NoDup (fm_field_name <$> ms1) →
     fm_field_name m ∈ fm_field_name <$> ms1 →
     ∃ h', linx_hash_map_add_field_batch (Some n) (Some ms) (Some h) = (-1, Some h')
     ∧ ut_find ft_table_name n (hm_tables h') = Some (mk_field_table n (mapping_info <$> ms1) 0)).
Proof.
  intros Hwf Hnone. cbn [linx_hash_map_add_field_batch].
  pose proof (run_cmd_refines (CCreate n 0) (Some h) Hwf) as [Hw0 _].
  cbn in Hw0. rewrite Hnone in Hw0. cbn in Hw0.
  cbn [linx_hash_map_create_table]. rewrite Hnone. cbn [Z.eqb].
  set (h0 := with_tables _ h) in *.
  assert (H0 : ∀ k, ut_find ft_table_name k (hm_tables h0) =
                    if decide (n = k) then Some (mk_field_table n [] 0)
                    else ut_find ft_table_name k (hm_tables h)).
  { intros k. unfold h0. cbn. by rewrite ut_find_add. }
  assert (H0n : ut_find ft_table_name n (hm_tables h0) = Some (mk_field_table n [] 0)).
  { by rewrite H0, decide_True. }
  split.
  - intros Hnd. destruct (add_field_loop_ok ms h0 n _ Hw0 H0n) as (h' & E & Hw & Hf); [done|].
    exists h'. split; [done|]. split; [done|].
    split; [cbn; by rewrite Hf, decide_True|]. split.
    + intros m Hm. cbn. rewrite Hf, decide_True by done. cbn. by rewrite mapping_find.
    + intros k f Hk. cbn. by rewrite Hf, H0, !decide_False by done.
  - intros ms1 m ms2 -> Hnd Hin.
    destruct (add_field_loop_dup ms1 m ms2 h0 n _ Hw0 H0n Hnd Hin) as (h' & E & Hf).
    exists h'. split; [done|]. by rewrite Hf.
Qed.

Definition evt_mappings_ex : list field_mapping_t :=
  [mk_mapping "num" 0 8 LINX_FIELD_TYPE_UINT64; mk_mapping "time" 8 64 LINX_FIELD_TYPE_CHARBUF].

Lemma add_field_batch_registers_witness :
  ∃ h', linx_hash_map_add_field_batch (Some "evt") (Some evt_mappings_ex) (Some (mk_hash_map [] None))
        = (0, Some h').
Proof.
  destruct (proj1 (add_field_batch_registers (mk_hash_map [] None) "evt" evt_mappings_ex
              (conj (NoDup_nil_2) (Forall_nil_2 _)) eq_refl)) as (h' & E & _).
  - apply (bool_decide_unpack _). vm_compute. exact I.
  - exists h'. exact E.
Defined.

Section param_index.
Implicit Types (ps : list linx_param_info_t).

Lemma param_index_range arg ps i : i ≤ param_index arg ps i ≤ i + Z.of_nat (length ps).
Proof.
  revert i. induction ps as [|p ps IH]; intros i; cbn -[Z.of_nat]; [lia|].
  destruct (streq _ _); [lia|]. specialize (IH (i + 1)). lia.
Qed.

Lemma param_index_name ps k p i :
  NoDup (lp_name <$> ps) → ps !! k = Some p → param_index (lp_name p) ps i = i + Z.of_nat k.
Proof.
  revert k i. induction ps as [|q ps IH]; intros k i Hnd Hk; [done|].
  cbn in Hnd. apply NoDup_cons in Hnd as [Hn Hnd]. destruct k as [|k]; cbn -[Z.of_nat] in *.
  - simplify_eq. rewrite streq_refl. lia.
  - destruct (streq_spec (lp_name q) (lp_name p)) as [Heq|_].
    + exfalso. apply Hn. rewrite Heq. apply list_elem_of_fmap_2, list_elem_of_lookup. eauto.
    + rewrite (IH k) by done. lia.
Qed.
End param_index.

Lemma event_wf_names e : event_wf e = true → NoDup (lp_name <$> le_params e).
Proof. unfold event_wf. rewrite !andb_true_iff. intros [_ H]. by apply bool_decide_eq_true in H. Qed.

(** The pointer to a field with an argument ("evt.arg.fd", "evt.arg[0]").
    With the event number in memory naming the entry [e]: an argument that is
    not a number denotes the parameter of that name; an index at or past the
    parameter count yields NULL and leaves [*type] as it was; an index within
    the count yields the address of that slot and the declared type of that
    parameter; a negative index passes the bound check and reads outside the
    parameter array. *)
Theorem get_value_ptr_arg m s field type arg num e :
  fr_found field = true →
  linx_hash_map_get_table_base (fr_table_name field) s ≠ 0 →
  fr_arg field = Some arg →
  load_u64 m (fr_event_type field) = Some num →
  g_linx_event_table num = Some e →
  let i := arg_index e arg in
  let base := linx_hash_map_get_table_base (fr_table_name field) s in
  (linx_hash_map_get_value_ptr m s field type =
    (if le_nparams e <=? i then Ret [] (0, type)
     else if i <? 0 then Ub OutOfBounds
     else Ret [] (wrap 64 (base + fr_offset field + i * 8),
                  lp_type <$> le_params e !! Z.to_nat i)))
  ∧ (0 ≤ i < le_nparams e → is_Some (le_params e !! Z.to_nat i))
  ∧ ((strtol10 arg).2 ≠ "" → 0 ≤ i ≤ le_nparams e
      ∧ ∀ k p, le_params e !! k = Some p → lp_name p = arg → i = Z.of_nat k).
Proof.
  intros Hf Hb Ha Hm He i base. subst i base.
  pose proof (g_linx_event_table_wf _ _ He) as Hwf. pose proof (event_wf_nparams _ Hwf) as Hn.
  split; [|split].
  - unfold linx_hash_map_get_value_ptr. rewrite Hf. cbn [negb].
    apply Z.eqb_neq in Hb. rewrite Hb, Ha, Hm. cbn [from_opt]. rewrite bind_ret_l, He.
    cbn [from_opt]. rewrite bind_ret_l.
    destruct (Z.leb_spec (le_nparams e) (arg_index e arg)) as [|Hlt]; [done|].
    destruct (Z.ltb_spec (arg_index e arg) 0) as [Hneg|Hpos].
    + unfold event_param. rewrite decide_False by lia. done.
    + destruct (event_param_in e (arg_index e arg) Hwf) as [Hp [p Hs]]; [lia|].
      rewrite Hs in *. rewrite <- Hp. done.
  - intros Hi. apply lookup_lt_is_Some_2. lia.
  - unfold arg_index. destruct (strtol10 arg) as [v rest]; cbn [snd]. intros Hr.
    destruct (streq_spec rest "") as [|_]; [done|].
    assert (take (Z.to_nat (le_nparams e)) (le_params e) = le_params e) as ->.
    { apply take_ge. lia. }
    split; [pose proof (param_index_range arg (le_params e) 0); lia|].
    intros k p Hk <-. rewrite (param_index_name _ k p); [lia| |done]. by apply event_wf_names.
Qed.

(** "evt.arg.size" for the event [read] (entry): the second parameter. *)
Lemma get_value_ptr_arg_witness :
  let m := mem_block 4096 (le_split 8 0) in
  let s := Some (mk_hash_map [mk_field_table "evt" [] 4096] None) in
  let field := mk_field_result 344 LINX_FIELD_TYPE_STRUCT 256 true (Some "evt") (Some "arg")
                 (Some "size") 4096 in
  linx_hash_map_get_value_ptr m s field None = Ret [] (4096 + 344 + 8, Some LINX_FIELD_TYPE_UINT32).
Proof.
  intros m s field.
  assert (E : g_linx_event_table 0 =
    Some (mk_event "read" 2 [mk_param "fd" LINX_FIELD_TYPE_INT64;
                             mk_param "size" LINX_FIELD_TYPE_UINT32])) by (vm_compute; reflexivity).
  destruct (get_value_ptr_arg m s field None "size" 0 _ eq_refl ltac:(done) eq_refl
              ltac:(vm_compute; reflexivity) E) as [H _].
  rewrite H. vm_compute. reflexivity.
Defined.
