(* ===== verification/OpType.v ===== *)
(** * Operators (rule_engine_ast/operation_type.h, operation_type_string.c)

    The operator tables of the rule language and the look-ups from the text
    of an operator to its enumerator.  The look-ups return the [int] -1 when
    the text is in no table; that value, which the C code converts to the
    enumeration type, is the last constructor of each type. *)
From S2P Require Import Prelude CString.

#[local] Open Scope Z_scope.

Inductive unary_op_type_t :=
  | UNARY_OP_EXISTS
  | UNARY_OP_NOT
  | UNARY_OP_INVALID.

Inductive binary_num_op_type_t :=
  | BINARY_NUM_OP_GT
  | BINARY_NUM_OP_GE
  | BINARY_NUM_OP_LT
  | BINARY_NUM_OP_LE
  | BINARY_NUM_OP_INVALID.

Inductive binary_str_op_type_t :=
  | BINARY_STR_OP_EQ
  | BINARY_STR_OP_ASSIGN
  | BINARY_STR_OP_NE
  | BINARY_STR_OP_GLOB
  | BINARY_STR_OP_IGLOB
  | BINARY_STR_OP_CONTAINS
  | BINARY_STR_OP_ICONTAINS
  | BINARY_STR_OP_BCONTAINS
  | BINARY_STR_OP_STARTSWITH
  | BINARY_STR_OP_BSTARTSWITH
  | BINARY_STR_OP_ENDSWITH
  | BINARY_STR_OP_REGEX
  | BINARY_STR_OP_INVALID.

Inductive binary_list_op_type_t :=
  | BINARY_LIST_OP_INTERSECTS
  | BINARY_LIST_OP_IN
  | BINARY_LIST_OP_PMATCH
  | BINARY_LIST_OP_INVALID.

Inductive binary_bool_op_type_t :=
  | BINARY_BOOL_OP_OR
  | BINARY_BOOL_OP_AND
  | BINARY_BOOL_OP_INVALID.

Inductive field_transformer_type_t :=
  | FIELD_TRANSFORMER_TOLOWER
  | FIELD_TRANSFORMER_TOUPPER
  | FIELD_TRANSFORMER_B64
  | FIELD_TRANSFORMER_BASENAME
  | FIELD_TRANSFORMER_LEN
  | FIELD_TRANSFORMER_INVALID.

Inductive field_transformer_val_t :=
  | FIELD_TRANSFORMER_VAL
  | FIELD_TRANSFORMER_VAL_INVALID.

(** The enumerators in the order of their values. *)
Definition unary_ops : list unary_op_type_t := [UNARY_OP_EXISTS; UNARY_OP_NOT].
Definition binary_num_ops : list binary_num_op_type_t :=
  [BINARY_NUM_OP_GT; BINARY_NUM_OP_GE; BINARY_NUM_OP_LT; BINARY_NUM_OP_LE].
Definition binary_str_ops : list binary_str_op_type_t :=
  [BINARY_STR_OP_EQ; BINARY_STR_OP_ASSIGN; BINARY_STR_OP_NE; BINARY_STR_OP_GLOB;
   BINARY_STR_OP_IGLOB; BINARY_STR_OP_CONTAINS; BINARY_STR_OP_ICONTAINS;
   BINARY_STR_OP_BCONTAINS; BINARY_STR_OP_STARTSWITH; BINARY_STR_OP_BSTARTSWITH;
   BINARY_STR_OP_ENDSWITH; BINARY_STR_OP_REGEX].
Definition binary_list_ops : list binary_list_op_type_t :=
  [BINARY_LIST_OP_INTERSECTS; BINARY_LIST_OP_IN; BINARY_LIST_OP_PMATCH].
Definition binary_bool_ops : list binary_bool_op_type_t := [BINARY_BOOL_OP_OR; BINARY_BOOL_OP_AND].
Definition field_transformer_types : list field_transformer_type_t :=
  [FIELD_TRANSFORMER_TOLOWER; FIELD_TRANSFORMER_TOUPPER; FIELD_TRANSFORMER_B64;
   FIELD_TRANSFORMER_BASENAME; FIELD_TRANSFORMER_LEN].
Definition field_transformer_vals : list field_transformer_val_t := [FIELD_TRANSFORMER_VAL].

#[export] Instance unary_op_eq_dec : EqDecision unary_op_type_t.
Proof. solve_decision. Defined.
#[export] Instance binary_num_op_eq_dec : EqDecision binary_num_op_type_t.
Proof. solve_decision. Defined.
#[export] Instance binary_str_op_eq_dec : EqDecision binary_str_op_type_t.
Proof. solve_decision. Defined.
#[export] Instance binary_list_op_eq_dec : EqDecision binary_list_op_type_t.
Proof. solve_decision. Defined.
#[export] Instance binary_bool_op_eq_dec : EqDecision binary_bool_op_type_t.
Proof. solve_decision. Defined.
#[export] Instance field_transformer_type_eq_dec : EqDecision field_transformer_type_t.
Proof. solve_decision. Defined.
#[export] Instance field_transformer_val_eq_dec : EqDecision field_transformer_val_t.
Proof. solve_decision. Defined.

(** ** The texts (operation_type_string.c) *)
Definition g_unary_ops : list string := ["exists"; "not"].
Definition g_binary_num_ops : list string := [">"; ">="; "<"; "<="].
Definition g_binary_str_ops : list string :=
  ["=="; "="; "!="; "glob "; "iglob "; "contains "; "icontains "; "bcontains "; "startswith ";
   "bstartswith "; "endswith "; "regex "].
Definition g_binary_list_ops : list string := ["intersects"; "in"; "pmatch"].
Definition g_binary_bool_ops : list string := ["or"; "and"].
Definition g_field_transformer_types : list string :=
  ["tolower("; "toupper("; "b64("; "basename("; "len("].
Definition g_field_transformer_vals : list string := ["val("].

(** The loop of every look-up: the index of the first equal text, or -1. *)
Fixpoint op_loop (str : string) (l : list string) (i : Z) : Z :=
  match l with
  | [] => -1
  | s :: l' => if streq str s then i else op_loop str l' (i + 1)
  end.

(** The enumerator with the value [i]; -1 is in no enumeration. *)
Definition enum_of {A} (l : list A) (invalid : A) (i : Z) : A :=
  if i <? 0 then invalid else default invalid (l !! Z.to_nat i).

Definition op_str_to_unary_op (str : string) : unary_op_type_t :=
  enum_of unary_ops UNARY_OP_INVALID (op_loop str g_unary_ops 0).
Definition op_str_to_binary_num_op (str : string) : binary_num_op_type_t :=
  enum_of binary_num_ops BINARY_NUM_OP_INVALID (op_loop str g_binary_num_ops 0).
Definition op_str_to_binary_str_op (str : string) : binary_str_op_type_t :=
  enum_of binary_str_ops BINARY_STR_OP_INVALID (op_loop str g_binary_str_ops 0).
Definition op_str_to_binary_list_op (str : string) : binary_list_op_type_t :=
  enum_of binary_list_ops BINARY_LIST_OP_INVALID (op_loop str g_binary_list_ops 0).
Definition op_str_to_binary_bool_op (str : string) : binary_bool_op_type_t :=
  enum_of binary_bool_ops BINARY_BOOL_OP_INVALID (op_loop str g_binary_bool_ops 0).
Definition op_str_to_field_transformer_type (str : string) : field_transformer_type_t :=
  enum_of field_transformer_types FIELD_TRANSFORMER_INVALID (op_loop str g_field_transformer_types 0).
Definition op_str_to_field_transformer_val (str : string) : field_transformer_val_t :=
  enum_of field_transformer_vals FIELD_TRANSFORMER_VAL_INVALID (op_loop str g_field_transformer_vals 0).

(** The first table that knows the text decides. *)
Definition op_str_to_op_type (str : string) : Z :=
  let or_else (op : Z) (l : list string) := if negb (op =? -1) then op else op_loop str l 0 in
  let op := op_loop str g_unary_ops 0 in
  let op := or_else op g_binary_num_ops in
  let op := or_else op g_binary_str_ops in
  let op := or_else op g_binary_list_ops in
  let op := or_else op g_binary_bool_ops in
  let op := or_else op g_field_transformer_types in
  or_else op g_field_transformer_vals.

(** ** Lemmas *)
Lemma op_loop_first str l i k :
  l !! k = Some str → str ∉ take k l → op_loop str l i = i + Z.of_nat k.
Proof.
  revert i k. induction l as [|s l IH]; intros i k; [done|]. destruct k as [|k]; cbn -[Z.of_nat].
  - intros [= ->] _. rewrite streq_refl. lia.
  - rewrite not_elem_of_cons. intros Hk [Hne Hn].
    destruct (streq_spec str s); [done|]. rewrite (IH _ k) by done. lia.
Qed.

Lemma op_loop_lookup str l i k :
  NoDup l → l !! k = Some str → op_loop str l i = i + Z.of_nat k.
Proof.
  intros Hd Hk. apply op_loop_first; [done|]. intros (j & Hj)%list_elem_of_lookup.
  pose proof (lookup_lt_Some _ _ _ Hj) as Hlt. rewrite length_take in Hlt.
  rewrite lookup_take_lt in Hj by lia. pose proof (NoDup_lookup _ _ _ _ Hd Hk Hj). lia.
Qed.

Lemma op_loop_none str l i : str ∉ l → op_loop str l i = -1.
Proof.
  revert i. induction l as [|s l IH]; intros i; [done|].
  rewrite not_elem_of_cons. intros [Hne Hn]. cbn. destruct (streq_spec str s); [done|]. by apply IH.
Qed.
