(* ===== verification/Regex.v ===== *)
(** * Regular expressions (userspace/linx_regex/linx_regex.c)

    The matching itself is PCRE2, a third-party library: the class [Pcre2]
    holds the two calls whose results the program uses, and [Pcre2Laws] what
    the program relies on.  [greedy_engine] is a small backtracking matcher
    that gives concrete instances. *)
From S2P Require Import Prelude CString.
From Stdlib Require Import Ascii.

#[local] Open Scope Z_scope.

(** A heap buffer of characters, with or without its terminator. *)
Inductive char_buf :=
  | Terminated (s : string)
  | Unterminated (s : string).

(** Reading a buffer as a C string runs past an unterminated one. *)
Definition read_buf (b : option char_buf) : outcome string :=
  match b with
  | None => Ub NullDeref
  | Some (Terminated s) => mret s
  | Some (Unterminated _) => Ub OutOfBounds
  end.

(** ** The library *)
Class Pcre2 := {
  (** [pcre2_compile] returns a code for the pattern. *)
  pcre2_compile : string → bool;
  (** [pcre2_match] with [PCRE2_ANCHORED] from offset 0: a negative code, or
      [ovector[0]] and [ovector[1]]. *)
  pcre2_match : string → string → Z + (nat * nat)
}.

(** An anchored match starts where the search starts and ends within the
    subject; errors are negative. *)
Class Pcre2Laws (P : Pcre2) := {
  pcre2_match_error : ∀ re s e, pcre2_match re s = inl e → e < 0;
  pcre2_match_bounds : ∀ re s b e, pcre2_match re s = inr (b, e) → b = 0%nat ∧ (e ≤ strlen s)%nat
}.

Section regex.
Context `{Pcre2}.

(** [linx_regex_match]: the returned integer and the new [*match_str].  The
    length of [str] is taken before the check of the null pointers. *)
Definition linx_regex_match (regex str : option string) (match_str : option char_buf)
    : outcome (Z * option char_buf) :=
  s ← from_opt NullDeref str;
  match regex with
  | None => mret (-1, match_str)
  | Some re =>
      if negb (pcre2_compile re) then mret (-1, match_str)
      else
        match pcre2_match re s with
        | inl e => mret (e, match_str)
        | inr (b, e) =>
            let len := wrap 64 (Z.of_nat e - Z.of_nat b) in
            mret (sext 32 len, Some (Terminated (stake (Z.to_nat len) (sdrop b s))))
        end
  end.

Context `{!Pcre2Laws _}.

(** The cases of a call on a subject that fits an [int]: no match, with a
    negative result and the buffer as it was, or the matched prefix. *)
Lemma linx_regex_match_cases re s buf :
  Z.of_nat (strlen s) < 2 ^ 31 →
  (∃ e, e < 0 ∧ linx_regex_match (Some re) (Some s) buf = Ret [] (e, buf))
  ∨ (∃ n, (n ≤ strlen s)%nat ∧
      linx_regex_match (Some re) (Some s) buf = Ret [] (Z.of_nat n, Some (Terminated (stake n s)))).
Proof.
  intros Hs. unfold linx_regex_match. cbn [from_opt]. rewrite bind_ret_l.
  destruct (pcre2_compile re); cbn [negb]; [|left; exists (-1); split; [lia|done]].
  destruct (pcre2_match re s) as [e|[b e]] eqn:E.
  - left. exists e. split; [by eapply pcre2_match_error|done].
  - right. destruct (pcre2_match_bounds _ _ _ _ E) as [-> He]. exists e. split; [done|].
    rewrite Z.sub_0_r, wrap_small, sext_small, Nat2Z.id by lia. done.
Qed.
End regex.

(** ** Concrete engines

    A pattern given by a function from the subject to the length of its
    match. *)
Definition scan_result (scan : string → option nat) (s : string) : Z + (nat * nat) :=
  match scan s with
  | Some n => inr (0%nat, (n `min` strlen s)%nat)
  | None => inl (-1)
  end.

Definition scan_engine (patterns : list (string * (string → option nat))) : Pcre2 := {|
  pcre2_compile p := existsb (λ q, streq q.1 p) patterns;
  pcre2_match p s :=
    match List.find (λ q, streq q.1 p) patterns with
    | Some q => scan_result q.2 s
    | None => inl (-2)
    end
|}.

#[export] Instance scan_engine_laws ps : Pcre2Laws (scan_engine ps).
Proof.
  split; cbn; intros r s; destruct (find _ ps) as [q|]; unfold scan_result;
    try destruct (q.2 s); try congruence.
  - intros e [= <-]. lia.
  - intros e [= <-]. lia.
  - intros b e [= <- <-]. split; [done|lia].
Qed.
