(* ===== verification/Lexer.v ===== *)
(** * Lexer of rule conditions (rule_engine_lexer/lexer.c)

    The lexer is a cursor over the condition text; the parser asks for one
    kind of token at a time.  [current_char] is the C string at the cursor,
    and moving the cursor keeps the line and the column.  The operations are
    state-passing functions with outcomes. *)
From S2P Require Import Prelude CString OpType Regex.
From Stdlib Require Import Ascii.

#[local] Open Scope Z_scope.

Record linx_lexer_t := mk_lexer {
  lx_input : string;
  lx_line : Z;
  lx_col : Z;
  lx_idx : Z;
  lx_len : Z;
  lx_last_token : option char_buf
}.

(** Programs over the lexer. *)
Definition lexm (A : Type) : Type := linx_lexer_t → outcome (A * linx_lexer_t).
#[export] Instance lexm_ret : MRet lexm := λ A a lx, mret (a, lx).
#[export] Instance lexm_bind : MBind lexm := λ A B k m lx,
  m lx ≫= λ '(a, lx'), k a lx'.
#[export] Instance lexm_fmap : FMap lexm := λ A B f m, a ← m; mret (f a).

Definition lift {A} (m : outcome A) : lexm A := λ lx, m ≫= λ a, mret (a, lx).
Definition get_lexer : lexm linx_lexer_t := λ lx, mret (lx, lx).
Definition get_token : lexm (option char_buf) := λ lx, mret (lx_last_token lx, lx).
Definition set_token (t : option char_buf) : lexm unit := λ lx,
  mret ((), mk_lexer (lx_input lx) (lx_line lx) (lx_col lx) (lx_idx lx) (lx_len lx) t).

(** ** Patterns *)
Definition DQ : ascii := chr 34.
Definition SQ : ascii := chr 39.
Definition BACKSLASH : ascii := chr 92.

Definition RGX_NOTBLANK : string := "(not[[:space:]]+)".
Definition RGX_IDENTIFIER : string := "([a-zA-Z]+[a-zA-Z0-9_]*)".
Definition RGX_FIELDNAME : string := "([a-zA-Z]+[a-zA-Z0-9_]*(\.[a-zA-Z]+[a-zA-Z0-9_]*)+)".
Definition RGX_FIELDARGBARESTR : string := "([^][" +:+ String DQ "'[:space:]]+)".
Definition RGX_HEXNUM : string := "(0[xX][0-9a-fA-F]+)".
Definition RGX_NUMBER : string := "([+\-]?[0-9]+[\.]?[0-9]*([eE][+\-][0-9]+)?)".
Definition RGX_BARESTR : string := "([^()" +:+ String DQ "'[:space:]=,]+)".

(** ** Position *)
Definition linx_lexer_create (input : option string) : outcome linx_lexer_t :=
  s ← from_opt NullDeref input;
  mret (mk_lexer s 1 1 0 (wrap 32 (Z.of_nat (strlen s))) None).

(** The string at the cursor; the cursor may stand on the terminator. *)
Definition current_char : lexm string := λ lx,
  if lx_idx lx <=? Z.of_nat (strlen (lx_input lx))
  then mret (sdrop (Z.to_nat (lx_idx lx)) (lx_input lx), lx)
  else Ub OutOfBounds.

Definition is_newline (c : ascii) : bool := (code c =? 13) || (code c =? 10).

Definition update_pos_char (c : ascii) : lexm unit := λ lx,
  let '(line, col) :=
    if is_newline c then (wrap 32 (lx_line lx + 1), 1)
    else (lx_line lx, wrap 32 (lx_col lx + 1)) in
  mret ((), mk_lexer (lx_input lx) line col (wrap 32 (lx_idx lx + 1)) (lx_len lx) (lx_last_token lx)).

Fixpoint update_pos_str (str : string) (len : nat) {struct len} : lexm unit :=
  match len, str with
  | O, _ => mret ()
  | S n, String c s => _ ← update_pos_char c; update_pos_str s n
  | S _, EmptyString => lift (Ub OutOfBounds)
  end.

(** ** Tokens *)
Definition is_blank (c : ascii) : bool :=
  let z := code c in (z =? 32) || (z =? 9) || (z =? 10) || (z =? 13) || (z =? 8).

Fixpoint blank_loop (fuel : nat) (found : bool) : lexm bool :=
  match fuel with
  | O => λ _, NoFuel
  | S n =>
      s ← current_char;
      match s with
      | String c _ => if is_blank c then _ ← update_pos_char c; blank_loop n true else mret found
      | EmptyString => mret found
      end
  end.

Definition linx_lexer_blank : lexm bool :=
  lx ← get_lexer; blank_loop (S (strlen (lx_input lx))) false.

Definition linx_lexer_find_str (str : string) : lexm bool :=
  s ← current_char;
  if strncmp0 s str (strlen str)
  then _ ← set_token (Some (Terminated str)); _ ← update_pos_str str (strlen str); mret true
  else mret false.

Fixpoint linx_lexer_find_operator_list (l : list string) : lexm bool :=
  match l with
  | [] => mret false
  | op :: l' =>
      b ← linx_lexer_find_str op;
      if (b : bool) then mret true else linx_lexer_find_operator_list l'
  end.

(** The word "not" is left to [linx_lexer_not_blank]. *)
Definition linx_lexer_unary_op : lexm bool :=
  linx_lexer_find_operator_list (take (length g_unary_ops - 1) g_unary_ops).
Definition linx_lexer_num_op : lexm bool := linx_lexer_find_operator_list g_binary_num_ops.
Definition linx_lexer_str_op : lexm bool := linx_lexer_find_operator_list g_binary_str_ops.
Definition linx_lexer_list_op : lexm bool := linx_lexer_find_operator_list g_binary_list_ops.
Definition linx_lexer_field_transformer_type : lexm bool :=
  linx_lexer_find_operator_list g_field_transformer_types.
Definition linx_lexer_field_transformer_val : lexm bool :=
  linx_lexer_find_operator_list g_field_transformer_vals.

(** The characters an escape stands for; an unknown escape is dropped. *)
Definition unescape_char (e : ascii) : string :=
  let z := code e in
  if z =? 98 then String (chr 8) ""
  else if z =? 102 then String (chr 12) ""
  else if z =? 110 then String (chr 10) ""
  else if z =? 114 then String (chr 13) ""
  else if z =? 116 then String (chr 9) ""
  else if (z =? 32) || (z =? 92) then String BACKSLASH ""
  else if (z =? 47) || (z =? 34) || (z =? 39) then String e ""
  else "".

(** The loop from index [i] up to the last character, which is excluded. *)
Fixpoint unescape_loop (str : string) : string :=
  match str with
  | String c ((String e str'') as str') =>
      if Ascii.eqb c BACKSLASH then unescape_char e +:+ unescape_loop str''
      else String c (unescape_loop str')
  | _ => ""
  end.

Definition unescape_str (str : string) : string := unescape_loop (sdrop 1 str).

(** The loop collects characters in [last_token], unterminated, until the
    delimiter that does not follow a backslash. *)
Fixpoint quoted_loop (fuel : nat) (delimiter prev : ascii) (buf : string) : lexm bool :=
  match fuel with
  | O => λ _, NoFuel
  | S n =>
      s ← current_char;
      match s with
      | EmptyString => mret true
      | String c _ =>
          if Ascii.eqb c delimiter && negb (Ascii.eqb prev BACKSLASH)
          then _ ← update_pos_char c;
               _ ← set_token (Some (Terminated (unescape_str (buf +:+ String delimiter ""))));
               mret true
          else let buf' := buf +:+ String c "" in
               _ ← set_token (Some (Unterminated buf'));
               _ ← update_pos_char c;
               quoted_loop n delimiter c buf'
      end
  end.

Definition is_quote (c : ascii) : bool := Ascii.eqb c SQ || Ascii.eqb c DQ.

Definition linx_lexer_quoted_str : lexm bool :=
  s ← current_char;
  match s with
  | String d _ =>
      if is_quote d
      then _ ← set_token (Some (Unterminated ""));
           lx ← get_lexer;
           quoted_loop (S (strlen (lx_input lx))) d BACKSLASH ""
      else mret false
  | EmptyString => mret false
  end.

Section regex_tokens.
Context `{Pcre2}.

(** The body shared by the tokens a regular expression describes. *)
Definition regex_token (regex : string) : lexm bool :=
  s ← current_char;
  tok ← get_token;
  '(ret, tok') ← lift (linx_regex_match (Some regex) (Some s) tok);
  _ ← set_token tok';
  if ret <=? 0 then mret false
  else t ← lift (read_buf tok'); _ ← update_pos_str t (Z.to_nat ret); mret true.

Definition linx_lexer_field_name : lexm bool := regex_token RGX_FIELDNAME.
Definition linx_lexer_not_blank : lexm bool := regex_token RGX_NOTBLANK.
Definition linx_lexer_hex_num : lexm bool := regex_token RGX_HEXNUM.
Definition linx_lexer_num : lexm bool := regex_token RGX_NUMBER.
Definition linx_lexer_identifier : lexm bool := regex_token RGX_IDENTIFIER.
Definition linx_lexer_field_arg_bare_str : lexm bool := regex_token RGX_FIELDARGBARESTR.
Definition linx_lexer_bare_str : lexm bool := regex_token RGX_BARESTR.
End regex_tokens.

(** ** What the patterns match

    The length of the match of each pattern at the start of the subject, as
    PCRE2 documents its syntax: greedy repetitions, from the left. *)
Definition span_len (p : ascii → bool) (s : string) : nat := strlen (span p s).1.

Definition some_len (n : nat) : option nat := if (n =? 0)%nat then None else Some n.

Definition isalnum_ (c : ascii) : bool := isalpha c || isdigit c || Ascii.eqb c "_".

Definition not_in (s : string) (c : ascii) : bool :=
  negb (isspace c || existsb (Ascii.eqb c) (String.list_ascii_of_string s)).

Definition notblank_len (s : string) : option nat :=
  if strncmp0 s "not" 3
  then (λ n, 3 + n)%nat <$> some_len (span_len isspace (sdrop 3 s)) else None.

Definition ident_len (s : string) : option nat :=
  match s with
  | String c _ => if isalpha c then Some (span_len isalnum_ s) else None
  | EmptyString => None
  end.

(** The repetition of a dot and an identifier. *)
Fixpoint dotted_len (fuel : nat) (s : string) : nat :=
  match fuel, s with
  | S n, String c r =>
      if Ascii.eqb c DOT then
        match ident_len r with
        | Some k => S k + dotted_len n (sdrop k r)
        | None => 0
        end
      else 0
  | _, _ => 0
  end.

Definition fieldname_len (s : string) : option nat :=
  k ← ident_len s;
  (λ d, k + d)%nat <$> some_len (dotted_len (strlen s) (sdrop k s)).

Definition fieldarg_len (s : string) : option nat := some_len (span_len (not_in (String DQ "'[]")) s).
Definition barestr_len (s : string) : option nat := some_len (span_len (not_in (String DQ "'()=,")) s).

Definition hexnum_len (s : string) : option nat :=
  match s with
  | String "0" (String x r) =>
      if Ascii.eqb x "x" || Ascii.eqb x "X"
      then (λ n, 2 + n)%nat <$> some_len (span_len isxdigit r) else None
  | _ => None
  end.

Definition exponent_len (s : string) : nat :=
  match s with
  | String c (String g r) =>
      if (Ascii.eqb c "e" || Ascii.eqb c "E") && (Ascii.eqb g "+" || Ascii.eqb g "-")
      then from_option (λ n, 2 + n)%nat 0%nat (some_len (span_len isdigit r)) else 0%nat
  | _ => 0%nat
  end.

Definition number_len (s : string) : option nat :=
  let sg := match s with
            | String c _ => if Ascii.eqb c "+" || Ascii.eqb c "-" then 1%nat else 0%nat
            | EmptyString => 0%nat
            end in
  d ← some_len (span_len isdigit (sdrop sg s));
  let s1 := sdrop (sg + d) s in
  let dot := match s1 with String "." _ => 1%nat | _ => 0%nat end in
  let f := span_len isdigit (sdrop dot s1) in
  Some (sg + d + dot + f + exponent_len (sdrop (dot + f) s1))%nat.

Definition lexer_patterns : list (string * (string → option nat)) :=
  [(RGX_NOTBLANK, notblank_len); (RGX_IDENTIFIER, ident_len); (RGX_FIELDNAME, fieldname_len);
   (RGX_FIELDARGBARESTR, fieldarg_len); (RGX_HEXNUM, hexnum_len); (RGX_NUMBER, number_len);
   (RGX_BARESTR, barestr_len)].

(** The library compiles the patterns of the lexer and matches them as
    documented. *)
Class Pcre2Patterns (P : Pcre2) := {
  pattern_compile : ∀ p, p ∈ lexer_patterns → pcre2_compile p.1 = true;
  pattern_match : ∀ p s, p ∈ lexer_patterns → pcre2_match p.1 s = scan_result p.2 s
}.

Definition lexer_engine : Pcre2 := scan_engine lexer_patterns.

#[export] Instance lexer_engine_patterns : Pcre2Patterns lexer_engine.
Proof.
  split; intros p; [|intros s]; intros Hp;
    repeat (apply elem_of_cons in Hp as [->|Hp]; [done|]); by apply elem_of_nil in Hp.
Qed.

Example lex_field :
  regex_token (H:=lexer_engine) RGX_FIELDNAME (mk_lexer "proc.pid = 1" 1 1 0 12 None)
  = Ret [] (true, mk_lexer "proc.pid = 1" 1 9 8 12 (Some (Terminated "proc.pid"))).
Proof. vm_compute. reflexivity. Qed.
Example lex_num :
  regex_token (H:=lexer_engine) RGX_NUMBER (mk_lexer "-12.5e+3)" 1 1 0 9 None)
  = Ret [] (true, mk_lexer "-12.5e+3)" 1 9 8 9 (Some (Terminated "-12.5e+3"))).
Proof. vm_compute. reflexivity. Qed.

(** ** Invariant *)
Definition rest (lx : linx_lexer_t) : string := sdrop (Z.to_nat (lx_idx lx)) (lx_input lx).

Fixpoint line_of (s : string) : Z :=
  match s with
  | EmptyString => 1
  | String c s' => line_of s' + if is_newline c then 1 else 0
  end.

(** The column after [s], from the column [col] before it. *)
Fixpoint col_from (col : Z) (s : string) : Z :=
  match s with
  | EmptyString => col
  | String c s' => col_from (if is_newline c then 1 else col + 1) s'
  end.

(** The cursor is within the text, and the line and column are those of the
    text before it. *)
Record lex_wf (lx : linx_lexer_t) : Prop := {
  lw_small : Z.of_nat (strlen (lx_input lx)) < 2 ^ 31;
  lw_len : lx_len lx = Z.of_nat (strlen (lx_input lx));
  lw_idx : 0 ≤ lx_idx lx ≤ Z.of_nat (strlen (lx_input lx));
  lw_line : lx_line lx = line_of (stake (Z.to_nat (lx_idx lx)) (lx_input lx));
  lw_col : lx_col lx = col_from 1 (stake (Z.to_nat (lx_idx lx)) (lx_input lx))
}.

(** [adv n lx lx']: the same text with the cursor [n] characters further. *)
Record adv (n : nat) (lx lx' : linx_lexer_t) : Prop := {
  adv_wf : lex_wf lx';
  adv_input : lx_input lx' = lx_input lx;
  adv_rest : rest lx' = sdrop n (rest lx);
  adv_len : (n <= strlen (rest lx))%nat
}.

(** [wp U m lx Q]: run from [lx], [m] ends in a state with [Q] or in a fault
    that [U] allows, it has fuel, and [U] allows the faults it passed over. *)
Definition wp {A} (U : fault → Prop) (m : lexm A) (lx : linx_lexer_t)
    (Q : A → linx_lexer_t → Prop) : Prop :=
  match m lx with
  | Ret w (a, lx') => Forall U w ∧ Q a lx'
  | Ub f => U f
  | NoFuel => False
  end.

Section wp.
Context (U : fault → Prop).

Lemma wp_ret {A} (a : A) lx (Q : A → linx_lexer_t → Prop) : Q a lx → wp U (mret a) lx Q.
Proof. intros H. split; [constructor|done]. Qed.

Lemma wp_bind {A B} (m : lexm A) (k : A → lexm B) lx Q :
  wp U m lx (λ a lx', wp U (k a) lx' Q) → wp U (m ≫= k) lx Q.
Proof.
  unfold wp, mbind, lexm_bind. destruct (m lx) as [w [a lx']| |]; cbn; auto.
  intros [Hw H]. destruct (k a lx') as [w' [b lx'']| |]; [|done..].
  destruct H. split; [by apply Forall_app|done].
Qed.

Lemma wp_mono {A} (m : lexm A) lx (Q Q' : A → linx_lexer_t → Prop) :
  wp U m lx Q → (∀ a lx', Q a lx' → Q' a lx') → wp U m lx Q'.
Proof. unfold wp. destruct (m lx) as [w [a lx']| |]; naive_solver. Qed.

Lemma wp_lift {A} (m : outcome A) lx (Q : A → linx_lexer_t → Prop) a :
  m = Ret [] a → Q a lx → wp U (lift m) lx Q.
Proof. intros -> H. split; [constructor|done]. Qed.

Lemma wp_set_token t lx (Q : () → linx_lexer_t → Prop) :
  Q () (mk_lexer (lx_input lx) (lx_line lx) (lx_col lx) (lx_idx lx) (lx_len lx) t) →
  wp U (set_token t) lx Q.
Proof. intros H. split; [constructor|done]. Qed.
End wp.

Lemma wp_ub_mono {A} (U U' : fault → Prop) (m : lexm A) lx Q :
  wp U m lx Q → (∀ f, U f → U' f) → wp U' m lx Q.
Proof.
  unfold wp. intros H HU. destruct (m lx) as [w [a lx']| |]; [|by auto..].
  destruct H as [Hw H]. split; [|done]. eapply Forall_impl; eauto.
Qed.

Lemma line_of_app a b : line_of (a +:+ b) = line_of a + line_of b - 1.
Proof. induction a as [|c a IH]; cbn in *; [lia|]. rewrite IH. lia. Qed.

Lemma col_from_app col a b : col_from col (a +:+ b) = col_from (col_from col a) b.
Proof. revert col. induction a as [|c a IH]; intros col; cbn; [done|]. apply IH. Qed.

Lemma line_of_range s : 1 ≤ line_of s ≤ 1 + Z.of_nat (strlen s).
Proof. induction s as [|c s IH]; cbn -[Z.of_nat]; [lia|]. destruct (is_newline c); lia. Qed.

Lemma col_from_range col s : 1 ≤ col → 1 ≤ col_from col s ≤ col + Z.of_nat (strlen s).
Proof.
  revert col. induction s as [|c s IH]; intros col Hc; cbn -[Z.of_nat]; [lia|].
  destruct (is_newline c); [specialize (IH 1)|specialize (IH (col + 1))]; lia.
Qed.

Lemma stake_S_rest n s c r : sdrop n s = String c r → stake (S n) s = stake n s +:+ String c "".
Proof.
  revert s. induction n as [|n IH]; intros [|x s]; cbn; [done| |done|].
  - by intros [= -> ->].
  - intros H. f_equal. by rewrite <- (IH _ H).
Qed.

Lemma strlen_rest lx :
  lex_wf lx → strlen (rest lx) = (strlen (lx_input lx) - Z.to_nat (lx_idx lx))%nat.
Proof. intros _. unfold rest. apply strlen_sdrop. Qed.

Lemma adv_refl lx : lex_wf lx → adv 0 lx lx.
Proof. intros H. split; [done..|lia]. Qed.

Lemma adv_trans n m lx1 lx2 lx3 : adv n lx1 lx2 → adv m lx2 lx3 → adv (n + m) lx1 lx3.
Proof.
  intros [W1 I1 R1 L1] [W2 I2 R2 L2]. split; [done|congruence| |].
  - by rewrite R2, R1, sdrop_sdrop.
  - rewrite R1, strlen_sdrop in L2. lia.
Qed.

Lemma adv_strlen n lx lx' : adv n lx lx' → strlen (rest lx') = (strlen (rest lx) - n)%nat.
Proof. intros [_ _ -> _]. apply strlen_sdrop. Qed.

(** Changing the token does not move the cursor. *)
Lemma adv_token lx t :
  lex_wf lx → adv 0 lx (mk_lexer (lx_input lx) (lx_line lx) (lx_col lx) (lx_idx lx) (lx_len lx) t).
Proof. intros []. split; [by split|done..|lia]. Qed.

#[export] Hint Resolve adv_wf adv_refl adv_trans adv_token : linx.

Lemma linx_lexer_create_wf s :
  Z.of_nat (strlen s) < 2 ^ 31 →
  ∃ lx, linx_lexer_create (Some s) = Ret [] lx ∧ lex_wf lx ∧ lx_input lx = s ∧ rest lx = s.
Proof.
  intros Hs. unfold linx_lexer_create. cbn. eexists. split; [done|].
  split; [|done]. split; cbn; try done; [by rewrite wrap_small by lia|lia].
Qed.

Section lexer_specs.
Context (U : fault → Prop).
Implicit Types (lx : linx_lexer_t).

Lemma wp_current_char lx Q : lex_wf lx → Q (rest lx) lx → wp U current_char lx Q.
Proof.
  intros [? ? Hi ? ?] H. unfold wp, current_char.
  destruct (Z.leb_spec (lx_idx lx) (Z.of_nat (strlen (lx_input lx)))); [|lia].
  split; [constructor|done].
Qed.

Lemma update_pos_char_adv c s lx :
  lex_wf lx → rest lx = String c s →
  ∃ lx', update_pos_char c lx = Ret [] ((), lx') ∧ adv 1 lx lx'
         ∧ lx_last_token lx' = lx_last_token lx.
Proof.
  intros Hw Hr. pose proof Hw as [H1 H2 H3 H4 H5].
  pose proof (strlen_rest lx Hw) as Hl. rewrite Hr in Hl. cbn in Hl.
  pose proof (line_of_range (stake (Z.to_nat (lx_idx lx)) (lx_input lx))) as L.
  pose proof (col_from_range 1 (stake (Z.to_nat (lx_idx lx)) (lx_input lx)) ltac:(lia)) as C.
  rewrite strlen_stake in L, C.
  unfold update_pos_char. destruct (is_newline c) eqn:En; eexists; (split; [reflexivity|]);
    (split; [split|done]); cbn; try done;
    try (split; cbn; [done|done| | |]);
    rewrite ?(wrap_small 32 (lx_idx lx + 1)), ?(wrap_small 32 (lx_line lx + 1)),
      ?(wrap_small 32 (lx_col lx + 1)) by lia; try lia;
    try (replace (Z.to_nat (lx_idx lx + 1)) with (S (Z.to_nat (lx_idx lx))) by lia;
         rewrite (stake_S_rest _ _ _ _ Hr), ?line_of_app, ?col_from_app; cbn; rewrite En; lia).
  all: try (rewrite Hr; cbn; lia).
  all: match goal with |- ?l = _ => change (l = sdrop 1 (rest lx)) end; unfold rest; cbn [lx_idx lx_input];
    replace (Z.to_nat (lx_idx lx + 1)) with (Z.to_nat (lx_idx lx) + 1)%nat by lia;
    by rewrite <- sdrop_sdrop.
Qed.

Lemma wp_update_pos_char c s lx (Q : () → linx_lexer_t → Prop) :
  lex_wf lx → rest lx = String c s →
  (∀ lx', adv 1 lx lx' → lx_last_token lx' = lx_last_token lx → Q () lx') →
  wp U (update_pos_char c) lx Q.
Proof.
  intros Hw Hr H. destruct (update_pos_char_adv c s lx Hw Hr) as (lx' & E & Ha & Ht).
  unfold wp. rewrite E. split; [constructor|auto].
Qed.

Lemma wp_update_pos_str str n lx (Q : () → linx_lexer_t → Prop) :
  lex_wf lx → (n ≤ strlen (rest lx))%nat → stake n (rest lx) = stake n str →
  (∀ lx', adv n lx lx' → lx_last_token lx' = lx_last_token lx → Q () lx') →
  wp U (update_pos_str str n) lx Q.
Proof.
  revert str lx. induction n as [|n IH]; intros str lx Hw Hn Hs H.
  - cbn. destruct str; apply wp_ret, H; eauto using adv_refl.
  - destruct (rest lx) as [|c r] eqn:Hr; cbn in Hn; [lia|].
    destruct str as [|x str]; [done|]. cbn in Hs. injection Hs as -> Hs. cbn [update_pos_str].
    apply wp_bind, (wp_update_pos_char x r); [done..|]. intros lx1 Ha Ht.
    pose proof (adv_rest _ _ _ Ha) as Hr1. rewrite Hr in Hr1. cbn in Hr1.
    apply IH; [by eapply adv_wf|rewrite Hr1; lia|by rewrite Hr1|].
    intros lx2 Ha2 Ht2. apply H; [exact (adv_trans 1 n _ _ _ Ha Ha2)|congruence].
Qed.

Lemma span_len_cons p c s : span_len p (String c s) = if p c then S (span_len p s) else 0%nat.
Proof. unfold span_len. cbn. destruct (p c); [|done]. by destruct (span p s). Qed.

(** All the blanks at the cursor are passed. *)
Lemma wp_blank lx (Q : bool → linx_lexer_t → Prop) :
  lex_wf lx →
  (∀ n lx', adv n lx lx' → lx_last_token lx' = lx_last_token lx →
     n = span_len is_blank (rest lx) → Q (negb (n =? 0)%nat) lx') →
  wp U linx_lexer_blank lx Q.
Proof.
  intros Hw H. unfold linx_lexer_blank. apply wp_bind. apply wp_ret.
  assert (Hgen : ∀ fuel k lx1, adv k lx lx1 → lx_last_token lx1 = lx_last_token lx →
    (strlen (rest lx1) < fuel)%nat →
    (k + span_len is_blank (rest lx1))%nat = span_len is_blank (rest lx) →
    wp U (blank_loop fuel (negb (k =? 0)%nat)) lx1 Q).
  { induction fuel as [|fuel IH]; intros k lx1 Ha Ht Hf Hk; [lia|]. cbn [blank_loop].
    pose proof (adv_wf _ _ _ Ha) as Hw1. apply wp_bind, wp_current_char; [done|].
    destruct (rest lx1) as [|c r] eqn:Hr; [apply wp_ret, H; [done..|cbn in Hk; lia]|].
    rewrite span_len_cons in Hk.
    destruct (is_blank c); [|apply wp_ret, H; [done..|lia]].
    apply wp_bind, (wp_update_pos_char c r); [done..|]. intros lx2 Ha2 Ht2.
    pose proof (adv_trans _ _ _ _ _ Ha Ha2) as Ha3. pose proof (adv_rest _ _ _ Ha2) as Hr2.
    rewrite Hr in Hr2; cbn in Hr2, Hf.
    replace true with (negb (k + 1 =? 0)%nat) by (by rewrite Nat.add_1_r).
    apply IH; [done|congruence|rewrite Hr2; lia|rewrite Hr2; lia]. }
  apply (Hgen _ 0%nat lx); [by apply adv_refl|done| |done].
  rewrite strlen_rest by done. lia.
Qed.

Lemma wp_find_str str lx (Q : bool → linx_lexer_t → Prop) :
  lex_wf lx →
  (∀ lx' t, adv (strlen str) lx lx' → lx_last_token lx' = Some (Terminated str) →
     rest lx = str +:+ t → Q true lx') →
  ((∀ t, rest lx ≠ str +:+ t) → Q false lx) →
  wp U (linx_lexer_find_str str) lx Q.
Proof.
  intros Hw Ht Hf. unfold linx_lexer_find_str. apply wp_bind, wp_current_char; [done|].
  destruct (strncmp0 (rest lx) str (strlen str)) eqn:E.
  - apply strncmp0_prefix in E as [t E].
    apply wp_bind, wp_set_token, wp_bind.
    set (lx1 := mk_lexer _ _ _ _ _ _). pose proof (adv_token lx (Some (Terminated str)) Hw) as Ha.
    fold lx1 in Ha. assert (Hr : rest lx1 = rest lx) by done.
    apply wp_update_pos_str; [by eapply adv_wf| | |].
    + rewrite Hr, E, strlen_app. lia.
    + rewrite Hr, E, stake_app_length. rewrite <- (stake_app_length str "") at 1. by rewrite sapp_nil_r.
    + intros lx2 Ha2 Ht2. apply wp_ret, (Ht lx2 t); [exact (adv_trans 0 _ _ _ _ Ha Ha2)|done|done].
  - apply wp_ret, Hf. intros t Ht'. assert (strncmp0 (rest lx) str (strlen str) = true); [|congruence].
    apply strncmp0_prefix. by exists t.
Qed.

Lemma wp_operator_list l lx (Q : bool → linx_lexer_t → Prop) :
  lex_wf lx →
  (∀ lx' op t, op ∈ l → adv (strlen op) lx lx' → lx_last_token lx' = Some (Terminated op) →
     rest lx = op +:+ t → Q true lx') →
  ((∀ op t, op ∈ l → rest lx ≠ op +:+ t) → Q false lx) →
  wp U (linx_lexer_find_operator_list l) lx Q.
Proof.
  induction l as [|op l IH]; intros Hw Ht Hf; cbn [linx_lexer_find_operator_list].
  - apply wp_ret, Hf. set_solver.
  - apply wp_bind, wp_find_str; [done| |].
    + intros lx' t Ha Htok Hr. apply wp_ret, (Ht _ op t); [left|done..].
    + intros Hno. apply IH; [done| |].
      * intros lx' op' t Hin. apply Ht. by right.
      * intros Hno'. apply Hf. intros op' t [->|Hin]%elem_of_cons; [apply Hno|by apply Hno'].
Qed.

(** What the loop of [linx_lexer_quoted_str] collects, and what follows the
    closing delimiter when there is one. *)
Fixpoint quoted_scan (d prev : ascii) (s : string) : string * option string :=
  match s with
  | EmptyString => (EmptyString, None)
  | String c s' =>
      if Ascii.eqb c d && negb (Ascii.eqb prev BACKSLASH) then (EmptyString, Some s')
      else let '(b, r) := quoted_scan d c s' in (String c b, r)
  end.

Definition quoted_post (lx lx' : linx_lexer_t) (d : ascii) (buf : string)
    (scan : string * option string) : Prop :=
  match scan with
  | (b, Some r) => adv (S (strlen b)) lx lx' ∧ rest lx' = r
      ∧ lx_last_token lx' = Some (Terminated (unescape_str (buf +:+ b +:+ String d "")))
  | (b, None) => adv (strlen b) lx lx' ∧ rest lx' = ""
      ∧ lx_last_token lx' = Some (Unterminated (buf +:+ b))
  end.

Lemma wp_quoted_loop fuel d prev buf lx (Q : bool → linx_lexer_t → Prop) :
  lex_wf lx → (strlen (rest lx) < fuel)%nat → lx_last_token lx = Some (Unterminated buf) →
  (∀ lx', quoted_post lx lx' d buf (quoted_scan d prev (rest lx)) → Q true lx') →
  wp U (quoted_loop fuel d prev buf) lx Q.
Proof.
  revert prev buf lx Q. induction fuel as [|fuel IH]; intros prev buf lx Q Hw Hf Ht H; [lia|].
  cbn [quoted_loop]. apply wp_bind, wp_current_char; [done|].
  destruct (rest lx) as [|c r] eqn:Hr; cbn [quoted_scan] in H.
  - apply wp_ret, H. cbn. rewrite sapp_nil_r. eauto using adv_refl.
  - destruct (Ascii.eqb c d && negb (Ascii.eqb prev BACKSLASH)) eqn:E.
    + apply andb_true_iff in E as [Ec _]. apply Ascii.eqb_eq in Ec as ->.
      apply wp_bind, (wp_update_pos_char d r); [done..|]. intros lx1 Ha Ht1.
      apply wp_bind, wp_set_token, wp_ret, H.
      pose proof (adv_token lx1 (Some (Terminated (unescape_str (buf +:+ String d "")))) (adv_wf _ _ _ Ha)) as Ha'.
      split; [exact (adv_trans 1 0 _ _ _ Ha Ha')|]. split; [|done].
      rewrite (adv_rest _ _ _ Ha'), (adv_rest _ _ _ Ha), Hr. done.
    + apply wp_bind, wp_set_token, wp_bind. set (lx0 := mk_lexer _ _ _ _ _ _).
      pose proof (adv_token lx (Some (Unterminated (buf +:+ String c ""))) Hw) as Ha0. fold lx0 in Ha0.
      apply (wp_update_pos_char c r); [by eapply adv_wf|exact Hr|]. intros lx1 Ha1 Ht1.
      pose proof (adv_trans _ _ _ _ _ Ha0 Ha1) as Ha. cbn in Ha.
      assert (Hr1 : rest lx1 = r) by (rewrite (adv_rest _ _ _ Ha), Hr; done).
      apply IH; [by eapply adv_wf|rewrite Hr1; cbn in Hf; lia|exact Ht1|].
      rewrite Hr1. intros lx2 H2. apply H. revert H2.
      unfold quoted_post. destruct (quoted_scan d c r) as [b [r'|]]; cbn;
        rewrite !sapp_assoc; cbn; intros (Ha2 & -> & ->);
        (split; [exact (adv_trans 1 _ _ _ _ Ha Ha2)|done]).
Qed.

(** The opening delimiter is the first character collected. *)
Lemma wp_quoted_str_scan d s lx (Q : bool → linx_lexer_t → Prop) :
  lex_wf lx → rest lx = String d s → is_quote d = true →
  (∀ lx', quoted_post lx lx' d "" (quoted_scan d BACKSLASH (String d s)) → Q true lx') →
  wp U linx_lexer_quoted_str lx Q.
Proof.
  intros Hw Hr Hq H. unfold linx_lexer_quoted_str. apply wp_bind, wp_current_char; [done|].
  rewrite Hr, Hq. apply wp_bind, wp_set_token, wp_bind, wp_ret.
  set (lx0 := mk_lexer _ _ _ _ _ _). pose proof (adv_token lx (Some (Unterminated "")) Hw) as Ha.
  fold lx0 in Ha. assert (Hr0 : rest lx0 = String d s) by done.
  apply wp_quoted_loop; [by eapply adv_wf| |done|].
  - rewrite strlen_rest by (by eapply adv_wf). lia.
  - rewrite Hr0. intros lx' Hp. apply H. revert Hp.
    destruct (quoted_scan d BACKSLASH (String d s)) as [b [r|]];
      intros [Ha1 Hrest]; (split; [exact (adv_trans 0 _ _ _ _ Ha Ha1)|done]).
Qed.

Lemma wp_quoted_str lx (Q : bool → linx_lexer_t → Prop) :
  lex_wf lx →
  (∀ n lx' t, adv (S n) lx lx' → lx_last_token lx' = Some t → Q true lx') →
  Q false lx →
  wp U linx_lexer_quoted_str lx Q.
Proof.
  intros Hw Ht Hf. destruct (rest lx) as [|d s] eqn:Hr; [|destruct (is_quote d) eqn:Hq].
  - unfold linx_lexer_quoted_str. apply wp_bind, wp_current_char; [done|]. rewrite Hr. by apply wp_ret.
  - eapply wp_quoted_str_scan; [done..|]. cbn [quoted_scan].
    rewrite Ascii.eqb_refl. cbn. destruct (quoted_scan d d s) as [b [r|]]; cbn.
    + intros lx' (Ha & _ & Htok). by eapply Ht.
    + intros lx' (Ha & _ & Htok). by eapply Ht.
  - unfold linx_lexer_quoted_str. apply wp_bind, wp_current_char; [done|]. rewrite Hr, Hq. by apply wp_ret.
Qed.

Lemma wp_regex_token `{!Pcre2, !Pcre2Laws _} re lx (Q : bool → linx_lexer_t → Prop) :
  lex_wf lx →
  (∀ n lx', adv (S n) lx lx' → lx_last_token lx' = Some (Terminated (stake (S n) (rest lx))) →
     Q true lx') →
  (∀ lx', adv 0 lx lx' → Q false lx') →
  wp U (regex_token re) lx Q.
Proof.
  intros Hw Ht Hf. unfold regex_token. apply wp_bind, wp_current_char; [done|].
  apply wp_bind, wp_ret. pose proof (strlen_rest lx Hw) as Hl. pose proof (lw_small _ Hw) as Hs.
  destruct (linx_regex_match_cases re (rest lx) (lx_last_token lx)) as [(e & He & E)|(n & Hn & E)];
    [lia| |]; (apply wp_bind; eapply wp_lift; [exact E|]); apply wp_bind, wp_set_token.
  - destruct (Z.leb_spec e 0); [|lia]. apply wp_ret, Hf. by apply adv_token.
  - destruct n as [|n]; [apply wp_ret, Hf; by apply adv_token|].
    destruct (Z.leb_spec (Z.of_nat (S n)) 0); [lia|].
    set (lx0 := mk_lexer _ _ _ _ _ _).
    pose proof (adv_token lx (Some (Terminated (stake (S n) (rest lx)))) Hw) as Ha. fold lx0 in Ha.
    assert (Hr0 : rest lx0 = rest lx) by done.
    apply wp_bind. eapply wp_lift; [done|]. rewrite Nat2Z.id.
    apply wp_bind, wp_update_pos_str; [by eapply adv_wf|by rewrite Hr0| |].
    + rewrite Hr0. symmetry. apply stake_idemp.
    + intros lx' Ha' Htok. apply wp_ret, (Ht n); [exact (adv_trans 0 _ _ _ _ Ha Ha')|done].
Qed.
End lexer_specs.

(** ** Properties *)

(** The token requests of the parser. *)
Inductive token_call :=
  | TBlank
  | TFindStr (s : string)
  | TFieldName
  | TNotBlank
  | THexNum
  | TNum
  | TIdentifier
  | TFieldArgBareStr
  | TUnaryOp
  | TNumOp
  | TStrOp
  | TListOp
  | TFieldTransformerType
  | TFieldTransformerVal
  | TQuotedStr
  | TBareStr.

Definition run_token `{Pcre2} (t : token_call) : lexm bool :=
  match t with
  | TBlank => linx_lexer_blank
  | TFindStr s => linx_lexer_find_str s
  | TFieldName => linx_lexer_field_name
  | TNotBlank => linx_lexer_not_blank
  | THexNum => linx_lexer_hex_num
  | TNum => linx_lexer_num
  | TIdentifier => linx_lexer_identifier
  | TFieldArgBareStr => linx_lexer_field_arg_bare_str
  | TUnaryOp => linx_lexer_unary_op
  | TNumOp => linx_lexer_num_op
  | TStrOp => linx_lexer_str_op
  | TListOp => linx_lexer_list_op
  | TFieldTransformerType => linx_lexer_field_transformer_type
  | TFieldTransformerVal => linx_lexer_field_transformer_val
  | TQuotedStr => linx_lexer_quoted_str
  | TBareStr => linx_lexer_bare_str
  end.

Fixpoint run_tokens `{Pcre2} (ts : list token_call) : lexm (list bool) :=
  match ts with
  | [] => mret []
  | t :: ts' => b ← run_token t; bs ← run_tokens ts'; mret (b :: bs)
  end.

Section run.
Context `{!Pcre2, !Pcre2Laws _}.

(** Every request moves the cursor forward within the text; a request that
    fails leaves it, except that [linx_lexer_blank] may answer either way. *)
Lemma wp_token U t lx :
  lex_wf lx →
  wp U (run_token t) lx (λ b lx', ∃ n, adv n lx lx' ∧ (b = false → n = 0%nat)).
Proof.
  intros Hw.
  assert (Hyes : ∀ n lx', adv n lx lx' → ∃ k, adv k lx lx' ∧ (true = false → k = 0%nat)) by naive_solver.
  assert (Hno : ∀ lx', adv 0 lx lx' → ∃ k, adv k lx lx' ∧ (false = false → k = 0%nat)) by eauto.
  destruct t; cbn [run_token].
  1: { apply wp_blank; [done|]. intros n lx' Ha _ _. exists n. split; [done|]. by destruct n. }
  1: apply wp_find_str; eauto using adv_refl.
  all: first [ apply wp_operator_list; eauto using adv_refl
             | apply wp_regex_token; eauto
             | apply wp_quoted_str; eauto using adv_refl ].
Qed.

Lemma wp_tokens U ts lx :
  lex_wf lx → wp U (run_tokens ts) lx (λ bs lx', length bs = length ts ∧ ∃ n, adv n lx lx').
Proof.
  revert lx. induction ts as [|t ts IH]; intros lx Hw; cbn [run_tokens].
  - apply wp_ret. split; [done|]. exists 0%nat. auto using adv_refl.
  - apply wp_bind. eapply wp_mono; [by apply wp_token|]. intros b lx1 (n & Ha & _).
    apply wp_bind. eapply wp_mono; [eapply IH, adv_wf, Ha|]. intros bs lx2 (Hl & m & Ha2).
    apply wp_ret. split; [by f_equal/=|]. exists (n + m)%nat. by eapply adv_trans.
Qed.
End run.

Lemma col_from_last a c b :
  is_newline c = true → Forall (λ x, is_newline x = false) (String.list_ascii_of_string b) →
  col_from 1 (a +:+ String c b) = 1 + Z.of_nat (strlen b).
Proof.
  intros Hc Hb. rewrite col_from_app. cbn. rewrite Hc. generalize 1. revert Hb.
  induction b as [|x b IH]; intros Hb col; cbn -[Z.of_nat]; [lia|].
  cbn in Hb. apply Forall_cons in Hb as [-> Hb]. rewrite IH by done. lia.
Qed.

(** Whatever tokens the parser asks for, from the start of a condition
    shorter than 2^31 characters, the lexer answers every request without
    reading outside the text.  The cursor splits the text into what was
    consumed and what is left; the line is one more than the number of line
    breaks consumed, and the column counts from the last of them. *)
Theorem lexer_stays_in_text `{!Pcre2, !Pcre2Laws _} (s : string) (ts : list token_call) :
  Z.of_nat (strlen s) < 2 ^ 31 →
  ∃ lx bs lx' a,
    linx_lexer_create (Some s) = Ret [] lx
    ∧ run_tokens ts lx = Ret [] (bs, lx') ∧ length bs = length ts
    ∧ s = a +:+ rest lx' ∧ lx_idx lx' = Z.of_nat (strlen a) ∧ lx_input lx' = s
    ∧ lx_line lx' = line_of a
    ∧ ∀ a1 c a2, a = a1 +:+ String c a2 → is_newline c = true →
        Forall (λ x, is_newline x = false) (String.list_ascii_of_string a2) →
        lx_col lx' = 1 + Z.of_nat (strlen a2).
Proof.
  intros Hs. destruct (linx_lexer_create_wf s Hs) as (lx & E & Hw & Hi & _).
  pose proof (wp_tokens (λ _, False) ts lx Hw) as Hwp. unfold wp in Hwp.
  destruct (run_tokens ts lx) as [w [bs lx']| |] eqn:Er; [|done..].
  destruct Hwp as (Hlog & Hl & n & Ha). pose proof (adv_input _ _ _ Ha) as Hi'. rewrite Hi in Hi'.
  assert (w = []) as -> by (destruct w as [|f w]; [done|]; by apply Forall_cons in Hlog as [[] _]).
  pose proof (adv_wf _ _ _ Ha) as Hw'. destruct Hw' as [H1 H2 H3 H4 H5]. rewrite Hi' in *.
  exists lx, bs, lx', (stake (Z.to_nat (lx_idx lx')) s). do 3 (split; [done|]).
  split; [unfold rest; by rewrite Hi', stake_sdrop|]. rewrite strlen_stake.
  split; [lia|]. split; [done|]. split; [done|].
  intros a1 c a2 Heq Hc Ha2. by rewrite H5, Heq, (col_from_last a1 c a2).
Qed.

Lemma lexer_stays_in_text_witness :
  let s := "proc.name in (ls)" in
  ∃ lx' a, run_tokens (H := lexer_engine) [TBlank; TFieldName; TBlank; TListOp] (mk_lexer s 1 1 0 17 None)
           = Ret [] ([false; true; true; true], lx') ∧ s = a +:+ rest lx'.
Proof.
  intros s.
  destruct (lexer_stays_in_text (H := lexer_engine) s [TBlank; TFieldName; TBlank; TListOp]
              ltac:(reflexivity)) as (lx & bs & lx' & a & E & Er & _ & Hs & _).
  vm_compute in E. injection E as <-. exists lx', a. split; [|exact Hs].
  etransitivity; [exact Er|]. vm_compute in Er. injection Er as <- _. reflexivity.
Defined.

(** Text that a rule author writes between delimiters [d] to denote [s]. *)
Fixpoint escape_str (d : ascii) (s : string) : string :=
  match s with
  | EmptyString => EmptyString
  | String c s' =>
      if Ascii.eqb c BACKSLASH || Ascii.eqb c d then String BACKSLASH (String c (escape_str d s'))
      else String c (escape_str d s')
  end.

Fixpoint last_char (c : ascii) (s : string) : ascii :=
  match s with
  | EmptyString => c
  | String c' s' => last_char c' s'
  end.

#[local] Arguments BACKSLASH : simpl never.
#[local] Arguments Ascii.eqb : simpl never.

Section quoting.
Context (d : ascii) (Hd : is_quote d = true).

Lemma is_quote_cases : d = SQ ∨ d = DQ.
Proof. unfold is_quote in Hd. by rewrite orb_true_iff, !Ascii.eqb_eq in Hd. Qed.

Lemma quote_not_backslash : Ascii.eqb d BACKSLASH = false.
Proof. by destruct is_quote_cases as [->| ->]. Qed.

Lemma quoted_scan_escape prev s t :
  last_char prev s ≠ BACKSLASH →
  quoted_scan d prev (escape_str d s +:+ String d t) = (escape_str d s, Some t).
Proof.
  revert prev. induction s as [|c s IH]; intros prev Hl; cbn in *.
  - apply Ascii.eqb_neq in Hl. by rewrite Ascii.eqb_refl, Hl.
  - pose proof quote_not_backslash as Hb. rewrite Ascii.eqb_sym in Hb.
    destruct (Ascii.eqb c BACKSLASH || Ascii.eqb c d) eqn:E; cbn.
    + rewrite Hb. cbn. rewrite andb_false_r. by rewrite (IH c).
    + apply orb_false_iff in E as [_ ->]. cbn. by rewrite (IH c).
Qed.

(** A string that ends in a backslash runs on into what follows it. *)
Lemma quoted_scan_backslash prev s t :
  last_char prev s = BACKSLASH → Forall (λ c, c ≠ d) (String.list_ascii_of_string t) →
  quoted_scan d prev (escape_str d s +:+ String d t) = (escape_str d s +:+ String d t, None).
Proof.
  intros Hl Ht.
  assert (Hnone : ∀ p, quoted_scan d p t = (t, None)).
  { induction t as [|c t IH]; intros p; cbn in *; [done|]. apply Forall_cons in Ht as [Hc Ht].
    apply Ascii.eqb_neq in Hc. by rewrite Hc, IH. }
  revert prev Hl. induction s as [|c s IH]; intros prev Hl; cbn in *.
  - subst prev. rewrite andb_false_r. by rewrite Hnone.
  - pose proof quote_not_backslash as Hb. rewrite Ascii.eqb_sym in Hb.
    destruct (Ascii.eqb c BACKSLASH || Ascii.eqb c d) eqn:E; cbn.
    + rewrite Hb. cbn. rewrite andb_false_r. by rewrite (IH c).
    + apply orb_false_iff in E as [_ ->]. cbn. by rewrite (IH c).
Qed.

Lemma unescape_loop_escape s : unescape_loop (escape_str d s +:+ String d "") = s.
Proof.
  induction s as [|c s IH]; [done|]. cbn [escape_str].
  destruct (Ascii.eqb c BACKSLASH || Ascii.eqb c d) eqn:E.
  - cbn. rewrite IH. apply orb_true_iff in E as [->%Ascii.eqb_eq| ->%Ascii.eqb_eq]; [done|].
    by destruct is_quote_cases as [->| ->].
  - apply orb_false_iff in E as [E _]. cbn.
    destruct (escape_str d s +:+ String d "") as [|e r] eqn:Es; [by destruct s; cbn in Es; repeat case_match|].
    by rewrite E, IH.
Qed.
End quoting.

(** Quoting is undone by the lexer, except after a final backslash.  For
    a text [s] written between delimiters [d], with every backslash and every
    delimiter in it escaped: when [s] does not end in a backslash the token
    is [s] again and the cursor stands behind the closing delimiter; when it
    does, and no other [d] follows, the closing delimiter is taken for an
    escaped one, the rest of the condition is swallowed and the token is left
    without a terminator. *)
Theorem quoted_str_roundtrip d s t lx :
  is_quote d = true → lex_wf lx →
  rest lx = String d (escape_str d s +:+ String d t) →
  (last_char d s ≠ BACKSLASH →
   ∃ lx', linx_lexer_quoted_str lx = Ret [] (true, lx') ∧ rest lx' = t
     ∧ lx_last_token lx' = Some (Terminated s))
  ∧ (last_char d s = BACKSLASH → Forall (λ c, c ≠ d) (String.list_ascii_of_string t) →
   ∃ lx' tok, linx_lexer_quoted_str lx = Ret [] (true, lx') ∧ rest lx' = ""
     ∧ lx_last_token lx' = Some (Unterminated tok)).
Proof.
  intros Hd Hw Hr.
  pose proof (wp_quoted_str_scan (λ _, False) _ _ lx
    (λ b lx', b = true ∧ quoted_post lx lx' d "" _) Hw Hr Hd (λ lx' Hp, conj (eq_refl true) Hp)) as Hwp.
  cbn [quoted_scan] in Hwp. rewrite !Ascii.eqb_refl in Hwp. cbn [negb andb] in Hwp.
  assert (Hlog : ∀ w : list fault, Forall (λ _, False) w → w = [])
    by (intros [|f w] Hf; [done|]; by apply Forall_cons in Hf as [[] _]).
  split.
  - intros Hl. rewrite quoted_scan_escape in Hwp by done.
    unfold wp in Hwp. destruct (linx_lexer_quoted_str lx) as [w [b lx']| |]; [|done..].
    destruct Hwp as (Hf & -> & Ha & Hrest & Htok). rewrite (Hlog _ Hf). exists lx'.
    split; [done|]. split; [done|]. rewrite Htok. cbn. by rewrite unescape_loop_escape.
  - intros Hl Ht. rewrite quoted_scan_backslash in Hwp by done.
    unfold wp in Hwp. destruct (linx_lexer_quoted_str lx) as [w [b lx']| |]; [|done..].
    destruct Hwp as (Hf & -> & Ha & Hrest & Htok). rewrite (Hlog _ Hf). exists lx'. eauto.
Qed.

Lemma quoted_str_roundtrip_witness :
  let lx := mk_lexer "'a\'b' and" 1 1 0 10 None in
  ∃ lx', linx_lexer_quoted_str lx = Ret [] (true, lx') ∧ rest lx' = " and"
    ∧ lx_last_token lx' = Some (Terminated "a'b").
Proof.
  intros lx. refine (proj1 (quoted_str_roundtrip SQ "a'b" " and" lx eq_refl _ eq_refl) _).
  - split; cbn; [reflexivity..| |reflexivity|reflexivity]. lia.
  - by vm_compute.
Defined.

(** The operators that can be lexed: each longer one follows its prefix. *)
Lemma wp_num_op U lx (Q : bool → linx_lexer_t → Prop) :
  lex_wf lx →
  (∀ lx' op, op ∈ [">"; "<"] → adv 1 lx lx' → lx_last_token lx' = Some (Terminated op) →
     rest lx = op +:+ rest lx' → Q true lx') →
  ((∀ op t, op ∈ [">"; "<"] → rest lx ≠ op +:+ t) → Q false lx) →
  wp U linx_lexer_num_op lx Q.
Proof.
  intros Hw Hyes Hno. unfold linx_lexer_num_op, g_binary_num_ops. cbn [linx_lexer_find_operator_list].
  assert (Hr : ∀ op lx' t, adv (strlen op) lx lx' → rest lx = op +:+ t → rest lx = op +:+ rest lx').
  { intros op lx' t Ha Hr. rewrite (adv_rest _ _ _ Ha), Hr. by rewrite sdrop_app_length. }
  apply wp_bind, wp_find_str; [done| |].
  { intros lx' t Ha Ht H. apply wp_ret, (Hyes _ ">"); [left|eauto..]. }
  intros H1. apply wp_bind, wp_find_str; [done| |].
  { intros lx' t _ _ H. by destruct (H1 ("=" +:+ t)). }
  intros _. apply wp_bind, wp_find_str; [done| |].
  { intros lx' t Ha Ht H. apply wp_ret, (Hyes _ "<"); [right; left|eauto..]. }
  intros H3. apply wp_bind, wp_find_str; [done| |].
  { intros lx' t _ _ H. by destruct (H3 ("=" +:+ t)). }
  intros _. apply wp_ret, Hno. intros op t [->|[->|[]%elem_of_nil]%elem_of_cons]%elem_of_cons; auto.
Qed.


(** "Greater or equal" and "less or equal" are never lexed.  The
    operators are tried in the order of the table, where ">" precedes ">="
    and "<" precedes "<=", so at a comparison the token is ">" or "<" and
    what follows the cursor starts with "=" when the author wrote ">=" or
    "<=". *)
Theorem num_op_shadowed lx :
  lex_wf lx →
  ∃ b lx', linx_lexer_num_op lx = Ret [] (b, lx')
    ∧ (b = false → lx' = lx)
    ∧ (b = true →
        (lx_last_token lx' = Some (Terminated ">") ∧ rest lx = ">" +:+ rest lx'
         ∧ op_str_to_binary_num_op ">" = BINARY_NUM_OP_GT)
        ∨ (lx_last_token lx' = Some (Terminated "<") ∧ rest lx = "<" +:+ rest lx'
           ∧ op_str_to_binary_num_op "<" = BINARY_NUM_OP_LT))
    ∧ (∀ t, rest lx = ">=" +:+ t ∨ rest lx = "<=" +:+ t → b = true ∧ rest lx' = "=" +:+ t).
Proof.
  intros Hw.
  assert (H : wp (λ _, False) linx_lexer_num_op lx (λ b lx',
    if b : bool then
      ∃ op, op ∈ [">"; "<"] ∧ lx_last_token lx' = Some (Terminated op) ∧ rest lx = op +:+ rest lx'
    else lx' = lx ∧ ∀ op t, op ∈ [">"; "<"] → rest lx ≠ op +:+ t)).
  { apply wp_num_op; eauto 10. }
  unfold wp in H. destruct (linx_lexer_num_op lx) as [w [b lx']| |]; [|done..].
  destruct H as [Hf H]. exists b, lx'. split.
  { destruct w as [|f w]; [done|]. by apply Forall_cons in Hf as [[] _]. }
  destruct b; [|split; [naive_solver|split; [done|]]].
  - destruct H as (op & [->|[->|[]%elem_of_nil]%elem_of_cons]%elem_of_cons & Ht & Hr); (split; [done|]); (split; [auto|]);
      rewrite Hr; intros t [Heq|Heq]; cbn in Heq; simplify_eq; done.
  - destruct H as [_ H]. intros t [Ht|Ht]; exfalso; [apply (H ">" ("=" +:+ t))|apply (H "<" ("=" +:+ t))];
    by repeat constructor.
Qed.

Lemma num_op_shadowed_witness :
  let lx := mk_lexer ">= 10" 1 1 0 5 None in
  ∃ lx', linx_lexer_num_op lx = Ret [] (true, lx') ∧ rest lx' = "= 10".
Proof.
  intros lx. destruct (num_op_shadowed lx) as (b & lx' & E & _ & _ & H).
  - split; cbn; [reflexivity..| |reflexivity|reflexivity]. lia.
  - destruct (H " 10" (or_introl eq_refl)) as [-> Hr]. exists lx'. auto.
Defined.
