(* ===== verification/Float.v ===== *)
(** * Decimal floating-point literals

    [strtof] of the C library for the decimal literals of the rule language
    (the lexer's pattern admits no hexadecimal form, infinity or NaN), with
    IEEE binary32 rounding to nearest even, and the 64-bit significand that
    the value has as an x87 [long double]. *)
From S2P Require Import Prelude CString.
From Stdlib Require Import Ascii.

#[local] Open Scope Z_scope.

(** [F32 neg m e] is m * 2^e with the sign [neg]. *)
Inductive f32 :=
  | F32 (neg : bool) (m e : Z)
  | F32_inf (neg : bool).

(** [num / den / 2^e]: quotient, remainder and divisor. *)
Definition div_pow2 (num den e : Z) : Z * Z * Z :=
  let n := if e <? 0 then num * 2 ^ (- e) else num in
  let d := if e <? 0 then den else den * 2 ^ e in
  (n / d, n mod d, d).

(** [num / den] rounded; [num] is not negative, [den] is positive. *)
Definition round_f32 (neg : bool) (num den : Z) : f32 :=
  if num =? 0 then F32 neg 0 (-149)
  else
    let e := Z.max (-149) (Z.log2 num - Z.log2 den - 23) in
    let '(q, _, _) := div_pow2 num den e in
    let e := if (q <? 2 ^ 23) && (-149 <? e) then e - 1 else e in
    let '(q, r, d) := div_pow2 num den e in
    let q := if (d <? 2 * r) || ((d =? 2 * r) && Z.odd q) then q + 1 else q in
    let '(q, e) := if q =? 2 ^ 24 then (2 ^ 23, e + 1) else (q, e) in
    if 104 <? e then F32_inf neg else F32 neg q e.

Definition strtof (s : string) : f32 :=
  let '(neg, s1) := sign_of (span isspace s).2 in
  let '(ip, s2) := span isdigit s1 in
  let '(fp, s3) := match s2 with
                   | String "." r => span isdigit r
                   | _ => (EmptyString, s2)
                   end in
  let ex := match s3 with
            | String c r =>
                if Ascii.eqb c "e" || Ascii.eqb c "E" then (strtol10 r).1 else 0
            | EmptyString => 0
            end in
  let m := digits_val 10 0 (ip +:+ fp) in
  let e := ex - Z.of_nat (strlen fp) in
  if e <? 0 then round_f32 neg m (10 ^ (- e)) else round_f32 neg (m * 10 ^ e) 1.

(** The significand of the value as an 80-bit [long double]: the first eight
    bytes of its representation. *)
Definition x87_significand (f : f32) : Z :=
  match f with
  | F32 _ m _ => if m =? 0 then 0 else m * 2 ^ (63 - Z.log2 m)
  | F32_inf _ => 2 ^ 63
  end.

Example strtof_1_5 : strtof "1.5" = F32 false 12582912 (-23). Proof. reflexivity. Qed.
Example strtof_0_1 : strtof "-0.1" = F32 true 13421773 (-27). Proof. reflexivity. Qed.
Example strtof_big : strtof "1.0e+39" = F32_inf false. Proof. reflexivity. Qed.
Example x87_1_5 : x87_significand (strtof "1.5") = 0xC000000000000000. Proof. reflexivity. Qed.

(** ** The conversion "%f" of printf

    A finite value is m * 2^e; six digits follow the point, rounded to nearest
    even. *)
Inductive float_value :=
  | Finite (neg : bool) (m e : Z)
  | Infinite (neg : bool)
  | NotANumber (neg : bool).

(** The value of an IEEE representation with [p] fraction bits and [w]
    exponent bits. *)
Definition decode_ieee (p w bits : Z) : float_value :=
  let neg := Z.testbit bits (p + w) in
  let ex := Z.land (Z.shiftr bits p) (2 ^ w - 1) in
  let fr := Z.land bits (2 ^ p - 1) in
  let bias := 2 ^ (w - 1) - 1 in
  if ex =? 2 ^ w - 1 then (if fr =? 0 then Infinite neg else NotANumber neg)
  else if ex =? 0 then Finite neg fr (1 - bias - p)
  else Finite neg (fr + 2 ^ p) (ex - bias - p).

Definition decode_float (bits : Z) : float_value := decode_ieee 23 8 bits.
Definition decode_double (bits : Z) : float_value := decode_ieee 52 11 bits.

(** Six decimal digits of [n]. *)
Fixpoint pad (k : nat) (n : Z) (acc : string) : string :=
  match k with
  | O => acc
  | S k' => pad k' (n / 10) (String (chr (48 + n mod 10)) acc)
  end.

Definition show_f (v : float_value) : string :=
  let sgn (neg : bool) : string := if neg then "-" else "" in
  match v with
  | Infinite neg => sgn neg +:+ "inf"
  | NotANumber neg => sgn neg +:+ "nan"
  | Finite neg m e =>
      let '(q, r, d) := div_pow2 (m * 10 ^ 6) 1 (- e) in
      let q := if (d <? 2 * r) || ((d =? 2 * r) && Z.odd q) then q + 1 else q in
      sgn neg +:+ show_int (q / 10 ^ 6) +:+ "." +:+ pad 6 (q mod 10 ^ 6) ""
  end.

Example show_f_1_5 : show_f (decode_float 0x3FC00000) = "1.500000". Proof. reflexivity. Qed.
Example show_f_neg : show_f (decode_double 0xC024CCCCCCCCCCCD) = "-10.400000". Proof. reflexivity. Qed.

(** The mantissa fits 24 bits. *)
Definition f32_wf (f : f32) : Prop :=
  match f with F32 _ m e => 0 ≤ m < 2 ^ 24 ∧ -149 ≤ e ≤ 104 | F32_inf _ => True end.

(** A value that is not zero has its leading bit set in the significand, so
    that as a signed integer it is negative. *)
Lemma x87_significand_msb neg m e :
  0 < m < 2 ^ 24 → 2 ^ 63 ≤ x87_significand (F32 neg m e) < 2 ^ 64.
Proof.
  intros Hm. cbn [x87_significand]. destruct (Z.eqb_spec m 0); [lia|].
  pose proof (Z.log2_spec m ltac:(lia)) as [Hl Hh]. pose proof (Z.log2_nonneg m).
  assert (Z.log2 m < 24) by (apply Z.log2_lt_pow2; lia).
  replace (2 ^ 63) with (2 ^ Z.log2 m * 2 ^ (63 - Z.log2 m)) by (rewrite <- Z.pow_add_r by lia; f_equal; lia).
  replace (2 ^ 64) with (2 ^ Z.succ (Z.log2 m) * 2 ^ (63 - Z.log2 m)) by (rewrite <- Z.pow_add_r by lia; f_equal; lia).
  assert (0 < 2 ^ (63 - Z.log2 m)) by (apply Z.pow_pos_nonneg; lia). nia.
Qed.
