(* ===== verification/Ast.v ===== *)
(** * Syntax trees of conditions (rule_engine_ast/ast_node.h, ast_node.c)

    A value of [ast_node] is a pointer to a node: [AstNull] is the null
    pointer and the other constructors are the node types with the members of
    the union that the type selects.  [AST_NODE_TYPE_FLOAT] holds a
    [long double] that was converted from a [float]. *)
From S2P Require Import Prelude CString OpType Float.

Inductive ast_node :=
  | AstNull
  | AstInt (int_value : Z)
  | AstFloat (double_value : f32)
  | AstString (string_value : string)
  | AstList (items : list ast_node)
  | AstField (name : string)
  | AstBool (bool_op : binary_bool_op_type_t) (left right : ast_node)
  | AstNum (num_op : binary_num_op_type_t) (left right : ast_node)
  | AstStr (str_op : binary_str_op_type_t) (left right : ast_node)
  | AstListOp (list_op : binary_list_op_type_t) (left right : ast_node)
  | AstUnary (unary_op : unary_op_type_t) (operand : ast_node)
  | AstTransformer (type : field_transformer_type_t) (operand : ast_node)
  | AstTransformerVal (val : field_transformer_val_t) (operand : ast_node).

Definition ast_null (a : ast_node) : bool := match a with AstNull => true | _ => false end.

Definition ast_node_create_number (value : Z) : ast_node := AstInt value.
Definition ast_node_create_float (value : f32) : ast_node := AstFloat value.
Definition ast_node_create_string (str : string) : ast_node := AstString str.
Definition ast_node_create_field_name (name : string) : ast_node := AstField name.
Definition ast_node_create_list : ast_node := AstList [].

(** [list] is the list node the caller holds. *)
Definition add_item_to_list (list item : ast_node) : ast_node :=
  match list with
  | AstList items => AstList (items ++ [item])
  | a => a
  end.

Definition ast_node_create_binary_num := AstNum.
Definition ast_node_create_binary_str := AstStr.
Definition ast_node_create_binary_list := AstListOp.
Definition ast_node_create_binary_bool := AstBool.
Definition ast_node_create_unary := AstUnary.
Definition ast_node_create_field_transformer := AstTransformer.
Definition ast_node_create_field_transformer_val := AstTransformerVal.
