(* ===== verification/AstHeap.v ===== *)
(** * Syntax trees in memory (rule_engine_ast/ast_node.c)

    [Ast] takes a tree as a value.  Here it is the blocks it consists of: a
    node, the copy of a text, the array of a list.  The functions that create
    nodes allocate them, and [ast_node_destroy], which the compiler of
    conditions calls at its end, frees them: it goes down into comparisons,
    "not", transformers and lists, but not into "and", "or", "in" and the
    transformers of values.

    Allocation succeeds and answers an address that is not in use. *)
From S2P Require Import Prelude CString OpType Float Ast.
From stdpp Require Import gmap.

#[local] Set Warnings "-clear-no-such-hyp".
#[local] Open Scope Z_scope.

(** ** The heap *)

(** A node: its type and the members of the union, with pointers. *)
Inductive node :=
  | NInt (int_value : Z)
  | NFloat (double_value : f32)
  | NString (string_value : Z)
  | NList (items count : Z)
  | NField (name : Z)
  | NBool (bool_op : binary_bool_op_type_t) (left right : Z)
  | NNum (num_op : binary_num_op_type_t) (left right : Z)
  | NStr (str_op : binary_str_op_type_t) (left right : Z)
  | NListOp (list_op : binary_list_op_type_t) (left right : Z)
  | NUnary (unary_op : unary_op_type_t) (operand : Z)
  | NTransformer (type : field_transformer_type_t) (operand : Z)
  | NTransformerVal (val : field_transformer_val_t) (operand : Z).

Inductive block :=
  | BNode (n : node)
  | BText (s : string)
  | BItems (items : list Z).

Abbreviation ast_heap := (gmap Z block).

Definition malloc (b : block) (h : ast_heap) : Z * ast_heap :=
  let p := fresh ({[0]} ∪ dom h : gset Z) in (p, <[p := b]> h).

Definition free (p : Z) (h : ast_heap) : outcome ast_heap :=
  if p =? 0 then mret h else match h !! p with Some _ => mret (delete p h) | None => Ub InvalidFree end.

Definition realloc (p : Z) (b : block) (h : ast_heap) : outcome (Z * ast_heap) :=
  h ← free p h; mret (malloc b h).

Definition read_node (p : Z) (h : ast_heap) : outcome node :=
  match h !! p with Some (BNode n) => mret n | _ => Ub BadAddress end.

Definition read_items (p : Z) (h : ast_heap) : outcome (list Z) :=
  match h !! p with Some (BItems l) => mret l | _ => Ub BadAddress end.

(** ** Creating nodes *)
Definition new_node (n : node) (h : ast_heap) : outcome (Z * ast_heap) := mret (malloc (BNode n) h).

(** A node with the copy of a text: [strdup] follows the allocation of the
    node. *)
Definition new_text (make : Z → node) (s : string) (h : ast_heap) : outcome (Z * ast_heap) :=
  let '(p, h) := malloc (BNode (make 0)) h in
  let '(t, h) := malloc (BText s) h in
  mret (p, <[p := BNode (make t)]> h).

Definition add_item (list item : Z) (h : ast_heap) : outcome ast_heap :=
  n ← read_node list h;
  match n with
  | NList items count =>
      l ← (if items =? 0 then mret [] else read_items items h);
      '(items, h) ← realloc items (BItems (l ++ [item])) h;
      mret (<[list := BNode (NList items (count + 1))]> h)
  | _ => Ub BadAddress
  end.

(** The calls that build a tree: operands before their node, a list before its
    items. *)
Fixpoint build (a : ast_node) (h : ast_heap) : outcome (Z * ast_heap) :=
  let two make l r := '(pl, h) ← build l h; '(pr, h) ← build r h; new_node (make pl pr) h in
  let one make o := '(po, h) ← build o h; new_node (make po) h in
  match a with
  | AstNull => mret (0, h)
  | AstInt v => new_node (NInt v) h
  | AstFloat v => new_node (NFloat v) h
  | AstString s => new_text NString s h
  | AstField s => new_text NField s h
  | AstList items =>
      '(p, h) ← new_node (NList 0 0) h;
      h ← (fix loop items h :=
             match items with
             | [] => mret h
             | a :: items => '(q, h) ← build a h; h ← add_item p q h; loop items h
             end) items h;
      mret (p, h)
  | AstBool op l r => two (NBool op) l r
  | AstNum op l r => two (NNum op) l r
  | AstStr op l r => two (NStr op) l r
  | AstListOp op l r => two (NListOp op) l r
  | AstUnary op o => one (NUnary op) o
  | AstTransformer op o => one (NTransformer op) o
  | AstTransformerVal op o => one (NTransformerVal op) o
  end.

(** ** Destroying a tree *)

(** The items of a list, [n] of them from [i] on; the array is read again for
    each. *)
Fixpoint items_loop (destroy : Z → ast_heap → outcome ast_heap) (items : Z) (i n : nat) (h : ast_heap) : outcome ast_heap :=
  match n with
  | O => mret h
  | S n =>
      l ← read_items items h; q ← from_opt OutOfBounds (l !! i);
      h ← destroy q h; items_loop destroy items (S i) n h
  end.

(** The fuel bounds the depth of the recursion. *)
Fixpoint ast_node_destroy (fuel : nat) (p : Z) (h : ast_heap) : outcome ast_heap :=
  match fuel with
  | O => NoFuel
  | S fuel =>
      if p =? 0 then mret h
      else
        n ← read_node p h;
        h ← match n with
            | NString s | NField s => free s h
            | NNum _ l r | NStr _ l r => h ← ast_node_destroy fuel l h; ast_node_destroy fuel r h
            | NUnary _ o | NTransformer _ o => ast_node_destroy fuel o h
            | NList items count =>
                h ← items_loop (ast_node_destroy fuel) items 0 (Z.to_nat count) h; free items h
            | _ => mret h
            end;
        free p h
  end.

(** ** Trees in the heap

    [repr h p a F L]: [p] points to the tree [a]; [F] are the blocks that the
    destructor frees and [L] those it does not reach. *)
Inductive leaf_of : node → ast_node → Prop :=
  | leaf_int v : leaf_of (NInt v) (AstInt v)
  | leaf_float v : leaf_of (NFloat v) (AstFloat v).

Inductive text_of : (Z → node) → (string → ast_node) → Prop :=
  | text_string : text_of NString AstString
  | text_field : text_of NField AstField.

(** The flag: whether the destructor goes down. *)
Inductive one_of : (Z → node) → (ast_node → ast_node) → bool → Prop :=
  | one_unary op : one_of (NUnary op) (AstUnary op) true
  | one_transformer op : one_of (NTransformer op) (AstTransformer op) true
  | one_transformer_val op : one_of (NTransformerVal op) (AstTransformerVal op) false.

Inductive two_of : (Z → Z → node) → (ast_node → ast_node → ast_node) → bool → Prop :=
  | two_num op : two_of (NNum op) (AstNum op) true
  | two_str op : two_of (NStr op) (AstStr op) true
  | two_bool op : two_of (NBool op) (AstBool op) false
  | two_list op : two_of (NListOp op) (AstListOp op) false.

Definition own (p : Z) : list Z := if p =? 0 then [] else [p].

Inductive repr (h : ast_heap) : Z → ast_node → list Z → list Z → Prop :=
  | repr_null : repr h 0 AstNull [] []
  | repr_leaf p n a : p ≠ 0 → h !! p = Some (BNode n) → leaf_of n a → repr h p a [p] []
  | repr_text p t n a s :
      p ≠ 0 → t ≠ 0 → h !! p = Some (BNode (n t)) → h !! t = Some (BText s) → text_of n a → repr h p (a s) [p; t] []
  | repr_list p items qs l F L :
      p ≠ 0 → h !! p = Some (BNode (NList items (Z.of_nat (length qs)))) →
      (if items =? 0 then qs = [] else h !! items = Some (BItems qs)) →
      reprs h qs l F L → repr h p (AstList l) (p :: own items ++ F) L
  | repr_one p q n a x F L (down : bool) :
      p ≠ 0 → h !! p = Some (BNode (n q)) → one_of n a down → repr h q x F L →
      repr h p (a x) (p :: if down then F else []) (if down then L else F ++ L)
  | repr_two p l r n a x y F1 L1 F2 L2 (down : bool) :
      p ≠ 0 → h !! p = Some (BNode (n l r)) → two_of n a down → repr h l x F1 L1 → repr h r y F2 L2 →
      repr h p (a x y) (p :: if down then F1 ++ F2 else []) (if down then L1 ++ L2 else F1 ++ L1 ++ F2 ++ L2)
with reprs (h : ast_heap) : list Z → list ast_node → list Z → list Z → Prop :=
  | reprs_nil : reprs h [] [] [] []
  | reprs_cons q qs x l F1 L1 F2 L2 :
      repr h q x F1 L1 → reprs h qs l F2 L2 → reprs h (q :: qs) (x :: l) (F1 ++ F2) (L1 ++ L2).

Scheme repr_min := Minimality for repr Sort Prop
  with reprs_min := Minimality for reprs Sort Prop.
Combined Scheme repr_reprs_ind from repr_min, reprs_min.

(** A tree depends on its own blocks only. *)
Lemma repr_frame h h' :
  (∀ p a F L, repr h p a F L → (∀ x, x ∈ F ++ L → h' !! x = h !! x) → repr h' p a F L)
  ∧ (∀ qs l F L, reprs h qs l F L → (∀ x, x ∈ F ++ L → h' !! x = h !! x) → reprs h' qs l F L).
Proof.
  apply repr_reprs_ind.
  - constructor.
  - intros p n a Hp Hn Hl Hx. apply (repr_leaf _ _ n); [done| |done]. rewrite Hx; [done|set_solver].
  - intros p t n a s Hp Ht Hn Hs Ha Hx. apply (repr_text _ _ t n); try done; rewrite Hx; try done; set_solver.
  - intros p items qs l F L Hp Hn Hi _ IH Hx. apply (repr_list _ _ items qs); [done| | |].
    + rewrite Hx; [done|set_solver].
    + unfold own in Hx. destruct (items =? 0); [done|]. rewrite Hx; [done|set_solver].
    + apply IH. intros x Hin. apply Hx. set_solver.
  - intros p q n a x F L down Hp Hn Ha _ IH Hx. apply (repr_one _ _ q n); [done| |done|].
    + rewrite Hx; [done|set_solver].
    + apply IH. intros y Hin. apply Hx. destruct down; set_solver.
  - intros p l r n a x y F1 L1 F2 L2 down Hp Hn Ha _ IH1 _ IH2 Hx. apply (repr_two _ _ l r n); [done| |done| |].
    + rewrite Hx; [done|set_solver].
    + apply IH1. intros z Hin. apply Hx. destruct down; set_solver.
    + apply IH2. intros z Hin. apply Hx. destruct down; set_solver.
  - constructor.
  - intros q qs x l F1 L1 F2 L2 _ IH1 _ IH2 Hx. constructor; [apply IH1|apply IH2]; intros z Hin; apply Hx; set_solver.
Qed.

Lemma repr_blocks h :
  (∀ p a F L, repr h p a F L → ∀ x, x ∈ F ++ L → x ≠ 0 ∧ is_Some (h !! x))
  ∧ (∀ qs l F L, reprs h qs l F L → ∀ x, x ∈ F ++ L → x ≠ 0 ∧ is_Some (h !! x)).
Proof.
  apply repr_reprs_ind; intros *.
  - set_solver.
  - intros Hp Hn _ x Hx. assert (x = p) as -> by set_solver. by rewrite Hn.
  - intros Hp Ht Hn Hs _ x Hx. assert (x = p ∨ x = t) as [->| ->] by set_solver; split; try done; by eexists.
  - intros Hp Hn Hi _ IH x Hx. unfold own in Hx. destruct (items =? 0) eqn:E.
    + assert (x = p ∨ x ∈ F ++ L) as [->|H] by set_solver; [split; [done|by eexists]|by apply IH].
    + apply Z.eqb_neq in E. assert (x = p ∨ x = items ∨ x ∈ F ++ L) as [->|[->|H]] by set_solver; [split; [done|by eexists]..|by apply IH].
  - intros Hp Hn _ _ IH y Hy. assert (y = p ∨ y ∈ F ++ L) as [->|H] by (destruct down; set_solver); [split; [done|by eexists]|by apply IH].
  - intros Hp Hn _ _ IH1 _ IH2 z Hz.
    assert (z = p ∨ z ∈ F1 ++ L1 ∨ z ∈ F2 ++ L2) as [->|[H|H]] by (destruct down; set_solver);
      [split; [done|by eexists]|by apply IH1|by apply IH2].
  - set_solver.
  - intros _ IH1 _ IH2 z Hz. assert (z ∈ F1 ++ L1 ∨ z ∈ F2 ++ L2) as [H|H] by set_solver; [by apply IH1|by apply IH2].
Qed.

(** The heap without some blocks. *)
Definition delete_all (l : list Z) (h : ast_heap) : ast_heap := foldr delete h l.

Lemma lookup_delete_all l (h : ast_heap) x : delete_all l h !! x = if decide (x ∈ l) then None else h !! x.
Proof.
  induction l as [|y l IH]; cbn [delete_all foldr]; [by rewrite decide_False by set_solver|]. fold (delete_all l h).
  destruct (decide (x = y)) as [->|Hxy]; [rewrite lookup_delete_eq, decide_True by set_solver; done|].
  rewrite lookup_delete_ne, IH by done. destruct (decide (x ∈ l)); [rewrite decide_True by set_solver|rewrite decide_False by set_solver]; done.
Qed.

Lemma lookup_delete_out l (h : ast_heap) x : x ∉ l → delete_all l h !! x = h !! x.
Proof. intros H. by rewrite lookup_delete_all, decide_False. Qed.

Lemma delete_all_app l1 l2 h : delete_all l2 (delete_all l1 h) = delete_all (l1 ++ l2) h.
Proof.
  apply map_eq. intros x. rewrite !lookup_delete_all.
  destruct (decide (x ∈ l2)), (decide (x ∈ l1)); [rewrite decide_True by set_solver..|rewrite decide_False by set_solver]; done.
Qed.

Lemma free_block p (h : ast_heap) : p ≠ 0 → is_Some (h !! p) → free p h = Ret [] (delete p h).
Proof. intros Hp [b Hb]. unfold free. rewrite (proj2 (Z.eqb_neq _ _)) by done. by rewrite Hb. Qed.

Lemma free_own p (h : ast_heap) : (p ≠ 0 → is_Some (h !! p)) → free p h = Ret [] (delete_all (own p) h).
Proof.
  intros Hp. unfold own. destruct (Z.eqb_spec p 0) as [->|Hne]; [done|]. rewrite free_block by auto. done.
Qed.

Lemma nodup_parts (F1 L1 F2 L2 : list Z) :
  NoDup ((F1 ++ F2) ++ L1 ++ L2) → NoDup (F1 ++ L1) ∧ NoDup (F2 ++ L2) ∧ ∀ y, y ∈ F2 ++ L2 → y ∉ F1 ++ L1.
Proof.
  intros H. assert (NoDup ((F1 ++ L1) ++ F2 ++ L2)) as H'.
  { assert ((F1 ++ F2) ++ L1 ++ L2 ≡ₚ (F1 ++ L1) ++ F2 ++ L2) as E by solve_Permutation. by rewrite <- E. }
  apply NoDup_app in H' as (H1 & H2 & H3). split; [done|]. split; [done|]. intros y Hy Hy'. by apply (H2 y).
Qed.

Section destroy.
Context (destroy : Z → ast_heap → outcome ast_heap) (fuel : nat).
Context (Hdestroy : ∀ h p a F L, repr h p a F L → NoDup (F ++ L) → (length F < fuel)%nat → destroy p h = Ret [] (delete_all F h)).

Lemma destroy_items h items all qs l F L i :
  reprs h qs l F L → NoDup (items :: F ++ L) → (length F < fuel)%nat → h !! items = Some (BItems all) → drop i all = qs →
  items_loop destroy items i (length qs) h = Ret [] (delete_all F h).
Proof.
  intros Hr. revert h i Hr.
  assert (∀ h h', reprs h' qs l F L → h' = h → ∀ i, NoDup (items :: F ++ L) → (length F < fuel)%nat → h !! items = Some (BItems all) →
    drop i all = qs → items_loop destroy items i (length qs) h = Ret [] (delete_all F h)) as H; [|by eauto].
  revert l F L. induction qs as [|q qs IH]; intros l F L h h' Hr ->; inversion Hr as [|? ? x l' F1 L1 F2 L2 Hq Hqs]; subst; [done|].
  intros i Hnd Hf Hi Hdrop. cbn [length items_loop]. unfold read_items. rewrite Hi, bind_ret_l.
  assert (all !! i = Some q) as Hat.
  { rewrite <- (take_drop i all), Hdrop. rewrite lookup_app_r; rewrite length_take; [|lia].
    assert (length (drop i all) > 0)%nat as Hl by (rewrite Hdrop; cbn; lia). rewrite length_drop in Hl.
    rewrite Nat.min_l by lia. by rewrite Nat.sub_diag. }
  rewrite Hat. cbn [from_opt]. rewrite bind_ret_l. rewrite length_app in Hf.
  apply NoDup_cons in Hnd as [Hin Hnd]. destruct (nodup_parts _ _ _ _ Hnd) as (Hn1 & Hn2 & Hap).
  rewrite (Hdestroy _ _ _ _ _ Hq); [|done|lia]. rewrite bind_Ret_nil.
  rewrite (IH l' F2 L2 _ (delete_all F1 h)); [by rewrite delete_all_app| |done| |lia| |].
  - apply (proj2 (repr_frame h _) _ _ _ _ Hqs). intros y Hy. apply lookup_delete_out. apply Hap in Hy. set_solver.
  - apply NoDup_cons. split; [set_solver|done].
  - rewrite lookup_delete_out by set_solver. done.
  - rewrite (drop_S _ _ _ Hat) in Hdrop. by injection Hdrop.
Qed.
End destroy.

(** The destructor frees the blocks it reaches, each once, and touches no
    other. *)
Lemma ast_destroy_repr fuel h p a F L :
  repr h p a F L → NoDup (F ++ L) → (length F < fuel)%nat → ast_node_destroy fuel p h = Ret [] (delete_all F h).
Proof.
  revert h p a F L. induction fuel as [|fuel IH]; [lia|]. intros h p a F L Hr Hnd Hf. cbn [ast_node_destroy].
  assert (∀ p n h' F', h' !! p = Some (BNode n) → p ≠ 0 → p ∉ F' → free p (delete_all F' h') = Ret [] (delete_all (p :: F') h')) as Hend.
  { intros q n h' F' Hq H0 Hin. apply free_block; [done|]. rewrite lookup_delete_out by done. by rewrite Hq. }
  inversion Hr as [|? n ? Hp Hn Hl|? t n ? s Hp Ht Hn Hs Ha|? items qs l F' ? Hp Hn Hi Hqs|? q n ? x F' L' down Hp Hn Ha Hq
    |? l r n ? x y F1 L1 F2 L2 down Hp Hn Ha H1 H2]; subst; [done|..]; rewrite (proj2 (Z.eqb_neq p 0)) by done;
    unfold read_node; rewrite Hn, bind_ret_l.
  - destruct Hl; rewrite bind_ret_l; apply (Hend p _ h [] Hn); set_solver.
  - assert (t ≠ p) as Hne by (apply NoDup_app in Hnd as [Hnd _]; apply NoDup_cons in Hnd; set_solver).
    destruct Ha; (rewrite (free_block t) by (done || by eexists)); rewrite bind_Ret_nil;
      apply (Hend p _ h [t] Hn); set_solver.
  - cbn [app] in Hnd. apply NoDup_cons in Hnd as [Hin Hnd]. rewrite Nat2Z.id. cbn [length] in Hf. unfold own in *.
    destruct (items =? 0) eqn:E.
    + apply Z.eqb_eq in E as ->. subst qs. inversion Hqs; subst. cbn [length items_loop]. rewrite bind_ret_l.
      change (free 0 h) with (Ret [] h : outcome ast_heap). rewrite bind_Ret_nil. apply (Hend p _ h [] Hn); set_solver.
    + apply Z.eqb_neq in E. cbn [app length] in *.
      rewrite (destroy_items (ast_node_destroy fuel) fuel IH h items qs qs l F' L 0) by (done || lia). rewrite bind_Ret_nil.
      apply NoDup_cons in Hnd as [Hin' Hnd].
      rewrite (free_block items) by (done || (rewrite lookup_delete_out by set_solver; by rewrite Hi)). rewrite bind_Ret_nil.
      apply (Hend p _ h (items :: F') Hn); set_solver.
  - cbn [app] in Hnd. apply NoDup_cons in Hnd as [Hin Hnd].
    destruct Ha; cbn [length] in Hf; cbv beta iota; first [rewrite (IH h q x F' L') by (done || lia)|rewrite bind_ret_l]; rewrite ?bind_Ret_nil;
      first [apply (Hend p _ h F' Hn)|apply (Hend p _ h [] Hn)]; set_solver.
  - cbn [app] in Hnd. apply NoDup_cons in Hnd as [Hin Hnd]. destruct down.
    + destruct (nodup_parts _ _ _ _ Hnd) as (Hn1 & Hn2 & Hap). cbn [length] in Hf. rewrite length_app in Hf.
      assert (repr (delete_all F1 h) r y F2 L2) as H2'.
      { apply (proj1 (repr_frame h _) _ _ _ _ H2). intros z Hz. apply lookup_delete_out. apply Hap in Hz. set_solver. }
      inversion Ha; subst; (rewrite (IH h l x F1 L1) by (done || lia)); rewrite bind_Ret_nil;
        (rewrite (IH _ r y F2 L2 H2') by (done || lia)); rewrite bind_Ret_nil, delete_all_app;
          apply (Hend p _ h (F1 ++ F2) Hn); set_solver.
    + inversion Ha; subst; rewrite bind_ret_l; apply (Hend p _ h [] Hn); set_solver.
Qed.

(** ** Building a tree *)

(** Blocks of a tree and, of these, the ones the destructor leaves. *)
Fixpoint blocks (a : ast_node) : nat :=
  match a with
  | AstNull => 0
  | AstInt _ | AstFloat _ => 1
  | AstString _ | AstField _ => 2
  | AstList [] => 1
  | AstList items => 2 + list_sum (blocks <$> items)
  | AstBool _ l r | AstNum _ l r | AstStr _ l r | AstListOp _ l r => 1 + blocks l + blocks r
  | AstUnary _ o | AstTransformer _ o | AstTransformerVal _ o => 1 + blocks o
  end.

Fixpoint kept (a : ast_node) : nat :=
  match a with
  | AstNull | AstInt _ | AstFloat _ | AstString _ | AstField _ => 0
  | AstList items => list_sum (kept <$> items)
  | AstBool _ l r | AstListOp _ l r => blocks l + blocks r
  | AstTransformerVal _ o => blocks o
  | AstNum _ l r | AstStr _ l r => kept l + kept r
  | AstUnary _ o | AstTransformer _ o => kept o
  end.

(** [h'] is [h] with a tree in blocks that were not in use. *)
Record built (h : ast_heap) (a : ast_node) (p : Z) (h' : ast_heap) (F L : list Z) : Prop := {
  b_repr : repr h' p a F L;
  b_nodup : NoDup (F ++ L);
  b_new x : x ∈ F ++ L → h !! x = None;
  b_old x : x ∉ F ++ L → h' !! x = h !! x;
  b_kept : length L = kept a;
  b_blocks : (length F + length L)%nat = blocks a
}.

Lemma malloc_new b h : ∃ p, malloc b h = (p, <[p := b]> h) ∧ p ≠ 0 ∧ h !! p = None.
Proof.
  eexists. split; [reflexivity|]. pose proof (is_fresh ({[0]} ∪ dom h : gset Z)) as Hf.
  split; [set_solver|]. apply not_elem_of_dom. set_solver.
Qed.

(** A node over trees that are already built: [G] are their blocks. *)
Lemma built_node h h1 n G a (F L : list Z) :
  NoDup G → (∀ x, x ∈ G → x ≠ 0 ∧ h !! x = None ∧ is_Some (h1 !! x)) → (∀ x, x ∉ G → h1 !! x = h !! x) → F ++ L ≡ₚ G →
  (∀ p h', p ≠ 0 → h' !! p = Some (BNode n) → (∀ x, x ∈ G → h' !! x = h1 !! x) → repr h' p a (p :: F) L) →
  length L = kept a → S (length F + length L) = blocks a →
  ∃ p h', new_node n h1 = Ret [] (p, h') ∧ built h a p h' (p :: F) L.
Proof.
  intros Hnd Hnew Hold HG Hr Hk Hb. destruct (malloc_new (BNode n) h1) as (p & E & H0 & Hp).
  unfold new_node. rewrite E. eexists p, _. split; [reflexivity|].
  assert (p ∉ F ++ L) as Hin.
  { rewrite HG. intros H. apply Hnew in H as (_ & _ & [b Hb']). congruence. }
  assert (p ∉ G) as HpG by (by rewrite <- HG).
  split; cbn [app length]; try done.
  - apply Hr; [done|apply lookup_insert_eq|]. intros x Hx. apply lookup_insert_ne. congruence.
  - apply NoDup_cons. split; [done|]. by rewrite HG.
  - intros x [->|Hx]%elem_of_cons; [rewrite <- Hold; done|]. rewrite HG in Hx. by apply Hnew.
  - intros x [Hxp Hx]%not_elem_of_cons. rewrite lookup_insert_ne by done. apply Hold. by rewrite <- HG.
Qed.

Lemma built_sub h a p h' F L : built h a p h' F L → h ⊆ h'.
Proof.
  intros [_ _ Hn Ho _ _]. apply map_subseteq_spec. intros x b Hx. rewrite Ho; [done|]. intros Hin%Hn. congruence.
Qed.

Lemma repr_sub h h' p a F L : repr h p a F L → h ⊆ h' → repr h' p a F L.
Proof.
  intros Hr Hs. apply (proj1 (repr_frame h h') _ _ _ _ Hr). intros x Hx.
  destruct (proj1 (repr_blocks h) _ _ _ _ Hr x Hx) as [_ [b Hb]]. rewrite Hb. by eapply lookup_weaken.
Qed.

Lemma built_block h a p h' F L x : built h a p h' F L → x ∈ F ++ L → x ≠ 0 ∧ h !! x = None ∧ is_Some (h' !! x).
Proof.
  intros Hb Hx. destruct (proj1 (repr_blocks h') _ _ _ _ (b_repr _ _ _ _ _ _ Hb) x Hx). pose proof (b_new _ _ _ _ _ _ Hb x Hx). done.
Qed.

(** Two trees, one built after the other. *)
Lemma built_both h h1 h2 a b p q F1 L1 F2 L2 :
  built h a p h1 F1 L1 → built h1 b q h2 F2 L2 →
  NoDup ((F1 ++ L1) ++ F2 ++ L2)
  ∧ (∀ x, x ∈ (F1 ++ L1) ++ F2 ++ L2 → x ≠ 0 ∧ h !! x = None ∧ is_Some (h2 !! x))
  ∧ (∀ x, x ∉ (F1 ++ L1) ++ F2 ++ L2 → h2 !! x = h !! x).
Proof.
  intros H1 H2. pose proof (built_sub _ _ _ _ _ _ H1) as Hs1. pose proof (built_sub _ _ _ _ _ _ H2) as Hs2. split; [|split].
  - apply NoDup_app. split; [apply (b_nodup _ _ _ _ _ _ H1)|]. split; [|apply (b_nodup _ _ _ _ _ _ H2)].
    intros x Hx Hx'. destruct (built_block _ _ _ _ _ _ x H1 Hx) as (_ & _ & [b' Hb]).
    destruct (built_block _ _ _ _ _ _ x H2 Hx') as (_ & Hn & _). congruence.
  - intros x [Hx|Hx]%elem_of_app.
    + destruct (built_block _ _ _ _ _ _ x H1 Hx) as (H0 & Hn & [b' Hb]). split; [done|]. split; [done|].
      exists b'. by eapply lookup_weaken.
    + destruct (built_block _ _ _ _ _ _ x H2 Hx) as (H0 & Hn & Hb). split; [done|]. split; [|done].
      destruct (h !! x) as [b'|] eqn:E; [|done]. assert (h1 !! x = Some b') by (by eapply lookup_weaken). congruence.
  - intros x [Hx1 Hx2]%not_elem_of_app. by rewrite (b_old _ _ _ _ _ _ H2), (b_old _ _ _ _ _ _ H1).
Qed.

Lemma built_two h h1 h2 x y p q F1 L1 F2 L2 n a down :
  built h x p h1 F1 L1 → built h1 y q h2 F2 L2 → two_of n a down →
  ∃ r h3 F L, new_node (n p q) h2 = Ret [] (r, h3) ∧ built h (a x y) r h3 F L.
Proof.
  intros H1 H2 Ha. destruct (built_both _ _ _ _ _ _ _ _ _ _ _ H1 H2) as (Hnd & Hnew & Hold).
  destruct (built_node h h2 (n p q) ((F1 ++ L1) ++ F2 ++ L2) (a x y) (if down then F1 ++ F2 else [])
    (if down then L1 ++ L2 else F1 ++ L1 ++ F2 ++ L2)) as (r & h3 & E & Hb); [done..| | | | |by eauto 10].
  - destruct down; [solve_Permutation|]. cbn [app]. by rewrite <- (assoc_L (++)).
  - intros r h3 H0 Hr Hx. apply (repr_two _ _ p q n); [done|done|done| |].
    + apply (proj1 (repr_frame h2 h3) p x F1 L1); [|intros z Hz; apply Hx; set_solver].
      apply (repr_sub h1); [apply (b_repr _ _ _ _ _ _ H1)|by eapply built_sub].
    + apply (proj1 (repr_frame h2 h3) q y F2 L2); [apply (b_repr _ _ _ _ _ _ H2)|intros z Hz; apply Hx; set_solver].
  - pose proof (b_kept _ _ _ _ _ _ H1). pose proof (b_kept _ _ _ _ _ _ H2).
    pose proof (b_blocks _ _ _ _ _ _ H1). pose proof (b_blocks _ _ _ _ _ _ H2).
    destruct Ha; rewrite !length_app; cbn [kept]; lia.
  - pose proof (b_blocks _ _ _ _ _ _ H1). pose proof (b_blocks _ _ _ _ _ _ H2).
    destruct Ha; rewrite ?length_app; cbn [blocks length]; lia.
Qed.

Lemma built_one h h1 x p F L n a down :
  built h x p h1 F L → one_of n a down → ∃ r h2 F' L', new_node (n p) h1 = Ret [] (r, h2) ∧ built h (a x) r h2 F' L'.
Proof.
  intros H1 Ha.
  destruct (built_node h h1 (n p) (F ++ L) (a x) (if down then F else []) (if down then L else F ++ L)) as (r & h2 & E & Hb);
    [by apply (b_nodup _ _ _ _ _ _ H1)|intros y Hy; by eapply built_block|by apply (b_old _ _ _ _ _ _ H1)|by destruct down| | | |by eauto 10].
  - intros r h2 H0 Hr Hx. apply (repr_one _ _ p n); [done..|].
    apply (proj1 (repr_frame h1 h2) p x F L); [apply (b_repr _ _ _ _ _ _ H1)|done].
  - pose proof (b_kept _ _ _ _ _ _ H1). pose proof (b_blocks _ _ _ _ _ _ H1). destruct Ha; rewrite ?length_app; cbn [kept]; lia.
  - pose proof (b_blocks _ _ _ _ _ _ H1). destruct Ha; rewrite ?length_app; cbn [blocks length]; lia.
Qed.

Lemma built_leaf h n a : leaf_of n a → ∃ p h' F L, new_node n h = Ret [] (p, h') ∧ built h a p h' F L.
Proof.
  intros Ha. destruct (built_node h h n [] a [] []) as (p & h' & E & Hb); [constructor|set_solver|done|done| | | |by eauto 10].
  - intros p h' H0 Hp _. by apply (repr_leaf _ _ n).
  - by destruct Ha.
  - by destruct Ha.
Qed.

Lemma built_text h n a s : text_of n a → ∃ p h' F L, new_text n s h = Ret [] (p, h') ∧ built h (a s) p h' F L.
Proof.
  intros Ha. unfold new_text. destruct (malloc_new (BNode (n 0)) h) as (p & E & H0 & Hp). rewrite E.
  destruct (malloc_new (BText s) (<[p := BNode (n 0)]> h)) as (t & E' & Ht0 & Ht). rewrite E'.
  apply lookup_insert_None in Ht as [Ht Hne]. eexists p, _, [p; t], []. split; [reflexivity|]. split; cbn [app].
  - apply (repr_text _ _ t n); [done|done|by rewrite lookup_insert_eq| |done]. rewrite lookup_insert_ne by done. by rewrite lookup_insert_eq.
  - apply NoDup_cons. split; [set_solver|apply NoDup_singleton].
  - intros x Hx. assert (x = p ∨ x = t) as [->| ->] by set_solver; done.
  - intros x Hx. rewrite !lookup_insert_ne by set_solver. done.
  - by destruct Ha.
  - by destruct Ha.
Qed.

Lemma reprs_app h qs l F L q x F2 L2 :
  reprs h qs l F L → repr h q x F2 L2 → reprs h (qs ++ [q]) (l ++ [x]) (F ++ F2) (L ++ L2).
Proof.
  intros Hr Hx. induction Hr as [|q' qs y l F1 L1 F' L' Hq Hqs IH]; cbn [app].
  - rewrite <- (app_nil_r F2), <- (app_nil_r L2). repeat constructor. done.
  - rewrite <- !(assoc_L (++)). by constructor.
Qed.

Lemma blocks_list l : l ≠ [] → blocks (AstList l) = (2 + list_sum (blocks <$> l))%nat.
Proof. by destruct l. Qed.

Lemma reprs_length h qs l F L : reprs h qs l F L → length qs = length l.
Proof. induction 1; cbn; congruence. Qed.

(** An item more. *)
Lemma built_add h h1 h2 l p q x F L F2 L2 :
  built h (AstList l) p h1 F L → built h1 x q h2 F2 L2 →
  ∃ h3 F3 L3, add_item p q h2 = Ret [] h3 ∧ built h (AstList (l ++ [x])) p h3 F3 L3.
Proof.
  intros H1 H2. destruct (built_both _ _ _ _ _ _ _ _ _ _ _ H1 H2) as (Hnd & Hnew & Hold).
  pose proof (repr_sub _ h2 _ _ _ _ (b_repr _ _ _ _ _ _ H1) (built_sub _ _ _ _ _ _ H2)) as Hr.
  pose proof (b_kept _ _ _ _ _ _ H1) as Hk1. pose proof (b_kept _ _ _ _ _ _ H2) as Hk2.
  pose proof (b_blocks _ _ _ _ _ _ H1) as Hb1. pose proof (b_blocks _ _ _ _ _ _ H2) as Hb2.
  pose proof (b_repr _ _ _ _ _ _ H2) as Hq. clear H1 H2.
  inversion Hr as [|? ? ? ? ? Hl| |? items qs ? F' ? Hp Hn Hi Hqs| |]; subst; try by inversion Hl.
  { match goal with H : text_of _ _ |- _ => inversion H; subst; discriminate end. }
  2-3: match goal with H : _ _ _ _ |- _ => inversion H; subst; discriminate end.
  unfold add_item, read_node. rewrite Hn, bind_ret_l.
  assert ((if items =? 0 then mret [] else read_items items h2) = Ret [] qs) as ->.
  { destruct (items =? 0); [by rewrite Hi|]. unfold read_items. by rewrite Hi. }
  rewrite bind_Ret_nil. unfold realloc. rewrite free_own, bind_Ret_nil.
  2:{ intros H0%Z.eqb_neq. rewrite H0 in Hi. by eexists. }
  destruct (malloc_new (BItems (qs ++ [q])) (delete_all (own items) h2)) as (t & E & Ht0 & Ht). rewrite E.
  rewrite lookup_delete_all in Ht. rewrite bind_ret_l.
  assert (NoDup (p :: own items ++ (F' ++ F2) ++ L ++ L2)) as Hnd'.
  { assert (p :: own items ++ (F' ++ F2) ++ L ++ L2 ≡ₚ ((p :: own items ++ F') ++ L) ++ F2 ++ L2) as -> by solve_Permutation. done. }
  assert (∀ x, x ∈ ((p :: own items ++ F') ++ L) ++ F2 ++ L2 ↔ x ∈ p :: own items ++ (F' ++ F2) ++ L ++ L2) as HG by set_solver.
  apply NoDup_cons in Hnd' as [Hpin Hnd']. apply NoDup_app in Hnd' as (_ & Hout & Hnd').
  assert (∀ z, z ∈ own items → z = items) as Hown by (unfold own; intros z; destruct (items =? 0); set_solver).
  assert (t ≠ p) as Htp by (intros ->; rewrite decide_False in Ht by set_solver; congruence).
  assert (t ∉ (F' ++ F2) ++ L ++ L2) as Htin.
  { intros Hin. destruct (Hnew t) as (_ & _ & [b Hb]); [apply HG; set_solver|].
    rewrite decide_False in Ht by (intros H; by apply (Hout t)). congruence. }
  assert (h !! t = None) as Hth.
  { destruct (decide (t ∈ ((p :: own items ++ F') ++ L) ++ F2 ++ L2)) as [Hin|Hin]; [by apply Hnew|].
    rewrite <- Hold by done. rewrite decide_False in Ht; [done|]. intros H. apply Hin, HG. set_solver. }
  assert (∀ z, z ≠ p → z ≠ t → z ∉ own items → <[p:=BNode (NList t (Z.of_nat (length qs) + 1))]>
    (<[t:=BItems (qs ++ [q])]> (delete_all (own items) h2)) !! z = h2 !! z) as Hsame.
  { intros z Hzp Hzt Hzo. by rewrite !lookup_insert_ne, lookup_delete_out. }
  eexists _, (p :: own t ++ F' ++ F2), (L ++ L2). split; [reflexivity|].
  assert (own t = [t]) as Hot by (unfold own; by rewrite (proj2 (Z.eqb_neq t 0))).
  split.
  - apply (repr_list _ _ t (qs ++ [q])); [done| | |].
    + rewrite lookup_insert_eq, length_app. cbn [length]. do 3 f_equal. lia.
    + rewrite (proj2 (Z.eqb_neq t 0)) by done. by rewrite lookup_insert_ne, lookup_insert_eq.
    + apply (proj2 (repr_frame h2 _) _ _ _ _ (reprs_app _ _ _ _ _ _ _ _ _ Hqs Hq)). intros z Hz. apply Hsame.
      * intros ->. set_solver.
      * intros ->. set_solver.
      * intros H. by apply (Hout z).
  - rewrite Hot. cbn [app]. apply NoDup_cons. split; [|apply NoDup_cons; done]. set_solver.
  - intros z Hz. rewrite Hot in Hz. destruct (decide (z = t)) as [->|Hzt]; [done|]. apply Hnew, HG. set_solver.
  - intros z Hz. rewrite Hot in Hz. assert (z ≠ p ∧ z ≠ t ∧ z ∉ (F' ++ F2) ++ L ++ L2) as (Hzp & Hzt & Hz') by set_solver.
    rewrite lookup_insert_ne, lookup_insert_ne by done. destruct (decide (z ∈ own items)) as [Ho|Ho].
    + rewrite lookup_delete_all, decide_True by done. symmetry. apply Hnew, HG. set_solver.
    + rewrite lookup_delete_out by done. apply Hold. rewrite HG. set_solver.
  - rewrite length_app. cbn [kept] in *. rewrite fmap_app, list_sum_app. cbn. lia.
  - rewrite Hot. rewrite blocks_list by (by destruct l). rewrite fmap_app, list_sum_app. cbn [length] in *. rewrite !length_app in *.
    cbn [length]. cbn. rewrite ?length_app. pose proof (reprs_length _ _ _ _ _ Hqs) as Hlen. unfold own in *. destruct l as [|y l].
    + inversion Hqs; subst. destruct (items =? 0) eqn:E0; [|]; cbn [length blocks fmap list_fmap list_sum foldr] in *; lia.
    + rewrite blocks_list in Hb1 by done. destruct (items =? 0) eqn:E0; [by subst qs|]. cbn [length] in Hb1. lia.
Qed.

(** Induction over trees with the items of lists. *)
Section tree_ind.
Context (P : ast_node → Prop) (Hnull : P AstNull) (Hleaf : ∀ n a, leaf_of n a → P a) (Htext : ∀ n a s, text_of n a → P (a s)).
Context (Hone : ∀ n a x down, one_of n a down → P x → P (a x)).
Context (Htwo : ∀ n a x y down, two_of n a down → P x → P y → P (a x y)) (Hlist : ∀ l, Forall P l → P (AstList l)).

Fixpoint tree_ind (a : ast_node) : P a :=
  match a with
  | AstNull => Hnull
  | AstInt v => Hleaf _ _ (leaf_int v)
  | AstFloat v => Hleaf _ _ (leaf_float v)
  | AstString s => Htext _ _ s text_string
  | AstField s => Htext _ _ s text_field
  | AstList l =>
      Hlist l ((fix all (l : list ast_node) : Forall P l :=
                 match l with [] => @List.Forall_nil _ P | x :: l => @List.Forall_cons _ P x l (tree_ind x) (all l) end) l)
  | AstBool op l r => Htwo _ _ _ _ _ (two_bool op) (tree_ind l) (tree_ind r)
  | AstNum op l r => Htwo _ _ _ _ _ (two_num op) (tree_ind l) (tree_ind r)
  | AstStr op l r => Htwo _ _ _ _ _ (two_str op) (tree_ind l) (tree_ind r)
  | AstListOp op l r => Htwo _ _ _ _ _ (two_list op) (tree_ind l) (tree_ind r)
  | AstUnary op o => Hone _ _ _ _ (one_unary op) (tree_ind o)
  | AstTransformer op o => Hone _ _ _ _ (one_transformer op) (tree_ind o)
  | AstTransformerVal op o => Hone _ _ _ _ (one_transformer_val op) (tree_ind o)
  end.
End tree_ind.

Lemma build_built a h : ∃ p h' F L, build a h = Ret [] (p, h') ∧ built h a p h' F L.
Proof.
  revert h. induction a as [|n a Ha|n a s Ha|n a x down Ha IH|n a x y down Ha IH1 IH2|l IH] using tree_ind; intros h.
  - exists 0, h, [], []. split; [done|]. split; [constructor|constructor|set_solver|done|done|done].
  - destruct (built_leaf h n a Ha) as (p & h' & F & L & E & Hb). exists p, h', F, L. split; [|done]. by destruct Ha.
  - destruct (built_text h n a s Ha) as (p & h' & F & L & E & Hb). exists p, h', F, L. split; [|done]. by destruct Ha.
  - destruct (IH h) as (q & h1 & F1 & L1 & E1 & H1). destruct (built_one _ _ _ _ _ _ _ _ _ H1 Ha) as (r & h2 & F & L & E & Hb).
    exists r, h2, F, L. split; [|done]. destruct Ha; cbn [build]; by rewrite E1, bind_Ret_nil.
  - destruct (IH1 h) as (p & h1 & F1 & L1 & E1 & H1). destruct (IH2 h1) as (q & h2 & F2 & L2 & E2 & H2).
    destruct (built_two _ _ _ _ _ _ _ _ _ _ _ _ _ _ H1 H2 Ha) as (r & h3 & F & L & E & Hb).
    exists r, h3, F, L. split; [|done]. destruct Ha; cbn [build]; by rewrite E1, bind_Ret_nil, E2, bind_Ret_nil.
  - assert (∃ p h1 F L, new_node (NList 0 0) h = Ret [] (p, h1) ∧ built h (AstList []) p h1 F L) as (p & h1 & F & L & E & H1).
    { destruct (built_node h h (NList 0 0) [] (AstList []) [] []) as (p & h' & E & Hb);
        [constructor|set_solver|done|done| |done|done|by eauto 10].
      intros p h' H0 Hp _. apply (repr_list _ _ 0 []); [done|done|done|constructor]. }
    cbn [build]. rewrite E, bind_Ret_nil. clear E. change l with ([] ++ l) at 2. revert h1 F L H1.
    generalize (@nil ast_node) as l0. induction IH as [|x l Hx _ IH]; intros l0 h1 F L H1.
    + rewrite app_nil_r. exists p, h1, F, L. split; [by rewrite bind_ret_l|done].
    + destruct (Hx h1) as (q & h2 & F2 & L2 & E2 & H2). destruct (built_add _ _ _ _ _ _ _ _ _ _ _ H1 H2) as (h3 & F3 & L3 & E3 & H3).
      rewrite E2, bind_Ret_nil, E3, bind_Ret_nil. destruct (IH (l0 ++ [x]) h3 F3 L3 H3) as (r & h4 & F4 & L4 & E4 & H4).
      rewrite <- (assoc_L (++)) in H4. by exists r, h4, F4, L4.
Qed.

(** Building a tree and destroying it: no block is freed twice and no other is
    touched; what remains are the blocks below "and", "or", "in" and
    transformers of values, as many as [kept] counts, so nothing remains of a
    single comparison and all but one block of a condition with "and". *)
Theorem ast_destroy_built a h fuel :
  (blocks a < fuel)%nat →
  ∃ p h' h'' L, build a h = Ret [] (p, h') ∧ ast_node_destroy fuel p h' = Ret [] h''
    ∧ length L = kept a ∧ NoDup L
    ∧ (∀ x, x ∈ L → h !! x = None ∧ h'' !! x = h' !! x ∧ is_Some (h' !! x)) ∧ (∀ x, x ∉ L → h'' !! x = h !! x).
Proof.
  intros Hf. destruct (build_built a h) as (p & h' & F & L & E & Hb). exists p, h', (delete_all F h'), L.
  pose proof (b_nodup _ _ _ _ _ _ Hb) as Hnd. pose proof (b_blocks _ _ _ _ _ _ Hb) as Hbl.
  split; [done|]. split; [apply (ast_destroy_repr fuel h' p a F L); [apply (b_repr _ _ _ _ _ _ Hb)|done|lia]|].
  split; [apply (b_kept _ _ _ _ _ _ Hb)|]. apply NoDup_app in Hnd as (HF & Hap & HL). split; [done|]. split.
  - intros x Hx. destruct (built_block _ _ _ _ _ _ x Hb) as (_ & Hn & Hs); [set_solver|]. split; [done|]. split; [|done].
    apply lookup_delete_out. intros H. by apply (Hap x).
  - intros x Hx. rewrite lookup_delete_all. destruct (decide (x ∈ F)) as [H|H].
    + symmetry. apply (b_new _ _ _ _ _ _ Hb). set_solver.
    + apply (b_old _ _ _ _ _ _ Hb). set_solver.
Qed.

(** A comparison leaves nothing behind; with "and" the eight blocks of the
    two comparisons remain. *)
Definition comparison_ex (v : Z) : ast_node := AstNum BINARY_NUM_OP_GT (AstField "proc.pid") (AstInt v).

Lemma ast_destroy_built_ex :
  (∃ p h' h'', build (comparison_ex 1) ∅ = Ret [] (p, h') ∧ ast_node_destroy 5 p h' = Ret [] h'' ∧ ∀ x, h'' !! x = None)
  ∧ kept (AstBool BINARY_BOOL_OP_AND (comparison_ex 1) (comparison_ex 2)) = 8%nat.
Proof.
  split; [|reflexivity]. destruct (ast_destroy_built (comparison_ex 1) ∅ 5 ltac:(cbn; lia)) as (p & h' & h'' & L & E & E' & HL & _ & _ & Ho).
  exists p, h', h''. split; [exact E|]. split; [exact E'|]. intros x. destruct L; [|discriminate HL].
  rewrite (Ho x (not_elem_of_nil x)). apply lookup_empty.
Defined.
