(* ===== verification/AstPrint.v ===== *)
(** * Printing syntax trees (rule_engine_ast/linx_rule_engine_ast.c)

    [print_ast] writes a tree to the standard output with the texts of the
    operators.  An operator that was in no table is an index outside of it;
    [Parser] shows that no tree of the parser holds one. *)
From S2P Require Import Prelude CString OpType Float Ast.

#[local] Open Scope Z_scope.

(** The text of an operator, by the index its enumerator has. *)
Definition op_text {A} `{EqDecision A} (ops : list A) (texts : list string) (op : A) : outcome string :=
  i ← from_opt OutOfBounds (fst <$> list_find (eq op) ops);
  from_opt OutOfBounds (texts !! i).

(** "%Lf" of the value. *)
Definition float_of (f : f32) : float_value :=
  match f with F32 neg m e => Finite neg m e | F32_inf neg => Infinite neg end.

(** " %s " of an operator's text. *)
Definition with_blanks (text : string) : string := " " +:+ text +:+ " ".

Fixpoint print_ast (node : ast_node) : outcome string :=
  let binary (text : outcome string) (left right : ast_node) :=
    l ← print_ast left; t ← text; r ← print_ast right; mret (l +:+ with_blanks t +:+ r) in
  let transformer (text : outcome string) (operand : ast_node) :=
    t ← text; o ← print_ast operand; mret (with_blanks t +:+ o +:+ ")") in
  match node with
  | AstNull => mret ""
  | AstBool op l r => binary (op_text binary_bool_ops g_binary_bool_ops op) l r
  | AstListOp op l r => binary (op_text binary_list_ops g_binary_list_ops op) l r
  | AstStr op l r => binary (op_text binary_str_ops g_binary_str_ops op) l r
  | AstNum op l r => binary (op_text binary_num_ops g_binary_num_ops op) l r
  | AstUnary op operand =>
      t ← op_text unary_ops g_unary_ops op; o ← print_ast operand; mret (with_blanks t +:+ o)
  | AstList items =>
      let fix items_from (l : list ast_node) : outcome string :=
        match l with
        | [] => mret ""
        | [item] => s ← print_ast item; mret (s +:+ ")")
        | item :: l => s ← print_ast item; rest ← items_from l; mret (s +:+ ", " +:+ rest)
        end in
      s ← items_from items; mret ("(" +:+ s)
  | AstTransformer type operand => transformer (op_text field_transformer_types g_field_transformer_types type) operand
  | AstTransformerVal val operand => transformer (op_text field_transformer_vals g_field_transformer_vals val) operand
  | AstInt value => mret (show_int value)
  | AstFloat value => mret (show_f (float_of value))
  | AstString text => mret text
  | AstField name => mret name
  end.

(** ** Lemmas *)

(** [prints a]: printing the tree succeeds. *)
Definition prints (a : ast_node) : Prop := ∃ t, print_ast a = Ret [] t.

(** Every operator but the invalid one has a text. *)
Lemma op_text_some {A} `{EqDecision A} (ops : list A) texts op :
  length texts = length ops → op ∈ ops → ∃ t, op_text ops texts op = Ret [] t.
Proof.
  intros Hlen Hin. unfold op_text.
  destruct (list_find_elem_of (eq op) ops op Hin eq_refl) as [[i x] Hf]. rewrite Hf. cbn [fmap option_fmap option_map fst].
  rewrite from_opt_some, bind_Ret_nil. apply list_find_Some in Hf as (Hi & _).
  apply lookup_lt_Some in Hi. rewrite <- Hlen in Hi. apply lookup_lt_is_Some in Hi as [t ->]. by exists t.
Qed.

Lemma prints_binary (text : outcome string) l r :
  (∃ t, text = Ret [] t) → prints l → prints r →
  ∃ t, (x ← print_ast l; t ← text; y ← print_ast r; mret (x +:+ with_blanks t +:+ y)) = Ret [] t.
Proof. intros (t & ->) (x & ->) (y & ->). rewrite !bind_Ret_nil. by eexists. Qed.

Lemma prints_after {A} (text : outcome A) o (f : A → string → string) :
  (∃ t, text = Ret [] t) → prints o → ∃ t, (x ← text; y ← print_ast o; mret (f x y)) = Ret [] t.
Proof. intros (t & ->) (y & ->). rewrite !bind_Ret_nil. by eexists. Qed.

Lemma prints_list items : Forall prints items → prints (AstList items).
Proof.
  intros H. unfold prints. cbn [print_ast].
  set (go := fix items_from (l : list ast_node) : outcome string := _).
  assert (∃ t, go items = Ret [] t) as (t & ->); [|rewrite bind_Ret_nil; by eexists].
  induction H as [|a l (s & E) Hl (t & IH)]; [by exists ""|].
  destruct l as [|b l].
  - cbn [go]. rewrite E, bind_Ret_nil. by eexists.
  - change (go (a :: b :: l)) with (s ← print_ast a; rest ← go (b :: l); mret (s +:+ ", " +:+ rest)).
    rewrite E, bind_Ret_nil, IH, bind_Ret_nil. by eexists.
Qed.

Lemma prints_bool op l r : op ∈ binary_bool_ops → prints l → prints r → prints (AstBool op l r).
Proof. intros Ho. apply prints_binary. by apply op_text_some. Qed.
Lemma prints_num op l r : op ∈ binary_num_ops → prints l → prints r → prints (AstNum op l r).
Proof. intros Ho. apply prints_binary. by apply op_text_some. Qed.
Lemma prints_str op l r : op ∈ binary_str_ops → prints l → prints r → prints (AstStr op l r).
Proof. intros Ho. apply prints_binary. by apply op_text_some. Qed.
Lemma prints_list_op op l r : op ∈ binary_list_ops → prints l → prints r → prints (AstListOp op l r).
Proof. intros Ho. apply prints_binary. by apply op_text_some. Qed.
Lemma prints_unary op a : op ∈ unary_ops → prints a → prints (AstUnary op a).
Proof. intros Ho. apply prints_after. by apply op_text_some. Qed.
Lemma prints_transformer op a : op ∈ field_transformer_types → prints a → prints (AstTransformer op a).
Proof. intros Ho. apply (prints_after (op_text _ _ _) _ (λ t o, with_blanks t +:+ o +:+ ")")). by apply op_text_some. Qed.
Lemma prints_transformer_val op a : op ∈ field_transformer_vals → prints a → prints (AstTransformerVal op a).
Proof. intros Ho. apply (prints_after (op_text _ _ _) _ (λ t o, with_blanks t +:+ o +:+ ")")). by apply op_text_some. Qed.

Create HintDb prints.
#[export] Hint Resolve prints_bool prints_num prints_str prints_list_op prints_unary prints_transformer
  prints_transformer_val prints_list : prints.
#[export] Hint Extern 1 (prints _) => (eexists; reflexivity) : prints.
#[export] Hint Extern 1 (_ ∈ _) => (destruct_and?; set_solver) : prints.

(** ** Examples *)
Example print_ast_ex :
  print_ast (AstBool BINARY_BOOL_OP_AND (AstListOp BINARY_LIST_OP_IN (AstField "proc.name") (AstList [AstString "a"; AstString "b"]))
    (AstNum BINARY_NUM_OP_GT (AstTransformer FIELD_TRANSFORMER_LEN (AstField "fd.name")) (AstInt 3)))
  = Ret [] "proc.name in (a, b) and  len( fd.name) > 3".
Proof. reflexivity. Qed.

(** An empty list is never closed. *)
Example print_ast_empty : print_ast (AstList []) = Ret [] "(".
Proof. reflexivity. Qed.
