(* ===== verification/Parser.v ===== *)
(** * Condition parser (rule_engine_ast/linx_rule_engine_ast.c)

    A recursive-descent parser over the lexer.  A local pointer that the C
    code may use before it is set is an [option], [None] while it is
    indeterminate.  The functions that call each other recursively take fuel;
    the loops take theirs from the length of the text. *)
From S2P Require Import Prelude CString OpType Regex Lexer Float Ast AstPrint.
From Stdlib Require Import Ascii.

#[local] Open Scope Z_scope.

Section parser.
Context `{Pcre2}.

(** [lexer->last_token] used as a C string. *)
Definition last_token_str : lexm string := t ← get_token; lift (read_buf t).

Definition text_fuel : lexm nat := lx ← get_lexer; mret (S (strlen (lx_input lx))).

(** [field_name] is a buffer of exactly its length; both [strcat] write past
    its end. *)
Definition parse_field_remainder : lexm ast_node :=
  field_name ← last_token_str;
  b ← linx_lexer_find_str "[";
  if (b : bool) then
    q ← linx_lexer_quoted_str;
    ok ← (if (q : bool) then mret true else linx_lexer_field_arg_bare_str);
    if negb ok then mret AstNull
    else
      _ ← lift overflow;
      arg ← last_token_str;
      _ ← lift overflow;
      c ← linx_lexer_find_str "]";
      if negb c then mret AstNull
      else mret (ast_node_create_field_name (field_name +:+ "." +:+ arg))
  else mret (ast_node_create_field_name field_name).

Fixpoint parse_field_or_transformer_remainder (fuel : nat) : lexm ast_node :=
  match fuel with
  | O => λ _, NoFuel
  | S n =>
      tok ← last_token_str;
      let op_type := op_str_to_field_transformer_type tok in
      _ ← linx_lexer_blank;
      b ← linx_lexer_field_transformer_type;
      node ← (if (b : bool)
              then _ ← linx_lexer_blank; Some <$> parse_field_or_transformer_remainder n
              else mret None);
      f ← linx_lexer_field_name;
      node ← (if (f : bool) then Some <$> parse_field_remainder else mret node);
      node ← lift (init_or_ub node);
      if ast_null node then mret AstNull
      else
        _ ← linx_lexer_blank;
        c ← linx_lexer_find_str ")";
        if negb c then mret AstNull
        else mret (ast_node_create_field_transformer op_type node)
  end.

Definition try_parse_transformer_or_val : lexm ast_node :=
  fuel ← text_fuel;
  _ ← linx_lexer_blank;
  v ← linx_lexer_field_transformer_val;
  if (v : bool) then
    _ ← linx_lexer_blank;
    tok ← last_token_str;
    let op_type := op_str_to_field_transformer_val tok in
    f ← linx_lexer_field_name;
    if negb f then mret AstNull
    else
      node ← parse_field_remainder;
      _ ← linx_lexer_blank;
      c ← linx_lexer_find_str ")";
      if negb c then mret AstNull
      else mret (ast_node_create_field_transformer_val op_type node)
  else
    t ← linx_lexer_field_transformer_type;
    if (t : bool) then _ ← linx_lexer_blank; parse_field_or_transformer_remainder fuel
    else mret AstNull.

Definition parse_num_value_or_transformer : lexm ast_node :=
  _ ← linx_lexer_blank;
  node ← try_parse_transformer_or_val;
  if negb (ast_null node) then mret node
  else
    h ← linx_lexer_hex_num;
    if (h : bool) then
      tok ← last_token_str;
      mret (ast_node_create_number (sext 64 (strtoul16 tok)))
    else
      d ← linx_lexer_num;
      if (d : bool) then
        tok ← last_token_str;
        if strstr tok "." then mret (ast_node_create_float (strtof tok))
        else mret (ast_node_create_number (strtol10 tok).1)
      else mret AstNull.

Definition parse_str_value_or_transformer (no_transformer : bool) : lexm ast_node :=
  _ ← linx_lexer_blank;
  node ← (if no_transformer then mret AstNull else try_parse_transformer_or_val);
  if negb (ast_null node) then mret node
  else
    q ← linx_lexer_quoted_str;
    ok ← (if (q : bool) then mret true else linx_lexer_bare_str);
    if (ok : bool) then tok ← last_token_str; mret (ast_node_create_string tok)
    else mret AstNull.

(** The loop over the items after the first; a missing item is added as a
    null pointer. *)
Fixpoint list_loop (fuel : nat) (list : ast_node) : lexm ast_node :=
  match fuel with
  | O => λ _, NoFuel
  | S n =>
      c ← linx_lexer_find_str ",";
      if (c : bool) then
        item ← parse_str_value_or_transformer true;
        _ ← linx_lexer_blank;
        list_loop n (add_item_to_list list item)
      else mret list
  end.

Definition parse_list_value_or_transformer : lexm ast_node :=
  fuel ← text_fuel;
  let list := ast_node_create_list in
  _ ← linx_lexer_blank;
  o ← linx_lexer_find_str "(";
  if (o : bool) then
    _ ← linx_lexer_blank;
    item ← parse_str_value_or_transformer true;
    list ← (if ast_null item then mret list
            else _ ← linx_lexer_blank; list_loop fuel (add_item_to_list list item));
    _ ← linx_lexer_find_str ")";
    mret list
  else
    item ← try_parse_transformer_or_val;
    if ast_null item then mret item
    else _ ← linx_lexer_identifier; mret AstNull.

(** Without an operator the function returns a pointer it never set. *)
Definition parse_condition (left : ast_node) : lexm ast_node :=
  _ ← linx_lexer_blank;
  u ← linx_lexer_unary_op;
  if (u : bool) then
    tok ← last_token_str; mret (ast_node_create_unary (op_str_to_unary_op tok) left)
  else
    _ ← linx_lexer_blank;
    b ← linx_lexer_num_op;
    if (b : bool) then
      tok ← last_token_str;
      right ← parse_num_value_or_transformer;
      mret (ast_node_create_binary_num (op_str_to_binary_num_op tok) left right)
    else
      b ← linx_lexer_str_op;
      if (b : bool) then
        tok ← last_token_str;
        right ← parse_str_value_or_transformer false;
        mret (ast_node_create_binary_str (op_str_to_binary_str_op tok) left right)
      else
        b ← linx_lexer_list_op;
        if (b : bool) then
          tok ← last_token_str;
          right ← parse_list_value_or_transformer;
          mret (ast_node_create_binary_list (op_str_to_binary_list_op tok) left right)
        else lift (Ub UninitRead).

Fixpoint not_loop (fuel : nat) (is_not : bool) : lexm bool :=
  match fuel with
  | O => λ _, NoFuel
  | S n => b ← linx_lexer_not_blank; if (b : bool) then not_loop n (negb is_not) else mret is_not
  end.

(** One pass of the loops of [parse_and] and [parse_or]: [right] keeps its
    value when the word is followed by neither a blank nor a parenthesis. *)
Definition bool_operand (parse_right embedded : lexm ast_node) (right : option ast_node)
    : lexm (option ast_node) :=
  bl ← linx_lexer_blank;
  if (bl : bool) then Some <$> parse_right
  else
    o ← linx_lexer_find_str "(";
    if (o : bool) then Some <$> embedded else mret right.

Fixpoint parse_or (fuel : nat) : lexm ast_node :=
  match fuel with
  | O => λ _, NoFuel
  | S n =>
      _ ← linx_lexer_blank;
      left ← parse_and n;
      _ ← linx_lexer_blank;
      or_loop n left None AstNull
  end
with or_loop (fuel : nat) (left : ast_node) (right : option ast_node) (node : ast_node)
    : lexm ast_node :=
  match fuel with
  | O => λ _, NoFuel
  | S n =>
      w ← linx_lexer_find_str "or";
      if (w : bool) then
        right ← bool_operand (parse_and n) (parse_embedded_remainder n) right;
        r ← lift (init_or_ub right);
        let node := ast_node_create_binary_bool BINARY_BOOL_OP_OR left r in
        _ ← linx_lexer_blank;
        or_loop n node right node
      else mret (if ast_null node then left else node)
  end
with parse_and (fuel : nat) : lexm ast_node :=
  match fuel with
  | O => λ _, NoFuel
  | S n =>
      _ ← linx_lexer_blank;
      left ← parse_not n;
      _ ← linx_lexer_blank;
      and_loop n left None AstNull
  end
with and_loop (fuel : nat) (left : ast_node) (right : option ast_node) (node : ast_node)
    : lexm ast_node :=
  match fuel with
  | O => λ _, NoFuel
  | S n =>
      w ← linx_lexer_find_str "and";
      if (w : bool) then
        right ← bool_operand (parse_not n) (parse_embedded_remainder n) right;
        r ← lift (init_or_ub right);
        let node := ast_node_create_binary_bool BINARY_BOOL_OP_AND left r in
        _ ← linx_lexer_blank;
        and_loop n node right node
      else mret (if ast_null node then left else node)
  end
with parse_not (fuel : nat) : lexm ast_node :=
  match fuel with
  | O => λ _, NoFuel
  | S n =>
      tf ← text_fuel;
      _ ← linx_lexer_blank;
      is_not ← not_loop tf false;
      p ← linx_lexer_find_str "not(";
      left ← (if (p : bool) then parse_embedded_remainder n else parse_check n);
      let is_not := if (p : bool) then negb is_not else is_not in
      mret (if is_not : bool then ast_node_create_unary UNARY_OP_NOT left else left)
  end
with parse_check (fuel : nat) : lexm ast_node :=
  match fuel with
  | O => λ _, NoFuel
  | S n =>
      tf ← text_fuel;
      _ ← linx_lexer_blank;
      o ← linx_lexer_find_str "(";
      if (o : bool) then parse_embedded_remainder n
      else
        f ← linx_lexer_field_name;
        if (f : bool) then left ← parse_field_remainder; parse_condition left
        else
          t ← linx_lexer_field_transformer_type;
          if (t : bool) then
            _ ← linx_lexer_blank;
            left ← parse_field_or_transformer_remainder tf;
            parse_condition left
          else
            _ ← linx_lexer_identifier;
            mret AstNull
  end
with parse_embedded_remainder (fuel : nat) : lexm ast_node :=
  match fuel with
  | O => λ _, NoFuel
  | S n =>
      _ ← linx_lexer_blank;
      node ← parse_or n;
      _ ← linx_lexer_blank;
      _ ← linx_lexer_find_str ")";
      mret node
  end.

(** The lexer measures the text before the check for a null pointer.  The
    fuel is enough for every text, see [condition_to_ast_total]. *)
Definition condition_to_ast (condition : option string) : outcome (Z * ast_node) :=
  lx ← linx_lexer_create condition;
  '(ast_root, _) ← parse_or (8 * S (strlen (lx_input lx))) lx;
  _ ← print_ast ast_root;
  mret (if ast_null ast_root then -1 else 0, ast_root).
End parser.



(** ** Well-formed trees

    What the parser can produce.  A missing operand is a null pointer. *)
Definition num_op_ok (op : binary_num_op_type_t) : bool :=
  match op with BINARY_NUM_OP_GT | BINARY_NUM_OP_LT => true | _ => false end.
Definition str_op_ok (op : binary_str_op_type_t) : bool :=
  match op with BINARY_STR_OP_INVALID => false | _ => true end.
Definition list_op_ok (op : binary_list_op_type_t) : bool :=
  match op with BINARY_LIST_OP_INVALID => false | _ => true end.
Definition transformer_ok (op : field_transformer_type_t) : bool :=
  match op with FIELD_TRANSFORMER_INVALID => false | _ => true end.

Definition field_ok (a : ast_node) : bool :=
  match a with AstField _ | AstNull => true | _ => false end.

Fixpoint left_ok (a : ast_node) : bool :=
  match a with
  | AstNull | AstField _ => true
  | AstTransformer op a' => transformer_ok op && negb (ast_null a') && left_ok a'
  | _ => false
  end.

Definition transformer_node_ok (a : ast_node) : bool :=
  match a with AstNull | AstTransformer _ _ => left_ok a | _ => false end.

Definition trans_ok (a : ast_node) : bool :=
  match a with
  | AstNull => true
  | AstTransformer _ _ => left_ok a
  | AstTransformerVal FIELD_TRANSFORMER_VAL a' => field_ok a'
  | _ => false
  end.

Definition num_ok (a : ast_node) : bool :=
  match a with
  | AstInt v => (LONG_MIN <=? v) && (v <=? LONG_MAX)
  | AstFloat _ => true
  | _ => trans_ok a
  end.

Definition str_ok (a : ast_node) : bool :=
  match a with AstString _ => true | _ => trans_ok a end.

Definition item_ok (a : ast_node) : bool :=
  match a with AstString _ | AstNull => true | _ => false end.

Definition list_ok (a : ast_node) : bool :=
  match a with AstList items => forallb item_ok items | AstNull => true | _ => false end.

Fixpoint cond_ok (a : ast_node) : bool :=
  match a with
  | AstNull => true
  | AstBool op l r => bool_decide (op ≠ BINARY_BOOL_OP_INVALID) && cond_ok l && cond_ok r
  | AstNum op l r => num_op_ok op && left_ok l && num_ok r
  | AstStr op l r => str_op_ok op && left_ok l && str_ok r
  | AstListOp op l r => list_op_ok op && left_ok l && list_ok r
  | AstUnary UNARY_OP_EXISTS l => left_ok l
  | AstUnary UNARY_OP_NOT a' => cond_ok a'
  | _ => false
  end.

(** The parser's trees can be printed. *)
Lemma prints_left a : left_ok a = true → prints a.
Proof.
  induction a as [| | | | | | | | | | |op a IH|]; cbn [left_ok]; try done; auto with prints.
  rewrite !andb_true_iff. intros [[Ho _] Ha%IH]. destruct op; try done; auto with prints.
Qed.

Lemma prints_trans a : trans_ok a = true → prints a.
Proof.
  destruct a; cbn [trans_ok]; try done; [auto with prints|apply prints_left|].
  destruct val, a; try done; auto with prints.
Qed.

Lemma prints_num_value a : num_ok a = true → prints a.
Proof. destruct a; try apply prints_trans; auto with prints. Qed.

Lemma prints_str_value a : str_ok a = true → prints a.
Proof. destruct a; try apply prints_trans; auto with prints. Qed.

Lemma prints_list_value a : list_ok a = true → prints a.
Proof.
  destruct a; cbn [list_ok]; try done; [auto with prints|]. rewrite forallb_forall. intros H. apply prints_list, Forall_forall. intros a Ha.
  rewrite list_elem_of_In in Ha. specialize (H a Ha). destruct a; try done; auto with prints.
Qed.

Lemma prints_cond a : cond_ok a = true → prints a.
Proof.
  induction a as [| | | | | |op l IHl r IHr|op l _ r _|op l _ r _|op l _ r _|op a IH| |]; cbn [cond_ok]; try done;
    rewrite ?andb_true_iff; [auto with prints| | | | |].
  - intros [[Ho%bool_decide_eq_true Hl] Hr]. destruct op; try done; auto with prints.
  - intros [[Ho Hl%prints_left] Hr%prints_num_value]. destruct op; try done; auto with prints.
  - intros [[Ho Hl%prints_left] Hr%prints_str_value]. destruct op; try done; auto with prints.
  - intros [[Ho Hl%prints_left] Hr%prints_list_value]. destruct op; try done; auto with prints.
  - destruct op; try done; [intros H%prints_left|intros H%IH]; auto with prints.
Qed.

(** ** Steps of the lexer as the parser takes them

    [from lx0 lx]: the cursor reached [lx] from [lx0]; [left_over lx] is the
    length of the text that is left. *)
Definition from (lx0 lx : linx_lexer_t) : Prop := ∃ n, adv n lx0 lx.
Definition left_over (lx : linx_lexer_t) : nat := strlen (rest lx).

Lemma from_wf lx0 lx : from lx0 lx → lex_wf lx.
Proof. intros [n Ha]. by eapply adv_wf. Qed.

Lemma from_refl lx : lex_wf lx → from lx lx.
Proof. exists 0%nat. by apply adv_refl. Qed.

Lemma from_adv lx0 lx lx' n : from lx0 lx → adv n lx lx' → from lx0 lx'.
Proof. intros [k Hk] Ha. exists (k + n)%nat. by eapply adv_trans. Qed.

Lemma adv_left_over n lx lx' : adv n lx lx' → (left_over lx' + n = left_over lx)%nat.
Proof. intros Ha. unfold left_over. rewrite (adv_strlen _ _ _ Ha). pose proof (adv_len _ _ _ Ha). lia. Qed.

#[export] Hint Resolve from_wf from_refl from_adv : linx.

(** The undefined behaviour a condition can lead the parser to. *)
Definition parse_fault (f : fault) : Prop :=
  f = UninitRead ∨ f = OutOfBounds ∨ f = HeapOverflow.

Section steps.
Context {P : Pcre2} {PL : Pcre2Laws P}.
Implicit Types (lx : linx_lexer_t).

Lemma step_blank lx0 lx (Q : bool → linx_lexer_t → Prop) :
  from lx0 lx →
  (∀ b lx', from lx0 lx' → (left_over lx' <= left_over lx)%nat →
     (b = true → (left_over lx' < left_over lx)%nat) →
     lx_last_token lx' = lx_last_token lx → Q b lx') →
  wp parse_fault linx_lexer_blank lx Q.
Proof.
  intros Hf H. apply wp_blank; [by eapply from_wf|]. intros n lx' Ha Ht _.
  pose proof (adv_left_over _ _ _ Ha).
  apply H; [by eapply from_adv|lia| |done]. destruct n; [done|lia].
Qed.

Lemma step_find str lx0 lx (Q : bool → linx_lexer_t → Prop) :
  from lx0 lx →
  (∀ lx', from lx0 lx' → (left_over lx' + strlen str = left_over lx)%nat →
     lx_last_token lx' = Some (Terminated str) → Q true lx') →
  Q false lx →
  wp parse_fault (linx_lexer_find_str str) lx Q.
Proof.
  intros Hf Ht Hn. apply wp_find_str; [by eapply from_wf| |done]. intros lx' t Ha Htok _.
  apply Ht; [by eapply from_adv|by apply adv_left_over|done].
Qed.

Lemma step_ops l lx0 lx (Q : bool → linx_lexer_t → Prop) :
  from lx0 lx →
  (∀ lx' op, op ∈ l → from lx0 lx' → (left_over lx' + strlen op = left_over lx)%nat →
     lx_last_token lx' = Some (Terminated op) → Q true lx') →
  Q false lx →
  wp parse_fault (linx_lexer_find_operator_list l) lx Q.
Proof.
  intros Hf Ht Hn. apply wp_operator_list; [by eapply from_wf| |done]. intros lx' op t Hin Ha Htok _.
  eapply Ht; [done|by eapply from_adv|by apply adv_left_over|done].
Qed.

Lemma step_regex re lx0 lx (Q : bool → linx_lexer_t → Prop) :
  from lx0 lx →
  (∀ lx' t, from lx0 lx' → (left_over lx' < left_over lx)%nat →
     lx_last_token lx' = Some (Terminated t) → Q true lx') →
  (∀ lx', from lx0 lx' → left_over lx' = left_over lx → Q false lx') →
  wp parse_fault (regex_token re) lx Q.
Proof.
  intros Hf Ht Hn. apply wp_regex_token; [apply _|by eapply from_wf| |].
  - intros n lx' Ha Htok. pose proof (adv_left_over _ _ _ Ha).
    eapply Ht; [by eapply from_adv|lia|done].
  - intros lx' Ha. pose proof (adv_left_over _ _ _ Ha). apply Hn; [by eapply from_adv|lia].
Qed.

Lemma step_quoted lx0 lx (Q : bool → linx_lexer_t → Prop) :
  from lx0 lx →
  (∀ lx' t, from lx0 lx' → (left_over lx' < left_over lx)%nat →
     lx_last_token lx' = Some t → Q true lx') →
  Q false lx →
  wp parse_fault linx_lexer_quoted_str lx Q.
Proof.
  intros Hf Ht Hn. apply wp_quoted_str; [by eapply from_wf| |done].
  intros n lx' t Ha Htok. pose proof (adv_left_over _ _ _ Ha).
  eapply Ht; [by eapply from_adv|lia|done].
Qed.

Lemma step_num_op lx0 lx (Q : bool → linx_lexer_t → Prop) :
  from lx0 lx →
  (∀ lx' op, op ∈ [">"; "<"] → from lx0 lx' → (left_over lx' + 1 = left_over lx)%nat →
     lx_last_token lx' = Some (Terminated op) → Q true lx') →
  Q false lx →
  wp parse_fault linx_lexer_num_op lx Q.
Proof.
  intros Hf Ht Hn. apply wp_num_op; [by eapply from_wf| |done]. intros lx' op Hin Ha Htok _.
  eapply Ht; [done|by eapply from_adv|by apply adv_left_over|done].
Qed.

(** Reading a token that may lack its terminator. *)
Lemma step_token lx t (Q : string → linx_lexer_t → Prop) :
  lx_last_token lx = Some t → (∀ s, t = Terminated s → Q s lx) → wp parse_fault last_token_str lx Q.
Proof.
  intros Ht H. unfold last_token_str. apply wp_bind, wp_ret. rewrite Ht.
  destruct t as [s|s]; [|right; by left]. split; [constructor|by apply H].
Qed.

Lemma step_overflow lx (Q : () → linx_lexer_t → Prop) :
  Q () lx → wp parse_fault (lift overflow) lx Q.
Proof. intros H. split; [|done]. apply Forall_singleton. right. by right. Qed.

Lemma step_init {A} (x : option A) lx (Q : A → linx_lexer_t → Prop) :
  (∀ a, x = Some a → Q a lx) → wp parse_fault (lift (init_or_ub x)) lx Q.
Proof. intros H. destruct x; [split; [constructor|by apply H]|by left]. Qed.
End steps.

Lemma wp_fmap {A B} U (f : A → B) (m : lexm A) lx Q :
  wp U m lx (λ a lx', Q (f a) lx') → wp U (f <$> m) lx Q.
Proof. intros Hm. apply wp_bind. eapply wp_mono; [exact Hm|]. intros a lx' HQ. by apply wp_ret. Qed.

(** Every tree-building function moves forward and builds a tree with [ok]. *)
Definition builds (ok : ast_node → bool) (m : lexm ast_node) (lx : linx_lexer_t) : Prop :=
  ∀ lx0 (Q : ast_node → linx_lexer_t → Prop),
    from lx0 lx →
    (∀ a lx', from lx0 lx' → (left_over lx' <= left_over lx)%nat → ok a = true → Q a lx') →
    wp parse_fault m lx Q.

(** The token that a later state still holds. *)
Ltac find_token :=
  repeat match goal with
  | E : lx_last_token ?l = lx_last_token _ |- lx_last_token ?l = _ => rewrite E
  end; eassumption.

(** [step_call] runs the next lexer call of the goal. *)
Ltac step_call :=
  lazymatch goal with
  | |- wp _ (mret _) _ _ => apply wp_ret
  | |- wp _ (fmap _ _) _ _ => apply wp_fmap
  | |- wp _ (mbind _ _) _ _ => apply wp_bind
  | |- wp _ linx_lexer_blank _ _ => eapply step_blank; [eassumption|intros ? ? ? ? ? ?]
  | |- wp _ (linx_lexer_find_str _) _ _ =>
      eapply step_find; [eassumption|intros ? ? ? ?|]
  | |- wp _ linx_lexer_quoted_str _ _ => eapply step_quoted; [eassumption|intros ? ? ? ? ?|]
  | |- wp _ (regex_token _) _ _ => eapply step_regex; try typeclasses eauto; [eassumption|intros ? ? ? ? ?|intros ? ? ?]
  | |- wp _ (linx_lexer_find_operator_list _) _ _ =>
      eapply step_ops; [eassumption|intros ? ? ? ? ? ?|]
  | |- wp _ linx_lexer_num_op _ _ => eapply step_num_op; [eassumption|intros ? ? ? ? ? ?|]
  | |- wp _ (lift overflow) _ _ => apply step_overflow
  | |- wp _ (lift (init_or_ub _)) _ _ => apply step_init; intros ? ?
  | |- wp _ last_token_str _ _ => eapply step_token; [find_token|intros ? ?]
  | |- wp _ get_lexer _ _ => apply wp_ret
  | |- wp _ (if _ then _ else _) _ _ => case_match
  | |- wp _ (match _ with _ => _ end) _ _ => case_match
  end; cbv beta; cbn [negb].

Section builds.
Context {P : Pcre2} {PL : Pcre2Laws P}.
Implicit Types (lx : linx_lexer_t).

Lemma use_builds ok m lx lx0 (Q : ast_node → linx_lexer_t → Prop) :
  builds ok m lx → from lx0 lx →
  (∀ a lx', from lx0 lx' → (left_over lx' <= left_over lx)%nat → ok a = true → Q a lx') →
  wp parse_fault m lx Q.
Proof. intros Hb. apply Hb. Qed.

Lemma builds_field_remainder lx t :
  lx_last_token lx = Some t → builds field_ok parse_field_remainder lx.
Proof.
  intros Ht lx0 Q Hf H. unfold parse_field_remainder, linx_lexer_field_arg_bare_str.
  repeat step_call; try (apply H; [eassumption|lia|done]).
Qed.

Lemma transformer_lookup op :
  op ∈ g_field_transformer_types → transformer_ok (op_str_to_field_transformer_type op) = true.
Proof. intros Hop. repeat (apply elem_of_cons in Hop as [->|Hop]; [done|]). by apply elem_of_nil in Hop. Qed.

Lemma field_left_ok a : field_ok a = true → left_ok a = true.
Proof. by destruct a. Qed.

Lemma left_ok_transformer op a :
  transformer_ok op = true → ast_null a = false → left_ok a = true →
  transformer_node_ok (ast_node_create_field_transformer op a) = true.
Proof. intros H1 H2 H3. cbn. by rewrite H1, H2, H3. Qed.

Lemma transformer_node_left_ok a : transformer_node_ok a = true → left_ok a = true.
Proof. by destruct a. Qed.

Lemma transformer_node_trans_ok a : transformer_node_ok a = true → trans_ok a = true.
Proof. by destruct a. Qed.

#[local] Hint Resolve field_left_ok left_ok_transformer transformer_node_left_ok
  transformer_node_trans_ok : linx.

(** [step] also runs the calls whose lemmas are above it. *)
Ltac step :=
  lazymatch goal with
  | |- wp _ parse_field_remainder _ _ =>
      eapply use_builds; [eapply builds_field_remainder; find_token|eassumption|intros ? ? ? ? ?]
  | |- wp _ text_fuel _ _ => apply wp_bind, wp_ret, wp_ret
  | _ => step_call
  end; cbv beta.

(** [call L]: the goal runs a function whose lemma is [L]. *)
Tactic Notation "call" uconstr(L) := eapply use_builds; [eapply L|eassumption|intros ? ? ? ? ?].

(** The continuation [H] of the goal applies to the state it ends in. *)
Ltac fin H := apply H; [eassumption|lia|try done; eauto with linx].

(** No operator text is empty. *)
Lemma ops_nonempty l op : forallb (λ s, negb (streq s "")) l = true → op ∈ l → (0 < strlen op)%nat.
Proof.
  rewrite forallb_forall. intros Hl Hop. apply list_elem_of_In in Hop.
  specialize (Hl _ Hop). by destruct op; [|cbn; lia].
Qed.

Lemma builds_transformer fuel lx op :
  lx_last_token lx = Some (Terminated op) → op ∈ g_field_transformer_types →
  (left_over lx < fuel)%nat → builds transformer_node_ok (parse_field_or_transformer_remainder fuel) lx.
Proof.
  revert lx op. induction fuel as [|fuel IH]; intros lx op Ht Hop Hfuel lx0 Q Hf H; [lia|].
  cbn [parse_field_or_transformer_remainder].
  unfold linx_lexer_field_transformer_type, linx_lexer_field_name.
  pose proof (transformer_lookup _ Hop) as Hok.
  repeat step; simplify_eq; try fin H.
  pose proof (ops_nonempty g_field_transformer_types op0 eq_refl ltac:(done)).
  call IH; [find_token|done|lia|].
  repeat step; simplify_eq; fin H.
Qed.

(** The text left never exceeds the text. *)
Lemma left_over_fuel lx : lex_wf lx → (left_over lx < S (strlen (lx_input lx)))%nat.
Proof. intros Hw. unfold left_over. rewrite strlen_rest by done. lia. Qed.

Lemma val_lookup op :
  op ∈ g_field_transformer_vals → op_str_to_field_transformer_val op = FIELD_TRANSFORMER_VAL.
Proof. intros Hop. repeat (apply elem_of_cons in Hop as [->|Hop]; [done|]). by apply elem_of_nil in Hop. Qed.

Lemma val_ok op a :
  op ∈ g_field_transformer_vals → field_ok a = true →
  trans_ok (ast_node_create_field_transformer_val (op_str_to_field_transformer_val op) a) = true.
Proof. intros Hop Ha. by rewrite val_lookup. Qed.
#[local] Hint Resolve val_ok : linx.

Lemma builds_try_parse lx : lex_wf lx → builds trans_ok try_parse_transformer_or_val lx.
Proof.
  intros Hw lx0 Q Hf H. unfold try_parse_transformer_or_val, linx_lexer_field_transformer_val,
    linx_lexer_field_transformer_type, linx_lexer_field_name.
  pose proof (left_over_fuel _ Hw).
  repeat step; simplify_eq; try fin H.
  call builds_transformer; [find_token|done|lia|]. fin H.
Qed.

Lemma trans_num_ok a : trans_ok a = true → num_ok a = true.
Proof. by destruct a. Qed.
Lemma trans_str_ok a : trans_ok a = true → str_ok a = true.
Proof. by destruct a. Qed.

Lemma num_ok_int v : LONG_MIN ≤ v ≤ LONG_MAX → num_ok (ast_node_create_number v) = true.
Proof. intros Hv. unfold num_ok, ast_node_create_number. lia. Qed.

Lemma sext_long z : LONG_MIN ≤ sext 64 z ≤ LONG_MAX.
Proof. pose proof (sext_range 64 z ltac:(lia)). unfold LONG_MIN, LONG_MAX. lia. Qed.

Lemma strtol10_long s : LONG_MIN ≤ (strtol10 s).1 ≤ LONG_MAX.
Proof.
  unfold strtol10. destruct (sign_of _) as [neg s1]. destruct (span isdigit s1) as [ds r].
  unfold LONG_MIN, LONG_MAX. case_match; cbn [fst]; lia.
Qed.
#[local] Hint Resolve trans_num_ok trans_str_ok num_ok_int sext_long strtol10_long : linx.

Lemma builds_num lx : lex_wf lx → builds num_ok parse_num_value_or_transformer lx.
Proof.
  intros Hw lx0 Q Hf H. unfold parse_num_value_or_transformer, linx_lexer_hex_num, linx_lexer_num.
  repeat step. call builds_try_parse; [by eapply from_wf|].
  repeat step; simplify_eq; fin H.
Qed.

Lemma builds_str nt lx : lex_wf lx → builds str_ok (parse_str_value_or_transformer nt) lx.
Proof.
  intros Hw lx0 Q Hf H. unfold parse_str_value_or_transformer, linx_lexer_bare_str.
  destruct nt.
  - repeat step; simplify_eq; fin H.
  - do 3 step. call builds_try_parse; [by eapply from_wf|].
    repeat step; simplify_eq; fin H.
Qed.

(** Without transformers only a string can come. *)
Lemma builds_item lx : lex_wf lx → builds item_ok (parse_str_value_or_transformer true) lx.
Proof.
  intros Hw lx0 Q Hf H. unfold parse_str_value_or_transformer, linx_lexer_bare_str.
  repeat step; simplify_eq; fin H.
Qed.

Lemma list_ok_add l a : list_ok (AstList l) = true → item_ok a = true →
  list_ok (add_item_to_list (AstList l) a) = true.
Proof. cbn. intros Hl Ha. by rewrite forallb_app, Hl; cbn; rewrite Ha. Qed.

Lemma builds_list_loop fuel l lx :
  lex_wf lx → (left_over lx < fuel)%nat → list_ok (AstList l) = true →
  builds list_ok (list_loop fuel (AstList l)) lx.
Proof.
  revert l lx. induction fuel as [|fuel IH]; intros l lx Hw Hfuel Hl lx0 Q Hf H; [lia|].
  cbn [list_loop]. repeat step; [|by fin H].
  cbn [strlen] in *. call builds_item; [by eapply from_wf|]. do 2 step.
  change (add_item_to_list (AstList l) a) with (AstList (l ++ [a])).
  call IH; [by eapply from_wf|lia|by apply list_ok_add|]. fin H.
Qed.

Lemma null_list_ok a : ast_null a = true → list_ok a = true.
Proof. by destruct a. Qed.
#[local] Hint Resolve null_list_ok : linx.

Lemma builds_list lx : lex_wf lx → builds list_ok parse_list_value_or_transformer lx.
Proof.
  intros Hw lx0 Q Hf H. unfold parse_list_value_or_transformer, linx_lexer_identifier.
  pose proof (left_over_fuel _ Hw). repeat step.
  - call builds_item; [by eapply from_wf|]. repeat step; [fin H|fin H|].
    change (add_item_to_list ast_node_create_list a) with (AstList [a]).
    call builds_list_loop; [by eapply from_wf|lia|by apply (list_ok_add [])|].
    repeat step; fin H.
  - call builds_try_parse; [by eapply from_wf|]. repeat step; try fin H.
Qed.

Lemma cond_ok_unary op l :
  op ∈ take (length g_unary_ops - 1) g_unary_ops → left_ok l = true →
  cond_ok (ast_node_create_unary (op_str_to_unary_op op) l) = true.
Proof. intros Hop Hl. cbn in Hop. by apply list_elem_of_singleton in Hop as ->. Qed.

Lemma cond_ok_num op l r :
  op ∈ [">"; "<"] → left_ok l = true → num_ok r = true →
  cond_ok (ast_node_create_binary_num (op_str_to_binary_num_op op) l r) = true.
Proof.
  intros Hop Hl Hr. repeat (apply elem_of_cons in Hop as [->|Hop]; [cbn; by rewrite Hl, Hr|]).
  by apply elem_of_nil in Hop.
Qed.

Lemma cond_ok_str op l r :
  op ∈ g_binary_str_ops → left_ok l = true → str_ok r = true →
  cond_ok (ast_node_create_binary_str (op_str_to_binary_str_op op) l r) = true.
Proof.
  intros Hop Hl Hr. repeat (apply elem_of_cons in Hop as [->|Hop]; [cbn; by rewrite Hl, Hr|]).
  by apply elem_of_nil in Hop.
Qed.

Lemma cond_ok_list op l r :
  op ∈ g_binary_list_ops → left_ok l = true → list_ok r = true →
  cond_ok (ast_node_create_binary_list (op_str_to_binary_list_op op) l r) = true.
Proof.
  intros Hop Hl Hr. repeat (apply elem_of_cons in Hop as [->|Hop]; [cbn; by rewrite Hl, Hr|]).
  by apply elem_of_nil in Hop.
Qed.
#[local] Hint Resolve cond_ok_unary cond_ok_num cond_ok_str cond_ok_list : linx.

Lemma builds_condition l lx : lex_wf lx → left_ok l = true → builds cond_ok (parse_condition l) lx.
Proof.
  intros Hw Hl lx0 Q Hf H.
  unfold parse_condition, linx_lexer_unary_op, linx_lexer_str_op, linx_lexer_list_op.
  repeat step; simplify_eq; try fin H; try by left.
  - call builds_num; [by eapply from_wf|]. step. fin H.
  - call builds_str; [by eapply from_wf|]. step. fin H.
  - call builds_list; [by eapply from_wf|]. step. fin H.
Qed.

Lemma run_not_loop fuel b lx0 lx (Q : bool → linx_lexer_t → Prop) :
  (left_over lx < fuel)%nat → from lx0 lx →
  (∀ b' lx', from lx0 lx' → (left_over lx' <= left_over lx)%nat → Q b' lx') →
  wp parse_fault (not_loop fuel b) lx Q.
Proof.
  revert b lx. induction fuel as [|fuel IH]; intros b lx Hfuel Hf H; [lia|].
  cbn [not_loop]. unfold linx_lexer_not_blank. repeat step.
  - apply IH; [lia|done|]. intros b' lx2 Hf2 Hl2. apply H; [done|lia].
  - apply H; [done|lia].
Qed.

(** Fuel that is enough for each of the functions that call each other. *)
Definition fuelled (k : nat) (parse : nat → lexm ast_node) (fuel : nat) : Prop :=
  ∀ lx, lex_wf lx → (8 * left_over lx + k <= fuel)%nat → builds cond_ok (parse fuel) lx.

Definition right_ok (right : option ast_node) : Prop := ∀ a, right = Some a → cond_ok a = true.

Definition fuelled_loop (loop : nat → ast_node → option ast_node → ast_node → lexm ast_node)
    (fuel : nat) : Prop :=
  ∀ lx left right node, lex_wf lx → (8 * left_over lx + 1 <= fuel)%nat →
    cond_ok left = true → right_ok right → cond_ok node = true →
    builds cond_ok (loop fuel left right node) lx.

Lemma use_fuelled k parse fuel lx :
  fuelled k parse fuel → lex_wf lx → (8 * left_over lx + k <= fuel)%nat →
  builds cond_ok (parse fuel) lx.
Proof. auto. Qed.

Lemma use_loop loop fuel lx left right node :
  fuelled_loop loop fuel → lex_wf lx → (8 * left_over lx + 1 <= fuel)%nat →
  cond_ok left = true → right_ok right → cond_ok node = true →
  builds cond_ok (loop fuel left right node) lx.
Proof. auto. Qed.

(** An operand after the word, at a cursor [2] characters or more behind. *)
Lemma run_operand k1 k2 parse fuel right lx0 lx (Q : option ast_node → linx_lexer_t → Prop) :
  fuelled k1 parse fuel → fuelled k2 parse_embedded_remainder fuel →
  (8 * left_over lx + k1 <= fuel)%nat → (8 * left_over lx + k2 <= fuel + 8)%nat →
  from lx0 lx → right_ok right →
  (∀ r lx', from lx0 lx' → (left_over lx' <= left_over lx)%nat → right_ok r → Q r lx') →
  wp parse_fault (bool_operand (parse fuel) (parse_embedded_remainder fuel) right) lx Q.
Proof.
  intros Hp He H1 H2 Hf Hr H. unfold bool_operand. repeat step.
  - call (use_fuelled _ _ _ _ Hp); [by eapply from_wf|lia|]. apply H; [done|lia|]. by intros ? [= <-].
  - cbn [strlen] in *. call (use_fuelled _ _ _ _ He); [by eapply from_wf|lia|]. apply H; [done|lia|]. by intros ? [= <-].
  - apply H; [done|lia|done].
Qed.

Lemma cond_ok_bool op l r :
  op ≠ BINARY_BOOL_OP_INVALID → cond_ok l = true → cond_ok r = true →
  cond_ok (ast_node_create_binary_bool op l r) = true.
Proof. intros Ho Hl Hr. cbn. by rewrite bool_decide_true, Hl, Hr. Qed.

Lemma or_loop_step fuel :
  fuelled 4 parse_and fuel → fuelled 6 parse_embedded_remainder fuel → fuelled_loop or_loop fuel →
  fuelled_loop or_loop (S fuel).
Proof.
  intros Ha He Hl lx left right node Hw Hfuel Hleft Hright Hnode lx0 Q Hf H. cbn [or_loop].
  repeat step; [|apply H; [done|lia|by destruct (ast_null node)]]. cbn [strlen] in *.
  eapply run_operand; [exact Ha|exact He|lia|lia|eassumption|done|]. intros r lx1 Hf1 Hl1 Hr1.
  repeat step. simplify_eq.
  assert (cond_ok (ast_node_create_binary_bool BINARY_BOOL_OP_OR left a) = true)
    by (apply cond_ok_bool; auto).
  call (use_loop _ _ _ _ _ _ Hl); [by eapply from_wf|lia|done..|]. fin H.
Qed.

Lemma and_loop_step fuel :
  fuelled 3 parse_not fuel → fuelled 6 parse_embedded_remainder fuel → fuelled_loop and_loop fuel →
  fuelled_loop and_loop (S fuel).
Proof.
  intros Ha He Hl lx left right node Hw Hfuel Hleft Hright Hnode lx0 Q Hf H. cbn [and_loop].
  repeat step; [|apply H; [done|lia|by destruct (ast_null node)]]. cbn [strlen] in *.
  eapply run_operand; [exact Ha|exact He|lia|lia|eassumption|done|]. intros r lx1 Hf1 Hl1 Hr1.
  repeat step. simplify_eq.
  assert (cond_ok (ast_node_create_binary_bool BINARY_BOOL_OP_AND left a) = true)
    by (apply cond_ok_bool; auto).
  call (use_loop _ _ _ _ _ _ Hl); [by eapply from_wf|lia|done..|]. fin H.
Qed.

Lemma parse_or_step fuel :
  fuelled 4 parse_and fuel → fuelled_loop or_loop fuel → fuelled 5 parse_or (S fuel).
Proof.
  intros Ha Hl lx Hw Hfuel lx0 Q Hf H. cbn [parse_or]. do 3 step.
  call (use_fuelled _ _ _ _ Ha); [by eapply from_wf|lia|]. do 2 step.
  call (use_loop _ _ _ _ _ _ Hl); [by eapply from_wf|lia|done|done|done|]. fin H.
Qed.

Lemma parse_and_step fuel :
  fuelled 3 parse_not fuel → fuelled_loop and_loop fuel → fuelled 4 parse_and (S fuel).
Proof.
  intros Ha Hl lx Hw Hfuel lx0 Q Hf H. cbn [parse_and]. do 3 step.
  call (use_fuelled _ _ _ _ Ha); [by eapply from_wf|lia|]. do 2 step.
  call (use_loop _ _ _ _ _ _ Hl); [by eapply from_wf|lia|done|done|done|]. fin H.
Qed.

Lemma parse_not_step fuel :
  fuelled 2 parse_check fuel → fuelled 6 parse_embedded_remainder fuel → fuelled 3 parse_not (S fuel).
Proof.
  intros Hc He lx Hw Hfuel lx0 Q Hf H. cbn [parse_not]. pose proof (left_over_fuel _ Hw).
  do 5 step. eapply run_not_loop; [|eassumption|]; [lia|]. intros nb lx1 Hf1 Hl1.
  repeat step.
  - cbn [strlen] in *. call (use_fuelled _ _ _ _ He); [by eapply from_wf|lia|]. step. apply H; [done|lia|by repeat case_match].
  - call (use_fuelled _ _ _ _ Hc); [by eapply from_wf|lia|]. step. apply H; [done|lia|by repeat case_match].
Qed.

Lemma parse_check_step fuel :
  fuelled 6 parse_embedded_remainder fuel → fuelled 2 parse_check (S fuel).
Proof.
  intros He lx Hw Hfuel lx0 Q Hf H. cbn [parse_check]. pose proof (left_over_fuel _ Hw).
  unfold linx_lexer_field_name, linx_lexer_field_transformer_type, linx_lexer_identifier.
  repeat step; try fin H.
  - cbn [strlen] in *. call (use_fuelled _ _ _ _ He); [by eapply from_wf|lia|]. fin H.
  - call builds_condition; [by eapply from_wf|by apply field_left_ok|]. fin H.
  - call builds_transformer; [find_token|done|lia|].
    call builds_condition; [by eapply from_wf|by apply transformer_node_left_ok|]. fin H.
Qed.

Lemma parse_embedded_step fuel :
  fuelled 5 parse_or fuel → fuelled 6 parse_embedded_remainder (S fuel).
Proof.
  intros Ho lx Hw Hfuel lx0 Q Hf H. cbn [parse_embedded_remainder]. do 3 step.
  call (use_fuelled _ _ _ _ Ho); [by eapply from_wf|lia|]. repeat step; fin H.
Qed.

(** Enough fuel for every text. *)
Lemma parser_fuelled fuel :
  fuelled 5 parse_or fuel ∧ fuelled_loop or_loop fuel ∧ fuelled 4 parse_and fuel
  ∧ fuelled_loop and_loop fuel ∧ fuelled 3 parse_not fuel ∧ fuelled 2 parse_check fuel
  ∧ fuelled 6 parse_embedded_remainder fuel.
Proof.
  induction fuel as [|fuel (H1 & H2 & H3 & H4 & H5 & H6 & H7)].
  - unfold fuelled, fuelled_loop. repeat split; intros; lia.
  - eauto 15 using parse_or_step, or_loop_step, parse_and_step, and_loop_step, parse_not_step,
      parse_check_step, parse_embedded_step.
Qed.
End builds.
(** ** Properties *)

(** C17: parsing ends on every condition, with a tree the compiler
    understands or in one of three known ways.  For a text shorter than 2^31
    characters and any regular-expression library that keeps its contract,
    [condition_to_ast] returns 0 with a well-formed tree or -1 with a null
    pointer (the only faults it passed over being writes past a duplicated
    field name), or it uses a pointer it never set (a missing operator, a
    missing operand of "and" or "or", an empty transformer), or it reads a
    quoted string without an end.  A null condition is read through before
    the check that would reject it. *)
Theorem condition_to_ast_total {P : Pcre2} {PL : Pcre2Laws P} (s : string) :
  Z.of_nat (strlen s) < 2 ^ 31 →
  match condition_to_ast (Some s) with
  | Ret w (ret, a) =>
      cond_ok a = true ∧ ret = (if ast_null a then -1 else 0) ∧ Forall parse_fault w
  | Ub f => parse_fault f
  | NoFuel => False
  end
  ∧ condition_to_ast None = Ub NullDeref.
Proof.
  intros Hs. split; [|done].
  destruct (linx_lexer_create_wf s Hs) as (lx & E & Hw & Hi & Hr).
  unfold condition_to_ast. rewrite E, bind_Ret_nil.
  destruct (parser_fuelled (8 * S (strlen (lx_input lx)))) as [Hor _].
  assert (Hl : left_over lx = strlen (lx_input lx)) by (unfold left_over; by rewrite Hr, Hi).
  pose proof (use_fuelled _ _ _ lx Hor Hw ltac:(lia) lx (λ a _, cond_ok a = true)
                (from_refl _ Hw) ltac:(auto)) as Hp.
  unfold wp in Hp. destruct (parse_or _ lx) as [w [a lx']| |]; [|done..].
  destruct Hp as [Hf Hp]. destruct (prints_cond a ltac:(naive_solver)) as (t & Ht).
  cbn. rewrite Ht. cbn. rewrite app_nil_r. naive_solver.
Qed.

Lemma condition_to_ast_total_witness :
  condition_to_ast (H := lexer_engine) (Some "proc.pid >= 10") =
    Ret [] (0, AstNum BINARY_NUM_OP_GT (AstField "proc.pid") AstNull)
  ∧ cond_ok (AstNum BINARY_NUM_OP_GT (AstField "proc.pid") AstNull) = true.
Proof.
  pose proof (condition_to_ast_total (P := lexer_engine) "proc.pid >= 10" ltac:(reflexivity)) as [H _].
  assert (E : condition_to_ast (H := lexer_engine) (Some "proc.pid >= 10") =
    Ret [] (0, AstNum BINARY_NUM_OP_GT (AstField "proc.pid") AstNull)) by (vm_compute; reflexivity).
  rewrite E in H. split; [exact E|exact (proj1 H)].
Defined.

Definition parse_ex (s : string) : outcome (Z * ast_node) :=
  condition_to_ast (H := lexer_engine) (Some s).

Example parse_ex1 : parse_ex "proc.name = 'ls' and not (proc.pid > 0x10 or evt.arg[fd] in (a, b))" =
  Ret [HeapOverflow; HeapOverflow] (0,
    AstBool BINARY_BOOL_OP_AND
      (AstStr BINARY_STR_OP_ASSIGN (AstField "proc.name") (AstString "ls"))
      (AstUnary UNARY_OP_NOT
        (AstBool BINARY_BOOL_OP_OR
          (AstNum BINARY_NUM_OP_GT (AstField "proc.pid") (AstInt 16))
          (AstListOp BINARY_LIST_OP_IN (AstField "evt.arg.fd") (AstList [AstString "a"; AstString "b"]))))).
Proof. vm_compute. reflexivity. Qed.
