(* ===== verification/Syntax.v ===== *)
(** * Concrete syntax of conditions

    A grammar of conditions as an author writes them, its text and the tree
    it stands for, and the theorem that the parser maps the one to the
    other.  The atoms are comparisons of a field with a quoted string, a
    decimal number or a list of quoted strings, and tests for existence;
    operands of the connectives are parenthesised. *)
From S2P Require Import Prelude CString OpType Regex Lexer Float Ast Parser.
From Stdlib Require Import Ascii.

#[local] Open Scope Z_scope.

Inductive src :=
  | SStr (f : string) (op : binary_str_op_type_t) (v : string)
  | SNum (f : string) (op : binary_num_op_type_t) (ds : string)
  | SIn (f : string) (v : string) (vs : list string)
  | SExists (f : string)
  | SNot (c : src)
  | SAnd (a b : src)
  | SOr (a b : src).

Definition str_op_text (op : binary_str_op_type_t) : string :=
  match op with
  | BINARY_STR_OP_EQ => "=="
  | BINARY_STR_OP_ASSIGN => "="
  | BINARY_STR_OP_NE => "!="
  | BINARY_STR_OP_GLOB => "glob "
  | BINARY_STR_OP_IGLOB => "iglob "
  | BINARY_STR_OP_CONTAINS => "contains "
  | BINARY_STR_OP_ICONTAINS => "icontains "
  | BINARY_STR_OP_BCONTAINS => "bcontains "
  | BINARY_STR_OP_STARTSWITH => "startswith "
  | BINARY_STR_OP_BSTARTSWITH => "bstartswith "
  | BINARY_STR_OP_ENDSWITH => "endswith "
  | BINARY_STR_OP_REGEX => "regex "
  | BINARY_STR_OP_INVALID => ""
  end.

Definition num_op_text (op : binary_num_op_type_t) : string :=
  match op with BINARY_NUM_OP_GT => "> " | _ => "< " end.

(** A text between single quotes. *)
Definition quote (v : string) (t : string) : string :=
  String SQ (escape_str SQ v +:+ String SQ t).

Fixpoint print_items (vs : list string) (t : string) : string :=
  match vs with
  | [] => String ")" t
  | v :: vs' => ", " +:+ quote v (print_items vs' t)
  end.

(** The text of a condition followed by [t]. *)
Fixpoint print (c : src) (t : string) : string :=
  match c with
  | SStr f op v => f +:+ String " " (str_op_text op +:+ quote v t)
  | SNum f op ds => f +:+ String " " (num_op_text op +:+ ds +:+ t)
  | SIn f v vs => f +:+ String " " ("in (" +:+ quote v (print_items vs t))
  | SExists f => f +:+ String " " ("exists" +:+ t)
  | SNot c => "not (" +:+ print c (String ")" t)
  | SAnd a b => "(" +:+ print a (") and (" +:+ print b (String ")" t))
  | SOr a b => "(" +:+ print a (") or (" +:+ print b (String ")" t))
  end.

Fixpoint to_ast (c : src) : ast_node :=
  match c with
  | SStr f op v => AstStr op (AstField f) (AstString v)
  | SNum f op ds => AstNum op (AstField f) (AstInt (strtol10 ds).1)
  | SIn f v vs => AstListOp BINARY_LIST_OP_IN (AstField f) (AstList (AstString <$> v :: vs))
  | SExists f => AstUnary UNARY_OP_EXISTS (AstField f)
  | SNot c => AstUnary UNARY_OP_NOT (to_ast c)
  | SAnd a b => AstBool BINARY_BOOL_OP_AND (to_ast a) (to_ast b)
  | SOr a b => AstBool BINARY_BOOL_OP_OR (to_ast a) (to_ast b)
  end.

(** A field name is a whole match of its pattern; a quoted text does not end
    in a backslash (see [quoted_str_roundtrip]). *)
Definition field_src (f : string) : bool := bool_decide (fieldname_len f = Some (strlen f)).
Definition text_src (v : string) : bool := negb (Ascii.eqb (last_char SQ v) BACKSLASH).
Definition digits_src (ds : string) : bool :=
  negb (streq ds "") && forallb isdigit (String.list_ascii_of_string ds).

Fixpoint src_ok (c : src) : bool :=
  match c with
  | SStr f op v => field_src f && bool_decide (op ≠ BINARY_STR_OP_INVALID) && text_src v
  | SNum f op ds => field_src f && num_op_ok op && digits_src ds
  | SIn f v vs => field_src f && text_src v && forallb text_src vs
  | SExists f => field_src f
  | SNot c => src_ok c
  | SAnd a b | SOr a b => src_ok a && src_ok b
  end.

(** ** Characters *)
Lemma char_cases (p : ascii → bool) :
  forallb (λ n, p (ascii_of_nat n)) (seq 0 256) = true → ∀ c, p c = true.
Proof.
  intros Hp c. rewrite forallb_forall in Hp. rewrite <- (ascii_nat_embedding c).
  apply Hp, in_seq. pose proof (nat_ascii_bounded c). lia.
Qed.

Definition not_first (c : ascii) (op : string) : bool :=
  match op with EmptyString => false | String x _ => negb (Ascii.eqb c x) end.

(** Facts about the first character of an identifier, of a number and of a
    closing parenthesis. *)
Lemma alpha_facts c :
  isalpha c = true → isalnum_ c = true ∧ is_blank c = false ∧ Ascii.eqb c "(" = false
    ∧ Ascii.eqb c ")" = false.
Proof.
  pose proof (char_cases (λ c, negb (isalpha c) || (isalnum_ c && negb (is_blank c)
    && negb (Ascii.eqb c "(") && negb (Ascii.eqb c ")"))) ltac:(vm_compute; reflexivity) c) as H.
  cbn in H. intros Hc. rewrite Hc in H. cbn in H. rewrite !andb_true_iff, !negb_true_iff in H. tauto.
Qed.

Lemma digit_facts c :
  isdigit c = true → is_blank c = false ∧ isspace c = false
    ∧ forallb (not_first c) (g_field_transformer_vals ++ g_field_transformer_types) = true
    ∧ Ascii.eqb c "x" || Ascii.eqb c "X" = false ∧ Ascii.eqb c "." = false
    ∧ Ascii.eqb c "+" || Ascii.eqb c "-" = false ∧ is_quote c = false.
Proof.
  pose proof (char_cases (λ c, negb (isdigit c) || (negb (is_blank c) && negb (isspace c)
    && forallb (not_first c) (g_field_transformer_vals ++ g_field_transformer_types)
    && negb (Ascii.eqb c "x" || Ascii.eqb c "X") && negb (Ascii.eqb c ".")
    && negb (Ascii.eqb c "+" || Ascii.eqb c "-") && negb (is_quote c)))
    ltac:(vm_compute; reflexivity) c) as H.
  cbv beta in H. intros Hc. rewrite Hc in H. cbn [negb orb] in H.
  rewrite !andb_true_iff, !negb_true_iff in H. tauto.
Qed.

(** Characters of a field name. *)
Definition field_char (c : ascii) : bool := isalnum_ c || Ascii.eqb c DOT.

Lemma field_char_facts c :
  field_char c = true → isspace c = false ∧ Ascii.eqb c "(" = false ∧ Ascii.eqb c " " = false.
Proof.
  pose proof (char_cases (λ c, negb (field_char c) || (negb (isspace c)
    && negb (Ascii.eqb c "(") && negb (Ascii.eqb c " "))) ltac:(vm_compute; reflexivity) c) as H.
  cbv beta in H. intros Hc. rewrite Hc in H. cbn [negb orb] in H.
  rewrite !andb_true_iff, !negb_true_iff in H. tauto.
Qed.

(** ** Spans over a text that is followed by another *)
Lemma span_len_le p s : (span_len p s <= strlen s)%nat.
Proof. induction s as [|c s IH]; [done|]. rewrite span_len_cons. cbn. destruct (p c); lia. Qed.

Lemma span_len_stop p s c t : p c = false → span_len p (s +:+ String c t) = span_len p s.
Proof.
  intros Hc. induction s as [|x s IH]; cbn [String.append]; rewrite ?span_len_cons; [by rewrite Hc|].
  destruct (p x); [by rewrite IH|done].
Qed.

Lemma span_len_all p s : sforall p s = true → span_len p s = strlen s.
Proof.
  induction s as [|x s IH]; [done|]. unfold sforall; cbn. rewrite span_len_cons.
  intros [-> H]%andb_true_iff. f_equal. by apply IH.
Qed.

Lemma span_len_chars p s : sforall p (stake (span_len p s) s) = true.
Proof.
  induction s as [|c s IH]; [done|]. rewrite span_len_cons. destruct (p c) eqn:E; [|done].
  unfold sforall in *. cbn. by rewrite E, IH.
Qed.

Lemma sdrop_app_le n a b : (n <= strlen a)%nat → sdrop n (a +:+ b) = sdrop n a +:+ b.
Proof.
  revert a. induction n as [|n IH]; intros [|c a]; cbn; [done|done|lia|]. intros H. apply IH. lia.
Qed.

Lemma ident_len_bounds s k :
  ident_len s = Some k → (k <= strlen s)%nat ∧ sforall isalnum_ (stake k s) = true.
Proof.
  destruct s as [|c s]; [done|]. unfold ident_len. destruct (isalpha c); [|done]. intros [= <-].
  split; [apply span_len_le|apply span_len_chars].
Qed.

Lemma ident_len_stop s c t :
  isalnum_ c = false → ident_len (s +:+ String c t) = ident_len s.
Proof.
  intros Hc. destruct s as [|x s]; cbn [String.append ident_len].
  - destruct (isalpha c) eqn:E; [|done]. apply alpha_facts in E. naive_solver congruence.
  - destruct (isalpha x); [|done]. by rewrite <- (span_len_stop isalnum_ (String x s) c t Hc).
Qed.

Lemma field_char_false c : field_char c = false → isalnum_ c = false ∧ Ascii.eqb c DOT = false.
Proof. apply orb_false_iff. Qed.

Lemma dotted_len_stop c t n m s :
  field_char c = false → (strlen s <= n)%nat → (strlen s <= m)%nat →
  dotted_len n (s +:+ String c t) = dotted_len m s.
Proof.
  intros Hc. pose proof (field_char_false _ Hc) as [Ha Hd].
  revert m s. induction n as [|n IH]; intros m [|x s] Hn Hm; cbn in Hn; try lia.
  - by destruct m.
  - cbn. rewrite Hd. by destruct m.
  - destruct m as [|m]; cbn in Hm; [lia|]. cbn [String.append dotted_len].
    destruct (Ascii.eqb x DOT); [|done]. rewrite ident_len_stop by done.
    destruct (ident_len s) as [k|] eqn:E; [|done]. apply ident_len_bounds in E as [Hk _].
    rewrite sdrop_app_le by done. f_equal. apply IH; rewrite strlen_sdrop; lia.
Qed.

Lemma fieldname_len_stop f c t :
  field_char c = false → fieldname_len (f +:+ String c t) = fieldname_len f.
Proof.
  intros Hc. unfold fieldname_len. rewrite ident_len_stop by (by apply field_char_false).
  destruct (ident_len f) as [k|] eqn:E; [|done]. apply ident_len_bounds in E as [Hk _]. cbn.
  rewrite sdrop_app_le by done. f_equal. f_equal.
  apply dotted_len_stop; [done|rewrite strlen_app, strlen_sdrop|rewrite strlen_sdrop]; lia.
Qed.

Lemma sforall_stake_add p n m s :
  sforall p (stake n s) = true → sforall p (stake m (sdrop n s)) = true →
  sforall p (stake (n + m) s) = true.
Proof.
  revert s. induction n as [|n IH]; intros [|c s]; cbn; [done..|].
  unfold sforall in *; cbn. rewrite !andb_true_iff. naive_solver.
Qed.

Lemma dotted_len_chars n s : sforall field_char (stake (dotted_len n s) s) = true.
Proof.
  revert s. induction n as [|n IH]; intros [|c s]; cbn [dotted_len stake]; [done..|].
  destruct (Ascii.eqb c DOT) eqn:E; [|done]. destruct (ident_len s) as [k|] eqn:Ei; [|done].
  cbn [Nat.add stake]. unfold sforall; cbn [String.list_ascii_of_string forallb].
  apply andb_true_iff. split; [unfold field_char; by rewrite E, orb_true_r|].
  apply ident_len_bounds in Ei as [_ Hk]. apply sforall_stake_add; [|apply IH].
  revert Hk. apply sforall_impl. intros x Hx. unfold field_char. by rewrite Hx.
Qed.

Lemma fieldname_chars f n : fieldname_len f = Some n → sforall field_char (stake n f) = true.
Proof.
  unfold fieldname_len. destruct (ident_len f) as [k|] eqn:E; [|done]. cbn.
  unfold some_len. destruct (_ =? 0)%nat; [done|]. cbn. intros [= <-].
  apply ident_len_bounds in E as [_ Hk]. apply sforall_stake_add; [|apply dotted_len_chars].
  revert Hk. apply sforall_impl. intros x Hx. unfold field_char. by rewrite Hx.
Qed.

#[local] Arguments Ascii.eqb : simpl never.

(** ** Fields at the cursor *)
Section field.
Context (f : string) (Hf : field_src f = true).

Lemma field_src_len : fieldname_len f = Some (strlen f).
Proof. by apply bool_decide_eq_true in Hf. Qed.

Lemma field_src_chars : sforall field_char f = true.
Proof. rewrite <- (stake_all f). apply fieldname_chars, field_src_len. Qed.

Lemma field_src_head : ∃ c f', f = String c f' ∧ isalpha c = true.
Proof.
  pose proof field_src_len as H. destruct f as [|c f']; [done|]. exists c, f'. split; [done|].
  unfold fieldname_len, ident_len in H. by destruct (isalpha c).
Qed.

(** A word of field characters and a parenthesis do not start the text. *)
Lemma field_no_paren w r :
  sforall field_char w = true →
  strncmp0 (f +:+ String " " r) (w +:+ "(") (strlen (w +:+ "(")) = false.
Proof.
  intros Hw. pose proof field_src_chars as Hc. revert w Hw Hc. clear Hf.
  induction f as [|x g IH]; intros [|y w] Hw Hc; cbn; [done| | |].
  - unfold sforall in Hw; cbn in Hw. apply andb_true_iff in Hw as [Hy _].
    apply field_char_facts in Hy as (_ & _ & Hy). rewrite Ascii.eqb_sym in Hy.
    by rewrite Hy.
  - unfold sforall in Hc; cbn in Hc. apply andb_true_iff in Hc as [Hx _].
    apply field_char_facts in Hx as (_ & Hx & _). by rewrite Hx.
  - unfold sforall in Hw, Hc; cbn in Hw, Hc. apply andb_true_iff in Hw as [_ Hw].
    apply andb_true_iff in Hc as [_ Hc]. rewrite IH by done. apply andb_false_r.
Qed.

Lemma field_not_notblank r : notblank_len (f +:+ String " " r) = None.
Proof.
  unfold notblank_len. destruct (strncmp0 _ "not" 3) eqn:E; [|done].
  pose proof field_src_len as Hl. pose proof field_src_chars as Hc. clear Hf.
  destruct f as [|a [|b [|c g]]]; cbn in E;
    try (rewrite ?andb_false_r in E; discriminate).
  rewrite !andb_true_iff, !Ascii.eqb_eq in E. destruct E as (-> & -> & -> & _).
  destruct g as [|d g]; [done|]. cbn.
  unfold sforall in Hc; cbn [String.list_ascii_of_string forallb] in Hc.
  rewrite !andb_true_iff in Hc. destruct Hc as (_ & _ & _ & Hd & _).
  apply field_char_facts in Hd as (Hd & _). by rewrite span_len_cons, Hd.
Qed.
End field.

(** ** Exact steps of the lexer *)

(** [at_ lx s]: the text left at [lx] is [s]. *)
Definition at_ (lx : linx_lexer_t) (s : string) : Prop := lex_wf lx ∧ rest lx = s.

Lemma at_adv n lx lx' s : at_ lx s → adv n lx lx' → at_ lx' (sdrop n s).
Proof. intros [_ <-] Ha. split; [by eapply adv_wf|apply (adv_rest _ _ _ Ha)]. Qed.

Lemma at_left_over lx s : at_ lx s → left_over lx = strlen s.
Proof. intros [_ <-]. done. Qed.

(** The first operator of the list that the text starts with. *)
Definition op_scan (l : list string) (s : string) : option string :=
  List.find (λ op, strncmp0 s op (strlen op)) l.

Section exact.
Context (U : fault → Prop) {P : Pcre2} {PP : Pcre2Patterns P}.
Implicit Types (lx : linx_lexer_t) (s t : string).

Lemma x_blank b s lx (Q : bool → linx_lexer_t → Prop) :
  at_ lx (b +:+ s) → sforall is_blank b = true →
  match s with String c _ => is_blank c = false | EmptyString => True end →
  (∀ lx', at_ lx' s → lx_last_token lx' = lx_last_token lx → Q (negb (streq b "")) lx') →
  wp U linx_lexer_blank lx Q.
Proof.
  intros Hat Hb Hs H. pose proof Hat as [Hw Hr]. apply wp_blank; [done|]. intros n lx' Ha Ht Hn.
  assert (En : n = strlen b).
  { rewrite Hn, Hr. destruct s as [|c s].
    - rewrite sapp_nil_r. by apply span_len_all.
    - rewrite span_len_stop by done. by apply span_len_all. }
  apply (at_adv _ _ _ _ Hat) in Ha. rewrite En, sdrop_app_length in Ha.
  replace (negb (n =? 0)%nat) with (negb (streq b "")); [by apply H|].
  rewrite En. by destruct b.
Qed.

Lemma x_noblank s lx (Q : bool → linx_lexer_t → Prop) :
  at_ lx s → match s with String c _ => is_blank c = false | EmptyString => True end →
  (∀ lx', at_ lx' s → lx_last_token lx' = lx_last_token lx → Q false lx') →
  wp U linx_lexer_blank lx Q.
Proof. intros Hat Hs H. by apply (x_blank "" s). Qed.

Lemma x_ops l s lx (Q : bool → linx_lexer_t → Prop) :
  at_ lx s →
  match op_scan l s with
  | Some op => ∀ lx', at_ lx' (sdrop (strlen op) s) → lx_last_token lx' = Some (Terminated op) → Q true lx'
  | None => Q false lx
  end →
  wp U (linx_lexer_find_operator_list l) lx Q.
Proof.
  intros Hat. pose proof Hat as [Hw Hr].
  induction l as [|op l IH]; intros H; cbn [linx_lexer_find_operator_list]; [by apply wp_ret|].
  cbn in H. apply wp_bind, wp_find_str; [done| |].
  - intros lx' t Ha Ht E. apply wp_ret.
    assert (strncmp0 s op (strlen op) = true) as Hs by (apply strncmp0_prefix; rewrite <- Hr; eauto).
    rewrite Hs in H. apply H; [by eapply at_adv|done].
  - intros Hno. destruct (strncmp0 s op (strlen op)) eqn:E; [|by apply IH].
    apply strncmp0_prefix in E as [t Et]. destruct (Hno t). congruence.
Qed.

Lemma x_find str s lx (Q : bool → linx_lexer_t → Prop) :
  at_ lx s →
  (if strncmp0 s str (strlen str)
   then ∀ lx', at_ lx' (sdrop (strlen str) s) → lx_last_token lx' = Some (Terminated str) → Q true lx'
   else Q false lx) →
  wp U (linx_lexer_find_str str) lx Q.
Proof.
  intros Hat H. pose proof Hat as [Hw Hr]. apply wp_find_str; [done| |].
  - intros lx' t Ha Ht E.
    assert (strncmp0 s str (strlen str) = true) as Hs by (apply strncmp0_prefix; rewrite <- Hr; eauto).
    rewrite Hs in H. apply H; [by eapply at_adv|done].
  - intros Hno. destruct (strncmp0 s str (strlen str)) eqn:E; [|done].
    apply strncmp0_prefix in E as [t Et]. destruct (Hno t). congruence.
Qed.

Lemma set_same_token lx :
  mk_lexer (lx_input lx) (lx_line lx) (lx_col lx) (lx_idx lx) (lx_len lx) (lx_last_token lx) = lx.
Proof. by destruct lx. Qed.

Lemma x_regex p s lx (Q : bool → linx_lexer_t → Prop) :
  p ∈ lexer_patterns → at_ lx s →
  match p.2 s with
  | Some n => (0 < n <= strlen s)%nat ∧
      ∀ lx', at_ lx' (sdrop n s) → lx_last_token lx' = Some (Terminated (stake n s)) → Q true lx'
  | None => Q false lx
  end →
  wp U (regex_token p.1) lx Q.
Proof.
  intros Hp Hat H. pose proof Hat as [Hw Hr]. pose proof (lw_small _ Hw) as Hs.
  pose proof (strlen_rest lx Hw) as Hl.
  unfold regex_token. apply wp_bind, wp_current_char; [done|]. rewrite Hr.
  apply wp_bind, wp_ret, wp_bind.
  assert (E : linx_regex_match (Some p.1) (Some s) (lx_last_token lx) = Ret []
    match p.2 s with
    | Some n => (Z.of_nat (n `min` strlen s), Some (Terminated (stake (n `min` strlen s) s)))
    | None => (-1, lx_last_token lx)
    end).
  { unfold linx_regex_match. cbn [from_opt]. rewrite bind_ret_l, (pattern_compile p) by done.
    cbn [negb]. rewrite (pattern_match p) by done. unfold scan_result.
    destruct (p.2 s) as [n|]; [|done].
    rewrite Z.sub_0_r, wrap_small, sext_small, Nat2Z.id by (rewrite <- ?Hr; lia). done. }
  eapply wp_lift; [exact E|]. destruct (p.2 s) as [n|]; apply wp_bind, wp_set_token.
  - destruct H as [Hn H]. rewrite Nat.min_l by lia.
    destruct (Z.leb_spec (Z.of_nat n) 0); [lia|]. rewrite Nat2Z.id.
    pose proof (adv_token lx (Some (Terminated (stake n s))) Hw) as Ha.
    apply wp_bind. eapply wp_lift; [done|].
    apply wp_bind, wp_update_pos_str; [by eapply adv_wf|change (n <= strlen (rest lx))%nat; rewrite Hr; lia| |].
    + change (stake n (rest lx) = stake n (stake n s)). rewrite Hr. symmetry. apply stake_idemp.
    + intros lx' Ha' Ht. apply wp_ret, H; [|done].
      apply (at_adv n lx); [done|]. exact (adv_trans 0 _ _ _ _ Ha Ha').
  - rewrite set_same_token. cbn. by apply wp_ret.
Qed.

Lemma x_quoted v t lx (Q : bool → linx_lexer_t → Prop) :
  at_ lx (quote v t) → text_src v = true →
  (∀ lx', at_ lx' t → lx_last_token lx' = Some (Terminated v) → Q true lx') →
  wp U linx_lexer_quoted_str lx Q.
Proof.
  intros [Hw Hr] Hv H. apply negb_true_iff, Ascii.eqb_neq in Hv.
  eapply wp_quoted_str_scan; [done|exact Hr|done|]. cbn [quoted_scan].
  rewrite !Ascii.eqb_refl. cbn [negb andb].
  rewrite quoted_scan_escape by done. intros lx' (Ha & Hr' & Ht). apply H.
  - split; [by eapply adv_wf|done].
  - rewrite Ht. cbn. by rewrite unescape_loop_escape.
Qed.

Lemma x_token lx s (Q : string → linx_lexer_t → Prop) :
  lx_last_token lx = Some (Terminated s) → Q s lx → wp U last_token_str lx Q.
Proof.
  intros Ht H. unfold last_token_str. apply wp_bind, wp_ret. rewrite Ht. by eapply wp_lift.
Qed.
End exact.

(** ** The parser on the grammar *)

(** What may follow a condition: the end or a closing parenthesis. *)
Definition follow (t : string) : Prop :=
  match t with String c _ => c = ")"%char | EmptyString => True end.

Lemma digits_src_head ds :
  digits_src ds = true → ∃ c ds', ds = String c ds' ∧ isdigit c = true ∧ sforall isdigit ds' = true.
Proof.
  unfold digits_src. destruct ds as [|c ds]; [done|]. cbn. rewrite andb_true_iff. eauto 10.
Qed.

Lemma digits_src_chars ds : digits_src ds = true → sforall isdigit ds = true.
Proof. unfold digits_src. rewrite andb_true_iff. by intros [_ H]. Qed.

Lemma span_len_digits ds t :
  sforall isdigit ds = true → follow t → span_len isdigit (ds +:+ t) = strlen ds.
Proof.
  intros Hd Ht. destruct t as [|c t]; [rewrite sapp_nil_r; by apply span_len_all|].
  cbn in Ht. subst c. rewrite span_len_stop by done. by apply span_len_all.
Qed.

Lemma number_len_digits ds t :
  digits_src ds = true → follow t → number_len (ds +:+ t) = Some (strlen ds).
Proof.
  intros Hd Ht. pose proof (digits_src_chars _ Hd) as Hc.
  destruct (digits_src_head _ Hd) as (c & ds' & E & Hdig & _).
  apply digit_facts in Hdig as (_ & _ & _ & _ & _ & Hsg & _).
  assert (Hhead : ∀ b : bool, match ds +:+ t with
    | String c _ => if Ascii.eqb c "+" || Ascii.eqb c "-" then 1%nat else 0%nat
    | EmptyString => 0%nat end = 0%nat) by (intros _; rewrite E; cbn; by rewrite Hsg).
  unfold number_len. rewrite (Hhead true). rewrite sdrop_0, span_len_digits by done.
  unfold some_len. replace (strlen ds =? 0)%nat with false by (by rewrite E).
  cbn [mbind option_bind Nat.add]. rewrite sdrop_app_length.
  assert (Hplus : (strlen ds + 0 + 0 + 0)%nat = strlen ds) by lia.
  destruct t as [|x [|y t]]; cbn in Ht; [|subst x..]; exact (f_equal Some Hplus).
Qed.

Lemma hexnum_len_digits ds t :
  digits_src ds = true → follow t → hexnum_len (ds +:+ t) = None.
Proof.
  intros Hd Ht. destruct (digits_src_head _ Hd) as (c & ds' & -> & _ & Hc). cbn [String.append].
  unfold hexnum_len. destruct c as [[] [] [] [] [] [] [] []]; try done.
  destruct ds' as [|x ds'].
  - cbn [String.append]. destruct t as [|y t]; [done|]. cbn in Ht. by subst y.
  - cbn in Hc. unfold sforall in Hc; cbn in Hc. apply andb_true_iff in Hc as [Hx _].
    apply digit_facts in Hx as (_ & _ & _ & Hx & _). cbn [String.append]. by rewrite Hx.
Qed.

Lemma digits_no_dot ds : sforall isdigit ds = true → strstr ds "." = false.
Proof.
  intros Hd. destruct (strstr ds ".") eqn:E; [|done]. apply strstr_spec in E as (a & b & ->).
  rewrite !sforall_app in Hd. rewrite !andb_true_iff in Hd. destruct Hd as (_ & Hd & _). done.
Qed.

(** Runs an operator list or a literal on a text whose start is known. *)
Ltac x_ops :=
  eapply x_ops; [eassumption|];
  match goal with
  | |- match op_scan ?l ?s with _ => _ end =>
      let r := eval vm_compute in (op_scan l s) in change (op_scan l s) with r; cbv iota
  end.

Ltac x_find :=
  eapply x_find; [eassumption|];
  match goal with
  | |- if strncmp0 ?s ?str ?n then _ else _ =>
      let r := eval vm_compute in (strncmp0 s str n) in change (strncmp0 s str n) with r; cbv iota
  end.

Section parse.
Context (U : fault → Prop) {P : Pcre2} {PP : Pcre2Patterns P}.
Implicit Types (lx : linx_lexer_t) (s t f v : string).

(** [m] builds [a] from the text at [lx] and leaves [t]. *)
Definition gives (m : lexm ast_node) (lx : linx_lexer_t) (a : ast_node) (t : string) : Prop :=
  ∀ Q : ast_node → linx_lexer_t → Prop, (∀ lx', at_ lx' t → Q a lx') → wp U m lx Q.

Lemma gives_field_name f r lx (Q : bool → linx_lexer_t → Prop) :
  field_src f = true → at_ lx (f +:+ String " " r) →
  (∀ lx', at_ lx' (String " " r) → lx_last_token lx' = Some (Terminated f) → Q true lx') →
  wp U linx_lexer_field_name lx Q.
Proof.
  intros Hf Hat H. eapply (x_regex U (RGX_FIELDNAME, fieldname_len));
    [apply list_elem_of_lookup; by exists 2%nat|exact Hat|].
  cbn [snd]. rewrite fieldname_len_stop, field_src_len by done.
  rewrite strlen_app, sdrop_app_length, stake_app_length. split; [|done].
  destruct (field_src_head f Hf) as (c & f' & -> & _). cbn. lia.
Qed.

Lemma gives_field_remainder f r lx :
  at_ lx (String " " r) → lx_last_token lx = Some (Terminated f) →
  gives parse_field_remainder lx (AstField f) (String " " r).
Proof.
  intros Hat Ht Q H. unfold parse_field_remainder. apply wp_bind. eapply x_token; [done|].
  apply wp_bind. x_find. by apply wp_ret, H.
Qed.

Lemma no_transformer c s lx :
  at_ lx (String c s) → is_blank c = false →
  forallb (not_first c) (g_field_transformer_vals ++ g_field_transformer_types) = true →
  gives try_parse_transformer_or_val lx AstNull (String c s).
Proof.
  intros Hat Hb Hc Q H. unfold try_parse_transformer_or_val, text_fuel.
  assert (Hscan : ∀ l, forallb (not_first c) l = true → op_scan l (String c s) = None).
  { induction l as [|[|x op] l IH]; [done|done|]. cbn. intros [Hx Hl]%andb_true_iff.
    apply negb_true_iff in Hx. rewrite Hx. by apply IH. }
  rewrite forallb_app in Hc. apply andb_true_iff in Hc as [Hc1 Hc2].
  apply wp_bind, wp_bind, wp_ret, wp_ret, wp_bind. eapply x_noblank; [exact Hat|done|].
  intros lx1 Hat1 _. apply wp_bind. eapply x_ops; [exact Hat1|]. rewrite Hscan by done.
  apply wp_bind. eapply x_ops; [exact Hat1|]. rewrite Hscan by done. by apply wp_ret, H.
Qed.

Lemma gives_str_value nt v t lx :
  at_ lx (quote v t) → text_src v = true →
  gives (parse_str_value_or_transformer nt) lx (AstString v) t.
Proof.
  intros Hat Hv Q H. unfold parse_str_value_or_transformer.
  apply wp_bind. eapply x_noblank; [exact Hat|done|]. intros lx1 Hat1 _.
  assert (Hrest : ∀ lx', at_ lx' (quote v t) → wp U
    (q ← linx_lexer_quoted_str;
     ok ← (if (q : bool) then mret true else linx_lexer_bare_str);
     if (ok : bool) then tok ← last_token_str; mret (ast_node_create_string tok)
     else mret AstNull) lx' Q).
  { intros lx2 Hat2. apply wp_bind. eapply x_quoted; [exact Hat2|done|]. intros lx3 Hat3 Ht3.
    apply wp_bind, wp_ret, wp_bind. eapply x_token; [done|]. by apply wp_ret, H. }
  apply wp_bind. destruct nt; [by apply wp_ret, Hrest|].
  eapply no_transformer; [exact Hat1|done|done|]. intros lx2 Hat2. by apply Hrest.
Qed.

Lemma gives_condition_str op v t lx l :
  at_ lx (String " " (str_op_text op +:+ quote v t)) → text_src v = true →
  op ≠ BINARY_STR_OP_INVALID →
  gives (parse_condition l) lx (AstStr op l (AstString v)) t.
Proof.
  intros Hat Hv Hop Q H. unfold parse_condition. apply wp_bind.
  destruct op; try done; (eapply (x_blank U " "); [exact Hat|done|done|]);
    intros lx1 Hat1 _; apply wp_bind; x_ops; apply wp_bind;
    (eapply x_noblank; [exact Hat1|done|]); intros lx2 Hat2 _;
    apply wp_bind; x_ops; apply wp_bind; x_ops; intros lx3 Hat3 Ht3;
    apply wp_bind; (eapply x_token; [done|]); apply wp_bind;
    (eapply gives_str_value; [exact Hat3|done|]); intros lx4 Hat4; by apply wp_ret, H.
Qed.

Lemma gives_num_value ds t lx :
  at_ lx (String " " (ds +:+ t)) → digits_src ds = true → follow t →
  gives parse_num_value_or_transformer lx (AstInt (strtol10 ds).1) t.
Proof.
  intros Hat Hd Ht Q H. unfold parse_num_value_or_transformer.
  destruct (digits_src_head _ Hd) as (c & ds' & E & Hdig & _).
  apply digit_facts in Hdig as (Hb & _ & Hnf & _).
  apply wp_bind. eapply (x_blank U " "); [exact Hat|done|by rewrite E|]. intros lx1 Hat1 _.
  apply wp_bind. rewrite E in Hat1. eapply no_transformer; [exact Hat1|done|done|].
  intros lx2 Hat2'. assert (Hat2 : at_ lx2 (ds +:+ t)) by (by rewrite E).
  cbn [ast_null negb]. apply wp_bind.
  eapply (x_regex U (RGX_HEXNUM, hexnum_len)); [apply list_elem_of_lookup; by exists 4%nat|exact Hat2|].
  cbn [snd]. rewrite hexnum_len_digits by done. apply wp_bind.
  eapply (x_regex U (RGX_NUMBER, number_len)); [apply list_elem_of_lookup; by exists 5%nat|exact Hat2|].
  cbn [snd]. rewrite number_len_digits, strlen_app, sdrop_app_length, stake_app_length by done.
  split; [rewrite E; cbn; lia|]. intros lx3 Hat3 Ht3.
  apply wp_bind. eapply x_token; [done|]. rewrite digits_no_dot by (by apply digits_src_chars).
  by apply wp_ret, H.
Qed.

Lemma gives_condition_num op ds t lx l :
  at_ lx (String " " (num_op_text op +:+ ds +:+ t)) → num_op_ok op = true →
  digits_src ds = true → follow t →
  gives (parse_condition l) lx (AstNum op l (AstInt (strtol10 ds).1)) t.
Proof.
  intros Hat Hop Hd Ht Q H. unfold parse_condition. apply wp_bind.
  destruct op; try done; (eapply (x_blank U " "); [exact Hat|done|done|]);
    intros lx1 Hat1 _; apply wp_bind; x_ops; apply wp_bind;
    (eapply x_noblank; [exact Hat1|done|]); intros lx2 Hat2 _;
    apply wp_bind; x_ops; intros lx3 Hat3 Ht3;
    apply wp_bind; (eapply x_token; [done|]); apply wp_bind;
    (eapply gives_num_value; [exact Hat3|done|done|]); intros lx4 Hat4; by apply wp_ret, H.
Qed.

Lemma gives_condition_exists t lx l :
  at_ lx (String " " ("exists" +:+ t)) → gives (parse_condition l) lx (AstUnary UNARY_OP_EXISTS l) t.
Proof.
  intros Hat Q H. unfold parse_condition. apply wp_bind.
  eapply (x_blank U " "); [exact Hat|done|done|]. intros lx1 Hat1 _.
  apply wp_bind. x_ops. intros lx2 Hat2 Ht2.
  apply wp_bind. eapply x_token; [done|]. by apply wp_ret, H.
Qed.

(** The items after the first, up to the closing parenthesis. *)
Lemma gives_items fuel vs t l lx :
  (strlen (print_items vs t) < fuel)%nat →
  at_ lx (print_items vs t) → forallb text_src vs = true →
  gives (list_loop fuel (AstList l)) lx (AstList (l ++ (AstString <$> vs))) (String ")" t).
Proof.
  revert vs l lx. induction fuel as [|fuel IH]; intros vs l lx Hfuel Hat Hvs Q H; [lia|].
  cbn [list_loop]. apply wp_bind. destruct vs as [|v vs]; cbn [print_items] in *.
  - x_find. apply wp_ret. rewrite app_nil_r in H. by apply H.
  - cbn in Hvs. apply andb_true_iff in Hvs as [Hv Hvs]. x_find. intros lx1 Hat1 _. cbn in Hat1.
    apply wp_bind.
    assert (Hsp : gives (parse_str_value_or_transformer true) lx1 (AstString v) (print_items vs t)).
    { intros Q' H'. unfold parse_str_value_or_transformer. apply wp_bind.
      eapply (x_blank U " "); [exact Hat1|done|done|]. intros lx2 Hat2 _.
      apply wp_bind, wp_ret, wp_bind. eapply x_quoted; [exact Hat2|done|]. intros lx3 Hat3 Ht3.
      apply wp_bind, wp_ret, wp_bind. eapply x_token; [done|]. by apply wp_ret, H'. }
    apply Hsp. intros lx2 Hat2. apply wp_bind.
    eapply x_noblank; [exact Hat2|by destruct vs|]. intros lx3 Hat3 _.
    change (add_item_to_list (AstList l) (AstString v)) with (AstList (l ++ [AstString v])).
    apply (IH vs (l ++ [AstString v]) lx3); [|done|done|].
    + cbn in Hfuel. unfold quote in Hfuel. cbn in Hfuel. rewrite strlen_app in Hfuel. cbn in Hfuel. lia.
    + intros lx4 Hat4. rewrite <- app_assoc. by apply H.
Qed.

Lemma at_input_len lx s : at_ lx s → (strlen s <= strlen (lx_input lx))%nat.
Proof. intros [Hw <-]. rewrite strlen_rest by done. lia. Qed.

Lemma quote_len v t : (strlen t <= strlen (quote v t))%nat.
Proof. unfold quote. cbn. rewrite strlen_app. cbn. lia. Qed.

Lemma gives_list v vs t lx :
  at_ lx (" (" +:+ quote v (print_items vs t)) →
  text_src v = true → forallb text_src vs = true →
  gives parse_list_value_or_transformer lx (AstList (AstString <$> v :: vs)) t.
Proof.
  intros Hat Hv Hvs Q H. pose proof (at_input_len _ _ Hat) as Hlen.
  pose proof (quote_len v (print_items vs t)) as Hq. rewrite strlen_app in Hlen.
  unfold parse_list_value_or_transformer, text_fuel. apply wp_bind, wp_bind, wp_ret, wp_ret, wp_bind.
  eapply (x_blank U " "); [exact Hat|done|done|]. intros lx4 Hat4 _.
  apply wp_bind. x_find. intros lx5 Hat5 _. cbn in Hat5.
  apply wp_bind. eapply x_noblank; [exact Hat5|done|]. intros lx6 Hat6 _.
  apply wp_bind. eapply gives_str_value; [exact Hat6|done|]. intros lx7 Hat7.
  apply wp_bind, wp_bind. eapply x_noblank; [exact Hat7|by destruct vs|]. intros lx8 Hat8 _.
  apply (gives_items _ vs t [AstString v]); [lia|done|done|]. intros lx9 Hat9.
  apply wp_bind. x_find. intros lx10 Hat10 _. by apply wp_ret, H.
Qed.

Lemma gives_condition_in v vs t lx l :
  at_ lx (String " " ("in (" +:+ quote v (print_items vs t))) →
  text_src v = true → forallb text_src vs = true →
  gives (parse_condition l) lx
    (AstListOp BINARY_LIST_OP_IN l (AstList (AstString <$> v :: vs))) t.
Proof.
  intros Hat Hv Hvs Q H. unfold parse_condition. apply wp_bind.
  eapply (x_blank U " "); [exact Hat|done|done|]. intros lx1 Hat1 _.
  apply wp_bind. x_ops. apply wp_bind. eapply x_noblank; [exact Hat1|done|]. intros lx2 Hat2 _.
  apply wp_bind. x_ops. apply wp_bind. x_ops. apply wp_bind. x_ops. intros lx3 Hat3 Ht3.
  apply wp_bind. eapply x_token; [done|].
  apply wp_bind. eapply gives_list; [exact Hat3|done|done|]. intros lx4 Hat4. by apply wp_ret, H.
Qed.

(** ** Enough fuel *)

(** [parse fuel] gives [a] and leaves [t] wherever the text is [s]. *)
Definition parses (k : nat) (parse : nat → lexm ast_node) (s : string) (a : ast_node) (t : string) : Prop :=
  ∀ fuel lx, at_ lx s → (8 * strlen s + k <= fuel)%nat → gives (parse fuel) lx a t.

Lemma parses_check_field f r a t :
  field_src f = true →
  (∀ lx, at_ lx (String " " r) → gives (parse_condition (AstField f)) lx a t) →
  parses 2 parse_check (f +:+ String " " r) a t.
Proof.
  intros Hf Hc fuel lx Hat Hfuel Q H. destruct fuel as [|fuel]; [lia|]. cbn [parse_check].
  unfold text_fuel. apply wp_bind, wp_bind, wp_ret, wp_ret, wp_bind.
  assert (Hhead : match f +:+ String " " r with String c _ => is_blank c = false | "" => True end).
  { destruct (field_src_head f Hf) as (c & f' & -> & Ha). apply alpha_facts in Ha as (_ & Hb & _). exact Hb. }
  eapply x_noblank; [exact Hat|done|]. intros lx1 Hat1 _.
  apply wp_bind. eapply x_find; [exact Hat1|].
  pose proof (field_no_paren f Hf "" r eq_refl) as Hp. cbn in Hp |- *. rewrite Hp.
  apply wp_bind. eapply gives_field_name; [done|exact Hat1|]. intros lx2 Hat2 Ht2.
  apply wp_bind. eapply gives_field_remainder; [exact Hat2|done|]. intros lx3 Hat3. by apply Hc.
Qed.

(** A condition that starts with neither "not" gives what [parse_check]
    gives. *)
Lemma parses_not_check s a t :
  match s with String c _ => is_blank c = false | EmptyString => True end →
  notblank_len s = None → strncmp0 s "not(" 4 = false →
  parses 2 parse_check s a t → parses 3 parse_not s a t.
Proof.
  intros Hb Hn Hp Hc fuel lx Hat Hfuel Q H. destruct fuel as [|fuel]; [lia|]. cbn [parse_not].
  unfold text_fuel. apply wp_bind, wp_bind, wp_ret, wp_ret, wp_bind.
  eapply x_noblank; [exact Hat|done|]. intros lx1 Hat1 _. apply wp_bind. cbn [not_loop].
  apply wp_bind.
  eapply (x_regex U (RGX_NOTBLANK, notblank_len)); [apply list_elem_of_lookup; by exists 0%nat|exact Hat1|].
  cbn [snd]. rewrite Hn. apply wp_ret, wp_bind. eapply x_find; [exact Hat1|].
  cbn [strlen]. rewrite Hp. apply wp_bind, Hc; [done|lia|]. intros lx2 Hat2. by apply wp_ret, H.
Qed.

(** No connective follows. *)
Definition no_word (t : string) : Prop :=
  match t with
  | String c _ => is_blank c = false
  | EmptyString => True
  end ∧ strncmp0 t "and" 3 = false ∧ strncmp0 t "or" 2 = false.

Lemma follow_no_word t : follow t → no_word t.
Proof. destruct t as [|c t]; [done|]. intros ->. done. Qed.

Lemma parses_and_not s a t :
  match s with String c _ => is_blank c = false | EmptyString => True end →
  follow t → parses 3 parse_not s a t → parses 4 parse_and s a t.
Proof.
  intros Hb Ht%follow_no_word Hn fuel lx Hat Hfuel Q H. destruct Ht as (Ht1 & Ht2 & _).
  destruct fuel as [|fuel]; [lia|]. cbn [parse_and].
  apply wp_bind. eapply x_noblank; [exact Hat|done|]. intros lx1 Hat1 _.
  apply wp_bind, Hn; [done|lia|]. intros lx2 Hat2.
  apply wp_bind. eapply x_noblank; [exact Hat2|done|]. intros lx3 Hat3 _.
  destruct fuel as [|fuel]; [lia|]. cbn [and_loop].
  apply wp_bind. eapply x_find; [exact Hat3|]. cbn [strlen]. rewrite Ht2. by apply wp_ret, H.
Qed.

Lemma parses_or_and s a t :
  match s with String c _ => is_blank c = false | EmptyString => True end →
  follow t → parses 4 parse_and s a t → parses 5 parse_or s a t.
Proof.
  intros Hb Ht%follow_no_word Hn fuel lx Hat Hfuel Q H. destruct Ht as (Ht1 & _ & Ht2).
  destruct fuel as [|fuel]; [lia|]. cbn [parse_or].
  apply wp_bind. eapply x_noblank; [exact Hat|done|]. intros lx1 Hat1 _.
  apply wp_bind, Hn; [done|lia|]. intros lx2 Hat2.
  apply wp_bind. eapply x_noblank; [exact Hat2|done|]. intros lx3 Hat3 _.
  destruct fuel as [|fuel]; [lia|]. cbn [or_loop].
  apply wp_bind. eapply x_find; [exact Hat3|]. cbn [strlen]. rewrite Ht2. by apply wp_ret, H.
Qed.

Lemma parses_embedded s a t :
  match s with String c _ => is_blank c = false | EmptyString => True end →
  parses 5 parse_or s a (String ")" t) → parses 6 parse_embedded_remainder s a t.
Proof.
  intros Hb Ho fuel lx Hat Hfuel Q H. destruct fuel as [|fuel]; [lia|]. cbn [parse_embedded_remainder].
  apply wp_bind. eapply x_noblank; [exact Hat|done|]. intros lx1 Hat1 _.
  apply wp_bind, Ho; [done|lia|]. intros lx2 Hat2.
  apply wp_bind. eapply x_noblank; [exact Hat2|done|]. intros lx3 Hat3 _.
  apply wp_bind. x_find. intros lx4 Hat4 _. by apply wp_ret, H.
Qed.

Lemma parses_paren_check s a t :
  match s with String c _ => is_blank c = false | EmptyString => True end →
  parses 5 parse_or s a (String ")" t) → parses 2 parse_check (String "(" s) a t.
Proof.
  intros Hb Ho fuel lx Hat Hfuel Q H. destruct fuel as [|fuel]; [cbn in Hfuel; lia|]. cbn [parse_check].
  cbn [strlen] in Hfuel.
  unfold text_fuel. apply wp_bind, wp_bind, wp_ret, wp_ret, wp_bind.
  eapply x_noblank; [exact Hat|done|]. intros lx1 Hat1 _. apply wp_bind. x_find. intros lx2 Hat2 _.
  eapply (parses_embedded s); [done|done|exact Hat2|lia|done].
Qed.

Lemma parses_paren s a t :
  match s with String c _ => is_blank c = false | EmptyString => True end →
  parses 5 parse_or s a (String ")" t) → parses 3 parse_not (String "(" s) a t.
Proof. intros Hb Ho. apply parses_not_check; [done..|]. by apply parses_paren_check. Qed.

Lemma parses_not_not s a t :
  match s with String c _ => is_blank c = false | EmptyString => True end →
  parses 5 parse_or s a (String ")" t) → parses 3 parse_not ("not (" +:+ s) (AstUnary UNARY_OP_NOT a) t.
Proof.
  intros Hb Ho fuel lx Hat Hfuel Q H. destruct fuel as [|fuel]; [cbn in Hfuel; lia|].
  cbn [strlen String.append] in Hfuel. cbn [parse_not].
  unfold text_fuel. apply wp_bind, wp_bind, wp_ret, wp_ret, wp_bind.
  eapply x_noblank; [exact Hat|done|]. intros lx1 Hat1 _. apply wp_bind.
  pose proof (at_input_len _ _ Hat) as Hi. cbn in Hi.
  destruct (strlen (lx_input lx)) as [|n]; [lia|]. cbn [not_loop]. apply wp_bind.
  eapply (x_regex U (RGX_NOTBLANK, notblank_len)); [apply list_elem_of_lookup; by exists 0%nat|exact Hat1|].
  change (RGX_NOTBLANK, notblank_len).2 with notblank_len.
  replace (notblank_len ("not (" +:+ s)) with (Some 4%nat) by reflexivity.
  split; [cbn; lia|]. intros lx2 Hat2 _. cbn in Hat2. apply wp_bind.
  eapply (x_regex U (RGX_NOTBLANK, notblank_len)); [apply list_elem_of_lookup; by exists 0%nat|exact Hat2|].
  change (RGX_NOTBLANK, notblank_len).2 with notblank_len.
  replace (notblank_len (String "(" s)) with (@None nat) by reflexivity.
  apply wp_ret, wp_bind. x_find. apply wp_bind.
  eapply (parses_paren_check s); [done|done|exact Hat2|cbn; lia|]. intros lx3 Hat3. by apply wp_ret, H.
Qed.

Lemma parses_and_and s1 s2 a b t :
  follow t →
  parses 3 parse_not (String "(" s1) a (" and (" +:+ s2) → parses 3 parse_not (String "(" s2) b t →
  (strlen s2 < strlen s1)%nat →
  parses 4 parse_and (String "(" s1) (AstBool BINARY_BOOL_OP_AND a b) t.
Proof.
  intros Ht%follow_no_word Ha Hb Hl fuel lx Hat Hfuel Q H. destruct Ht as (Ht1 & Ht2 & _).
  destruct fuel as [|fuel]; [cbn in Hfuel; lia|]. cbn [parse_and]. cbn [strlen] in Hfuel.
  apply wp_bind. eapply x_noblank; [exact Hat|done|]. intros lx1 Hat1 _.
  apply wp_bind, Ha; [done|cbn; lia|]. intros lx2 Hat2.
  apply wp_bind. eapply (x_blank U " "); [exact Hat2|done|done|]. intros lx3 Hat3 _.
  destruct fuel as [|fuel]; [lia|]. cbn [and_loop].
  apply wp_bind. x_find. intros lx4 Hat4 _. cbn in Hat4. apply wp_bind. unfold bool_operand.
  apply wp_bind. eapply (x_blank U " "); [exact Hat4|done|done|]. intros lx5 Hat5 _.
  cbn [negb streq String.eqb]. apply wp_fmap, Hb; [done|cbn; lia|]. intros lx6 Hat6.
  apply wp_bind. eapply wp_lift; [done|].
  apply wp_bind. eapply x_noblank; [exact Hat6|done|]. intros lx7 Hat7 _.
  destruct fuel as [|fuel]; [lia|]. cbn [and_loop].
  apply wp_bind. eapply x_find; [exact Hat7|]. cbn [strlen]. rewrite Ht2. by apply wp_ret, H.
Qed.

(** An operand of "or": [parse_and] stops in front of the word. *)
Lemma parses_and_before_or s1 s2 a :
  parses 3 parse_not (String "(" s1) a (" or (" +:+ s2) →
  parses 4 parse_and (String "(" s1) a ("or (" +:+ s2).
Proof.
  intros Ha fuel lx Hat Hfuel Q H.
  destruct fuel as [|fuel]; [cbn in Hfuel; lia|]. cbn [parse_and]. cbn [strlen] in Hfuel.
  apply wp_bind. eapply x_noblank; [exact Hat|done|]. intros lx1 Hat1 _.
  apply wp_bind, Ha; [done|cbn; lia|]. intros lx2 Hat2.
  apply wp_bind. eapply (x_blank U " "); [exact Hat2|done|done|]. intros lx3 Hat3 _.
  destruct fuel as [|fuel]; [lia|]. cbn [and_loop].
  apply wp_bind. x_find. by apply wp_ret, H.
Qed.

Lemma parses_or_or s1 s2 a b t :
  follow t →
  parses 4 parse_and (String "(" s1) a ("or (" +:+ s2) → parses 4 parse_and (String "(" s2) b t →
  (strlen s2 < strlen s1)%nat →
  parses 5 parse_or (String "(" s1) (AstBool BINARY_BOOL_OP_OR a b) t.
Proof.
  intros Ht%follow_no_word Ha Hb Hl fuel lx Hat Hfuel Q H. destruct Ht as (Ht1 & _ & Ht2).
  destruct fuel as [|fuel]; [cbn in Hfuel; lia|]. cbn [parse_or]. cbn [strlen] in Hfuel.
  apply wp_bind. eapply x_noblank; [exact Hat|done|]. intros lx1 Hat1 _.
  apply wp_bind, Ha; [done|cbn; lia|]. intros lx2 Hat2.
  apply wp_bind. eapply x_noblank; [exact Hat2|done|]. intros lx3 Hat3 _.
  destruct fuel as [|fuel]; [lia|]. cbn [or_loop].
  apply wp_bind. x_find. intros lx4 Hat4 _. cbn in Hat4. apply wp_bind. unfold bool_operand.
  apply wp_bind. eapply (x_blank U " "); [exact Hat4|done|done|]. intros lx5 Hat5 _.
  cbn [negb streq String.eqb]. apply wp_fmap, Hb; [done|cbn; lia|]. intros lx6 Hat6.
  apply wp_bind. eapply wp_lift; [done|].
  apply wp_bind. eapply x_noblank; [exact Hat6|done|]. intros lx7 Hat7 _.
  destruct fuel as [|fuel]; [lia|]. cbn [or_loop].
  apply wp_bind. eapply x_find; [exact Hat7|]. cbn [strlen]. rewrite Ht2. by apply wp_ret, H.
Qed.

Lemma print_head c t :
  src_ok c = true → match print c t with String x _ => is_blank x = false | EmptyString => True end.
Proof.
  destruct c as [f op v|f op ds|f v vs|f|c|a b|a b]; cbn [src_ok print]; try done;
    intros H; assert (Hf : field_src f = true) by (rewrite ?andb_true_iff in H; tauto);
    destruct (field_src_head f Hf) as (c & f' & -> & Ha); by apply alpha_facts in Ha as (_ & Hb & _).
Qed.

Lemma print_items_strlen vs t : (strlen t <= strlen (print_items vs t))%nat.
Proof.
  induction vs as [|v vs IH]; cbn [print_items]; [cbn; lia|].
  rewrite strlen_app. pose proof (quote_len v (print_items vs t)). lia.
Qed.

Lemma print_len c t : (strlen t <= strlen (print c t))%nat.
Proof.
  revert t. induction c as [f op v|f op ds|f v vs|f|c IH|a IHa b IHb|a IHa b IHb]; intros t;
    cbn [print]; rewrite ?strlen_app; cbn [strlen]; rewrite ?strlen_app.
  - pose proof (quote_len v t). lia.
  - lia.
  - pose proof (quote_len v (print_items vs t)). pose proof (print_items_strlen vs t). lia.
  - lia.
  - pose proof (IH (String ")" t)) as H. cbn [strlen] in H. lia.
  - pose proof (IHb (String ")" t)) as Hb. pose proof (IHa (") and (" +:+ print b (String ")" t))) as Ha.
    rewrite strlen_app in Ha. cbn [strlen] in Ha, Hb. lia.
  - pose proof (IHb (String ")" t)) as Hb. pose proof (IHa (") or (" +:+ print b (String ")" t))) as Ha.
    rewrite strlen_app in Ha. cbn [strlen] in Ha, Hb. lia.
Qed.

(** An atom, from what [parse_condition] does behind its field. *)
Lemma parses_atom f r a t :
  field_src f = true → follow t →
  (∀ lx, at_ lx (String " " r) → gives (parse_condition (AstField f)) lx a t) →
  parses 5 parse_or (f +:+ String " " r) a t.
Proof.
  intros Hf Ht Hc.
  assert (Hb : match f +:+ String " " r with String x _ => is_blank x = false | "" => True end).
  { destruct (field_src_head f Hf) as (c & f' & -> & Ha). by apply alpha_facts in Ha as (_ & Hb & _). }
  apply parses_or_and, parses_and_not, parses_not_check; [done..| | |].
  - by apply field_not_notblank.
  - exact (field_no_paren f Hf "not" r eq_refl).
  - by apply parses_check_field.
Qed.

Lemma parses_print c t : src_ok c = true → follow t → parses 5 parse_or (print c t) (to_ast c) t.
Proof.
  revert t. induction c as [f op v|f op ds|f v vs|f|c IH|a IHa b IHb|a IHa b IHb];
    intros t Hok Ht; cbn [src_ok] in Hok; rewrite ?andb_true_iff in Hok; cbn [print to_ast].
  - destruct Hok as [[Hf Hop%bool_decide_eq_true] Hv]. apply parses_atom; [done..|].
    intros lx Hat. by apply gives_condition_str.
  - destruct Hok as [[Hf Hop] Hd]. apply parses_atom; [done..|].
    intros lx Hat. by apply gives_condition_num.
  - destruct Hok as [[Hf Hv] Hvs]. apply parses_atom; [done..|].
    intros lx Hat. by apply gives_condition_in.
  - apply parses_atom; [done..|]. intros lx Hat. by apply gives_condition_exists.
  - apply parses_or_and, parses_and_not; [done..|].
    apply parses_not_not; [by apply print_head|by apply IH].
  - destruct Hok as [Hoa Hob]. apply parses_or_and; [done..|].
    eapply (parses_and_and _ (print b (String ")" t))); [done| | |].
    + apply parses_paren; [by apply print_head|]. by apply IHa.
    + apply parses_paren; [by apply print_head|]. by apply IHb.
    + eapply Nat.lt_le_trans; [|apply print_len]. rewrite strlen_app. cbn. lia.
  - destruct Hok as [Hoa Hob].
    eapply (parses_or_or _ (print b (String ")" t))); [done| | |].
    + apply parses_and_before_or, parses_paren; [by apply print_head|]. by apply IHa.
    + apply parses_and_not; [done..|]. apply parses_paren; [by apply print_head|]. by apply IHb.
    + eapply Nat.lt_le_trans; [|apply print_len]. rewrite strlen_app. cbn. lia.
Qed.
End parse.

Lemma to_ast_not_null c : ast_null (to_ast c) = false.
Proof. by destruct c. Qed.

Lemma to_ast_ok c : src_ok c = true → cond_ok (to_ast c) = true.
Proof.
  induction c as [f op v|f op ds|f v vs|f|c IH|a IHa b IHb|a IHa b IHb]; cbn [src_ok to_ast cond_ok]; rewrite ?andb_true_iff.
  - intros [[_ Ho%bool_decide_eq_true] _]. by destruct op.
  - intros [[_ Ho] _]. cbn [left_ok num_ok]. pose proof (strtol10_long ds). rewrite Ho. lia.
  - intros _. cbn. induction vs; cbn; auto.
  - done.
  - done.
  - naive_solver.
  - naive_solver.
Qed.

Lemma condition_parses {P : Pcre2} {PP : Pcre2Patterns P} (c : src) :
  src_ok c = true → Z.of_nat (strlen (print c "")) < 2 ^ 31 →
  condition_to_ast (Some (print c "")) = Ret [] (0, to_ast c).
Proof.
  intros Hok Hs. destruct (linx_lexer_create_wf _ Hs) as (lx & E & Hw & Hi & Hr).
  unfold condition_to_ast. rewrite E, bind_Ret_nil.
  pose proof (parses_print (λ _, False) c "" Hok I (8 * S (strlen (lx_input lx)))%nat lx
    (conj Hw Hr) ltac:(rewrite Hi; lia) (λ a _, a = to_ast c)) as H.
  assert (Hq : ∀ lx', at_ lx' "" → to_ast c = to_ast c) by done.
  specialize (H Hq). unfold wp in H.
  destruct (parse_or _ lx) as [w [a lx']| |]; [|done..]. destruct H as [Hw' ->].
  assert (w = []) as -> by (destruct w as [|x w]; [done|]; by apply Forall_cons in Hw' as [[] _]).
  destruct (prints_cond (to_ast c) (to_ast_ok c Hok)) as (t & Ht). rewrite bind_Ret_nil, Ht, bind_Ret_nil.
  by rewrite to_ast_not_null.
Qed.

(** C6: the parser reads every condition of the grammar as its tree.  For a
    regular-expression library that matches the lexer's patterns as
    documented, the text of a well-formed condition shorter than 2^31
    characters parses to exactly the tree it stands for, with return code 0
    and without any undefined behaviour. *)
Theorem condition_to_ast_print {P : Pcre2} {PP : Pcre2Patterns P} (c : src) :
  src_ok c = true → Z.of_nat (strlen (print c "")) < 2 ^ 31 →
  condition_to_ast (Some (print c "")) = Ret [] (0, to_ast c).
Proof. apply condition_parses. Qed.

Definition src_ex : src :=
  SAnd (SOr (SStr "proc.name" BINARY_STR_OP_ASSIGN "it's") (SIn "proc.name" "ls" ["cat"; "a b"]))
       (SNot (SNum "evt.arg" BINARY_NUM_OP_LT "10")).

Lemma condition_to_ast_print_witness :
  condition_to_ast (H := lexer_engine)
    (Some "((proc.name ='it\'s') or (proc.name in ('ls', 'cat', 'a b'))) and (not (evt.arg < 10))")
  = Ret [] (0, to_ast src_ex).
Proof.
  exact (condition_to_ast_print (P := lexer_engine) src_ex ltac:(vm_compute; reflexivity)
           ltac:(vm_compute; reflexivity)).
Defined.
