(* ===== verification/Output.v ===== *)
(** * Alert messages (rule_engine_match/output_match_func.c)

    The "output" text of a rule is compiled once into literal and variable
    segments and formatted at every match.  The buffer a message is formatted
    into is a list of bytes, [None] where it is indeterminate. *)
From S2P Require Import Prelude CString Memory EventTable HashMap Float.
From Stdlib Require Import Ascii.

#[local] Open Scope Z_scope.

(** ** Character buffers *)
Definition NUL : ascii := zero.
Abbreviation buffer := (list (option ascii)).

Definition str_bytes (s : string) : buffer := Some <$> String.list_ascii_of_string s.

(** The distance to the next terminator. *)
Fixpoint find_nul (b : buffer) : outcome nat :=
  match b with
  | [] => Ub OutOfBounds
  | None :: _ => Ub UninitRead
  | Some c :: b' => if Ascii.eqb c NUL then mret 0%nat else S <$> find_nul b'
  end.

(** [strncat(buffer + off, src, n)] *)
Definition strncat (b : buffer) (off : Z) (src : string) (n : Z) : outcome buffer :=
  if Z.of_nat (length b) <=? off then Ub OutOfBounds
  else
    k ← find_nul (drop (Z.to_nat off) b);
    let at_ := (Z.to_nat off + k)%nat in
    let txt := stake (Z.to_nat (Z.min n (Z.of_nat (strlen src)))) src in
    if (length b <=? at_ + strlen txt)%nat then Ub OutOfBounds
    else mret (take at_ b ++ str_bytes txt ++ Some NUL :: drop (at_ + strlen txt + 1) b).

(** The buffer as a C string. *)
Fixpoint buf_cstr (b : buffer) : outcome string :=
  match b with
  | [] => Ub OutOfBounds
  | None :: _ => Ub UninitRead
  | Some c :: b' => if Ascii.eqb c NUL then mret "" else String c <$> buf_cstr b'
  end.

(** ** Segments (output_match_struct.h) *)
Inductive segment_t :=
  | SEGMENT_TYPE_LITERAL (text : string) (length : Z)
  | SEGMENT_TYPE_VARIABLE (variable : field_result_t).

(** [size] is the length of [segments]. *)
Record linx_output_match_t := mk_output_match {
  om_segments : list segment_t;
  om_capacity : Z
}.

Definition om_size (m : linx_output_match_t) : Z := Z.of_nat (length (om_segments m)).

(** ** Compilation *)
Definition resize_segments (m : linx_output_match_t) : linx_output_match_t :=
  mk_output_match (om_segments m)
    (if om_capacity m =? 0 then 2 else wrap 64 (om_capacity m * 2)).

Definition grow (m : linx_output_match_t) : linx_output_match_t :=
  if om_capacity m <=? om_size m then resize_segments m else m.

(** Appending writes [segments[size]]. *)
Definition push_segment (seg : segment_t) (m : linx_output_match_t) : outcome linx_output_match_t :=
  if om_size m <? om_capacity m
  then mret (mk_output_match (om_segments m ++ [seg]) (om_capacity m))
  else Ub HeapOverflow.

Definition add_literal_segment (m : linx_output_match_t) (literal : string)
    : outcome (Z * linx_output_match_t) :=
  let length := Z.of_nat (strlen literal) in
  if length =? 0 then mret (-1, m)
  else m' ← push_segment (SEGMENT_TYPE_LITERAL literal length) (grow m); mret (0, m').

Definition add_variable_segment (evt_num : Z) (s : hash_map_state) (m : linx_output_match_t)
    (variable : string) : outcome (Z * linx_output_match_t) :=
  let m := grow m in
  let field := linx_hash_map_get_field_by_path evt_num (Some variable) s in
  if fr_found field
  then m' ← push_segment (SEGMENT_TYPE_VARIABLE field) m; mret (0, m')
  else mret (-1, m).

(** The characters a variable name ends at. *)
Definition is_delim (c : ascii) : bool :=
  Ascii.eqb c " " || Ascii.eqb c (chr 9) || Ascii.eqb c (chr 10) || Ascii.eqb c (chr 13)
  || Ascii.eqb c ")" || Ascii.eqb c "(".

(** The loop over [current]; [lit] is the text from [start] to [current]. *)
Fixpoint compile_loop (fuel : nat) (evt_num : Z) (s : hash_map_state) (m : linx_output_match_t)
    (lit current : string) : outcome (Z * linx_output_match_t) :=
  match fuel with
  | O => NoFuel
  | S n =>
      match current with
      | EmptyString => if streq lit "" then mret (0, m) else add_literal_segment m lit
      | String c current' =>
          if Ascii.eqb c "%" then
            '(r, m) ← (if streq lit "" then mret (0, m) else add_literal_segment m lit);
            if negb (r =? 0) then mret (-1, m)
            else
              let '(name, current'') := span (λ c, negb (is_delim c)) current' in
              '(r, m) ← add_variable_segment evt_num s m name;
              if negb (r =? 0) then mret (-1, m)
              else compile_loop n evt_num s m "" current''
          else compile_loop n evt_num s m (lit +:+ String c "") current'
      end
  end.

(** The return code and the new [*match]: on a failure the segments before it
    stay. *)
Definition linx_output_match_compile (evt_num : Z) (s : hash_map_state)
    (old : option linx_output_match_t) (format : option string)
    : outcome (Z * option linx_output_match_t) :=
  match format with
  | None => mret (-1, old)
  | Some f =>
      '(r, m) ← compile_loop (S (strlen f)) evt_num s (mk_output_match [] 0) "" f;
      mret (r, Some m)
  end.

(** ** Formatting *)

(** What the switch of [format_field_value] prints for a type.  The length
    [snprintf] returns is that of the whole text. *)
Definition typed_text (m : memory) (type : linx_field_type_t) (ptr : Z) : outcome string :=
  let int (n : nat) (f : Z → Z) := z ← from_opt BadAddress (load_le m ptr n); mret (show_int (f z)) in
  match type with
  | LINX_FIELD_TYPE_INT8 => int 1%nat (sext 8)
  | LINX_FIELD_TYPE_UINT8 => int 1%nat id
  | LINX_FIELD_TYPE_INT16 => int 2%nat (sext 16)
  | LINX_FIELD_TYPE_UINT16 => int 2%nat id
  | LINX_FIELD_TYPE_INT32 => int 4%nat (sext 32)
  | LINX_FIELD_TYPE_UINT32 => int 4%nat id
  | LINX_FIELD_TYPE_INT64 => int 8%nat (sext 64)
  | LINX_FIELD_TYPE_UINT64 => int 8%nat id
  | LINX_FIELD_TYPE_CHARBUF | LINX_FIELD_TYPE_UID | LINX_FIELD_TYPE_PID =>
      from_opt BadAddress (load_cstr m ptr)
  | LINX_FIELD_TYPE_CHARBUF_ARRAY =>
      p ← from_opt BadAddress (load_u64 m ptr); from_opt BadAddress (load_cstr m p)
  | LINX_FIELD_TYPE_BOOL =>
      z ← from_opt BadAddress (load_le m ptr 1); mret (if z =? 0 then "false" else "true")
  | LINX_FIELD_TYPE_FLOAT =>
      z ← from_opt BadAddress (load_le m ptr 4); mret (show_f (decode_float z))
  | LINX_FIELD_TYPE_DOUBLE =>
      z ← from_opt BadAddress (load_le m ptr 8); mret (show_f (decode_double z))
  | _ => mret ""
  end.

Definition is_struct (t : linx_field_type_t) : bool :=
  match t with LINX_FIELD_TYPE_STRUCT => true | _ => false end.

(** The text of a field; none when the field or its value is missing. *)
Definition field_text (m : memory) (s : hash_map_state) (field : field_result_t) : outcome string :=
  '(value_ptr, type) ← linx_hash_map_get_value_ptr m s field None;
  if negb (fr_found field) || (value_ptr =? 0) then mret ""
  else
    value_ptr ← (if is_struct (fr_type field) then from_opt BadAddress (load_u64 m value_ptr)
                 else mret value_ptr);
    type ← init_or_ub type;
    typed_text m type value_ptr.

(** [field_str] holds at most 255 characters of the text, but the length that
    is checked and returned is that of the whole text. *)
Definition format_field_value (m : memory) (s : hash_map_state) (field : field_result_t)
    (b : buffer) (buffer_size total_length : Z) : outcome (Z * buffer) :=
  text ← field_text m s field;
  let field_str_len := Z.of_nat (strlen text) in
  let field_str := stake 255 text in
  if (0 <? field_str_len) && (wrap 64 (total_length + field_str_len) <? wrap 64 (buffer_size - 1))
  then b' ← strncat b total_length field_str field_str_len; mret (field_str_len, b')
  else if 0 <? field_str_len then mret (wrap 64 (-1), b)
  else mret (field_str_len, b).

Fixpoint format_loop (m : memory) (s : hash_map_state) (segs : list segment_t) (b : buffer)
    (buffer_size total_length : Z) : outcome (Z * buffer) :=
  match segs with
  | [] => mret (sext 32 total_length, b)
  | SEGMENT_TYPE_LITERAL text literal_len :: segs' =>
      if wrap 64 (buffer_size - 1) <=? wrap 64 (total_length + literal_len) then mret (-1, b)
      else
        b ← strncat b total_length text literal_len;
        format_loop m s segs' b buffer_size (wrap 64 (total_length + literal_len))
  | SEGMENT_TYPE_VARIABLE field :: segs' =>
      '(field_len, b) ← format_field_value m s field b buffer_size total_length;
      if field_len =? 0 then format_loop m s segs' b buffer_size total_length
      else format_loop m s segs' b buffer_size (wrap 64 (total_length + field_len))
  end.

(** [buffer_size] is the length of the buffer the callers pass. *)
Definition linx_output_match_format (m : memory) (s : hash_map_state)
    (om : option linx_output_match_t) (b : buffer) : outcome (Z * buffer) :=
  match om, b with
  | None, _ | _, [] => mret (-1, b)
  | Some om, _ :: b' =>
      format_loop m s (om_segments om) (Some NUL :: b') (Z.of_nat (length b)) 0
  end.

(** ** Lemmas on buffers *)
Lemma str_bytes_app a b : str_bytes (a +:+ b) = str_bytes a ++ str_bytes b.
Proof. induction a as [|c a IH]; [done|]. unfold str_bytes in *. cbn. by rewrite IH. Qed.

Lemma str_bytes_length s : length (str_bytes s) = strlen s.
Proof. induction s as [|c s IH]; [done|]. unfold str_bytes in *. cbn. by rewrite IH. Qed.

(** [b] holds the string [t], and room behind it. *)
Definition holds (b : buffer) (t : string) : Prop := ∃ r, b = str_bytes t ++ Some NUL :: r.

Lemma holds_cstr b t : no_nul t = true → holds b t → buf_cstr b = Ret [] t.
Proof.
  intros Hn [r ->]. induction t as [|c t IH]; [done|].
  cbn [no_nul] in Hn. apply andb_true_iff in Hn as [Hc Hn].
  unfold str_bytes in *. cbn [String.list_ascii_of_string fmap list_fmap app buf_cstr].
  destruct (Ascii.eqb_spec c NUL) as [->|_]; [done|]. by rewrite IH.
Qed.

Lemma drop_str_bytes k t r : (k <= strlen t)%nat → drop k (str_bytes t ++ r) = str_bytes (sdrop k t) ++ r.
Proof.
  revert k. induction t as [|c t IH]; intros [|k] Hk; cbn in *; try done; [lia|]. apply IH. lia.
Qed.

Lemma find_nul_str t r : no_nul t = true → find_nul (str_bytes t ++ Some NUL :: r) = Ret [] (strlen t).
Proof.
  induction t as [|c t IH]; intros Hn; cbn [str_bytes String.list_ascii_of_string fmap list_fmap app find_nul]; [done|].
  cbn [no_nul] in Hn. apply andb_true_iff in Hn as [Hc Hn]. destruct (Ascii.eqb_spec c NUL) as [->|_]; [done|].
  change (Some <$> String.list_ascii_of_string t) with (str_bytes t). by rewrite IH.
Qed.

(** Only the first [n] characters are appended, whatever follows the
    terminator, from whatever place in the text the terminator is looked
    for. *)
Lemma strncat_behind t r src k n :
  let txt := stake (Z.to_nat (Z.min n (Z.of_nat (strlen src)))) src in
  (k <= strlen t)%nat → no_nul (sdrop k t) = true → (strlen txt <= length r)%nat →
  strncat (str_bytes t ++ Some NUL :: r) (Z.of_nat k) src n
  = Ret [] (str_bytes (t +:+ txt) ++ Some NUL :: drop (strlen txt) r).
Proof.
  intros txt Hk Hn Hlen. unfold strncat. fold txt. rewrite !length_app, str_bytes_length. cbn [length].
  destruct (Z.leb_spec (Z.of_nat (strlen t + S (length r))) (Z.of_nat k)); [lia|].
  rewrite Nat2Z.id, drop_str_bytes, find_nul_str, bind_Ret_nil, strlen_sdrop by done.
  replace (k + (strlen t - k))%nat with (strlen t) by lia.
  destruct (Nat.leb_spec (strlen t + S (length r)) (strlen t + strlen txt)); [lia|].
  rewrite take_app_length' by (by rewrite str_bytes_length).
  rewrite str_bytes_app, <- app_assoc. unfold mret, outcome_ret. do 4 f_equal.
  rewrite drop_app_ge, str_bytes_length by (rewrite str_bytes_length; lia).
  by replace (strlen t + strlen txt + 1 - strlen t)%nat with (S (strlen txt)) by lia.
Qed.

Lemma strncat_exact t r src n :
  let txt := stake (Z.to_nat (Z.min n (Z.of_nat (strlen src)))) src in
  (strlen txt <= length r)%nat →
  strncat (str_bytes t ++ Some NUL :: r) (Z.of_nat (strlen t)) src n
  = Ret [] (str_bytes (t +:+ txt) ++ Some NUL :: drop (strlen txt) r).
Proof. intros txt Hlen. apply strncat_behind; [done|by rewrite sdrop_all|done]. Qed.

Lemma strncat_append b t src k n :
  holds b t → (k <= strlen t)%nat → no_nul (sdrop k t) = true → (strlen t + strlen src < length b)%nat →
  Z.of_nat (strlen src) <= n →
  ∃ b', strncat b (Z.of_nat k) src n = Ret [] b' ∧ holds b' (t +:+ src) ∧ length b' = length b.
Proof.
  intros [r ->] Hk Hnul Hlen Hn. rewrite length_app, str_bytes_length in *. cbn [length] in *.
  pose proof (strncat_behind t r src k n) as E. rewrite Z.min_r, Nat2Z.id, stake_all in E by done.
  cbv zeta in E. rewrite E by (done || lia). eexists. split; [done|]. split; [by eexists|].
  rewrite !length_app, !str_bytes_length, strlen_app. cbn [length]. rewrite length_drop. lia.
Qed.

(** ** Segments of a format *)

(** A format is literals and variables, a variable with its percent sign. *)
Inductive piece :=
  | Lit (text : string)
  | Var (name : string).

Fixpoint flatten (ps : list piece) : string :=
  match ps with
  | [] => ""
  | Lit x :: ps' => x +:+ flatten ps'
  | Var x :: ps' => String "%" (x +:+ flatten ps')
  end.

Definition starts_delim (s : string) : Prop :=
  match s with String c _ => is_delim c = true | EmptyString => True end.

(** Literals are not empty and hold no percent sign; a name holds no
    delimiter and one follows it; two literals are not adjacent. *)
Fixpoint pieces_wf (ps : list piece) : Prop :=
  match ps with
  | [] => True
  | Lit x :: ps' =>
      x ≠ "" ∧ sforall (λ c, negb (Ascii.eqb c "%")) x = true ∧ pieces_wf ps'
      ∧ match ps' with Lit _ :: _ => False | _ => True end
  | Var x :: ps' =>
      sforall (λ c, negb (is_delim c)) x = true ∧ starts_delim (flatten ps') ∧ pieces_wf ps'
  end.

Definition resolve (evt_num : Z) (s : hash_map_state) (name : string) : field_result_t :=
  linx_hash_map_get_field_by_path evt_num (Some name) s.

Definition piece_segment (evt_num : Z) (s : hash_map_state) (p : piece) : segment_t :=
  match p with
  | Lit x => SEGMENT_TYPE_LITERAL x (Z.of_nat (strlen x))
  | Var x => SEGMENT_TYPE_VARIABLE (resolve evt_num s x)
  end.

Definition piece_found (evt_num : Z) (s : hash_map_state) (p : piece) : bool :=
  match p with Lit _ => true | Var x => fr_found (resolve evt_num s x) end.

(** The pieces before the first variable that is not found. *)
Fixpoint found_prefix (evt_num : Z) (s : hash_map_state) (ps : list piece) : list piece :=
  match ps with
  | [] => []
  | p :: ps' => if piece_found evt_num s p then p :: found_prefix evt_num s ps' else []
  end.

(** The array of segments has room for what it holds, and its capacity does
    not overflow: it at most doubles. *)
Definition om_wf (m : linx_output_match_t) : Prop :=
  om_size m ≤ om_capacity m ∧ om_capacity m ≤ 2 + 2 * om_size m.

Lemma grow_wf m : om_wf m → om_size m < 2 ^ 60 → om_wf (grow m).
Proof.
  intros [H1 H2] Hs. assert (0 ≤ om_size m) by (unfold om_size; lia).
  unfold grow, resize_segments. destruct (Z.leb_spec (om_capacity m) (om_size m)); [|done].
  unfold om_wf, om_size; cbn [om_segments om_capacity]; fold (om_size m).
  case_match; [lia|]. rewrite wrap_small by lia. lia.
Qed.

Lemma grow_segments m : om_segments (grow m) = om_segments m.
Proof. unfold grow. by destruct (_ <=? _). Qed.

Lemma push_grow seg m :
  om_wf m → om_size m < 2 ^ 60 →
  ∃ m', push_segment seg (grow m) = Ret [] m' ∧ om_wf m' ∧ om_segments m' = om_segments m ++ [seg].
Proof.
  intros [H1 H2] Hs. assert (0 ≤ om_size m) by (unfold om_size; lia).
  unfold grow, push_segment, resize_segments.
  assert (Hpush : ∀ cap, om_size m < cap → cap ≤ 4 + 2 * om_size m →
    om_wf (mk_output_match (om_segments m ++ [seg]) cap)).
  { intros cap Hc1 Hc2. unfold om_wf, om_size in *. cbn. rewrite length_app. cbn. lia. }
  destruct (Z.leb_spec (om_capacity m) (om_size m)).
  - unfold om_size at 1; cbn [om_segments om_capacity]; fold (om_size m).
    destruct (Z.eqb_spec (om_capacity m) 0).
    + destruct (Z.ltb_spec (om_size m) 2); [|lia]. eexists. split; [done|]. split; [apply Hpush; lia|done].
    + rewrite wrap_small by lia. destruct (Z.ltb_spec (om_size m) (om_capacity m * 2)); [|lia].
      eexists. split; [done|]. split; [apply Hpush; lia|done].
  - destruct (Z.ltb_spec (om_size m) (om_capacity m)); [|lia].
    eexists. split; [done|]. split; [apply Hpush; lia|done].
Qed.

Lemma span_fst_all p s : sforall p (span p s).1 = true.
Proof.
  induction s as [|c s IH]; [done|]. cbn. destruct (p c) eqn:E; [|done].
  destruct (span p s) as [a b]. unfold sforall in *. cbn in *. by rewrite E, IH.
Qed.

Lemma span_delim s : starts_delim (span (λ c, negb (is_delim c)) s).2.
Proof.
  induction s as [|c s IH]; [done|]. cbn [span]. destruct (is_delim c) eqn:E; [done|].
  cbn. destruct (span _ s) as [a b]. done.
Qed.

Lemma span_snd_length p s : (strlen (span p s).2 <= strlen s)%nat.
Proof.
  induction s as [|c s IH]; [done|]. cbn. destruct (p c); [|done].
  destruct (span p s) as [a b]. cbn in *. lia.
Qed.

(** The literal collected so far, when there is one. *)
Definition lit_pieces (lit : string) : list piece := if streq lit "" then [] else [Lit lit].

Lemma add_lit m lit :
  om_wf m → om_size m < 2 ^ 60 →
  ∃ m', (if streq lit "" then mret (0, m) else add_literal_segment m lit) = Ret [] (0, m')
    ∧ om_wf m' ∧ om_segments m' = om_segments m ++ (piece_segment 0 None <$> lit_pieces lit).
Proof.
  intros Hw Hs. unfold lit_pieces. destruct (streq_spec lit "") as [->|Hne].
  - exists m. cbn. by rewrite app_nil_r.
  - destruct (push_grow (SEGMENT_TYPE_LITERAL lit (Z.of_nat (strlen lit))) m Hw Hs) as (m' & E & Hw' & Hm).
    exists m'. unfold add_literal_segment.
    destruct (Z.eqb_spec (Z.of_nat (strlen lit)) 0); [destruct lit; [done|cbn in *; lia]|].
    rewrite E. done.
Qed.

Lemma lit_pieces_segment evt s lit :
  piece_segment evt s <$> lit_pieces lit = piece_segment 0 None <$> lit_pieces lit.
Proof. unfold lit_pieces. by destruct (streq lit ""). Qed.

Lemma lit_pieces_wf lit x ps :
  sforall (λ c, negb (Ascii.eqb c "%")) lit = true → pieces_wf (Var x :: ps) →
  pieces_wf (lit_pieces lit ++ Var x :: ps).
Proof. unfold lit_pieces. intros Hl Hw. destruct (streq_spec lit ""); cbn in *; tauto. Qed.

Lemma found_prefix_lit evt s lit ps :
  found_prefix evt s (lit_pieces lit ++ ps) = lit_pieces lit ++ found_prefix evt s ps.
Proof. unfold lit_pieces. by destruct (streq lit ""). Qed.

Lemma forallb_lit evt s lit ps :
  forallb (piece_found evt s) (lit_pieces lit ++ ps) = forallb (piece_found evt s) ps.
Proof. unfold lit_pieces. by destruct (streq lit ""). Qed.

Lemma compile_loop_spec fuel evt s m lit cur :
  (strlen cur < fuel)%nat → om_wf m → om_size m + 2 * Z.of_nat (strlen cur) + 2 < 2 ^ 60 →
  sforall (λ c, negb (Ascii.eqb c "%")) lit = true →
  ∃ ps m', flatten ps = lit +:+ cur ∧ pieces_wf ps
    ∧ compile_loop fuel evt s m lit cur
      = Ret [] (if forallb (piece_found evt s) ps then 0 else -1, m')
    ∧ om_wf m' ∧ om_segments m' = om_segments m ++ (piece_segment evt s <$> found_prefix evt s ps).
Proof.
  revert m lit cur. induction fuel as [|fuel IH]; intros m lit cur Hf Hw Hs Hl; [lia|].
  destruct (add_lit m lit Hw ltac:(lia)) as (m1 & E1 & Hw1 & Hm1).
  cbn [compile_loop]. destruct cur as [|c cur]; cbn [strlen] in *.
  - exists (lit_pieces lit), m1. rewrite E1. rewrite <- (app_nil_r (lit_pieces lit)).
    rewrite found_prefix_lit. cbn [found_prefix]. rewrite !app_nil_r, lit_pieces_segment.
    unfold lit_pieces in *. destruct (streq_spec lit "") as [->|]; [done|].
    cbn. by rewrite sapp_nil_r.
  - destruct (Ascii.eqb_spec c "%") as [->|Hc].
    + rewrite E1. rewrite bind_Ret_nil. cbn [negb Z.eqb].
      pose proof (span_app (λ c, negb (is_delim c)) cur) as Hsp.
      pose proof (span_fst_all (λ c, negb (is_delim c)) cur) as Hname.
      pose proof (span_delim cur) as Hdel.
      pose proof (span_snd_length (λ c, negb (is_delim c)) cur) as Hlen.
      destruct (span _ cur) as [name cur'']; cbn [fst snd] in *.
      assert (Hsz1 : om_size m1 ≤ om_size m + 1).
      { unfold om_size. rewrite Hm1, length_app, length_fmap. unfold lit_pieces.
        destruct (streq lit ""); cbn; lia. }
      assert (Hgoal : ∀ ps, pieces_wf ps → flatten ps = cur'' →
        flatten (lit_pieces lit ++ Var name :: ps) = lit +:+ String "%" cur
        ∧ pieces_wf (lit_pieces lit ++ Var name :: ps)).
      { intros ps Hp Hfl. split; [|apply lit_pieces_wf; [done|]; cbn; by rewrite Hfl].
        unfold lit_pieces. destruct (streq_spec lit "") as [->|]; cbn; by rewrite Hfl, Hsp. }
      unfold add_variable_segment. fold (resolve evt s name).
      destruct (fr_found (resolve evt s name)) eqn:Efound.
      * assert (Hvar : ∀ ps, forallb (piece_found evt s) (Var name :: ps) = forallb (piece_found evt s) ps)
          by (intros; cbn [forallb piece_found]; by rewrite Efound).
        destruct (push_grow (SEGMENT_TYPE_VARIABLE (resolve evt s name)) m1 Hw1 ltac:(lia))
          as (m2 & E2 & Hw2 & Hm2). rewrite E2, bind_Ret_nil, bind_ret_l. cbn [negb Z.eqb].
        destruct (IH m2 "" cur'' ltac:(lia) Hw2) as (ps & m' & Hps & Hpw & E & Hw' & Hm'); [|done|].
        { unfold om_size in *. rewrite Hm2, length_app. cbn. lia. }
        exists (lit_pieces lit ++ Var name :: ps), m'. destruct (Hgoal ps Hpw Hps) as [-> Hwf].
        split; [done|]. split; [done|]. rewrite E, found_prefix_lit. cbn [found_prefix piece_found].
        rewrite Efound. split; [|split; [done|]].
        -- by rewrite forallb_lit, Hvar.
        -- rewrite Hm', Hm2, Hm1, fmap_app, (lit_pieces_segment evt s), fmap_cons. by rewrite <- !app_assoc.
      * assert (Hvar : ∀ ps, forallb (piece_found evt s) (Var name :: ps) = false)
          by (intros ?; unfold forallb at 1, piece_found at 1; rewrite Efound; reflexivity).
        destruct (IH m "" cur'' ltac:(lia) Hw ltac:(lia) eq_refl) as (ps & _ & Hps & Hpw & _).
        rewrite bind_ret_l. cbn [negb Z.eqb].
        pose proof (grow_wf m1 Hw1 ltac:(lia)) as Hw1'.
        exists (lit_pieces lit ++ Var name :: ps), (grow m1). destruct (Hgoal ps Hpw Hps) as [-> Hwf].
        split; [done|]. split; [done|]. rewrite found_prefix_lit. cbn [found_prefix piece_found].
        rewrite Efound. split; [|split; [done|]].
        -- by rewrite forallb_lit, Hvar.
        -- rewrite app_nil_r, (lit_pieces_segment evt s), <- Hm1. apply grow_segments.
    + destruct (IH m (lit +:+ String c "") cur) as (ps & m' & Hps & Hpw & E & Hw' & Hm'); [lia|done|lia| |].
      * rewrite sforall_app, Hl. unfold sforall; cbn. apply Ascii.eqb_neq in Hc. by rewrite Hc.
      * exists ps, m'. rewrite Hps, sapp_assoc. done.
Qed.

(** ** Properties *)

(** Compiling an output text splits it into literals and variables.
    Every format falls into literals without a percent sign and variables
    whose name runs to the next blank or parenthesis; compilation ends
    without undefined behaviour and with a segment for each piece in order.
    It returns 0 when every variable is a registered field; otherwise it
    returns -1 and the match that it leaves behind holds exactly the pieces
    before the first variable that is not. *)
Theorem output_compile_segments (evt_num : Z) (s : hash_map_state)
    (old : option linx_output_match_t) (f : string) :
  Z.of_nat (strlen f) < 2 ^ 31 →
  ∃ ps m, f = flatten ps ∧ pieces_wf ps
    ∧ linx_output_match_compile evt_num s old (Some f)
      = Ret [] (if forallb (piece_found evt_num s) ps then 0 else -1, Some m)
    ∧ om_segments m = piece_segment evt_num s <$> found_prefix evt_num s ps
    ∧ om_size m ≤ om_capacity m.
Proof.
  intros Hf.
  destruct (compile_loop_spec (S (strlen f)) evt_num s (mk_output_match [] 0) "" f)
    as (ps & m & Hps & Hw & E & [Hm _] & Hs); [lia|done|unfold om_size; cbn [om_segments length]; lia|done|].
  exists ps, m. split; [done|]. split; [done|]. split; [|done].
  unfold linx_output_match_compile. by rewrite E.
Qed.

Definition proc_registry : hash_map_state :=
  Some (mk_hash_map [mk_field_table "proc"
    [mk_field_info "name" 0 64 LINX_FIELD_TYPE_CHARBUF;
     mk_field_info "pid" 64 4 LINX_FIELD_TYPE_INT32] 4096] None).

Lemma output_compile_segments_witness :
  ∃ m, linx_output_match_compile 0 proc_registry None (Some "ran %proc.name (%proc.pid)") =
         Ret [] (0, Some m) ∧ om_size m = 5.
Proof.
  destruct (output_compile_segments 0 proc_registry None "ran %proc.name (%proc.pid)"
              ltac:(reflexivity)) as (ps & m & _ & _ & E & _ & _).
  exists m. vm_compute in E. injection E as E0 <-. split; reflexivity.
Defined.

Section format.
Context (m : memory) (s : hash_map_state).

(** What a segment prints. *)
Definition segment_text (seg : segment_t) : outcome string :=
  match seg with
  | SEGMENT_TYPE_LITERAL text _ => mret text
  | SEGMENT_TYPE_VARIABLE field => field_text m s field
  end.

(** A segment with a text of its own that the temporary buffer can hold. *)
Definition segment_prints (seg : segment_t) (t : string) : Prop :=
  segment_text seg = Ret [] t ∧ no_nul t = true
  ∧ match seg with
    | SEGMENT_TYPE_LITERAL text n => n = Z.of_nat (strlen text) ∧ 0 < n
    | SEGMENT_TYPE_VARIABLE _ => (strlen t <= 255)%nat
    end.

Definition concat_str (ts : list string) : string := foldr String.append "" ts.

Lemma stake_ge n t : (strlen t <= n)%nat → stake n t = t.
Proof. revert n. induction t as [|c t IH]; intros [|n] H; cbn in *; [done..|lia|]. rewrite IH by lia. done. Qed.

Lemma no_nul_app a b : no_nul (a +:+ b) = no_nul a && no_nul b.
Proof. induction a as [|c a IH]; [done|]. cbn. by rewrite IH, andb_assoc. Qed.

Lemma no_nul_sdrop k t : no_nul t = true → no_nul (sdrop k t) = true.
Proof. rewrite <- (stake_sdrop k t) at 1. rewrite no_nul_app. by intros [_ ?]%andb_true_iff. Qed.

Lemma segments_no_nul segs ts : Forall2 segment_prints segs ts → no_nul (concat_str ts) = true.
Proof.
  induction 1 as [|seg t segs ts (_ & Hn & _) _ IH]; [done|].
  cbn. fold (concat_str ts). by rewrite no_nul_app, Hn, IH.
Qed.

Definition size_of (b : buffer) : Z := Z.of_nat (length b).

(** Segments that fit are appended; [lost] is how much less than the length of
    the text is counted. *)
Lemma format_loop_prefix segs ts rest b t0 lost :
  Forall2 segment_prints segs ts → holds b t0 → no_nul t0 = true → (lost <= strlen t0)%nat → (lost <= 1)%nat →
  Z.of_nat (strlen t0 + strlen (concat_str ts)) < size_of b - 1 + Z.of_nat lost → size_of b < 2 ^ 31 →
  ∃ b', format_loop m s (segs ++ rest) b (size_of b) (Z.of_nat (strlen t0 - lost))
        = format_loop m s rest b' (size_of b) (Z.of_nat (strlen (t0 +:+ concat_str ts) - lost))
  ∧ holds b' (t0 +:+ concat_str ts) ∧ length b' = length b.
Proof.
  intros H. unfold size_of. revert b t0. induction H as [|seg t segs ts (Ht & Hn & Hseg) _ IH]; intros b t0 Hb Hnul Hl0 Hl1 Hlen Hbl.
  - exists b. cbn [concat_str foldr app]. by rewrite sapp_nil_r.
  - cbn [concat_str foldr app] in *. fold (concat_str ts) in *. rewrite strlen_app in Hlen.
    assert (Hnext : ∀ b', holds b' (t0 +:+ t) → length b' = length b →
      ∃ b'', format_loop m s (segs ++ rest) b' (Z.of_nat (length b)) (Z.of_nat (strlen t0 - lost) + Z.of_nat (strlen t))
        = format_loop m s rest b'' (Z.of_nat (length b)) (Z.of_nat (strlen (t0 +:+ t +:+ concat_str ts) - lost))
      ∧ holds b'' (t0 +:+ t +:+ concat_str ts) ∧ length b'' = length b).
    { intros b' Hb' Hl'. rewrite <- Hl'. rewrite <- !sapp_assoc.
      replace (Z.of_nat (strlen t0 - lost) + Z.of_nat (strlen t)) with (Z.of_nat (strlen (t0 +:+ t) - lost))
        by (rewrite strlen_app; lia).
      apply IH; [done|by rewrite no_nul_app, Hnul, Hn|rewrite ?strlen_app; lia..]. }
    destruct seg as [text n|field]; cbn [segment_text format_loop] in *.
    + injection Ht as ->. destruct Hseg as [-> Hpos].
      rewrite !wrap_small by lia.
      destruct (Z.leb_spec (Z.of_nat (length b) - 1) (Z.of_nat (strlen t0 - lost) + Z.of_nat (strlen t))); [lia|].
      destruct (strncat_append b t0 t (strlen t0 - lost) (Z.of_nat (strlen t)) Hb) as (b' & -> & Hb' & Hl');
        [lia|by apply no_nul_sdrop|lia..|].
      rewrite bind_Ret_nil. by apply Hnext.
    + unfold format_field_value. rewrite Ht, bind_Ret_nil, stake_ge by done.
      rewrite !wrap_small by lia.
      destruct (Z.ltb_spec 0 (Z.of_nat (strlen t))) as [Hpos|Hz]; cbn [andb].
      * destruct (Z.ltb_spec (Z.of_nat (strlen t0 - lost) + Z.of_nat (strlen t)) (Z.of_nat (length b) - 1)); [|lia].
        destruct (strncat_append b t0 t (strlen t0 - lost) (Z.of_nat (strlen t)) Hb) as (b' & -> & Hb' & Hl');
          [lia|by apply no_nul_sdrop|lia..|].
        rewrite bind_Ret_nil, bind_ret_l. destruct (Z.eqb_spec (Z.of_nat (strlen t)) 0); [lia|].
        rewrite wrap_small by lia. by apply Hnext.
      * rewrite bind_ret_l. destruct t; [|cbn in Hz; lia]. cbn [strlen Z.of_nat Z.eqb].
        apply IH; [done|done|lia|lia|cbn [strlen] in Hlen; lia|lia].
Qed.

Lemma format_loop_prints segs ts b t0 :
  Forall2 segment_prints segs ts → holds b t0 → no_nul t0 = true →
  Z.of_nat (strlen t0 + strlen (concat_str ts)) < Z.of_nat (length b) - 1 →
  Z.of_nat (length b) < 2 ^ 31 →
  ∃ b', format_loop m s segs b (Z.of_nat (length b)) (Z.of_nat (strlen t0))
        = Ret [] (Z.of_nat (strlen (t0 +:+ concat_str ts)), b') ∧ holds b' (t0 +:+ concat_str ts).
Proof.
  intros H Hb Hn Hlen Hbl.
  destruct (format_loop_prefix segs ts [] b t0 0 H Hb Hn) as (b' & E & Hb' & _); [lia|lia|unfold size_of; lia|done|].
  rewrite app_nil_r, !Nat.sub_0_r in E. exists b'. split; [|done]. unfold size_of in E. rewrite E. cbn [format_loop].
  rewrite sext_small by (rewrite ?strlen_app; lia). done.
Qed.

(** A literal that does not fit ends the message. *)
Lemma format_loop_literal text rest b t0 :
  size_of b - 1 ≤ Z.of_nat (strlen t0 + strlen text) < 2 ^ 64 → size_of b < 2 ^ 31 → 0 < size_of b →
  format_loop m s (SEGMENT_TYPE_LITERAL text (Z.of_nat (strlen text)) :: rest) b (size_of b) (Z.of_nat (strlen t0)) = Ret [] (-1, b).
Proof.
  intros Hl Hb Hpos. cbn [format_loop]. rewrite !wrap_small by lia.
  destruct (Z.leb_spec (size_of b - 1) (Z.of_nat (strlen t0) + Z.of_nat (strlen text))); [done|lia].
Qed.

(** A variable that does not fit is left out, and one is taken from the
    count. *)
Lemma format_loop_variable field t rest b t0 :
  segment_prints (SEGMENT_TYPE_VARIABLE field) t → (0 < strlen t)%nat → (0 < strlen t0)%nat →
  Z.of_nat (strlen t0) < size_of b → size_of b - 1 ≤ Z.of_nat (strlen t0 + strlen t) → size_of b < 2 ^ 31 →
  format_loop m s (SEGMENT_TYPE_VARIABLE field :: rest) b (size_of b) (Z.of_nat (strlen t0))
  = format_loop m s rest b (size_of b) (Z.of_nat (strlen t0 - 1)).
Proof.
  intros (Ht & Hn & H255) Hp Hp0 Hl Hs Hb. cbn [segment_text] in Ht. cbn [format_loop]. unfold format_field_value.
  rewrite Ht, bind_Ret_nil, !(wrap_small 64 (_ + _)), (wrap_small 64 (size_of b - 1)) by lia.
  rewrite (proj2 (Z.ltb_lt 0 _)) by lia. rewrite (proj2 (Z.ltb_ge _ _)) by lia. cbn [andb]. rewrite bind_ret_l.
  change (wrap 64 (-1) =? 0) with false. cbv iota. f_equal.
  change (wrap 64 (-1)) with (2 ^ 64 - 1). unfold wrap.
  replace (Z.of_nat (strlen t0) + (2 ^ 64 - 1)) with (Z.of_nat (strlen t0 - 1) + 1 * 2 ^ 64) by lia.
  rewrite Z.mod_add by lia. apply Z.mod_small. lia.
Qed.
End format.

(** C36: formatting concatenates the segments, and what it writes stays in the
    buffer, whatever the buffer held before.  With the literals as they were
    compiled and the texts of the variables at most 255 characters long (see
    [output_format_truncates] for longer ones):
    - a message shorter than the buffer by more than one byte is written whole
      and its length returned;
    - at the first literal that does not fit the answer is -1 and the buffer
      holds what came before;
    - one variable that does not fit, behind some text, is left out: the
      buffer holds the text before it and the text behind it, and the answer
      is one less than their length (two of them end outside of the buffer,
      [two_variables_left_out]). *)
Theorem output_format_concat m s om b :
  1 < size_of b < 2 ^ 31 →
  (∀ ts, Forall2 (segment_prints m s) (om_segments om) ts → Z.of_nat (strlen (concat_str ts)) < size_of b - 1 →
     ∃ b', linx_output_match_format m s (Some om) b = Ret [] (Z.of_nat (strlen (concat_str ts)), b')
     ∧ buf_cstr b' = Ret [] (concat_str ts) ∧ length b' = length b)
  ∧ (∀ pre text post ts, om_segments om = pre ++ SEGMENT_TYPE_LITERAL text (Z.of_nat (strlen text)) :: post →
     Forall2 (segment_prints m s) pre ts → Z.of_nat (strlen (concat_str ts)) < size_of b - 1 →
     size_of b - 1 ≤ Z.of_nat (strlen (concat_str ts) + strlen text) < 2 ^ 64 →
     ∃ b', linx_output_match_format m s (Some om) b = Ret [] (-1, b')
     ∧ buf_cstr b' = Ret [] (concat_str ts) ∧ length b' = length b)
  ∧ (∀ pre field post ts t us, om_segments om = pre ++ SEGMENT_TYPE_VARIABLE field :: post →
     Forall2 (segment_prints m s) pre ts → segment_prints m s (SEGMENT_TYPE_VARIABLE field) t →
     Forall2 (segment_prints m s) post us →
     0 < Z.of_nat (strlen (concat_str ts)) < size_of b - 1 → (0 < strlen t)%nat →
     size_of b - 1 ≤ Z.of_nat (strlen (concat_str ts) + strlen t) →
     Z.of_nat (strlen (concat_str ts) + strlen (concat_str us)) < size_of b →
     ∃ b', linx_output_match_format m s (Some om) b
           = Ret [] (Z.of_nat (strlen (concat_str ts) + strlen (concat_str us)) - 1, b')
     ∧ buf_cstr b' = Ret [] (concat_str ts +:+ concat_str us) ∧ length b' = length b).
Proof.
  intros [Hb1 Hb]. destruct b as [|x b]; [unfold size_of in Hb1; cbn in Hb1; lia|].
  assert (Hpre : ∀ pre ts rest, Forall2 (segment_prints m s) pre ts → Z.of_nat (strlen (concat_str ts)) < size_of (x :: b) - 1 →
    ∃ b', format_loop m s (pre ++ rest) (Some NUL :: b) (size_of (x :: b)) 0
          = format_loop m s rest b' (size_of (x :: b)) (Z.of_nat (strlen (concat_str ts)))
    ∧ holds b' (concat_str ts) ∧ length b' = length (x :: b)).
  { intros pre ts rest Hp Hl.
    destruct (format_loop_prefix m s pre ts rest (Some NUL :: b) "" 0 Hp) as (b' & E & Hh & Hlen);
      [by exists b|done|done|lia|unfold size_of in *; cbn [length strlen] in *; lia|done|].
    exists b'. rewrite !Nat.sub_0_r in E. split; [exact E|]. by split. }
  unfold linx_output_match_format. change (Z.of_nat (length (x :: b))) with (size_of (x :: b)). split; [|split].
  - intros ts H Hlen. destruct (Hpre _ _ [] H Hlen) as (b' & E & Hh & Hl). rewrite app_nil_r in E. exists b'.
    rewrite E. cbn [format_loop]. rewrite sext_small by lia. split; [done|]. split; [|done].
    apply holds_cstr; [by eapply segments_no_nul|done].
  - intros pre text post ts Hom H Hlen Hlit. destruct (Hpre _ _ (SEGMENT_TYPE_LITERAL text (Z.of_nat (strlen text)) :: post) H Hlen)
      as (b' & E & Hh & Hl). exists b'. rewrite Hom, E.
    assert (size_of (x :: b) = size_of b') as Es by (unfold size_of; by rewrite Hl). rewrite Es in *.
    rewrite format_loop_literal by (done || lia). split; [done|]. split; [|done].
    apply holds_cstr; [by eapply segments_no_nul|done].
  - intros pre field post ts t us Hom H Hv Hpost Hts Ht Hbig Hfit.
    destruct (Hpre _ _ (SEGMENT_TYPE_VARIABLE field :: post) H ltac:(lia)) as (b1 & E & Hh & Hl). rewrite Hom, E.
    assert (size_of (x :: b) = size_of b1) as Es by (unfold size_of; by rewrite Hl). rewrite Es in *.
    rewrite (format_loop_variable m s field t) by (done || lia).
    pose proof (segments_no_nul _ _ _ _ H) as Hn1. pose proof (segments_no_nul _ _ _ _ Hpost) as Hn2.
    destruct (format_loop_prefix m s post us [] b1 (concat_str ts) 1 Hpost Hh Hn1) as (b' & E' & Hh' & Hl'); [lia..|].
    rewrite app_nil_r in E'. exists b'. rewrite E'. cbn [format_loop]. rewrite sext_small by (rewrite ?strlen_app; lia).
    split; [rewrite strlen_app; do 3 f_equal; lia|]. split; [|congruence].
    apply holds_cstr; [by rewrite no_nul_app, Hn1, Hn2|done].
Qed.

Definition proc_memory : memory := mem_block 4096 (cstr_bytes "ls" ++ replicate 61 0 ++ le_split 4 77).

Definition proc_segments : list segment_t :=
  [SEGMENT_TYPE_LITERAL "ran " 4; SEGMENT_TYPE_VARIABLE (resolve 0 proc_registry "proc.name");
   SEGMENT_TYPE_LITERAL " (" 2; SEGMENT_TYPE_VARIABLE (resolve 0 proc_registry "proc.pid"); SEGMENT_TYPE_LITERAL ")" 1].

(** A process with a name of 16 characters. *)
Definition long_memory : memory := mem_block 4096 (cstr_bytes "interpreter-long" ++ replicate 47 0 ++ le_split 4 77).

(** The message whole, cut at a literal and with a name left out. *)
Lemma output_format_concat_witness :
  (∃ om b', linx_output_match_compile 0 proc_registry None (Some "ran %proc.name (%proc.pid)") = Ret [] (0, Some om)
    ∧ linx_output_match_format proc_memory proc_registry (Some om) (replicate 64 None) = Ret [] (11, b')
    ∧ buf_cstr b' = Ret [] "ran ls (77)")
  ∧ (∃ b', linx_output_match_format proc_memory proc_registry (Some (mk_output_match proc_segments 8)) (replicate 8 None)
           = Ret [] (-1, b') ∧ buf_cstr b' = Ret [] "ran ls")
  ∧ (∃ b', linx_output_match_format long_memory proc_registry (Some (mk_output_match proc_segments 8)) (replicate 12 None)
           = Ret [] (8, b') ∧ buf_cstr b' = Ret [] "ran  (77)").
Proof.
  split; [|split].
  - eexists (mk_output_match _ _).
    destruct (proj1 (output_format_concat proc_memory proc_registry (mk_output_match proc_segments 8) (replicate 64 None)
      ltac:(split; reflexivity)) ["ran "; "ls"; " ("; "77"; ")"]) as (b' & E & Eb & _).
    + repeat constructor; vm_compute; reflexivity || lia.
    + reflexivity.
    + exists b'. split; [vm_compute; reflexivity|]. split; [exact E|exact Eb].
  - destruct (proj1 (proj2 (output_format_concat proc_memory proc_registry (mk_output_match proc_segments 8) (replicate 8 None)
      ltac:(split; reflexivity))) (take 2 proc_segments) " (" (drop 3 proc_segments) ["ran "; "ls"]) as (b' & E & Eb & _).
    + reflexivity.
    + repeat constructor; vm_compute; reflexivity || lia.
    + reflexivity.
    + vm_compute. split; [discriminate|reflexivity].
    + exists b'. split; [exact E|exact Eb].
  - destruct (proj2 (proj2 (output_format_concat long_memory proc_registry (mk_output_match proc_segments 8) (replicate 12 None)
      ltac:(split; reflexivity))) (take 1 proc_segments) (resolve 0 proc_registry "proc.name") (drop 2 proc_segments)
      ["ran "] "interpreter-long" [" ("; "77"; ")"]) as (b' & E & Eb & _).
    + reflexivity.
    + repeat constructor; vm_compute; reflexivity || lia.
    + repeat constructor; vm_compute; reflexivity || lia.
    + repeat constructor; vm_compute; reflexivity || lia.
    + split; reflexivity.
    + vm_compute. lia.
    + vm_compute. discriminate.
    + reflexivity.
    + exists b'. split; [exact E|exact Eb].
Defined.

(** Each variable that is left out takes one more from the count: behind two
    of them a literal is written past the end of the buffer, and when the
    first segment is left out the next one is written before its start. *)
Lemma two_variables_left_out :
  let name := SEGMENT_TYPE_VARIABLE (resolve 0 proc_registry "proc.name") in
  linx_output_match_format long_memory proc_registry
    (Some (mk_output_match [SEGMENT_TYPE_LITERAL "ran " 4; name; name; SEGMENT_TYPE_LITERAL " as root" 8] 4)) (replicate 12 None)
  = Ub OutOfBounds
  ∧ linx_output_match_format long_memory proc_registry
      (Some (mk_output_match [name; SEGMENT_TYPE_LITERAL " ran" 4] 2)) (replicate 12 None)
    = Ub OutOfBounds.
Proof. split; vm_compute; reflexivity. Qed.

(** A long value breaks the message.  A variable whose text is longer
    than 255 characters but fits the buffer is cut to 255 characters in the
    buffer while the full length is returned and counted; when anything
    follows it, the text is appended at the counted offset, behind the
    terminator, and formatting into a fresh buffer reads an indeterminate
    byte. *)
Theorem output_format_truncates m s om field segs t n :
  om_segments om = SEGMENT_TYPE_VARIABLE field :: segs →
  field_text m s field = Ret [] t → no_nul t = true →
  255 < Z.of_nat (strlen t) < Z.of_nat n - 1 → Z.of_nat n < 2 ^ 31 →
  (segs = [] →
   ∃ b', linx_output_match_format m s (Some om) (replicate n None) = Ret [] (Z.of_nat (strlen t), b')
     ∧ buf_cstr b' = Ret [] (stake 255 t))
  ∧ (∀ text segs', segs = SEGMENT_TYPE_LITERAL text (Z.of_nat (strlen text)) :: segs' →
     Z.of_nat (strlen t + strlen text) < Z.of_nat n - 1 →
     linx_output_match_format m s (Some om) (replicate n None) = Ub UninitRead).
Proof.
  intros Hom Ht Hn Hlen Hsmall. destruct n as [|n]; [lia|].
  assert (H255 : strlen (stake 255 t) = 255%nat) by (rewrite strlen_stake; lia).
  set (b1 := str_bytes (stake 255 t) ++ Some NUL :: replicate (n - 255) None).
  assert (Hf : ∀ k : Z * buffer → outcome (Z * buffer),
    format_field_value m s field (Some NUL :: replicate n None) (Z.of_nat (S n)) 0 ≫= k
    = k (Z.of_nat (strlen t), b1)).
  { intros k. unfold format_field_value. rewrite Ht, bind_Ret_nil, !wrap_small by lia.
    destruct (Z.ltb_spec 0 (Z.of_nat (strlen t))); [|lia].
    destruct (Z.ltb_spec (0 + Z.of_nat (strlen t)) (Z.of_nat (S n) - 1)); [|lia]. cbn [andb].
    pose proof (strncat_exact "" (replicate n None) (stake 255 t) (Z.of_nat (strlen t))) as E.
    cbv zeta in E. rewrite Z.min_r, Nat2Z.id, stake_all, length_replicate, H255, drop_replicate in E by lia.
    change (str_bytes "" ++ Some NUL :: replicate n None) with (Some NUL :: replicate n (@None ascii)) in E.
    change (Z.of_nat (strlen "")) with 0 in E. rewrite E by lia. by rewrite bind_Ret_nil, bind_ret_l. }
  unfold linx_output_match_format. rewrite replicate_S, Hom. cbn [format_loop length].
  rewrite length_replicate, Hf. destruct (Z.eqb_spec (Z.of_nat (strlen t)) 0); [lia|].
  rewrite Z.add_0_l, wrap_small by lia. split.
  - intros ->. cbn [format_loop]. rewrite sext_small by lia. exists b1. split; [done|].
    apply holds_cstr; [|by eexists]. rewrite <- (stake_sdrop 255 t) in Hn.
    rewrite no_nul_app in Hn. by apply andb_true_iff in Hn as [-> _].
  - intros text segs' -> Hfit. cbn [format_loop]. rewrite !wrap_small by lia.
    destruct (Z.leb_spec (Z.of_nat (S n) - 1) (Z.of_nat (strlen t) + Z.of_nat (strlen text))); [lia|].
    unfold strncat, b1. rewrite length_app, str_bytes_length, H255. cbn [length]. rewrite length_replicate.
    destruct (Z.leb_spec (Z.of_nat (255 + S (n - 255))) (Z.of_nat (strlen t))); [lia|].
    rewrite Nat2Z.id, drop_app_ge by (rewrite str_bytes_length; lia). rewrite str_bytes_length, H255.
    destruct (strlen t - 255)%nat as [|k] eqn:Ek; [lia|]. cbn [drop]. rewrite drop_replicate.
    destruct (n - 255 - k)%nat as [|j] eqn:Ej; [lia|]. done.
Qed.

Lemma output_format_truncates_witness :
  let name := String.concat "" (replicate 300 "a") in
  let m := mem_block 4096 (cstr_bytes name) in
  let field := resolve 0 proc_registry "proc.name" in
  linx_output_match_format m proc_registry
    (Some (mk_output_match [SEGMENT_TYPE_VARIABLE field; SEGMENT_TYPE_LITERAL " ran" 4] 2))
    (replicate 4096 None) = Ub UninitRead.
Proof.
  intros name m field.
  refine (proj2 (output_format_truncates m proc_registry
    (mk_output_match [SEGMENT_TYPE_VARIABLE field; SEGMENT_TYPE_LITERAL " ran" 4] 2) field
    [SEGMENT_TYPE_LITERAL " ran" 4] name 4096 eq_refl _ _ _ _) " ran" [] eq_refl _);
    vm_compute; try reflexivity; split; reflexivity.
Defined.
