(* ===== verification/Match.v ===== *)
(** * Rule matchers (rule_engine_match/linx_rule_engine_match.c,
    rule_match_func.c)

    A syntax tree is compiled into a tree of matchers, each a function pointer
    and a context.  [compile_ast] builds the tree, [linx_rule_engine_match]
    runs it against the structures the registry points to.

    A context is a heap block of [sizeof(num_context_t)] = 80 bytes whatever
    it holds: the resolved field (64 bytes) and a slot of 16 bytes.  A
    [list_context_t] needs 88 bytes, so its count is written past the block. *)
From S2P Require Import Prelude CString Memory EventTable HashMap Float OpType Ast Output.
From Stdlib Require Import Ascii.

#[local] Open Scope Z_scope.

(** ** Contexts and matchers *)

(** What [find_field_name_and_value] stores in the slot: nothing, a number,
    the low end of a [long double], a string or a list of strings. *)
Inductive ctx_value :=
  | CtxIndeterminate
  | CtxInt (int_val : Z)
  | CtxDouble (double_val : f32)
  | CtxStr (str : string)
  | CtxList (list : list string).

Inductive match_func_t :=
  | F_or_matcher
  | F_and_matcher
  | F_not_matcher
  | F_num_gt_matcher
  | F_num_ge_matcher
  | F_num_lt_matcher
  | F_num_le_matcher
  | F_str_assign_matcher
  | F_str_ne_matcher
  | F_str_contains_matcher
  | F_str_icontains_matcher
  | F_str_startswith_matcher
  | F_str_endswith_matcher
  | F_list_in_matcher.

(** What the context of a match holds, over the matches [M] of its operands. *)
Inductive match_context (M : Type) :=
  | LogicContext (left right : M)
  | UnaryContext (operand : option M)
  | ValueContext (field : field_result_t) (value : ctx_value).
Arguments LogicContext {M} left right.
Arguments UnaryContext {M} operand.
Arguments ValueContext {M} field value.

(** A pointer to a match.  [func] is indeterminate when the compiler leaves it
    unset; the member [type] is never set. *)
Inductive linx_rule_match_t :=
  | MatchNull
  | Match (func : option match_func_t) (context : match_context linx_rule_match_t).

Definition match_null (m : linx_rule_match_t) : bool :=
  match m with MatchNull => true | _ => false end.

(** ** Compilation *)
Fixpoint list_strings (items : list ast_node) : outcome (list string) :=
  match items with
  | [] => mret []
  | AstString s :: items' => l ← list_strings items'; mret (s :: l)
  | AstNull :: _ => Ub NullDeref
  | _ :: _ => Ub BadAddress
  end.

(** The return code, [*name] and what the slot of the context holds. *)
Definition find_field_name_and_value (left right : ast_node)
    : outcome (Z * option string * ctx_value) :=
  if ast_null left || ast_null right then mret (-1, None, CtxIndeterminate)
  else
    let found :=
      match left, right with
      | AstField name, v => Some (name, v)
      | v, AstField name => Some (name, v)
      | _, _ => None
      end in
    match found with
    | None => mret (-1, None, CtxIndeterminate)
    | Some (name, v) =>
        ctx ← match v with
              | AstInt z => mret (CtxInt z)
              | AstFloat f => mret (CtxDouble f)
              | AstString s => mret (CtxStr s)
              | AstList items => _ ← overflow; l ← list_strings items; mret (CtxList l)
              | _ => mret CtxIndeterminate
              end;
        mret (0, Some name, ctx)
    end.

Definition num_func (op : binary_num_op_type_t) : option match_func_t :=
  match op with
  | BINARY_NUM_OP_GT => Some F_num_gt_matcher
  | BINARY_NUM_OP_GE => Some F_num_ge_matcher
  | BINARY_NUM_OP_LT => Some F_num_lt_matcher
  | BINARY_NUM_OP_LE => Some F_num_le_matcher
  | BINARY_NUM_OP_INVALID => None
  end.

Definition str_func (op : binary_str_op_type_t) : option match_func_t :=
  match op with
  | BINARY_STR_OP_ASSIGN => Some F_str_assign_matcher
  | BINARY_STR_OP_NE => Some F_str_ne_matcher
  | BINARY_STR_OP_CONTAINS => Some F_str_contains_matcher
  | BINARY_STR_OP_ICONTAINS => Some F_str_icontains_matcher
  | BINARY_STR_OP_STARTSWITH => Some F_str_startswith_matcher
  | BINARY_STR_OP_ENDSWITH => Some F_str_endswith_matcher
  | BINARY_STR_OP_EQ | BINARY_STR_OP_GLOB | BINARY_STR_OP_IGLOB | BINARY_STR_OP_BCONTAINS
  | BINARY_STR_OP_BSTARTSWITH | BINARY_STR_OP_REGEX | BINARY_STR_OP_INVALID => None
  end.

Definition list_func (op : binary_list_op_type_t) : option match_func_t :=
  match op with
  | BINARY_LIST_OP_IN => Some F_list_in_matcher
  | BINARY_LIST_OP_INTERSECTS | BINARY_LIST_OP_PMATCH | BINARY_LIST_OP_INVALID => None
  end.

Definition bool_func (op : binary_bool_op_type_t) : option match_func_t :=
  match op with
  | BINARY_BOOL_OP_OR => Some F_or_matcher
  | BINARY_BOOL_OP_AND => Some F_and_matcher
  | BINARY_BOOL_OP_INVALID => None
  end.

Section compile.
Context (evt_num : Z) (s : hash_map_state).

(** The part shared by the three kinds of comparison; a failed search leaves
    a field that is not found. *)
Definition compile_comparison (func : option match_func_t) (left right : ast_node)
    : outcome linx_rule_match_t :=
  '(_, field_name, value) ← find_field_name_and_value left right;
  mret (Match func (ValueContext (linx_hash_map_get_field_by_path evt_num field_name s) value)).

Definition compile_binary_num_node (op : binary_num_op_type_t) (left right : ast_node) :=
  compile_comparison (num_func op) left right.
Definition compile_binary_str_node (op : binary_str_op_type_t) (left right : ast_node) :=
  compile_comparison (str_func op) left right.
Definition compile_binary_list_node (op : binary_list_op_type_t) (left right : ast_node) :=
  compile_comparison (list_func op) left right.

(** What the recursive calls return for the operands. *)
Definition compile_binary_bool_node (op : binary_bool_op_type_t) (left right : outcome linx_rule_match_t)
    : outcome linx_rule_match_t :=
  left ← left;
  right ← right;
  if match_null left || match_null right then mret MatchNull
  else mret (Match (bool_func op) (LogicContext left right)).

Definition compile_unary_node (op : unary_op_type_t) (operand : outcome linx_rule_match_t) : outcome linx_rule_match_t :=
  match op with
  | UNARY_OP_NOT =>
      operand ← operand;
      if match_null operand then mret MatchNull
      else mret (Match (Some F_not_matcher) (UnaryContext (Some operand)))
  | _ => mret (Match None (UnaryContext None))
  end.

Fixpoint compile_ast (ast : ast_node) : outcome linx_rule_match_t :=
  match ast with
  | AstBool op l r => compile_binary_bool_node op (compile_ast l) (compile_ast r)
  | AstNum op l r => compile_binary_num_node op l r
  | AstStr op l r => compile_binary_str_node op l r
  | AstListOp op l r => compile_binary_list_node op l r
  | AstUnary op a => compile_unary_node op (compile_ast a)
  | _ => mret MatchNull
  end.

(** The return code and the new [*match]. *)
Definition linx_compile_ast (ast : ast_node) (old : linx_rule_match_t)
    : outcome (Z * linx_rule_match_t) :=
  if ast_null ast then mret (-1, old)
  else m ← compile_ast ast; mret (0, m).
End compile.

(** The switch is on [match->type], which nothing ever sets. *)
Definition linx_rule_engine_match_destroy (m : linx_rule_match_t) : outcome unit :=
  match m with
  | MatchNull => mret ()
  | Match _ _ => Ub UninitRead
  end.

(** ** Matching *)
Section matching.
Context (m : memory) (s : hash_map_state).

Definition matcher_get_value_ptr (field : field_result_t)
    : outcome (Z * option linx_field_type_t) :=
  '(ptr, type) ← linx_hash_map_get_value_ptr m s field None;
  if negb (ptr =? 0) && is_struct (fr_type field)
  then ptr' ← from_opt BadAddress (load_u64 m ptr); mret (ptr', type)
  else mret (ptr, type).

(** [number.int_val]: eight bytes of the slot. *)
Definition read_int_val (v : ctx_value) : outcome Z :=
  match v with
  | CtxInt z => mret z
  | CtxDouble f => mret (sext 64 (x87_significand f))
  | _ => Ub UninitRead
  end.

Definition read_str (v : ctx_value) : outcome string :=
  match v with CtxStr x => mret x | _ => Ub UninitRead end.

Definition read_list (v : ctx_value) : outcome (list string) :=
  match v with CtxList l => mret l | _ => Ub UninitRead end.

(** The body of the four numeric matchers: eight bytes are read whatever the
    size of the field. *)
Definition num_matcher (cmp : Z → Z → bool) (field : field_result_t) (v : ctx_value) : outcome bool :=
  '(value_ptr, _) ← matcher_get_value_ptr field;
  if value_ptr =? 0 then mret false
  else
    u ← from_opt BadAddress (load_u64 m value_ptr);
    n ← read_int_val v;
    mret (cmp (sext 64 u) n).

Definition num_gt_matcher := num_matcher (λ value n, n <? value).
Definition num_ge_matcher := num_matcher (λ value n, n <=? value).
Definition num_lt_matcher := num_matcher (λ value n, value <? n).
Definition num_le_matcher := num_matcher (λ value n, value <=? n).

(** The text of a field that is no string, through a 256-byte buffer. *)
Definition formatted_value (field : field_result_t) : outcome (option string) :=
  '(r, buf) ← format_field_value m s field (replicate 256 (Some NUL)) 256 0;
  if sext 32 r <=? 0 then mret None
  else v ← buf_cstr buf; mret (Some v).

(** The pointer to a string field, [None] for a type of the default case.  The
    switch reads [type] also when no pointer was found and nothing set it. *)
Definition string_ptr (also_ids : bool) (field : field_result_t) : outcome (option Z) :=
  '(value_ptr, type) ← matcher_get_value_ptr field;
  type ← init_or_ub type;
  match type with
  | LINX_FIELD_TYPE_CHARBUF => mret (Some value_ptr)
  | LINX_FIELD_TYPE_UID | LINX_FIELD_TYPE_PID => mret (if also_ids then Some value_ptr else None)
  | LINX_FIELD_TYPE_CHARBUF_ARRAY => Some <$> from_opt BadAddress (load_u64 m value_ptr)
  | _ => mret None
  end.

Definition deref_str (p : Z) : outcome string :=
  if p =? 0 then Ub NullDeref else from_opt BadAddress (load_cstr m p).

(** A string, or the text that stands for any other field. *)
Definition string_or_formatted (also_ids : bool) (field : field_result_t) : outcome (option string) :=
  p ← string_ptr also_ids field;
  match p with
  | Some p => Some <$> deref_str p
  | None => formatted_value field
  end.

Definition str_assign_matcher (field : field_result_t) (v : ctx_value) : outcome bool :=
  value ← string_or_formatted true field;
  match value with
  | None => mret false
  | Some value =>
      str ← read_str v;
      if negb (strlen value =? strlen str)%nat then mret false
      else mret (strncmp0 value str (strlen str))
  end.

Definition str_ne_matcher (field : field_result_t) (v : ctx_value) : outcome bool :=
  b ← str_assign_matcher field v; mret (negb b).

(** The matchers whose default case is [false]. *)
Definition plain_str_matcher (test : string → string → bool) (field : field_result_t) (v : ctx_value)
    : outcome bool :=
  p ← string_ptr false field;
  match p with
  | None => mret false
  | Some p => value ← deref_str p; str ← read_str v; mret (test value str)
  end.

Definition str_contains_matcher := plain_str_matcher strstr.
Definition str_startswith_matcher :=
  plain_str_matcher (λ value str,
    if (strlen value <? strlen str)%nat then false else strncmp0 value str (strlen str)).
Definition str_endswith_matcher :=
  plain_str_matcher (λ value str,
    if (strlen value <? strlen str)%nat then false
    else strncmp0 (sdrop (strlen value - strlen str) value) str (strlen str)).

(** A null value has no lower-case copy, which is no match. *)
Definition str_icontains_matcher (field : field_result_t) (v : ctx_value) : outcome bool :=
  p ← string_ptr false field;
  match p with
  | None => mret false
  | Some p =>
      value ← (if p =? 0 then mret None else Some <$> deref_str p);
      str ← read_str v;
      match value with
      | None => mret false
      | Some value => mret (strstr (slower value) (slower str))
      end
  end.

Fixpoint in_list (value : string) (l : list string) : bool :=
  match l with
  | [] => false
  | x :: l' =>
      if negb (strlen value =? strlen x)%nat then in_list value l'
      else if strncmp0 value x (strlen x) then true else in_list value l'
  end.

Definition list_in_matcher (field : field_result_t) (v : ctx_value) : outcome bool :=
  value ← string_or_formatted false field;
  match value with
  | None => mret false
  | Some value => l ← read_list v; mret (in_list value l)
  end.

(** The connectives, on what the calls for their operands do. *)
Definition and_matcher (left right : outcome bool) : outcome bool :=
  result ← left; if negb result then mret result else right.
Definition or_matcher (left right : outcome bool) : outcome bool :=
  result ← left; if (result : bool) then mret result else right.
Definition not_matcher (operand : outcome bool) : outcome bool := result ← operand; mret (negb result).

(** A call through [match->func]; the compiler pairs every function with a
    context of its kind. *)
Fixpoint linx_rule_engine_match (rm : linx_rule_match_t) : outcome bool :=
  match rm with
  | MatchNull => Ub NullDeref
  | Match None _ => Ub WildCall
  | Match (Some func) ctx =>
      match func, ctx with
      | F_and_matcher, LogicContext l r =>
          and_matcher (linx_rule_engine_match l) (linx_rule_engine_match r)
      | F_or_matcher, LogicContext l r =>
          or_matcher (linx_rule_engine_match l) (linx_rule_engine_match r)
      | F_not_matcher, UnaryContext (Some a) => not_matcher (linx_rule_engine_match a)
      | F_num_gt_matcher, ValueContext field v => num_gt_matcher field v
      | F_num_ge_matcher, ValueContext field v => num_ge_matcher field v
      | F_num_lt_matcher, ValueContext field v => num_lt_matcher field v
      | F_num_le_matcher, ValueContext field v => num_le_matcher field v
      | F_str_assign_matcher, ValueContext field v => str_assign_matcher field v
      | F_str_ne_matcher, ValueContext field v => str_ne_matcher field v
      | F_str_contains_matcher, ValueContext field v => str_contains_matcher field v
      | F_str_icontains_matcher, ValueContext field v => str_icontains_matcher field v
      | F_str_startswith_matcher, ValueContext field v => str_startswith_matcher field v
      | F_str_endswith_matcher, ValueContext field v => str_endswith_matcher field v
      | F_list_in_matcher, ValueContext field v => list_in_matcher field v
      | _, _ => Ub BadAddress
      end
  end.
End matching.

Lemma list_strings_all l : list_strings (AstString <$> l) = Ret [] l.
Proof. induction l as [|y l IH]; [done|]. cbn. by rewrite IH. Qed.

(** ** Fields in memory *)

(** The path [f] names a registered field of type [ty] without an argument,
    and the base address set for its table puts it at [addr]. *)
Definition field_loc (evt_num : Z) (s : hash_map_state) (f : string) (ty : linx_field_type_t)
    (addr : Z) : Prop :=
  let r := linx_hash_map_get_field_by_path evt_num (Some f) s in
  let base := linx_hash_map_get_table_base (fr_table_name r) s in
  fr_found r = true ∧ fr_arg r = None ∧ fr_type r = ty ∧ base ≠ 0
  ∧ wrap 64 (base + fr_offset r) = addr ∧ addr ≠ 0.

Section at_field.
Context (m : memory) (s : hash_map_state) (evt_num : Z).

Lemma get_value_ptr_loc f ty addr :
  field_loc evt_num s f ty addr →
  linx_hash_map_get_value_ptr m s (linx_hash_map_get_field_by_path evt_num (Some f) s) None
  = Ret [] (addr, Some ty).
Proof.
  intros (Hf & Ha & Ht & Hb & Haddr & _). unfold linx_hash_map_get_value_ptr.
  rewrite Hf, Ha, Haddr, Ht. cbn [negb]. apply Z.eqb_neq in Hb. by rewrite Hb.
Qed.

Lemma matcher_ptr_loc f ty addr :
  field_loc evt_num s f ty addr → is_struct ty = false →
  matcher_get_value_ptr m s (linx_hash_map_get_field_by_path evt_num (Some f) s)
  = Ret [] (addr, Some ty).
Proof.
  intros Hl Hty. unfold matcher_get_value_ptr. rewrite (get_value_ptr_loc _ _ _ Hl), bind_Ret_nil.
  destruct Hl as (_ & _ & -> & _). by rewrite Hty, andb_false_r.
Qed.

(** The comparison of a number operator. *)
Definition num_cmp (op : binary_num_op_type_t) (value n : Z) : bool :=
  match op with
  | BINARY_NUM_OP_GT => n <? value
  | BINARY_NUM_OP_GE => n <=? value
  | BINARY_NUM_OP_LT => value <? n
  | BINARY_NUM_OP_LE => value <=? n
  | BINARY_NUM_OP_INVALID => false
  end.

Lemma match_num f ty addr op v u n :
  field_loc evt_num s f ty addr → is_struct ty = false → op ≠ BINARY_NUM_OP_INVALID →
  load_u64 m addr = Some u → read_int_val v = Ret [] n →
  linx_rule_engine_match m s
    (Match (num_func op) (ValueContext (linx_hash_map_get_field_by_path evt_num (Some f) s) v))
  = Ret [] (num_cmp op (sext 64 u) n).
Proof.
  intros Hl Hty Hop Hu Hv. assert (Hne : addr ≠ 0) by (by destruct Hl as (_ & _ & _ & _ & _ & ?)).
  assert (H : ∀ cmp, num_matcher m s cmp (linx_hash_map_get_field_by_path evt_num (Some f) s) v
    = Ret [] (cmp (sext 64 u) n)).
  { intros cmp. unfold num_matcher. rewrite (matcher_ptr_loc _ _ _ Hl Hty), bind_Ret_nil.
    apply Z.eqb_neq in Hne. rewrite Hne, Hu. cbn [from_opt]. by rewrite bind_ret_l, Hv, bind_Ret_nil. }
  destruct op; [exact (H _)..|done].
Qed.

(** The two kinds of string fields. *)
Definition string_at (f x : string) : Prop :=
  no_nul x = true ∧
  ((∃ addr, field_loc evt_num s f LINX_FIELD_TYPE_CHARBUF addr ∧ cstr_at m addr x)
   ∨ (∃ addr p, field_loc evt_num s f LINX_FIELD_TYPE_CHARBUF_ARRAY addr
       ∧ load_u64 m addr = Some p ∧ p ≠ 0 ∧ cstr_at m p x)).

Lemma string_ptr_at ids f x :
  string_at f x →
  ∃ p, string_ptr m s ids (linx_hash_map_get_field_by_path evt_num (Some f) s) = Ret [] (Some p)
    ∧ p ≠ 0 ∧ deref_str m p = Ret [] x.
Proof.
  intros [Hn H]. unfold string_ptr.
  assert (Hd : ∀ p, p ≠ 0 → cstr_at m p x → deref_str m p = Ret [] x).
  { intros p Hp Hx. unfold deref_str. apply Z.eqb_neq in Hp. rewrite Hp.
    by rewrite (load_cstr_at _ _ _ Hn Hx). }
  destruct H as [(addr & Hl & Hx)|(addr & p & Hl & Hp & Hne & Hx)];
    rewrite (matcher_ptr_loc _ _ _ Hl eq_refl), bind_Ret_nil.
  - exists addr. assert (addr ≠ 0) by (by destruct Hl as (_ & _ & _ & _ & _ & ?)). auto.
  - exists p. cbn [init_or_ub]. rewrite bind_ret_l, Hp. auto.
Qed.

(** What each implemented string operator means. *)
Definition str_holds (op : binary_str_op_type_t) (x v : string) : Prop :=
  match op with
  | BINARY_STR_OP_ASSIGN => x = v
  | BINARY_STR_OP_NE => x ≠ v
  | BINARY_STR_OP_CONTAINS => ∃ a b, x = a +:+ v +:+ b
  | BINARY_STR_OP_ICONTAINS => ∃ a b, slower x = a +:+ slower v +:+ b
  | BINARY_STR_OP_STARTSWITH => ∃ b, x = v +:+ b
  | BINARY_STR_OP_ENDSWITH => ∃ a, x = a +:+ v
  | _ => False
  end.

Lemma startswith_spec x v :
  (if (strlen x <? strlen v)%nat then false else strncmp0 x v (strlen v)) = true ↔ ∃ b, x = v +:+ b.
Proof.
  destruct (Nat.ltb_spec (strlen x) (strlen v)); [|apply strncmp0_prefix].
  split; [done|]. intros [b ->]. rewrite strlen_app in *. lia.
Qed.

Lemma endswith_spec x v :
  (if (strlen x <? strlen v)%nat then false
   else strncmp0 (sdrop (strlen x - strlen v) x) v (strlen v)) = true ↔ ∃ a, x = a +:+ v.
Proof.
  destruct (Nat.ltb_spec (strlen x) (strlen v)).
  - split; [done|]. intros [a ->]. rewrite strlen_app in *. lia.
  - rewrite strncmp0_eq by (rewrite strlen_sdrop; lia). split.
    + intros E. exists (stake (strlen x - strlen v) x). rewrite <- E at 2. by rewrite stake_sdrop.
    + intros [a ->]. rewrite strlen_app. replace (strlen a + strlen v - strlen v)%nat with (strlen a) by lia.
      apply sdrop_app_length.
Qed.

Lemma assign_spec x v :
  (if negb (strlen x =? strlen v)%nat then false else strncmp0 x v (strlen v)) = true ↔ x = v.
Proof.
  destruct (Nat.eqb_spec (strlen x) (strlen v)); cbn [negb]; [by apply strncmp0_eq|].
  split; [done|]. by intros ->.
Qed.

Lemma in_list_spec x l : in_list x l = true ↔ x ∈ l.
Proof.
  induction l as [|y l IH]; cbn [in_list]; [set_solver|]. rewrite elem_of_cons, <- IH.
  pose proof (assign_spec x y) as H. destruct (negb (strlen x =? strlen y)%nat).
  - split; [auto|]. intros [->|]; [|done]. by specialize (proj2 H eq_refl).
  - destruct (strncmp0 x y (strlen y)); [tauto|]. split; [auto|]. intros [->|]; [|done].
    by specialize (proj2 H eq_refl).
Qed.
End at_field.

(** The match a comparison compiles to. *)
Definition comparison (evt_num : Z) (s : hash_map_state) (func : option match_func_t) (f : string)
    (v : ctx_value) : linx_rule_match_t :=
  Match func (ValueContext (linx_hash_map_get_field_by_path evt_num (Some f) s) v).

Section comparisons.
Context (m : memory) (s : hash_map_state) (evt_num : Z).

Lemma string_or_formatted_at f x ids :
  string_at m s evt_num f x →
  string_or_formatted m s ids (linx_hash_map_get_field_by_path evt_num (Some f) s) = Ret [] (Some x).
Proof.
  intros Hx. destruct (string_ptr_at m s evt_num ids f x Hx) as (p & Hp & _ & Hd).
  unfold string_or_formatted. by rewrite Hp, bind_Ret_nil, Hd.
Qed.

Lemma plain_str_at test f x v :
  string_at m s evt_num f x →
  plain_str_matcher m s test (linx_hash_map_get_field_by_path evt_num (Some f) s) (CtxStr v)
  = Ret [] (test x v).
Proof.
  intros Hx. destruct (string_ptr_at m s evt_num false f x Hx) as (p & Hp & _ & Hd).
  unfold plain_str_matcher. by rewrite Hp, bind_Ret_nil, Hd, bind_Ret_nil.
Qed.

Lemma icontains_at f x v :
  string_at m s evt_num f x →
  str_icontains_matcher m s (linx_hash_map_get_field_by_path evt_num (Some f) s) (CtxStr v)
  = Ret [] (strstr (slower x) (slower v)).
Proof.
  intros Hx. destruct (string_ptr_at m s evt_num false f x Hx) as (p & Hp & Hne & Hd).
  apply Z.eqb_neq in Hne. unfold str_icontains_matcher. by rewrite Hp, bind_Ret_nil, Hne, Hd.
Qed.

Lemma assign_at f x v :
  string_at m s evt_num f x →
  ∃ b, str_assign_matcher m s (linx_hash_map_get_field_by_path evt_num (Some f) s) (CtxStr v) = Ret [] b
    ∧ (b = true ↔ x = v).
Proof.
  intros Hx. exists (if negb (strlen x =? strlen v)%nat then false else strncmp0 x v (strlen v)).
  split; [|apply assign_spec]. unfold str_assign_matcher.
  rewrite (string_or_formatted_at _ _ _ Hx), bind_Ret_nil. cbn [read_str].
  rewrite bind_ret_l. by destruct (negb _).
Qed.

Lemma match_str f x op v :
  string_at m s evt_num f x → str_func op ≠ None →
  ∃ b, linx_rule_engine_match m s (comparison evt_num s (str_func op) f (CtxStr v)) = Ret [] b
    ∧ (b = true ↔ str_holds op x v).
Proof.
  intros Hx Hop. destruct (assign_at f x v Hx) as (b & Hb & Hs).
  destruct op; try done; cbn [str_holds].
  - eauto.
  - exists (negb b). split.
    + transitivity (str_ne_matcher m s (linx_hash_map_get_field_by_path evt_num (Some f) s) (CtxStr v));
        [done|]. unfold str_ne_matcher. by rewrite Hb.
    + rewrite negb_true_iff, <- not_true_iff_false. by rewrite Hs.
  - eexists. split; [by apply plain_str_at|apply strstr_spec].
  - eexists. split; [by apply icontains_at|apply strstr_spec].
  - eexists. split; [by apply plain_str_at|apply startswith_spec].
  - eexists. split; [by apply plain_str_at|apply endswith_spec].
Qed.

Lemma match_in f x l :
  string_at m s evt_num f x →
  linx_rule_engine_match m s (comparison evt_num s (Some F_list_in_matcher) f (CtxList l))
  = Ret [] (in_list x l).
Proof.
  intros Hx.
  transitivity (list_in_matcher m s (linx_hash_map_get_field_by_path evt_num (Some f) s) (CtxList l));
    [done|]. unfold list_in_matcher. by rewrite (string_or_formatted_at _ _ _ Hx), bind_Ret_nil.
Qed.

Lemma compile_in f l :
  compile_ast evt_num s (AstListOp BINARY_LIST_OP_IN (AstField f) (AstList (AstString <$> l)))
  = Ret [HeapOverflow] (comparison evt_num s (Some F_list_in_matcher) f (CtxList l)).
Proof.
  cbn [compile_ast]. unfold compile_binary_list_node, compile_comparison.
  cbn [find_field_name_and_value ast_null orb]. by rewrite list_strings_all.
Qed.
End comparisons.

(** ** Properties *)

(** Numeric comparisons.  A comparison of a registered field with an
    integer compiles without undefined behaviour to a match that compares the
    signed 64-bit integer at the field's address.  This is the field's value
    for an 8-byte field; for a 4-byte field [x] followed by the integer [y]
    it is x + 2^32 * y, so that [y] decides the result: "greater than" any
    non-negative 32-bit [n] holds for every [x] when 0 < y < 2^31, and "less
    than" it for none. *)
Theorem num_match_reads_eight_bytes m s evt_num f ty addr op n old :
  field_loc evt_num s f ty addr → is_struct ty = false → op ≠ BINARY_NUM_OP_INVALID →
  let rm := comparison evt_num s (num_func op) f (CtxInt n) in
  linx_compile_ast evt_num s (AstNum op (AstField f) (AstInt n)) old = Ret [] (0, rm)
  ∧ (∀ z, int_at m addr 8 z → linx_rule_engine_match m s rm = Ret [] (num_cmp op (sext 64 z) n))
  ∧ (∀ x y, int_at m addr 4 x → int_at m (addr + 4) 4 y → 0 ≤ x < 2 ^ 32 → 0 ≤ y < 2 ^ 32 →
      linx_rule_engine_match m s rm = Ret [] (num_cmp op (sext 64 (x + 2 ^ 32 * y)) n)
      ∧ (0 < y < 2 ^ 31 → 0 ≤ n < 2 ^ 32 →
         (op = BINARY_NUM_OP_GT → linx_rule_engine_match m s rm = Ret [] true)
         ∧ (op = BINARY_NUM_OP_LT → linx_rule_engine_match m s rm = Ret [] false))).
Proof.
  intros Hl Hty Hop rm. split; [done|].
  assert (H : ∀ u, load_u64 m addr = Some u →
    linx_rule_engine_match m s rm = Ret [] (num_cmp op (sext 64 u) n)) by (intros; by eapply match_num).
  split.
  - intros z Hz. rewrite (H _ (load_u64_int_at _ _ _ Hz)). by rewrite sext_wrap.
  - intros x y Hx Hy Hrx Hry. pose proof (load_u64_two _ _ _ _ Hx Hy Hrx Hry) as Hu.
    split; [by apply H|]. intros Hy31 Hn. rewrite (H _ Hu), sext_small by lia.
    split; intros ->; cbn [num_cmp]; f_equal; lia.
Qed.

Lemma num_match_reads_eight_bytes_witness :
  let m := mem_block 4160 (le_split 4 77 ++ le_split 4 1) in
  linx_rule_engine_match m proc_registry
    (comparison 0 proc_registry (Some F_num_gt_matcher) "proc.pid" (CtxInt 1000)) = Ret [] true.
Proof.
  intros m.
  refine (proj1 (proj2 (proj2 (proj2 (num_match_reads_eight_bytes m proc_registry 0 "proc.pid"
    LINX_FIELD_TYPE_INT32 4160 BINARY_NUM_OP_GT 1000 MatchNull _ eq_refl ltac:(discriminate)))
      77 1 _ _ _ _) _ _) eq_refl).
  - repeat split; discriminate.
  - repeat split; vm_compute; reflexivity.
  - repeat split; vm_compute; reflexivity.
  - lia.
  - lia.
  - lia.
  - lia.
Defined.

(** C26: string comparisons.  On a registered string field, inline or behind
    a pointer, whose value in memory is [x], each implemented string operator
    compiles without undefined behaviour and the match decides its meaning:
    equality, inequality, substring, substring up to ASCII case, prefix,
    suffix; "in" compiles with one write past the 80-byte context and decides
    membership. *)
Theorem str_match_decides m s evt_num f x old :
  string_at m s evt_num f x →
  (∀ op v, str_func op ≠ None →
    ∃ b, linx_compile_ast evt_num s (AstStr op (AstField f) (AstString v)) old
         = Ret [] (0, comparison evt_num s (str_func op) f (CtxStr v))
    ∧ linx_rule_engine_match m s (comparison evt_num s (str_func op) f (CtxStr v)) = Ret [] b
    ∧ (b = true ↔ str_holds op x v))
  ∧ (∀ l, ∃ b,
      linx_compile_ast evt_num s (AstListOp BINARY_LIST_OP_IN (AstField f) (AstList (AstString <$> l))) old
      = Ret [HeapOverflow] (0, comparison evt_num s (Some F_list_in_matcher) f (CtxList l))
    ∧ linx_rule_engine_match m s (comparison evt_num s (Some F_list_in_matcher) f (CtxList l)) = Ret [] b
    ∧ (b = true ↔ x ∈ l)).
Proof.
  intros Hx. split.
  - intros op v Hop. destruct (match_str m s evt_num f x op v Hx Hop) as (b & Hm & Hb).
    exists b. split; [done|]. by split.
  - intros l. exists (in_list x l). split; [|split; [by apply match_in|apply in_list_spec]].
    unfold linx_compile_ast. cbn [ast_null]. by rewrite compile_in.
Qed.

Lemma str_match_decides_witness :
  ∃ b, linx_rule_engine_match proc_memory proc_registry
         (comparison 0 proc_registry (Some F_str_endswith_matcher) "proc.name" (CtxStr "s")) = Ret [] b
       ∧ (b = true ↔ ∃ a, "ls" = a +:+ "s").
Proof.
  destruct (str_match_decides proc_memory proc_registry 0 "proc.name" "ls" MatchNull) as [H _].
  - split; [reflexivity|]. left. exists 4096. split; [repeat split; discriminate|].
    repeat split; vm_compute; reflexivity.
  - destruct (H BINARY_STR_OP_ENDSWITH "s" ltac:(discriminate)) as (b & _ & Hb & Hs). eauto.
Defined.

(** A floating-point literal compares as a negative integer.  The
    literal is stored as a [long double] and read back as the [long long] that
    shares its first eight bytes, the significand, whose top bit is set
    unless the literal is zero; so for a literal that is not zero, of either
    sign, every value that is not negative is greater than it and none is
    less. *)
Theorem float_literal_compare m s evt_num f ty addr neg mant e z old :
  field_loc evt_num s f ty addr → is_struct ty = false → int_at m addr 8 z →
  0 ≤ z < 2 ^ 63 → 0 < mant < 2 ^ 24 →
  let lit := AstFloat (F32 neg mant e) in
  (∃ rm, linx_compile_ast evt_num s (AstNum BINARY_NUM_OP_GT (AstField f) lit) old = Ret [] (0, rm)
         ∧ linx_rule_engine_match m s rm = Ret [] true)
  ∧ (∃ rm, linx_compile_ast evt_num s (AstNum BINARY_NUM_OP_LT (AstField f) lit) old = Ret [] (0, rm)
         ∧ linx_rule_engine_match m s rm = Ret [] false).
Proof.
  intros Hl Hty Hz Hr Hm lit. pose proof (x87_significand_msb neg mant e Hm) as Hs.
  assert (Hneg : sext 64 (x87_significand (F32 neg mant e)) < 0).
  { unfold sext. rewrite wrap_small by lia.
    destruct (Z.ltb_spec (x87_significand (F32 neg mant e)) (2 ^ (64 - 1))); lia. }
  pose proof (load_u64_int_at _ _ _ Hz) as Hu. rewrite wrap_small in Hu by lia.
  assert (H : ∀ op, op ≠ BINARY_NUM_OP_INVALID →
    linx_rule_engine_match m s (comparison evt_num s (num_func op) f (CtxDouble (F32 neg mant e)))
    = Ret [] (num_cmp op z (sext 64 (x87_significand (F32 neg mant e))))).
  { intros op Hop. rewrite <- (sext_small 64 z) by lia. by eapply match_num. }
  split; (eexists; split; [done|]).
  - etransitivity; [by apply (H BINARY_NUM_OP_GT)|]. cbn [num_cmp]. f_equal. lia.
  - etransitivity; [by apply (H BINARY_NUM_OP_LT)|]. cbn [num_cmp]. f_equal. lia.
Qed.

Lemma float_literal_compare_witness :
  ∃ rm, linx_compile_ast 0 proc_registry
          (AstNum BINARY_NUM_OP_GT (AstField "proc.pid") (AstFloat (strtof "99.5"))) MatchNull = Ret [] (0, rm)
        ∧ linx_rule_engine_match (mem_block 4160 (le_split 8 3)) proc_registry rm = Ret [] true.
Proof.
  refine (proj1 (float_literal_compare (mem_block 4160 (le_split 8 3)) proc_registry 0 "proc.pid"
    LINX_FIELD_TYPE_INT32 4160 false 13041664 (-17) 3 MatchNull _ eq_refl _ _ _)).
  - repeat split; discriminate.
  - repeat split; vm_compute; reflexivity.
  - lia.
  - lia.
Defined.

(** A field that is not registered.  A comparison with it compiles all
    the same; a numeric one never holds, and a string or list one reads the
    type that the look-up did not set. *)
Theorem unknown_field_match m s evt_num f old :
  fr_found (linx_hash_map_get_field_by_path evt_num (Some f) s) = false →
  (∀ op n, op ≠ BINARY_NUM_OP_INVALID →
    ∃ rm, linx_compile_ast evt_num s (AstNum op (AstField f) (AstInt n)) old = Ret [] (0, rm)
      ∧ linx_rule_engine_match m s rm = Ret [] false)
  ∧ (∀ op v, str_func op ≠ None →
    ∃ rm, linx_compile_ast evt_num s (AstStr op (AstField f) (AstString v)) old = Ret [] (0, rm)
      ∧ linx_rule_engine_match m s rm = Ub UninitRead)
  ∧ (∀ l, ∃ w rm,
      linx_compile_ast evt_num s (AstListOp BINARY_LIST_OP_IN (AstField f) (AstList (AstString <$> l))) old
      = Ret w (0, rm)
      ∧ linx_rule_engine_match m s rm = Ub UninitRead).
Proof.
  intros Hf. set (field := linx_hash_map_get_field_by_path evt_num (Some f) s) in *.
  assert (Hp : matcher_get_value_ptr m s field = Ret [] (0, None)).
  { unfold matcher_get_value_ptr, linx_hash_map_get_value_ptr. by rewrite Hf. }
  assert (Hs : ∀ ids, string_ptr m s ids field = Ub UninitRead).
  { intros ids. unfold string_ptr. by rewrite Hp. }
  assert (Hor : ∀ ids, string_or_formatted m s ids field = Ub UninitRead).
  { intros ids. unfold string_or_formatted. by rewrite Hs. }
  split; [|split].
  - intros op n Hop. eexists. split; [done|].
    assert (Hn : ∀ cmp, num_matcher m s cmp field (CtxInt n) = Ret [] false).
    { intros cmp. unfold num_matcher. by rewrite Hp. }
    destruct op; [exact (Hn _)..|done].
  - intros op v Hop. eexists. split; [done|].
    destruct op; try done; fold field.
    + change (str_assign_matcher m s field (CtxStr v) = Ub UninitRead).
      unfold str_assign_matcher. by rewrite Hor.
    + change (str_ne_matcher m s field (CtxStr v) = Ub UninitRead).
      unfold str_ne_matcher, str_assign_matcher. by rewrite Hor.
    + change (plain_str_matcher m s strstr field (CtxStr v) = Ub UninitRead).
      unfold plain_str_matcher. by rewrite Hs.
    + change (str_icontains_matcher m s field (CtxStr v) = Ub UninitRead).
      unfold str_icontains_matcher. by rewrite Hs.
    + change (str_startswith_matcher m s field (CtxStr v) = Ub UninitRead).
      unfold str_startswith_matcher, plain_str_matcher. by rewrite Hs.
    + change (str_endswith_matcher m s field (CtxStr v) = Ub UninitRead).
      unfold str_endswith_matcher, plain_str_matcher. by rewrite Hs.
  - intros l. eexists _, _. split.
    + unfold linx_compile_ast. cbn [ast_null]. by rewrite compile_in.
    + change (list_in_matcher m s field (CtxList l) = Ub UninitRead).
      unfold list_in_matcher. by rewrite Hor.
Qed.

Lemma unknown_field_match_witness :
  ∃ rm, linx_compile_ast 0 proc_registry
          (AstStr BINARY_STR_OP_ASSIGN (AstField "proc.nam") (AstString "ls")) MatchNull = Ret [] (0, rm)
        ∧ linx_rule_engine_match proc_memory proc_registry rm = Ub UninitRead.
Proof.
  exact (proj1 (proj2 (unknown_field_match proc_memory proc_registry 0 "proc.nam" MatchNull eq_refl))
           BINARY_STR_OP_ASSIGN "ls" ltac:(discriminate)).
Defined.
