(* ===== verification/RuleSemantics.v ===== *)
(** * Conditions from text to verdict

    The parser, the compiler and the matchers together: what a condition of
    the grammar of [Syntax] answers about the fields in memory. *)
From S2P Require Import Prelude CString Memory EventTable HashMap OpType Regex Lexer Float Ast Parser.
From S2P Require Import Syntax Output Match.
From Stdlib Require Import Ascii.

#[local] Open Scope Z_scope.

(** ** Meaning *)
Inductive fval :=
  | FStr (x : string)
  | FNum (z : Z).

(** The operators that have a matcher, as tests. *)
Definition str_test (op : binary_str_op_type_t) (x v : string) : option bool :=
  match op with
  | BINARY_STR_OP_ASSIGN => Some (bool_decide (x = v))
  | BINARY_STR_OP_NE => Some (bool_decide (x ≠ v))
  | BINARY_STR_OP_CONTAINS => Some (strstr x v)
  | BINARY_STR_OP_ICONTAINS => Some (strstr (slower x) (slower v))
  | BINARY_STR_OP_STARTSWITH => Some (strncmp0 x v (strlen v))
  | BINARY_STR_OP_ENDSWITH =>
      Some ((strlen v <=? strlen x)%nat && bool_decide (sdrop (strlen x - strlen v) x = v))
  | _ => None
  end.

(** The verdict on a valuation of the fields; [None] when a field has no
    value of the kind that is compared or the operator no matcher. *)
Fixpoint sem (V : string → option fval) (c : src) : option bool :=
  match c with
  | SStr f op v => match V f with Some (FStr x) => str_test op x v | _ => None end
  | SNum f op ds => match V f with Some (FNum z) => Some (num_cmp op z (strtol10 ds).1) | _ => None end
  | SIn f v vs => match V f with Some (FStr x) => Some (bool_decide (x ∈ v :: vs)) | _ => None end
  | SExists f => None
  | SNot c => negb <$> sem V c
  | SAnd a b => x ← sem V a; y ← sem V b; Some (x && y)
  | SOr a b => x ← sem V a; y ← sem V b; Some (x || y)
  end.

(** Memory holds the values of a valuation in the registered fields: strings
    in string fields and numbers in 8-byte fields. *)
Definition describes (m : memory) (s : hash_map_state) (evt_num : Z) (V : string → option fval) : Prop :=
  ∀ f x, V f = Some x →
    match x with
    | FStr t => string_at m s evt_num f t
    | FNum z => ∃ ty addr, field_loc evt_num s f ty addr ∧ is_struct ty = false
                ∧ int_at m addr 8 z ∧ - 2 ^ 63 ≤ z < 2 ^ 63
    end.

Lemma str_test_spec op x v b : str_test op x v = Some b → str_func op ≠ None ∧ (b = true ↔ str_holds op x v).
Proof.
  destruct op; cbn; intros [= <-]; (split; [done|]); rewrite ?bool_decide_eq_true; try done.
  - apply strstr_spec.
  - apply strstr_spec.
  - apply strncmp0_prefix.
  - rewrite andb_true_iff, Nat.leb_le, bool_decide_eq_true. split.
    + intros [Hl E]. exists (stake (strlen x - strlen v) x). rewrite <- E at 2. by rewrite stake_sdrop.
    + intros [a ->]. rewrite strlen_app. split; [lia|].
      replace (strlen a + strlen v - strlen v)%nat with (strlen a) by lia. apply sdrop_app_length.
Qed.

Section semantics.
Context (m : memory) (s : hash_map_state) (evt_num : Z) (V : string → option fval).
Hypothesis (HV : describes m s evt_num V).

(** A compiled condition: the faults compilation passed over, and the
    verdict of the match. *)
Definition answers (a : ast_node) (b : bool) : Prop :=
  ∃ w rm, compile_ast evt_num s a = Ret w rm ∧ Forall (eq HeapOverflow) w
    ∧ match_null rm = false ∧ linx_rule_engine_match m s rm = Ret [] b.

Lemma bool_iff (a b : bool) (P : Prop) : (a = true ↔ P) → (b = true ↔ P) → a = b.
Proof. destruct a, b; naive_solver. Qed.

Lemma answers_not a b : answers a b → answers (AstUnary UNARY_OP_NOT a) (negb b).
Proof.
  intros (w & rm & E & Hw & Hn & Hm). exists w, (Match (Some F_not_matcher) (UnaryContext (Some rm))).
  cbn [compile_ast]. rewrite E. cbn. rewrite Hn. cbn. rewrite app_nil_r, Hm. done.
Qed.

Lemma answers_bool op l r x y z :
  answers l x → answers r y →
  (op = BINARY_BOOL_OP_AND ∧ z = x && y) ∨ (op = BINARY_BOOL_OP_OR ∧ z = x || y) →
  answers (AstBool op l r) z.
Proof.
  intros (w1 & r1 & E1 & Hw1 & Hn1 & Hm1) (w2 & r2 & E2 & Hw2 & Hn2 & Hm2) Hop.
  exists (w1 ++ w2), (Match (bool_func op) (LogicContext r1 r2)).
  cbn [compile_ast]. rewrite E1. cbn. rewrite E2. cbn. rewrite Hn1, Hn2. cbn. rewrite app_nil_r.
  split; [done|]. split; [by apply Forall_app|]. split; [done|].
  destruct Hop as [[-> ->]|[-> ->]]; cbn; rewrite Hm1; destruct x; cbn; rewrite ?Hm2; done.
Qed.

Lemma sem_answers c b : src_ok c = true → sem V c = Some b → answers (to_ast c) b.
Proof.
  revert b. induction c as [f op v|f op ds|f v vs|f|c IH|a IHa c IHc|a IHa c IHc];
    intros b Hok; cbn [src_ok] in Hok; rewrite ?andb_true_iff in Hok; cbn [sem to_ast].
  - destruct (V f) as [[x|z]|] eqn:EV; try done. intros Ht. apply HV in EV.
    apply str_test_spec in Ht as [Hf Hb].
    destruct (match_str m s evt_num f x op v EV Hf) as (b' & Hm & Hb').
    rewrite <- (bool_iff _ _ _ Hb Hb') in Hm. eexists [], _. by repeat split.
  - destruct (V f) as [[x|z]|] eqn:EV; try done. intros [= <-]. apply HV in EV.
    destruct EV as (ty & addr & Hl & Hty & Hz & Hr). pose proof (load_u64_int_at _ _ _ Hz) as Hu.
    eexists [], _. split; [done|]. split; [done|]. split; [done|].
    rewrite <- (sext_small 64 z) by lia. rewrite <- (sext_wrap 64 z).
    eapply match_num; [done|done| |done|done]. by destruct Hok as [[_ Hop] _], op.
  - destruct (V f) as [[x|z]|] eqn:EV; try done. intros [= <-]. apply HV in EV.
    eexists [HeapOverflow], _. split; [apply (compile_in s evt_num f (v :: vs))|].
    split; [by repeat constructor|]. split; [done|].
    rewrite (match_in m s evt_num f x (v :: vs) EV). f_equal.
    eapply bool_iff; [apply in_list_spec|apply bool_decide_eq_true].
  - done.
  - intros H. destruct (sem V c) as [x|] eqn:E; [|done]. injection H as <-. apply answers_not. auto.
  - destruct (sem V a) as [x|]; [|done]. destruct (sem V c) as [y|]; [|done]. intros [= <-].
    destruct Hok. eapply answers_bool; eauto.
  - destruct (sem V a) as [x|]; [|done]. destruct (sem V c) as [y|]; [|done]. intros [= <-].
    destruct Hok. eapply answers_bool; eauto.
Qed.
End semantics.

Lemma describes_weaken m s evt_num (V W : string → option fval) :
  (∀ f x, W f = Some x → V f = Some x) → describes m s evt_num V → describes m s evt_num W.
Proof. intros H HV f x Hf. by apply HV, H. Qed.

Lemma compile_parsed evt_num s c old w rm :
  compile_ast evt_num s (to_ast c) = Ret w rm →
  linx_compile_ast evt_num s (to_ast c) old = Ret w (0, rm).
Proof.
  intros E. unfold linx_compile_ast. rewrite to_ast_not_null, E. cbn. by rewrite app_nil_r.
Qed.

(** C2: a rule condition means what it says.  Take a condition of the
    grammar, a registry and a memory that holds a value for every field that
    the condition names, of the kind that its operators compare.  Then the
    text parses to its tree with code 0 and no undefined behaviour, the tree
    compiles with code 0 and no undefined behaviour other than the write past
    the context of each "in" list, and running the match returns exactly the
    verdict of the condition, without undefined behaviour. *)
Theorem rule_condition_correct {P : Pcre2} {PP : Pcre2Patterns P} m s evt_num V c b old :
  src_ok c = true → Z.of_nat (strlen (print c "")) < 2 ^ 31 →
  describes m s evt_num V → sem V c = Some b →
  condition_to_ast (Some (print c "")) = Ret [] (0, to_ast c)
  ∧ ∃ w rm, linx_compile_ast evt_num s (to_ast c) old = Ret w (0, rm)
      ∧ Forall (eq HeapOverflow) w ∧ linx_rule_engine_match m s rm = Ret [] b.
Proof.
  intros Hok Hs HV Hsem. split; [by apply condition_parses|].
  destruct (sem_answers m s evt_num V HV c b Hok Hsem) as (w & rm & E & Hw & _ & Hm).
  exists w, rm. split; [by apply compile_parsed|]. done.
Qed.

Definition V_ex (f : string) : option fval :=
  if streq f "proc.name" then Some (FStr "ls") else None.

Lemma describes_ex : describes proc_memory proc_registry 0 V_ex.
Proof.
  intros f x. unfold V_ex. destruct (streq_spec f "proc.name") as [->|]; [|done]. intros [= <-].
  split; [reflexivity|]. left. exists 4096. split; [repeat split; discriminate|].
  repeat split; vm_compute; reflexivity.
Qed.

Definition rule_ex : src :=
  SAnd (SIn "proc.name" "cat" ["ls"]) (SNot (SStr "proc.name" BINARY_STR_OP_STARTSWITH "ca")).

Lemma rule_condition_correct_witness :
  print rule_ex "" = "(proc.name in ('cat', 'ls')) and (not (proc.name startswith 'ca'))"
  ∧ ∃ w rm, linx_compile_ast 0 proc_registry (to_ast rule_ex) MatchNull = Ret w (0, rm)
    ∧ linx_rule_engine_match proc_memory proc_registry rm = Ret [] true.
Proof.
  split; [reflexivity|].
  destruct (rule_condition_correct (P := lexer_engine) proc_memory proc_registry 0 V_ex rule_ex true MatchNull
    eq_refl eq_refl describes_ex eq_refl) as (_ & w & rm & E & _ & Hm).
  exists w, rm. split; [exact E|exact Hm].
Defined.

(** Operators without a matcher.  A condition with one of the operators
    ==, glob, iglob, bcontains, bstartswith, regex or the test for existence
    parses and compiles with code 0, and its match calls an indeterminate
    function pointer, whatever the field holds. *)
Theorem unimplemented_operator_calls_wild {P : Pcre2} {PP : Pcre2Patterns P} m s evt_num f op v old c :
  c = SStr f op v ∧ str_func op = None ∨ c = SExists f →
  src_ok c = true → Z.of_nat (strlen (print c "")) < 2 ^ 31 →
  condition_to_ast (Some (print c "")) = Ret [] (0, to_ast c)
  ∧ ∃ rm, linx_compile_ast evt_num s (to_ast c) old = Ret [] (0, rm)
      ∧ linx_rule_engine_match m s rm = Ub WildCall.
Proof.
  intros Hc Hok Hs. split; [by apply condition_parses|].
  destruct Hc as [[-> Hf]| ->].
  - exists (comparison evt_num s (str_func op) f (CtxStr v)). split; [done|]. by rewrite Hf.
  - eexists. split; [done|]. done.
Qed.

Lemma unimplemented_operator_calls_wild_witness :
  ∃ rm, linx_compile_ast 0 proc_registry
          (AstStr BINARY_STR_OP_EQ (AstField "proc.name") (AstString "ls")) MatchNull = Ret [] (0, rm)
    ∧ linx_rule_engine_match proc_memory proc_registry rm = Ub WildCall.
Proof.
  exact (proj2 (unimplemented_operator_calls_wild (P := lexer_engine) proc_memory proc_registry 0 "proc.name"
    BINARY_STR_OP_EQ "ls" MatchNull (SStr "proc.name" BINARY_STR_OP_EQ "ls")
    (or_introl (conj eq_refl eq_refl)) eq_refl eq_refl)).
Defined.
