(* ===== verification/Yaml.v ===== *)
(** * YAML trees (userspace/linx_yaml/)

    The loader turns the events of libyaml into a tree of nodes on the heap.
    A node is already a child of its parent, and on the stack, while its own
    children are added, so the model keeps the nodes in a store: an address is
    a position of the store and [malloc] appends to it.  libyaml is a
    third-party library; what [yaml_parser_parse] returns, call after call, is
    a list of events, and a failure when the list ends before the stream.

    Allocations succeed; [YamlFree] is about releasing the tree. *)
From S2P Require Import Prelude CString.
From Stdlib Require Import Ascii.

#[local] Open Scope Z_scope.

(** ** Nodes (linx_yaml_node.c) *)
Inductive linx_yaml_node_type_t :=
  | LINX_YAML_NODE_TYPE_SCALAR
  | LINX_YAML_NODE_TYPE_MAPPING
  | LINX_YAML_NODE_TYPE_SEQUENCE.

#[export] Instance yaml_node_type_eq_dec : EqDecision linx_yaml_node_type_t.
Proof. solve_decision. Defined.

(** [child_count] is the length of [yn_children]. *)
Record linx_yaml_node := mk_yaml_node {
  yn_key : option string;
  yn_value : option string;
  yn_type : linx_yaml_node_type_t;
  yn_children : list nat;
  yn_child_capacity : Z;
  yn_is_sequence_item : bool
}.

Abbreviation yaml_heap := (list linx_yaml_node).

Definition yn_child_count (n : linx_yaml_node) : Z := Z.of_nat (length (yn_children n)).

Definition linx_yaml_node_create (type : linx_yaml_node_type_t) (key : option string) (h : yaml_heap)
    : nat * yaml_heap :=
  (length h, h ++ [mk_yaml_node key None type [] 0 false]).

(** [node->value = strdup(value)], [node->is_sequence_item = item] *)
Definition set_value (value : string) (item : bool) (n : linx_yaml_node) : linx_yaml_node :=
  mk_yaml_node (yn_key n) (Some value) (yn_type n) (yn_children n) (yn_child_capacity n) item.

Definition add_child (child : nat) (n : linx_yaml_node) : linx_yaml_node :=
  let capacity :=
    if yn_child_capacity n <=? yn_child_count n
    then (if yn_child_capacity n =? 0 then 4 else sext 32 (yn_child_capacity n * 2))
    else yn_child_capacity n in
  mk_yaml_node (yn_key n) (yn_value n) (yn_type n) (yn_children n ++ [child]) capacity
    (yn_is_sequence_item n).

(** The return code and the store; the callers pass no null pointer. *)
Definition linx_yaml_node_add_child (parent child : nat) (h : yaml_heap) : outcome (Z * yaml_heap) :=
  p ← from_opt BadAddress (h !! parent);
  mret (0, <[parent := add_child child p]> h).

Definition is_type (t : linx_yaml_node_type_t) (n : linx_yaml_node) : bool := bool_decide (yn_type n = t).

Fixpoint find_child (key : string) (children : list nat) (h : yaml_heap) : outcome (option nat) :=
  match children with
  | [] => mret None
  | c :: children' =>
      child ← from_opt BadAddress (h !! c);
      if match yn_key child with Some k => streq k key | None => false end
      then mret (Some c) else find_child key children' h
  end.

Definition linx_yaml_node_find_by_key (node : option nat) (key : string) (h : yaml_heap)
    : outcome (option nat) :=
  match node with
  | None => mret None
  | Some node =>
      n ← from_opt BadAddress (h !! node);
      if negb (is_type LINX_YAML_NODE_TYPE_MAPPING n) then mret None
      else find_child key (yn_children n) h
  end.

Definition linx_yaml_node_sequence_by_index (node : option nat) (index : Z) (h : yaml_heap)
    : outcome (option nat) :=
  match node with
  | None => mret None
  | Some node =>
      n ← from_opt BadAddress (h !! node);
      if negb (is_type LINX_YAML_NODE_TYPE_SEQUENCE n) then mret None
      else if (index <? 0) || (yn_child_count n <=? index) then mret None
      else c ← from_opt OutOfBounds (yn_children n !! Z.to_nat index); mret (Some c)
  end.

(** ** The stack of the loader (linx_yaml_stack.c)

    The top comes first.  [in_sequence] is indeterminate until the first
    collection starts. *)
Record linx_yaml_stack_t := mk_yaml_stack {
  ys_stack : list nat;
  ys_capacity : Z;
  ys_current_key : option string;
  ys_in_sequence : option bool
}.

Definition ys_size (s : linx_yaml_stack_t) : Z := Z.of_nat (length (ys_stack s)).

Definition linx_yaml_stack_create : linx_yaml_stack_t := mk_yaml_stack [] 16 None None.

Definition linx_yaml_stack_push (s : linx_yaml_stack_t) (node : nat) : Z * linx_yaml_stack_t :=
  let capacity := if ys_capacity s <=? ys_size s then sext 32 (ys_capacity s * 2) else ys_capacity s in
  (0, mk_yaml_stack (node :: ys_stack s) capacity (ys_current_key s) (ys_in_sequence s)).

Definition linx_yaml_stack_pop (s : linx_yaml_stack_t) : option nat * linx_yaml_stack_t :=
  match ys_stack s with
  | [] => (None, s)
  | n :: rest => (Some n, mk_yaml_stack rest (ys_capacity s) (ys_current_key s) (ys_in_sequence s))
  end.

Definition linx_yaml_stack_top (s : linx_yaml_stack_t) : option nat := head (ys_stack s).

Definition set_key (k : option string) (s : linx_yaml_stack_t) : linx_yaml_stack_t :=
  mk_yaml_stack (ys_stack s) (ys_capacity s) k (ys_in_sequence s).
Definition set_in_sequence (b : bool) (s : linx_yaml_stack_t) : linx_yaml_stack_t :=
  mk_yaml_stack (ys_stack s) (ys_capacity s) (ys_current_key s) (Some b).

(** ** Loading (linx_yaml_load.c) *)
Inductive yaml_event :=
  | YAML_STREAM_START_EVENT
  | YAML_STREAM_END_EVENT
  | YAML_DOCUMENT_START_EVENT
  | YAML_DOCUMENT_END_EVENT
  | YAML_ALIAS_EVENT
  | YAML_SCALAR_EVENT (value : string)
  | YAML_SEQUENCE_START_EVENT
  | YAML_SEQUENCE_END_EVENT
  | YAML_MAPPING_START_EVENT
  | YAML_MAPPING_END_EVENT.

(** The local variables of [linx_yaml_load]. *)
Record loader := mk_loader {
  yl_heap : yaml_heap;
  yl_stack : linx_yaml_stack_t;
  yl_root : option nat;
  yl_error : Z;
  yl_done : bool
}.

(** Adding a node to the node on the top of the stack, which the scalar and
    the collection events share. *)
Definition attach (node : nat) (st : loader) : outcome loader :=
  match linx_yaml_stack_top (yl_stack st) with
  | None => mret st
  | Some parent =>
      '(error, h) ← linx_yaml_node_add_child parent node (yl_heap st);
      mret (mk_loader h (yl_stack st) (yl_root st) error (yl_done st))
  end.

(** A mapping or a sequence starts. *)
Definition start_collection (type : linx_yaml_node_type_t) (in_sequence : bool) (st : loader)
    : outcome loader :=
  let '(node, h) := linx_yaml_node_create type (ys_current_key (yl_stack st)) (yl_heap st) in
  let st := mk_loader h (set_key None (yl_stack st)) (yl_root st) (yl_error st) (yl_done st) in
  st ← (if 0 <? ys_size (yl_stack st) then attach node st
        else match yl_root st with
             | None => mret (mk_loader h (yl_stack st) (Some node) (yl_error st) (yl_done st))
             | Some _ => mret st
             end);
  let '(e, stack) := linx_yaml_stack_push (set_in_sequence in_sequence (yl_stack st)) node in
  mret (mk_loader (yl_heap st) stack (yl_root st) (Z.lor (yl_error st) e) (yl_done st)).

(** A collection ends. *)
Definition end_collection (sequence : bool) (st : loader) : loader :=
  let '(top, stack) := linx_yaml_stack_pop (yl_stack st) in
  mk_loader (yl_heap st) (if sequence then set_in_sequence false stack else stack) (yl_root st)
    (match top with None => 1 | Some _ => yl_error st end) (yl_done st).

Definition scalar_node (key : option string) (value : string) (item : bool) (st : loader)
    : nat * loader :=
  let '(node, h) := linx_yaml_node_create LINX_YAML_NODE_TYPE_SCALAR key (yl_heap st) in
  (node, mk_loader (alter (set_value value item) node h) (yl_stack st) (yl_root st) (yl_error st) (yl_done st)).

Definition scalar_event (value : string) (st : loader) : outcome loader :=
  in_sequence ← init_or_ub (ys_in_sequence (yl_stack st));
  if (in_sequence : bool) then
    let '(node, st) := scalar_node None value true st in attach node st
  else
    match ys_current_key (yl_stack st) with
    | Some key =>
        let '(node, st) := scalar_node (Some key) value false st in
        st ← attach node st;
        mret (mk_loader (yl_heap st) (set_key None (yl_stack st)) (yl_root st) (yl_error st) (yl_done st))
    | None =>
        mret (mk_loader (yl_heap st) (set_key (Some value) (yl_stack st)) (yl_root st) (yl_error st)
                (yl_done st))
    end.

Definition load_event (e : yaml_event) (st : loader) : outcome loader :=
  match e with
  | YAML_STREAM_END_EVENT =>
      mret (mk_loader (yl_heap st) (yl_stack st) (yl_root st) (yl_error st) true)
  | YAML_MAPPING_START_EVENT => start_collection LINX_YAML_NODE_TYPE_MAPPING false st
  | YAML_SEQUENCE_START_EVENT => start_collection LINX_YAML_NODE_TYPE_SEQUENCE true st
  | YAML_SCALAR_EVENT value => scalar_event value st
  | YAML_MAPPING_END_EVENT => mret (end_collection false st)
  | YAML_SEQUENCE_END_EVENT => mret (end_collection true st)
  | YAML_STREAM_START_EVENT | YAML_DOCUMENT_START_EVENT | YAML_DOCUMENT_END_EVENT
  | YAML_ALIAS_EVENT => mret st
  end.

Fixpoint load_loop (events : list yaml_event) (st : loader) : outcome loader :=
  if yl_done st || negb (yl_error st =? 0) then mret st
  else
    match events with
    | [] => mret (mk_loader (yl_heap st) (yl_stack st) (yl_root st) 1 (yl_done st))
    | e :: events' => st ← load_event e st; load_loop events' st
    end.

Definition loader_init : loader := mk_loader [] linx_yaml_stack_create None 0 false.

(** [file] is [None] when the file is missing or cannot be opened. *)
Definition linx_yaml_load (file : option (list yaml_event)) : outcome (option nat * yaml_heap) :=
  match file with
  | None => mret (None, [])
  | Some events =>
      st ← load_loop events loader_init;
      if negb (yl_error st =? 0) then mret (None, []) else mret (yl_root st, yl_heap st)
  end.

(** ** Access by path (linx_yaml_get.c) *)

(** The loop over the children of a sequence for a name that is no number:
    the search asks [current], the sequence, and not the child. *)
Fixpoint search_in_sequence (current : nat) (token : string) (children : list nat) (h : yaml_heap)
    : outcome nat :=
  match children with
  | [] => mret current
  | c :: children' =>
      child ← from_opt BadAddress (h !! c);
      if is_type LINX_YAML_NODE_TYPE_MAPPING child then
        found ← linx_yaml_node_find_by_key (Some current) token h;
        match found with
        | Some f => mret f
        | None => search_in_sequence current token children' h
        end
      else search_in_sequence current token children' h
  end.

(** One step of the path. *)
Definition path_step (current : nat) (token : string) (h : yaml_heap) : outcome (option nat) :=
  n ← from_opt BadAddress (h !! current);
  match yn_type n with
  | LINX_YAML_NODE_TYPE_MAPPING => linx_yaml_node_find_by_key (Some current) token h
  | LINX_YAML_NODE_TYPE_SEQUENCE =>
      let '(index, endptr) := strtol10 token in
      if streq endptr "" then linx_yaml_node_sequence_by_index (Some current) (sext 32 index) h
      else _ ← search_in_sequence current token (yn_children n) h; mret None
  | LINX_YAML_NODE_TYPE_SCALAR => mret None
  end.

Fixpoint path_loop (fuel : nat) (token : option (string * string)) (current : option nat) (h : yaml_heap)
    : outcome (option nat) :=
  match fuel with
  | O => NoFuel
  | S n =>
      match token, current with
      | Some (token, saveptr), Some current =>
          current ← path_step current token h;
          path_loop n (strtok DOT saveptr) current h
      | _, _ => mret current
      end
  end.

Definition linx_yaml_get_node_by_path (root : option nat) (path : option string) (h : yaml_heap)
    : outcome (option nat) :=
  match root, path with
  | Some root, Some path => path_loop (strlen path + 2) (strtok DOT path) (Some root) h
  | _, _ => mret None
  end.

(** The text of a scalar at the end of a path. *)
Definition scalar_at (root : option nat) (path : option string) (h : yaml_heap)
    : outcome (option (option string)) :=
  node ← linx_yaml_get_node_by_path root path h;
  match node with
  | None => mret None
  | Some node =>
      n ← from_opt BadAddress (h !! node);
      mret (if is_type LINX_YAML_NODE_TYPE_SCALAR n then Some (yn_value n) else None)
  end.

Definition linx_yaml_get_string (root : option nat) (path default_value : option string) (h : yaml_heap)
    : outcome (option string) :=
  v ← scalar_at root path h;
  mret (match v with Some value => value | None => default_value end).

Definition linx_yaml_get_int (root : option nat) (path : option string) (default_value : Z) (h : yaml_heap)
    : outcome Z :=
  v ← scalar_at root path h;
  match v with
  | None => mret default_value
  | Some value =>
      value ← from_opt NullDeref value;
      let '(z, endptr) := strtol10 value in
      mret (if streq endptr "" then sext 32 z else default_value)
  end.

Definition linx_yaml_get_bool (root : option nat) (path : option string) (default_value : Z) (h : yaml_heap)
    : outcome Z :=
  v ← scalar_at root path h;
  match v with
  | None => mret default_value
  | Some value =>
      value ← from_opt NullDeref value;
      if streq value "true" || streq value "yes" then mret 1
      else if streq value "false" || streq value "no" then mret 0
      else
        let '(z, endptr) := strtol10 value in
        mret (if streq endptr "" then (if z =? 0 then 0 else 1) else default_value)
  end.

Definition linx_yaml_get_sequence_length (root : option nat) (path : option string) (h : yaml_heap)
    : outcome Z :=
  node ← linx_yaml_get_node_by_path root path h;
  match node with
  | None => mret 0
  | Some node =>
      n ← from_opt BadAddress (h !! node);
      mret (if is_type LINX_YAML_NODE_TYPE_SEQUENCE n then yn_child_count n else 0)
  end.

(** ** Documents

    What a YAML text means, and the events libyaml reports for it. *)
Inductive yaml :=
  | YScalar (value : string)
  | YMap (entries : list (string * yaml))
  | YSeq (items : list yaml).

Fixpoint events_of (d : yaml) : list yaml_event :=
  match d with
  | YScalar value => [YAML_SCALAR_EVENT value]
  | YMap entries =>
      YAML_MAPPING_START_EVENT
      :: flat_map (λ e, YAML_SCALAR_EVENT e.1 :: events_of e.2) entries ++ [YAML_MAPPING_END_EVENT]
  | YSeq items => YAML_SEQUENCE_START_EVENT :: flat_map events_of items ++ [YAML_SEQUENCE_END_EVENT]
  end.

Definition document (d : yaml) : list yaml_event :=
  YAML_STREAM_START_EVENT :: YAML_DOCUMENT_START_EVENT :: events_of d
    ++ [YAML_DOCUMENT_END_EVENT; YAML_STREAM_END_EVENT].

Definition is_scalar (d : yaml) : bool := match d with YScalar _ => true | _ => false end.

(** No scalar follows a collection in a sequence; [after] tells that one
    came before. *)
Fixpoint scalars_first (after : bool) (items : list yaml) : bool :=
  match items with
  | [] => true
  | d :: items' => negb (after && is_scalar d) && scalars_first (after || negb (is_scalar d)) items'
  end.

Fixpoint regular (d : yaml) : bool :=
  match d with
  | YScalar _ => true
  | YMap entries => forallb (λ e, regular e.2) entries
  | YSeq items => scalars_first false items && forallb regular items
  end.

(** What a path means in a document, as linx_yaml_get_node_by_path says: a name
    is a key of a mapping, a number an index of a sequence, and another name in
    a sequence is looked up in the mappings among its elements, in order. *)
Definition is_index (k : string) : bool := streq (strtol10 k).2 "".

Definition yaml_entry (k : string) (d : yaml) : option yaml :=
  match d with YMap entries => snd <$> List.find (λ e, streq e.1 k) entries | _ => None end.

Definition item_at (k : string) (items : list yaml) : option yaml :=
  let index := sext 32 (strtol10 k).1 in if index <? 0 then None else items !! Z.to_nat index.

Definition path_component (d : yaml) (k : string) : option yaml :=
  match d with
  | YScalar _ => None
  | YMap _ => yaml_entry k d
  | YSeq items => if is_index k then item_at k items else head (omap (yaml_entry k) items)
  end.

Fixpoint find_path (d : yaml) (path : list string) {struct path} : option yaml :=
  match path with
  | [] => Some d
  | k :: path => d ← path_component d k; find_path d path
  end.

(** The path comes to a sequence with a name that is no number. *)
Fixpoint named_in_sequence (d : yaml) (path : list string) {struct path} : bool :=
  match path with
  | [] => false
  | k :: path =>
      match d with YSeq _ => negb (is_index k) | _ => false end
      || match path_component d k with Some d => named_in_sequence d path | None => false end
  end.

(** What the access functions find at a path: in a sequence only numbers are
    found. *)
Fixpoint lookup_path (d : yaml) (path : list string) {struct path} : option yaml :=
  match path with
  | [] => Some d
  | k :: path' =>
      match d with
      | YScalar _ => None
      | YMap entries =>
          match List.find (λ e, streq e.1 k) entries with
          | Some e => lookup_path e.2 path'
          | None => None
          end
      | YSeq items =>
          let '(index, endptr) := strtol10 k in
          if negb (streq endptr "") || (sext 32 index <? 0) then None
          else match items !! Z.to_nat (sext 32 index) with
               | Some d' => lookup_path d' path'
               | None => None
               end
      end
  end.

Fixpoint join_path (path : list string) : string :=
  match path with
  | [] => ""
  | [k] => k
  | k :: path' => k +:+ String DOT (join_path path')
  end.

Definition component_ok (k : string) : bool :=
  negb (streq k "") && forallb (λ c, negb (Ascii.eqb DOT c)) (String.list_ascii_of_string k).

(** ** The tree of a document in the store *)
Section zip_all.
Context {A B : Type} (P : A → B → Prop).
Fixpoint zip_all (cs : list A) (es : list B) {struct es} : Prop :=
  match cs, es with
  | [], [] => True
  | c :: cs', e :: es' => P c e ∧ zip_all cs' es'
  | _, _ => False
  end.
End zip_all.

(** The node at [c] has the given key and holds [d]; its nodes lie at or above
    the address [lo]. *)
Fixpoint holds_doc (lo : nat) (h : yaml_heap) (c : nat) (key : option string) (d : yaml) {struct d} : Prop :=
  (lo ≤ c)%nat ∧ ∃ n, h !! c = Some n ∧ yn_key n = key ∧
  match d with
  | YScalar value => yn_type n = LINX_YAML_NODE_TYPE_SCALAR ∧ yn_value n = Some value
  | YMap entries =>
      yn_type n = LINX_YAML_NODE_TYPE_MAPPING
      ∧ zip_all (λ c e, holds_doc lo h c (Some e.1) e.2) (yn_children n) entries
  | YSeq items =>
      yn_type n = LINX_YAML_NODE_TYPE_SEQUENCE
      ∧ zip_all (λ c d, holds_doc lo h c None d) (yn_children n) items
  end.

Section yaml_ind.
Context (P : yaml → Prop).
Context (Hscalar : ∀ v, P (YScalar v)).
Context (Hmap : ∀ es, Forall (λ e, P e.2) es → P (YMap es)).
Context (Hseq : ∀ ds, Forall P ds → P (YSeq ds)).

Fixpoint yaml_rect' (d : yaml) : P d :=
  match d with
  | YScalar v => Hscalar v
  | YMap es =>
      Hmap es ((fix go es : Forall (λ e, P e.2) es :=
                  match es with
                  | [] => List.Forall_nil _
                  | e :: es' => List.Forall_cons _ _ _ (yaml_rect' e.2) (go es')
                  end) es)
  | YSeq ds =>
      Hseq ds ((fix go ds : Forall P ds :=
                  match ds with
                  | [] => List.Forall_nil _
                  | d :: ds' => List.Forall_cons _ _ _ (yaml_rect' d) (go ds')
                  end) ds)
  end.
End yaml_ind.

(** ** Loading builds the tree of the document *)
Lemma zip_all_impl {A B} (P Q : A → B → Prop) cs es :
  Forall (λ e, ∀ c, P c e → Q c e) es → zip_all P cs es → zip_all Q cs es.
Proof.
  intros H. revert cs. induction H as [|e es He _ IH]; intros [|c cs]; cbn; [done..|].
  intros [? ?]. auto.
Qed.

Lemma Forall_forallb {A} (f : A → bool) (P : A → Prop) l :
  Forall (λ x, f x = true → P x) l → forallb f l = true → Forall P l.
Proof. induction 1; cbn; [done|]. rewrite andb_true_iff. intros [? ?]. auto. Qed.

Lemma zip_all_app {A B} (P : A → B → Prop) cs1 cs2 es1 es2 :
  zip_all P cs1 es1 → zip_all P cs2 es2 → zip_all P (cs1 ++ cs2) (es1 ++ es2).
Proof.
  revert cs1. induction es1 as [|e es1 IH]; intros [|c cs1]; cbn; try done.
  intros [? ?] ?. auto.
Qed.

Lemma holds_doc_frame lo lo' h h' c key d :
  (lo' ≤ lo)%nat → (∀ i, (lo ≤ i < length h)%nat → h' !! i = h !! i) →
  holds_doc lo h c key d → holds_doc lo' h' c key d.
Proof.
  intros Hlo Hf. revert c key. induction d as [v|es IH|ds IH] using yaml_rect'; intros c key;
    cbn; intros (Hc & n & Hn & Hk & H); (split; [lia|]); exists n; (split; [|split; [done|]]).
  1,3,5: rewrite Hf; [done|]; split; [done|]; by eapply lookup_lt_Some.
  - done.
  - destruct H as [Ht H]. split; [done|]. revert H. apply zip_all_impl.
    eapply Forall_impl; [exact IH|]. cbn. auto.
  - destruct H as [Ht H]. split; [done|]. revert H. apply zip_all_impl.
    eapply Forall_impl; [exact IH|]. cbn. auto.
Qed.

(** The store grows and the node [p] gets the children [cs]. *)
Definition extends (p : nat) (cs : list nat) (h h' : yaml_heap) : Prop :=
  (length h ≤ length h')%nat
  ∧ (∀ i, (i < length h)%nat → i ≠ p → h' !! i = h !! i)
  ∧ ∀ n, h !! p = Some n → ∃ n', h' !! p = Some n' ∧ yn_key n' = yn_key n ∧ yn_type n' = yn_type n
      ∧ yn_children n' = yn_children n ++ cs.

Lemma extends_refl p h : extends p [] h h.
Proof. split; [done|]. split; [done|]. intros n Hn. exists n. by rewrite app_nil_r. Qed.

Lemma extends_trans p cs1 cs2 h1 h2 h3 :
  extends p cs1 h1 h2 → extends p cs2 h2 h3 → extends p (cs1 ++ cs2) h1 h3.
Proof.
  intros (L1 & F1 & N1) (L2 & F2 & N2). split; [lia|]. split.
  - intros i Hi Hp. rewrite F2 by (done || lia). auto.
  - intros n Hn. destruct (N1 n Hn) as (n1 & H1 & K1 & T1 & C1).
    destruct (N2 n1 H1) as (n2 & H2 & K2 & T2 & C2). exists n2.
    rewrite K2, T2, C2, K1, T1, C1, app_assoc. done.
Qed.

Lemma extends_holds p cs h h' lo c key d :
  extends p cs h h' → (p < lo)%nat → holds_doc lo h c key d → holds_doc lo h' c key d.
Proof. intros (_ & F & _) Hp. apply holds_doc_frame; [done|]. intros i Hi. apply F; lia. Qed.

(** A new node, added to [p]. *)
Lemma extends_new p np x h :
  h !! p = Some np →
  let h' := <[p := add_child (length h) np]> (h ++ [x]) in
  extends p [length h] h h' ∧ h' !! length h = Some x ∧ length h' = S (length h).
Proof.
  intros Hp h'. assert (p < length h)%nat as Hl by (by eapply lookup_lt_Some).
  assert (Hlen : length h' = S (length h)) by (subst h'; rewrite length_insert, length_app; cbn; lia).
  split; [|split; [|done]].
  - split; [lia|]. split.
    + intros i Hi Hne. subst h'. by rewrite list_lookup_insert_ne, lookup_app_l.
    + intros n Hn. rewrite Hp in Hn. injection Hn as <-. exists (add_child (length h) np).
      split; [|done]. subst h'. apply list_lookup_insert_eq. rewrite length_app. lia.
  - subst h'. rewrite list_lookup_insert_ne by lia. rewrite lookup_app_r by done.
    by rewrite Nat.sub_diag.
Qed.

(** The loader between two events: no error, not done, [in_sequence] set. *)
Definition loading (h : yaml_heap) (stk : list nat) (cap : Z) (key : option string) (seq : bool)
    (root : option nat) : loader :=
  mk_loader h (mk_yaml_stack stk cap key (Some seq)) root 0 false.

Definition after_scalar (d : yaml) (seq : bool) : bool := if is_scalar d then seq else false.

(** [d] is loaded below the node [p] on top of the stack. *)
Definition loads (d : yaml) : Prop := ∀ h p stk cap key seq root rest,
  (p < length h)%nat → (is_scalar d = true → seq = match key with None => true | Some _ => false end) →
  ∃ h' cap' c,
    load_loop (events_of d ++ rest) (loading h (p :: stk) cap key seq root)
    = load_loop rest (loading h' (p :: stk) cap' None (after_scalar d seq) root)
    ∧ extends p [c] h h' ∧ holds_doc (length h) h' c key d.

Lemma load_loop_step e events h stk cap key seq root :
  load_loop (e :: events) (loading h stk cap key seq root)
  = (st ← load_event e (loading h stk cap key seq root); load_loop events st).
Proof. done. Qed.

Lemma load_key k events h stk cap root :
  load_loop (YAML_SCALAR_EVENT k :: events) (loading h stk cap None false root)
  = load_loop events (loading h stk cap (Some k) false root).
Proof. rewrite load_loop_step. apply bind_ret_l. Qed.

Lemma loads_scalar v : loads (YScalar v).
Proof.
  intros h p stk cap key seq root rest Hp Hs. specialize (Hs eq_refl).
  apply lookup_lt_is_Some in Hp as [np Hp].
  pose (x := mk_yaml_node key (Some v) LINX_YAML_NODE_TYPE_SCALAR [] 0 seq).
  destruct (extends_new p np x h Hp) as (He & Hx & _).
  eexists _, cap, (length h). split; [|split; [exact He|]].
  2: { split; [done|]. exists x. done. }
  cbn [events_of app]. rewrite load_loop_step. unfold load_event, scalar_event.
  assert (Ha : alter (set_value v seq) (length h)
      (h ++ [mk_yaml_node key None LINX_YAML_NODE_TYPE_SCALAR [] 0 false]) = h ++ [x]).
  { rewrite list.alter_app_r_alt, Nat.sub_diag by done. done. }
  assert (Hl : (h ++ [x]) !! p = Some np) by (apply lookup_app_l_Some; done).
  subst seq. cbn. destruct key as [k|]; cbn in Ha |- *; rewrite Ha; unfold attach; cbn;
    unfold linx_yaml_node_add_child; rewrite Hl; cbn; by destruct (load_loop rest _).
Qed.

(** The children of a collection, up to its end. *)
Lemma loads_entries es : Forall (λ e, loads e.2) es → ∀ h c stk cap root rest,
  (c < length h)%nat →
  ∃ h' cap' cs,
    load_loop (flat_map (λ e, YAML_SCALAR_EVENT e.1 :: events_of e.2) es ++ rest)
      (loading h (c :: stk) cap None false root)
    = load_loop rest (loading h' (c :: stk) cap' None false root)
    ∧ extends c cs h h' ∧ zip_all (λ c e, holds_doc (length h) h' c (Some e.1) e.2) cs es.
Proof.
  induction 1 as [|[k d] es Hd _ IH]; intros h c stk cap root rest Hc.
  - exists h, cap, []. split; [done|]. split; [apply extends_refl|done].
  - cbn [flat_map app fst snd] in *. rewrite load_key, <- app_assoc.
    destruct (Hd h c stk cap (Some k) false root
      (flat_map (λ e, YAML_SCALAR_EVENT e.1 :: events_of e.2) es ++ rest) Hc) as (h1 & cap1 & c1 & -> & E1 & H1); [done|].
    replace (after_scalar d false) with false by (by unfold after_scalar; destruct (is_scalar d)).
    assert (Hl1 := proj1 E1).
    destruct (IH h1 c stk cap1 root rest) as (h2 & cap2 & cs & -> & E2 & H2); [lia|].
    exists h2, cap2, (c1 :: cs). split; [done|]. split; [exact (extends_trans _ _ _ _ _ _ E1 E2)|].
    split; [by eapply extends_holds|]. revert H2. apply zip_all_impl, Forall_true. intros e x.
    by apply holds_doc_frame.
Qed.

Lemma loads_items ds : Forall loads ds → ∀ h c stk cap seq root rest,
  (c < length h)%nat → scalars_first (negb seq) ds = true →
  ∃ h' cap' cs,
    load_loop (flat_map events_of ds ++ rest) (loading h (c :: stk) cap None seq root)
    = load_loop rest (loading h' (c :: stk) cap' None (seq && forallb is_scalar ds) root)
    ∧ extends c cs h h' ∧ zip_all (λ c d, holds_doc (length h) h' c None d) cs ds.
Proof.
  induction 1 as [|d ds Hd _ IH]; intros h c stk cap seq root rest Hc Hs.
  - exists h, cap, []. rewrite andb_true_r. split; [done|]. split; [apply extends_refl|done].
  - cbn [flat_map forallb scalars_first] in *. rewrite <- app_assoc.
    apply andb_true_iff in Hs as [Hs1 Hs2].
    destruct (Hd h c stk cap None seq root (flat_map events_of ds ++ rest) Hc) as (h1 & cap1 & c1 & -> & E1 & H1).
    { intros Hsc. rewrite Hsc in Hs1. by destruct seq. }
    assert (Hl1 := proj1 E1).
    destruct (IH h1 c stk cap1 (after_scalar d seq) root rest) as (h2 & cap2 & cs & -> & E2 & H2); [lia| |].
    { unfold after_scalar. by destruct (is_scalar d), seq. }
    exists h2, cap2, (c1 :: cs). split; [|split; [exact (extends_trans _ _ _ _ _ _ E1 E2)|]].
    + do 2 f_equal. unfold after_scalar. by destruct (is_scalar d), seq.
    + split; [by eapply extends_holds|]. revert H2. apply zip_all_impl, Forall_true. intros e x.
      by apply holds_doc_frame.
Qed.

(** A collection below [p], given how its children are loaded. *)
Definition fresh_node (type : linx_yaml_node_type_t) (key : option string) : linx_yaml_node :=
  mk_yaml_node key None type [] 0 false.

Lemma load_start_below e type b events h p np stk cap key seq root :
  (e = YAML_MAPPING_START_EVENT ∧ type = LINX_YAML_NODE_TYPE_MAPPING ∧ b = false)
  ∨ (e = YAML_SEQUENCE_START_EVENT ∧ type = LINX_YAML_NODE_TYPE_SEQUENCE ∧ b = true) →
  h !! p = Some np →
  ∃ cap', load_loop (e :: events) (loading h (p :: stk) cap key seq root)
    = load_loop events
        (loading (<[p := add_child (length h) np]> (h ++ [fresh_node type key])) (length h :: p :: stk) cap'
           None b root).
Proof.
  intros He Hp. assert (Hl : (h ++ [fresh_node type key]) !! p = Some np) by (by apply lookup_app_l_Some).
  exists (if cap <=? Z.of_nat (S (length stk)) then sext 32 (cap * 2) else cap).
  rewrite load_loop_step. destruct He as [(-> & -> & ->)|(-> & -> & ->)]; unfold load_event, start_collection;
    unfold linx_yaml_stack_push, ys_size, attach; cbn -[load_loop sext]; unfold linx_yaml_node_add_child, fresh_node in *; rewrite Hl;
    cbn -[load_loop sext]; unfold loading; rewrite (proj2 (Z.ltb_lt 0 (Z.of_nat (S (length stk))))) by lia;
    apply bind_ret_l.
Qed.

Lemma load_start_top e type b events :
  (e = YAML_MAPPING_START_EVENT ∧ type = LINX_YAML_NODE_TYPE_MAPPING ∧ b = false)
  ∨ (e = YAML_SEQUENCE_START_EVENT ∧ type = LINX_YAML_NODE_TYPE_SEQUENCE ∧ b = true) →
  load_loop (e :: events) loader_init
  = load_loop events (loading [fresh_node type None] [0%nat] 16 None b (Some 0%nat)).
Proof.
  intros [(-> & -> & ->)|(-> & -> & ->)]; exact (bind_ret_l (loading _ _ _ _ _ _) (load_loop events)).
Qed.

Lemma load_end e sequence events h c stk cap key seq root :
  e = (if sequence : bool then YAML_SEQUENCE_END_EVENT else YAML_MAPPING_END_EVENT) →
  load_loop (e :: events) (loading h (c :: stk) cap key seq root)
  = load_loop events (loading h stk cap key (if sequence then false else seq) root).
Proof. intros ->. rewrite load_loop_step. destruct sequence; apply bind_ret_l. Qed.

Lemma extends_below p np c cs x h h2 :
  h !! p = Some np → c = length h →
  extends c cs (<[p := add_child c np]> (h ++ [x])) h2 → yn_children x = [] →
  extends p [c] h h2 ∧ ∃ n, h2 !! c = Some n ∧ yn_key n = yn_key x ∧ yn_type n = yn_type x ∧ yn_children n = cs.
Proof.
  intros Hp -> E Hx. destruct (extends_new p np x h Hp) as ((L1 & F1 & N1) & Hn & Hlen).
  assert (p < length h)%nat as Hl by (by eapply lookup_lt_Some). destruct E as (L & F & N). split.
  - split; [lia|]. split.
    + intros i Hi Hne. rewrite F by lia. by apply F1.
    + intros n Hh. destruct (N1 n Hh) as (n' & H' & K). exists n'. rewrite F by lia. done.
  - destruct (N x Hn) as (n' & H' & K' & T' & C'). exists n'. by rewrite K', T', C', Hx.
Qed.

Lemma loads_regular d : regular d = true → loads d.
Proof.
  induction d as [v|es IH|ds IH] using yaml_rect'; intros Hr; [apply loads_scalar| |];
    intros h p stk cap key seq root rest Hp Hs; apply lookup_lt_is_Some in Hp as [np Hp]; cbn [events_of app];
    rewrite <- app_assoc.
  - assert (Forall (λ e, loads e.2) es) as Hes.
    { by apply (Forall_forallb _ _ _ IH). }
    edestruct (load_start_below YAML_MAPPING_START_EVENT LINX_YAML_NODE_TYPE_MAPPING false) as [cap1 ->]; [by left|done|].
    destruct (extends_new p np (fresh_node LINX_YAML_NODE_TYPE_MAPPING key) h Hp) as (_ & _ & L1).
    set (h1 := <[p := add_child (length h) np]> (h ++ _)) in *.
    edestruct (loads_entries es Hes h1 (length h) (p :: stk) cap1 root) as (h2 & cap2 & cs & -> & E2 & H2); [lia|].
    cbn [app]. rewrite (load_end _ false) by done.
    destruct (extends_below _ _ _ _ _ _ _ Hp eq_refl E2 eq_refl) as (E & n & Hn & K & T & C).
    exists h2, cap2, (length h). split; [done|]. split; [done|]. split; [done|]. exists n. rewrite C, T, K.
    split; [done|]. split; [done|]. split; [done|]. revert H2. apply zip_all_impl, Forall_true. intros e x.
    apply holds_doc_frame; [lia|done].
  - cbn in Hr. apply andb_true_iff in Hr as [Hf Hr]. assert (Forall loads ds) as Hds.
    { by apply (Forall_forallb _ _ _ IH). }
    edestruct (load_start_below YAML_SEQUENCE_START_EVENT LINX_YAML_NODE_TYPE_SEQUENCE true) as [cap1 ->]; [by right|done|].
    destruct (extends_new p np (fresh_node LINX_YAML_NODE_TYPE_SEQUENCE key) h Hp) as (_ & _ & L1).
    set (h1 := <[p := add_child (length h) np]> (h ++ _)) in *.
    edestruct (loads_items ds Hds h1 (length h) (p :: stk) cap1 true root) as (h2 & cap2 & cs & -> & E2 & H2); [lia|done|].
    cbn [app]. rewrite (load_end _ true) by done.
    destruct (extends_below _ _ _ _ _ _ _ Hp eq_refl E2 eq_refl) as (E & n & Hn & K & T & C).
    exists h2, cap2, (length h). split; [done|]. split; [done|]. split; [done|]. exists n. rewrite C, T, K.
    split; [done|]. split; [done|]. split; [done|]. revert H2. apply zip_all_impl, Forall_true. intros e x.
    apply holds_doc_frame; [lia|done].
Qed.

Lemma load_document d :
  regular d = true → is_scalar d = false →
  ∃ h, linx_yaml_load (Some (document d)) = Ret [] (Some 0%nat, h) ∧ holds_doc 0 h 0 None d.
Proof.
  intros Hr Hs. unfold linx_yaml_load, document.
  pose (tail := [YAML_DOCUMENT_END_EVENT; YAML_STREAM_END_EVENT]).
  assert (Hpre : ∀ ev, load_loop (YAML_STREAM_START_EVENT :: YAML_DOCUMENT_START_EVENT :: ev) loader_init
    = load_loop ev loader_init).
  { intros ev. etransitivity; apply bind_ret_l. }
  assert (Htail : ∀ h cap seq, load_loop tail (loading h [] cap None seq (Some 0%nat))
    = Ret [] (mk_loader h (mk_yaml_stack [] cap None (Some seq)) (Some 0%nat) 0 true)) by done.
  rewrite Hpre. fold tail. destruct d as [v|es|ds]; [done| |]; cbn [events_of app]; rewrite <- app_assoc.
  - assert (Forall (λ e, loads e.2) es) as Hes.
    { cbn in Hr. eapply Forall_forallb, Hr. apply Forall_true. intros e. apply loads_regular. }
    rewrite (load_start_top _ LINX_YAML_NODE_TYPE_MAPPING false) by (by left).
    destruct (loads_entries es Hes [fresh_node LINX_YAML_NODE_TYPE_MAPPING None] 0%nat [] 16 (Some 0%nat)
      ([YAML_MAPPING_END_EVENT] ++ tail)) as (h & cap & cs & -> & (_ & _ & N) & H); [cbn; lia|].
    cbn [app]. rewrite (load_end _ false), Htail by done. exists h. split; [done|].
    destruct (N _ eq_refl) as (n & Hn & K & T & C). split; [done|]. exists n. cbn in C. rewrite C.
    split; [done|]. split; [done|]. split; [done|]. revert H. apply zip_all_impl, Forall_true.
    intros e x. apply holds_doc_frame; [lia|done].
  - cbn in Hr. apply andb_true_iff in Hr as [Hf Hr]. assert (Forall loads ds) as Hds.
    { eapply Forall_forallb, Hr. apply Forall_true. intros e. apply loads_regular. }
    rewrite (load_start_top _ LINX_YAML_NODE_TYPE_SEQUENCE true) by (by right).
    destruct (loads_items ds Hds [fresh_node LINX_YAML_NODE_TYPE_SEQUENCE None] 0%nat [] 16 true (Some 0%nat)
      ([YAML_SEQUENCE_END_EVENT] ++ tail)) as (h & cap & cs & -> & (_ & _ & N) & H); [cbn; lia|done|].
    cbn [app]. rewrite (load_end _ true), Htail by done. exists h. split; [done|].
    destruct (N _ eq_refl) as (n & Hn & K & T & C). split; [done|]. exists n. cbn in C. rewrite C.
    split; [done|]. split; [done|]. split; [done|]. revert H. apply zip_all_impl, Forall_true.
    intros e x. apply holds_doc_frame; [lia|done].
Qed.

(** ** Paths *)
Lemma span_no_dot k rest :
  forallb (λ c, negb (Ascii.eqb DOT c)) (String.list_ascii_of_string k) = true →
  span (λ c, negb (Ascii.eqb DOT c)) (k +:+ String DOT rest) = (k, String DOT rest)
  ∧ span (λ c, negb (Ascii.eqb DOT c)) k = (k, "").
Proof.
  induction k as [|c k IH]; cbn [String.list_ascii_of_string forallb]; [done|].
  intros [Hc Hk]%andb_true_iff. destruct (IH Hk) as [H1 H2].
  change (String c k +:+ String DOT rest) with (String c (k +:+ String DOT rest)).
  cbn [span]. by rewrite Hc, H1, H2.
Qed.

Lemma strtok_join k path :
  component_ok k = true → strtok DOT (join_path (k :: path)) = Some (k, join_path path).
Proof.
  unfold component_ok. intros [Hne Hk]%andb_true_iff. destruct (span_no_dot k (join_path path) Hk) as [H1 H2].
  destruct k as [|c k]; [done|]. cbn [String.list_ascii_of_string forallb] in Hk.
  apply andb_true_iff in Hk as [Hc _]. apply negb_true_iff in Hc.
  assert (Hstop : ∀ t, span (Ascii.eqb DOT) (String c t) = ("", String c t)) by (intros t; cbn [span]; by rewrite Hc).
  unfold strtok. destruct path as [|k' path].
  - cbn [join_path]. rewrite Hstop. cbn [snd]. by rewrite H2.
  - change (join_path (String c k :: k' :: path)) with (String c k +:+ String DOT (join_path (k' :: path))).
    change (String c k +:+ ?t) with (String c (k +:+ t)) at 1. rewrite Hstop. cbn [snd].
    change (String c (k +:+ ?t)) with (String c k +:+ t). by rewrite H1.
Qed.

Lemma find_child_spec lo h key cs es :
  zip_all (λ c e, holds_doc lo h c (Some e.1) e.2) cs es →
  ∃ r, find_child key cs h = Ret [] r
    ∧ match List.find (λ e, streq e.1 key) es with
      | Some e => ∃ c, r = Some c ∧ holds_doc lo h c (Some e.1) e.2
      | None => r = None
      end.
Proof.
  revert cs. induction es as [|e es IH]; intros [|c cs]; cbn [zip_all]; try done.
  - intros _. by exists None.
  - intros [Hc Hcs]. cbn [find_child List.find].
    assert (∃ n, h !! c = Some n ∧ yn_key n = Some e.1) as (n & Hn & Hk).
    { destruct e as [k [v|es'|ds]]; cbn in Hc; destruct Hc as (_ & n & Hn & Hk & _); by exists n. }
    rewrite Hn. cbn [from_opt]. rewrite bind_ret_l, Hk. destruct (streq e.1 key); [|by apply IH].
    exists (Some c). split; [done|]. by exists c.
Qed.

Lemma zip_all_lookup {A B} (P : A → B → Prop) cs es i :
  zip_all P cs es →
  match es !! i with Some e => ∃ c, cs !! i = Some c ∧ P c e | None => cs !! i = None end.
Proof.
  revert cs i. induction es as [|e es IH]; intros [|c cs] i; cbn [zip_all]; try done.
  intros [Hc Hcs]. destruct i as [|i]; [by exists c|]. exact (IH cs i Hcs).
Qed.

Lemma zip_all_length {A B} (P : A → B → Prop) cs es : zip_all P cs es → length cs = length es.
Proof.
  revert cs. induction es as [|e es IH]; intros [|c cs]; cbn [zip_all]; try done.
  intros [_ H]. cbn. f_equal. by apply IH.
Qed.

Lemma search_in_sequence_total current token children h n :
  h !! current = Some n → yn_type n = LINX_YAML_NODE_TYPE_SEQUENCE →
  Forall (λ c, is_Some (h !! c)) children →
  search_in_sequence current token children h = Ret [] current.
Proof.
  intros Hn Ht. induction 1 as [|c children [x Hx] _ IH]; [done|]. cbn [search_in_sequence].
  rewrite Hx. cbn [from_opt]. rewrite bind_ret_l. destruct (is_type _ x); [|done].
  unfold linx_yaml_node_find_by_key. rewrite Hn. cbn [from_opt]. rewrite bind_ret_l.
  unfold is_type. rewrite Ht. rewrite bool_decide_eq_false_2 by done. cbn [negb]. by rewrite bind_ret_l.
Qed.

Lemma holds_doc_children lo h c key ds :
  zip_all (λ c d, holds_doc lo h c key d) c ds → Forall (λ c, is_Some (h !! c)) c.
Proof.
  revert c. induction ds as [|d ds IH]; intros [|c cs]; cbn [zip_all]; try done.
  intros [Hd Hds]. constructor; [|by apply IH].
  destruct d; cbn in Hd; destruct Hd as (_ & n & -> & _); by eexists.
Qed.

(** One component of a path. *)
Lemma path_step_spec lo h c key d k :
  holds_doc lo h c key d →
  ∃ r, path_step c k h = Ret [] r
    ∧ match lookup_path d [k] with
      | Some d' => ∃ c' key', r = Some c' ∧ holds_doc lo h c' key' d'
      | None => r = None
      end.
Proof.
  unfold path_step. destruct d as [v|es|ds]; cbn [holds_doc lookup_path]; intros (_ & n & Hn & _ & Ht & H);
    rewrite Hn; cbn [from_opt]; rewrite bind_ret_l, Ht.
  - by exists None.
  - unfold linx_yaml_node_find_by_key. rewrite Hn. cbn [from_opt]. rewrite bind_ret_l. unfold is_type. rewrite Ht.
    rewrite bool_decide_eq_true_2 by done. cbn [negb]. destruct (find_child_spec lo h k _ _ H) as (r & -> & Hr).
    exists r. split; [done|]. destruct (List.find _ es) as [e|]; [|done]. destruct Hr as (c' & ? & ?). eauto.
  - destruct (strtol10 k) as [index endptr]. destruct (streq endptr ""); cbn [negb orb].
    + unfold linx_yaml_node_sequence_by_index. rewrite Hn. cbn [from_opt]. rewrite bind_ret_l. unfold is_type.
      rewrite Ht, bool_decide_eq_true_2 by done. cbn [negb]. set (i := sext 32 index).
      pose proof (zip_all_lookup _ _ _ (Z.to_nat i) H) as Hi. pose proof (zip_all_length _ _ _ H) as Hlen.
      destruct (Z.ltb_spec i 0); cbn [orb]; [by exists None|]. unfold yn_child_count.
      destruct (ds !! Z.to_nat i) as [d'|] eqn:E.
      * destruct Hi as (c' & Hc & Hd). rewrite Hc. apply lookup_lt_Some in E.
        destruct (Z.leb_spec (Z.of_nat (length (yn_children n))) i); [lia|]. exists (Some c'). split; [done|]. eauto.
      * apply lookup_ge_None in E. destruct (Z.leb_spec (Z.of_nat (length (yn_children n))) i); [|lia]. by exists None.
    + rewrite (search_in_sequence_total c k _ h n) by (done || by eapply holds_doc_children). by exists None.
Qed.

Lemma lookup_path_cons d k path :
  lookup_path d (k :: path) = match lookup_path d [k] with Some d' => lookup_path d' path | None => None end.
Proof.
  destruct d as [v|es|ds]; cbn; [done|by destruct (List.find _ es)|].
  destruct (strtol10 k) as [index endptr]. destruct (_ || _); [done|]. by destruct (ds !! _).
Qed.

Lemma path_loop_spec path lo h c key d fuel :
  holds_doc lo h c key d → forallb component_ok path = true → (length path < fuel)%nat →
  ∃ r, path_loop fuel (strtok DOT (join_path path)) (Some c) h = Ret [] r
    ∧ match lookup_path d path with
      | Some d' => ∃ c' key', r = Some c' ∧ holds_doc lo h c' key' d'
      | None => r = None
      end.
Proof.
  revert c key d fuel. induction path as [|k path IH]; intros c key d fuel Hd Hok Hf; (destruct fuel as [|fuel]; [lia|]).
  - exists (Some c). split; [done|]. by exists c, key.
  - cbn [forallb length] in Hok, Hf. apply andb_true_iff in Hok as [Hk Hok].
    rewrite strtok_join by done. cbn [path_loop].
    destruct (path_step_spec lo h c key d k Hd) as (r & -> & Hr). rewrite bind_Ret_nil, lookup_path_cons.
    destruct (lookup_path d [k]) as [d'|].
    + destruct Hr as (c' & key' & -> & Hd'). eapply IH; [done|done|lia].
    + subst r. exists None. split; [|done]. destruct fuel; [lia|]. by destruct (strtok DOT _) as [[??]|].
Qed.

Lemma join_path_length path : forallb component_ok path = true → (length path ≤ strlen (join_path path))%nat.
Proof.
  induction path as [|k path IH]; [done|]. cbn [forallb length]. intros [Hk Hok]%andb_true_iff.
  specialize (IH Hok). destruct k as [|c k]; [done|].
  destruct path as [|k' path]; [cbn; lia|].
  change (join_path (String c k :: k' :: path)) with (String c k +:+ String DOT (join_path (k' :: path))).
  rewrite strlen_app. cbn [strlen length] in *. lia.
Qed.

Lemma get_node_by_path_spec path lo h c key d :
  holds_doc lo h c key d → forallb component_ok path = true →
  ∃ r, linx_yaml_get_node_by_path (Some c) (Some (join_path path)) h = Ret [] r
    ∧ match lookup_path d path with
      | Some d' => ∃ c' key', r = Some c' ∧ holds_doc lo h c' key' d'
      | None => r = None
      end.
Proof.
  intros Hd Hok. pose proof (join_path_length path Hok).
  unfold linx_yaml_get_node_by_path. eapply path_loop_spec; [done|done|lia].
Qed.

Lemma scalar_at_spec path lo h c key d :
  holds_doc lo h c key d → forallb component_ok path = true →
  scalar_at (Some c) (Some (join_path path)) h
  = Ret [] (match lookup_path d path with Some (YScalar v) => Some (Some v) | _ => None end).
Proof.
  intros Hd Hok. unfold scalar_at. destruct (get_node_by_path_spec path lo h c key d Hd Hok) as (r & -> & Hr).
  rewrite bind_Ret_nil. destruct (lookup_path d path) as [d'|]; [|by subst r].
  destruct Hr as (c' & key' & -> & Hd'). destruct d' as [v|es|ds]; cbn in Hd'; destruct Hd' as (_ & n & Hn & _ & Ht & Hv);
    rewrite Hn; cbn [from_opt]; rewrite bind_ret_l; unfold is_type; rewrite Ht; try done. cbn. by rewrite Hv.
Qed.

(** ** What the loaded tree answers *)
Definition string_value (d : option yaml) (default_value : option string) : option string :=
  match d with Some (YScalar v) => Some v | _ => default_value end.

Definition int_value (d : option yaml) (default_value : Z) : Z :=
  match d with
  | Some (YScalar v) => if streq (strtol10 v).2 "" then sext 32 (strtol10 v).1 else default_value
  | _ => default_value
  end.

Definition bool_value (d : option yaml) (default_value : Z) : Z :=
  match d with
  | Some (YScalar v) =>
      if bool_decide (v ∈ ["true"; "yes"]) then 1
      else if bool_decide (v ∈ ["false"; "no"]) then 0
      else if streq (strtol10 v).2 "" then (if bool_decide ((strtol10 v).1 = 0) then 0 else 1)
      else default_value
  | _ => default_value
  end.

Definition length_value (d : option yaml) : Z :=
  match d with Some (YSeq items) => Z.of_nat (length items) | _ => 0 end.

Lemma streq_in v a b : streq v a || streq v b = bool_decide (v ∈ [a; b]).
Proof.
  symmetry. destruct (streq_spec v a) as [->|Ha]; cbn [orb]; [by apply bool_decide_eq_true_2; left|].
  destruct (streq_spec v b) as [->|Hb]; [by apply bool_decide_eq_true_2; right; left|].
  apply bool_decide_eq_false_2. rewrite !elem_of_cons. intros [?|[?|H]]; [done..|]. by inversion H.
Qed.

Section answers.
Context (lo : nat) (h : yaml_heap) (c : nat) (key : option string) (d : yaml) (Hd : holds_doc lo h c key d).
Context (path : list string) (Hok : forallb component_ok path = true).

Lemma get_string_spec def :
  linx_yaml_get_string (Some c) (Some (join_path path)) def h = Ret [] (string_value (lookup_path d path) def).
Proof.
  unfold linx_yaml_get_string. rewrite (scalar_at_spec _ _ _ _ _ _ Hd Hok), bind_Ret_nil.
  by destruct (lookup_path d path) as [[]|].
Qed.

Lemma get_int_spec def :
  linx_yaml_get_int (Some c) (Some (join_path path)) def h = Ret [] (int_value (lookup_path d path) def).
Proof.
  unfold linx_yaml_get_int. rewrite (scalar_at_spec _ _ _ _ _ _ Hd Hok), bind_Ret_nil.
  destruct (lookup_path d path) as [[x| |]|]; try done. cbn [from_opt int_value]. rewrite bind_ret_l.
  by destruct (strtol10 x).
Qed.

Lemma get_bool_spec def :
  linx_yaml_get_bool (Some c) (Some (join_path path)) def h = Ret [] (bool_value (lookup_path d path) def).
Proof.
  unfold linx_yaml_get_bool. rewrite (scalar_at_spec _ _ _ _ _ _ Hd Hok), bind_Ret_nil.
  destruct (lookup_path d path) as [[x| |]|]; try done. cbn [from_opt bool_value]. rewrite bind_ret_l, !streq_in.
  destruct (strtol10 x) as [z r]. cbn [fst snd]. destruct (bool_decide (x ∈ ["true"; "yes"])); [done|].
  destruct (bool_decide (x ∈ ["false"; "no"])); [done|]. destruct (streq r ""); [|done].
  destruct (Z.eqb_spec z 0); [by rewrite bool_decide_eq_true_2|by rewrite bool_decide_eq_false_2].
Qed.

Lemma get_sequence_length_spec :
  linx_yaml_get_sequence_length (Some c) (Some (join_path path)) h = Ret [] (length_value (lookup_path d path)).
Proof.
  unfold linx_yaml_get_sequence_length.
  destruct (get_node_by_path_spec path lo h c key d Hd Hok) as (r & Hp & Hn).
  rewrite Hp, bind_Ret_nil. destruct (lookup_path d path) as [d'|]; [|by subst r].
  destruct Hn as (c' & key' & -> & Hc).
  destruct d'; cbn in Hc; destruct Hc as (_ & n & -> & _ & Ht & Hz); cbn [from_opt]; rewrite bind_ret_l;
    unfold is_type; rewrite Ht; cbn; try done. unfold yn_child_count. by rewrite (zip_all_length _ _ _ Hz).
Qed.
End answers.

Lemma index_component i : component_ok (show_int (Z.of_nat i)) = true.
Proof.
  destruct (show_int_digits (Z.of_nat i) ltac:(lia)) as (Hne & Hd & _). unfold component_ok.
  destruct (streq_spec (show_int (Z.of_nat i)) ""); [done|]. revert Hd. apply sforall_impl. intros c Hc.
  destruct (Ascii.eqb_spec DOT c) as [<-|]; [done|done].
Qed.

Lemma lookup_path_find d path : lookup_path d path = if named_in_sequence d path then None else find_path d path.
Proof.
  revert d. induction path as [|k path IH]; intros d; [done|]. cbn [lookup_path named_in_sequence find_path].
  destruct d as [v|es|items]; cbn [path_component orb mbind option_bind].
  - done.
  - unfold yaml_entry. destruct (List.find _ es) as [e|]; cbn; [apply IH|done].
  - unfold is_index, item_at. destruct (strtol10 k) as [index endptr]. cbn [fst snd].
    destruct (streq endptr ""); cbn [negb orb]; [|done]. destruct (sext 32 index <? 0); cbn; [done|].
    destruct (items !! _); cbn; [apply IH|done].
Qed.

(** C34: a YAML document in which no scalar follows a collection within a
    sequence is loaded without undefined behaviour.  Each of the four access
    functions then answers a path with what it means in the document: a
    string, an integer or a boolean when a scalar of that form is there, the
    length of a sequence, and otherwise the default.  But a path that comes to
    a sequence with a name, which is to be looked up in the mappings among the
    elements, is always answered with the default: the name is looked up in
    the sequence itself, and what was found is dropped. *)
Theorem yaml_load_answers d :
  regular d = true → is_scalar d = false →
  ∃ root h, linx_yaml_load (Some (document d)) = Ret [] (Some root, h)
    ∧ ∀ path, forallb component_ok path = true →
        let p := Some (join_path path) in
        let v := find_path d path in
        (named_in_sequence d path = false →
           (∀ def, linx_yaml_get_string (Some root) p def h = Ret [] (string_value v def))
           ∧ (∀ def, linx_yaml_get_int (Some root) p def h = Ret [] (int_value v def))
           ∧ (∀ def, linx_yaml_get_bool (Some root) p def h = Ret [] (bool_value v def))
           ∧ linx_yaml_get_sequence_length (Some root) p h = Ret [] (length_value v))
        ∧ (named_in_sequence d path = true →
           (∀ def, linx_yaml_get_string (Some root) p def h = Ret [] def)
           ∧ (∀ def, linx_yaml_get_int (Some root) p def h = Ret [] def)
           ∧ (∀ def, linx_yaml_get_bool (Some root) p def h = Ret [] def)
           ∧ linx_yaml_get_sequence_length (Some root) p h = Ret [] 0).
Proof.
  intros Hr Hs. destruct (load_document d Hr Hs) as (h & Hload & Hd). exists 0%nat, h. split; [done|].
  intros path Hok p v.
  assert (∀ def, linx_yaml_get_string (Some 0%nat) p def h = Ret [] (string_value (lookup_path d path) def)) as H1
    by (intros; by eapply get_string_spec).
  assert (∀ def, linx_yaml_get_int (Some 0%nat) p def h = Ret [] (int_value (lookup_path d path) def)) as H2
    by (intros; by eapply get_int_spec).
  assert (∀ def, linx_yaml_get_bool (Some 0%nat) p def h = Ret [] (bool_value (lookup_path d path) def)) as H3
    by (intros; by eapply get_bool_spec).
  assert (linx_yaml_get_sequence_length (Some 0%nat) p h = Ret [] (length_value (lookup_path d path))) as H4
    by (by eapply get_sequence_length_spec).
  rewrite lookup_path_find in H1, H2, H3, H4. split; intros Hn; rewrite Hn in H1, H2, H3, H4; done.
Qed.

Definition rules_ex : yaml :=
  YSeq [YMap [("rule", YScalar "r0"); ("tags", YSeq [YScalar "a"; YScalar "b"]); ("priority", YScalar "7")];
        YMap [("rule", YScalar "r1"); ("notify", YMap [("title", YScalar "t"); ("on", YScalar "yes")])]].

Lemma yaml_load_answers_witness :
  ∃ root h, linx_yaml_load (Some (document rules_ex)) = Ret [] (Some root, h)
    ∧ linx_yaml_get_string (Some root) (Some "1.notify.title") None h = Ret [] (Some "t")
    ∧ linx_yaml_get_int (Some root) (Some "0.priority") 0 h = Ret [] 7
    ∧ linx_yaml_get_bool (Some root) (Some "1.notify.on") 0 h = Ret [] 1
    ∧ linx_yaml_get_sequence_length (Some root) (Some "0.tags") h = Ret [] 2
    ∧ find_path rules_ex ["notify"; "title"] = Some (YScalar "t")
    ∧ linx_yaml_get_string (Some root) (Some "notify.title") None h = Ret [] None.
Proof.
  destruct (yaml_load_answers rules_ex eq_refl eq_refl) as (root & h & Hl & H). exists root, h. split; [exact Hl|].
  split; [exact (proj1 (proj1 (H ["1"; "notify"; "title"] eq_refl) eq_refl) None)|].
  split; [exact (proj1 (proj2 (proj1 (H ["0"; "priority"] eq_refl) eq_refl)) 0)|].
  split; [exact (proj1 (proj2 (proj2 (proj1 (H ["1"; "notify"; "on"] eq_refl) eq_refl))) 0)|].
  split; [exact (proj2 (proj2 (proj2 (proj1 (H ["0"; "tags"] eq_refl) eq_refl))))|]. split; [reflexivity|].
  exact (proj1 (proj2 (H ["notify"; "title"] eq_refl) eq_refl) None).
Defined.

(** The flag that tells a sequence from a mapping is cleared when a nested
    collection ends and never set again, so a scalar that follows a
    collection in a sequence is taken for a key: when it is the last item,
    the tree is that of the document without it. *)
Theorem yaml_trailing_scalar_lost items v :
  regular (YSeq items) = true → forallb is_scalar items = false →
  ∃ root h, linx_yaml_load (Some (document (YSeq (items ++ [YScalar v])))) = Ret [] (Some root, h)
    ∧ linx_yaml_get_sequence_length (Some root) (Some "") h = Ret [] (Z.of_nat (length items)).
Proof.
  intros Hr Hs. cbn in Hr. apply andb_true_iff in Hr as [Hf Hr]. assert (Forall loads items) as Hds.
  { eapply Forall_forallb, Hr. apply Forall_true. intros e. apply loads_regular. }
  unfold linx_yaml_load, document. cbn [events_of app].
  rewrite flat_map_app. cbn [flat_map events_of app]. rewrite <- !app_assoc.
  assert (Hpre : ∀ ev, load_loop (YAML_STREAM_START_EVENT :: YAML_DOCUMENT_START_EVENT :: ev) loader_init
    = load_loop ev loader_init) by (intros ev; etransitivity; apply bind_ret_l).
  rewrite Hpre, (load_start_top _ LINX_YAML_NODE_TYPE_SEQUENCE true) by (by right).
  edestruct (loads_items items Hds [fresh_node LINX_YAML_NODE_TYPE_SEQUENCE None] 0%nat [] 16 true (Some 0%nat))
    as (h & cap & cs & -> & (_ & _ & N) & H); [cbn; lia|done|]. rewrite Hs. cbn [andb app].
  rewrite load_key, (load_end _ true) by done. exists 0%nat, h. split; [done|].
  destruct (N _ eq_refl) as (n & Hn & K & T & C). unfold linx_yaml_get_sequence_length. cbn -[lookup].
  rewrite Hn. cbn [from_opt]. rewrite bind_ret_l. unfold is_type, yn_child_count. rewrite T, C. cbn.
  by rewrite (zip_all_length _ _ _ H).
Qed.

Lemma yaml_trailing_scalar_lost_witness :
  ∃ root h, linx_yaml_load (Some (document (YSeq [YScalar "a"; YMap [("k", YScalar "v")]; YScalar "z"])))
      = Ret [] (Some root, h)
    ∧ linx_yaml_get_sequence_length (Some root) (Some "") h = Ret [] 2.
Proof. exact (yaml_trailing_scalar_lost [YScalar "a"; YMap [("k", YScalar "v")]] "z" eq_refl eq_refl). Defined.

(** A document that is one scalar is tested with [in_sequence] unset. *)
Lemma yaml_scalar_document v : linx_yaml_load (Some (document (YScalar v))) = Ub UninitRead.
Proof. reflexivity. Qed.
