(* ===== verification/YamlFree.v ===== *)
(** * Freeing YAML trees (linx_yaml_node.c, linx_yaml_stack.c)

    [Yaml] keeps the nodes of the loader in a store.  A node owns up to four
    blocks: itself, the copies of its key and of its value, and the array of
    its children.  [linx_yaml_node_free] goes down the tree; the model keeps
    the list of the blocks that have been freed, so that a second free of a
    block, or a look into a freed node, is seen. *)
From S2P Require Import Prelude CString Yaml.

#[local] Set Warnings "-clear-no-such-hyp".
#[local] Open Scope Z_scope.

Inductive yaml_block :=
  | BlockNode (node : nat)
  | BlockKey (node : nat)
  | BlockValue (node : nat)
  | BlockChildren (node : nat).

#[export] Instance yaml_block_eq_dec : EqDecision yaml_block.
Proof. solve_decision. Defined.

Abbreviation freed_blocks := (list yaml_block).

Definition yaml_release (b : yaml_block) (freed : freed_blocks) : outcome freed_blocks :=
  if bool_decide (b ∈ freed) then Ub InvalidFree else mret (freed ++ [b]).

Definition release_if {A} (x : option A) (b : yaml_block) (freed : freed_blocks) : outcome freed_blocks :=
  match x with Some _ => yaml_release b freed | None => mret freed end.

Definition live_node (h : yaml_heap) (node : nat) (freed : freed_blocks) : outcome linx_yaml_node :=
  if bool_decide (BlockNode node ∈ freed) then Ub BadAddress else from_opt BadAddress (h !! node).

(** The children from the [i]-th on, [k] of them; the node is read for each. *)
Fixpoint free_children (free : nat → freed_blocks → outcome freed_blocks) (h : yaml_heap) (node i k : nat)
    (freed : freed_blocks) : outcome freed_blocks :=
  match k with
  | O => mret freed
  | S k =>
      n ← live_node h node freed; c ← from_opt OutOfBounds (yn_children n !! i);
      freed ← free c freed; free_children free h node (S i) k freed
  end.

(** The fuel bounds the depth. *)
Fixpoint linx_yaml_node_free (fuel : nat) (h : yaml_heap) (node : nat) (freed : freed_blocks) : outcome freed_blocks :=
  match fuel with
  | O => NoFuel
  | S fuel =>
      n ← live_node h node freed;
      freed ← release_if (yn_key n) (BlockKey node) freed;
      freed ← release_if (yn_value n) (BlockValue node) freed;
      freed ← free_children (linx_yaml_node_free fuel h) h node 0 (length (yn_children n)) freed;
      freed ← release_if (head (yn_children n)) (BlockChildren node) freed;
      yaml_release (BlockNode node) freed
  end.

(** The loader's stack: its array, the key that waits, if one does, and itself. *)
Inductive stack_block := BlockStackArray | BlockCurrentKey | BlockStack.

Definition linx_yaml_stack_free (stack : option linx_yaml_stack_t) (freed : list stack_block) : list stack_block :=
  match stack with
  | None => freed
  | Some s =>
      freed ++ [BlockStackArray] ++ (match ys_current_key s with Some _ => [BlockCurrentKey] | None => [] end) ++ [BlockStack]
  end.

(** ** What a tree consists of *)
Definition block_of (h : yaml_heap) (b : yaml_block) (i : nat) : Prop :=
  ∃ n, h !! i = Some n ∧
  match b with
  | BlockNode j => j = i
  | BlockKey j => j = i ∧ is_Some (yn_key n)
  | BlockValue j => j = i ∧ is_Some (yn_value n)
  | BlockChildren j => j = i ∧ yn_children n ≠ []
  end.

Definition child (h : yaml_heap) (p c : nat) : Prop := ∃ n, h !! p = Some n ∧ c ∈ yn_children n.
Abbreviation below h := (rtc (child h)).

(** The store is a forest: children come after their parent, and a node is the
    child of one parent, once. *)
Record forest (h : yaml_heap) : Prop := {
  fo_order p c : child h p c → (p < c < length h)%nat;
  fo_nodup p n : h !! p = Some n → NoDup (yn_children n);
  fo_parent p q c : child h p c → child h q c → p = q
}.

(** ** Lemmas *)
Lemma below_le h a b : forest h → below h a b → (a ≤ b)%nat.
Proof. intros Hf. induction 1 as [|a b c Hab _ IH]; [done|]. apply (fo_order _ Hf) in Hab. lia. Qed.

Lemma below_lt h a b : forest h → (a < length h)%nat → below h a b → (b < length h)%nat.
Proof. intros Hf Ha H. revert Ha. induction H as [|a b c Hab _ IH]; [done|]. intros _. apply IH. apply (fo_order _ Hf) in Hab. lia. Qed.

(** Of two ancestors of a node one is above the other. *)
Lemma below_comparable h a b x : forest h → below h a x → below h b x → below h a b ∨ below h b a.
Proof.
  intros Hf Ha. revert b. revert x Ha. apply (rtc_ind_r (λ x, ∀ b, below h b x → below h a b ∨ below h b a) a); [by right|].
  intros y x Hay Hyx IH b Hb. apply rtc_inv_r in Hb as [->|(z & Hbz & Hzx)].
  - left. by eapply rtc_r.
  - rewrite (fo_parent _ Hf _ _ _ Hzx Hyx) in Hbz. by apply IH.
Qed.

Lemma siblings_apart h p n c d x :
  forest h → h !! p = Some n → c ∈ yn_children n → d ∈ yn_children n → below h c x → below h d x → c = d.
Proof.
  intros Hf Hn Hc Hd Hcx Hdx. assert (∀ c d, child h p c → child h p d → below h c d → c = d) as H.
  { intros c' d' Hc' Hd' Hb. apply rtc_inv_r in Hb as [->|(z & Hcz & Hzd)]; [done|].
    rewrite (fo_parent _ Hf _ _ _ Hzd Hd') in Hcz. apply (below_le _ _ _ Hf) in Hcz. apply (fo_order _ Hf) in Hc'. lia. }
  assert (child h p c) by (by exists n). assert (child h p d) by (by exists n).
  destruct (below_comparable h c d x Hf Hcx Hdx) as [Hb|Hb]; [by apply H|symmetry; by apply H].
Qed.

(** [fs] are the blocks of the nodes that satisfy [P], each once. *)
Definition blocks_where (h : yaml_heap) (P : nat → Prop) (fs : freed_blocks) : Prop :=
  NoDup fs ∧ ∀ b, b ∈ fs ↔ ∃ i, P i ∧ block_of h b i.

Lemma block_owner h b i j : block_of h b i → block_of h b j → i = j.
Proof. intros (n & _ & H1) (m & _ & H2). destruct b; naive_solver. Qed.

Lemma blocks_where_app h P Q fs gs :
  blocks_where h P fs → blocks_where h Q gs → (∀ i, P i → Q i → False) → blocks_where h (λ i, P i ∨ Q i) (fs ++ gs).
Proof.
  intros [Hn1 H1] [Hn2 H2] Hpq. split.
  - apply NoDup_app. split; [done|]. split; [|done]. intros b (i & Hi & Hb)%H1 (j & Hj & Hb')%H2.
    rewrite (block_owner _ _ _ _ Hb Hb') in Hi. by apply (Hpq j).
  - intros b. rewrite elem_of_app, H1, H2. naive_solver.
Qed.

(** Freeing the tree at [c], when nothing of it has been freed. *)
Definition frees_tree (free : nat → freed_blocks → outcome freed_blocks) (h : yaml_heap) (c : nat) : Prop :=
  ∀ freed, (∀ b i, below h c i → block_of h b i → b ∉ freed) →
  ∃ fs, free c freed = Ret [] (freed ++ fs) ∧ blocks_where h (below h c) fs.

Lemma free_children_spec h p n free :
  forest h → h !! p = Some n → (∀ c, c ∈ yn_children n → frees_tree free h c) →
  ∀ k i freed, (i + k = length (yn_children n))%nat → BlockNode p ∉ freed →
  (∀ c b j, c ∈ drop i (yn_children n) → below h c j → block_of h b j → b ∉ freed) →
  ∃ fs, free_children free h p i k freed = Ret [] (freed ++ fs)
  ∧ blocks_where h (λ x, ∃ c, c ∈ drop i (yn_children n) ∧ below h c x) fs.
Proof.
  intros Hf Hn Hfree. induction k as [|k IH]; intros i freed Hik Hp Hout; cbn [free_children].
  - exists []. rewrite app_nil_r, drop_ge by lia. split; [done|]. split; [constructor|]. set_solver.
  - unfold live_node at 1. rewrite bool_decide_false by done. rewrite Hn, from_opt_some, bind_Ret_nil.
    destruct (lookup_lt_is_Some_2 (yn_children n) i) as [c Hc]; [lia|]. rewrite Hc, from_opt_some, bind_Ret_nil.
    rewrite (drop_S _ _ _ Hc) in *. assert (c ∈ yn_children n) as Hcn by (by eapply list_elem_of_lookup_2).
    assert (child h p c) as Hpc by (by exists n). pose proof (fo_nodup _ Hf _ _ Hn) as Hnd.
    assert (∀ d, d ∈ drop (S i) (yn_children n) → d ∈ yn_children n ∧ d ≠ c) as Hlater.
    { intros d Hd. rewrite <- (take_drop i (yn_children n)), (drop_S _ _ _ Hc) in Hnd |- *.
      apply NoDup_app in Hnd as (_ & _ & Hnd). apply NoDup_cons in Hnd as [Hnot _]. split; [set_solver|]. intros ->. done. }
    destruct (Hfree c Hcn freed) as (fs1 & -> & Hb1); [intros b j; apply Hout; by left|]. rewrite bind_Ret_nil.
    destruct (IH (S i) (freed ++ fs1)) as (fs2 & -> & Hb2); [lia| | |].
    + intros [Hin|Hin]%elem_of_app; [done|]. apply Hb1 in Hin as (j & Hj & m & _ & ->).
      apply (below_le _ _ _ Hf) in Hj. apply (fo_order _ Hf) in Hpc. lia.
    + intros d b j Hd Hdj Hb [Hin|Hin]%elem_of_app; [by apply (Hout d b j); [by right|..]|].
      apply Hb1 in Hin as (j' & Hj' & Hb'). rewrite (block_owner _ _ _ _ Hb' Hb) in Hj'.
      destruct (Hlater d Hd) as [Hdn Hdc]. apply Hdc. by eapply (siblings_apart h p n d c j).
    + exists (fs1 ++ fs2). rewrite (assoc_L (++)). split; [done|].
      destruct (blocks_where_app h _ _ _ _ Hb1 Hb2) as [Hnd' Hin].
      * intros j Hj (d & Hd & Hdj). destruct (Hlater d Hd) as [Hdn Hdc]. apply Hdc. by eapply (siblings_apart h p n d c j).
      * split; [done|]. intros b. rewrite Hin. set_solver.
Qed.

Definition opt_block {A} (x : option A) (b : yaml_block) : freed_blocks := match x with Some _ => [b] | None => [] end.

Lemma release_if_ok {A} (x : option A) b freed : (is_Some x → b ∉ freed) → release_if x b freed = Ret [] (freed ++ opt_block x b).
Proof.
  intros H. destruct x as [a|]; cbn; [|by rewrite app_nil_r]. unfold yaml_release. by rewrite bool_decide_false by (apply H; by eexists).
Qed.

Lemma elem_of_opt_block {A} (x : option A) b b' : b' ∈ opt_block x b ↔ is_Some x ∧ b' = b.
Proof. destruct x; cbn; [rewrite list_elem_of_singleton|rewrite elem_of_nil]; naive_solver (by eexists). Qed.

Lemma NoDup_opt_block {A} (x : option A) b : NoDup (opt_block x b).
Proof. destruct x; [apply NoDup_singleton|constructor]. Qed.

Lemma head_not_nil {A} (l : list A) : is_Some (head l) ↔ l ≠ [].
Proof. destruct l; cbn; [split; [by intros [? ?]|done]|split; [done|by eexists]]. Qed.

Lemma below_cases h c n i : h !! c = Some n → below h c i ↔ i = c ∨ ∃ d, d ∈ yn_children n ∧ below h d i.
Proof.
  intros Hn. split.
  - intros H. inversion H as [|? d ? (m & Hm & Hd) Hdi]; subst; [by left|]. right. exists d. rewrite Hn in Hm. by injection Hm as ->.
  - intros [->|(d & Hd & Hdi)]; [apply rtc_refl|]. eapply rtc_l; [|exact Hdi]. by exists n.
Qed.

(** Freeing a tree frees the blocks of its nodes, each once, and no other. *)
Lemma node_free_tree h : forest h → ∀ fuel c, (c < length h)%nat → (length h - c < fuel)%nat → frees_tree (linx_yaml_node_free fuel h) h c.
Proof.
  intros Hf. induction fuel as [|fuel IH]; [lia|]. intros c Hc Hfuel freed Hout.
  destruct (lookup_lt_is_Some_2 h c Hc) as [n Hn]. cbn [linx_yaml_node_free]. unfold live_node at 1.
  assert (∀ b, block_of h b c → b ∉ freed) as Hown by (intros b; apply Hout, rtc_refl).
  rewrite bool_decide_false by (apply Hown; by exists n). rewrite Hn, from_opt_some, bind_Ret_nil.
  rewrite release_if_ok, bind_Ret_nil by (intros Hk; apply Hown; by exists n).
  rewrite release_if_ok, bind_Ret_nil.
  2:{ intros Hv. rewrite not_elem_of_app, elem_of_opt_block. split; [apply Hown; by exists n|]. by intros [_ ?]. }
  set (fs1 := opt_block (yn_key n) (BlockKey c)). set (fs2 := opt_block (yn_value n) (BlockValue c)).
  assert (∀ b, b ∈ fs1 ++ fs2 → block_of h b c ∧ b ≠ BlockNode c ∧ b ≠ BlockChildren c) as H12.
  { intros b. unfold fs1, fs2. rewrite elem_of_app, !elem_of_opt_block. intros [[Hk ->]|[Hk ->]]; (split; [by exists n|done]). }
  assert (∀ d, d ∈ yn_children n → child h c d) as Hch by (intros d Hd; by exists n).
  destruct (free_children_spec h c n (linx_yaml_node_free fuel h) Hf Hn) with (k := length (yn_children n)) (i := 0%nat) (freed := (freed ++ fs1) ++ fs2)
    as (fs3 & E3 & Hnd3 & Hin3); [| done | | |].
  - intros d Hd. apply Hch in Hd. apply (fo_order _ Hf) in Hd. apply IH; lia.
  - rewrite <- (assoc_L (++)), not_elem_of_app. split; [apply Hown; by exists n|]. intros H%H12. naive_solver.
  - intros d b j Hd Hdj Hb. rewrite drop_0 in Hd. rewrite <- (assoc_L (++)), not_elem_of_app. split.
    + apply (Hout b j); [|done]. eapply rtc_l; [by apply Hch|done].
    + intros [H _]%H12. rewrite (block_owner _ _ _ _ H Hb) in *. apply (below_le _ _ _ Hf) in Hdj.
      apply Hch, (fo_order _ Hf) in Hd. lia.
  - rewrite E3, bind_Ret_nil. rewrite drop_0 in Hin3. clear E3.
    assert (∀ b, b ∈ fs3 → ¬ block_of h b c) as H3.
    { intros b (j & (d & Hd & Hdj) & Hb)%Hin3 Hb'. rewrite (block_owner _ _ _ _ Hb' Hb) in *. apply (below_le _ _ _ Hf) in Hdj.
      apply Hch, (fo_order _ Hf) in Hd. lia. }
    assert (∀ b, block_of h b c → b ∉ fs1 ++ fs2 → b ∉ ((freed ++ fs1) ++ fs2) ++ fs3) as Hnew.
    { intros b Hb Hb12. rewrite <- (assoc_L (++)), <- (assoc_L (++)), (assoc_L (++) fs1), !not_elem_of_app.
      split; [by apply Hown|]. rewrite <- not_elem_of_app. split; [done|]. intros H. by apply (H3 b). }
    set (fs4 := opt_block (head (yn_children n)) (BlockChildren c)).
    assert (∀ b, b ∈ fs4 ++ [BlockNode c] → block_of h b c ∧ b ∉ fs1 ++ fs2) as H4.
    { intros b. unfold fs4. rewrite elem_of_app, elem_of_opt_block, list_elem_of_singleton, head_not_nil.
      intros [[Hk ->]| ->]; (split; [by exists n|]; intros H%H12; naive_solver). }
    rewrite release_if_ok, bind_Ret_nil.
    2:{ intros Hk. apply Hnew; apply H4; unfold fs4; rewrite elem_of_app, elem_of_opt_block; by left. }
    unfold yaml_release. rewrite bool_decide_false.
    2:{ rewrite not_elem_of_app. split; [apply Hnew; apply H4; rewrite elem_of_app, list_elem_of_singleton; by right|].
        rewrite elem_of_opt_block. by intros [_ ?]. }
    exists ((fs1 ++ fs2) ++ fs3 ++ fs4 ++ [BlockNode c]). split; [by rewrite !(assoc_L (++))|].
    assert (∀ b, b ∈ (fs1 ++ fs2) ++ fs4 ++ [BlockNode c] ↔ block_of h b c) as Hself.
    { intros b. rewrite elem_of_app. split; [intros [H|H]; [by apply H12|by apply H4]|]. intros (m & Hm & Hb).
      rewrite Hn in Hm. injection Hm as <-. unfold fs1, fs2, fs4.
      rewrite !elem_of_app, !elem_of_opt_block, list_elem_of_singleton, head_not_nil. destruct b; naive_solver. }
    split.
    + apply NoDup_app. split; [|split].
      * apply NoDup_app. split; [apply NoDup_opt_block|]. split; [|apply NoDup_opt_block].
        intros b. unfold fs1, fs2. rewrite !elem_of_opt_block. naive_solver.
      * intros b Hb. rewrite elem_of_app. intros [H|H]; [apply (H3 b H), Hself, elem_of_app; by left|by apply H4 in H as [_ H]].
      * apply NoDup_app. split; [done|]. split.
        -- intros b Hb [H _]%H4. by apply (H3 b Hb).
        -- apply NoDup_app. split; [apply NoDup_opt_block|]. split; [|apply NoDup_singleton].
           intros b. unfold fs4. rewrite elem_of_opt_block, list_elem_of_singleton. naive_solver.
    + intros b. trans (block_of h b c ∨ b ∈ fs3); [rewrite <- Hself, !elem_of_app; tauto|]. rewrite Hin3.
      split; [intros [H|(i & Hi & H)]|intros (i & Hi & H)].
      * exists c. split; [apply rtc_refl|done].
      * exists i. split; [|done]. apply (below_cases _ _ _ _ Hn). by right.
      * apply (below_cases _ _ _ _ Hn) in Hi as [->|Hi]; [by left|]. right. by exists i.
Qed.

(** *** The loader builds a forest *)
Lemma child_snoc h x a c : yn_children x = [] → child (h ++ [x]) a c ↔ child h a c.
Proof.
  intros Hx. split; intros (n & Hn & Hc).
  - apply lookup_app_Some in Hn as [Hn|[Hl Hn]]; [by exists n|]. apply list_lookup_singleton_Some in Hn as [_ <-]. rewrite Hx in Hc. set_solver.
  - exists n. split; [by apply lookup_app_l_Some|done].
Qed.

Lemma snoc_lookup (h : yaml_heap) x p n : h !! p = Some n → (h ++ [x]) !! p = Some n.
Proof. intros H. by apply lookup_app_l_Some. Qed.

Lemma child_add h x p np a c :
  h !! p = Some np → yn_children x = [] →
  child (<[p := add_child (length h) np]> (h ++ [x])) a c ↔ child h a c ∨ (a = p ∧ c = length h).
Proof.
  intros Hp Hx. rewrite <- (child_snoc h x a c Hx). assert (p < length (h ++ [x]))%nat as Hl.
  { apply lookup_lt_Some in Hp. rewrite length_app. lia. }
  pose proof (snoc_lookup h x p np Hp) as Hp'. split.
  - intros (n & Hn & Hc). apply list_lookup_insert_Some in Hn as [(<- & <- & _)|(Hne & Hn)]; [|left; by exists n].
    cbn in Hc. apply elem_of_app in Hc as [Hc|Hc%list_elem_of_singleton]; [left; by exists np|by right].
  - intros [(n & Hn & Hc)|[-> ->]].
    + destruct (decide (a = p)) as [->|Hne]; [|exists n; by rewrite list_lookup_insert_ne].
      rewrite Hp' in Hn. injection Hn as <-. exists (add_child (length h) np). rewrite list_lookup_insert_eq by done.
      split; [done|]. cbn. apply elem_of_app. by left.
    + exists (add_child (length h) np). rewrite list_lookup_insert_eq by done. split; [done|]. cbn. apply elem_of_app. right. by left.
Qed.

Lemma forest_nil : forest [].
Proof. split; [intros p c (n & Hn & _)|intros p n Hn|intros p q c (n & Hn & _)]; discriminate Hn. Qed.

Lemma forest_snoc h x : forest h → yn_children x = [] → forest (h ++ [x]).
Proof.
  intros Hf Hx. split.
  - intros p c H%child_snoc; [|done]. apply (fo_order _ Hf) in H. rewrite length_app. lia.
  - intros p n Hn. apply lookup_app_Some in Hn as [Hn|[_ Hn]]; [by apply (fo_nodup _ Hf p)|].
    apply list_lookup_singleton_Some in Hn as [_ <-]. rewrite Hx. constructor.
  - intros p q c H1%child_snoc H2%child_snoc; [|done..]. by apply (fo_parent _ Hf p q c).
Qed.

Lemma forest_add h x p np :
  forest h → h !! p = Some np → yn_children x = [] → forest (<[p := add_child (length h) np]> (h ++ [x])).
Proof.
  intros Hf Hp Hx. assert (∀ c, child h p c → (c < length h)%nat) as Hlt by (intros c H; apply (fo_order _ Hf) in H; lia).
  pose proof (lookup_lt_Some _ _ _ Hp) as Hpl. split.
  - intros a c H. rewrite length_insert, length_app. cbn [length]. apply (child_add _ _ _ _ _ _ Hp Hx) in H as [H|[-> ->]]; [|lia].
    apply (fo_order _ Hf) in H. lia.
  - intros a n Hn. apply list_lookup_insert_Some in Hn as [(<- & <- & _)|(Hne & Hn)].
    + cbn. apply NoDup_app. split; [by apply (fo_nodup _ Hf p)|]. split; [|apply NoDup_singleton].
      intros c Hc ->%list_elem_of_singleton. assert (child h p (length h)) as H by (by exists np). apply Hlt in H. lia.
    + by apply (fo_nodup _ (forest_snoc _ _ Hf Hx) a).
  - intros a b c Ha%(child_add _ _ _ _ _ _ Hp Hx) Hb%(child_add _ _ _ _ _ _ Hp Hx).
    destruct Ha as [Ha|[-> ->]], Hb as [Hb|[-> Hb]]; subst; [by apply (fo_parent _ Hf a b c)| | |done].
    + apply (fo_order _ Hf) in Ha. lia.
    + apply (fo_order _ Hf) in Hb. lia.
Qed.

Record loader_ok (st : loader) : Prop := {
  lo_forest : forest (yl_heap st);
  lo_stack : Forall (λ i, i < length (yl_heap st))%nat (ys_stack (yl_stack st));
  lo_root r : yl_root st = Some r → (r < length (yl_heap st))%nat
}.

(** What an event does to heap, stack and root: nothing or a pop; a node that
    stays apart; a node below the top of the stack. *)
Inductive event_effect (st st' : loader) : Prop :=
  | effect_none :
      yl_heap st' = yl_heap st → yl_root st' = yl_root st →
      ys_stack (yl_stack st') = ys_stack (yl_stack st) ∨ ys_stack (yl_stack st') = tail (ys_stack (yl_stack st)) →
      event_effect st st'
  | effect_apart x :
      ys_stack (yl_stack st) = [] → yl_heap st' = yl_heap st ++ [x] → yn_children x = [] →
      (ys_stack (yl_stack st') = [] ∧ yl_root st' = yl_root st)
      ∨ (ys_stack (yl_stack st') = [length (yl_heap st)]
         ∧ yl_root st' = match yl_root st with None => Some (length (yl_heap st)) | r => r end) →
      event_effect st st'
  | effect_below x p np s :
      ys_stack (yl_stack st) = p :: s → yl_heap st !! p = Some np → yn_children x = [] →
      yl_heap st' = <[p := add_child (length (yl_heap st)) np]> (yl_heap st ++ [x]) → yl_root st' = yl_root st →
      ys_stack (yl_stack st') = p :: s ∨ ys_stack (yl_stack st') = length (yl_heap st) :: p :: s →
      event_effect st st'.

Lemma effect_ok st st' : loader_ok st → event_effect st st' → loader_ok st'.
Proof.
  intros [Hf Hs Hr] [Hh Hr' Hs'|x Hnil Hh Hx Hs'|x p np s Hst Hp Hx Hh Hr' Hs'].
  - split; rewrite Hh; [done| |by rewrite Hr']. destruct Hs' as [-> | ->]; [done|]. by destruct Hs.
  - split; rewrite Hh; [by apply forest_snoc| |].
    + destruct Hs' as [[-> _]|[-> _]]; [constructor|]. constructor; [rewrite length_app; cbn; lia|constructor].
    + intros r Hroot. rewrite length_app. destruct Hs' as [[_ E]|[_ E]]; rewrite E in Hroot.
      * apply Hr in Hroot. lia.
      * destruct (yl_root st) as [r0|]; [injection Hroot as <-; specialize (Hr r0 eq_refl); lia|]. injection Hroot as <-. cbn. lia.
  - assert (∀ i, (i < length (yl_heap st))%nat → (i < length (yl_heap st'))%nat) as Hle.
    { intros i Hi. rewrite Hh, length_insert, length_app. cbn. lia. }
    split.
    + rewrite Hh. by apply forest_add.
    + assert (Forall (λ i, i < length (yl_heap st'))%nat (p :: s)) as Hps.
      { rewrite <- Hst. eapply Forall_impl; [exact Hs|]. intros i. apply Hle. }
      destruct Hs' as [-> | ->]; [done|]. constructor; [|done]. rewrite Hh, length_insert, length_app. cbn. lia.
    + rewrite Hr'. intros r Hroot. by apply Hle, Hr.
Qed.

(** What a collection or a scalar leaves as it is. *)
Record kept_state (st st' : loader) : Prop := {
  ks_error : yl_error st' ∈ [yl_error st; 0];
  ks_done : yl_done st' = yl_done st
}.

Lemma start_effect type b st :
  loader_ok st →
  ∃ st', start_collection type b st = Ret [] st' ∧ event_effect st st' ∧ kept_state st st'
  ∧ ys_in_sequence (yl_stack st') = Some b ∧ ys_stack (yl_stack st') = length (yl_heap st) :: ys_stack (yl_stack st).
Proof.
  intros [_ Hs _]. destruct st as [h [stk cap key seq] root err dn]. unfold start_collection, linx_yaml_node_create, ys_size.
  cbn [yl_heap yl_stack yl_root yl_error yl_done ys_current_key ys_stack ys_capacity ys_in_sequence set_key] in *.
  set (x := mk_yaml_node key None type [] 0 false). destruct stk as [|p s].
  - destruct root as [r|]; cbn; (eexists; split; [done|]); (split; [apply (effect_apart _ _ x); [done|done|done|by right]|]);
      (split; [split; [cbn; rewrite Z.lor_0_r; by left|done]|done]).
  - unfold attach, linx_yaml_stack_top, linx_yaml_node_add_child. cbn [set_key yl_stack ys_stack yl_heap head].
    rewrite (proj2 (Z.ltb_lt 0 _)) by (cbn; lia).
    apply Forall_cons in Hs as [Hp _]. destruct (lookup_lt_is_Some_2 h p Hp) as [np Hnp].
    rewrite (snoc_lookup _ x _ _ Hnp), from_opt_some, bind_Ret_nil, bind_ret_l, bind_ret_l. cbn.
    eexists. split; [done|]. split; [apply (effect_below _ _ x p np s); try done; by right|].
    split; [split; [right; by left|done]|done].
Qed.

Lemma scalar_effect v st :
  loader_ok st → is_Some (ys_in_sequence (yl_stack st)) →
  ∃ st', scalar_event v st = Ret [] st' ∧ event_effect st st' ∧ kept_state st st'
  ∧ ys_in_sequence (yl_stack st') = ys_in_sequence (yl_stack st) ∧ ys_stack (yl_stack st') = ys_stack (yl_stack st).
Proof.
  intros [_ Hs _] [seq Hseq]. destruct st as [h [stk cap key seq'] root err dn]. unfold scalar_event.
  cbn [yl_stack ys_in_sequence ys_stack yl_heap yl_root ys_current_key] in *. subst seq'. cbn [init_or_ub]. rewrite bind_ret_l.
  set (st0 := mk_loader h (mk_yaml_stack stk cap key (Some seq)) root err dn).
  assert (∀ k b, ∃ st1, (let '(node, st) := scalar_node k v b st0 in attach node st) = Ret [] st1 ∧ event_effect st0 st1 ∧ kept_state st0 st1
    ∧ yl_stack st1 = mk_yaml_stack stk cap key (Some seq)) as Hatt.
  { intros k b. set (x := mk_yaml_node k (Some v) LINX_YAML_NODE_TYPE_SCALAR [] 0 b).
    assert (scalar_node k v b st0 = (length h, mk_loader (h ++ [x]) (mk_yaml_stack stk cap key (Some seq)) root err dn)) as ->.
    { unfold scalar_node. cbn. by rewrite list.alter_app_r_alt, Nat.sub_diag by done. }
    unfold attach, linx_yaml_stack_top. cbn [yl_stack ys_stack yl_heap]. destruct stk as [|p s]; cbn [head].
    - eexists. split; [done|]. split; [apply (effect_apart _ _ x); [done..|by left]|]. split; [split; [by left|done]|done].
    - unfold linx_yaml_node_add_child. apply Forall_cons in Hs as [Hp _]. destruct (lookup_lt_is_Some_2 h p Hp) as [np Hnp].
      rewrite (snoc_lookup _ x _ _ Hnp), from_opt_some, bind_Ret_nil, bind_ret_l. eexists. split; [done|].
      split; [apply (effect_below _ _ x p np s); try done; by left|]. split; [split; [right; by left|done]|done]. }
  destruct seq.
  - destruct (Hatt None true) as (st1 & -> & He & Hk & Est). exists st1. rewrite Est. by split_and!.
  - destruct key as [k|].
    + destruct (Hatt (Some k) false) as (st1 & E & He & Hk & Est). destruct (scalar_node (Some k) v false st0) as [node st2].
      rewrite E, bind_Ret_nil. eexists. split; [done|]. cbn. rewrite Est. split; [|split; [by destruct Hk|done]].
      destruct He as [Hh Hr Hst|x Hn Hh Hx Hst|x p np s Hst Hp Hx Hh Hr Hst'];
        [apply effect_none|apply (effect_apart _ _ x)|apply (effect_below _ _ x p np s)]; cbn in *; rewrite ?Est in *; done.
    + eexists. split; [done|]. split; [apply effect_none; cbn; auto|]. split; [split; [by left|done]|done].
Qed.

Lemma end_effect b st : event_effect st (end_collection b st) ∧ ys_stack (yl_stack (end_collection b st)) = tail (ys_stack (yl_stack st)).
Proof.
  unfold end_collection, linx_yaml_stack_pop. destruct (ys_stack (yl_stack st)) as [|t s] eqn:E; destruct b; cbn;
    (split; [apply effect_none; cbn; rewrite ?E; by auto|done]).
Qed.

Lemma event_effects e st w st' : loader_ok st → load_event e st = Ret w st' → event_effect st st'.
Proof.
  intros Hok. destruct e; cbn [load_event]; intros H; try by (injection H as _ <-; apply effect_none; cbn; auto).
  - destruct (ys_in_sequence (yl_stack st)) as [b|] eqn:E; [|unfold scalar_event in H; by rewrite E in H].
    destruct (scalar_effect value st Hok ltac:(by rewrite E)) as (st1 & E1 & He & _). rewrite E1 in H. by injection H as _ <-.
  - destruct (start_effect LINX_YAML_NODE_TYPE_SEQUENCE true st Hok) as (st1 & E1 & He & _). rewrite E1 in H. by injection H as _ <-.
  - injection H as _ <-. apply end_effect.
  - destruct (start_effect LINX_YAML_NODE_TYPE_MAPPING false st Hok) as (st1 & E1 & He & _). rewrite E1 in H. by injection H as _ <-.
  - injection H as _ <-. apply end_effect.
Qed.

Lemma loop_ok events : ∀ st w st', loader_ok st → load_loop events st = Ret w st' → loader_ok st'.
Proof.
  induction events as [|e events IH]; intros st w st' Hok H; cbn [load_loop] in H; destruct (_ || _).
  - by injection H as _ <-.
  - injection H as _ <-. destruct Hok. by split.
  - by injection H as _ <-.
  - apply bind_Ret_inv in H as (w1 & w2 & st1 & H1 & H & _). eapply IH; [|exact H].
    eapply effect_ok; [done|]. by eapply event_effects.
Qed.

Lemma init_ok : loader_ok loader_init.
Proof. split; [apply forest_nil|constructor|done]. Qed.

(** *** A document is one tree *)

(** The loader with [depth] collections open: every node hangs below the
    first. *)
Record one_tree (depth : nat) (st : loader) : Prop := {
  ot_ok : loader_ok st;
  ot_depth : length (ys_stack (yl_stack st)) = depth;
  ot_error : yl_error st = 0;
  ot_done : yl_done st = false;
  ot_seq : is_Some (ys_in_sequence (yl_stack st));
  ot_root : yl_root st = Some 0%nat;
  ot_below i : (i < length (yl_heap st))%nat → below (yl_heap st) 0%nat i
}.

Lemma below_sub h h' a b : (∀ p c, child h p c → child h' p c) → below h a b → below h' a b.
Proof. intros Hs. induction 1 as [|a b c Hab _ IH]; [apply rtc_refl|]. eapply rtc_l; [by apply Hs|done]. Qed.

Lemma one_tree_effect depth depth' st st' :
  one_tree (S depth) st → event_effect st st' → kept_state st st' → is_Some (ys_in_sequence (yl_stack st')) →
  length (ys_stack (yl_stack st')) = depth' → one_tree depth' st'.
Proof.
  intros [Hok Hd Herr Hdn Hseq Hr Hb] He [Ke Kd] Hseq' Hd'. split; [by eapply effect_ok|done| |congruence|done| |].
  - rewrite Herr in Ke. set_solver.
  - destruct He as [? -> ?|x Hnil ? ? ?|x p np s ? ? ? ? -> ?]; [done| |done]. by rewrite Hnil in Hd.
  - destruct He as [-> _ _|x Hnil _ _ _|x p np s Hst Hp Hx Hh _ _]; [done|by rewrite Hnil in Hd|].
    assert (∀ q c, child (yl_heap st) q c → child (yl_heap st') q c) as Hsub.
    { intros q c H. rewrite Hh. apply child_add; [done..|]. by left. }
    intros i Hi. rewrite Hh, length_insert, length_app in Hi. cbn in Hi.
    destruct (decide (i = length (yl_heap st))) as [->|Hne].
    + eapply rtc_r; [apply (below_sub _ _ _ _ Hsub), (Hb p); by eapply lookup_lt_Some|]. rewrite Hh. apply child_add; [done..|]. by right.
    + apply (below_sub _ _ _ _ Hsub), Hb. lia.
Qed.

Lemma end_kept b st : ys_stack (yl_stack st) ≠ [] → kept_state st (end_collection b st).
Proof. intros H. unfold end_collection, linx_yaml_stack_pop. destruct (ys_stack (yl_stack st)); [done|]. split; [by left|done]. Qed.

Lemma one_tree_end b depth st : one_tree (S depth) st → one_tree depth (end_collection b st).
Proof.
  intros Ht. pose proof (ot_depth _ _ Ht) as Hd. destruct (end_effect b st) as [Hf Hst].
  assert (ys_stack (yl_stack st) ≠ []) as Hne by (by intros E; rewrite E in Hd). eapply one_tree_effect; [done|done|by apply end_kept| |].
  - unfold end_collection, linx_yaml_stack_pop. destruct (ys_stack (yl_stack st)); [done|]. destruct b; [by eexists|apply (ot_seq _ _ Ht)].
  - rewrite Hst. destruct (ys_stack (yl_stack st)); [done|]. by injection Hd.
Qed.

Lemma one_tree_start type b depth st :
  one_tree (S depth) st → ∃ st', start_collection type b st = Ret [] st' ∧ one_tree (S (S depth)) st'.
Proof.
  intros Ht. destruct (start_effect type b st (ot_ok _ _ Ht)) as (st1 & E & Hf & Hk & Hs & Hst). exists st1. split; [done|].
  eapply one_tree_effect; [done..|by rewrite Hs|]. rewrite Hst. cbn. by rewrite (ot_depth _ _ Ht).
Qed.

Lemma one_tree_scalar v depth st :
  one_tree (S depth) st → ∃ st', scalar_event v st = Ret [] st' ∧ one_tree (S depth) st'.
Proof.
  intros Ht. destruct (scalar_effect v st (ot_ok _ _ Ht) (ot_seq _ _ Ht)) as (st1 & E & Hf & Hk & Hs & Hst). exists st1. split; [done|].
  eapply one_tree_effect; [done..|rewrite Hs; apply (ot_seq _ _ Ht)|]. by rewrite Hst, (ot_depth _ _ Ht).
Qed.

Lemma one_tree_next e depth st events :
  one_tree depth st → load_loop (e :: events) st = (st ← load_event e st; load_loop events st).
Proof. intros [_ _ He Hd _ _ _]. cbn [load_loop]. by rewrite Hd, He. Qed.

(** A part of a document comes below what is open. *)
Definition stays (evs : list yaml_event) : Prop := ∀ depth st rest, one_tree (S depth) st →
  ∃ st', load_loop (evs ++ rest) st = load_loop rest st' ∧ one_tree (S depth) st'.

Lemma stays_app evs evs' : stays evs → stays evs' → stays (evs ++ evs').
Proof.
  intros H H' depth st rest Ht. rewrite <- (assoc_L (++)). destruct (H depth st (evs' ++ rest) Ht) as (st1 & -> & Ht1). by apply H'.
Qed.

Lemma stays_flat {A} (f : A → list yaml_event) l : Forall (λ x, stays (f x)) l → stays (flat_map f l).
Proof.
  induction 1 as [|x l Hx _ IH]; [intros depth st rest Ht; by exists st|]. by apply stays_app.
Qed.

Lemma stays_scalar v : stays [YAML_SCALAR_EVENT v].
Proof.
  intros depth st rest Ht. cbn [app]. rewrite (one_tree_next _ _ _ _ Ht). destruct (one_tree_scalar v _ _ Ht) as (st1 & E & Ht1).
  exists st1. cbn [load_event]. by rewrite E, bind_Ret_nil.
Qed.

Lemma stays_collection b evs : stays evs →
  stays ((if b : bool then YAML_SEQUENCE_START_EVENT else YAML_MAPPING_START_EVENT) :: evs
    ++ [if b then YAML_SEQUENCE_END_EVENT else YAML_MAPPING_END_EVENT]).
Proof.
  intros H depth st rest Ht. cbn [app]. rewrite <- (assoc_L (++)), (one_tree_next _ _ _ _ Ht).
  assert (∃ st1, load_event (if b then YAML_SEQUENCE_START_EVENT else YAML_MAPPING_START_EVENT) st = Ret [] st1 ∧ one_tree (S (S depth)) st1)
    as (st1 & -> & Ht1) by (destruct b; by apply one_tree_start).
  rewrite bind_Ret_nil. destruct (H _ _ ([if b then YAML_SEQUENCE_END_EVENT else YAML_MAPPING_END_EVENT] ++ rest) Ht1) as (st2 & -> & Ht2).
  cbn [app]. rewrite (one_tree_next _ _ _ _ Ht2). exists (end_collection b st2). split; [|by apply one_tree_end].
  destruct b; apply bind_ret_l.
Qed.

Lemma stays_document d : stays (events_of d).
Proof.
  induction d as [v|es IH|ds IH] using yaml_rect'.
  - apply stays_scalar.
  - cbn [events_of]. apply (stays_collection false). apply stays_flat. eapply Forall_impl; [exact IH|].
    intros [k d] Hd. exact (stays_app [YAML_SCALAR_EVENT k] (events_of d) (stays_scalar k) Hd).
  - cbn [events_of]. apply (stays_collection true). by apply stays_flat.
Qed.

(** The collection at the top. *)
Lemma one_tree_first type b : ∃ st, start_collection type b loader_init = Ret [] st ∧ one_tree 1 st.
Proof.
  destruct (start_effect type b loader_init init_ok) as (st & E & He & Hk & Hs & Hst). exists st. split; [done|].
  assert (loader_ok st) as Hok by (by eapply effect_ok; [exact init_ok|]). cbn in E. injection E as <-. split; try done.
  cbn. intros [|i]; [intros _; apply rtc_refl|]. cbn. lia.
Qed.

Lemma load_whole_document d :
  is_scalar d = false →
  ∃ st, load_loop (document d) loader_init = Ret [] st ∧ loader_ok st ∧ yl_error st = 0 ∧ yl_root st = Some 0%nat
  ∧ (0 < length (yl_heap st))%nat ∧ ∀ i, (i < length (yl_heap st))%nat → below (yl_heap st) 0%nat i.
Proof.
  intros Hd. unfold document.
  assert (∀ ev, load_loop (YAML_STREAM_START_EVENT :: YAML_DOCUMENT_START_EVENT :: ev) loader_init = load_loop ev loader_init) as ->.
  { intros ev. etransitivity; apply bind_ret_l. }
  assert (∃ b evs, events_of d = (if b : bool then YAML_SEQUENCE_START_EVENT else YAML_MAPPING_START_EVENT) :: evs
    ++ [if b then YAML_SEQUENCE_END_EVENT else YAML_MAPPING_END_EVENT] ∧ stays evs) as (b & evs & -> & Hev).
  { destruct d as [v|es|ds]; [done|exists false|exists true]; eexists; (split; [reflexivity|]).
    - apply stays_flat, Forall_true. intros [k d]. exact (stays_app [YAML_SCALAR_EVENT k] (events_of d) (stays_scalar k) (stays_document d)).
    - apply stays_flat, Forall_true. intros x. apply stays_document. }
  assert (∃ st, (∀ ev, load_loop ((if b then YAML_SEQUENCE_START_EVENT else YAML_MAPPING_START_EVENT) :: ev) loader_init = load_loop ev st) ∧ one_tree 1 st)
    as (st1 & E1 & Ht1).
  { destruct b.
    - destruct (one_tree_first LINX_YAML_NODE_TYPE_SEQUENCE true) as (st & E & Ht). exists st. split; [|done]. intros ev. cbn [load_loop load_event].
      change (yl_done loader_init || negb (yl_error loader_init =? 0)) with false. cbv iota. rewrite E. apply bind_Ret_nil.
    - destruct (one_tree_first LINX_YAML_NODE_TYPE_MAPPING false) as (st & E & Ht). exists st. split; [|done]. intros ev. cbn [load_loop load_event].
      change (yl_done loader_init || negb (yl_error loader_init =? 0)) with false. cbv iota. rewrite E. apply bind_Ret_nil. }
  cbn [app]. rewrite E1, <- (assoc_L (++)). destruct (Hev 0%nat st1 ([if b then YAML_SEQUENCE_END_EVENT else YAML_MAPPING_END_EVENT]
    ++ [YAML_DOCUMENT_END_EVENT; YAML_STREAM_END_EVENT]) Ht1) as (st2 & -> & Ht2).
  cbn [app]. rewrite (one_tree_next _ _ _ _ Ht2). pose proof (one_tree_end b _ _ Ht2) as Ht3. set (st3 := end_collection b st2) in *.
  assert (load_event (if b then YAML_SEQUENCE_END_EVENT else YAML_MAPPING_END_EVENT) st2 = Ret [] st3) as -> by (by destruct b).
  rewrite bind_Ret_nil, (one_tree_next _ _ _ _ Ht3). cbn [load_event]. rewrite bind_ret_l, (one_tree_next _ _ _ _ Ht3). cbn [load_event].
  rewrite bind_ret_l. cbn [load_loop yl_done orb]. eexists. split; [done|]. destruct Ht3 as [[Hf Hs Hr] _ He _ _ Hroot Hb]. cbn.
  split_and!; [by split|done|done|by apply Hr|done].
Qed.

(** ** Theorems *)

(** Whatever the events of the file are, freeing the tree that was loaded
    frees each block of its nodes once, looks into no freed node, and touches
    nothing else; the number of nodes bounds the recursion. *)
Theorem yaml_tree_freed (events : list yaml_event) (w : list fault) (st : loader) (root : nat) :
  load_loop events loader_init = Ret w st → yl_root st = Some root →
  ∃ freed, linx_yaml_node_free (S (length (yl_heap st))) (yl_heap st) root [] = Ret [] freed
  ∧ blocks_where (yl_heap st) (below (yl_heap st) root) freed.
Proof.
  intros H Hr. pose proof (loop_ok _ _ _ _ init_ok H) as [Hf _ Hroot].
  destruct (node_free_tree _ Hf (S (length (yl_heap st))) root (Hroot _ Hr) ltac:(lia) []) as (fs & E & Hb); [set_solver|].
  by exists fs.
Qed.

(** C33: a document leaves nothing behind: whatever is in it, when the tree it
    was loaded to is freed, every block of every node the loader created is
    freed, each once and none after that. *)
Theorem yaml_document_freed (d : yaml) :
  is_scalar d = false →
  ∃ root h freed, linx_yaml_load (Some (document d)) = Ret [] (Some root, h)
  ∧ linx_yaml_node_free (S (length h)) h root [] = Ret [] freed
  ∧ NoDup freed ∧ ∀ b, b ∈ freed ↔ ∃ i, block_of h b i.
Proof.
  intros Hd. destruct (load_whole_document d Hd) as (st & E & [Hf _ _] & Herr & Hroot & Hlen & Hb).
  destruct (node_free_tree _ Hf (S (length (yl_heap st))) 0%nat Hlen ltac:(lia) []) as (fs & Efree & Hnd & Hin); [set_solver|].
  exists 0%nat, (yl_heap st), fs. unfold linx_yaml_load. rewrite E, bind_Ret_nil, Herr, Hroot. split; [done|]. split; [done|].
  split; [done|]. intros b. rewrite Hin. split; intros (i & Hi); [exists i; by apply Hi|]. exists i. split; [|done].
  destruct Hi as (n & Hn & _). apply Hb. by eapply lookup_lt_Some.
Qed.

(** ** Examples *)
Definition freed_doc : yaml := YSeq [YMap [("rule", YScalar "a"); ("tags", YSeq [YMap []; YScalar "b"])]].

Lemma yaml_document_freed_witness :
  ∃ root h freed, linx_yaml_load (Some (document freed_doc)) = Ret [] (Some root, h)
  ∧ linx_yaml_node_free (S (length h)) h root [] = Ret [] freed
  ∧ NoDup freed ∧ ∀ b, b ∈ freed ↔ ∃ i, block_of h b i.
Proof. exact (yaml_document_freed freed_doc eq_refl). Defined.

(** Of a file with two documents the second stays: its nodes hang below
    nothing. *)
Definition two_documents : list yaml_event :=
  [YAML_STREAM_START_EVENT; YAML_DOCUMENT_START_EVENT; YAML_SEQUENCE_START_EVENT; YAML_SEQUENCE_END_EVENT; YAML_DOCUMENT_END_EVENT;
   YAML_DOCUMENT_START_EVENT; YAML_SEQUENCE_START_EVENT; YAML_SCALAR_EVENT "x"; YAML_SEQUENCE_END_EVENT; YAML_DOCUMENT_END_EVENT;
   YAML_STREAM_END_EVENT].

Lemma second_document_stays :
  match linx_yaml_load (Some two_documents) with
  | Ret _ (Some root, h) => length h = 3%nat ∧ linx_yaml_node_free 4 h root [] = Ret [] [BlockNode 0]
  | _ => False
  end.
Proof. vm_compute. done. Qed.

(** A key without a value is freed with the stack. *)
Lemma waiting_key_freed :
  linx_yaml_stack_free (Some (mk_yaml_stack [] 16 (Some "key") (Some false))) [] = [BlockStackArray; BlockCurrentKey; BlockStack].
Proof. done. Qed.
