(* ===== verification/ThreadPool.v ===== *)
(** * The thread pool (userspace/linx_thread/)

    Every critical section of a worker and of a client is one atomic step; a
    thread that waits on a condition variable has no step until the condition
    it tests changes.  The functions are executable; [step] interleaves them,
    and its labels record what happened to which task.  The function of a
    task is a function of the clients: running it takes any number of steps,
    and it may go on for ever.

    A task is a heap block that the queue, the worker that runs it and
    [task_runing] point to, so tasks live in a store and an address is used
    after [free] exactly when it is no longer there.  Calls of pthread and of
    [malloc] succeed. *)
From S2P Require Import Prelude.

#[local] Open Scope Z_scope.

(** ** Data (linx_thread_state.h, linx_thread_info.h, linx_thread_pool.h) *)
Inductive linx_thread_state_t :=
  | LINX_THREAD_STATE_RUNNING
  | LINX_THREAD_STATE_PAUSED
  | LINX_THREAD_STATE_TERMINATING
  | LINX_THREAD_STATE_TERMINATED.

#[export] Instance thread_state_eq_dec : EqDecision linx_thread_state_t.
Proof. solve_decision. Defined.

(** The program counter of a worker, between its critical sections. *)
Inductive worker_pc :=
  | W_start             (* looks for its own entry *)
  | W_found             (* about to set RUNNING *)
  | W_loop              (* the top of the loop *)
  | W_queue             (* about to look at the queue *)
  | W_run (t : nat)     (* has taken [t] *)
  | W_finish (t : nat)  (* has run [t] *)
  | W_leave             (* has left the loop *)
  | W_count             (* about to count itself out *)
  | W_exit              (* has returned *)
  | W_gone.             (* has returned without finding its entry *)

#[export] Instance worker_pc_eq_dec : EqDecision worker_pc.
Proof. solve_decision. Defined.

Section pool.
Context {F A : Type}.

Record linx_task_t := mk_task {
  tk_func : F;
  tk_arg : A;
  tk_should_stop : Z
}.

(** The queue is the list of addresses from [task_queue_head] to
    [task_queue_tail].  [task_runing] is indeterminate in a new pool.
    [tp_tasks] is the memory behind the addresses, [tp_fresh] the next
    address [malloc] returns. *)
Record linx_thread_pool_t := mk_pool {
  tp_threads : list linx_thread_state_t;
  tp_queue : list nat;
  tp_task_runing : option (option nat);
  tp_thread_count : Z;
  tp_active_threads : Z;
  tp_queue_size : Z;
  tp_shutdown : Z;
  tp_tasks : gmap nat linx_task_t;
  tp_fresh : nat
}.

Definition with_threads (f : list linx_thread_state_t → list linx_thread_state_t) (p : linx_thread_pool_t) :=
  mk_pool (f (tp_threads p)) (tp_queue p) (tp_task_runing p) (tp_thread_count p) (tp_active_threads p)
    (tp_queue_size p) (tp_shutdown p) (tp_tasks p) (tp_fresh p).

(** ** Creation; [cpus] is what [sysconf] returns. *)
Definition linx_thread_pool_create (cpus num_threads : Z) : linx_thread_pool_t :=
  let n := if num_threads <=? 0 then (if cpus <=? 0 then 1 else cpus) else num_threads in
  mk_pool (replicate (Z.to_nat n) LINX_THREAD_STATE_RUNNING) [] None n n 0 0 ∅ 0.

(** ** Operations of the clients; a pool is [None] for a null pointer. *)
Definition linx_thread_pool_add_task (pool : option linx_thread_pool_t) (func : option F) (arg : A)
    : Z * option linx_thread_pool_t :=
  match pool, func with
  | Some p, Some func =>
      if negb (tp_shutdown p =? 0) then (-1, pool)
      else
        let t := tp_fresh p in
        (0, Some (mk_pool (tp_threads p) (tp_queue p ++ [t]) (tp_task_runing p) (tp_thread_count p)
                    (tp_active_threads p) (sext 32 (tp_queue_size p + 1)) (tp_shutdown p)
                    (<[t := mk_task func arg 0]> (tp_tasks p)) (S t)))
  | _, _ => (-1, pool)
  end.

(** The three operations on the state of one thread. *)
Definition on_thread (f : linx_thread_state_t → linx_thread_state_t) (pool : option linx_thread_pool_t)
    (thread_index : Z) : Z * option linx_thread_pool_t :=
  match pool with
  | None => (-1, pool)
  | Some p =>
      if (thread_index <? 0) || (tp_thread_count p <=? thread_index) then (-1, pool)
      else (0, Some (with_threads (alter f (Z.to_nat thread_index)) p))
  end.

Definition linx_thread_pool_pause_thread := on_thread (λ st,
  match st with LINX_THREAD_STATE_RUNNING => LINX_THREAD_STATE_PAUSED | _ => st end).
Definition linx_thread_pool_resume_thread := on_thread (λ st,
  match st with LINX_THREAD_STATE_PAUSED => LINX_THREAD_STATE_RUNNING | _ => st end).
Definition linx_thread_pool_terminate_thread := on_thread (λ st,
  match st with
  | LINX_THREAD_STATE_RUNNING | LINX_THREAD_STATE_PAUSED => LINX_THREAD_STATE_TERMINATING
  | _ => st
  end).

(** [inl (-1)] for the error. *)
Definition linx_thread_pool_get_thread_state (pool : option linx_thread_pool_t) (thread_index : Z)
    : outcome (Z + linx_thread_state_t) :=
  match pool with
  | None => mret (inl (-1))
  | Some p =>
      if (thread_index <? 0) || (tp_thread_count p <=? thread_index) then mret (inl (-1))
      else st ← from_opt OutOfBounds (tp_threads p !! Z.to_nat thread_index); mret (inr st)
  end.

Definition linx_thread_pool_get_queue_size (pool : option linx_thread_pool_t) : Z :=
  match pool with None => -1 | Some p => tp_queue_size p end.

(** The count of all threads, whatever their state. *)
Definition linx_thread_pool_get_active_threads (pool : option linx_thread_pool_t) : Z :=
  match pool with None => -1 | Some p => tp_thread_count p end.

(** ** The parts of [linx_thread_pool_destroy] *)
Definition set_stop (stop : Z) (t : linx_task_t) : linx_task_t := mk_task (tk_func t) (tk_arg t) stop.

(** Writing [task->should_stop] through a pointer. *)
Definition mark_task (stop : Z) (t : nat) (tasks : gmap nat linx_task_t) : outcome (gmap nat linx_task_t) :=
  task ← from_opt BadAddress (tasks !! t); mret (<[t := set_stop stop task]> tasks).

Fixpoint mark_queue (stop : Z) (queue : list nat) (tasks : gmap nat linx_task_t)
    : outcome (gmap nat linx_task_t) :=
  match queue with
  | [] => mret tasks
  | t :: queue' => tasks ← mark_task stop t tasks; mark_queue stop queue' tasks
  end.

(** Up to the release of the lock. *)
Definition destroy_begin (pool : option linx_thread_pool_t) (graceful : Z)
    : outcome (Z * option linx_thread_pool_t) :=
  match pool with
  | None => mret (-1, pool)
  | Some p =>
      if negb (tp_shutdown p =? 0) then mret (-1, pool)
      else
        let shutdown := if negb (graceful =? 0) then 1 else 2 in
        tasks ← mark_queue shutdown (tp_queue p) (tp_tasks p);
        task ← init_or_ub (tp_task_runing p);
        tasks ← match task with None => mret tasks | Some t => mark_task shutdown t tasks end;
        mret (0, Some (mk_pool (tp_threads p) (tp_queue p) (tp_task_runing p) (tp_thread_count p)
                         (tp_active_threads p) (tp_queue_size p) shutdown tasks (tp_fresh p)))
  end.

Definition terminating (st : linx_thread_state_t) : linx_thread_state_t :=
  match st with LINX_THREAD_STATE_TERMINATED => st | _ => LINX_THREAD_STATE_TERMINATING end.

(** ** Workers *)
Inductive label :=
  | Silent
  | Added (t : nat) (func : F) (arg : A)
  | Picked (t : nat)
  | Pass (t : nat)
  | Ran (t : nat) (func : F) (arg : A) (should_stop : Z)
  | Freed (t : nat)
  | Shutdown (graceful : Z)
  | Dropped (ts : list nat).

Definition set_thread (i : nat) (st : linx_thread_state_t) := with_threads (alter (λ _, st) i).

(** The next step of worker [i], [None] while it waits.  [found] tells
    whether the loop finds the thread's own entry: POSIX lets a thread start
    before [pthread_create] has stored its identifier.  The function of a task
    is any function of the clients, with loops among them: [returns] tells
    whether it returns now, having read [*should_stop], or goes on ([Pass]),
    as often and as long as it likes. *)
Definition linx_thread_worker (i : nat) (found returns : bool) (pc : worker_pc) (p : linx_thread_pool_t)
    : outcome (option (label * worker_pc * linx_thread_pool_t)) :=
  match pc with
  | W_start => mret (Some (Silent, if found then W_found else W_gone, p))
  | W_found => mret (Some (Silent, W_loop, set_thread i LINX_THREAD_STATE_RUNNING p))
  | W_loop =>
      st ← from_opt OutOfBounds (tp_threads p !! i);
      match st with
      | LINX_THREAD_STATE_PAUSED => mret None
      | LINX_THREAD_STATE_TERMINATING => mret (Some (Silent, W_leave, p))
      | _ => mret (Some (Silent, W_queue, p))
      end
  | W_queue =>
      if (tp_queue_size p =? 0) && (tp_shutdown p =? 0) then mret None
      else if (tp_shutdown p =? 2) || ((tp_shutdown p =? 1) && (tp_queue_size p =? 0))
      then mret (Some (Silent, W_leave, p))
      else
        match tp_queue p with
        | [] => mret (Some (Silent, W_loop, p))
        | t :: queue =>
            _ ← from_opt BadAddress (tp_tasks p !! t);
            mret (Some (Picked t, W_run t,
              mk_pool (tp_threads p) queue (Some (Some t)) (tp_thread_count p) (tp_active_threads p)
                (sext 32 (tp_queue_size p - 1)) (tp_shutdown p) (tp_tasks p) (tp_fresh p)))
        end
  | W_run t =>
      task ← from_opt BadAddress (tp_tasks p !! t);
      if returns
      then mret (Some (Ran t (tk_func task) (tk_arg task) (tk_should_stop task), W_finish t, p))
      else mret (Some (Pass t, W_run t, p))
  | W_finish t =>
      _ ← from_opt BadAddress (tp_tasks p !! t);
      mret (Some (Freed t, W_loop,
        mk_pool (tp_threads p) (tp_queue p) (Some None) (tp_thread_count p) (tp_active_threads p)
          (tp_queue_size p) (tp_shutdown p) (delete t (tp_tasks p)) (tp_fresh p)))
  | W_leave => mret (Some (Silent, W_count, set_thread i LINX_THREAD_STATE_TERMINATED p))
  | W_count =>
      mret (Some (Silent, W_exit,
        mk_pool (tp_threads p) (tp_queue p) (tp_task_runing p) (tp_thread_count p)
          (sext 32 (tp_active_threads p - 1)) (tp_queue_size p) (tp_shutdown p) (tp_tasks p) (tp_fresh p)))
  | W_exit | W_gone => mret None
  end.

(** ** Executions *)
Inductive destroy_pc :=
  | D_idle
  | D_mark (i : nat)    (* notifying thread [i] *)
  | D_join (i : nat)    (* joining thread [i] *)
  | D_done.

(** The pool is gone once it is freed. *)
Record sys := mk_sys {
  sy_pool : option linx_thread_pool_t;
  sy_workers : list worker_pc;
  sy_destroy : destroy_pc
}.

Definition init (cpus num_threads : Z) : sys :=
  let p := linx_thread_pool_create cpus num_threads in
  mk_sys (Some p) (replicate (length (tp_threads p)) W_start) D_idle.

Definition exited (pc : worker_pc) : Prop := pc = W_exit ∨ pc = W_gone.

(** One step; the queue stays shorter than the [int] that counts it. *)
Inductive step : sys → label → sys → Prop :=
  | step_worker i found returns pc p ws d l pc' p' :
      ws !! i = Some pc →
      linx_thread_worker i found returns pc p = Ret [] (Some (l, pc', p')) →
      step (mk_sys (Some p) ws d) l (mk_sys (Some p') (<[i := pc']> ws) d)
  | step_add func arg p ws d p' :
      Z.of_nat (length (tp_queue p)) < 2 ^ 31 - 1 →
      linx_thread_pool_add_task (Some p) (Some func) arg = (0, Some p') →
      step (mk_sys (Some p) ws d) (Added (tp_fresh p) func arg) (mk_sys (Some p') ws d)
  | step_pause i p ws d r p' :
      linx_thread_pool_pause_thread (Some p) i = (r, Some p') →
      step (mk_sys (Some p) ws d) Silent (mk_sys (Some p') ws d)
  | step_resume i p ws d r p' :
      linx_thread_pool_resume_thread (Some p) i = (r, Some p') →
      step (mk_sys (Some p) ws d) Silent (mk_sys (Some p') ws d)
  | step_terminate i p ws d r p' :
      linx_thread_pool_terminate_thread (Some p) i = (r, Some p') →
      step (mk_sys (Some p) ws d) Silent (mk_sys (Some p') ws d)
  | step_destroy graceful p ws p' :
      destroy_begin (Some p) graceful = Ret [] (0, Some p') →
      step (mk_sys (Some p) ws D_idle) (Shutdown graceful) (mk_sys (Some p') ws (D_mark 0))
  | step_mark i p ws :
      Z.of_nat i < tp_thread_count p →
      step (mk_sys (Some p) ws (D_mark i)) Silent
        (mk_sys (Some (with_threads (alter terminating i) p)) ws (D_mark (S i)))
  | step_marked i p ws :
      tp_thread_count p ≤ Z.of_nat i →
      step (mk_sys (Some p) ws (D_mark i)) Silent (mk_sys (Some p) ws (D_join 0))
  | step_join i pc p ws :
      Z.of_nat i < tp_thread_count p → ws !! i = Some pc → exited pc →
      step (mk_sys (Some p) ws (D_join i)) Silent (mk_sys (Some p) ws (D_join (S i)))
  | step_free i p ws :
      tp_thread_count p ≤ Z.of_nat i →
      step (mk_sys (Some p) ws (D_join i)) (Dropped (tp_queue p)) (mk_sys None ws D_done).

Inductive steps (s0 : sys) : list label → sys → Prop :=
  | steps_nil : steps s0 [] s0
  | steps_snoc tr s l s' : steps s0 tr s → step s l s' → steps s0 (tr ++ [l]) s'.

(** What a trace records. *)
Definition added_of (l : label) : list nat := match l with Added t _ _ => [t] | _ => [] end.
Definition picked_of (l : label) : list nat := match l with Picked t => [t] | _ => [] end.
Definition passes_of (l : label) : list nat := match l with Pass t => [t] | _ => [] end.
Definition ran_of (l : label) : list nat := match l with Ran t _ _ _ => [t] | _ => [] end.
Definition freed_of (l : label) : list nat := match l with Freed t => [t] | _ => [] end.
Definition dropped_of (l : label) : list nat := match l with Dropped ts => ts | _ => [] end.

(** ** The invariant *)

(** The task a worker holds. *)
Definition held_by (pc : worker_pc) : list nat :=
  match pc with W_run t | W_finish t => [t] | _ => [] end.
Definition to_run (pc : worker_pc) : list nat := match pc with W_run t => [t] | _ => [] end.

Definition held (ws : list worker_pc) : list nat := ws ≫= held_by.

Definition queue_of (s : sys) : list nat := match sy_pool s with Some p => tp_queue p | None => [] end.

Record pool_inv (p : linx_thread_pool_t) (ws : list worker_pc) : Prop := {
  pi_size : tp_queue_size p = Z.of_nat (length (tp_queue p));
  pi_shutdown : tp_shutdown p = 0 ∨ tp_shutdown p = 1 ∨ tp_shutdown p = 2;
  pi_bound : Z.of_nat (length (tp_queue p)) < 2 ^ 31;
  pi_threads : length (tp_threads p) = length ws;
  pi_count : tp_thread_count p = Z.of_nat (length ws);
  pi_nodup : NoDup (tp_queue p ++ held ws);
  pi_tasks : ∀ t, is_Some (tp_tasks p !! t) ↔ t ∈ tp_queue p ++ held ws;
  pi_fresh : ∀ t, t ∈ tp_queue p ++ held ws → (t < tp_fresh p)%nat;
  pi_runing : ∀ t, tp_task_runing p = Some (Some t) → t ∈ held ws;
  pi_unset : tp_task_runing p = None → held ws = [];
  pi_stop : tp_shutdown p ≠ 0 → ∀ t task, t ∈ tp_queue p → tp_tasks p !! t = Some task →
              tk_should_stop task = tp_shutdown p
}.

Lemma held_insert ws i pc pc' :
  ws !! i = Some pc → held ws ≡ₚ held_by pc ++ held (delete i ws)
                      ∧ held (<[i := pc']> ws) ≡ₚ held_by pc' ++ held (delete i ws).
Proof.
  intros Hi. unfold held. split.
  - rewrite <- (take_drop_middle ws i pc Hi) at 1. rewrite delete_take_drop.
    rewrite !bind_app, bind_cons. rewrite !app_assoc. f_equiv. by rewrite Permutation_app_comm.
  - rewrite insert_take_drop by (by eapply lookup_lt_Some). rewrite delete_take_drop.
    rewrite !bind_app, bind_cons. rewrite !app_assoc. f_equiv. by rewrite Permutation_app_comm.
Qed.

Lemma held_same ws i pc pc' :
  ws !! i = Some pc → held_by pc' = held_by pc → held (<[i := pc']> ws) ≡ₚ held ws.
Proof. intros Hi Hh. destruct (held_insert ws i pc pc' Hi) as [H1 H2]. by rewrite H2, H1, Hh. Qed.

Lemma pool_inv_held p ws ws' :
  pool_inv p ws → held ws' ≡ₚ held ws → length ws' = length ws → pool_inv p ws'.
Proof.
  intros [] Hh Hl. split; try done; try congruence.
  - by rewrite Hh.
  - intros t. rewrite Hh. auto.
  - intros t. rewrite Hh. auto.
  - intros t. rewrite Hh. auto.
  - intros Hr. apply Permutation_nil. rewrite <- (pi_unset0 Hr). by symmetry.
Qed.

Lemma pool_inv_threads f p ws :
  (∀ l, length (f l) = length l) → pool_inv p ws → pool_inv (with_threads f p) ws.
Proof. intros Hf []. split; cbn; try done. by rewrite Hf. Qed.

Lemma pool_inv_add func arg p ws p' :
  pool_inv p ws → Z.of_nat (length (tp_queue p)) < 2 ^ 31 - 1 →
  linx_thread_pool_add_task (Some p) (Some func) arg = (0, Some p') →
  pool_inv p' ws ∧ tp_queue p' = tp_queue p ++ [tp_fresh p] ∧ tp_shutdown p' = tp_shutdown p
  ∧ tp_tasks p' = <[tp_fresh p := mk_task func arg 0]> (tp_tasks p) ∧ tp_task_runing p' = tp_task_runing p
  ∧ tp_fresh p' = S (tp_fresh p).
Proof.
  intros [] Hb. unfold linx_thread_pool_add_task. destruct (Z.eqb_spec (tp_shutdown p) 0) as [Hs|]; [|done].
  intros [= <-]. split; [|done].
  assert (Hf : tp_fresh p ∉ tp_queue p ++ held ws) by (intros H; apply pi_fresh0 in H; lia).
  assert (HP : (tp_queue p ++ [tp_fresh p]) ++ held ws ≡ₚ tp_fresh p :: tp_queue p ++ held ws).
  { rewrite <- app_assoc. symmetry. apply Permutation_middle. }
  split; cbn; try done.
  - rewrite length_app, pi_size0, sext_small by (cbn; lia). cbn. lia.
  - rewrite length_app. cbn. lia.
  - rewrite HP. by constructor.
  - intros t. rewrite HP, elem_of_cons, <- pi_tasks0. destruct (decide (t = tp_fresh p)) as [->|Hne].
    + rewrite lookup_insert_eq. split; eauto.
    + rewrite lookup_insert_ne by done. naive_solver.
  - intros t. rewrite HP, elem_of_cons. intros [->|H]; [lia|]. apply pi_fresh0 in H. lia.
Qed.

Lemma mark_queue_spec stop queue tasks :
  (∀ t, t ∈ queue → is_Some (tasks !! t)) →
  ∃ tasks', mark_queue stop queue tasks = Ret [] tasks'
    ∧ ∀ t, tasks' !! t = (if bool_decide (t ∈ queue) then set_stop stop <$> tasks !! t else tasks !! t).
Proof.
  revert tasks. induction queue as [|q queue IH]; intros tasks Hq; [by exists tasks|].
  cbn [mark_queue]. destruct (Hq q) as [task Ht]; [left|]. unfold mark_task. rewrite Ht. cbn [from_opt].
  rewrite !bind_ret_l. destruct (IH (<[q := set_stop stop task]> tasks)) as (tasks' & -> & Hm).
  - intros t Hin. destruct (decide (t = q)) as [->|]; [by rewrite lookup_insert_eq|].
    rewrite lookup_insert_ne by done. apply Hq. by right.
  - exists tasks'. split; [done|]. intros t. rewrite Hm. destruct (decide (t = q)) as [->|Hne].
    + rewrite lookup_insert_eq, Ht, (bool_decide_eq_true_2 (q ∈ q :: queue)) by left. by destruct (bool_decide _).
    + rewrite lookup_insert_ne by done. apply eq_trans with (if bool_decide (t ∈ queue)
        then set_stop stop <$> tasks !! t else tasks !! t); [done|].
      by rewrite (bool_decide_ext (t ∈ q :: queue) (t ∈ queue)) by (rewrite elem_of_cons; naive_solver).
Qed.

Lemma destroy_begin_spec p ws graceful :
  pool_inv p ws → tp_shutdown p = 0 →
  match tp_task_runing p with
  | None => destroy_begin (Some p) graceful = Ub UninitRead
  | Some _ => ∃ p', destroy_begin (Some p) graceful = Ret [] (0, Some p')
      ∧ pool_inv p' ws ∧ tp_queue p' = tp_queue p ∧ tp_shutdown p' = (if graceful =? 0 then 2 else 1)
      ∧ (∀ t, tk_func <$> tp_tasks p' !! t = tk_func <$> tp_tasks p !! t)
      ∧ (∀ t, tk_arg <$> tp_tasks p' !! t = tk_arg <$> tp_tasks p !! t)
      ∧ tp_task_runing p' = tp_task_runing p ∧ tp_fresh p' = tp_fresh p
  end.
Proof.
  intros [] Hs. unfold destroy_begin. rewrite Hs. cbn [Z.eqb negb].
  set (stop := if negb (graceful =? 0) then 1 else 2).
  assert (Hstop : stop = (if graceful =? 0 then 2 else 1)) by (unfold stop; by destruct (graceful =? 0)).
  destruct (mark_queue_spec stop (tp_queue p) (tp_tasks p)) as (m & -> & Hm).
  { intros t Ht. apply pi_tasks0. set_solver. }
  rewrite bind_Ret_nil. destruct (tp_task_runing p) as [r|] eqn:Er; [|done]. cbn [init_or_ub]. rewrite bind_ret_l.
  assert (∃ m', (match r with None => mret m | Some t => mark_task stop t m end) = Ret [] m'
    ∧ ∀ t, m' !! t = (if bool_decide (t ∈ tp_queue p ∨ r = Some t) then set_stop stop <$> tp_tasks p !! t
                      else tp_tasks p !! t)) as (m' & -> & Hm').
  { destruct r as [t0|].
    - assert (Hin : t0 ∈ held ws) by auto. assert (is_Some (tp_tasks p !! t0)) as [task Ht0] by (apply pi_tasks0; set_solver).
      assert (Hnq : t0 ∉ tp_queue p) by (intros Hq; apply NoDup_app in pi_nodup0 as (_ & Hd & _); by apply (Hd t0)).
      unfold mark_task. rewrite Hm, bool_decide_eq_false_2, Ht0 by done. cbn [from_opt]. rewrite bind_ret_l.
      eexists. split; [done|]. intros t. destruct (decide (t = t0)) as [->|Hne].
      + by rewrite lookup_insert_eq, bool_decide_eq_true_2, Ht0 by (by right).
      + rewrite lookup_insert_ne, Hm by done.
        by rewrite (bool_decide_ext (t ∈ tp_queue p ∨ Some t0 = Some t) (t ∈ tp_queue p)) by naive_solver.
    - exists m. split; [done|]. intros t. rewrite Hm.
      by rewrite (bool_decide_ext (t ∈ tp_queue p ∨ None = Some t) (t ∈ tp_queue p)) by naive_solver. }
  rewrite bind_Ret_nil. eexists. split; [done|]. split.
  - split; cbn; try done.
    + rewrite Hstop. destruct (graceful =? 0); auto.
    + intros t. rewrite <- pi_tasks0, Hm'. case_bool_decide; [|done]. by rewrite fmap_is_Some.
    + intros _ t task Hq. rewrite Hm', bool_decide_eq_true_2 by (by left).
      intros (task0 & _ & ->)%fmap_Some. done.
  - cbn. split; [done|]. split; [done|]. split; [|split; [|done]];
      intros t; rewrite Hm'; (case_bool_decide; [|done]); by rewrite <- option_fmap_compose.
Qed.

(** What a step of a worker does besides keeping the invariant. *)
Record worker_effect (pc : worker_pc) (p : linx_thread_pool_t) (l : label) (pc' : worker_pc)
    (p' : linx_thread_pool_t) : Prop := {
  we_shutdown : tp_shutdown p' = tp_shutdown p;
  we_count : tp_thread_count p' = tp_thread_count p;
  we_queue : tp_queue p = picked_of l ++ tp_queue p';
  we_others : added_of l = [] ∧ dropped_of l = [];
  we_run : to_run pc ++ picked_of l = ran_of l ++ to_run pc';
  we_ran : ∀ t f a stop, l = Ran t f a stop → tp_tasks p !! t = Some (mk_task f a stop);
  we_tasks : ∀ t task, tp_tasks p' !! t = Some task → tp_tasks p !! t = Some task;
  we_running : ¬ exited pc;
  we_fresh : tp_fresh p' = tp_fresh p;
  we_slot : tp_task_runing p' = None → picked_of l = [] ∧ tp_task_runing p = None
}.

Definition worker_ok (i : nat) (pc : worker_pc) (p : linx_thread_pool_t) (ws : list worker_pc)
    (o : outcome (option (label * worker_pc * linx_thread_pool_t))) : Prop :=
  ∃ r, o = Ret [] r ∧ match r with
    | None => True
    | Some (l, pc', p') => pool_inv p' (<[i := pc']> ws) ∧ worker_effect pc p l pc' p'
    end.

(** A step that moves the program counter and at most a thread state. *)
Lemma worker_ok_move i pc pc' p ws f :
  pool_inv p ws → ws !! i = Some pc → (∀ l, length (f l) = length l) →
  held_by pc' = held_by pc → to_run pc' = to_run pc → ¬ exited pc →
  worker_ok i pc p ws (mret (Some (Silent, pc', with_threads f p))).
Proof.
  intros HI Hi Hf Hh Hr Hx. eexists. split; [done|]. split.
  - apply pool_inv_threads; [done|]. eapply pool_inv_held; [done|by eapply held_same|by rewrite length_insert].
  - split; cbn; try done. by rewrite Hr, app_nil_r.
Qed.

Lemma with_threads_id p : with_threads id p = p.
Proof. by destruct p. Qed.

Lemma worker_ok_pick i p ws t q :
  pool_inv p ws → ws !! i = Some W_queue → tp_queue p = t :: q →
  pool_inv (mk_pool (tp_threads p) q (Some (Some t)) (tp_thread_count p) (tp_active_threads p)
    (sext 32 (tp_queue_size p - 1)) (tp_shutdown p) (tp_tasks p) (tp_fresh p)) (<[i := W_run t]> ws).
Proof.
  intros [] Hi Hq. destruct (held_insert ws i _ (W_run t) Hi) as [H1 H2]. cbn [held_by app] in H1, H2.
  assert (HP : q ++ held (<[i := W_run t]> ws) ≡ₚ tp_queue p ++ held ws).
  { rewrite H2, Hq, H1. symmetry. apply Permutation_middle. }
  rewrite Hq in pi_size0, pi_bound0. cbn [length] in *. split; cbn; try done.
  - rewrite pi_size0, sext_small by (cbn; lia). lia.
  - lia.
  - by rewrite length_insert.
  - by rewrite length_insert.
  - by rewrite HP.
  - intros t'. by rewrite HP.
  - intros t'. rewrite HP. auto.
  - intros t' [= <-]. rewrite H2. by left.
  - intros Hs t' task Ht. apply pi_stop0; [done|]. rewrite Hq. by right.
Qed.

Lemma worker_ok_finish i p ws t :
  pool_inv p ws → ws !! i = Some (W_finish t) →
  pool_inv (mk_pool (tp_threads p) (tp_queue p) (Some None) (tp_thread_count p) (tp_active_threads p)
    (tp_queue_size p) (tp_shutdown p) (delete t (tp_tasks p)) (tp_fresh p)) (<[i := W_loop]> ws).
Proof.
  intros [] Hi. destruct (held_insert ws i _ W_loop Hi) as [H1 H2]. cbn [held_by app] in H1, H2.
  assert (HP : tp_queue p ++ held ws ≡ₚ t :: tp_queue p ++ held (<[i := W_loop]> ws)).
  { rewrite H1, H2. symmetry. apply Permutation_middle. }
  rewrite HP in pi_nodup0. apply NoDup_cons in pi_nodup0 as [Hn Hnd].
  split; cbn; try done.
  - by rewrite length_insert.
  - by rewrite length_insert.
  - intros t'. destruct (decide (t' = t)) as [->|Hne].
    + rewrite lookup_delete_eq. split; [by intros []|done].
    + rewrite lookup_delete_ne, pi_tasks0, HP, elem_of_cons by done. naive_solver.
  - intros t' Ht'. apply pi_fresh0. rewrite HP. by right.
  - intros Hs t' task Ht. rewrite lookup_delete_Some. intros [_ ?]. by eapply pi_stop0.
Qed.

Lemma worker_step_ok i found returns pc p ws :
  pool_inv p ws → ws !! i = Some pc → worker_ok i pc p ws (linx_thread_worker i found returns pc p).
Proof.
  intros HI Hi. assert (Hmove : ∀ pc', held_by pc' = held_by pc → to_run pc' = to_run pc → ¬ exited pc →
    worker_ok i pc p ws (mret (Some (Silent, pc', p)))).
  { intros. rewrite <- (with_threads_id p) at 2. by apply worker_ok_move. }
  assert (Hidle : worker_ok i pc p ws (mret None)) by (by exists None).
  assert (Htask : ∀ t, held_by pc = [t] → ∃ task, tp_tasks p !! t = Some task).
  { intros t Ht. apply (pi_tasks _ _ HI). apply elem_of_app. right. destruct (held_insert ws i pc pc Hi) as [-> _].
    rewrite Ht. by left. }
  unfold linx_thread_worker. destruct pc as [| | | |t|t| | | |].
  - destruct found; apply Hmove; try done; by intros [?|?].
  - apply worker_ok_move; try done; [|by intros [?|?]]. intros l. by rewrite length_alter.
  - assert (is_Some (tp_threads p !! i)) as [st ->].
    { apply lookup_lt_is_Some. rewrite (pi_threads _ _ HI). by eapply lookup_lt_Some. }
    cbn [from_opt]. rewrite bind_ret_l. destruct st; try done; apply Hmove; try done; by intros [?|?].
  - destruct (_ && _); [done|]. destruct (_ || _); [apply Hmove; try done; by intros [?|?]|].
    destruct (tp_queue p) as [|t q] eqn:Hq; [apply Hmove; try done; by intros [?|?]|].
    assert (is_Some (tp_tasks p !! t)) as [task ->] by (apply (pi_tasks _ _ HI); rewrite Hq; left).
    cbn [from_opt]. rewrite bind_ret_l. eexists. split; [done|]. split; [by apply worker_ok_pick|].
    split; cbn; try done. by intros [?|?].
  - destruct (Htask t eq_refl) as [task Ht]. rewrite Ht. cbn [from_opt]. rewrite bind_ret_l.
    destruct returns; (eexists; split; [done|]; split;
      [eapply pool_inv_held; [done|by eapply held_same|by rewrite length_insert]|]);
      (split; cbn; try done; try by intros [?|?]). intros ???? [= <- <- <- <-]. rewrite Ht. by destruct task.
  - destruct (Htask t eq_refl) as [task Ht]. rewrite Ht. cbn [from_opt]. rewrite bind_ret_l.
    eexists. split; [done|]. split; [by apply worker_ok_finish|].
    split; cbn; try done; [|by intros [?|?]]. intros t' task'. rewrite lookup_delete_Some. by intros [_ ?].
  - apply worker_ok_move; try done; [|by intros [?|?]]. intros l. by rewrite length_alter.
  - eexists. split; [done|]. split; [|split; cbn; try done; by intros [?|?]].
    destruct (pool_inv_held p ws (<[i := W_exit]> ws) HI) as []; [by eapply held_same|by rewrite length_insert|].
    by split.
  - done.
  - done.
Qed.

(** ** Reachable states *)
Record trace_inv (tr : list label) (s : sys) : Prop := {
  ti_fifo : tr ≫= added_of = (tr ≫= picked_of) ++ (tr ≫= dropped_of) ++ queue_of s;
  ti_run : tr ≫= picked_of ≡ₚ (tr ≫= ran_of) ++ (sy_workers s ≫= to_run);
  ti_nodup : NoDup (tr ≫= added_of);
  ti_ran : ∀ t f a stop, Ran t f a stop ∈ tr → Added t f a ∈ tr
}.

Definition sys_inv (tr : list label) (s : sys) : Prop :=
  trace_inv tr s ∧
  match sy_pool s with
  | Some p =>
      pool_inv p (sy_workers s) ∧ tr ≫= dropped_of = []
      ∧ (∀ t task, tp_tasks p !! t = Some task → Added t (tk_func task) (tk_arg task) ∈ tr)
      ∧ (∀ t, t ∈ tr ≫= added_of → (t < tp_fresh p)%nat)
      ∧ (tp_task_runing p = None → tr ≫= picked_of = [])
      ∧ match sy_destroy s with
        | D_idle => tp_shutdown p = 0
        | D_mark _ => tp_shutdown p ≠ 0
        | D_join i => tp_shutdown p ≠ 0 ∧ ∀ j pc, (j < i)%nat → sy_workers s !! j = Some pc → exited pc
        | D_done => False
        end
  | None => sy_destroy s = D_done ∧ ∀ j pc, sy_workers s !! j = Some pc → exited pc
  end.

Lemma on_thread_inv f p i r p' :
  on_thread f (Some p) i = (r, Some p') → p' = with_threads (if r =? 0 then alter f (Z.to_nat i) else id) p.
Proof.
  unfold on_thread. destruct (_ || _); intros [= <- <-]; [|done]. cbn. symmetry. apply with_threads_id.
Qed.

(** A step that changes nothing but thread states. *)
Lemma sys_inv_threads tr p ws d f d' :
  (∀ l, length (f l) = length l) → sys_inv tr (mk_sys (Some p) ws d) →
  match d' with
  | D_idle => tp_shutdown p = 0
  | D_mark _ => tp_shutdown p ≠ 0
  | D_join i => tp_shutdown p ≠ 0 ∧ ∀ j pc, (j < i)%nat → ws !! j = Some pc → exited pc
  | D_done => False
  end →
  sys_inv (tr ++ [Silent]) (mk_sys (Some (with_threads f p)) ws d').
Proof.
  intros Hf ([T1 T2 T3 T4] & HI & H0 & H1 & H2 & H3 & _) Hd. split.
  - split; cbn in *; rewrite ?bind_app; cbn; rewrite ?app_nil_r; try done.
    intros t a b c [H|H%list_elem_of_singleton]%elem_of_app; [|done]. apply elem_of_app. left. by eapply T4.
  - cbn in *. split; [by apply pool_inv_threads|]. rewrite !bind_app. cbn. rewrite !app_nil_r.
    split; [done|]. split; [|done]. intros t task Ht. apply elem_of_app. left. by apply H1.
Qed.

Lemma sys_inv_worker tr i pc p ws d l pc' p' :
  sys_inv tr (mk_sys (Some p) ws d) → ws !! i = Some pc →
  pool_inv p' (<[i := pc']> ws) → worker_effect pc p l pc' p' →
  sys_inv (tr ++ [l]) (mk_sys (Some p') (<[i := pc']> ws) d).
Proof.
  intros ([T1 T2 T3 T4] & HI & H0 & H1 & H2 & H3 & Hd) Hi HI' [].
  destruct we_others0 as [Ha Hr]. assert (Hi' := lookup_lt_Some _ _ _ Hi).
  assert (Hrun : (ws ≫= to_run) ++ picked_of l ≡ₚ ran_of l ++ (<[i := pc']> ws ≫= to_run)).
  { rewrite insert_take_drop by done. rewrite <- (take_drop_middle ws i pc Hi) at 1.
    rewrite !bind_app, !bind_cons. set (u := take i ws ≫= to_run). set (v := drop (S i) ws ≫= to_run).
    transitivity (u ++ v ++ (to_run pc ++ picked_of l)); [solve_Permutation|].
    rewrite we_run0. solve_Permutation. }
  split; [split|]; cbn [sy_workers sy_pool sy_destroy queue_of] in *.
  - rewrite !bind_app. cbn. rewrite Ha, Hr, !app_nil_r, T1, H0. unfold queue_of. cbn. rewrite we_queue0.
    by rewrite <- !app_assoc.
  - rewrite !bind_app. cbn. rewrite !app_nil_r, T2, <- app_assoc, Hrun. by rewrite app_assoc.
  - rewrite bind_app. cbn. by rewrite Ha, !app_nil_r.
  - intros t a b c [H|H%list_elem_of_singleton]%elem_of_app; apply elem_of_app; left; [by eapply T4|].
    symmetry in H. apply we_ran0 in H. exact (H1 _ _ H).
  - split; [done|]. rewrite !bind_app. cbn. rewrite Ha, Hr, !app_nil_r.
    split; [done|]. split; [intros t task Ht; apply elem_of_app; left; by apply H1, we_tasks0|].
    split; [by rewrite we_fresh0|]. split.
    + intros Hs. destruct (we_slot0 Hs) as [-> Hn]. by rewrite H3.
    + rewrite we_shutdown0. destruct d; try done. destruct Hd as [? Hd]. split; [done|].
      intros j pcj Hj. destruct (decide (j = i)) as [->|].
      * intros _. exfalso. apply we_running0. by eapply Hd.
      * rewrite list_lookup_insert_ne by done. by apply Hd.
Qed.

Lemma sys_inv_add tr func arg p ws d p' :
  sys_inv tr (mk_sys (Some p) ws d) → Z.of_nat (length (tp_queue p)) < 2 ^ 31 - 1 →
  linx_thread_pool_add_task (Some p) (Some func) arg = (0, Some p') →
  sys_inv (tr ++ [Added (tp_fresh p) func arg]) (mk_sys (Some p') ws d).
Proof.
  intros ([T1 T2 T3 T4] & HI & H0 & H1 & H2 & H3 & Hd) Hb Ha.
  destruct (pool_inv_add _ _ _ _ _ HI Hb Ha) as (HI' & Hq & Hs & Ht & Hr & Hf).
  assert (Hadd : (tr ++ [Added (tp_fresh p) func arg]) ≫= added_of = (tr ≫= added_of) ++ [tp_fresh p])
    by (by rewrite bind_app).
  assert (Hrest : ∀ B (f : label → list B), f (Added (tp_fresh p) func arg) = [] →
    (tr ++ [Added (tp_fresh p) func arg]) ≫= f = tr ≫= f).
  { intros B f Hf0. rewrite bind_app. cbn. by rewrite Hf0, app_nil_r. }
  cbn [sy_pool sy_workers sy_destroy] in *. split; [split|]; cbn [sy_workers sy_pool sy_destroy];
    rewrite ?Hadd, ?(Hrest _ picked_of), ?(Hrest _ ran_of), ?(Hrest _ dropped_of) by done.
  - rewrite T1. unfold queue_of. cbn. by rewrite Hq, <- !app_assoc.
  - done.
  - apply NoDup_app. split; [done|]. split; [|apply NoDup_singleton].
    intros t Hin%H2. rewrite list_elem_of_singleton. lia.
  - intros t a b c [H|H%list_elem_of_singleton]%elem_of_app; [|done]. apply elem_of_app. left. by eapply T4.
  - rewrite Hs, Hr, Hf. split; [done|]. split; [done|]. split; [|split; [|done]].
    + intros t task. rewrite Ht, elem_of_app. intros [[<- <-]|[_ H]]%lookup_insert_Some; [right; by left|].
      left. by apply H1.
    + intros t [H%H2|H%list_elem_of_singleton]%elem_of_app; lia.
Qed.

Lemma sys_inv_destroy tr graceful p ws p' :
  sys_inv tr (mk_sys (Some p) ws D_idle) → destroy_begin (Some p) graceful = Ret [] (0, Some p') →
  sys_inv (tr ++ [Shutdown graceful]) (mk_sys (Some p') ws (D_mark 0)).
Proof.
  intros ([T1 T2 T3 T4] & HI & H0 & H1 & H2 & H3 & Hd) Hb. cbn [sy_destroy sy_pool sy_workers] in *.
  pose proof (destroy_begin_spec p ws graceful HI Hd) as Hs. destruct (tp_task_runing p) as [r|] eqn:Er;
    [|by rewrite Hb in Hs]. destruct Hs as (p2 & E & HI' & Hq & Hsd & Hfn & Harg & Hr & Hfresh).
  assert (p2 = p') as -> by congruence.
  split; [split|]; cbn [sy_workers sy_pool sy_destroy] in *; rewrite ?bind_app; cbn; rewrite ?app_nil_r; try done.
  - rewrite T1. unfold queue_of. cbn. by rewrite Hq.
  - intros t a b c [H|H%list_elem_of_singleton]%elem_of_app; [|done]. apply elem_of_app. left. by eapply T4.
  - rewrite Hr, Hfresh, Hsd. split; [done|]. split; [done|]. split; [|split; [done|split; [done|by case_match]]].
    intros t task Ht. apply elem_of_app. left. specialize (Hfn t). specialize (Harg t). rewrite Ht in Hfn, Harg.
    cbn in Hfn, Harg. destruct (tp_tasks p !! t) as [task0|] eqn:E0; [|done]. cbn in Hfn, Harg.
    injection Hfn as ->. injection Harg as ->. by apply H1.
Qed.

Lemma sys_inv_step tr s l s' : sys_inv tr s → step s l s' → sys_inv (tr ++ [l]) s'.
Proof.
  intros HI Hstep. assert (Halter : ∀ f i (l : list linx_thread_state_t), length (alter f i l) = length l)
    by (intros; apply length_alter).
  destruct Hstep as [i found returns pc p ws d l pc' p' Hi Hw|func arg p ws d p' Hb Ha|i p ws d r p' H|i p ws d r p' H
    |i p ws d r p' H|graceful p ws p' H|i p ws H|i p ws H|i pc p ws H Hi Hx|i p ws H].
  - destruct (worker_step_ok i found returns pc p ws) as (r & E & Hr); [apply HI|done|]. rewrite Hw in E.
    injection E as <-. destruct Hr. by eapply sys_inv_worker.
  - by apply sys_inv_add.
  - rewrite (on_thread_inv _ _ _ _ _ H). apply (sys_inv_threads _ _ _ d); [by destruct (r =? 0)|done|apply HI].
  - rewrite (on_thread_inv _ _ _ _ _ H). apply (sys_inv_threads _ _ _ d); [by destruct (r =? 0)|done|apply HI].
  - rewrite (on_thread_inv _ _ _ _ _ H). apply (sys_inv_threads _ _ _ d); [by destruct (r =? 0)|done|apply HI].
  - by eapply sys_inv_destroy.
  - apply (sys_inv_threads _ _ _ (D_mark i)); [done..|apply HI].
  - rewrite <- (with_threads_id p). apply (sys_inv_threads _ _ _ (D_mark i)); [done..|]. split; [apply HI|lia].
  - rewrite <- (with_threads_id p). apply (sys_inv_threads _ _ _ (D_join i)); [done..|].
    destruct HI as (_ & _ & _ & _ & _ & _ & Hs & Hj). split; [done|]. intros j pcj Hlt Hpc.
    destruct (decide (j = i)) as [->|]; [by rewrite Hi in Hpc; simplify_eq/=|]. apply (Hj j); [lia|done].
  - destruct HI as ([T1 T2 T3 T4] & HI & H0 & _ & _ & _ & Hs & Hj). cbn [sy_workers sy_pool sy_destroy] in *.
    assert (Hall : ∀ j pc, ws !! j = Some pc → exited pc).
    { intros j pc Hpc. apply (Hj j); [|done]. apply lookup_lt_Some in Hpc. rewrite (pi_count _ _ HI) in H. lia. }
    split; [split|done]; cbn [sy_workers sy_pool sy_destroy]; rewrite ?bind_app; cbn; rewrite ?app_nil_r; try done.
    intros t a b c [Hin|Hin%list_elem_of_singleton]%elem_of_app; [|done]. apply elem_of_app. left. by eapply T4.
Qed.

Lemma sys_inv_init cpus n : sys_inv [] (init cpus n).
Proof.
  unfold init, linx_thread_pool_create. set (k := if n <=? 0 then _ else n).
  assert (0 ≤ k) by (unfold k; destruct (Z.leb_spec n 0), (Z.leb_spec cpus 0); lia).
  cbn [tp_threads]. rewrite length_replicate.
  assert (Hh : ∀ m, held (replicate m W_start) = []) by (induction m; by cbn).
  assert (Hr : ∀ m, replicate m W_start ≫= to_run = []) by (induction m; by cbn).
  split; [split|]; cbn [sy_workers sy_pool sy_destroy]; try done.
  - by rewrite Hr.
  - apply NoDup_nil_2.
  - intros ???? H0. by inversion H0.
  - split; [|repeat split; try done; intros ? H0; by inversion H0].
    split; cbn -[held]; rewrite ?Hh, ?length_replicate; try done; try lia.
    + apply NoDup_nil_2.
    + intros t. rewrite lookup_empty. split; [by intros []|intros H0; by inversion H0].
    + intros t H0. by inversion H0.
Qed.

Lemma sys_inv_steps cpus n tr s : steps (init cpus n) tr s → sys_inv tr s.
Proof. induction 1 as [|tr s l s' _ IH Hstep]; [apply sys_inv_init|by eapply sys_inv_step]. Qed.

Lemma exited_to_run ws : (∀ j pc, ws !! j = Some pc → exited pc) → ws ≫= to_run = [].
Proof.
  induction ws as [|pc ws IH]; intros Hx; [done|]. rewrite bind_cons, IH by (intros j; apply (Hx (S j))).
  by destruct (Hx 0%nat pc eq_refl) as [->| ->].
Qed.

(** C27: in every state the pool can reach, whatever the clients and the
    scheduler do, the tasks in memory are exactly those queued or held by a
    worker, each once; so no step of a worker touches a freed task, nor does
    a shutdown, unless no task was ever taken: then it reads [task_runing],
    which [linx_thread_pool_create] leaves unset. *)
Theorem thread_pool_memory_safe cpus n tr p ws d :
  steps (init cpus n) tr (mk_sys (Some p) ws d) →
  (∀ t, is_Some (tp_tasks p !! t) ↔ t ∈ tp_queue p ++ held ws)
  ∧ NoDup (tp_queue p ++ held ws)
  ∧ (∀ i pc found returns, ws !! i = Some pc → ∃ r, linx_thread_worker i found returns pc p = Ret [] r)
  ∧ (∀ graceful, match tp_task_runing p with
       | Some _ => ∃ r, destroy_begin (Some p) graceful = Ret [] r
       | None => tr ≫= picked_of = []
           ∧ (tp_shutdown p = 0 → destroy_begin (Some p) graceful = Ub UninitRead)
       end).
Proof.
  intros Hs%sys_inv_steps. destruct Hs as (_ & HI & _ & _ & _ & H3 & _). cbn [sy_pool sy_workers] in HI, H3.
  split; [apply HI|]. split; [apply HI|]. split.
  - intros i pc found returns Hi. destruct (worker_step_ok i found returns pc p ws HI Hi) as (r & -> & _). eauto.
  - intros g. destruct (Z.eq_dec (tp_shutdown p) 0) as [E|E].
    + pose proof (destroy_begin_spec p ws g HI E) as H. destruct (tp_task_runing p) as [r|].
      * destruct H as (p' & -> & _). eauto.
      * split; [by apply H3|done].
    + destruct (tp_task_runing p); [|split; [by apply H3|done]].
      unfold destroy_begin. apply Z.eqb_neq in E. rewrite E. eauto.
Qed.

(** C28: tasks are taken in the order in which they were added, each at most
    once and with the function and argument it was added with, and nothing is
    lost while the pool lives: what was added is what was taken followed by
    the queue.  When [linx_thread_pool_destroy] returns, every task that was
    taken has run, and the rest of the queue was dropped. *)
Theorem thread_pool_fifo cpus n tr s :
  steps (init cpus n) tr s →
  tr ≫= added_of = (tr ≫= picked_of) ++ (tr ≫= dropped_of) ++ queue_of s
  ∧ NoDup (tr ≫= added_of)
  ∧ tr ≫= picked_of ≡ₚ (tr ≫= ran_of) ++ (sy_workers s ≫= to_run)
  ∧ (∀ t f a stop, Ran t f a stop ∈ tr → Added t f a ∈ tr)
  ∧ (sy_destroy s = D_done → tr ≫= picked_of ≡ₚ tr ≫= ran_of).
Proof.
  intros H%sys_inv_steps. destruct H as ([T1 T2 T3 T4] & H). do 4 (split; [done|]).
  intros Hd. rewrite T2. destruct (sy_pool s) as [p|]; [destruct H as (_ & _ & _ & _ & _ & H); by rewrite Hd in H|].
  destruct H as [_ Hx]. by rewrite exited_to_run, app_nil_r.
Qed.

(** ** Termination *)
Definition rank (pc : worker_pc) : nat :=
  match pc with
  | W_start | W_run _ => 8
  | W_found | W_finish _ => 7
  | W_loop => 6
  | W_queue => 5
  | W_leave => 2
  | W_count => 1
  | W_exit | W_gone => 0
  end.

(** A bound on the number of steps the workers can take on their own. *)
Definition work_left (p : linx_thread_pool_t) (ws : list worker_pc) : nat :=
  4 * length (tp_queue p) + sum_list (rank <$> ws).

(** A run of the workers, with what its steps record. *)
Inductive worker_steps (p : linx_thread_pool_t) (ws : list worker_pc) :
    list label → linx_thread_pool_t → list worker_pc → Prop :=
  | worker_steps_nil : worker_steps p ws [] p ws
  | worker_steps_snoc tr p1 ws1 i pc found returns l pc' p2 :
      worker_steps p ws tr p1 ws1 → ws1 !! i = Some pc →
      linx_thread_worker i found returns pc p1 = Ret [] (Some (l, pc', p2)) →
      worker_steps p ws (tr ++ [l]) p2 (<[i := pc']> ws1).

Definition none_paused (p : linx_thread_pool_t) : Prop := LINX_THREAD_STATE_PAUSED ∉ tp_threads p.

Lemma sum_list_insert (ws : list nat) i x y :
  ws !! i = Some x → (sum_list (<[i := y]> ws) + x = sum_list ws + y)%nat.
Proof.
  revert i. induction ws as [|w ws IH]; intros [|i]; try done.
  - intros [= ->]. cbn. lia.
  - intros Hi. specialize (IH i Hi). change (<[S i:=y]> (w :: ws)) with (w :: <[i:=y]> ws).
    cbn [sum_list]. lia.
Qed.

Lemma worker_step_work i found returns pc p ws l pc' p' :
  pool_inv p ws → ws !! i = Some pc → linx_thread_worker i found returns pc p = Ret [] (Some (l, pc', p')) →
  (S (work_left p' (<[i := pc']> ws)) ≤ work_left p ws + length (passes_of l))%nat.
Proof.
  intros HI Hi Hw. unfold work_left. rewrite list_fmap_insert.
  assert (Hr : (rank <$> ws) !! i = Some (rank pc)) by (by rewrite list_lookup_fmap, Hi).
  pose proof (sum_list_insert _ _ _ (rank pc') Hr) as Hsum.
  assert (4 * length (tp_queue p') + rank pc' < 4 * length (tp_queue p) + rank pc + length (passes_of l))%nat; [|lia].
  destruct (worker_step_ok i found returns pc p ws HI Hi) as (r & E & Hok). rewrite Hw in E. injection E as <-.
  destruct Hok as [_ [_ _ Hq _ _ _ _ _ _ _]]. rewrite Hq, length_app. clear Hq Hsum Hr.
  destruct pc; cbn [linx_thread_worker] in Hw.
  - injection Hw as <- <- <-. destruct found; cbn; lia.
  - injection Hw as <- <- <-. cbn; lia.
  - destruct (tp_threads p !! i) as [[]|]; cbn in Hw; try done; injection Hw as <- <- <-; cbn; lia.
  - pose proof (pi_size _ _ HI) as Hsz. destruct (_ && _) eqn:E1; [done|]. destruct (_ || _) eqn:E2.
    + injection Hw as <- <- <-. cbn; lia.
    + destruct (tp_queue p) as [|t q] eqn:Hq; [|].
      * destruct (pi_shutdown _ _ HI) as [E|[E|E]]; rewrite E, Hsz in *; done.
      * destruct (tp_tasks p !! t); cbn in Hw; [|done]. injection Hw as <- <- <-. cbn; lia.
  - destruct (tp_tasks p !! t); cbn in Hw; [|done]. destruct returns; injection Hw as <- <- <-; cbn; lia.
  - destruct (tp_tasks p !! t); cbn in Hw; [|done]. injection Hw as <- <- <-. cbn; lia.
  - injection Hw as <- <- <-. cbn; lia.
  - injection Hw as <- <- <-. cbn; lia.
  - done.
  - done.
Qed.

(** A pass is one of the task the worker runs. *)
Lemma worker_step_passes i found returns pc p l pc' p' :
  linx_thread_worker i found returns pc p = Ret [] (Some (l, pc', p')) →
  (∀ t, t ∈ passes_of l → t ∈ to_run pc) ∧ (returns = true → passes_of l = []).
Proof.
  intros Hw. assert (Hnil : passes_of l = [] → (∀ t, t ∈ passes_of l → t ∈ to_run pc) ∧ (returns = true → passes_of l = [])).
  { intros ->. split; [|done]. intros t H. inversion H. }
  destruct pc; cbn in Hw; try done; try (injection Hw as <- <- <-; by apply Hnil).
  - destruct (tp_threads p !! i) as [[]|]; cbn in Hw; try done; injection Hw as <- <- <-; by apply Hnil.
  - destruct (_ && _); [done|]. destruct (_ || _); [injection Hw as <- <- <-; by apply Hnil|].
    destruct (tp_queue p) as [|t q]; [injection Hw as <- <- <-; by apply Hnil|].
    destruct (tp_tasks p !! t); cbn in Hw; [|done]. injection Hw as <- <- <-. by apply Hnil.
  - destruct (tp_tasks p !! t); cbn in Hw; [|done]. destruct returns; injection Hw as <- <- <-; [by apply Hnil|].
    by split.
  - destruct (tp_tasks p !! t); cbn in Hw; [|done]. injection Hw as <- <- <-. by apply Hnil.
Qed.

Lemma worker_step_progress i found returns pc p ws :
  pool_inv p ws → ws !! i = Some pc → tp_shutdown p ≠ 0 → none_paused p → ¬ exited pc →
  ∃ l pc' p', linx_thread_worker i found returns pc p = Ret [] (Some (l, pc', p')) ∧ none_paused p' ∧ pool_inv p' (<[i := pc']> ws)
    ∧ tp_shutdown p' = tp_shutdown p.
Proof.
  intros HI Hi Hs Hnp Hx. destruct (worker_step_ok i found returns pc p ws HI Hi) as (r & E & Hr).
  assert (∃ a, r = Some a) as [[[l pc'] p'] ->].
  { destruct r as [a|]; [by exists a|]. destruct pc; cbn [linx_thread_worker] in E; try done.
    - destruct (tp_threads p !! i) as [st|] eqn:Ht; cbn in E; [|done].
      destruct st; try done. exfalso. apply Hnp. by eapply list_elem_of_lookup_2.
    - apply Z.eqb_neq in Hs. rewrite Hs, andb_false_r in E. destruct (_ || _); [done|].
      destruct (tp_queue p) as [|t q]; [done|]. destruct (tp_tasks p !! t); done.
    - destruct (tp_tasks p !! t), returns; done.
    - destruct (tp_tasks p !! t); done.
    - exfalso. apply Hx. by left.
    - exfalso. apply Hx. by right. }
  exists l, pc', p'. destruct Hr as [HI' []]. split; [done|]. split; [|done].
  assert (Hset : ∀ st, st ≠ LINX_THREAD_STATE_PAUSED → none_paused (set_thread i st p)).
  { intros st Hne. unfold none_paused, set_thread. cbn. intros (j & Hj)%list_elem_of_lookup_1.
    rewrite list_lookup_alter in Hj. case_decide.
    - apply fmap_Some in Hj as (? & _ & <-). done.
    - apply Hnp. by eapply list_elem_of_lookup_2. }
  destruct pc; cbn [linx_thread_worker] in E; try done; try (injection E as <- <- <-; by try apply Hset).
  - destruct (tp_threads p !! i) as [[]|]; cbn in E; try done; by injection E as <- <- <-.
  - destruct (_ && _); [done|]. destruct (_ || _); [by injection E as <- <- <-|].
    destruct (tp_queue p) as [|t q]; [by injection E as <- <- <-|].
    destruct (tp_tasks p !! t); cbn in E; [|done]. by injection E as <- <- <-.
  - destruct (tp_tasks p !! t); cbn in E; [|done]. destruct returns; by injection E as <- <- <-.
  - destruct (tp_tasks p !! t); cbn in E; [|done]. by injection E as <- <- <-.
Qed.

(** The tasks that are queued or being run. *)
Definition pending (p : linx_thread_pool_t) (ws : list worker_pc) : list nat := tp_queue p ++ (ws ≫= to_run).

Lemma elem_of_to_run ws t : t ∈ ws ≫= to_run ↔ ∃ i, ws !! i = Some (W_run t).
Proof.
  rewrite list_elem_of_bind. split.
  - intros (pc & Ht & (i & Hi)%list_elem_of_lookup_1). exists i. destruct pc; cbn in Ht; try by inversion Ht.
    apply list_elem_of_singleton in Ht as ->. done.
  - intros [i Hi]. exists (W_run t). split; [by left|]. by eapply list_elem_of_lookup_2.
Qed.

Lemma worker_effect_pending i pc p l pc' p' ws :
  ws !! i = Some pc → worker_effect pc p l pc' p' →
  ∀ t, t ∈ pending p' (<[i := pc']> ws) → t ∈ pending p ws.
Proof.
  intros Hi [_ _ Hq _ Hr _ _ _ _ _] t. unfold pending. rewrite Hq, !elem_of_app, !elem_of_to_run.
  intros [H|[j Hj]]; [by left; right|]. destruct (decide (j = i)) as [->|Hne].
  - rewrite list_lookup_insert_eq in Hj by (by eapply lookup_lt_Some). injection Hj as ->.
    assert (Hin : t ∈ to_run pc ++ picked_of l) by (rewrite Hr; apply elem_of_app; right; by left).
    apply elem_of_app in Hin as [Hin|Hin]; [right|by left; left].
    exists i. destruct pc; cbn in Hin; try by inversion Hin. apply list_elem_of_singleton in Hin as ->. done.
  - rewrite list_lookup_insert_ne in Hj by done. eauto.
Qed.

(** What a run of the workers keeps and how many steps it has. *)
Lemma worker_steps_inv p ws tr p' ws' :
  pool_inv p ws → tp_shutdown p ≠ 0 → none_paused p → worker_steps p ws tr p' ws' →
  (pool_inv p' ws' ∧ tp_shutdown p' ≠ 0 ∧ none_paused p')
  ∧ (length tr + work_left p' ws' ≤ work_left p ws + length (tr ≫= passes_of))%nat
  ∧ (∀ t, t ∈ pending p' ws' → t ∈ pending p ws)
  ∧ (∀ t, t ∈ tr ≫= passes_of → t ∈ pending p ws).
Proof.
  intros HI Hs Hn. induction 1 as [|tr p1 ws1 i pc found returns l pc' p2 _ IH Hi Hw].
  { split; [done|]. split; [cbn; lia|]. split; [done|]. intros t H. inversion H. }
  destruct IH as ((HI1 & Hs1 & Hn1) & Hm & Hp & Ht). pose proof (worker_step_work _ _ _ _ _ _ _ _ _ HI1 Hi Hw) as Hlt.
  destruct (worker_step_passes _ _ _ _ _ _ _ _ Hw) as [Hpass _].
  destruct (worker_step_ok i found returns pc p1 ws1 HI1 Hi) as (r & E & Hr). rewrite Hw in E. injection E as <-.
  destruct Hr as [_ Heff]. destruct (worker_step_progress i found returns pc p1 ws1 HI1 Hi Hs1 Hn1 (we_running _ _ _ _ _ Heff))
    as (l' & pc2 & p3 & E & Hnp & HI2 & Hs2). rewrite Hw in E. injection E as <- <- <-.
  rewrite bind_app, !length_app. cbn [length mbind list_bind]. rewrite app_nil_r.
  split; [split; [done|split; [congruence|done]]|]. split; [lia|]. split.
  - intros t Hin. apply Hp. by eapply worker_effect_pending.
  - intros t [Hin|Hin%Hpass]%elem_of_app; [by apply Ht|]. apply Hp, elem_of_app. right. apply elem_of_to_run.
    exists i. destruct pc; cbn in Hin; try by inversion Hin. apply list_elem_of_singleton in Hin as ->. done.
Qed.

(** A list whose elements are among those of [S], each at most [b] times. *)
Lemma length_counted (l S : list nat) (b : nat) :
  (∀ x, x ∈ l → x ∈ S) → (∀ x, x ∈ S → length (filter (x =.) l) ≤ b)%nat → (length l ≤ b * length S)%nat.
Proof.
  revert l. induction S as [|x S IH]; intros l Hin Hb.
  - destruct l as [|y l]; [cbn; lia|]. specialize (Hin y ltac:(left)). inversion Hin.
  - rewrite <- (filter_app_complement (x =.) l), length_app. specialize (Hb x ltac:(left)) as Hx.
    assert (length (filter (λ y, ¬ x = y) l) ≤ b * length S)%nat; [|cbn; lia]. apply IH.
    + intros y [Hne Hy]%list_elem_of_filter. apply Hin in Hy. apply elem_of_cons in Hy as [->|]; done.
    + intros y Hy. transitivity (length (filter (y =.) l)); [|apply Hb; by right].
      apply sublist_length. generalize l. clear. intros l.
      induction l as [|z l IHl]; [done|]. rewrite !filter_cons. repeat case_decide; try done;
        rewrite ?filter_cons; repeat case_decide; try done; by constructor.
Qed.

(** A worker runs a loop that has not been told to stop. *)
Definition untold (loops : F → bool) (p : linx_thread_pool_t) (ws : list worker_pc) : Prop :=
  ∃ i t task, ws !! i = Some (W_run t) ∧ tp_tasks p !! t = Some task
    ∧ loops (tk_func task) = true ∧ tk_should_stop task = 0.

(** A task that is not a loop, or has been told to stop, makes at most [b]
    passes before it returns. *)
Definition ends_within (b : nat) (loops : F → bool) (p : linx_thread_pool_t) (tr : list label) : Prop :=
  ∀ t task, tp_tasks p !! t = Some task → loops (tk_func task) = false ∨ tk_should_stop task ≠ 0 →
    (length (filter (t =.) (tr ≫= passes_of)) ≤ b)%nat.

(** A loop returns only when it is told to stop. *)
Definition ends_when_told (loops : F → bool) (tr : list label) : Prop :=
  ∀ t f a stop, Ran t f a stop ∈ tr → loops f = true → stop ≠ 0.

Lemma pending_told loops b p ws tr t :
  pool_inv p ws → tp_shutdown p ≠ 0 → ¬ untold loops p ws → ends_within b loops p tr → t ∈ pending p ws →
  (length (filter (t =.) (tr ≫= passes_of)) ≤ b)%nat.
Proof.
  intros HI Hs Hu He Ht. assert (is_Some (tp_tasks p !! t)) as [task Htask].
  { apply (pi_tasks _ _ HI). unfold pending in Ht. rewrite !elem_of_app in *. destruct Ht as [|[i Hi]%elem_of_to_run]; [by left|].
    right. unfold held. apply list_elem_of_bind. exists (W_run t). split; [by left|]. by eapply list_elem_of_lookup_2. }
  apply (He t task Htask). apply elem_of_app in Ht as [Ht|[i Hi]%elem_of_to_run].
  - right. by rewrite (pi_stop _ _ HI Hs t task Ht Htask).
  - destruct (loops (tk_func task)) eqn:El; [right|by left]. intros E. apply Hu. exists i, t, task. done.
Qed.

(** A worker that runs an untold loop goes on running it. *)
Lemma untold_step loops tr s l s' i t task p ws d :
  s = mk_sys (Some p) ws d →
  sys_inv tr s → tp_shutdown p ≠ 0 → ws !! i = Some (W_run t) → tp_tasks p !! t = Some task →
  loops (tk_func task) = true → tk_should_stop task = 0 → step s l s' → ends_when_told loops [l] →
  ∃ p' ws' d', s' = mk_sys (Some p') ws' d' ∧ tp_shutdown p' ≠ 0 ∧ ws' !! i = Some (W_run t)
    ∧ tp_tasks p' !! t = Some task.
Proof.
  intros Es HI Hs Hi Ht Hl H0 Hstep Ho. destruct Hstep as [j found returns pc p0 ws0 d0 l pc' p' Hj Hw|func arg p0 ws0 d0 p' Hb Ha
    |j p0 ws0 d0 r p' H|j p0 ws0 d0 r p' H|j p0 ws0 d0 r p' H|graceful p0 ws0 p' H|j p0 ws0 H|j p0 ws0 H|j pc p0 ws0 H Hj Hx|j p0 ws0 H];
    injection Es as -> -> <-.
  - destruct (worker_step_ok j found returns pc p ws (proj1 (proj2 HI)) Hj) as (r & E & Hr). rewrite Hw in E. injection E as <-.
    destruct Hr as [HI' []]. exists p', (<[j := pc']> ws), d0. split; [done|]. split; [congruence|].
    assert (Hws : <[j := pc']> ws !! i = Some (W_run t)).
    { destruct (decide (j = i)) as [->|Hne]; [|by rewrite list_lookup_insert_ne]. rewrite Hi in Hj. injection Hj as <-.
      rewrite list_lookup_insert_eq by (by eapply lookup_lt_Some). cbn in Hw. rewrite Ht in Hw. cbn in Hw.
      destruct returns; injection Hw as <- <- <-; [|done]. exfalso.
      apply (Ho t (tk_func task) (tk_arg task) (tk_should_stop task)); [by left|done|done]. }
    split; [done|]. assert (is_Some (tp_tasks p' !! t)) as [task' E].
    { apply (pi_tasks _ _ HI'). apply elem_of_app. right. unfold held. apply list_elem_of_bind.
      exists (W_run t). split; [by left|]. by eapply list_elem_of_lookup_2. }
    rewrite E. f_equal. apply we_tasks0 in E. congruence.
  - unfold linx_thread_pool_add_task in Ha. apply Z.eqb_neq in Hs. by rewrite Hs in Ha.
  - rewrite (on_thread_inv _ _ _ _ _ H). eauto 10.
  - rewrite (on_thread_inv _ _ _ _ _ H). eauto 10.
  - rewrite (on_thread_inv _ _ _ _ _ H). eauto 10.
  - unfold destroy_begin in H. apply Z.eqb_neq in Hs. by rewrite Hs in H.
  - eauto 10.
  - eauto 10.
  - eauto 10.
  - exfalso. destruct HI as (_ & HI & _ & _ & _ & _ & _ & Hj). cbn in HI, Hj.
    pose proof (pi_count _ _ HI) as Hc. pose proof (lookup_lt_Some _ _ _ Hi) as Hlt.
    destruct (Hj i (W_run t)) as [?|?]; [lia|done|done|done].
Qed.

Lemma untold_steps loops tr p ws d tr' s' i t task :
  sys_inv tr (mk_sys (Some p) ws d) → tp_shutdown p ≠ 0 → ws !! i = Some (W_run t) → tp_tasks p !! t = Some task →
  loops (tk_func task) = true → tk_should_stop task = 0 →
  steps (mk_sys (Some p) ws d) tr' s' → ends_when_told loops tr' →
  sys_inv (tr ++ tr') s' ∧ ∃ p' ws' d', s' = mk_sys (Some p') ws' d' ∧ tp_shutdown p' ≠ 0
    ∧ ws' !! i = Some (W_run t) ∧ tp_tasks p' !! t = Some task.
Proof.
  intros HI Hs Hi Ht Hl H0. induction 1 as [|tr' s1 l s2 _ IH Hstep]; intros Ho.
  { rewrite app_nil_r. eauto 10. }
  destruct IH as (HI1 & p1 & ws1 & d1 & E & Hs1 & Hi1 & Ht1).
  { intros t0 f a stop Hin. apply (Ho t0 f a stop), elem_of_app. by left. }
  split; [rewrite app_assoc; by eapply sys_inv_step|].
  eapply untold_step; [exact E|done..|]. intros t0 f a stop Hin. apply (Ho t0 f a stop), elem_of_app. by right.
Qed.

(** C39: once [linx_thread_pool_destroy] has set the shutdown flag and no
    thread is paused, whether it returns rests on the loops that run, the
    tasks that return only when [*should_stop] tells them.

    If each of them has been told, and every task that is told or is not a
    loop makes at most [b] passes, the workers finish however they are
    scheduled: they take at most [work_left] steps and the passes of the
    tasks that are queued or run, and a worker that has not returned can
    always move on, so the joins of the destructor succeed.

    If a worker runs a loop that has not been told, the destructor never
    returns: that worker runs its task for ever.  Such states are reached
    (see the witness): of the tasks that run, the destructor tells only the
    one taken last, to which [task_runing] points. *)
Theorem thread_pool_destroy_terminates cpus m tr p ws d (loops : F → bool) (b : nat) :
  steps (init cpus m) tr (mk_sys (Some p) ws d) → tp_shutdown p ≠ 0 → none_paused p →
  (¬ untold loops p ws →
     ∀ tr' p' ws', worker_steps p ws tr' p' ws' → ends_within b loops p tr' →
       (length tr' ≤ work_left p ws + b * length (tp_queue p ++ (ws ≫= to_run)))%nat
       ∧ ∀ i pc, ws' !! i = Some pc → exited pc ∨
           ∃ l pc' p2, linx_thread_worker i true true pc p' = Ret [] (Some (l, pc', p2)) ∧ passes_of l = [])
  ∧ (∀ i t task, ws !! i = Some (W_run t) → tp_tasks p !! t = Some task →
       loops (tk_func task) = true → tk_should_stop task = 0 →
       ∀ tr' s', steps (mk_sys (Some p) ws d) tr' s' → ends_when_told loops tr' →
         sy_destroy s' ≠ D_done ∧ sy_workers s' !! i = Some (W_run t)).
Proof.
  intros Hst%sys_inv_steps Hs Hn. split.
  - intros Hu tr' p' ws' Hw He. destruct Hst as (_ & HI & _). cbn in HI.
    destruct (worker_steps_inv p ws tr' p' ws' HI Hs Hn Hw) as ((HI' & Hs' & Hn') & Hm & _ & Hp). split.
    + pose proof (length_counted _ _ b Hp (λ t, pending_told loops b p ws tr' t HI Hs Hu He)) as Hc.
      unfold pending in Hc. lia.
    + intros i pc Hi. destruct (decide (pc = W_exit ∨ pc = W_gone)) as [|Hx]; [by left|right].
      destruct (worker_step_progress i true true pc p' ws' HI' Hi Hs' Hn' Hx) as (l & pc' & p2 & E & _).
      exists l, pc', p2. split; [done|]. by apply (worker_step_passes _ _ _ _ _ _ _ _ E).
  - intros i t task Hi Ht Hl H0 tr' s' Hsteps Ho.
    destruct (untold_steps loops tr p ws d tr' s' i t task Hst Hs Hi Ht Hl H0 Hsteps Ho)
      as ([_ HI] & p' & ws' & d' & -> & _ & Hi' & _). split; [|done]. cbn in HI |- *. by destruct HI as (_ & _ & _ & _ & _ & Hd), d'.
Qed.

(** ** A graceful shutdown drops the queue *)

(** A scheduler: what moves next. *)
Inductive action :=
  | DoWork (i : nat)
  | DoAdd (func : F) (arg : A)
  | DoDestroy (graceful : Z)
  | DoNext.   (* the destructor moves on *)

Definition act (x : action) (s : sys) : option (label * sys) :=
  p ← sy_pool s;
  let ws := sy_workers s in
  match x, sy_destroy s with
  | DoWork i, d =>
      pc ← ws !! i;
      match linx_thread_worker i true true pc p with
      | Ret [] (Some (l, pc', p')) => Some (l, mk_sys (Some p') (<[i := pc']> ws) d)
      | _ => None
      end
  | DoAdd func arg, d =>
      guard (Z.of_nat (length (tp_queue p)) < 2 ^ 31 - 1);;
      match linx_thread_pool_add_task (Some p) (Some func) arg with
      | (0, Some p') => Some (Added (tp_fresh p) func arg, mk_sys (Some p') ws d)
      | _ => None
      end
  | DoDestroy graceful, D_idle =>
      match destroy_begin (Some p) graceful with
      | Ret [] (0, Some p') => Some (Shutdown graceful, mk_sys (Some p') ws (D_mark 0))
      | _ => None
      end
  | DoNext, D_mark i =>
      if Z.of_nat i <? tp_thread_count p
      then Some (Silent, mk_sys (Some (with_threads (alter terminating i) p)) ws (D_mark (S i)))
      else Some (Silent, mk_sys (Some p) ws (D_join 0))
  | DoNext, D_join i =>
      if Z.of_nat i <? tp_thread_count p
      then pc ← ws !! i; guard (pc = W_exit);; Some (Silent, mk_sys (Some p) ws (D_join (S i)))
      else Some (Dropped (tp_queue p), mk_sys None ws D_done)
  | _, _ => None
  end.

Fixpoint acts (xs : list action) (s : sys) : option (list label * sys) :=
  match xs with
  | [] => Some ([], s)
  | x :: xs' => '(l, s1) ← act x s; '(tr, s2) ← acts xs' s1; Some (l :: tr, s2)
  end.

Lemma act_step x s l s' : act x s = Some (l, s') → step s l s'.
Proof.
  destruct s as [[p|] ws d]; [|done]. destruct x as [i|func arg|graceful|];
    cbn -[linx_thread_pool_add_task destroy_begin linx_thread_worker].
  - destruct (ws !! i) as [pc|] eqn:Hi; [|done]. cbn.
    destruct (linx_thread_worker i true true pc p) as [[|] [[[l0 pc'] p']|]| |] eqn:E; try done.
    intros [= <- <-]. by eapply step_worker.
  - case_guard; [|done]. cbn -[linx_thread_pool_add_task].
    destruct (linx_thread_pool_add_task _ _ _) as [[] [p'|]] eqn:E; try done. intros [= <- <-]. by eapply step_add.
  - destruct d; try done. destruct (destroy_begin _ _) as [[|] [[] [p'|]]| |] eqn:E; try done.
    intros [= <- <-]. by eapply step_destroy.
  - destruct d as [|i|i|]; try done; destruct (Z.ltb_spec (Z.of_nat i) (tp_thread_count p)).
    + intros [= <- <-]. by constructor.
    + intros [= <- <-]. by eapply step_marked.
    + destruct (ws !! i) as [pc|] eqn:Hi; [|done]. cbn. case_guard; [|done]. intros [= <- <-].
      eapply step_join; [done|done|by left].
    + intros [= <- <-]. by eapply step_free.
Qed.

Lemma steps_app s0 tr1 s1 tr2 s2 : steps s0 tr1 s1 → steps s1 tr2 s2 → steps s0 (tr1 ++ tr2) s2.
Proof.
  intros H1 H2. induction H2 as [|tr s l s' _ IH Hs]; [by rewrite app_nil_r|].
  rewrite app_assoc. by eapply steps_snoc.
Qed.

Lemma acts_steps xs s tr s' : acts xs s = Some (tr, s') → steps s tr s'.
Proof.
  revert s tr. induction xs as [|x xs IH]; intros s tr; cbn [acts]; [intros [= <- <-]; constructor|].
  destruct (act x s) as [[l s1]|] eqn:E; [|done]. cbn. destruct (acts xs s1) as [[tr1 s2]|] eqn:E1; [|done].
  intros [= <- <-]. change (l :: tr1) with ([l] ++ tr1). eapply steps_app; [|by apply IH].
  change [l] with ([] ++ [l]). eapply steps_snoc; [constructor|by eapply act_step].
Qed.

(** Two tasks, a graceful shutdown while the first one runs. *)
Definition drop_schedule (f : F) (a b : A) : list action :=
  DoAdd f a :: replicate 4 (DoWork 0) ++ DoAdd f b :: DoDestroy 1 :: replicate 2 DoNext
    ++ replicate 5 (DoWork 0) ++ replicate 2 DoNext.

(** A graceful shutdown does not run what is queued: with one worker, a
    task added while another runs is freed without having run, although the
    worker's exit test waits for an empty queue.  [linx_thread_pool_destroy]
    itself sets every thread to TERMINATING, which the worker tests first. *)
Theorem graceful_destroy_drops_tasks (f : F) (a b : A) :
  ∃ tr s, steps (init 1 1) tr s ∧ sy_destroy s = D_done
    ∧ Added 0 f a ∈ tr ∧ Added 1 f b ∈ tr ∧ Shutdown 1 ∈ tr
    ∧ tr ≫= ran_of = [0%nat] ∧ tr ≫= dropped_of = [1%nat].
Proof.
  destruct (acts (drop_schedule f a b) (init 1 1)) as [[tr s]|] eqn:E; [|by vm_compute in E].
  exists tr, s. split; [by eapply acts_steps|]. vm_compute in E. injection E as <- <-.
  split; [done|]. rewrite !list_elem_of_In. repeat split; try done; cbn; tauto.
Qed.
End pool.

(** ** Instances *)
Definition one_thread : sys := init (F := nat) (A := nat) 1 1.

(** The schedule up to the shutdown. *)
Definition at_shutdown : list action := take 7 (drop_schedule 10 20 30)%nat.

Lemma at_shutdown_state :
  match acts at_shutdown one_thread with
  | Some (tr, mk_sys (Some p) ws d) =>
      steps one_thread tr (mk_sys (Some p) ws d) ∧ tr ≫= picked_of = [0%nat] ∧ tp_queue p = [1%nat]
      ∧ tp_shutdown p = 1 ∧ tp_threads p = [LINX_THREAD_STATE_RUNNING] ∧ ws = [W_run 0]
  | _ => False
  end.
Proof.
  destruct (acts at_shutdown one_thread) as [[tr s]|] eqn:E; [|by vm_compute in E].
  pose proof (acts_steps _ _ _ _ E) as H. vm_compute in E. injection E as <- <-. by split.
Qed.

Lemma thread_pool_memory_safe_witness :
  ∃ tr p ws d, steps one_thread tr (mk_sys (Some p) ws d) ∧ tp_queue p = [1%nat] ∧ ws = [W_run 0]
    ∧ NoDup (tp_queue p ++ held ws).
Proof.
  pose proof at_shutdown_state as H. destruct (acts at_shutdown one_thread) as [[tr [[p|] ws d]]|]; [|done..].
  destruct H as (Hst & _ & Hq & _ & _ & Hw). exists tr, p, ws, d. split; [exact Hst|]. split; [exact Hq|].
  split; [exact Hw|]. exact (proj1 (proj2 (thread_pool_memory_safe 1 1 tr p ws d Hst))).
Defined.

Lemma thread_pool_fifo_witness :
  ∃ tr s, steps one_thread tr s ∧ tr ≫= picked_of = [0%nat]
    ∧ tr ≫= added_of = (tr ≫= picked_of) ++ (tr ≫= dropped_of) ++ queue_of s.
Proof.
  pose proof at_shutdown_state as H. destruct (acts at_shutdown one_thread) as [[tr [[p|] ws d]]|]; [|done..].
  destruct H as (Hst & Hp & _). exists tr, (mk_sys (Some p) ws d). split; [exact Hst|]. split; [exact Hp|].
  exact (proj1 (thread_pool_fifo 1 1 tr _ Hst)).
Defined.

(** Two threads, each of which runs a loop when the pool is shut down: only
    the task taken last is told. *)
Definition two_threads : sys := init (F := nat) (A := nat) 2 2.
Definition at_loops : list action :=
  (DoAdd 10 20 :: replicate 4 (DoWork 0) ++ DoAdd 10 30 :: replicate 4 (DoWork 1) ++ [DoDestroy 1])%nat.

(** What the witness needs of a state: the tasks in memory and who runs them. *)
Lemma told_state :
  match acts at_shutdown one_thread with
  | Some (tr, mk_sys (Some p) ws d) =>
      steps one_thread tr (mk_sys (Some p) ws d) ∧ tp_shutdown p = 1 ∧ none_paused p
      ∧ ¬ untold (λ _, true) p ws ∧ work_left p ws = 12%nat ∧ length (tp_queue p ++ (ws ≫= to_run)) = 2%nat
  | _ => False
  end.
Proof.
  destruct (acts at_shutdown one_thread) as [[tr s]|] eqn:E; [|by vm_compute in E].
  pose proof (acts_steps _ _ _ _ E) as H. vm_compute in E. injection E as <- <-. repeat split; try done.
  - unfold none_paused. cbn. by rewrite list_elem_of_singleton.
  - intros (i & t & task & Hi & Ht & _ & H0). destruct i as [|i]; [|done]. injection Hi as <-.
    vm_compute in Ht. by injection Ht as <-.
Qed.

Lemma untold_state :
  match acts at_loops two_threads with
  | Some (tr, mk_sys (Some p) ws d) =>
      steps two_threads tr (mk_sys (Some p) ws d) ∧ tp_shutdown p = 1 ∧ none_paused p
      ∧ ws !! 0%nat = Some (W_run 0) ∧ tp_tasks p !! 0%nat = Some (mk_task 10%nat 20%nat 0)
      ∧ ws !! 1%nat = Some (W_run 1) ∧ tp_tasks p !! 1%nat = Some (mk_task 10%nat 30%nat 1)
  | _ => False
  end.
Proof.
  destruct (acts at_loops two_threads) as [[tr s]|] eqn:E; [|by vm_compute in E].
  pose proof (acts_steps _ _ _ _ E) as H. vm_compute in E. injection E as <- <-. repeat split; try done.
  unfold none_paused. cbn. rewrite !elem_of_cons. intros [|[|Hn]]; try done. inversion Hn.
Qed.

Lemma thread_pool_destroy_terminates_witness :
  (∃ tr p ws d, steps one_thread tr (mk_sys (Some p) ws d) ∧ tp_shutdown p = 1
    ∧ ∀ tr' p' ws', worker_steps p ws tr' p' ws' → ends_within 3 (λ _, true) p tr' → (length tr' ≤ 18)%nat)
  ∧ (∃ tr p ws d, steps two_threads tr (mk_sys (Some p) ws d) ∧ tp_shutdown p = 1
    ∧ ∀ tr' s', steps (mk_sys (Some p) ws d) tr' s' → ends_when_told (λ f, f =? 10)%nat tr' → sy_destroy s' ≠ D_done).
Proof.
  split.
  - pose proof told_state as H. destruct (acts at_shutdown one_thread) as [[tr [[p|] ws d]]|]; [|done..].
    destruct H as (Hst & Hs & Hnp & Hu & Hw & Hl). exists tr, p, ws, d. split; [exact Hst|]. split; [exact Hs|].
    intros tr' p' ws' Hrun He. assert (Hne : tp_shutdown p ≠ 0) by (rewrite Hs; discriminate).
    destruct (proj1 (thread_pool_destroy_terminates 1 1 tr p ws d (λ _, true) 3 Hst Hne Hnp) Hu tr' p' ws' Hrun He)
      as [Hle _]. rewrite Hw, Hl in Hle. exact Hle.
  - pose proof untold_state as H. destruct (acts at_loops two_threads) as [[tr [[p|] ws d]]|]; [|done..].
    destruct H as (Hst & Hs & Hnp & Hi & Ht & _). exists tr, p, ws, d. split; [exact Hst|]. split; [exact Hs|].
    intros tr' s' Hsteps Ho. assert (Hne : tp_shutdown p ≠ 0) by (rewrite Hs; discriminate).
    exact (proj1 (proj2 (thread_pool_destroy_terminates 2 2 tr p ws d (λ f, f =? 10)%nat 0 Hst Hne Hnp)
      0%nat 0%nat _ Hi Ht eq_refl eq_refl tr' s' Hsteps Ho)).
Defined.
