(* ===== verification/Alert.v ===== *)
(** * Alerts (userspace/linx_alert/)

    A rule that matches formats its message, copies the configuration of the
    output back ends and queues a task on a thread pool; the task writes the
    message to every enabled back end.  The state is the static variable
    [s_alert], [None] for a null pointer; what reaches standard output is a
    list of strings.  A message belongs to the one task that holds it, so it
    is a value.  Calls of pthread and of [malloc] succeed. *)
From S2P Require Import Prelude CString Memory EventTable HashMap Output ThreadPool.
From Stdlib Require Import Ascii.

#[local] Open Scope Z_scope.

(** ** Data (include/linx_alert.h) *)
Definition LINX_ALERT_TYPE_STDOUT : Z := 0.
Definition LINX_ALERT_TYPE_FILE : Z := 1.
Definition LINX_ALERT_TYPE_HTTP : Z := 2.
Definition LINX_ALERT_TYPE_SYSLOG : Z := 3.
Definition LINX_ALERT_TYPE_MAX : Z := 4.

(** The union of the back ends' settings; the back ends do not read it. *)
Inductive alert_settings :=
  | stdout_config (use_color : bool)
  | file_config (file_path : option string)
  | http_config (url headers : option string)
  | syslog_config (facility : Z).

Record linx_alert_config_t := mk_alert_config {
  ac_type : Z;
  ac_enabled : bool;
  ac_config : alert_settings
}.

Record linx_alert_message_t := mk_alert_message {
  am_message : option string;
  am_message_len : Z;
  am_config : list linx_alert_config_t;
  am_rule_name : option string;
  am_priority : Z
}.

(** The one function the pool runs. *)
Inductive alert_task_fn := Linx_alert_worker_task.

Abbreviation alert_pool := (@linx_thread_pool_t alert_task_fn (option linx_alert_message_t)).

Record linx_alert_t := mk_alert {
  al_thread_pool : option alert_pool;
  al_config : list linx_alert_config_t;
  al_initialized : bool;
  al_total_alerts_send : Z;
  al_total_alerts_failed : Z
}.

Abbreviation alert_state := (option linx_alert_t).

(** What [memset] leaves in a configuration. *)
Definition zero_config : linx_alert_config_t := mk_alert_config 0 false (stdout_config false).

(** ** Life cycle *)
Definition linx_alert_init (cpus thread_pool_size : Z) (s_alert : alert_state) : Z * alert_state :=
  match s_alert with
  | Some _ => (0, s_alert)
  | None =>
      let n := if thread_pool_size <=? 0 then 4 else thread_pool_size in
      (0, Some (mk_alert (Some (linx_thread_pool_create cpus n))
            (<[Z.to_nat LINX_ALERT_TYPE_STDOUT := mk_alert_config LINX_ALERT_TYPE_STDOUT true (stdout_config false)]>
               (replicate (Z.to_nat LINX_ALERT_TYPE_MAX) zero_config))
            true 0 0))
  end.

(** The joins of the pool's destructor wait for its workers, see
    [ThreadPool]; here they return. *)
Definition linx_alert_deinit (s_alert : alert_state) : outcome alert_state :=
  match s_alert with
  | None => mret None
  | Some a =>
      match al_thread_pool a with
      | None => mret None
      | Some _ => _ ← destroy_begin (al_thread_pool a) 1; mret None
      end
  end.

(** ** Configuration *)
Definition in_types (type : Z) : bool := negb ((type <? 0) || (LINX_ALERT_TYPE_MAX <=? type)).

Definition with_config (f : list linx_alert_config_t → list linx_alert_config_t) (a : linx_alert_t) : linx_alert_t :=
  mk_alert (al_thread_pool a) (f (al_config a)) (al_initialized a) (al_total_alerts_send a) (al_total_alerts_failed a).

Definition linx_alert_set_config_enable (type : Z) (enable : bool) (s_alert : alert_state) : Z * alert_state :=
  match s_alert with
  | None => (-1, s_alert)
  | Some a =>
      if negb (in_types type) then (-1, s_alert)
      else (0, Some (with_config (alter (λ c, mk_alert_config (ac_type c) enable (ac_config c)) (Z.to_nat type)) a))
  end.

Definition linx_alert_update_config (config : linx_alert_config_t) (s_alert : alert_state) : Z * alert_state :=
  match s_alert with
  | None => (-1, s_alert)
  | Some a =>
      if negb (in_types (ac_type config)) then (-1, s_alert)
      else (0, Some (with_config (<[Z.to_nat (ac_type config) := config]>) a))
  end.

(** ** Back ends: the return code and what is printed *)
Definition linx_alert_output_stdout (message : string) : Z * list string := (0, [message]).
Definition linx_alert_output_file : Z * list string := (0, []).
Definition linx_alert_output_http : Z * list string := (0, []).
Definition linx_alert_output_syslog : Z * list string := (0, []).

(** The [switch] over the type; [None] for the default case. *)
Definition output_of (type : Z) (message : string) : option (Z * list string) :=
  if type =? LINX_ALERT_TYPE_STDOUT then Some (linx_alert_output_stdout message)
  else if type =? LINX_ALERT_TYPE_FILE then Some linx_alert_output_file
  else if type =? LINX_ALERT_TYPE_HTTP then Some linx_alert_output_http
  else if type =? LINX_ALERT_TYPE_SYSLOG then Some linx_alert_output_syslog
  else None.

(** [success_count], [total_count] and what was printed. *)
Fixpoint outputs_loop (configs : list linx_alert_config_t) (message : string) (success total : Z)
    : Z * Z * list string :=
  match configs with
  | [] => (success, total, [])
  | config :: configs' =>
      if negb (ac_enabled config) then outputs_loop configs' message success total
      else
        match output_of (ac_type config) message with
        | None => outputs_loop configs' message success total
        | Some (ret, out) =>
            let '(s, t, out') := outputs_loop configs' message
              (if ret =? 0 then success + 1 else success) (total + 1) in
            (s, t, out ++ out')
        end
  end.

Definition linx_alert_send_to_outputs (message : option linx_alert_message_t) (s_alert : alert_state)
    : outcome (Z * list string * alert_state) :=
  match message with
  | Some (mk_alert_message (Some text) _ configs _ _) =>
      let '(success, total, out) := outputs_loop configs text 0 0 in
      a ← from_opt NullDeref s_alert;
      let sent := if 0 <? success then sext 64 (al_total_alerts_send a + 1) else al_total_alerts_send a in
      let failed := if success <? total then sext 64 (al_total_alerts_failed a + 1) else al_total_alerts_failed a in
      mret (if 0 <? success then 0 else -1, out,
            Some (mk_alert (al_thread_pool a) (al_config a) (al_initialized a) sent failed))
  | _ => mret (-1, [], s_alert)
  end.

(** The task argument is never null, its message may be. *)
Definition linx_alert_worker_task (message : option linx_alert_message_t) (should_stop : Z) (s_alert : alert_state)
    : outcome (list string * alert_state) :=
  if should_stop =? 2 then mret ([], s_alert)
  else
    match message with
    | None => mret ([], s_alert)
    | Some _ => '(_, out, s) ← linx_alert_send_to_outputs message s_alert; mret (out, s)
    end.

Definition linx_alert_message_create (formatted_message rule_name : option string) (priority : Z)
    : option linx_alert_message_t :=
  match formatted_message with
  | None => None
  | Some text => Some (mk_alert_message (Some text) (Z.of_nat (strlen text))
                        (replicate (Z.to_nat LINX_ALERT_TYPE_MAX) zero_config) rule_name priority)
  end.

(** [memcpy(message->config, s_alert->config)] *)
Definition copy_config (a : linx_alert_t) (msg : linx_alert_message_t) : linx_alert_message_t :=
  mk_alert_message (am_message msg) (am_message_len msg) (al_config a) (am_rule_name msg) (am_priority msg).

Section send.
Context (m : memory) (s : hash_map_state).

(** The buffer on the stack. *)
Definition stack_buffer : buffer := replicate 4096 None.

Definition linx_alert_send_async (output : option linx_output_match_t) (rule_name : option string) (priority : Z)
    (s_alert : alert_state) : outcome (Z * alert_state) :=
  match s_alert, output with
  | Some a, Some _ =>
      if negb (al_initialized a) then mret (-1, s_alert)
      else
        '(ret, buf) ← linx_output_match_format m s output stack_buffer;
        if ret <? 0 then mret (-1, s_alert)
        else
          text ← buf_cstr buf;
          match linx_alert_message_create (Some text) rule_name priority with
          | None => mret (-1, s_alert)
          | Some msg =>
              let '(ret, pool) := linx_thread_pool_add_task (al_thread_pool a) (Some Linx_alert_worker_task)
                                    (Some (copy_config a msg)) in
              let a' := mk_alert pool (al_config a) (al_initialized a) (al_total_alerts_send a)
                          (al_total_alerts_failed a) in
              mret (if negb (ret =? 0) then -1 else 0, Some a')
          end
  | _, _ => mret (-1, s_alert)
  end.

(** The length that formatting returns is tested as an error code. *)
Definition linx_alert_send_sync (output : option linx_output_match_t) (rule_name : option string) (priority : Z)
    (s_alert : alert_state) : outcome (Z * list string * alert_state) :=
  match s_alert, output with
  | Some a, Some _ =>
      if negb (al_initialized a) then mret (-1, [], s_alert)
      else
        '(ret, buf) ← linx_output_match_format m s output stack_buffer;
        if negb (ret =? 0) then mret (-1, [], s_alert)
        else
          text ← buf_cstr buf;
          match linx_alert_message_create (Some text) rule_name priority with
          | None => mret (-1, [], s_alert)
          | Some msg =>
              '(_, out, s_alert) ← linx_alert_send_to_outputs (Some (copy_config a msg)) s_alert;
              mret (0, out, s_alert)
          end
  | _, _ => mret (-1, [], s_alert)
  end.

Definition linx_alert_format_and_send := linx_alert_send_sync.
End send.

(** The two counters. *)
Definition linx_alert_get_stats (s_alert : alert_state) : Z * Z :=
  match s_alert with
  | None => (0, 0)
  | Some a => (al_total_alerts_send a, al_total_alerts_failed a)
  end.

(** ** What a task prints *)
Definition prints_stdout (c : linx_alert_config_t) : bool :=
  ac_enabled c && (ac_type c =? LINX_ALERT_TYPE_STDOUT).

(** The number of slots of a configuration that write to standard output. *)
Definition stdout_slots (configs : list linx_alert_config_t) : nat :=
  length (List.filter prints_stdout configs).

(** An enabled slot of a known type. *)
Definition active (c : linx_alert_config_t) : bool := ac_enabled c && in_types (ac_type c).

Lemma output_of_spec type message :
  output_of type message
  = if in_types type then Some (0, if type =? LINX_ALERT_TYPE_STDOUT then [message] else []) else None.
Proof.
  unfold output_of, in_types, LINX_ALERT_TYPE_STDOUT, LINX_ALERT_TYPE_FILE, LINX_ALERT_TYPE_HTTP,
    LINX_ALERT_TYPE_SYSLOG, LINX_ALERT_TYPE_MAX.
  destruct (Z.eqb_spec type 0) as [->|]; [done|]. destruct (Z.eqb_spec type 1) as [->|]; [done|].
  destruct (Z.eqb_spec type 2) as [->|]; [done|]. destruct (Z.eqb_spec type 3) as [->|]; [done|].
  destruct (Z.ltb_spec type 0); [done|]. destruct (Z.leb_spec 4 type); [done|lia].
Qed.

Lemma outputs_loop_spec configs message success total :
  ∃ k, outputs_loop configs message success total
       = (success + Z.of_nat k, total + Z.of_nat k, replicate (stdout_slots configs) message)
    ∧ (k = 0%nat ↔ existsb active configs = false).
Proof.
  revert success total. induction configs as [|c configs IH]; intros success total.
  - exists 0%nat. cbn. by rewrite !Z.add_0_r.
  - cbn [outputs_loop existsb]. unfold stdout_slots, active, prints_stdout in *. cbn [List.filter].
    destruct (ac_enabled c); cbn [negb andb orb]; [|apply IH]. rewrite output_of_spec.
    destruct (in_types (ac_type c)) eqn:Et; cbn [orb].
    + destruct (IH (success + 1) (total + 1)) as (k & E & _). change (0 =? 0) with true. cbv iota.
      rewrite E. exists (S k). split; [|done]. replace (success + 1 + Z.of_nat k) with (success + Z.of_nat (S k)) by lia.
      replace (total + 1 + Z.of_nat k) with (total + Z.of_nat (S k)) by lia.
      by destruct (ac_type c =? LINX_ALERT_TYPE_STDOUT).
    + destruct (IH success total) as (k & -> & Hk). exists k. split; [|done].
      destruct (Z.eqb_spec (ac_type c) LINX_ALERT_TYPE_STDOUT) as [E|]; [by rewrite E in Et|done].
Qed.

(** The state after a task that wrote to an active slot. *)
Definition count_sent (sent : bool) (a : linx_alert_t) : linx_alert_t :=
  mk_alert (al_thread_pool a) (al_config a) (al_initialized a)
    (if sent then sext 64 (al_total_alerts_send a + 1) else al_total_alerts_send a) (al_total_alerts_failed a).

Lemma worker_task_prints text len configs name prio should_stop a :
  should_stop ≠ 2 →
  linx_alert_worker_task (Some (mk_alert_message (Some text) len configs name prio)) should_stop (Some a)
  = Ret [] (replicate (stdout_slots configs) text, Some (count_sent (existsb active configs) a)).
Proof.
  intros Hs. unfold linx_alert_worker_task, linx_alert_send_to_outputs.
  destruct (Z.eqb_spec should_stop 2); [done|].
  destruct (outputs_loop_spec configs text 0 0) as (k & -> & Hk). cbn [from_opt]. rewrite bind_ret_l, Z.ltb_irrefl.
  unfold count_sent. destruct (existsb active configs).
  - destruct (Z.ltb_spec 0 (0 + Z.of_nat k)); [done|]. assert (k = 0%nat) by lia. naive_solver.
  - rewrite (proj2 Hk) by done. done.
Qed.

Definition text_of (m : memory) (s : hash_map_state) (om : linx_output_match_t) (text : string) : Prop :=
  ∃ ts, Forall2 (segment_prints m s) (om_segments om) ts ∧ text = concat_str ts ∧ Z.of_nat (strlen text) < 4095.

Lemma stack_buffer_format m s om text :
  text_of m s om text →
  ∃ b, linx_output_match_format m s (Some om) stack_buffer = Ret [] (Z.of_nat (strlen text), b)
    ∧ buf_cstr b = Ret [] text.
Proof.
  intros (ts & H & -> & Hlen). unfold stack_buffer.
  assert (Hl : Z.of_nat (length (Some NUL :: replicate 4095 None)) = 4096) by (by vm_compute).
  destruct (format_loop_prints m s (om_segments om) ts (Some NUL :: replicate 4095 None) "" H)
    as (b' & E & Hb'); [by eexists|done|rewrite Hl; change (strlen "") with 0%nat; lia|by rewrite Hl|].
  exists b'. split; [exact E|]. apply holds_cstr; [by eapply segments_no_nul|done].
Qed.

(** C35: an alert reaches standard output.  When the message of a match fits
    the 4096-byte buffer, [linx_alert_send_async] returns 0 and puts one task
    at the end of the pool's queue, with the text and the configuration of
    that moment; the task, run later in whatever state the alert module is in
    then, prints the text once for each slot that was enabled for standard
    output, counts one alert sent when a slot was active, and never counts a
    failure. *)
Theorem alert_async_delivers m s om text rule_name priority a p :
  text_of m s om text →
  al_initialized a = true → al_thread_pool a = Some p → tp_shutdown p = 0 →
  ∃ p' msg, linx_alert_send_async m s (Some om) rule_name priority (Some a)
      = Ret [] (0, Some (mk_alert (Some p') (al_config a) true (al_total_alerts_send a) (al_total_alerts_failed a)))
    ∧ tp_queue p' = tp_queue p ++ [tp_fresh p]
    ∧ tp_tasks p' = <[tp_fresh p := mk_task Linx_alert_worker_task (Some msg) 0]> (tp_tasks p)
    ∧ ∀ should_stop a', should_stop ≠ 2 →
        linx_alert_worker_task (Some msg) should_stop (Some a')
        = Ret [] (replicate (stdout_slots (al_config a)) text,
                  Some (count_sent (existsb active (al_config a)) a')).
Proof.
  intros Htext Hinit Hpool Hshut. destruct (stack_buffer_format m s om text Htext) as (b & E & Eb).
  unfold linx_alert_send_async. rewrite Hinit. cbn [negb]. rewrite E, bind_Ret_nil.
  destruct (Z.ltb_spec (Z.of_nat (strlen text)) 0); [lia|]. rewrite Eb, bind_Ret_nil. cbn [linx_alert_message_create].
  unfold linx_thread_pool_add_task. rewrite Hpool, Hshut. cbn [Z.eqb negb].
  eexists _, _. split; [done|]. split; [done|]. split; [done|].
  intros should_stop a' Hs. by apply worker_task_prints.
Qed.

(** The synchronous path takes the length of the message for an error:
    no alert with a text is ever written by [linx_alert_send_sync], which
    returns -1 and changes nothing. *)
Theorem alert_sync_rejects m s om text rule_name priority a :
  text_of m s om text → text ≠ "" →
  linx_alert_send_sync m s (Some om) rule_name priority (Some a) = Ret [] (-1, [], Some a)
  ∧ linx_alert_format_and_send m s (Some om) rule_name priority (Some a) = Ret [] (-1, [], Some a).
Proof.
  intros Htext Hne. destruct (stack_buffer_format m s om text Htext) as (b & E & _).
  assert (linx_alert_send_sync m s (Some om) rule_name priority (Some a) = Ret [] (-1, [], Some a)); [|done].
  unfold linx_alert_send_sync. destruct (negb _); [done|]. rewrite E, bind_Ret_nil.
  destruct (Z.eqb_spec (Z.of_nat (strlen text)) 0); [|done]. by destruct text.
Qed.

(** Enabling a back end does not select it.  [linx_alert_init] leaves
    the type 0 in every slot, and [linx_alert_set_config_enable] sets only
    the flag: with the file, HTTP or syslog output enabled right after
    initialisation, every message is printed twice on standard output. *)
Theorem alert_enable_prints_twice cpus size type text len name prio should_stop :
  0 < type < LINX_ALERT_TYPE_MAX → should_stop ≠ 2 →
  ∃ a, linx_alert_set_config_enable type true (linx_alert_init cpus size None).2 = (0, Some a)
    ∧ ∃ a', linx_alert_worker_task (Some (mk_alert_message (Some text) len (al_config a) name prio)) should_stop (Some a)
        = Ret [] ([text; text], Some a').
Proof.
  intros Ht Hs. unfold LINX_ALERT_TYPE_MAX in Ht.
  unfold linx_alert_set_config_enable, linx_alert_init. cbn [snd].
  assert (type = 1 ∨ type = 2 ∨ type = 3) as [->|[->| ->]] by lia;
    (eexists; split; [done|]; rewrite worker_task_prints by done; eexists; done).
Qed.

Definition alert_ex : linx_alert_t :=
  match (linx_alert_init 4 2 None).2 with Some a => a | None => mk_alert None [] false 0 0 end.
Definition om_ex : linx_output_match_t :=
  mk_output_match [SEGMENT_TYPE_LITERAL "ran " 4; SEGMENT_TYPE_VARIABLE (resolve 0 proc_registry "proc.name")] 2.

Lemma text_of_ex : text_of proc_memory proc_registry om_ex "ran ls".
Proof.
  exists ["ran "; "ls"]. split; [repeat constructor; vm_compute; reflexivity || lia|]. split; [done|]. cbn. lia.
Qed.

Lemma alert_async_delivers_witness :
  ∃ p' msg, linx_alert_send_async proc_memory proc_registry (Some om_ex) (Some "r") 0 (Some alert_ex)
      = Ret [] (0, Some (mk_alert (Some p') (al_config alert_ex) true 0 0))
    ∧ tp_queue p' = [0%nat]
    ∧ ∃ a', linx_alert_worker_task (Some msg) 0 (Some alert_ex) = Ret [] (["ran ls"], a').
Proof.
  destruct (alert_async_delivers proc_memory proc_registry om_ex "ran ls" (Some "r") 0 alert_ex
    (linx_thread_pool_create 4 2) text_of_ex eq_refl eq_refl eq_refl) as (p' & msg & E & Hq & _ & Hrun).
  exists p', msg. split; [exact E|]. split; [exact Hq|]. eexists. exact (Hrun 0 alert_ex ltac:(discriminate)).
Defined.

Lemma alert_sync_rejects_witness :
  linx_alert_send_sync proc_memory proc_registry (Some om_ex) (Some "r") 0 (Some alert_ex)
  = Ret [] (-1, [], Some alert_ex).
Proof.
  exact (proj1 (alert_sync_rejects proc_memory proc_registry om_ex "ran ls" (Some "r") 0 alert_ex text_of_ex
    ltac:(discriminate))).
Defined.

Lemma alert_enable_prints_twice_witness :
  ∃ a, linx_alert_set_config_enable LINX_ALERT_TYPE_FILE true (linx_alert_init 4 2 None).2 = (0, Some a)
    ∧ ∃ a', linx_alert_worker_task (Some (mk_alert_message (Some "x") 1 (al_config a) None 0)) 0 (Some a)
        = Ret [] (["x"; "x"], Some a').
Proof. exact (alert_enable_prints_twice 4 2 1 "x" 1 None 0 0 ltac:(vm_compute; split; reflexivity) ltac:(discriminate)). Defined.

(** The destructor of a module that sent no alert reads the pool's unset
    [task_runing]. *)
Lemma alert_deinit_unused cpus size :
  linx_alert_deinit (linx_alert_init cpus size None).2 = Ub UninitRead.
Proof. reflexivity. Qed.
