(* ===== verification/RuleSet.v ===== *)
(** * The rule set (rule_engine_set/linx_rule_engine_set.c)

    The loaded rules in order, each with its match and its message template.
    The state is the static variable [rule_set], [None] for a null pointer;
    its three arrays have one length, [size], and hold one entry per rule. *)
From S2P Require Import Prelude CString Memory EventTable HashMap OpType Ast Output Match ThreadPool Alert.
From Stdlib Require Import Ascii.

#[local] Open Scope Z_scope.

(** ** Data (rule_engine_load/include, rule_engine_set/include) *)
Record linx_rule_t := mk_rule {
  r_name : option string;
  r_desc : option string;
  r_condition : option string;
  r_output : option string;
  r_priority : option string;
  r_chdesc : option string;
  r_notify_title : option string;
  r_notify_content : option string
}.

Definition linx_rule_create : linx_rule_t := mk_rule None None None None None None None None.

Record rule_entry := mk_entry {
  re_rule : linx_rule_t;
  re_match : linx_rule_match_t;
  re_output : linx_output_match_t
}.

Record linx_rule_set_t := mk_rule_set {
  rs_data : list rule_entry;
  rs_capacity : Z
}.

Definition rs_size (rs : linx_rule_set_t) : Z := Z.of_nat (length (rs_data rs)).

(** ** Operations *)
Definition linx_rule_set_init : Z * option linx_rule_set_t := (0, Some (mk_rule_set [] 0)).

(** The rule and the template are freed as well, see [Release]. *)
Fixpoint destroy_entries (es : list rule_entry) : outcome unit :=
  match es with
  | [] => mret ()
  | e :: es' => _ ← linx_rule_engine_match_destroy (re_match e); destroy_entries es'
  end.

Definition linx_rule_set_deinit (rule_set : option linx_rule_set_t) : outcome (option linx_rule_set_t) :=
  match rule_set with
  | None => mret None
  | Some rs => _ ← destroy_entries (rs_data rs); mret None
  end.

Definition linx_rule_set_get (rule_set : option linx_rule_set_t) : option linx_rule_set_t := rule_set.

Definition linx_rule_set_resize (rs : linx_rule_set_t) : linx_rule_set_t :=
  mk_rule_set (rs_data rs) (if rs_capacity rs =? 0 then 16 else wrap 64 (rs_capacity rs * 2)).

(** A null rule, match or template is refused; the entry is written at
    [size]. *)
Definition linx_rule_set_add (rule : option linx_rule_t) (match_ : linx_rule_match_t)
    (output : option linx_output_match_t) (rule_set : option linx_rule_set_t)
    : outcome (Z * option linx_rule_set_t) :=
  match rule_set, rule, match_null match_, output with
  | Some rs, Some rule, false, Some output =>
      let rs := if rs_capacity rs <=? rs_size rs then linx_rule_set_resize rs else rs in
      if rs_size rs <? rs_capacity rs
      then mret (0, Some (mk_rule_set (rs_data rs ++ [mk_entry rule match_ output]) (rs_capacity rs)))
      else Ub HeapOverflow
  | _, _, _, _ => mret (-1, rule_set)
  end.

Section match_rule.
Context (m : memory) (s : hash_map_state).

Fixpoint match_loop (es : list rule_entry) (alert : alert_state) : outcome (bool * alert_state) :=
  match es with
  | [] => mret (false, alert)
  | e :: es' =>
      if match_null (re_match e) then match_loop es' alert
      else
        b ← linx_rule_engine_match m s (re_match e);
        if (b : bool) then
          '(_, alert) ← linx_alert_send_async m s (Some (re_output e)) (r_name (re_rule e)) 0 alert;
          mret (true, alert)
        else match_loop es' alert
  end.

Definition linx_rule_set_match_rule (rule_set : option linx_rule_set_t) (alert : alert_state)
    : outcome (bool * alert_state) :=
  match rule_set with
  | None => mret (false, alert)
  | Some rs => match_loop (rs_data rs) alert
  end.

(** The verdict of a match that runs without undefined behaviour. *)
Definition entry_answers (e : rule_entry) (b : bool) : Prop :=
  match_null (re_match e) = false ∧ linx_rule_engine_match m s (re_match e) = Ret [] b.

(** Only the first rule that matches has an effect; the rules behind it are
    not evaluated. *)
Lemma match_loop_first pre e post alert :
  Forall (λ e, entry_answers e false) pre → entry_answers e true →
  match_loop (pre ++ e :: post) alert
  = ('(_, alert) ← linx_alert_send_async m s (Some (re_output e)) (r_name (re_rule e)) 0 alert;
     mret (true, alert)).
Proof.
  intros Hpre [Hn He]. induction Hpre as [|e' pre [Hn' He'] _ IH]; cbn [app match_loop].
  - by rewrite Hn, He, bind_Ret_nil.
  - by rewrite Hn', He', bind_Ret_nil.
Qed.

Lemma match_loop_none es alert :
  Forall (λ e, entry_answers e false) es → match_loop es alert = Ret [] (false, alert).
Proof.
  induction 1 as [|e es [Hn He] _ IH]; [done|]. cbn [match_loop]. by rewrite Hn, He, bind_Ret_nil.
Qed.
End match_rule.

(** ** The arrays have room for what they hold *)
Definition rs_wf (rs : linx_rule_set_t) : Prop :=
  rs_size rs ≤ rs_capacity rs ∧ rs_capacity rs ≤ 16 + 2 * rs_size rs.

Lemma rule_set_add_ok rs rule match_ output :
  rs_wf rs → rs_size rs < 2 ^ 60 → match_null match_ = false →
  ∃ rs', linx_rule_set_add (Some rule) match_ (Some output) (Some rs) = Ret [] (0, Some rs')
    ∧ rs_wf rs' ∧ rs_data rs' = rs_data rs ++ [mk_entry rule match_ output].
Proof.
  intros [H1 H2] Hs Hn. assert (0 ≤ rs_size rs) by (unfold rs_size; lia).
  unfold linx_rule_set_add. rewrite Hn. unfold linx_rule_set_resize.
  assert (Hpush : ∀ cap, rs_size rs < cap → cap ≤ 18 + 2 * rs_size rs →
    ∃ rs', (if rs_size (mk_rule_set (rs_data rs) cap) <? rs_capacity (mk_rule_set (rs_data rs) cap)
            then mret (0, Some (mk_rule_set (rs_data (mk_rule_set (rs_data rs) cap) ++ [mk_entry rule match_ output])
                                  (rs_capacity (mk_rule_set (rs_data rs) cap))))
            else Ub HeapOverflow) = Ret [] (0, Some rs')
      ∧ rs_wf rs' ∧ rs_data rs' = rs_data rs ++ [mk_entry rule match_ output]).
  { intros cap Hc1 Hc2. cbn [rs_data rs_capacity]. change (rs_size (mk_rule_set (rs_data rs) cap)) with (rs_size rs).
    destruct (Z.ltb_spec (rs_size rs) cap); [|lia]. eexists. split; [done|]. split; [|done].
    unfold rs_wf, rs_size in *. cbn. rewrite length_app. cbn. lia. }
  destruct (Z.leb_spec (rs_capacity rs) (rs_size rs)).
  - apply Hpush; case_match; rewrite ?wrap_small; lia.
  - destruct rs as [data cap]. apply Hpush; cbn in *; lia.
Qed.

(** Destroying a set that holds a rule reads the member [type] of its match,
    which nothing sets. *)
Lemma rule_set_deinit_unset rs e es :
  rs_data rs = e :: es → match_null (re_match e) = false → linx_rule_set_deinit (Some rs) = Ub UninitRead.
Proof. intros H Hn. unfold linx_rule_set_deinit. rewrite H. cbn. by destruct (re_match e). Qed.
