(* ===== verification/RuleLoad.v ===== *)
(** * Loading rules (rule_engine_load/linx_rule_engine_load.c)

    Every file of the rules directory, or the one file, is a YAML sequence of
    rules; each is parsed, compiled and added to the rule set.  The file
    system is what the code asks of it: the kind of a path, the entries of a
    directory and the YAML events of a file. *)
From S2P Require Import Prelude CString Memory EventTable HashMap OpType Regex Lexer Float Ast Parser.
From S2P Require Import Syntax Output Match RuleSemantics Yaml ThreadPool Alert RuleSet.
From Stdlib Require Import Ascii.

#[local] Open Scope Z_scope.

(** ** The file system *)
Inductive file_kind := IsDir | IsReg | IsOther.

Record filesystem := mk_fs {
  fs_stat : string → option file_kind;
  fs_readdir : string → option (list string);
  fs_yaml : string → option (list yaml_event)
}.

Section load.
Context `{Pcre2} (evt_num : Z) (s : hash_map_state).

(** [strdup(linx_yaml_get_string(root, path, default))] with the path made by
    [snprintf(path_buf, 256, "%d.key", i)]. *)
Definition rule_string (root : nat) (h : yaml_heap) (i : nat) (key default : string) : outcome (option string) :=
  v ← linx_yaml_get_string (Some root) (Some (stake 255 (show_int (Z.of_nat i) +:+ "." +:+ key))) (Some default) h;
  x ← from_opt NullDeref v; mret (Some x).

Definition read_rule (root : nat) (h : yaml_heap) (i : nat) : outcome linx_rule_t :=
  name ← rule_string root h i "rule" "unknown";
  desc ← rule_string root h i "desc" "NO";
  condition ← rule_string root h i "condition" "NO";
  output ← rule_string root h i "output" "NO";
  priority ← rule_string root h i "priority" "ERROR";
  chdesc ← rule_string root h i "chdesc" "NO";
  title ← rule_string root h i "notify.title" "NO";
  content ← rule_string root h i "notify.content" "NO";
  mret (mk_rule name desc condition output priority chdesc title content).

(** The loop from [i]; [match_] and [output_match] keep what the rule before
    left in them, and only the return code of the last addition is kept. *)
Fixpoint add_rules (root : nat) (h : yaml_heap) (i n : nat) (ret : Z) (match_ : linx_rule_match_t)
    (output_match : option linx_output_match_t) (rule_set : option linx_rule_set_t)
    : outcome (Z * option linx_rule_set_t) :=
  match n with
  | O => mret (ret, rule_set)
  | S n =>
      rule ← read_rule root h i;
      '(_, ast_root) ← condition_to_ast (r_condition rule);
      '(_, match_) ← linx_compile_ast evt_num s ast_root match_;
      '(_, output_match) ← linx_output_match_compile evt_num s output_match (r_output rule);
      '(ret, rule_set) ← linx_rule_set_add (Some rule) match_ output_match rule_set;
      add_rules root h (S i) n ret match_ output_match rule_set
  end.

Definition linx_rule_engine_add_rule_to_set (root : option nat) (h : yaml_heap)
    (rule_set : option linx_rule_set_t) : outcome (Z * option linx_rule_set_t) :=
  match root with
  | None => mret (-1, rule_set)
  | Some root =>
      node ← from_opt BadAddress (h !! root);
      add_rules root h 0 (length (yn_children node)) 0 MatchNull None rule_set
  end.

Definition linx_rule_engine_load_file (fs : filesystem) (file_path : string)
    (rule_set : option linx_rule_set_t) : outcome (Z * option linx_rule_set_t) :=
  '(root, h) ← linx_yaml_load (fs_yaml fs file_path);
  match root with
  | None => mret (-1, rule_set)
  | Some _ => linx_rule_engine_add_rule_to_set root h rule_set
  end.

(** The entries of a directory, up to the first that fails. *)
Fixpoint load_entries (fs : filesystem) (dir_path : string) (entries : list string) (ret : Z)
    (rule_set : option linx_rule_set_t) : outcome (Z * option linx_rule_set_t) :=
  match entries with
  | [] => mret (ret, rule_set)
  | d_name :: entries' =>
      if streq d_name "." || streq d_name ".." then load_entries fs dir_path entries' ret rule_set
      else
        '(ret, rule_set) ← linx_rule_engine_load_file fs (stake 1023 (dir_path +:+ "/" +:+ d_name)) rule_set;
        if negb (ret =? 0) then mret (ret, rule_set) else load_entries fs dir_path entries' ret rule_set
  end.

Definition linx_rule_engine_load_dir (fs : filesystem) (dir_path : string)
    (rule_set : option linx_rule_set_t) : outcome (Z * option linx_rule_set_t) :=
  match fs_readdir fs dir_path with
  | None => mret (-1, rule_set)
  | Some entries => load_entries fs dir_path entries 0 rule_set
  end.

(** The set is made anew whatever [rule_set] was. *)
Definition linx_rule_engine_load (fs : filesystem) (rules_file_path : string)
    : outcome (Z * option linx_rule_set_t) :=
  let '(_, rule_set) := linx_rule_set_init in
  match fs_stat fs rules_file_path with
  | None => mret (-1, rule_set)
  | Some IsDir => linx_rule_engine_load_dir fs rules_file_path rule_set
  | Some IsReg => linx_rule_engine_load_file fs rules_file_path rule_set
  | Some IsOther => mret (-1, rule_set)
  end.
End load.

(** ** What a rules file says *)

(** A scalar of a rule, or the default. *)
Definition rule_field (item : yaml) (path : list string) (default : string) : string :=
  match lookup_path item path with Some (YScalar v) => v | _ => default end.

Definition rule_of (item : yaml) : linx_rule_t :=
  mk_rule (Some (rule_field item ["rule"] "unknown")) (Some (rule_field item ["desc"] "NO"))
    (Some (rule_field item ["condition"] "NO")) (Some (rule_field item ["output"] "NO"))
    (Some (rule_field item ["priority"] "ERROR")) (Some (rule_field item ["chdesc"] "NO"))
    (Some (rule_field item ["notify"; "title"] "NO")) (Some (rule_field item ["notify"; "content"] "NO")).

(** A rule whose condition is [c] of the grammar. *)
Definition rule_item (item : yaml) (c : src) : Prop :=
  is_scalar item = false ∧ regular item = true
  ∧ rule_field item ["condition"] "NO" = print c "" ∧ src_ok c = true
  ∧ Z.of_nat (strlen (print c "")) < 2 ^ 31
  ∧ Z.of_nat (strlen (rule_field item ["output"] "NO")) < 2 ^ 31.

Lemma join_path_cons k path : path ≠ [] → join_path (k :: path) = k +:+ "." +:+ join_path path.
Proof. by destruct path. Qed.

Lemma rule_string_spec h root key items i item path default :
  holds_doc 0 h root key (YSeq items) → items !! i = Some item → Z.of_nat i < 2 ^ 31 →
  path ≠ [] → forallb component_ok path = true → (strlen (join_path path) ≤ 100)%nat →
  rule_string root h i (join_path path) default = Ret [] (Some (rule_field item path default)).
Proof.
  intros Hd Hi Hlt Hne Hok Hlen.
  destruct (show_int_digits (Z.of_nat i) ltac:(lia)) as (_ & _ & _ & Hshort). specialize (Hshort ltac:(lia)).
  unfold rule_string. rewrite <- join_path_cons by done.
  rewrite stake_ge by (rewrite join_path_cons, !strlen_app by done; change (strlen ".") with 1%nat; lia).
  unfold linx_yaml_get_string.
  rewrite (scalar_at_spec _ _ _ _ _ _ Hd) by (cbn [forallb]; by rewrite index_component).
  rewrite bind_Ret_nil. cbn [lookup_path]. rewrite strtol10_show_int by (unfold LONG_MAX; lia). cbn [streq negb orb].
  rewrite sext_small by lia. rewrite streq_refl. cbn [negb orb]. destruct (Z.ltb_spec (Z.of_nat i) 0); [lia|].
  rewrite Nat2Z.id, Hi. unfold rule_field. by destruct (lookup_path item path) as [[]|].
Qed.

Lemma read_rule_spec h root key items i item :
  holds_doc 0 h root key (YSeq items) → items !! i = Some item → Z.of_nat i < 2 ^ 31 →
  read_rule root h i = Ret [] (rule_of item).
Proof.
  intros Hd Hi Hlt. pose proof (λ p d, rule_string_spec h root key items i item p d Hd Hi Hlt) as E. unfold read_rule.
  change "notify.title" with (join_path ["notify"; "title"]). change "notify.content" with (join_path ["notify"; "content"]).
  rewrite !(E ["notify"; _]) by (done || cbn; lia).
  rewrite (E ["rule"]), (E ["desc"]), (E ["condition"]), (E ["output"]), (E ["priority"]), (E ["chdesc"])
    by (done || cbn; lia).
  by rewrite !bind_Ret_nil.
Qed.

Lemma compile_src evt_num s c :
  ∃ w rm, compile_ast evt_num s (to_ast c) = Ret w rm ∧ Forall (eq HeapOverflow) w ∧ match_null rm = false.
Proof.
  induction c as [f op v|f op ds|f v vs|f|c (w & rm & E & Hw & Hn)|a (w1 & r1 & E1 & Hw1 & Hn1) c (w2 & r2 & E2 & Hw2 & Hn2)
    |a (w1 & r1 & E1 & Hw1 & Hn1) c (w2 & r2 & E2 & Hw2 & Hn2)]; cbn [to_ast].
  - eexists [], _. by repeat split.
  - eexists [], _. by repeat split.
  - eexists [HeapOverflow], _. split; [apply (compile_in s evt_num f (v :: vs))|]. split; [by repeat constructor|done].
  - eexists [], _. by repeat split.
  - eexists w, _. cbn [compile_ast]. rewrite E. cbn. rewrite Hn. cbn. rewrite app_nil_r. by repeat split.
  - eexists (w1 ++ w2), _. cbn [compile_ast]. rewrite E1. cbn. rewrite E2. cbn. rewrite Hn1, Hn2. cbn.
    rewrite app_nil_r. split; [done|]. split; [by apply Forall_app|done].
  - eexists (w1 ++ w2), _. cbn [compile_ast]. rewrite E1. cbn. rewrite E2. cbn. rewrite Hn1, Hn2. cbn.
    rewrite app_nil_r. split; [done|]. split; [by apply Forall_app|done].
Qed.

(** ** The loaded set *)

(** The entry of a rule: its fields, the compiled condition and the segments
    of its message up to the first unknown variable. *)
Definition entry_of (evt_num : Z) (s : hash_map_state) (item : yaml) (c : src) (e : rule_entry) : Prop :=
  re_rule e = rule_of item
  ∧ match_null (re_match e) = false
  ∧ (∃ w, compile_ast evt_num s (to_ast c) = Ret w (re_match e))
  ∧ ∃ ps, rule_field item ["output"] "NO" = flatten ps ∧ pieces_wf ps
      ∧ om_segments (re_output e) = piece_segment evt_num s <$> found_prefix evt_num s ps.

Lemma bind_Ret_log {A B} w (a : A) (k : A → outcome B) : Ret w a ≫= k = (_ ← Ret w (); k a).
Proof. done. Qed.

Section load_spec.
Context {P : Pcre2} {PP : Pcre2Patterns P} (evt_num : Z) (s : hash_map_state).

Lemma load_one h root key items i item c n ret mt om rs :
  holds_doc 0 h root key (YSeq items) → items !! i = Some item → Z.of_nat i < 2 ^ 31 → rule_item item c →
  rs_wf rs → rs_size rs < 2 ^ 60 →
  ∃ w mt' om' rs' e, entry_of evt_num s item c e ∧ Forall (eq HeapOverflow) w ∧ rs_wf rs'
    ∧ rs_data rs' = rs_data rs ++ [e] ∧ mt' = re_match e
    ∧ ∀ k, add_rules evt_num s root h (S i) n 0 mt' om' (Some rs') = k →
        add_rules evt_num s root h i (S n) ret mt om (Some rs) = (_ ← Ret w (); k).
Proof.
  intros Hd Hi Hlt (_ & _ & Hc & Hok & Hs & Ho) Hwf Hsz.
  destruct (compile_src evt_num s c) as (w & rm & E & Hw & Hn).
  destruct (compile_loop_spec (S (strlen (rule_field item ["output"] "NO"))) evt_num s (mk_output_match [] 0) ""
    (rule_field item ["output"] "NO")) as (ps & o & Hps & Hpw & Eo & _ & Hso);
    [lia|done|unfold om_size; cbn [om_segments length]; lia|done|].
  destruct (rule_set_add_ok rs (rule_of item) rm o Hwf Hsz Hn) as (rs' & Ea & Hwf' & Hdata).
  exists w, rm, (Some o), rs', (mk_entry (rule_of item) rm o). split; [|split; [done|split; [done|split; [done|split; [done|]]]]].
  { split; [done|]. split; [done|]. split; [by exists w|]. by exists ps. }
  intros k <-. cbn [add_rules]. rewrite (read_rule_spec _ _ _ _ _ _ Hd Hi Hlt), bind_Ret_nil.
  cbn [r_condition r_output rule_of]. rewrite Hc, condition_parses, bind_Ret_nil by done.
  rewrite (compile_parsed _ _ _ _ _ _ E), bind_Ret_log. apply (f_equal (λ z, mbind (λ _, z) (Ret w ()))).
  unfold linx_output_match_compile. rewrite Eo, bind_Ret_nil, bind_ret_l. by rewrite Ea, bind_Ret_nil.
Qed.

Lemma load_all h root key items rest conds i ret mt om rs :
  holds_doc 0 h root key (YSeq items) → drop i items = rest → Z.of_nat (length items) < 2 ^ 31 →
  Forall2 rule_item rest conds → rs_wf rs → rs_size rs + Z.of_nat (length rest) < 2 ^ 60 →
  ∃ w rs' es, add_rules evt_num s root h i (length rest) ret mt om (Some rs)
      = Ret w (if rest is [] then ret else 0, Some rs')
    ∧ Forall (eq HeapOverflow) w ∧ rs_data rs' = rs_data rs ++ es ∧ Forall3 (entry_of evt_num s) rest conds es.
Proof.
  intros Hd Hrest Hlen HR. revert i ret mt om rs Hrest.
  induction HR as [|item c rest conds Hr _ IH]; intros i ret mt om rs Hrest Hwf Hsz.
  - exists [], rs, []. rewrite app_nil_r. repeat split; constructor.
  - assert (Hi : items !! i = Some item) by (rewrite <- (Nat.add_0_r i), <- lookup_drop, Hrest; done).
    assert (Hlt := lookup_lt_Some _ _ _ Hi). cbn [length] in *.
    destruct (load_one h root key items i item c (length rest) ret mt om rs Hd Hi ltac:(lia) Hr Hwf ltac:(lia))
      as (w & mt' & om' & rs1 & e & He & Hw & Hwf1 & Hd1 & _ & Hk).
    destruct (IH (S i) 0 mt' om' rs1) as (w2 & rs2 & es & E2 & Hw2 & Hd2 & Hes); [|done| |].
    + rewrite (drop_S _ item) in Hrest by done. by injection Hrest.
    + unfold rs_size in *. rewrite Hd1, length_app. cbn. lia.
    + exists (w ++ w2), rs2, (e :: es). rewrite (Hk _ eq_refl), E2. split; [by destruct rest|].
      split; [by apply Forall_app|]. split; [by rewrite Hd2, Hd1, <- app_assoc|]. by constructor.
Qed.

Lemma rule_items_regular items conds : Forall2 rule_item items conds → regular (YSeq items) = true.
Proof.
  intros HR. cbn [regular]. assert (H : ∀ b, scalars_first b items = true ∧ forallb regular items = true).
  { induction HR as [|item c items conds (Hsc & Hrg & _) _ IH]; [done|]. intros b.
    cbn [scalars_first forallb]. rewrite Hsc, andb_false_r, orb_true_r, Hrg. cbn. apply IH. }
  by destruct (H false) as [-> ->].
Qed.

(** Loading one file runs the loop over its items. *)
Lemma load_regular_file fs path items :
  fs_stat fs path = Some IsReg → fs_yaml fs path = Some (document (YSeq items)) →
  regular (YSeq items) = true →
  ∃ h, holds_doc 0 h 0 None (YSeq items)
    ∧ linx_rule_engine_load evt_num s fs path
      = add_rules evt_num s 0 h 0 (length items) 0 MatchNull None (Some (mk_rule_set [] 0)).
Proof.
  intros Hst Hy Hreg. destruct (load_document (YSeq items) Hreg eq_refl) as (h & El & Hd). exists h. split; [done|].
  unfold linx_rule_engine_load, linx_rule_set_init. rewrite Hst. unfold linx_rule_engine_load_file.
  rewrite Hy, El, bind_Ret_nil. destruct Hd as (_ & n & Hn & _ & _ & Hz).
  cbn [linx_rule_engine_add_rule_to_set]. rewrite Hn. cbn [from_opt]. by rewrite bind_ret_l, (zip_all_length _ _ _ Hz).
Qed.

Lemma load_rules_file fs path items conds :
  fs_stat fs path = Some IsReg → fs_yaml fs path = Some (document (YSeq items)) →
  Z.of_nat (length items) < 2 ^ 31 → Forall2 rule_item items conds →
  ∃ w rs, linx_rule_engine_load evt_num s fs path = Ret w (0, Some rs)
    ∧ Forall (eq HeapOverflow) w ∧ Forall3 (entry_of evt_num s) items conds (rs_data rs).
Proof.
  intros Hst Hy Hlen HR. pose proof (rule_items_regular _ _ HR) as Hreg.
  destruct (load_regular_file fs path items Hst Hy Hreg) as (h & Hd & ->).
  destruct (load_all h 0 None items items conds 0 0 MatchNull None (mk_rule_set [] 0) Hd eq_refl Hlen HR)
    as (w & rs & es & E & Hw & Hdata & Hes); [done|unfold rs_size; cbn [rs_data length]; lia|].
  exists w, rs. rewrite E. cbn [rs_data app] in Hdata. rewrite Hdata. split; [by destruct items|done].
Qed.

(** A rule whose condition gives no tree. *)
Lemma load_bad h root key items i bad ret mt om rs :
  holds_doc 0 h root key (YSeq items) → items !! i = Some bad → Z.of_nat i < 2 ^ 31 →
  condition_to_ast (Some (rule_field bad ["condition"] "NO")) = Ret [] (-1, AstNull) →
  Z.of_nat (strlen (rule_field bad ["output"] "NO")) < 2 ^ 31 →
  rs_wf rs → rs_size rs < 2 ^ 60 → match_null mt = false →
  ∃ rs' e, add_rules evt_num s root h i 1 ret mt om (Some rs) = Ret [] (0, Some rs')
    ∧ rs_data rs' = rs_data rs ++ [e] ∧ re_rule e = rule_of bad ∧ re_match e = mt.
Proof.
  intros Hd Hi Hlt Hbad Ho Hwf Hsz Hn.
  destruct (compile_loop_spec (S (strlen (rule_field bad ["output"] "NO"))) evt_num s (mk_output_match [] 0) ""
    (rule_field bad ["output"] "NO")) as (ps & o & _ & _ & Eo & _ & _);
    [lia|done|unfold om_size; cbn [om_segments length]; lia|done|].
  destruct (rule_set_add_ok rs (rule_of bad) mt o Hwf Hsz Hn) as (rs' & Ea & _ & Hdata).
  exists rs', (mk_entry (rule_of bad) mt o). split; [|done].
  cbn [add_rules]. rewrite (read_rule_spec _ _ _ _ _ _ Hd Hi Hlt), bind_Ret_nil.
  cbn [r_condition r_output rule_of]. rewrite Hbad, bind_Ret_nil. cbn [linx_compile_ast ast_null]. rewrite bind_ret_l.
  unfold linx_output_match_compile. rewrite Eo, bind_Ret_nil, bind_ret_l. by rewrite Ea, bind_Ret_nil.
Qed.
End load_spec.

Lemma Forall3_take {A B C} (R : A → B → C → Prop) xs ys zs n :
  Forall3 R xs ys zs → Forall3 R (take n xs) (take n ys) (take n zs).
Proof. intros H. revert n. induction H; intros [|n]; cbn; constructor; auto. Qed.

(** The compiled entry answers as its condition does. *)
Lemma entry_sem m s evt_num V item c e b :
  describes m s evt_num V → src_ok c = true → entry_of evt_num s item c e → sem V c = Some b →
  entry_answers m s e b.
Proof.
  intros HV Hok (_ & Hn & (w & E) & _) Hb. destruct (sem_answers m s evt_num V HV c b Hok Hb) as (w' & rm & E' & _ & _ & Hm).
  rewrite E in E'. injection E' as _ <-. by split.
Qed.

(** The template of a rule: the pieces of its output up to the first unknown
    variable. *)
Definition template_of (evt_num : Z) (s : hash_map_state) (item : yaml) (om : linx_output_match_t) : Prop :=
  ∃ ps, rule_field item ["output"] "NO" = flatten ps ∧ pieces_wf ps
    ∧ om_segments om = piece_segment evt_num s <$> found_prefix evt_num s ps.

(** C1: from a rules file to an alert.  Loading a file of rules whose
    conditions are of the grammar returns 0 and leaves in the rule set one
    entry per rule, in order.  Whenever the memory describes the fields
    afterwards, [linx_rule_set_match_rule] finds the first rule whose
    condition holds, whatever rules follow it: it sends exactly one alert,
    with the template and the name of that rule, and returns true; when no
    condition holds it returns false and sends nothing. *)
Theorem rules_file_first_match {P : Pcre2} {PP : Pcre2Patterns P} evt_num s fs path items conds :
  fs_stat fs path = Some IsReg → fs_yaml fs path = Some (document (YSeq items)) →
  Z.of_nat (length items) < 2 ^ 31 → Forall2 rule_item items conds →
  ∃ w rs, linx_rule_engine_load evt_num s fs path = Ret w (0, Some rs) ∧ Forall (eq HeapOverflow) w
    ∧ (re_rule <$> rs_data rs) = (rule_of <$> items)
    ∧ ∀ m V alert, describes m s evt_num V →
      (∀ k item c, items !! k = Some item → conds !! k = Some c → sem V c = Some true →
         Forall (λ c, sem V c = Some false) (take k conds) →
         ∃ om, template_of evt_num s item om
           ∧ linx_rule_set_match_rule m s (Some rs) alert
             = ('(_, alert') ← linx_alert_send_async m s (Some om) (Some (rule_field item ["rule"] "unknown")) 0 alert;
                mret (true, alert')))
      ∧ (Forall (λ c, sem V c = Some false) conds →
         linx_rule_set_match_rule m s (Some rs) alert = Ret [] (false, alert)).
Proof.
  intros Hst Hy Hlen HR. destruct (load_rules_file evt_num s fs path items conds Hst Hy Hlen HR) as (w & rs & E & Hw & Hes).
  exists w, rs. split; [done|]. split; [done|]. split.
  { clear -Hes. induction Hes as [|item c e items conds es (He & _) _ IH]; [done|]. cbn. by rewrite He, IH. }
  intros m V alert HV. cbn [linx_rule_set_match_rule].
  assert (Hfalse : ∀ its cs es, Forall2 rule_item its cs → Forall3 (entry_of evt_num s) its cs es →
    Forall (λ c, sem V c = Some false) cs → Forall (λ e, entry_answers m s e false) es).
  { clear -HV. intros its cs es HR Hes. induction Hes as [|item c e items conds es He _ IH]; [constructor|].
    inversion_clear HR as [|? ? ? ? Hr HR']. intros Hf. inversion_clear Hf. constructor; [|by apply IH].
    eapply entry_sem; [done|apply Hr|done|done]. }
  split.
  - intros k item c Hi Hc Ht Hf. destruct (Forall3_lookup_l _ _ _ _ _ _ Hes Hi) as (c' & e & Hc' & He & Hent).
    rewrite Hc in Hc'. injection Hc' as <-. destruct (Forall2_lookup_lr _ _ _ _ _ _ HR Hi Hc) as (_ & _ & _ & Hok & _).
    pose proof (entry_sem m s evt_num V item c e true HV Hok Hent Ht) as Ha.
    destruct Hent as (Hrule & _ & _ & Htmpl). exists (re_output e). split; [done|].
    rewrite <- (take_drop_middle (rs_data rs) k e He), (match_loop_first m s _ e _ alert); [by rewrite Hrule| |done].
    eapply Hfalse; [by apply Forall2_take|by apply Forall3_take|done].
  - intros Hf. apply match_loop_none. by eapply Hfalse.
Qed.

Definition rule_yaml (name condition output : string) : yaml :=
  YMap [("rule", YScalar name); ("condition", YScalar condition); ("output", YScalar output)].

Definition cat_rule : src := SStr "proc.name" BINARY_STR_OP_ASSIGN "cat".
Definition rules_fs_items : list yaml :=
  [rule_yaml "r0" (print cat_rule "") "cat!"; rule_yaml "r1" (print rule_ex "") "ran %proc.name"].
Definition rules_fs : filesystem :=
  mk_fs (λ _, Some IsReg) (λ _, None) (λ _, Some (document (YSeq rules_fs_items))).

Lemma rules_file_first_match_witness :
  ∃ w rs om, linx_rule_engine_load (H := lexer_engine) 0 proc_registry rules_fs "rules.yaml" = Ret w (0, Some rs)
    ∧ template_of 0 proc_registry (rule_yaml "r1" (print rule_ex "") "ran %proc.name") om
    ∧ linx_rule_set_match_rule proc_memory proc_registry (Some rs) (Some alert_ex)
      = ('(_, alert') ← linx_alert_send_async proc_memory proc_registry (Some om) (Some "r1") 0 (Some alert_ex);
         mret (true, alert')).
Proof.
  destruct (rules_file_first_match (P := lexer_engine) 0 proc_registry rules_fs "rules.yaml" rules_fs_items [cat_rule; rule_ex]
    eq_refl eq_refl ltac:(reflexivity) ltac:(repeat constructor)) as (w & rs & E & _ & _ & H).
  destruct (proj1 (H proc_memory V_ex (Some alert_ex) describes_ex) 1%nat _ _ eq_refl eq_refl eq_refl
    ltac:(repeat constructor)) as (om & Hom & Hm).
  exists w, rs, om. split; [exact E|]. split; [exact Hom|exact Hm].
Defined.

(** A rule that does not parse is loaded with the match of the rule
    before it.  The error codes of the three compilations are only logged and
    the local pointer keeps its value, so after a rule with a good condition,
    a rule whose condition gives no tree is added with its own name and
    message and the condition of the other, and loading returns 0. *)
Theorem invalid_rule_inherits_match {P : Pcre2} {PP : Pcre2Patterns P} evt_num s fs path item c bad :
  fs_stat fs path = Some IsReg → fs_yaml fs path = Some (document (YSeq [item; bad])) →
  rule_item item c → is_scalar bad = false → regular bad = true →
  condition_to_ast (Some (rule_field bad ["condition"] "NO")) = Ret [] (-1, AstNull) →
  Z.of_nat (strlen (rule_field bad ["output"] "NO")) < 2 ^ 31 →
  ∃ w rs e1 e2, linx_rule_engine_load evt_num s fs path = Ret w (0, Some rs)
    ∧ rs_data rs = [e1; e2] ∧ entry_of evt_num s item c e1
    ∧ re_rule e2 = rule_of bad ∧ re_match e2 = re_match e1.
Proof.
  intros Hst Hy Hr Hsb Hrb Hbad Hout.
  assert (Hreg : regular (YSeq [item; bad]) = true).
  { destruct Hr as (Hs1 & Hr1 & _). cbn. by rewrite Hs1, Hsb, Hr1, Hrb. }
  destruct (load_regular_file evt_num s fs path [item; bad] Hst Hy Hreg) as (h & Hd & ->).
  destruct (load_one evt_num s h 0 None [item; bad] 0 item c 1 0 MatchNull None (mk_rule_set [] 0) Hd eq_refl
    ltac:(done) Hr) as (w & mt & om & rs1 & e & He & Hw & Hwf1 & Hd1 & -> & Hk); [done|done|].
  cbn [rs_data app] in Hd1.
  destruct (load_bad evt_num s h 0 None [item; bad] 1 bad 0 (re_match e) om rs1 Hd eq_refl ltac:(done) Hbad Hout Hwf1)
    as (rs2 & e2 & E2 & Hd2 & Hrule & Hm); [unfold rs_size; by rewrite Hd1|apply He|].
  exists w, rs2, e, e2. cbn [length]. rewrite (Hk _ eq_refl), E2. rewrite Hd2, Hd1. cbn. rewrite app_nil_r. done.
Qed.

Lemma invalid_rule_inherits_match_witness :
  let items := [rule_yaml "good" (print cat_rule "") "cat!"; rule_yaml "bad" "= 3" "bad!"] in
  ∃ w rs e1 e2, linx_rule_engine_load (H := lexer_engine) 0 proc_registry
      (mk_fs (λ _, Some IsReg) (λ _, None) (λ _, Some (document (YSeq items)))) "rules.yaml" = Ret w (0, Some rs)
    ∧ rs_data rs = [e1; e2] ∧ r_name (re_rule e2) = Some "bad" ∧ re_match e2 = re_match e1.
Proof.
  intros items. destruct (invalid_rule_inherits_match (P := lexer_engine) 0 proc_registry
    (mk_fs (λ _, Some IsReg) (λ _, None) (λ _, Some (document (YSeq items)))) "rules.yaml"
    (rule_yaml "good" (print cat_rule "") "cat!") cat_rule (rule_yaml "bad" "= 3" "bad!"))
    as (w & rs & e1 & e2 & E & Hd & _ & Hrule & Hm);
    [reflexivity|reflexivity|repeat constructor|reflexivity|reflexivity|vm_compute; reflexivity|reflexivity|].
  exists w, rs, e1, e2. split; [exact E|]. split; [exact Hd|]. split; [by rewrite Hrule|exact Hm].
Defined.
