(* ===== verification/Release.v ===== *)
(** * What the destructors free

    The operations of the rule engine, the alerts and the registry are modelled
    with values in their own files.  Here are the blocks of memory behind such
    values and the functions that give them back: [linx_rule_destroy]
    (linx_rule_engine_load.c), [linx_output_match_destroy]
    (output_match_func.c), [linx_alert_message_destroy] (linx_alert.c),
    [linx_hash_map_deinit], [linx_hash_map_remove_table] and
    [linx_hash_map_free_table_list] (linx_hash_map.c).  Each definition lists
    the blocks that are freed, in order. *)
From S2P Require Import Prelude CString EventTable Uthash HashMap Output Alert RuleSet.

#[local] Open Scope Z_scope.
#[local] Set Warnings "-clear-no-such-hyp".

(** [free] of the block [b] if the pointer [x] to it is not null. *)
Definition free_if {A B} (x : option A) (b : B) : list B := match x with Some _ => [b] | None => [] end.

(** ** Rules *)
Inductive rule_block :=
  | RuleName | RuleDesc | RuleCondition | RuleOutput | RulePriority | RuleChdesc | RuleTitle | RuleContent
  | RuleStruct.

(** [tags] is null in every rule: nothing sets it. *)
Definition linx_rule_destroy (rule : option linx_rule_t) : list rule_block :=
  match rule with
  | None => []
  | Some r =>
      free_if (r_name r) RuleName ++ free_if (r_desc r) RuleDesc ++ free_if (r_condition r) RuleCondition
      ++ free_if (r_output r) RuleOutput ++ free_if (r_priority r) RulePriority ++ free_if (r_chdesc r) RuleChdesc
      ++ free_if (r_notify_title r) RuleTitle ++ free_if (r_notify_content r) RuleContent ++ [RuleStruct]
  end.

(** ** Message templates *)
Inductive output_block := SegmentArray | Segment (i : nat) | SegmentText (i : nat) | OutputStruct.

Definition output_block_of (m : linx_output_match_t) (b : output_block) : Prop :=
  match b with
  | OutputStruct => True
  | SegmentArray => om_capacity m ≠ 0
  | Segment i => is_Some (om_segments m !! i)
  | SegmentText i => ∃ text len, om_segments m !! i = Some (SEGMENT_TYPE_LITERAL text len)
  end.

Definition destroy_segment (i : nat) (segment : segment_t) : list output_block :=
  match segment with SEGMENT_TYPE_LITERAL _ _ => [SegmentText i; Segment i] | SEGMENT_TYPE_VARIABLE _ => [] end.

Definition linx_output_match_destroy (match_ : option linx_output_match_t) : list output_block :=
  match match_ with
  | None => []
  | Some m => concat (imap destroy_segment (om_segments m)) ++ [OutputStruct]
  end.

(** ** Alert messages *)
Inductive message_block := MessageText | MessageRuleName | MessageStruct.

Definition linx_alert_message_destroy (message : option linx_alert_message_t) : list message_block :=
  match message with
  | None => []
  | Some m => free_if (am_message m) MessageText ++ free_if (am_rule_name m) MessageRuleName ++ [MessageStruct]
  end.

(** ** The registry

    A field's key is the pointer the caller passed and is not freed. *)
Inductive registry_block :=
  | FieldInfo (table field : string)
  | TableName (table : string)
  | TableStruct (table : string)
  | Registry.

Definition destroy_field_info (table : string) (fields : list field_info_t) : list registry_block :=
  (λ f, FieldInfo table (fi_key f)) <$> fields.

Definition destroy_field_table (t : field_table_t) : list registry_block :=
  destroy_field_info (ft_table_name t) (ft_fields t) ++ [TableName (ft_table_name t); TableStruct (ft_table_name t)].

(** What [linx_hash_map_deinit] frees. *)
Definition deinit_frees (s : hash_map_state) : list registry_block :=
  match s with
  | None => []
  | Some h => (hm_tables h ≫= destroy_field_table) ++ [Registry]
  end.

Definition registry_block_of (h : linx_hash_map_t) (b : registry_block) : Prop :=
  match b with
  | FieldInfo n f => ∃ t i, ut_find ft_table_name n (hm_tables h) = Some t ∧ ut_find fi_key f (ft_fields t) = Some i
  | TableName n | TableStruct n => is_Some (ut_find ft_table_name n (hm_tables h))
  | Registry => True
  end.

(** The names of a list of tables, each of its own block, and their array. *)
Inductive name_block := ListedName (i : nat) | NameArray.

Definition linx_hash_map_free_table_list (table_names : option (list string)) : list name_block :=
  match table_names with
  | None => []
  | Some names => (ListedName <$> seq 0 (length names)) ++ [NameArray]
  end.

(** ** Lemmas *)
Lemma elem_of_free_if {A B} (x : option A) (b b' : B) : b' ∈ free_if x b ↔ is_Some x ∧ b' = b.
Proof. destruct x; cbn; [rewrite list_elem_of_singleton; naive_solver|]. split; [by intros ?%elem_of_nil|by intros [[? [=]] _]]. Qed.

Lemma NoDup_free_if {A B} (x : option A) (b : B) : NoDup (free_if x b).
Proof. destruct x; repeat constructor; set_solver. Qed.

(** Two lists of blocks that have nothing in common. *)
Lemma NoDup_apart {B} (l k : list B) : NoDup l → NoDup k → (∀ b, b ∈ l → b ∉ k) → NoDup (l ++ k).
Proof. intros. by apply NoDup_app. Qed.

Lemma elem_of_segments i segs b :
  b ∈ concat (imap (λ j, destroy_segment (i + j)) segs) ↔
  ∃ j text len, segs !! j = Some (SEGMENT_TYPE_LITERAL text len) ∧ (b = SegmentText (i + j) ∨ b = Segment (i + j)).
Proof.
  rewrite list_elem_of_In, in_concat. setoid_rewrite <- list_elem_of_In. split.
  - intros (bs & Hbs & Hb). apply elem_of_lookup_imap in Hbs as (j & seg & -> & Hj).
    destruct seg as [text len|]; cbn in Hb; [|set_solver]. exists j, text, len. set_solver.
  - intros (j & text & len & Hj & Hb). exists [SegmentText (i + j); Segment (i + j)]. split; [|set_solver].
    apply elem_of_lookup_imap. by exists j, (SEGMENT_TYPE_LITERAL text len).
Qed.

Lemma NoDup_segments segs : ∀ i, NoDup (concat (imap (λ j, destroy_segment (i + j)) segs)).
Proof.
  induction segs as [|seg segs IH]; intros i; cbn [imap concat]; [constructor|].
  assert (imap ((λ j, destroy_segment (i + j)) ∘ S) segs = imap (λ j, destroy_segment (S i + j)) segs) as ->.
  { apply imap_ext. intros j x _. cbn. by rewrite Nat.add_succ_r. }
  apply NoDup_apart; [|apply IH|].
  - destruct seg; cbn; repeat constructor; set_solver.
  - intros b Hb Hin. apply elem_of_segments in Hin as (j & text & len & _ & Hor). rewrite Nat.add_0_r in Hb.
    destruct seg; cbn in Hb; [|set_solver]. apply elem_of_cons in Hb as [->|Hb%list_elem_of_singleton]; [|subst]; naive_solver lia.
Qed.

Lemma destroy_field_info_blocks n fields b :
  b ∈ destroy_field_info n fields ↔ ∃ f, f ∈ fi_key <$> fields ∧ b = FieldInfo n f.
Proof. unfold destroy_field_info. rewrite list_elem_of_fmap. setoid_rewrite list_elem_of_fmap. naive_solver. Qed.

Lemma destroy_field_table_blocks t b :
  b ∈ destroy_field_table t ↔
  (∃ f, f ∈ fi_key <$> ft_fields t ∧ b = FieldInfo (ft_table_name t) f)
  ∨ b = TableName (ft_table_name t) ∨ b = TableStruct (ft_table_name t).
Proof. unfold destroy_field_table. rewrite elem_of_app, destroy_field_info_blocks. set_solver. Qed.

Lemma destroy_field_table_NoDup t : table_wf t → NoDup (destroy_field_table t).
Proof.
  intros Ht. apply NoDup_apart.
  - unfold destroy_field_info. assert (∀ n, (λ f, FieldInfo n (fi_key f)) <$> ft_fields t = FieldInfo n <$> (fi_key <$> ft_fields t)) as ->
      by (intros n; by rewrite <- list_fmap_compose). by apply NoDup_fmap_2; [intros ?? [=]|].
  - repeat constructor; set_solver.
  - intros b. rewrite destroy_field_info_blocks. set_solver.
Qed.

Lemma tables_NoDup ts :
  ut_wf ft_table_name ts → Forall table_wf ts → NoDup (ts ≫= destroy_field_table).
Proof.
  unfold ut_wf. induction ts as [|t ts IH]; cbn [fmap list_fmap]; intros Hn Ht; [constructor|].
  apply NoDup_cons in Hn as [Hn Hns]. apply Forall_cons in Ht as [Ht Hts]. cbn.
  apply NoDup_apart; [by apply destroy_field_table_NoDup|by apply IH|]. intros b Hb Hin.
  apply list_elem_of_bind in Hin as (u & Hu & Hut). apply destroy_field_table_blocks in Hb, Hu.
  apply Hn. assert (ft_table_name t = ft_table_name u) as -> by naive_solver. apply list_elem_of_fmap. eauto.
Qed.

Lemma found_iff {A} (key : A → string) n l : is_Some (ut_find key n l) ↔ n ∈ key <$> l.
Proof.
  destruct (ut_find key n l) as [a|] eqn:E.
  - split; [|by eauto]. intros _. apply list_elem_of_fmap. exists a. split; [symmetry; by eapply ut_find_key|by eapply ut_find_elem].
  - apply ut_find_None in E. split; [by intros []|done].
Qed.

(** ** Theorems *)

(** A rule is freed whole: each text it has, once, and the rule itself. *)
Theorem rule_released (r : linx_rule_t) :
  NoDup (linx_rule_destroy (Some r))
  ∧ ∀ b, b ∈ linx_rule_destroy (Some r) ↔
    match b with
    | RuleName => is_Some (r_name r) | RuleDesc => is_Some (r_desc r) | RuleCondition => is_Some (r_condition r)
    | RuleOutput => is_Some (r_output r) | RulePriority => is_Some (r_priority r) | RuleChdesc => is_Some (r_chdesc r)
    | RuleTitle => is_Some (r_notify_title r) | RuleContent => is_Some (r_notify_content r) | RuleStruct => True
    end.
Proof.
  cbn [linx_rule_destroy]. split.
  - repeat apply NoDup_apart; try apply NoDup_free_if; try apply NoDup_singleton; intros b;
      rewrite ?elem_of_app, ?elem_of_free_if, ?list_elem_of_singleton; intros (_ & ->) H; naive_solver.
  - intros b. rewrite !elem_of_app, !elem_of_free_if, list_elem_of_singleton. destruct b; naive_solver.
Qed.

(** A message template is freed without the array of its segments and without
    the segments of its variables; what is freed, is freed once. *)
Theorem output_match_leaks (m : linx_output_match_t) :
  NoDup (linx_output_match_destroy (Some m))
  ∧ (∀ b, b ∈ linx_output_match_destroy (Some m) → output_block_of m b)
  ∧ ∀ b, output_block_of m b →
    b ∉ linx_output_match_destroy (Some m) ↔
    b = SegmentArray ∨ ∃ i field, b = Segment i ∧ om_segments m !! i = Some (SEGMENT_TYPE_VARIABLE field).
Proof.
  pose proof (elem_of_segments 0 (om_segments m)) as Hin. pose proof (NoDup_segments (om_segments m) 0) as Hnd. cbn [Nat.add] in Hin, Hnd.
  cbn [linx_output_match_destroy]. split_and!.
  - apply NoDup_apart; [exact Hnd|apply NoDup_singleton|]. intros b. rewrite Hin, list_elem_of_singleton. naive_solver.
  - intros b. rewrite elem_of_app, Hin, list_elem_of_singleton. intros [(j & text & len & Hj & [ -> | -> ])| ->]; cbn; eauto.
  - intros b Hb. rewrite elem_of_app, Hin, list_elem_of_singleton. destruct b as [|i|i|]; cbn in Hb.
    + naive_solver.
    + destruct Hb as [seg Hi]; destruct seg as [text len|field]; [|split; [by eauto|naive_solver]]. split; [|naive_solver].
      intros Hn. exfalso. apply Hn. naive_solver.
    + destruct Hb as (text & len & Hi). split; [intros Hn; exfalso; apply Hn; naive_solver|naive_solver].
    + naive_solver.
Qed.

(** Ending the registry frees every block of every table that is in it,
    once.  A table that was removed before is no longer in it, and nothing
    else frees it. *)
Theorem registry_released (h : linx_hash_map_t) :
  hm_wf (Some h) → NoDup (deinit_frees (Some h)) ∧ ∀ b, b ∈ deinit_frees (Some h) ↔ registry_block_of h b.
Proof.
  intros [Hn Ht]. cbn [deinit_frees]. split.
  - apply NoDup_apart; [by apply tables_NoDup|apply NoDup_singleton|]. intros b Hb. apply list_elem_of_bind in Hb as (t & Hb & _).
    apply destroy_field_table_blocks in Hb. set_solver.
  - intros b. rewrite elem_of_app, list_elem_of_singleton, list_elem_of_bind. setoid_rewrite destroy_field_table_blocks. split.
    + intros [(t & [(f & Hf & ->)|[ -> | -> ]] & Hin)| ->]; cbn; [| | |done]; pose proof (ut_find_Some_wf ft_table_name _ _ Hn Hin) as Hfind.
      * apply found_iff in Hf as [i Hi]. by exists t, i.
      * by eexists.
      * by eexists.
    + destruct b as [n f|n|n|]; cbn; [| | |by right].
      * intros (t & i & Hfind & Hi). left. exists t. split; [left; exists f|by eapply ut_find_elem].
        apply ut_find_key in Hfind as Hk. rewrite Hk. split; [apply found_iff; by exists i|done].
      * intros (t & Hfind). left. exists t. apply ut_find_key in Hfind as Hk. rewrite Hk. split; [by auto|by eapply ut_find_elem].
      * intros (t & Hfind). left. exists t. apply ut_find_key in Hfind as Hk. rewrite Hk. split; [by auto|by eapply ut_find_elem].
Qed.

(** ** Examples *)
Example registry_released_ex :
  deinit_frees (Some (mk_hash_map [mk_field_table "proc" [mk_field_info "pid" 64 4 LINX_FIELD_TYPE_INT32] 4096] None))
  = [FieldInfo "proc" "pid"; TableName "proc"; TableStruct "proc"; Registry].
Proof. reflexivity. Qed.

Example removed_table_leaks :
  deinit_frees (linx_hash_map_remove_table (Some "proc")
    (Some (mk_hash_map [mk_field_table "proc" [] 4096] None))).2 = [Registry].
Proof. reflexivity. Qed.

Example message_released :
  linx_alert_message_destroy (Some (mk_alert_message (Some "text") 4 [] None 0)) = [MessageText; MessageStruct].
Proof. reflexivity. Qed.
