(* ===== verification/Config.v ===== *)
(** * Configuration (userspace/linx_config/linx_config.c)

    The configuration is one YAML document; the part the event engine needs
    names a JSON file that says which system calls are of interest.  The JSON
    parser is a library and a parameter. *)
From S2P Require Import Prelude CString Memory EventType EventTable Yaml.
From Stdlib Require Import Ascii.

#[local] Open Scope Z_scope.

(** cJSON: parsing a C string, a member by name and the integer of a value. *)
Class CJson := {
  cJSON : Type;
  cJSON_Parse : string → option cJSON;
  cJSON_GetObjectItem : cJSON → string → option cJSON;
  valueint : cJSON → Z
}.

(** ** Data (include/linx_config.h, include/linx_size_define.h) *)
Definition LINX_SYSCALL_ID_MAX : Z := 453.
Definition LINX_BPF_FILTER_PID_MAX_SIZE : Z := 64.
Definition LINX_BPF_FILTER_COMM_MAX_SIZE : Z := 16.
Definition LINX_COMM_SIZE : nat := 16.

Record ebpf_config := mk_ebpf {
  cf_drop_mode : bool;
  cf_drop_failed : bool;
  cf_filter_pids : list Z;
  cf_filter_comms : list (list Z);
  cf_interest_syscall_table : list Z
}.

Record linx_global_config_t := mk_config {
  cf_output : option string;
  cf_log_level : option string;
  cf_kind : option string;
  cf_ebpf : ebpf_config
}.

(** All zero. *)
Definition zero_config : linx_global_config_t :=
  mk_config None None None
    (mk_ebpf false false (replicate 64 0) (replicate 16 (replicate LINX_COMM_SIZE 0)) (replicate 453 0)).

Definition set_kind (k : string) (c : linx_global_config_t) : linx_global_config_t :=
  mk_config (cf_output c) (cf_log_level c) (Some k) (cf_ebpf c).

Definition set_ebpf (f : ebpf_config → ebpf_config) (c : linx_global_config_t) : linx_global_config_t :=
  mk_config (cf_output c) (cf_log_level c) (cf_kind c) (f (cf_ebpf c)).

Definition set_drop (mode failed : bool) (e : ebpf_config) : ebpf_config :=
  mk_ebpf mode failed (cf_filter_pids e) (cf_filter_comms e) (cf_interest_syscall_table e).
Definition set_filter_pids (l : list Z) (e : ebpf_config) : ebpf_config :=
  mk_ebpf (cf_drop_mode e) (cf_drop_failed e) l (cf_filter_comms e) (cf_interest_syscall_table e).
Definition set_filter_comms (l : list (list Z)) (e : ebpf_config) : ebpf_config :=
  mk_ebpf (cf_drop_mode e) (cf_drop_failed e) (cf_filter_pids e) l (cf_interest_syscall_table e).
Definition set_interest (l : list Z) (e : ebpf_config) : ebpf_config :=
  mk_ebpf (cf_drop_mode e) (cf_drop_failed e) (cf_filter_pids e) (cf_filter_comms e) l.

(** The bytes of a buffer of 16 after [snprintf(buf, 16, "%s", s)]. *)
Definition comm_buffer (s : string) (buf : list Z) : list Z :=
  let text := cstr_bytes (stake 15 s) in text ++ drop (length text) buf.

(** [linx_global_config] is null before [linx_config_init]. *)
Definition linx_config_init (c : option linx_global_config_t) : Z * option linx_global_config_t :=
  match c with Some _ => (0, c) | None => (0, Some zero_config) end.

Definition linx_config_deinit (c : option linx_global_config_t) : option linx_global_config_t := None.

Definition linx_config_get (c : option linx_global_config_t) : option linx_global_config_t := c.

(** ** Loading *)
Section load.
Context `{CJson}.

(** Whether [linx_log_init] has run: a message reads the level of the log
    through its instance. *)
Context (log_ready : bool).

(** The text of a file that can be opened, measured and read, and what lies in
    memory behind the block it is read into, up to a NUL. *)
Context (fs_text : string → option string) (heap_tail : string).

Definition LINX_LOG_ERROR : outcome unit := if log_ready then mret () else Ub NullDeref.

Fixpoint until_nul (s : string) : string :=
  match s with
  | EmptyString => ""
  | String c s' => if code c =? 0 then "" else String c (until_nul s')
  end.

(** The block is not terminated: without a NUL in the file the parser reads on
    behind it. *)
Definition json_text (contents : string) : outcome string :=
  if no_nul contents then _ ← Ret [OutOfBounds] (); mret (contents +:+ heap_tail) else mret (until_nul contents).

Fixpoint interest_loop (json : cJSON) (n : nat) (i : Z) (table : list Z) : outcome (list Z) :=
  match n with
  | O => mret table
  | S n =>
      e ← from_opt OutOfBounds (g_linx_event_table (i * 2));
      let table :=
        match cJSON_GetObjectItem json (le_name e) with
        | None => table
        | Some member =>
            match cJSON_GetObjectItem member "interesting" with
            | None => table
            | Some interest => <[Z.to_nat i := wrap 8 (valueint interest)]> table
            end
        end in
      interest_loop json n (i + 1) table
  end.

(** Opening a null path fails like that of a missing file. *)
Definition linx_config_fill_interest_syscall_table (file_path : option string) (c : linx_global_config_t)
    : outcome (Z * linx_global_config_t) :=
  match file_path ≫= fs_text with
  | None => _ ← LINX_LOG_ERROR; mret (-1, c)
  | Some contents =>
      text ← json_text contents;
      match cJSON_Parse text with
      | None => _ ← LINX_LOG_ERROR; mret (-1, c)
      | Some json =>
          table ← interest_loop json (Z.to_nat LINX_SYSCALL_ID_MAX) 0 (cf_interest_syscall_table (cf_ebpf c));
          mret (0, set_ebpf (set_interest table) c)
      end
  end.

(** The loops do not compare [count] with the size of the array. *)
Fixpoint pids_loop (root : option nat) (h : yaml_heap) (n : nat) (i : Z) (pids : list Z) : outcome (list Z) :=
  match n with
  | O => mret pids
  | S n =>
      pid ← linx_yaml_get_int root (Some ("engine.ebpf.filter_pids." +:+ show_int i)) 0 h;
      if i <? LINX_BPF_FILTER_PID_MAX_SIZE then pids_loop root h n (i + 1) (<[Z.to_nat i := wrap 32 pid]> pids)
      else Ub OutOfBounds
  end.

Fixpoint comms_loop (root : option nat) (h : yaml_heap) (n : nat) (i : Z) (comms : list (list Z))
    : outcome (list (list Z)) :=
  match n with
  | O => mret comms
  | S n =>
      comm ← linx_yaml_get_string root (Some ("engine.ebpf.filter_comms." +:+ show_int i)) (Some "") h;
      comm ← from_opt NullDeref comm;
      if i <? LINX_BPF_FILTER_COMM_MAX_SIZE then
        comms_loop root h n (i + 1) (alter (comm_buffer comm) (Z.to_nat i) comms)
      else Ub OutOfBounds
  end.

Definition fill_ebpf (root : option nat) (h : yaml_heap) (c : linx_global_config_t) : outcome linx_global_config_t :=
  drop_mode ← linx_yaml_get_bool root (Some "engine.ebpf.drop_mode") 0 h;
  drop_failed ← linx_yaml_get_bool root (Some "engine.ebpf.drop_failed") 0 h;
  let c := set_ebpf (set_drop (negb (drop_mode =? 0)) (negb (drop_failed =? 0))) c in
  count ← linx_yaml_get_sequence_length root (Some "engine.ebpf.filter_pids") h;
  pids ← pids_loop root h (Z.to_nat count) 0 (cf_filter_pids (cf_ebpf c));
  let c := set_ebpf (set_filter_pids pids) c in
  count ← linx_yaml_get_sequence_length root (Some "engine.ebpf.filter_comms") h;
  comms ← comms_loop root h (Z.to_nat count) 0 (cf_filter_comms (cf_ebpf c));
  let c := set_ebpf (set_filter_comms comms) c in
  path ← linx_yaml_get_string root (Some "engine.ebpf.interest_syscall_file") None h;
  '(_, c) ← linx_config_fill_interest_syscall_table path c;
  mret c.

Definition linx_config_fill_engine (root : option nat) (h : yaml_heap) (c : linx_global_config_t)
    : outcome (Z * linx_global_config_t) :=
  kind ← linx_yaml_get_string root (Some "engine.kind") (Some "unknown") h;
  kind ← from_opt NullDeref kind;
  let c := set_kind kind c in
  if streq kind "ebpf" then c ← fill_ebpf root h c; mret (0, c)
  else if streq kind "kmod" then mret (0, c)
  else mret (-1, c).

Definition linx_config_load (file : option (list yaml_event)) (config : option linx_global_config_t)
    : outcome (Z * option linx_global_config_t) :=
  '(root, h) ← linx_yaml_load file;
  match root with
  | None => mret (-1, config)
  | Some root =>
      c ← from_opt NullDeref config;
      '(ret, c) ← linx_config_fill_engine (Some root) h c;
      if negb (ret =? 0) then mret (ret, Some c)
      else
        output ← linx_yaml_get_string (Some root) (Some "log.output") (Some "stderr") h;
        output ← from_opt NullDeref output;
        level ← linx_yaml_get_string (Some root) (Some "log.level") (Some "ERROR") h;
        level ← from_opt NullDeref level;
        mret (ret, Some (mk_config (Some output) (Some level) (cf_kind c) (cf_ebpf c)))
  end.
End load.

(** ** What a document says *)
Section meaning.
Context (d : yaml).

Definition conf_string (path : list string) (def : string) : string :=
  match lookup_path d path with Some (YScalar v) => v | _ => def end.

Definition ebpf_path (key : string) : list string := ["engine"; "ebpf"; key].

Definition conf_flag (key : string) : bool := negb (bool_value (lookup_path d (ebpf_path key)) 0 =? 0).
Definition conf_count (key : string) : Z := length_value (lookup_path d (ebpf_path key)).
Definition conf_pid (i : Z) : Z := wrap 32 (int_value (lookup_path d (ebpf_path "filter_pids" ++ [show_int i])) 0).
Definition conf_comm (i : Z) : string := conf_string (ebpf_path "filter_comms" ++ [show_int i]) "".
Definition conf_file : option string := string_value (lookup_path d (ebpf_path "interest_syscall_file")) None.
End meaning.

(** The elements [i], ..., [i + n - 1] of an array changed. *)
Definition filled_from {A} (f : nat → A → A) (i n : nat) (l : list A) : list A :=
  imap (λ j x, if bool_decide (i ≤ j < i + n)%nat then f j x else x) l.

Definition conf_interest `{CJson} (json : cJSON) (i : nat) (x : Z) : Z :=
  match g_linx_event_table (Z.of_nat i * 2) with
  | None => x
  | Some e => from_option (λ v, wrap 8 (valueint v)) x
                (cJSON_GetObjectItem json (le_name e) ≫= λ m, cJSON_GetObjectItem m "interesting")
  end.

(** ** Lemmas *)
Lemma filled_from_0 {A} (f : nat → A → A) i l : filled_from f i 0 l = l.
Proof.
  apply list_eq. intros j. unfold filled_from. rewrite list_lookup_imap. destruct (l !! j); [|done]. cbn.
  by rewrite bool_decide_eq_false_2 by lia.
Qed.

Lemma filled_from_S {A} (f : nat → A → A) i n l :
  filled_from f (S i) n (alter (f i) i l) = filled_from f i (S n) l.
Proof.
  apply list_eq. intros j. unfold filled_from. rewrite !list_lookup_imap.
  destruct (decide (i = j)) as [<-|Hj].
  - rewrite list_lookup_alter_eq. destruct (l !! i); [|done]. cbn -[Nat.add].
    rewrite bool_decide_eq_false_2, bool_decide_eq_true_2 by lia. done.
  - rewrite list_lookup_alter_ne by done. destruct (l !! j); [|done]. cbn -[Nat.add].
    f_equal. by rewrite (bool_decide_ext (S i ≤ j < S i + n)%nat (i ≤ j < i + S n)%nat) by lia.
Qed.

Lemma insert_alter {A} (i : nat) (x : A) (l : list A) : <[i := x]> l = alter (λ _, x) i l.
Proof.
  apply list_eq. intros j. destruct (decide (i = j)) as [<-|Hj].
  - rewrite list_lookup_alter_eq. destruct (l !! i) as [y|] eqn:E; cbn.
    + apply list_lookup_insert_eq. by apply lookup_lt_Some in E.
    + apply lookup_ge_None. rewrite length_insert. by apply lookup_ge_None.
  - by rewrite list_lookup_alter_ne, list_lookup_insert_ne.
Qed.

Section loops.
Context `{CJson} (log_ready : bool) (fs_text : string → option string) (heap_tail : string).
Context (d : yaml) (h : yaml_heap) (Hd : holds_doc 0 h 0 None d).

Lemma item_path key i : forallb component_ok (ebpf_path key ++ [show_int (Z.of_nat i)]) = component_ok key.
Proof. cbn. rewrite index_component. by rewrite !andb_true_r. Qed.

Lemma pids_loop_spec n i pids :
  (i + n ≤ 64)%nat →
  pids_loop (Some 0%nat) h n (Z.of_nat i) pids = Ret [] (filled_from (λ j _, conf_pid d (Z.of_nat j)) i n pids).
Proof.
  revert i pids. induction n as [|n IH]; intros i pids Hi; cbn [pids_loop]; [by rewrite filled_from_0|].
  change ("engine.ebpf.filter_pids." +:+ show_int (Z.of_nat i))
    with (join_path (ebpf_path "filter_pids" ++ [show_int (Z.of_nat i)])).
  rewrite (get_int_spec _ _ _ _ _ Hd) by (by rewrite item_path). rewrite bind_Ret_nil.
  unfold LINX_BPF_FILTER_PID_MAX_SIZE. destruct (Z.ltb_spec (Z.of_nat i) 64); [|lia].
  replace (Z.of_nat i + 1) with (Z.of_nat (S i)) by lia. rewrite IH by lia. f_equal.
  rewrite Nat2Z.id, insert_alter. apply filled_from_S.
Qed.

(** One element too many is written behind the array. *)
Lemma pids_loop_over n i pids :
  (i ≤ 64)%nat → (64 < i + n)%nat → pids_loop (Some 0%nat) h n (Z.of_nat i) pids = Ub OutOfBounds.
Proof.
  revert i pids. induction n as [|n IH]; intros i pids Hi Hn; [lia|]. cbn [pids_loop].
  change ("engine.ebpf.filter_pids." +:+ show_int (Z.of_nat i))
    with (join_path (ebpf_path "filter_pids" ++ [show_int (Z.of_nat i)])).
  rewrite (get_int_spec _ _ _ _ _ Hd) by (by rewrite item_path). rewrite bind_Ret_nil.
  unfold LINX_BPF_FILTER_PID_MAX_SIZE. destruct (Z.ltb_spec (Z.of_nat i) 64); [|done].
  replace (Z.of_nat i + 1) with (Z.of_nat (S i)) by lia. apply IH; lia.
Qed.

Lemma comm_item i :
  linx_yaml_get_string (Some 0%nat) (Some ("engine.ebpf.filter_comms." +:+ show_int (Z.of_nat i))) (Some "") h
  = Ret [] (Some (conf_comm d (Z.of_nat i))).
Proof.
  change ("engine.ebpf.filter_comms." +:+ show_int (Z.of_nat i))
    with (join_path (ebpf_path "filter_comms" ++ [show_int (Z.of_nat i)])).
  rewrite (get_string_spec _ _ _ _ _ Hd) by (by rewrite item_path). unfold conf_comm, conf_string.
  by destruct (lookup_path d _) as [[]|].
Qed.

Lemma comms_loop_spec n i comms :
  (i + n ≤ 16)%nat →
  comms_loop (Some 0%nat) h n (Z.of_nat i) comms
  = Ret [] (filled_from (λ j, comm_buffer (conf_comm d (Z.of_nat j))) i n comms).
Proof.
  revert i comms. induction n as [|n IH]; intros i comms Hi; cbn [comms_loop]; [by rewrite filled_from_0|].
  rewrite comm_item, bind_Ret_nil. cbn [from_opt]. rewrite bind_ret_l.
  unfold LINX_BPF_FILTER_COMM_MAX_SIZE. destruct (Z.ltb_spec (Z.of_nat i) 16); [|lia].
  replace (Z.of_nat i + 1) with (Z.of_nat (S i)) by lia. rewrite IH by lia. f_equal.
  rewrite Nat2Z.id. apply (filled_from_S (λ j, comm_buffer (conf_comm d (Z.of_nat j)))).
Qed.

Lemma comms_loop_over n i comms :
  (i ≤ 16)%nat → (16 < i + n)%nat → comms_loop (Some 0%nat) h n (Z.of_nat i) comms = Ub OutOfBounds.
Proof.
  revert i comms. induction n as [|n IH]; intros i comms Hi Hn; [lia|]. cbn [comms_loop].
  rewrite comm_item, bind_Ret_nil. cbn [from_opt]. rewrite bind_ret_l.
  unfold LINX_BPF_FILTER_COMM_MAX_SIZE. destruct (Z.ltb_spec (Z.of_nat i) 16); [|done].
  replace (Z.of_nat i + 1) with (Z.of_nat (S i)) by lia. apply IH; lia.
Qed.
End loops.

Lemma interest_loop_spec `{CJson} json n i table :
  (i + n ≤ 453)%nat →
  interest_loop json n (Z.of_nat i) table = Ret [] (filled_from (conf_interest json) i n table).
Proof.
  revert i table. induction n as [|n IH]; intros i table Hi; cbn [interest_loop]; [by rewrite filled_from_0|].
  destruct (g_linx_event_table (Z.of_nat i * 2)) as [e|] eqn:E.
  2:{ unfold g_linx_event_table in E. rewrite decide_True in E; [done|]. unfold LINX_EVENT_TYPE_MAX. lia. }
  cbn [from_opt]. rewrite bind_ret_l. replace (Z.of_nat i + 1) with (Z.of_nat (S i)) by lia. rewrite IH by lia. f_equal.
  rewrite <- filled_from_S. f_equal. unfold conf_interest. rewrite E.
  destruct (cJSON_GetObjectItem json (le_name e)) as [m|]; cbn.
  - destruct (cJSON_GetObjectItem m "interesting") as [v|]; cbn; [by rewrite Nat2Z.id, insert_alter|].
    symmetry. apply list_alter_id. done.
  - symmetry. apply list_alter_id. done.
Qed.

(** The engine's part that a document and a JSON value describe. *)
Definition conf_engine `{CJson} (d : yaml) (json : cJSON) (e : ebpf_config) : ebpf_config :=
  mk_ebpf (conf_flag d "drop_mode") (conf_flag d "drop_failed")
    (filled_from (λ j _, conf_pid d (Z.of_nat j)) 0 (Z.to_nat (conf_count d "filter_pids")) (cf_filter_pids e))
    (filled_from (λ j, comm_buffer (conf_comm d (Z.of_nat j))) 0 (Z.to_nat (conf_count d "filter_comms")) (cf_filter_comms e))
    (filled_from (conf_interest json) 0 453 (cf_interest_syscall_table e)).

Definition counts_ok (d : yaml) : bool :=
  (conf_count d "filter_pids" <=? LINX_BPF_FILTER_PID_MAX_SIZE) && (conf_count d "filter_comms" <=? LINX_BPF_FILTER_COMM_MAX_SIZE).

Definition conf_kind (d : yaml) : string := conf_string d ["engine"; "kind"] "unknown".

Lemma bind_Ret_clean {A B} w (a : A) (k : A → outcome B) b : k a = Ret [] b → Ret w a ≫= k = Ret w b.
Proof. intros H. cbn. rewrite H. by rewrite app_nil_r. Qed.

Section load_facts.
Context `{CJson} (log_ready : bool) (fs_text : string → option string) (heap_tail : string).
Context (d : yaml) (h : yaml_heap) (Hd : holds_doc 0 h 0 None d).

Lemma get_conf_string path def :
  forallb component_ok path = true →
  linx_yaml_get_string (Some 0%nat) (Some (join_path path)) (Some def) h = Ret [] (Some (conf_string d path def)).
Proof.
  intros Hok. rewrite (get_string_spec _ _ _ _ _ Hd) by done. unfold conf_string. by destruct (lookup_path d path) as [[]|].
Qed.

Lemma get_conf_flag key :
  component_ok key = true →
  linx_yaml_get_bool (Some 0%nat) (Some (join_path (ebpf_path key))) 0 h
  = Ret [] (bool_value (lookup_path d (ebpf_path key)) 0).
Proof. intros Hk. apply (get_bool_spec _ _ _ _ _ Hd). cbn. by rewrite Hk. Qed.

Lemma get_conf_count key :
  component_ok key = true →
  linx_yaml_get_sequence_length (Some 0%nat) (Some (join_path (ebpf_path key))) h = Ret [] (conf_count d key).
Proof. intros Hk. apply (get_sequence_length_spec _ _ _ _ _ Hd). cbn. by rewrite Hk. Qed.

Lemma conf_count_nonneg key : 0 ≤ conf_count d key.
Proof. unfold conf_count. destruct (lookup_path d _) as [[]|]; cbn; lia. Qed.

(** Everything but the JSON file. *)
Lemma fill_ebpf_spec c :
  fill_ebpf log_ready fs_text heap_tail (Some 0%nat) h c
  = if counts_ok d then
      '(_, c) ← linx_config_fill_interest_syscall_table log_ready fs_text heap_tail (conf_file d)
        (set_ebpf (λ e, mk_ebpf (conf_flag d "drop_mode") (conf_flag d "drop_failed")
           (filled_from (λ j _, conf_pid d (Z.of_nat j)) 0 (Z.to_nat (conf_count d "filter_pids")) (cf_filter_pids e))
           (filled_from (λ j, comm_buffer (conf_comm d (Z.of_nat j))) 0 (Z.to_nat (conf_count d "filter_comms"))
              (cf_filter_comms e)) (cf_interest_syscall_table e)) c);
      mret c
    else Ub OutOfBounds.
Proof.
  unfold fill_ebpf, counts_ok. pose proof (conf_count_nonneg "filter_pids"). pose proof (conf_count_nonneg "filter_comms").
  change "engine.ebpf.drop_mode" with (join_path (ebpf_path "drop_mode")).
  change "engine.ebpf.drop_failed" with (join_path (ebpf_path "drop_failed")).
  change "engine.ebpf.filter_pids" with (join_path (ebpf_path "filter_pids")).
  change "engine.ebpf.filter_comms" with (join_path (ebpf_path "filter_comms")).
  change "engine.ebpf.interest_syscall_file" with (join_path (ebpf_path "interest_syscall_file")).
  rewrite (get_conf_flag "drop_mode"), bind_Ret_nil, (get_conf_flag "drop_failed"), bind_Ret_nil by done.
  rewrite (get_conf_count "filter_pids"), bind_Ret_nil by done.
  unfold LINX_BPF_FILTER_PID_MAX_SIZE, LINX_BPF_FILTER_COMM_MAX_SIZE.
  destruct (Z.leb_spec (conf_count d "filter_pids") 64) as [Hp|Hp]; cbn [andb].
  2:{ by rewrite (pids_loop_over d h Hd _ 0%nat) by lia. }
  rewrite (pids_loop_spec d h Hd _ 0%nat) by lia. rewrite bind_Ret_nil.
  rewrite (get_conf_count "filter_comms"), bind_Ret_nil by done.
  destruct (Z.leb_spec (conf_count d "filter_comms") 16) as [Hc|Hc].
  2:{ by rewrite (comms_loop_over d h Hd _ 0%nat) by lia. }
  rewrite (comms_loop_spec d h Hd _ 0%nat) by lia. rewrite bind_Ret_nil.
  rewrite (get_string_spec _ _ _ _ _ Hd) by done. rewrite bind_Ret_nil. reflexivity.
Qed.

Lemma fill_interest_spec contents w t text json c :
  fs_text contents = Some t → json_text heap_tail t = Ret w text → cJSON_Parse text = Some json →
  linx_config_fill_interest_syscall_table log_ready fs_text heap_tail (Some contents) c
  = Ret w (0, set_ebpf (λ e, set_interest (filled_from (conf_interest json) 0 453 (cf_interest_syscall_table e)) e) c).
Proof.
  intros Ht Hj Hp. unfold linx_config_fill_interest_syscall_table. cbn [mbind option_bind]. rewrite Ht, Hj.
  apply bind_Ret_clean. rewrite Hp. by rewrite (interest_loop_spec _ _ 0) by done.
Qed.
End load_facts.

(** The configuration that is loaded for ebpf. *)
Lemma config_load_ebpf `{CJson} log_ready fs_text heap_tail d path t w text json :
  regular d = true → is_scalar d = false → conf_kind d = "ebpf" → counts_ok d = true →
  conf_file d = Some path → fs_text path = Some t → json_text heap_tail t = Ret w text → cJSON_Parse text = Some json →
  linx_config_load log_ready fs_text heap_tail (Some (document d)) (Some zero_config)
  = Ret w (0, Some (mk_config (Some (conf_string d ["log"; "output"] "stderr"))
      (Some (conf_string d ["log"; "level"] "ERROR")) (Some "ebpf") (conf_engine d json (cf_ebpf zero_config)))).
Proof.
  intros Hr Hs Hk Hc Hf Ht Hj Hp. destruct (load_document d Hr Hs) as (h & Hload & Hd). unfold linx_config_load.
  rewrite Hload, bind_Ret_nil. cbn [from_opt]. rewrite bind_ret_l. unfold linx_config_fill_engine.
  change "engine.kind" with (join_path ["engine"; "kind"]). rewrite (get_conf_string d h Hd) by done.
  rewrite bind_Ret_nil. cbn [from_opt]. rewrite bind_ret_l. fold (conf_kind d). cbv zeta. rewrite Hk. cbn [streq].
  rewrite (fill_ebpf_spec _ _ _ d h Hd), Hc, Hf, (fill_interest_spec _ _ _ _ _ _ _ _ _ Ht Hj Hp).
  set (c1 := set_ebpf _ (set_ebpf _ _)).
  assert (c1 = mk_config None None (Some "ebpf") (conf_engine d json (cf_ebpf zero_config))) as -> by done.
  rewrite (bind_Ret_clean w _ _ (mk_config None None (Some "ebpf") (conf_engine d json (cf_ebpf zero_config)))) by done.
  rewrite (bind_Ret_clean w _ _ (0, mk_config None None (Some "ebpf") (conf_engine d json (cf_ebpf zero_config)))) by done.
  apply bind_Ret_clean. cbn [Z.eqb negb].
  rewrite (get_conf_string d h Hd ["log"; "output"]), bind_Ret_nil by done. cbn [from_opt]. rewrite bind_ret_l.
  rewrite (get_conf_string d h Hd ["log"; "level"]), bind_Ret_nil by done. cbn [from_opt]. by rewrite bind_ret_l.
Qed.

(** ** Results *)

(** C31: loading a YAML document in which no scalar follows a collection of a
    sequence.  An engine other than ebpf or kmod is refused.  For ebpf with at
    most 64 process identifiers and 16 command names, a file of system calls
    that can be read and is JSON, the configuration is exactly what document
    and file say, with the defaults where they say nothing.  More
    identifiers or names are written behind their array, and a file that
    cannot be read or is not JSON, before the log exists, ends in a read of
    a null pointer. *)
Theorem config_load_reads `{CJson} log_ready fs_text heap_tail d :
  regular d = true → is_scalar d = false →
  let res := linx_config_load log_ready fs_text heap_tail (Some (document d)) (Some zero_config) in
  let c := set_kind (conf_kind d) zero_config in
  (conf_kind d ∉ ["ebpf"; "kmod"] → res = Ret [] (-1, Some c))
  ∧ (conf_kind d = "ebpf" →
     if counts_ok d then
       (∀ path t w text json, conf_file d = Some path → fs_text path = Some t →
          json_text heap_tail t = Ret w text → cJSON_Parse text = Some json →
          res = Ret w (0, Some (mk_config (Some (conf_string d ["log"; "output"] "stderr"))
            (Some (conf_string d ["log"; "level"] "ERROR")) (Some "ebpf") (conf_engine d json (cf_ebpf c)))))
       ∧ (log_ready = false →
          match conf_file d ≫= fs_text with
          | None => True
          | Some t => match json_text heap_tail t with Ret _ text => cJSON_Parse text = None | _ => False end
          end → res = Ub NullDeref)
     else res = Ub OutOfBounds).
Proof.
  intros Hr Hs res c. destruct (load_document d Hr Hs) as (h & Hload & Hd). split.
  { intros Hk. subst res. unfold linx_config_load.
    rewrite Hload, bind_Ret_nil. cbn [from_opt]. rewrite bind_ret_l. unfold linx_config_fill_engine.
    change "engine.kind" with (join_path ["engine"; "kind"]). rewrite (get_conf_string d h Hd) by done.
    rewrite bind_Ret_nil. cbn [from_opt]. rewrite bind_ret_l. fold (conf_kind d). cbv zeta. fold c.
    destruct (streq_spec (conf_kind d) "ebpf") as [E|]; [destruct Hk; rewrite E; by left|].
    destruct (streq_spec (conf_kind d) "kmod") as [E|]; [destruct Hk; rewrite E; by right; left|]. by rewrite bind_ret_l. }
  intros Hk. assert (∀ f, fill_ebpf log_ready fs_text heap_tail (Some 0%nat) h c = Ub f → res = Ub f) as Hub.
  { intros f Hfill. subst res. unfold linx_config_load. rewrite Hload, bind_Ret_nil. cbn [from_opt]. rewrite bind_ret_l.
    unfold linx_config_fill_engine. change "engine.kind" with (join_path ["engine"; "kind"]).
    rewrite (get_conf_string d h Hd), bind_Ret_nil by done. cbn [from_opt]. rewrite bind_ret_l. fold (conf_kind d).
    cbv zeta. fold c. rewrite Hk at 1. cbn [streq]. rewrite Hk in *. cbn [streq]. by rewrite Hfill. }
  pose proof (fill_ebpf_spec log_ready fs_text heap_tail d h Hd c) as Hfill. destruct (counts_ok d) eqn:Hc; [|by apply Hub].
  split.
  - intros path t w text json Hf Ht Hj Hp. by eapply (config_load_ebpf _ _ _ d path t).
  - intros -> Hn. apply Hub. rewrite Hfill. unfold linx_config_fill_interest_syscall_table.
    destruct (conf_file d ≫= fs_text) as [t|]; [|done].
    destruct (json_text heap_tail t) as [w text| |]; [|done|done]. cbn [mbind outcome_bind]. by rewrite Hn.
Qed.

(** ** Example: a JSON value is its text *)
#[local] Instance json_ex : CJson := {|
  cJSON := string;
  cJSON_Parse := λ s, Some s;
  cJSON_GetObjectItem := λ j name,
    if streq j "{openat:{interesting:1}}" && streq name "openat" then Some "{interesting:1}"
    else if streq j "{interesting:1}" && streq name "interesting" then Some "1" else None;
  valueint := λ _, 1
|}.

Definition config_ex : yaml :=
  YMap [("log", YMap [("level", YScalar "INFO")]);
        ("engine", YMap [("kind", YScalar "ebpf");
           ("ebpf", YMap [("drop_failed", YScalar "true"); ("filter_pids", YSeq [YScalar "42"; YScalar "7"]);
              ("filter_comms", YSeq [YScalar "sshd"]); ("interest_syscall_file", YScalar "s.json")])])].

Lemma config_load_reads_witness :
  ∃ c, linx_config_load false (λ _, Some "{openat:{interesting:1}}") "" (Some (document config_ex)) (Some zero_config)
       = Ret [OutOfBounds] (0, Some c)
    ∧ cf_log_level c = Some "INFO" ∧ cf_drop_failed (cf_ebpf c) = true
    ∧ take 3 (cf_filter_pids (cf_ebpf c)) = [42; 7; 0]
    ∧ cf_filter_comms (cf_ebpf c) !! 0%nat = Some [115; 115; 104; 100; 0; 0; 0; 0; 0; 0; 0; 0; 0; 0; 0; 0]
    ∧ cf_interest_syscall_table (cf_ebpf c) !! 257%nat = Some 1 ∧ cf_interest_syscall_table (cf_ebpf c) !! 2%nat = Some 0.
Proof.
  destruct (config_load_reads false (λ _, Some "{openat:{interesting:1}}") "" config_ex eq_refl eq_refl) as [_ H].
  eexists. split; [exact (proj1 (H eq_refl) "s.json" _ _ _ _ eq_refl eq_refl eq_refl eq_refl)|].
  repeat (split; [by vm_compute|]). by vm_compute.
Defined.
