(* ===== verification/Log.v ===== *)
(** * The log (userspace/linx_log/linx_log.c)

    A message is formatted by the thread that logs it and put into a queue; one
    task of a thread pool of its own takes the messages out and writes them.
    The calls and the passes of the task are atomic steps (each holds the lock
    of the queue); a run is any sequence of them. *)
From S2P Require Import Prelude CString.
From Stdlib Require Import Ascii.

#[local] Open Scope Z_scope.

(** ** Data (include/linx_log_level.h, linx_log_message.h, linx_log.h) *)
Inductive linx_log_level_t :=
  | LINX_LOG_DEBUG
  | LINX_LOG_INFO
  | LINX_LOG_WARNING
  | LINX_LOG_ERROR
  | LINX_LOG_FATAL
  | LINX_LOG_LEVEL_MAX.

#[export] Instance linx_log_level_eq_dec : EqDecision linx_log_level_t.
Proof. solve_decision. Defined.

Definition level_number (l : linx_log_level_t) : Z :=
  match l with
  | LINX_LOG_DEBUG => 0 | LINX_LOG_INFO => 1 | LINX_LOG_WARNING => 2 | LINX_LOG_ERROR => 3 | LINX_LOG_FATAL => 4
  | LINX_LOG_LEVEL_MAX => 5
  end.

Definition linx_log_level_str : list (linx_log_level_t * string) :=
  [(LINX_LOG_DEBUG, "DEBUG"); (LINX_LOG_INFO, "INFO"); (LINX_LOG_WARNING, "WARNING"); (LINX_LOG_ERROR, "ERROR");
   (LINX_LOG_FATAL, "FATAL")].

Record linx_log_message_t := mk_log_message {
  lm_message : string;
  lm_level : linx_log_level_t;
  lm_tv_sec : Z;
  lm_tv_usec : Z
}.

(** [queue_size] is the length of the queue. *)
Record linx_log_t := mk_log {
  lg_level : linx_log_level_t;
  lg_log_file : string;
  lg_queue : list linx_log_message_t;
  lg_queue_capacity : Z
}.

(** [g_linx_log_instance]: null, freed or valid. *)
Inductive log_pointer :=
  | LogNull
  | LogFreed
  | Log (l : linx_log_t).

Definition read_log (p : log_pointer) : outcome linx_log_t :=
  match p with LogNull => Ub NullDeref | LogFreed => Ub BadAddress | Log l => mret l end.

Definition set_queue (q : list linx_log_message_t) (capacity : Z) (l : linx_log_t) : linx_log_t :=
  mk_log (lg_level l) (lg_log_file l) q capacity.

(** ** Operations *)
Definition linx_log_level_str_to_level (level_str : option string) : linx_log_level_t :=
  match level_str with
  | None => LINX_LOG_LEVEL_MAX
  | Some s => from_option fst LINX_LOG_LEVEL_MAX (List.find (λ x, streq s x.2) linx_log_level_str)
  end.

Definition linx_log_queue_push (message : linx_log_message_t) (l : linx_log_t) : linx_log_t :=
  let size := Z.of_nat (length (lg_queue l)) in
  let capacity := if lg_queue_capacity l <=? size then (if lg_queue_capacity l =? 0 then 16 else lg_queue_capacity l * 2)
                  else lg_queue_capacity l in
  set_queue (lg_queue l ++ [message]) capacity l.

Definition linx_log_queue_pop (l : linx_log_t) : option linx_log_message_t * linx_log_t :=
  match lg_queue l with
  | [] => (None, l)
  | m :: q => (Some m, set_queue q (lg_queue_capacity l) l)
  end.

Definition MSG_BUF : nat := 1024.

(** ["[%s:%d]: "] and the text [vsnprintf] makes of the format and its
    arguments, in a buffer of 1024 bytes. *)
Definition linx_log_v (level : linx_log_level_t) (file : string) (line : Z) (formatted : string) (now : Z * Z)
    (p : log_pointer) : outcome log_pointer :=
  l ← read_log p;
  if level_number level <? level_number (lg_level l) then mret p
  else
    let prefix := "[" +:+ file +:+ ":" +:+ show_int line +:+ "]: " in
    if (MSG_BUF <=? strlen prefix)%nat then mret p
    else
      let msg_buf := prefix +:+ stake (MSG_BUF - strlen prefix - 1) formatted in
      mret (Log (linx_log_queue_push (mk_log_message msg_buf level now.1 now.2) l)).

Definition linx_log (level : linx_log_level_t) (file : string) (line : Z) (formatted : string) (now : Z * Z)
    (p : log_pointer) : outcome log_pointer :=
  l ← read_log p;
  if level_number level <? level_number (lg_level l) then mret p else linx_log_v level file line formatted now p.

Section log.
(** What [localtime] and [strftime] make of a number of seconds. *)
Context (local_time : Z → string).

Definition padded (width : nat) (digits : string) : string := Nat.iter (width - strlen digits) (String "0") digits.

Definition log_line (m : linx_log_message_t) : string :=
  "[" +:+ local_time (lm_tv_sec m) +:+ "." +:+ padded 3 (show_int (lm_tv_usec m / 1000)) +:+ "] ["
  +:+ from_option snd "" (List.find (λ x, bool_decide (x.1 = lm_level m)) linx_log_level_str) +:+ "] "
  +:+ lm_message m +:+ String (ascii_of_nat 10) "".

(** One pass of the loop of [linx_log_thread]: whether it goes on, and what is
    written to the file. *)
Definition log_pass (should_stop : Z) (l : linx_log_t) : bool * list string * linx_log_t :=
  let '(msg, l) := linx_log_queue_pop l in
  if should_stop =? 2 then (false, [], l)
  else match msg with
  | None => if should_stop =? 1 then (false, [], l) else (true, [], l)
  | Some m => (true, [log_line m], l)
  end.

(** Return codes of the system and of the thread pool. *)
Record log_env := mk_log_env {
  le_mutex_init : Z;
  le_fopen : string → bool;
  le_pool_create : bool;
  le_add_task : Z
}.

(** The pool is destroyed and the instance freed; the lines are what the task
    has written. *)
Definition linx_log_deinit (p : log_pointer) : outcome log_pointer :=
  match p with LogNull => mret LogNull | _ => _ ← read_log p; mret LogNull end.

Definition linx_log_init (env : log_env) (log_file log_level : option string) (p : log_pointer)
    : outcome (Z * log_pointer) :=
  let level := linx_log_level_str_to_level log_level in
  if level_number LINX_LOG_LEVEL_MAX <=? level_number level then mret (-1, p)
  else match p with
  | LogNull =>
      if negb (le_mutex_init env =? 0) then mret (-1, LogFreed)
      else
        let name := default "stderr" log_file in
        if negb (streq name "stderr") && negb (le_fopen env name) then mret (-1, LogNull)
        else
          let l := Log (mk_log level name [] 0) in
          if negb (le_pool_create env) then p ← linx_log_deinit l; mret (-1, p)
          else if negb (le_add_task env =? 0) then p ← linx_log_deinit l; mret (-1, p)
          else mret (0, l)
  | _ => mret (0, p)
  end.

(** ** Runs *)
Inductive log_action :=
  | Call (level : linx_log_level_t) (file : string) (line : Z) (formatted : string) (now : Z * Z)
  | Pass (should_stop : Z).

(** The state of a run: the instance, the file and whether the task runs. *)
Record log_run := mk_log_run { lr_log : log_pointer; lr_file : list string; lr_running : bool }.

Definition log_step (a : log_action) (r : log_run) : outcome log_run :=
  match a with
  | Call level file line formatted now =>
      p ← linx_log level file line formatted now (lr_log r); mret (mk_log_run p (lr_file r) (lr_running r))
  | Pass should_stop =>
      if lr_running r then
        l ← read_log (lr_log r);
        let '(goes_on, lines, l) := log_pass should_stop l in
        mret (mk_log_run (Log l) (lr_file r ++ lines) goes_on)
      else mret r
  end.

Fixpoint log_runs (acts : list log_action) (r : log_run) : outcome log_run :=
  match acts with
  | [] => mret r
  | a :: acts => r ← log_step a r; log_runs acts r
  end.

(** ** What should be written *)
Definition message_text (file : string) (line : Z) (formatted : string) : option string :=
  let prefix := "[" +:+ file +:+ ":" +:+ show_int line +:+ "]: " in
  if (strlen prefix <? MSG_BUF)%nat then Some (stake (MSG_BUF - 1) (prefix +:+ formatted)) else None.

(** The line of a call at a level, if it is to be logged. *)
Definition line_of (level : linx_log_level_t) (a : log_action) : option string :=
  match a with
  | Call lv file line formatted now =>
      if level_number lv <? level_number level then None
      else (λ t, log_line (mk_log_message t lv now.1 now.2)) <$> message_text file line formatted
  | Pass _ => None
  end.

Definition no_immediate_stop (a : log_action) : bool := match a with Pass n => negb (n =? 2) | _ => true end.
Definition is_pass (a : log_action) : bool := match a with Pass _ => true | _ => false end.

(** ** Lemmas *)
Lemma stake_app_prefix n a b : (strlen a < n)%nat → stake (n - 1) (a +:+ b) = a +:+ stake (n - strlen a - 1) b.
Proof.
  revert n. induction a as [|c a IH]; intros n Hn; cbn [strlen] in *; [by rewrite Nat.sub_0_r|].
  destruct n as [|[|n]]; [lia|lia|]. specialize (IH (S n) ltac:(lia)).
  replace (S n - 1)%nat with n in IH by lia. replace (S (S n) - 1)%nat with (S n) by lia.
  replace (S (S n) - S (strlen a) - 1)%nat with (S n - strlen a - 1)%nat by lia. cbn. by rewrite IH.
Qed.

Lemma log_call level file line formatted now l :
  linx_log level file line formatted now (Log l)
  = Ret [] (Log (match line_of (lg_level l) (Call level file line formatted now), message_text file line formatted with
                 | Some _, Some t => linx_log_queue_push (mk_log_message t level now.1 now.2) l
                 | _, _ => l
                 end)).
Proof.
  unfold linx_log, linx_log_v. cbn [read_log]. rewrite bind_ret_l. unfold line_of, message_text.
  destruct (level_number level <? level_number (lg_level l)) eqn:E; [done|]. rewrite bind_ret_l, E.
  set (prefix := "[" +:+ file +:+ ":" +:+ show_int line +:+ "]: ").
  destruct (Nat.leb_spec MSG_BUF (strlen prefix)), (Nat.ltb_spec (strlen prefix) MSG_BUF); try lia; [done|].
  cbn [fmap option_fmap option_map]. by rewrite <- stake_app_prefix.
Qed.

(** The level and the invariant of a run without an immediate stop. *)
Definition accounts (level : linx_log_level_t) (written : list string) (acts : list log_action) (r : log_run) : Prop :=
  ∃ l, lr_log r = Log l ∧ lg_level l = level
    ∧ lr_file r ++ (log_line <$> lg_queue l) = written ++ omap (line_of level) acts
    ∧ Z.of_nat (length (lg_queue l)) ≤ lg_queue_capacity l.

Lemma log_step_accounts level written acts a r :
  accounts level written acts r → no_immediate_stop a = true →
  ∃ r', log_step a r = Ret [] r' ∧ accounts level written (acts ++ [a]) r'.
Proof.
  intros (l & Hl & Hlv & Hw & Hc) Ha. destruct a as [lv file line formatted now|n]; cbn [log_step].
  - rewrite Hl, log_call, bind_Ret_nil. eexists. split; [reflexivity|]. unfold accounts. cbn [lr_log lr_file].
    eexists. split; [reflexivity|]. rewrite omap_app, app_assoc, <- Hw, Hlv.
    cbn [omap list_omap]. destruct (line_of level (Call lv file line formatted now)) as [t|] eqn:E.
    + cbn [line_of] in E. destruct (_ <? _); [done|]. destruct (message_text file line formatted) as [m|]; [|done].
      injection E as <-. cbn [linx_log_queue_push set_queue lg_level lg_queue lg_queue_capacity].
      split; [done|]. split; [by rewrite fmap_app, app_assoc|]. rewrite length_app. cbn [length].
      destruct (Z.leb_spec (lg_queue_capacity l) (Z.of_nat (length (lg_queue l)))); [|lia].
      destruct (Z.eqb_spec (lg_queue_capacity l) 0); lia.
    + rewrite app_nil_r. by repeat split.
  - unfold accounts. rewrite omap_app. cbn [omap list_omap line_of]. rewrite app_nil_r. destruct (lr_running r).
    2:{ eexists. split; [reflexivity|]. by exists l. }
    rewrite Hl. cbn [read_log]. rewrite bind_ret_l. cbn [no_immediate_stop] in Ha. apply negb_true_iff in Ha.
    unfold log_pass, linx_log_queue_pop. rewrite Ha. destruct (lg_queue l) as [|m q] eqn:Eq.
    + destruct (n =? 1); (eexists; split; [reflexivity|]); exists l; rewrite Eq, app_nil_r; by repeat split.
    + eexists. split; [reflexivity|]. eexists. split; [reflexivity|]. cbn in *. split; [done|].
      rewrite <- app_assoc. split; [exact Hw|lia].
Qed.

Lemma log_runs_accounts level written acts acts0 r :
  accounts level written acts0 r → forallb no_immediate_stop acts = true →
  ∃ r', log_runs acts r = Ret [] r' ∧ accounts level written (acts0 ++ acts) r'.
Proof.
  revert acts0 r. induction acts as [|a acts IH]; intros acts0 r Hr Ha; cbn [log_runs forallb] in *.
  { exists r. by rewrite app_nil_r. }
  apply andb_true_iff in Ha as [Ha Has]. destruct (log_step_accounts _ _ _ _ _ Hr Ha) as (r1 & -> & H1).
  rewrite bind_Ret_nil. destruct (IH _ _ H1 Has) as (r' & H & H'). exists r'. split; [done|]. by rewrite <- app_assoc in H'.
Qed.

(** A graceful stop: the task ends once it has written the queue. *)
Lemma log_drain n l file :
  (length (lg_queue l) < n)%nat →
  log_runs (replicate n (Pass 1)) (mk_log_run (Log l) file true)
  = Ret [] (mk_log_run (Log (set_queue [] (lg_queue_capacity l) l)) (file ++ (log_line <$> lg_queue l)) false).
Proof.
  revert l file. induction n as [|n IH]; intros l file Hn; [lia|].
  cbn [replicate log_runs log_step lr_running lr_log lr_file read_log]. rewrite bind_ret_l.
  unfold log_pass, linx_log_queue_pop. destruct l as [lv f q cap]. cbn [lg_queue lg_queue_capacity] in *.
  destruct q as [|m q]; cbn [Z.eqb Pos.eqb].
  - rewrite bind_ret_l. clear. rewrite app_nil_r. unfold set_queue. cbn [fmap list_fmap lg_level lg_log_file].
    rewrite app_nil_r. induction n as [|n IH]; [done|]. cbn [replicate log_runs log_step lr_running].
    by rewrite bind_ret_l.
  - rewrite bind_ret_l. change (set_queue q cap (mk_log lv f (m :: q) cap)) with (mk_log lv f q cap).
    rewrite IH by (cbn in *; lia). cbn [lg_queue fmap list_fmap]. by rewrite <- app_assoc.
Qed.

(** ** Results *)

(** Whatever the interleaving of calls and of the task, as long as nothing
    stops the task at once, the lines written followed by those of the queue
    are exactly those of the calls at the configured level or above, in
    order, each with at most 1023 characters of text; and once a graceful
    stop is signalled the task writes the rest of the queue and ends. *)
Theorem log_writes_in_order env log_file level w l acts n :
  linx_log_init env log_file (Some level) LogNull = Ret w (0, Log l) → forallb no_immediate_stop acts = true →
  ∃ l' file running, log_runs acts (mk_log_run (Log l) [] true) = Ret [] (mk_log_run (Log l') file running)
    ∧ file ++ (log_line <$> lg_queue l') = omap (line_of (linx_log_level_str_to_level (Some level))) acts
    ∧ (running = true → (length (lg_queue l') < n)%nat →
       ∃ l'', log_runs (replicate n (Pass 1)) (mk_log_run (Log l') file running)
       = Ret [] (mk_log_run (Log l'') (omap (line_of (linx_log_level_str_to_level (Some level))) acts) false)).
Proof.
  intros Hi Ha.
  assert (l = mk_log (linx_log_level_str_to_level (Some level)) (default "stderr" log_file) [] 0) as ->.
  { unfold linx_log_init in Hi. destruct (_ <=? _); [done|]. destruct (negb _); [done|]. destruct (_ && _); [done|].
    destruct (negb (le_pool_create env)); [done|]. destruct (negb (le_add_task env =? 0)); [done|]. by injection Hi as _ <-. }
  destruct (log_runs_accounts (linx_log_level_str_to_level (Some level)) [] acts []
    (mk_log_run (Log (mk_log (linx_log_level_str_to_level (Some level)) (default "stderr" log_file) [] 0)) [] true))
    as (r' & Hr & l' & Hl & _ & Hw & _); [by eexists|done|].
  destruct r' as [p file running]. cbn in Hl, Hw. subst p. exists l', file, running. split; [done|]. split; [done|].
  intros -> Hn. eexists. rewrite log_drain by done. by rewrite Hw.
Qed.

(** An immediate stop ends the task after it has taken the oldest message,
    which is then neither in the file nor in the queue. *)
Theorem log_immediate_stop_loses l m q file :
  lg_queue l = m :: q →
  log_step (Pass 2) (mk_log_run (Log l) file true)
  = Ret [] (mk_log_run (Log (set_queue q (lg_queue_capacity l) l)) file false).
Proof.
  intros Hq. cbn [log_step lr_running lr_log lr_file read_log]. rewrite bind_ret_l. unfold log_pass, linx_log_queue_pop.
  rewrite Hq. cbn [Z.eqb Pos.eqb]. by rewrite app_nil_r.
Qed.
End log.

(** ** Examples *)
Definition log_ex (acts : list log_action) : outcome log_run :=
  log_runs (λ _, "now") acts (mk_log_run (Log (mk_log LINX_LOG_INFO "stderr" [] 0)) [] true).

Lemma log_writes_in_order_witness :
  ∃ l' file running,
    log_ex [Call LINX_LOG_ERROR "a.c" 7 "one" (0, 5000); Call LINX_LOG_DEBUG "a.c" 8 "no" (0, 0); Pass 0;
            Call LINX_LOG_INFO "b.c" 9 "two" (0, 0)]
    = Ret [] (mk_log_run (Log l') file running)
    ∧ file ++ (log_line (λ _, "now") <$> lg_queue l')
      = ["[now.005] [ERROR] [a.c:7]: one" +:+ String (ascii_of_nat 10) "";
         "[now.000] [INFO] [b.c:9]: two" +:+ String (ascii_of_nat 10) ""].
Proof.
  destruct (log_writes_in_order (λ _, "now") (mk_log_env 0 (λ _, true) true 0) None "INFO" [] _
    [Call LINX_LOG_ERROR "a.c" 7 "one" (0, 5000); Call LINX_LOG_DEBUG "a.c" 8 "no" (0, 0); Pass 0;
     Call LINX_LOG_INFO "b.c" 9 "two" (0, 0)] 5 eq_refl eq_refl) as (l' & file & running & H1 & H2 & _).
  exists l', file, running. split; [exact H1|]. rewrite H2. vm_compute. reflexivity.
Defined.

Lemma log_immediate_stop_loses_witness :
  ∃ m, log_step (λ _, "now") (Pass 2) (mk_log_run (Log (mk_log LINX_LOG_INFO "stderr" [m] 16)) [] true)
       = Ret [] (mk_log_run (Log (mk_log LINX_LOG_INFO "stderr" [] 16)) [] false).
Proof.
  exists (mk_log_message "lost" LINX_LOG_ERROR 0 0).
  exact (log_immediate_stop_loses (λ _, "now") (mk_log LINX_LOG_INFO "stderr" [mk_log_message "lost" LINX_LOG_ERROR 0 0] 16)
    _ _ [] eq_refl).
Defined.
