(* ===== verification/Startup.v ===== *)
(** * Arguments and the start of the program (userspace/linx_arg_parser,
    userspace/linx_apd/linx_apd.c)

    [main] parses the command line, loads the configuration the option [-c]
    names and opens the log the configuration describes, before anything
    else.  [argp_parse] is the C library's: it calls [linx_arg_parse] for
    every option on the command line, in order. *)
From S2P Require Import Prelude CString Memory EventType EventTable Yaml Config Log.
From Stdlib Require Import Ascii.

#[local] Open Scope Z_scope.

(** ** Arguments (linx_arg_parser.c) *)

(** [malloc] leaves both pointers indeterminate: [None]. *)
Record linx_arg_config_t := mk_arg_config {
  linx_apd_config : option string;
  linx_apd_rules : option string
}.

Definition ARGP_ERR_UNKNOWN : Z := 7.

Definition linx_arg_init (c : option linx_arg_config_t) : Z * option linx_arg_config_t :=
  match c with Some _ => (0, c) | None => (0, Some (mk_arg_config None None)) end.

Definition linx_arg_parse (key : ascii) (arg : string) (c : linx_arg_config_t) : Z * linx_arg_config_t :=
  if Ascii.eqb key "c" then (0, mk_arg_config (Some arg) (linx_apd_rules c))
  else if Ascii.eqb key "r" then (0, mk_arg_config (linx_apd_config c) (Some arg))
  else (ARGP_ERR_UNKNOWN, c).

(** The options the parser is called for. *)
Inductive arg_option := OptConfig (file_name : string) | OptRules (file_name : string).

Definition parse_option (o : arg_option) (c : linx_arg_config_t) : linx_arg_config_t :=
  match o with OptConfig f => (linx_arg_parse "c" f c).2 | OptRules f => (linx_arg_parse "r" f c).2 end.

Definition parse_options (os : list arg_option) (c : linx_arg_config_t) : linx_arg_config_t :=
  foldl (λ c o, parse_option o c) c os.

(** Both pointers are tested before they are freed. *)
Definition linx_arg_deinit (c : option linx_arg_config_t) : outcome (option linx_arg_config_t) :=
  match c with
  | None => mret None
  | Some c => _ ← init_or_ub (linx_apd_config c); _ ← init_or_ub (linx_apd_rules c); mret None
  end.

Definition linx_arg_get_config (c : option linx_arg_config_t) : option linx_arg_config_t := c.

(** ** The first part of main *)
Section startup.
Context `{CJson}.

(** The files: the events of a YAML file and the text of a JSON file. *)
Context (fs_yaml : string → option (list yaml_event)) (fs_text : string → option string) (heap_tail : string).
Context (env : log_env).

Inductive started :=
  | Refused                                                     (* goto out *)
  | Started (config : linx_global_config_t) (log : log_pointer).

Definition startup (os : list arg_option) : outcome started :=
  let '(ret, args) := linx_arg_init None in
  if negb (ret =? 0) then mret Refused
  else
    args ← from_opt NullDeref args;
    let args := parse_options os args in
    let '(ret, config) := linx_config_init None in
    if negb (ret =? 0) then mret Refused
    else
      path ← init_or_ub (linx_apd_config args);
      '(ret, config) ← linx_config_load false fs_text heap_tail (fs_yaml path) config;
      if negb (ret =? 0) then mret Refused
      else
        c ← from_opt NullDeref config;
        '(ret, log) ← linx_log_init env (cf_output c) (cf_log_level c) LogNull;
        if negb (ret =? 0) then mret Refused else mret (Started c log).
End startup.

(** ** What the command line says *)
Definition given_config (os : list arg_option) : option string :=
  last (omap (λ o, match o with OptConfig f => Some f | _ => None end) os).
Definition given_rules (os : list arg_option) : option string :=
  last (omap (λ o, match o with OptRules f => Some f | _ => None end) os).

(** ** Lemmas *)
Lemma parse_options_given os :
  parse_options os (mk_arg_config None None) = mk_arg_config (given_config os) (given_rules os).
Proof.
  induction os as [|o os IH] using rev_ind; [done|]. unfold parse_options in *. rewrite foldl_app, IH. cbn [foldl].
  unfold given_config, given_rules. rewrite !omap_app. destruct o as [f|f]; cbn; rewrite ?app_nil_r, ?last_snoc; done.
Qed.

(** ** Results *)

(** The start needs the option -c, and the end both options.  Without -c an
    indeterminate pointer is used as the name of the configuration, and
    without either option its release reads one.  With -c the last one counts;
    a file that is missing or no YAML is refused. *)
Theorem startup_needs_options `{CJson} fs_yaml fs_text heap_tail env os :
  (given_config os = None → startup fs_yaml fs_text heap_tail env os = Ub UninitRead)
  ∧ (∀ f, given_config os = Some f → fs_yaml f = None → startup fs_yaml fs_text heap_tail env os = Ret [] Refused)
  ∧ (linx_arg_deinit (Some (parse_options os (mk_arg_config None None))) = Ret [] None
     ↔ is_Some (given_config os) ∧ is_Some (given_rules os)).
Proof.
  unfold startup. cbn [linx_arg_init linx_config_init Z.eqb negb from_opt]. rewrite bind_ret_l, parse_options_given.
  cbn [linx_apd_config linx_arg_deinit linx_apd_rules].
  destruct (given_config os) as [f|]; cbn [init_or_ub].
  - rewrite !bind_ret_l. split; [done|]. split.
    + intros f' [= <-] Hf. rewrite Hf. reflexivity.
    + destruct (given_rules os) as [r|]; cbn [init_or_ub].
      * rewrite bind_ret_l. split; [by split|done].
      * split; [done|]. by intros [_ []].
  - split; [done|]. split; [done|]. split; [done|]. by intros [[] _].
Qed.

(** From the command line to the log.  When the file the last -c names is a
    document for ebpf as in [Config.config_load_reads], the log is opened at
    the level and with the output of the document, ERROR and stderr when it
    says nothing; a level that is none of the five, or an output that cannot
    be opened, is refused. *)
Theorem startup_opens_log `{CJson} fs_yaml fs_text heap_tail env os file d path t w text json :
  given_config os = Some file → fs_yaml file = Some (document d) → regular d = true → is_scalar d = false →
  conf_kind d = "ebpf" → counts_ok d = true → conf_file d = Some path → fs_text path = Some t →
  json_text heap_tail t = Ret w text → cJSON_Parse text = Some json →
  le_mutex_init env = 0 → le_pool_create env = true → le_add_task env = 0 →
  let level := linx_log_level_str_to_level (Some (conf_string d ["log"; "level"] "ERROR")) in
  let output := conf_string d ["log"; "output"] "stderr" in
  startup fs_yaml fs_text heap_tail env os
  = Ret w (if bool_decide (level = LINX_LOG_LEVEL_MAX) || negb (streq output "stderr") && negb (le_fopen env output)
           then Refused
           else Started (mk_config (Some output) (Some (conf_string d ["log"; "level"] "ERROR")) (Some "ebpf")
                           (conf_engine d json (cf_ebpf zero_config)))
                        (Log (mk_log level output [] 0))).
Proof.
  intros Hos Hf Hr Hs Hk Hc Hp Ht Hj Hparse Hm Hpool Htask level output. unfold startup.
  cbn [linx_arg_init linx_config_init Z.eqb negb from_opt]. rewrite bind_ret_l, parse_options_given.
  cbn [linx_apd_config]. rewrite Hos. cbn [init_or_ub]. rewrite bind_ret_l, Hf.
  rewrite (config_load_ebpf _ _ _ d path t w text json) by done.
  match goal with |- Ret w ?a ≫= ?f = Ret w ?b => apply (bind_Ret_clean w a f b) end. cbn [Z.eqb negb from_opt].
  rewrite bind_ret_l. cbn [cf_output cf_log_level]. unfold linx_log_init. fold level. cbn [default from_option].
  unfold id. fold output. rewrite Hm, Hpool, Htask. cbn [Z.eqb negb].
  destruct (decide (level = LINX_LOG_LEVEL_MAX)) as [E|E].
  { rewrite E. reflexivity. }
  rewrite (bool_decide_eq_false_2 (level = LINX_LOG_LEVEL_MAX)) by done. cbn [orb].
  destruct (Z.leb_spec (level_number LINX_LOG_LEVEL_MAX) (level_number level)) as [Hl|_].
  { destruct level; cbn in Hl; try lia; done. }
  destruct (negb (streq output "stderr") && negb (le_fopen env output)); reflexivity.
Qed.

(** ** Examples *)
#[local] Existing Instance json_ex.

Definition yaml_ex (f : string) : option (list yaml_event) :=
  if streq f "linx_apd.yaml" then Some (document config_ex) else None.

Lemma startup_needs_options_witness :
  startup yaml_ex (λ _, None) "" (mk_log_env 0 (λ _, true) true 0) [OptRules "rules"] = Ub UninitRead
  ∧ startup yaml_ex (λ _, None) "" (mk_log_env 0 (λ _, true) true 0) [OptConfig "linx_apd.yaml"; OptConfig "none"] = Ret [] Refused
  ∧ linx_arg_deinit (Some (parse_options [OptRules "r"; OptConfig "c"] (mk_arg_config None None))) = Ret [] None.
Proof.
  split; [exact (proj1 (startup_needs_options yaml_ex (λ _, None) "" (mk_log_env 0 (λ _, true) true 0) [OptRules "rules"]) eq_refl)|].
  split.
  - exact (proj1 (proj2 (startup_needs_options yaml_ex (λ _, None) "" (mk_log_env 0 (λ _, true) true 0)
      [OptConfig "linx_apd.yaml"; OptConfig "none"])) _ eq_refl eq_refl).
  - apply (startup_needs_options yaml_ex (λ _, None) "" (mk_log_env 0 (λ _, true) true 0) [OptRules "r"; OptConfig "c"]).
    split; eexists; reflexivity.
Defined.

Lemma startup_opens_log_witness :
  ∃ c, startup yaml_ex (λ _, Some "{openat:{interesting:1}}") "" (mk_log_env 0 (λ _, true) true 0) [OptConfig "linx_apd.yaml"]
  = Ret [OutOfBounds] (Started c (Log (mk_log LINX_LOG_INFO "stderr" [] 0))).
Proof.
  eexists. exact (startup_opens_log yaml_ex (λ _, Some "{openat:{interesting:1}}") "" (mk_log_env 0 (λ _, true) true 0)
    [OptConfig "linx_apd.yaml"] "linx_apd.yaml" config_ex "s.json" _ _ _ _ eq_refl eq_refl eq_refl eq_refl eq_refl eq_refl
    eq_refl eq_refl eq_refl eq_refl eq_refl eq_refl eq_refl).
Defined.
