(* ===== verification/ProcFs.v ===== *)
(** * Reading /proc (userspace/linx_process_cache/linx_process_cache.c)

    The text the kernel gives for a process and what the cache makes of it.
    The files themselves are the kernel's: a [procfs] is the content of the
    files of one process at one moment, [None] where a file cannot be read. *)
From S2P Require Import Prelude CString.
From Stdlib Require Import Ascii.

#[local] Open Scope Z_scope.

(** ** Data (include/linx_process_cache_info.h, linx_process_state.h) *)
Inductive linx_process_state_t :=
  | LINX_PROCESS_STATE_RUNNING
  | LINX_PROCESS_STATE_SLEEPING
  | LINX_PROCESS_STATE_ZOMBIE
  | LINX_PROCESS_STATE_STOPPED
  | LINX_PROCESS_STATE_EXITED
  | LINX_PROCESS_STATE_UNKNOWN.

(** The members that [read_proc_stat] sets. *)
Record stat_info := mk_stat {
  st_name : string;
  st_comm : string;
  st_state : linx_process_state_t;
  st_ppid : Z;
  st_pgid : Z;
  st_sid : Z;
  st_utime : Z;
  st_stime : Z;
  st_priority : Z;
  st_nice : Z;
  st_start_time : Z;
  st_vsize : Z;
  st_rss : Z
}.

(** Those that [read_proc_status] sets, and the links. *)
Record status_info := mk_status {
  ss_uid : Z;
  ss_gid : Z;
  ss_vsize : Z;
  ss_rss : Z;
  ss_shared : Z
}.

Record procfs := mk_procfs {
  pf_stat : option string;
  pf_status : option string;
  pf_cmdline : option string;
  pf_exe : option string;
  pf_cwd : option string
}.

Definition PROC_COMM_MAX_LEN : Z := 256.
Definition PROC_PATH_MAX_LEN : Z := 256.
Definition PROC_CMDLINE_LEN : Z := 4096.

(** ** The C library *)
Definition newline : ascii := chr 10.

(** [fgets(buf, S n, fp)]: the line and what is left. *)
Fixpoint fgets (n : nat) (s : string) : string * string :=
  match n, s with
  | O, _ => ("", s)
  | S n, EmptyString => ("", "")
  | S n, String c s =>
      if Ascii.eqb c newline then (String c "", s)
      else let '(line, rest) := fgets n s in (String c line, rest)
  end.

(** [strchr], [strrchr]: the text before the character and after it. *)
Fixpoint strchr (c : ascii) (s : string) : option (string * string) :=
  match s with
  | EmptyString => None
  | String x s' =>
      if Ascii.eqb x c then Some ("", s')
      else '(a, b) ← strchr c s'; Some (String x a, b)
  end.

Fixpoint strrchr (c : ascii) (s : string) : option (string * string) :=
  match s with
  | EmptyString => None
  | String x s' =>
      match strrchr c s' with
      | Some (a, b) => Some (String x a, b)
      | None => if Ascii.eqb x c then Some ("", s') else None
      end
  end.

(** [strtoul(s, &end, 10)] *)
Definition strtoul10 (s : string) : Z * string :=
  let '(neg, s1) := sign_of (span isspace s).2 in
  let '(ds, rest) := span isdigit s1 in
  if streq ds "" then (0, s)
  else
    let v := digits_val 10 0 ds in
    (if ULONG_MAX <? v then ULONG_MAX else if neg then wrap 64 (- v) else v, rest).

(** The conversions of the formats the program scans with; a space in a
    format precedes each. *)
Inductive conversion :=
  | Conv_c
  | Conv_d
  | Conv_lu
  | Conv_ld
  | Conv_skip.   (* %*d and %*u *)

(** A number, [None] when there are no digits. *)
Definition scan_number (conv : string → Z * string) (s : string) : option (Z * string) :=
  let '(v, rest) := conv s in
  let start := (span isspace s).2 in
  if streq (span isdigit (sign_of start).2).1 "" then None else Some (v, rest).

Fixpoint sscanf (format : list conversion) (s : string) : list Z :=
  match format with
  | [] => []
  | f :: format =>
      match f with
      | Conv_c =>
          match (span isspace s).2 with
          | EmptyString => []
          | String c s => code c :: sscanf format s
          end
      | Conv_d => match scan_number strtol10 s with Some (v, s) => sext 32 v :: sscanf format s | None => [] end
      | Conv_ld => match scan_number strtol10 s with Some (v, s) => v :: sscanf format s | None => [] end
      | Conv_lu => match scan_number strtoul10 s with Some (v, s) => v :: sscanf format s | None => [] end
      | Conv_skip => match scan_number strtol10 s with Some (_, s) => sscanf format s | None => [] end
      end
  end.

(** ** /proc/[pid]/stat *)
Definition stat_format : list conversion :=
  [Conv_c; Conv_d; Conv_d; Conv_d] ++ replicate 7 Conv_skip ++ [Conv_lu; Conv_lu]
  ++ replicate 2 Conv_skip ++ [Conv_d; Conv_d] ++ replicate 2 Conv_skip ++ [Conv_lu; Conv_lu; Conv_ld].

Definition state_of (c : Z) : linx_process_state_t :=
  if c =? code "R" then LINX_PROCESS_STATE_RUNNING
  else if c =? code "S" then LINX_PROCESS_STATE_SLEEPING
  else if c =? code "Z" then LINX_PROCESS_STATE_ZOMBIE
  else if c =? code "T" then LINX_PROCESS_STATE_STOPPED
  else LINX_PROCESS_STATE_UNKNOWN.

(** [None] for the return code -1.  [rss] keeps the 0 of [calloc] when only it
    is missing.  A text that ends at the parenthesis is scanned from behind
    its terminator. *)
Definition read_proc_stat (pagesize : Z) (stat : option string) : outcome (option stat_info) :=
  match stat with
  | None => mret None
  | Some text =>
      let '(buffer, _) := fgets 4095 text in
      if streq buffer "" then mret None
      else
        match strchr "(" buffer, strrchr ")" buffer with
        | Some (before, _), Some (upto, after) =>
            let start := strlen before in
            let end_ := strlen upto in
            if (end_ <=? start)%nat then mret None
            else
              let name_len := Z.of_nat end_ - Z.of_nat start - 1 in
              let name_len := if PROC_COMM_MAX_LEN <=? name_len then PROC_COMM_MAX_LEN - 1 else name_len in
              let comm := stake (Z.to_nat name_len) (sdrop (start + 1) buffer) in
              match after with
              | EmptyString => Ub UninitRead
              | String _ fields =>
                  let v := sscanf stat_format fields in
                  if (length v <? 10)%nat then mret None
                  else
                    let at_ i := default 0 (v !! i) in
                    mret (Some (mk_stat comm comm (state_of (at_ 0%nat)) (at_ 1%nat) (at_ 2%nat) (at_ 3%nat)
                                  (at_ 4%nat) (at_ 5%nat) (at_ 6%nat) (at_ 7%nat) (at_ 8%nat) (at_ 9%nat)
                                  (wrap 64 (at_ 10%nat * pagesize))))
              end
        | _, _ => mret None
        end
  end.

(** ** /proc/[pid]/status *)

(** [sscanf(line, "prefix %d")] behind a prefix that was compared. *)
Definition scan_after (prefix : string) (conv : string → Z * string) (line : string) (old : Z) : Z :=
  match scan_number conv (sdrop (strlen prefix) line) with Some (v, _) => v | None => old end.

Definition starts (prefix line : string) : bool := strncmp0 line prefix (strlen prefix).

Definition status_line (line : string) (i : status_info) : status_info :=
  if starts "Uid:" line then
    mk_status (sext 32 (scan_after "Uid:" strtol10 line (ss_uid i))) (ss_gid i) (ss_vsize i) (ss_rss i) (ss_shared i)
  else if starts "Gid:" line then
    mk_status (ss_uid i) (sext 32 (scan_after "Gid:" strtol10 line (ss_gid i))) (ss_vsize i) (ss_rss i) (ss_shared i)
  else if starts "VmSize:" line then
    mk_status (ss_uid i) (ss_gid i) (wrap 64 (scan_after "VmSize:" strtoul10 line (ss_vsize i) * 1024)) (ss_rss i)
      (ss_shared i)
  else if starts "VmRSS:" line then
    mk_status (ss_uid i) (ss_gid i) (ss_vsize i) (wrap 64 (scan_after "VmRSS:" strtoul10 line (ss_rss i) * 1024))
      (ss_shared i)
  else if starts "RssShmem:" line then
    mk_status (ss_uid i) (ss_gid i) (ss_vsize i) (ss_rss i)
      (wrap 64 (scan_after "RssShmem:" strtoul10 line (ss_shared i) * 1024))
  else i.

Fixpoint status_loop (fuel : nat) (text : string) (i : status_info) : outcome status_info :=
  match fuel with
  | O => NoFuel
  | S n =>
      let '(line, rest) := fgets 255 text in
      if streq line "" then mret i else status_loop n rest (status_line line i)
  end.

Definition read_proc_status (status : option string) (i : status_info) : outcome (option status_info) :=
  match status with
  | None => mret None
  | Some text => i ← status_loop (S (strlen text)) text i; mret (Some i)
  end.

(** ** /proc/[pid]/cmdline, exe and cwd *)

(** NUL characters become spaces, except the last character read. *)
Fixpoint join_args (s : string) : string :=
  match s with
  | String c (String _ _ as s') => String (if Ascii.eqb c (chr 0) then " " else c) (join_args s')
  | _ => s
  end.

(** The buffer as a C string ends at the first NUL that is left. *)
Definition read_proc_cmdline (cmdline : option string) : string :=
  match cmdline with
  | None => ""
  | Some bytes => (span (λ c, negb (Ascii.eqb c (chr 0))) (join_args (stake (Z.to_nat (PROC_CMDLINE_LEN - 1)) bytes))).1
  end.

Definition read_link (target : option string) : string :=
  match target with None => "" | Some t => stake (Z.to_nat (PROC_PATH_MAX_LEN - 1)) t end.
Definition read_proc_exe := read_link.
Definition read_proc_cwd := read_link.

(** ** What the kernel prints *)

(** The fields of /proc/[pid]/stat behind the name, up to rss. *)
Record kernel_stat := mk_kernel_stat {
  ks_pid : Z;
  ks_comm : string;
  ks_state : ascii;
  ks_numbers : list Z   (* ppid pgrp session tty_nr ... starttime vsize rss *)
}.

Fixpoint spaced (zs : list Z) (t : string) : string :=
  match zs with
  | [] => t
  | z :: zs' => String " " (show_int z +:+ spaced zs' t)
  end.

Definition stat_line (k : kernel_stat) (rest : string) : string :=
  show_int (ks_pid k) +:+ " (" +:+ ks_comm k +:+ ") " +:+ String (ks_state k) (spaced (ks_numbers k) rest).

Definition has (c : ascii) (s : string) : bool := negb (sforall (λ x, negb (Ascii.eqb x c)) s).

(** What a conversion can hold. *)
Definition fits (f : conversion) (z : Z) : Prop :=
  match f with
  | Conv_d => - 2 ^ 31 ≤ z < 2 ^ 31
  | Conv_ld => LONG_MIN ≤ z ≤ LONG_MAX
  | Conv_lu => 0 ≤ z ≤ ULONG_MAX
  | Conv_skip => True
  | Conv_c => False
  end.

Fixpoint assigned (format : list conversion) (zs : list Z) : list Z :=
  match format, zs with
  | f :: format, z :: zs =>
      match f with Conv_skip => assigned format zs | _ => z :: assigned format zs end
  | _, _ => []
  end.

Definition no_digit (s : string) : Prop := match s with String c _ => isdigit c = false | EmptyString => True end.

(** ** Lemmas *)
Lemma show_int_text z :
  ∃ ds, show_int z = (if z <? 0 then "-" +:+ ds else ds) ∧ ds ≠ "" ∧ sforall isdigit ds = true
    ∧ digits_val 10 0 ds = Z.abs z.
Proof.
  destruct (show_int_digits (Z.abs z) ltac:(lia)) as (Hne & Hd & Hv & _).
  exists (show_int (Z.abs z)). split; [|done]. destruct z as [|p|p]; done.
Qed.

Lemma span_digits ds t : sforall isdigit ds = true → no_digit t → span isdigit (ds +:+ t) = (ds, t).
Proof.
  intros Hd Ht. induction ds as [|c ds IH].
  - destruct t as [|c t]; [done|]. cbn in Ht |- *. by rewrite Ht.
  - unfold sforall in *. cbn [String.list_ascii_of_string forallb] in Hd. apply andb_true_iff in Hd as [Hc Hd].
    change (String c ds +:+ t) with (String c (ds +:+ t)). cbn [span]. by rewrite Hc, IH.
Qed.

(** The digits behind the sign of a printed number. *)
Lemma scan_prefix z t :
  no_digit t →
  ∃ ds, (span isspace (String " " (show_int z +:+ t))).2 = show_int z +:+ t
    ∧ sign_of (show_int z +:+ t) = (z <? 0, ds +:+ t)
    ∧ span isdigit (ds +:+ t) = (ds, t) ∧ ds ≠ "" ∧ digits_val 10 0 ds = Z.abs z.
Proof.
  intros Ht. destruct (show_int_text z) as (ds & -> & Hne & Hd & Hv). exists ds.
  assert (Hhead : ∃ c r, ds = String c r ∧ isdigit c = true).
  { destruct ds as [|c r]; [done|]. unfold sforall in Hd. cbn in Hd. apply andb_true_iff in Hd as [Hc _]. eauto. }
  destruct Hhead as (c & r & Hds & Hc).
  assert (Hsp : isspace c = false) by (unfold isspace, isdigit in *; lia).
  split; [|split; [|split; [by apply span_digits|done]]].
  - change (isspace " ") with true. cbn [span]. change (isspace " ") with true. cbv iota.
    destruct (z <? 0); [done|]. subst ds. cbn. by rewrite Hsp.
  - destruct (z <? 0); [done|]. subst ds. unfold sign_of. cbn.
    destruct c as [[] [] [] [] [] [] [] []]; done.
Qed.

Lemma scan_strtol z t :
  no_digit t →
  scan_number strtol10 (String " " (show_int z +:+ t)) = Some (Z.max LONG_MIN (Z.min LONG_MAX z), t).
Proof.
  intros Ht. destruct (scan_prefix z t Ht) as (ds & E1 & E2 & E3 & Hne & Hv).
  unfold scan_number, strtol10. rewrite E1, E2, E3. cbn [fst snd].
  destruct (streq_spec ds ""); [done|]. rewrite E3. cbn [fst]. destruct (streq_spec ds ""); [done|].
  rewrite Hv. do 2 f_equal. destruct (Z.ltb_spec z 0); lia.
Qed.

Lemma scan_strtoul z t :
  no_digit t → 0 ≤ z ≤ ULONG_MAX → scan_number strtoul10 (String " " (show_int z +:+ t)) = Some (z, t).
Proof.
  intros Ht Hz. destruct (scan_prefix z t Ht) as (ds & E1 & E2 & E3 & Hne & Hv).
  unfold scan_number, strtoul10. rewrite E1, E2, E3. cbn [fst snd].
  destruct (streq_spec ds ""); [done|]. rewrite E3. cbn [fst]. destruct (streq_spec ds ""); [done|].
  rewrite Hv, Z.abs_eq by lia. destruct (Z.ltb_spec z 0); [lia|]. destruct (Z.ltb_spec ULONG_MAX z); [lia|done].
Qed.

Lemma spaced_no_digit zs t : no_digit t → no_digit (spaced zs t).
Proof. by destruct zs. Qed.

Lemma sscanf_spaced format zs t :
  Forall2 fits format zs → no_digit t → sscanf format (spaced zs t) = assigned format zs.
Proof.
  intros H Ht. induction H as [|f z format zs Hf _ IH]; [done|]. cbn [sscanf spaced assigned].
  pose proof (spaced_no_digit zs t Ht) as Hn. destruct f; cbn in Hf; try done.
  - rewrite scan_strtol by done. rewrite IH. f_equal. unfold LONG_MIN, LONG_MAX.
    rewrite Z.min_r, Z.max_r by lia. by apply sext_small.
  - rewrite scan_strtoul by done. by rewrite IH.
  - rewrite scan_strtol by done. rewrite IH. f_equal. lia.
  - rewrite scan_strtol by done. by rewrite IH.
Qed.

Lemma fgets_line n a b :
  has newline a = false → (strlen a < n)%nat → fgets n (a +:+ String newline b) = (a +:+ String newline "", b).
Proof.
  unfold has. rewrite negb_false_iff. revert a. induction n as [|n IH]; intros a Ha Hn; [lia|].
  destruct a as [|c a]; [done|]. unfold sforall in *. cbn [String.list_ascii_of_string forallb] in Ha.
  apply andb_true_iff in Ha as [Hc Ha]. change (String c a +:+ ?x) with (String c (a +:+ x)). cbn [fgets].
  apply negb_true_iff in Hc. rewrite Hc. cbn in Hn. by rewrite IH by (done || lia).
Qed.

Lemma strchr_app c a b : has c a = false → strchr c (a +:+ String c b) = Some (a, b).
Proof.
  unfold has. rewrite negb_false_iff. induction a as [|x a IH]; cbn [strchr String.append]; intros Ha.
  - by rewrite Ascii.eqb_refl.
  - unfold sforall in *. cbn in Ha. apply andb_true_iff in Ha as [Hx Ha]. apply negb_true_iff in Hx.
    cbn. rewrite Hx. by rewrite IH.
Qed.

Lemma strrchr_none c s : has c s = false → strrchr c s = None.
Proof.
  unfold has. rewrite negb_false_iff. induction s as [|x s IH]; [done|]. unfold sforall in *. cbn.
  intros [Hx Hs]%andb_true_iff. apply negb_true_iff in Hx. by rewrite IH, Hx.
Qed.

Lemma strrchr_app c a b : has c b = false → strrchr c (a +:+ String c b) = Some (a, b).
Proof.
  intros Hb. induction a as [|x a IH]; cbn [strrchr String.append].
  - by rewrite strrchr_none, Ascii.eqb_refl.
  - cbn. by rewrite IH.
Qed.

Lemma has_app c a b : has c (a +:+ b) = has c a || has c b.
Proof. unfold has. by rewrite sforall_app, negb_andb. Qed.

Lemma has_cons c x a : has c (String x a) = Ascii.eqb x c || has c a.
Proof. unfold has, sforall. cbn -[Ascii.eqb]. by destruct (Ascii.eqb x c). Qed.

Lemma has_nil c : has c "" = false.
Proof. done. Qed.

Lemma has_digits c ds : sforall isdigit ds = true → isdigit c = false → has c ds = false.
Proof.
  intros Hd Hc. unfold has. apply negb_false_iff. revert Hd. apply sforall_impl. intros x Hx.
  destruct (Ascii.eqb_spec x c) as [->|]; [by rewrite Hc in Hx|done].
Qed.

Lemma has_number c z : isdigit c = false → c ≠ "-"%char → has c (show_int z) = false.
Proof.
  intros Hc Hm. destruct (show_int_text z) as (ds & -> & _ & Hd & _). destruct (z <? 0).
  - rewrite has_app, (has_digits _ ds), orb_false_r, has_cons, has_nil, orb_false_r by done.
    by apply Ascii.eqb_neq.
  - by apply has_digits.
Qed.

Lemma has_spaced c zs t :
  isdigit c = false → c ≠ "-"%char → c ≠ " "%char → has c (spaced zs t) = has c t.
Proof.
  intros Hc Hm Hs. induction zs as [|z zs IH]; [done|]. cbn [spaced].
  rewrite has_cons, has_app, has_number, IH by done. by rewrite (proj2 (Ascii.eqb_neq " " c)).
Qed.

Lemma sapp_cons c a b : String c a +:+ b = String c (a +:+ b).
Proof. done. Qed.

Lemma spaced_app zs a b : spaced zs a +:+ b = spaced zs (a +:+ b).
Proof.
  induction zs as [|z zs IH]; [done|]. cbn [spaced].
  change (String " " ?x +:+ b) with (String " " (x +:+ b)). by rewrite sapp_assoc, IH.
Qed.

Lemma stake_app_le n a b : (n ≤ strlen a)%nat → stake n (a +:+ b) = stake n a.
Proof.
  revert a. induction n as [|n IH]; intros a Hn; [done|]. destruct a as [|c a]; cbn in Hn; [lia|].
  change (String c a +:+ b) with (String c (a +:+ b)). cbn [stake]. rewrite IH by lia. done.
Qed.

(** The name between the parentheses. *)
Lemma name_slice p comm t :
  let n := Z.of_nat (strlen (p +:+ String "(" comm)) - Z.of_nat (strlen p) - 1 in
  stake (Z.to_nat (if PROC_COMM_MAX_LEN <=? n then PROC_COMM_MAX_LEN - 1 else n))
    (sdrop (strlen p + 1) (p +:+ String "(" (comm +:+ t))) = stake 255 comm.
Proof.
  intros n. assert (n = Z.of_nat (strlen comm)) as ->.
  { subst n. rewrite strlen_app. cbn [String.length]. lia. }
  rewrite <- sdrop_sdrop, sdrop_app_length. cbn [sdrop]. unfold PROC_COMM_MAX_LEN.
  destruct (Z.leb_spec 256 (Z.of_nat (strlen comm))).
  - change (Z.to_nat (256 - 1)) with 255%nat. apply stake_app_le. lia.
  - rewrite Nat2Z.id, stake_app_length. symmetry. rewrite <- (stake_sdrop 255 comm) at 2.
    rewrite (sdrop_all comm) by lia. by rewrite sapp_nil_r.
Qed.

Definition nth_number (zs : list Z) (i : nat) : Z := default 0 (zs !! i).

(** The numbers a full line assigns. *)
Lemma assigned_stat zs :
  Forall2 fits (tail stat_format) zs →
  let at_ := nth_number zs in
  assigned (tail stat_format) zs
  = [at_ 0%nat; at_ 1%nat; at_ 2%nat; at_ 10%nat; at_ 11%nat; at_ 14%nat; at_ 15%nat; at_ 18%nat; at_ 19%nat; at_ 20%nat].
Proof.
  intros H. unfold stat_format in *. cbn [tail app replicate] in *.
  repeat (let z := fresh "z" in apply Forall2_cons_inv_l in H as (z & ? & _ & H & ->)).
  apply Forall2_nil_inv_l in H as ->. done.
Qed.

(** A line split at its parentheses. *)
Lemma read_stat_buffer pagesize text r p comm fields :
  fgets 4095 text = (p +:+ String "(" (comm +:+ String ")" (String " " fields)), r) →
  has "(" p = false → comm ≠ "" → has ")" fields = false →
  let v := sscanf stat_format fields in
  let at_ := nth_number v in
  (10 ≤ length v)%nat →
  read_proc_stat pagesize (Some text)
  = Ret [] (Some (mk_stat (stake 255 comm) (stake 255 comm) (state_of (at_ 0%nat)) (at_ 1%nat) (at_ 2%nat) (at_ 3%nat)
      (at_ 4%nat) (at_ 5%nat) (at_ 6%nat) (at_ 7%nat) (at_ 8%nat) (at_ 9%nat) (wrap 64 (at_ 10%nat * pagesize)))).
Proof.
  intros Hf Hp Hne Hr v at_ Hv. unfold read_proc_stat. rewrite Hf.
  destruct (streq_spec (p +:+ String "(" (comm +:+ String ")" (String " " fields))) "") as [E|_].
  { exfalso. revert E. by destruct p. }
  rewrite strchr_app by done.
  assert (E : strrchr ")" (p +:+ String "(" (comm +:+ String ")" (String " " fields)))
    = Some (p +:+ String "(" comm, String " " fields)).
  { rewrite <- (strrchr_app ")" (p +:+ String "(" comm)); [by rewrite sapp_assoc|]. by rewrite has_cons, Hr. }
  rewrite E, name_slice.
  assert (Hlt : (strlen p < strlen (p +:+ String "(" comm))%nat) by (rewrite strlen_app; cbn [String.length]; lia).
  destruct (Nat.leb_spec (strlen (p +:+ String "(" comm)) (strlen p)); [lia|].
  fold v. destruct (Nat.ltb_spec (length v) 10); [lia|done].
Qed.

Lemma fgets_length n s : (strlen (fgets n s).2 + strlen (fgets n s).1 = strlen s)%nat.
Proof.
  revert s. induction n as [|n IH]; intros [|c s]; try done. cbn [fgets].
  destruct (Ascii.eqb c newline); [cbn; lia|]. specialize (IH s). destruct (fgets n s) as [line rest].
  cbn in *. lia.
Qed.

Lemma status_loop_total fuel text i : (strlen text < fuel)%nat → ∃ r, status_loop fuel text i = Ret [] r.
Proof.
  revert text i. induction fuel as [|fuel IH]; intros text i Hf; [lia|]. cbn [status_loop].
  pose proof (fgets_length 255 text) as Hl. destruct (fgets 255 text) as [line rest]. cbn [fst snd] in Hl.
  destruct (streq_spec line ""); [by eexists|]. apply IH. destruct line; [done|]. cbn in Hl. lia.
Qed.

(** ** Properties *)

(** C38: /proc/[pid]/stat is read back.  For a line of the kernel with the 21
    numbers from ppid to rss, each within its C type, and a non-empty command
    name of any characters but a newline (blanks and parentheses included),
    [read_proc_stat] returns the name cut to 255 characters, the state and the
    ten numbers it keeps, rss in bytes.  A newline in the name ends the line
    that is read, and the process is not described when no ')' stands before
    that newline. *)
Theorem read_proc_stat_roundtrip pagesize k rest :
  0 ≤ ks_pid k → ks_comm k ≠ "" →
  isspace (ks_state k) = false → ks_state k ≠ ")"%char →
  Forall2 fits (tail stat_format) (ks_numbers k) →
  no_digit rest → has newline rest = false → has ")" rest = false →
  Z.of_nat (strlen (stat_line k rest)) < 4095 →
  let at_ := nth_number (ks_numbers k) in
  let comm := stake 255 (ks_comm k) in
  (has newline (ks_comm k) = false →
   read_proc_stat pagesize (Some (stat_line k rest +:+ String newline ""))
   = Ret [] (Some (mk_stat comm comm (state_of (code (ks_state k))) (at_ 0%nat) (at_ 1%nat) (at_ 2%nat)
       (at_ 10%nat) (at_ 11%nat) (at_ 14%nat) (at_ 15%nat) (at_ 18%nat) (at_ 19%nat)
       (wrap 64 (at_ 20%nat * pagesize)))))
  ∧ (∀ a b, ks_comm k = a +:+ String newline b → has newline a = false → has ")" a = false →
     read_proc_stat pagesize (Some (stat_line k rest +:+ String newline "")) = Ret [] None).
Proof.
  intros Hpid Hne Hst Hsp Hfit Hrd Hrn Hrp Hlen at_ comm.
  set (p := show_int (ks_pid k) +:+ " ").
  assert (Hp : has "(" p = false ∧ has newline p = false ∧ has ")" p = false).
  { unfold p. rewrite !has_app, !has_number by done. done. }
  destruct Hp as (Hp1 & Hp2 & Hp3).
  set (tail_ := String " " (String (ks_state k) (spaced (ks_numbers k) rest))).
  assert (Hline : stat_line k rest = p +:+ String "(" (ks_comm k +:+ String ")" tail_)).
  { unfold stat_line, p. rewrite !sapp_assoc. done. }
  assert (Hnl : ks_state k ≠ newline) by (intros E; by rewrite E in Hst).
  assert (Htail : ∀ c, isdigit c = false → c ≠ "-"%char → c ≠ " "%char → ks_state k ≠ c → has c tail_ = has c rest).
  { intros c H1 H2 H3 H4. unfold tail_. rewrite !has_cons, has_spaced by done.
    rewrite (proj2 (Ascii.eqb_neq " " c)), (proj2 (Ascii.eqb_neq (ks_state k) c)) by done. done. }
  rewrite Hline in *. split.
  - intros Hcn. set (fields := String (ks_state k) (spaced (ks_numbers k) (rest +:+ String newline ""))).
    assert (Hv : sscanf stat_format fields = code (ks_state k) :: assigned (tail stat_format) (ks_numbers k)).
    { change stat_format with (Conv_c :: tail stat_format). unfold fields. cbn [sscanf span]. rewrite Hst. cbn [snd].
      f_equal. apply sscanf_spaced; [done|]. by destruct rest. }
    rewrite assigned_stat in Hv by done.
    rewrite (read_stat_buffer pagesize _ "" p (ks_comm k) fields); rewrite ?Hv; try done.
    + rewrite fgets_line; [| |lia].
      * f_equal. unfold fields, tail_. rewrite <- spaced_app. by repeat (rewrite sapp_assoc || rewrite sapp_cons).
      * rewrite has_app, has_cons, has_app, has_cons, Htail, Hp2, Hcn, Hrn by done. done.
    + unfold fields. rewrite has_cons, has_spaced, has_app, Hrp by done. by rewrite (proj2 (Ascii.eqb_neq (ks_state k) ")")).
    + cbn [length]. lia.
  - intros a b Hc Ha1 Ha2. rewrite Hc.
    assert (Hb : (p +:+ String "(" ((a +:+ String newline b) +:+ String ")" tail_)) +:+ String newline ""
      = (p +:+ String "(" a) +:+ String newline ((b +:+ String ")" tail_) +:+ String newline "")).
    { by repeat (rewrite sapp_assoc || rewrite sapp_cons). }
    unfold read_proc_stat. rewrite Hb, fgets_line.
    + case_match; [done|]. rewrite strrchr_none; [by destruct (strchr _ _) as [[??]|]|].
      rewrite has_app, has_app, has_cons, Hp3, Ha2. done.
    + rewrite has_app, has_cons, Hp2, Ha1. done.
    + rewrite Hc, !strlen_app in Hlen. cbn [String.length] in Hlen. rewrite !strlen_app in Hlen.
      rewrite strlen_app. cbn [String.length] in *. lia.
Qed.

Definition stat_ex : kernel_stat :=
  mk_kernel_stat 77 "a) b" "S" [1; 77; 77; 0; -1; 4194304; 10; 0; 0; 0; 5; 6; 0; 0; 20; 0; 1; 0; 123; 4096; 2].

Lemma read_proc_stat_roundtrip_witness :
  stat_line stat_ex " 0" = "77 (a) b) S 1 77 77 0 -1 4194304 10 0 0 0 5 6 0 0 20 0 1 0 123 4096 2 0"
  ∧ read_proc_stat 4096 (Some (stat_line stat_ex " 0" +:+ String newline ""))
    = Ret [] (Some (mk_stat "a) b" "a) b" LINX_PROCESS_STATE_SLEEPING 1 77 77 5 6 20 0 123 4096 8192)).
Proof.
  split; [reflexivity|].
  refine (proj1 (read_proc_stat_roundtrip 4096 stat_ex " 0" _ _ _ _ _ _ _ _ _) _); try reflexivity; try discriminate.
  repeat constructor; try (vm_compute; discriminate).
Defined.
