(* ===== verification/ProcessCache.v ===== *)
(** * The process cache (userspace/linx_process_cache/linx_process_cache.c)

    A uthash table from process identifiers to information blocks.  The state
    is the static variable [g_process_cache] with the blocks behind it; every
    operation is one critical section.  A block has an address: it stays
    valid while its entry is in the table, or forever when
    [linx_process_cache_get] made it and nothing owns it.

    The threads that run the monitor and the cleaner are tasks of a
    [ThreadPool]; here one pass of each loop is one operation.  What the kernel
    says is passed in: the /proc files, the clock and which processes are
    alive. *)
From S2P Require Import Prelude CString Uthash EventTable HashMap ThreadPool ProcFs.
From Stdlib Require Import Ascii.

#[local] Open Scope Z_scope.

(** ** Data *)
Definition LINX_PROCESS_CACHE_EXPIRE_TIME : Z := 20.
Definition LINX_PROCESS_CACHE_THREAD_NUM : Z := 4.

(** The members grouped by who sets them: [pi_stat] and [pi_status] from the
    files of the same names; [vsize] and [rss] of the status replace those of
    the stat. *)
Record linx_process_info_t := mk_process_info {
  pi_pid : Z;
  pi_stat : stat_info;
  pi_status : status_info;
  pi_cmdline : string;
  pi_exe : string;
  pi_cwd : string;
  pi_create_time : Z;
  pi_update_time : Z;
  pi_exit_time : Z;
  pi_is_alive : bool;
  pi_is_rich : bool
}.

Record cache_entry := mk_cache_entry {
  ce_addr : nat;
  ce_info : linx_process_info_t
}.

Definition ce_pid (e : cache_entry) : Z := pi_pid (ce_info e).

(** The functions the cache's pool runs, with a process identifier for the
    last. *)
Inductive cache_task :=
  | Monitor_thread_func
  | Cleaner_thread_func
  | Update_process_task.

Abbreviation cache_pool := (@linx_thread_pool_t cache_task (option Z)).

(** [pc_loose] holds the blocks outside of the table, [pc_fresh] the next
    address. *)
Record linx_process_cache_t := mk_process_cache {
  pc_hash_table : list cache_entry;
  pc_thread_pool : option cache_pool;
  pc_running : bool;
  pc_loose : list cache_entry;
  pc_fresh : nat
}.

Abbreviation cache_state := (option linx_process_cache_t).

Definition with_table (l : list cache_entry) (c : linx_process_cache_t) : linx_process_cache_t :=
  mk_process_cache l (pc_thread_pool c) (pc_running c) (pc_loose c) (pc_fresh c).

(** The addresses that may be read. *)
Definition valid (a : nat) (c : linx_process_cache_t) : Prop :=
  a ∈ ce_addr <$> (pc_hash_table c ++ pc_loose c).

(** ** Making a block *)
Section cache.
Context (pagesize : Z).

Definition create_process_info (now pid : Z) (proc : procfs) : outcome (option linx_process_info_t) :=
  stat ← read_proc_stat pagesize (pf_stat proc);
  match stat with
  | None => mret None
  | Some st =>
      status ← read_proc_status (pf_status proc) (mk_status 0 0 (st_vsize st) (st_rss st) 0);
      match status with
      | None => mret None
      | Some ss =>
          mret (Some (mk_process_info pid st ss (read_proc_cmdline (pf_cmdline proc)) (read_proc_exe (pf_exe proc))
                        (read_proc_cwd (pf_cwd proc)) now now 0 true false))
      end
  end.

(** What an entry takes over from the one it replaces. *)
Definition inherit (old info : linx_process_info_t) : linx_process_info_t :=
  let dead := negb (pi_is_alive old) && (0 <? pi_exit_time old) in
  mk_process_info (pi_pid info) (pi_stat info) (pi_status info) (pi_cmdline info) (pi_exe info) (pi_cwd info)
    (pi_create_time old) (pi_update_time info)
    (if dead then pi_exit_time old else pi_exit_time info)
    (if dead then false else pi_is_alive info) (pi_is_rich info).

(** The critical section of an update: the old entry is unlinked and freed and
    the new one linked. *)
Definition replace_entry (info : linx_process_info_t) (c : linx_process_cache_t) : linx_process_cache_t :=
  let pid := pi_pid info in
  let '(info, table) :=
    match ut_find ce_pid pid (pc_hash_table c) with
    | Some old => (inherit (ce_info old) info, ut_del ce_pid pid (pc_hash_table c))
    | None => (info, pc_hash_table c)
    end in
  mk_process_cache (ut_add (mk_cache_entry (pc_fresh c) info) table) (pc_thread_pool c) (pc_running c)
    (pc_loose c) (S (pc_fresh c)).

(** ** Operations *)
Definition update_process_task (now pid should_stop : Z) (proc : procfs) (g : cache_state) : outcome cache_state :=
  if negb (should_stop =? 0) then mret g
  else
    info ← create_process_info now pid proc;
    match info with
    | None => mret g
    | Some info => c ← from_opt NullDeref g; mret (Some (replace_entry info c))
    end.

(** The block behind the pointer passed in becomes the cache's; the check for
    a missing cache is absent. *)
Definition linx_process_cache_update (info : option linx_process_info_t) (g : cache_state)
    : outcome (Z * cache_state) :=
  match info with
  | None => mret (-1, g)
  | Some info => c ← from_opt NullDeref g; mret (0, Some (replace_entry info c))
  end.

Definition linx_process_cache_update_sync (now pid : Z) (proc : procfs) (g : cache_state) : outcome (Z * cache_state) :=
  match g with
  | None => mret (-1, g)
  | Some _ => g ← update_process_task now pid 0 proc g; mret (0, g)
  end.

(** The address returned outlives the lock. *)
Definition linx_process_cache_get (now pid : Z) (proc : procfs) (g : cache_state)
    : outcome (option nat * cache_state) :=
  match g with
  | None => mret (None, g)
  | Some c =>
      match ut_find ce_pid pid (pc_hash_table c) with
      | Some e => mret (Some (ce_addr e), g)
      | None =>
          info ← create_process_info now pid proc;
          match info with
          | None => mret (None, g)
          | Some info =>
              let a := pc_fresh c in
              mret (Some a, Some (mk_process_cache (pc_hash_table c) (pc_thread_pool c) (pc_running c)
                                    (mk_cache_entry a info :: pc_loose c) (S a)))
          end
      end
  end.

(** The copies that the list receives, and the count. *)
Definition linx_process_cache_get_all (g : cache_state) : Z * list linx_process_info_t :=
  match g with
  | None => (-1, [])
  | Some c => (0, ce_info <$> pc_hash_table c)
  end.

Definition linx_process_cache_delete (pid : Z) (g : cache_state) : Z * cache_state :=
  match g with
  | None => (-1, g)
  | Some c => (0, Some (with_table (ut_del ce_pid pid (pc_hash_table c)) c))
  end.

(** [(now - exit_time) > 20] *)
Definition exited_long_ago (now : Z) (i : linx_process_info_t) : bool :=
  negb (pi_is_alive i) && (0 <? pi_exit_time i) && (LINX_PROCESS_CACHE_EXPIRE_TIME <? now - pi_exit_time i).

(** [start_time] is unsigned, so is the difference; it counts clock ticks
    since boot and [now] seconds since 1970. *)
Definition rich_expired (now : Z) (i : linx_process_info_t) : bool :=
  pi_is_rich i && (LINX_PROCESS_CACHE_EXPIRE_TIME <? wrap 64 (now - st_start_time (pi_stat i))).

Definition linx_process_cache_cleanup (now : Z) (g : cache_state) : Z * cache_state :=
  match g with
  | None => (-1, g)
  | Some c =>
      let '(gone, rest) := List.partition (λ e, exited_long_ago now (ce_info e)) (pc_hash_table c) in
      (sext 32 (Z.of_nat (length gone)), Some (with_table rest c))
  end.

(** One pass of the cleaner thread. *)
Definition cleaner_pass (now : Z) (c : linx_process_cache_t) : linx_process_cache_t :=
  with_table (List.filter (λ e, negb (rich_expired now (ce_info e) || exited_long_ago now (ce_info e)))
                (pc_hash_table c)) c.

(** One scan of the table by the monitor thread. *)
Definition mark_exited (now : Z) (alive : Z → bool) (i : linx_process_info_t) : linx_process_info_t :=
  if negb (pi_is_rich i) && pi_is_alive i && negb (alive (pi_pid i)) then
    let st := pi_stat i in
    mk_process_info (pi_pid i)
      (mk_stat (st_name st) (st_comm st) LINX_PROCESS_STATE_EXITED (st_ppid st) (st_pgid st) (st_sid st) (st_utime st)
         (st_stime st) (st_priority st) (st_nice st) (st_start_time st) (st_vsize st) (st_rss st))
      (pi_status i) (pi_cmdline i) (pi_exe i) (pi_cwd i) (pi_create_time i) (pi_update_time i) now false (pi_is_rich i)
  else i.

Definition monitor_pass (now : Z) (alive : Z → bool) (c : linx_process_cache_t) : linx_process_cache_t :=
  with_table ((λ e, mk_cache_entry (ce_addr e) (mark_exited now alive (ce_info e))) <$> pc_hash_table c) c.

(** The processes of /proc the monitor queues an update for: entries that
    start with a digit, as [atoi] reads them. *)
Definition monitor_pids (entries : list string) : list Z :=
  List.filter (λ pid, 0 <? pid)
    ((λ d, sext 32 (strtol10 d).1)
       <$> List.filter (λ d, match d with String c _ => isdigit c | EmptyString => false end) entries).

Definition linx_process_cache_stats (g : cache_state) : Z * Z * Z :=
  match g with
  | None => (0, 0, 0)
  | Some c =>
      let alive := List.filter (λ e, pi_is_alive (ce_info e)) (pc_hash_table c) in
      (Z.of_nat (length (pc_hash_table c)), Z.of_nat (length alive),
       Z.of_nat (length (pc_hash_table c)) - Z.of_nat (length alive))
  end.

(** Queueing an update of one process. *)
Definition queue_update (pid : Z) (c : linx_process_cache_t) : Z * linx_process_cache_t :=
  let '(ret, pool) := linx_thread_pool_add_task (pc_thread_pool c) (Some Update_process_task) (Some pid) in
  (ret, mk_process_cache (pc_hash_table c) pool (pc_running c) (pc_loose c) (pc_fresh c)).

Definition linx_process_cache_update_async (pid : Z) (g : cache_state) : Z * cache_state :=
  match g with
  | None => (-1, g)
  | Some c => let '(ret, c) := queue_update pid c in (ret, Some c)
  end.

(** The monitor queues an update for each process before it scans. *)
Definition monitor_queue (entries : list string) (c : linx_process_cache_t) : linx_process_cache_t :=
  foldl (λ c pid, (queue_update pid c).2) c (monitor_pids entries).

(** The fields of table "proc". *)
Definition proc_mappings (offset_of : string → Z * Z) : list field_mapping_t :=
  let m f t := mk_mapping f (offset_of f).1 (offset_of f).2 t in
  [m "pid" LINX_FIELD_TYPE_INT32; m "ppid" LINX_FIELD_TYPE_INT32; m "pgid" LINX_FIELD_TYPE_INT32;
   m "sid" LINX_FIELD_TYPE_INT32; m "uid" LINX_FIELD_TYPE_INT32; m "gid" LINX_FIELD_TYPE_INT32;
   m "name" LINX_FIELD_TYPE_CHARBUF; m "comm" LINX_FIELD_TYPE_CHARBUF; m "cmdline" LINX_FIELD_TYPE_CHARBUF;
   m "exe" LINX_FIELD_TYPE_CHARBUF; m "cwd" LINX_FIELD_TYPE_CHARBUF].

Definition linx_process_cache_bind_field (offset_of : string → Z * Z) (s : hash_map_state) : Z * hash_map_state :=
  linx_hash_map_add_field_batch (Some "proc") (Some (proc_mappings offset_of)) s.

Definition linx_process_cache_init (cpus : Z) (offset_of : string → Z * Z) (s : hash_map_state) (g : cache_state)
    : Z * hash_map_state * cache_state :=
  match g with
  | Some _ => (0, s, g)
  | None =>
      let '(ret, s) := linx_process_cache_bind_field offset_of s in
      if negb (ret =? 0) then (-1, s, g)
      else
        let pool := linx_thread_pool_create cpus LINX_PROCESS_CACHE_THREAD_NUM in
        let '(r1, pool) := linx_thread_pool_add_task (Some pool) (Some Monitor_thread_func) None in
        let '(r2, pool) := linx_thread_pool_add_task pool (Some Cleaner_thread_func) None in
        if (r1 <? 0) || (r2 <? 0) then (-1, s, None)
        else (0, s, Some (mk_process_cache [] pool true [] 0))
  end.

(** The joins of the pool's destructor are [ThreadPool]'s. *)
Definition linx_process_cache_deinit (g : cache_state) : outcome cache_state :=
  match g with
  | None => mret None
  | Some c => _ ← destroy_begin (pc_thread_pool c) 1; mret None
  end.
End cache.

(** ** The table as a map *)
Definition cache_map (c : linx_process_cache_t) : gmap Z linx_process_info_t := ce_info <$> ut_map ce_pid (pc_hash_table c).

Definition cache_wf (c : linx_process_cache_t) : Prop :=
  ut_wf ce_pid (pc_hash_table c)
  ∧ NoDup (ce_addr <$> (pc_hash_table c ++ pc_loose c))
  ∧ ∀ a, valid a c → (a < pc_fresh c)%nat.

Lemma ut_find_cache pid c : ce_info <$> ut_find ce_pid pid (pc_hash_table c) = cache_map c !! pid.
Proof. unfold cache_map. by rewrite lookup_fmap, ut_find_map. Qed.

Lemma filter_map (f : linx_process_info_t → bool) l :
  ut_wf ce_pid l →
  ce_info <$> ut_map ce_pid (List.filter (λ e, f (ce_info e)) l)
  = filter (λ x, f x.2 = true) (ce_info <$> ut_map ce_pid l).
Proof.
  unfold ut_wf. induction l as [|e l IH]; cbn [List.filter ut_map fmap list_fmap]; [by rewrite fmap_empty, map_filter_empty|].
  intros [Hn Hd]%NoDup_cons. rewrite fmap_insert.
  assert (Hl : (ce_info <$> ut_map ce_pid l) !! ce_pid e = None).
  { rewrite lookup_fmap, <- ut_find_map, (proj2 (ut_find_None ce_pid _ _)); done. }
  destruct (f (ce_info e)) eqn:Ef; cbn [ut_map].
  - rewrite fmap_insert, map_filter_insert_True, IH by done. done.
  - rewrite map_filter_insert_False by (cbn; by rewrite Ef). rewrite delete_id by done. by apply IH.
Qed.

Lemma replace_map info c :
  cache_wf c →
  cache_map (replace_entry info c)
  = <[pi_pid info := match cache_map c !! pi_pid info with Some old => inherit old info | None => info end]>
      (cache_map c).
Proof.
  intros (Hwf & _). unfold replace_entry. rewrite <- ut_find_cache.
  destruct (ut_find ce_pid (pi_pid info) (pc_hash_table c)) as [old|] eqn:E; cbn [fmap option_fmap option_map];
    unfold cache_map; cbn [pc_hash_table].
  - rewrite ut_add_map, fmap_insert, ut_del_map by (done || rewrite ut_find_map, ut_del_map by done; apply lookup_delete_eq).
    rewrite fmap_delete. apply insert_delete_eq.
  - by rewrite ut_add_map, fmap_insert.
Qed.

(** ** The operations keep the table well-formed *)
Lemma sublist_wf c l :
  sublist l (pc_hash_table c) → ut_wf ce_pid l → cache_wf c → cache_wf (with_table l c).
Proof.
  intros Hs Hl (_ & Hd & Hf). split; [done|]. split.
  - eapply sublist_NoDup; [exact Hd|]. apply fmap_sublist. cbn. by apply sublist_app.
  - intros a. unfold valid. cbn. rewrite !fmap_app, !elem_of_app. intros [Ha|Ha]; apply Hf; unfold valid;
      rewrite fmap_app, elem_of_app; [left|by right]. eapply elem_of_sublist; [exact Ha|by apply fmap_sublist].
Qed.

Lemma filter_sublist {A} (f : A → bool) l : sublist (List.filter f l) l.
Proof. induction l as [|x l IH]; cbn; [constructor|]. destruct (f x); by constructor. Qed.

Lemma filter_wf f c : cache_wf c → cache_wf (with_table (List.filter f (pc_hash_table c)) c).
Proof.
  intros Hc. apply sublist_wf; [apply filter_sublist| |done]. destruct Hc as (Hwf & _). unfold ut_wf in *.
  eapply sublist_NoDup; [exact Hwf|]. apply fmap_sublist, filter_sublist.
Qed.

Lemma partition_filter {A} (f : A → bool) l : List.partition f l = (List.filter f l, List.filter (λ x, negb (f x)) l).
Proof. induction l as [|x l IH]; cbn; [done|]. rewrite IH. by destruct (f x). Qed.

Lemma replace_wf info c : cache_wf c → cache_wf (replace_entry info c).
Proof.
  intros (Hwf & Hd & Hf). unfold replace_entry.
  set (r := match ut_find ce_pid (pi_pid info) (pc_hash_table c) with Some old => _ | None => _ end).
  assert (Hr : pi_pid r.1 = pi_pid info ∧ sublist r.2 (pc_hash_table c) ∧ ut_find ce_pid (pi_pid info) r.2 = None
    ∧ ut_wf ce_pid r.2).
  { subst r. destruct (ut_find ce_pid (pi_pid info) (pc_hash_table c)) as [old|] eqn:E; cbn.
    - split; [done|]. split; [apply ut_del_sublist|]. split; [|by apply ut_del_wf].
      rewrite ut_find_map, ut_del_map by done. apply lookup_delete_eq.
    - done. }
  destruct r as [info' table]. cbn [fst snd] in Hr. destruct Hr as (Hp & Hs & Hn & Hw).
  assert (Hnd : NoDup (ce_addr <$> (table ++ pc_loose c))).
  { eapply sublist_NoDup; [exact Hd|]. apply fmap_sublist. by apply sublist_app. }
  assert (Hfr : ∀ a, a ∈ ce_addr <$> (table ++ pc_loose c) → (a < pc_fresh c)%nat).
  { intros a Ha. apply Hf. unfold valid. eapply elem_of_sublist; [exact Ha|]. apply fmap_sublist. by apply sublist_app. }
  assert (HP : ce_addr <$> (ut_add (mk_cache_entry (pc_fresh c) info') table ++ pc_loose c)
    ≡ₚ pc_fresh c :: (ce_addr <$> (table ++ pc_loose c))).
  { unfold ut_add. rewrite <- app_assoc. cbn [app]. rewrite !fmap_app, fmap_cons. symmetry. apply Permutation_middle. }
  split; [|split]; cbn [pc_hash_table pc_loose pc_fresh].
  - apply ut_add_wf; [done|]. unfold ce_pid at 2. cbn. by rewrite Hp.
  - rewrite HP. constructor; [|done]. intros H%Hfr. lia.
  - intros a. unfold valid. cbn [pc_hash_table pc_loose]. rewrite HP, elem_of_cons. intros [->|H%Hfr]; lia.
Qed.

Lemma monitor_wf now alive c : cache_wf c → cache_wf (monitor_pass now alive c).
Proof.
  intros (Hwf & Hd & Hf).
  assert (Hp : ∀ l : list cache_entry, ce_pid <$> ((λ e, mk_cache_entry (ce_addr e) (mark_exited now alive (ce_info e))) <$> l) = ce_pid <$> l).
  { intros l. rewrite <- list_fmap_compose. apply list_fmap_ext. intros _ e _. unfold ce_pid, mark_exited. cbn. by case_match. }
  assert (Ha : ∀ l : list cache_entry, ce_addr <$> ((λ e, mk_cache_entry (ce_addr e) (mark_exited now alive (ce_info e))) <$> l) = ce_addr <$> l).
  { intros l. by rewrite <- list_fmap_compose. }
  unfold monitor_pass. split; [|split]; unfold ut_wf, valid in *; cbn [with_table pc_hash_table pc_loose pc_fresh];
    rewrite ?fmap_app, ?Hp, ?Ha in *; done.
Qed.

Lemma monitor_map now alive c : cache_map (monitor_pass now alive c) = mark_exited now alive <$> cache_map c.
Proof.
  unfold cache_map, monitor_pass. cbn [with_table pc_hash_table]. induction (pc_hash_table c) as [|e l IH]; [by cbn [fmap list_fmap ut_map]; rewrite !fmap_empty|].
  cbn [fmap list_fmap ut_map]. rewrite !fmap_insert. unfold ce_pid at 1 3. cbn [ce_info].
  assert (pi_pid (mark_exited now alive (ce_info e)) = pi_pid (ce_info e)) as -> by (unfold mark_exited; by case_match).
  f_equal. exact IH.
Qed.

(** A freed block is read by nobody else: its address is one entry's alone. *)
Lemma addr_inj c e e' :
  cache_wf c → e ∈ pc_hash_table c → e' ∈ pc_hash_table c → ce_addr e = ce_addr e' → e = e'.
Proof.
  intros (_ & Hd & _) He He' Heq. rewrite fmap_app in Hd. apply NoDup_app in Hd as (Hd & _).
  induction (pc_hash_table c) as [|x t IH]; [by inversion He|]. cbn in Hd. apply NoDup_cons in Hd as [Hx Hd].
  apply elem_of_cons in He as [->|He]; apply elem_of_cons in He' as [->|He']; [done| | |by apply IH];
    destruct Hx; [rewrite Heq|rewrite <- Heq]; by apply list_elem_of_fmap_2.
Qed.

Lemma addr_gone c c' e :
  cache_wf c → e ∈ pc_hash_table c → pc_loose c' = pc_loose c →
  (∀ x, x ∈ pc_hash_table c' → x ∈ pc_hash_table c ∧ x ≠ e ∨ ce_addr x = pc_fresh c) →
  ¬ valid (ce_addr e) c'.
Proof.
  intros Hc He Hl Hx. pose proof Hc as (_ & Hd & Hf). unfold valid in *. rewrite Hl, fmap_app, elem_of_app.
  rewrite fmap_app in Hd. apply NoDup_app in Hd as (_ & Hd2 & _). intros [Ha|Ha].
  - apply list_elem_of_fmap_1 in Ha as (e' & Heq & [[He' Hne]|Hfr]%Hx).
    + destruct Hne. symmetry. by eapply addr_inj.
    + assert (ce_addr e < pc_fresh c)%nat; [|lia]. apply Hf. rewrite fmap_app, elem_of_app. left.
      by apply list_elem_of_fmap_2.
  - apply (Hd2 (ce_addr e)); [|done]. by apply list_elem_of_fmap_2.
Qed.

(** ** The contract: a map from process identifiers to information *)
Module Spec.
Definition put (info : linx_process_info_t) (m : gmap Z linx_process_info_t) : gmap Z linx_process_info_t :=
  <[pi_pid info := match m !! pi_pid info with Some old => inherit old info | None => info end]> m.

Definition keep (f : linx_process_info_t → bool) (m : gmap Z linx_process_info_t) : gmap Z linx_process_info_t :=
  filter (λ x, f x.2 = true) m.
End Spec.

(** What is at an address. *)
Definition block (a : nat) (c : linx_process_cache_t) : option linx_process_info_t :=
  ce_info <$> List.find (λ e, Nat.eqb (ce_addr e) a) (pc_hash_table c ++ pc_loose c).

Lemma find_block (l : list cache_entry) e :
  NoDup (ce_addr <$> l) → e ∈ l → List.find (λ x, Nat.eqb (ce_addr x) (ce_addr e)) l = Some e.
Proof.
  induction l as [|x l IH]; [by inversion 2|]. intros [Hx Hd]%NoDup_cons [->|He]%elem_of_cons; cbn.
  - by rewrite Nat.eqb_refl.
  - case_match eqn:E; [|by apply IH]. apply Nat.eqb_eq in E. destruct Hx. rewrite E. by apply list_elem_of_fmap_2.
Qed.

Lemma block_entry c e : cache_wf c → e ∈ pc_hash_table c → block (ce_addr e) c = Some (ce_info e).
Proof.
  intros (_ & Hd & _) He. unfold block. rewrite find_block; [done|done|]. rewrite elem_of_app. by left.
Qed.

(** Counting through the map. *)
Lemma ut_map_size l : ut_wf ce_pid l → size (ut_map ce_pid l) = length l.
Proof.
  unfold ut_wf. induction l as [|e l IH]; cbn [ut_map fmap list_fmap]; [by rewrite map_size_empty|].
  intros [Hn Hd]%NoDup_cons. rewrite map_size_insert_None, IH by (done || rewrite <- ut_find_map; by apply ut_find_None).
  done.
Qed.

Lemma cache_size c : cache_wf c → size (cache_map c) = length (pc_hash_table c).
Proof. intros (Hwf & _). unfold cache_map. by rewrite map_size_fmap, ut_map_size. Qed.

Lemma keep_map f c :
  cache_wf c →
  let c' := with_table (List.filter (λ e, f (ce_info e)) (pc_hash_table c)) c in
  cache_wf c' ∧ cache_map c' = Spec.keep f (cache_map c)
  ∧ length (List.filter (λ e, f (ce_info e)) (pc_hash_table c)) = size (Spec.keep f (cache_map c)).
Proof.
  intros Hc c'. pose proof (filter_wf (λ e, f (ce_info e)) c Hc) as Hw.
  assert (Hm : cache_map c' = Spec.keep f (cache_map c)).
  { unfold cache_map. cbn. by rewrite filter_map by apply Hc. }
  split; [done|]. split; [done|]. by rewrite <- Hm, cache_size.
Qed.

Lemma filter_length {A} (f : A → bool) l :
  (length (List.filter f l) + length (List.filter (λ x, negb (f x)) l) = length l)%nat.
Proof. induction l as [|x l IH]; cbn; [done|]. destruct (f x); cbn; lia. Qed.

Lemma with_table_id c : with_table (pc_hash_table c) c = c.
Proof. by destruct c. Qed.

Lemma delete_wf pid c : cache_wf c → cache_wf (with_table (ut_del ce_pid pid (pc_hash_table c)) c).
Proof. intros Hc. apply sublist_wf; [apply ut_del_sublist|apply ut_del_wf, Hc|done]. Qed.

Lemma map_values l : ut_wf ce_pid l → map_to_list (ce_info <$> ut_map ce_pid l) ≡ₚ (λ e, (ce_pid e, ce_info e)) <$> l.
Proof.
  unfold ut_wf. induction l as [|e l IH]; cbn [ut_map fmap list_fmap]; [by rewrite fmap_empty, map_to_list_empty|].
  intros [Hn Hd]%NoDup_cons. rewrite fmap_insert, map_to_list_insert, IH; [done|done|].
  by rewrite lookup_fmap, <- ut_find_map, (proj2 (ut_find_None ce_pid _ _)).
Qed.

(** A block made for a reader. *)
Lemma loose_wf i c :
  cache_wf c →
  let c' := mk_process_cache (pc_hash_table c) (pc_thread_pool c) (pc_running c)
              (mk_cache_entry (pc_fresh c) i :: pc_loose c) (S (pc_fresh c)) in
  cache_wf c' ∧ block (pc_fresh c) c' = Some i.
Proof.
  intros (Hwf & Hd & Hf) c'.
  assert (HP : ce_addr <$> (pc_hash_table c' ++ pc_loose c') ≡ₚ pc_fresh c :: (ce_addr <$> (pc_hash_table c ++ pc_loose c))).
  { cbn. rewrite !fmap_app, fmap_cons. symmetry. apply Permutation_middle. }
  assert (Hd' : NoDup (ce_addr <$> (pc_hash_table c' ++ pc_loose c'))).
  { rewrite HP. constructor; [|done]. intros H%Hf. lia. }
  split.
  - split; [done|]. split; [done|]. intros a. unfold valid. rewrite HP, elem_of_cons.
    intros [->|H%Hf]; cbn; lia.
  - unfold block. change (pc_fresh c) with (ce_addr (mk_cache_entry (pc_fresh c) i)). rewrite find_block; [done|done|].
    rewrite elem_of_app. right. left.
Qed.

Lemma get_spec pagesize now pid proc c w r :
  cache_wf c →
  create_process_info pagesize now pid proc = Ret w r →
  ∃ a c', linx_process_cache_get pagesize now pid proc (Some c)
      = Ret (if cache_map c !! pid is Some _ then [] else w) (a, Some c')
    ∧ cache_wf c' ∧ cache_map c' = cache_map c
    ∧ (a ≫= λ a, block a c') = match cache_map c !! pid with Some i => Some i | None => r end.
Proof.
  intros Hc Hr. unfold linx_process_cache_get. rewrite <- ut_find_cache.
  destruct (ut_find ce_pid pid (pc_hash_table c)) as [e|] eqn:E; cbn [fmap option_fmap option_map].
  - exists (Some (ce_addr e)), c. do 3 (split; [done|]). cbn. apply block_entry; [done|]. by eapply ut_find_elem.
  - rewrite Hr. cbn [mbind outcome_bind]. destruct r as [i|]; cbn; rewrite app_nil_r; eexists _, _;
      (split; [reflexivity|]); [|done].
    by destruct (loose_wf i c Hc) as [Hw Hb].
Qed.

(** C14: the cache is a map from process identifiers to information, and
    after [linx_process_cache_init] every operation implements the operation
    of that map: an update (of an event, or of a task that read /proc) puts
    the new block, which takes over the creation time and the death of the
    one it replaces; a delete removes; a cleanup removes the processes that
    exited more than 20 seconds ago and returns how many; the cleaner removes
    these and the expired blocks of events; the monitor marks the dead; a
    look-up changes nothing and yields the block of the map, or one read from
    /proc when there is none; and the snapshot and the counters describe the
    map. *)
Theorem process_cache_refines pagesize :
  (∀ cpus offset_of s s', linx_process_cache_bind_field offset_of s = (0, s') →
     ∃ c, linx_process_cache_init cpus offset_of s None = (0, s', Some c) ∧ cache_wf c ∧ cache_map c = ∅)
  ∧ (∀ c, cache_wf c →
    (∀ info, ∃ c', linx_process_cache_update (Some info) (Some c) = Ret [] (0, Some c')
       ∧ cache_wf c' ∧ cache_map c' = Spec.put info (cache_map c))
    ∧ (∀ now pid proc w r, create_process_info pagesize now pid proc = Ret w r →
        ∃ c', linx_process_cache_update_sync pagesize now pid proc (Some c) = Ret w (0, Some c')
          ∧ cache_wf c' ∧ cache_map c' = from_option (λ i, Spec.put i (cache_map c)) (cache_map c) r)
    ∧ (∀ pid, ∃ c', linx_process_cache_delete pid (Some c) = (0, Some c')
        ∧ cache_wf c' ∧ cache_map c' = delete pid (cache_map c))
    ∧ (∀ now, ∃ c', linx_process_cache_cleanup now (Some c)
          = (sext 32 (Z.of_nat (size (Spec.keep (exited_long_ago now) (cache_map c)))), Some c')
        ∧ cache_wf c' ∧ cache_map c' = Spec.keep (λ i, negb (exited_long_ago now i)) (cache_map c))
    ∧ (∀ now, cache_wf (cleaner_pass now c)
        ∧ cache_map (cleaner_pass now c)
          = Spec.keep (λ i, negb (rich_expired now i || exited_long_ago now i)) (cache_map c))
    ∧ (∀ now alive, cache_wf (monitor_pass now alive c)
        ∧ cache_map (monitor_pass now alive c) = mark_exited now alive <$> cache_map c)
    ∧ (∀ now pid proc w r, create_process_info pagesize now pid proc = Ret w r →
        ∃ a c', linx_process_cache_get pagesize now pid proc (Some c)
            = Ret (if cache_map c !! pid is Some _ then [] else w) (a, Some c')
          ∧ cache_wf c' ∧ cache_map c' = cache_map c
          ∧ (a ≫= λ a, block a c') = match cache_map c !! pid with Some i => Some i | None => r end)
    ∧ (∃ l, linx_process_cache_get_all (Some c) = (0, l) ∧ l ≡ₚ (map_to_list (cache_map c)).*2)
    ∧ linx_process_cache_stats (Some c)
      = (Z.of_nat (size (cache_map c)), Z.of_nat (size (Spec.keep pi_is_alive (cache_map c))),
         Z.of_nat (size (cache_map c)) - Z.of_nat (size (Spec.keep pi_is_alive (cache_map c))))).
Proof.
  split.
  { intros cpus offset_of s s' Hb. unfold linx_process_cache_init. rewrite Hb. cbn. eexists. split; [reflexivity|].
    split; [|done]. split; [constructor|]. split; [constructor|]. intros a Ha. by apply elem_of_nil in Ha. }
  intros c Hc. split; [|split; [|split; [|split; [|split; [|split; [|split; [|split]]]]]]].
  - intros info. eexists. split; [reflexivity|]. split; [by apply replace_wf|by apply replace_map].
  - intros now pid proc w r Hr. unfold linx_process_cache_update_sync, update_process_task. cbn [Z.eqb negb].
    rewrite Hr. destruct r as [i|]; cbn; rewrite ?app_nil_r; eexists; (split; [reflexivity|]);
      [split; [by apply replace_wf|by apply replace_map]|done].
  - intros pid. eexists. split; [reflexivity|]. split; [by apply delete_wf|]. unfold cache_map. cbn.
    by rewrite ut_del_map, fmap_delete by apply Hc.
  - intros now. unfold linx_process_cache_cleanup. rewrite partition_filter. eexists. split.
    + by rewrite (proj2 (proj2 (keep_map (exited_long_ago now) c Hc))).
    + destruct (keep_map (λ i, negb (exited_long_ago now i)) c Hc) as (? & ? & _). done.
  - intros now. destruct (keep_map (λ i, negb (rich_expired now i || exited_long_ago now i)) c Hc) as (? & ? & _). done.
  - intros now alive. split; [by apply monitor_wf|apply monitor_map].
  - intros now pid proc w r Hr. by apply get_spec.
  - eexists. split; [reflexivity|]. unfold cache_map. rewrite map_values by apply Hc. by rewrite <- list_fmap_compose.
  - unfold linx_process_cache_stats. rewrite (proj2 (proj2 (keep_map pi_is_alive c Hc))), cache_size; done.
Qed.

(** A process (7) that exited at 100, one (8) that lives, and what /proc says
    of process 9. *)
Definition proc_ex : procfs :=
  mk_procfs (Some "9 (bash) S 1 9 9 0 -1 4194304 10 0 0 0 5 6 0 0 20 0 1 0 123 4096 2 0")
    (Some "Uid:	1000") None None None.
Definition stat_zero : stat_info := mk_stat "" "" LINX_PROCESS_STATE_RUNNING 0 0 0 0 0 0 0 0 0 0.
Definition info_ex (pid exit : Z) (alive : bool) : linx_process_info_t :=
  mk_process_info pid stat_zero (mk_status 0 0 0 0 0) "" "" "" 1 1 exit alive false.
Definition cache_ex : linx_process_cache_t :=
  mk_process_cache [mk_cache_entry 0 (info_ex 7 100 false); mk_cache_entry 1 (info_ex 8 0 true)] None true [] 2.

Lemma cache_ex_wf : cache_wf cache_ex.
Proof.
  split; [apply (bool_decide_unpack _); vm_compute; exact I|].
  split; [apply (bool_decide_unpack _); vm_compute; exact I|].
  intros a Ha. apply list_elem_of_In in Ha. cbn in *. lia.
Qed.

Lemma process_cache_refines_witness :
  (linx_process_cache_cleanup 130 (Some cache_ex)).1 = 1
  ∧ ∃ c', linx_process_cache_update_sync 4096 130 9 proc_ex (Some cache_ex) = Ret [] (0, Some c')
    ∧ st_comm <$> (pi_stat <$> cache_map c' !! 9) = Some "bash".
Proof.
  destruct (process_cache_refines 4096) as [_ H]. destruct (H cache_ex cache_ex_wf) as (_ & Hsync & _ & Hclean & _).
  split; [destruct (Hclean 130) as (c' & -> & _); vm_compute; reflexivity|].
  destruct (create_process_info 4096 130 9 proc_ex) as [w r| |] eqn:E; vm_compute in E; try discriminate.
  destruct (Hsync 130 9 proc_ex w r) as (c' & Hs & _ & Hm); [injection E as <- <-; vm_compute; reflexivity|].
  exists c'. injection E as <- <-. split; [exact Hs|]. rewrite Hm. vm_compute. reflexivity.
Defined.

(** ** Sequences of operations *)
Inductive cache_step : linx_process_cache_t → linx_process_cache_t → Prop :=
  | step_update info c : cache_step c (replace_entry info c)
  | step_monitor now alive c : cache_step c (monitor_pass now alive c)
  | step_delete pid c : cache_step c (with_table (ut_del ce_pid pid (pc_hash_table c)) c)
  | step_cleanup now c c' : (linx_process_cache_cleanup now (Some c)).2 = Some c' → cache_step c c'
  | step_cleaner now c : cache_step c (cleaner_pass now c)
  | step_get pagesize now pid proc w a c c' :
      linx_process_cache_get pagesize now pid proc (Some c) = Ret w (a, Some c') → cache_step c c'.

Lemma get_cases pagesize now pid proc w a c c' :
  linx_process_cache_get pagesize now pid proc (Some c) = Ret w (a, Some c') →
  c' = c ∨ ∃ i, a = Some (pc_fresh c)
    ∧ c' = mk_process_cache (pc_hash_table c) (pc_thread_pool c) (pc_running c)
             (mk_cache_entry (pc_fresh c) i :: pc_loose c) (S (pc_fresh c)).
Proof.
  unfold linx_process_cache_get. case_match; [by intros [= _ _ ->]; left|]. intros H1. bind_inv H1.
  destruct a0 as [i|]; [|injection Hk as _ _ ->; by left]. injection Hk as _ <- <-. eauto.
Qed.

Lemma cleanup_table now c c' :
  (linx_process_cache_cleanup now (Some c)).2 = Some c' →
  c' = with_table (List.filter (λ e, negb (exited_long_ago now (ce_info e))) (pc_hash_table c)) c.
Proof. unfold linx_process_cache_cleanup. rewrite partition_filter. by intros [= <-]. Qed.

Lemma step_wf c c' : cache_step c c' → cache_wf c → cache_wf c'.
Proof.
  intros H Hc. destruct H as [| | |now c c' H| |pagesize now pid proc w a c c' H].
  - by apply replace_wf.
  - by apply monitor_wf.
  - by apply delete_wf.
  - apply cleanup_table in H as ->. by apply filter_wf.
  - by apply filter_wf.
  - apply get_cases in H as [->|(i & _ & ->)]; [done|]. by apply loose_wf.
Qed.

Lemma steps_wf c c' : rtc cache_step c c' → cache_wf c → cache_wf c'.
Proof. induction 1 as [|c1 c2 c3 H _ IH]; [done|]. eauto using step_wf. Qed.

(** A loose block is never freed. *)
Lemma steps_loose c c' e : rtc cache_step c c' → e ∈ pc_loose c → e ∈ pc_loose c'.
Proof.
  induction 1 as [|c1 c2 c3 H _ IH]; [done|]. intros He. apply IH.
  destruct H as [| | |now c c' H| |pagesize now pid proc w a c c' H]; try done.
  - unfold replace_entry. by repeat case_match.
  - by apply cleanup_table in H as ->.
  - apply get_cases in H as [->|(i & _ & ->)]; [done|]. cbn. by right.
Qed.

#[export] Hint Resolve step_wf steps_wf replace_wf monitor_wf delete_wf filter_wf : linx.

(** The entry that an operation unlinks. *)
Lemma replace_gone info c e :
  cache_wf c → ut_find ce_pid (pi_pid info) (pc_hash_table c) = Some e → ¬ valid (ce_addr e) (replace_entry info c).
Proof.
  intros Hc He. eapply addr_gone; [exact Hc|by eapply ut_find_elem|by unfold replace_entry; repeat case_match|].
  intros x. unfold replace_entry. rewrite He. cbn. unfold ut_add. rewrite elem_of_app, list_elem_of_singleton.
  intros [Hx| ->]; [left|by right]. split; [eapply elem_of_sublist; [exact Hx|apply ut_del_sublist]|].
  intros ->. pose proof (ut_find_Some_wf ce_pid _ _ (ut_del_wf ce_pid (pi_pid info) _ (proj1 Hc)) Hx) as Hf.
  rewrite ut_find_map, ut_del_map in Hf by apply Hc. apply ut_find_key in He. rewrite He, lookup_delete_eq in Hf. done.
Qed.

Lemma delete_gone pid c e :
  cache_wf c → ut_find ce_pid pid (pc_hash_table c) = Some e →
  ¬ valid (ce_addr e) (with_table (ut_del ce_pid pid (pc_hash_table c)) c).
Proof.
  intros Hc He. eapply addr_gone; [exact Hc|by eapply ut_find_elem|done|]. cbn. intros x Hx. left.
  split; [eapply elem_of_sublist; [exact Hx|apply ut_del_sublist]|].
  intros ->. pose proof (ut_find_Some_wf ce_pid _ _ (ut_del_wf ce_pid pid _ (proj1 Hc)) Hx) as Hf.
  rewrite ut_find_map, ut_del_map in Hf by apply Hc. apply ut_find_key in He. rewrite He, lookup_delete_eq in Hf. done.
Qed.

Lemma filter_gone f c e :
  cache_wf c → e ∈ pc_hash_table c → f e = false →
  ¬ valid (ce_addr e) (with_table (List.filter f (pc_hash_table c)) c).
Proof.
  intros Hc He Hf. eapply addr_gone; [exact Hc|done|done|]. cbn. intros x Hx. left.
  apply list_elem_of_In, filter_In in Hx as [Hx Hfx]. split; [by apply list_elem_of_In|]. intros ->. congruence.
Qed.

(** The address [linx_process_cache_get] returns.  For a process of the
    cache it is the address of the block in the table, which the next update
    of that process, its deletion or its expiry frees although the reader
    still holds it (the lock is released before the function returns).  For
    any other process it is the address of a new block that no operation of
    the cache ever links or frees. *)
Theorem get_pointer_lifetime pagesize now pid proc c :
  cache_wf c →
  (∀ e, ut_find ce_pid pid (pc_hash_table c) = Some e →
     linx_process_cache_get pagesize now pid proc (Some c) = Ret [] (Some (ce_addr e), Some c)
     ∧ valid (ce_addr e) c
     ∧ (∀ info, pi_pid info = pid → ¬ valid (ce_addr e) (replace_entry info c))
     ∧ ¬ valid (ce_addr e) (with_table (ut_del ce_pid pid (pc_hash_table c)) c)
     ∧ (∀ now', rich_expired now' (ce_info e) || exited_long_ago now' (ce_info e) = true →
          ¬ valid (ce_addr e) (cleaner_pass now' c)))
  ∧ (∀ w i, cache_map c !! pid = None → create_process_info pagesize now pid proc = Ret w (Some i) →
     ∃ a c', linx_process_cache_get pagesize now pid proc (Some c) = Ret w (Some a, Some c')
       ∧ ∀ c'', rtc cache_step c' c'' →
           valid a c'' ∧ block a c'' = Some i ∧ a ∉ ce_addr <$> pc_hash_table c'').
Proof.
  intros Hc. split.
  - intros e He. pose proof (ut_find_elem _ _ _ _ He) as Hin. split; [|split; [|split; [|split]]].
    + unfold linx_process_cache_get. by rewrite He.
    + unfold valid. rewrite fmap_app, elem_of_app. left. by apply list_elem_of_fmap_2.
    + intros info <-. by apply replace_gone.
    + by apply delete_gone.
    + intros now' Hx. apply filter_gone; [done|done|]. by rewrite Hx.
  - intros w i Hn Hi. unfold linx_process_cache_get. rewrite <- ut_find_cache in Hn.
    destruct (ut_find ce_pid pid (pc_hash_table c)); [done|]. rewrite Hi. cbn. rewrite app_nil_r.
    eexists _, _. split; [reflexivity|]. intros c'' Hs.
    pose proof (steps_wf _ _ Hs (proj1 (loose_wf i c Hc))) as (Hw & Hd & Hf).
    pose proof (steps_loose _ _ (mk_cache_entry (pc_fresh c) i) Hs ltac:(left)) as Hin.
    assert (Ha : pc_fresh c ∈ ce_addr <$> pc_loose c'') by (by apply (list_elem_of_fmap_2 ce_addr) in Hin).
    split; [unfold valid; rewrite fmap_app, elem_of_app; by right|]. split.
    + unfold block. change (pc_fresh c) with (ce_addr (mk_cache_entry (pc_fresh c) i)).
      rewrite find_block; [done|done|rewrite elem_of_app; by right].
    + rewrite fmap_app in Hd. apply NoDup_app in Hd as (_ & Hd & _). intros H. by apply (Hd _ H).
Qed.

Lemma get_pointer_lifetime_witness :
  (∃ c', linx_process_cache_get 4096 130 8 proc_ex (Some cache_ex) = Ret [] (Some 1%nat, Some c')
     ∧ ¬ valid 1 (replace_entry (info_ex 8 0 true) c'))
  ∧ ∃ c', linx_process_cache_get 4096 130 9 proc_ex (Some cache_ex) = Ret [] (Some 2%nat, Some c')
     ∧ valid 2 (cleaner_pass 1000 c').
Proof.
  split.
  - destruct (get_pointer_lifetime 4096 130 8 proc_ex cache_ex cache_ex_wf) as [H _].
    destruct (H (mk_cache_entry 1 (info_ex 8 0 true)) eq_refl) as (Hg & _ & Hr & _).
    exists cache_ex. split; [exact Hg|]. apply (Hr (info_ex 8 0 true)). reflexivity.
  - destruct (get_pointer_lifetime 4096 130 9 proc_ex cache_ex cache_ex_wf) as [_ H].
    destruct (create_process_info 4096 130 9 proc_ex) as [w [i|]| |] eqn:E; vm_compute in E; try discriminate.
    destruct (H w i) as (a & c' & Hg & Hv); [vm_compute; reflexivity|injection E as <- <-; vm_compute; reflexivity|].
    injection E as <- <-. vm_compute in Hg. injection Hg as <- <-.
    eexists. split; [vm_compute; reflexivity|]. eapply Hv, rtc_once, step_cleaner.
Defined.

(** ** A process identifier that is used again *)
Definition dead_since (t : Z) (i : linx_process_info_t) : Prop := pi_is_alive i = false ∧ pi_exit_time i = t.

(** The operations that remove nothing. *)
Inductive keeping_step : linx_process_cache_t → linx_process_cache_t → Prop :=
  | keeping_update info c : keeping_step c (replace_entry info c)
  | keeping_monitor now alive c : keeping_step c (monitor_pass now alive c)
  | keeping_get pagesize now pid proc w a c c' :
      linx_process_cache_get pagesize now pid proc (Some c) = Ret w (a, Some c') → keeping_step c c'.

Lemma keeping_cache_step c c' : keeping_step c c' → cache_step c c'.
Proof. destruct 1; by econstructor. Qed.

Lemma dead_step t pid c c' i :
  0 < t → keeping_step c c' → cache_wf c → cache_map c !! pid = Some i → dead_since t i →
  ∃ i', cache_map c' !! pid = Some i' ∧ dead_since t i'.
Proof.
  intros Ht H Hc Hm [Ha He]. destruct H as [info c|now alive c|pagesize now pid' proc w a c c' H].
  - rewrite replace_map by done. destruct (decide (pi_pid info = pid)) as [Hp|Hp].
    + rewrite Hp, lookup_insert_eq, Hm. eexists. split; [reflexivity|].
      unfold dead_since, inherit. cbn. rewrite Ha, He. cbn. by destruct (Z.ltb_spec 0 t); [|lia].
    + rewrite lookup_insert_ne by done. exists i. done.
  - rewrite monitor_map, lookup_fmap, Hm. eexists. split; [reflexivity|].
    unfold mark_exited, dead_since. by rewrite Ha, andb_false_r.
  - apply get_cases in H as [->|(j & _ & ->)]; eexists; (split; [exact Hm|done]).
Qed.

(** An identifier stays dead when the kernel gives it to a new process.
    Once the monitor has recorded the exit of a process, no update (by a task
    that reads the new process in /proc, or by an event), no look-up and no
    later scan clears the record, and the cleaner removes the entry of the new,
    running process more than 20 seconds after the old one exited. *)
Theorem reused_pid_stays_dead t pid c c' i :
  cache_wf c → 0 < t → cache_map c !! pid = Some i → dead_since t i → rtc keeping_step c c' →
  ∃ i', cache_map c' !! pid = Some i' ∧ dead_since t i'
    ∧ ∀ now, LINX_PROCESS_CACHE_EXPIRE_TIME < now - t → cache_map (cleaner_pass now c') !! pid = None.
Proof.
  intros Hc Ht Hm Hd Hs. revert i Hc Hm Hd. induction Hs as [c|c1 c2 c3 H _ IH]; intros i Hc Hm Hd.
  - exists i. do 2 (split; [done|]). intros now Hnow.
    destruct (keep_map (λ i, negb (rich_expired now i || exited_long_ago now i)) c Hc) as (_ & Hk & _).
    unfold cleaner_pass. rewrite Hk. apply map_lookup_filter_None_2. right. intros j Hj. rewrite Hm in Hj.
    injection Hj as <-. destruct Hd as [Ha He]. cbn. unfold exited_long_ago. rewrite Ha, He. cbn.
    destruct (Z.ltb_spec 0 t); [|lia]. destruct (Z.ltb_spec LINX_PROCESS_CACHE_EXPIRE_TIME (now - t)); [|lia].
    by rewrite orb_true_r.
  - destruct (dead_step _ _ _ _ _ Ht H Hc Hm Hd) as (i2 & Hm2 & Hd2).
    eapply IH; [eauto using step_wf, keeping_cache_step|exact Hm2|exact Hd2].
Qed.

(** Process 7 exited at 100; a new process 7 is read at 110. *)
Lemma reused_pid_stays_dead_witness :
  let c' := replace_entry (info_ex 7 0 true) cache_ex in
  pi_is_alive <$> cache_map c' !! 7 = Some false ∧ cache_map (cleaner_pass 121 c') !! 7 = None.
Proof.
  intros c'.
  destruct (reused_pid_stays_dead 100 7 cache_ex c' (info_ex 7 100 false) cache_ex_wf eq_refl eq_refl) as (i & Hi & [Ha _] & Hc).
  - split; reflexivity.
  - apply rtc_once, keeping_update.
  - split; [rewrite Hi; cbn; by rewrite Ha|]. apply Hc. reflexivity.
Defined.
