(* ===== verification/MachineStatus.v ===== *)
(** * Machine status (userspace/linx_machine_status/linx_machine_status.c)

    The user and the group the program runs as, read once at start, and the
    tables "user" and "group" of the registry.  The system's data bases and
    /proc/self/loginuid are inputs. *)
From S2P Require Import Prelude CString EventTable HashMap ProcFs.

#[local] Open Scope Z_scope.

(** ** Data (include/user_struct.h, group_struct.h) *)
Record user_t := mk_user {
  u_uid : Z;
  u_name : string;
  u_homedir : string;
  u_shell : string;
  u_loginuid : Z;
  u_loginname : string
}.

Record group_t := mk_group { g_gid : Z; g_name : string }.

(** What the C library answers: [struct passwd] and [struct group]. *)
Record passwd := mk_passwd { pw_name : string; pw_dir : string; pw_shell : string }.

Record group := mk_gr { gr_gid : Z; gr_name : string }.

Record machine := mk_machine {
  mc_getuid : Z;
  mc_getgid : Z;
  mc_loginuid : option string;
  mc_getpwuid : Z → option passwd;
  mc_getgrgid : Z → option group
}.

(** ** Operations *)
Definition get_login_uid (mc : machine) : Z :=
  match mc_loginuid mc with
  | None => -1
  | Some text => match sscanf [Conv_ld] text with [v] => v | _ => -1 end
  end.

(** [strncpy] of at most [size - 1] characters into a terminated buffer. *)
Definition strncpy_buf (size : nat) (s : string) : string := stake (size - 1) s.

Definition get_current_user (mc : machine) : user_t :=
  let uid := mc_getuid mc in
  let loginuid := get_login_uid mc in
  let pw := mc_getpwuid mc uid in
  let loginuid := if 0 <=? loginuid then loginuid else uid in
  let text f size := from_option (λ p, strncpy_buf size (f p)) "" in
  mk_user uid (text pw_name 32%nat pw) (text pw_dir 256%nat pw) (text pw_shell 32%nat pw) loginuid
    (text pw_name 32%nat (mc_getpwuid mc (wrap 32 loginuid))).

(** [gr->gr_gid] is read before the test of [gr]. *)
Definition get_current_group (mc : machine) : outcome group_t :=
  let gr := mc_getgrgid mc (mc_getgid mc) in
  gid ← from_opt NullDeref (gr_gid <$> gr);
  mret (mk_group gid (from_option (λ g, strncpy_buf 32 (gr_name g)) "" gr)).

Section bind.
Context (offset_of : string → string → Z * Z).

(** The entries of a table of fields; [offset_of] gives offset and size of a
    member of a struct. *)
Definition mappings (struct_type : string) (fields : list (string * linx_field_type_t)) : list field_mapping_t :=
  (λ f, mk_mapping f.1 (offset_of struct_type f.1).1 (offset_of struct_type f.1).2 f.2) <$> fields.

Definition bind_user_field (s : hash_map_state) : Z * hash_map_state :=
  linx_hash_map_add_field_batch (Some "user") (Some (mappings "user_t"
    [("uid", LINX_FIELD_TYPE_UINT32); ("name", LINX_FIELD_TYPE_CHARBUF); ("homedir", LINX_FIELD_TYPE_CHARBUF);
     ("shell", LINX_FIELD_TYPE_CHARBUF); ("loginuid", LINX_FIELD_TYPE_INT64);
     ("loginname", LINX_FIELD_TYPE_CHARBUF)])) s.

Definition bind_group_field (s : hash_map_state) : Z * hash_map_state :=
  let '(ret, s) := linx_hash_map_add_field_batch (Some "group") (Some (mappings "group_t"
    [("gid", LINX_FIELD_TYPE_UINT32); ("name", LINX_FIELD_TYPE_CHARBUF)])) s in
  (if ret =? 0 then ret else -1, s).

Definition linx_machine_status_bind_field (s : hash_map_state) : Z * hash_map_state :=
  let '(ret, s) := bind_user_field s in
  if negb (ret =? 0) then (ret, s) else bind_group_field s.

(** The state is [s_user] and [s_group]. *)
Definition linx_machine_status_init (mc : machine) (s : hash_map_state) (st : user_t * group_t)
    : outcome (Z * hash_map_state * (user_t * group_t)) :=
  let '(ret, s) := linx_machine_status_bind_field s in
  if negb (ret =? 0) then mret (ret, s, st)
  else g ← get_current_group mc; mret (ret, s, (get_current_user mc, g)).
End bind.

(** Text that fits its buffer is kept whole. *)
Lemma strncpy_buf_fits size s : (strlen s < size)%nat → strncpy_buf size s = s.
Proof.
  intros H. unfold strncpy_buf. assert (Hn : (strlen s ≤ size - 1)%nat) by lia. revert Hn.
  generalize (size - 1)%nat. clear H size. induction s as [|c s IH]; intros [|n] Hn; cbn in *; [done..|lia|].
  rewrite IH; [done|lia].
Qed.

(** The user the program runs as: with no /proc/self/loginuid, or one that
    holds a negative number, the login user is the user. *)
Lemma current_user_login mc :
  get_login_uid mc < 0 → 0 ≤ mc_getuid mc < 2 ^ 32 →
  u_loginuid (get_current_user mc) = mc_getuid mc
  ∧ u_loginname (get_current_user mc) = u_name (get_current_user mc).
Proof.
  intros Hl Hu. unfold get_current_user. cbn. destruct (Z.leb_spec 0 (get_login_uid mc)); [lia|].
  split; [done|]. by rewrite wrap_small.
Qed.
