(* ===== verification/EventRich.v ===== *)
(** * Event enrichment (userspace/linx_event_rich/linx_event_rich.c)

    For every event of the kernel the static structure [evt] is filled with
    what rules can name, a process that an [execve] started is put in the
    process cache, and the base addresses of the registry's tables are
    updated.

    A parameter of an event is a slot of [evt.arg.data]: a pointer into the
    event, or a string made for a user or a process, which the next event of
    that kind frees.  The strings are blocks with identifiers, so that a free
    of anything else shows. *)
From S2P Require Import Prelude CString Memory EventType EventTable Uthash HashMap ThreadPool ProcFs ProcessCache MachineStatus.
From Stdlib Require Import Ascii.

#[local] Open Scope Z_scope.

(** ** Data *)

(** The part of [linx_event_t] (include/linx_event.h) that is read, and the
    bytes behind the header, at addresses from 0. *)
Record linx_event_t := mk_linx_event {
  ev_pid : Z;
  ev_ppid : Z;
  ev_time : Z;
  ev_res : Z;
  ev_type : Z;
  ev_comm : string;
  ev_cmdline : string;
  ev_params_size : list Z;
  ev_data : memory
}.

(** A slot: null, so many bytes behind the header of an event, or a string. *)
Inductive pointer :=
  | PNull
  | PEvent (off : Z)
  | PBlock (id : nat).

#[export] Instance pointer_eq_dec : EqDecision pointer.
Proof. solve_decision. Defined.

(** [event_t] (include/event.h) without the member [fd], which nothing sets. *)
Record event_t := mk_evt {
  evt_num : Z;
  evt_time : string;
  evt_type : option string;
  evt_args : pointer;
  evt_rawarg : list pointer;
  evt_arg : list pointer;
  evt_res : string;
  evt_rawres : Z;
  evt_failed : bool;
  evt_dir : string
}.

(** [evt] and the strings in memory. *)
Record rich_state := mk_rich {
  rs_evt : event_t;
  rs_heap : gmap nat string;
  rs_fresh : nat
}.

Definition rich_initial : rich_state :=
  mk_rich (mk_evt 0 "" None PNull (replicate 32 PNull) (replicate 32 PNull) "" 0 false "") ∅ 0.

Definition set_slot (i : Z) (p : pointer) (e : event_t) : event_t :=
  mk_evt (evt_num e) (evt_time e) (evt_type e) (evt_args e) (<[Z.to_nat i := p]> (evt_rawarg e))
    (<[Z.to_nat i := p]> (evt_arg e)) (evt_res e) (evt_rawres e) (evt_failed e) (evt_dir e).

Definition set_args (p : pointer) (e : event_t) : event_t :=
  mk_evt (evt_num e) (evt_time e) (evt_type e) p (evt_rawarg e) (evt_arg e) (evt_res e) (evt_rawres e)
    (evt_failed e) (evt_dir e).

Definition with_evt (e : event_t) (st : rich_state) : rich_state := mk_rich e (rs_heap st) (rs_fresh st).

(** ** The heap of strings *)
Definition free (p : pointer) (st : rich_state) : outcome rich_state :=
  match p with
  | PNull => mret st
  | PBlock b =>
      match rs_heap st !! b with
      | Some _ => mret (mk_rich (rs_evt st) (delete b (rs_heap st)) (rs_fresh st))
      | None => Ub InvalidFree
      end
  | PEvent _ => Ub InvalidFree
  end.

(** [evt.arg.data[i] = evt.rawarg.data[i] = strdup(s)] *)
Definition strdup_slot (i : Z) (s : string) (st : rich_state) : rich_state :=
  let b := rs_fresh st in
  mk_rich (set_slot i (PBlock b) (rs_evt st)) (<[b := s]> (rs_heap st)) (S b).

(** The clock, /proc and the data base of users while an event is handled. *)
Record environment := mk_env {
  env_now : Z;
  env_proc : Z → procfs;
  env_getpwuid : Z → option passwd
}.

Section rich.
Context (pagesize : Z).

(** What [localtime] and [strftime] make of a number of seconds. *)
Context (local_time : Z → string).

(** The addresses of the objects that tables of the registry describe: the
    blocks of the process cache and the static structures. *)
Context (addr_of : nat → Z) (evt_addr fd_addr user_addr group_addr : Z).

(** ** Operations *)
Definition update_field_base (env : environment) (pid : Z) (g : cache_state) (s : hash_map_state)
    : outcome (Z * cache_state * hash_map_state) :=
  '(info, g) ← linx_process_cache_get pagesize (env_now env) pid (env_proc env pid) g;
  let '(ret, s) := linx_hash_map_update_tables_base
    (Some [("evt", evt_addr); ("fd", fd_addr); ("proc", from_option addr_of 0 info); ("user", user_addr);
           ("group", group_addr)]) s in
  mret (ret, g, s).

Section bind.
Context (offset_of : string → string → Z * Z).

Definition bind_field_evt (s : hash_map_state) : Z * hash_map_state :=
  let '(ret, s) := linx_hash_map_add_field_batch (Some "evt") (Some (mappings offset_of "event_t"
    [("num", LINX_FIELD_TYPE_UINT64); ("time", LINX_FIELD_TYPE_CHARBUF); ("type", LINX_FIELD_TYPE_CHARBUF_ARRAY);
     ("args", LINX_FIELD_TYPE_CHARBUF); ("rawarg", LINX_FIELD_TYPE_STRUCT); ("arg", LINX_FIELD_TYPE_STRUCT);
     ("res", LINX_FIELD_TYPE_CHARBUF); ("rawres", LINX_FIELD_TYPE_CHARBUF); ("failed", LINX_FIELD_TYPE_BOOL);
     ("dir", LINX_FIELD_TYPE_CHARBUF)])) s in
  (if ret =? 0 then ret else -1, s).

(** [bind_field_fd] is not called: it would register "evt" again. *)
Definition linx_event_rich_bind_field (s : hash_map_state) : Z * hash_map_state := bind_field_evt s.

Definition linx_event_rich_init (s : hash_map_state) : Z * hash_map_state := linx_event_rich_bind_field s.
End bind.

(** Both loops run over the parameters [i], ..., [i + n - 1] of the entry. *)
Fixpoint clean_loop (e : linx_event_table_t) (n : nat) (i : Z) (st : rich_state) : outcome rich_state :=
  match n with
  | O => mret st
  | S n =>
      p ← from_opt OutOfBounds (event_param e i);
      st ← match lp_type p with
           | LINX_FIELD_TYPE_UID | LINX_FIELD_TYPE_PID =>
               st ← free (default PNull (evt_arg (rs_evt st) !! Z.to_nat i)) st;
               mret (with_evt (set_slot i PNull (rs_evt st)) st)
           | _ => mret st
           end;
      clean_loop e n (i + 1) st
  end.

Definition rich_event_clean (event : linx_event_t) (st : rich_state) : outcome rich_state :=
  e ← from_opt OutOfBounds (g_linx_event_table (ev_type event));
  clean_loop e (Z.to_nat (le_nparams e)) 0 st.

(** The value of one parameter, at [base + size]. *)
Definition rich_arg (env : environment) (event : linx_event_t) (type : linx_field_type_t) (i size : Z)
    (st : rich_state) (g : cache_state) : outcome (rich_state * cache_state) :=
  match type with
  | LINX_FIELD_TYPE_UID =>
      uid ← from_opt BadAddress (load_le (ev_data event) size 4);
      mret (strdup_slot i (from_option pw_name "unknown" (env_getpwuid env uid)) st, g)
  | LINX_FIELD_TYPE_PID =>
      v ← from_opt BadAddress (load_le (ev_data event) size 8);
      let pid := sext 32 v in
      '(info, g) ← linx_process_cache_get pagesize (env_now env) pid (env_proc env pid) g;
      match info with
      | Some a =>
          i' ← from_opt BadAddress (g ≫= block a);
          mret (strdup_slot i (st_comm (pi_stat i')) st, g)
      | None => mret (strdup_slot i "unknown" st, g)
      end
  | _ => mret (with_evt (set_slot i (PEvent size) (rs_evt st)) st, g)
  end.

Fixpoint args_loop (env : environment) (event : linx_event_t) (e : linx_event_table_t) (n : nat) (i size : Z)
    (st : rich_state) (g : cache_state) : outcome (rich_state * cache_state) :=
  match n with
  | O => mret (st, g)
  | S n =>
      p ← from_opt OutOfBounds (event_param e i);
      '(st, g) ← rich_arg env event (lp_type p) i size st g;
      psize ← from_opt OutOfBounds (ev_params_size event !! Z.to_nat i);
      args_loop env event e n (i + 1) (wrap 64 (size + psize)) st g
  end.

Definition rich_event_args (env : environment) (event : linx_event_t) (st : rich_state) (g : cache_state)
    : outcome (rich_state * cache_state) :=
  e ← from_opt OutOfBounds (g_linx_event_table (ev_type event));
  args_loop env event e (Z.to_nat (le_nparams e)) 0 0 (with_evt (set_args (PEvent 0) (rs_evt st)) st) g.

(** The block of a process that has just started a program. *)
Definition execve_info (now : Z) (event : linx_event_t) : linx_process_info_t :=
  mk_process_info (sext 32 (ev_pid event))
    (mk_stat (ev_comm event) (ev_comm event) LINX_PROCESS_STATE_RUNNING (sext 32 (ev_ppid event)) 0 0 0 0 0 0 0 0 0)
    (mk_status 0 0 0 0 0) (ev_cmdline event) "" "" now now 0 true true.

Definition rich_execve_exit (now : Z) (event : linx_event_t) (g : cache_state) : outcome cache_state :=
  '(_, g) ← linx_process_cache_update (Some (execve_info now event)) g; mret g.

(** [".%09lu"] *)
Definition nanoseconds (ns : Z) : string :=
  let digits := show_int ns in
  "." +:+ Nat.iter (9 - strlen digits) (String "0") digits.

Definition linx_event_rich (env : environment) (event : linx_event_t) (st : rich_state) (g : cache_state)
    (s : hash_map_state) : outcome (Z * (rich_state * cache_state * hash_map_state)) :=
  let remaining_ns := ev_time event `mod` 1000000000 in
  let time := local_time (ev_time event / 1000000000) in
  st ← rich_event_clean event st;
  '(st, g) ← rich_event_args env event st g;
  g ← (if (ev_type event =? LINX_EVENT_TYPE_EXECVE_X) && streq (ev_comm event) "find"
       then rich_execve_exit (env_now env) event g else mret g);
  let time := stake 63 (time +:+ nanoseconds remaining_ns) in
  _ ← overflow;
  e ← from_opt OutOfBounds (g_linx_event_table (ev_type event));
  let rawres := sext 64 (ev_res event) in
  let evt := rs_evt st in
  let st := with_evt (mk_evt (ev_type event) time (Some (le_name e)) (evt_args evt) (evt_rawarg evt) (evt_arg evt)
                        (if rawres =? 0 then "SUCCESS" else "ERRNO") rawres (negb (rawres =? 0))
                        (if ev_type event `mod` 2 =? 0 then ">" else "<")) st in
  '(ret, g, s) ← update_field_base env (sext 32 (ev_pid event)) g s;
  mret (ret, (st, g, s)).

(** The events of a run, one after the other. *)
Fixpoint run_events (es : list (environment * linx_event_t)) (x : rich_state * cache_state * hash_map_state)
    : outcome (rich_state * cache_state * hash_map_state) :=
  match es with
  | [] => mret x
  | (env, event) :: es =>
      '(_, x) ← linx_event_rich env event x.1.1 x.1.2 x.2;
      run_events es x
  end.
End rich.

(** ** What a slot stands for *)
Definition slot (j : Z) (st : rich_state) : option pointer := evt_arg (rs_evt st) !! Z.to_nat j.

Definition owned (type : linx_field_type_t) : bool :=
  match type with LINX_FIELD_TYPE_UID | LINX_FIELD_TYPE_PID => true | _ => false end.

(** Where parameter [j] starts. *)
Definition param_offset (event : linx_event_t) (j : Z) : Z :=
  wrap 64 (foldr Z.add 0 (take (Z.to_nat j) (ev_params_size event))).

Section spec.
Context (pagesize : Z).

(** The block a look-up of a process finds, given the map of the cache. *)
Definition process_of (env : environment) (m : gmap Z linx_process_info_t) (pid : Z) : option linx_process_info_t :=
  match m !! pid with
  | Some i => Some i
  | None => match create_process_info pagesize (env_now env) pid (env_proc env pid) with Ret _ r => r | _ => None end
  end.

(** The name a slot of a user or a process holds. *)
Definition name_of (env : environment) (event : linx_event_t) (m : gmap Z linx_process_info_t)
    (type : linx_field_type_t) (off : Z) : option string :=
  match type with
  | LINX_FIELD_TYPE_UID =>
      uid ← load_le (ev_data event) off 4; Some (from_option pw_name "unknown" (env_getpwuid env uid))
  | LINX_FIELD_TYPE_PID =>
      v ← load_le (ev_data event) off 8;
      Some (from_option (λ i, st_comm (pi_stat i)) "unknown" (process_of env m (sext 32 v)))
  | _ => None
  end.

Definition slot_describes (env : environment) (event : linx_event_t) (m : gmap Z linx_process_info_t)
    (type : linx_field_type_t) (j : Z) (st : rich_state) : Prop :=
  if owned type then
    ∃ b t, slot j st = Some (PBlock b) ∧ rs_heap st !! b = Some t
      ∧ name_of env event m type (param_offset event j) = Some t
  else slot j st = Some (PEvent (param_offset event j)).

(** /proc can be read without undefined behaviour. *)
Definition proc_clean (env : environment) : Prop :=
  ∀ pid, ∃ r, create_process_info pagesize (env_now env) pid (env_proc env pid) = Ret [] r.

(** The parameters that are read lie within the event. *)
Definition readable (event : linx_event_t) (e : linx_event_table_t) : Prop :=
  length (ev_params_size event) = 32%nat
  ∧ ∀ j p, 0 ≤ j < le_nparams e → event_param e j = Some p →
      match lp_type p with
      | LINX_FIELD_TYPE_UID => is_Some (load_le (ev_data event) (param_offset event j) 4)
      | LINX_FIELD_TYPE_PID => is_Some (load_le (ev_data event) (param_offset event j) 8)
      | _ => True
      end.
End spec.

Definition slots_length (st : rich_state) : Prop :=
  length (evt_arg (rs_evt st)) = 32%nat ∧ length (evt_rawarg (rs_evt st)) = 32%nat.

Definition heap_below (st : rich_state) : Prop := ∀ b, is_Some (rs_heap st !! b) → (b < rs_fresh st)%nat.

(** ** Lemmas *)
Lemma slot_set i j p st :
  slots_length st → 0 ≤ i < 32 → 0 ≤ j →
  slot j (with_evt (set_slot i p (rs_evt st)) st) = if decide (i = j) then Some p else slot j st.
Proof.
  intros [Hl _] Hi Hj. unfold slot. cbn. rewrite list_lookup_insert. case_decide; case_decide; try done; lia.
Qed.

Lemma set_slot_length i p st : slots_length st → slots_length (with_evt (set_slot i p (rs_evt st)) st).
Proof. unfold slots_length. cbn. by rewrite !length_insert. Qed.

Lemma strdup_slot_length i t st : slots_length st → slots_length (strdup_slot i t st).
Proof. unfold slots_length. cbn. by rewrite !length_insert. Qed.

Lemma slot_strdup i j t st :
  slots_length st → 0 ≤ i < 32 → 0 ≤ j →
  slot j (strdup_slot i t st) = if decide (i = j) then Some (PBlock (rs_fresh st)) else slot j st.
Proof. apply slot_set. Qed.

Lemma strdup_heap_below i t st : heap_below st → heap_below (strdup_slot i t st).
Proof.
  intros H b. cbn. destruct (decide (rs_fresh st = b)) as [<-|]; [lia|]. rewrite lookup_insert_ne by done.
  intros Hb%H. lia.
Qed.

Lemma param_offset_next event j psize :
  0 ≤ j → ev_params_size event !! Z.to_nat j = Some psize →
  wrap 64 (param_offset event j + psize) = param_offset event (j + 1).
Proof.
  intros Hj Hp. unfold param_offset. rewrite Z2Nat.inj_add by lia. change (Z.to_nat 1) with 1%nat. rewrite Nat.add_1_r.
  rewrite (take_S_r _ _ _ Hp). unfold wrap. rewrite Zplus_mod_idemp_l. f_equal.
  generalize (take (Z.to_nat j) (ev_params_size event)). intros l. induction l as [|x l IH]; cbn; lia.
Qed.

Lemma param_offset_0 event : param_offset event 0 = 0.
Proof. done. Qed.

(** A look-up of a process, as an event sees it. *)
Lemma get_process pagesize env pid c :
  cache_wf c → proc_clean pagesize env →
  ∃ a c', linx_process_cache_get pagesize (env_now env) pid (env_proc env pid) (Some c) = Ret [] (a, Some c')
    ∧ cache_wf c' ∧ cache_map c' = cache_map c
    ∧ (a ≫= λ a, block a c') = process_of pagesize env (cache_map c) pid.
Proof.
  intros Hc Hp. destruct (Hp pid) as [r Hr]. destruct (get_spec _ _ _ _ _ _ _ Hc Hr) as (a & c' & Hg & ? & ? & Hb).
  exists a, c'. split; [rewrite Hg; by case_match|]. do 2 (split; [done|]). rewrite Hb. unfold process_of. by rewrite Hr.
Qed.

Lemma get_some_block pagesize now pid proc c w a c' :
  cache_wf c → linx_process_cache_get pagesize now pid proc (Some c) = Ret w (Some a, Some c') → is_Some (block a c').
Proof.
  intros Hc H. unfold linx_process_cache_get in H. case_match eqn:E.
  - injection H as _ <- <-. eapply ut_find_elem in E. rewrite block_entry; eauto.
  - bind_inv H. destruct a0 as [i|]; [|done]. injection Hk as _ <- <-.
    destruct (loose_wf i c Hc) as [_ Hb]. eauto.
Qed.

(** One parameter. *)
Lemma rich_arg_ok pagesize env event type i st c :
  slots_length st → heap_below st → cache_wf c → proc_clean pagesize env → 0 ≤ i < 32 →
  match type with
  | LINX_FIELD_TYPE_UID => is_Some (load_le (ev_data event) (param_offset event i) 4)
  | LINX_FIELD_TYPE_PID => is_Some (load_le (ev_data event) (param_offset event i) 8)
  | _ => True
  end →
  ∃ st' c', rich_arg pagesize env event type i (param_offset event i) st (Some c) = Ret [] (st', Some c')
    ∧ slots_length st' ∧ heap_below st' ∧ cache_wf c' ∧ cache_map c' = cache_map c
    ∧ (∀ j, 0 ≤ j → j ≠ i → slot j st' = slot j st)
    ∧ slot_describes pagesize env event (cache_map c) type i st'
    ∧ (∀ b, is_Some (rs_heap st !! b) → rs_heap st' !! b = rs_heap st !! b)
    ∧ (rs_fresh st ≤ rs_fresh st')%nat
    ∧ ∀ b, slot i st' = Some (PBlock b) → b = rs_fresh st ∧ rs_fresh st' = S b.
Proof.
  intros Hl Hb Hc Hp Hi Hr.
  assert (Hkeep : ∀ t b, is_Some (rs_heap st !! b) → rs_heap (strdup_slot i t st) !! b = rs_heap st !! b).
  { intros t b Hx. cbn. rewrite lookup_insert_ne; [done|]. intros <-. apply Hb in Hx. lia. }
  assert (Hstr : ∀ t j, 0 ≤ j → slot j (strdup_slot i t st) = if decide (i = j) then Some (PBlock (rs_fresh st)) else slot j st).
  { intros. by apply slot_strdup. }
  assert (Hown : ∀ t c', owned type = true → cache_wf c' → cache_map c' = cache_map c →
    name_of pagesize env event (cache_map c) type (param_offset event i) = Some t →
    let st' := strdup_slot i t st in
    slots_length st' ∧ heap_below st' ∧ cache_wf c' ∧ cache_map c' = cache_map c
    ∧ (∀ j, 0 ≤ j → j ≠ i → slot j st' = slot j st) ∧ slot_describes pagesize env event (cache_map c) type i st'
    ∧ (∀ b, is_Some (rs_heap st !! b) → rs_heap st' !! b = rs_heap st !! b)
    ∧ (rs_fresh st ≤ rs_fresh st')%nat
    ∧ ∀ b, slot i st' = Some (PBlock b) → b = rs_fresh st ∧ rs_fresh st' = S b).
  { intros t c' Ho Hc' Hm Hn st'. split; [by apply strdup_slot_length|]. split; [by apply strdup_heap_below|].
    do 2 (split; [done|]). split; [intros j ? ?; unfold st'; rewrite Hstr, decide_False by done; done|].
    split; [|split; [apply Hkeep|split; [cbn; lia|]]].
    - unfold slot_describes. rewrite Ho. exists (rs_fresh st), t. unfold st'. rewrite Hstr, decide_True by lia.
      split; [done|]. split; [cbn; apply lookup_insert_eq|done].
    - intros b. unfold st'. rewrite Hstr, decide_True by lia. intros [= <-]. done. }
  destruct (owned type) eqn:Ho.
  - destruct type; try discriminate; destruct Hr as [v Hv]; unfold rich_arg; rewrite Hv; cbn [from_opt];
      rewrite bind_ret_l.
    + eexists _, c. split; [reflexivity|]. apply Hown; [done..|]. unfold name_of. by rewrite Hv.
    + destruct (get_process pagesize env (sext 32 v) c Hc Hp) as (a & c' & Hg & Hc' & Hm & Hb').
      rewrite Hg, bind_Ret_nil. destruct a as [a|]; cbn in Hb'.
      * destruct (get_some_block _ _ _ _ _ _ _ _ Hc Hg) as [i' Hi']. rewrite Hi' in Hb'. cbn. rewrite Hi'. cbn.
        eexists _, c'. split; [reflexivity|]. apply Hown; [done..|]. unfold name_of. rewrite Hv. cbn. by rewrite <- Hb'.
      * eexists _, c'. split; [reflexivity|]. apply Hown; [done..|]. unfold name_of. rewrite Hv. cbn. by rewrite <- Hb'.
  - exists (with_evt (set_slot i (PEvent (param_offset event i)) (rs_evt st)) st), c.
    split; [by destruct type|]. split; [by apply set_slot_length|]. split; [exact Hb|]. do 2 (split; [done|]).
    split; [intros j ? ?; rewrite slot_set, decide_False by done; done|].
    split; [unfold slot_describes; rewrite Ho, slot_set, decide_True by (done || lia); done|].
    split; [done|]. split; [done|]. intros b. rewrite slot_set, decide_True by (done || lia). done.
Qed.

(** All of them. *)
Lemma args_loop_ok pagesize env event e n i st c :
  event_wf e = true → readable event e → slots_length st → heap_below st → cache_wf c → proc_clean pagesize env →
  0 ≤ i → i + Z.of_nat n = le_nparams e →
  ∃ st' c', args_loop pagesize env event e n i (param_offset event i) st (Some c) = Ret [] (st', Some c')
    ∧ slots_length st' ∧ heap_below st' ∧ cache_wf c' ∧ cache_map c' = cache_map c
    ∧ (∀ j, 0 ≤ j < i ∨ le_nparams e ≤ j → slot j st' = slot j st)
    ∧ (∀ j p, i ≤ j < le_nparams e → event_param e j = Some p →
         slot_describes pagesize env event (cache_map c) (lp_type p) j st')
    ∧ (∀ b, is_Some (rs_heap st !! b) → rs_heap st' !! b = rs_heap st !! b)
    ∧ (rs_fresh st ≤ rs_fresh st')%nat
    ∧ (∀ j b, i ≤ j < le_nparams e → slot j st' = Some (PBlock b) → (rs_fresh st ≤ b)%nat)
    ∧ ∀ j k b, i ≤ j < le_nparams e → i ≤ k < le_nparams e →
        slot j st' = Some (PBlock b) → slot k st' = Some (PBlock b) → j = k.
Proof.
  intros Hwf [Hlen Hr]. pose proof (event_wf_bound _ Hwf) as Hmax.
  revert i st c. induction n as [|n IH]; intros i st c Hl Hb Hc Hp Hi Hn.
  - exists st, c. split; [done|]. do 4 (split; [done|]). repeat split; intros; lia || done.
  - destruct (event_param_in e i Hwf) as [_ [p Hpar]]; [lia|]. cbn [args_loop]. rewrite Hpar. cbn [from_opt].
    rewrite bind_ret_l.
    destruct (rich_arg_ok pagesize env event (lp_type p) i st c Hl Hb Hc Hp) as
      (st1 & c1 & H1 & Hl1 & Hb1 & Hc1 & Hm1 & Hs1 & Hd1 & Hh1 & Hf1 & Hi1); [lia|by apply Hr; [lia|]|].
    rewrite H1, bind_Ret_nil. destruct (lookup_lt_is_Some_2 (ev_params_size event) (Z.to_nat i)) as [psize Hps]; [lia|].
    rewrite Hps. cbn [from_opt]. rewrite bind_ret_l, (param_offset_next _ _ _ Hi Hps).
    destruct (IH (i + 1) st1 c1 Hl1 Hb1 Hc1 Hp) as
      (st2 & c2 & H2 & Hl2 & Hb2 & Hc2 & Hm2 & Hs2 & Hd2 & Hh2 & Hf2 & Hn2 & Hi2); [lia|lia|].
    exists st2, c2. split; [exact H2|]. do 3 (split; [done|]). split; [congruence|].
    assert (Hsi : slot i st2 = slot i st1) by (apply Hs2; lia).
    split; [intros j Hj; rewrite Hs2, Hs1 by lia; done|]. split; [|split; [|split; [lia|split]]].
    + intros j q Hj Hq. destruct (decide (j = i)) as [->|].
      * rewrite Hpar in Hq. injection Hq as <-. unfold slot_describes in *. rewrite Hsi.
        destruct (owned (lp_type p)); [|done]. destruct Hd1 as (b & t & Hsl & Hhb & Ht). exists b, t.
        split; [done|]. split; [|done]. rewrite Hh2; [done|]. rewrite Hhb. eauto.
      * rewrite <- Hm1. apply Hd2; [lia|done].
    + intros b Hx. rewrite Hh2; [by apply Hh1|]. by rewrite Hh1.
    + intros j b Hj. destruct (decide (j = i)) as [->|].
      * rewrite Hsi. intros Hx. apply Hi1 in Hx. lia.
      * intros Hx. apply Hn2 in Hx; lia.
    + assert (Hfirst : ∀ k b, i < k < le_nparams e → slot i st2 = Some (PBlock b) → slot k st2 = Some (PBlock b) → False).
      { intros k b Hk. rewrite Hsi. intros Hx Hy. apply Hi1 in Hx. apply Hn2 in Hy; lia. }
      intros j k b Hj Hk Hx Hy. destruct (decide (j = i)) as [->|]; destruct (decide (k = i)) as [->|]; [done| | |].
      * exfalso. apply (Hfirst k b); [lia|done..].
      * exfalso. apply (Hfirst j b); [lia|done..].
      * apply (Hi2 j k b); [lia|lia|done..].
Qed.

(** ** The slots that are freed

    Only the exit event of [execve] has parameters of types UID and PID, in
    slots 6 and 7; only the exit event of [openat] also fills slot 6, with a
    pointer into the event. *)
Definition execve_entry : linx_event_table_t := mk_event "execve" 8
  [mk_param "exe" LINX_FIELD_TYPE_CHARBUF; mk_param "vm_size" LINX_FIELD_TYPE_UINT32;
   mk_param "vm_rss" LINX_FIELD_TYPE_UINT32; mk_param "comm" LINX_FIELD_TYPE_CHARBUF;
   mk_param "tty" LINX_FIELD_TYPE_UINT32; mk_param "env" LINX_FIELD_TYPE_BYTEBUF;
   mk_param "loginuid" LINX_FIELD_TYPE_UID; mk_param "pgid" LINX_FIELD_TYPE_PID].

Lemma execve_entry_eq : g_linx_event_table LINX_EVENT_TYPE_EXECVE_X = Some execve_entry.
Proof. vm_compute. reflexivity. Qed.

Lemma execve_param j p :
  0 ≤ j < 8 → le_params execve_entry !! Z.to_nat j = Some p → event_param execve_entry j = Some p.
Proof. intros Hj Hp. unfold event_param. rewrite decide_True by lia. by rewrite Hp. Qed.

Lemma openat_nparams : le_nparams <$> g_linx_event_table LINX_EVENT_TYPE_OPENAT_X = Some 7.
Proof. vm_compute. reflexivity. Qed.

Definition other_plain (p : Z * linx_event_table_t) : bool :=
  (p.1 =? LINX_EVENT_TYPE_EXECVE_X)
  || (forallb (λ q, negb (owned (lp_type q))) (le_params p.2)
      && ((le_nparams p.2 <=? 6) || (p.1 =? LINX_EVENT_TYPE_OPENAT_X))).

Lemma table_other_plain : forallb other_plain event_table_entries = true.
Proof. vm_compute. reflexivity. Qed.

Lemma plain_event t e :
  g_linx_event_table t = Some e → t ≠ LINX_EVENT_TYPE_EXECVE_X →
  (∀ j p, 0 ≤ j < le_nparams e → event_param e j = Some p → owned (lp_type p) = false)
  ∧ (t ≠ LINX_EVENT_TYPE_OPENAT_X → le_nparams e ≤ 6).
Proof.
  intros He Ht. pose proof (g_linx_event_table_wf _ _ He) as Hwf. unfold g_linx_event_table in He.
  case_decide; [|done]. injection He as He. destruct (event_table_map !! t) as [e'|] eqn:E; cbn in He; subst e.
  2:{ split; [|done]. cbn. intros j p Hj. lia. }
  apply event_table_map_lookup in E. pose proof table_other_plain as Hp. rewrite forallb_forall in Hp.
  specialize (Hp (t, e') (proj1 (list_elem_of_In _ _) E)). unfold other_plain in Hp. cbn in Hp.
  apply Z.eqb_neq in Ht. rewrite Ht in Hp. cbn in Hp. apply andb_true_iff in Hp as [Hp Hn]. split.
  - intros j p Hj Hjp. destruct (event_param_in e' j Hwf Hj) as [Hpar _]. rewrite Hjp in Hpar.
    rewrite forallb_forall in Hp. apply negb_true_iff, Hp, list_elem_of_In, list_elem_of_lookup. eauto.
  - intros Ho. apply Z.eqb_neq in Ho. rewrite Ho, orb_false_r in Hn. by apply Z.leb_le.
Qed.

Lemma clean_step_plain e n i p st :
  event_param e i = Some p → owned (lp_type p) = false → clean_loop e (S n) i st = clean_loop e n (i + 1) st.
Proof.
  intros Hp Ho. cbn [clean_loop]. rewrite Hp. cbn [from_opt]. rewrite bind_ret_l.
  destruct (lp_type p); try discriminate; by rewrite bind_ret_l.
Qed.

Lemma clean_step_owned e n i p q st :
  event_param e i = Some p → owned (lp_type p) = true → slot i st = Some q →
  clean_loop e (S n) i st
  = (st ← free q st; clean_loop e n (i + 1) (with_evt (set_slot i PNull (rs_evt st)) st)).
Proof.
  intros Hp Ho Hq. cbn [clean_loop]. rewrite Hp. cbn [from_opt]. rewrite bind_ret_l. unfold slot in Hq.
  assert (∀ m : outcome rich_state, (st ← (st ← m; mret (with_evt (set_slot i PNull (rs_evt st)) st)); clean_loop e n (i + 1) st)
    = (st ← m; clean_loop e n (i + 1) (with_evt (set_slot i PNull (rs_evt st)) st))) as Hassoc.
  { intros [w a|f|]; [|done|done]. cbn. rewrite app_nil_r. by destruct (clean_loop _ _ _ _). }
  rewrite Hq. cbn [default from_option id]. by destruct (lp_type p); try discriminate.
Qed.

Lemma clean_plain e n i st :
  (∀ j, i ≤ j < i + Z.of_nat n → ∃ p, event_param e j = Some p ∧ owned (lp_type p) = false) →
  clean_loop e n i st = Ret [] st.
Proof.
  revert i. induction n as [|n IH]; intros i H; [done|]. destruct (H i) as (p & Hp & Ho); [lia|].
  rewrite (clean_step_plain _ _ _ _ _ Hp Ho). apply IH. intros j Hj. apply H. lia.
Qed.

(** A slot that may be freed. *)
Definition freeable (j : Z) (st : rich_state) : Prop :=
  slot j st = Some PNull ∨ ∃ b, slot j st = Some (PBlock b) ∧ is_Some (rs_heap st !! b).

(** Between events: [openat] says that an exit of [openat] came after the last
    exit of [execve]. *)
Record rich_inv (openat : bool) (st : rich_state) : Prop := {
  ri_length : slots_length st;
  ri_heap : heap_below st;
  ri_pgid : freeable 7 st;
  ri_loginuid : if openat then ∃ off, slot 6 st = Some (PEvent off) else freeable 6 st;
  ri_apart : ∀ b, slot 6 st = Some (PBlock b) → slot 7 st ≠ Some (PBlock b)
}.

Lemma rich_inv_initial : rich_inv false rich_initial.
Proof.
  split; [done| |by left|by left|done]. intros b. cbn. rewrite lookup_empty. by intros [].
Qed.

(** Freeing a slot leaves the others. *)
Lemma free_slot j k st :
  slots_length st → heap_below st → 0 ≤ j < 32 → 0 ≤ k < 32 → j ≠ k → freeable j st →
  ∃ q st1, slot j st = Some q ∧ free q st = Ret [] st1
    ∧ let st' := with_evt (set_slot j PNull (rs_evt st1)) st1 in
      slots_length st' ∧ heap_below st' ∧ slot j st' = Some PNull
      ∧ (∀ i, 0 ≤ i → i ≠ j → slot i st' = slot i st)
      ∧ (freeable k st → (∀ b, slot j st = Some (PBlock b) → slot k st ≠ Some (PBlock b)) → freeable k st').
Proof.
  intros Hl Hb Hj Hk Hjk [Hq|(b & Hq & [t Ht])].
  - exists PNull, st. split; [done|]. split; [done|]. cbn zeta. split; [by apply set_slot_length|].
    split; [exact Hb|]. split; [rewrite slot_set, decide_True by (done || lia); done|].
    split; [intros i ? ?; rewrite slot_set, decide_False by (done || lia); done|].
    intros Hf _. unfold freeable. rewrite slot_set, decide_False by (done || lia). exact Hf.
  - set (st1 := mk_rich (rs_evt st) (delete b (rs_heap st)) (rs_fresh st)).
    assert (Hl1 : slots_length st1) by exact Hl.
    exists (PBlock b), st1. split; [done|]. split; [cbn; by rewrite Ht|]. cbn zeta. split; [by apply set_slot_length|].
    split; [intros x; cbn; rewrite lookup_delete_is_Some; intros [_ Hx]; by apply Hb|].
    split; [rewrite slot_set, decide_True by (done || lia); done|].
    split; [intros i ? ?; rewrite slot_set, decide_False by (done || lia); done|].
    intros Hf Ha. unfold freeable in *. rewrite slot_set, decide_False by (done || lia).
    destruct Hf as [Hf|(b' & Hf & Hb')]; [by left|right]. exists b'. split; [exact Hf|]. cbn.
    rewrite lookup_delete_ne; [done|]. intros <-. by apply (Ha b).
Qed.

Lemma clean_event o event e st :
  g_linx_event_table (ev_type event) = Some e → rich_inv o st →
  if (ev_type event =? LINX_EVENT_TYPE_EXECVE_X) && o then rich_event_clean event st = Ub InvalidFree
  else ∃ st', rich_event_clean event st = Ret [] st' ∧ slots_length st' ∧ heap_below st'
    ∧ if ev_type event =? LINX_EVENT_TYPE_EXECVE_X then True else st' = st.
Proof.
  intros He [Hl Hb H7 H6 Ha]. pose proof (g_linx_event_table_wf _ _ He) as Hwf. unfold rich_event_clean. rewrite He.
  cbn [from_opt]. rewrite bind_ret_l. destruct (Z.eqb_spec (ev_type event) LINX_EVENT_TYPE_EXECVE_X) as [Ht|Ht]; cbn [andb].
  - rewrite Ht, execve_entry_eq in He. injection He as <-. change (Z.to_nat (le_nparams execve_entry)) with 8%nat.
    do 6 (erewrite clean_step_plain by (try (apply execve_param; [lia|]); reflexivity); cbn [Z.add Pos.add Pos.succ]).
    pose proof (execve_param 6 _ ltac:(lia) eq_refl) as H6p. pose proof (execve_param 7 _ ltac:(lia) eq_refl) as H7p.
    destruct o.
    + destruct H6 as [off H6]. by rewrite (clean_step_owned _ _ _ _ _ _ H6p eq_refl H6).
    + destruct (free_slot 6 7 st Hl Hb) as (q & st1 & Hq & Hf & Hl1 & Hb1 & _ & _ & H71); [lia..|done|].
      rewrite (clean_step_owned _ _ _ _ _ _ H6p eq_refl Hq), Hf, bind_Ret_nil.
      set (st2 := with_evt _ st1) in *. specialize (H71 H7 Ha).
      destruct (free_slot 7 6 st2 Hl1 Hb1) as (q2 & st3 & Hq2 & Hf2 & Hl2 & Hb2 & _); [lia..|done|].
      cbn [Z.add Pos.add Pos.succ].
      rewrite (clean_step_owned _ _ _ _ _ _ H7p eq_refl Hq2), Hf2, bind_Ret_nil.
      eexists. split; [reflexivity|]. done.
  - exists st. split; [|done]. apply clean_plain. intros j Hj.
    pose proof (event_wf_bound _ Hwf). destruct (event_param_in e j Hwf) as [_ [p Hp]]; [lia|].
    exists p. split; [done|]. eapply (proj1 (plain_event _ _ He Ht)); [|exact Hp]. lia.
Qed.

(** ** What rules see of an event *)
Section described.
Context (pagesize : Z) (local_time : Z → string).

Record described (env : environment) (event : linx_event_t) (e : linx_event_table_t)
    (m : gmap Z linx_process_info_t) (st : rich_state) : Prop := {
  de_num : evt_num (rs_evt st) = ev_type event;
  de_type : evt_type (rs_evt st) = Some (le_name e);
  de_time : evt_time (rs_evt st)
    = stake 63 (local_time (ev_time event / 1000000000) +:+ nanoseconds (ev_time event `mod` 1000000000));
  de_dir : evt_dir (rs_evt st) = if Z.even (ev_type event) then ">" else "<";
  de_rawres : evt_rawres (rs_evt st) = sext 64 (ev_res event);
  de_res : evt_res (rs_evt st) = if sext 64 (ev_res event) =? 0 then "SUCCESS" else "ERRNO";
  de_failed : evt_failed (rs_evt st) = negb (sext 64 (ev_res event) =? 0);
  de_args : ∀ j p, 0 ≤ j < le_nparams e → event_param e j = Some p →
    slot_describes pagesize env event m (lp_type p) j st
}.
End described.

Definition next_openat (o : bool) (event : linx_event_t) : bool :=
  if ev_type event =? LINX_EVENT_TYPE_EXECVE_X then false
  else if ev_type event =? LINX_EVENT_TYPE_OPENAT_X then true else o.

(** What the cache holds after an event. *)
Definition cache_after (env : environment) (event : linx_event_t) (m : gmap Z linx_process_info_t)
    : gmap Z linx_process_info_t :=
  if (ev_type event =? LINX_EVENT_TYPE_EXECVE_X) && streq (ev_comm event) "find"
  then Spec.put (execve_info (env_now env) event) m else m.

Lemma slots_after_args o pagesize env event e c st st1 st2 :
  g_linx_event_table (ev_type event) = Some e → rich_inv o st →
  (if ev_type event =? LINX_EVENT_TYPE_EXECVE_X then True else st1 = st) →
  slots_length st2 → heap_below st2 →
  (∀ j, le_nparams e ≤ j → slot j st2 = slot j st1) →
  (∀ j p, 0 ≤ j < le_nparams e → event_param e j = Some p →
     slot_describes pagesize env event (cache_map c) (lp_type p) j st2) →
  (∀ b, is_Some (rs_heap st1 !! b) → rs_heap st2 !! b = rs_heap st1 !! b) →
  (∀ j k b, 0 ≤ j < le_nparams e → 0 ≤ k < le_nparams e →
     slot j st2 = Some (PBlock b) → slot k st2 = Some (PBlock b) → j = k) →
  rich_inv (next_openat o event) st2.
Proof.
  intros He [Hl Hb H7 H6 Ha] Hst Hl2 Hb2 Hkeep Hd Hh Hinj. unfold next_openat.
  destruct (Z.eqb_spec (ev_type event) LINX_EVENT_TYPE_EXECVE_X) as [Ht|Ht].
  - rewrite Ht, execve_entry_eq in He. injection He as <-. cbn in Hd, Hinj.
    destruct (Hd 7 _ ltac:(lia) (execve_param 7 _ ltac:(lia) eq_refl)) as (b7 & t7 & Hs7 & Hh7 & _).
    destruct (Hd 6 _ ltac:(lia) (execve_param 6 _ ltac:(lia) eq_refl)) as (b6 & t6 & Hs6 & Hh6 & _).
    split; [done|done|right; eauto|right; eauto|]. intros b Hb6 Hb7. specialize (Hinj 6 7 b). lia || naive_solver lia.
  - subst st1. destruct (plain_event _ _ He Ht) as [Hplain Hsix].
    assert (H7' : slot 7 st2 = slot 7 st ∧ freeable 7 st2).
    { assert (slot 7 st2 = slot 7 st) as Heq.
      { apply Hkeep. destruct (decide (ev_type event = LINX_EVENT_TYPE_OPENAT_X)) as [Ho|Ho]; [|apply Hsix in Ho; lia].
        pose proof openat_nparams as Hn. rewrite Ho in He. rewrite He in Hn. injection Hn as ->. done. }
      split; [done|]. unfold freeable. rewrite Heq. destruct H7 as [?|(b & ? & Hx)]; [by left|right].
      exists b. split; [done|]. by rewrite Hh. }
    destruct H7' as [H7e H7f]. destruct (Z.eqb_spec (ev_type event) LINX_EVENT_TYPE_OPENAT_X) as [Ho|Ho].
    + pose proof openat_nparams as Hn. rewrite Ho in He. rewrite He in Hn. injection Hn as Hn.
      destruct (event_param_in e 6 (g_linx_event_table_wf _ _ He)) as [_ [p Hp]]; [lia|].
      specialize (Hd 6 p ltac:(lia) Hp). unfold slot_describes in Hd. rewrite (Hplain 6 p ltac:(lia) Hp) in Hd.
      split; [done|done|done|eauto|]. intros b. rewrite Hd. done.
    + assert (H6e : slot 6 st2 = slot 6 st) by (apply Hkeep, Hsix, Ho).
      split; [done|done|done| |rewrite H6e, H7e; exact Ha]. destruct o; rewrite ?H6e; [done|].
      unfold freeable. rewrite H6e. destruct H6 as [?|(b & ? & Hx)]; [by left|right]. exists b. split; [done|]. by rewrite Hh.
Qed.

(** ** One event *)
Section events.
Context (pagesize : Z) (local_time : Z → string).
Context (addr_of : nat → Z) (evt_addr fd_addr user_addr group_addr : Z).

Abbreviation rich := (linx_event_rich pagesize local_time addr_of evt_addr fd_addr user_addr group_addr).
Abbreviation run := (run_events pagesize local_time addr_of evt_addr fd_addr user_addr group_addr).
Abbreviation tables :=
  (λ a : option nat, Some [("evt", evt_addr); ("fd", fd_addr); ("proc", from_option addr_of 0 a); ("user", user_addr);
                           ("group", group_addr)]).

(** An event of the kernel with its environment: the type is one of the
    table, what is read lies within the event and /proc is well formed. *)
Definition admissible (x : environment * linx_event_t) : Prop :=
  proc_clean pagesize x.1 ∧ ∃ e, g_linx_event_table (ev_type x.2) = Some e ∧ readable x.2 e.

Lemma update_field_base_ok env pid c s :
  cache_wf c → proc_clean pagesize env →
  ∃ a c', update_field_base pagesize addr_of evt_addr fd_addr user_addr group_addr env pid (Some c) s
      = Ret [] (let '(ret, s') := linx_hash_map_update_tables_base (tables a) s in (ret, Some c', s'))
    ∧ cache_wf c' ∧ cache_map c' = cache_map c.
Proof.
  intros Hc Hp. destruct (get_process pagesize env pid c Hc Hp) as (a & c' & Hg & ? & ? & _). exists a, c'.
  split; [|done]. unfold update_field_base. rewrite Hg, bind_Ret_nil. by destruct (linx_hash_map_update_tables_base _ s).
Qed.

(** The registry changes by the update of the base addresses alone. *)
Lemma rich_registry env event st g s w ret st' g' s' :
  rich env event st g s = Ret w (ret, (st', g', s')) →
  ∃ a, linx_hash_map_update_tables_base (tables a) s = (ret, s').
Proof.
  unfold linx_event_rich. intros H.
  apply bind_Ret_inv in H as (? & ? & st1 & _ & H & _). apply bind_Ret_inv in H as (? & ? & [st2 g2] & _ & H & _).
  apply bind_Ret_inv in H as (? & ? & g3 & _ & H & _). apply bind_Ret_inv in H as (? & ? & [] & _ & H & _).
  apply bind_Ret_inv in H as (? & ? & e & _ & H & _). apply bind_Ret_inv in H as (? & ? & [[r g4] s4] & Hu & H & _).
  injection H as _ <- _ _ <-. unfold update_field_base in Hu.
  apply bind_Ret_inv in Hu as (? & ? & [a g5] & _ & Hu & _). exists a.
  destruct (linx_hash_map_update_tables_base _ s) as [r5 s5]. by injection Hu as _ <- _ <-.
Qed.

Lemma event_even t : (t `mod` 2 =? 0) = Z.even t.
Proof. by rewrite Zeven_mod. Qed.

Lemma rich_step o env event e st c s :
  g_linx_event_table (ev_type event) = Some e → readable event e → proc_clean pagesize env →
  rich_inv o st → cache_wf c →
  if (ev_type event =? LINX_EVENT_TYPE_EXECVE_X) && o then rich env event st (Some c) s = Ub InvalidFree
  else ∃ st' c' a, rich env event st (Some c) s
      = Ret [HeapOverflow] (let '(ret, s') := linx_hash_map_update_tables_base (tables a) s in
                            (ret, (st', Some c', s')))
    ∧ rich_inv (next_openat o event) st' ∧ cache_wf c'
    ∧ cache_map c' = cache_after env event (cache_map c)
    ∧ described pagesize local_time env event e (cache_map c) st'.
Proof.
  intros He Hr Hp Hinv Hc. pose proof (clean_event o event e st He Hinv) as Hclean.
  destruct ((ev_type event =? LINX_EVENT_TYPE_EXECVE_X) && o) eqn:Eo.
  { unfold linx_event_rich. by rewrite Hclean. }
  destruct Hclean as (st1 & Hclean & Hl1 & Hb1 & Hst1). pose proof (g_linx_event_table_wf _ _ He) as Hwf.
  pose proof (event_wf_bound _ Hwf) as Hmax.
  destruct (args_loop_ok pagesize env event e (Z.to_nat (le_nparams e)) 0
    (with_evt (set_args (PEvent 0) (rs_evt st1)) st1) c Hwf Hr) as
    (st2 & c2 & Hargs & Hl2 & Hb2 & Hc2 & Hm2 & Hs2 & Hd2 & Hh2 & _ & _ & Hi2); [done|done|done|done|lia|lia|].
  unfold linx_event_rich. rewrite Hclean, bind_Ret_nil. unfold rich_event_args at 1. rewrite He. cbn [from_opt].
  rewrite bind_ret_l, param_offset_0 in *. rewrite Hargs, bind_Ret_nil.
  set (c3 := if (ev_type event =? LINX_EVENT_TYPE_EXECVE_X) && streq (ev_comm event) "find"
             then replace_entry (execve_info (env_now env) event) c2 else c2).
  assert (Hc3 : cache_wf c3 ∧ cache_map c3 = cache_after env event (cache_map c)).
  { unfold c3, cache_after. rewrite <- Hm2. destruct ((_ =? _) && streq _ _); [|done].
    split; [by apply replace_wf|by apply replace_map]. }
  match goal with |- context [mbind ?k (if ?b then rich_execve_exit ?n ?ev ?g else mret ?g)] =>
    replace (if b then rich_execve_exit n ev g else mret g) with (Ret [] (Some c3))
      by (unfold c3; by destruct b) end.
  rewrite bind_Ret_nil. rewrite bind_ret_l.
  destruct Hc3 as [Hc3 Hm3]. match goal with |- context [with_evt ?e st2] => set (st3 := with_evt e st2) end.
  destruct (update_field_base_ok env (sext 32 (ev_pid event)) c3 s Hc3 Hp) as (a & c4 & Hu & Hc4 & Hm4).
  exists st3, c4, a. split; [|split; [|split; [done|split; [congruence|]]]].
  - rewrite Hu, bind_Ret_nil. by destruct (linx_hash_map_update_tables_base _ s).
  - apply (slots_after_args o pagesize env event e c st st1 st3); try done.
    intros j Hj. apply Hs2. by right.
  - split; try done. cbn. by rewrite <- event_even.
Qed.

(** ** Properties *)

(** C13: what rules see of an event.  Unless it is an exit of [execve] that
    follows an exit of [openat], [linx_event_rich] returns and leaves in [evt]
    the number and the name of the event, its local time with nine digits of
    nanoseconds, its direction and its result; parameter [j] is the address of
    its bytes in the event (the sum of the sizes before it), and for the two
    parameters of an exit of [execve] that name a user and a process the name
    found for it, or "unknown".  The process cache changes by the block of a
    new process called "find" only, and the one array that is overrun is
    [evt.dir], by a byte of padding. *)
Theorem event_rich_describes o env event e st c s :
  g_linx_event_table (ev_type event) = Some e → readable event e → proc_clean pagesize env →
  rich_inv o st → cache_wf c → (ev_type event = LINX_EVENT_TYPE_EXECVE_X → o = false) →
  ∃ ret st' c' s', rich env event st (Some c) s = Ret [HeapOverflow] (ret, (st', Some c', s'))
    ∧ described pagesize local_time env event e (cache_map c) st'
    ∧ rich_inv (next_openat o event) st' ∧ cache_wf c' ∧ cache_map c' = cache_after env event (cache_map c).
Proof.
  intros He Hr Hp Hinv Hc Ho. pose proof (rich_step o env event e st c s He Hr Hp Hinv Hc) as H.
  replace ((ev_type event =? LINX_EVENT_TYPE_EXECVE_X) && o) with false in H.
  2:{ destruct (Z.eqb_spec (ev_type event) LINX_EVENT_TYPE_EXECVE_X); [by rewrite Ho|done]. }
  destruct H as (st' & c' & a & H & Hinv' & Hc' & Hm' & Hd).
  destruct (linx_hash_map_update_tables_base (tables a) s) as [ret s'] eqn:E. eauto 10.
Qed.

(** The runs that fail. *)
Fixpoint crashes (o : bool) (es : list linx_event_t) : bool :=
  match es with
  | [] => false
  | event :: es => ((ev_type event =? LINX_EVENT_TYPE_EXECVE_X) && o) || crashes (next_openat o event) es
  end.

Lemma run_crashes o es st c s :
  Forall admissible es → rich_inv o st → cache_wf c →
  if crashes o es.*2 then run es (st, Some c, s) = Ub InvalidFree
  else ∃ w st' c' s', run es (st, Some c, s) = Ret w (st', Some c', s') ∧ cache_wf c'.
Proof.
  intros Had. revert o st c s. induction Had as [|[env event] es [Hp (e & He & Hr)] _ IH]; intros o st c s Hinv Hc.
  - cbn. eauto 10.
  - cbn [fmap list_fmap snd crashes run_events fst]. pose proof (rich_step o env event e st c s He Hr Hp Hinv Hc) as H.
    destruct ((ev_type event =? LINX_EVENT_TYPE_EXECVE_X) && o); cbn [orb]; [by rewrite H|].
    destruct H as (st' & c' & a & -> & Hinv' & Hc' & _).
    destruct (linx_hash_map_update_tables_base (tables a) s) as [ret s']. specialize (IH _ _ _ s' Hinv' Hc').
    cbn. destruct (crashes _ es.*2).
    + by rewrite IH.
    + destruct IH as (w & ? & ? & ? & -> & ?). eauto 10.
Qed.

Lemma crashes_split o es :
  crashes o es = true ↔
  ∃ a x b, es = a ++ x :: b ∧ ev_type x = LINX_EVENT_TYPE_EXECVE_X
    ∧ ((o = true ∧ Forall (λ y, ev_type y ≠ LINX_EVENT_TYPE_EXECVE_X) a)
       ∨ ∃ a1 y a2, a = a1 ++ y :: a2 ∧ ev_type y = LINX_EVENT_TYPE_OPENAT_X
           ∧ Forall (λ y, ev_type y ≠ LINX_EVENT_TYPE_EXECVE_X) a2).
Proof.
  revert o. induction es as [|event es IH]; intros o; cbn.
  { split; [done|]. intros (a & x & b & H & _). by destruct a. }
  rewrite orb_true_iff, andb_true_iff, Z.eqb_eq, IH. unfold next_openat. split.
  - intros [[Ht Ho]|(a & x & b & -> & Hx & H)].
    + exists [], event, es. split; [done|]. split; [done|]. left. split; [done|constructor].
    + exists (event :: a), x, b. split; [done|]. split; [done|]. destruct H as [[Ho Ha]|(a1 & y & a2 & -> & Hy & Ha)].
      * destruct (Z.eqb_spec (ev_type event) LINX_EVENT_TYPE_EXECVE_X); [done|].
        destruct (Z.eqb_spec (ev_type event) LINX_EVENT_TYPE_OPENAT_X).
        -- right. by exists [], event, a.
        -- left. split; [done|by constructor].
      * right. by exists (event :: a1), y, a2.
  - intros (a & x & b & Heq & Hx & H). destruct a as [|event' a]; injection Heq as -> ->.
    + left. destruct H as [[Ho _]|(a1 & y & a2 & Ha & _)]; [done|by destruct a1].
    + right. exists a, x, b. split; [done|]. split; [done|]. destruct H as [[Ho Ha]|(a1 & y & a2 & Ha & Hy & Ha2)].
      * apply Forall_cons in Ha as [He Ha]. left. apply Z.eqb_neq in He. rewrite He. split; [by case_match|exact Ha].
      * destruct a1 as [|z a1]; injection Ha as -> ->.
        -- left. rewrite Hy. split; [done|done].
        -- right. eauto 10.
Qed.

(** C24: one exit of [openat] makes the next exit of [execve] free a pointer
    into an event.  A run of admissible events from the start ends in an
    invalid free exactly when some exit of [execve] comes after an exit of
    [openat] with no exit of [execve] in between: [rich_event_clean] frees the
    slots that the parameters of the new event own, although the event before
    filled slot 6 with the address of its inode number.  Every other run ends
    normally. *)
Theorem openat_execve_invalid_free es c s :
  Forall admissible es → cache_wf c →
  let fails := ∃ l o m x r, es.*2 = l ++ [o] ++ m ++ [x] ++ r
    ∧ ev_type o = LINX_EVENT_TYPE_OPENAT_X ∧ ev_type x = LINX_EVENT_TYPE_EXECVE_X
    ∧ Forall (λ y, ev_type y ≠ LINX_EVENT_TYPE_EXECVE_X) m in
  (fails → run es (rich_initial, Some c, s) = Ub InvalidFree)
  ∧ (¬ fails → ∃ w st' c' s', run es (rich_initial, Some c, s) = Ret w (st', Some c', s') ∧ cache_wf c').
Proof.
  intros Had Hc fails. pose proof (run_crashes false es rich_initial c s Had rich_inv_initial Hc) as H.
  assert (Hf : crashes false es.*2 = true ↔ fails).
  { rewrite crashes_split. split.
    - intros (a & x & b & Heq & Hx & [[? _]|(a1 & y & a2 & -> & Hy & Ha)]); [done|]. exists a1, y, a2, x, b.
      rewrite Heq, <- app_assoc. done.
    - intros (l & o & m & x & r & Heq & Ho & Hx & Hm). exists (l ++ o :: m), x, r. rewrite Heq, <- app_assoc.
      split; [done|]. split; [done|]. right. by exists l, o, m. }
  destruct (crashes false es.*2); split; intros Hx; [done|by destruct Hx; apply Hf|by apply Hf in Hx|done].
Qed.

(** The entry made for a new process does not last.  The exit of [execve]
    in a process called "find" puts a block marked as enriched in the cache
    whose start time nobody sets.  The monitor never touches it, so the exit of
    that process goes unnoticed, and the cleaner, which compares the start time
    with the clock, removes it at its next pass although the process runs. *)
Theorem rich_entry_expires env event st c s :
  ev_type event = LINX_EVENT_TYPE_EXECVE_X → ev_comm event = "find" → readable event execve_entry →
  proc_clean pagesize env → rich_inv false st → cache_wf c →
  let pid := sext 32 (ev_pid event) in
  ∃ ret st' c' s' i, rich env event st (Some c) s = Ret [HeapOverflow] (ret, (st', Some c', s'))
    ∧ cache_map c' !! pid = Some i ∧ pi_is_rich i = true ∧ st_comm (pi_stat i) = "find"
    ∧ (∀ now alive, cache_map (monitor_pass now alive c') !! pid = Some i)
    ∧ ∀ now, LINX_PROCESS_CACHE_EXPIRE_TIME < now < 2 ^ 64 → cache_map (cleaner_pass now c') !! pid = None.
Proof.
  intros Ht Hf Hr Hp Hinv Hc pid. pose proof execve_entry_eq as He. rewrite <- Ht in He.
  pose proof (rich_step false env event execve_entry st c s He Hr Hp Hinv Hc) as H. rewrite andb_false_r in H.
  destruct H as (st' & c' & a & H & _ & Hc' & Hm & _).
  destruct (linx_hash_map_update_tables_base (tables a) s) as [ret s'].
  unfold cache_after in Hm. rewrite Ht, Hf in Hm. cbn [Z.eqb Pos.eqb andb] in Hm. change (streq "find" "find") with true in Hm.
  unfold Spec.put in Hm. change (pi_pid (execve_info (env_now env) event)) with pid in Hm.
  set (i := match cache_map c !! pid with Some old => inherit old _ | None => _ end) in Hm.
  assert (Hi : pi_is_rich i = true ∧ st_comm (pi_stat i) = "find" ∧ st_start_time (pi_stat i) = 0).
  { unfold i. destruct (cache_map c !! pid); cbn; by rewrite Hf. }
  destruct Hi as (Hi1 & Hi2 & Hi3). assert (Hl : cache_map c' !! pid = Some i) by (rewrite Hm; apply lookup_insert_eq).
  exists ret, st', c', s', i. split; [done|]. do 3 (split; [done|]). split.
  - intros now alive. rewrite monitor_map, lookup_fmap, Hl. cbn. unfold mark_exited. by rewrite Hi1.
  - intros now Hnow. destruct (keep_map (λ i, negb (rich_expired now i || exited_long_ago now i)) c' Hc') as (_ & Hk & _).
    unfold cleaner_pass. rewrite Hk. apply map_lookup_filter_None_2. right. intros j Hj. rewrite Hl in Hj.
    injection Hj as <-. cbn. unfold rich_expired. rewrite Hi1, Hi3, Z.sub_0_r, wrap_small by (unfold LINX_PROCESS_CACHE_EXPIRE_TIME in *; lia).
    destruct (Z.ltb_spec LINX_PROCESS_CACHE_EXPIRE_TIME now); [done|lia].
Qed.
End events.

(** ** Examples: user 0 is "root", process 1 is not in /proc *)
Definition rich_env : environment :=
  mk_env 1000 (λ _, mk_procfs None None None None None)
    (λ uid, if uid =? 0 then Some (mk_passwd "root" "/root" "/bin/sh") else None).
Definition rich_event (type : Z) (comm : string) : linx_event_t :=
  mk_linx_event 7 1 5000000042 0 type comm "" (replicate 32 8) (mem_block 0 (replicate 128 0)).
Definition rich_time (_ : Z) : string := "2026-01-01 00:00:00".

Lemma rich_env_clean : proc_clean 4096 rich_env.
Proof. intros pid. exists None. reflexivity. Qed.

Lemma rich_event_readable type comm e : g_linx_event_table type = Some e → readable (rich_event type comm) e.
Proof.
  intros He. pose proof (g_linx_event_table_wf _ _ He) as Hwf. pose proof (event_wf_bound _ Hwf) as Hmax.
  split; [done|]. intros j p Hj Hp. destruct (decide (type = LINX_EVENT_TYPE_EXECVE_X)) as [->|Ht].
  - rewrite execve_entry_eq in He. injection He as <-. cbn in Hj.
    assert (j = 0 ∨ j = 1 ∨ j = 2 ∨ j = 3 ∨ j = 4 ∨ j = 5 ∨ j = 6 ∨ j = 7) as Hc by lia.
    destruct_or! Hc; subst j; injection Hp as <-; cbn; done.
  - pose proof (proj1 (plain_event _ _ He Ht) j p Hj Hp) as Ho. by destruct (lp_type p).
Qed.

Lemma admissible_ex type comm : 0 ≤ type < LINX_EVENT_TYPE_MAX → admissible 4096 (rich_env, rich_event type comm).
Proof.
  intros Ht. split; [apply rich_env_clean|]. unfold g_linx_event_table. cbn [snd ev_type rich_event].
  eexists. rewrite decide_True by done. split; [reflexivity|]. apply rich_event_readable. unfold g_linx_event_table.
  by rewrite decide_True.
Qed.

Lemma event_rich_describes_witness :
  ∃ st', linx_event_rich 4096 rich_time (λ _, 0) 1 2 3 4 rich_env (rich_event 119 "bash") rich_initial (Some cache_ex) None
    = Ret [HeapOverflow] (-1, (st', Some cache_ex, None))
    ∧ evt_time (rs_evt st') = "2026-01-01 00:00:00.000000042" ∧ evt_dir (rs_evt st') = "<"
    ∧ slot_describes 4096 rich_env (rich_event 119 "bash") (cache_map cache_ex) LINX_FIELD_TYPE_UID 6 st'.
Proof.
  destruct (event_rich_describes 4096 rich_time (λ _, 0) 1 2 3 4 false rich_env (rich_event 119 "bash") execve_entry
    rich_initial cache_ex None execve_entry_eq (rich_event_readable 119 "bash" _ execve_entry_eq) rich_env_clean
    rich_inv_initial cache_ex_wf ltac:(done)) as (ret & st' & c' & s' & E & [Hn Hty Htime Hdir _ _ _ Hargs] & _).
  exists st'. split; [|split; [exact Htime|split; [exact Hdir|]]].
  - rewrite E. vm_compute in E. injection E as <- <- <- <-. reflexivity.
  - apply (Hargs 6 _ ltac:(cbn; lia) (execve_param 6 _ ltac:(lia) eq_refl)).
Defined.

(** A file is opened and a program started. *)
Lemma openat_execve_invalid_free_witness :
  run_events 4096 rich_time (λ _, 0) 1 2 3 4
    [(rich_env, rich_event 515 "sh"); (rich_env, rich_event 0 "sh"); (rich_env, rich_event 119 "sh")]
    (rich_initial, Some cache_ex, None) = Ub InvalidFree.
Proof.
  apply (openat_execve_invalid_free 4096 rich_time (λ _, 0) 1 2 3 4).
  - repeat constructor; apply admissible_ex; unfold LINX_EVENT_TYPE_MAX; lia.
  - exact cache_ex_wf.
  - exists [], (rich_event 515 "sh"), [rich_event 0 "sh"], (rich_event 119 "sh"), []. repeat split. repeat constructor. discriminate.
Defined.

Lemma rich_entry_expires_witness :
  ∃ ret st' c' s', linx_event_rich 4096 rich_time (λ _, 0) 1 2 3 4 rich_env (rich_event 119 "find") rich_initial
      (Some cache_ex) None = Ret [HeapOverflow] (ret, (st', Some c', s'))
    ∧ is_Some (cache_map c' !! 7) ∧ cache_map (cleaner_pass 1767225600 c') !! 7 = None.
Proof.
  destruct (rich_entry_expires 4096 rich_time (λ _, 0) 1 2 3 4 rich_env (rich_event 119 "find") rich_initial cache_ex None
    eq_refl eq_refl (rich_event_readable 119 "find" _ execve_entry_eq) rich_env_clean rich_inv_initial cache_ex_wf)
    as (ret & st' & c' & s' & i & E & Hi & _ & _ & _ & Hx).
  exists ret, st', c', s'. split; [exact E|]. split; [exists i; exact Hi|]. apply Hx. split; reflexivity.
Defined.
