(* ===== verification/Bpf.v ===== *)
(** * The kernel's side of an event (kernel/ebpf/include)

    A program attached to a system call fills a buffer of its CPU with one
    event and sends it to the ring that user space reads.  This file holds the
    functions the programs share: [get_pt_regs.h], [extract_from_kernel.h] and
    [ringbuf_func.h].  The functions with the prefix [bpf_] are the kernel's and
    the objects of the kernel are what they find, so both are parameters: a
    [kernel] holds the answers they give during one run.

    The headers of src/include are meant: kernel/ebpf/include has older copies
    of [linx_event.h] and [linx_size_define.h] that lack members the functions
    use. *)
From S2P Require Import Prelude CString Memory EventType.

#[local] Open Scope Z_scope.

(** ** Sizes (include/linx_size_define.h) *)
Definition SYSCALL_PARAMS_MAX_COUNT : nat := 32.
Definition LINX_EVENT_MAX_SIZE : Z := 32 * 1024.
Definition LINX_COMM_MAX_SIZE : Z := 16.
Definition LINX_CMDLINE_MAX_SIZE : Z := 128.
Definition LINX_CHARBUF_MAX_SIZE : Z := 4096.

(** [sizeof(linx_event_t)]: seven words of 8 bytes, three of 4, twelve file
    descriptors and their paths, four strings, 32 sizes and the total, with 4
    bytes of padding before the sizes. *)
Definition LINX_EVENT_HEADER_SIZE : Z := 7 * 8 + 3 * 4 + 12 * 4 + 12 * 256 + 16 + 128 + 2 * 256 + 4 + 32 * 8 + 8.

Definition LINX_EVENT_DATA_SIZE : Z := LINX_EVENT_MAX_SIZE - LINX_EVENT_HEADER_SIZE.

(** ** Objects of the kernel

    A pointer that may be null is an option; a member read through a null
    pointer is 0, which is what the helpers leave behind. *)
Record mm_struct := mk_mm {
  mm_total_vm : Z;
  mm_file_pages : Z;
  mm_anon_pages : Z;
  mm_shmem_pages : Z;
  mm_arg_start : Z;
  mm_arg_end : Z
}.

Record tty_driver := mk_driver { drv_major : Z; drv_minor_start : Z }.
Record tty_struct := mk_tty { tty_index : Z; tty_drv : option tty_driver }.

(** The numbers of a process in the name spaces from the outermost in. *)
Record upid := mk_upid { up_nr : Z; up_ns : nat }.
Record pid_struct := mk_pid { pid_level : nat; pid_numbers : list upid }.

Record sock := mk_sock {
  sk_family : Z;
  sk_saddr : Z;
  sk_sport : Z;
  sk_daddr : Z;
  sk_dport : Z
}.

(** The member [private_data] of a file, taken for a socket with its [sk]. *)
Record file := mk_file { f_dev : Z; f_ino : Z; f_private_data : option (option sock) }.

Record task_struct := mk_task {
  t_parent_tgid : option Z;
  t_mm : option mm_struct;
  t_signal_tty : option (option tty_struct);
  t_loginuid : Z;
  t_thread_pid : option pid_struct;
  t_files : option (list (option file));
  t_comm_pointer : Z
}.

Inductive read_memory_t := USER | KERNEL.
Inductive connection_direction_t := OUTBOUND | INBOUND.

(** What the helpers answer during a run.  The string readers yield the bytes
    with their terminator, [None] for a negative code; the level of name
    space of a [pid_namespace] is [k_ns_level]. *)
Record kernel := mk_kernel {
  bpf_get_current_pid_tgid : Z;
  bpf_get_current_uid_gid : Z;
  bpf_ktime_get_boot_ns : Z;
  bpf_get_current_comm : list Z;
  bpf_get_current_task_btf : task_struct;
  bpf_probe_read : read_memory_t → Z → nat → option (list Z);
  bpf_probe_read_str : read_memory_t → Z → Z → option (list Z);
  k_ns_level : nat → nat;
  bpf_ringbuf_output : bool;   (* there is room in the ring *)
  g_boot_time : Z
}.

(** The laws of the readers: as many bytes as asked for, and a string that
    ends with its only NUL within the limit. *)
Record kernel_ok (k : kernel) : Prop := {
  ko_read m a n bs : bpf_probe_read k m a n = Some bs → length bs = n;
  ko_read_bytes m a n bs : bpf_probe_read k m a n = Some bs → Forall (λ b, 0 ≤ b < 256) bs;
  ko_str m a lim bs : bpf_probe_read_str k m a lim = Some bs → Z.of_nat (length bs) ≤ Z.max 0 lim;
  ko_str_bytes m a lim bs : bpf_probe_read_str k m a lim = Some bs → Forall (λ b, 0 ≤ b < 256) bs;
  ko_str_nul m a lim bs : bpf_probe_read_str k m a lim = Some bs → bs ≠ [] →
    ∃ s, bs = s ++ [0] ∧ Forall (λ b, b ≠ 0) s
}.

Record pt_regs := mk_regs { r_args : list Z; r_orig_ax : Z }.

(** ** get_pt_regs.h *)
Definition get_pt_regs_argumnet (regs : pt_regs) (idx : Z) : Z :=
  if (0 <=? idx) && (idx <? 6) then default 0 (r_args regs !! Z.to_nat idx) else 0.

Definition get_syscall_id (regs : pt_regs) : Z := r_orig_ax regs.

(** ** extract_from_kernel.h *)
Definition MINORBITS : Z := 20.
Definition MAJOR (dev : Z) : Z := wrap 32 (Z.shiftr dev MINORBITS).
Definition MINOR (dev : Z) : Z := Z.land dev (2 ^ MINORBITS - 1).
Definition MKDEV (ma mi : Z) : Z := Z.lor (Z.shiftl ma MINORBITS) mi.

Definition encode_dev (dev : Z) : Z :=
  let major := MAJOR dev in
  let minor := MINOR dev in
  wrap 32 (Z.lor (Z.lor (Z.land minor 255) (wrap 32 (Z.shiftl major 8)))
             (wrap 32 (Z.shiftl (Z.land minor (2 ^ 32 - 1 - 255)) 12))).

(** [IOC_PAGE_SHIFT] of the generated vmlinux.h, on x86. *)
Definition IOC_PAGE_SHIFT : Z := 12.
Definition PAGE_SHIFT (pages : Z) : Z := wrap 64 (Z.shiftl pages (IOC_PAGE_SHIFT - 10)).

Definition extract__vm_size (mm : option mm_struct) : Z := PAGE_SHIFT (from_option mm_total_vm 0 mm).

Definition extract__vm_rss (mm : option mm_struct) : Z :=
  PAGE_SHIFT (from_option mm_file_pages 0 mm + from_option mm_anon_pages 0 mm + from_option mm_shmem_pages 0 mm).

Definition extract__tty (task : task_struct) : Z :=
  match t_signal_tty task with
  | Some (Some tty) =>
      match tty_drv tty with
      | Some driver => encode_dev (wrap 32 (MKDEV (drv_major driver) (drv_minor_start driver) + tty_index tty))
      | None => 0
      end
  | _ => 0
  end.

Definition extract__loginuid (task : task_struct) : Z := t_loginuid task.

Definition extract__task_pid_struct (task : task_struct) : option pid_struct := t_thread_pid task.

Definition extract__namespace_of_pid (pid : option pid_struct) : option nat :=
  match pid with Some p => up_ns <$> pid_numbers p !! pid_level p | None => None end.

(** The level of a null name space reads as 0. *)
Definition extract__xid_nr_seen_by_namespace (k : kernel) (pid : option pid_struct) (ns : option nat) : Z :=
  let ns_level := from_option (k_ns_level k) 0%nat ns in
  match pid with
  | Some p =>
      if (ns_level <=? pid_level p)%nat then
        match pid_numbers p !! ns_level with
        | Some u => if bool_decide (Some (up_ns u) = ns) then up_nr u else 0
        | None => 0
        end
      else 0
  | None => 0
  end.

Definition extract__task_xid_vnr (k : kernel) (task : task_struct) : Z :=
  let pid := extract__task_pid_struct task in
  extract__xid_nr_seen_by_namespace k pid (extract__namespace_of_pid pid).

Definition extract__network_args (num : nat) (regs : pt_regs) : list Z :=
  (λ i, get_pt_regs_argumnet regs (Z.of_nat i)) <$> seq 0 num.

Definition extract__file_struct_from_fd (k : kernel) (fd : Z) : option file :=
  if 0 <=? fd then
    match t_files (bpf_get_current_task_btf k) with
    | None => None
    | Some fds => if Z.of_nat (length fds) <=? fd then None else default None (fds !! Z.to_nat fd)
    end
  else None.

Definition get_sock_from_file (f : option file) : option (option sock) :=
  match f with None => None | Some f => f_private_data f end.

(** The device and the inode number of an open file; both stay 0 without. *)
Definition extract__dev_ino_overlay_from_fd (k : kernel) (fd : Z) : Z * Z :=
  match extract__file_struct_from_fd k fd with
  | None => (0, 0)
  | Some f => (encode_dev (f_dev f), f_ino f)
  end.
