(* ===== verification/Ringbuf.v ===== *)
(** * Filling and sending an event (kernel/ebpf/include/ringbuf_func.h)

    [linx_ringbuf_t] is the buffer of a CPU: an array of twice the size of an
    event, the number of parameters stored and the position of the next byte.
    The event's header lies at the start of the array; the model keeps it as a
    record and the bytes behind it as a memory.  The members the programs never
    set (nparams, nfds, fds, fd_path, the paths) are left out.

    A store writes at the position masked to the size of an event.  A write
    that would meet the header or leave the array is [OutOfBounds]; the
    theorems show which programs stay clear of both. *)
From S2P Require Import Prelude CString Memory EventType Bpf.

#[local] Open Scope Z_scope.

(** ** Data (include/linx_event.h, struct_define.h) *)
Record event_header := mk_header {
  eh_tid : Z;
  eh_pid : Z;
  eh_ppid : Z;
  eh_uid : Z;
  eh_gid : Z;
  eh_time : Z;
  eh_res : Z;
  eh_type : Z;
  eh_comm : list Z;
  eh_cmdline : list Z;
  eh_params_size : list Z;
  eh_size : Z
}.

Record linx_ringbuf_t := mk_ringbuf {
  rb_event : event_header;
  rb_data : memory;
  rb_index : Z;
  rb_payload_pos : Z;
  rb_reserved_event_size : Z
}.

Definition with_header (f : event_header → event_header) (rb : linx_ringbuf_t) : linx_ringbuf_t :=
  mk_ringbuf (f (rb_event rb)) (rb_data rb) (rb_index rb) (rb_payload_pos rb) (rb_reserved_event_size rb).

Definition with_data (d : memory) (rb : linx_ringbuf_t) : linx_ringbuf_t :=
  mk_ringbuf (rb_event rb) d (rb_index rb) (rb_payload_pos rb) (rb_reserved_event_size rb).

Definition advance (n : Z) (rb : linx_ringbuf_t) : linx_ringbuf_t :=
  mk_ringbuf (rb_event rb) (rb_data rb) (rb_index rb) (wrap 64 (rb_payload_pos rb + n)) (rb_reserved_event_size rb).

Definition set_params_size (l : list Z) (h : event_header) : event_header :=
  mk_header (eh_tid h) (eh_pid h) (eh_ppid h) (eh_uid h) (eh_gid h) (eh_time h) (eh_res h) (eh_type h) (eh_comm h)
    (eh_cmdline h) l (eh_size h).

Definition set_size (n : Z) (h : event_header) : event_header :=
  mk_header (eh_tid h) (eh_pid h) (eh_ppid h) (eh_uid h) (eh_gid h) (eh_time h) (eh_res h) (eh_type h) (eh_comm h)
    (eh_cmdline h) (eh_params_size h) n.

(** ** Writing *)
Definition SAFE_ACCESS (x : Z) : Z := Z.land x (LINX_EVENT_MAX_SIZE - 1).

Definition write_at (a : Z) (bs : list Z) (rb : linx_ringbuf_t) : outcome linx_ringbuf_t :=
  if (LINX_EVENT_HEADER_SIZE <=? a) && (a + Z.of_nat (length bs) <=? LINX_EVENT_MAX_SIZE * 2)
  then mret (with_data (write_bytes (rb_data rb) a bs) rb) else Ub OutOfBounds.

(** [PUSH_FIXDE_VALUE_TO_RINGBUF]: [n] bytes of a value. *)
Definition push_fixed_value (n : nat) (value : Z) (rb : linx_ringbuf_t) : outcome linx_ringbuf_t :=
  rb ← write_at (SAFE_ACCESS (rb_payload_pos rb)) (le_split n value) rb;
  mret (advance (Z.of_nat n) rb).

(** [PUSH_FIXED_SIZE_TO_RINGBUF]: [params_size[index++] = size], with an index
    of 8 bits. *)
Definition push_fixed_size (size : Z) (rb : linx_ringbuf_t) : outcome linx_ringbuf_t :=
  if rb_index rb <? Z.of_nat SYSCALL_PARAMS_MAX_COUNT then
    mret (mk_ringbuf (set_params_size (<[Z.to_nat (rb_index rb) := size]> (eh_params_size (rb_event rb))) (rb_event rb))
            (rb_data rb) (wrap 8 (rb_index rb + 1)) (rb_payload_pos rb) (rb_reserved_event_size rb))
  else Ub OutOfBounds.

(** [PUSH_FIXED_VALUE_AND_SIZE_TO_RINGBUF]: the eight stores of integers. *)
Definition linx_ringbuf_store_fixed (n : nat) (value : Z) (rb : linx_ringbuf_t) : outcome linx_ringbuf_t :=
  rb ← push_fixed_value n value rb; push_fixed_size (Z.of_nat n) rb.

Definition linx_ringbuf_store_empty (rb : linx_ringbuf_t) : outcome linx_ringbuf_t := push_fixed_size 0 rb.

Definition linx_push_previous_character (c : Z) (rb : linx_ringbuf_t) : outcome linx_ringbuf_t :=
  write_at (SAFE_ACCESS (wrap 64 (rb_payload_pos rb - 1))) [c] rb.

Section stores.
Context (k : kernel).

(** The number of bytes written; a failure of the reader writes nothing behind
    the position. *)
Definition linx_push_charpointer (charpointer limit : Z) (mem : read_memory_t) (rb : linx_ringbuf_t)
    : outcome (Z * linx_ringbuf_t) :=
  match bpf_probe_read_str k mem charpointer limit with
  | None => mret (0, rb)
  | Some bs =>
      let bs := if (length bs =? 0)%nat then [0] else bs in
      rb ← write_at (SAFE_ACCESS (rb_payload_pos rb)) bs rb;
      mret (wrap 16 (Z.of_nat (length bs)), advance (Z.of_nat (length bs)) rb)
  end.

Definition linx_push_bytebuf (pointer len_to_read : Z) (mem : read_memory_t) (rb : linx_ringbuf_t)
    : outcome (Z * linx_ringbuf_t) :=
  match bpf_probe_read k mem pointer (Z.to_nat len_to_read) with
  | None => mret (0, rb)
  | Some bs =>
      rb ← write_at (SAFE_ACCESS (rb_payload_pos rb)) bs rb;
      mret (len_to_read, advance len_to_read rb)
  end.

Definition linx_ringbuf_store_charpointer (charpointer len_to_read : Z) (mem : read_memory_t) (rb : linx_ringbuf_t)
    : outcome linx_ringbuf_t :=
  '(len, rb) ← (if negb (charpointer =? 0) then linx_push_charpointer charpointer len_to_read mem rb else mret (0, rb));
  push_fixed_size len rb.

(** [len_to_read] has 16 bits. *)
Definition linx_ringbuf_store_bytebuf (pointer len_to_read : Z) (mem : read_memory_t) (rb : linx_ringbuf_t)
    : outcome (Z * linx_ringbuf_t) :=
  '(len, rb) ← (if negb (pointer =? 0) && (0 <? len_to_read) then linx_push_bytebuf pointer len_to_read mem rb
                else mret (0, rb));
  rb ← push_fixed_size len rb; mret (len, rb).

Definition linx_ringbuf_store_charbufarray_as_bytebuf (start_pointer len_to_read max_len : Z) (rb : linx_ringbuf_t)
    : outcome linx_ringbuf_t :=
  let len_to_read := if max_len <=? len_to_read then max_len else len_to_read in
  '(len, rb) ← linx_ringbuf_store_bytebuf start_pointer len_to_read USER rb;
  if 0 <? len then linx_push_previous_character 0 rb else mret rb.

Definition AF_INET : Z := 2.
Definition ntohs (x : Z) : Z := wrap 16 (Z.lor (Z.shiftl x 8) (Z.shiftr x 8)).

(** A socket without a peer and with an address of user space: 16 bytes are
    read over a pointer variable, which is then followed. *)
Definition linx_ringbuf_store_socktuple (socket_fd : Z) (direction : connection_direction_t) (usrsockaddr : Z)
    (rb : linx_ringbuf_t) : outcome linx_ringbuf_t :=
  match get_sock_from_file (extract__file_struct_from_fd k (sext 32 socket_fd)) with
  | None | Some None => linx_ringbuf_store_empty rb
  | Some (Some sk) =>
      if sk_family sk =? AF_INET then
        if (sk_dport sk =? 0) && negb (usrsockaddr =? 0) then Ub BadAddress
        else
          let '(a1, p1, a2, p2) :=
            match direction with
            | OUTBOUND => (sk_saddr sk, sk_sport sk, sk_daddr sk, sk_dport sk)
            | INBOUND => (sk_daddr sk, sk_dport sk, sk_saddr sk, sk_sport sk)
            end in
          rb ← push_fixed_value 1 (sk_family sk) rb;
          rb ← push_fixed_value 4 a1 rb;
          rb ← push_fixed_value 2 (ntohs p1) rb;
          rb ← push_fixed_value 4 a2 rb;
          rb ← push_fixed_value 2 (ntohs p2) rb;
          push_fixed_size (1 + 4 * 2 + 2 * 2) rb
      else push_fixed_size 0 rb
  end.

(** ** The programs

    What a program stores, in order: the calls of the functions above. *)
Inductive param :=
  | StoreFixed (n : nat) (value : Z)
  | StoreEmpty
  | StoreCharpointer (charpointer len : Z) (mem : read_memory_t)
  | StoreBytebuf (pointer len : Z) (mem : read_memory_t)
  | StoreCharbufarray (start_pointer len max_len : Z)
  | StoreSocktuple (socket_fd : Z) (direction : connection_direction_t) (usrsockaddr : Z).

Definition store (p : param) (rb : linx_ringbuf_t) : outcome linx_ringbuf_t :=
  match p with
  | StoreFixed n v => linx_ringbuf_store_fixed n v rb
  | StoreEmpty => linx_ringbuf_store_empty rb
  | StoreCharpointer a n m => linx_ringbuf_store_charpointer a n m rb
  | StoreBytebuf a n m => '(_, rb) ← linx_ringbuf_store_bytebuf a (wrap 16 n) m rb; mret rb
  | StoreCharbufarray a n max => linx_ringbuf_store_charbufarray_as_bytebuf a (wrap 16 n) max rb
  | StoreSocktuple fd d a => linx_ringbuf_store_socktuple fd d a rb
  end.

Fixpoint store_all (ps : list param) (rb : linx_ringbuf_t) : outcome linx_ringbuf_t :=
  match ps with
  | [] => mret rb
  | p :: ps => rb ← store p rb; store_all ps rb
  end.

(** [linx_get_process_cmdline]: the buffer keeps what it held when there is no
    text or more than 127 bytes. *)
Definition linx_get_process_cmdline (task : task_struct) (cmdline : list Z) : list Z :=
  match t_mm task with
  | None => cmdline
  | Some mm =>
      let len := wrap 64 (mm_arg_end mm - mm_arg_start mm) in
      if (len <=? 0) || (LINX_CMDLINE_MAX_SIZE - 1 <? len) then cmdline
      else
        let n := Z.to_nat len in
        let text := default (replicate n 0) (bpf_probe_read k USER (mm_arg_start mm) n) in
        <[(n - 1)%nat := 0]> ((λ b, if b =? 0 then 32 else b) <$> text) ++ drop n cmdline
  end.

Definition linx_get_ppid (task : task_struct) : Z := from_option (wrap 32) 0 (t_parent_tgid task).

Definition linx_ringbuf_load_event (type res : Z) (rb : linx_ringbuf_t) : linx_ringbuf_t :=
  let task := bpf_get_current_task_btf k in
  let tg_pid := bpf_get_current_pid_tgid k in
  let uid_gid := bpf_get_current_uid_gid k in
  mk_ringbuf
    (mk_header (Z.shiftr tg_pid 32) (wrap 32 tg_pid) (linx_get_ppid task) (wrap 32 uid_gid) (Z.shiftr uid_gid 32)
       (wrap 64 (g_boot_time k + bpf_ktime_get_boot_ns k)) (wrap 64 res) type (bpf_get_current_comm k)
       (linx_get_process_cmdline task (eh_cmdline (rb_event rb))) (eh_params_size (rb_event rb)) 0)
    (rb_data rb) 0 LINX_EVENT_HEADER_SIZE LINX_EVENT_MAX_SIZE.

(** What is sent, when something is: the header and the bytes below the
    position. *)
Definition linx_ringbuf_submit_event (rb : linx_ringbuf_t) : linx_ringbuf_t * option linx_ringbuf_t :=
  if LINX_EVENT_MAX_SIZE <? rb_payload_pos rb then (rb, None)
  else
    let rb := with_header (set_size (rb_payload_pos rb)) rb in
    (rb, if bpf_ringbuf_output k then Some rb else None).
End stores.

(** The body of a program: the type and the result it loads, and its stores.
    [ret] is the last argument of the program. *)
Record program_body := mk_body { pb_type : Z; pb_res : Z; pb_params : list param }.

Abbreviation program := (kernel → pt_regs → Z → program_body).

Definition run_program (p : program) (k : kernel) (regs : pt_regs) (ret : Z) (rb : linx_ringbuf_t)
    : outcome (linx_ringbuf_t * option linx_ringbuf_t) :=
  let b := p k regs ret in
  rb ← store_all k (pb_params b) (linx_ringbuf_load_event k (pb_type b) (pb_res b) rb);
  mret (linx_ringbuf_submit_event k rb).

(** ** The language of the programs *)
Definition int32 (v : Z) : Z := sext 32 v.
Definition int64 (v : Z) : Z := sext 64 v.
Definition uint16 (v : Z) : Z := wrap 16 v.
Definition uint32 (v : Z) : Z := wrap 32 v.
Definition uint64 (v : Z) : Z := wrap 64 v.

(** [T x = 0; if (p) bpf_probe_read_user(&x, sizeof(x), p);] *)
Definition user_value (n : nat) (k : kernel) (p : Z) : Z :=
  if p =? 0 then 0 else from_option (foldr (λ b v, b + 256 * v) 0) 0 (bpf_probe_read k USER p n).
Definition user_int32 k p : Z := sext 32 (user_value 4 k p).
Definition user_uint32 k p : Z := user_value 4 k p.
Definition user_int64 k p : Z := sext 64 (user_value 8 k p).
Definition user_uint64 k p : Z := user_value 8 k p.

Definition store_charpointer (charpointer len_to_read : Z) (mem : read_memory_t) : param :=
  StoreCharpointer charpointer (uint16 len_to_read) mem.
Definition store_s32 (v : Z) : param := StoreFixed 4 v.
Definition store_u32 (v : Z) : param := StoreFixed 4 v.
Definition store_s64 (v : Z) : param := StoreFixed 8 v.
Definition store_u64 (v : Z) : param := StoreFixed 8 v.
Definition store_u16 (v : Z) : param := StoreFixed 2 v.

(** ** What a store adds

    The bytes of a parameter, the most there can be, and the sockets whose
    address can be stored. *)
Section bytes.
Context (k : kernel).

Definition charbuf_len (n max : Z) : Z := if max <=? wrap 16 n then max else wrap 16 n.

Definition bytebuf_bytes (a n : Z) (m : read_memory_t) : list Z :=
  if negb (a =? 0) && (0 <? n) then default [] (bpf_probe_read k m a (Z.to_nat n)) else [].

Definition terminated (bs : list Z) : list Z :=
  match bs with [] => [] | _ => take (length bs - 1) bs ++ [0] end.

(** Family, address and port of one side, address and port of the other. *)
Definition tuple_bytes (d : connection_direction_t) (sk : sock) : list Z :=
  let local := le_split 4 (sk_saddr sk) ++ le_split 2 (ntohs (sk_sport sk)) in
  let remote := le_split 4 (sk_daddr sk) ++ le_split 2 (ntohs (sk_dport sk)) in
  le_split 1 (sk_family sk) ++ match d with OUTBOUND => local ++ remote | INBOUND => remote ++ local end.

Definition socket_of (fd : Z) : option sock := default None (get_sock_from_file (extract__file_struct_from_fd k (sext 32 fd))).

Definition param_bytes (p : param) : list Z :=
  match p with
  | StoreFixed n v => le_split n v
  | StoreEmpty => []
  | StoreCharpointer a n m =>
      if a =? 0 then []
      else match bpf_probe_read_str k m a n with None => [] | Some [] => [0] | Some bs => bs end
  | StoreBytebuf a n m => bytebuf_bytes a (wrap 16 n) m
  | StoreCharbufarray a n max => terminated (bytebuf_bytes a (charbuf_len n max) USER)
  | StoreSocktuple fd d _ =>
      match socket_of fd with Some sk => if sk_family sk =? AF_INET then tuple_bytes d sk else [] | None => [] end
  end.

Definition param_max (p : param) : Z :=
  match p with
  | StoreFixed n _ => Z.of_nat n
  | StoreEmpty => 0
  | StoreCharpointer _ n _ => Z.max 1 n
  | StoreBytebuf _ n _ => wrap 16 n
  | StoreCharbufarray _ _ max => Z.max 0 max
  | StoreSocktuple _ _ _ => 13
  end.

Definition params_max (ps : list param) : Z := foldr (λ p n, param_max p + n) 0 ps.

(** The socket has a peer, or there is no address to follow. *)
Definition param_safe (p : param) : bool :=
  match p with
  | StoreSocktuple fd _ a =>
      match socket_of fd with
      | Some sk => negb ((sk_family sk =? AF_INET) && (sk_dport sk =? 0) && negb (a =? 0))
      | None => true
      end
  | _ => true
  end.
End bytes.

(** The buffer with one parameter more. *)
Definition put (bs : list Z) (rb : linx_ringbuf_t) : linx_ringbuf_t :=
  mk_ringbuf
    (set_params_size (<[Z.to_nat (rb_index rb) := Z.of_nat (length bs)]> (eh_params_size (rb_event rb))) (rb_event rb))
    (write_bytes (rb_data rb) (rb_payload_pos rb) bs) (rb_index rb + 1) (rb_payload_pos rb + Z.of_nat (length bs))
    (rb_reserved_event_size rb).

Definition put_all (bss : list (list Z)) (rb : linx_ringbuf_t) : linx_ringbuf_t := foldl (λ rb bs, put bs rb) rb bss.

(** Position and index are where the next parameter of at most [n] bytes
    can go. *)
Definition room (n : Z) (rb : linx_ringbuf_t) : Prop :=
  LINX_EVENT_HEADER_SIZE ≤ rb_payload_pos rb ∧ rb_payload_pos rb + n < LINX_EVENT_MAX_SIZE
  ∧ 0 ≤ rb_index rb < 32.

(** ** Lemmas *)
Lemma bytes_at_ext m m' a bs :
  (∀ i, a ≤ i < a + Z.of_nat (length bs) → m' !! i = m !! i) → bytes_at m a bs → bytes_at m' a bs.
Proof.
  revert a. induction bs as [|b bs IH]; intros a Hm; cbn [bytes_at length] in *; [done|].
  intros [Hb Hl]. split; [rewrite Hm by lia; done|]. apply IH; [|done]. intros i Hi. apply Hm. lia.
Qed.

Lemma write_bytes_last m a bs :
  bs ≠ [] →
  <[a + Z.of_nat (length bs) - 1 := 0]> (write_bytes m a bs) = write_bytes m a (terminated bs).
Proof.
  intros Hne. destruct bs as [|b bs] using rev_ind; [done|]. clear Hne IHbs.
  unfold terminated. destruct (bs ++ [b]) eqn:E; [by destruct bs|]. rewrite <- E. clear E.
  rewrite length_app. cbn [length]. replace (length bs + 1 - 1)%nat with (length bs) by lia.
  rewrite take_app_length, !write_bytes_app. cbn [write_bytes].
  replace (a + Z.of_nat (length bs + 1) - 1) with (a + Z.of_nat (length bs)) by lia. by rewrite insert_insert_eq.
Qed.

Lemma terminated_length bs : length (terminated bs) = length bs.
Proof.
  destruct bs as [|b bs]; [done|]. unfold terminated. rewrite length_app, length_take. cbn [length]. lia.
Qed.

Lemma safe_access x : 0 ≤ x < LINX_EVENT_MAX_SIZE → SAFE_ACCESS x = x.
Proof.
  intros Hx. unfold SAFE_ACCESS. change (LINX_EVENT_MAX_SIZE - 1) with (Z.ones 15). rewrite Z.land_ones by lia.
  apply Z.mod_small. exact Hx.
Qed.

Lemma write_at_ok a bs rb :
  LINX_EVENT_HEADER_SIZE ≤ a → a + Z.of_nat (length bs) ≤ LINX_EVENT_MAX_SIZE * 2 →
  write_at a bs rb = Ret [] (with_data (write_bytes (rb_data rb) a bs) rb).
Proof. intros H1 H2. unfold write_at. apply Z.leb_le in H1, H2. by rewrite H1, H2. Qed.

Lemma advance_small n rb :
  0 ≤ rb_payload_pos rb + n < 2 ^ 64 →
  advance n rb = mk_ringbuf (rb_event rb) (rb_data rb) (rb_index rb) (rb_payload_pos rb + n) (rb_reserved_event_size rb).
Proof. intros H. unfold advance. by rewrite wrap_small. Qed.

(** Bytes written at the position, and the position behind them. *)
Definition pushed (bs : list Z) (rb : linx_ringbuf_t) : linx_ringbuf_t :=
  mk_ringbuf (rb_event rb) (write_bytes (rb_data rb) (rb_payload_pos rb) bs) (rb_index rb)
    (rb_payload_pos rb + Z.of_nat (length bs)) (rb_reserved_event_size rb).

Lemma header_size_eq : LINX_EVENT_HEADER_SIZE = 4112. Proof. reflexivity. Qed.
Lemma max_size_eq : LINX_EVENT_MAX_SIZE = 32768. Proof. reflexivity. Qed.

Ltac size_lia := rewrite ?header_size_eq, ?max_size_eq in *; lia.

Lemma write_at_room bs rb :
  room (Z.of_nat (length bs)) rb →
  write_at (SAFE_ACCESS (rb_payload_pos rb)) bs rb
  = Ret [] (with_data (write_bytes (rb_data rb) (rb_payload_pos rb) bs) rb).
Proof. intros (H1 & H2 & H3). rewrite safe_access by size_lia. apply write_at_ok; size_lia. Qed.

Lemma advance_pushed bs rb :
  room (Z.of_nat (length bs)) rb →
  advance (Z.of_nat (length bs)) (with_data (write_bytes (rb_data rb) (rb_payload_pos rb) bs) rb) = pushed bs rb.
Proof.
  intros (H1 & H2 & H3).
  rewrite advance_small by (cbn [with_data rb_payload_pos]; change (2 ^ 64) with 18446744073709551616; size_lia). done.
Qed.

Lemma push_fixed_value_ok n v rb : room (Z.of_nat n) rb → push_fixed_value n v rb = Ret [] (pushed (le_split n v) rb).
Proof.
  intros H. unfold push_fixed_value. rewrite write_at_room by (by rewrite le_split_length). rewrite bind_Ret_nil.
  by rewrite <- (advance_pushed (le_split n v)), le_split_length by (by rewrite le_split_length).
Qed.

Lemma push_fixed_size_ok s rb :
  0 ≤ rb_index rb < 32 →
  push_fixed_size s rb = Ret [] (mk_ringbuf
    (set_params_size (<[Z.to_nat (rb_index rb) := s]> (eh_params_size (rb_event rb))) (rb_event rb))
    (rb_data rb) (rb_index rb + 1) (rb_payload_pos rb) (rb_reserved_event_size rb)).
Proof.
  intros Hi. unfold push_fixed_size. destruct (Z.ltb_spec (rb_index rb) (Z.of_nat SYSCALL_PARAMS_MAX_COUNT)) as [_|H].
  - rewrite (wrap_small 8) by lia. done.
  - unfold SYSCALL_PARAMS_MAX_COUNT in H. lia.
Qed.

Lemma pushed_put bs rb : 0 ≤ rb_index rb < 32 → push_fixed_size (Z.of_nat (length bs)) (pushed bs rb) = Ret [] (put bs rb).
Proof. intros Hi. by rewrite push_fixed_size_ok. Qed.

Lemma pushed_nil rb : pushed [] rb = rb.
Proof. destruct rb. unfold pushed. cbn. by rewrite Z.add_0_r. Qed.

Lemma put_nil_size rb : 0 ≤ rb_index rb < 32 → push_fixed_size 0 rb = Ret [] (put [] rb).
Proof. intros Hi. rewrite <- (pushed_nil rb) at 1. by apply (pushed_put []). Qed.

Lemma pushed_app l1 l2 rb : pushed l2 (pushed l1 rb) = pushed (l1 ++ l2) rb.
Proof. unfold pushed. cbn. rewrite write_bytes_app, length_app, Nat2Z.inj_add. f_equal. lia. Qed.

Lemma room_pushed n bs rb : room (Z.of_nat (length bs) + n) rb → room n (pushed bs rb).
Proof. unfold room, pushed. cbn. lia. Qed.

Lemma room_le n n' rb : n' ≤ n → room n rb → room n' rb.
Proof. unfold room. lia. Qed.

Lemma room_put n bs rb :
  rb_index rb < 31 → room (Z.of_nat (length bs) + n) rb → room n (put bs rb).
Proof. unfold room, put. cbn. lia. Qed.

Section store_facts.
Context (k : kernel) (Hk : kernel_ok k).

Lemma charbuf_len_max n max : charbuf_len n max ≤ Z.max 0 max.
Proof. unfold charbuf_len. destruct (Z.leb_spec max (wrap 16 n)); lia. Qed.

Lemma bytebuf_bytes_length a n m :
  bytebuf_bytes k a n m = [] ∨ 0 < n ∧ Z.of_nat (length (bytebuf_bytes k a n m)) = n ∧ negb (a =? 0) = true
  ∧ bpf_probe_read k m a (Z.to_nat n) = Some (bytebuf_bytes k a n m).
Proof.
  unfold bytebuf_bytes. destruct (negb (a =? 0)); [|by left]. destruct (Z.ltb_spec 0 n); [|by left].
  cbn [andb]. destruct (bpf_probe_read k m a (Z.to_nat n)) as [bs|] eqn:E; [|by left]. cbn.
  right. pose proof (ko_read k Hk _ _ _ _ E). repeat split; [done|lia].
Qed.

Lemma tuple_bytes_length d sk : length (tuple_bytes d sk) = 13%nat.
Proof. destruct d; cbn; by rewrite ?le_split_length. Qed.

Lemma param_bytes_max p : Z.of_nat (length (param_bytes k p)) ≤ param_max p.
Proof.
  pose proof (λ n, wrap_range 16 n ltac:(lia)) as Hw.
  destruct p as [n v| |a n m|a n m|a n max|fd d a]; cbn [param_bytes param_max].
  - by rewrite le_split_length.
  - done.
  - destruct (a =? 0); [cbn; lia|]. destruct (bpf_probe_read_str k m a n) as [[|b bs]|] eqn:E; [cbn; lia| |cbn; lia].
    apply (ko_str k Hk) in E. lia.
  - specialize (Hw n). destruct (bytebuf_bytes_length a (wrap 16 n) m) as [->|(_ & H & _)]; cbn; lia.
  - rewrite terminated_length. pose proof (charbuf_len_max n max).
    destruct (bytebuf_bytes_length a (charbuf_len n max) USER) as [->|(_ & H' & _)]; cbn; lia.
  - destruct (socket_of k fd) as [sk|]; [|done]. destruct (sk_family sk =? AF_INET); [|done].
    by rewrite tuple_bytes_length.
Qed.

Lemma param_max_nonneg p : 0 ≤ param_max p.
Proof. pose proof (param_bytes_max p). lia. Qed.

Lemma params_max_nonneg ps : 0 ≤ params_max ps.
Proof. unfold params_max. induction ps as [|p ps IH]; cbn; [done|]. pose proof (param_max_nonneg p). lia. Qed.

Lemma bytebuf_ok a n m rb :
  room (Z.max 0 n) rb →
  linx_ringbuf_store_bytebuf k a n m rb
  = Ret [] (Z.of_nat (length (bytebuf_bytes k a n m)), put (bytebuf_bytes k a n m) rb).
Proof.
  intros Hr. pose proof Hr as (_ & _ & Hi). unfold linx_ringbuf_store_bytebuf.
  destruct (bytebuf_bytes_length a n m) as [E|(Hn & Hl & Ha & Hb)].
  - assert ((if negb (a =? 0) && (0 <? n) then linx_push_bytebuf k a n m rb else mret (0, rb)) = Ret [] (0, rb)) as ->.
    { revert E. unfold bytebuf_bytes, linx_push_bytebuf. destruct (negb (a =? 0)); [|done].
      destruct (Z.ltb_spec 0 n) as [Hn|]; [|done]. cbn [andb].
      destruct (bpf_probe_read k m a (Z.to_nat n)) as [bs|] eqn:E'; [|done]. cbn. intros ->.
      apply (ko_read k Hk) in E'. cbn in E'. lia. }
    rewrite bind_Ret_nil, put_nil_size by done. by rewrite E.
  - rewrite Ha. destruct (Z.ltb_spec 0 n) as [_|]; [|lia]. cbn [andb]. unfold linx_push_bytebuf. rewrite Hb.
    assert (room (Z.of_nat (length (bytebuf_bytes k a n m))) rb) as Hr' by (eapply room_le; [|done]; lia).
    rewrite write_at_room by done. rewrite !bind_Ret_nil. rewrite <- Hl at 2. rewrite advance_pushed by done.
    rewrite bind_ret_l, <- Hl at 1. rewrite pushed_put by done. by rewrite Hl, bind_Ret_nil.
Qed.

Lemma charpointer_ok a n m rb :
  room (Z.max 1 n) rb →
  linx_ringbuf_store_charpointer k a n m rb = Ret [] (put (param_bytes k (StoreCharpointer a n m)) rb).
Proof.
  intros Hr. pose proof Hr as (H1 & H2 & Hi). unfold linx_ringbuf_store_charpointer. cbn [param_bytes].
  destruct (a =? 0); cbn [negb]; [rewrite bind_ret_l; by apply put_nil_size|]. unfold linx_push_charpointer.
  destruct (bpf_probe_read_str k m a n) as [bs|] eqn:E; [|rewrite bind_ret_l; by apply put_nil_size].
  set (text := if (length bs =? 0)%nat then [0] else bs).
  replace (match bs with [] => [0] | _ => bs end) with text by (by destruct bs).
  assert (0 < Z.of_nat (length text) ≤ Z.max 1 n) as Ht.
  { apply (ko_str k Hk) in E. subst text. destruct bs; cbn in *; lia. }
  pose proof (room_le _ _ _ (proj2 Ht) Hr) as Hr'.
  rewrite write_at_room by done. rewrite !bind_Ret_nil. rewrite advance_pushed by done. rewrite bind_ret_l.
  rewrite wrap_small by size_lia. by apply pushed_put.
Qed.

Lemma charbufarray_ok a n max rb :
  room (Z.max 0 max) rb →
  linx_ringbuf_store_charbufarray_as_bytebuf k a (wrap 16 n) max rb
  = Ret [] (put (param_bytes k (StoreCharbufarray a n max)) rb).
Proof.
  intros Hr. pose proof Hr as (H1 & H2 & Hi). unfold linx_ringbuf_store_charbufarray_as_bytebuf. cbn [param_bytes].
  fold (charbuf_len n max). pose proof (charbuf_len_max n max) as Hc. rewrite bytebuf_ok by (eapply room_le; [|done]; lia).
  rewrite bind_Ret_nil. destruct (bytebuf_bytes_length a (charbuf_len n max) USER) as [->|(Hn & Hl & _)]; [done|].
  set (bs := bytebuf_bytes k a (charbuf_len n max) USER) in *.
  destruct (Z.ltb_spec 0 (Z.of_nat (length bs))) as [_|]; [|lia].
  unfold linx_push_previous_character. cbn [put rb_payload_pos].
  rewrite (wrap_small 64) by (change (2 ^ 64) with 18446744073709551616; size_lia).
  rewrite safe_access by size_lia. rewrite write_at_ok by (cbn [length]; size_lia).
  unfold put, with_data. cbn [rb_data write_bytes rb_event rb_index rb_payload_pos rb_reserved_event_size].
  rewrite terminated_length. rewrite write_bytes_last by (intros ->; cbn in Hl; lia). done.
Qed.

Lemma socktuple_ok fd d a rb :
  room 13 rb → param_safe k (StoreSocktuple fd d a) = true →
  linx_ringbuf_store_socktuple k fd d a rb = Ret [] (put (param_bytes k (StoreSocktuple fd d a)) rb).
Proof.
  intros Hr Hs. pose proof Hr as (_ & _ & Hi). unfold linx_ringbuf_store_socktuple. cbn [param_bytes param_safe] in *.
  unfold socket_of in *. destruct (get_sock_from_file _) as [[sk|]|]; cbn [from_option id] in *;
    [|by apply put_nil_size..].
  destruct (sk_family sk =? AF_INET); [|by apply put_nil_size]. cbn [andb] in Hs. apply negb_true_iff in Hs. rewrite Hs.
  rewrite <- (pushed_put (tuple_bytes d sk)), tuple_bytes_length by done.
  unfold tuple_bytes. destruct d.
  all: rewrite !app_assoc, <- !pushed_app.
  all: do 5 (rewrite push_fixed_value_ok by (repeat apply room_pushed; eapply room_le; [|exact Hr]; rewrite ?le_split_length; lia); rewrite bind_Ret_nil).
  all: done.
Qed.

(** One store puts the bytes of its parameter. *)
Lemma store_ok p rb :
  room (param_max p) rb → param_safe k p = true → store k p rb = Ret [] (put (param_bytes k p) rb).
Proof.
  intros Hr Hs. pose proof Hr as (H1 & H2 & Hi).
  destruct p as [n v| |a n m|a n m|a n max|fd d a]; cbn [store param_max] in *.
  - unfold linx_ringbuf_store_fixed. rewrite push_fixed_value_ok by done. rewrite bind_Ret_nil.
    cbn [param_bytes]. rewrite <- (pushed_put (le_split n v)) by done. by rewrite le_split_length.
  - by apply put_nil_size.
  - by apply charpointer_ok.
  - rewrite bytebuf_ok by (eapply room_le; [|done]; pose proof (wrap_range 16 n ltac:(lia)); lia). done.
  - by apply charbufarray_ok.
  - by apply socktuple_ok.
Qed.

Lemma store_all_ok ps rb :
  room (params_max ps) rb → rb_index rb + Z.of_nat (length ps) ≤ 32 → Forall (λ p, param_safe k p = true) ps →
  store_all k ps rb = Ret [] (put_all (param_bytes k <$> ps) rb).
Proof.
  revert rb. induction ps as [|p ps IH]; intros rb Hr Hl Hs; cbn [store_all fmap list_fmap put_all foldl length] in *; [done|].
  inversion Hs as [|? ? Hp Hps]; subst. change (params_max (p :: ps)) with (param_max p + params_max ps) in Hr.
  pose proof (params_max_nonneg ps). pose proof (param_bytes_max p).
  rewrite store_ok by (done || (eapply room_le; [|done]; lia)). rewrite bind_Ret_nil.
  destruct ps as [|p' ps']; [done|].
  apply IH; [|cbn [put rb_index length] in *; lia|done].
  apply room_put; [cbn [length] in Hl; lia|]. eapply room_le; [|done]. lia.
Qed.

(** A socket without a peer and an address. *)
Lemma socktuple_bad fd d a rb :
  param_safe k (StoreSocktuple fd d a) = false → linx_ringbuf_store_socktuple k fd d a rb = Ub BadAddress.
Proof.
  cbn [param_safe]. unfold linx_ringbuf_store_socktuple, socket_of.
  destruct (get_sock_from_file _) as [[sk|]|]; cbn [from_option id]; [|done|done].
  intros Hs. apply negb_false_iff in Hs. rewrite <- andb_assoc in Hs. apply andb_true_iff in Hs as [-> ->]. done.
Qed.

(** What a list of stores that fits comes to. *)
Lemma store_all_outcome ps rb :
  room (params_max ps) rb → rb_index rb + Z.of_nat (length ps) ≤ 32 →
  store_all k ps rb
  = if forallb (param_safe k) ps then Ret [] (put_all (param_bytes k <$> ps) rb) else Ub BadAddress.
Proof.
  intros Hr Hl. destruct (forallb (param_safe k) ps) eqn:Hs.
  { apply store_all_ok; [done|done|]. apply Forall_forall. intros p Hp. rewrite forallb_forall in Hs.
    by apply Hs, list_elem_of_In. }
  revert rb Hr Hl. induction ps as [|p ps IH]; intros rb Hr Hl; [done|]. cbn [forallb store_all length] in *.
  change (params_max (p :: ps)) with (param_max p + params_max ps) in Hr.
  pose proof (params_max_nonneg ps). pose proof (param_bytes_max p).
  destruct (param_safe k p) eqn:Hp.
  - rewrite store_ok by (done || (eapply room_le; [|done]; lia)). rewrite bind_Ret_nil.
    destruct ps as [|p' ps']; [done|].
    apply IH; [done| |cbn [put rb_index length] in *; lia].
    apply room_put; [cbn [length] in Hl; lia|]. eapply room_le; [|done]. lia.
  - destruct p; try done. cbn [store]. by rewrite socktuple_bad.
Qed.
End store_facts.

(** What is in the buffer after the stores. *)
Lemma put_all_pos bss rb :
  rb_payload_pos (put_all bss rb) = rb_payload_pos rb + Z.of_nat (length (concat bss)).
Proof.
  revert rb. induction bss as [|bs bss IH]; intros rb; cbn [put_all foldl concat]; [cbn; lia|].
  fold (put_all bss (put bs rb)). rewrite IH, length_app. cbn [put rb_payload_pos]. lia.
Qed.

Lemma put_all_data bss rb :
  rb_data (put_all bss rb) = write_bytes (rb_data rb) (rb_payload_pos rb) (concat bss).
Proof.
  revert rb. induction bss as [|bs bss IH]; intros rb; cbn [put_all foldl concat]; [done|].
  fold (put_all bss (put bs rb)). rewrite IH, write_bytes_app. done.
Qed.

(** The sizes from [i] on are replaced. *)
Fixpoint set_sizes (i : nat) (bss : list (list Z)) (l : list Z) : list Z :=
  match bss with
  | [] => l
  | bs :: bss => set_sizes (S i) bss (<[i := Z.of_nat (length bs)]> l)
  end.

Lemma put_all_event bss rb :
  0 ≤ rb_index rb →
  rb_event (put_all bss rb)
  = set_params_size (set_sizes (Z.to_nat (rb_index rb)) bss (eh_params_size (rb_event rb))) (rb_event rb).
Proof.
  revert rb. induction bss as [|bs bss IH]; intros rb Hi; cbn [put_all foldl set_sizes]; [by destruct rb as [[] ? ? ? ?]|].
  fold (put_all bss (put bs rb)). rewrite IH by (cbn; lia). cbn.
  replace (Z.to_nat (rb_index rb + 1)) with (S (Z.to_nat (rb_index rb))) by lia. done.
Qed.

Lemma set_sizes_length i bss l : length (set_sizes i bss l) = length l.
Proof. revert i l. induction bss as [|bs bss IH]; intros i l; cbn; [done|]. by rewrite IH, length_insert. Qed.

Lemma set_sizes_before i bss l j : (j < i)%nat → set_sizes i bss l !! j = l !! j.
Proof.
  revert i l. induction bss as [|bs bss IH]; intros i l Hj; cbn; [done|]. rewrite IH by lia.
  by rewrite list_lookup_insert_ne by lia.
Qed.

Lemma set_sizes_lookup i bss l j bs :
  (i + length bss ≤ length l)%nat → bss !! j = Some bs → set_sizes i bss l !! (i + j)%nat = Some (Z.of_nat (length bs)).
Proof.
  revert i l j. induction bss as [|bs' bss IH]; intros i l [|j] Hl Hj; cbn [set_sizes length lookup list_lookup] in *; [done..| |].
  - injection Hj as ->. rewrite Nat.add_0_r, set_sizes_before by lia.
    rewrite list_lookup_insert_eq by lia. done.
  - replace (i + S j)%nat with (S i + j)%nat by lia. apply IH; [rewrite length_insert; lia|done].
Qed.
