(* ===== verification/Programs1.v ===== *)
(** * Programs of the system calls 0 to 88 (kernel/ebpf/tail_calls)

    One definition per program of the numbered files, entry then exit: the type
    and the result it loads and its stores in order. *)
From S2P Require Import Prelude CString Memory EventType Bpf Ringbuf.

#[local] Open Scope Z_scope.
#[local] Abbreviation arg := get_pt_regs_argumnet.

(** 000-read.bpf.c *)
Definition read_e : program := λ k regs id, mk_body LINX_EVENT_TYPE_READ_E (-1)
  [store_s64 (int32 (arg regs 0)); store_u32 (uint32 (arg regs 2))].
Definition read_x : program := λ k regs ret, mk_body LINX_EVENT_TYPE_READ_X ret
  [store_s64 ret;
   (if 0 <? ret then StoreBytebuf (arg regs 1) 512 USER else StoreEmpty);
   store_s64 (int64 (int32 (arg regs 0)));
   store_u32 (uint32 (arg regs 2))].

(** 001-write.bpf.c *)
Definition write_e : program := λ k regs id, mk_body LINX_EVENT_TYPE_WRITE_E (-1)
  [store_s64 (int64 (int32 (arg regs 0))); store_u32 (uint32 (arg regs 2))].
Definition write_x : program := λ k regs ret, mk_body LINX_EVENT_TYPE_WRITE_X ret
  [store_s64 ret;
   StoreBytebuf (arg regs 1) 512 USER;
   store_s64 (int64 (int32 (arg regs 0)));
   store_u32 (arg regs 2)].

(** 002-open.bpf.c *)
Definition open_e : program := λ k regs id, mk_body LINX_EVENT_TYPE_OPEN_E (-1)
  [].
Definition open_x : program := λ k regs ret, mk_body LINX_EVENT_TYPE_OPEN_X ret
  [store_charpointer (uint64 (arg regs 0)) LINX_CHARBUF_MAX_SIZE USER;
   store_s32 (int32 (arg regs 1));
   store_u16 (uint16 (arg regs 2))].

(** 003-close.bpf.c *)
Definition close_e : program := λ k regs id, mk_body LINX_EVENT_TYPE_CLOSE_E (-1)
  [].
Definition close_x : program := λ k regs ret, mk_body LINX_EVENT_TYPE_CLOSE_X ret
  [store_u32 (uint32 (arg regs 0))].

(** 004-stat.bpf.c *)
Definition stat_e : program := λ k regs id, mk_body LINX_EVENT_TYPE_STAT_E (-1)
  [].
Definition stat_x : program := λ k regs ret, mk_body LINX_EVENT_TYPE_STAT_X ret
  [store_charpointer (uint64 (arg regs 0)) LINX_CHARBUF_MAX_SIZE USER; store_u64 (uint64 (arg regs 1))].

(** 005-fstat.bpf.c *)
Definition fstat_e : program := λ k regs id, mk_body LINX_EVENT_TYPE_FSTAT_E (-1)
  [].
Definition fstat_x : program := λ k regs ret, mk_body LINX_EVENT_TYPE_FSTAT_X ret
  [store_u32 (uint32 (arg regs 0)); store_u64 (uint64 (arg regs 1))].

(** 006-lstat.bpf.c *)
Definition lstat_e : program := λ k regs id, mk_body LINX_EVENT_TYPE_LSTAT_E (-1)
  [].
Definition lstat_x : program := λ k regs ret, mk_body LINX_EVENT_TYPE_LSTAT_X ret
  [store_charpointer (uint64 (arg regs 0)) LINX_CHARBUF_MAX_SIZE USER; store_u64 (uint64 (arg regs 1))].

(** 007-poll.bpf.c *)
Definition poll_e : program := λ k regs id, mk_body LINX_EVENT_TYPE_POLL_E (-1)
  [].
Definition poll_x : program := λ k regs ret, mk_body LINX_EVENT_TYPE_POLL_X ret
  [store_u64 (uint64 (arg regs 0)); store_u32 (uint32 (arg regs 1)); store_s32 (int32 (arg regs 2))].

(** 008-lseek.bpf.c *)
Definition lseek_e : program := λ k regs id, mk_body LINX_EVENT_TYPE_LSEEK_E (-1)
  [].
Definition lseek_x : program := λ k regs ret, mk_body LINX_EVENT_TYPE_LSEEK_X ret
  [store_u32 (uint32 (arg regs 0)); store_s64 (int64 (arg regs 1)); store_u32 (uint32 (arg regs 2))].

(** 009-mmap.bpf.c *)
Definition mmap_e : program := λ k regs id, mk_body LINX_EVENT_TYPE_MMAP_E (-1)
  [].
Definition mmap_x : program := λ k regs ret, mk_body LINX_EVENT_TYPE_MMAP_X ret
  [store_u64 (uint64 (arg regs 0));
   store_u64 (uint64 (arg regs 1));
   store_u64 (uint64 (arg regs 2));
   store_u64 (uint64 (arg regs 3));
   store_u64 (uint64 (arg regs 4));
   store_u64 (uint64 (arg regs 5))].

(** 010-mprotect.bpf.c *)
Definition mprotect_e : program := λ k regs id, mk_body LINX_EVENT_TYPE_MPROTECT_E (-1)
  [].
Definition mprotect_x : program := λ k regs ret, mk_body LINX_EVENT_TYPE_MPROTECT_X ret
  [store_u64 (uint64 (arg regs 0)); store_u64 (uint64 (arg regs 1)); store_u64 (uint64 (arg regs 2))].

(** 011-munmap.bpf.c *)
Definition munmap_e : program := λ k regs id, mk_body LINX_EVENT_TYPE_MUNMAP_E (-1)
  [].
Definition munmap_x : program := λ k regs ret, mk_body LINX_EVENT_TYPE_MUNMAP_X ret
  [store_u64 (uint64 (arg regs 0)); store_u64 (uint64 (arg regs 1))].

(** 012-brk.bpf.c *)
Definition brk_e : program := λ k regs id, mk_body LINX_EVENT_TYPE_BRK_E (-1)
  [].
Definition brk_x : program := λ k regs ret, mk_body LINX_EVENT_TYPE_BRK_X ret
  [store_u64 (uint64 (arg regs 0))].

(** 013-rt_sigaction.bpf.c *)
Definition rt_sigaction_e : program := λ k regs id, mk_body LINX_EVENT_TYPE_RT_SIGACTION_E (-1)
  [].
Definition rt_sigaction_x : program := λ k regs ret, mk_body LINX_EVENT_TYPE_RT_SIGACTION_X ret
  [store_s32 (int32 (arg regs 0));
   store_u64 (uint64 (arg regs 1));
   store_u64 (uint64 (arg regs 2));
   store_u64 (uint64 (arg regs 3))].

(** 014-rt_sigprocmask.bpf.c *)
Definition rt_sigprocmask_e : program := λ k regs id, mk_body LINX_EVENT_TYPE_RT_SIGPROCMASK_E (-1)
  [].
Definition rt_sigprocmask_x : program := λ k regs ret, mk_body LINX_EVENT_TYPE_RT_SIGPROCMASK_X ret
  [store_s32 (int32 (arg regs 0));
   store_u64 (uint64 (arg regs 1));
   store_u64 (uint64 (arg regs 2));
   store_u64 (uint64 (arg regs 3))].

(** 015-rt_sigreturn.bpf.c *)
Definition rt_sigreturn_e : program := λ k regs id, mk_body LINX_EVENT_TYPE_RT_SIGRETURN_E (-1)
  [].
Definition rt_sigreturn_x : program := λ k regs ret, mk_body LINX_EVENT_TYPE_RT_SIGRETURN_X ret
  [].

(** 016-ioctl.bpf.c *)
Definition ioctl_e : program := λ k regs id, mk_body LINX_EVENT_TYPE_IOCTL_E (-1)
  [].
Definition ioctl_x : program := λ k regs ret, mk_body LINX_EVENT_TYPE_IOCTL_X ret
  [store_u32 (uint32 (arg regs 0)); store_u32 (uint32 (arg regs 1)); store_u64 (uint64 (arg regs 2))].

(** 017-pread64.bpf.c *)
Definition pread64_e : program := λ k regs id, mk_body LINX_EVENT_TYPE_PREAD64_E (-1)
  [].
Definition pread64_x : program := λ k regs ret, mk_body LINX_EVENT_TYPE_PREAD64_X ret
  [store_u32 (uint32 (arg regs 0));
   store_charpointer (uint64 (arg regs 1)) LINX_CHARBUF_MAX_SIZE USER;
   store_u64 (uint64 (arg regs 2));
   store_s64 (int64 (arg regs 3))].

(** 018-pwrite64.bpf.c *)
Definition pwrite64_e : program := λ k regs id, mk_body LINX_EVENT_TYPE_PWRITE64_E (-1)
  [].
Definition pwrite64_x : program := λ k regs ret, mk_body LINX_EVENT_TYPE_PWRITE64_X ret
  [store_u32 (uint32 (arg regs 0));
   store_charpointer (uint64 (arg regs 1)) LINX_CHARBUF_MAX_SIZE USER;
   store_u64 (uint64 (arg regs 2));
   store_s64 (int64 (arg regs 3))].

(** 019-readv.bpf.c *)
Definition readv_e : program := λ k regs id, mk_body LINX_EVENT_TYPE_READV_E (-1)
  [].
Definition readv_x : program := λ k regs ret, mk_body LINX_EVENT_TYPE_READV_X ret
  [store_u64 (uint64 (arg regs 0)); store_u64 (uint64 (arg regs 1)); store_u64 (uint64 (arg regs 2))].

(** 020-writev.bpf.c *)
Definition writev_e : program := λ k regs id, mk_body LINX_EVENT_TYPE_WRITEV_E (-1)
  [].
Definition writev_x : program := λ k regs ret, mk_body LINX_EVENT_TYPE_WRITEV_X ret
  [store_u64 (uint64 (arg regs 0)); store_u64 (uint64 (arg regs 1)); store_u64 (uint64 (arg regs 2))].

(** 021-access.bpf.c *)
Definition access_e : program := λ k regs id, mk_body LINX_EVENT_TYPE_ACCESS_E (-1)
  [].
Definition access_x : program := λ k regs ret, mk_body LINX_EVENT_TYPE_ACCESS_X ret
  [store_charpointer (uint64 (arg regs 0)) LINX_CHARBUF_MAX_SIZE USER; store_s32 (int32 (arg regs 1))].

(** 022-pipe.bpf.c *)
Definition pipe_e : program := λ k regs id, mk_body LINX_EVENT_TYPE_PIPE_E (-1)
  [].
Definition pipe_x : program := λ k regs ret, mk_body LINX_EVENT_TYPE_PIPE_X ret
  [store_s32 (user_int32 k (arg regs 0))].

(** 023-select.bpf.c *)
Definition select_e : program := λ k regs id, mk_body LINX_EVENT_TYPE_SELECT_E (-1)
  [].
Definition select_x : program := λ k regs ret, mk_body LINX_EVENT_TYPE_SELECT_X ret
  [store_s32 (int32 (arg regs 0));
   store_u64 (uint64 (arg regs 1));
   store_u64 (uint64 (arg regs 2));
   store_u64 (uint64 (arg regs 3));
   store_u64 (uint64 (arg regs 4))].

(** 024-sched_yield.bpf.c *)
Definition sched_yield_e : program := λ k regs id, mk_body LINX_EVENT_TYPE_SCHED_YIELD_E (-1)
  [].
Definition sched_yield_x : program := λ k regs ret, mk_body LINX_EVENT_TYPE_SCHED_YIELD_X ret
  [].

(** 025-mremap.bpf.c *)
Definition mremap_e : program := λ k regs id, mk_body LINX_EVENT_TYPE_MREMAP_E (-1)
  [].
Definition mremap_x : program := λ k regs ret, mk_body LINX_EVENT_TYPE_MREMAP_X ret
  [store_u64 (uint64 (arg regs 0));
   store_u64 (uint64 (arg regs 1));
   store_u64 (uint64 (arg regs 2));
   store_u64 (uint64 (arg regs 3));
   store_u64 (uint64 (arg regs 4))].

(** 026-msync.bpf.c *)
Definition msync_e : program := λ k regs id, mk_body LINX_EVENT_TYPE_MSYNC_E (-1)
  [].
Definition msync_x : program := λ k regs ret, mk_body LINX_EVENT_TYPE_MSYNC_X ret
  [store_u64 (uint64 (arg regs 0)); store_u64 (uint64 (arg regs 1)); store_s32 (int32 (arg regs 2))].

(** 027-mincore.bpf.c *)
Definition mincore_e : program := λ k regs id, mk_body LINX_EVENT_TYPE_MINCORE_E (-1)
  [].
Definition mincore_x : program := λ k regs ret, mk_body LINX_EVENT_TYPE_MINCORE_X ret
  [store_u64 (uint64 (arg regs 0));
   store_u64 (uint64 (arg regs 1));
   store_charpointer (uint64 (arg regs 2)) LINX_CHARBUF_MAX_SIZE USER].

(** 028-madvise.bpf.c *)
Definition madvise_e : program := λ k regs id, mk_body LINX_EVENT_TYPE_MADVISE_E (-1)
  [].
Definition madvise_x : program := λ k regs ret, mk_body LINX_EVENT_TYPE_MADVISE_X ret
  [store_u64 (uint64 (arg regs 0)); store_u64 (uint64 (arg regs 1)); store_s32 (int32 (arg regs 2))].

(** 029-shmget.bpf.c *)
Definition shmget_e : program := λ k regs id, mk_body LINX_EVENT_TYPE_SHMGET_E (-1)
  [].
Definition shmget_x : program := λ k regs ret, mk_body LINX_EVENT_TYPE_SHMGET_X ret
  [store_s32 (int32 (arg regs 0)); store_u64 (uint64 (arg regs 1)); store_s32 (int32 (arg regs 2))].

(** 030-shmat.bpf.c *)
Definition shmat_e : program := λ k regs id, mk_body LINX_EVENT_TYPE_SHMAT_E (-1)
  [].
Definition shmat_x : program := λ k regs ret, mk_body LINX_EVENT_TYPE_SHMAT_X ret
  [store_s32 (int32 (arg regs 0));
   store_charpointer (uint64 (arg regs 1)) LINX_CHARBUF_MAX_SIZE USER;
   store_s32 (int32 (arg regs 2))].

(** 031-shmctl.bpf.c *)
Definition shmctl_e : program := λ k regs id, mk_body LINX_EVENT_TYPE_SHMCTL_E (-1)
  [].
Definition shmctl_x : program := λ k regs ret, mk_body LINX_EVENT_TYPE_SHMCTL_X ret
  [store_s32 (int32 (arg regs 0)); store_s32 (int32 (arg regs 1)); store_u64 (uint64 (arg regs 2))].

(** 032-dup.bpf.c *)
Definition dup_e : program := λ k regs id, mk_body LINX_EVENT_TYPE_DUP_E (-1)
  [store_s64 (int64 (int32 (arg regs 0)))].
Definition dup_x : program := λ k regs ret, mk_body LINX_EVENT_TYPE_DUP_X ret
  [store_s64 ret; store_s64 (int64 (int32 (arg regs 0)))].

(** 033-dup2.bpf.c *)
Definition dup2_e : program := λ k regs id, mk_body LINX_EVENT_TYPE_DUP2_E (-1)
  [store_s64 (int64 (int32 (arg regs 0)))].
Definition dup2_x : program := λ k regs ret, mk_body LINX_EVENT_TYPE_DUP2_X ret
  [store_s64 ret; store_s64 (int64 (int32 (arg regs 0))); store_s64 (int64 (int32 (arg regs 1)))].

(** 034-pause.bpf.c *)
Definition pause_e : program := λ k regs id, mk_body LINX_EVENT_TYPE_PAUSE_E (-1)
  [].
Definition pause_x : program := λ k regs ret, mk_body LINX_EVENT_TYPE_PAUSE_X ret
  [].

(** 035-nanosleep.bpf.c *)
Definition nanosleep_e : program := λ k regs id, mk_body LINX_EVENT_TYPE_NANOSLEEP_E (-1)
  [].
Definition nanosleep_x : program := λ k regs ret, mk_body LINX_EVENT_TYPE_NANOSLEEP_X ret
  [store_u64 (uint64 (arg regs 0)); store_u64 (uint64 (arg regs 1))].

(** 036-getitimer.bpf.c *)
Definition getitimer_e : program := λ k regs id, mk_body LINX_EVENT_TYPE_GETITIMER_E (-1)
  [].
Definition getitimer_x : program := λ k regs ret, mk_body LINX_EVENT_TYPE_GETITIMER_X ret
  [store_s32 (int32 (arg regs 0)); store_u64 (uint64 (arg regs 1))].

(** 037-alarm.bpf.c *)
Definition alarm_e : program := λ k regs id, mk_body LINX_EVENT_TYPE_ALARM_E (-1)
  [].
Definition alarm_x : program := λ k regs ret, mk_body LINX_EVENT_TYPE_ALARM_X ret
  [store_u32 (uint32 (arg regs 0))].

(** 038-setitimer.bpf.c *)
Definition setitimer_e : program := λ k regs id, mk_body LINX_EVENT_TYPE_SETITIMER_E (-1)
  [].
Definition setitimer_x : program := λ k regs ret, mk_body LINX_EVENT_TYPE_SETITIMER_X ret
  [store_s32 (int32 (arg regs 0)); store_u64 (uint64 (arg regs 1)); store_u64 (uint64 (arg regs 2))].

(** 039-getpid.bpf.c *)
Definition getpid_e : program := λ k regs id, mk_body LINX_EVENT_TYPE_GETPID_E (-1)
  [].
Definition getpid_x : program := λ k regs ret, mk_body LINX_EVENT_TYPE_GETPID_X ret
  [].

(** 040-sendfile.bpf.c *)
Definition sendfile_e : program := λ k regs id, mk_body LINX_EVENT_TYPE_SENDFILE_E (-1)
  [].
Definition sendfile_x : program := λ k regs ret, mk_body LINX_EVENT_TYPE_SENDFILE_X ret
  [store_s32 (int32 (arg regs 0));
   store_s32 (int32 (arg regs 1));
   store_s64 (user_int64 k (arg regs 2));
   store_u64 (uint64 (arg regs 3))].

(** 041-socket.bpf.c *)
Definition socket_e : program := λ k regs id, mk_body LINX_EVENT_TYPE_SOCKET_E (-1)
  [].
Definition socket_x : program := λ k regs ret, mk_body LINX_EVENT_TYPE_SOCKET_X ret
  [store_s32 (int32 (arg regs 0)); store_s32 (int32 (arg regs 1)); store_s32 (int32 (arg regs 2))].

(** 042-connect.bpf.c *)
Definition connect_e : program := λ k regs id, mk_body LINX_EVENT_TYPE_CONNECT_E (-1)
  [].
Definition connect_x : program := λ k regs ret, mk_body LINX_EVENT_TYPE_CONNECT_X ret
  [store_s32 (int32 (arg regs 0)); store_u64 (uint64 (arg regs 1)); store_s32 (int32 (arg regs 2))].

(** 043-accept.bpf.c *)
Definition accept_e : program := λ k regs id, mk_body LINX_EVENT_TYPE_ACCEPT_E (-1)
  [].
Definition accept_x : program := λ k regs ret, mk_body LINX_EVENT_TYPE_ACCEPT_X ret
  [store_s32 (int32 (arg regs 0)); store_u64 (uint64 (arg regs 1)); store_s32 (user_int32 k (arg regs 2))].

(** 044-sendto.bpf.c *)
Definition sendto_e : program := λ k regs id,
  let args := extract__network_args 5 regs in
  let socket_fd := int32 (nth 0 args 0) in
  mk_body LINX_EVENT_TYPE_SENDTO_E (-1)
  [store_s64 (int64 socket_fd);
   store_u32 (uint32 (nth 2 args 0));
   (if 0 <=? socket_fd then StoreSocktuple (uint32 socket_fd) OUTBOUND (nth 4 args 0) else StoreEmpty)].
Definition sendto_x : program := λ k regs ret,
  let args := extract__network_args 3 regs in
  let bytes_to_read := if 0 <? ret then ret else int64 (nth 2 args 0) in
  let snaplen := if bytes_to_read <? 128 then uint16 bytes_to_read else 128 in
  mk_body LINX_EVENT_TYPE_SENDTO_X ret
  [store_s64 ret; StoreBytebuf (nth 1 args 0) snaplen USER].

(** 045-recvfrom.bpf.c *)
Definition recvfrom_e : program := λ k regs id,
  let args := extract__network_args 3 regs in
  mk_body LINX_EVENT_TYPE_RECVFROM_E (-1)
  [store_s64 (int64 (int32 (nth 0 args 0))); store_u32 (uint32 (nth 2 args 0))].
Definition recvfrom_x : program := λ k regs ret, mk_body LINX_EVENT_TYPE_RECVFROM_X ret
  (store_s64 ret ::
   (if 0 <? ret then
      let args := extract__network_args 5 regs in
      [StoreSocktuple (uint32 (nth 0 args 0)) INBOUND (nth 4 args 0)]
    else [StoreEmpty; StoreEmpty])).

(** 046-sendmsg.bpf.c *)
Definition sendmsg_e : program := λ k regs id, mk_body LINX_EVENT_TYPE_SENDMSG_E (-1)
  [].
Definition sendmsg_x : program := λ k regs ret, mk_body LINX_EVENT_TYPE_SENDMSG_X ret
  [store_s32 (int32 (arg regs 0)); store_u64 (uint64 (arg regs 1)); store_u32 (uint32 (arg regs 2))].

(** 047-recvmsg.bpf.c *)
Definition recvmsg_e : program := λ k regs id, mk_body LINX_EVENT_TYPE_RECVMSG_E (-1)
  [].
Definition recvmsg_x : program := λ k regs ret, mk_body LINX_EVENT_TYPE_RECVMSG_X ret
  [store_s32 (int32 (arg regs 0)); store_u64 (uint64 (arg regs 1)); store_u32 (uint32 (arg regs 2))].

(** 048-shutdown.bpf.c *)
Definition shutdown_e : program := λ k regs id, mk_body LINX_EVENT_TYPE_SHUTDOWN_E (-1)
  [].
Definition shutdown_x : program := λ k regs ret, mk_body LINX_EVENT_TYPE_SHUTDOWN_X ret
  [store_s32 (int32 (arg regs 0)); store_s32 (int32 (arg regs 1))].

(** 049-bind.bpf.c *)
Definition bind_e : program := λ k regs id, mk_body LINX_EVENT_TYPE_BIND_E (-1)
  [].
Definition bind_x : program := λ k regs ret, mk_body LINX_EVENT_TYPE_BIND_X ret
  [store_s32 (int32 (arg regs 0)); store_u64 (uint64 (arg regs 1)); store_s32 (int32 (arg regs 2))].

(** 050-listen.bpf.c *)
Definition listen_e : program := λ k regs id, mk_body LINX_EVENT_TYPE_LISTEN_E (-1)
  [].
Definition listen_x : program := λ k regs ret, mk_body LINX_EVENT_TYPE_LISTEN_X ret
  [store_s32 (int32 (arg regs 0)); store_s32 (int32 (arg regs 1))].

(** 051-getsockname.bpf.c *)
Definition getsockname_e : program := λ k regs id, mk_body LINX_EVENT_TYPE_GETSOCKNAME_E (-1)
  [].
Definition getsockname_x : program := λ k regs ret, mk_body LINX_EVENT_TYPE_GETSOCKNAME_X ret
  [store_s32 (int32 (arg regs 0)); store_u64 (uint64 (arg regs 1)); store_s32 (user_int32 k (arg regs 2))].

(** 052-getpeername.bpf.c *)
Definition getpeername_e : program := λ k regs id, mk_body LINX_EVENT_TYPE_GETPEERNAME_E (-1)
  [].
Definition getpeername_x : program := λ k regs ret, mk_body LINX_EVENT_TYPE_GETPEERNAME_X ret
  [store_s32 (int32 (arg regs 0)); store_u64 (uint64 (arg regs 1)); store_s32 (user_int32 k (arg regs 2))].

(** 053-socketpair.bpf.c *)
Definition socketpair_e : program := λ k regs id, mk_body LINX_EVENT_TYPE_SOCKETPAIR_E (-1)
  [].
Definition socketpair_x : program := λ k regs ret, mk_body LINX_EVENT_TYPE_SOCKETPAIR_X ret
  [store_s32 (int32 (arg regs 0));
   store_s32 (int32 (arg regs 1));
   store_s32 (int32 (arg regs 2));
   store_s32 (user_int32 k (arg regs 3))].

(** 054-setsockopt.bpf.c *)
Definition setsockopt_e : program := λ k regs id, mk_body LINX_EVENT_TYPE_SETSOCKOPT_E (-1)
  [].
Definition setsockopt_x : program := λ k regs ret, mk_body LINX_EVENT_TYPE_SETSOCKOPT_X ret
  [store_s32 (int32 (arg regs 0));
   store_s32 (int32 (arg regs 1));
   store_s32 (int32 (arg regs 2));
   store_charpointer (uint64 (arg regs 3)) LINX_CHARBUF_MAX_SIZE USER;
   store_s32 (int32 (arg regs 4))].

(** 055-getsockopt.bpf.c *)
Definition getsockopt_e : program := λ k regs id, mk_body LINX_EVENT_TYPE_GETSOCKOPT_E (-1)
  [].
Definition getsockopt_x : program := λ k regs ret, mk_body LINX_EVENT_TYPE_GETSOCKOPT_X ret
  [store_s32 (int32 (arg regs 0));
   store_s32 (int32 (arg regs 1));
   store_s32 (int32 (arg regs 2));
   store_charpointer (uint64 (arg regs 3)) LINX_CHARBUF_MAX_SIZE USER;
   store_s32 (user_int32 k (arg regs 4))].

(** 056-clone.bpf.c *)
Definition clone_e : program := λ k regs id, mk_body LINX_EVENT_TYPE_CLONE_E (-1)
  [].
Definition clone_x : program := λ k regs ret, mk_body LINX_EVENT_TYPE_CLONE_X ret
  [store_u64 (uint64 (arg regs 0));
   store_u64 (uint64 (arg regs 1));
   store_s32 (user_int32 k (arg regs 2));
   store_s32 (user_int32 k (arg regs 3));
   store_u64 (uint64 (arg regs 4))].

(** 057-fork.bpf.c *)
Definition fork_e : program := λ k regs id, mk_body LINX_EVENT_TYPE_FORK_E (-1)
  [].
Definition fork_x : program := λ k regs ret, mk_body LINX_EVENT_TYPE_FORK_X ret
  [].

(** 058-vfork.bpf.c *)
Definition vfork_e : program := λ k regs id, mk_body LINX_EVENT_TYPE_VFORK_E (-1)
  [].
Definition vfork_x : program := λ k regs ret, mk_body LINX_EVENT_TYPE_VFORK_X ret
  [].

(** 059-execve.bpf.c *)
Definition execve_e : program := λ k regs id, mk_body LINX_EVENT_TYPE_EXECVE_E (-1)
  [store_charpointer (uint64 (arg regs 0)) LINX_CHARBUF_MAX_SIZE USER].
Definition execve_x : program := λ k regs ret,
  let task := bpf_get_current_task_btf k in
  let mm := t_mm task in
  let arg_start_pointer := from_option mm_arg_start 0 mm in
  let arg_end_pointer := from_option mm_arg_end 0 mm in
  mk_body LINX_EVENT_TYPE_EXECVE_X ret
  [store_charpointer arg_start_pointer LINX_CHARBUF_MAX_SIZE USER;
   store_u32 (uint32 (extract__vm_size mm));
   store_u32 (uint32 (extract__vm_rss mm));
   store_charpointer (t_comm_pointer task) LINX_COMM_MAX_SIZE KERNEL;
   store_u32 (extract__tty task);
   StoreCharbufarray arg_start_pointer (arg_end_pointer - arg_start_pointer) 4096;
   store_u32 (extract__loginuid task);
   store_s64 (int64 (int32 (extract__task_xid_vnr k task)))].

(** 060-exit.bpf.c *)
Definition exit_e : program := λ k regs id, mk_body LINX_EVENT_TYPE_EXIT_E (-1)
  [].
Definition exit_x : program := λ k regs ret, mk_body LINX_EVENT_TYPE_EXIT_X ret
  [store_s32 (int32 (arg regs 0))].

(** 061-wait4.bpf.c *)
Definition wait4_e : program := λ k regs id, mk_body LINX_EVENT_TYPE_WAIT4_E (-1)
  [].
Definition wait4_x : program := λ k regs ret, mk_body LINX_EVENT_TYPE_WAIT4_X ret
  [store_s32 (int32 (arg regs 0));
   store_s32 (user_int32 k (arg regs 1));
   store_s32 (int32 (arg regs 2));
   store_u64 (uint64 (arg regs 3))].

(** 062-kill.bpf.c *)
Definition kill_e : program := λ k regs id, mk_body LINX_EVENT_TYPE_KILL_E (-1)
  [].
Definition kill_x : program := λ k regs ret, mk_body LINX_EVENT_TYPE_KILL_X ret
  [store_s32 (int32 (arg regs 0)); store_s32 (int32 (arg regs 1))].

(** 063-uname.bpf.c *)
Definition uname_e : program := λ k regs id, mk_body LINX_EVENT_TYPE_UNAME_E (-1)
  [].
Definition uname_x : program := λ k regs ret, mk_body LINX_EVENT_TYPE_UNAME_X ret
  [store_u64 (uint64 (arg regs 0))].

(** 064-semget.bpf.c *)
Definition semget_e : program := λ k regs id, mk_body LINX_EVENT_TYPE_SEMGET_E (-1)
  [].
Definition semget_x : program := λ k regs ret, mk_body LINX_EVENT_TYPE_SEMGET_X ret
  [store_s32 (int32 (arg regs 0)); store_s32 (int32 (arg regs 1)); store_s32 (int32 (arg regs 2))].

(** 065-semop.bpf.c *)
Definition semop_e : program := λ k regs id, mk_body LINX_EVENT_TYPE_SEMOP_E (-1)
  [].
Definition semop_x : program := λ k regs ret, mk_body LINX_EVENT_TYPE_SEMOP_X ret
  [store_s32 (int32 (arg regs 0)); store_u64 (uint64 (arg regs 1)); store_u32 (uint32 (arg regs 2))].

(** 066-semctl.bpf.c *)
Definition semctl_e : program := λ k regs id, mk_body LINX_EVENT_TYPE_SEMCTL_E (-1)
  [].
Definition semctl_x : program := λ k regs ret, mk_body LINX_EVENT_TYPE_SEMCTL_X ret
  [store_s32 (int32 (arg regs 0));
   store_s32 (int32 (arg regs 1));
   store_s32 (int32 (arg regs 2));
   store_u64 (uint64 (arg regs 3))].

(** 067-shmdt.bpf.c *)
Definition shmdt_e : program := λ k regs id, mk_body LINX_EVENT_TYPE_SHMDT_E (-1)
  [].
Definition shmdt_x : program := λ k regs ret, mk_body LINX_EVENT_TYPE_SHMDT_X ret
  [store_charpointer (uint64 (arg regs 0)) LINX_CHARBUF_MAX_SIZE USER].

(** 068-msgget.bpf.c *)
Definition msgget_e : program := λ k regs id, mk_body LINX_EVENT_TYPE_MSGGET_E (-1)
  [].
Definition msgget_x : program := λ k regs ret, mk_body LINX_EVENT_TYPE_MSGGET_X ret
  [store_s32 (int32 (arg regs 0)); store_s32 (int32 (arg regs 1))].

(** 069-msgsnd.bpf.c *)
Definition msgsnd_e : program := λ k regs id, mk_body LINX_EVENT_TYPE_MSGSND_E (-1)
  [].
Definition msgsnd_x : program := λ k regs ret, mk_body LINX_EVENT_TYPE_MSGSND_X ret
  [store_s32 (int32 (arg regs 0));
   store_u64 (uint64 (arg regs 1));
   store_u64 (uint64 (arg regs 2));
   store_s32 (int32 (arg regs 3))].

(** 070-msgrcv.bpf.c *)
Definition msgrcv_e : program := λ k regs id, mk_body LINX_EVENT_TYPE_MSGRCV_E (-1)
  [].
Definition msgrcv_x : program := λ k regs ret, mk_body LINX_EVENT_TYPE_MSGRCV_X ret
  [store_s32 (int32 (arg regs 0));
   store_u64 (uint64 (arg regs 1));
   store_u64 (uint64 (arg regs 2));
   store_s64 (int64 (arg regs 3));
   store_s32 (int32 (arg regs 4))].

(** 071-msgctl.bpf.c *)
Definition msgctl_e : program := λ k regs id, mk_body LINX_EVENT_TYPE_MSGCTL_E (-1)
  [].
Definition msgctl_x : program := λ k regs ret, mk_body LINX_EVENT_TYPE_MSGCTL_X ret
  [store_s32 (int32 (arg regs 0)); store_s32 (int32 (arg regs 1)); store_u64 (uint64 (arg regs 2))].

(** 072-fcntl.bpf.c *)
Definition fcntl_e : program := λ k regs id, mk_body LINX_EVENT_TYPE_FCNTL_E (-1)
  [].
Definition fcntl_x : program := λ k regs ret, mk_body LINX_EVENT_TYPE_FCNTL_X ret
  [store_u32 (uint32 (arg regs 0)); store_u32 (uint32 (arg regs 1)); store_u64 (uint64 (arg regs 2))].

(** 073-flock.bpf.c *)
Definition flock_e : program := λ k regs id, mk_body LINX_EVENT_TYPE_FLOCK_E (-1)
  [].
Definition flock_x : program := λ k regs ret, mk_body LINX_EVENT_TYPE_FLOCK_X ret
  [store_u32 (uint32 (arg regs 0)); store_u32 (uint32 (arg regs 1))].

(** 074-fsync.bpf.c *)
Definition fsync_e : program := λ k regs id, mk_body LINX_EVENT_TYPE_FSYNC_E (-1)
  [].
Definition fsync_x : program := λ k regs ret, mk_body LINX_EVENT_TYPE_FSYNC_X ret
  [store_u32 (uint32 (arg regs 0))].

(** 075-fdatasync.bpf.c *)
Definition fdatasync_e : program := λ k regs id, mk_body LINX_EVENT_TYPE_FDATASYNC_E (-1)
  [].
Definition fdatasync_x : program := λ k regs ret, mk_body LINX_EVENT_TYPE_FDATASYNC_X ret
  [store_u32 (uint32 (arg regs 0))].

(** 076-truncate.bpf.c *)
Definition truncate_e : program := λ k regs id, mk_body LINX_EVENT_TYPE_TRUNCATE_E (-1)
  [].
Definition truncate_x : program := λ k regs ret, mk_body LINX_EVENT_TYPE_TRUNCATE_X ret
  [store_charpointer (uint64 (arg regs 0)) LINX_CHARBUF_MAX_SIZE USER; store_s64 (int64 (arg regs 1))].

(** 077-ftruncate.bpf.c *)
Definition ftruncate_e : program := λ k regs id, mk_body LINX_EVENT_TYPE_FTRUNCATE_E (-1)
  [].
Definition ftruncate_x : program := λ k regs ret, mk_body LINX_EVENT_TYPE_FTRUNCATE_X ret
  [store_u32 (uint32 (arg regs 0)); store_s64 (int64 (arg regs 1))].

(** 078-getdents.bpf.c *)
Definition getdents_e : program := λ k regs id, mk_body LINX_EVENT_TYPE_GETDENTS_E (-1)
  [].
Definition getdents_x : program := λ k regs ret, mk_body LINX_EVENT_TYPE_GETDENTS_X ret
  [store_u32 (uint32 (arg regs 0)); store_u64 (uint64 (arg regs 1)); store_u32 (uint32 (arg regs 2))].

(** 079-getcwd.bpf.c *)
Definition getcwd_e : program := λ k regs id, mk_body LINX_EVENT_TYPE_GETCWD_E (-1)
  [].
Definition getcwd_x : program := λ k regs ret, mk_body LINX_EVENT_TYPE_GETCWD_X ret
  [store_charpointer (uint64 (arg regs 0)) LINX_CHARBUF_MAX_SIZE USER; store_u64 (uint64 (arg regs 1))].

(** 080-chdir.bpf.c *)
Definition chdir_e : program := λ k regs id, mk_body LINX_EVENT_TYPE_CHDIR_E (-1)
  [].
Definition chdir_x : program := λ k regs ret, mk_body LINX_EVENT_TYPE_CHDIR_X ret
  [store_charpointer (uint64 (arg regs 0)) LINX_CHARBUF_MAX_SIZE USER].

(** 081-fchdir.bpf.c *)
Definition fchdir_e : program := λ k regs id, mk_body LINX_EVENT_TYPE_FCHDIR_E (-1)
  [].
Definition fchdir_x : program := λ k regs ret, mk_body LINX_EVENT_TYPE_FCHDIR_X ret
  [store_u32 (uint32 (arg regs 0))].

(** 082-rename.bpf.c *)
Definition rename_e : program := λ k regs id, mk_body LINX_EVENT_TYPE_RENAME_E (-1)
  [].
Definition rename_x : program := λ k regs ret, mk_body LINX_EVENT_TYPE_RENAME_X ret
  [store_charpointer (uint64 (arg regs 0)) LINX_CHARBUF_MAX_SIZE USER;
   store_charpointer (uint64 (arg regs 1)) LINX_CHARBUF_MAX_SIZE USER].

(** 083-mkdir.bpf.c *)
Definition mkdir_e : program := λ k regs id, mk_body LINX_EVENT_TYPE_MKDIR_E (-1)
  [].
Definition mkdir_x : program := λ k regs ret, mk_body LINX_EVENT_TYPE_MKDIR_X ret
  [store_charpointer (uint64 (arg regs 0)) LINX_CHARBUF_MAX_SIZE USER; store_u16 (uint16 (arg regs 1))].

(** 084-rmdir.bpf.c *)
Definition rmdir_e : program := λ k regs id, mk_body LINX_EVENT_TYPE_RMDIR_E (-1)
  [].
Definition rmdir_x : program := λ k regs ret, mk_body LINX_EVENT_TYPE_RMDIR_X ret
  [store_charpointer (uint64 (arg regs 0)) LINX_CHARBUF_MAX_SIZE USER].

(** 085-creat.bpf.c *)
Definition creat_e : program := λ k regs id, mk_body LINX_EVENT_TYPE_CREAT_E (-1)
  [].
Definition creat_x : program := λ k regs ret, mk_body LINX_EVENT_TYPE_CREAT_X ret
  [store_charpointer (uint64 (arg regs 0)) LINX_CHARBUF_MAX_SIZE USER; store_u16 (uint16 (arg regs 1))].

(** 086-link.bpf.c *)
Definition link_e : program := λ k regs id, mk_body LINX_EVENT_TYPE_LINK_E (-1)
  [].
Definition link_x : program := λ k regs ret, mk_body LINX_EVENT_TYPE_LINK_X ret
  [store_charpointer (uint64 (arg regs 0)) LINX_CHARBUF_MAX_SIZE USER;
   store_charpointer (uint64 (arg regs 1)) LINX_CHARBUF_MAX_SIZE USER].

(** 087-unlink.bpf.c *)
Definition unlink_e : program := λ k regs id, mk_body LINX_EVENT_TYPE_UNLINK_E (-1)
  [].
Definition unlink_x : program := λ k regs ret, mk_body LINX_EVENT_TYPE_UNLINK_X ret
  [store_charpointer (uint64 (arg regs 0)) LINX_CHARBUF_MAX_SIZE USER].

(** 088-symlink.bpf.c *)
Definition symlink_e : program := λ k regs id, mk_body LINX_EVENT_TYPE_SYMLINK_E (-1)
  [].
Definition symlink_x : program := λ k regs ret, mk_body LINX_EVENT_TYPE_SYMLINK_X ret
  [store_charpointer (uint64 (arg regs 0)) LINX_CHARBUF_MAX_SIZE USER;
   store_charpointer (uint64 (arg regs 1)) LINX_CHARBUF_MAX_SIZE USER].
