(* ===== verification/Programs2.v ===== *)
(** * Programs of the system calls 89 to 177 (kernel/ebpf/tail_calls)

    One definition per program of the numbered files, entry then exit: the type
    and the result it loads and its stores in order. *)
From S2P Require Import Prelude CString Memory EventType Bpf Ringbuf.

#[local] Open Scope Z_scope.
#[local] Abbreviation arg := get_pt_regs_argumnet.

(** 089-readlink.bpf.c *)
Definition readlink_e : program := λ k regs id, mk_body LINX_EVENT_TYPE_READLINK_E (-1)
  [].
Definition readlink_x : program := λ k regs ret, mk_body LINX_EVENT_TYPE_READLINK_X ret
  [store_charpointer (uint64 (arg regs 0)) LINX_CHARBUF_MAX_SIZE USER;
   store_charpointer (uint64 (arg regs 1)) LINX_CHARBUF_MAX_SIZE USER;
   store_s32 (int32 (arg regs 2))].

(** 090-chmod.bpf.c *)
Definition chmod_e : program := λ k regs id, mk_body LINX_EVENT_TYPE_CHMOD_E (-1)
  [].
Definition chmod_x : program := λ k regs ret, mk_body LINX_EVENT_TYPE_CHMOD_X ret
  [store_charpointer (uint64 (arg regs 0)) LINX_CHARBUF_MAX_SIZE USER; store_u16 (uint16 (arg regs 1))].

(** 091-fchmod.bpf.c *)
Definition fchmod_e : program := λ k regs id, mk_body LINX_EVENT_TYPE_FCHMOD_E (-1)
  [].
Definition fchmod_x : program := λ k regs ret, mk_body LINX_EVENT_TYPE_FCHMOD_X ret
  [store_u32 (uint32 (arg regs 0)); store_u16 (uint16 (arg regs 1))].

(** 092-chown.bpf.c *)
Definition chown_e : program := λ k regs id, mk_body LINX_EVENT_TYPE_CHOWN_E (-1)
  [].
Definition chown_x : program := λ k regs ret, mk_body LINX_EVENT_TYPE_CHOWN_X ret
  [store_charpointer (uint64 (arg regs 0)) LINX_CHARBUF_MAX_SIZE USER;
   store_u32 (uint32 (arg regs 1));
   store_u32 (uint32 (arg regs 2))].

(** 093-fchown.bpf.c *)
Definition fchown_e : program := λ k regs id, mk_body LINX_EVENT_TYPE_FCHOWN_E (-1)
  [].
Definition fchown_x : program := λ k regs ret, mk_body LINX_EVENT_TYPE_FCHOWN_X ret
  [store_u32 (uint32 (arg regs 0)); store_u32 (uint32 (arg regs 1)); store_u32 (uint32 (arg regs 2))].

(** 094-lchown.bpf.c *)
Definition lchown_e : program := λ k regs id, mk_body LINX_EVENT_TYPE_LCHOWN_E (-1)
  [].
Definition lchown_x : program := λ k regs ret, mk_body LINX_EVENT_TYPE_LCHOWN_X ret
  [store_charpointer (uint64 (arg regs 0)) LINX_CHARBUF_MAX_SIZE USER;
   store_u32 (uint32 (arg regs 1));
   store_u32 (uint32 (arg regs 2))].

(** 095-umask.bpf.c *)
Definition umask_e : program := λ k regs id, mk_body LINX_EVENT_TYPE_UMASK_E (-1)
  [].
Definition umask_x : program := λ k regs ret, mk_body LINX_EVENT_TYPE_UMASK_X ret
  [store_s32 (int32 (arg regs 0))].

(** 096-gettimeofday.bpf.c *)
Definition gettimeofday_e : program := λ k regs id, mk_body LINX_EVENT_TYPE_GETTIMEOFDAY_E (-1)
  [].
Definition gettimeofday_x : program := λ k regs ret, mk_body LINX_EVENT_TYPE_GETTIMEOFDAY_X ret
  [store_u64 (uint64 (arg regs 0)); store_u64 (uint64 (arg regs 1))].

(** 097-getrlimit.bpf.c *)
Definition getrlimit_e : program := λ k regs id, mk_body LINX_EVENT_TYPE_GETRLIMIT_E (-1)
  [].
Definition getrlimit_x : program := λ k regs ret, mk_body LINX_EVENT_TYPE_GETRLIMIT_X ret
  [store_u32 (uint32 (arg regs 0)); store_u64 (uint64 (arg regs 1))].

(** 098-getrusage.bpf.c *)
Definition getrusage_e : program := λ k regs id, mk_body LINX_EVENT_TYPE_GETRUSAGE_E (-1)
  [].
Definition getrusage_x : program := λ k regs ret, mk_body LINX_EVENT_TYPE_GETRUSAGE_X ret
  [store_s32 (int32 (arg regs 0)); store_u64 (uint64 (arg regs 1))].

(** 099-sysinfo.bpf.c *)
Definition sysinfo_e : program := λ k regs id, mk_body LINX_EVENT_TYPE_SYSINFO_E (-1)
  [].
Definition sysinfo_x : program := λ k regs ret, mk_body LINX_EVENT_TYPE_SYSINFO_X ret
  [store_u64 (uint64 (arg regs 0))].

(** 100-times.bpf.c *)
Definition times_e : program := λ k regs id, mk_body LINX_EVENT_TYPE_TIMES_E (-1)
  [].
Definition times_x : program := λ k regs ret, mk_body LINX_EVENT_TYPE_TIMES_X ret
  [store_u64 (uint64 (arg regs 0))].

(** 101-ptrace.bpf.c *)
Definition ptrace_e : program := λ k regs id, mk_body LINX_EVENT_TYPE_PTRACE_E (-1)
  [].
Definition ptrace_x : program := λ k regs ret, mk_body LINX_EVENT_TYPE_PTRACE_X ret
  [store_s64 (int64 (arg regs 0));
   store_s64 (int64 (arg regs 1));
   store_u64 (uint64 (arg regs 2));
   store_u64 (uint64 (arg regs 3))].

(** 102-getuid.bpf.c *)
Definition getuid_e : program := λ k regs id, mk_body LINX_EVENT_TYPE_GETUID_E (-1)
  [].
Definition getuid_x : program := λ k regs ret, mk_body LINX_EVENT_TYPE_GETUID_X ret
  [].

(** 103-syslog.bpf.c *)
Definition syslog_e : program := λ k regs id, mk_body LINX_EVENT_TYPE_SYSLOG_E (-1)
  [].
Definition syslog_x : program := λ k regs ret, mk_body LINX_EVENT_TYPE_SYSLOG_X ret
  [store_s32 (int32 (arg regs 0));
   store_charpointer (uint64 (arg regs 1)) LINX_CHARBUF_MAX_SIZE USER;
   store_s32 (int32 (arg regs 2))].

(** 104-getgid.bpf.c *)
Definition getgid_e : program := λ k regs id, mk_body LINX_EVENT_TYPE_GETGID_E (-1)
  [].
Definition getgid_x : program := λ k regs ret, mk_body LINX_EVENT_TYPE_GETGID_X ret
  [].

(** 105-setuid.bpf.c *)
Definition setuid_e : program := λ k regs id, mk_body LINX_EVENT_TYPE_SETUID_E (-1)
  [].
Definition setuid_x : program := λ k regs ret, mk_body LINX_EVENT_TYPE_SETUID_X ret
  [store_u32 (uint32 (arg regs 0))].

(** 106-setgid.bpf.c *)
Definition setgid_e : program := λ k regs id, mk_body LINX_EVENT_TYPE_SETGID_E (-1)
  [].
Definition setgid_x : program := λ k regs ret, mk_body LINX_EVENT_TYPE_SETGID_X ret
  [store_u32 (uint32 (arg regs 0))].

(** 107-geteuid.bpf.c *)
Definition geteuid_e : program := λ k regs id, mk_body LINX_EVENT_TYPE_GETEUID_E (-1)
  [].
Definition geteuid_x : program := λ k regs ret, mk_body LINX_EVENT_TYPE_GETEUID_X ret
  [].

(** 108-getegid.bpf.c *)
Definition getegid_e : program := λ k regs id, mk_body LINX_EVENT_TYPE_GETEGID_E (-1)
  [].
Definition getegid_x : program := λ k regs ret, mk_body LINX_EVENT_TYPE_GETEGID_X ret
  [].

(** 109-setpgid.bpf.c *)
Definition setpgid_e : program := λ k regs id, mk_body LINX_EVENT_TYPE_SETPGID_E (-1)
  [].
Definition setpgid_x : program := λ k regs ret, mk_body LINX_EVENT_TYPE_SETPGID_X ret
  [store_s32 (int32 (arg regs 0)); store_s32 (int32 (arg regs 1))].

(** 110-getppid.bpf.c *)
Definition getppid_e : program := λ k regs id, mk_body LINX_EVENT_TYPE_GETPPID_E (-1)
  [].
Definition getppid_x : program := λ k regs ret, mk_body LINX_EVENT_TYPE_GETPPID_X ret
  [].

(** 111-getpgrp.bpf.c *)
Definition getpgrp_e : program := λ k regs id, mk_body LINX_EVENT_TYPE_GETPGRP_E (-1)
  [].
Definition getpgrp_x : program := λ k regs ret, mk_body LINX_EVENT_TYPE_GETPGRP_X ret
  [].

(** 112-setsid.bpf.c *)
Definition setsid_e : program := λ k regs id, mk_body LINX_EVENT_TYPE_SETSID_E (-1)
  [].
Definition setsid_x : program := λ k regs ret, mk_body LINX_EVENT_TYPE_SETSID_X ret
  [].

(** 113-setreuid.bpf.c *)
Definition setreuid_e : program := λ k regs id, mk_body LINX_EVENT_TYPE_SETREUID_E (-1)
  [].
Definition setreuid_x : program := λ k regs ret, mk_body LINX_EVENT_TYPE_SETREUID_X ret
  [store_u32 (uint32 (arg regs 0)); store_u32 (uint32 (arg regs 1))].

(** 114-setregid.bpf.c *)
Definition setregid_e : program := λ k regs id, mk_body LINX_EVENT_TYPE_SETREGID_E (-1)
  [].
Definition setregid_x : program := λ k regs ret, mk_body LINX_EVENT_TYPE_SETREGID_X ret
  [store_u32 (uint32 (arg regs 0)); store_u32 (uint32 (arg regs 1))].

(** 115-getgroups.bpf.c *)
Definition getgroups_e : program := λ k regs id, mk_body LINX_EVENT_TYPE_GETGROUPS_E (-1)
  [].
Definition getgroups_x : program := λ k regs ret, mk_body LINX_EVENT_TYPE_GETGROUPS_X ret
  [store_s32 (int32 (arg regs 0)); store_u32 (user_uint32 k (arg regs 1))].

(** 116-setgroups.bpf.c *)
Definition setgroups_e : program := λ k regs id, mk_body LINX_EVENT_TYPE_SETGROUPS_E (-1)
  [].
Definition setgroups_x : program := λ k regs ret, mk_body LINX_EVENT_TYPE_SETGROUPS_X ret
  [store_s32 (int32 (arg regs 0)); store_u32 (user_uint32 k (arg regs 1))].

(** 117-setresuid.bpf.c *)
Definition setresuid_e : program := λ k regs id, mk_body LINX_EVENT_TYPE_SETRESUID_E (-1)
  [].
Definition setresuid_x : program := λ k regs ret, mk_body LINX_EVENT_TYPE_SETRESUID_X ret
  [store_u32 (uint32 (arg regs 0)); store_u32 (uint32 (arg regs 1)); store_u32 (uint32 (arg regs 2))].

(** 118-getresuid.bpf.c *)
Definition getresuid_e : program := λ k regs id, mk_body LINX_EVENT_TYPE_GETRESUID_E (-1)
  [].
Definition getresuid_x : program := λ k regs ret, mk_body LINX_EVENT_TYPE_GETRESUID_X ret
  [store_u32 (user_uint32 k (arg regs 0));
   store_u32 (user_uint32 k (arg regs 1));
   store_u32 (user_uint32 k (arg regs 2))].

(** 119-setresgid.bpf.c *)
Definition setresgid_e : program := λ k regs id, mk_body LINX_EVENT_TYPE_SETRESGID_E (-1)
  [].
Definition setresgid_x : program := λ k regs ret, mk_body LINX_EVENT_TYPE_SETRESGID_X ret
  [store_u32 (uint32 (arg regs 0)); store_u32 (uint32 (arg regs 1)); store_u32 (uint32 (arg regs 2))].

(** 120-getresgid.bpf.c *)
Definition getresgid_e : program := λ k regs id, mk_body LINX_EVENT_TYPE_GETRESGID_E (-1)
  [].
Definition getresgid_x : program := λ k regs ret, mk_body LINX_EVENT_TYPE_GETRESGID_X ret
  [store_u32 (user_uint32 k (arg regs 0));
   store_u32 (user_uint32 k (arg regs 1));
   store_u32 (user_uint32 k (arg regs 2))].

(** 121-getpgid.bpf.c *)
Definition getpgid_e : program := λ k regs id, mk_body LINX_EVENT_TYPE_GETPGID_E (-1)
  [].
Definition getpgid_x : program := λ k regs ret, mk_body LINX_EVENT_TYPE_GETPGID_X ret
  [store_s32 (int32 (arg regs 0))].

(** 122-setfsuid.bpf.c *)
Definition setfsuid_e : program := λ k regs id, mk_body LINX_EVENT_TYPE_SETFSUID_E (-1)
  [].
Definition setfsuid_x : program := λ k regs ret, mk_body LINX_EVENT_TYPE_SETFSUID_X ret
  [store_u32 (uint32 (arg regs 0))].

(** 123-setfsgid.bpf.c *)
Definition setfsgid_e : program := λ k regs id, mk_body LINX_EVENT_TYPE_SETFSGID_E (-1)
  [].
Definition setfsgid_x : program := λ k regs ret, mk_body LINX_EVENT_TYPE_SETFSGID_X ret
  [store_u32 (uint32 (arg regs 0))].

(** 124-getsid.bpf.c *)
Definition getsid_e : program := λ k regs id, mk_body LINX_EVENT_TYPE_GETSID_E (-1)
  [].
Definition getsid_x : program := λ k regs ret, mk_body LINX_EVENT_TYPE_GETSID_X ret
  [store_s32 (int32 (arg regs 0))].

(** 125-capget.bpf.c *)
Definition capget_e : program := λ k regs id, mk_body LINX_EVENT_TYPE_CAPGET_E (-1)
  [].
Definition capget_x : program := λ k regs ret, mk_body LINX_EVENT_TYPE_CAPGET_X ret
  [store_u64 (uint64 (arg regs 0)); store_u64 (uint64 (arg regs 1))].

(** 126-capset.bpf.c *)
Definition capset_e : program := λ k regs id, mk_body LINX_EVENT_TYPE_CAPSET_E (-1)
  [].
Definition capset_x : program := λ k regs ret, mk_body LINX_EVENT_TYPE_CAPSET_X ret
  [store_u64 (uint64 (arg regs 0)); store_u64 (uint64 (arg regs 1))].

(** 127-rt_sigpending.bpf.c *)
Definition rt_sigpending_e : program := λ k regs id, mk_body LINX_EVENT_TYPE_RT_SIGPENDING_E (-1)
  [].
Definition rt_sigpending_x : program := λ k regs ret, mk_body LINX_EVENT_TYPE_RT_SIGPENDING_X ret
  [store_u64 (uint64 (arg regs 0)); store_u64 (uint64 (arg regs 1))].

(** 128-rt_sigtimedwait.bpf.c *)
Definition rt_sigtimedwait_e : program := λ k regs id, mk_body LINX_EVENT_TYPE_RT_SIGTIMEDWAIT_E (-1)
  [].
Definition rt_sigtimedwait_x : program := λ k regs ret, mk_body LINX_EVENT_TYPE_RT_SIGTIMEDWAIT_X ret
  [store_u64 (uint64 (arg regs 0));
   store_u64 (uint64 (arg regs 1));
   store_u64 (uint64 (arg regs 2));
   store_u64 (uint64 (arg regs 3))].

(** 129-rt_sigqueueinfo.bpf.c *)
Definition rt_sigqueueinfo_e : program := λ k regs id, mk_body LINX_EVENT_TYPE_RT_SIGQUEUEINFO_E (-1)
  [].
Definition rt_sigqueueinfo_x : program := λ k regs ret, mk_body LINX_EVENT_TYPE_RT_SIGQUEUEINFO_X ret
  [store_s32 (int32 (arg regs 0)); store_s32 (int32 (arg regs 1)); store_u64 (uint64 (arg regs 2))].

(** 130-rt_sigsuspend.bpf.c *)
Definition rt_sigsuspend_e : program := λ k regs id, mk_body LINX_EVENT_TYPE_RT_SIGSUSPEND_E (-1)
  [].
Definition rt_sigsuspend_x : program := λ k regs ret, mk_body LINX_EVENT_TYPE_RT_SIGSUSPEND_X ret
  [store_u64 (uint64 (arg regs 0)); store_u64 (uint64 (arg regs 1))].

(** 131-sigaltstack.bpf.c *)
Definition sigaltstack_e : program := λ k regs id, mk_body LINX_EVENT_TYPE_SIGALTSTACK_E (-1)
  [].
Definition sigaltstack_x : program := λ k regs ret, mk_body LINX_EVENT_TYPE_SIGALTSTACK_X ret
  [store_u64 (uint64 (arg regs 0)); store_u64 (uint64 (arg regs 1))].

(** 132-utime.bpf.c *)
Definition utime_e : program := λ k regs id, mk_body LINX_EVENT_TYPE_UTIME_E (-1)
  [].
Definition utime_x : program := λ k regs ret, mk_body LINX_EVENT_TYPE_UTIME_X ret
  [store_charpointer (uint64 (arg regs 0)) LINX_CHARBUF_MAX_SIZE USER; store_u64 (uint64 (arg regs 1))].

(** 133-mknod.bpf.c *)
Definition mknod_e : program := λ k regs id, mk_body LINX_EVENT_TYPE_MKNOD_E (-1)
  [].
Definition mknod_x : program := λ k regs ret, mk_body LINX_EVENT_TYPE_MKNOD_X ret
  [store_charpointer (uint64 (arg regs 0)) LINX_CHARBUF_MAX_SIZE USER;
   store_u16 (uint16 (arg regs 1));
   store_u32 (uint32 (arg regs 2))].

(** 134-uselib.bpf.c *)
Definition uselib_e : program := λ k regs id, mk_body LINX_EVENT_TYPE_USELIB_E (-1)
  [].
Definition uselib_x : program := λ k regs ret, mk_body LINX_EVENT_TYPE_USELIB_X ret
  [store_charpointer (uint64 (arg regs 0)) LINX_CHARBUF_MAX_SIZE USER].

(** 135-personality.bpf.c *)
Definition personality_e : program := λ k regs id, mk_body LINX_EVENT_TYPE_PERSONALITY_E (-1)
  [].
Definition personality_x : program := λ k regs ret, mk_body LINX_EVENT_TYPE_PERSONALITY_X ret
  [store_u32 (uint32 (arg regs 0))].

(** 136-ustat.bpf.c *)
Definition ustat_e : program := λ k regs id, mk_body LINX_EVENT_TYPE_USTAT_E (-1)
  [].
Definition ustat_x : program := λ k regs ret, mk_body LINX_EVENT_TYPE_USTAT_X ret
  [store_u32 (uint32 (arg regs 0)); store_u64 (uint64 (arg regs 1))].

(** 137-statfs.bpf.c *)
Definition statfs_e : program := λ k regs id, mk_body LINX_EVENT_TYPE_STATFS_E (-1)
  [].
Definition statfs_x : program := λ k regs ret, mk_body LINX_EVENT_TYPE_STATFS_X ret
  [store_charpointer (uint64 (arg regs 0)) LINX_CHARBUF_MAX_SIZE USER; store_u64 (uint64 (arg regs 1))].

(** 138-fstatfs.bpf.c *)
Definition fstatfs_e : program := λ k regs id, mk_body LINX_EVENT_TYPE_FSTATFS_E (-1)
  [].
Definition fstatfs_x : program := λ k regs ret, mk_body LINX_EVENT_TYPE_FSTATFS_X ret
  [store_u32 (uint32 (arg regs 0)); store_u64 (uint64 (arg regs 1))].

(** 139-sysfs.bpf.c *)
Definition sysfs_e : program := λ k regs id, mk_body LINX_EVENT_TYPE_SYSFS_E (-1)
  [].
Definition sysfs_x : program := λ k regs ret, mk_body LINX_EVENT_TYPE_SYSFS_X ret
  [store_s32 (int32 (arg regs 0)); store_u64 (uint64 (arg regs 1)); store_u64 (uint64 (arg regs 2))].

(** 140-getpriority.bpf.c *)
Definition getpriority_e : program := λ k regs id, mk_body LINX_EVENT_TYPE_GETPRIORITY_E (-1)
  [].
Definition getpriority_x : program := λ k regs ret, mk_body LINX_EVENT_TYPE_GETPRIORITY_X ret
  [store_s32 (int32 (arg regs 0)); store_s32 (int32 (arg regs 1))].

(** 141-setpriority.bpf.c *)
Definition setpriority_e : program := λ k regs id, mk_body LINX_EVENT_TYPE_SETPRIORITY_E (-1)
  [].
Definition setpriority_x : program := λ k regs ret, mk_body LINX_EVENT_TYPE_SETPRIORITY_X ret
  [store_s32 (int32 (arg regs 0)); store_s32 (int32 (arg regs 1)); store_s32 (int32 (arg regs 2))].

(** 142-sched_setparam.bpf.c *)
Definition sched_setparam_e : program := λ k regs id, mk_body LINX_EVENT_TYPE_SCHED_SETPARAM_E (-1)
  [].
Definition sched_setparam_x : program := λ k regs ret, mk_body LINX_EVENT_TYPE_SCHED_SETPARAM_X ret
  [store_s32 (int32 (arg regs 0)); store_u64 (uint64 (arg regs 1))].

(** 143-sched_getparam.bpf.c *)
Definition sched_getparam_e : program := λ k regs id, mk_body LINX_EVENT_TYPE_SCHED_GETPARAM_E (-1)
  [].
Definition sched_getparam_x : program := λ k regs ret, mk_body LINX_EVENT_TYPE_SCHED_GETPARAM_X ret
  [store_s32 (int32 (arg regs 0)); store_u64 (uint64 (arg regs 1))].

(** 144-sched_setscheduler.bpf.c *)
Definition sched_setscheduler_e : program := λ k regs id, mk_body LINX_EVENT_TYPE_SCHED_SETSCHEDULER_E (-1)
  [].
Definition sched_setscheduler_x : program := λ k regs ret, mk_body LINX_EVENT_TYPE_SCHED_SETSCHEDULER_X ret
  [store_s32 (int32 (arg regs 0)); store_s32 (int32 (arg regs 1)); store_u64 (uint64 (arg regs 2))].

(** 145-sched_getscheduler.bpf.c *)
Definition sched_getscheduler_e : program := λ k regs id, mk_body LINX_EVENT_TYPE_SCHED_GETSCHEDULER_E (-1)
  [].
Definition sched_getscheduler_x : program := λ k regs ret, mk_body LINX_EVENT_TYPE_SCHED_GETSCHEDULER_X ret
  [store_s32 (int32 (arg regs 0))].

(** 146-sched_get_priority_max.bpf.c *)
Definition sched_get_priority_max_e : program := λ k regs id, mk_body LINX_EVENT_TYPE_SCHED_GET_PRIORITY_MAX_E (-1)
  [].
Definition sched_get_priority_max_x : program := λ k regs ret, mk_body LINX_EVENT_TYPE_SCHED_GET_PRIORITY_MAX_X ret
  [store_s32 (int32 (arg regs 0))].

(** 147-sched_get_priority_min.bpf.c *)
Definition sched_get_priority_min_e : program := λ k regs id, mk_body LINX_EVENT_TYPE_SCHED_GET_PRIORITY_MIN_E (-1)
  [].
Definition sched_get_priority_min_x : program := λ k regs ret, mk_body LINX_EVENT_TYPE_SCHED_GET_PRIORITY_MIN_X ret
  [store_s32 (int32 (arg regs 0))].

(** 148-sched_rr_get_interval.bpf.c *)
Definition sched_rr_get_interval_e : program := λ k regs id, mk_body LINX_EVENT_TYPE_SCHED_RR_GET_INTERVAL_E (-1)
  [].
Definition sched_rr_get_interval_x : program := λ k regs ret, mk_body LINX_EVENT_TYPE_SCHED_RR_GET_INTERVAL_X ret
  [store_s32 (int32 (arg regs 0)); store_u64 (uint64 (arg regs 1))].

(** 149-mlock.bpf.c *)
Definition mlock_e : program := λ k regs id, mk_body LINX_EVENT_TYPE_MLOCK_E (-1)
  [].
Definition mlock_x : program := λ k regs ret, mk_body LINX_EVENT_TYPE_MLOCK_X ret
  [store_u64 (uint64 (arg regs 0)); store_u64 (uint64 (arg regs 1))].

(** 150-munlock.bpf.c *)
Definition munlock_e : program := λ k regs id, mk_body LINX_EVENT_TYPE_MUNLOCK_E (-1)
  [].
Definition munlock_x : program := λ k regs ret, mk_body LINX_EVENT_TYPE_MUNLOCK_X ret
  [store_u64 (uint64 (arg regs 0)); store_u64 (uint64 (arg regs 1))].

(** 151-mlockall.bpf.c *)
Definition mlockall_e : program := λ k regs id, mk_body LINX_EVENT_TYPE_MLOCKALL_E (-1)
  [].
Definition mlockall_x : program := λ k regs ret, mk_body LINX_EVENT_TYPE_MLOCKALL_X ret
  [store_s32 (int32 (arg regs 0))].

(** 152-munlockall.bpf.c *)
Definition munlockall_e : program := λ k regs id, mk_body LINX_EVENT_TYPE_MUNLOCKALL_E (-1)
  [].
Definition munlockall_x : program := λ k regs ret, mk_body LINX_EVENT_TYPE_MUNLOCKALL_X ret
  [].

(** 153-vhangup.bpf.c *)
Definition vhangup_e : program := λ k regs id, mk_body LINX_EVENT_TYPE_VHANGUP_E (-1)
  [].
Definition vhangup_x : program := λ k regs ret, mk_body LINX_EVENT_TYPE_VHANGUP_X ret
  [].

(** 154-modify_ldt.bpf.c *)
Definition modify_ldt_e : program := λ k regs id, mk_body LINX_EVENT_TYPE_MODIFY_LDT_E (-1)
  [].
Definition modify_ldt_x : program := λ k regs ret, mk_body LINX_EVENT_TYPE_MODIFY_LDT_X ret
  [store_s32 (int32 (arg regs 0)); store_u64 (uint64 (arg regs 1)); store_u64 (uint64 (arg regs 2))].

(** 155-pivot_root.bpf.c *)
Definition pivot_root_e : program := λ k regs id, mk_body LINX_EVENT_TYPE_PIVOT_ROOT_E (-1)
  [].
Definition pivot_root_x : program := λ k regs ret, mk_body LINX_EVENT_TYPE_PIVOT_ROOT_X ret
  [store_charpointer (uint64 (arg regs 0)) LINX_CHARBUF_MAX_SIZE USER;
   store_charpointer (uint64 (arg regs 1)) LINX_CHARBUF_MAX_SIZE USER].

(** 156-_sysctl.bpf.c *)
Definition _sysctl_e : program := λ k regs id, mk_body LINX_EVENT_TYPE__SYSCTL_E (-1)
  [].
Definition _sysctl_x : program := λ k regs ret, mk_body LINX_EVENT_TYPE__SYSCTL_X ret
  [store_u64 (uint64 (arg regs 0))].

(** 157-prctl.bpf.c *)
Definition prctl_e : program := λ k regs id, mk_body LINX_EVENT_TYPE_PRCTL_E (-1)
  [].
Definition prctl_x : program := λ k regs ret, mk_body LINX_EVENT_TYPE_PRCTL_X ret
  [store_s32 (int32 (arg regs 0));
   store_u64 (uint64 (arg regs 1));
   store_u64 (uint64 (arg regs 2));
   store_u64 (uint64 (arg regs 3));
   store_u64 (uint64 (arg regs 4))].

(** 158-arch_prctl.bpf.c *)
Definition arch_prctl_e : program := λ k regs id, mk_body LINX_EVENT_TYPE_ARCH_PRCTL_E (-1)
  [].
Definition arch_prctl_x : program := λ k regs ret, mk_body LINX_EVENT_TYPE_ARCH_PRCTL_X ret
  [store_s32 (int32 (arg regs 0)); store_u64 (uint64 (arg regs 1))].

(** 159-adjtimex.bpf.c *)
Definition adjtimex_e : program := λ k regs id, mk_body LINX_EVENT_TYPE_ADJTIMEX_E (-1)
  [].
Definition adjtimex_x : program := λ k regs ret, mk_body LINX_EVENT_TYPE_ADJTIMEX_X ret
  [store_u64 (uint64 (arg regs 0))].

(** 160-setrlimit.bpf.c *)
Definition setrlimit_e : program := λ k regs id, mk_body LINX_EVENT_TYPE_SETRLIMIT_E (-1)
  [].
Definition setrlimit_x : program := λ k regs ret, mk_body LINX_EVENT_TYPE_SETRLIMIT_X ret
  [store_u32 (uint32 (arg regs 0)); store_u64 (uint64 (arg regs 1))].

(** 161-chroot.bpf.c *)
Definition chroot_e : program := λ k regs id, mk_body LINX_EVENT_TYPE_CHROOT_E (-1)
  [].
Definition chroot_x : program := λ k regs ret, mk_body LINX_EVENT_TYPE_CHROOT_X ret
  [store_charpointer (uint64 (arg regs 0)) LINX_CHARBUF_MAX_SIZE USER].

(** 162-sync.bpf.c *)
Definition sync_e : program := λ k regs id, mk_body LINX_EVENT_TYPE_SYNC_E (-1)
  [].
Definition sync_x : program := λ k regs ret, mk_body LINX_EVENT_TYPE_SYNC_X ret
  [].

(** 163-acct.bpf.c *)
Definition acct_e : program := λ k regs id, mk_body LINX_EVENT_TYPE_ACCT_E (-1)
  [].
Definition acct_x : program := λ k regs ret, mk_body LINX_EVENT_TYPE_ACCT_X ret
  [store_charpointer (uint64 (arg regs 0)) LINX_CHARBUF_MAX_SIZE USER].

(** 164-settimeofday.bpf.c *)
Definition settimeofday_e : program := λ k regs id, mk_body LINX_EVENT_TYPE_SETTIMEOFDAY_E (-1)
  [].
Definition settimeofday_x : program := λ k regs ret, mk_body LINX_EVENT_TYPE_SETTIMEOFDAY_X ret
  [store_u64 (uint64 (arg regs 0)); store_u64 (uint64 (arg regs 1))].

(** 165-mount.bpf.c *)
Definition mount_e : program := λ k regs id, mk_body LINX_EVENT_TYPE_MOUNT_E (-1)
  [].
Definition mount_x : program := λ k regs ret, mk_body LINX_EVENT_TYPE_MOUNT_X ret
  [store_charpointer (uint64 (arg regs 0)) LINX_CHARBUF_MAX_SIZE USER;
   store_charpointer (uint64 (arg regs 1)) LINX_CHARBUF_MAX_SIZE USER;
   store_charpointer (uint64 (arg regs 2)) LINX_CHARBUF_MAX_SIZE USER;
   store_u64 (uint64 (arg regs 3));
   store_u64 (uint64 (arg regs 4))].

(** 166-umount2.bpf.c *)
Definition umount2_e : program := λ k regs id, mk_body LINX_EVENT_TYPE_UMOUNT2_E (-1)
  [].
Definition umount2_x : program := λ k regs ret, mk_body LINX_EVENT_TYPE_UMOUNT2_X ret
  [store_charpointer (uint64 (arg regs 0)) LINX_CHARBUF_MAX_SIZE USER; store_s32 (int32 (arg regs 1))].

(** 167-swapon.bpf.c *)
Definition swapon_e : program := λ k regs id, mk_body LINX_EVENT_TYPE_SWAPON_E (-1)
  [].
Definition swapon_x : program := λ k regs ret, mk_body LINX_EVENT_TYPE_SWAPON_X ret
  [store_charpointer (uint64 (arg regs 0)) LINX_CHARBUF_MAX_SIZE USER; store_s32 (int32 (arg regs 1))].

(** 168-swapoff.bpf.c *)
Definition swapoff_e : program := λ k regs id, mk_body LINX_EVENT_TYPE_SWAPOFF_E (-1)
  [].
Definition swapoff_x : program := λ k regs ret, mk_body LINX_EVENT_TYPE_SWAPOFF_X ret
  [store_charpointer (uint64 (arg regs 0)) LINX_CHARBUF_MAX_SIZE USER].

(** 169-reboot.bpf.c *)
Definition reboot_e : program := λ k regs id, mk_body LINX_EVENT_TYPE_REBOOT_E (-1)
  [].
Definition reboot_x : program := λ k regs ret, mk_body LINX_EVENT_TYPE_REBOOT_X ret
  [store_s32 (int32 (arg regs 0));
   store_s32 (int32 (arg regs 1));
   store_u32 (uint32 (arg regs 2));
   store_u64 (uint64 (arg regs 3))].

(** 170-sethostname.bpf.c *)
Definition sethostname_e : program := λ k regs id, mk_body LINX_EVENT_TYPE_SETHOSTNAME_E (-1)
  [].
Definition sethostname_x : program := λ k regs ret, mk_body LINX_EVENT_TYPE_SETHOSTNAME_X ret
  [store_charpointer (uint64 (arg regs 0)) LINX_CHARBUF_MAX_SIZE USER; store_s32 (int32 (arg regs 1))].

(** 171-setdomainname.bpf.c *)
Definition setdomainname_e : program := λ k regs id, mk_body LINX_EVENT_TYPE_SETDOMAINNAME_E (-1)
  [].
Definition setdomainname_x : program := λ k regs ret, mk_body LINX_EVENT_TYPE_SETDOMAINNAME_X ret
  [store_charpointer (uint64 (arg regs 0)) LINX_CHARBUF_MAX_SIZE USER; store_s32 (int32 (arg regs 1))].

(** 172-iopl.bpf.c *)
Definition iopl_e : program := λ k regs id, mk_body LINX_EVENT_TYPE_IOPL_E (-1)
  [].
Definition iopl_x : program := λ k regs ret, mk_body LINX_EVENT_TYPE_IOPL_X ret
  [store_u32 (uint32 (arg regs 0))].

(** 173-ioperm.bpf.c *)
Definition ioperm_e : program := λ k regs id, mk_body LINX_EVENT_TYPE_IOPERM_E (-1)
  [].
Definition ioperm_x : program := λ k regs ret, mk_body LINX_EVENT_TYPE_IOPERM_X ret
  [store_u64 (uint64 (arg regs 0)); store_u64 (uint64 (arg regs 1)); store_s32 (int32 (arg regs 2))].

(** 174-create_module.bpf.c *)
Definition create_module_e : program := λ k regs id, mk_body LINX_EVENT_TYPE_CREATE_MODULE_E (-1)
  [].
Definition create_module_x : program := λ k regs ret, mk_body LINX_EVENT_TYPE_CREATE_MODULE_X ret
  [store_charpointer (uint64 (arg regs 0)) LINX_CHARBUF_MAX_SIZE USER; store_u64 (uint64 (arg regs 1))].

(** 175-init_module.bpf.c *)
Definition init_module_e : program := λ k regs id, mk_body LINX_EVENT_TYPE_INIT_MODULE_E (-1)
  [].
Definition init_module_x : program := λ k regs ret, mk_body LINX_EVENT_TYPE_INIT_MODULE_X ret
  [store_u64 (uint64 (arg regs 0));
   store_u64 (uint64 (arg regs 1));
   store_charpointer (uint64 (arg regs 2)) LINX_CHARBUF_MAX_SIZE USER].

(** 176-delete_module.bpf.c *)
Definition delete_module_e : program := λ k regs id, mk_body LINX_EVENT_TYPE_DELETE_MODULE_E (-1)
  [].
Definition delete_module_x : program := λ k regs ret, mk_body LINX_EVENT_TYPE_DELETE_MODULE_X ret
  [store_charpointer (uint64 (arg regs 0)) LINX_CHARBUF_MAX_SIZE USER; store_u32 (uint32 (arg regs 1))].

(** 177-get_kernel_syms.bpf.c *)
Definition get_kernel_syms_e : program := λ k regs id, mk_body LINX_EVENT_TYPE_GET_KERNEL_SYMS_E (-1)
  [].
Definition get_kernel_syms_x : program := λ k regs ret, mk_body LINX_EVENT_TYPE_GET_KERNEL_SYMS_X ret
  [store_u64 (uint64 (arg regs 0))].
