(* ===== verification/Programs3.v ===== *)
(** * Programs of the system calls 178 to 274 (kernel/ebpf/tail_calls)

    One definition per program of the numbered files, entry then exit: the type
    and the result it loads and its stores in order. *)
From S2P Require Import Prelude CString Memory EventType Bpf Ringbuf.

#[local] Open Scope Z_scope.
#[local] Abbreviation arg := get_pt_regs_argumnet.

(** 178-query_module.bpf.c *)
Definition query_module_e : program := λ k regs id, mk_body LINX_EVENT_TYPE_QUERY_MODULE_E (-1)
  [].
Definition query_module_x : program := λ k regs ret, mk_body LINX_EVENT_TYPE_QUERY_MODULE_X ret
  [store_charpointer (uint64 (arg regs 0)) LINX_CHARBUF_MAX_SIZE USER;
   store_s32 (int32 (arg regs 1));
   store_u64 (uint64 (arg regs 2));
   store_u64 (uint64 (arg regs 3));
   store_u64 (user_uint64 k (arg regs 4))].

(** 179-quotactl.bpf.c *)
Definition quotactl_e : program := λ k regs id, mk_body LINX_EVENT_TYPE_QUOTACTL_E (-1)
  [].
Definition quotactl_x : program := λ k regs ret, mk_body LINX_EVENT_TYPE_QUOTACTL_X ret
  [store_u32 (uint32 (arg regs 0));
   store_charpointer (uint64 (arg regs 1)) LINX_CHARBUF_MAX_SIZE USER;
   store_u32 (uint32 (arg regs 2));
   store_u64 (uint64 (arg regs 3))].

(** 180-nfsservctl.bpf.c *)
Definition nfsservctl_e : program := λ k regs id, mk_body LINX_EVENT_TYPE_NFSSERVCTL_E (-1)
  [].
Definition nfsservctl_x : program := λ k regs ret, mk_body LINX_EVENT_TYPE_NFSSERVCTL_X ret
  [store_s32 (int32 (arg regs 0)); store_u64 (uint64 (arg regs 1)); store_u64 (uint64 (arg regs 2))].

(** 186-gettid.bpf.c *)
Definition gettid_e : program := λ k regs id, mk_body LINX_EVENT_TYPE_GETTID_E (-1)
  [].
Definition gettid_x : program := λ k regs ret, mk_body LINX_EVENT_TYPE_GETTID_X ret
  [].

(** 187-readahead.bpf.c *)
Definition readahead_e : program := λ k regs id, mk_body LINX_EVENT_TYPE_READAHEAD_E (-1)
  [].
Definition readahead_x : program := λ k regs ret, mk_body LINX_EVENT_TYPE_READAHEAD_X ret
  [store_s32 (int32 (arg regs 0)); store_s64 (int64 (arg regs 1)); store_u64 (uint64 (arg regs 2))].

(** 188-setxattr.bpf.c *)
Definition setxattr_e : program := λ k regs id, mk_body LINX_EVENT_TYPE_SETXATTR_E (-1)
  [].
Definition setxattr_x : program := λ k regs ret, mk_body LINX_EVENT_TYPE_SETXATTR_X ret
  [store_charpointer (uint64 (arg regs 0)) LINX_CHARBUF_MAX_SIZE USER;
   store_charpointer (uint64 (arg regs 1)) LINX_CHARBUF_MAX_SIZE USER;
   store_u64 (uint64 (arg regs 2));
   store_u64 (uint64 (arg regs 3));
   store_s32 (int32 (arg regs 4))].

(** 189-lsetxattr.bpf.c *)
Definition lsetxattr_e : program := λ k regs id, mk_body LINX_EVENT_TYPE_LSETXATTR_E (-1)
  [].
Definition lsetxattr_x : program := λ k regs ret, mk_body LINX_EVENT_TYPE_LSETXATTR_X ret
  [store_charpointer (uint64 (arg regs 0)) LINX_CHARBUF_MAX_SIZE USER;
   store_charpointer (uint64 (arg regs 1)) LINX_CHARBUF_MAX_SIZE USER;
   store_u64 (uint64 (arg regs 2));
   store_u64 (uint64 (arg regs 3));
   store_s32 (int32 (arg regs 4))].

(** 190-fsetxattr.bpf.c *)
Definition fsetxattr_e : program := λ k regs id, mk_body LINX_EVENT_TYPE_FSETXATTR_E (-1)
  [].
Definition fsetxattr_x : program := λ k regs ret, mk_body LINX_EVENT_TYPE_FSETXATTR_X ret
  [store_s32 (int32 (arg regs 0));
   store_charpointer (uint64 (arg regs 1)) LINX_CHARBUF_MAX_SIZE USER;
   store_u64 (uint64 (arg regs 2));
   store_u64 (uint64 (arg regs 3));
   store_s32 (int32 (arg regs 4))].

(** 191-getxattr.bpf.c *)
Definition getxattr_e : program := λ k regs id, mk_body LINX_EVENT_TYPE_GETXATTR_E (-1)
  [].
Definition getxattr_x : program := λ k regs ret, mk_body LINX_EVENT_TYPE_GETXATTR_X ret
  [store_charpointer (uint64 (arg regs 0)) LINX_CHARBUF_MAX_SIZE USER;
   store_charpointer (uint64 (arg regs 1)) LINX_CHARBUF_MAX_SIZE USER;
   store_u64 (uint64 (arg regs 2));
   store_u64 (uint64 (arg regs 3))].

(** 192-lgetxattr.bpf.c *)
Definition lgetxattr_e : program := λ k regs id, mk_body LINX_EVENT_TYPE_LGETXATTR_E (-1)
  [].
Definition lgetxattr_x : program := λ k regs ret, mk_body LINX_EVENT_TYPE_LGETXATTR_X ret
  [store_charpointer (uint64 (arg regs 0)) LINX_CHARBUF_MAX_SIZE USER;
   store_charpointer (uint64 (arg regs 1)) LINX_CHARBUF_MAX_SIZE USER;
   store_u64 (uint64 (arg regs 2));
   store_u64 (uint64 (arg regs 3))].

(** 193-fgetxattr.bpf.c *)
Definition fgetxattr_e : program := λ k regs id, mk_body LINX_EVENT_TYPE_FGETXATTR_E (-1)
  [].
Definition fgetxattr_x : program := λ k regs ret, mk_body LINX_EVENT_TYPE_FGETXATTR_X ret
  [store_s32 (int32 (arg regs 0));
   store_charpointer (uint64 (arg regs 1)) LINX_CHARBUF_MAX_SIZE USER;
   store_u64 (uint64 (arg regs 2));
   store_u64 (uint64 (arg regs 3))].

(** 194-listxattr.bpf.c *)
Definition listxattr_e : program := λ k regs id, mk_body LINX_EVENT_TYPE_LISTXATTR_E (-1)
  [].
Definition listxattr_x : program := λ k regs ret, mk_body LINX_EVENT_TYPE_LISTXATTR_X ret
  [store_charpointer (uint64 (arg regs 0)) LINX_CHARBUF_MAX_SIZE USER;
   store_charpointer (uint64 (arg regs 1)) LINX_CHARBUF_MAX_SIZE USER;
   store_u64 (uint64 (arg regs 2))].

(** 195-llistxattr.bpf.c *)
Definition llistxattr_e : program := λ k regs id, mk_body LINX_EVENT_TYPE_LLISTXATTR_E (-1)
  [].
Definition llistxattr_x : program := λ k regs ret, mk_body LINX_EVENT_TYPE_LLISTXATTR_X ret
  [store_charpointer (uint64 (arg regs 0)) LINX_CHARBUF_MAX_SIZE USER;
   store_charpointer (uint64 (arg regs 1)) LINX_CHARBUF_MAX_SIZE USER;
   store_u64 (uint64 (arg regs 2))].

(** 196-flistxattr.bpf.c *)
Definition flistxattr_e : program := λ k regs id, mk_body LINX_EVENT_TYPE_FLISTXATTR_E (-1)
  [].
Definition flistxattr_x : program := λ k regs ret, mk_body LINX_EVENT_TYPE_FLISTXATTR_X ret
  [store_s32 (int32 (arg regs 0));
   store_charpointer (uint64 (arg regs 1)) LINX_CHARBUF_MAX_SIZE USER;
   store_u64 (uint64 (arg regs 2))].

(** 197-removexattr.bpf.c *)
Definition removexattr_e : program := λ k regs id, mk_body LINX_EVENT_TYPE_REMOVEXATTR_E (-1)
  [].
Definition removexattr_x : program := λ k regs ret, mk_body LINX_EVENT_TYPE_REMOVEXATTR_X ret
  [store_charpointer (uint64 (arg regs 0)) LINX_CHARBUF_MAX_SIZE USER;
   store_charpointer (uint64 (arg regs 1)) LINX_CHARBUF_MAX_SIZE USER].

(** 198-lremovexattr.bpf.c *)
Definition lremovexattr_e : program := λ k regs id, mk_body LINX_EVENT_TYPE_LREMOVEXATTR_E (-1)
  [].
Definition lremovexattr_x : program := λ k regs ret, mk_body LINX_EVENT_TYPE_LREMOVEXATTR_X ret
  [store_charpointer (uint64 (arg regs 0)) LINX_CHARBUF_MAX_SIZE USER;
   store_charpointer (uint64 (arg regs 1)) LINX_CHARBUF_MAX_SIZE USER].

(** 199-fremovexattr.bpf.c *)
Definition fremovexattr_e : program := λ k regs id, mk_body LINX_EVENT_TYPE_FREMOVEXATTR_E (-1)
  [].
Definition fremovexattr_x : program := λ k regs ret, mk_body LINX_EVENT_TYPE_FREMOVEXATTR_X ret
  [store_s32 (int32 (arg regs 0)); store_charpointer (uint64 (arg regs 1)) LINX_CHARBUF_MAX_SIZE USER].

(** 200-tkill.bpf.c *)
Definition tkill_e : program := λ k regs id, mk_body LINX_EVENT_TYPE_TKILL_E (-1)
  [].
Definition tkill_x : program := λ k regs ret, mk_body LINX_EVENT_TYPE_TKILL_X ret
  [store_s32 (int32 (arg regs 0)); store_s32 (int32 (arg regs 1))].

(** 201-time.bpf.c *)
Definition time_e : program := λ k regs id, mk_body LINX_EVENT_TYPE_TIME_E (-1)
  [].
Definition time_x : program := λ k regs ret, mk_body LINX_EVENT_TYPE_TIME_X ret
  [store_u64 (uint64 (arg regs 0))].

(** 202-futex.bpf.c *)
Definition futex_e : program := λ k regs id, mk_body LINX_EVENT_TYPE_FUTEX_E (-1)
  [].
Definition futex_x : program := λ k regs ret, mk_body LINX_EVENT_TYPE_FUTEX_X ret
  [store_u32 (user_uint32 k (arg regs 0));
   store_s32 (int32 (arg regs 1));
   store_u32 (uint32 (arg regs 2));
   store_u64 (uint64 (arg regs 3));
   store_u32 (user_uint32 k (arg regs 4));
   store_u32 (uint32 (arg regs 5))].

(** 203-sched_setaffinity.bpf.c *)
Definition sched_setaffinity_e : program := λ k regs id, mk_body LINX_EVENT_TYPE_SCHED_SETAFFINITY_E (-1)
  [].
Definition sched_setaffinity_x : program := λ k regs ret, mk_body LINX_EVENT_TYPE_SCHED_SETAFFINITY_X ret
  [store_s32 (int32 (arg regs 0)); store_u32 (uint32 (arg regs 1)); store_u64 (user_uint64 k (arg regs 2))].

(** 204-sched_getaffinity.bpf.c *)
Definition sched_getaffinity_e : program := λ k regs id, mk_body LINX_EVENT_TYPE_SCHED_GETAFFINITY_E (-1)
  [].
Definition sched_getaffinity_x : program := λ k regs ret, mk_body LINX_EVENT_TYPE_SCHED_GETAFFINITY_X ret
  [store_s32 (int32 (arg regs 0)); store_u32 (uint32 (arg regs 1)); store_u64 (user_uint64 k (arg regs 2))].

(** 205-set_thread_area.bpf.c *)
Definition set_thread_area_e : program := λ k regs id, mk_body LINX_EVENT_TYPE_SET_THREAD_AREA_E (-1)
  [].
Definition set_thread_area_x : program := λ k regs ret, mk_body LINX_EVENT_TYPE_SET_THREAD_AREA_X ret
  [store_u64 (uint64 (arg regs 0))].

(** 206-io_setup.bpf.c *)
Definition io_setup_e : program := λ k regs id, mk_body LINX_EVENT_TYPE_IO_SETUP_E (-1)
  [].
Definition io_setup_x : program := λ k regs ret, mk_body LINX_EVENT_TYPE_IO_SETUP_X ret
  [store_u32 (uint32 (arg regs 0)); store_u64 (uint64 (arg regs 1))].

(** 207-io_destroy.bpf.c *)
Definition io_destroy_e : program := λ k regs id, mk_body LINX_EVENT_TYPE_IO_DESTROY_E (-1)
  [].
Definition io_destroy_x : program := λ k regs ret, mk_body LINX_EVENT_TYPE_IO_DESTROY_X ret
  [store_u64 (uint64 (arg regs 0))].

(** 208-io_getevents.bpf.c *)
Definition io_getevents_e : program := λ k regs id, mk_body LINX_EVENT_TYPE_IO_GETEVENTS_E (-1)
  [].
Definition io_getevents_x : program := λ k regs ret, mk_body LINX_EVENT_TYPE_IO_GETEVENTS_X ret
  [store_u64 (uint64 (arg regs 0));
   store_s64 (int64 (arg regs 1));
   store_s64 (int64 (arg regs 2));
   store_u64 (uint64 (arg regs 3));
   store_u64 (uint64 (arg regs 4))].

(** 209-io_submit.bpf.c *)
Definition io_submit_e : program := λ k regs id, mk_body LINX_EVENT_TYPE_IO_SUBMIT_E (-1)
  [].
Definition io_submit_x : program := λ k regs ret, mk_body LINX_EVENT_TYPE_IO_SUBMIT_X ret
  [store_u64 (uint64 (arg regs 0)); store_s64 (int64 (arg regs 1)); store_u64 (uint64 (arg regs 2))].

(** 210-io_cancel.bpf.c *)
Definition io_cancel_e : program := λ k regs id, mk_body LINX_EVENT_TYPE_IO_CANCEL_E (-1)
  [].
Definition io_cancel_x : program := λ k regs ret, mk_body LINX_EVENT_TYPE_IO_CANCEL_X ret
  [store_u64 (uint64 (arg regs 0)); store_u64 (uint64 (arg regs 1)); store_u64 (uint64 (arg regs 2))].

(** 211-get_thread_area.bpf.c *)
Definition get_thread_area_e : program := λ k regs id, mk_body LINX_EVENT_TYPE_GET_THREAD_AREA_E (-1)
  [].
Definition get_thread_area_x : program := λ k regs ret, mk_body LINX_EVENT_TYPE_GET_THREAD_AREA_X ret
  [store_u64 (uint64 (arg regs 0))].

(** 212-lookup_dcookie.bpf.c *)
Definition lookup_dcookie_e : program := λ k regs id, mk_body LINX_EVENT_TYPE_LOOKUP_DCOOKIE_E (-1)
  [].
Definition lookup_dcookie_x : program := λ k regs ret, mk_body LINX_EVENT_TYPE_LOOKUP_DCOOKIE_X ret
  [store_u64 (uint64 (arg regs 0));
   store_charpointer (uint64 (arg regs 1)) LINX_CHARBUF_MAX_SIZE USER;
   store_u64 (uint64 (arg regs 2))].

(** 213-epoll_create.bpf.c *)
Definition epoll_create_e : program := λ k regs id, mk_body LINX_EVENT_TYPE_EPOLL_CREATE_E (-1)
  [].
Definition epoll_create_x : program := λ k regs ret, mk_body LINX_EVENT_TYPE_EPOLL_CREATE_X ret
  [store_s32 (int32 (arg regs 0))].

(** 216-remap_file_pages.bpf.c *)
Definition remap_file_pages_e : program := λ k regs id, mk_body LINX_EVENT_TYPE_REMAP_FILE_PAGES_E (-1)
  [].
Definition remap_file_pages_x : program := λ k regs ret, mk_body LINX_EVENT_TYPE_REMAP_FILE_PAGES_X ret
  [store_u64 (uint64 (arg regs 0));
   store_u64 (uint64 (arg regs 1));
   store_u64 (uint64 (arg regs 2));
   store_u64 (uint64 (arg regs 3));
   store_u64 (uint64 (arg regs 4))].

(** 217-getdents64.bpf.c *)
Definition getdents64_e : program := λ k regs id, mk_body LINX_EVENT_TYPE_GETDENTS64_E (-1)
  [].
Definition getdents64_x : program := λ k regs ret, mk_body LINX_EVENT_TYPE_GETDENTS64_X ret
  [store_u32 (uint32 (arg regs 0)); store_u64 (uint64 (arg regs 1)); store_u32 (uint32 (arg regs 2))].

(** 218-set_tid_address.bpf.c *)
Definition set_tid_address_e : program := λ k regs id, mk_body LINX_EVENT_TYPE_SET_TID_ADDRESS_E (-1)
  [].
Definition set_tid_address_x : program := λ k regs ret, mk_body LINX_EVENT_TYPE_SET_TID_ADDRESS_X ret
  [store_s32 (user_int32 k (arg regs 0))].

(** 219-restart_syscall.bpf.c *)
Definition restart_syscall_e : program := λ k regs id, mk_body LINX_EVENT_TYPE_RESTART_SYSCALL_E (-1)
  [].
Definition restart_syscall_x : program := λ k regs ret, mk_body LINX_EVENT_TYPE_RESTART_SYSCALL_X ret
  [].

(** 220-semtimedop.bpf.c *)
Definition semtimedop_e : program := λ k regs id, mk_body LINX_EVENT_TYPE_SEMTIMEDOP_E (-1)
  [].
Definition semtimedop_x : program := λ k regs ret, mk_body LINX_EVENT_TYPE_SEMTIMEDOP_X ret
  [store_s32 (int32 (arg regs 0));
   store_u64 (uint64 (arg regs 1));
   store_u32 (uint32 (arg regs 2));
   store_u64 (uint64 (arg regs 3))].

(** 221-fadvise64.bpf.c *)
Definition fadvise64_e : program := λ k regs id, mk_body LINX_EVENT_TYPE_FADVISE64_E (-1)
  [].
Definition fadvise64_x : program := λ k regs ret, mk_body LINX_EVENT_TYPE_FADVISE64_X ret
  [store_s32 (int32 (arg regs 0));
   store_s64 (int64 (arg regs 1));
   store_u64 (uint64 (arg regs 2));
   store_s32 (int32 (arg regs 3))].

(** 222-timer_create.bpf.c *)
Definition timer_create_e : program := λ k regs id, mk_body LINX_EVENT_TYPE_TIMER_CREATE_E (-1)
  [].
Definition timer_create_x : program := λ k regs ret, mk_body LINX_EVENT_TYPE_TIMER_CREATE_X ret
  [store_s32 (int32 (arg regs 0)); store_u64 (uint64 (arg regs 1)); store_u64 (uint64 (arg regs 2))].

(** 223-timer_settime.bpf.c *)
Definition timer_settime_e : program := λ k regs id, mk_body LINX_EVENT_TYPE_TIMER_SETTIME_E (-1)
  [].
Definition timer_settime_x : program := λ k regs ret, mk_body LINX_EVENT_TYPE_TIMER_SETTIME_X ret
  [store_s32 (int32 (arg regs 0));
   store_s32 (int32 (arg regs 1));
   store_u64 (uint64 (arg regs 2));
   store_u64 (uint64 (arg regs 3))].

(** 224-timer_gettime.bpf.c *)
Definition timer_gettime_e : program := λ k regs id, mk_body LINX_EVENT_TYPE_TIMER_GETTIME_E (-1)
  [].
Definition timer_gettime_x : program := λ k regs ret, mk_body LINX_EVENT_TYPE_TIMER_GETTIME_X ret
  [store_s32 (int32 (arg regs 0)); store_u64 (uint64 (arg regs 1))].

(** 225-timer_getoverrun.bpf.c *)
Definition timer_getoverrun_e : program := λ k regs id, mk_body LINX_EVENT_TYPE_TIMER_GETOVERRUN_E (-1)
  [].
Definition timer_getoverrun_x : program := λ k regs ret, mk_body LINX_EVENT_TYPE_TIMER_GETOVERRUN_X ret
  [store_s32 (int32 (arg regs 0))].

(** 226-timer_delete.bpf.c *)
Definition timer_delete_e : program := λ k regs id, mk_body LINX_EVENT_TYPE_TIMER_DELETE_E (-1)
  [].
Definition timer_delete_x : program := λ k regs ret, mk_body LINX_EVENT_TYPE_TIMER_DELETE_X ret
  [store_s32 (int32 (arg regs 0))].

(** 227-clock_settime.bpf.c *)
Definition clock_settime_e : program := λ k regs id, mk_body LINX_EVENT_TYPE_CLOCK_SETTIME_E (-1)
  [].
Definition clock_settime_x : program := λ k regs ret, mk_body LINX_EVENT_TYPE_CLOCK_SETTIME_X ret
  [store_s32 (int32 (arg regs 0)); store_u64 (uint64 (arg regs 1))].

(** 228-clock_gettime.bpf.c *)
Definition clock_gettime_e : program := λ k regs id, mk_body LINX_EVENT_TYPE_CLOCK_GETTIME_E (-1)
  [].
Definition clock_gettime_x : program := λ k regs ret, mk_body LINX_EVENT_TYPE_CLOCK_GETTIME_X ret
  [store_s32 (int32 (arg regs 0)); store_u64 (uint64 (arg regs 1))].

(** 229-clock_getres.bpf.c *)
Definition clock_getres_e : program := λ k regs id, mk_body LINX_EVENT_TYPE_CLOCK_GETRES_E (-1)
  [].
Definition clock_getres_x : program := λ k regs ret, mk_body LINX_EVENT_TYPE_CLOCK_GETRES_X ret
  [store_s32 (int32 (arg regs 0)); store_u64 (uint64 (arg regs 1))].

(** 230-clock_nanosleep.bpf.c *)
Definition clock_nanosleep_e : program := λ k regs id, mk_body LINX_EVENT_TYPE_CLOCK_NANOSLEEP_E (-1)
  [].
Definition clock_nanosleep_x : program := λ k regs ret, mk_body LINX_EVENT_TYPE_CLOCK_NANOSLEEP_X ret
  [store_s32 (int32 (arg regs 0));
   store_s32 (int32 (arg regs 1));
   store_u64 (uint64 (arg regs 2));
   store_u64 (uint64 (arg regs 3))].

(** 231-exit_group.bpf.c *)
Definition exit_group_e : program := λ k regs id, mk_body LINX_EVENT_TYPE_EXIT_GROUP_E (-1)
  [].
Definition exit_group_x : program := λ k regs ret, mk_body LINX_EVENT_TYPE_EXIT_GROUP_X ret
  [store_s32 (int32 (arg regs 0))].

(** 232-epoll_wait.bpf.c *)
Definition epoll_wait_e : program := λ k regs id, mk_body LINX_EVENT_TYPE_EPOLL_WAIT_E (-1)
  [].
Definition epoll_wait_x : program := λ k regs ret, mk_body LINX_EVENT_TYPE_EPOLL_WAIT_X ret
  [store_s32 (int32 (arg regs 0));
   store_u64 (uint64 (arg regs 1));
   store_s32 (int32 (arg regs 2));
   store_s32 (int32 (arg regs 3))].

(** 233-epoll_ctl.bpf.c *)
Definition epoll_ctl_e : program := λ k regs id, mk_body LINX_EVENT_TYPE_EPOLL_CTL_E (-1)
  [].
Definition epoll_ctl_x : program := λ k regs ret, mk_body LINX_EVENT_TYPE_EPOLL_CTL_X ret
  [store_s32 (int32 (arg regs 0));
   store_s32 (int32 (arg regs 1));
   store_s32 (int32 (arg regs 2));
   store_u64 (uint64 (arg regs 3))].

(** 234-tgkill.bpf.c *)
Definition tgkill_e : program := λ k regs id, mk_body LINX_EVENT_TYPE_TGKILL_E (-1)
  [].
Definition tgkill_x : program := λ k regs ret, mk_body LINX_EVENT_TYPE_TGKILL_X ret
  [store_s32 (int32 (arg regs 0)); store_s32 (int32 (arg regs 1)); store_s32 (int32 (arg regs 2))].

(** 235-utimes.bpf.c *)
Definition utimes_e : program := λ k regs id, mk_body LINX_EVENT_TYPE_UTIMES_E (-1)
  [].
Definition utimes_x : program := λ k regs ret, mk_body LINX_EVENT_TYPE_UTIMES_X ret
  [store_charpointer (uint64 (arg regs 0)) LINX_CHARBUF_MAX_SIZE USER; store_u64 (uint64 (arg regs 1))].

(** 237-mbind.bpf.c *)
Definition mbind_e : program := λ k regs id, mk_body LINX_EVENT_TYPE_MBIND_E (-1)
  [].
Definition mbind_x : program := λ k regs ret, mk_body LINX_EVENT_TYPE_MBIND_X ret
  [store_u64 (uint64 (arg regs 0));
   store_u64 (uint64 (arg regs 1));
   store_u64 (uint64 (arg regs 2));
   store_u64 (user_uint64 k (arg regs 3));
   store_u64 (uint64 (arg regs 4));
   store_u32 (uint32 (arg regs 5))].

(** 238-set_mempolicy.bpf.c *)
Definition set_mempolicy_e : program := λ k regs id, mk_body LINX_EVENT_TYPE_SET_MEMPOLICY_E (-1)
  [].
Definition set_mempolicy_x : program := λ k regs ret, mk_body LINX_EVENT_TYPE_SET_MEMPOLICY_X ret
  [store_s32 (int32 (arg regs 0)); store_u64 (user_uint64 k (arg regs 1)); store_u64 (uint64 (arg regs 2))].

(** 239-get_mempolicy.bpf.c *)
Definition get_mempolicy_e : program := λ k regs id, mk_body LINX_EVENT_TYPE_GET_MEMPOLICY_E (-1)
  [].
Definition get_mempolicy_x : program := λ k regs ret, mk_body LINX_EVENT_TYPE_GET_MEMPOLICY_X ret
  [store_s32 (user_int32 k (arg regs 0));
   store_u64 (user_uint64 k (arg regs 1));
   store_u64 (uint64 (arg regs 2));
   store_u64 (uint64 (arg regs 3));
   store_u64 (uint64 (arg regs 4))].

(** 240-mq_open.bpf.c *)
Definition mq_open_e : program := λ k regs id, mk_body LINX_EVENT_TYPE_MQ_OPEN_E (-1)
  [].
Definition mq_open_x : program := λ k regs ret, mk_body LINX_EVENT_TYPE_MQ_OPEN_X ret
  [store_charpointer (uint64 (arg regs 0)) LINX_CHARBUF_MAX_SIZE USER;
   store_s32 (int32 (arg regs 1));
   store_u16 (uint16 (arg regs 2));
   store_u64 (uint64 (arg regs 3))].

(** 241-mq_unlink.bpf.c *)
Definition mq_unlink_e : program := λ k regs id, mk_body LINX_EVENT_TYPE_MQ_UNLINK_E (-1)
  [].
Definition mq_unlink_x : program := λ k regs ret, mk_body LINX_EVENT_TYPE_MQ_UNLINK_X ret
  [store_charpointer (uint64 (arg regs 0)) LINX_CHARBUF_MAX_SIZE USER].

(** 242-mq_timedsend.bpf.c *)
Definition mq_timedsend_e : program := λ k regs id, mk_body LINX_EVENT_TYPE_MQ_TIMEDSEND_E (-1)
  [].
Definition mq_timedsend_x : program := λ k regs ret, mk_body LINX_EVENT_TYPE_MQ_TIMEDSEND_X ret
  [store_s32 (int32 (arg regs 0));
   store_charpointer (uint64 (arg regs 1)) LINX_CHARBUF_MAX_SIZE USER;
   store_u64 (uint64 (arg regs 2));
   store_u32 (uint32 (arg regs 3));
   store_u64 (uint64 (arg regs 4))].

(** 243-mq_timedreceive.bpf.c *)
Definition mq_timedreceive_e : program := λ k regs id, mk_body LINX_EVENT_TYPE_MQ_TIMEDRECEIVE_E (-1)
  [].
Definition mq_timedreceive_x : program := λ k regs ret, mk_body LINX_EVENT_TYPE_MQ_TIMEDRECEIVE_X ret
  [store_s32 (int32 (arg regs 0));
   store_charpointer (uint64 (arg regs 1)) LINX_CHARBUF_MAX_SIZE USER;
   store_u64 (uint64 (arg regs 2));
   store_u32 (user_uint32 k (arg regs 3));
   store_u64 (uint64 (arg regs 4))].

(** 244-mq_notify.bpf.c *)
Definition mq_notify_e : program := λ k regs id, mk_body LINX_EVENT_TYPE_MQ_NOTIFY_E (-1)
  [].
Definition mq_notify_x : program := λ k regs ret, mk_body LINX_EVENT_TYPE_MQ_NOTIFY_X ret
  [store_s32 (int32 (arg regs 0)); store_u64 (uint64 (arg regs 1))].

(** 245-mq_getsetattr.bpf.c *)
Definition mq_getsetattr_e : program := λ k regs id, mk_body LINX_EVENT_TYPE_MQ_GETSETATTR_E (-1)
  [].
Definition mq_getsetattr_x : program := λ k regs ret, mk_body LINX_EVENT_TYPE_MQ_GETSETATTR_X ret
  [store_s32 (int32 (arg regs 0)); store_u64 (uint64 (arg regs 1)); store_u64 (uint64 (arg regs 2))].

(** 246-kexec_load.bpf.c *)
Definition kexec_load_e : program := λ k regs id, mk_body LINX_EVENT_TYPE_KEXEC_LOAD_E (-1)
  [].
Definition kexec_load_x : program := λ k regs ret, mk_body LINX_EVENT_TYPE_KEXEC_LOAD_X ret
  [store_u64 (uint64 (arg regs 0));
   store_u64 (uint64 (arg regs 1));
   store_u64 (uint64 (arg regs 2));
   store_u64 (uint64 (arg regs 3))].

(** 247-waitid.bpf.c *)
Definition waitid_e : program := λ k regs id, mk_body LINX_EVENT_TYPE_WAITID_E (-1)
  [].
Definition waitid_x : program := λ k regs ret, mk_body LINX_EVENT_TYPE_WAITID_X ret
  [store_s32 (int32 (arg regs 0));
   store_s32 (int32 (arg regs 1));
   store_u64 (uint64 (arg regs 2));
   store_s32 (int32 (arg regs 3));
   store_u64 (uint64 (arg regs 4))].

(** 248-add_key.bpf.c *)
Definition add_key_e : program := λ k regs id, mk_body LINX_EVENT_TYPE_ADD_KEY_E (-1)
  [].
Definition add_key_x : program := λ k regs ret, mk_body LINX_EVENT_TYPE_ADD_KEY_X ret
  [store_charpointer (uint64 (arg regs 0)) LINX_CHARBUF_MAX_SIZE USER;
   store_charpointer (uint64 (arg regs 1)) LINX_CHARBUF_MAX_SIZE USER;
   store_u64 (uint64 (arg regs 2));
   store_u64 (uint64 (arg regs 3));
   store_s32 (int32 (arg regs 4))].

(** 249-request_key.bpf.c *)
Definition request_key_e : program := λ k regs id, mk_body LINX_EVENT_TYPE_REQUEST_KEY_E (-1)
  [].
Definition request_key_x : program := λ k regs ret, mk_body LINX_EVENT_TYPE_REQUEST_KEY_X ret
  [store_charpointer (uint64 (arg regs 0)) LINX_CHARBUF_MAX_SIZE USER;
   store_charpointer (uint64 (arg regs 1)) LINX_CHARBUF_MAX_SIZE USER;
   store_charpointer (uint64 (arg regs 2)) LINX_CHARBUF_MAX_SIZE USER;
   store_s32 (int32 (arg regs 3))].

(** 250-keyctl.bpf.c *)
Definition keyctl_e : program := λ k regs id, mk_body LINX_EVENT_TYPE_KEYCTL_E (-1)
  [].
Definition keyctl_x : program := λ k regs ret, mk_body LINX_EVENT_TYPE_KEYCTL_X ret
  [store_s32 (int32 (arg regs 0));
   store_u64 (uint64 (arg regs 1));
   store_u64 (uint64 (arg regs 2));
   store_u64 (uint64 (arg regs 3));
   store_u64 (uint64 (arg regs 4))].

(** 251-ioprio_set.bpf.c *)
Definition ioprio_set_e : program := λ k regs id, mk_body LINX_EVENT_TYPE_IOPRIO_SET_E (-1)
  [].
Definition ioprio_set_x : program := λ k regs ret, mk_body LINX_EVENT_TYPE_IOPRIO_SET_X ret
  [store_s32 (int32 (arg regs 0)); store_s32 (int32 (arg regs 1)); store_s32 (int32 (arg regs 2))].

(** 252-ioprio_get.bpf.c *)
Definition ioprio_get_e : program := λ k regs id, mk_body LINX_EVENT_TYPE_IOPRIO_GET_E (-1)
  [].
Definition ioprio_get_x : program := λ k regs ret, mk_body LINX_EVENT_TYPE_IOPRIO_GET_X ret
  [store_s32 (int32 (arg regs 0)); store_s32 (int32 (arg regs 1))].

(** 253-inotify_init.bpf.c *)
Definition inotify_init_e : program := λ k regs id, mk_body LINX_EVENT_TYPE_INOTIFY_INIT_E (-1)
  [].
Definition inotify_init_x : program := λ k regs ret, mk_body LINX_EVENT_TYPE_INOTIFY_INIT_X ret
  [].

(** 254-inotify_add_watch.bpf.c *)
Definition inotify_add_watch_e : program := λ k regs id, mk_body LINX_EVENT_TYPE_INOTIFY_ADD_WATCH_E (-1)
  [].
Definition inotify_add_watch_x : program := λ k regs ret, mk_body LINX_EVENT_TYPE_INOTIFY_ADD_WATCH_X ret
  [store_s32 (int32 (arg regs 0));
   store_charpointer (uint64 (arg regs 1)) LINX_CHARBUF_MAX_SIZE USER;
   store_u32 (uint32 (arg regs 2))].

(** 255-inotify_rm_watch.bpf.c *)
Definition inotify_rm_watch_e : program := λ k regs id, mk_body LINX_EVENT_TYPE_INOTIFY_RM_WATCH_E (-1)
  [].
Definition inotify_rm_watch_x : program := λ k regs ret, mk_body LINX_EVENT_TYPE_INOTIFY_RM_WATCH_X ret
  [store_s32 (int32 (arg regs 0)); store_s32 (int32 (arg regs 1))].

(** 256-migrate_pages.bpf.c *)
Definition migrate_pages_e : program := λ k regs id, mk_body LINX_EVENT_TYPE_MIGRATE_PAGES_E (-1)
  [].
Definition migrate_pages_x : program := λ k regs ret, mk_body LINX_EVENT_TYPE_MIGRATE_PAGES_X ret
  [store_s32 (int32 (arg regs 0));
   store_u64 (uint64 (arg regs 1));
   store_u64 (user_uint64 k (arg regs 2));
   store_u64 (user_uint64 k (arg regs 3))].

(** 257-openat.bpf.c *)
Definition openat_e : program := λ k regs id, mk_body LINX_EVENT_TYPE_OPENAT_E (-1)
  [store_s64 (int64 (int32 (arg regs 0)));
   store_charpointer (arg regs 1) LINX_CHARBUF_MAX_SIZE USER;
   store_u32 (uint32 (arg regs 2));
   store_u32 (arg regs 3)].
Definition openat_x : program := λ k regs ret,
  let dev_ino := if 0 <? ret then extract__dev_ino_overlay_from_fd k (int32 ret) else (0, 0) in
  mk_body LINX_EVENT_TYPE_OPENAT_X ret
  [store_s64 ret;
   store_s64 (int64 (int32 (arg regs 0)));
   store_charpointer (arg regs 1) LINX_CHARBUF_MAX_SIZE USER;
   store_u32 (uint32 (arg regs 2));
   store_u32 (arg regs 3);
   store_u32 (fst dev_ino);
   store_u64 (snd dev_ino)].

(** 258-mkdirat.bpf.c *)
Definition mkdirat_e : program := λ k regs id, mk_body LINX_EVENT_TYPE_MKDIRAT_E (-1)
  [].
Definition mkdirat_x : program := λ k regs ret, mk_body LINX_EVENT_TYPE_MKDIRAT_X ret
  [store_s32 (int32 (arg regs 0));
   store_charpointer (uint64 (arg regs 1)) LINX_CHARBUF_MAX_SIZE USER;
   store_u16 (uint16 (arg regs 2))].

(** 259-mknodat.bpf.c *)
Definition mknodat_e : program := λ k regs id, mk_body LINX_EVENT_TYPE_MKNODAT_E (-1)
  [].
Definition mknodat_x : program := λ k regs ret, mk_body LINX_EVENT_TYPE_MKNODAT_X ret
  [store_s32 (int32 (arg regs 0));
   store_charpointer (uint64 (arg regs 1)) LINX_CHARBUF_MAX_SIZE USER;
   store_u16 (uint16 (arg regs 2));
   store_u32 (uint32 (arg regs 3))].

(** 260-fchownat.bpf.c *)
Definition fchownat_e : program := λ k regs id, mk_body LINX_EVENT_TYPE_FCHOWNAT_E (-1)
  [].
Definition fchownat_x : program := λ k regs ret, mk_body LINX_EVENT_TYPE_FCHOWNAT_X ret
  [store_s32 (int32 (arg regs 0));
   store_charpointer (uint64 (arg regs 1)) LINX_CHARBUF_MAX_SIZE USER;
   store_u32 (uint32 (arg regs 2));
   store_u32 (uint32 (arg regs 3));
   store_s32 (int32 (arg regs 4))].

(** 261-futimesat.bpf.c *)
Definition futimesat_e : program := λ k regs id, mk_body LINX_EVENT_TYPE_FUTIMESAT_E (-1)
  [].
Definition futimesat_x : program := λ k regs ret, mk_body LINX_EVENT_TYPE_FUTIMESAT_X ret
  [store_s32 (int32 (arg regs 0));
   store_charpointer (uint64 (arg regs 1)) LINX_CHARBUF_MAX_SIZE USER;
   store_u64 (uint64 (arg regs 2))].

(** 262-newfstatat.bpf.c *)
Definition newfstatat_e : program := λ k regs id, mk_body LINX_EVENT_TYPE_NEWFSTATAT_E (-1)
  [].
Definition newfstatat_x : program := λ k regs ret, mk_body LINX_EVENT_TYPE_NEWFSTATAT_X ret
  [store_s32 (int32 (arg regs 0));
   store_charpointer (uint64 (arg regs 1)) LINX_CHARBUF_MAX_SIZE USER;
   store_u64 (uint64 (arg regs 2));
   store_s32 (int32 (arg regs 3))].

(** 263-unlinkat.bpf.c *)
Definition unlinkat_e : program := λ k regs id, mk_body LINX_EVENT_TYPE_UNLINKAT_E (-1)
  [].
Definition unlinkat_x : program := λ k regs ret, mk_body LINX_EVENT_TYPE_UNLINKAT_X ret
  [store_s32 (int32 (arg regs 0));
   store_charpointer (uint64 (arg regs 1)) LINX_CHARBUF_MAX_SIZE USER;
   store_s32 (int32 (arg regs 2))].

(** 264-renameat.bpf.c *)
Definition renameat_e : program := λ k regs id, mk_body LINX_EVENT_TYPE_RENAMEAT_E (-1)
  [].
Definition renameat_x : program := λ k regs ret, mk_body LINX_EVENT_TYPE_RENAMEAT_X ret
  [store_s32 (int32 (arg regs 0));
   store_charpointer (uint64 (arg regs 1)) LINX_CHARBUF_MAX_SIZE USER;
   store_s32 (int32 (arg regs 2));
   store_charpointer (uint64 (arg regs 3)) LINX_CHARBUF_MAX_SIZE USER].

(** 265-linkat.bpf.c *)
Definition linkat_e : program := λ k regs id, mk_body LINX_EVENT_TYPE_LINKAT_E (-1)
  [].
Definition linkat_x : program := λ k regs ret, mk_body LINX_EVENT_TYPE_LINKAT_X ret
  [store_s32 (int32 (arg regs 0));
   store_charpointer (uint64 (arg regs 1)) LINX_CHARBUF_MAX_SIZE USER;
   store_s32 (int32 (arg regs 2));
   store_charpointer (uint64 (arg regs 3)) LINX_CHARBUF_MAX_SIZE USER;
   store_s32 (int32 (arg regs 4))].

(** 266-symlinkat.bpf.c *)
Definition symlinkat_e : program := λ k regs id, mk_body LINX_EVENT_TYPE_SYMLINKAT_E (-1)
  [].
Definition symlinkat_x : program := λ k regs ret, mk_body LINX_EVENT_TYPE_SYMLINKAT_X ret
  [store_charpointer (uint64 (arg regs 0)) LINX_CHARBUF_MAX_SIZE USER;
   store_s32 (int32 (arg regs 1));
   store_charpointer (uint64 (arg regs 2)) LINX_CHARBUF_MAX_SIZE USER].

(** 267-readlinkat.bpf.c *)
Definition readlinkat_e : program := λ k regs id, mk_body LINX_EVENT_TYPE_READLINKAT_E (-1)
  [].
Definition readlinkat_x : program := λ k regs ret, mk_body LINX_EVENT_TYPE_READLINKAT_X ret
  [store_s32 (int32 (arg regs 0));
   store_charpointer (uint64 (arg regs 1)) LINX_CHARBUF_MAX_SIZE USER;
   store_charpointer (uint64 (arg regs 2)) LINX_CHARBUF_MAX_SIZE USER;
   store_s32 (int32 (arg regs 3))].

(** 268-fchmodat.bpf.c *)
Definition fchmodat_e : program := λ k regs id, mk_body LINX_EVENT_TYPE_FCHMODAT_E (-1)
  [].
Definition fchmodat_x : program := λ k regs ret, mk_body LINX_EVENT_TYPE_FCHMODAT_X ret
  [store_s32 (int32 (arg regs 0));
   store_charpointer (uint64 (arg regs 1)) LINX_CHARBUF_MAX_SIZE USER;
   store_u16 (uint16 (arg regs 2))].

(** 269-faccessat.bpf.c *)
Definition faccessat_e : program := λ k regs id, mk_body LINX_EVENT_TYPE_FACCESSAT_E (-1)
  [].
Definition faccessat_x : program := λ k regs ret, mk_body LINX_EVENT_TYPE_FACCESSAT_X ret
  [store_s32 (int32 (arg regs 0));
   store_charpointer (uint64 (arg regs 1)) LINX_CHARBUF_MAX_SIZE USER;
   store_s32 (int32 (arg regs 2))].

(** 270-pselect6.bpf.c *)
Definition pselect6_e : program := λ k regs id, mk_body LINX_EVENT_TYPE_PSELECT6_E (-1)
  [].
Definition pselect6_x : program := λ k regs ret, mk_body LINX_EVENT_TYPE_PSELECT6_X ret
  [store_s32 (int32 (arg regs 0));
   store_u64 (uint64 (arg regs 1));
   store_u64 (uint64 (arg regs 2));
   store_u64 (uint64 (arg regs 3));
   store_u64 (uint64 (arg regs 4));
   store_u64 (uint64 (arg regs 5))].

(** 271-ppoll.bpf.c *)
Definition ppoll_e : program := λ k regs id, mk_body LINX_EVENT_TYPE_PPOLL_E (-1)
  [].
Definition ppoll_x : program := λ k regs ret, mk_body LINX_EVENT_TYPE_PPOLL_X ret
  [store_u64 (uint64 (arg regs 0));
   store_u32 (uint32 (arg regs 1));
   store_u64 (uint64 (arg regs 2));
   store_u64 (uint64 (arg regs 3));
   store_u64 (uint64 (arg regs 4))].

(** 272-unshare.bpf.c *)
Definition unshare_e : program := λ k regs id, mk_body LINX_EVENT_TYPE_UNSHARE_E (-1)
  [].
Definition unshare_x : program := λ k regs ret, mk_body LINX_EVENT_TYPE_UNSHARE_X ret
  [store_u64 (uint64 (arg regs 0))].

(** 273-set_robust_list.bpf.c *)
Definition set_robust_list_e : program := λ k regs id, mk_body LINX_EVENT_TYPE_SET_ROBUST_LIST_E (-1)
  [].
Definition set_robust_list_x : program := λ k regs ret, mk_body LINX_EVENT_TYPE_SET_ROBUST_LIST_X ret
  [store_u64 (uint64 (arg regs 0)); store_u64 (uint64 (arg regs 1))].

(** 274-get_robust_list.bpf.c *)
Definition get_robust_list_e : program := λ k regs id, mk_body LINX_EVENT_TYPE_GET_ROBUST_LIST_E (-1)
  [].
Definition get_robust_list_x : program := λ k regs ret, mk_body LINX_EVENT_TYPE_GET_ROBUST_LIST_X ret
  [store_s32 (int32 (arg regs 0)); store_u64 (uint64 (arg regs 1)); store_u64 (user_uint64 k (arg regs 2))].
