(* ===== verification/Programs4.v ===== *)
(** * Programs of the system calls 275 to 452 (kernel/ebpf/tail_calls)

    One definition per program of the numbered files, entry then exit: the type
    and the result it loads and its stores in order. *)
From S2P Require Import Prelude CString Memory EventType Bpf Ringbuf.

#[local] Open Scope Z_scope.
#[local] Abbreviation arg := get_pt_regs_argumnet.

(** 275-splice.bpf.c *)
Definition splice_e : program := λ k regs id, mk_body LINX_EVENT_TYPE_SPLICE_E (-1)
  [].
Definition splice_x : program := λ k regs ret, mk_body LINX_EVENT_TYPE_SPLICE_X ret
  [store_s32 (int32 (arg regs 0));
   store_s64 (user_int64 k (arg regs 1));
   store_s32 (int32 (arg regs 2));
   store_s64 (user_int64 k (arg regs 3));
   store_u64 (uint64 (arg regs 4));
   store_u32 (uint32 (arg regs 5))].

(** 276-tee.bpf.c *)
Definition tee_e : program := λ k regs id, mk_body LINX_EVENT_TYPE_TEE_E (-1)
  [].
Definition tee_x : program := λ k regs ret, mk_body LINX_EVENT_TYPE_TEE_X ret
  [store_s32 (int32 (arg regs 0));
   store_s32 (int32 (arg regs 1));
   store_u64 (uint64 (arg regs 2));
   store_u32 (uint32 (arg regs 3))].

(** 277-sync_file_range.bpf.c *)
Definition sync_file_range_e : program := λ k regs id, mk_body LINX_EVENT_TYPE_SYNC_FILE_RANGE_E (-1)
  [].
Definition sync_file_range_x : program := λ k regs ret, mk_body LINX_EVENT_TYPE_SYNC_FILE_RANGE_X ret
  [store_s32 (int32 (arg regs 0));
   store_s64 (int64 (arg regs 1));
   store_s64 (int64 (arg regs 2));
   store_u32 (uint32 (arg regs 3))].

(** 278-vmsplice.bpf.c *)
Definition vmsplice_e : program := λ k regs id, mk_body LINX_EVENT_TYPE_VMSPLICE_E (-1)
  [].
Definition vmsplice_x : program := λ k regs ret, mk_body LINX_EVENT_TYPE_VMSPLICE_X ret
  [store_s32 (int32 (arg regs 0));
   store_u64 (uint64 (arg regs 1));
   store_u64 (uint64 (arg regs 2));
   store_u32 (uint32 (arg regs 3))].

(** 279-move_pages.bpf.c *)
Definition move_pages_e : program := λ k regs id, mk_body LINX_EVENT_TYPE_MOVE_PAGES_E (-1)
  [].
Definition move_pages_x : program := λ k regs ret, mk_body LINX_EVENT_TYPE_MOVE_PAGES_X ret
  [store_s32 (int32 (arg regs 0));
   store_u64 (uint64 (arg regs 1));
   store_u64 (uint64 (arg regs 2));
   store_u64 (uint64 (arg regs 3));
   store_s32 (user_int32 k (arg regs 4));
   store_s32 (int32 (arg regs 5))].

(** 280-utimensat.bpf.c *)
Definition utimensat_e : program := λ k regs id, mk_body LINX_EVENT_TYPE_UTIMENSAT_E (-1)
  [].
Definition utimensat_x : program := λ k regs ret, mk_body LINX_EVENT_TYPE_UTIMENSAT_X ret
  [store_s32 (int32 (arg regs 0));
   store_charpointer (uint64 (arg regs 1)) LINX_CHARBUF_MAX_SIZE USER;
   store_u64 (uint64 (arg regs 2));
   store_s32 (int32 (arg regs 3))].

(** 281-epoll_pwait.bpf.c *)
Definition epoll_pwait_e : program := λ k regs id, mk_body LINX_EVENT_TYPE_EPOLL_PWAIT_E (-1)
  [].
Definition epoll_pwait_x : program := λ k regs ret, mk_body LINX_EVENT_TYPE_EPOLL_PWAIT_X ret
  [store_s32 (int32 (arg regs 0));
   store_u64 (uint64 (arg regs 1));
   store_s32 (int32 (arg regs 2));
   store_s32 (int32 (arg regs 3));
   store_u64 (uint64 (arg regs 4));
   store_u64 (uint64 (arg regs 5))].

(** 282-signalfd.bpf.c *)
Definition signalfd_e : program := λ k regs id, mk_body LINX_EVENT_TYPE_SIGNALFD_E (-1)
  [].
Definition signalfd_x : program := λ k regs ret, mk_body LINX_EVENT_TYPE_SIGNALFD_X ret
  [store_s32 (int32 (arg regs 0)); store_u64 (uint64 (arg regs 1)); store_u64 (uint64 (arg regs 2))].

(** 283-timerfd_create.bpf.c *)
Definition timerfd_create_e : program := λ k regs id, mk_body LINX_EVENT_TYPE_TIMERFD_CREATE_E (-1)
  [].
Definition timerfd_create_x : program := λ k regs ret, mk_body LINX_EVENT_TYPE_TIMERFD_CREATE_X ret
  [store_s32 (int32 (arg regs 0)); store_s32 (int32 (arg regs 1))].

(** 284-eventfd.bpf.c *)
Definition eventfd_e : program := λ k regs id, mk_body LINX_EVENT_TYPE_EVENTFD_E (-1)
  [].
Definition eventfd_x : program := λ k regs ret, mk_body LINX_EVENT_TYPE_EVENTFD_X ret
  [store_u32 (uint32 (arg regs 0))].

(** 285-fallocate.bpf.c *)
Definition fallocate_e : program := λ k regs id, mk_body LINX_EVENT_TYPE_FALLOCATE_E (-1)
  [].
Definition fallocate_x : program := λ k regs ret, mk_body LINX_EVENT_TYPE_FALLOCATE_X ret
  [store_s32 (int32 (arg regs 0));
   store_s32 (int32 (arg regs 1));
   store_s64 (int64 (arg regs 2));
   store_s64 (int64 (arg regs 3))].

(** 286-timerfd_settime.bpf.c *)
Definition timerfd_settime_e : program := λ k regs id, mk_body LINX_EVENT_TYPE_TIMERFD_SETTIME_E (-1)
  [].
Definition timerfd_settime_x : program := λ k regs ret, mk_body LINX_EVENT_TYPE_TIMERFD_SETTIME_X ret
  [store_s32 (int32 (arg regs 0));
   store_s32 (int32 (arg regs 1));
   store_u64 (uint64 (arg regs 2));
   store_u64 (uint64 (arg regs 3))].

(** 287-timerfd_gettime.bpf.c *)
Definition timerfd_gettime_e : program := λ k regs id, mk_body LINX_EVENT_TYPE_TIMERFD_GETTIME_E (-1)
  [].
Definition timerfd_gettime_x : program := λ k regs ret, mk_body LINX_EVENT_TYPE_TIMERFD_GETTIME_X ret
  [store_s32 (int32 (arg regs 0)); store_u64 (uint64 (arg regs 1))].

(** 288-accept4.bpf.c *)
Definition accept4_e : program := λ k regs id, mk_body LINX_EVENT_TYPE_ACCEPT4_E (-1)
  [].
Definition accept4_x : program := λ k regs ret, mk_body LINX_EVENT_TYPE_ACCEPT4_X ret
  [store_s32 (int32 (arg regs 0));
   store_u64 (uint64 (arg regs 1));
   store_s32 (user_int32 k (arg regs 2));
   store_s32 (int32 (arg regs 3))].

(** 289-signalfd4.bpf.c *)
Definition signalfd4_e : program := λ k regs id, mk_body LINX_EVENT_TYPE_SIGNALFD4_E (-1)
  [].
Definition signalfd4_x : program := λ k regs ret, mk_body LINX_EVENT_TYPE_SIGNALFD4_X ret
  [store_s32 (int32 (arg regs 0));
   store_u64 (uint64 (arg regs 1));
   store_u64 (uint64 (arg regs 2));
   store_s32 (int32 (arg regs 3))].

(** 290-eventfd2.bpf.c *)
Definition eventfd2_e : program := λ k regs id, mk_body LINX_EVENT_TYPE_EVENTFD2_E (-1)
  [].
Definition eventfd2_x : program := λ k regs ret, mk_body LINX_EVENT_TYPE_EVENTFD2_X ret
  [store_u32 (uint32 (arg regs 0)); store_s32 (int32 (arg regs 1))].

(** 291-epoll_create1.bpf.c *)
Definition epoll_create1_e : program := λ k regs id, mk_body LINX_EVENT_TYPE_EPOLL_CREATE1_E (-1)
  [].
Definition epoll_create1_x : program := λ k regs ret, mk_body LINX_EVENT_TYPE_EPOLL_CREATE1_X ret
  [store_s32 (int32 (arg regs 0))].

(** 292-dup3.bpf.c *)
Definition dup3_e : program := λ k regs id, mk_body LINX_EVENT_TYPE_DUP3_E (-1)
  [store_s64 (int32 (arg regs 0))].
Definition dup3_x : program := λ k regs ret, mk_body LINX_EVENT_TYPE_DUP3_X ret
  [store_s64 ret;
   store_s64 (int64 (int32 (arg regs 0)));
   store_s64 (int64 (int32 (arg regs 1)));
   store_s32 (int32 (arg regs 2))].

(** 293-pipe2.bpf.c *)
Definition pipe2_e : program := λ k regs id, mk_body LINX_EVENT_TYPE_PIPE2_E (-1)
  [].
Definition pipe2_x : program := λ k regs ret, mk_body LINX_EVENT_TYPE_PIPE2_X ret
  [store_s32 (user_int32 k (arg regs 0)); store_s32 (int32 (arg regs 1))].

(** 294-inotify_init1.bpf.c *)
Definition inotify_init1_e : program := λ k regs id, mk_body LINX_EVENT_TYPE_INOTIFY_INIT1_E (-1)
  [].
Definition inotify_init1_x : program := λ k regs ret, mk_body LINX_EVENT_TYPE_INOTIFY_INIT1_X ret
  [store_s32 (int32 (arg regs 0))].

(** 295-preadv.bpf.c *)
Definition preadv_e : program := λ k regs id, mk_body LINX_EVENT_TYPE_PREADV_E (-1)
  [].
Definition preadv_x : program := λ k regs ret, mk_body LINX_EVENT_TYPE_PREADV_X ret
  [store_u64 (uint64 (arg regs 0));
   store_u64 (uint64 (arg regs 1));
   store_u64 (uint64 (arg regs 2));
   store_u64 (uint64 (arg regs 3));
   store_u64 (uint64 (arg regs 4))].

(** 296-pwritev.bpf.c *)
Definition pwritev_e : program := λ k regs id, mk_body LINX_EVENT_TYPE_PWRITEV_E (-1)
  [].
Definition pwritev_x : program := λ k regs ret, mk_body LINX_EVENT_TYPE_PWRITEV_X ret
  [store_u64 (uint64 (arg regs 0));
   store_u64 (uint64 (arg regs 1));
   store_u64 (uint64 (arg regs 2));
   store_u64 (uint64 (arg regs 3));
   store_u64 (uint64 (arg regs 4))].

(** 297-rt_tgsigqueueinfo.bpf.c *)
Definition rt_tgsigqueueinfo_e : program := λ k regs id, mk_body LINX_EVENT_TYPE_RT_TGSIGQUEUEINFO_E (-1)
  [].
Definition rt_tgsigqueueinfo_x : program := λ k regs ret, mk_body LINX_EVENT_TYPE_RT_TGSIGQUEUEINFO_X ret
  [store_s32 (int32 (arg regs 0));
   store_s32 (int32 (arg regs 1));
   store_s32 (int32 (arg regs 2));
   store_u64 (uint64 (arg regs 3))].

(** 298-perf_event_open.bpf.c *)
Definition perf_event_open_e : program := λ k regs id, mk_body LINX_EVENT_TYPE_PERF_EVENT_OPEN_E (-1)
  [].
Definition perf_event_open_x : program := λ k regs ret, mk_body LINX_EVENT_TYPE_PERF_EVENT_OPEN_X ret
  [store_u64 (uint64 (arg regs 0));
   store_s32 (int32 (arg regs 1));
   store_s32 (int32 (arg regs 2));
   store_s32 (int32 (arg regs 3));
   store_u64 (uint64 (arg regs 4))].

(** 299-recvmmsg.bpf.c *)
Definition recvmmsg_e : program := λ k regs id, mk_body LINX_EVENT_TYPE_RECVMMSG_E (-1)
  [].
Definition recvmmsg_x : program := λ k regs ret, mk_body LINX_EVENT_TYPE_RECVMMSG_X ret
  [store_s32 (int32 (arg regs 0));
   store_u64 (uint64 (arg regs 1));
   store_u32 (uint32 (arg regs 2));
   store_u32 (uint32 (arg regs 3));
   store_u64 (uint64 (arg regs 4))].

(** 300-fanotify_init.bpf.c *)
Definition fanotify_init_e : program := λ k regs id, mk_body LINX_EVENT_TYPE_FANOTIFY_INIT_E (-1)
  [].
Definition fanotify_init_x : program := λ k regs ret, mk_body LINX_EVENT_TYPE_FANOTIFY_INIT_X ret
  [store_u32 (uint32 (arg regs 0)); store_u32 (uint32 (arg regs 1))].

(** 301-fanotify_mark.bpf.c *)
Definition fanotify_mark_e : program := λ k regs id, mk_body LINX_EVENT_TYPE_FANOTIFY_MARK_E (-1)
  [].
Definition fanotify_mark_x : program := λ k regs ret, mk_body LINX_EVENT_TYPE_FANOTIFY_MARK_X ret
  [store_s32 (int32 (arg regs 0));
   store_u32 (uint32 (arg regs 1));
   store_u64 (uint64 (arg regs 2));
   store_s32 (int32 (arg regs 3));
   store_charpointer (uint64 (arg regs 4)) LINX_CHARBUF_MAX_SIZE USER].

(** 302-prlimit64.bpf.c *)
Definition prlimit64_e : program := λ k regs id, mk_body LINX_EVENT_TYPE_PRLIMIT64_E (-1)
  [].
Definition prlimit64_x : program := λ k regs ret, mk_body LINX_EVENT_TYPE_PRLIMIT64_X ret
  [store_s32 (int32 (arg regs 0));
   store_u32 (uint32 (arg regs 1));
   store_u64 (uint64 (arg regs 2));
   store_u64 (uint64 (arg regs 3))].

(** 303-name_to_handle_at.bpf.c *)
Definition name_to_handle_at_e : program := λ k regs id, mk_body LINX_EVENT_TYPE_NAME_TO_HANDLE_AT_E (-1)
  [].
Definition name_to_handle_at_x : program := λ k regs ret, mk_body LINX_EVENT_TYPE_NAME_TO_HANDLE_AT_X ret
  [store_s32 (int32 (arg regs 0));
   store_charpointer (uint64 (arg regs 1)) LINX_CHARBUF_MAX_SIZE USER;
   store_u64 (uint64 (arg regs 2));
   store_s32 (user_int32 k (arg regs 3));
   store_s32 (int32 (arg regs 4))].

(** 304-open_by_handle_at.bpf.c *)
Definition open_by_handle_at_e : program := λ k regs id, mk_body LINX_EVENT_TYPE_OPEN_BY_HANDLE_AT_E (-1)
  [].
Definition open_by_handle_at_x : program := λ k regs ret, mk_body LINX_EVENT_TYPE_OPEN_BY_HANDLE_AT_X ret
  [store_s32 (int32 (arg regs 0)); store_u64 (uint64 (arg regs 1)); store_s32 (int32 (arg regs 2))].

(** 305-clock_adjtime.bpf.c *)
Definition clock_adjtime_e : program := λ k regs id, mk_body LINX_EVENT_TYPE_CLOCK_ADJTIME_E (-1)
  [].
Definition clock_adjtime_x : program := λ k regs ret, mk_body LINX_EVENT_TYPE_CLOCK_ADJTIME_X ret
  [store_s32 (int32 (arg regs 0)); store_u64 (uint64 (arg regs 1))].

(** 306-syncfs.bpf.c *)
Definition syncfs_e : program := λ k regs id, mk_body LINX_EVENT_TYPE_SYNCFS_E (-1)
  [].
Definition syncfs_x : program := λ k regs ret, mk_body LINX_EVENT_TYPE_SYNCFS_X ret
  [store_s32 (int32 (arg regs 0))].

(** 307-sendmmsg.bpf.c *)
Definition sendmmsg_e : program := λ k regs id, mk_body LINX_EVENT_TYPE_SENDMMSG_E (-1)
  [].
Definition sendmmsg_x : program := λ k regs ret, mk_body LINX_EVENT_TYPE_SENDMMSG_X ret
  [store_s32 (int32 (arg regs 0));
   store_u64 (uint64 (arg regs 1));
   store_u32 (uint32 (arg regs 2));
   store_u32 (uint32 (arg regs 3))].

(** 308-setns.bpf.c *)
Definition setns_e : program := λ k regs id, mk_body LINX_EVENT_TYPE_SETNS_E (-1)
  [].
Definition setns_x : program := λ k regs ret, mk_body LINX_EVENT_TYPE_SETNS_X ret
  [store_s32 (int32 (arg regs 0)); store_s32 (int32 (arg regs 1))].

(** 309-getcpu.bpf.c *)
Definition getcpu_e : program := λ k regs id, mk_body LINX_EVENT_TYPE_GETCPU_E (-1)
  [].
Definition getcpu_x : program := λ k regs ret, mk_body LINX_EVENT_TYPE_GETCPU_X ret
  [store_u32 (user_uint32 k (arg regs 0));
   store_u32 (user_uint32 k (arg regs 1));
   store_u64 (uint64 (arg regs 2))].

(** 310-process_vm_readv.bpf.c *)
Definition process_vm_readv_e : program := λ k regs id, mk_body LINX_EVENT_TYPE_PROCESS_VM_READV_E (-1)
  [].
Definition process_vm_readv_x : program := λ k regs ret, mk_body LINX_EVENT_TYPE_PROCESS_VM_READV_X ret
  [store_s32 (int32 (arg regs 0));
   store_u64 (uint64 (arg regs 1));
   store_u64 (uint64 (arg regs 2));
   store_u64 (uint64 (arg regs 3));
   store_u64 (uint64 (arg regs 4));
   store_u64 (uint64 (arg regs 5))].

(** 311-process_vm_writev.bpf.c *)
Definition process_vm_writev_e : program := λ k regs id, mk_body LINX_EVENT_TYPE_PROCESS_VM_WRITEV_E (-1)
  [].
Definition process_vm_writev_x : program := λ k regs ret, mk_body LINX_EVENT_TYPE_PROCESS_VM_WRITEV_X ret
  [store_s32 (int32 (arg regs 0));
   store_u64 (uint64 (arg regs 1));
   store_u64 (uint64 (arg regs 2));
   store_u64 (uint64 (arg regs 3));
   store_u64 (uint64 (arg regs 4));
   store_u64 (uint64 (arg regs 5))].

(** 312-kcmp.bpf.c *)
Definition kcmp_e : program := λ k regs id, mk_body LINX_EVENT_TYPE_KCMP_E (-1)
  [].
Definition kcmp_x : program := λ k regs ret, mk_body LINX_EVENT_TYPE_KCMP_X ret
  [store_s32 (int32 (arg regs 0));
   store_s32 (int32 (arg regs 1));
   store_s32 (int32 (arg regs 2));
   store_u64 (uint64 (arg regs 3));
   store_u64 (uint64 (arg regs 4))].

(** 313-finit_module.bpf.c *)
Definition finit_module_e : program := λ k regs id, mk_body LINX_EVENT_TYPE_FINIT_MODULE_E (-1)
  [].
Definition finit_module_x : program := λ k regs ret, mk_body LINX_EVENT_TYPE_FINIT_MODULE_X ret
  [store_s32 (int32 (arg regs 0));
   store_charpointer (uint64 (arg regs 1)) LINX_CHARBUF_MAX_SIZE USER;
   store_s32 (int32 (arg regs 2))].

(** 314-sched_setattr.bpf.c *)
Definition sched_setattr_e : program := λ k regs id, mk_body LINX_EVENT_TYPE_SCHED_SETATTR_E (-1)
  [].
Definition sched_setattr_x : program := λ k regs ret, mk_body LINX_EVENT_TYPE_SCHED_SETATTR_X ret
  [store_s32 (int32 (arg regs 0)); store_u64 (uint64 (arg regs 1)); store_u32 (uint32 (arg regs 2))].

(** 315-sched_getattr.bpf.c *)
Definition sched_getattr_e : program := λ k regs id, mk_body LINX_EVENT_TYPE_SCHED_GETATTR_E (-1)
  [].
Definition sched_getattr_x : program := λ k regs ret, mk_body LINX_EVENT_TYPE_SCHED_GETATTR_X ret
  [store_s32 (int32 (arg regs 0));
   store_u64 (uint64 (arg regs 1));
   store_u32 (uint32 (arg regs 2));
   store_u32 (uint32 (arg regs 3))].

(** 316-renameat2.bpf.c *)
Definition renameat2_e : program := λ k regs id, mk_body LINX_EVENT_TYPE_RENAMEAT2_E (-1)
  [].
Definition renameat2_x : program := λ k regs ret, mk_body LINX_EVENT_TYPE_RENAMEAT2_X ret
  [store_s32 (int32 (arg regs 0));
   store_charpointer (uint64 (arg regs 1)) LINX_CHARBUF_MAX_SIZE USER;
   store_s32 (int32 (arg regs 2));
   store_charpointer (uint64 (arg regs 3)) LINX_CHARBUF_MAX_SIZE USER;
   store_u32 (uint32 (arg regs 4))].

(** 317-seccomp.bpf.c *)
Definition seccomp_e : program := λ k regs id, mk_body LINX_EVENT_TYPE_SECCOMP_E (-1)
  [].
Definition seccomp_x : program := λ k regs ret, mk_body LINX_EVENT_TYPE_SECCOMP_X ret
  [store_u32 (uint32 (arg regs 0)); store_u32 (uint32 (arg regs 1)); store_u64 (uint64 (arg regs 2))].

(** 318-getrandom.bpf.c *)
Definition getrandom_e : program := λ k regs id, mk_body LINX_EVENT_TYPE_GETRANDOM_E (-1)
  [].
Definition getrandom_x : program := λ k regs ret, mk_body LINX_EVENT_TYPE_GETRANDOM_X ret
  [store_charpointer (uint64 (arg regs 0)) LINX_CHARBUF_MAX_SIZE USER;
   store_u64 (uint64 (arg regs 1));
   store_u32 (uint32 (arg regs 2))].

(** 319-memfd_create.bpf.c *)
Definition memfd_create_e : program := λ k regs id, mk_body LINX_EVENT_TYPE_MEMFD_CREATE_E (-1)
  [].
Definition memfd_create_x : program := λ k regs ret, mk_body LINX_EVENT_TYPE_MEMFD_CREATE_X ret
  [store_charpointer (uint64 (arg regs 0)) LINX_CHARBUF_MAX_SIZE USER; store_u32 (uint32 (arg regs 1))].

(** 320-kexec_file_load.bpf.c *)
Definition kexec_file_load_e : program := λ k regs id, mk_body LINX_EVENT_TYPE_KEXEC_FILE_LOAD_E (-1)
  [].
Definition kexec_file_load_x : program := λ k regs ret, mk_body LINX_EVENT_TYPE_KEXEC_FILE_LOAD_X ret
  [store_s32 (int32 (arg regs 0));
   store_s32 (int32 (arg regs 1));
   store_u64 (uint64 (arg regs 2));
   store_charpointer (uint64 (arg regs 3)) LINX_CHARBUF_MAX_SIZE USER;
   store_u64 (uint64 (arg regs 4))].

(** 321-bpf.bpf.c *)
Definition bpf_e : program := λ k regs id, mk_body LINX_EVENT_TYPE_BPF_E (-1)
  [].
Definition bpf_x : program := λ k regs ret, mk_body LINX_EVENT_TYPE_BPF_X ret
  [store_s32 (int32 (arg regs 0)); store_u64 (uint64 (arg regs 1)); store_u32 (uint32 (arg regs 2))].

(** 322-execveat.bpf.c *)
Definition execveat_e : program := λ k regs id, mk_body LINX_EVENT_TYPE_EXECVEAT_E (-1)
  [].
Definition execveat_x : program := λ k regs ret, mk_body LINX_EVENT_TYPE_EXECVEAT_X ret
  [store_s32 (int32 (arg regs 0));
   store_charpointer (uint64 (arg regs 1)) LINX_CHARBUF_MAX_SIZE USER;
   store_charpointer (uint64 (arg regs 2)) LINX_CHARBUF_MAX_SIZE USER;
   store_charpointer (uint64 (arg regs 3)) LINX_CHARBUF_MAX_SIZE USER;
   store_s32 (int32 (arg regs 4))].

(** 323-userfaultfd.bpf.c *)
Definition userfaultfd_e : program := λ k regs id, mk_body LINX_EVENT_TYPE_USERFAULTFD_E (-1)
  [].
Definition userfaultfd_x : program := λ k regs ret, mk_body LINX_EVENT_TYPE_USERFAULTFD_X ret
  [store_s32 (int32 (arg regs 0))].

(** 324-membarrier.bpf.c *)
Definition membarrier_e : program := λ k regs id, mk_body LINX_EVENT_TYPE_MEMBARRIER_E (-1)
  [].
Definition membarrier_x : program := λ k regs ret, mk_body LINX_EVENT_TYPE_MEMBARRIER_X ret
  [store_s32 (int32 (arg regs 0)); store_u32 (uint32 (arg regs 1)); store_s32 (int32 (arg regs 2))].

(** 325-mlock2.bpf.c *)
Definition mlock2_e : program := λ k regs id, mk_body LINX_EVENT_TYPE_MLOCK2_E (-1)
  [].
Definition mlock2_x : program := λ k regs ret, mk_body LINX_EVENT_TYPE_MLOCK2_X ret
  [store_u64 (uint64 (arg regs 0)); store_u64 (uint64 (arg regs 1)); store_s32 (int32 (arg regs 2))].

(** 326-copy_file_range.bpf.c *)
Definition copy_file_range_e : program := λ k regs id, mk_body LINX_EVENT_TYPE_COPY_FILE_RANGE_E (-1)
  [].
Definition copy_file_range_x : program := λ k regs ret, mk_body LINX_EVENT_TYPE_COPY_FILE_RANGE_X ret
  [store_s32 (int32 (arg regs 0));
   store_s64 (user_int64 k (arg regs 1));
   store_s32 (int32 (arg regs 2));
   store_s64 (user_int64 k (arg regs 3));
   store_u64 (uint64 (arg regs 4));
   store_u32 (uint32 (arg regs 5))].

(** 327-preadv2.bpf.c *)
Definition preadv2_e : program := λ k regs id, mk_body LINX_EVENT_TYPE_PREADV2_E (-1)
  [].
Definition preadv2_x : program := λ k regs ret, mk_body LINX_EVENT_TYPE_PREADV2_X ret
  [store_u64 (uint64 (arg regs 0));
   store_u64 (uint64 (arg regs 1));
   store_u64 (uint64 (arg regs 2));
   store_u64 (uint64 (arg regs 3));
   store_u64 (uint64 (arg regs 4));
   store_s32 (int32 (arg regs 5))].

(** 328-pwritev2.bpf.c *)
Definition pwritev2_e : program := λ k regs id, mk_body LINX_EVENT_TYPE_PWRITEV2_E (-1)
  [].
Definition pwritev2_x : program := λ k regs ret, mk_body LINX_EVENT_TYPE_PWRITEV2_X ret
  [store_u64 (uint64 (arg regs 0));
   store_u64 (uint64 (arg regs 1));
   store_u64 (uint64 (arg regs 2));
   store_u64 (uint64 (arg regs 3));
   store_u64 (uint64 (arg regs 4));
   store_s32 (int32 (arg regs 5))].

(** 329-pkey_mprotect.bpf.c *)
Definition pkey_mprotect_e : program := λ k regs id, mk_body LINX_EVENT_TYPE_PKEY_MPROTECT_E (-1)
  [].
Definition pkey_mprotect_x : program := λ k regs ret, mk_body LINX_EVENT_TYPE_PKEY_MPROTECT_X ret
  [store_u64 (uint64 (arg regs 0));
   store_u64 (uint64 (arg regs 1));
   store_u64 (uint64 (arg regs 2));
   store_s32 (int32 (arg regs 3))].

(** 330-pkey_alloc.bpf.c *)
Definition pkey_alloc_e : program := λ k regs id, mk_body LINX_EVENT_TYPE_PKEY_ALLOC_E (-1)
  [].
Definition pkey_alloc_x : program := λ k regs ret, mk_body LINX_EVENT_TYPE_PKEY_ALLOC_X ret
  [store_u64 (uint64 (arg regs 0)); store_u64 (uint64 (arg regs 1))].

(** 331-pkey_free.bpf.c *)
Definition pkey_free_e : program := λ k regs id, mk_body LINX_EVENT_TYPE_PKEY_FREE_E (-1)
  [].
Definition pkey_free_x : program := λ k regs ret, mk_body LINX_EVENT_TYPE_PKEY_FREE_X ret
  [store_s32 (int32 (arg regs 0))].

(** 332-statx.bpf.c *)
Definition statx_e : program := λ k regs id, mk_body LINX_EVENT_TYPE_STATX_E (-1)
  [].
Definition statx_x : program := λ k regs ret, mk_body LINX_EVENT_TYPE_STATX_X ret
  [store_s32 (int32 (arg regs 0));
   store_charpointer (uint64 (arg regs 1)) LINX_CHARBUF_MAX_SIZE USER;
   store_u32 (uint32 (arg regs 2));
   store_u32 (uint32 (arg regs 3));
   store_u64 (uint64 (arg regs 4))].

(** 333-io_pgetevents.bpf.c *)
Definition io_pgetevents_e : program := λ k regs id, mk_body LINX_EVENT_TYPE_IO_PGETEVENTS_E (-1)
  [].
Definition io_pgetevents_x : program := λ k regs ret, mk_body LINX_EVENT_TYPE_IO_PGETEVENTS_X ret
  [store_u64 (uint64 (arg regs 0));
   store_s64 (int64 (arg regs 1));
   store_s64 (int64 (arg regs 2));
   store_u64 (uint64 (arg regs 3));
   store_u64 (uint64 (arg regs 4));
   store_u64 (uint64 (arg regs 5))].

(** 334-rseq.bpf.c *)
Definition rseq_e : program := λ k regs id, mk_body LINX_EVENT_TYPE_RSEQ_E (-1)
  [].
Definition rseq_x : program := λ k regs ret, mk_body LINX_EVENT_TYPE_RSEQ_X ret
  [store_u64 (uint64 (arg regs 0));
   store_u32 (uint32 (arg regs 1));
   store_s32 (int32 (arg regs 2));
   store_u32 (uint32 (arg regs 3))].

(** 424-pidfd_send_signal.bpf.c *)
Definition pidfd_send_signal_e : program := λ k regs id, mk_body LINX_EVENT_TYPE_PIDFD_SEND_SIGNAL_E (-1)
  [].
Definition pidfd_send_signal_x : program := λ k regs ret, mk_body LINX_EVENT_TYPE_PIDFD_SEND_SIGNAL_X ret
  [store_s32 (int32 (arg regs 0));
   store_s32 (int32 (arg regs 1));
   store_u64 (uint64 (arg regs 2));
   store_u32 (uint32 (arg regs 3))].

(** 425-io_uring_setup.bpf.c *)
Definition io_uring_setup_e : program := λ k regs id, mk_body LINX_EVENT_TYPE_IO_URING_SETUP_E (-1)
  [].
Definition io_uring_setup_x : program := λ k regs ret, mk_body LINX_EVENT_TYPE_IO_URING_SETUP_X ret
  [store_u32 (uint32 (arg regs 0)); store_u64 (uint64 (arg regs 1))].

(** 426-io_uring_enter.bpf.c *)
Definition io_uring_enter_e : program := λ k regs id, mk_body LINX_EVENT_TYPE_IO_URING_ENTER_E (-1)
  [].
Definition io_uring_enter_x : program := λ k regs ret, mk_body LINX_EVENT_TYPE_IO_URING_ENTER_X ret
  [store_u32 (uint32 (arg regs 0));
   store_u32 (uint32 (arg regs 1));
   store_u32 (uint32 (arg regs 2));
   store_u32 (uint32 (arg regs 3));
   store_u64 (uint64 (arg regs 4));
   store_u64 (uint64 (arg regs 5))].

(** 427-io_uring_register.bpf.c *)
Definition io_uring_register_e : program := λ k regs id, mk_body LINX_EVENT_TYPE_IO_URING_REGISTER_E (-1)
  [].
Definition io_uring_register_x : program := λ k regs ret, mk_body LINX_EVENT_TYPE_IO_URING_REGISTER_X ret
  [store_u32 (uint32 (arg regs 0));
   store_u32 (uint32 (arg regs 1));
   store_u64 (uint64 (arg regs 2));
   store_u32 (uint32 (arg regs 3))].

(** 428-open_tree.bpf.c *)
Definition open_tree_e : program := λ k regs id, mk_body LINX_EVENT_TYPE_OPEN_TREE_E (-1)
  [].
Definition open_tree_x : program := λ k regs ret, mk_body LINX_EVENT_TYPE_OPEN_TREE_X ret
  [store_s32 (int32 (arg regs 0));
   store_charpointer (uint64 (arg regs 1)) LINX_CHARBUF_MAX_SIZE USER;
   store_u32 (uint32 (arg regs 2))].

(** 429-move_mount.bpf.c *)
Definition move_mount_e : program := λ k regs id, mk_body LINX_EVENT_TYPE_MOVE_MOUNT_E (-1)
  [].
Definition move_mount_x : program := λ k regs ret, mk_body LINX_EVENT_TYPE_MOVE_MOUNT_X ret
  [store_s32 (int32 (arg regs 0));
   store_charpointer (uint64 (arg regs 1)) LINX_CHARBUF_MAX_SIZE USER;
   store_s32 (int32 (arg regs 2));
   store_charpointer (uint64 (arg regs 3)) LINX_CHARBUF_MAX_SIZE USER;
   store_u32 (uint32 (arg regs 4))].

(** 430-fsopen.bpf.c *)
Definition fsopen_e : program := λ k regs id, mk_body LINX_EVENT_TYPE_FSOPEN_E (-1)
  [].
Definition fsopen_x : program := λ k regs ret, mk_body LINX_EVENT_TYPE_FSOPEN_X ret
  [store_charpointer (uint64 (arg regs 0)) LINX_CHARBUF_MAX_SIZE USER; store_u32 (uint32 (arg regs 1))].

(** 431-fsconfig.bpf.c *)
Definition fsconfig_e : program := λ k regs id, mk_body LINX_EVENT_TYPE_FSCONFIG_E (-1)
  [].
Definition fsconfig_x : program := λ k regs ret, mk_body LINX_EVENT_TYPE_FSCONFIG_X ret
  [store_s32 (int32 (arg regs 0));
   store_u32 (uint32 (arg regs 1));
   store_charpointer (uint64 (arg regs 2)) LINX_CHARBUF_MAX_SIZE USER;
   store_u64 (uint64 (arg regs 3));
   store_s32 (int32 (arg regs 4))].

(** 432-fsmount.bpf.c *)
Definition fsmount_e : program := λ k regs id, mk_body LINX_EVENT_TYPE_FSMOUNT_E (-1)
  [].
Definition fsmount_x : program := λ k regs ret, mk_body LINX_EVENT_TYPE_FSMOUNT_X ret
  [store_s32 (int32 (arg regs 0)); store_u32 (uint32 (arg regs 1)); store_u32 (uint32 (arg regs 2))].

(** 433-fspick.bpf.c *)
Definition fspick_e : program := λ k regs id, mk_body LINX_EVENT_TYPE_FSPICK_E (-1)
  [].
Definition fspick_x : program := λ k regs ret, mk_body LINX_EVENT_TYPE_FSPICK_X ret
  [store_s32 (int32 (arg regs 0));
   store_charpointer (uint64 (arg regs 1)) LINX_CHARBUF_MAX_SIZE USER;
   store_u32 (uint32 (arg regs 2))].

(** 434-pidfd_open.bpf.c *)
Definition pidfd_open_e : program := λ k regs id, mk_body LINX_EVENT_TYPE_PIDFD_OPEN_E (-1)
  [].
Definition pidfd_open_x : program := λ k regs ret, mk_body LINX_EVENT_TYPE_PIDFD_OPEN_X ret
  [store_s32 (int32 (arg regs 0)); store_u32 (uint32 (arg regs 1))].

(** 435-clone3.bpf.c *)
Definition clone3_e : program := λ k regs id, mk_body LINX_EVENT_TYPE_CLONE3_E (-1)
  [].
Definition clone3_x : program := λ k regs ret, mk_body LINX_EVENT_TYPE_CLONE3_X ret
  [store_u64 (uint64 (arg regs 0)); store_u64 (uint64 (arg regs 1))].

(** 436-close_range.bpf.c *)
Definition close_range_e : program := λ k regs id, mk_body LINX_EVENT_TYPE_CLOSE_RANGE_E (-1)
  [].
Definition close_range_x : program := λ k regs ret, mk_body LINX_EVENT_TYPE_CLOSE_RANGE_X ret
  [store_u32 (uint32 (arg regs 0)); store_u32 (uint32 (arg regs 1)); store_u32 (uint32 (arg regs 2))].

(** 437-openat2.bpf.c *)
Definition openat2_e : program := λ k regs id, mk_body LINX_EVENT_TYPE_OPENAT2_E (-1)
  [].
Definition openat2_x : program := λ k regs ret, mk_body LINX_EVENT_TYPE_OPENAT2_X ret
  [store_s32 (int32 (arg regs 0));
   store_charpointer (uint64 (arg regs 1)) LINX_CHARBUF_MAX_SIZE USER;
   store_u64 (uint64 (arg regs 2));
   store_u64 (uint64 (arg regs 3))].

(** 438-pidfd_getfd.bpf.c *)
Definition pidfd_getfd_e : program := λ k regs id, mk_body LINX_EVENT_TYPE_PIDFD_GETFD_E (-1)
  [].
Definition pidfd_getfd_x : program := λ k regs ret, mk_body LINX_EVENT_TYPE_PIDFD_GETFD_X ret
  [store_s32 (int32 (arg regs 0)); store_s32 (int32 (arg regs 1)); store_u32 (uint32 (arg regs 2))].

(** 439-faccessat2.bpf.c *)
Definition faccessat2_e : program := λ k regs id, mk_body LINX_EVENT_TYPE_FACCESSAT2_E (-1)
  [].
Definition faccessat2_x : program := λ k regs ret, mk_body LINX_EVENT_TYPE_FACCESSAT2_X ret
  [store_s32 (int32 (arg regs 0));
   store_charpointer (uint64 (arg regs 1)) LINX_CHARBUF_MAX_SIZE USER;
   store_s32 (int32 (arg regs 2));
   store_s32 (int32 (arg regs 3))].

(** 440-process_madvise.bpf.c *)
Definition process_madvise_e : program := λ k regs id, mk_body LINX_EVENT_TYPE_PROCESS_MADVISE_E (-1)
  [].
Definition process_madvise_x : program := λ k regs ret, mk_body LINX_EVENT_TYPE_PROCESS_MADVISE_X ret
  [store_s32 (int32 (arg regs 0));
   store_u64 (uint64 (arg regs 1));
   store_u64 (uint64 (arg regs 2));
   store_s32 (int32 (arg regs 3));
   store_u32 (uint32 (arg regs 4))].

(** 441-epoll_pwait2.bpf.c *)
Definition epoll_pwait2_e : program := λ k regs id, mk_body LINX_EVENT_TYPE_EPOLL_PWAIT2_E (-1)
  [].
Definition epoll_pwait2_x : program := λ k regs ret, mk_body LINX_EVENT_TYPE_EPOLL_PWAIT2_X ret
  [store_s32 (int32 (arg regs 0));
   store_u64 (uint64 (arg regs 1));
   store_s32 (int32 (arg regs 2));
   store_u64 (uint64 (arg regs 3));
   store_u64 (uint64 (arg regs 4));
   store_u64 (uint64 (arg regs 5))].

(** 442-mount_setattr.bpf.c *)
Definition mount_setattr_e : program := λ k regs id, mk_body LINX_EVENT_TYPE_MOUNT_SETATTR_E (-1)
  [].
Definition mount_setattr_x : program := λ k regs ret, mk_body LINX_EVENT_TYPE_MOUNT_SETATTR_X ret
  [store_s32 (int32 (arg regs 0));
   store_charpointer (uint64 (arg regs 1)) LINX_CHARBUF_MAX_SIZE USER;
   store_u32 (uint32 (arg regs 2));
   store_u64 (uint64 (arg regs 3));
   store_u64 (uint64 (arg regs 4))].

(** 443-quotactl_fd.bpf.c *)
Definition quotactl_fd_e : program := λ k regs id, mk_body LINX_EVENT_TYPE_QUOTACTL_FD_E (-1)
  [].
Definition quotactl_fd_x : program := λ k regs ret, mk_body LINX_EVENT_TYPE_QUOTACTL_FD_X ret
  [store_u32 (uint32 (arg regs 0));
   store_u32 (uint32 (arg regs 1));
   store_u32 (uint32 (arg regs 2));
   store_u64 (uint64 (arg regs 3))].

(** 444-landlock_create_ruleset.bpf.c *)
Definition landlock_create_ruleset_e : program := λ k regs id, mk_body LINX_EVENT_TYPE_LANDLOCK_CREATE_RULESET_E (-1)
  [].
Definition landlock_create_ruleset_x : program := λ k regs ret, mk_body LINX_EVENT_TYPE_LANDLOCK_CREATE_RULESET_X ret
  [store_u64 (uint64 (arg regs 0)); store_u64 (uint64 (arg regs 1)); store_u64 (uint64 (arg regs 2))].

(** 445-landlock_add_rule.bpf.c *)
Definition landlock_add_rule_e : program := λ k regs id, mk_body LINX_EVENT_TYPE_LANDLOCK_ADD_RULE_E (-1)
  [].
Definition landlock_add_rule_x : program := λ k regs ret, mk_body LINX_EVENT_TYPE_LANDLOCK_ADD_RULE_X ret
  [store_s32 (int32 (arg regs 0));
   store_u64 (uint64 (arg regs 1));
   store_u64 (uint64 (arg regs 2));
   store_u64 (uint64 (arg regs 3))].

(** 446-landlock_restrict_self.bpf.c *)
Definition landlock_restrict_self_e : program := λ k regs id, mk_body LINX_EVENT_TYPE_LANDLOCK_RESTRICT_SELF_E (-1)
  [].
Definition landlock_restrict_self_x : program := λ k regs ret, mk_body LINX_EVENT_TYPE_LANDLOCK_RESTRICT_SELF_X ret
  [store_s32 (int32 (arg regs 0)); store_u64 (uint64 (arg regs 1))].

(** 447-memfd_secret.bpf.c *)
Definition memfd_secret_e : program := λ k regs id, mk_body LINX_EVENT_TYPE_MEMFD_SECRET_E (-1)
  [].
Definition memfd_secret_x : program := λ k regs ret, mk_body LINX_EVENT_TYPE_MEMFD_SECRET_X ret
  [store_u32 (uint32 (arg regs 0))].

(** 448-process_mrelease.bpf.c *)
Definition process_mrelease_e : program := λ k regs id, mk_body LINX_EVENT_TYPE_PROCESS_MRELEASE_E (-1)
  [].
Definition process_mrelease_x : program := λ k regs ret, mk_body LINX_EVENT_TYPE_PROCESS_MRELEASE_X ret
  [store_s32 (int32 (arg regs 0)); store_u32 (uint32 (arg regs 1))].

(** 449-futex_waitv.bpf.c *)
Definition futex_waitv_e : program := λ k regs id, mk_body LINX_EVENT_TYPE_FUTEX_WAITV_E (-1)
  [].
Definition futex_waitv_x : program := λ k regs ret, mk_body LINX_EVENT_TYPE_FUTEX_WAITV_X ret
  [store_u64 (uint64 (arg regs 0));
   store_u32 (uint32 (arg regs 1));
   store_u32 (uint32 (arg regs 2));
   store_u64 (uint64 (arg regs 3));
   store_s32 (int32 (arg regs 4))].

(** 450-set_mempolicy_home_node.bpf.c *)
Definition set_mempolicy_home_node_e : program := λ k regs id, mk_body LINX_EVENT_TYPE_SET_MEMPOLICY_HOME_NODE_E (-1)
  [].
Definition set_mempolicy_home_node_x : program := λ k regs ret, mk_body LINX_EVENT_TYPE_SET_MEMPOLICY_HOME_NODE_X ret
  [store_u64 (uint64 (arg regs 0));
   store_u64 (uint64 (arg regs 1));
   store_u64 (uint64 (arg regs 2));
   store_u64 (uint64 (arg regs 3))].

(** 451-cachestat.bpf.c *)
Definition cachestat_e : program := λ k regs id, mk_body LINX_EVENT_TYPE_CACHESTAT_E (-1)
  [].
Definition cachestat_x : program := λ k regs ret, mk_body LINX_EVENT_TYPE_CACHESTAT_X ret
  [store_u32 (uint32 (arg regs 0));
   store_u64 (uint64 (arg regs 1));
   store_u64 (uint64 (arg regs 2));
   store_u32 (uint32 (arg regs 3))].

(** 452-fchmodat2.bpf.c *)
Definition fchmodat2_e : program := λ k regs id, mk_body LINX_EVENT_TYPE_FCHMODAT2_E (-1)
  [].
Definition fchmodat2_x : program := λ k regs ret, mk_body LINX_EVENT_TYPE_FCHMODAT2_X ret
  [store_s32 (int32 (arg regs 0));
   store_charpointer (uint64 (arg regs 1)) LINX_CHARBUF_MAX_SIZE USER;
   store_u16 (uint16 (arg regs 2));
   store_u32 (uint32 (arg regs 3))].
