(* ===== verification/Programs.v ===== *)
(** * The programs by name (kernel/ebpf/tail_calls)

    The object that user space loads holds the programs under their names.
    The theorems of this file hold of all of them: what each stores is what
    the event table says of its type, and it fits the buffer. *)
From S2P Require Import Prelude CString Memory EventType EventTable Bpf Ringbuf Programs1 Programs2 Programs3 Programs4.

#[local] Open Scope Z_scope.

Definition programs_1 : list (string * program) := [
  ("read_e", read_e); ("read_x", read_x); ("write_e", write_e); ("write_x", write_x); ("open_e", open_e);
  ("open_x", open_x); ("close_e", close_e); ("close_x", close_x); ("stat_e", stat_e); ("stat_x", stat_x);
  ("fstat_e", fstat_e); ("fstat_x", fstat_x); ("lstat_e", lstat_e); ("lstat_x", lstat_x); ("poll_e", poll_e);
  ("poll_x", poll_x); ("lseek_e", lseek_e); ("lseek_x", lseek_x); ("mmap_e", mmap_e); ("mmap_x", mmap_x);
  ("mprotect_e", mprotect_e); ("mprotect_x", mprotect_x); ("munmap_e", munmap_e); ("munmap_x", munmap_x);
  ("brk_e", brk_e); ("brk_x", brk_x); ("rt_sigaction_e", rt_sigaction_e); ("rt_sigaction_x", rt_sigaction_x);
  ("rt_sigprocmask_e", rt_sigprocmask_e); ("rt_sigprocmask_x", rt_sigprocmask_x);
  ("rt_sigreturn_e", rt_sigreturn_e); ("rt_sigreturn_x", rt_sigreturn_x); ("ioctl_e", ioctl_e);
  ("ioctl_x", ioctl_x); ("pread64_e", pread64_e); ("pread64_x", pread64_x); ("pwrite64_e", pwrite64_e);
  ("pwrite64_x", pwrite64_x); ("readv_e", readv_e); ("readv_x", readv_x); ("writev_e", writev_e);
  ("writev_x", writev_x); ("access_e", access_e); ("access_x", access_x); ("pipe_e", pipe_e); ("pipe_x", pipe_x);
  ("select_e", select_e); ("select_x", select_x); ("sched_yield_e", sched_yield_e);
  ("sched_yield_x", sched_yield_x); ("mremap_e", mremap_e); ("mremap_x", mremap_x); ("msync_e", msync_e);
  ("msync_x", msync_x); ("mincore_e", mincore_e); ("mincore_x", mincore_x); ("madvise_e", madvise_e);
  ("madvise_x", madvise_x); ("shmget_e", shmget_e); ("shmget_x", shmget_x); ("shmat_e", shmat_e);
  ("shmat_x", shmat_x); ("shmctl_e", shmctl_e); ("shmctl_x", shmctl_x); ("dup_e", dup_e); ("dup_x", dup_x);
  ("dup2_e", dup2_e); ("dup2_x", dup2_x); ("pause_e", pause_e); ("pause_x", pause_x); ("nanosleep_e", nanosleep_e);
  ("nanosleep_x", nanosleep_x); ("getitimer_e", getitimer_e); ("getitimer_x", getitimer_x); ("alarm_e", alarm_e);
  ("alarm_x", alarm_x); ("setitimer_e", setitimer_e); ("setitimer_x", setitimer_x); ("getpid_e", getpid_e);
  ("getpid_x", getpid_x); ("sendfile_e", sendfile_e); ("sendfile_x", sendfile_x); ("socket_e", socket_e);
  ("socket_x", socket_x); ("connect_e", connect_e); ("connect_x", connect_x); ("accept_e", accept_e);
  ("accept_x", accept_x); ("sendto_e", sendto_e); ("sendto_x", sendto_x); ("recvfrom_e", recvfrom_e);
  ("recvfrom_x", recvfrom_x); ("sendmsg_e", sendmsg_e); ("sendmsg_x", sendmsg_x); ("recvmsg_e", recvmsg_e);
  ("recvmsg_x", recvmsg_x); ("shutdown_e", shutdown_e); ("shutdown_x", shutdown_x); ("bind_e", bind_e);
  ("bind_x", bind_x); ("listen_e", listen_e); ("listen_x", listen_x); ("getsockname_e", getsockname_e);
  ("getsockname_x", getsockname_x); ("getpeername_e", getpeername_e); ("getpeername_x", getpeername_x);
  ("socketpair_e", socketpair_e); ("socketpair_x", socketpair_x); ("setsockopt_e", setsockopt_e);
  ("setsockopt_x", setsockopt_x); ("getsockopt_e", getsockopt_e); ("getsockopt_x", getsockopt_x);
  ("clone_e", clone_e); ("clone_x", clone_x); ("fork_e", fork_e); ("fork_x", fork_x); ("vfork_e", vfork_e);
  ("vfork_x", vfork_x); ("execve_e", execve_e); ("execve_x", execve_x); ("exit_e", exit_e); ("exit_x", exit_x);
  ("wait4_e", wait4_e); ("wait4_x", wait4_x); ("kill_e", kill_e); ("kill_x", kill_x); ("uname_e", uname_e);
  ("uname_x", uname_x); ("semget_e", semget_e); ("semget_x", semget_x); ("semop_e", semop_e); ("semop_x", semop_x);
  ("semctl_e", semctl_e); ("semctl_x", semctl_x); ("shmdt_e", shmdt_e); ("shmdt_x", shmdt_x);
  ("msgget_e", msgget_e); ("msgget_x", msgget_x); ("msgsnd_e", msgsnd_e); ("msgsnd_x", msgsnd_x);
  ("msgrcv_e", msgrcv_e); ("msgrcv_x", msgrcv_x); ("msgctl_e", msgctl_e); ("msgctl_x", msgctl_x);
  ("fcntl_e", fcntl_e); ("fcntl_x", fcntl_x); ("flock_e", flock_e); ("flock_x", flock_x); ("fsync_e", fsync_e);
  ("fsync_x", fsync_x); ("fdatasync_e", fdatasync_e); ("fdatasync_x", fdatasync_x); ("truncate_e", truncate_e);
  ("truncate_x", truncate_x); ("ftruncate_e", ftruncate_e); ("ftruncate_x", ftruncate_x);
  ("getdents_e", getdents_e); ("getdents_x", getdents_x); ("getcwd_e", getcwd_e); ("getcwd_x", getcwd_x);
  ("chdir_e", chdir_e); ("chdir_x", chdir_x); ("fchdir_e", fchdir_e); ("fchdir_x", fchdir_x);
  ("rename_e", rename_e); ("rename_x", rename_x); ("mkdir_e", mkdir_e); ("mkdir_x", mkdir_x); ("rmdir_e", rmdir_e);
  ("rmdir_x", rmdir_x); ("creat_e", creat_e); ("creat_x", creat_x); ("link_e", link_e); ("link_x", link_x);
  ("unlink_e", unlink_e); ("unlink_x", unlink_x); ("symlink_e", symlink_e); ("symlink_x", symlink_x) ].

Definition programs_2 : list (string * program) := [
  ("readlink_e", readlink_e); ("readlink_x", readlink_x); ("chmod_e", chmod_e); ("chmod_x", chmod_x);
  ("fchmod_e", fchmod_e); ("fchmod_x", fchmod_x); ("chown_e", chown_e); ("chown_x", chown_x);
  ("fchown_e", fchown_e); ("fchown_x", fchown_x); ("lchown_e", lchown_e); ("lchown_x", lchown_x);
  ("umask_e", umask_e); ("umask_x", umask_x); ("gettimeofday_e", gettimeofday_e);
  ("gettimeofday_x", gettimeofday_x); ("getrlimit_e", getrlimit_e); ("getrlimit_x", getrlimit_x);
  ("getrusage_e", getrusage_e); ("getrusage_x", getrusage_x); ("sysinfo_e", sysinfo_e); ("sysinfo_x", sysinfo_x);
  ("times_e", times_e); ("times_x", times_x); ("ptrace_e", ptrace_e); ("ptrace_x", ptrace_x);
  ("getuid_e", getuid_e); ("getuid_x", getuid_x); ("syslog_e", syslog_e); ("syslog_x", syslog_x);
  ("getgid_e", getgid_e); ("getgid_x", getgid_x); ("setuid_e", setuid_e); ("setuid_x", setuid_x);
  ("setgid_e", setgid_e); ("setgid_x", setgid_x); ("geteuid_e", geteuid_e); ("geteuid_x", geteuid_x);
  ("getegid_e", getegid_e); ("getegid_x", getegid_x); ("setpgid_e", setpgid_e); ("setpgid_x", setpgid_x);
  ("getppid_e", getppid_e); ("getppid_x", getppid_x); ("getpgrp_e", getpgrp_e); ("getpgrp_x", getpgrp_x);
  ("setsid_e", setsid_e); ("setsid_x", setsid_x); ("setreuid_e", setreuid_e); ("setreuid_x", setreuid_x);
  ("setregid_e", setregid_e); ("setregid_x", setregid_x); ("getgroups_e", getgroups_e);
  ("getgroups_x", getgroups_x); ("setgroups_e", setgroups_e); ("setgroups_x", setgroups_x);
  ("setresuid_e", setresuid_e); ("setresuid_x", setresuid_x); ("getresuid_e", getresuid_e);
  ("getresuid_x", getresuid_x); ("setresgid_e", setresgid_e); ("setresgid_x", setresgid_x);
  ("getresgid_e", getresgid_e); ("getresgid_x", getresgid_x); ("getpgid_e", getpgid_e); ("getpgid_x", getpgid_x);
  ("setfsuid_e", setfsuid_e); ("setfsuid_x", setfsuid_x); ("setfsgid_e", setfsgid_e); ("setfsgid_x", setfsgid_x);
  ("getsid_e", getsid_e); ("getsid_x", getsid_x); ("capget_e", capget_e); ("capget_x", capget_x);
  ("capset_e", capset_e); ("capset_x", capset_x); ("rt_sigpending_e", rt_sigpending_e);
  ("rt_sigpending_x", rt_sigpending_x); ("rt_sigtimedwait_e", rt_sigtimedwait_e);
  ("rt_sigtimedwait_x", rt_sigtimedwait_x); ("rt_sigqueueinfo_e", rt_sigqueueinfo_e);
  ("rt_sigqueueinfo_x", rt_sigqueueinfo_x); ("rt_sigsuspend_e", rt_sigsuspend_e);
  ("rt_sigsuspend_x", rt_sigsuspend_x); ("sigaltstack_e", sigaltstack_e); ("sigaltstack_x", sigaltstack_x);
  ("utime_e", utime_e); ("utime_x", utime_x); ("mknod_e", mknod_e); ("mknod_x", mknod_x); ("uselib_e", uselib_e);
  ("uselib_x", uselib_x); ("personality_e", personality_e); ("personality_x", personality_x); ("ustat_e", ustat_e);
  ("ustat_x", ustat_x); ("statfs_e", statfs_e); ("statfs_x", statfs_x); ("fstatfs_e", fstatfs_e);
  ("fstatfs_x", fstatfs_x); ("sysfs_e", sysfs_e); ("sysfs_x", sysfs_x); ("getpriority_e", getpriority_e);
  ("getpriority_x", getpriority_x); ("setpriority_e", setpriority_e); ("setpriority_x", setpriority_x);
  ("sched_setparam_e", sched_setparam_e); ("sched_setparam_x", sched_setparam_x);
  ("sched_getparam_e", sched_getparam_e); ("sched_getparam_x", sched_getparam_x);
  ("sched_setscheduler_e", sched_setscheduler_e); ("sched_setscheduler_x", sched_setscheduler_x);
  ("sched_getscheduler_e", sched_getscheduler_e); ("sched_getscheduler_x", sched_getscheduler_x);
  ("sched_get_priority_max_e", sched_get_priority_max_e); ("sched_get_priority_max_x", sched_get_priority_max_x);
  ("sched_get_priority_min_e", sched_get_priority_min_e); ("sched_get_priority_min_x", sched_get_priority_min_x);
  ("sched_rr_get_interval_e", sched_rr_get_interval_e); ("sched_rr_get_interval_x", sched_rr_get_interval_x);
  ("mlock_e", mlock_e); ("mlock_x", mlock_x); ("munlock_e", munlock_e); ("munlock_x", munlock_x);
  ("mlockall_e", mlockall_e); ("mlockall_x", mlockall_x); ("munlockall_e", munlockall_e);
  ("munlockall_x", munlockall_x); ("vhangup_e", vhangup_e); ("vhangup_x", vhangup_x);
  ("modify_ldt_e", modify_ldt_e); ("modify_ldt_x", modify_ldt_x); ("pivot_root_e", pivot_root_e);
  ("pivot_root_x", pivot_root_x); ("_sysctl_e", _sysctl_e); ("_sysctl_x", _sysctl_x); ("prctl_e", prctl_e);
  ("prctl_x", prctl_x); ("arch_prctl_e", arch_prctl_e); ("arch_prctl_x", arch_prctl_x); ("adjtimex_e", adjtimex_e);
  ("adjtimex_x", adjtimex_x); ("setrlimit_e", setrlimit_e); ("setrlimit_x", setrlimit_x); ("chroot_e", chroot_e);
  ("chroot_x", chroot_x); ("sync_e", sync_e); ("sync_x", sync_x); ("acct_e", acct_e); ("acct_x", acct_x);
  ("settimeofday_e", settimeofday_e); ("settimeofday_x", settimeofday_x); ("mount_e", mount_e);
  ("mount_x", mount_x); ("umount2_e", umount2_e); ("umount2_x", umount2_x); ("swapon_e", swapon_e);
  ("swapon_x", swapon_x); ("swapoff_e", swapoff_e); ("swapoff_x", swapoff_x); ("reboot_e", reboot_e);
  ("reboot_x", reboot_x); ("sethostname_e", sethostname_e); ("sethostname_x", sethostname_x);
  ("setdomainname_e", setdomainname_e); ("setdomainname_x", setdomainname_x); ("iopl_e", iopl_e);
  ("iopl_x", iopl_x); ("ioperm_e", ioperm_e); ("ioperm_x", ioperm_x); ("create_module_e", create_module_e);
  ("create_module_x", create_module_x); ("init_module_e", init_module_e); ("init_module_x", init_module_x);
  ("delete_module_e", delete_module_e); ("delete_module_x", delete_module_x);
  ("get_kernel_syms_e", get_kernel_syms_e); ("get_kernel_syms_x", get_kernel_syms_x) ].

Definition programs_3 : list (string * program) := [
  ("query_module_e", query_module_e); ("query_module_x", query_module_x); ("quotactl_e", quotactl_e);
  ("quotactl_x", quotactl_x); ("nfsservctl_e", nfsservctl_e); ("nfsservctl_x", nfsservctl_x);
  ("gettid_e", gettid_e); ("gettid_x", gettid_x); ("readahead_e", readahead_e); ("readahead_x", readahead_x);
  ("setxattr_e", setxattr_e); ("setxattr_x", setxattr_x); ("lsetxattr_e", lsetxattr_e);
  ("lsetxattr_x", lsetxattr_x); ("fsetxattr_e", fsetxattr_e); ("fsetxattr_x", fsetxattr_x);
  ("getxattr_e", getxattr_e); ("getxattr_x", getxattr_x); ("lgetxattr_e", lgetxattr_e);
  ("lgetxattr_x", lgetxattr_x); ("fgetxattr_e", fgetxattr_e); ("fgetxattr_x", fgetxattr_x);
  ("listxattr_e", listxattr_e); ("listxattr_x", listxattr_x); ("llistxattr_e", llistxattr_e);
  ("llistxattr_x", llistxattr_x); ("flistxattr_e", flistxattr_e); ("flistxattr_x", flistxattr_x);
  ("removexattr_e", removexattr_e); ("removexattr_x", removexattr_x); ("lremovexattr_e", lremovexattr_e);
  ("lremovexattr_x", lremovexattr_x); ("fremovexattr_e", fremovexattr_e); ("fremovexattr_x", fremovexattr_x);
  ("tkill_e", tkill_e); ("tkill_x", tkill_x); ("time_e", time_e); ("time_x", time_x); ("futex_e", futex_e);
  ("futex_x", futex_x); ("sched_setaffinity_e", sched_setaffinity_e); ("sched_setaffinity_x", sched_setaffinity_x);
  ("sched_getaffinity_e", sched_getaffinity_e); ("sched_getaffinity_x", sched_getaffinity_x);
  ("set_thread_area_e", set_thread_area_e); ("set_thread_area_x", set_thread_area_x); ("io_setup_e", io_setup_e);
  ("io_setup_x", io_setup_x); ("io_destroy_e", io_destroy_e); ("io_destroy_x", io_destroy_x);
  ("io_getevents_e", io_getevents_e); ("io_getevents_x", io_getevents_x); ("io_submit_e", io_submit_e);
  ("io_submit_x", io_submit_x); ("io_cancel_e", io_cancel_e); ("io_cancel_x", io_cancel_x);
  ("get_thread_area_e", get_thread_area_e); ("get_thread_area_x", get_thread_area_x);
  ("lookup_dcookie_e", lookup_dcookie_e); ("lookup_dcookie_x", lookup_dcookie_x);
  ("epoll_create_e", epoll_create_e); ("epoll_create_x", epoll_create_x);
  ("remap_file_pages_e", remap_file_pages_e); ("remap_file_pages_x", remap_file_pages_x);
  ("getdents64_e", getdents64_e); ("getdents64_x", getdents64_x); ("set_tid_address_e", set_tid_address_e);
  ("set_tid_address_x", set_tid_address_x); ("restart_syscall_e", restart_syscall_e);
  ("restart_syscall_x", restart_syscall_x); ("semtimedop_e", semtimedop_e); ("semtimedop_x", semtimedop_x);
  ("fadvise64_e", fadvise64_e); ("fadvise64_x", fadvise64_x); ("timer_create_e", timer_create_e);
  ("timer_create_x", timer_create_x); ("timer_settime_e", timer_settime_e); ("timer_settime_x", timer_settime_x);
  ("timer_gettime_e", timer_gettime_e); ("timer_gettime_x", timer_gettime_x);
  ("timer_getoverrun_e", timer_getoverrun_e); ("timer_getoverrun_x", timer_getoverrun_x);
  ("timer_delete_e", timer_delete_e); ("timer_delete_x", timer_delete_x); ("clock_settime_e", clock_settime_e);
  ("clock_settime_x", clock_settime_x); ("clock_gettime_e", clock_gettime_e); ("clock_gettime_x", clock_gettime_x);
  ("clock_getres_e", clock_getres_e); ("clock_getres_x", clock_getres_x); ("clock_nanosleep_e", clock_nanosleep_e);
  ("clock_nanosleep_x", clock_nanosleep_x); ("exit_group_e", exit_group_e); ("exit_group_x", exit_group_x);
  ("epoll_wait_e", epoll_wait_e); ("epoll_wait_x", epoll_wait_x); ("epoll_ctl_e", epoll_ctl_e);
  ("epoll_ctl_x", epoll_ctl_x); ("tgkill_e", tgkill_e); ("tgkill_x", tgkill_x); ("utimes_e", utimes_e);
  ("utimes_x", utimes_x); ("mbind_e", mbind_e); ("mbind_x", mbind_x); ("set_mempolicy_e", set_mempolicy_e);
  ("set_mempolicy_x", set_mempolicy_x); ("get_mempolicy_e", get_mempolicy_e); ("get_mempolicy_x", get_mempolicy_x);
  ("mq_open_e", mq_open_e); ("mq_open_x", mq_open_x); ("mq_unlink_e", mq_unlink_e); ("mq_unlink_x", mq_unlink_x);
  ("mq_timedsend_e", mq_timedsend_e); ("mq_timedsend_x", mq_timedsend_x); ("mq_timedreceive_e", mq_timedreceive_e);
  ("mq_timedreceive_x", mq_timedreceive_x); ("mq_notify_e", mq_notify_e); ("mq_notify_x", mq_notify_x);
  ("mq_getsetattr_e", mq_getsetattr_e); ("mq_getsetattr_x", mq_getsetattr_x); ("kexec_load_e", kexec_load_e);
  ("kexec_load_x", kexec_load_x); ("waitid_e", waitid_e); ("waitid_x", waitid_x); ("add_key_e", add_key_e);
  ("add_key_x", add_key_x); ("request_key_e", request_key_e); ("request_key_x", request_key_x);
  ("keyctl_e", keyctl_e); ("keyctl_x", keyctl_x); ("ioprio_set_e", ioprio_set_e); ("ioprio_set_x", ioprio_set_x);
  ("ioprio_get_e", ioprio_get_e); ("ioprio_get_x", ioprio_get_x); ("inotify_init_e", inotify_init_e);
  ("inotify_init_x", inotify_init_x); ("inotify_add_watch_e", inotify_add_watch_e);
  ("inotify_add_watch_x", inotify_add_watch_x); ("inotify_rm_watch_e", inotify_rm_watch_e);
  ("inotify_rm_watch_x", inotify_rm_watch_x); ("migrate_pages_e", migrate_pages_e);
  ("migrate_pages_x", migrate_pages_x); ("openat_e", openat_e); ("openat_x", openat_x); ("mkdirat_e", mkdirat_e);
  ("mkdirat_x", mkdirat_x); ("mknodat_e", mknodat_e); ("mknodat_x", mknodat_x); ("fchownat_e", fchownat_e);
  ("fchownat_x", fchownat_x); ("futimesat_e", futimesat_e); ("futimesat_x", futimesat_x);
  ("newfstatat_e", newfstatat_e); ("newfstatat_x", newfstatat_x); ("unlinkat_e", unlinkat_e);
  ("unlinkat_x", unlinkat_x); ("renameat_e", renameat_e); ("renameat_x", renameat_x); ("linkat_e", linkat_e);
  ("linkat_x", linkat_x); ("symlinkat_e", symlinkat_e); ("symlinkat_x", symlinkat_x);
  ("readlinkat_e", readlinkat_e); ("readlinkat_x", readlinkat_x); ("fchmodat_e", fchmodat_e);
  ("fchmodat_x", fchmodat_x); ("faccessat_e", faccessat_e); ("faccessat_x", faccessat_x);
  ("pselect6_e", pselect6_e); ("pselect6_x", pselect6_x); ("ppoll_e", ppoll_e); ("ppoll_x", ppoll_x);
  ("unshare_e", unshare_e); ("unshare_x", unshare_x); ("set_robust_list_e", set_robust_list_e);
  ("set_robust_list_x", set_robust_list_x); ("get_robust_list_e", get_robust_list_e);
  ("get_robust_list_x", get_robust_list_x) ].

Definition programs_4 : list (string * program) := [
  ("splice_e", splice_e); ("splice_x", splice_x); ("tee_e", tee_e); ("tee_x", tee_x);
  ("sync_file_range_e", sync_file_range_e); ("sync_file_range_x", sync_file_range_x); ("vmsplice_e", vmsplice_e);
  ("vmsplice_x", vmsplice_x); ("move_pages_e", move_pages_e); ("move_pages_x", move_pages_x);
  ("utimensat_e", utimensat_e); ("utimensat_x", utimensat_x); ("epoll_pwait_e", epoll_pwait_e);
  ("epoll_pwait_x", epoll_pwait_x); ("signalfd_e", signalfd_e); ("signalfd_x", signalfd_x);
  ("timerfd_create_e", timerfd_create_e); ("timerfd_create_x", timerfd_create_x); ("eventfd_e", eventfd_e);
  ("eventfd_x", eventfd_x); ("fallocate_e", fallocate_e); ("fallocate_x", fallocate_x);
  ("timerfd_settime_e", timerfd_settime_e); ("timerfd_settime_x", timerfd_settime_x);
  ("timerfd_gettime_e", timerfd_gettime_e); ("timerfd_gettime_x", timerfd_gettime_x); ("accept4_e", accept4_e);
  ("accept4_x", accept4_x); ("signalfd4_e", signalfd4_e); ("signalfd4_x", signalfd4_x); ("eventfd2_e", eventfd2_e);
  ("eventfd2_x", eventfd2_x); ("epoll_create1_e", epoll_create1_e); ("epoll_create1_x", epoll_create1_x);
  ("dup3_e", dup3_e); ("dup3_x", dup3_x); ("pipe2_e", pipe2_e); ("pipe2_x", pipe2_x);
  ("inotify_init1_e", inotify_init1_e); ("inotify_init1_x", inotify_init1_x); ("preadv_e", preadv_e);
  ("preadv_x", preadv_x); ("pwritev_e", pwritev_e); ("pwritev_x", pwritev_x);
  ("rt_tgsigqueueinfo_e", rt_tgsigqueueinfo_e); ("rt_tgsigqueueinfo_x", rt_tgsigqueueinfo_x);
  ("perf_event_open_e", perf_event_open_e); ("perf_event_open_x", perf_event_open_x); ("recvmmsg_e", recvmmsg_e);
  ("recvmmsg_x", recvmmsg_x); ("fanotify_init_e", fanotify_init_e); ("fanotify_init_x", fanotify_init_x);
  ("fanotify_mark_e", fanotify_mark_e); ("fanotify_mark_x", fanotify_mark_x); ("prlimit64_e", prlimit64_e);
  ("prlimit64_x", prlimit64_x); ("name_to_handle_at_e", name_to_handle_at_e);
  ("name_to_handle_at_x", name_to_handle_at_x); ("open_by_handle_at_e", open_by_handle_at_e);
  ("open_by_handle_at_x", open_by_handle_at_x); ("clock_adjtime_e", clock_adjtime_e);
  ("clock_adjtime_x", clock_adjtime_x); ("syncfs_e", syncfs_e); ("syncfs_x", syncfs_x); ("sendmmsg_e", sendmmsg_e);
  ("sendmmsg_x", sendmmsg_x); ("setns_e", setns_e); ("setns_x", setns_x); ("getcpu_e", getcpu_e);
  ("getcpu_x", getcpu_x); ("process_vm_readv_e", process_vm_readv_e); ("process_vm_readv_x", process_vm_readv_x);
  ("process_vm_writev_e", process_vm_writev_e); ("process_vm_writev_x", process_vm_writev_x); ("kcmp_e", kcmp_e);
  ("kcmp_x", kcmp_x); ("finit_module_e", finit_module_e); ("finit_module_x", finit_module_x);
  ("sched_setattr_e", sched_setattr_e); ("sched_setattr_x", sched_setattr_x); ("sched_getattr_e", sched_getattr_e);
  ("sched_getattr_x", sched_getattr_x); ("renameat2_e", renameat2_e); ("renameat2_x", renameat2_x);
  ("seccomp_e", seccomp_e); ("seccomp_x", seccomp_x); ("getrandom_e", getrandom_e); ("getrandom_x", getrandom_x);
  ("memfd_create_e", memfd_create_e); ("memfd_create_x", memfd_create_x); ("kexec_file_load_e", kexec_file_load_e);
  ("kexec_file_load_x", kexec_file_load_x); ("bpf_e", bpf_e); ("bpf_x", bpf_x); ("execveat_e", execveat_e);
  ("execveat_x", execveat_x); ("userfaultfd_e", userfaultfd_e); ("userfaultfd_x", userfaultfd_x);
  ("membarrier_e", membarrier_e); ("membarrier_x", membarrier_x); ("mlock2_e", mlock2_e); ("mlock2_x", mlock2_x);
  ("copy_file_range_e", copy_file_range_e); ("copy_file_range_x", copy_file_range_x); ("preadv2_e", preadv2_e);
  ("preadv2_x", preadv2_x); ("pwritev2_e", pwritev2_e); ("pwritev2_x", pwritev2_x);
  ("pkey_mprotect_e", pkey_mprotect_e); ("pkey_mprotect_x", pkey_mprotect_x); ("pkey_alloc_e", pkey_alloc_e);
  ("pkey_alloc_x", pkey_alloc_x); ("pkey_free_e", pkey_free_e); ("pkey_free_x", pkey_free_x); ("statx_e", statx_e);
  ("statx_x", statx_x); ("io_pgetevents_e", io_pgetevents_e); ("io_pgetevents_x", io_pgetevents_x);
  ("rseq_e", rseq_e); ("rseq_x", rseq_x); ("pidfd_send_signal_e", pidfd_send_signal_e);
  ("pidfd_send_signal_x", pidfd_send_signal_x); ("io_uring_setup_e", io_uring_setup_e);
  ("io_uring_setup_x", io_uring_setup_x); ("io_uring_enter_e", io_uring_enter_e);
  ("io_uring_enter_x", io_uring_enter_x); ("io_uring_register_e", io_uring_register_e);
  ("io_uring_register_x", io_uring_register_x); ("open_tree_e", open_tree_e); ("open_tree_x", open_tree_x);
  ("move_mount_e", move_mount_e); ("move_mount_x", move_mount_x); ("fsopen_e", fsopen_e); ("fsopen_x", fsopen_x);
  ("fsconfig_e", fsconfig_e); ("fsconfig_x", fsconfig_x); ("fsmount_e", fsmount_e); ("fsmount_x", fsmount_x);
  ("fspick_e", fspick_e); ("fspick_x", fspick_x); ("pidfd_open_e", pidfd_open_e); ("pidfd_open_x", pidfd_open_x);
  ("clone3_e", clone3_e); ("clone3_x", clone3_x); ("close_range_e", close_range_e);
  ("close_range_x", close_range_x); ("openat2_e", openat2_e); ("openat2_x", openat2_x);
  ("pidfd_getfd_e", pidfd_getfd_e); ("pidfd_getfd_x", pidfd_getfd_x); ("faccessat2_e", faccessat2_e);
  ("faccessat2_x", faccessat2_x); ("process_madvise_e", process_madvise_e);
  ("process_madvise_x", process_madvise_x); ("epoll_pwait2_e", epoll_pwait2_e); ("epoll_pwait2_x", epoll_pwait2_x);
  ("mount_setattr_e", mount_setattr_e); ("mount_setattr_x", mount_setattr_x); ("quotactl_fd_e", quotactl_fd_e);
  ("quotactl_fd_x", quotactl_fd_x); ("landlock_create_ruleset_e", landlock_create_ruleset_e);
  ("landlock_create_ruleset_x", landlock_create_ruleset_x); ("landlock_add_rule_e", landlock_add_rule_e);
  ("landlock_add_rule_x", landlock_add_rule_x); ("landlock_restrict_self_e", landlock_restrict_self_e);
  ("landlock_restrict_self_x", landlock_restrict_self_x); ("memfd_secret_e", memfd_secret_e);
  ("memfd_secret_x", memfd_secret_x); ("process_mrelease_e", process_mrelease_e);
  ("process_mrelease_x", process_mrelease_x); ("futex_waitv_e", futex_waitv_e); ("futex_waitv_x", futex_waitv_x);
  ("set_mempolicy_home_node_e", set_mempolicy_home_node_e);
  ("set_mempolicy_home_node_x", set_mempolicy_home_node_x); ("cachestat_e", cachestat_e);
  ("cachestat_x", cachestat_x); ("fchmodat2_e", fchmodat2_e); ("fchmodat2_x", fchmodat2_x) ].

(** The programs of the object, entry and exit of each numbered file. *)
Definition bpf_programs : list (string * program) := programs_1 ++ programs_2 ++ programs_3 ++ programs_4.

(** ** Agreement with the event table *)
Definition field_width (t : linx_field_type_t) : option nat :=
  match t with
  | LINX_FIELD_TYPE_INT8 | LINX_FIELD_TYPE_UINT8 | LINX_FIELD_TYPE_BOOL => Some 1%nat
  | LINX_FIELD_TYPE_INT16 | LINX_FIELD_TYPE_UINT16 => Some 2%nat
  | LINX_FIELD_TYPE_INT32 | LINX_FIELD_TYPE_UINT32 | LINX_FIELD_TYPE_FLOAT | LINX_FIELD_TYPE_UID => Some 4%nat
  | LINX_FIELD_TYPE_INT64 | LINX_FIELD_TYPE_UINT64 | LINX_FIELD_TYPE_DOUBLE | LINX_FIELD_TYPE_PID => Some 8%nat
  | _ => None
  end.

(** The store of a parameter suits its type; a structure ([UNKNOWN]) has no
    layout to agree with. *)
Definition agrees (t : linx_field_type_t) (p : param) : bool :=
  if bool_decide (t = LINX_FIELD_TYPE_UNKNOWN) then true
  else match p with
  | StoreFixed n _ => bool_decide (field_width t = Some n)
  | StoreCharpointer _ _ _ => bool_decide (t = LINX_FIELD_TYPE_CHARBUF)
  | StoreBytebuf _ _ _ | StoreCharbufarray _ _ _ => bool_decide (t = LINX_FIELD_TYPE_BYTEBUF)
  | StoreSocktuple _ _ _ => bool_decide (t = LINX_FIELD_TYPE_SOCKTUPLE)
  | StoreEmpty => bool_decide (t = LINX_FIELD_TYPE_BYTEBUF) || bool_decide (t = LINX_FIELD_TYPE_SOCKTUPLE)
  end.

Fixpoint all_agree (ts : list linx_param_info_t) (ps : list param) : bool :=
  match ts, ps with
  | [], [] => true
  | t :: ts, p :: ps => agrees (lp_type t) p && all_agree ts ps
  | _, _ => false
  end.

Definition program_name (e : linx_event_table_t) (type : Z) : string :=
  le_name e +:+ (if type `mod` 2 =? 0 then "_e" else "_x").

Definition named (name : string) (b : program_body) : bool :=
  match g_linx_event_table (pb_type b) with Some e => streq name (program_name e (pb_type b)) | None => false end.

Definition complete (b : program_body) : bool :=
  match g_linx_event_table (pb_type b) with
  | Some e => Z.of_nat (length (pb_params b)) =? le_nparams e
  | None => false
  end.

Definition conforms (b : program_body) : bool :=
  match g_linx_event_table (pb_type b) with Some e => all_agree (le_params e) (pb_params b) | None => false end.

(** The programs that store eight bytes for a parameter of four. *)
Definition wide_programs : list string :=
  ["recvfrom_x"; "landlock_create_ruleset_x"; "landlock_add_rule_x"; "landlock_restrict_self_x"].

(** The programs whose stores depend on more than their number. *)
Definition branching_programs : list string := ["read_x"; "sendto_e"; "recvfrom_x"].

Definition is_entry (name : string) : bool := streq (sdrop (strlen name - 2) name) "_e".

(** ** Lemmas *)

(** A test of all programs by computation: where a store is chosen by a
    condition the test does not reduce, and the list names the program. *)
Lemma programs_check (f : string * program → kernel → pt_regs → Z → bool) (skip : list string) name p k regs ret :
  forallb (λ x, bool_decide (x.1 ∈ skip) || f x k regs ret) bpf_programs = true →
  (name, p) ∈ bpf_programs → name ∉ skip → f (name, p) k regs ret = true.
Proof.
  intros H Hin Hs. rewrite forallb_forall in H. apply list_elem_of_In, H in Hin. cbn in Hin.
  by rewrite bool_decide_eq_false_2 in Hin.
Qed.

Lemma programs_names : NoDup bpf_programs.*1.
Proof.
  assert (bool_decide (NoDup bpf_programs.*1) = true) as H by (vm_compute; reflexivity). by apply bool_decide_eq_true in H.
Qed.

(** The program that has a name. *)
Lemma programs_functional name p q : (name, p) ∈ bpf_programs → (name, q) ∈ bpf_programs → p = q.
Proof.
  intros [i Hi]%list_elem_of_lookup [j Hj]%list_elem_of_lookup.
  assert (i = j) as ->.
  { eapply NoDup_lookup; [exact programs_names| |]; rewrite list_lookup_fmap; [by rewrite Hi|by rewrite Hj]. }
  congruence.
Qed.

(** The programs the proofs name. *)
Lemma read_x_in : ("read_x", read_x) ∈ bpf_programs.
Proof. by apply (list_elem_of_lookup_2 _ 1). Qed.

Lemma open_x_in : ("open_x", open_x) ∈ bpf_programs.
Proof. by apply (list_elem_of_lookup_2 _ 5). Qed.

Lemma sendto_e_in : ("sendto_e", sendto_e) ∈ bpf_programs.
Proof. by apply (list_elem_of_lookup_2 _ 88). Qed.

Lemma recvfrom_x_in : ("recvfrom_x", recvfrom_x) ∈ bpf_programs.
Proof. by apply (list_elem_of_lookup_2 _ 91). Qed.

Lemma programs_named name p k regs ret : (name, p) ∈ bpf_programs → named name (p k regs ret) = true.
Proof.
  intros Hin. refine (programs_check (λ x k regs ret, named x.1 (x.2 k regs ret)) [] _ _ _ _ _ _ Hin _); [|by intros ?%elem_of_nil].
  vm_compute. reflexivity.
Qed.

Lemma programs_conform name p k regs ret :
  (name, p) ∈ bpf_programs → name ∉ branching_programs ++ wide_programs → conforms (p k regs ret) = true.
Proof.
  intros Hin. refine (programs_check (λ x k regs ret, conforms (x.2 k regs ret)) _ _ _ _ _ _ _ Hin).
  vm_compute. reflexivity.
Qed.

Lemma programs_complete name p k regs ret :
  (name, p) ∈ bpf_programs → name ∉ branching_programs → complete (p k regs ret) = true.
Proof.
  intros Hin. refine (programs_check (λ x k regs ret, complete (x.2 k regs ret)) _ _ _ _ _ _ _ Hin).
  vm_compute. reflexivity.
Qed.

Lemma programs_wide name p k regs ret :
  (name, p) ∈ bpf_programs → name ∈ wide_programs → conforms (p k regs ret) = false.
Proof.
  intros Hin Hw. destruct (decide (name = "recvfrom_x")) as [->|Hn].
  { rewrite (programs_functional _ _ _ Hin recvfrom_x_in).
    unfold recvfrom_x. destruct (0 <? ret); reflexivity. }
  assert (forallb (λ x, streq x.1 "recvfrom_x" || negb (bool_decide (x.1 ∈ wide_programs))
                        || negb (conforms (x.2 k regs ret))) bpf_programs = true)
    as H by (vm_compute; reflexivity).
  rewrite forallb_forall in H. apply list_elem_of_In, H in Hin. cbn [fst snd] in Hin.
  rewrite bool_decide_eq_true_2 in Hin by done. destruct (streq_spec name "recvfrom_x"); [done|]. by apply negb_true_iff.
Qed.

Lemma programs_result name p k regs ret :
  (name, p) ∈ bpf_programs → pb_res (p k regs ret) = if is_entry name then -1 else ret.
Proof.
  intros Hin.
  assert ((λ x : string * program, pb_res (x.2 k regs ret)) <$> bpf_programs
    = (λ x, if is_entry x.1 then -1 else ret) <$> bpf_programs) as H by (vm_compute; reflexivity).
  apply list_elem_of_lookup in Hin as [i Hi]. apply (f_equal (lookup i)) in H. rewrite !list_lookup_fmap, Hi in H.
  by injection H.
Qed.

(** ** Size of an event *)
Definition fits (b : program_body) : bool :=
  (params_max (pb_params b) <? LINX_EVENT_DATA_SIZE) && (length (pb_params b) <=? 32)%nat.

Lemma programs_fit name p k regs ret :
  (name, p) ∈ bpf_programs → name ≠ "sendto_x" → fits (p k regs ret) = true.
Proof.
  intros Hin Hn. destruct (decide (name ∈ branching_programs)) as [Hb|Hb].
  - repeat (apply elem_of_cons in Hb as [->|Hb]); [| | |by apply elem_of_nil in Hb].
    + rewrite (programs_functional _ _ _ Hin read_x_in).
      unfold read_x. by destruct (0 <? ret).
    + rewrite (programs_functional _ _ _ Hin sendto_e_in).
      unfold sendto_e. by destruct (0 <=? _).
    + rewrite (programs_functional _ _ _ Hin recvfrom_x_in).
      unfold recvfrom_x. by destruct (0 <? ret).
  - refine (programs_check (λ x k regs ret, fits (x.2 k regs ret)) ("sendto_x" :: branching_programs) _ _ _ _ _ _ Hin _).
    + vm_compute. reflexivity.
    + rewrite not_elem_of_cons. by split.
Qed.

(** The event a program sends when its stores fit. *)
Definition filled (b : program_body) (k : kernel) (rb : linx_ringbuf_t) : linx_ringbuf_t :=
  let rb := put_all (param_bytes k <$> pb_params b) (linx_ringbuf_load_event k (pb_type b) (pb_res b) rb) in
  with_header (set_size (rb_payload_pos rb)) rb.

Lemma bytes_max k ps : kernel_ok k → Z.of_nat (length (concat (param_bytes k <$> ps))) ≤ params_max ps.
Proof.
  intros Hk. unfold params_max. induction ps as [|p ps IH]; cbn; [done|]. rewrite length_app.
  pose proof (param_bytes_max k Hk p). lia.
Qed.

Lemma run_program_outcome p k regs ret rb :
  kernel_ok k → fits (p k regs ret) = true →
  let b := p k regs ret in
  run_program p k regs ret rb
  = if forallb (param_safe k) (pb_params b)
    then Ret [] (filled b k rb, if bpf_ringbuf_output k then Some (filled b k rb) else None) else Ub BadAddress.
Proof.
  intros Hk Hf b. unfold run_program, fits in *. fold b in Hf |- *.
  apply andb_true_iff in Hf as [H1%Z.ltb_lt H2%Nat.leb_le].
  rewrite store_all_outcome; [|done| |cbn; lia].
  2:{ unfold room. cbn -[LINX_EVENT_HEADER_SIZE LINX_EVENT_MAX_SIZE]. unfold LINX_EVENT_DATA_SIZE in H1. lia. }
  destruct (forallb (param_safe k) (pb_params b)); [|done]. rewrite bind_Ret_nil.
  unfold linx_ringbuf_submit_event, filled. rewrite !put_all_pos.
  change (rb_payload_pos (linx_ringbuf_load_event _ _ _ _)) with LINX_EVENT_HEADER_SIZE.
  pose proof (bytes_max k (pb_params b) Hk). unfold LINX_EVENT_DATA_SIZE in H1.
  destruct (Z.ltb_spec LINX_EVENT_MAX_SIZE (LINX_EVENT_HEADER_SIZE + Z.of_nat (length (concat (param_bytes k <$> pb_params b)))));
    [lia|reflexivity].
Qed.

(** ** What is in the event *)
Definition event_sizes (rb : linx_ringbuf_t) : list Z := eh_params_size (rb_event rb).

(** Where parameter [j] starts behind the header. *)
Definition size_before (sizes : list Z) (j : nat) : Z := foldr Z.add 0 (take j sizes).

Lemma size_before_concat (bss : list (list Z)) (l : list Z) j :
  (j ≤ length bss)%nat → (length bss ≤ length l)%nat →
  size_before (set_sizes 0 bss l) j = Z.of_nat (length (concat (take j bss))).
Proof.
  intros Hj Hl. unfold size_before. induction j as [|j IH]; [done|].
  destruct (lookup_lt_is_Some_2 bss j Hj) as [bs Hbs].
  pose proof (set_sizes_lookup 0 bss l j bs Hl Hbs) as Hs.
  change (0 + j)%nat with j in Hs. rewrite (take_S_r _ _ _ Hs), (take_S_r _ _ _ Hbs), concat_app, length_app. cbn [concat]. rewrite app_nil_r.
  rewrite Nat2Z.inj_add, <- IH by lia. generalize (take j (set_sizes 0 bss l)). intros r.
  induction r as [|x r IHr]; cbn; lia.
Qed.

Lemma filled_sizes b k rb :
  event_sizes (filled b k rb) = set_sizes 0 (param_bytes k <$> pb_params b) (event_sizes rb).
Proof. unfold filled, event_sizes. cbn [with_header rb_event set_size eh_params_size]. by rewrite put_all_event. Qed.

Lemma filled_data b k rb :
  rb_data (filled b k rb)
  = write_bytes (rb_data rb) LINX_EVENT_HEADER_SIZE (concat (param_bytes k <$> pb_params b)).
Proof. unfold filled. cbn [with_header rb_data]. by rewrite put_all_data. Qed.

Lemma filled_pos b k rb :
  eh_size (rb_event (filled b k rb))
  = LINX_EVENT_HEADER_SIZE + Z.of_nat (length (concat (param_bytes k <$> pb_params b))).
Proof. unfold filled. cbn [with_header rb_event set_size eh_size]. by rewrite put_all_pos. Qed.

Lemma filled_header b k rb :
  eh_type (rb_event (filled b k rb)) = pb_type b ∧ eh_res (rb_event (filled b k rb)) = wrap 64 (pb_res b)
  ∧ eh_comm (rb_event (filled b k rb)) = bpf_get_current_comm k.
Proof. unfold filled. cbn [with_header rb_event set_size eh_type eh_res eh_comm]. by rewrite put_all_event. Qed.

Lemma bytes_at_concat m a (bss : list (list Z)) j bs :
  bytes_at m a (concat bss) → bss !! j = Some bs → bytes_at m (a + Z.of_nat (length (concat (take j bss)))) bs.
Proof.
  intros H Hj. rewrite <- (take_drop_middle bss j bs Hj) in H. rewrite concat_app in H. cbn [concat] in H.
  apply bytes_at_app in H as [_ H]. by apply bytes_at_app in H as [H _].
Qed.

(** The bytes of a parameter are where the sizes say. *)
Lemma filled_param b k rb j q :
  (length (pb_params b) ≤ length (event_sizes rb))%nat → pb_params b !! j = Some q →
  event_sizes (filled b k rb) !! j = Some (Z.of_nat (length (param_bytes k q)))
  ∧ bytes_at (rb_data (filled b k rb)) (LINX_EVENT_HEADER_SIZE + size_before (event_sizes (filled b k rb)) j)
      (param_bytes k q).
Proof.
  intros Hl Hj. assert ((param_bytes k <$> pb_params b) !! j = Some (param_bytes k q)) as Hj'
    by (by rewrite list_lookup_fmap, Hj).
  rewrite filled_sizes, filled_data. split.
  - apply (set_sizes_lookup 0); [by rewrite length_fmap|done].
  - rewrite size_before_concat; [| |by rewrite length_fmap].
    + eapply bytes_at_concat; [apply write_bytes_at|done].
    + apply lookup_lt_Some in Hj'. lia.
Qed.

(** ** Results *)

(** C8: the 712 programs have different names, each is named after its event in
    the event table with the ending of its direction, and loads -1 at the
    entry and the result of the call at the exit.  Each stores one value per
    parameter the table declares for the event, except that the exit of
    recvfrom leaves the last one out when bytes were received; and every
    value has the width of its type, except that the programs of
    [wide_programs] store eight bytes for four. *)
Theorem programs_match_table :
  NoDup bpf_programs.*1
  ∧ ∀ name p k regs ret, (name, p) ∈ bpf_programs →
      named name (p k regs ret) = true
      ∧ pb_res (p k regs ret) = (if is_entry name then -1 else ret)
      ∧ complete (p k regs ret) = negb (streq name "recvfrom_x" && (0 <? ret))
      ∧ conforms (p k regs ret) = negb (bool_decide (name ∈ wide_programs)).
Proof.
  split; [exact programs_names|]. intros name p k regs ret Hin.
  split; [by eapply programs_named|]. split; [by apply programs_result|].
  destruct (decide (name ∈ branching_programs)) as [Hb|Hb].
  - repeat (apply elem_of_cons in Hb as [->|Hb]); [| | |by apply elem_of_nil in Hb].
    + rewrite (programs_functional _ _ _ Hin read_x_in).
      unfold read_x. destruct (0 <? ret); split; reflexivity.
    + rewrite (programs_functional _ _ _ Hin sendto_e_in).
      unfold sendto_e. destruct (0 <=? _); split; reflexivity.
    + rewrite (programs_functional _ _ _ Hin recvfrom_x_in).
      unfold recvfrom_x. destruct (0 <? ret); split; reflexivity.
  - split.
    + rewrite (programs_complete name) by done. destruct (streq_spec name "recvfrom_x") as [->|]; [|done].
      destruct Hb. by apply (bool_decide_eq_true _).
    + destruct (decide (name ∈ wide_programs)) as [Hw|Hw].
      * rewrite bool_decide_eq_true_2 by done. by apply (programs_wide name).
      * rewrite bool_decide_eq_false_2 by done. apply (programs_conform name); [done|]. rewrite elem_of_app. tauto.
Qed.

(** C15: every program but the exit of sendto, whatever the registers, the
    result and the kernel answer, stays within the buffer of its CPU and
    produces one event of at most 32 KB: type and result are in the header,
    and the size and the bytes of every parameter are where user space looks
    for them; when the ring has room the event is sent.  The one thing that
    stops a program is a socket without a peer and an address to read. *)
Theorem programs_fill_event name p k regs ret rb :
  (name, p) ∈ bpf_programs → name ≠ "sendto_x" → kernel_ok k → length (event_sizes rb) = 32%nat →
  let b := p k regs ret in
  if forallb (param_safe k) (pb_params b) then
    ∃ rb', run_program p k regs ret rb = Ret [] (rb', if bpf_ringbuf_output k then Some rb' else None)
      ∧ eh_type (rb_event rb') = pb_type b ∧ eh_res (rb_event rb') = wrap 64 (pb_res b)
      ∧ eh_size (rb_event rb') ≤ LINX_EVENT_MAX_SIZE ∧ length (event_sizes rb') = 32%nat
      ∧ ∀ j q, pb_params b !! j = Some q →
          event_sizes rb' !! j = Some (Z.of_nat (length (param_bytes k q)))
          ∧ bytes_at (rb_data rb') (LINX_EVENT_HEADER_SIZE + size_before (event_sizes rb') j) (param_bytes k q)
  else run_program p k regs ret rb = Ub BadAddress.
Proof.
  intros Hin Hn Hk Hl b. pose proof (programs_fit _ _ k regs ret Hin Hn) as Hf.
  pose proof (run_program_outcome p k regs ret rb Hk Hf) as Ho. fold b in Ho, Hf. cbv zeta in Ho.
  destruct (forallb (param_safe k) (pb_params b)); [|done].
  exists (filled b k rb). destruct (filled_header b k rb) as (Ht & Hr & _).
  unfold fits in Hf. apply andb_true_iff in Hf as [H1%Z.ltb_lt H2%Nat.leb_le].
  pose proof (bytes_max k (pb_params b) Hk).
  repeat split; [done|done|done| | | |].
  - rewrite filled_pos. unfold LINX_EVENT_DATA_SIZE in H1. lia.
  - by rewrite filled_sizes, set_sizes_length.
  - by apply filled_param; [rewrite Hl|].
  - by apply filled_param; [rewrite Hl|].
Qed.

(** The number of bytes the exit of sendto reads: a size of the call that is
    negative as a signed number passes the limit of 128. *)
Definition sendto_snaplen (regs : pt_regs) (ret : Z) : Z :=
  let bytes_to_read := if 0 <? ret then ret else int64 (get_pt_regs_argumnet regs 2) in
  if bytes_to_read <? 128 then uint16 bytes_to_read else 128.

Lemma sendto_snaplen_small regs ret :
  sendto_snaplen regs ret ≤ 128
  ↔ 0 < ret ∨ 0 ≤ int64 (get_pt_regs_argumnet regs 2) ∨ int64 (get_pt_regs_argumnet regs 2) `mod` 65536 ≤ 128.
Proof.
  unfold sendto_snaplen, uint16, wrap. change (2 ^ 16) with 65536.
  generalize (int64 (get_pt_regs_argumnet regs 2)). intros v.
  destruct (Z.ltb_spec 0 ret) as [Hr|Hr].
  - destruct (Z.ltb_spec ret 128); [rewrite Z.mod_small by lia|]; lia.
  - destruct (Z.ltb_spec v 128); [|lia]. destruct (decide (0 ≤ v)); [rewrite Z.mod_small by lia|]; lia.
Qed.

Lemma sendto_snaplen_range regs ret : 0 ≤ sendto_snaplen regs ret < 65536.
Proof.
  unfold sendto_snaplen. pose proof (λ z, wrap_range 16 z ltac:(lia)) as Hw. change (2 ^ 16) with 65536 in Hw.
  unfold uint16. destruct (_ <? 128); [apply Hw|lia].
Qed.

(** The exit of sendto limits the data to 128 bytes when bytes were sent or
    the size of the call is below 2^63.  Otherwise the limit fails: when the
    bytes can be read, an event that comes to more than 32 KB is built and
    not sent, and one that would come to more than 64 KB is written past the
    buffer of the CPU. *)
Theorem sendto_snaplen_bound k regs ret rb :
  kernel_ok k → length (event_sizes rb) = 32%nat →
  let n := sendto_snaplen regs ret in
  let a := get_pt_regs_argumnet regs 1 in
  (n ≤ 128 ↔ 0 < ret ∨ 0 ≤ int64 (get_pt_regs_argumnet regs 2) ∨ int64 (get_pt_regs_argumnet regs 2) `mod` 65536 ≤ 128)
  ∧ (a ≠ 0 → 0 < n → is_Some (bpf_probe_read k USER a (Z.to_nat n)) →
     match run_program sendto_x k regs ret rb with
     | Ret _ (_, sent) =>
         LINX_EVENT_HEADER_SIZE + 8 + n ≤ 2 * LINX_EVENT_MAX_SIZE
         ∧ (is_Some sent ↔ bpf_ringbuf_output k = true ∧ LINX_EVENT_HEADER_SIZE + 8 + n ≤ LINX_EVENT_MAX_SIZE)
     | Ub f => f = OutOfBounds ∧ 2 * LINX_EVENT_MAX_SIZE < LINX_EVENT_HEADER_SIZE + 8 + n
     | NoFuel => False
     end).
Proof.
  intros Hk Hl n a. split; [exact (sendto_snaplen_small regs ret)|]. intros Ha Hn [bs Hbs].
  pose proof (sendto_snaplen_range regs ret : 0 ≤ n < 65536) as Hw.
  assert (pb_params (sendto_x k regs ret) = [store_s64 ret; StoreBytebuf a n USER]) as Hp by reflexivity.
  unfold run_program. cbv zeta. rewrite Hp. cbn [store_all]. set (rb0 := linx_ringbuf_load_event _ _ _ _).
  assert (room 9 rb0) as Hr0 by (unfold room; vm_compute; intuition discriminate).
  rewrite store_ok by (done || by eapply room_le; [|done]). rewrite bind_Ret_nil. cbn [param_bytes store_s64].
  assert (room 0 (put (le_split 8 ret) rb0)) as Hr1.
  { apply room_put; [done|]. rewrite le_split_length. by eapply room_le; [|done]. }
  set (rb1 := put _ rb0) in *.
  assert (rb_payload_pos rb1 = LINX_EVENT_HEADER_SIZE + 8) as Hpos by reflexivity.
  cbn [store]. rewrite (wrap_small 16) by (change (2 ^ 16) with 65536; lia).
  unfold linx_ringbuf_store_bytebuf, linx_push_bytebuf. rewrite (proj2 (Z.eqb_neq a 0)) by done.
  rewrite (proj2 (Z.ltb_lt 0 n)) by done. cbn [negb andb]. rewrite Hbs.
  pose proof (ko_read k Hk _ _ _ _ Hbs) as Hlen. rewrite safe_access by (rewrite Hpos; split; done).
  unfold write_at. rewrite Hpos, Hlen, Z2Nat.id by lia. cbn [Z.leb].
  rewrite (proj2 (Z.leb_le LINX_EVENT_HEADER_SIZE (LINX_EVENT_HEADER_SIZE + 8))) by (by vm_compute). cbn [andb].
  destruct (Z.leb_spec (LINX_EVENT_HEADER_SIZE + 8 + n) (LINX_EVENT_MAX_SIZE * 2)) as [Hle|Hgt]; [|cbn; split; [done|lia]].
  rewrite !bind_ret_l. rewrite advance_small.
  2:{ cbn [with_data rb_payload_pos]. rewrite Hpos. change (2 ^ 64) with 18446744073709551616. split; size_lia. }
  cbn [with_data rb_payload_pos]. rewrite push_fixed_size_ok by (cbn; lia).
  repeat (rewrite bind_Ret_nil || rewrite bind_ret_l).
  match goal with |- context [linx_ringbuf_submit_event k ?x] =>
    assert (rb_payload_pos x = LINX_EVENT_HEADER_SIZE + 8 + n) as Hp2 by reflexivity; revert Hp2; generalize x end.
  intros rb2 Hp2. unfold linx_ringbuf_submit_event. rewrite Hp2.
  destruct (Z.ltb_spec LINX_EVENT_MAX_SIZE (LINX_EVENT_HEADER_SIZE + 8 + n)) as [H|H].
  - split; [lia|]. split; [by intros []|lia].
  - destruct (bpf_ringbuf_output k); split; try lia; (split; [intros Hs|intros [Hs _]]); by try inversion Hs.
Qed.

(** ** Examples *)

(** A kernel whose memory holds the letter A everywhere and a process without
    files; every string is "A". *)
Definition task_ex : task_struct :=
  mk_task (Some 1) (Some (mk_mm 100 10 20 30 4096 4128)) None 1000 (Some (mk_pid 0 [mk_upid 77 0])) None 8192.

Definition kernel_ex : kernel :=
  mk_kernel (77 * 2 ^ 32 + 78) (5 * 2 ^ 32 + 6) 10 (replicate 16 65) task_ex
    (λ _ _ n, Some (replicate n 65)) (λ _ _ lim, if lim <? 2 then Some [] else Some [65; 0]) (λ _, 0%nat) true 1000.

Definition regs_ex (args : list Z) : pt_regs := mk_regs args 257.

Definition ringbuf_ex : linx_ringbuf_t :=
  mk_ringbuf (mk_header 0 0 0 0 0 0 0 0 [] (replicate 128 0) (replicate 32 0) 0) ∅ 0 0 0.

Lemma kernel_ex_ok : kernel_ok kernel_ex.
Proof.
  split; cbn.
  - intros _ _ n bs [= <-]. by rewrite length_replicate.
  - intros _ _ n bs [= <-]. apply Forall_replicate. lia.
  - intros _ _ lim bs. destruct (Z.ltb_spec lim 2); intros [= <-]; cbn; lia.
  - intros _ _ lim bs. destruct (lim <? 2); intros [= <-]; repeat constructor; lia.
  - intros _ _ lim bs. destruct (lim <? 2); intros [= <-]; [done|]. intros _. exists [65]. split; [done|repeat constructor; lia].
Qed.

Lemma programs_match_table_witness :
  pb_res (recvfrom_x kernel_ex (regs_ex [3]) 5) = 5 ∧ complete (recvfrom_x kernel_ex (regs_ex [3]) 5) = false.
Proof.
  pose proof (proj2 programs_match_table "recvfrom_x" recvfrom_x kernel_ex (regs_ex [3]) 5
    recvfrom_x_in) as (_ & H1 & H2 & _).
  split; [exact H1|exact H2].
Defined.

Lemma programs_fill_event_witness :
  ∃ rb', run_program open_x kernel_ex (regs_ex [9; 65; 438]) 3 ringbuf_ex = Ret [] (rb', Some rb')
    ∧ eh_type (rb_event rb') = 5 ∧ event_sizes rb' !! 1%nat = Some 4
    ∧ bytes_at (rb_data rb') (LINX_EVENT_HEADER_SIZE + size_before (event_sizes rb') 0) [65; 0].
Proof.
  pose proof (programs_fill_event "open_x" open_x kernel_ex (regs_ex [9; 65; 438]) 3 ringbuf_ex
    open_x_in ltac:(discriminate) kernel_ex_ok eq_refl) as (rb' & H1 & H2 & _ & _ & _ & H).
  exists rb'. split; [exact H1|]. split; [exact H2|]. split; [exact (proj1 (H 1%nat _ eq_refl))|exact (proj2 (H 0%nat _ eq_refl))].
Defined.

Lemma sendto_snaplen_bound_witness :
  match run_program sendto_x kernel_ex (regs_ex [3; 9; 2 ^ 64 - 1]) 0 ringbuf_ex with
  | Ub f => f = OutOfBounds
  | _ => False
  end.
Proof.
  pose proof (proj2 (sendto_snaplen_bound kernel_ex (regs_ex [3; 9; 2 ^ 64 - 1]) 0 ringbuf_ex kernel_ex_ok eq_refl)
    ltac:(discriminate) ltac:(by vm_compute) ltac:(eexists; reflexivity)) as H.
  destruct (run_program sendto_x kernel_ex (regs_ex [3; 9; 2 ^ 64 - 1]) 0 ringbuf_ex) as [w [rb' sent]|f|];
    [|exact (proj1 H)|exact H].
  destruct H as [H _]. vm_compute in H. by destruct H.
Defined.
