(* ===== verification/Engine.v ===== *)
(** * The event engine (userspace/linx_engine, kernel/ebpf/syscall_enter.bpf.c,
    syscall_exit.bpf.c, include/bpf_check.h, include/maps.h)

    User space opens the object with the programs, disables those of the system
    calls that are not of interest, fills the two tables of programs and
    writes the filters into the object's variables.  At every system call the
    kernel runs [sys_enter] and [sys_exit], which filter and jump through the
    tables.  The events come back through a ring, from which the event loop
    takes them.

    libbpf, the clocks and the number of processors are a [host] and a function
    for [ring_buffer__poll]. *)
From S2P Require Import Prelude CString Memory EventType EventTable Uthash HashMap ThreadPool ProcFs ProcessCache MachineStatus.
From S2P Require Import EventRich Yaml Config Bpf Ringbuf Programs1 Programs2 Programs3 Programs4 Programs.
From Stdlib Require Import Ascii.

#[local] Open Scope Z_scope.

(** ** Data *)

(** What libbpf and the system answer while the engine starts. *)
Record host := mk_host {
  h_linx_bpf__open : bool;
  h_sysconf : Z;
  h_set_max_entries : Z;
  h_set_autoload : string → Z;
  h_linx_bpf__load : Z;
  h_ring_buffer__new : bool;
  h_program__fd : string → Z;
  h_map_update_elem : string → Z → Z;
  h_attach : string → bool;
  h_boottime : option (Z * Z);
  h_realtime : option (Z * Z)
}.

(** The object ([struct linx_bpf], include/maps.h): which programs are not
    loaded, the two tables and the variables. *)
Record linx_bpf := mk_skel {
  sk_disabled : list string;
  syscall_enter_tail_table : gmap Z string;
  syscall_exit_tail_table : gmap Z string;
  g_filter_pids : list Z;
  g_filter_comms : list (list Z);
  g_interesting_syscalls_table : list Z;
  sk_boot_time : Z;
  g_drop_mode : Z;
  g_drop_failed : Z
}.

Definition linx_bpf_zero : linx_bpf :=
  mk_skel [] ∅ ∅ (replicate 64 0) (replicate 16 (replicate 16 0)) (replicate 453 0) 0 0 0.

(** The member [skel]: null, destroyed or valid. *)
Inductive skel_pointer :=
  | SkelNull
  | SkelFreed
  | Skel (s : linx_bpf).

Definition read_skel (p : skel_pointer) : outcome linx_bpf :=
  match p with SkelNull => Ub NullDeref | SkelFreed => Ub BadAddress | Skel s => mret s end.

Definition set_disabled (l : list string) (s : linx_bpf) : linx_bpf :=
  mk_skel l (syscall_enter_tail_table s) (syscall_exit_tail_table s) (g_filter_pids s) (g_filter_comms s)
    (g_interesting_syscalls_table s) (sk_boot_time s) (g_drop_mode s) (g_drop_failed s).
Definition set_tables (enter exit : gmap Z string) (s : linx_bpf) : linx_bpf :=
  mk_skel (sk_disabled s) enter exit (g_filter_pids s) (g_filter_comms s)
    (g_interesting_syscalls_table s) (sk_boot_time s) (g_drop_mode s) (g_drop_failed s).

(** ** Loading (linx_ebpf_load.c, linx_ebpf_maps.c) *)
Definition object_program (name : string) : option program := snd <$> List.find (λ x, streq x.1 name) bpf_programs.

(** [snprintf(name, 64, "%s_e", g_linx_event_table[i * 2].name)] *)
Definition prog_name (ending : string) (i : Z) : outcome string :=
  e ← from_opt OutOfBounds (g_linx_event_table (i * 2)); mret (stake 63 (le_name e +:+ ending)).

Section start.
Context (h : host) (config : ebpf_config).

Definition interesting (i : Z) : bool := negb (default 0 (cf_interest_syscall_table config !! Z.to_nat i) =? 0).

Definition linx_ebpf_open (p : skel_pointer) : Z * skel_pointer :=
  if h_linx_bpf__open h then (0, Skel linx_bpf_zero) else (-1, SkelNull).

Definition linx_ebpf_maps_before_load (p : skel_pointer) : Z * skel_pointer :=
  if h_sysconf h =? -1 then (-1, p)
  else if negb (h_set_max_entries h =? 0) then (-1, p) else (0, p).

(** A program of the object is not to be loaded. *)
Definition disable (name : string) (s : linx_bpf) : linx_bpf :=
  match object_program name with
  | None => s
  | Some _ => if h_set_autoload h name =? 0 then set_disabled (name :: sk_disabled s) s else s
  end.

Fixpoint disable_loop (n : nat) (i : Z) (s : linx_bpf) : outcome linx_bpf :=
  match n with
  | O => mret s
  | S n =>
      if interesting i then disable_loop n (i + 1) s
      else
        e ← prog_name "_e" i;
        x ← prog_name "_x" i;
        disable_loop n (i + 1) (disable x (disable e s))
  end.

Definition linx_ebpf_load (p : skel_pointer) : outcome (Z * skel_pointer) :=
  s ← read_skel p;
  s ← disable_loop (Z.to_nat LINX_SYSCALL_ID_MAX) 0 s;
  if negb (h_linx_bpf__load h =? 0) then mret (-1, SkelFreed) else mret (0, Skel s).

(** A failure destroys the object; [ring_buffer__free] accepts null. *)
Definition linx_ebpf_ringbuf_init (p : skel_pointer) : outcome (Z * skel_pointer) :=
  _ ← read_skel p;
  mret (if h_ring_buffer__new h then (0, p) else (-1, SkelFreed)).

(** A program the object does not have is passed over. *)
Definition linx_ebpf_add_prog_to_tail_table (name : string) (key : Z) (table : gmap Z string) : Z * gmap Z string :=
  match object_program name with
  | None => (0, table)
  | Some _ =>
      if h_program__fd h name <=? 0 then (-1, table)
      else if negb (h_map_update_elem h name key =? 0) then (-1, table)
      else (0, <[key := name]> table)
  end.

Fixpoint tail_loop (n : nat) (i : Z) (enter exit : gmap Z string) : outcome (Z * (gmap Z string * gmap Z string)) :=
  match n with
  | O => mret (0, (enter, exit))
  | S n =>
      if negb (interesting i) then tail_loop n (i + 1) enter exit
      else
        name ← prog_name "_e" i;
        let '(ret, enter) := linx_ebpf_add_prog_to_tail_table name i enter in
        if negb (ret =? 0) then mret (-1, (enter, exit))
        else
          name ← prog_name "_x" i;
          let '(ret, exit) := linx_ebpf_add_prog_to_tail_table name i exit in
          if negb (ret =? 0) then mret (-1, (enter, exit))
          else tail_loop n (i + 1) enter exit
  end.

Definition linx_ebpf_load_tail_call_map (p : skel_pointer) : outcome (Z * skel_pointer) :=
  s ← read_skel p;
  '(ret, (enter, exit)) ← tail_loop (Z.to_nat LINX_SYSCALL_ID_MAX) 0 (syscall_enter_tail_table s) (syscall_exit_tail_table s);
  mret (ret, Skel (set_tables enter exit s)).

Definition linx_ebpf_probe_load (p : skel_pointer) : outcome (Z * skel_pointer) :=
  _ ← read_skel p;
  mret (if negb (h_attach h "sys_enter") then (-1, p) else if negb (h_attach h "sys_exit") then (-1, p) else (0, p)).

(** [tv_sec * 1000000000 + tv_nsec] as an unsigned number *)
Definition timespec_to_nsec (ts : Z * Z) : Z := wrap 64 (ts.1 * 1000000000 + ts.2).

Definition linx_get_boot_time : Z * option Z :=
  match h_boottime h, h_realtime h with
  | Some boot, Some wall => (0, Some (wrap 64 (timespec_to_nsec wall - timespec_to_nsec boot)))
  | _, _ => (-1, None)
  end.

(** ** The variables of the object *)
Definition linx_ebpf_set_boot_time (t : Z) (s : linx_bpf) : linx_bpf :=
  mk_skel (sk_disabled s) (syscall_enter_tail_table s) (syscall_exit_tail_table s) (g_filter_pids s) (g_filter_comms s)
    (g_interesting_syscalls_table s) t (g_drop_mode s) (g_drop_failed s).

(** Both copies stop at the first empty element. *)
Fixpoint copy_pids (from to : list Z) : list Z :=
  match from, to with
  | x :: from, _ :: to' => if x =? 0 then to else x :: copy_pids from to'
  | _, _ => to
  end.

Definition linx_ebpf_set_filter_pids (s : linx_bpf) : linx_bpf :=
  mk_skel (sk_disabled s) (syscall_enter_tail_table s) (syscall_exit_tail_table s)
    (copy_pids (cf_filter_pids config) (g_filter_pids s)) (g_filter_comms s)
    (g_interesting_syscalls_table s) (sk_boot_time s) (g_drop_mode s) (g_drop_failed s).

Fixpoint copy_comms (from to : list (list Z)) : list (list Z) :=
  match from, to with
  | x :: from, y :: to' => if default 0 (head x) =? 0 then to else comm_buffer (text x) y :: copy_comms from to'
  | _, _ => to
  end.

Definition linx_ebpf_set_filter_comms (s : linx_bpf) : linx_bpf :=
  mk_skel (sk_disabled s) (syscall_enter_tail_table s) (syscall_exit_tail_table s) (g_filter_pids s)
    (copy_comms (cf_filter_comms config) (g_filter_comms s))
    (g_interesting_syscalls_table s) (sk_boot_time s) (g_drop_mode s) (g_drop_failed s).

Definition linx_ebpf_set_drop_mode (value : Z) (s : linx_bpf) : linx_bpf :=
  mk_skel (sk_disabled s) (syscall_enter_tail_table s) (syscall_exit_tail_table s) (g_filter_pids s) (g_filter_comms s)
    (g_interesting_syscalls_table s) (sk_boot_time s) value (g_drop_failed s).

Definition linx_ebpf_set_drop_failed (value : Z) (s : linx_bpf) : linx_bpf :=
  mk_skel (sk_disabled s) (syscall_enter_tail_table s) (syscall_exit_tail_table s) (g_filter_pids s) (g_filter_comms s)
    (g_interesting_syscalls_table s) (sk_boot_time s) (g_drop_mode s) value.

Definition linx_ebpf_set_interesting_syscalls_table (s : linx_bpf) : linx_bpf :=
  mk_skel (sk_disabled s) (syscall_enter_tail_table s) (syscall_exit_tail_table s) (g_filter_pids s) (g_filter_comms s)
    (cf_interest_syscall_table config) (sk_boot_time s) (g_drop_mode s) (g_drop_failed s).

(** ** ebpf_init (linx_engine_ebpf.c) *)

(** [ret = ret ? : step] *)
Definition unless_failed (r : Z * skel_pointer) (step : skel_pointer → outcome (Z * skel_pointer))
    : outcome (Z * skel_pointer) :=
  if negb (r.1 =? 0) then mret r else step r.2.

(** The variables are written whether or not a step failed. *)
Definition set_variables (boot_time : Z) (s : linx_bpf) : linx_bpf :=
  linx_ebpf_set_interesting_syscalls_table (linx_ebpf_set_drop_failed 0 (linx_ebpf_set_drop_mode 0
    (linx_ebpf_set_filter_comms (linx_ebpf_set_filter_pids (linx_ebpf_set_boot_time boot_time s))))).

Definition ebpf_init : outcome (Z * skel_pointer) :=
  r ← unless_failed (linx_ebpf_open SkelNull) (λ p, mret (linx_ebpf_maps_before_load p));
  r ← unless_failed r linx_ebpf_load;
  r ← unless_failed r linx_ebpf_ringbuf_init;
  r ← unless_failed r linx_ebpf_load_tail_call_map;
  r ← unless_failed r linx_ebpf_probe_load;
  let '(ret, boot_time) := if negb (r.1 =? 0) then (r.1, None) else linx_get_boot_time in
  s ← read_skel r.2;
  mret (ret, Skel (set_variables (default 0 boot_time) s)).
End start.

(** ** The kernel at a system call (bpf_check.h, syscall_enter.bpf.c, syscall_exit.bpf.c) *)
Fixpoint check_pid_need_filtered (pids : list Z) (pid : Z) : bool :=
  match pids with
  | [] => false
  | x :: pids => if x =? 0 then false else if pid =? x then true else check_pid_need_filtered pids pid
  end.

Fixpoint check_comm_need_filtered (comms : list (list Z)) (comm : list Z) : bool :=
  match comms with
  | [] => false
  | x :: comms =>
      if default 0 (head x) =? 0 then false
      else if bool_decide (comm = x) then true else check_comm_need_filtered comms comm
  end.

Definition check_interesting_syscall (s : linx_bpf) (syscall_id : Z) : Z :=
  let id := wrap 32 syscall_id in
  if LINX_SYSCALL_ID_MAX <=? id then 0 else default 0 (g_interesting_syscalls_table s !! Z.to_nat id).

Section syscall.
Context (s : linx_bpf) (k : kernel).

(** The variable of the object and the clock of the kernel. *)
Definition with_boot_time : kernel :=
  mk_kernel (bpf_get_current_pid_tgid k) (bpf_get_current_uid_gid k) (bpf_ktime_get_boot_ns k) (bpf_get_current_comm k)
    (bpf_get_current_task_btf k) (bpf_probe_read k) (bpf_probe_read_str k) (k_ns_level k) (bpf_ringbuf_output k)
    (sk_boot_time s).

Definition filtered : bool :=
  check_pid_need_filtered (g_filter_pids s) (wrap 32 (bpf_get_current_pid_tgid k))
  || check_comm_need_filtered (g_filter_comms s) (bpf_get_current_comm k)
  || negb (g_drop_mode s =? 0).

(** A jump through an empty element of a table continues behind it. *)
Definition bpf_tail_call (table : gmap Z string) (id : Z) (regs : pt_regs) (arg : Z) (rb : linx_ringbuf_t)
    : outcome (linx_ringbuf_t * option linx_ringbuf_t) :=
  match table !! wrap 32 id ≫= object_program with
  | None => mret (rb, None)
  | Some p => run_program p with_boot_time regs arg rb
  end.

Definition sys_enter (regs : pt_regs) (syscall_id : Z) (rb : linx_ringbuf_t)
    : outcome (linx_ringbuf_t * option linx_ringbuf_t) :=
  if filtered then mret (rb, None)
  else if check_interesting_syscall s syscall_id =? 0 then mret (rb, None)
  else bpf_tail_call (syscall_enter_tail_table s) syscall_id regs syscall_id rb.

Definition sys_exit (regs : pt_regs) (ret : Z) (rb : linx_ringbuf_t)
    : outcome (linx_ringbuf_t * option linx_ringbuf_t) :=
  let syscall_id := get_syscall_id regs in
  if filtered then mret (rb, None)
  else if check_interesting_syscall s syscall_id =? 0 then mret (rb, None)
  else if negb (g_drop_failed s =? 0) && (ret <? 0) then mret (rb, None)
  else bpf_tail_call (syscall_exit_tail_table s) syscall_id regs ret rb.
End syscall.

(** ** Receiving (linx_ebpf_ringbuf.c, linx_engine.c) *)

(** Byte [i] behind the header in the buffer, which is cleared first. *)
Definition received_byte (rb : linx_ringbuf_t) (i : Z) : Z :=
  if LINX_EVENT_HEADER_SIZE + i <? eh_size (rb_event rb)
  then default 0 (rb_data rb !! (LINX_EVENT_HEADER_SIZE + i)) else 0.

Definition received_data (rb : linx_ringbuf_t) (n : nat) : memory :=
  list_to_map ((λ i, (Z.of_nat i, received_byte rb (Z.of_nat i))) <$> seq 0 n).

(** The event user space sees. *)
Definition received (rb : linx_ringbuf_t) : linx_event_t :=
  let e := rb_event rb in
  mk_linx_event (eh_pid e) (eh_ppid e) (eh_time e) (eh_res e) (eh_type e) (text (eh_comm e)) (text (eh_cmdline e))
    (eh_params_size e) (received_data rb (Z.to_nat LINX_EVENT_DATA_SIZE)).

(** [g_ringbuf_data]; [None] before the first event. *)
Definition linx_handle_event (data : linx_ringbuf_t) (buffer : option linx_event_t) : Z * option linx_event_t :=
  if LINX_EVENT_MAX_SIZE <? eh_size (rb_event data) then (-1, buffer) else (0, Some (received data)).

Section receive.
Context (ring_buffer__poll :
  (linx_ringbuf_t → option linx_event_t → Z * option linx_event_t) → list linx_ringbuf_t → option linx_event_t →
  Z * option linx_event_t * list linx_ringbuf_t).

(** The records in the ring, oldest first, and the buffer; the result is the
    return code, the event, the buffer and what is left in the ring. *)
Definition linx_ebpf_get_ringbuf_msg (ring : list linx_ringbuf_t) (buffer : option linx_event_t)
    : Z * option linx_event_t * option linx_event_t * list linx_ringbuf_t :=
  let '(ret, buffer, ring) := ring_buffer__poll linx_handle_event ring buffer in
  if ret <? 0 then (ret, None, buffer, ring)
  else if ret =? 0 then (ret, None, buffer, ring)
  else (ret, buffer, buffer, ring).

Definition ebpf_next := linx_ebpf_get_ringbuf_msg.

(** [linx_engine.vtable->next]: the engine is always ebpf. *)
Definition linx_engine_next := ebpf_next.
End receive.

Definition linx_engine_init (h : host) (config : ebpf_config) : outcome (Z * skel_pointer) := ebpf_init h config.
Definition linx_engine_close : Z := 0.
Definition linx_engine_start : Z := 0.
Definition linx_engine_stop : Z := 0.

(** ** Lemmas *)

(** The names the loops make. *)
Definition slot_name (ending : string) (i : Z) : string := event_name (2 * i) +:+ ending.

Definition slots_ok (ret : Z) (k : kernel) (regs : pt_regs) (n : nat) : bool :=
  let i := Z.of_nat n in
  streq (stake 63 (slot_name "_e" i)) (slot_name "_e" i) && streq (stake 63 (slot_name "_x" i)) (slot_name "_x" i)
  && match object_program (slot_name "_e" i), object_program (slot_name "_x" i) with
     | Some p, Some q => (pb_type (p k regs ret) =? 2 * i) && (pb_type (q k regs ret) =? 2 * i + 1)
     | None, None => streq (event_name (2 * i)) ""
     | _, _ => false
     end.

Lemma slots_check ret k regs i : 0 ≤ i < 453 → slots_ok ret k regs (Z.to_nat i) = true.
Proof.
  intros Hi. assert (forallb (slots_ok ret k regs) (seq 0 453) = true) as H by (vm_compute; reflexivity).
  rewrite forallb_forall in H. apply H, in_seq. lia.
Qed.

Lemma prog_name_slot ending i :
  0 ≤ i < 453 → ending = "_e" ∨ ending = "_x" → prog_name ending i = Ret [] (slot_name ending i).
Proof.
  intros Hi He. pose proof (slots_check 0 kernel_ex (regs_ex []) i Hi) as H. unfold slots_ok in H.
  rewrite Z2Nat.id in H by lia. rewrite !andb_true_iff in H. destruct H as [[H1%streq_true H2%streq_true] _].
  unfold prog_name, g_linx_event_table. replace (i * 2) with (2 * i) by lia.
  rewrite decide_True by (unfold LINX_EVENT_TYPE_MAX; lia). cbn [from_opt]. rewrite bind_ret_l.
  assert (le_name (default zero_event (event_table_map !! (2 * i))) = event_name (2 * i)) as ->.
  { unfold event_name, g_linx_event_table. by rewrite decide_True by (unfold LINX_EVENT_TYPE_MAX; lia). }
  unfold slot_name in *. destruct He as [-> | ->]; [by rewrite H1|by rewrite H2].
Qed.

(** The programs of a system call have the types of its events. *)
Lemma slot_programs i :
  0 ≤ i < 453 → event_name (2 * i) ≠ "" →
  ∃ p q, object_program (slot_name "_e" i) = Some p ∧ object_program (slot_name "_x" i) = Some q
    ∧ ∀ k regs ret, pb_type (p k regs ret) = 2 * i ∧ pb_type (q k regs ret) = 2 * i + 1.
Proof.
  intros Hi Hn. pose proof (λ k regs ret, slots_check ret k regs i Hi) as H. unfold slots_ok in H.
  rewrite Z2Nat.id in H by lia.
  destruct (object_program (slot_name "_e" i)) as [p|], (object_program (slot_name "_x" i)) as [q|].
  - exists p, q. split; [done|]. split; [done|]. intros k regs ret. specialize (H k regs ret).
    rewrite !andb_true_iff, !Z.eqb_eq in H. tauto.
  - specialize (H kernel_ex (regs_ex []) 0). by rewrite andb_false_r in H.
  - specialize (H kernel_ex (regs_ex []) 0). by rewrite andb_false_r in H.
  - specialize (H kernel_ex (regs_ex []) 0). rewrite !andb_true_iff in H. destruct H as [_ H%streq_true]. done.
Qed.

Lemma object_program_in name p : object_program name = Some p → (name, p) ∈ bpf_programs.
Proof.
  unfold object_program. intros [[n q] [E Hp]]%fmap_Some. cbn in Hp. subst q. apply List.find_some in E as [Hin Hn].
  cbn in Hn. apply streq_true in Hn. subst n. by apply list_elem_of_In.
Qed.

Lemma object_program_of name p : (name, p) ∈ bpf_programs → object_program name = Some p.
Proof.
  intros Hin. destruct (object_program name) as [q|] eqn:E.
  - f_equal. eapply programs_functional; [by apply object_program_in|done].
  - unfold object_program in E. apply fmap_None in E. apply list_elem_of_In in Hin.
    apply (List.find_none _ _ E) in Hin. cbn in Hin. by rewrite streq_refl in Hin.
Qed.

Section start_facts.
Context (h : host) (config : ebpf_config).

(** What a table holds after the loop. *)
Definition table_entry (ending : string) (i n : Z) (table : gmap Z string) (j : Z) : option string :=
  if bool_decide (i ≤ j < n) && interesting config j && bool_decide (is_Some (object_program (slot_name ending j)))
  then Some (slot_name ending j) else table !! j.

Lemma add_prog_entry ending i n table table' :
  linx_ebpf_add_prog_to_tail_table h (slot_name ending i) i table = (0, table') → interesting config i = true → i < n →
  ∀ j, table_entry ending (i + 1) n table' j = table_entry ending i n table j.
Proof.
  unfold linx_ebpf_add_prog_to_tail_table, table_entry. intros H Hi Hn j.
  destruct (decide (j = i)) as [->|Hj].
  - rewrite (bool_decide_eq_false_2 (i + 1 ≤ i < n)), (bool_decide_eq_true_2 (i ≤ i < n)), Hi by lia. cbn [andb].
    destruct (object_program (slot_name ending i)) as [p|].
    + rewrite bool_decide_eq_true_2 by done. destruct (_ <=? 0); [done|]. destruct (negb _); [done|].
      injection H as <-. by rewrite lookup_insert_eq.
    + injection H as <-. by rewrite bool_decide_eq_false_2 by (by intros []).
  - rewrite (bool_decide_ext (i + 1 ≤ j < n) (i ≤ j < n)) by lia. destruct (_ && _ && _); [done|].
    destruct (object_program (slot_name ending i)) as [p|]; [|by injection H as <-].
    destruct (_ <=? 0); [done|]. destruct (negb _); [done|]. injection H as <-. by rewrite lookup_insert_ne.
Qed.

Lemma table_entry_skip ending i n table j :
  interesting config i = false → table_entry ending (i + 1) n table j = table_entry ending i n table j.
Proof.
  intros Hi. unfold table_entry. destruct (decide (j = i)) as [->|Hj].
  - rewrite Hi. by rewrite !andb_false_r.
  - by rewrite (bool_decide_ext (i + 1 ≤ j < n) (i ≤ j < n)) by lia.
Qed.

Lemma table_entry_end ending i table j : table_entry ending i i table j = table !! j.
Proof. unfold table_entry. by rewrite bool_decide_eq_false_2 by lia. Qed.

Lemma tail_loop_spec n i enter exit :
  0 ≤ i → i + Z.of_nat n ≤ 453 →
  ∃ ret enter' exit', tail_loop h config n i enter exit = Ret [] (ret, (enter', exit'))
    ∧ (ret = 0 → ∀ j, enter' !! j = table_entry "_e" i (i + Z.of_nat n) enter j
                      ∧ exit' !! j = table_entry "_x" i (i + Z.of_nat n) exit j).
Proof.
  revert i enter exit. induction n as [|n IH]; intros i enter exit Hi Hn; cbn [tail_loop].
  { eexists 0, enter, exit. split; [done|]. intros _ j. rewrite Z.add_0_r. by rewrite !table_entry_end. }
  replace (i + Z.of_nat (S n)) with (i + 1 + Z.of_nat n) in * by lia.
  destruct (interesting config i) eqn:Hint; cbn [negb].
  2:{ destruct (IH (i + 1) enter exit) as (ret & e' & x' & H1 & H2); [lia..|]. exists ret, e', x'. split; [done|].
      intros Hr j. destruct (H2 Hr j) as [-> ->]. by rewrite !(table_entry_skip _ i). }
  rewrite (prog_name_slot "_e"), bind_Ret_nil by (lia || tauto).
  destruct (linx_ebpf_add_prog_to_tail_table h (slot_name "_e" i) i enter) as [r1 enter1] eqn:E1.
  destruct (Z.eqb_spec r1 0) as [->|Hr1]; cbn [negb]; [|by exists (-1), enter1, exit].
  rewrite (prog_name_slot "_x"), bind_Ret_nil by (lia || tauto).
  destruct (linx_ebpf_add_prog_to_tail_table h (slot_name "_x" i) i exit) as [r2 exit1] eqn:E2.
  destruct (Z.eqb_spec r2 0) as [->|Hr2]; cbn [negb]; [|by exists (-1), enter1, exit1].
  destruct (IH (i + 1) enter1 exit1) as (ret & e' & x' & H1 & H2); [lia..|]. exists ret, e', x'. split; [done|].
  intros Hr j. destruct (H2 Hr j) as [-> ->].
  by rewrite (add_prog_entry _ i _ _ _ E1), (add_prog_entry _ i _ _ _ E2) by (done || lia).
Qed.

(** The variables do not touch the tables. *)
Lemma set_variables_facts t s :
  syscall_enter_tail_table (set_variables config t s) = syscall_enter_tail_table s
  ∧ syscall_exit_tail_table (set_variables config t s) = syscall_exit_tail_table s
  ∧ g_interesting_syscalls_table (set_variables config t s) = cf_interest_syscall_table config
  ∧ g_drop_mode (set_variables config t s) = 0 ∧ g_drop_failed (set_variables config t s) = 0
  ∧ g_filter_pids (set_variables config t s) = copy_pids (cf_filter_pids config) (g_filter_pids s)
  ∧ g_filter_comms (set_variables config t s) = copy_comms (cf_filter_comms config) (g_filter_comms s).
Proof. done. Qed.
End start_facts.

Section init_facts.
Context (h : host) (config : ebpf_config).

(** The steps before the tables. *)
Definition early_failure : option fault :=
  if negb (h_linx_bpf__open h) then Some NullDeref
  else if (h_sysconf h =? -1) || negb (h_set_max_entries h =? 0) then None
  else if negb (h_linx_bpf__load h =? 0) || negb (h_ring_buffer__new h) then Some BadAddress
  else None.

Lemma load_spec s :
  ∃ s', linx_ebpf_load h config (Skel s) = Ret [] (if negb (h_linx_bpf__load h =? 0) then (-1, SkelFreed) else (0, Skel s'))
    ∧ syscall_enter_tail_table s' = syscall_enter_tail_table s ∧ syscall_exit_tail_table s' = syscall_exit_tail_table s
    ∧ g_filter_pids s' = g_filter_pids s ∧ g_filter_comms s' = g_filter_comms s.
Proof.
  unfold linx_ebpf_load. cbn [read_skel]. rewrite bind_ret_l.
  assert (∀ n i s, 0 ≤ i → i + Z.of_nat n ≤ 453 → ∃ s', disable_loop h config n i s = Ret [] s'
    ∧ syscall_enter_tail_table s' = syscall_enter_tail_table s ∧ syscall_exit_tail_table s' = syscall_exit_tail_table s
    ∧ g_filter_pids s' = g_filter_pids s ∧ g_filter_comms s' = g_filter_comms s) as H.
  { clear s. induction n as [|n IH]; intros i s Hi Hn; cbn [disable_loop]; [by exists s|].
    destruct (interesting config i); [apply IH; lia|].
    rewrite (prog_name_slot "_e"), bind_Ret_nil, (prog_name_slot "_x"), bind_Ret_nil by (lia || tauto).
    destruct (IH (i + 1) (disable h (slot_name "_x" i) (disable h (slot_name "_e" i) s))) as (s' & H & H'); [lia..|].
    exists s'. split; [done|]. destruct H' as (-> & -> & -> & ->). unfold disable.
    destruct (object_program (slot_name "_e" i)), (object_program (slot_name "_x" i)); cbn;
      repeat (case_match; cbn); done. }
  destruct (H (Z.to_nat LINX_SYSCALL_ID_MAX) 0 s) as (s' & H1 & H2); [done..|]. exists s'. split; [|done].
  rewrite H1, bind_Ret_nil. by destruct (negb _).
Qed.

Lemma unless_failed_ok p step : unless_failed (0, p) step = step p.
Proof. done. Qed.

Lemma unless_failed_skip p step : unless_failed (-1, p) step = Ret [] (-1, p).
Proof. done. Qed.

(** The whole of [ebpf_init]: a fault, or a return code and the object. *)
Lemma ebpf_init_spec :
  match early_failure with
  | Some f => ebpf_init h config = Ub f
  | None => ∃ ret t s, ebpf_init h config = Ret [] (ret, Skel (set_variables config t s))
      ∧ g_filter_pids s = replicate 64 0 ∧ g_filter_comms s = replicate 16 (replicate 16 0)
      ∧ (ret = 0 → ∀ j, syscall_enter_tail_table s !! j = table_entry config "_e" 0 453 ∅ j
                        ∧ syscall_exit_tail_table s !! j = table_entry config "_x" 0 453 ∅ j)
  end.
Proof.
  unfold early_failure, ebpf_init, linx_ebpf_open. destruct (h_linx_bpf__open h); cbn [negb]; [|done].
  rewrite unless_failed_ok, bind_ret_l. unfold linx_ebpf_maps_before_load.
  destruct (h_sysconf h =? -1); [|destruct (negb (h_set_max_entries h =? 0))]; cbn [orb].
  1,2: rewrite unless_failed_skip, bind_Ret_nil; do 3 (rewrite unless_failed_skip, bind_Ret_nil);
    by eexists (-1), _, linx_bpf_zero.
  rewrite unless_failed_ok. destruct (load_spec linx_bpf_zero) as (s1 & -> & He & Hx & Hp & Hc). rewrite bind_Ret_nil.
  destruct (negb (h_linx_bpf__load h =? 0)); cbn [orb].
  { do 3 (rewrite unless_failed_skip, bind_Ret_nil). done. }
  rewrite unless_failed_ok. unfold linx_ebpf_ringbuf_init. cbn [read_skel]. rewrite !bind_ret_l.
  destruct (h_ring_buffer__new h); cbn [negb]; [|do 2 (rewrite unless_failed_skip, bind_Ret_nil); done].
  rewrite unless_failed_ok. unfold linx_ebpf_load_tail_call_map. cbn [read_skel]. rewrite bind_ret_l.
  destruct (tail_loop_spec h config (Z.to_nat LINX_SYSCALL_ID_MAX) 0 (syscall_enter_tail_table s1)
    (syscall_exit_tail_table s1)) as (ret & e' & x' & -> & H); [done..|]. rewrite bind_Ret_nil, bind_ret_l.
  unfold linx_ebpf_probe_load, unless_failed. cbn [fst snd read_skel].
  change (0 + Z.of_nat (Z.to_nat LINX_SYSCALL_ID_MAX)) with 453 in H. rewrite He, Hx in H.
  destruct (Z.eqb_spec ret 0) as [->|Hret]; cbn [negb].
  - rewrite !bind_ret_l. set (r := if negb (h_attach h "sys_enter") then _ else _).
    assert (r.2 = Skel (set_tables e' x' s1)) as Hr by (subst r; by repeat case_match).
    destruct (if negb (r.1 =? 0) then (r.1, None) else linx_get_boot_time h) as [ret t]. rewrite Hr. cbn [read_skel].
    rewrite bind_ret_l. eexists ret, _, _. split; [reflexivity|]. split; [done|]. split; [done|].
    intros _. by apply H.
  - rewrite !bind_ret_l. cbn [fst snd]. apply Z.eqb_neq in Hret as Hret'. rewrite Hret'. cbn [negb read_skel].
    rewrite bind_ret_l. eexists ret, _, _. split; [reflexivity|]. split; [done|]. by split.
Qed.
End init_facts.

Lemma check_interesting_spec s id :
  0 ≤ id < 453 → (check_interesting_syscall s id =? 0) = (default 0 (g_interesting_syscalls_table s !! Z.to_nat id) =? 0).
Proof.
  intros Hi. unfold check_interesting_syscall. rewrite wrap_small by lia. unfold LINX_SYSCALL_ID_MAX.
  destruct (Z.leb_spec 453 id); [lia|done].
Qed.

Lemma copy_pids_check from n pid :
  (length from ≤ n)%nat → check_pid_need_filtered (copy_pids from (replicate n 0)) pid = check_pid_need_filtered from pid.
Proof.
  revert n. induction from as [|x from IH]; intros n Hn; cbn in Hn.
  - by destruct n.
  - destruct n as [|n]; [lia|]. cbn [replicate copy_pids check_pid_need_filtered].
    destruct (Z.eqb_spec x 0) as [->|Hx]; [done|]. cbn [check_pid_need_filtered].
    destruct (Z.eqb_spec x 0); [done|]. by rewrite IH by lia.
Qed.

(** The events that come back. *)
Lemma received_data_lookup rb n i :
  0 ≤ i < Z.of_nat n → received_data rb n !! i = Some (received_byte rb i).
Proof.
  intros Hi. unfold received_data. apply elem_of_list_to_map_1.
  - rewrite <- list_fmap_compose. apply NoDup_fmap_2_strong; [|apply NoDup_seq]. intros x y _ _ H. cbn in H. lia.
  - apply list_elem_of_fmap. exists (Z.to_nat i). rewrite Z2Nat.id by lia. split; [done|].
    apply elem_of_seq. lia.
Qed.

#[global] Opaque received_data.

Lemma received_bytes rb off bs :
  0 ≤ off → LINX_EVENT_HEADER_SIZE + off + Z.of_nat (length bs) ≤ eh_size (rb_event rb) →
  eh_size (rb_event rb) ≤ LINX_EVENT_MAX_SIZE →
  bytes_at (rb_data rb) (LINX_EVENT_HEADER_SIZE + off) bs → bytes_at (ev_data (received rb)) off bs.
Proof.
  intros Ho Hs Hm. revert off Ho Hs. induction bs as [|b bs IH]; intros off Ho Hs; cbn [bytes_at length] in *; [done|].
  intros [Hb Hl]. split.
  - cbn [received ev_data]. rewrite received_data_lookup by (unfold LINX_EVENT_DATA_SIZE; lia).
    unfold received_byte. destruct (Z.ltb_spec (LINX_EVENT_HEADER_SIZE + off) (eh_size (rb_event rb))); [|lia].
    by rewrite Hb.
  - apply IH; [lia|lia|]. by rewrite Z.add_assoc.
Qed.

Lemma param_offset_received rb j :
  0 ≤ size_before (event_sizes rb) j < 2 ^ 64 →
  param_offset (received rb) (Z.of_nat j) = size_before (event_sizes rb) j.
Proof. intros H. unfold param_offset. rewrite Nat2Z.id. by apply wrap_small. Qed.

(** The stores of users and processes are as wide as what is read. *)
Definition owned_stores (b : program_body) : bool :=
  match g_linx_event_table (pb_type b) with
  | None => false
  | Some e => forallb (λ x, negb (owned (lp_type x.1)) || agrees (lp_type x.1) x.2) (zip (le_params e) (pb_params b))
      && ((length (le_params e) <=? length (pb_params b))%nat || forallb (λ p, negb (owned (lp_type p))) (le_params e))
  end.

Lemma programs_owned name p k regs ret : (name, p) ∈ bpf_programs → owned_stores (p k regs ret) = true.
Proof.
  intros Hin. destruct (decide (name ∈ branching_programs)) as [Hb|Hb].
  - repeat (apply elem_of_cons in Hb as [->|Hb]); [| | |by apply elem_of_nil in Hb].
    + rewrite (programs_functional _ _ _ Hin read_x_in). unfold read_x. by destruct (0 <? ret).
    + rewrite (programs_functional _ _ _ Hin sendto_e_in). unfold sendto_e. by destruct (0 <=? _).
    + rewrite (programs_functional _ _ _ Hin recvfrom_x_in). unfold recvfrom_x. by destruct (0 <? ret).
  - refine (programs_check (λ x k regs ret, owned_stores (x.2 k regs ret)) _ _ _ _ _ _ _ Hin Hb).
    vm_compute. reflexivity.
Qed.

Section delivered.
Context (k : kernel) (Hk : kernel_ok k) (b : program_body) (Hf : fits b = true) (rb : linx_ringbuf_t).
Context (Hl : length (event_sizes rb) = 32%nat).

Abbreviation sent := (filled b k rb).
Abbreviation ev := (received sent).

Lemma filled_room :
  (length (pb_params b) ≤ 32)%nat ∧ Z.of_nat (length (concat (param_bytes k <$> pb_params b))) < LINX_EVENT_DATA_SIZE
  ∧ eh_size (rb_event sent) ≤ LINX_EVENT_MAX_SIZE.
Proof.
  unfold fits in Hf. apply andb_true_iff in Hf as [H1%Z.ltb_lt H2%Nat.leb_le].
  pose proof (bytes_max k (pb_params b) Hk). rewrite filled_pos. unfold LINX_EVENT_DATA_SIZE in *. lia.
Qed.

Lemma size_before_filled j :
  (j ≤ length (pb_params b))%nat →
  size_before (event_sizes sent) j = Z.of_nat (length (concat (take j (param_bytes k <$> pb_params b)))).
Proof.
  intros Hj. destruct filled_room as (Hn & _). rewrite filled_sizes, size_before_concat; [done|by rewrite length_fmap|].
  rewrite length_fmap. lia.
Qed.

Lemma concat_prefix j : (length (concat (take j (param_bytes k <$> pb_params b))) ≤ length (concat (param_bytes k <$> pb_params b)))%nat.
Proof.
  rewrite <- (take_drop j (param_bytes k <$> pb_params b)) at 2. rewrite concat_app, length_app. lia.
Qed.

Lemma event_offset j :
  (j ≤ length (pb_params b))%nat → param_offset ev (Z.of_nat j) = size_before (event_sizes sent) j.
Proof.
  intros Hj. apply param_offset_received. rewrite size_before_filled by done. pose proof (concat_prefix j).
  destruct filled_room as (_ & Hr & _). unfold LINX_EVENT_DATA_SIZE, LINX_EVENT_MAX_SIZE in Hr. rewrite header_size_eq in Hr.
  change (2 ^ 64) with 18446744073709551616. lia.
Qed.

(** A parameter in the event of user space. *)
Lemma event_bytes j q :
  pb_params b !! j = Some q → bytes_at (ev_data ev) (param_offset ev (Z.of_nat j)) (param_bytes k q).
Proof.
  intros Hj. destruct filled_room as (Hn & Hr & Hm). pose proof (lookup_lt_Some _ _ _ Hj) as Hlt.
  destruct (filled_param b k rb j q ltac:(lia) Hj) as [Hs Hb]. rewrite event_offset by lia.
  assert ((param_bytes k <$> pb_params b) !! j = Some (param_bytes k q)) as Hj' by (by rewrite list_lookup_fmap, Hj).
  assert (size_before (event_sizes sent) j + Z.of_nat (length (param_bytes k q))
    = Z.of_nat (length (concat (take (S j) (param_bytes k <$> pb_params b))))) as Hend.
  { rewrite size_before_filled by lia. rewrite (take_S_r _ _ _ Hj'), concat_app, length_app. cbn [concat].
    rewrite app_nil_r. lia. }
  pose proof (concat_prefix (S j)). apply received_bytes; [rewrite size_before_filled; lia| |done|done].
  rewrite filled_pos. lia.
Qed.

(** A string can be read where it lies. *)
Lemma event_string j a n m str :
  pb_params b !! j = Some (StoreCharpointer a n m) → a ≠ 0 → bpf_probe_read_str k m a n = Some (str ++ [0]) →
  load_cstr (ev_data ev) (param_offset ev (Z.of_nat j)) = Some (text str).
Proof.
  intros Hj Ha Hs. pose proof (event_bytes _ _ Hj) as Hb. cbn [param_bytes] in Hb.
  apply Z.eqb_neq in Ha. rewrite Ha, Hs in Hb.
  destruct (ko_str_nul k Hk _ _ _ _ Hs ltac:(by destruct str)) as (s' & E & Hn).
  apply app_inj_tail in E as [<- _]. pose proof (ko_str_bytes k Hk _ _ _ _ Hs) as Hr. apply Forall_app in Hr as [Hr _].
  destruct (text_bytes str Hn Hr) as [E1 E2]. apply load_cstr_at; [done|]. unfold cstr_at. rewrite E1.
  by destruct str.
Qed.

(** What the enrichment reads lies within the event. *)
Lemma event_readable e :
  owned_stores b = true → g_linx_event_table (pb_type b) = Some e → readable ev e.
Proof.
  intros Ho He. unfold owned_stores in Ho. rewrite He in Ho. apply andb_true_iff in Ho as [Ho1 Ho2].
  pose proof (g_linx_event_table_wf _ _ He) as Hwf. pose proof (event_wf_nparams _ Hwf) as Hnp. split.
  - cbn [received ev_params_size]. fold (event_sizes sent). by rewrite filled_sizes, set_sizes_length.
  - intros j p Hj Hp. rewrite (proj1 (event_param_in e j Hwf Hj)) in Hp.
    destruct (owned (lp_type p)) eqn:Eo; [|destruct (lp_type p); discriminate Eo || exact I].
    apply orb_true_iff in Ho2 as [Hle%Nat.leb_le|Hall].
    2:{ rewrite forallb_forall in Hall. apply list_elem_of_lookup_2, list_elem_of_In, Hall in Hp. by rewrite Eo in Hp. }
    destruct (lookup_lt_is_Some_2 (pb_params b) (Z.to_nat j)) as [q Hq]; [lia|].
    rewrite forallb_forall in Ho1. specialize (Ho1 (p, q)). cbn [fst snd] in Ho1. rewrite Eo in Ho1. cbn [negb orb] in Ho1.
    assert (agrees (lp_type p) q = true) as Hag.
    { apply Ho1, list_elem_of_In, (list_elem_of_lookup_2 _ (Z.to_nat j)), lookup_zip_Some. by split. }
    pose proof (event_bytes _ _ Hq) as Hb. rewrite Z2Nat.id in Hb by lia.
    destruct (lp_type p); try discriminate Eo; destruct q as [n v| | | | |]; try discriminate Hag; cbn in Hag;
      apply bool_decide_eq_true in Hag; injection Hag as <-; cbn [param_bytes] in Hb; apply load_le_bytes in Hb;
      rewrite Hb; eexists; reflexivity.
Qed.
End delivered.

(** The documented behaviour of [ring_buffer__poll]: it calls back for every
    record and answers their number when no call fails. *)
Definition poll_law (poll : (linx_ringbuf_t → option linx_event_t → Z * option linx_event_t) → list linx_ringbuf_t →
    option linx_event_t → Z * option linx_event_t * list linx_ringbuf_t) : Prop :=
  ∀ callback records buffer,
    Z.of_nat (length records) < 2 ^ 31 → (∀ r b, r ∈ records → 0 ≤ (callback r b).1) →
    poll callback records buffer
    = (Z.of_nat (length records), foldl (λ b r, (callback r b).2) buffer records, []).

Lemma handle_events_last rings buffer :
  Forall (λ r, eh_size (rb_event r) ≤ LINX_EVENT_MAX_SIZE) rings → rings ≠ [] →
  foldl (λ b r, (linx_handle_event r b).2) buffer rings = received <$> last rings.
Proof.
  revert buffer. induction rings as [|r rings IH]; intros buffer Hs Hne; [done|]. inversion Hs as [|? ? Hr Hrs]; subst.
  cbn [foldl]. destruct rings as [|r' rings].
  - cbn [foldl last]. unfold linx_handle_event. destruct (Z.ltb_spec LINX_EVENT_MAX_SIZE (eh_size (rb_event r))); [lia|done].
  - by rewrite IH.
Qed.

(** One pass: the records of the ring are gone and the last one is the event. *)
Lemma engine_next_last poll ring buffer :
  poll_law poll → Forall (λ r, eh_size (rb_event r) ≤ LINX_EVENT_MAX_SIZE) ring → Z.of_nat (length ring) < 2 ^ 31 →
  linx_engine_next poll ring buffer
  = match last ring with
    | None => (0, None, buffer, [])
    | Some r => (Z.of_nat (length ring), Some (received r), Some (received r), [])
    end.
Proof.
  intros Hpoll Hs Hlen. unfold linx_engine_next, ebpf_next, linx_ebpf_get_ringbuf_msg. rewrite Hpoll; [|done|].
  2:{ intros r x Hr. unfold linx_handle_event. rewrite Forall_forall in Hs. specialize (Hs r Hr).
      destruct (Z.ltb_spec LINX_EVENT_MAX_SIZE (eh_size (rb_event r))); [lia|done]. }
  destruct ring as [|r ring]; [done|]. rewrite handle_events_last by done.
  destruct (Z.ltb_spec (Z.of_nat (length (r :: ring))) 0) as [|_]; [lia|].
  destruct (Z.eqb_spec (Z.of_nat (length (r :: ring))) 0) as [E|_]; [cbn in E; lia|].
  destruct (last (r :: ring)) as [x|] eqn:El; [done|by apply last_None in El].
Qed.

(** The records a program has sent. *)
Definition genuine (out : linx_ringbuf_t) : Prop :=
  ∃ name p k regs ret rb w rb',
    (name, p) ∈ bpf_programs ∧ name ≠ "sendto_x" ∧ kernel_ok k ∧ length (event_sizes rb) = 32%nat
    ∧ run_program p k regs ret rb = Ret w (rb', Some out).

Lemma run_program_sent p k regs ret rb w rb' out :
  kernel_ok k → fits (p k regs ret) = true → run_program p k regs ret rb = Ret w (rb', Some out) →
  out = filled (p k regs ret) k rb.
Proof.
  intros Hk Hf Hrun. pose proof (run_program_outcome p k regs ret rb Hk Hf) as Ho. cbv zeta in Ho. rewrite Hrun in Ho.
  destruct (forallb (param_safe k) (pb_params (p k regs ret))); [|done]. injection Ho as _ _ Hout.
  destruct (bpf_ringbuf_output k); [|done]. by injection Hout.
Qed.

Lemma genuine_event out :
  genuine out →
  eh_size (rb_event out) ≤ LINX_EVENT_MAX_SIZE
  ∧ ∃ e, g_linx_event_table (ev_type (received out)) = Some e ∧ readable (received out) e.
Proof.
  intros (name & p & k & regs & ret & rb & w & rb' & Hin & Hn & Hk & Hl & Hrun).
  pose proof (programs_fit _ _ k regs ret Hin Hn) as Hf. rewrite (run_program_sent _ _ _ _ _ _ _ _ Hk Hf Hrun).
  split; [by apply (filled_room k Hk)|]. destruct (filled_header (p k regs ret) k rb) as (Ht & _).
  pose proof (programs_named _ _ k regs ret Hin) as Hnm. unfold named in Hnm.
  destruct (g_linx_event_table (pb_type (p k regs ret))) as [e|] eqn:He; [|done]. exists e. cbn [received ev_type].
  rewrite Ht. split; [done|]. apply event_readable; [done|done|done|by eapply programs_owned|done].
Qed.

(** ** Results *)

(** C3: what user space sees of a system call.  For every program but the exit
    of sendto, when an event is sent, its type and result are those of the
    program, every parameter lies at the offset the enrichment computes with
    the bytes stored, a string of user memory is read back there whole, and
    everything the enrichment reads lies within the event. *)
Theorem delivered_event_describes name p k regs ret rb w rb' out :
  (name, p) ∈ bpf_programs → name ≠ "sendto_x" → kernel_ok k → length (event_sizes rb) = 32%nat →
  run_program p k regs ret rb = Ret w (rb', Some out) →
  let b := p k regs ret in
  let event := received out in
  ev_type event = pb_type b ∧ ev_res event = wrap 64 (pb_res b)
  ∧ (∀ j q, pb_params b !! j = Some q → bytes_at (ev_data event) (param_offset event (Z.of_nat j)) (param_bytes k q))
  ∧ (∀ j a n m str, pb_params b !! j = Some (StoreCharpointer a n m) → a ≠ 0 →
       bpf_probe_read_str k m a n = Some (str ++ [0]) →
       load_cstr (ev_data event) (param_offset event (Z.of_nat j)) = Some (text str))
  ∧ ∃ e, g_linx_event_table (ev_type event) = Some e ∧ readable event e.
Proof.
  intros Hin Hn Hk Hl Hrun b event. pose proof (programs_fit _ _ k regs ret Hin Hn) as Hf.
  assert (genuine out) as Hg by (exists name, p, k, regs, ret, rb, w, rb'; do 4 (split; [done|]); done).
  destruct (filled_header b k rb) as (Ht & Hr & _). subst event.
  rewrite (run_program_sent _ _ _ _ _ _ _ _ Hk Hf Hrun) in *. fold b in Hf, Hg |- *.
  split; [exact Ht|]. split; [exact Hr|]. split; [by apply event_bytes|]. split; [by apply event_string|].
  by apply genuine_event.
Qed.

(** C5: after a start that reports no failure, the entry of system call [id] runs
    the program of its entry event and the exit that of its exit event,
    exactly when the configuration marks the call and neither the thread nor
    the command is filtered; nothing else sends an event.  Every call with a
    name in the event table has both programs, and their events have the
    types [2 * id] and [2 * id + 1].  A failed call is reported like any
    other: the setting [drop_failed] of the configuration has no effect. *)
Theorem engine_dispatches h config w s k regs id rb :
  ebpf_init h config = Ret w (0, Skel s) → 0 ≤ id < 453 → r_orig_ax regs = id →
  (length (cf_filter_pids config) ≤ 64)%nat →
  let active :=
    negb (check_pid_need_filtered (cf_filter_pids config) (wrap 32 (bpf_get_current_pid_tgid k))
          || check_comm_need_filtered (copy_comms (cf_filter_comms config) (replicate 16 (replicate 16 0)))
               (bpf_get_current_comm k))
    && interesting config id in
  let run ending x :=
    match object_program (slot_name ending id) with
    | Some p => run_program p (with_boot_time s k) regs x rb
    | None => Ret [] (rb, None)
    end in
  sys_enter s k regs id rb = (if active then run "_e" id else Ret [] (rb, None))
  ∧ (∀ ret, sys_exit s k regs ret rb = (if active then run "_x" ret else Ret [] (rb, None)))
  ∧ (event_name (2 * id) ≠ "" →
     ∃ p q, object_program (slot_name "_e" id) = Some p ∧ object_program (slot_name "_x" id) = Some q
       ∧ ∀ ret, pb_type (p k regs ret) = 2 * id ∧ pb_type (q k regs ret) = 2 * id + 1).
Proof.
  intros Hi Hid Hreg Hlen active run. pose proof (ebpf_init_spec h config) as H.
  destruct (early_failure h); [by rewrite H in Hi|]. destruct H as (ret & t & s0 & H & Hp & Hc & Ht).
  rewrite H in Hi. injection Hi as _ -> <-. specialize (Ht eq_refl id).
  destruct (set_variables_facts config t s0) as (He & Hx & Hg & Hm & Hf & Hfp & Hfc).
  assert (filtered (set_variables config t s0) k
    = check_pid_need_filtered (cf_filter_pids config) (wrap 32 (bpf_get_current_pid_tgid k))
      || check_comm_need_filtered (copy_comms (cf_filter_comms config) (replicate 16 (replicate 16 0)))
           (bpf_get_current_comm k)) as Hfil.
  { unfold filtered. rewrite Hfp, Hfc, Hm, Hp, Hc, copy_pids_check by done. by rewrite orb_false_r. }
  assert (∀ ending table x, table !! id = table_entry config ending 0 453 ∅ id → interesting config id = true →
    bpf_tail_call (set_variables config t s0) k table id regs x rb = run ending x) as Htail.
  { intros ending table x E Hint. unfold bpf_tail_call. rewrite wrap_small by lia. rewrite E. unfold table_entry, run.
    rewrite bool_decide_eq_true_2, Hint by lia. cbn [andb].
    destruct (object_program (slot_name ending id)) as [p|] eqn:Ep.
    - rewrite bool_decide_eq_true_2 by done. cbn [mbind option_bind]. by rewrite Ep.
    - rewrite bool_decide_eq_false_2 by (by intros []). by rewrite lookup_empty. }
  unfold sys_enter, sys_exit, get_syscall_id. rewrite Hreg, Hfil, check_interesting_spec, Hg, Hf by done.
  subst active. unfold interesting at 1 2. destruct (_ || _); cbn [negb andb]; [split; [done|split; [done|]]|].
  2: destruct (default 0 (cf_interest_syscall_table config !! Z.to_nat id) =? 0) eqn:Hint; cbn [negb andb];
    [split; [done|split; [done|]]|split; [|split]].
  1,2,5: intros Hn; destruct (slot_programs id Hid Hn) as (p & q & H1 & H2 & H3); exists p, q; by repeat split; try apply H3.
  - apply Htail; [rewrite He; apply Ht|]. unfold interesting. by rewrite Hint.
  - intros r. apply Htail; [rewrite Hx; apply Ht|]. unfold interesting. by rewrite Hint.
Qed.

(** The start writes the variables of the object whether or not the steps
    before succeeded.  When the object cannot be opened that is a write
    through a null pointer, and when it cannot be loaded or the ring cannot
    be made, a write into the object that was destroyed; in every other case
    the start returns with a code. *)
Theorem ebpf_init_faults h config :
  match early_failure h with
  | Some f => ebpf_init h config = Ub f
  | None => ∃ ret s, ebpf_init h config = Ret [] (ret, Skel s)
  end.
Proof.
  pose proof (ebpf_init_spec h config) as H. destruct (early_failure h); [done|].
  destruct H as (ret & t & s & H & _). by eexists ret, _.
Qed.

(** ** Examples *)
Definition host_ex : host :=
  mk_host true 4 0 (λ _, 0) 0 true (λ _, 7) (λ _ _, 0) (λ _, true) (Some (5, 0)) (Some (1005, 0)).

Definition engine_config : ebpf_config :=
  mk_ebpf false true [99; 0] [] (<[2%nat := 1]> (replicate 453 0)).

Lemma delivered_event_describes_witness :
  ∃ out rb', run_program open_x kernel_ex (regs_ex [9; 65; 438]) 3 ringbuf_ex = Ret [] (rb', Some out)
    ∧ ev_type (received out) = 5 ∧ load_cstr (ev_data (received out)) (param_offset (received out) 0) = Some "A".
Proof.
  pose proof (run_program_outcome open_x kernel_ex (regs_ex [9; 65; 438]) 3 ringbuf_ex kernel_ex_ok eq_refl) as Hrun.
  eexists _, _. split; [exact Hrun|].
  destruct (delivered_event_describes "open_x" open_x kernel_ex (regs_ex [9; 65; 438]) 3 ringbuf_ex _ _ _
    open_x_in ltac:(discriminate) kernel_ex_ok eq_refl Hrun) as (H1 & _ & _ & H2 & _).
  split; [exact H1|]. exact (H2 0%nat 9 4096 USER [65] eq_refl ltac:(discriminate) eq_refl).
Defined.

Lemma engine_dispatches_witness :
  ∃ s, ebpf_init host_ex engine_config = Ret [] (0, Skel s)
    ∧ sys_exit s kernel_ex (mk_regs [9; 65; 438] 2) (-1) ringbuf_ex
      = run_program open_x (with_boot_time s kernel_ex) (mk_regs [9; 65; 438] 2) (-1) ringbuf_ex
    ∧ sys_exit s kernel_ex (mk_regs [9; 65; 438] 3) 0 ringbuf_ex = Ret [] (ringbuf_ex, None).
Proof.
  eexists. split; [vm_compute; reflexivity|].
  match goal with |- sys_exit ?s0 _ _ _ _ = _ ∧ _ => set (s := s0) end.
  assert (ebpf_init host_ex engine_config = Ret [] (0, Skel s)) as H by (vm_compute; reflexivity).
  split.
  - destruct (engine_dispatches host_ex engine_config [] s kernel_ex (mk_regs [9; 65; 438] 2) 2 ringbuf_ex H
      ltac:(lia) eq_refl ltac:(cbn; lia)) as (_ & Hx & _).
    rewrite (Hx (-1)). clearbody s.
    match goal with |- (if ?c then _ else _) = _ => replace c with true by (vm_compute; reflexivity) end.
    replace (slot_name "_x" 2) with "open_x" by (vm_compute; reflexivity).
    by rewrite (object_program_of _ _ open_x_in).
  - destruct (engine_dispatches host_ex engine_config [] s kernel_ex (mk_regs [9; 65; 438] 3) 3 ringbuf_ex H
      ltac:(lia) eq_refl ltac:(cbn; lia)) as (_ & Hx & _).
    rewrite (Hx 0). match goal with |- (if ?c then _ else _) = _ => replace c with false by (vm_compute; reflexivity) end.
    reflexivity.
Defined.

Lemma poll_law_ex :
  poll_law (λ callback records buffer,
    (Z.of_nat (length records), foldl (λ b r, (callback r b).2) buffer records, [])).
Proof. done. Qed.
