(* ===== verification/KmodCodes.v ===== *)
(** * Event codes of the kernel module (kernel/kmod/include/kmod_msg.h)

    The enumerators of [sysmon_event_code] with their values: even for the
    entry of a system call, and the next number for its exit. *)
From S2P Require Import Prelude.

#[local] Open Scope Z_scope.

Definition SYSMON_GENERIC_E : Z := 0.
Definition SYSMON_GENERIC_X : Z := 1.
Definition SYSMON_SYSCALL_OPEN_E : Z := 2.
Definition SYSMON_SYSCALL_OPEN_X : Z := 3.
Definition SYSMON_SYSCALL_CLOSE_E : Z := 4.
Definition SYSMON_SYSCALL_CLOSE_X : Z := 5.
Definition SYSMON_SYSCALL_READ_E : Z := 6.
Definition SYSMON_SYSCALL_READ_X : Z := 7.
Definition SYSMON_SYSCALL_WRITE_E : Z := 8.
Definition SYSMON_SYSCALL_WRITE_X : Z := 9.
Definition SYSMON_SYSCALL_BRK_1_E : Z := 10.
Definition SYSMON_SYSCALL_BRK_1_X : Z := 11.
Definition SYSMON_SYSCALL_EXECVE_8_E : Z := 12.
Definition SYSMON_SYSCALL_EXECVE_8_X : Z := 13.
Definition SYSMON_SYSCALL_CLONE_11_E : Z := 14.
Definition SYSMON_SYSCALL_CLONE_11_X : Z := 15.
Definition SYSMON_PROCEXIT_E : Z := 16.
Definition SYSMON_PROCEXIT_X : Z := 17.
Definition SYSMON_SOCKET_SOCKET_E : Z := 18.
Definition SYSMON_SOCKET_SOCKET_X : Z := 19.
Definition SYSMON_SOCKET_BIND_E : Z := 20.
Definition SYSMON_SOCKET_BIND_X : Z := 21.
Definition SYSMON_SOCKET_CONNECT_E : Z := 22.
Definition SYSMON_SOCKET_CONNECT_X : Z := 23.
Definition SYSMON_SOCKET_LISTEN_E : Z := 24.
Definition SYSMON_SOCKET_LISTEN_X : Z := 25.
Definition SYSMON_SOCKET_ACCEPT_E : Z := 26.
Definition SYSMON_SOCKET_ACCEPT_X : Z := 27.
Definition SYSMON_SOCKET_SEND_E : Z := 28.
Definition SYSMON_SOCKET_SEND_X : Z := 29.
Definition SYSMON_SOCKET_SENDTO_E : Z := 30.
Definition SYSMON_SOCKET_SENDTO_X : Z := 31.
Definition SYSMON_SOCKET_RECV_E : Z := 32.
Definition SYSMON_SOCKET_RECV_X : Z := 33.
Definition SYSMON_SOCKET_RECVFROM_E : Z := 34.
Definition SYSMON_SOCKET_RECVFROM_X : Z := 35.
Definition SYSMON_SOCKET_SHUTDOWN_E : Z := 36.
Definition SYSMON_SOCKET_SHUTDOWN_X : Z := 37.
Definition SYSMON_SOCKET_GETSOCKNAME_E : Z := 38.
Definition SYSMON_SOCKET_GETSOCKNAME_X : Z := 39.
Definition SYSMON_SOCKET_GETPEERNAME_E : Z := 40.
Definition SYSMON_SOCKET_GETPEERNAME_X : Z := 41.
Definition SYSMON_SOCKET_SOCKETPAIR_E : Z := 42.
Definition SYSMON_SOCKET_SOCKETPAIR_X : Z := 43.
Definition SYSMON_SOCKET_SETSOCKOPT_E : Z := 44.
Definition SYSMON_SOCKET_SETSOCKOPT_X : Z := 45.
Definition SYSMON_SOCKET_GETSOCKOPT_E : Z := 46.
Definition SYSMON_SOCKET_GETSOCKOPT_X : Z := 47.
Definition SYSMON_SOCKET_SENDMSG_E : Z := 48.
Definition SYSMON_SOCKET_SENDMSG_X : Z := 49.
Definition SYSMON_SOCKET_SENDMMSG_E : Z := 50.
Definition SYSMON_SOCKET_SENDMMSG_X : Z := 51.
Definition SYSMON_SOCKET_RECVMSG_E : Z := 52.
Definition SYSMON_SOCKET_RECVMSG_X : Z := 53.
Definition SYSMON_SOCKET_RECVMMSG_E : Z := 54.
Definition SYSMON_SOCKET_RECVMMSG_X : Z := 55.
Definition SYSMON_SOCKET_ACCEPT4_E : Z := 56.
Definition SYSMON_SOCKET_ACCEPT4_X : Z := 57.
Definition SYSMON_SYSCALL_CREAT_E : Z := 58.
Definition SYSMON_SYSCALL_CREAT_X : Z := 59.
Definition SYSMON_SYSCALL_PIPE_E : Z := 60.
Definition SYSMON_SYSCALL_PIPE_X : Z := 61.
Definition SYSMON_SYSCALL_EVENTFD_E : Z := 62.
Definition SYSMON_SYSCALL_EVENTFD_X : Z := 63.
Definition SYSMON_SYSCALL_FUTEX_E : Z := 64.
Definition SYSMON_SYSCALL_FUTEX_X : Z := 65.
Definition SYSMON_SYSCALL_STAT_E : Z := 66.
Definition SYSMON_SYSCALL_STAT_X : Z := 67.
Definition SYSMON_SYSCALL_LSTAT_E : Z := 68.
Definition SYSMON_SYSCALL_LSTAT_X : Z := 69.
Definition SYSMON_SYSCALL_FSTAT_E : Z := 70.
Definition SYSMON_SYSCALL_FSTAT_X : Z := 71.
Definition SYSMON_SYSCALL_STAT64_E : Z := 72.
Definition SYSMON_SYSCALL_STAT64_X : Z := 73.
Definition SYSMON_SYSCALL_LSTAT64_E : Z := 74.
Definition SYSMON_SYSCALL_LSTAT64_X : Z := 75.
Definition SYSMON_SYSCALL_FSTAT64_E : Z := 76.
Definition SYSMON_SYSCALL_FSTAT64_X : Z := 77.
Definition SYSMON_SYSCALL_EPOLLWAIT_E : Z := 78.
Definition SYSMON_SYSCALL_EPOLLWAIT_X : Z := 79.
Definition SYSMON_SYSCALL_POLL_E : Z := 80.
Definition SYSMON_SYSCALL_POLL_X : Z := 81.
Definition SYSMON_SYSCALL_SELECT_E : Z := 82.
Definition SYSMON_SYSCALL_SELECT_X : Z := 83.
Definition SYSMON_SYSCALL_NEWSELECT_E : Z := 84.
Definition SYSMON_SYSCALL_NEWSELECT_X : Z := 85.
Definition SYSMON_SYSCALL_LSEEK_E : Z := 86.
Definition SYSMON_SYSCALL_LSEEK_X : Z := 87.
Definition SYSMON_SYSCALL_LLSEEK_E : Z := 88.
Definition SYSMON_SYSCALL_LLSEEK_X : Z := 89.
Definition SYSMON_SYSCALL_IOCTL_2_E : Z := 90.
Definition SYSMON_SYSCALL_IOCTL_2_X : Z := 91.
Definition SYSMON_SYSCALL_GETCWD_E : Z := 92.
Definition SYSMON_SYSCALL_GETCWD_X : Z := 93.
Definition SYSMON_SYSCALL_CHDIR_E : Z := 94.
Definition SYSMON_SYSCALL_CHDIR_X : Z := 95.
Definition SYSMON_SYSCALL_FCHDIR_E : Z := 96.
Definition SYSMON_SYSCALL_FCHDIR_X : Z := 97.
Definition SYSMON_SYSCALL_MKDIR_E : Z := 98.
Definition SYSMON_SYSCALL_MKDIR_X : Z := 99.
Definition SYSMON_SYSCALL_RMDIR_E : Z := 100.
Definition SYSMON_SYSCALL_RMDIR_X : Z := 101.
Definition SYSMON_SYSCALL_OPENAT_E : Z := 102.
Definition SYSMON_SYSCALL_OPENAT_X : Z := 103.
Definition SYSMON_SYSCALL_LINK_E : Z := 104.
Definition SYSMON_SYSCALL_LINK_X : Z := 105.
Definition SYSMON_SYSCALL_LINKAT_E : Z := 106.
Definition SYSMON_SYSCALL_LINKAT_X : Z := 107.
Definition SYSMON_SYSCALL_UNLINK_E : Z := 108.
Definition SYSMON_SYSCALL_UNLINK_X : Z := 109.
Definition SYSMON_SYSCALL_UNLINKAT_E : Z := 110.
Definition SYSMON_SYSCALL_UNLINKAT_X : Z := 111.
Definition SYSMON_SYSCALL_PREAD_E : Z := 112.
Definition SYSMON_SYSCALL_PREAD_X : Z := 113.
Definition SYSMON_SYSCALL_PWRITE_E : Z := 114.
Definition SYSMON_SYSCALL_PWRITE_X : Z := 115.
Definition SYSMON_SYSCALL_READV_E : Z := 116.
Definition SYSMON_SYSCALL_READV_X : Z := 117.
Definition SYSMON_SYSCALL_WRITEV_E : Z := 118.
Definition SYSMON_SYSCALL_WRITEV_X : Z := 119.
Definition SYSMON_SYSCALL_PREADV_E : Z := 120.
Definition SYSMON_SYSCALL_PREADV_X : Z := 121.
Definition SYSMON_SYSCALL_PWRITEV_E : Z := 122.
Definition SYSMON_SYSCALL_PWRITEV_X : Z := 123.
Definition SYSMON_SYSCALL_DUP_E : Z := 124.
Definition SYSMON_SYSCALL_DUP_X : Z := 125.
Definition SYSMON_SYSCALL_SIGNALFD_E : Z := 126.
Definition SYSMON_SYSCALL_SIGNALFD_X : Z := 127.
Definition SYSMON_SYSCALL_KILL_E : Z := 128.
Definition SYSMON_SYSCALL_KILL_X : Z := 129.
Definition SYSMON_SYSCALL_TKILL_E : Z := 130.
Definition SYSMON_SYSCALL_TKILL_X : Z := 131.
Definition SYSMON_SYSCALL_TGKILL_E : Z := 132.
Definition SYSMON_SYSCALL_TGKILL_X : Z := 133.
Definition SYSMON_SYSCALL_NANOSLEEP_E : Z := 134.
Definition SYSMON_SYSCALL_NANOSLEEP_X : Z := 135.
Definition SYSMON_SYSCALL_TIMERFD_CREATE_E : Z := 136.
Definition SYSMON_SYSCALL_TIMERFD_CREATE_X : Z := 137.
Definition SYSMON_SYSCALL_INOTIFY_INIT_E : Z := 138.
Definition SYSMON_SYSCALL_INOTIFY_INIT_X : Z := 139.
Definition SYSMON_SYSCALL_GETRLIMIT_E : Z := 140.
Definition SYSMON_SYSCALL_GETRLIMIT_X : Z := 141.
Definition SYSMON_SYSCALL_SETRLIMIT_E : Z := 142.
Definition SYSMON_SYSCALL_SETRLIMIT_X : Z := 143.
Definition SYSMON_SYSCALL_PRLIMIT_E : Z := 144.
Definition SYSMON_SYSCALL_PRLIMIT_X : Z := 145.
Definition SYSMON_SCHEDSWITCH_1_E : Z := 146.
Definition SYSMON_SCHEDSWITCH_1_X : Z := 147.
Definition SYSMON_DROP_E : Z := 148.
Definition SYSMON_DROP_X : Z := 149.
Definition SYSMON_SYSCALL_FCNTL_E : Z := 150.
Definition SYSMON_SYSCALL_FCNTL_X : Z := 151.
Definition SYSMON_SCHEDSWITCH_6_E : Z := 152.
Definition SYSMON_SCHEDSWITCH_6_X : Z := 153.
Definition SYSMON_SYSCALL_EXECVE_13_E : Z := 154.
Definition SYSMON_SYSCALL_EXECVE_13_X : Z := 155.
Definition SYSMON_SYSCALL_CLONE_16_E : Z := 156.
Definition SYSMON_SYSCALL_CLONE_16_X : Z := 157.
Definition SYSMON_SYSCALL_BRK_4_E : Z := 158.
Definition SYSMON_SYSCALL_BRK_4_X : Z := 159.
Definition SYSMON_SYSCALL_MMAP_E : Z := 160.
Definition SYSMON_SYSCALL_MMAP_X : Z := 161.
Definition SYSMON_SYSCALL_MMAP2_E : Z := 162.
Definition SYSMON_SYSCALL_MMAP2_X : Z := 163.
Definition SYSMON_SYSCALL_MUNMAP_E : Z := 164.
Definition SYSMON_SYSCALL_MUNMAP_X : Z := 165.
Definition SYSMON_SYSCALL_SPLICE_E : Z := 166.
Definition SYSMON_SYSCALL_SPLICE_X : Z := 167.
Definition SYSMON_SYSCALL_PTRACE_E : Z := 168.
Definition SYSMON_SYSCALL_PTRACE_X : Z := 169.
Definition SYSMON_SYSCALL_IOCTL_3_E : Z := 170.
Definition SYSMON_SYSCALL_IOCTL_3_X : Z := 171.
Definition SYSMON_SYSCALL_EXECVE_14_E : Z := 172.
Definition SYSMON_SYSCALL_EXECVE_14_X : Z := 173.
Definition SYSMON_SYSCALL_RENAME_E : Z := 174.
Definition SYSMON_SYSCALL_RENAME_X : Z := 175.
Definition SYSMON_SYSCALL_RENAMEAT_E : Z := 176.
Definition SYSMON_SYSCALL_RENAMEAT_X : Z := 177.
Definition SYSMON_SYSCALL_SYMLINK_E : Z := 178.
Definition SYSMON_SYSCALL_SYMLINK_X : Z := 179.
Definition SYSMON_SYSCALL_SYMLINKAT_E : Z := 180.
Definition SYSMON_SYSCALL_SYMLINKAT_X : Z := 181.
Definition SYSMON_SYSCALL_FORK_E : Z := 182.
Definition SYSMON_SYSCALL_FORK_X : Z := 183.
Definition SYSMON_SYSCALL_VFORK_E : Z := 184.
Definition SYSMON_SYSCALL_VFORK_X : Z := 185.
Definition SYSMON_PROCEXIT_1_E : Z := 186.
Definition SYSMON_PROCEXIT_1_X : Z := 187.
Definition SYSMON_SYSCALL_SENDFILE_E : Z := 188.
Definition SYSMON_SYSCALL_SENDFILE_X : Z := 189.
Definition SYSMON_SYSCALL_QUOTACTL_E : Z := 190.
Definition SYSMON_SYSCALL_QUOTACTL_X : Z := 191.
Definition SYSMON_SYSCALL_SETRESUID_E : Z := 192.
Definition SYSMON_SYSCALL_SETRESUID_X : Z := 193.
Definition SYSMON_SYSCALL_SETRESGID_E : Z := 194.
Definition SYSMON_SYSCALL_SETRESGID_X : Z := 195.
Definition SYSMON_SCAPEVENT_E : Z := 196.
Definition SYSMON_SCAPEVENT_X : Z := 197.
Definition SYSMON_SYSCALL_SETUID_E : Z := 198.
Definition SYSMON_SYSCALL_SETUID_X : Z := 199.
Definition SYSMON_SYSCALL_SETGID_E : Z := 200.
Definition SYSMON_SYSCALL_SETGID_X : Z := 201.
Definition SYSMON_SYSCALL_GETUID_E : Z := 202.
Definition SYSMON_SYSCALL_GETUID_X : Z := 203.
Definition SYSMON_SYSCALL_GETEUID_E : Z := 204.
Definition SYSMON_SYSCALL_GETEUID_X : Z := 205.
Definition SYSMON_SYSCALL_GETGID_E : Z := 206.
Definition SYSMON_SYSCALL_GETGID_X : Z := 207.
Definition SYSMON_SYSCALL_GETEGID_E : Z := 208.
Definition SYSMON_SYSCALL_GETEGID_X : Z := 209.
Definition SYSMON_SYSCALL_GETRESUID_E : Z := 210.
Definition SYSMON_SYSCALL_GETRESUID_X : Z := 211.
Definition SYSMON_SYSCALL_GETRESGID_E : Z := 212.
Definition SYSMON_SYSCALL_GETRESGID_X : Z := 213.
Definition SYSMON_SYSCALL_EXECVE_15_E : Z := 214.
Definition SYSMON_SYSCALL_EXECVE_15_X : Z := 215.
Definition SYSMON_SYSCALL_CLONE_17_E : Z := 216.
Definition SYSMON_SYSCALL_CLONE_17_X : Z := 217.
Definition SYSMON_SYSCALL_FORK_17_E : Z := 218.
Definition SYSMON_SYSCALL_FORK_17_X : Z := 219.
Definition SYSMON_SYSCALL_VFORK_17_E : Z := 220.
Definition SYSMON_SYSCALL_VFORK_17_X : Z := 221.
Definition SYSMON_SYSCALL_CLONE_20_E : Z := 222.
Definition SYSMON_SYSCALL_CLONE_20_X : Z := 223.
Definition SYSMON_SYSCALL_FORK_20_E : Z := 224.
Definition SYSMON_SYSCALL_FORK_20_X : Z := 225.
Definition SYSMON_SYSCALL_VFORK_20_E : Z := 226.
Definition SYSMON_SYSCALL_VFORK_20_X : Z := 227.
Definition SYSMON_CONTAINER_E : Z := 228.
Definition SYSMON_CONTAINER_X : Z := 229.
Definition SYSMON_SYSCALL_EXECVE_16_E : Z := 230.
Definition SYSMON_SYSCALL_EXECVE_16_X : Z := 231.
Definition SYSMON_SIGNALDELIVER_E : Z := 232.
Definition SYSMON_SIGNALDELIVER_X : Z := 233.
Definition SYSMON_PROCINFO_E : Z := 234.
Definition SYSMON_PROCINFO_X : Z := 235.
Definition SYSMON_SYSCALL_GETDENTS_E : Z := 236.
Definition SYSMON_SYSCALL_GETDENTS_X : Z := 237.
Definition SYSMON_SYSCALL_GETDENTS64_E : Z := 238.
Definition SYSMON_SYSCALL_GETDENTS64_X : Z := 239.
Definition SYSMON_SYSCALL_SETNS_E : Z := 240.
Definition SYSMON_SYSCALL_SETNS_X : Z := 241.
Definition SYSMON_SYSCALL_FLOCK_E : Z := 242.
Definition SYSMON_SYSCALL_FLOCK_X : Z := 243.
Definition SYSMON_CPU_HOTPLUG_E : Z := 244.
Definition SYSMON_CPU_HOTPLUG_X : Z := 245.
Definition SYSMON_SOCKET_ACCEPT_5_E : Z := 246.
Definition SYSMON_SOCKET_ACCEPT_5_X : Z := 247.
Definition SYSMON_SOCKET_ACCEPT4_5_E : Z := 248.
Definition SYSMON_SOCKET_ACCEPT4_5_X : Z := 249.
Definition SYSMON_SYSCALL_SEMOP_E : Z := 250.
Definition SYSMON_SYSCALL_SEMOP_X : Z := 251.
Definition SYSMON_SYSCALL_SEMCTL_E : Z := 252.
Definition SYSMON_SYSCALL_SEMCTL_X : Z := 253.
Definition SYSMON_SYSCALL_PPOLL_E : Z := 254.
Definition SYSMON_SYSCALL_PPOLL_X : Z := 255.
Definition SYSMON_SYSCALL_MOUNT_E : Z := 256.
Definition SYSMON_SYSCALL_MOUNT_X : Z := 257.
Definition SYSMON_SYSCALL_UMOUNT_E : Z := 258.
Definition SYSMON_SYSCALL_UMOUNT_X : Z := 259.
Definition SYSMON_K8S_E : Z := 260.
Definition SYSMON_K8S_X : Z := 261.
Definition SYSMON_SYSCALL_SEMGET_E : Z := 262.
Definition SYSMON_SYSCALL_SEMGET_X : Z := 263.
Definition SYSMON_SYSCALL_ACCESS_E : Z := 264.
Definition SYSMON_SYSCALL_ACCESS_X : Z := 265.
Definition SYSMON_SYSCALL_CHROOT_E : Z := 266.
Definition SYSMON_SYSCALL_CHROOT_X : Z := 267.
Definition SYSMON_TRACER_E : Z := 268.
Definition SYSMON_TRACER_X : Z := 269.
Definition SYSMON_MESOS_E : Z := 270.
Definition SYSMON_MESOS_X : Z := 271.
Definition SYSMON_CONTAINER_JSON_E : Z := 272.
Definition SYSMON_CONTAINER_JSON_X : Z := 273.
Definition SYSMON_SYSCALL_SETSID_E : Z := 274.
Definition SYSMON_SYSCALL_SETSID_X : Z := 275.
Definition SYSMON_SYSCALL_MKDIR_2_E : Z := 276.
Definition SYSMON_SYSCALL_MKDIR_2_X : Z := 277.
Definition SYSMON_SYSCALL_RMDIR_2_E : Z := 278.
Definition SYSMON_SYSCALL_RMDIR_2_X : Z := 279.
Definition SYSMON_NOTIFICATION_E : Z := 280.
Definition SYSMON_NOTIFICATION_X : Z := 281.
Definition SYSMON_SYSCALL_EXECVE_17_E : Z := 282.
Definition SYSMON_SYSCALL_EXECVE_17_X : Z := 283.
Definition SYSMON_SYSCALL_UNSHARE_E : Z := 284.
Definition SYSMON_SYSCALL_UNSHARE_X : Z := 285.
Definition SYSMON_INFRASTRUCTURE_EVENT_E : Z := 286.
Definition SYSMON_INFRASTRUCTURE_EVENT_X : Z := 287.
Definition SYSMON_SYSCALL_EXECVE_18_E : Z := 288.
Definition SYSMON_SYSCALL_EXECVE_18_X : Z := 289.
Definition SYSMON_PAGE_FAULT_E : Z := 290.
Definition SYSMON_PAGE_FAULT_X : Z := 291.
Definition SYSMON_SYSCALL_EXECVE_19_E : Z := 292.
Definition SYSMON_SYSCALL_EXECVE_19_X : Z := 293.
Definition SYSMON_SYSCALL_SETPGID_E : Z := 294.
Definition SYSMON_SYSCALL_SETPGID_X : Z := 295.
Definition SYSMON_SYSCALL_BPF_E : Z := 296.
Definition SYSMON_SYSCALL_BPF_X : Z := 297.
Definition SYSMON_SYSCALL_SECCOMP_E : Z := 298.
Definition SYSMON_SYSCALL_SECCOMP_X : Z := 299.
Definition SYSMON_SYSCALL_UNLINK_2_E : Z := 300.
Definition SYSMON_SYSCALL_UNLINK_2_X : Z := 301.
Definition SYSMON_SYSCALL_UNLINKAT_2_E : Z := 302.
Definition SYSMON_SYSCALL_UNLINKAT_2_X : Z := 303.
Definition SYSMON_SYSCALL_MKDIRAT_E : Z := 304.
Definition SYSMON_SYSCALL_MKDIRAT_X : Z := 305.
Definition SYSMON_SYSCALL_OPENAT_2_E : Z := 306.
Definition SYSMON_SYSCALL_OPENAT_2_X : Z := 307.
Definition SYSMON_SYSCALL_LINK_2_E : Z := 308.
Definition SYSMON_SYSCALL_LINK_2_X : Z := 309.
Definition SYSMON_SYSCALL_LINKAT_2_E : Z := 310.
Definition SYSMON_SYSCALL_LINKAT_2_X : Z := 311.
Definition SYSMON_SYSCALL_FCHMODAT_E : Z := 312.
Definition SYSMON_SYSCALL_FCHMODAT_X : Z := 313.
Definition SYSMON_SYSCALL_CHMOD_E : Z := 314.
Definition SYSMON_SYSCALL_CHMOD_X : Z := 315.
Definition SYSMON_SYSCALL_FCHMOD_E : Z := 316.
Definition SYSMON_SYSCALL_FCHMOD_X : Z := 317.
Definition SYSMON_SYSCALL_RENAMEAT2_E : Z := 318.
Definition SYSMON_SYSCALL_RENAMEAT2_X : Z := 319.
Definition SYSMON_SYSCALL_USERFAULTFD_E : Z := 320.
Definition SYSMON_SYSCALL_USERFAULTFD_X : Z := 321.
Definition SYSMON_PLUGINEVENT_E : Z := 322.
Definition SYSMON_PLUGINEVENT_X : Z := 323.
Definition SYSMON_CONTAINER_JSON_2_E : Z := 324.
Definition SYSMON_CONTAINER_JSON_2_X : Z := 325.
Definition SYSMON_SYSCALL_OPENAT2_E : Z := 326.
Definition SYSMON_SYSCALL_OPENAT2_X : Z := 327.
Definition SYSMON_SYSCALL_MPROTECT_E : Z := 328.
Definition SYSMON_SYSCALL_MPROTECT_X : Z := 329.
Definition SYSMON_SYSCALL_EXECVEAT_E : Z := 330.
Definition SYSMON_SYSCALL_EXECVEAT_X : Z := 331.
Definition SYSMON_SYSCALL_COPY_FILE_RANGE_E : Z := 332.
Definition SYSMON_SYSCALL_COPY_FILE_RANGE_X : Z := 333.
Definition SYSMON_SYSCALL_CLONE3_E : Z := 334.
Definition SYSMON_SYSCALL_CLONE3_X : Z := 335.
Definition SYSMON_SYSCALL_OPEN_BY_HANDLE_AT_E : Z := 336.
Definition SYSMON_SYSCALL_OPEN_BY_HANDLE_AT_X : Z := 337.
Definition SYSMON_SYSCALL_IO_URING_SETUP_E : Z := 338.
Definition SYSMON_SYSCALL_IO_URING_SETUP_X : Z := 339.
Definition SYSMON_SYSCALL_IO_URING_ENTER_E : Z := 340.
Definition SYSMON_SYSCALL_IO_URING_ENTER_X : Z := 341.
Definition SYSMON_SYSCALL_IO_URING_REGISTER_E : Z := 342.
Definition SYSMON_SYSCALL_IO_URING_REGISTER_X : Z := 343.
Definition SYSMON_SYSCALL_MLOCK_E : Z := 344.
Definition SYSMON_SYSCALL_MLOCK_X : Z := 345.
Definition SYSMON_SYSCALL_MUNLOCK_E : Z := 346.
Definition SYSMON_SYSCALL_MUNLOCK_X : Z := 347.
Definition SYSMON_SYSCALL_MLOCKALL_E : Z := 348.
Definition SYSMON_SYSCALL_MLOCKALL_X : Z := 349.
Definition SYSMON_SYSCALL_MUNLOCKALL_E : Z := 350.
Definition SYSMON_SYSCALL_MUNLOCKALL_X : Z := 351.
Definition SYSMON_SYSCALL_CAPSET_E : Z := 352.
Definition SYSMON_SYSCALL_CAPSET_X : Z := 353.
Definition SYSMON_USER_ADDED_E : Z := 354.
Definition SYSMON_USER_ADDED_X : Z := 355.
Definition SYSMON_USER_DELETED_E : Z := 356.
Definition SYSMON_USER_DELETED_X : Z := 357.
Definition SYSMON_GROUP_ADDED_E : Z := 358.
Definition SYSMON_GROUP_ADDED_X : Z := 359.
Definition SYSMON_GROUP_DELETED_E : Z := 360.
Definition SYSMON_GROUP_DELETED_X : Z := 361.
Definition SYSMON_SYSCALL_DUP2_E : Z := 362.
Definition SYSMON_SYSCALL_DUP2_X : Z := 363.
Definition SYSMON_SYSCALL_DUP3_E : Z := 364.
Definition SYSMON_SYSCALL_DUP3_X : Z := 365.
Definition SYSMON_SYSCALL_DUP_1_E : Z := 366.
Definition SYSMON_SYSCALL_DUP_1_X : Z := 367.
Definition SYSMON_SYSCALL_BPF_2_E : Z := 368.
Definition SYSMON_SYSCALL_BPF_2_X : Z := 369.
Definition SYSMON_SYSCALL_MLOCK2_E : Z := 370.
Definition SYSMON_SYSCALL_MLOCK2_X : Z := 371.
Definition SYSMON_SYSCALL_FSCONFIG_E : Z := 372.
Definition SYSMON_SYSCALL_FSCONFIG_X : Z := 373.
Definition SYSMON_SYSCALL_EPOLL_CREATE_E : Z := 374.
Definition SYSMON_SYSCALL_EPOLL_CREATE_X : Z := 375.
Definition SYSMON_SYSCALL_EPOLL_CREATE1_E : Z := 376.
Definition SYSMON_SYSCALL_EPOLL_CREATE1_X : Z := 377.
Definition SYSMON_SYSCALL_CHOWN_E : Z := 378.
Definition SYSMON_SYSCALL_CHOWN_X : Z := 379.
Definition SYSMON_SYSCALL_LCHOWN_E : Z := 380.
Definition SYSMON_SYSCALL_LCHOWN_X : Z := 381.
Definition SYSMON_SYSCALL_FCHOWN_E : Z := 382.
Definition SYSMON_SYSCALL_FCHOWN_X : Z := 383.
Definition SYSMON_SYSCALL_FCHOWNAT_E : Z := 384.
Definition SYSMON_SYSCALL_FCHOWNAT_X : Z := 385.
Definition SYSMON_SYSCALL_UMOUNT_1_E : Z := 386.
Definition SYSMON_SYSCALL_UMOUNT_1_X : Z := 387.
Definition SYSMON_SOCKET_ACCEPT4_6_E : Z := 388.
Definition SYSMON_SOCKET_ACCEPT4_6_X : Z := 389.
Definition SYSMON_SYSCALL_UMOUNT2_E : Z := 390.
Definition SYSMON_SYSCALL_UMOUNT2_X : Z := 391.
Definition SYSMON_SYSCALL_PIPE2_E : Z := 392.
Definition SYSMON_SYSCALL_PIPE2_X : Z := 393.
Definition SYSMON_SYSCALL_INOTIFY_INIT1_E : Z := 394.
Definition SYSMON_SYSCALL_INOTIFY_INIT1_X : Z := 395.
Definition SYSMON_SYSCALL_EVENTFD2_E : Z := 396.
Definition SYSMON_SYSCALL_EVENTFD2_X : Z := 397.
Definition SYSMON_SYSCALL_SIGNALFD4_E : Z := 398.
Definition SYSMON_SYSCALL_SIGNALFD4_X : Z := 399.
Definition SYSMON_SYSCALL_PRCTL_E : Z := 400.
Definition SYSMON_SYSCALL_PRCTL_X : Z := 401.
Definition SYSMON_ASYNCEVENT_E : Z := 402.
Definition SYSMON_ASYNCEVENT_X : Z := 403.
Definition SYSMON_SYSCALL_MEMFD_CREATE_E : Z := 404.
Definition SYSMON_SYSCALL_MEMFD_CREATE_X : Z := 405.
Definition SYSMON_SYSCALL_PIDFD_GETFD_E : Z := 406.
Definition SYSMON_SYSCALL_PIDFD_GETFD_X : Z := 407.
Definition SYSMON_SYSCALL_PIDFD_OPEN_E : Z := 408.
Definition SYSMON_SYSCALL_PIDFD_OPEN_X : Z := 409.
Definition SYSMON_SYSCALL_INIT_MODULE_E : Z := 410.
Definition SYSMON_SYSCALL_INIT_MODULE_X : Z := 411.
Definition SYSMON_SYSCALL_FINIT_MODULE_E : Z := 412.
Definition SYSMON_SYSCALL_FINIT_MODULE_X : Z := 413.
Definition SYSMON_SYSCALL_MKNOD_E : Z := 414.
Definition SYSMON_SYSCALL_MKNOD_X : Z := 415.
Definition SYSMON_SYSCALL_MKNODAT_E : Z := 416.
Definition SYSMON_SYSCALL_MKNODAT_X : Z := 417.
Definition SYSMON_SYSCALL_NEWFSTATAT_E : Z := 418.
Definition SYSMON_SYSCALL_NEWFSTATAT_X : Z := 419.
Definition SYSMON_SYSCALL_PROCESS_VM_READV_E : Z := 420.
Definition SYSMON_SYSCALL_PROCESS_VM_READV_X : Z := 421.
Definition SYSMON_SYSCALL_PROCESS_VM_WRITEV_E : Z := 422.
Definition SYSMON_SYSCALL_PROCESS_VM_WRITEV_X : Z := 423.
Definition SYSMON_SYSCALL_DELETE_MODULE_E : Z := 424.
Definition SYSMON_SYSCALL_DELETE_MODULE_X : Z := 425.
Definition SYSMON_SYSCALL_SETREUID_E : Z := 426.
Definition SYSMON_SYSCALL_SETREUID_X : Z := 427.
Definition SYSMON_SYSCALL_SETREGID_E : Z := 428.
Definition SYSMON_SYSCALL_SETREGID_X : Z := 429.
Definition SYSMON_SYSCALL_MAX : Z := 430.

(** The enumerators by name, without [SYSMON_]. *)
Definition sysmon_codes_1 : list (string * Z) :=
  [("GENERIC_E", SYSMON_GENERIC_E); ("GENERIC_X", SYSMON_GENERIC_X); ("SYSCALL_OPEN_E", SYSMON_SYSCALL_OPEN_E);
   ("SYSCALL_OPEN_X", SYSMON_SYSCALL_OPEN_X); ("SYSCALL_CLOSE_E", SYSMON_SYSCALL_CLOSE_E);
   ("SYSCALL_CLOSE_X", SYSMON_SYSCALL_CLOSE_X); ("SYSCALL_READ_E", SYSMON_SYSCALL_READ_E);
   ("SYSCALL_READ_X", SYSMON_SYSCALL_READ_X); ("SYSCALL_WRITE_E", SYSMON_SYSCALL_WRITE_E);
   ("SYSCALL_WRITE_X", SYSMON_SYSCALL_WRITE_X); ("SYSCALL_BRK_1_E", SYSMON_SYSCALL_BRK_1_E);
   ("SYSCALL_BRK_1_X", SYSMON_SYSCALL_BRK_1_X); ("SYSCALL_EXECVE_8_E", SYSMON_SYSCALL_EXECVE_8_E);
   ("SYSCALL_EXECVE_8_X", SYSMON_SYSCALL_EXECVE_8_X); ("SYSCALL_CLONE_11_E", SYSMON_SYSCALL_CLONE_11_E);
   ("SYSCALL_CLONE_11_X", SYSMON_SYSCALL_CLONE_11_X); ("PROCEXIT_E", SYSMON_PROCEXIT_E);
   ("PROCEXIT_X", SYSMON_PROCEXIT_X); ("SOCKET_SOCKET_E", SYSMON_SOCKET_SOCKET_E);
   ("SOCKET_SOCKET_X", SYSMON_SOCKET_SOCKET_X); ("SOCKET_BIND_E", SYSMON_SOCKET_BIND_E);
   ("SOCKET_BIND_X", SYSMON_SOCKET_BIND_X); ("SOCKET_CONNECT_E", SYSMON_SOCKET_CONNECT_E);
   ("SOCKET_CONNECT_X", SYSMON_SOCKET_CONNECT_X); ("SOCKET_LISTEN_E", SYSMON_SOCKET_LISTEN_E);
   ("SOCKET_LISTEN_X", SYSMON_SOCKET_LISTEN_X); ("SOCKET_ACCEPT_E", SYSMON_SOCKET_ACCEPT_E);
   ("SOCKET_ACCEPT_X", SYSMON_SOCKET_ACCEPT_X); ("SOCKET_SEND_E", SYSMON_SOCKET_SEND_E);
   ("SOCKET_SEND_X", SYSMON_SOCKET_SEND_X); ("SOCKET_SENDTO_E", SYSMON_SOCKET_SENDTO_E);
   ("SOCKET_SENDTO_X", SYSMON_SOCKET_SENDTO_X); ("SOCKET_RECV_E", SYSMON_SOCKET_RECV_E);
   ("SOCKET_RECV_X", SYSMON_SOCKET_RECV_X); ("SOCKET_RECVFROM_E", SYSMON_SOCKET_RECVFROM_E);
   ("SOCKET_RECVFROM_X", SYSMON_SOCKET_RECVFROM_X); ("SOCKET_SHUTDOWN_E", SYSMON_SOCKET_SHUTDOWN_E);
   ("SOCKET_SHUTDOWN_X", SYSMON_SOCKET_SHUTDOWN_X); ("SOCKET_GETSOCKNAME_E", SYSMON_SOCKET_GETSOCKNAME_E);
   ("SOCKET_GETSOCKNAME_X", SYSMON_SOCKET_GETSOCKNAME_X); ("SOCKET_GETPEERNAME_E", SYSMON_SOCKET_GETPEERNAME_E);
   ("SOCKET_GETPEERNAME_X", SYSMON_SOCKET_GETPEERNAME_X); ("SOCKET_SOCKETPAIR_E", SYSMON_SOCKET_SOCKETPAIR_E);
   ("SOCKET_SOCKETPAIR_X", SYSMON_SOCKET_SOCKETPAIR_X); ("SOCKET_SETSOCKOPT_E", SYSMON_SOCKET_SETSOCKOPT_E);
   ("SOCKET_SETSOCKOPT_X", SYSMON_SOCKET_SETSOCKOPT_X); ("SOCKET_GETSOCKOPT_E", SYSMON_SOCKET_GETSOCKOPT_E);
   ("SOCKET_GETSOCKOPT_X", SYSMON_SOCKET_GETSOCKOPT_X); ("SOCKET_SENDMSG_E", SYSMON_SOCKET_SENDMSG_E);
   ("SOCKET_SENDMSG_X", SYSMON_SOCKET_SENDMSG_X); ("SOCKET_SENDMMSG_E", SYSMON_SOCKET_SENDMMSG_E);
   ("SOCKET_SENDMMSG_X", SYSMON_SOCKET_SENDMMSG_X); ("SOCKET_RECVMSG_E", SYSMON_SOCKET_RECVMSG_E);
   ("SOCKET_RECVMSG_X", SYSMON_SOCKET_RECVMSG_X); ("SOCKET_RECVMMSG_E", SYSMON_SOCKET_RECVMMSG_E);
   ("SOCKET_RECVMMSG_X", SYSMON_SOCKET_RECVMMSG_X); ("SOCKET_ACCEPT4_E", SYSMON_SOCKET_ACCEPT4_E);
   ("SOCKET_ACCEPT4_X", SYSMON_SOCKET_ACCEPT4_X); ("SYSCALL_CREAT_E", SYSMON_SYSCALL_CREAT_E);
   ("SYSCALL_CREAT_X", SYSMON_SYSCALL_CREAT_X); ("SYSCALL_PIPE_E", SYSMON_SYSCALL_PIPE_E);
   ("SYSCALL_PIPE_X", SYSMON_SYSCALL_PIPE_X); ("SYSCALL_EVENTFD_E", SYSMON_SYSCALL_EVENTFD_E);
   ("SYSCALL_EVENTFD_X", SYSMON_SYSCALL_EVENTFD_X); ("SYSCALL_FUTEX_E", SYSMON_SYSCALL_FUTEX_E);
   ("SYSCALL_FUTEX_X", SYSMON_SYSCALL_FUTEX_X); ("SYSCALL_STAT_E", SYSMON_SYSCALL_STAT_E);
   ("SYSCALL_STAT_X", SYSMON_SYSCALL_STAT_X); ("SYSCALL_LSTAT_E", SYSMON_SYSCALL_LSTAT_E);
   ("SYSCALL_LSTAT_X", SYSMON_SYSCALL_LSTAT_X); ("SYSCALL_FSTAT_E", SYSMON_SYSCALL_FSTAT_E);
   ("SYSCALL_FSTAT_X", SYSMON_SYSCALL_FSTAT_X); ("SYSCALL_STAT64_E", SYSMON_SYSCALL_STAT64_E);
   ("SYSCALL_STAT64_X", SYSMON_SYSCALL_STAT64_X); ("SYSCALL_LSTAT64_E", SYSMON_SYSCALL_LSTAT64_E);
   ("SYSCALL_LSTAT64_X", SYSMON_SYSCALL_LSTAT64_X); ("SYSCALL_FSTAT64_E", SYSMON_SYSCALL_FSTAT64_E);
   ("SYSCALL_FSTAT64_X", SYSMON_SYSCALL_FSTAT64_X); ("SYSCALL_EPOLLWAIT_E", SYSMON_SYSCALL_EPOLLWAIT_E);
   ("SYSCALL_EPOLLWAIT_X", SYSMON_SYSCALL_EPOLLWAIT_X); ("SYSCALL_POLL_E", SYSMON_SYSCALL_POLL_E);
   ("SYSCALL_POLL_X", SYSMON_SYSCALL_POLL_X); ("SYSCALL_SELECT_E", SYSMON_SYSCALL_SELECT_E);
   ("SYSCALL_SELECT_X", SYSMON_SYSCALL_SELECT_X); ("SYSCALL_NEWSELECT_E", SYSMON_SYSCALL_NEWSELECT_E);
   ("SYSCALL_NEWSELECT_X", SYSMON_SYSCALL_NEWSELECT_X); ("SYSCALL_LSEEK_E", SYSMON_SYSCALL_LSEEK_E);
   ("SYSCALL_LSEEK_X", SYSMON_SYSCALL_LSEEK_X); ("SYSCALL_LLSEEK_E", SYSMON_SYSCALL_LLSEEK_E);
   ("SYSCALL_LLSEEK_X", SYSMON_SYSCALL_LLSEEK_X); ("SYSCALL_IOCTL_2_E", SYSMON_SYSCALL_IOCTL_2_E);
   ("SYSCALL_IOCTL_2_X", SYSMON_SYSCALL_IOCTL_2_X); ("SYSCALL_GETCWD_E", SYSMON_SYSCALL_GETCWD_E);
   ("SYSCALL_GETCWD_X", SYSMON_SYSCALL_GETCWD_X); ("SYSCALL_CHDIR_E", SYSMON_SYSCALL_CHDIR_E);
   ("SYSCALL_CHDIR_X", SYSMON_SYSCALL_CHDIR_X); ("SYSCALL_FCHDIR_E", SYSMON_SYSCALL_FCHDIR_E);
   ("SYSCALL_FCHDIR_X", SYSMON_SYSCALL_FCHDIR_X); ("SYSCALL_MKDIR_E", SYSMON_SYSCALL_MKDIR_E);
   ("SYSCALL_MKDIR_X", SYSMON_SYSCALL_MKDIR_X); ("SYSCALL_RMDIR_E", SYSMON_SYSCALL_RMDIR_E);
   ("SYSCALL_RMDIR_X", SYSMON_SYSCALL_RMDIR_X); ("SYSCALL_OPENAT_E", SYSMON_SYSCALL_OPENAT_E);
   ("SYSCALL_OPENAT_X", SYSMON_SYSCALL_OPENAT_X); ("SYSCALL_LINK_E", SYSMON_SYSCALL_LINK_E);
   ("SYSCALL_LINK_X", SYSMON_SYSCALL_LINK_X); ("SYSCALL_LINKAT_E", SYSMON_SYSCALL_LINKAT_E);
   ("SYSCALL_LINKAT_X", SYSMON_SYSCALL_LINKAT_X); ("SYSCALL_UNLINK_E", SYSMON_SYSCALL_UNLINK_E);
   ("SYSCALL_UNLINK_X", SYSMON_SYSCALL_UNLINK_X); ("SYSCALL_UNLINKAT_E", SYSMON_SYSCALL_UNLINKAT_E);
   ("SYSCALL_UNLINKAT_X", SYSMON_SYSCALL_UNLINKAT_X); ("SYSCALL_PREAD_E", SYSMON_SYSCALL_PREAD_E);
   ("SYSCALL_PREAD_X", SYSMON_SYSCALL_PREAD_X); ("SYSCALL_PWRITE_E", SYSMON_SYSCALL_PWRITE_E);
   ("SYSCALL_PWRITE_X", SYSMON_SYSCALL_PWRITE_X); ("SYSCALL_READV_E", SYSMON_SYSCALL_READV_E);
   ("SYSCALL_READV_X", SYSMON_SYSCALL_READV_X); ("SYSCALL_WRITEV_E", SYSMON_SYSCALL_WRITEV_E);
   ("SYSCALL_WRITEV_X", SYSMON_SYSCALL_WRITEV_X); ("SYSCALL_PREADV_E", SYSMON_SYSCALL_PREADV_E);
   ("SYSCALL_PREADV_X", SYSMON_SYSCALL_PREADV_X); ("SYSCALL_PWRITEV_E", SYSMON_SYSCALL_PWRITEV_E);
   ("SYSCALL_PWRITEV_X", SYSMON_SYSCALL_PWRITEV_X); ("SYSCALL_DUP_E", SYSMON_SYSCALL_DUP_E);
   ("SYSCALL_DUP_X", SYSMON_SYSCALL_DUP_X); ("SYSCALL_SIGNALFD_E", SYSMON_SYSCALL_SIGNALFD_E);
   ("SYSCALL_SIGNALFD_X", SYSMON_SYSCALL_SIGNALFD_X); ("SYSCALL_KILL_E", SYSMON_SYSCALL_KILL_E);
   ("SYSCALL_KILL_X", SYSMON_SYSCALL_KILL_X); ("SYSCALL_TKILL_E", SYSMON_SYSCALL_TKILL_E);
   ("SYSCALL_TKILL_X", SYSMON_SYSCALL_TKILL_X); ("SYSCALL_TGKILL_E", SYSMON_SYSCALL_TGKILL_E);
   ("SYSCALL_TGKILL_X", SYSMON_SYSCALL_TGKILL_X); ("SYSCALL_NANOSLEEP_E", SYSMON_SYSCALL_NANOSLEEP_E);
   ("SYSCALL_NANOSLEEP_X", SYSMON_SYSCALL_NANOSLEEP_X); ("SYSCALL_TIMERFD_CREATE_E", SYSMON_SYSCALL_TIMERFD_CREATE_E);
   ("SYSCALL_TIMERFD_CREATE_X", SYSMON_SYSCALL_TIMERFD_CREATE_X);
   ("SYSCALL_INOTIFY_INIT_E", SYSMON_SYSCALL_INOTIFY_INIT_E);
   ("SYSCALL_INOTIFY_INIT_X", SYSMON_SYSCALL_INOTIFY_INIT_X); ("SYSCALL_GETRLIMIT_E", SYSMON_SYSCALL_GETRLIMIT_E);
   ("SYSCALL_GETRLIMIT_X", SYSMON_SYSCALL_GETRLIMIT_X); ("SYSCALL_SETRLIMIT_E", SYSMON_SYSCALL_SETRLIMIT_E);
   ("SYSCALL_SETRLIMIT_X", SYSMON_SYSCALL_SETRLIMIT_X)].

Definition sysmon_codes_2 : list (string * Z) :=
  [("SYSCALL_PRLIMIT_E", SYSMON_SYSCALL_PRLIMIT_E); ("SYSCALL_PRLIMIT_X", SYSMON_SYSCALL_PRLIMIT_X);
   ("SCHEDSWITCH_1_E", SYSMON_SCHEDSWITCH_1_E); ("SCHEDSWITCH_1_X", SYSMON_SCHEDSWITCH_1_X);
   ("DROP_E", SYSMON_DROP_E); ("DROP_X", SYSMON_DROP_X); ("SYSCALL_FCNTL_E", SYSMON_SYSCALL_FCNTL_E);
   ("SYSCALL_FCNTL_X", SYSMON_SYSCALL_FCNTL_X); ("SCHEDSWITCH_6_E", SYSMON_SCHEDSWITCH_6_E);
   ("SCHEDSWITCH_6_X", SYSMON_SCHEDSWITCH_6_X); ("SYSCALL_EXECVE_13_E", SYSMON_SYSCALL_EXECVE_13_E);
   ("SYSCALL_EXECVE_13_X", SYSMON_SYSCALL_EXECVE_13_X); ("SYSCALL_CLONE_16_E", SYSMON_SYSCALL_CLONE_16_E);
   ("SYSCALL_CLONE_16_X", SYSMON_SYSCALL_CLONE_16_X); ("SYSCALL_BRK_4_E", SYSMON_SYSCALL_BRK_4_E);
   ("SYSCALL_BRK_4_X", SYSMON_SYSCALL_BRK_4_X); ("SYSCALL_MMAP_E", SYSMON_SYSCALL_MMAP_E);
   ("SYSCALL_MMAP_X", SYSMON_SYSCALL_MMAP_X); ("SYSCALL_MMAP2_E", SYSMON_SYSCALL_MMAP2_E);
   ("SYSCALL_MMAP2_X", SYSMON_SYSCALL_MMAP2_X); ("SYSCALL_MUNMAP_E", SYSMON_SYSCALL_MUNMAP_E);
   ("SYSCALL_MUNMAP_X", SYSMON_SYSCALL_MUNMAP_X); ("SYSCALL_SPLICE_E", SYSMON_SYSCALL_SPLICE_E);
   ("SYSCALL_SPLICE_X", SYSMON_SYSCALL_SPLICE_X); ("SYSCALL_PTRACE_E", SYSMON_SYSCALL_PTRACE_E);
   ("SYSCALL_PTRACE_X", SYSMON_SYSCALL_PTRACE_X); ("SYSCALL_IOCTL_3_E", SYSMON_SYSCALL_IOCTL_3_E);
   ("SYSCALL_IOCTL_3_X", SYSMON_SYSCALL_IOCTL_3_X); ("SYSCALL_EXECVE_14_E", SYSMON_SYSCALL_EXECVE_14_E);
   ("SYSCALL_EXECVE_14_X", SYSMON_SYSCALL_EXECVE_14_X); ("SYSCALL_RENAME_E", SYSMON_SYSCALL_RENAME_E);
   ("SYSCALL_RENAME_X", SYSMON_SYSCALL_RENAME_X); ("SYSCALL_RENAMEAT_E", SYSMON_SYSCALL_RENAMEAT_E);
   ("SYSCALL_RENAMEAT_X", SYSMON_SYSCALL_RENAMEAT_X); ("SYSCALL_SYMLINK_E", SYSMON_SYSCALL_SYMLINK_E);
   ("SYSCALL_SYMLINK_X", SYSMON_SYSCALL_SYMLINK_X); ("SYSCALL_SYMLINKAT_E", SYSMON_SYSCALL_SYMLINKAT_E);
   ("SYSCALL_SYMLINKAT_X", SYSMON_SYSCALL_SYMLINKAT_X); ("SYSCALL_FORK_E", SYSMON_SYSCALL_FORK_E);
   ("SYSCALL_FORK_X", SYSMON_SYSCALL_FORK_X); ("SYSCALL_VFORK_E", SYSMON_SYSCALL_VFORK_E);
   ("SYSCALL_VFORK_X", SYSMON_SYSCALL_VFORK_X); ("PROCEXIT_1_E", SYSMON_PROCEXIT_1_E);
   ("PROCEXIT_1_X", SYSMON_PROCEXIT_1_X); ("SYSCALL_SENDFILE_E", SYSMON_SYSCALL_SENDFILE_E);
   ("SYSCALL_SENDFILE_X", SYSMON_SYSCALL_SENDFILE_X); ("SYSCALL_QUOTACTL_E", SYSMON_SYSCALL_QUOTACTL_E);
   ("SYSCALL_QUOTACTL_X", SYSMON_SYSCALL_QUOTACTL_X); ("SYSCALL_SETRESUID_E", SYSMON_SYSCALL_SETRESUID_E);
   ("SYSCALL_SETRESUID_X", SYSMON_SYSCALL_SETRESUID_X); ("SYSCALL_SETRESGID_E", SYSMON_SYSCALL_SETRESGID_E);
   ("SYSCALL_SETRESGID_X", SYSMON_SYSCALL_SETRESGID_X); ("SCAPEVENT_E", SYSMON_SCAPEVENT_E);
   ("SCAPEVENT_X", SYSMON_SCAPEVENT_X); ("SYSCALL_SETUID_E", SYSMON_SYSCALL_SETUID_E);
   ("SYSCALL_SETUID_X", SYSMON_SYSCALL_SETUID_X); ("SYSCALL_SETGID_E", SYSMON_SYSCALL_SETGID_E);
   ("SYSCALL_SETGID_X", SYSMON_SYSCALL_SETGID_X); ("SYSCALL_GETUID_E", SYSMON_SYSCALL_GETUID_E);
   ("SYSCALL_GETUID_X", SYSMON_SYSCALL_GETUID_X); ("SYSCALL_GETEUID_E", SYSMON_SYSCALL_GETEUID_E);
   ("SYSCALL_GETEUID_X", SYSMON_SYSCALL_GETEUID_X); ("SYSCALL_GETGID_E", SYSMON_SYSCALL_GETGID_E);
   ("SYSCALL_GETGID_X", SYSMON_SYSCALL_GETGID_X); ("SYSCALL_GETEGID_E", SYSMON_SYSCALL_GETEGID_E);
   ("SYSCALL_GETEGID_X", SYSMON_SYSCALL_GETEGID_X); ("SYSCALL_GETRESUID_E", SYSMON_SYSCALL_GETRESUID_E);
   ("SYSCALL_GETRESUID_X", SYSMON_SYSCALL_GETRESUID_X); ("SYSCALL_GETRESGID_E", SYSMON_SYSCALL_GETRESGID_E);
   ("SYSCALL_GETRESGID_X", SYSMON_SYSCALL_GETRESGID_X); ("SYSCALL_EXECVE_15_E", SYSMON_SYSCALL_EXECVE_15_E);
   ("SYSCALL_EXECVE_15_X", SYSMON_SYSCALL_EXECVE_15_X); ("SYSCALL_CLONE_17_E", SYSMON_SYSCALL_CLONE_17_E);
   ("SYSCALL_CLONE_17_X", SYSMON_SYSCALL_CLONE_17_X); ("SYSCALL_FORK_17_E", SYSMON_SYSCALL_FORK_17_E);
   ("SYSCALL_FORK_17_X", SYSMON_SYSCALL_FORK_17_X); ("SYSCALL_VFORK_17_E", SYSMON_SYSCALL_VFORK_17_E);
   ("SYSCALL_VFORK_17_X", SYSMON_SYSCALL_VFORK_17_X); ("SYSCALL_CLONE_20_E", SYSMON_SYSCALL_CLONE_20_E);
   ("SYSCALL_CLONE_20_X", SYSMON_SYSCALL_CLONE_20_X); ("SYSCALL_FORK_20_E", SYSMON_SYSCALL_FORK_20_E);
   ("SYSCALL_FORK_20_X", SYSMON_SYSCALL_FORK_20_X); ("SYSCALL_VFORK_20_E", SYSMON_SYSCALL_VFORK_20_E);
   ("SYSCALL_VFORK_20_X", SYSMON_SYSCALL_VFORK_20_X); ("CONTAINER_E", SYSMON_CONTAINER_E);
   ("CONTAINER_X", SYSMON_CONTAINER_X); ("SYSCALL_EXECVE_16_E", SYSMON_SYSCALL_EXECVE_16_E);
   ("SYSCALL_EXECVE_16_X", SYSMON_SYSCALL_EXECVE_16_X); ("SIGNALDELIVER_E", SYSMON_SIGNALDELIVER_E);
   ("SIGNALDELIVER_X", SYSMON_SIGNALDELIVER_X); ("PROCINFO_E", SYSMON_PROCINFO_E); ("PROCINFO_X", SYSMON_PROCINFO_X);
   ("SYSCALL_GETDENTS_E", SYSMON_SYSCALL_GETDENTS_E); ("SYSCALL_GETDENTS_X", SYSMON_SYSCALL_GETDENTS_X);
   ("SYSCALL_GETDENTS64_E", SYSMON_SYSCALL_GETDENTS64_E); ("SYSCALL_GETDENTS64_X", SYSMON_SYSCALL_GETDENTS64_X);
   ("SYSCALL_SETNS_E", SYSMON_SYSCALL_SETNS_E); ("SYSCALL_SETNS_X", SYSMON_SYSCALL_SETNS_X);
   ("SYSCALL_FLOCK_E", SYSMON_SYSCALL_FLOCK_E); ("SYSCALL_FLOCK_X", SYSMON_SYSCALL_FLOCK_X);
   ("CPU_HOTPLUG_E", SYSMON_CPU_HOTPLUG_E); ("CPU_HOTPLUG_X", SYSMON_CPU_HOTPLUG_X);
   ("SOCKET_ACCEPT_5_E", SYSMON_SOCKET_ACCEPT_5_E); ("SOCKET_ACCEPT_5_X", SYSMON_SOCKET_ACCEPT_5_X);
   ("SOCKET_ACCEPT4_5_E", SYSMON_SOCKET_ACCEPT4_5_E); ("SOCKET_ACCEPT4_5_X", SYSMON_SOCKET_ACCEPT4_5_X);
   ("SYSCALL_SEMOP_E", SYSMON_SYSCALL_SEMOP_E); ("SYSCALL_SEMOP_X", SYSMON_SYSCALL_SEMOP_X);
   ("SYSCALL_SEMCTL_E", SYSMON_SYSCALL_SEMCTL_E); ("SYSCALL_SEMCTL_X", SYSMON_SYSCALL_SEMCTL_X);
   ("SYSCALL_PPOLL_E", SYSMON_SYSCALL_PPOLL_E); ("SYSCALL_PPOLL_X", SYSMON_SYSCALL_PPOLL_X);
   ("SYSCALL_MOUNT_E", SYSMON_SYSCALL_MOUNT_E); ("SYSCALL_MOUNT_X", SYSMON_SYSCALL_MOUNT_X);
   ("SYSCALL_UMOUNT_E", SYSMON_SYSCALL_UMOUNT_E); ("SYSCALL_UMOUNT_X", SYSMON_SYSCALL_UMOUNT_X);
   ("K8S_E", SYSMON_K8S_E); ("K8S_X", SYSMON_K8S_X); ("SYSCALL_SEMGET_E", SYSMON_SYSCALL_SEMGET_E);
   ("SYSCALL_SEMGET_X", SYSMON_SYSCALL_SEMGET_X); ("SYSCALL_ACCESS_E", SYSMON_SYSCALL_ACCESS_E);
   ("SYSCALL_ACCESS_X", SYSMON_SYSCALL_ACCESS_X); ("SYSCALL_CHROOT_E", SYSMON_SYSCALL_CHROOT_E);
   ("SYSCALL_CHROOT_X", SYSMON_SYSCALL_CHROOT_X); ("TRACER_E", SYSMON_TRACER_E); ("TRACER_X", SYSMON_TRACER_X);
   ("MESOS_E", SYSMON_MESOS_E); ("MESOS_X", SYSMON_MESOS_X); ("CONTAINER_JSON_E", SYSMON_CONTAINER_JSON_E);
   ("CONTAINER_JSON_X", SYSMON_CONTAINER_JSON_X); ("SYSCALL_SETSID_E", SYSMON_SYSCALL_SETSID_E);
   ("SYSCALL_SETSID_X", SYSMON_SYSCALL_SETSID_X); ("SYSCALL_MKDIR_2_E", SYSMON_SYSCALL_MKDIR_2_E);
   ("SYSCALL_MKDIR_2_X", SYSMON_SYSCALL_MKDIR_2_X); ("SYSCALL_RMDIR_2_E", SYSMON_SYSCALL_RMDIR_2_E);
   ("SYSCALL_RMDIR_2_X", SYSMON_SYSCALL_RMDIR_2_X); ("NOTIFICATION_E", SYSMON_NOTIFICATION_E);
   ("NOTIFICATION_X", SYSMON_NOTIFICATION_X); ("SYSCALL_EXECVE_17_E", SYSMON_SYSCALL_EXECVE_17_E);
   ("SYSCALL_EXECVE_17_X", SYSMON_SYSCALL_EXECVE_17_X); ("SYSCALL_UNSHARE_E", SYSMON_SYSCALL_UNSHARE_E);
   ("SYSCALL_UNSHARE_X", SYSMON_SYSCALL_UNSHARE_X); ("INFRASTRUCTURE_EVENT_E", SYSMON_INFRASTRUCTURE_EVENT_E);
   ("INFRASTRUCTURE_EVENT_X", SYSMON_INFRASTRUCTURE_EVENT_X); ("SYSCALL_EXECVE_18_E", SYSMON_SYSCALL_EXECVE_18_E)].

Definition sysmon_codes_3 : list (string * Z) :=
  [("SYSCALL_EXECVE_18_X", SYSMON_SYSCALL_EXECVE_18_X); ("PAGE_FAULT_E", SYSMON_PAGE_FAULT_E);
   ("PAGE_FAULT_X", SYSMON_PAGE_FAULT_X); ("SYSCALL_EXECVE_19_E", SYSMON_SYSCALL_EXECVE_19_E);
   ("SYSCALL_EXECVE_19_X", SYSMON_SYSCALL_EXECVE_19_X); ("SYSCALL_SETPGID_E", SYSMON_SYSCALL_SETPGID_E);
   ("SYSCALL_SETPGID_X", SYSMON_SYSCALL_SETPGID_X); ("SYSCALL_BPF_E", SYSMON_SYSCALL_BPF_E);
   ("SYSCALL_BPF_X", SYSMON_SYSCALL_BPF_X); ("SYSCALL_SECCOMP_E", SYSMON_SYSCALL_SECCOMP_E);
   ("SYSCALL_SECCOMP_X", SYSMON_SYSCALL_SECCOMP_X); ("SYSCALL_UNLINK_2_E", SYSMON_SYSCALL_UNLINK_2_E);
   ("SYSCALL_UNLINK_2_X", SYSMON_SYSCALL_UNLINK_2_X); ("SYSCALL_UNLINKAT_2_E", SYSMON_SYSCALL_UNLINKAT_2_E);
   ("SYSCALL_UNLINKAT_2_X", SYSMON_SYSCALL_UNLINKAT_2_X); ("SYSCALL_MKDIRAT_E", SYSMON_SYSCALL_MKDIRAT_E);
   ("SYSCALL_MKDIRAT_X", SYSMON_SYSCALL_MKDIRAT_X); ("SYSCALL_OPENAT_2_E", SYSMON_SYSCALL_OPENAT_2_E);
   ("SYSCALL_OPENAT_2_X", SYSMON_SYSCALL_OPENAT_2_X); ("SYSCALL_LINK_2_E", SYSMON_SYSCALL_LINK_2_E);
   ("SYSCALL_LINK_2_X", SYSMON_SYSCALL_LINK_2_X); ("SYSCALL_LINKAT_2_E", SYSMON_SYSCALL_LINKAT_2_E);
   ("SYSCALL_LINKAT_2_X", SYSMON_SYSCALL_LINKAT_2_X); ("SYSCALL_FCHMODAT_E", SYSMON_SYSCALL_FCHMODAT_E);
   ("SYSCALL_FCHMODAT_X", SYSMON_SYSCALL_FCHMODAT_X); ("SYSCALL_CHMOD_E", SYSMON_SYSCALL_CHMOD_E);
   ("SYSCALL_CHMOD_X", SYSMON_SYSCALL_CHMOD_X); ("SYSCALL_FCHMOD_E", SYSMON_SYSCALL_FCHMOD_E);
   ("SYSCALL_FCHMOD_X", SYSMON_SYSCALL_FCHMOD_X); ("SYSCALL_RENAMEAT2_E", SYSMON_SYSCALL_RENAMEAT2_E);
   ("SYSCALL_RENAMEAT2_X", SYSMON_SYSCALL_RENAMEAT2_X); ("SYSCALL_USERFAULTFD_E", SYSMON_SYSCALL_USERFAULTFD_E);
   ("SYSCALL_USERFAULTFD_X", SYSMON_SYSCALL_USERFAULTFD_X); ("PLUGINEVENT_E", SYSMON_PLUGINEVENT_E);
   ("PLUGINEVENT_X", SYSMON_PLUGINEVENT_X); ("CONTAINER_JSON_2_E", SYSMON_CONTAINER_JSON_2_E);
   ("CONTAINER_JSON_2_X", SYSMON_CONTAINER_JSON_2_X); ("SYSCALL_OPENAT2_E", SYSMON_SYSCALL_OPENAT2_E);
   ("SYSCALL_OPENAT2_X", SYSMON_SYSCALL_OPENAT2_X); ("SYSCALL_MPROTECT_E", SYSMON_SYSCALL_MPROTECT_E);
   ("SYSCALL_MPROTECT_X", SYSMON_SYSCALL_MPROTECT_X); ("SYSCALL_EXECVEAT_E", SYSMON_SYSCALL_EXECVEAT_E);
   ("SYSCALL_EXECVEAT_X", SYSMON_SYSCALL_EXECVEAT_X); ("SYSCALL_COPY_FILE_RANGE_E", SYSMON_SYSCALL_COPY_FILE_RANGE_E);
   ("SYSCALL_COPY_FILE_RANGE_X", SYSMON_SYSCALL_COPY_FILE_RANGE_X); ("SYSCALL_CLONE3_E", SYSMON_SYSCALL_CLONE3_E);
   ("SYSCALL_CLONE3_X", SYSMON_SYSCALL_CLONE3_X); ("SYSCALL_OPEN_BY_HANDLE_AT_E", SYSMON_SYSCALL_OPEN_BY_HANDLE_AT_E);
   ("SYSCALL_OPEN_BY_HANDLE_AT_X", SYSMON_SYSCALL_OPEN_BY_HANDLE_AT_X);
   ("SYSCALL_IO_URING_SETUP_E", SYSMON_SYSCALL_IO_URING_SETUP_E);
   ("SYSCALL_IO_URING_SETUP_X", SYSMON_SYSCALL_IO_URING_SETUP_X);
   ("SYSCALL_IO_URING_ENTER_E", SYSMON_SYSCALL_IO_URING_ENTER_E);
   ("SYSCALL_IO_URING_ENTER_X", SYSMON_SYSCALL_IO_URING_ENTER_X);
   ("SYSCALL_IO_URING_REGISTER_E", SYSMON_SYSCALL_IO_URING_REGISTER_E);
   ("SYSCALL_IO_URING_REGISTER_X", SYSMON_SYSCALL_IO_URING_REGISTER_X); ("SYSCALL_MLOCK_E", SYSMON_SYSCALL_MLOCK_E);
   ("SYSCALL_MLOCK_X", SYSMON_SYSCALL_MLOCK_X); ("SYSCALL_MUNLOCK_E", SYSMON_SYSCALL_MUNLOCK_E);
   ("SYSCALL_MUNLOCK_X", SYSMON_SYSCALL_MUNLOCK_X); ("SYSCALL_MLOCKALL_E", SYSMON_SYSCALL_MLOCKALL_E);
   ("SYSCALL_MLOCKALL_X", SYSMON_SYSCALL_MLOCKALL_X); ("SYSCALL_MUNLOCKALL_E", SYSMON_SYSCALL_MUNLOCKALL_E);
   ("SYSCALL_MUNLOCKALL_X", SYSMON_SYSCALL_MUNLOCKALL_X); ("SYSCALL_CAPSET_E", SYSMON_SYSCALL_CAPSET_E);
   ("SYSCALL_CAPSET_X", SYSMON_SYSCALL_CAPSET_X); ("USER_ADDED_E", SYSMON_USER_ADDED_E);
   ("USER_ADDED_X", SYSMON_USER_ADDED_X); ("USER_DELETED_E", SYSMON_USER_DELETED_E);
   ("USER_DELETED_X", SYSMON_USER_DELETED_X); ("GROUP_ADDED_E", SYSMON_GROUP_ADDED_E);
   ("GROUP_ADDED_X", SYSMON_GROUP_ADDED_X); ("GROUP_DELETED_E", SYSMON_GROUP_DELETED_E);
   ("GROUP_DELETED_X", SYSMON_GROUP_DELETED_X); ("SYSCALL_DUP2_E", SYSMON_SYSCALL_DUP2_E);
   ("SYSCALL_DUP2_X", SYSMON_SYSCALL_DUP2_X); ("SYSCALL_DUP3_E", SYSMON_SYSCALL_DUP3_E);
   ("SYSCALL_DUP3_X", SYSMON_SYSCALL_DUP3_X); ("SYSCALL_DUP_1_E", SYSMON_SYSCALL_DUP_1_E);
   ("SYSCALL_DUP_1_X", SYSMON_SYSCALL_DUP_1_X); ("SYSCALL_BPF_2_E", SYSMON_SYSCALL_BPF_2_E);
   ("SYSCALL_BPF_2_X", SYSMON_SYSCALL_BPF_2_X); ("SYSCALL_MLOCK2_E", SYSMON_SYSCALL_MLOCK2_E);
   ("SYSCALL_MLOCK2_X", SYSMON_SYSCALL_MLOCK2_X); ("SYSCALL_FSCONFIG_E", SYSMON_SYSCALL_FSCONFIG_E);
   ("SYSCALL_FSCONFIG_X", SYSMON_SYSCALL_FSCONFIG_X); ("SYSCALL_EPOLL_CREATE_E", SYSMON_SYSCALL_EPOLL_CREATE_E);
   ("SYSCALL_EPOLL_CREATE_X", SYSMON_SYSCALL_EPOLL_CREATE_X);
   ("SYSCALL_EPOLL_CREATE1_E", SYSMON_SYSCALL_EPOLL_CREATE1_E);
   ("SYSCALL_EPOLL_CREATE1_X", SYSMON_SYSCALL_EPOLL_CREATE1_X); ("SYSCALL_CHOWN_E", SYSMON_SYSCALL_CHOWN_E);
   ("SYSCALL_CHOWN_X", SYSMON_SYSCALL_CHOWN_X); ("SYSCALL_LCHOWN_E", SYSMON_SYSCALL_LCHOWN_E);
   ("SYSCALL_LCHOWN_X", SYSMON_SYSCALL_LCHOWN_X); ("SYSCALL_FCHOWN_E", SYSMON_SYSCALL_FCHOWN_E);
   ("SYSCALL_FCHOWN_X", SYSMON_SYSCALL_FCHOWN_X); ("SYSCALL_FCHOWNAT_E", SYSMON_SYSCALL_FCHOWNAT_E);
   ("SYSCALL_FCHOWNAT_X", SYSMON_SYSCALL_FCHOWNAT_X); ("SYSCALL_UMOUNT_1_E", SYSMON_SYSCALL_UMOUNT_1_E);
   ("SYSCALL_UMOUNT_1_X", SYSMON_SYSCALL_UMOUNT_1_X); ("SOCKET_ACCEPT4_6_E", SYSMON_SOCKET_ACCEPT4_6_E);
   ("SOCKET_ACCEPT4_6_X", SYSMON_SOCKET_ACCEPT4_6_X); ("SYSCALL_UMOUNT2_E", SYSMON_SYSCALL_UMOUNT2_E);
   ("SYSCALL_UMOUNT2_X", SYSMON_SYSCALL_UMOUNT2_X); ("SYSCALL_PIPE2_E", SYSMON_SYSCALL_PIPE2_E);
   ("SYSCALL_PIPE2_X", SYSMON_SYSCALL_PIPE2_X); ("SYSCALL_INOTIFY_INIT1_E", SYSMON_SYSCALL_INOTIFY_INIT1_E);
   ("SYSCALL_INOTIFY_INIT1_X", SYSMON_SYSCALL_INOTIFY_INIT1_X); ("SYSCALL_EVENTFD2_E", SYSMON_SYSCALL_EVENTFD2_E);
   ("SYSCALL_EVENTFD2_X", SYSMON_SYSCALL_EVENTFD2_X); ("SYSCALL_SIGNALFD4_E", SYSMON_SYSCALL_SIGNALFD4_E);
   ("SYSCALL_SIGNALFD4_X", SYSMON_SYSCALL_SIGNALFD4_X); ("SYSCALL_PRCTL_E", SYSMON_SYSCALL_PRCTL_E);
   ("SYSCALL_PRCTL_X", SYSMON_SYSCALL_PRCTL_X); ("ASYNCEVENT_E", SYSMON_ASYNCEVENT_E);
   ("ASYNCEVENT_X", SYSMON_ASYNCEVENT_X); ("SYSCALL_MEMFD_CREATE_E", SYSMON_SYSCALL_MEMFD_CREATE_E);
   ("SYSCALL_MEMFD_CREATE_X", SYSMON_SYSCALL_MEMFD_CREATE_X); ("SYSCALL_PIDFD_GETFD_E", SYSMON_SYSCALL_PIDFD_GETFD_E);
   ("SYSCALL_PIDFD_GETFD_X", SYSMON_SYSCALL_PIDFD_GETFD_X); ("SYSCALL_PIDFD_OPEN_E", SYSMON_SYSCALL_PIDFD_OPEN_E);
   ("SYSCALL_PIDFD_OPEN_X", SYSMON_SYSCALL_PIDFD_OPEN_X); ("SYSCALL_INIT_MODULE_E", SYSMON_SYSCALL_INIT_MODULE_E);
   ("SYSCALL_INIT_MODULE_X", SYSMON_SYSCALL_INIT_MODULE_X); ("SYSCALL_FINIT_MODULE_E", SYSMON_SYSCALL_FINIT_MODULE_E);
   ("SYSCALL_FINIT_MODULE_X", SYSMON_SYSCALL_FINIT_MODULE_X); ("SYSCALL_MKNOD_E", SYSMON_SYSCALL_MKNOD_E);
   ("SYSCALL_MKNOD_X", SYSMON_SYSCALL_MKNOD_X); ("SYSCALL_MKNODAT_E", SYSMON_SYSCALL_MKNODAT_E);
   ("SYSCALL_MKNODAT_X", SYSMON_SYSCALL_MKNODAT_X); ("SYSCALL_NEWFSTATAT_E", SYSMON_SYSCALL_NEWFSTATAT_E);
   ("SYSCALL_NEWFSTATAT_X", SYSMON_SYSCALL_NEWFSTATAT_X);
   ("SYSCALL_PROCESS_VM_READV_E", SYSMON_SYSCALL_PROCESS_VM_READV_E);
   ("SYSCALL_PROCESS_VM_READV_X", SYSMON_SYSCALL_PROCESS_VM_READV_X);
   ("SYSCALL_PROCESS_VM_WRITEV_E", SYSMON_SYSCALL_PROCESS_VM_WRITEV_E);
   ("SYSCALL_PROCESS_VM_WRITEV_X", SYSMON_SYSCALL_PROCESS_VM_WRITEV_X);
   ("SYSCALL_DELETE_MODULE_E", SYSMON_SYSCALL_DELETE_MODULE_E);
   ("SYSCALL_DELETE_MODULE_X", SYSMON_SYSCALL_DELETE_MODULE_X); ("SYSCALL_SETREUID_E", SYSMON_SYSCALL_SETREUID_E);
   ("SYSCALL_SETREUID_X", SYSMON_SYSCALL_SETREUID_X); ("SYSCALL_SETREGID_E", SYSMON_SYSCALL_SETREGID_E);
   ("SYSCALL_SETREGID_X", SYSMON_SYSCALL_SETREGID_X); ("SYSCALL_MAX", SYSMON_SYSCALL_MAX)].

Definition sysmon_codes : list (string * Z) := sysmon_codes_1 ++ sysmon_codes_2 ++ sysmon_codes_3.

Lemma sysmon_codes_consecutive : sysmon_codes.*2 = seqZ 0 (Z.of_nat (length sysmon_codes)).
Proof. vm_compute. reflexivity. Qed.
