(* ===== verification/KmodEvent.v ===== *)
(** * Events of the kernel module (kernel/kmod/include/kmod_msg.h,
      kernel/linx_filler.c, the probes of kernel/sysmon_main.c)

    The header of an event with its bytes, the tables that say which arguments
    an event has, the functions that fill them, and the header that a probe
    fills for the task that runs. *)
From S2P Require Import Prelude CString Memory KmodCodes.

#[local] Open Scope Z_scope.

(** ** The header of an event *)
Definition FD_NUM : nat := 12.
Definition FD_NAME_SIZE : nat := 64.
Definition PROC_SIZE : nat := 64.
Definition PP_PROC_SIZE : nat := 64.
Definition MAX_CMDLINE_LEN : nat := 256.
Definition SYSCALL_ENTER : Z := 0.
Definition SYSCALL_EXIT : Z := 1.

Record komd_net_info_t := mk_net_info {
  kn_saddr : Z;
  kn_daddr : Z;
  kn_sport : Z;
  kn_dport : Z;
  kn_protocol : Z;
  kn_direction : Z
}.

Record event_header_t := mk_event_header {
  ke_ts : Z;
  ke_type : Z;
  ke_syscall_nr : Z;
  ke_pid : Z;
  ke_tid : Z;
  ke_user : Z;
  ke_len : Z;
  ke_ppid : Z;
  ke_res : Z;
  ke_net : komd_net_info_t;
  ke_net_flag : Z;
  ke_proc : list Z;
  ke_pp_proc : list Z;
  ke_cmdline : list Z;
  ke_fd_val : list Z
}.

(** [sizeof(struct event_header)]: three bytes before [fd_val] and four behind
    it align the members and the structure. *)
Definition EVENT_HEADER_SIZE : Z := 496.

Definition set_len (n : Z) (e : event_header_t) : event_header_t :=
  mk_event_header (ke_ts e) (ke_type e) (ke_syscall_nr e) (ke_pid e) (ke_tid e) (ke_user e) n (ke_ppid e) (ke_res e)
    (ke_net e) (ke_net_flag e) (ke_proc e) (ke_pp_proc e) (ke_cmdline e) (ke_fd_val e).

Definition set_net (n : komd_net_info_t) (flag : Z) (e : event_header_t) : event_header_t :=
  mk_event_header (ke_ts e) (ke_type e) (ke_syscall_nr e) (ke_pid e) (ke_tid e) (ke_user e) (ke_len e) (ke_ppid e)
    (ke_res e) n flag (ke_proc e) (ke_pp_proc e) (ke_cmdline e) (ke_fd_val e).

Definition set_fd_val (fds : list Z) (e : event_header_t) : event_header_t :=
  mk_event_header (ke_ts e) (ke_type e) (ke_syscall_nr e) (ke_pid e) (ke_tid e) (ke_user e) (ke_len e) (ke_ppid e)
    (ke_res e) (ke_net e) (ke_net_flag e) (ke_proc e) (ke_pp_proc e) (ke_cmdline e) fds.

(** *** Its bytes *)
Definition encode_net (n : komd_net_info_t) : list Z :=
  le_split 4 (kn_saddr n) ++ le_split 4 (kn_daddr n) ++ le_split 2 (kn_sport n) ++ le_split 2 (kn_dport n)
  ++ le_split 1 (kn_protocol n) ++ le_split 1 (kn_direction n) ++ le_split 2 0.

Definition encode_event (e : event_header_t) : list Z :=
  le_split 8 (ke_ts e) ++ le_split 4 (ke_type e) ++ le_split 4 (ke_syscall_nr e) ++ le_split 4 (ke_pid e)
  ++ le_split 4 (ke_tid e) ++ le_split 4 (ke_user e) ++ le_split 4 (ke_len e) ++ le_split 4 (ke_ppid e)
  ++ le_split 4 (ke_res e) ++ encode_net (ke_net e) ++ le_split 1 (ke_net_flag e)
  ++ ke_proc e ++ ke_pp_proc e ++ ke_cmdline e ++ le_split 3 0 ++ concat (le_split 4 <$> ke_fd_val e) ++ le_split 4 0.

Fixpoint le_join (l : list Z) : Z :=
  match l with [] => 0 | b :: l => b + 256 * le_join l end.

(** Reading a member off the front. *)
Definition get_u (n : nat) (l : list Z) : Z * list Z := (le_join (take n l), drop n l).
Definition get_chars (n : nat) (l : list Z) : list Z * list Z := (take n l, drop n l).

Fixpoint get_ints (count : nat) (l : list Z) : list Z * list Z :=
  match count with
  | O => ([], l)
  | S count => let '(x, l) := get_u 4 l in let '(xs, l) := get_ints count l in (sext 32 x :: xs, l)
  end.

Definition decode_net (l : list Z) : komd_net_info_t * list Z :=
  let '(saddr, l) := get_u 4 l in let '(daddr, l) := get_u 4 l in let '(sport, l) := get_u 2 l in
  let '(dport, l) := get_u 2 l in let '(protocol, l) := get_u 1 l in let '(direction, l) := get_u 1 l in
  let '(_, l) := get_u 2 l in (mk_net_info saddr daddr sport dport protocol direction, l).

Definition decode_event (l : list Z) : event_header_t :=
  let '(ts, l) := get_u 8 l in let '(type, l) := get_u 4 l in let '(syscall_nr, l) := get_u 4 l in
  let '(pid, l) := get_u 4 l in let '(tid, l) := get_u 4 l in let '(user, l) := get_u 4 l in
  let '(len, l) := get_u 4 l in let '(ppid, l) := get_u 4 l in let '(res, l) := get_u 4 l in
  let '(net, l) := decode_net l in let '(net_flag, l) := get_u 1 l in
  let '(proc, l) := get_chars PROC_SIZE l in let '(pp_proc, l) := get_chars PP_PROC_SIZE l in
  let '(cmdline, l) := get_chars MAX_CMDLINE_LEN l in let '(_, l) := get_u 3 l in
  let '(fds, _) := get_ints FD_NUM l in
  mk_event_header ts type syscall_nr pid tid user len ppid (sext 32 res) net net_flag proc pp_proc cmdline fds.

(** The members hold what their types can. *)
Definition byte_ok (b : Z) : Prop := 0 ≤ b < 256.
Definition fits (bits z : Z) : Prop := 0 ≤ z < 2 ^ bits.
Definition int_ok (z : Z) : Prop := - 2 ^ 31 ≤ z < 2 ^ 31.
Definition chars_ok (n : nat) (l : list Z) : Prop := length l = n ∧ Forall byte_ok l.

Definition net_ok (n : komd_net_info_t) : Prop :=
  fits 32 (kn_saddr n) ∧ fits 32 (kn_daddr n) ∧ fits 16 (kn_sport n) ∧ fits 16 (kn_dport n)
  ∧ fits 8 (kn_protocol n) ∧ fits 8 (kn_direction n).

Record event_ok (e : event_header_t) : Prop := {
  eo_ts : fits 64 (ke_ts e);
  eo_type : fits 32 (ke_type e);
  eo_nr : fits 32 (ke_syscall_nr e);
  eo_pid : fits 32 (ke_pid e);
  eo_tid : fits 32 (ke_tid e);
  eo_user : fits 32 (ke_user e);
  eo_len : fits 32 (ke_len e);
  eo_ppid : fits 32 (ke_ppid e);
  eo_res : int_ok (ke_res e);
  eo_net : net_ok (ke_net e);
  eo_flag : fits 8 (ke_net_flag e);
  eo_proc : chars_ok PROC_SIZE (ke_proc e);
  eo_pp_proc : chars_ok PP_PROC_SIZE (ke_pp_proc e);
  eo_cmdline : chars_ok MAX_CMDLINE_LEN (ke_cmdline e);
  eo_fds : length (ke_fd_val e) = FD_NUM ∧ Forall int_ok (ke_fd_val e)
}.

(** ** The tables of arguments (linx_event_table.c, linx_syscall_table.c,
    linx_fillers_table.c) *)
Inductive sysmon_param_type :=
  | PT_NONE | PT_INT8 | PT_INT16 | PT_INT32 | PT_INT64 | PT_UINT8 | PT_UINT16 | PT_UINT32 | PT_UINT64 | PT_CHARBUF.

Record sysmon_event_info := mk_event_info { ei_name : string; ei_params : list (string * sysmon_param_type) }.

Definition event_infos : list (Z * sysmon_event_info) :=
  [(SYSMON_GENERIC_E, mk_event_info "syscall" [("id", PT_UINT32)]);
   (SYSMON_GENERIC_X, mk_event_info "syscall" [("res", PT_INT32)]);
   (SYSMON_SYSCALL_OPEN_E, mk_event_info "open" [("name", PT_CHARBUF); ("flags", PT_UINT32); ("mode", PT_INT32)]);
   (SYSMON_SYSCALL_OPEN_X, mk_event_info "open" [("name", PT_CHARBUF); ("flags", PT_UINT32); ("mode", PT_INT32)]);
   (SYSMON_SYSCALL_CLOSE_E, mk_event_info "close" [("fd", PT_INT64)]);
   (SYSMON_SYSCALL_CLOSE_X, mk_event_info "close" [("res", PT_INT32)]);
   (SYSMON_SYSCALL_READ_E, mk_event_info "read" [("fd", PT_INT64); ("size", PT_UINT32)]);
   (SYSMON_SYSCALL_READ_X, mk_event_info "read" [("data", PT_CHARBUF); ("fd", PT_INT32); ("size", PT_INT32)]);
   (SYSMON_SYSCALL_WRITE_E, mk_event_info "write" [("fd", PT_INT64); ("size", PT_UINT32)]);
   (SYSMON_SYSCALL_WRITE_X, mk_event_info "write" [("data", PT_CHARBUF); ("fd", PT_INT32); ("size", PT_INT32)]);
   (SYSMON_SYSCALL_UNLINK_E, mk_event_info "unlink" [("path", PT_CHARBUF)]);
   (SYSMON_SYSCALL_UNLINK_X, mk_event_info "unlink" [("res", PT_INT32)]);
   (SYSMON_SYSCALL_UNLINKAT_E, mk_event_info "unlinkat" [("dirfd", PT_INT32); ("path", PT_CHARBUF)]);
   (SYSMON_SYSCALL_UNLINKAT_X, mk_event_info "unlinkat" [("res", PT_INT32)])].

(** The array ends at its last initialiser and is zero between them. *)
Definition g_event_info (code : Z) : option sysmon_event_info :=
  if (0 <=? code) && (code <=? SYSMON_SYSCALL_UNLINKAT_X)
  then Some (from_option snd (mk_event_info "" []) (List.find (λ x, x.1 =? code) event_infos)) else None.

Definition SC_UF_USED : Z := 2.
Definition SC_UF_NEVER_DROP : Z := 4.

Record syscall_evt_pair := mk_evt_pair { ep_flags : Z; ep_enter_event_type : Z; ep_exit_event_type : Z }.

Definition NR_read : Z := 0.
Definition NR_write : Z := 1.
Definition NR_open : Z := 2.
Definition NR_close : Z := 3.
Definition NR_socket : Z := 41.
Definition NR_connect : Z := 42.
Definition NR_accept : Z := 43.
Definition NR_sendto : Z := 44.
Definition NR_recvfrom : Z := 45.
Definition NR_sendmsg : Z := 46.
Definition NR_recvmsg : Z := 47.
Definition NR_bind : Z := 49.
Definition NR_listen : Z := 50.
Definition NR_clone : Z := 56.
Definition NR_execve : Z := 59.
Definition NR_unlink : Z := 87.
Definition NR_openat : Z := 257.
Definition NR_unlinkat : Z := 263.

Definition syscall_pairs : list (Z * syscall_evt_pair) :=
  [(NR_open, mk_evt_pair (Z.lor SC_UF_USED SC_UF_NEVER_DROP) SYSMON_SYSCALL_OPEN_E SYSMON_SYSCALL_OPEN_X);
   (NR_openat, mk_evt_pair (Z.lor SC_UF_USED SC_UF_NEVER_DROP) SYSMON_SYSCALL_OPEN_E SYSMON_SYSCALL_OPEN_X);
   (NR_unlink, mk_evt_pair (Z.lor SC_UF_USED SC_UF_NEVER_DROP) SYSMON_SYSCALL_UNLINK_E SYSMON_SYSCALL_UNLINK_X);
   (NR_unlinkat, mk_evt_pair (Z.lor SC_UF_USED SC_UF_NEVER_DROP) SYSMON_SYSCALL_UNLINKAT_E SYSMON_SYSCALL_UNLINKAT_X)].

Definition g_syscall_table (nr : Z) : option syscall_evt_pair :=
  if (0 <=? nr) && (nr <=? NR_unlinkat)
  then Some (from_option snd (mk_evt_pair 0 0 0) (List.find (λ x, x.1 =? nr) syscall_pairs)) else None.

Inductive filler := f_sys_params_e_1 | f_sys_params_x_1 | f_sys_open_e | f_sys_open_x.

(** Every other code of the enumeration has [f_sys_params_e_1]. *)
Definition g_sysmon_events (code : Z) : option filler :=
  if (0 <=? code) && (code <? SYSMON_SYSCALL_MAX)
  then Some (if code =? SYSMON_SYSCALL_OPEN_E then f_sys_open_e
             else if code =? SYSMON_SYSCALL_OPEN_X then f_sys_open_x else f_sys_params_e_1)
  else None.

(** ** Filling the arguments (linx_filler.c) *)
Record event_filler_arguments := mk_filler_arguments {
  fa_syscall_nr : Z;
  fa_buffer : memory;
  fa_curarg : Z;
  fa_nargs : Z;
  fa_arg_data_offset : Z;
  fa_arg_data_size : Z;
  fa_event_type : Z;
  fa_args : list Z;
  fa_args_len : list Z
}.

(** What the kernel holds and answers while a probe runs: the memory of the
    user, the addresses a user may name, the strings of the kernel, the
    descriptor tables' sockets and the bytes [access_process_vm] copies. *)
Record inet_sock := mk_inet_sock {
  is_protocol : Z;
  is_family : Z;
  is_saddr : Z;
  is_daddr : Z;
  is_sport : Z;
  is_dport : Z
}.

Record kmod_env := mk_kmod_env {
  user_memory : memory;
  access_ok : Z → Z → bool;
  kernel_string : Z → list Z;
  sockfd_lookup : Z → option (option inet_sock);
  access_process_vm : Z → Z → list Z;
  ktime_get_real_ns : Z
}.

Fixpoint read_bytes (m : memory) (a : Z) (n : nat) : option (list Z) :=
  match n with
  | O => Some []
  | S n => b ← m !! a; l ← read_bytes m (a + 1) n; Some (b :: l)
  end.

(** The bytes of a chunk up to its NUL, and whether it has one. *)
Fixpoint chunk_scan (bs : list Z) : nat * bool :=
  match bs with
  | [] => (0%nat, false)
  | b :: bs => if b =? 0 then (1%nat, true) else let '(n, found) := chunk_scan bs in (S n, found)
  end.

Section fillers.
Context (k : kmod_env).

(** Chunks of four bytes until a NUL or until [n] bytes are copied; each pass
    takes a byte at least, so [n] is enough fuel.  The result is the length or
    -1, and what was written; a chunk that faults counts as not written. *)
Fixpoint strncpy_loop (fuel : nat) (from : Z) (n bytes_to_read : nat) (string_length : Z) (written : list Z)
    : Z * list Z :=
  match fuel with
  | O => (string_length, written)
  | S fuel =>
      if (n =? 0)%nat then (string_length, written)
      else
        let bytes_to_read := if (n <? bytes_to_read)%nat then n else bytes_to_read in
        if negb (access_ok k from (Z.of_nat bytes_to_read)) then (-1, written)
        else match read_bytes (user_memory k) from bytes_to_read with
        | None => (-1, written)
        | Some bs =>
            let '(count, found) := chunk_scan bs in
            let string_length := string_length + Z.of_nat count in
            if found then (string_length, written ++ bs)
            else strncpy_loop fuel (from + Z.of_nat bytes_to_read) (n - bytes_to_read) bytes_to_read string_length
                   (written ++ bs)
        end
  end.

Definition ppm_strncpy_from_user (from : Z) (n : nat) : Z * list Z := strncpy_loop n from n 4 0 [].

(** The value [len] and the buffer for a parameter of a type; [None] where the
    function returns -1. *)
Definition param_to_ring (type : sysmon_param_type) (val : Z) (fromuser : bool) (a : event_filler_arguments)
    : option (Z * memory) :=
  let max_arg_size := fa_arg_data_size a in
  let here := fa_arg_data_offset a in
  match type with
  | PT_CHARBUF =>
      if val =? 0 then Some (0, fa_buffer a)
      else if fromuser then
        let '(len, bs) := ppm_strncpy_from_user val (Z.to_nat max_arg_size) in
        let buf := write_bytes (fa_buffer a) here bs in
        if len <? 0 then Some (0, buf) else Some (len, <[here + max_arg_size - 1 := 0]> buf)
      else
        let s := kernel_string k val in
        if Z.of_nat (length s) <? max_arg_size then
          Some (Z.of_nat (length s) + 1, write_bytes (fa_buffer a) here (s ++ [0]))
        else Some (max_arg_size, write_bytes (fa_buffer a) here (take (Z.to_nat max_arg_size - 1) s ++ [0]))
  | PT_UINT32 =>
      if 4 <=? max_arg_size then Some (4, write_bytes (fa_buffer a) here (le_split 4 val)) else None
  | _ => Some (-1, fa_buffer a)
  end.

Definition val_to_ring (val : Z) (fromuser : bool) (a : event_filler_arguments)
    : outcome (Z * event_filler_arguments) :=
  if fa_nargs a <=? fa_curarg a then mret (-1, a)
  else if fa_arg_data_size a =? 0 then mret (-1, a)
  else
    info ← from_opt OutOfBounds (g_event_info (fa_event_type a));
    '(_, type) ← from_opt OutOfBounds (ei_params info !! Z.to_nat (fa_curarg a));
    match param_to_ring type val fromuser a with
    | None => mret (-1, a)
    | Some (len, buf) =>
        mret (0, mk_filler_arguments (fa_syscall_nr a) buf (fa_curarg a + 1) (fa_nargs a)
                   (wrap 32 (fa_arg_data_offset a + len)) (wrap 32 (fa_arg_data_size a - len)) (fa_event_type a)
                   (fa_args a) (<[Z.to_nat (fa_curarg a) := wrap 32 len]> (fa_args_len a)))
    end.

Definition nth_arg (n : nat) (a : event_filler_arguments) : Z := default 0 (fa_args a !! n).

(** The answer for the flags is not looked at. *)
Definition run_f_sys_open_e (a : event_filler_arguments) : outcome (Z * event_filler_arguments) :=
  '(res, a) ← val_to_ring (nth_arg 1 a) true a;
  if negb (res =? 0) then mret (res, a)
  else '(_, a) ← val_to_ring (nth_arg 2 a) false a; val_to_ring (nth_arg 3 a) false a.

Definition filler_callback (f : filler) (a : event_filler_arguments) : outcome (Z * event_filler_arguments) :=
  match f with
  | f_sys_open_e => run_f_sys_open_e a
  | f_sys_open_x | f_sys_params_e_1 | f_sys_params_x_1 => mret (0, a)
  end.

(** The pair is that of system call 257 whatever the event is. *)
Definition linx_get_params (a : event_filler_arguments) (evt : event_header_t) (buflen : Z)
    : outcome (Z * event_filler_arguments) :=
  pair ← from_opt OutOfBounds (g_syscall_table 257);
  let stop := mk_filler_arguments (fa_syscall_nr a) (fa_buffer a) (fa_curarg a) (fa_nargs a) 0 0 (fa_event_type a)
                (fa_args a) (fa_args_len a) in
  if Z.land (ep_flags pair) SC_UF_USED =? 0 then mret (-1, stop)
  else
    let event_type := if ke_type evt =? SYSCALL_ENTER then ep_enter_event_type pair else ep_exit_event_type pair in
    info ← from_opt OutOfBounds (g_event_info event_type);
    f ← from_opt OutOfBounds (g_sysmon_events event_type);
    filler_callback f
      (mk_filler_arguments (ke_syscall_nr evt) (fa_buffer a) 0 (Z.of_nat (length (ei_params info))) 0 buflen event_type
         (fa_args a) (fa_args_len a)).
End fillers.

(** ** The header a probe fills (sysmon_main.c) *)

(** [kt_files] lists the descriptor table: no file, a file whose path is not
    found, or its path.  Strings of the kernel are bytes without a NUL;
    [kt_user] is what [from_kuid] answers. *)
Record kmod_task := mk_kmod_task {
  kt_tgid : Z;
  kt_pid : Z;
  kt_comm : list Z;
  kt_real_parent : option (Z * list Z);
  kt_user : Z;
  kt_mm : option (Z * Z);
  kt_find_vpid : bool;
  kt_pid_task : bool;
  kt_files : option (list (option (option (list Z))))
}.

Definition bytes_of (s : string) : list Z := code <$> String.list_ascii_of_string s.

(** [strncpy(dst, src, n)]: what [dst] holds. *)
Definition strncpy_bytes (dst src : list Z) (n : nat) : list Z :=
  take n (src ++ replicate n 0) ++ drop n dst.

Definition NUL_to_space (b : Z) : Z := if b =? 0 then 32 else b.

(** The array and the depth of read-side critical sections, which the jump
    after a short copy does not leave. *)
Definition linx_get_cmdline (k : kmod_env) (task : kmod_task) (cmdline : list Z) (cmdlen : Z) (rcu : Z)
    : outcome (list Z * Z) :=
  let empty := strncpy_bytes cmdline (bytes_of "<NA>") (Z.to_nat cmdlen) in
  if negb (kt_find_vpid task) then mret (empty, rcu)
  else if negb (kt_pid_task task) then mret (empty, rcu)
  else
    '(arg_start, arg_end) ← from_opt NullDeref (kt_mm task);
    let len := sext 32 (arg_end - arg_start) in
    let len := if cmdlen <? wrap 64 len then cmdlen - 1 else len in
    let copied := access_process_vm k arg_start len in
    if negb (Z.of_nat (length copied) =? len) then mret (empty, rcu + 1)
    else mret (strncpy_bytes cmdline (NUL_to_space <$> copied) (Z.to_nat len), rcu).

Definition linx_trace_syscall (id : Z) : bool :=
  (id =? NR_unlink) || (id =? NR_unlinkat) || (id =? NR_open) || (id =? NR_openat).

Definition linx_net_syscall (id : Z) : bool :=
  (id =? NR_socket) || (id =? NR_connect) || (id =? NR_bind) || (id =? NR_listen) || (id =? NR_sendto)
  || (id =? NR_sendmsg) || (id =? NR_recvfrom) || (id =? NR_recvmsg).

Definition AF_INET : Z := 2.
Definition ntohs (x : Z) : Z := wrap 16 (Z.lor (Z.shiftl x 8) (Z.shiftr x 8)).

Definition linx_get_socketcall_info (sk : option inet_sock) (n : komd_net_info_t) : komd_net_info_t :=
  match sk with
  | None => n
  | Some sk =>
      if is_family sk =? AF_INET
      then mk_net_info (is_saddr sk) (is_daddr sk) (ntohs (is_sport sk)) (ntohs (is_dport sk))
             (wrap 8 (is_protocol sk)) (kn_direction n)
      else mk_net_info (kn_saddr n) (kn_daddr n) (kn_sport n) (kn_dport n) (wrap 8 (is_protocol sk)) (kn_direction n)
  end.

(** The socket of a descriptor, if there is one: direction 1. *)
Definition net_of_fd (k : kmod_env) (fd : Z) (evt : event_header_t) : event_header_t :=
  match sockfd_lookup k fd with
  | None => evt
  | Some sk =>
      let n := ke_net evt in
      let n := mk_net_info (kn_saddr n) (kn_daddr n) (kn_sport n) (kn_dport n) (kn_protocol n) 1 in
      set_net (linx_get_socketcall_info sk n) 1 evt
  end.

Definition linx_net_info (k : kmod_env) (args : list Z) (syscall_nr : Z) (evt : event_header_t) : event_header_t :=
  let fd := sext 32 (default 0 (args !! 0%nat)) in
  if syscall_nr =? NR_socket then
    let n := ke_net evt in
    set_net (mk_net_info (kn_saddr n) (kn_daddr n) (kn_sport n) (kn_dport n) (wrap 8 (default 0 (args !! 2%nat)))
               (kn_direction n)) 1 evt
  else if (syscall_nr =? NR_connect) || (syscall_nr =? NR_accept) then net_of_fd k fd evt
  else if (syscall_nr =? NR_bind) || (syscall_nr =? NR_listen) then
    if ke_type evt =? SYSCALL_ENTER then net_of_fd k fd evt else evt
  else if (syscall_nr =? NR_sendto) || (syscall_nr =? NR_sendmsg) then net_of_fd k fd evt
  else evt.

Definition zero_chars (n : nat) : list Z := replicate n 0.

(** The part that both probes share: what they know of the task. *)
Definition probe_header (k : kmod_env) (task : kmod_task) (id type res rcu : Z) : outcome (event_header_t * Z) :=
  let '(ppid, pp_proc) :=
    match kt_real_parent task with
    | None => (0, zero_chars PP_PROC_SIZE)
    | Some (pid, comm) => (pid, strncpy_bytes (zero_chars PP_PROC_SIZE) comm (PP_PROC_SIZE - 1))
    end in
  let proc := strncpy_bytes (zero_chars PROC_SIZE) (kt_comm task) (PROC_SIZE - 1) in
  '(cmdline, rcu) ← linx_get_cmdline k task (zero_chars MAX_CMDLINE_LEN) (Z.of_nat MAX_CMDLINE_LEN - 1) rcu;
  mret (mk_event_header (ktime_get_real_ns k) type (wrap 32 id) (kt_tgid task) (kt_pid task) (kt_user task) 0 ppid
          (sext 32 res) (mk_net_info 0 0 0 0 0 0) 0 proc pp_proc cmdline (replicate FD_NUM 0), rcu).

(** [linx_get_fd_name]: the names, the numbers written into [fd] and whether a
    descriptor was seen.  The number is stored before the count is compared,
    so a thirteenth one is written behind the array. *)
Fixpoint fd_loop (files : list (option (option (list Z)))) (i j rows : nat) (names : list (list Z)) (fd : list Z)
    (seen : bool) : outcome (list (list Z) * list Z * bool) :=
  match files with
  | [] => mret (names, fd, seen)
  | None :: files | Some None :: files => fd_loop files (S i) j rows names fd seen
  | Some (Some name) :: files =>
      if (rows <? i)%nat then mret (names, fd, seen)
      else
        _ ← (if (j <? FD_NUM)%nat then mret () else overflow);
        let fd := <[j := Z.of_nat i]> fd in
        if (j <? FD_NUM)%nat then fd_loop files (S i) (S j) rows (<[j := name]> names) fd true
        else fd_loop files (S i) j rows names fd true
  end.

Definition linx_get_fd_name (files : list (option (option (list Z)))) (names : list (list Z)) (rows : nat)
    (fd : list Z) : outcome (list (list Z) * list Z) :=
  '(names, fd, seen) ← fd_loop files 0 0 rows names fd false;
  let names : list (list Z) := if seen : bool then names else <[0%nat := bytes_of "<NA>"]> names in
  mret (names, fd).

(** ** Lemmas *)
Lemma le_join_split n z : le_join (le_split n z) = z `mod` 256 ^ Z.of_nat n.
Proof.
  revert z. induction n as [|n IH]; intros z; cbn [le_split le_join]; [by rewrite Z.mod_1_r|].
  rewrite IH, Nat2Z.inj_succ, Z.pow_succ_r by lia. rewrite Z.rem_mul_r by lia. lia.
Qed.

Lemma get_u_split n z l : 0 ≤ z < 256 ^ Z.of_nat n → get_u n (le_split n z ++ l) = (z, l).
Proof.
  intros Hz. unfold get_u. rewrite take_app_length', drop_app_length' by (by rewrite le_split_length).
  by rewrite le_join_split, Z.mod_small.
Qed.

Lemma get_s_split z l : int_ok z → get_u 4 (le_split 4 z ++ l) = (wrap 32 z, l).
Proof.
  intros Hz. unfold get_u. rewrite take_app_length', drop_app_length' by (by rewrite le_split_length).
  by rewrite le_join_split.
Qed.

Lemma get_chars_app n (c l : list Z) : length c = n → get_chars n (c ++ l) = (c, l).
Proof. intros Hc. unfold get_chars. by rewrite take_app_length', drop_app_length'. Qed.

Lemma sext_int z : int_ok z → sext 32 (wrap 32 z) = z.
Proof. intros Hz. rewrite sext_wrap. apply sext_small; [lia|exact Hz]. Qed.

Lemma get_ints_split l rest :
  Forall int_ok l → get_ints (length l) (concat (le_split 4 <$> l) ++ rest) = (l, rest).
Proof.
  induction 1 as [|x l Hx _ IH]; cbn [length get_ints fmap list_fmap concat]; [done|].
  rewrite <- app_assoc, get_s_split by done. by rewrite IH, sext_int.
Qed.

Lemma decode_net_encode n l : net_ok n → decode_net (encode_net n ++ l) = (n, l).
Proof.
  intros (?&?&?&?&?&?). unfold decode_net, encode_net. rewrite <- !app_assoc.
  repeat (rewrite get_u_split by (assumption || lia)). by destruct n.
Qed.

Lemma decode_encode e : event_ok e → decode_event (encode_event e) = e.
Proof.
  intros [? ? ? ? ? ? ? ? ? ? ? [Hp _] [Hpp _] [Hc _] [Hf Hi]]. unfold decode_event, encode_event.
  repeat (rewrite get_u_split by assumption). rewrite get_s_split by assumption.
  rewrite decode_net_encode by assumption. rewrite get_u_split by assumption.
  rewrite !get_chars_app by assumption. rewrite get_u_split by lia.
  rewrite <- Hf, get_ints_split, sext_int by assumption. by destruct e.
Qed.

Lemma encode_event_length e :
  length (ke_proc e) = PROC_SIZE → length (ke_pp_proc e) = PP_PROC_SIZE → length (ke_cmdline e) = MAX_CMDLINE_LEN →
  length (ke_fd_val e) = FD_NUM → length (encode_event e) = Z.to_nat EVENT_HEADER_SIZE.
Proof.
  intros Hp Hpp Hc Hf. unfold encode_event, encode_net.
  assert (length (concat (le_split 4 <$> ke_fd_val e)) = 48%nat) as Hi.
  { change 48%nat with (4 * 12)%nat. change 12%nat with FD_NUM. rewrite <- Hf. clear.
    induction (ke_fd_val e) as [|x l IH]; cbn [fmap list_fmap concat length]; [done|].
    rewrite length_app, le_split_length. fold (fmap (M:=list) (le_split 4) l). lia. }
  rewrite !length_app, !le_split_length, Hp, Hpp, Hc, Hi. done.
Qed.

Lemma event_ok_length e : event_ok e → length (encode_event e) = Z.to_nat EVENT_HEADER_SIZE.
Proof. intros He. apply encode_event_length; apply He. Qed.

Lemma set_len_ok n e : fits 32 n → event_ok e → event_ok (set_len n e).
Proof. intros Hn []. by constructor. Qed.

Lemma strncpy_bytes_length dst src n : (n ≤ length dst)%nat → length (strncpy_bytes dst src n) = length dst.
Proof. intros Hn. unfold strncpy_bytes. rewrite length_app, length_take, length_app, length_replicate, length_drop. lia. Qed.

Lemma zero_chars_ok n : chars_ok n (zero_chars n).
Proof.
  split; [apply length_replicate|]. apply Forall_replicate. unfold byte_ok. lia.
Qed.

Lemma strncpy_bytes_ok size dst src n :
  (n ≤ size)%nat → Forall byte_ok src → chars_ok size dst → chars_ok size (strncpy_bytes dst src n).
Proof.
  intros Hn Hs [Hl Hd]. split; [by rewrite strncpy_bytes_length; lia|].
  unfold strncpy_bytes. apply Forall_app. split; [|by apply Forall_drop].
  apply Forall_take, Forall_app. split; [done|]. apply zero_chars_ok.
Qed.

(** *** Probes *)
Lemma trace_not_net id : linx_trace_syscall id = true → linx_net_syscall id = false.
Proof.
  unfold linx_trace_syscall. rewrite !orb_true_iff, !Z.eqb_eq.
  by intros [[[-> | ->] | ->] | ->].
Qed.

(** What the kernel guarantees of a task and of its own answers. *)
Record task_ok (k : kmod_env) (task : kmod_task) : Prop := {
  to_tgid : fits 32 (kt_tgid task);
  to_pid : fits 32 (kt_pid task);
  to_user : fits 32 (kt_user task);
  to_comm : Forall byte_ok (kt_comm task);
  to_parent pid comm : kt_real_parent task = Some (pid, comm) → fits 32 pid ∧ Forall byte_ok comm;
  to_mm : is_Some (kt_mm task);
  to_copied a len : Z.of_nat (length (access_process_vm k a len)) ≤ Z.max 0 len ∧
    Forall byte_ok (access_process_vm k a len);
  to_time : fits 64 (ktime_get_real_ns k)
}.

Lemma na_ok : Forall byte_ok (bytes_of "<NA>").
Proof.
  change (bytes_of "<NA>") with [60; 78; 65; 62]. unfold byte_ok. repeat (apply Forall_cons; split; [lia|]).
  by apply Forall_nil.
Qed.

Lemma NUL_to_space_ok l : Forall byte_ok l → Forall byte_ok (NUL_to_space <$> l).
Proof.
  intros Hl. apply Forall_fmap. eapply Forall_impl; [exact Hl|]. intros b Hb. cbn. unfold NUL_to_space, byte_ok in *.
  destruct (b =? 0); lia.
Qed.

(** The length that is asked for fits the local array. *)
Lemma cmdline_len_bound z cmdlen :
  0 < cmdlen < 2 ^ 31 →
  let len := if cmdlen <? wrap 64 (sext 32 z) then cmdlen - 1 else sext 32 z in 0 ≤ len ≤ cmdlen.
Proof.
  intros Hc. cbn zeta. pose proof (sext_range 32 z ltac:(lia)) as Hs.
  destruct (Z.ltb_spec cmdlen (wrap 64 (sext 32 z))) as [|Hw]; [lia|].
  assert (0 ≤ sext 32 z) as H0; [|rewrite wrap_small in Hw by lia; lia].
  destruct (decide (0 ≤ sext 32 z)) as [|Hn]; [done|]. exfalso.
  assert (wrap 64 (sext 32 z) = sext 32 z + 2 ^ 64) as Hw'; [|lia].
  unfold wrap. symmetry. apply Z.mod_unique with (-1); lia.
Qed.

Lemma linx_get_cmdline_ok k task rcu :
  task_ok k task → ∃ cmdline rcu',
    linx_get_cmdline k task (zero_chars MAX_CMDLINE_LEN) (Z.of_nat MAX_CMDLINE_LEN - 1) rcu = Ret [] (cmdline, rcu')
    ∧ chars_ok MAX_CMDLINE_LEN cmdline.
Proof.
  intros [_ _ _ _ _ [[s e] Hmm] Hcopy _]. unfold linx_get_cmdline.
  change (Z.of_nat MAX_CMDLINE_LEN - 1) with 255.
  assert (chars_ok MAX_CMDLINE_LEN (strncpy_bytes (zero_chars MAX_CMDLINE_LEN) (bytes_of "<NA>") (Z.to_nat 255))) as Hna.
  { apply strncpy_bytes_ok; [by vm_compute; lia|apply na_ok|apply zero_chars_ok]. }
  destruct (kt_find_vpid task); cbn [negb]; [|by eauto].
  destruct (kt_pid_task task); cbn [negb]; [|by eauto].
  rewrite Hmm. cbn [from_opt]. rewrite bind_ret_l.
  pose proof (cmdline_len_bound (e - s) 255 ltac:(lia)) as Hb. cbn zeta in Hb.
  set (len := if 255 <? _ then _ else _) in *.
  destruct (Hcopy s len) as [Hl Hbytes].
  destruct (_ =? len); cbn [negb]; [|by eauto].
  eexists _, _. split; [done|]. apply strncpy_bytes_ok; [unfold MAX_CMDLINE_LEN; lia|by apply NUL_to_space_ok|apply zero_chars_ok].
Qed.

Lemma parent_ok k task pid comm :
  task_ok k task →
  match kt_real_parent task with
  | None => (0, zero_chars PP_PROC_SIZE)
  | Some (pid, comm) => (pid, strncpy_bytes (zero_chars PP_PROC_SIZE) comm (PP_PROC_SIZE - 1))
  end = (pid, comm) → fits 32 pid ∧ chars_ok PP_PROC_SIZE comm.
Proof.
  intros Ht. pose proof (to_parent k task Ht) as Hp.
  destruct (kt_real_parent task) as [[pid' comm']|]; intros [= <- <-].
  - destruct (Hp _ _ eq_refl). split; [done|].
    apply strncpy_bytes_ok; [unfold PP_PROC_SIZE; lia|done|apply zero_chars_ok].
  - split; [unfold fits; lia|apply zero_chars_ok].
Qed.

Lemma probe_header_ok k task id type res rcu :
  task_ok k task → fits 32 type →
  ∃ e rcu', probe_header k task id type res rcu = Ret [] (e, rcu') ∧ event_ok e.
Proof.
  intros Ht Hty. unfold probe_header.
  destruct (match kt_real_parent task with Some _ => _ | None => _ end) as [ppid pp] eqn:Ep.
  destruct (parent_ok k task ppid pp Ht Ep) as [Hpp Hpc].
  destruct (linx_get_cmdline_ok k task rcu Ht) as (cl & rcu' & -> & Hcl). rewrite bind_Ret_nil.
  eexists _, _. split; [done|]. destruct Ht. constructor; cbn [ke_ts ke_type ke_syscall_nr ke_pid ke_tid ke_user ke_len
    ke_ppid ke_res ke_net ke_net_flag ke_proc ke_pp_proc ke_cmdline ke_fd_val]; try done.
  - apply wrap_range. lia.
  - apply (sext_range 32). lia.
  - apply strncpy_bytes_ok; [unfold PROC_SIZE; lia|done|apply zero_chars_ok].
  - split; [done|]. apply Forall_replicate. done.
Qed.
