(* ===== verification/KmodRing.v ===== *)
(** * The ring of the kernel module (kernel/kmod/kernel/sysmon_main.c,
      user/linx_devset.c)

    The module writes events into a ring of 32 KiB that the program of
    kernel/kmod/user maps twice in a row, so that an event that wraps reads as
    one piece.  [linx_record_event] runs on every CPU at once: a counter lets
    one in, and the others leave without an event.  [linx_record_event] is the
    whole call; [cpu_step] is the same code cut where another CPU or the reader
    can come between, and [record_event_solo] shows that they agree.  The
    reader is cut between its two stores of the tail. *)
From S2P Require Import Prelude CString Memory KmodCodes KmodEvent.

#[local] Open Scope Z_scope.

Definition BUFFER_SIZE : Z := 32 * 1024.
Definition PAGE_SIZE : Z := 4096.

(** ** Data *)
Record kmod_ringbuffer_info := mk_ring_info { ri_head : Z; ri_tail : Z; ri_n_evts : Z; ri_n_drop_evts : Z }.

(** [kc_buffer] holds [size] and two pages more. *)
Record kmod_ringbuffer_ctx := mk_ring_ctx {
  kc_info : kmod_ringbuffer_info;
  kc_buffer : memory;
  kc_size : Z;
  kc_preempt_count : Z;
  kc_open : bool
}.

Record kmod_consumer_config := mk_consumer_config { cc_args_enable : Z; cc_fds_enabel : Z; cc_drop_enabel : Z }.

Definition with_info (f : kmod_ringbuffer_info → kmod_ringbuffer_info) (r : kmod_ringbuffer_ctx) : kmod_ringbuffer_ctx :=
  mk_ring_ctx (f (kc_info r)) (kc_buffer r) (kc_size r) (kc_preempt_count r) (kc_open r).
Definition with_buffer (m : memory) (r : kmod_ringbuffer_ctx) : kmod_ringbuffer_ctx :=
  mk_ring_ctx (kc_info r) m (kc_size r) (kc_preempt_count r) (kc_open r).
Definition with_count (n : Z) (r : kmod_ringbuffer_ctx) : kmod_ringbuffer_ctx :=
  mk_ring_ctx (kc_info r) (kc_buffer r) (kc_size r) n (kc_open r).
Definition set_open (b : bool) (r : kmod_ringbuffer_ctx) : kmod_ringbuffer_ctx :=
  mk_ring_ctx (kc_info r) (kc_buffer r) (kc_size r) (kc_preempt_count r) b.

Definition set_head (h : Z) (i : kmod_ringbuffer_info) : kmod_ringbuffer_info :=
  mk_ring_info h (ri_tail i) (ri_n_evts i) (ri_n_drop_evts i).
Definition set_tail (t : Z) (i : kmod_ringbuffer_info) : kmod_ringbuffer_info :=
  mk_ring_info (ri_head i) t (ri_n_evts i) (ri_n_drop_evts i).
Definition set_n_evts (n : Z) (i : kmod_ringbuffer_info) : kmod_ringbuffer_info :=
  mk_ring_info (ri_head i) (ri_tail i) n (ri_n_drop_evts i).
Definition set_n_drop (n : Z) (i : kmod_ringbuffer_info) : kmod_ringbuffer_info :=
  mk_ring_info (ri_head i) (ri_tail i) (ri_n_evts i) n.

Definition zero_buffer (size : Z) : memory := mem_block 0 (replicate (Z.to_nat size) 0).

(** The two allocations may fail. *)
Definition linx_init_ringbuffer (buffer_ok info_ok : bool) (ringlen : Z) : option kmod_ringbuffer_ctx :=
  if buffer_ok && info_ok
  then Some (mk_ring_ctx (mk_ring_info 0 0 0 0) (zero_buffer (ringlen + 2 * PAGE_SIZE)) ringlen 0 false)
  else None.

(** ** Recording an event *)
Definition enter (r : kmod_ringbuffer_ctx) : bool * kmod_ringbuffer_ctx :=
  let count := sext 32 (kc_preempt_count r + 1) in (count =? 1, with_count count r).
Definition leave (r : kmod_ringbuffer_ctx) : kmod_ringbuffer_ctx := with_count (sext 32 (kc_preempt_count r - 1)) r.

(** The comparison reads the tail, and the difference reads it again. *)
Definition tail_ahead (r : kmod_ringbuffer_ctx) : bool := ri_head (kc_info r) <? ri_tail (kc_info r).
Definition free_space (ahead : bool) (r : kmod_ringbuffer_ctx) : Z :=
  let i := kc_info r in
  if ahead then wrap 32 (ri_tail i - ri_head i - 1) else wrap 32 (kc_size r + ri_tail i - ri_head i - 1).

Definition zero_arguments (args : list Z) : event_filler_arguments :=
  mk_filler_arguments 0 ∅ 0 0 0 0 0 args (replicate 8 0).

Definition event_size (k : kmod_env) (cfg : kmod_consumer_config) (evt : event_header_t) (args : list Z) : outcome Z :=
  if negb (cc_args_enable cfg =? 0) then
    '(ret, a) ← linx_get_params k (zero_arguments args) evt 1024;
    mret (if ret <? 0 then EVENT_HEADER_SIZE else wrap 32 (EVENT_HEADER_SIZE + fa_arg_data_offset a))
  else mret EVENT_HEADER_SIZE.

Definition add_fds (cfg : kmod_consumer_config) (task : kmod_task) (evt : event_header_t) : outcome event_header_t :=
  if negb (cc_fds_enabel cfg =? 0) then
    match kt_files task with
    | None => mret evt
    | Some files =>
        '(_, fds) ← linx_get_fd_name files (replicate FD_NUM []) FD_NUM (ke_fd_val evt); mret (set_fd_val fds evt)
    end
  else mret evt.

(** [memcpy] within the buffer. *)
Definition buffer_room (r : kmod_ringbuffer_ctx) : Z := kc_size r + 2 * PAGE_SIZE.
Definition buffer_write (a : Z) (bs : list Z) (r : kmod_ringbuffer_ctx) : outcome kmod_ringbuffer_ctx :=
  if (0 <=? a) && (a + Z.of_nat (length bs) <=? buffer_room r)
  then mret (with_buffer (write_bytes (kc_buffer r) a bs) r) else Ub OutOfBounds.
Definition buffer_read (a : Z) (n : nat) (r : kmod_ringbuffer_ctx) : outcome (list Z) :=
  from_opt OutOfBounds (read_bytes (kc_buffer r) a n).

(** The header only: the arguments are not copied.  The bytes past the size go
    to the front. *)
Definition fill_event (evt : event_header_t) (size : Z) (r : kmod_ringbuffer_ctx)
    : outcome (Z * kmod_ringbuffer_ctx) :=
  let head := ri_head (kc_info r) in
  r ← buffer_write head (encode_event evt) r;
  let next := wrap 32 (head + size) in
  '(next, r) ←
    (if kc_size r <=? next then
       r ← (if kc_size r <? next
            then bs ← buffer_read (kc_size r) (Z.to_nat (next - kc_size r)) r; buffer_write 0 bs r
            else mret r);
       mret (next - kc_size r, r)
     else mret (next, r));
  mret (next, with_info (λ i, set_n_evts (wrap 64 (ri_n_evts i + 1)) i) r).

Definition publish (next : Z) (r : kmod_ringbuffer_ctx) : kmod_ringbuffer_ctx := with_info (set_head next) r.
Definition count_drop (r : kmod_ringbuffer_ctx) : kmod_ringbuffer_ctx :=
  with_info (λ i, set_n_drop (wrap 64 (ri_n_drop_evts i + 1)) i) r.

Definition linx_record_event (k : kmod_env) (cfg : kmod_consumer_config) (task : kmod_task) (args : list Z)
    (evt : event_header_t) (r : kmod_ringbuffer_ctx) : outcome (Z * event_header_t * kmod_ringbuffer_ctx) :=
  let '(first, r) := enter r in
  if negb first then mret (0, evt, leave r)
  else
    let free := free_space (tail_ahead r) r in
    size ← event_size k cfg evt args;
    evt ← add_fds cfg task evt;
    if free <? size then mret (0, set_len 0 evt, count_drop (leave r))
    else
      let evt := set_len size evt in
      '(next, r) ← fill_event evt size r;
      mret (1, evt, leave (publish next r)).

(** ** Reading an event (user/linx_devset.c) *)

(** The buffer is mapped twice; an address past both is not mapped. *)
Definition user_address (r : kmod_ringbuffer_ctx) (u : Z) : option Z :=
  if u <? 0 then None
  else if u <? kc_size r then Some u
  else if u <? 2 * kc_size r then Some (u - kc_size r)
  else None.

Definition user_byte (r : kmod_ringbuffer_ctx) (u : Z) : option Z := a ← user_address r u; kc_buffer r !! a.

Definition user_read (r : kmod_ringbuffer_ctx) (u : Z) (n : nat) : outcome (list Z) :=
  from_opt BadAddress (mapM (λ i, user_byte r (u + Z.of_nat i)) (seq 0 n)).

Definition LEN_OFFSET : Z := 28.

(** Up to the store of the new tail; [None] where the function returns -1.
    The logging calls copy the whole header. *)
Definition next_read (next : Z) (r : kmod_ringbuffer_ctx) : outcome (option (event_header_t * Z)) :=
  if negb (ri_head (kc_info r) =? ri_tail (kc_info r)) then
    len ← user_read r (next + LEN_OFFSET) 4;
    if le_join len =? 0 then mret None
    else
      bs ← user_read r next (Z.to_nat EVENT_HEADER_SIZE);
      mret (Some (decode_event bs, le_join len))
  else mret None.

Definition tail_advance (size : Z) (r : kmod_ringbuffer_ctx) : kmod_ringbuffer_ctx :=
  with_info (λ i, set_tail (wrap 32 (ri_tail i + size)) i) r.
Definition tail_wrap (r : kmod_ringbuffer_ctx) : kmod_ringbuffer_ctx :=
  with_info (λ i, if BUFFER_SIZE <? ri_tail i then set_tail (wrap 32 (ri_tail i - BUFFER_SIZE)) i else i) r.

(** The answer and the event that was logged, [msg_next_event] as an offset
    into the mapping, and the ring. *)
Definition linx_kmod_next (next : Z) (r : kmod_ringbuffer_ctx)
    : outcome (option event_header_t * Z * kmod_ringbuffer_ctx) :=
  read ← next_read next r;
  match read with
  | None => mret (None, next, r)
  | Some (evt, size) => mret (Some evt, next + size, tail_wrap (tail_advance size r))
  end.

(** ** CPUs and the reader together *)
Record probe_call := mk_call { pr_task : kmod_task; pr_args : list Z; pr_evt : event_header_t }.

(** Where a CPU stands in [linx_record_event]. *)
Inductive cpu :=
  | Idle
  | Busy                                       (* the counter was taken *)
  | Inside (c : probe_call)
  | Compared (ahead : bool) (c : probe_call)
  | Measured (free size : Z) (evt : event_header_t)
  | Filled (next : Z) (evt : event_header_t)
  | Published
  | Dropped                                    (* before the counter is released *)
  | Uncounted                                  (* before the count of drops is read *)
  | Counting (n_drop : Z).                     (* before it is written *)

Inductive label := Pushed (evt : event_header_t) | Delivered (evt : event_header_t).

Section interleaving.
Context (k : kmod_env) (cfg : kmod_consumer_config).

Definition cpu_start (c : probe_call) (r : kmod_ringbuffer_ctx) : cpu * kmod_ringbuffer_ctx :=
  let '(first, r) := enter r in (if first then Inside c else Busy, r).

Definition cpu_step (s : cpu) (r : kmod_ringbuffer_ctx) : outcome (cpu * list label * kmod_ringbuffer_ctx) :=
  match s with
  | Idle => mret (Idle, [], r)
  | Busy => mret (Idle, [], leave r)
  | Inside c => mret (Compared (tail_ahead r) c, [], r)
  | Compared ahead c =>
      let free := free_space ahead r in
      size ← event_size k cfg (pr_evt c) (pr_args c);
      evt ← add_fds cfg (pr_task c) (pr_evt c);
      mret (Measured free size evt, [], r)
  | Measured free size evt =>
      if free <? size then mret (Dropped, [], r)
      else let evt := set_len size evt in '(next, r) ← fill_event evt size r; mret (Filled next evt, [], r)
  | Filled next evt => mret (Published, [Pushed evt], publish next r)
  | Published => mret (Idle, [], leave r)
  | Dropped => mret (Uncounted, [], leave r)
  | Uncounted => mret (Counting (ri_n_drop_evts (kc_info r)), [], r)
  | Counting n => mret (Idle, [], with_info (set_n_drop (wrap 64 (n + 1))) r)
  end.

(** A system: the CPUs, the ring, the reader's offset and, between its two
    stores of the tail, what is left to do. *)
Record system := mk_system {
  sy_cpus : list cpu;
  sy_ring : kmod_ringbuffer_ctx;
  sy_next : Z;
  sy_half : bool
}.

(** [Next] is a whole call of [linx_kmod_next]; [NextFirst] ends before the
    tail is wrapped and [NextSecond] goes on there. *)
Inductive action :=
  | Start (i : nat) (c : probe_call)
  | Step (i : nat)
  | Next
  | NextFirst
  | NextSecond.

Definition sys_step (a : action) (s : system) : outcome (list label * system) :=
  match a with
  | Start i c =>
      match sy_cpus s !! i with
      | Some Idle =>
          let '(p, r) := cpu_start c (sy_ring s) in
          mret ([], mk_system (<[i := p]> (sy_cpus s)) r (sy_next s) (sy_half s))
      | _ => mret ([], s)
      end
  | Step i =>
      match sy_cpus s !! i with
      | Some p =>
          '(p, ls, r) ← cpu_step p (sy_ring s);
          mret (ls, mk_system (<[i := p]> (sy_cpus s)) r (sy_next s) (sy_half s))
      | None => mret ([], s)
      end
  | Next =>
      if sy_half s then mret ([], s)
      else
        '(evt, next, r) ← linx_kmod_next (sy_next s) (sy_ring s);
        mret (match evt with Some e => [Delivered e] | None => [] end, mk_system (sy_cpus s) r next false)
  | NextFirst =>
      if sy_half s then mret ([], s)
      else
        read ← next_read (sy_next s) (sy_ring s);
        match read with
        | None => mret ([], s)
        | Some (e, size) =>
            mret ([Delivered e], mk_system (sy_cpus s) (tail_advance size (sy_ring s)) (sy_next s + size) true)
        end
  | NextSecond =>
      if sy_half s then mret ([], mk_system (sy_cpus s) (tail_wrap (sy_ring s)) (sy_next s) false) else mret ([], s)
  end.

Fixpoint sys_run (acts : list action) (s : system) : outcome (list label * system) :=
  match acts with
  | [] => mret ([], s)
  | a :: acts => '(l1, s) ← sys_step a s; '(l2, s) ← sys_run acts s; mret (l1 ++ l2, s)
  end.

(** The reader has stored its tail past the end of the buffer and not yet
    wrapped it. *)
Definition tail_past (s : system) : bool := sy_half s && (BUFFER_SIZE <? ri_tail (kc_info (sy_ring s))).

(** The next step of the CPU reads the tail. *)
Definition reads_tail (p : cpu) : bool := match p with Inside _ | Compared _ _ => true | _ => false end.

Definition calm_step (a : action) (s : system) : bool :=
  match a with
  | Step i => negb (tail_past s && match sy_cpus s !! i with Some p => reads_tail p | None => false end)
  | _ => true
  end.

(** In no step of the run a CPU reads a tail that lies past the end. *)
Fixpoint calm (acts : list action) (s : system) : bool :=
  match acts with
  | [] => true
  | a :: acts => calm_step a s && match sys_step a s with Ret _ (_, s) => calm acts s | _ => true end
  end.
End interleaving.

Definition pushed (ls : list label) : list event_header_t := omap (λ l, match l with Pushed e => Some e | _ => None end) ls.
Definition delivered (ls : list label) : list event_header_t :=
  omap (λ l, match l with Delivered e => Some e | _ => None end) ls.

Definition whole (a : action) : bool := match a with NextFirst | NextSecond => false | _ => true end.
Definition is_read (a : action) : bool := match a with Next | NextFirst => true | _ => false end.
Definition well_formed_call (a : action) : Prop := match a with Start _ c => event_ok (pr_evt c) | _ => True end.
Definition counted (p : cpu) : bool := match p with Idle | Uncounted | Counting _ => false | _ => true end.
Definition inside (p : cpu) : bool := match p with Idle | Busy | Uncounted | Counting _ => false | _ => true end.

(** ** Sample runs *)
Definition sample_event (ts : Z) : event_header_t :=
  mk_event_header ts 0 NR_openat 7 7 0 0 1 0 (mk_net_info 0 0 0 0 0 0) 0 (zero_chars PROC_SIZE) (zero_chars PP_PROC_SIZE)
    (zero_chars MAX_CMDLINE_LEN) (replicate FD_NUM 0).
Definition sample_env : kmod_env := mk_kmod_env ∅ (λ _ _, true) (λ _, []) (λ _, None) (λ _ _, []) 0.
Definition sample_task : kmod_task := mk_kmod_task 7 7 [] None 0 (Some (0, 0)) true true None.
Definition sample_cfg : kmod_consumer_config := mk_consumer_config 0 0 0.
Definition sample_start (cpu : nat) (ts : Z) : action := Start cpu (mk_call sample_task [] (sample_event ts)).
Definition steps (cpu n : nat) : list action := replicate n (Step cpu).
Definition sample_push (ts : nat) : list action := sample_start 0 (Z.of_nat ts) :: steps 0 5.

(** 67 events are read, the last one up to the store of the tail; 67 more come
    before the reader stores the wrapped tail. *)
Definition overrun : list action :=
  concat (sample_push <$> seq 0 66) ++ replicate 66 Next ++ sample_push 66 ++ [NextFirst]
  ++ concat (sample_push <$> seq 67 67) ++ [NextSecond; Next].

(** ** The ring as a queue

    [T] events have been read and [q] are waiting: their bytes lie behind one
    another from the place of the [T]-th, around the end of the buffer. *)
Definition holds (m : memory) (T : Z) (q : list event_header_t) : Prop :=
  ∀ (j : nat) e i, q !! j = Some e → 0 ≤ i < EVENT_HEADER_SIZE →
    m !! ((EVENT_HEADER_SIZE * (T + Z.of_nat j) + i) `mod` BUFFER_SIZE) = encode_event e !! Z.to_nat i.

(** What the events in the ring have in common. *)
Definition recorded (e : event_header_t) : Prop := event_ok e ∧ ke_len e = EVENT_HEADER_SIZE.

Record ring_rep (T : Z) (q : list event_header_t) (next : Z) (r : kmod_ringbuffer_ctx) : Prop := {
  rr_size : kc_size r = BUFFER_SIZE;
  rr_T : 0 ≤ T ≤ 132;
  rr_next : next = EVENT_HEADER_SIZE * T;
  rr_tail : ri_tail (kc_info r) = (EVENT_HEADER_SIZE * T) `mod` BUFFER_SIZE;
  rr_head : ri_head (kc_info r) = (EVENT_HEADER_SIZE * (T + Z.of_nat (length q))) `mod` BUFFER_SIZE;
  rr_len : (length q ≤ 66)%nat;
  rr_dom x : 0 ≤ x < BUFFER_SIZE + 2 * PAGE_SIZE → is_Some (kc_buffer r !! x);
  rr_holds : holds (kc_buffer r) T q;
  rr_events : Forall recorded q
}.

(** ** Lemmas *)
Ltac mods := unfold EVENT_HEADER_SIZE, BUFFER_SIZE, PAGE_SIZE in *; Z.to_euclidean_division_equations; lia.

Lemma write_bytes_in m a bs x :
  a ≤ x < a + Z.of_nat (length bs) → write_bytes m a bs !! x = bs !! Z.to_nat (x - a).
Proof.
  revert m a. induction bs as [|b bs IH]; intros m a Hx; cbn [length write_bytes] in *; [lia|].
  destruct (decide (x = a)) as [->|].
  - rewrite write_bytes_out by lia. by rewrite lookup_insert_eq, Z.sub_diag.
  - rewrite IH by lia. by replace (Z.to_nat (x - a)) with (S (Z.to_nat (x - (a + 1)))) by lia.
Qed.

Lemma read_bytes_total m a n :
  (∀ i, a ≤ i < a + Z.of_nat n → is_Some (m !! i)) →
  ∃ l, read_bytes m a n = Some l ∧ length l = n ∧ ∀ i, (i < n)%nat → m !! (a + Z.of_nat i) = l !! i.
Proof.
  revert a. induction n as [|n IH]; intros a H; cbn [read_bytes].
  - exists []. split; [done|]. split; [done|]. intros i Hi. lia.
  - destruct (H a ltac:(lia)) as [b Hb]. destruct (IH (a + 1)) as (l & Hl & Hn & Hi); [intros; apply H; lia|].
    exists (b :: l). rewrite Hb. cbn. rewrite Hl. cbn. split; [done|]. split; [lia|].
    intros [|i] Hi'; [by rewrite Z.add_0_r|]. cbn. rewrite <- Hi by lia. f_equal. lia.
Qed.

Lemma write_bytes_dom m a bs x : is_Some (m !! x) → is_Some (write_bytes m a bs !! x).
Proof.
  intros H. destruct (decide (a ≤ x < a + Z.of_nat (length bs))).
  - rewrite write_bytes_in by done. apply lookup_lt_is_Some. lia.
  - rewrite write_bytes_out by lia. done.
Qed.

Lemma mem_block_dom a l x : a ≤ x < a + Z.of_nat (length l) → is_Some (mem_block a l !! x).
Proof.
  revert a. induction l as [|b l IH]; intros a Hx; cbn [length mem_block] in *; [lia|].
  destruct (decide (x = a)) as [->|]; [by rewrite lookup_insert_eq|].
  rewrite lookup_insert_ne by lia. apply IH. lia.
Qed.

Lemma zero_buffer_dom size x : 0 ≤ x < size → is_Some (zero_buffer size !! x).
Proof. intros Hx. apply mem_block_dom. rewrite length_replicate. lia. Qed.

#[local] Opaque zero_buffer.

(** Where a byte of the ring comes from after an event of [size] bytes has
    been written at the head and wrapped around. *)
Definition overlaid (m : memory) (h : Z) (bs : list Z) (x : Z) : option Z :=
  if (x - h) `mod` BUFFER_SIZE <? EVENT_HEADER_SIZE then bs !! Z.to_nat ((x - h) `mod` BUFFER_SIZE) else m !! x.

Lemma overlaid_plain m h bs x :
  Z.of_nat (length bs) = EVENT_HEADER_SIZE → 0 ≤ h → h + EVENT_HEADER_SIZE ≤ BUFFER_SIZE → 0 ≤ x < BUFFER_SIZE →
  write_bytes m h bs !! x = overlaid m h bs x.
Proof.
  intros Hbs Hh Hs Hx. unfold overlaid.
  destruct (Z.ltb_spec ((x - h) `mod` BUFFER_SIZE) EVENT_HEADER_SIZE) as [H|H].
  - assert ((x - h) `mod` BUFFER_SIZE = x - h) as -> by mods. apply write_bytes_in. mods.
  - apply write_bytes_out. mods.
Qed.

Lemma overlaid_wrapped m h bs l x :
  Z.of_nat (length bs) = EVENT_HEADER_SIZE → h < BUFFER_SIZE → BUFFER_SIZE < h + EVENT_HEADER_SIZE →
  Z.of_nat (length l) = h + EVENT_HEADER_SIZE - BUFFER_SIZE →
  (∀ i, (i < length l)%nat → write_bytes m h bs !! (BUFFER_SIZE + Z.of_nat i) = l !! i) →
  0 ≤ x < BUFFER_SIZE →
  write_bytes (write_bytes m h bs) 0 l !! x = overlaid m h bs x.
Proof.
  intros Hbs Hh Hs Hl Hsrc Hx. unfold overlaid.
  destruct (decide (x < Z.of_nat (length l))) as [Hlow|Hlow].
  - rewrite write_bytes_in by lia. rewrite <- Hsrc by lia. rewrite write_bytes_in by mods.
    assert ((x - h) `mod` BUFFER_SIZE = x - h + BUFFER_SIZE) as -> by mods.
    destruct (Z.ltb_spec (x - h + BUFFER_SIZE) EVENT_HEADER_SIZE); [f_equal; lia|lia].
  - rewrite write_bytes_out by lia.
    destruct (Z.ltb_spec ((x - h) `mod` BUFFER_SIZE) EVENT_HEADER_SIZE) as [H|H].
    + assert ((x - h) `mod` BUFFER_SIZE = x - h) as -> by mods. apply write_bytes_in. mods.
    + apply write_bytes_out. mods.
Qed.

Lemma buffer_write_ok a bs r :
  0 ≤ a → a + Z.of_nat (length bs) ≤ buffer_room r →
  buffer_write a bs r = Ret [] (with_buffer (write_bytes (kc_buffer r) a bs) r).
Proof.
  intros Ha Hb. unfold buffer_write.
  destruct (Z.leb_spec 0 a), (Z.leb_spec (a + Z.of_nat (length bs)) (buffer_room r)); try lia. done.
Qed.

(** Filling the space behind the head. *)
Lemma fill_event_spec e r :
  kc_size r = BUFFER_SIZE → 0 ≤ ri_head (kc_info r) < BUFFER_SIZE →
  (∀ x, 0 ≤ x < BUFFER_SIZE + 2 * PAGE_SIZE → is_Some (kc_buffer r !! x)) →
  event_ok e →
  ∃ m, fill_event e EVENT_HEADER_SIZE r
       = Ret [] ((ri_head (kc_info r) + EVENT_HEADER_SIZE) `mod` BUFFER_SIZE,
                 with_info (λ i, set_n_evts (wrap 64 (ri_n_evts i + 1)) i) (with_buffer m r))
  ∧ (∀ x, 0 ≤ x < BUFFER_SIZE → m !! x = overlaid (kc_buffer r) (ri_head (kc_info r)) (encode_event e) x)
  ∧ (∀ x, 0 ≤ x < BUFFER_SIZE + 2 * PAGE_SIZE → is_Some (m !! x)).
Proof.
  intros Hsz Hh Hdom He. set (h := ri_head (kc_info r)) in *.
  pose proof (event_ok_length e He) as Hlen.
  assert (Z.of_nat (length (encode_event e)) = EVENT_HEADER_SIZE) as HL by (rewrite Hlen; done).
  assert (buffer_room r = BUFFER_SIZE + 2 * PAGE_SIZE) as Hroom by (unfold buffer_room; by rewrite Hsz).
  unfold fill_event. fold h. rewrite buffer_write_ok by (rewrite ?Hroom, ?HL; mods).
  rewrite bind_Ret_nil. rewrite wrap_small by mods. cbn [kc_size with_buffer kc_buffer]. rewrite Hsz.
  set (m1 := write_bytes (kc_buffer r) h (encode_event e)).
  assert (∀ x, 0 ≤ x < BUFFER_SIZE + 2 * PAGE_SIZE → is_Some (m1 !! x)) as Hdom1 by (intros; by apply write_bytes_dom, Hdom).
  destruct (Z.leb_spec BUFFER_SIZE (h + EVENT_HEADER_SIZE)) as [Hw|Hw].
  2: { exists m1. rewrite bind_ret_l. cbn [fst snd]. split; [|split; [|done]].
       - by replace ((h + EVENT_HEADER_SIZE) `mod` BUFFER_SIZE) with (h + EVENT_HEADER_SIZE) by mods.
       - intros x Hx. apply overlaid_plain; [done|mods..]. }
  destruct (Z.ltb_spec BUFFER_SIZE (h + EVENT_HEADER_SIZE)) as [Hw'|Hw'].
  2: { exists m1. rewrite !bind_ret_l. split; [|split; [|done]].
       - change (kc_size (with_buffer m1 r)) with (kc_size r). rewrite Hsz.
         by replace ((h + EVENT_HEADER_SIZE) `mod` BUFFER_SIZE) with (h + EVENT_HEADER_SIZE - BUFFER_SIZE) by mods.
       - intros x Hx. apply overlaid_plain; [done|mods..]. }
  destruct (read_bytes_total m1 BUFFER_SIZE (Z.to_nat (h + EVENT_HEADER_SIZE - BUFFER_SIZE))) as (l & Hl & Hll & Hli).
  { intros i Hi. apply Hdom1. mods. }
  unfold buffer_read. cbn [kc_buffer with_buffer]. rewrite Hl, from_opt_some, bind_Ret_nil.
  rewrite buffer_write_ok; [|lia|change (buffer_room (with_buffer m1 r)) with (buffer_room r); rewrite Hroom, Hll; mods].
  exists (write_bytes m1 0 l). rewrite !bind_Ret_nil, !bind_ret_l. split; [|split].
  - change (kc_size (with_buffer _ _)) with (kc_size r). rewrite Hsz.
    by replace ((h + EVENT_HEADER_SIZE) `mod` BUFFER_SIZE) with (h + EVENT_HEADER_SIZE - BUFFER_SIZE) by mods.
  - intros x Hx. apply overlaid_wrapped; [done|mods..| |done]. intros i Hi. apply Hli. lia.
  - intros x Hx. by apply write_bytes_dom, Hdom1.
Qed.

(** The events in the ring are out of the way, and the new one is behind
    them. *)
Lemma holds_overlaid m m' T q e :
  0 ≤ T → (length q ≤ 65)%nat → holds m T q →
  (∀ x, 0 ≤ x < BUFFER_SIZE →
    m' !! x = overlaid m ((EVENT_HEADER_SIZE * (T + Z.of_nat (length q))) `mod` BUFFER_SIZE) (encode_event e) x) →
  holds m' T (q ++ [e]).
Proof.
  intros HT Hq Hm Hm' j e' i Hj Hi. rewrite Hm' by (apply Z.mod_pos_bound; done). unfold overlaid.
  apply lookup_app_Some in Hj as [Hj|[Hge Hj]].
  - pose proof (lookup_lt_Some _ _ _ Hj) as Hlt. rewrite <- (Hm _ _ _ Hj Hi).
    set (n := Z.of_nat (length q)) in *. set (jz := Z.of_nat j).
    destruct (Z.ltb_spec (((EVENT_HEADER_SIZE * (T + jz) + i) `mod` BUFFER_SIZE
      - (EVENT_HEADER_SIZE * (T + n)) `mod` BUFFER_SIZE) `mod` BUFFER_SIZE) EVENT_HEADER_SIZE) as [H|]; [|done].
    exfalso. rewrite <- Zminus_mod in H. assert (jz < n ≤ 65 ∧ 0 ≤ jz) by lia. mods.
  - apply list_lookup_singleton_Some in Hj as [Hj ->]. assert (Z.of_nat j = Z.of_nat (length q)) as -> by lia.
    rewrite <- Zminus_mod.
    assert ((EVENT_HEADER_SIZE * (T + Z.of_nat (length q)) + i - EVENT_HEADER_SIZE * (T + Z.of_nat (length q)))
      `mod` BUFFER_SIZE = i) as ->; [|destruct (Z.ltb_spec i EVENT_HEADER_SIZE); [done|lia]].
    rewrite Z.add_simpl_l. apply Z.mod_small. mods.
Qed.

(** *** The reader *)
Lemma user_read_spec r u bs :
  (∀ i, (i < length bs)%nat → user_byte r (u + Z.of_nat i) = bs !! i) → user_read r u (length bs) = Ret [] bs.
Proof.
  intros H. unfold user_read.
  assert (mapM (λ i, user_byte r (u + Z.of_nat i)) (seq 0 (length bs)) = Some bs) as ->; [|done].
  apply mapM_Some, Forall2_same_length_lookup_2; [by rewrite length_seq|].
  intros i x y Hx Hy. apply lookup_seq in Hx as [-> Hlt]. by rewrite H.
Qed.

Lemma user_read_fault r u n i :
  (i < n)%nat → user_byte r (u + Z.of_nat i) = None → user_read r u n = Ub BadAddress.
Proof.
  intros Hi Hu. unfold user_read.
  assert (mapM (λ i, user_byte r (u + Z.of_nat i)) (seq 0 n) = None) as ->; [|done].
  apply eq_None_not_Some. intros [l Hl]. apply mapM_Some in Hl.
  destruct (Forall2_lookup_l _ _ _ _ i Hl (lookup_seq_lt _ _ _ Hi)) as (y & _ & Hy).
  cbn in Hy. congruence.
Qed.

Lemma user_byte_mod r u :
  kc_size r = BUFFER_SIZE → 0 ≤ u < 2 * BUFFER_SIZE → user_byte r u = kc_buffer r !! (u `mod` BUFFER_SIZE).
Proof.
  intros Hs Hu. unfold user_byte, user_address. rewrite Hs.
  destruct (Z.ltb_spec u 0); [lia|]. destruct (Z.ltb_spec u BUFFER_SIZE).
  - cbn. by rewrite Z.mod_small.
  - destruct (Z.ltb_spec u (2 * BUFFER_SIZE)); [|lia]. cbn. f_equal. mods.
Qed.

Lemma user_byte_past r u : kc_size r = BUFFER_SIZE → 2 * BUFFER_SIZE ≤ u → user_byte r u = None.
Proof.
  intros Hs Hu. unfold user_byte, user_address. rewrite Hs.
  destruct (Z.ltb_spec u 0); [mods|]. destruct (Z.ltb_spec u BUFFER_SIZE); [mods|].
  destruct (Z.ltb_spec u (2 * BUFFER_SIZE)); [lia|done].
Qed.

Lemma encode_event_len e :
  ∃ p s, encode_event e = p ++ le_split 4 (ke_len e) ++ s ∧ length p = Z.to_nat LEN_OFFSET.
Proof.
  exists (le_split 8 (ke_ts e) ++ le_split 4 (ke_type e) ++ le_split 4 (ke_syscall_nr e) ++ le_split 4 (ke_pid e)
    ++ le_split 4 (ke_tid e) ++ le_split 4 (ke_user e)).
  eexists. split; [unfold encode_event; by rewrite <- !app_assoc|]. by rewrite !length_app, !le_split_length.
Qed.

(** The bytes of the front event are at the reader's place, as long as that is
    mapped. *)
Lemma front_byte T e q next r i :
  ring_rep T (e :: q) next r → T ≤ 131 → 0 ≤ i < EVENT_HEADER_SIZE →
  user_byte r (next + i) = encode_event e !! Z.to_nat i.
Proof.
  intros [Hsz HT -> _ _ _ _ Hh _] HT' Hi. rewrite user_byte_mod; [|done|mods].
  rewrite <- (Hh 0%nat e i eq_refl Hi). f_equal. f_equal. lia.
Qed.

Lemma front_len T e q next r :
  ring_rep T (e :: q) next r →
  (∀ i, LEN_OFFSET ≤ i < LEN_OFFSET + 4 → user_byte r (next + i) = encode_event e !! Z.to_nat i) →
  ∃ bs, user_read r (next + LEN_OFFSET) 4 = Ret [] bs ∧ le_join bs = ke_len e.
Proof.
  intros Hr Hb. destruct (encode_event_len e) as (p & s & He & Hp).
  assert (recorded e) as [Hok _] by (pose proof (rr_events _ _ _ _ Hr) as Hf; by inversion Hf).
  exists (le_split 4 (ke_len e)). split.
  - apply (user_read_spec _ _ (le_split 4 (ke_len e))). intros i Hi. rewrite le_split_length in Hi.
    rewrite <- Z.add_assoc, Hb by (unfold LEN_OFFSET; lia). rewrite He.
    rewrite lookup_app_r by (unfold LEN_OFFSET in *; lia). rewrite Hp.
    replace (Z.to_nat (LEN_OFFSET + Z.of_nat i) - Z.to_nat LEN_OFFSET)%nat with i by (unfold LEN_OFFSET; lia).
    by rewrite lookup_app_l by (rewrite le_split_length; lia).
  - rewrite le_join_split. apply Z.mod_small. apply (eo_len e Hok).
Qed.

Lemma head_tail_neq T e q next r :
  ring_rep T (e :: q) next r → (ri_head (kc_info r) =? ri_tail (kc_info r)) = false.
Proof.
  intros [_ HT _ -> -> Hl _ _ _]. apply Z.eqb_neq. cbn [length] in *.
  set (n := Z.of_nat (S (length q))). assert (1 ≤ n ≤ 66) by lia. mods.
Qed.

Lemma ring_rep_pop T e q next r :
  ring_rep T (e :: q) next r → T ≤ 131 →
  ring_rep (T + 1) q (next + EVENT_HEADER_SIZE) (tail_wrap (tail_advance EVENT_HEADER_SIZE r)).
Proof.
  intros [Hsz HT -> Ht Hh Hl Hd Hb He] HT'. unfold tail_wrap, tail_advance, with_info.
  cbn [kc_info kc_size kc_buffer ri_tail set_tail]. rewrite Ht, wrap_small by mods.
  split; cbn [kc_info kc_size kc_buffer]; try done; try lia.
  - destruct (Z.ltb_spec BUFFER_SIZE ((EVENT_HEADER_SIZE * T) `mod` BUFFER_SIZE + EVENT_HEADER_SIZE)); cbn [set_tail ri_tail];
      rewrite ?wrap_small by mods; mods.
  - assert (ri_head (kc_info r) = (EVENT_HEADER_SIZE * (T + 1 + Z.of_nat (length q))) `mod` BUFFER_SIZE) as Hh'
      by (rewrite Hh; cbn [length]; f_equal; lia).
    by destruct (BUFFER_SIZE <? _).
  - cbn [length] in Hl. lia.
  - intros j e' i Hj Hi. rewrite <- (Hb (S j) e' i Hj Hi). f_equal. f_equal. lia.
  - by inversion He.
Qed.

Lemma next_read_front T e q next r :
  ring_rep T (e :: q) next r → T ≤ 131 → next_read next r = Ret [] (Some (e, EVENT_HEADER_SIZE)).
Proof.
  intros Hr HT. unfold next_read. rewrite (head_tail_neq _ _ _ _ _ Hr). cbn [negb].
  assert (recorded e) as [Hok Hlen] by (pose proof (rr_events _ _ _ _ Hr) as Hf; by inversion Hf).
  destruct (front_len T e q next r Hr) as (bs & -> & Hbs).
  { intros i Hi. eapply front_byte; [done..|]. unfold LEN_OFFSET, EVENT_HEADER_SIZE in *. lia. }
  rewrite bind_Ret_nil, Hbs, Hlen. cbn [Z.eqb EVENT_HEADER_SIZE].
  rewrite <- (event_ok_length e Hok).
  rewrite (user_read_spec r next (encode_event e)).
  - rewrite bind_Ret_nil. by rewrite decode_encode.
  - intros i Hi. rewrite (event_ok_length e Hok) in Hi.
    rewrite (front_byte T e q) by (done || (unfold EVENT_HEADER_SIZE in *; lia)). by rewrite Nat2Z.id.
Qed.

Lemma kmod_next_front T e q next r :
  ring_rep T (e :: q) next r → T ≤ 131 →
  linx_kmod_next next r
  = Ret [] (Some e, next + EVENT_HEADER_SIZE, tail_wrap (tail_advance EVENT_HEADER_SIZE r)).
Proof. intros Hr HT. unfold linx_kmod_next. by rewrite (next_read_front _ _ _ _ _ Hr HT), bind_Ret_nil. Qed.

Lemma kmod_next_empty T next r : ring_rep T [] next r → linx_kmod_next next r = Ret [] (None, next, r).
Proof.
  intros [_ _ _ Ht Hh _ _ _ _]. unfold linx_kmod_next, next_read. cbn [length] in Hh.
  by rewrite Ht, Hh, Z.add_0_r, Z.eqb_refl.
Qed.

(** The length of the 133rd event is the last thing that is mapped. *)
Lemma kmod_next_past e q next r : ring_rep 132 (e :: q) next r → linx_kmod_next next r = Ub BadAddress.
Proof.
  intros Hr. unfold linx_kmod_next, next_read. rewrite (head_tail_neq _ _ _ _ _ Hr). cbn [negb].
  assert (recorded e) as [Hok Hlen] by (pose proof (rr_events _ _ _ _ Hr) as Hf; by inversion Hf).
  pose proof (rr_next _ _ _ _ Hr) as Hn. pose proof (rr_size _ _ _ _ Hr) as Hs.
  destruct (front_len 132 e q next r Hr) as (bs & -> & Hbs).
  { intros i Hi. unfold LEN_OFFSET in Hi. rewrite Hn, user_byte_mod; [|done|mods].
    rewrite <- (rr_holds _ _ _ _ Hr 0%nat e i eq_refl) by mods. done. }
  rewrite bind_Ret_nil, Hbs, Hlen. cbn [Z.eqb EVENT_HEADER_SIZE].
  rewrite (user_read_fault r next (Z.to_nat EVENT_HEADER_SIZE) 64); [done|mods|].
  apply user_byte_past; [done|]. rewrite Hn. mods.
Qed.

(** ** The invariant of a system *)
Fixpoint busy_cpus (l : list cpu) : nat :=
  match l with [] => 0%nat | p :: l => (Nat.b2n (counted p) + busy_cpus l)%nat end.

(** What a CPU has found out about the ring stays true while it is inside. *)
Definition cpu_ok (T : Z) (q : list event_header_t) (r : kmod_ringbuffer_ctx) (p : cpu) : Prop :=
  match p with
  | Inside c => event_ok (pr_evt c)
  | Compared ahead c =>
      event_ok (pr_evt c) ∧ ∃ T0, 0 ≤ T0 ≤ T ∧ T + Z.of_nat (length q) - T0 ≤ 66
        ∧ ahead = (ri_head (kc_info r) <? (EVENT_HEADER_SIZE * T0) `mod` BUFFER_SIZE)
  | Measured free size e =>
      event_ok e ∧ size = EVENT_HEADER_SIZE ∧ (EVENT_HEADER_SIZE ≤ free → (length q ≤ 65)%nat)
  | Filled next e =>
      recorded e ∧ (length q ≤ 65)%nat ∧ holds (kc_buffer r) T (q ++ [e])
      ∧ next = (EVENT_HEADER_SIZE * (T + Z.of_nat (S (length q)))) `mod` BUFFER_SIZE
  | _ => True
  end.

Record sys_inv (T : Z) (q : list event_header_t) (s : system) : Prop := {
  si_half : sy_half s = false;
  si_ring : ring_rep T q (sy_next s) (sy_ring s);
  si_count : kc_preempt_count (sy_ring s) = Z.of_nat (busy_cpus (sy_cpus s));
  si_cpus : Z.of_nat (length (sy_cpus s)) < 2 ^ 31;
  si_one i j p p' : sy_cpus s !! i = Some p → sy_cpus s !! j = Some p' → inside p = true → inside p' = true → i = j;
  si_ok i p : sy_cpus s !! i = Some p → cpu_ok T q (sy_ring s) p
}.

Lemma busy_insert l i p p' :
  l !! i = Some p →
  (busy_cpus (<[i := p']> l) + Nat.b2n (counted p) = busy_cpus l + Nat.b2n (counted p'))%nat.
Proof.
  revert i. induction l as [|x l IH]; intros [|i] Hi; [done..| |]; cbn in *.
  - injection Hi as ->. lia.
  - change (Nat.b2n (counted x) + busy_cpus (<[i:=p']> l) + Nat.b2n (counted p)
            = Nat.b2n (counted x) + busy_cpus l + Nat.b2n (counted p'))%nat.
    specialize (IH i Hi). lia.
Qed.

Lemma busy_counted l i p : l !! i = Some p → (Nat.b2n (counted p) ≤ busy_cpus l)%nat.
Proof. revert i. induction l as [|x l IH]; intros [|i] Hi; [done..| |]; cbn in *; [injection Hi as ->; lia|]. specialize (IH i Hi). lia. Qed.

Lemma busy_le l : (busy_cpus l ≤ length l)%nat.
Proof. induction l as [|x l IH]; cbn; [lia|]. destruct (counted x); cbn; lia. Qed.

Lemma busy_idle l i p : l !! i = Some p → counted p = false → (busy_cpus l < length l)%nat.
Proof.
  revert i. induction l as [|x l IH]; intros [|i] Hi Hp; [done..| |]; cbn in *.
  - injection Hi as ->. rewrite Hp. pose proof (busy_le l). cbn. lia.
  - specialize (IH i Hi Hp). destruct (counted x); cbn; lia.
Qed.

Lemma inside_counted p : inside p = true → counted p = true.
Proof. by destruct p. Qed.

Lemma outside_ok T q r p : inside p = false → cpu_ok T q r p.
Proof. by destruct p. Qed.

(** Changing what the invariant of the ring does not mention. *)
Lemma ring_rep_same T q next r r' :
  ring_rep T q next r → kc_size r' = kc_size r → kc_buffer r' = kc_buffer r →
  ri_head (kc_info r') = ri_head (kc_info r) → ri_tail (kc_info r') = ri_tail (kc_info r) → ring_rep T q next r'.
Proof. intros [] Hs Hb Hh Ht. split; rewrite ?Hs, ?Hb, ?Hh, ?Ht; done. Qed.

(** One CPU moved; the others are outside, or nothing they rely on changed. *)
Lemma sys_inv_cpu T q q' s i p p' r' :
  sys_inv T q s → sy_cpus s !! i = Some p →
  ring_rep T q' (sy_next s) r' → cpu_ok T q' r' p' →
  (inside p' = true → inside p = true ∨ busy_cpus (sy_cpus s) = 0%nat) →
  (∀ p2, inside p2 = true → inside p = false → cpu_ok T q (sy_ring s) p2 → cpu_ok T q' r' p2) →
  kc_preempt_count r' + Z.b2z (counted p) = kc_preempt_count (sy_ring s) + Z.b2z (counted p') →
  sys_inv T q' (mk_system (<[i := p']> (sy_cpus s)) r' (sy_next s) (sy_half s)).
Proof.
  intros [Hh Hr Hc Hn H1 Hok] Hi Hr' Hp' Hin Hfr Hcnt.
  assert (∀ j p2, j ≠ i → sy_cpus s !! j = Some p2 → inside p2 = true → inside p' = true → False) as Hex.
  { intros j p2 Hj Hj2 Hi2 Hi'. destruct (Hin Hi') as [Hp|Hz]; [by eapply Hj, H1|].
    pose proof (busy_counted _ _ _ Hj2) as Hb. rewrite (inside_counted _ Hi2) in Hb. cbn in Hb. lia. }
  split; cbn [sy_half sy_ring sy_cpus sy_next]; [done|done| |by rewrite length_insert| |].
  - pose proof (busy_insert _ _ _ p' Hi) as Hb.
    destruct (counted p), (counted p'); cbn [Nat.b2n Z.b2z] in *; lia.
  - intros a b pa pb Ha Hb Ia Ib.
    destruct (decide (a = i)) as [->|Hai], (decide (b = i)) as [->|Hbi]; [done|..].
    + rewrite list_lookup_insert_eq in Ha by (by eapply lookup_lt_Some). injection Ha as <-.
      rewrite list_lookup_insert_ne in Hb by done. destruct (Hex b pb Hbi Hb Ib Ia).
    + rewrite list_lookup_insert_eq in Hb by (by eapply lookup_lt_Some). injection Hb as <-.
      rewrite list_lookup_insert_ne in Ha by done. destruct (Hex a pa Hai Ha Ia Ib).
    + rewrite list_lookup_insert_ne in Ha, Hb by done. by eapply H1.
  - intros j p2 Hj. destruct (decide (j = i)) as [->|Hne].
    + rewrite list_lookup_insert_eq in Hj by (by eapply lookup_lt_Some). by injection Hj as <-.
    + rewrite list_lookup_insert_ne in Hj by done. destruct (inside p2) eqn:Ei; [|by apply outside_ok].
      apply Hfr; [done| |by eapply Hok]. destruct (inside p) eqn:Ep; [|done]. destruct Hne. by eapply H1.
Qed.

(** *** Steps of a CPU *)
Section steps.
Context (k : kmod_env) (cfg : kmod_consumer_config).
Hypothesis no_args : cc_args_enable cfg = 0.
Hypothesis no_fds : cc_fds_enabel cfg = 0.

Lemma event_size_plain evt args : event_size k cfg evt args = Ret [] EVENT_HEADER_SIZE.
Proof using no_args. unfold event_size. by rewrite no_args. Qed.

Lemma add_fds_plain task evt : add_fds cfg task evt = Ret [] evt.
Proof using no_fds. unfold add_fds. by rewrite no_fds. Qed.

(** The space that is measured is the space there is, or the reader has made
    more meanwhile. *)
Lemma measured_room T q next r T0 :
  ring_rep T q next r → 0 ≤ T0 ≤ T → T + Z.of_nat (length q) - T0 ≤ 66 →
  EVENT_HEADER_SIZE ≤ free_space (ri_head (kc_info r) <? (EVENT_HEADER_SIZE * T0) `mod` BUFFER_SIZE) r →
  (length q ≤ 65)%nat.
Proof using.
  intros Hr HT0 Hq Hf. destruct (decide (length q ≤ 65)%nat) as [|Hn]; [done|]. exfalso.
  pose proof (rr_len _ _ _ _ Hr) as Hl. assert (T0 = T) as -> by lia.
  pose proof (rr_T _ _ _ _ Hr) as HT.
  unfold free_space in Hf. rewrite (rr_tail _ _ _ _ Hr), (rr_head _ _ _ _ Hr), (rr_size _ _ _ _ Hr) in Hf.
  replace (Z.of_nat (length q)) with 66 in Hf by lia.
  destruct (Z.ltb_spec ((EVENT_HEADER_SIZE * (T + 66)) `mod` BUFFER_SIZE) ((EVENT_HEADER_SIZE * T) `mod` BUFFER_SIZE));
    rewrite wrap_small in Hf; mods.
Qed.

(** When there is room, an undisturbed measurement finds it. *)
Lemma free_space_exact T q next r :
  ring_rep T q next r → free_space (tail_ahead r) r = BUFFER_SIZE - 1 - EVENT_HEADER_SIZE * Z.of_nat (length q).
Proof using.
  intros Hr. pose proof (rr_len _ _ _ _ Hr) as Hl. pose proof (rr_T _ _ _ _ Hr) as HT.
  unfold free_space, tail_ahead. rewrite (rr_tail _ _ _ _ Hr), (rr_head _ _ _ _ Hr), (rr_size _ _ _ _ Hr).
  set (n := Z.of_nat (length q)). assert (0 ≤ n ≤ 66) by lia.
  destruct (Z.ltb_spec ((EVENT_HEADER_SIZE * (T + n)) `mod` BUFFER_SIZE) ((EVENT_HEADER_SIZE * T) `mod` BUFFER_SIZE));
    rewrite wrap_small; mods.
Qed.

Lemma recorded_set_len e : event_ok e → recorded (set_len EVENT_HEADER_SIZE e).
Proof using. intros He. split; [|done]. apply set_len_ok; [|done]. unfold fits, EVENT_HEADER_SIZE. lia. Qed.

(** What filling leaves: the events of the ring, and the new one behind. *)
Lemma fill_event_rep T q next r e :
  ring_rep T q next r → (length q ≤ 65)%nat → event_ok e →
  ∃ r', fill_event e EVENT_HEADER_SIZE r
        = Ret [] ((EVENT_HEADER_SIZE * (T + Z.of_nat (S (length q)))) `mod` BUFFER_SIZE, r')
  ∧ ring_rep T q next r' ∧ holds (kc_buffer r') T (q ++ [e])
  ∧ kc_preempt_count r' = kc_preempt_count r
  ∧ ri_n_evts (kc_info r') = wrap 64 (ri_n_evts (kc_info r) + 1)
  ∧ ri_n_drop_evts (kc_info r') = ri_n_drop_evts (kc_info r).
Proof using.
  intros Hr Hq He. pose proof (rr_head _ _ _ _ Hr) as Hh. pose proof (rr_T _ _ _ _ Hr) as HT.
  destruct (fill_event_spec e r) as (m & Hf & Hm & Hd);
    [by eapply rr_size|rewrite Hh; by apply Z.mod_pos_bound|by eapply rr_dom|done|].
  eexists. split; [rewrite Hf; f_equal; f_equal; rewrite Hh; mods|].
  assert (holds m T (q ++ [e])) as Hnew.
  { eapply holds_overlaid; [lia|done|by eapply rr_holds|]. intros x Hx. by rewrite (Hm x Hx), Hh. }
  split; [|done]. destruct Hr. split; try done.
  intros j e' i Hj. apply Hnew. by apply lookup_app_l_Some.
Qed.

(** Publishing makes the new event one of the ring. *)
Lemma publish_rep T q next r e h :
  ring_rep T q next r → (length q ≤ 65)%nat → recorded e → holds (kc_buffer r) T (q ++ [e]) →
  h = (EVENT_HEADER_SIZE * (T + Z.of_nat (S (length q)))) `mod` BUFFER_SIZE →
  ring_rep T (q ++ [e]) next (publish h r).
Proof using.
  intros [] Hq He Hh ->. split; try done; cbn [kc_info publish with_info set_head ri_head];
    rewrite ?length_app; cbn [length].
  - f_equal. f_equal. lia.
  - lia.
  - apply Forall_app. by split; [|apply Forall_singleton].
Qed.

Lemma leave_count r n : kc_preempt_count r = n → 1 ≤ n < 2 ^ 31 → kc_preempt_count (leave r) = n - 1.
Proof using. intros Hc Hn. unfold leave. cbn. rewrite Hc. apply sext_small; lia. Qed.

(** A step within the ring [r]: the queue after it, and what it says. *)
Definition cpu_step_ok (T : Z) (q : list event_header_t) (next : Z) (p : cpu) (r : kmod_ringbuffer_ctx) : Prop :=
  ∃ p' ls r' q', cpu_step k cfg p r = Ret [] (p', ls, r') ∧ ring_rep T q' next r' ∧ cpu_ok T q' r' p'
  ∧ (inside p' = true → inside p = true)
  ∧ (inside p = false → kc_buffer r' = kc_buffer r ∧ ri_head (kc_info r') = ri_head (kc_info r) ∧ q' = q)
  ∧ kc_preempt_count r' + Z.b2z (counted p) = kc_preempt_count r + Z.b2z (counted p')
  ∧ q' = q ++ pushed ls ∧ delivered ls = [].

Lemma cpu_steps T q next p r :
  ring_rep T q next r → cpu_ok T q r p → (counted p = true → 1 ≤ kc_preempt_count r < 2 ^ 31) →
  cpu_step_ok T q next p r.
Proof using no_args no_fds.
  intros Hr Hp Hc. unfold cpu_step_ok. destruct p; cbn [counted inside cpu_step cpu_ok] in *.
  - eexists _, [], _, q. rewrite app_nil_r. split_and!; eauto.
  - eexists _, [], _, q. rewrite app_nil_r. split_and!; try done; [by eapply ring_rep_same|].
    rewrite (leave_count r _ eq_refl) by auto. cbn. lia.
  - eexists _, [], _, q. rewrite app_nil_r. split_and!; try done. cbn [cpu_ok]. split; [done|]. exists T.
    pose proof (rr_T _ _ _ _ Hr). pose proof (rr_len _ _ _ _ Hr). split_and!; [lia..|].
    unfold tail_ahead. by rewrite (rr_tail _ _ _ _ Hr).
  - destruct Hp as [He (T0 & HT0 & Hq & ->)]. rewrite event_size_plain, bind_Ret_nil, add_fds_plain, bind_Ret_nil.
    eexists _, [], _, q. rewrite app_nil_r. split_and!; try done. cbn [cpu_ok]. split_and!; [done..|].
    by eapply measured_room.
  - destruct Hp as (He & -> & Hroom). destruct (Z.ltb_spec free EVENT_HEADER_SIZE).
    + eexists _, [], _, q. rewrite app_nil_r. split_and!; done.
    + pose proof (recorded_set_len _ He) as Hrec. specialize (Hroom ltac:(done)).
      destruct (fill_event_rep T q next r (set_len EVENT_HEADER_SIZE evt) Hr Hroom (proj1 Hrec)) as (r' & -> & Hr' & Hh & Hcnt & _ & _).
      rewrite bind_Ret_nil. eexists _, [], _, q. rewrite app_nil_r. split_and!; try done.
      cbn [counted]. lia.
  - destruct Hp as (Hrec & Hq & Hh & Hn). eexists _, [Pushed evt], _, (q ++ [evt]).
    split_and!; try done. by apply publish_rep.
  - eexists _, [], _, q. rewrite app_nil_r. split_and!; try done; [by eapply ring_rep_same|].
    rewrite (leave_count r _ eq_refl) by auto. cbn. lia.
  - eexists _, [], _, q. rewrite app_nil_r. split_and!; try done; [by eapply ring_rep_same|].
    rewrite (leave_count r _ eq_refl) by auto. cbn. lia.
  - eexists _, [], _, q. rewrite app_nil_r. split_and!; eauto.
  - eexists _, [], _, q. rewrite app_nil_r. split_and!; try done. by eapply ring_rep_same.
Qed.

(** *** Steps of the system *)
Lemma cpu_ok_same T q r r' p :
  kc_buffer r' = kc_buffer r → ri_head (kc_info r') = ri_head (kc_info r) → cpu_ok T q r p → cpu_ok T q r' p.
Proof using. intros Hb Hh. destruct p; cbn [cpu_ok]; rewrite ?Hb, ?Hh; done. Qed.

Lemma cpu_ok_pop T e q r p : cpu_ok T (e :: q) r p → cpu_ok (T + 1) q (tail_wrap (tail_advance EVENT_HEADER_SIZE r)) p.
Proof using.
  assert (kc_buffer (tail_wrap (tail_advance EVENT_HEADER_SIZE r)) = kc_buffer r) as Hb by done.
  assert (ri_head (kc_info (tail_wrap (tail_advance EVENT_HEADER_SIZE r))) = ri_head (kc_info r)) as Hh
    by (unfold tail_wrap, tail_advance, with_info; cbn [kc_info]; by destruct (BUFFER_SIZE <? _)).
  destruct p; cbn [cpu_ok length]; rewrite ?Hb, ?Hh; try done.
  - intros [He (T0 & HT0 & Hq & Ha)]. split; [done|]. exists T0. split_and!; [lia..|done].
  - intros (He & Hs & Hf). split_and!; [done..|]. intros Hle. specialize (Hf Hle). lia.
  - intros (He & Hq & Hh' & ->). split_and!; [done|lia| |f_equal; lia].
    intros j e' i Hj Hi. rewrite <- (Hh' (S j) e' i Hj Hi). f_equal. f_equal. lia.
Qed.

Lemma busy_bound T q s i p :
  sys_inv T q s → sy_cpus s !! i = Some p → counted p = true → 1 ≤ kc_preempt_count (sy_ring s) < 2 ^ 31.
Proof using.
  intros Hs Hi Hp. rewrite (si_count _ _ _ Hs). pose proof (busy_counted _ _ _ Hi) as H. rewrite Hp in H. cbn in H.
  pose proof (busy_le (sy_cpus s)). pose proof (si_cpus _ _ _ Hs). lia.
Qed.

Lemma sys_start_ok T q s i c :
  sys_inv T q s → sy_cpus s !! i = Some Idle → event_ok (pr_evt c) →
  ∃ p r, cpu_start c (sy_ring s) = (p, r)
  ∧ sys_inv T q (mk_system (<[i := p]> (sy_cpus s)) r (sy_next s) (sy_half s)).
Proof using.
  intros Hs Hi Hc. unfold cpu_start, enter. pose proof (si_count _ _ _ Hs) as Hn.
  pose proof (busy_idle _ _ _ Hi eq_refl). pose proof (si_cpus _ _ _ Hs). pose proof (si_ring _ _ _ Hs) as Hr.
  rewrite sext_small by lia. eexists _, _. split; [done|].
  apply (sys_inv_cpu T q q s i Idle); try done.
  - by eapply ring_rep_same.
  - by destruct (_ =? 1).
  - destruct (Z.eqb_spec (kc_preempt_count (sy_ring s) + 1) 1); [intros _; right; lia|done].
  - cbn. destruct (_ =? 1); cbn; lia.
Qed.

Lemma sys_cpu_ok T q s i p :
  sys_inv T q s → sy_cpus s !! i = Some p →
  ∃ p' ls r q', cpu_step k cfg p (sy_ring s) = Ret [] (p', ls, r)
  ∧ sys_inv T q' (mk_system (<[i := p']> (sy_cpus s)) r (sy_next s) (sy_half s))
  ∧ q' = q ++ pushed ls ∧ delivered ls = [].
Proof using no_args no_fds.
  intros Hs Hi.
  destruct (cpu_steps T q (sy_next s) p (sy_ring s)) as (p' & ls & r & q' & Hstep & Hr & Hp & Hin & Hout & Hc & Hq & Hd);
    [by apply si_ring|by eapply si_ok|intros; by eapply busy_bound|].
  exists p', ls, r, q'. split_and!; try done. apply (sys_inv_cpu T q q' s i p); auto.
  intros p2 Hp2 Hp0. destruct (Hout Hp0) as (Hb & Hh & ->). by apply cpu_ok_same.
Qed.

(** A whole step: what was waiting or is pushed is delivered or waits, in
    order. *)
Lemma sys_step_ok T q s a :
  whole a = true → well_formed_call a → sys_inv T q s → (a = Next → T ≤ 131) →
  ∃ ls s' T' q', sys_step k cfg a s = Ret [] (ls, s') ∧ sys_inv T' q' s'
  ∧ q ++ pushed ls = delivered ls ++ q' ∧ T' = T + Z.of_nat (length (delivered ls)) ∧ (a ≠ Next → T' = T) ∧ T' ≤ T + 1.
Proof using no_args no_fds.
  intros Ha Hc Hs HT. destruct a as [i c|i| | |]; [| | |done..]; cbn [sys_step well_formed_call] in *.
  - destruct (sy_cpus s !! i) as [[]|] eqn:Hi;
      try (exists [], s, T, q; cbn; rewrite app_nil_r; split_and!; [done..|lia|done|lia]).
    destruct (sys_start_ok T q s i c Hs Hi Hc) as (p & r & -> & Hs').
    eexists [], _, T, q. cbn. rewrite app_nil_r. split_and!; [done..|lia|done|lia].
  - destruct (sy_cpus s !! i) as [p|] eqn:Hi;
      [|exists [], s, T, q; cbn; rewrite app_nil_r; split_and!; [done..|lia|done|lia]].
    destruct (sys_cpu_ok T q s i p Hs Hi) as (p' & ls & r & q' & -> & Hs' & -> & Hd). rewrite bind_Ret_nil.
    eexists ls, _, T, _. rewrite Hd. split_and!; [done..|cbn; lia|done|lia].
  - rewrite (si_half _ _ _ Hs). destruct Hs as [Hh Hr Hcount Hn H1 Hok]. destruct q as [|e q].
    + rewrite (kmod_next_empty _ _ _ Hr), bind_Ret_nil. eexists [], _, T, [].
      split_and!; [done|by split|done|cbn; lia|done|lia].
    + rewrite (kmod_next_front _ _ _ _ _ Hr) by auto. rewrite bind_Ret_nil. eexists [Delivered e], _, (T + 1), q.
      split_and!; [done| |by rewrite app_nil_r|done|done|lia].
      split; cbn [sy_half sy_ring sy_cpus sy_next]; try done; [by apply (ring_rep_pop _ e); auto|].
      intros i p Hi. eapply cpu_ok_pop, Hok, Hi.
Qed.

(** What the reader has begun counts as done: the state after its second
    store. *)
Definition settled (s : system) : system :=
  mk_system (sy_cpus s) (if sy_half s then tail_wrap (sy_ring s) else sy_ring s) (sy_next s) false.

Lemma settled_whole s : sy_half s = false → settled s = s.
Proof using. by destruct s; cbn; intros ->. Qed.

Lemma tail_wrap_head r : ri_head (kc_info (tail_wrap r)) = ri_head (kc_info r).
Proof using. unfold tail_wrap, with_info. cbn. by destruct (BUFFER_SIZE <? _). Qed.

Lemma tail_wrap_info f r :
  (∀ i, ri_tail (f i) = ri_tail i) → (∀ t i, f (set_tail t i) = set_tail t (f i)) →
  with_info f (tail_wrap r) = tail_wrap (with_info f r).
Proof using.
  intros Ht Hf. unfold tail_wrap, with_info. cbn. rewrite Ht. destruct (BUFFER_SIZE <? _); [by rewrite Hf|done].
Qed.

Lemma buffer_write_cases a bs r :
  (buffer_write a bs r = Ret [] (with_buffer (write_bytes (kc_buffer r) a bs) r)
   ∧ buffer_write a bs (tail_wrap r) = Ret [] (tail_wrap (with_buffer (write_bytes (kc_buffer r) a bs) r)))
  ∨ (buffer_write a bs r = Ub OutOfBounds ∧ buffer_write a bs (tail_wrap r) = Ub OutOfBounds).
Proof using. unfold buffer_write. change (buffer_room (tail_wrap r)) with (buffer_room r). destruct (_ && _); auto. Qed.

Lemma fill_event_wrap e size r :
  fill_event e size (tail_wrap r) = ('(next, r') ← fill_event e size r; mret (next, tail_wrap r')).
Proof using.
  unfold fill_event. rewrite tail_wrap_head. set (h := ri_head (kc_info r)). clearbody h.
  destruct (buffer_write_cases h (encode_event e) r) as [[-> ->]|[-> ->]]; [|by rewrite !bind_Ub].
  rewrite !bind_Ret_nil. set (r1 := with_buffer _ r). clearbody r1.
  change (kc_size (tail_wrap r1)) with (kc_size r1).
  destruct (kc_size r1 <=? wrap 32 (h + size)).
  - destruct (kc_size r1 <? wrap 32 (h + size)).
    + unfold buffer_read. change (kc_buffer (tail_wrap r1)) with (kc_buffer r1).
      destruct (read_bytes (kc_buffer r1) _ _) as [bs|]; [|done]. rewrite !from_opt_some.
      rewrite !bind_Ret_nil. destruct (buffer_write_cases 0 bs r1) as [[-> ->]|[-> ->]]; [|by rewrite !bind_Ub].
      rewrite !bind_Ret_nil, !bind_ret_l. by rewrite tail_wrap_info.
    + rewrite !bind_ret_l. by rewrite tail_wrap_info.
  - rewrite !bind_ret_l. by rewrite tail_wrap_info.
Qed.

(** All steps of a CPU but those that read the tail commute with the second
    store. *)
Lemma cpu_step_wrap p r :
  reads_tail p = false ∨ ri_tail (kc_info r) ≤ BUFFER_SIZE →
  cpu_step k cfg p (tail_wrap r) = ('(p', ls, r') ← cpu_step k cfg p r; mret (p', ls, tail_wrap r')).
Proof using no_args no_fds.
  intros H. destruct (reads_tail p) eqn:Hp.
  - destruct H as [|Ht]; [done|]. assert (tail_wrap r = r) as Hr.
    { unfold tail_wrap, with_info. apply Z.ltb_ge in Ht. rewrite Ht. by destruct r. }
    rewrite Hr. destruct p; try done; cbn [cpu_step].
    + by rewrite bind_ret_l, Hr.
    + by rewrite event_size_plain, bind_Ret_nil, add_fds_plain, bind_Ret_nil, bind_ret_l, Hr.
  - clear H. destruct p; try done; cbn [cpu_step]; rewrite ?bind_ret_l; try done.
    + destruct (free <? size); [by rewrite bind_ret_l|]. rewrite fill_event_wrap.
      by destruct (fill_event _ _ _) as [w [next r']| |]; cbn; rewrite ?app_nil_r.
    + unfold publish. by rewrite tail_wrap_info.
    + unfold tail_wrap, with_info. cbn. by destruct (BUFFER_SIZE <? _).
    + by rewrite tail_wrap_info.
Qed.

Definition nexts (acts : list action) : Z := Z.of_nat (length (List.filter is_read acts)).

Lemma pushed_labels_app l1 l2 : pushed (l1 ++ l2) = pushed l1 ++ pushed l2.
Proof using. apply omap_app. Qed.
Lemma delivered_labels_app l1 l2 : delivered (l1 ++ l2) = delivered l1 ++ delivered l2.
Proof using. apply omap_app. Qed.

(** A step of the system with a reader that may stand between its stores. *)
Lemma settled_step_ok T q s a :
  calm_step a s = true → well_formed_call a → sys_inv T q (settled s) → (is_read a = true → T ≤ 131) →
  ∃ ls s' T' q', sys_step k cfg a s = Ret [] (ls, s') ∧ sys_inv T' q' (settled s')
  ∧ q ++ pushed ls = delivered ls ++ q' ∧ T' = T + Z.of_nat (length (delivered ls)) ∧ T' ≤ T + Z.b2z (is_read a).
Proof using no_args no_fds.
  intros Hc Hw Hs HT. destruct (sy_half s) eqn:Hh.
  - destruct a as [i c|i| | |]; cbn [sys_step].
    + (* a call starts *)
      destruct (sys_step_ok T q (settled s) (Start i c) eq_refl Hw Hs) as (ls & s1 & T1 & q1 & Hst & Hs1 & Hq & HT1 & Hne & _); [done|].
      cbn [sys_step settled sy_cpus sy_ring sy_next sy_half] in Hst. rewrite Hh in Hst.
      destruct (sy_cpus s !! i) as [[]|]; try (injection Hst as <- <-; exists [], s, T1, q1; split_and!; [done..|];
        rewrite Hne by done; cbn; lia).
      injection Hst as <- <-. eexists [], _, T1, q1. split; [done|]. split_and!; [|done|done|rewrite Hne by done; cbn; lia].
      unfold settled. cbn. by rewrite Hh.
    + (* a CPU moves *)
      destruct (sys_step_ok T q (settled s) (Step i) eq_refl I Hs) as (ls & s1 & T1 & q1 & Hst & Hs1 & Hq & HT1 & Hne & _); [done|].
      cbn [sys_step settled sy_cpus sy_ring sy_next sy_half] in Hst. rewrite Hh in Hst.
      destruct (sy_cpus s !! i) as [p|] eqn:Hi;
        [|injection Hst as <- <-; exists [], s, T1, q1; split_and!; [done..|]; rewrite Hne by done; cbn; lia].
      unfold calm_step, tail_past in Hc. rewrite Hh, Hi in Hc. rewrite cpu_step_wrap in Hst.
      2: { destruct (reads_tail p); [|by left]. right.
           destruct (Z.ltb_spec BUFFER_SIZE (ri_tail (kc_info (sy_ring s)))); [done|lia]. }
      destruct (cpu_step k cfg p (sy_ring s)) as [w [[p' ls'] r']| |]; [|done..].
      cbn in Hst. rewrite ?app_nil_r in Hst. injection Hst as -> <- <-. rewrite bind_Ret_nil.
      eexists ls', _, T1, q1. split; [done|]. split_and!; [|done|done|rewrite Hne by done; cbn; lia].
      unfold settled. cbn. by rewrite Hh.
    + rewrite Hh. exists [], s, T, q. rewrite app_nil_r. split_and!; try done; cbn; lia.
    + rewrite Hh. exists [], s, T, q. rewrite app_nil_r. split_and!; try done; cbn; lia.
    + rewrite Hh. eexists [], _, T, q. rewrite app_nil_r. split_and!; [done| |done|cbn; lia|cbn; lia].
      unfold settled in *. rewrite Hh in Hs. done.
  - rewrite (settled_whole s Hh) in Hs. destruct (whole a) eqn:Ha.
    + destruct (sys_step_ok T q s a Ha Hw Hs) as (ls & s1 & T1 & q1 & Hst & Hs1 & Hq & HT1 & Hne & Hle);
        [intros ->; by apply HT|].
      exists ls, s1, T1, q1. rewrite (settled_whole s1) by apply Hs1. split_and!; try done.
      destruct a; try (rewrite Hne by done; cbn; lia); done.
    + destruct a; try done; cbn [sys_step]; rewrite Hh.
      2: { exists [], s, T, q. rewrite (settled_whole s Hh), app_nil_r. split_and!; try done; cbn; lia. }
      destruct (sys_step_ok T q s Next eq_refl I Hs) as (ls & s1 & T1 & q1 & Hst & Hs1 & Hq & HT1 & Hne & Hle);
        [intros _; by apply HT|].
      cbn [sys_step] in Hst. rewrite Hh in Hst. unfold linx_kmod_next in Hst.
      pose proof (si_ring _ _ _ Hs) as Hr. destruct q as [|e q].
      * pose proof (kmod_next_empty _ _ _ Hr) as He. unfold linx_kmod_next in He.
        destruct (next_read (sy_next s) (sy_ring s)) as [w [[e size]|]| |]; cbn in He, Hst |- *; try done.
        injection He as ->. injection Hst as <- <-. cbn. eexists [], _, T1, q1. split; [done|].
        rewrite (settled_whole s Hh). split_and!; try done. destruct s; cbn in *; by subst.
      * rewrite (next_read_front _ _ _ _ _ Hr) in Hst |- * by (by apply HT). rewrite !bind_Ret_nil in Hst.
        rewrite bind_ret_l in Hst. injection Hst as <- <-. rewrite bind_Ret_nil.
        eexists [Delivered e], _, T1, q1. split; [done|]. by split_and!.
Qed.

Lemma sys_run_ok acts T q s :
  calm k cfg acts s = true → Forall well_formed_call acts → sys_inv T q (settled s) → T + nexts acts ≤ 132 →
  ∃ ls s' T' q', sys_run k cfg acts s = Ret [] (ls, s') ∧ sys_inv T' q' (settled s')
  ∧ q ++ pushed ls = delivered ls ++ q' ∧ T' = T + Z.of_nat (length (delivered ls)).
Proof using no_args no_fds.
  revert T q s. induction acts as [|a acts IH]; intros T q s Hw Hc Hs HT.
  - exists [], s, T, q. cbn. rewrite app_nil_r. split_and!; [done..|lia].
  - cbn [calm] in Hw. apply andb_true_iff in Hw as [Ha Hw]. apply Forall_cons in Hc as [Hca Hc].
    assert (nexts (a :: acts) = nexts acts + Z.b2z (is_read a)) as Hna.
    { unfold nexts. cbn [List.filter]. destruct (is_read a); cbn [length Z.b2z]; lia. }
    assert (0 ≤ nexts acts) as H0 by (unfold nexts; lia).
    destruct (settled_step_ok T q s a Ha Hca Hs) as (l1 & s1 & T1 & q1 & Hst & Hs1 & Hq1 & HT1 & Hle).
    { intros Hr. rewrite Hr in Hna. cbn in Hna. lia. }
    rewrite Hst in Hw.
    destruct (IH T1 q1 s1 Hw Hc Hs1) as (l2 & s2 & T2 & q2 & Hrun & Hs2 & Hq2 & HT2); [lia|].
    exists (l1 ++ l2), s2, T2, q2. cbn [sys_run]. rewrite Hst, bind_Ret_nil, Hrun, bind_Ret_nil.
    split_and!; [done..| |].
    + rewrite pushed_labels_app, delivered_labels_app, app_assoc, Hq1, <- !app_assoc. by rewrite Hq2.
    + rewrite delivered_labels_app, length_app. lia.
Qed.
End steps.

(** ** Theorems *)

(** A ring that was just opened, [n] CPUs and a reader. *)
Definition fresh_system (n : nat) (r : kmod_ringbuffer_ctx) : system :=
  mk_system (replicate n Idle) (set_open true r) 0 false.

Lemma busy_fresh n : busy_cpus (replicate n Idle) = 0%nat.
Proof. induction n; cbn; lia. Qed.

Lemma init_ring_rep r : linx_init_ringbuffer true true BUFFER_SIZE = Some r → ring_rep 0 [] 0 (set_open true r).
Proof.
  unfold linx_init_ringbuffer. cbn [andb]. set (m := zero_buffer (BUFFER_SIZE + 2 * PAGE_SIZE)).
  assert (∀ x, 0 ≤ x < BUFFER_SIZE + 2 * PAGE_SIZE → is_Some (m !! x)) as Hm by (intros; by apply zero_buffer_dom).
  clearbody m. intros [= <-]. split; cbn [kc_size kc_info kc_buffer set_open ri_head ri_tail length]; try done; lia.
Qed.

Lemma fresh_inv n r :
  linx_init_ringbuffer true true BUFFER_SIZE = Some r → Z.of_nat n < 2 ^ 31 → sys_inv 0 [] (fresh_system n r).
Proof.
  intros Hr Hn. split; cbn [fresh_system sy_half sy_ring sy_cpus sy_next]; try done.
  - by apply init_ring_rep.
  - rewrite busy_fresh. by injection Hr as <-.
  - by rewrite length_replicate.
  - intros i j p p' Hi _ Hp. by apply lookup_replicate in Hi as [-> _].
  - intros i p Hi. by apply lookup_replicate in Hi as [-> _].
Qed.

(** C9: the ring is a queue.  Whatever the CPUs and the reader do in whatever
    order, the reader cut between its two stores of the tail, no access fails
    and the reader gets the recorded events, each one once, unchanged and in
    the order in which they were published; at most 66 wait in the ring.  This
    is so as long as the reader has not come to the end of its mapping
    ([nexts]) and no CPU reads the tail while the reader has stored it past
    the end of the buffer and not yet wrapped it ([calm]): a CPU that does can
    overwrite events that wait ([tail_store_race]). *)
Theorem kmod_ring_fifo (k : kmod_env) (cfg : kmod_consumer_config) (n : nat) (r : kmod_ringbuffer_ctx)
    (acts : list action) :
  cc_args_enable cfg = 0 → cc_fds_enabel cfg = 0 →
  linx_init_ringbuffer true true BUFFER_SIZE = Some r → Z.of_nat n < 2 ^ 31 →
  calm k cfg acts (fresh_system n r) = true → Forall well_formed_call acts → nexts acts ≤ 132 →
  ∃ ls s q, sys_run k cfg acts (fresh_system n r) = Ret [] (ls, s)
  ∧ pushed ls = delivered ls ++ q ∧ (length q ≤ 66)%nat.
Proof.
  intros Ha Hf Hr Hn Hw Hc HT.
  destruct (sys_run_ok k cfg Ha Hf acts 0 [] (fresh_system n r) Hw Hc) as (ls & s & T & q & Hrun & Hs & Hq & _);
    [by apply fresh_inv|lia|].
  exists ls, s, q. split; [done|]. split; [done|]. eapply rr_len, si_ring, Hs.
Qed.

(** The counter keeps all but one CPU out of the ring, in every state that
    such a run reaches. *)
Theorem kmod_ring_exclusive (k : kmod_env) (cfg : kmod_consumer_config) (n : nat) (r : kmod_ringbuffer_ctx)
    (acts : list action) :
  cc_args_enable cfg = 0 → cc_fds_enabel cfg = 0 →
  linx_init_ringbuffer true true BUFFER_SIZE = Some r → Z.of_nat n < 2 ^ 31 →
  calm k cfg acts (fresh_system n r) = true → Forall well_formed_call acts → nexts acts ≤ 132 →
  ∃ ls s, sys_run k cfg acts (fresh_system n r) = Ret [] (ls, s) ∧
  ∀ i j p p', sy_cpus s !! i = Some p → sy_cpus s !! j = Some p' → inside p = true → inside p' = true → i = j.
Proof.
  intros Ha Hf Hr Hn Hw Hc HT.
  destruct (sys_run_ok k cfg Ha Hf acts 0 [] (fresh_system n r) Hw Hc) as (ls & s & T & q & Hrun & Hs & _);
    [by apply fresh_inv|lia|].
  exists ls, s. split; [done|]. apply (si_one _ _ _ Hs).
Qed.

(** The reader's place is never moved back, so after 132 events the next
    one is beyond what is mapped and the program dies. *)
Theorem kmod_reader_leaves_mapping (k : kmod_env) (cfg : kmod_consumer_config) (n : nat) (r : kmod_ringbuffer_ctx)
    (acts : list action) :
  cc_args_enable cfg = 0 → cc_fds_enabel cfg = 0 →
  linx_init_ringbuffer true true BUFFER_SIZE = Some r → Z.of_nat n < 2 ^ 31 →
  calm k cfg acts (fresh_system n r) = true → Forall well_formed_call acts → nexts acts ≤ 132 →
  ∃ ls s, sys_run k cfg acts (fresh_system n r) = Ret [] (ls, s) ∧
  (length (delivered ls) = 132%nat → (132 < length (pushed ls))%nat → sy_half s = false →
   sys_step k cfg Next s = Ub BadAddress).
Proof.
  intros Ha Hf Hr Hn Hw Hc HT.
  destruct (sys_run_ok k cfg Ha Hf acts 0 [] (fresh_system n r) Hw Hc) as (ls & s & T & q & Hrun & Hs & Hq & HTd);
    [by apply fresh_inv|lia|].
  exists ls, s. split; [done|]. intros Hd Hp Hh. cbn [app] in Hq. rewrite Hq, length_app in Hp.
  rewrite Hd in HTd. destruct q as [|e q]; [cbn in Hp; lia|]. rewrite (settled_whole s Hh) in Hs.
  cbn [sys_step]. rewrite Hh. pose proof (si_ring _ _ _ Hs) as Hring. subst T.
  by rewrite (kmod_next_past e q _ _ Hring).
Qed.

(** The whole call on a ring that no other CPU uses. *)
Lemma record_event_room k cfg task args evt T q next r :
  cc_args_enable cfg = 0 → cc_fds_enabel cfg = 0 → ring_rep T q next r → kc_preempt_count r = 0 → event_ok evt →
  (length q ≤ 65)%nat →
  ∃ r', linx_record_event k cfg task args evt r = Ret [] (1, set_len EVENT_HEADER_SIZE evt, r')
  ∧ ring_rep T (q ++ [set_len EVENT_HEADER_SIZE evt]) next r' ∧ kc_preempt_count r' = 0
  ∧ ri_n_evts (kc_info r') = wrap 64 (ri_n_evts (kc_info r) + 1)
  ∧ ri_n_drop_evts (kc_info r') = ri_n_drop_evts (kc_info r).
Proof.
  intros Ha Hf Hr Hc He Hq. unfold linx_record_event, enter. rewrite Hc.
  set (r1 := with_count (sext 32 (0 + 1)) r).
  assert (ring_rep T q next r1) as Hr1 by by eapply ring_rep_same.
  change (sext 32 (0 + 1) =? 1) with true. cbn [negb].
  rewrite (free_space_exact T q next r1 Hr1), event_size_plain, bind_Ret_nil, add_fds_plain, bind_Ret_nil by done.
  destruct (Z.ltb_spec (BUFFER_SIZE - 1 - EVENT_HEADER_SIZE * Z.of_nat (length q)) EVENT_HEADER_SIZE); [mods|].
  pose proof (recorded_set_len _ He) as Hrec.
  destruct (fill_event_rep T q next r1 _ Hr1 Hq (proj1 Hrec)) as (r2 & -> & Hr2 & Hh & Hc2 & Hn & Hd).
  rewrite bind_Ret_nil. eexists. split; [done|]. split; [|split; [|done]].
  - eapply ring_rep_same; [by apply publish_rep|done..].
  - by rewrite (leave_count _ 1) by done.
Qed.

Lemma record_event_full k cfg task args evt T q next r :
  cc_args_enable cfg = 0 → cc_fds_enabel cfg = 0 → ring_rep T q next r → kc_preempt_count r = 0 →
  length q = 66%nat →
  linx_record_event k cfg task args evt r = Ret [] (0, set_len 0 evt, count_drop r).
Proof.
  intros Ha Hf Hr Hc Hq. unfold linx_record_event, enter. rewrite Hc.
  set (r1 := with_count (sext 32 (0 + 1)) r).
  assert (ring_rep T q next r1) as Hr1 by by eapply ring_rep_same.
  change (sext 32 (0 + 1) =? 1) with true. cbn [negb].
  rewrite (free_space_exact T q next r1 Hr1), event_size_plain, bind_Ret_nil, add_fds_plain, bind_Ret_nil by done.
  rewrite Hq. change (_ <? EVENT_HEADER_SIZE) with true. unfold mret, outcome_ret. do 2 f_equal.
  unfold r1, leave, count_drop, with_count, with_info. cbn. destruct r. cbn in *. by subst.
Qed.

Lemma record_event_busy k cfg task args evt r :
  0 < kc_preempt_count r < 2 ^ 31 - 1 → linx_record_event k cfg task args evt r = Ret [] (0, evt, r).
Proof.
  intros Hc. unfold linx_record_event, enter. rewrite sext_small by lia.
  destruct (Z.eqb_spec (kc_preempt_count r + 1) 1); [lia|]. cbn [negb]. unfold leave, with_count. cbn.
  rewrite Z.add_simpl_r, sext_small by lia. by destruct r.
Qed.

(** A CPU alone for [n] steps. *)
Fixpoint cpu_finish (k : kmod_env) (cfg : kmod_consumer_config) (n : nat) (p : cpu) (r : kmod_ringbuffer_ctx)
    : outcome (cpu * list label * kmod_ringbuffer_ctx) :=
  match n with
  | O => mret (p, [], r)
  | S n =>
      '(p, l1, r) ← cpu_step k cfg p r; '(p, l2, r) ← cpu_finish k cfg n p r; mret (p, l1 ++ l2, r)
  end.

Definition outcome_of (res : Z) (evt : event_header_t) : list label := if res =? 1 then [Pushed evt] else [].

(** C18: a call of [linx_record_event] that nobody disturbs, on a ring that
    holds the events [q] from the [T]-th on.  With room, that is with less
    than 66 of them, it answers 1 and the ring then holds [q] and the new
    event, whole and behind them, its length set, and one event more is
    counted; without, it answers 0, one drop more is counted and nothing else
    in the ring changes.  On a ring in which another CPU stands it answers 0
    and changes nothing.  And for every configuration, state and fault the
    steps into which the call is cut for the interleavings do the same. *)
Theorem record_event_solo (k : kmod_env) (cfg : kmod_consumer_config) (c : probe_call) (r : kmod_ringbuffer_ctx) :
  (cc_args_enable cfg = 0 → cc_fds_enabel cfg = 0 → event_ok (pr_evt c) →
   ∀ T q next, ring_rep T q next r →
     if decide (kc_preempt_count r = 0) then
       if decide (length q < 66)%nat then
         ∃ r', linx_record_event k cfg (pr_task c) (pr_args c) (pr_evt c) r
               = Ret [] (1, set_len EVENT_HEADER_SIZE (pr_evt c), r')
         ∧ ring_rep T (q ++ [set_len EVENT_HEADER_SIZE (pr_evt c)]) next r' ∧ kc_preempt_count r' = 0
         ∧ ri_n_evts (kc_info r') = wrap 64 (ri_n_evts (kc_info r) + 1)
         ∧ ri_n_drop_evts (kc_info r') = ri_n_drop_evts (kc_info r)
       else linx_record_event k cfg (pr_task c) (pr_args c) (pr_evt c) r
            = Ret [] (0, set_len 0 (pr_evt c), with_info (set_n_drop (wrap 64 (ri_n_drop_evts (kc_info r) + 1))) r)
     else 0 < kc_preempt_count r < 2 ^ 31 - 1 →
          linx_record_event k cfg (pr_task c) (pr_args c) (pr_evt c) r = Ret [] (0, pr_evt c, r))
  ∧ (let '(p, r1) := cpu_start c r in cpu_finish k cfg 6 p r1)
    = ('(res, evt, r') ← linx_record_event k cfg (pr_task c) (pr_args c) (pr_evt c) r;
       mret (Idle, outcome_of res evt, r')).
Proof.
  split.
  - intros Ha Hf He T q next Hr. case_decide as Hc; [case_decide as Hq|].
    + apply record_event_room; try done. lia.
    + assert (length q = 66%nat) as H66 by (pose proof (rr_len _ _ _ _ Hr); lia).
      by rewrite (record_event_full k cfg _ _ _ T q next r Ha Hf Hr Hc H66).
    + intros Hb. by apply record_event_busy.
  - unfold cpu_start, linx_record_event. destruct (enter r) as [[] r1]; cbn [negb]; [|done].
    destruct (event_size k cfg (pr_evt c) (pr_args c)) as [w1 size| |] eqn:Es; cbn; rewrite Es; [|done..].
    destruct (add_fds cfg (pr_task c) (pr_evt c)) as [w2 evt| |] eqn:Ef; cbn; rewrite ?Ef; [|done..].
    cbn. destruct (free_space (tail_ahead r1) r1 <? size); [cbn; by rewrite ?app_nil_r|].
    destruct (fill_event (set_len size evt) size r1) as [w3 [next r2]| |]; cbn; by rewrite ?app_nil_r, ?app_assoc.
Qed.

(** ** Examples *)
Lemma sample_event_ok ts : fits 64 ts → event_ok (sample_event ts).
Proof.
  intros Ht. constructor; cbn [sample_event ke_ts ke_type ke_syscall_nr ke_pid ke_tid ke_user ke_len ke_ppid ke_res
    ke_net ke_net_flag ke_proc ke_pp_proc ke_cmdline ke_fd_val];
    first [done|apply zero_chars_ok|unfold fits, int_ok, NR_openat; lia|idtac].
  split; [done|]. by apply Forall_replicate.
Qed.

(** Two CPUs at once, of which the second is turned away, and a reader that
    comes too early and then in time. *)
Definition sample_run : list action :=
  [sample_start 0 1; Next; sample_start 1 2; Step 1; Step 0; Step 0; Step 0; Next; Step 0; Next; Step 0; sample_start 1 3].

Lemma sample_run_ok : Forall well_formed_call sample_run.
Proof.
  unfold sample_run. repeat (apply Forall_cons; split; [first [exact I|apply sample_event_ok; unfold fits; lia]|]).
  by apply Forall_nil.
Qed.

Definition sample_ring : kmod_ringbuffer_ctx :=
  mk_ring_ctx (mk_ring_info 0 0 0 0) (zero_buffer (BUFFER_SIZE + 2 * PAGE_SIZE)) BUFFER_SIZE 0 false.

Lemma sample_ring_init : linx_init_ringbuffer true true BUFFER_SIZE = Some sample_ring.
Proof. unfold linx_init_ringbuffer, sample_ring. cbn [andb]. reflexivity. Qed.

(** The first event of a fresh ring. *)
Example record_event_solo_ex :
  ∃ r', linx_record_event sample_env sample_cfg sample_task [] (sample_event 5) (set_open true sample_ring)
        = Ret [] (1, set_len EVENT_HEADER_SIZE (sample_event 5), r')
  ∧ ring_rep 0 [set_len EVENT_HEADER_SIZE (sample_event 5)] 0 r'.
Proof.
  destruct (proj1 (record_event_solo sample_env sample_cfg (mk_call sample_task [] (sample_event 5)) (set_open true sample_ring))
    eq_refl eq_refl (sample_event_ok 5 ltac:(unfold fits; lia)) 0 [] 0 (init_ring_rep _ sample_ring_init))
    as (r' & Hrun & Hrep & _).
  exists r'. split; [exact Hrun|exact Hrep].
Defined.

Example kmod_ring_exclusive_ex :
  ∃ ls s, sys_run sample_env sample_cfg sample_run (fresh_system 2 sample_ring) = Ret [] (ls, s) ∧
  ∀ i j p p', sy_cpus s !! i = Some p → sy_cpus s !! j = Some p' → inside p = true → inside p' = true → i = j.
Proof.
  apply (kmod_ring_exclusive sample_env sample_cfg 2 sample_ring sample_run); [reflexivity..| | | | | ].
  - exact sample_ring_init.
  - reflexivity.
  - reflexivity.
  - exact sample_run_ok.
  - vm_compute. discriminate.
Defined.

Lemma sample_push_ok l : Forall well_formed_call (concat (sample_push <$> seq 0 (l `mod` 200))).
Proof.
  apply Forall_concat, Forall_fmap, Forall_forall. intros i Hi. apply elem_of_seq in Hi.
  pose proof (Nat.mod_upper_bound l 200 ltac:(done)).
  apply Forall_cons. split; [|by repeat (apply Forall_cons; split; [exact I|]); apply Forall_nil].
  apply sample_event_ok. unfold fits. lia.
Qed.

(** The 67th event is read in two parts: the tail lies past the end of the
    buffer while a CPU publishes the 68th. *)
Definition split_run : list action :=
  concat (sample_push <$> seq 0 66) ++ replicate 66 Next ++ concat (sample_push <$> seq 0 1)
  ++ sample_start 0 67 :: steps 0 3 ++ NextFirst :: steps 0 2 ++ [NextSecond; Next].

Lemma split_run_ok : Forall well_formed_call split_run.
Proof.
  unfold split_run. rewrite !Forall_app.
  split_and!; [exact (sample_push_ok 66)|by apply Forall_replicate|exact (sample_push_ok 1)|].
  repeat (apply Forall_cons; split; [first [exact I|apply sample_event_ok; unfold fits; lia]|]). by apply Forall_nil.
Qed.

Example kmod_ring_fifo_ex :
  ∃ ls s q, sys_run sample_env sample_cfg split_run (fresh_system 1 sample_ring) = Ret [] (ls, s)
  ∧ pushed ls = delivered ls ++ q ∧ (length q ≤ 66)%nat.
Proof.
  apply (kmod_ring_fifo sample_env sample_cfg 1 sample_ring split_run); [reflexivity..| | | | | ].
  - exact sample_ring_init.
  - reflexivity.
  - vm_compute. reflexivity.
  - exact split_run_ok.
  - vm_compute. discriminate.
Defined.

(** In that run all 68 events are delivered, and the tail was past the end. *)
Lemma split_run_counts :
  match sys_run sample_env sample_cfg split_run (fresh_system 1 sample_ring),
        sys_run sample_env sample_cfg (take (length split_run - 2) split_run) (fresh_system 1 sample_ring) with
  | Ret _ (ls, _), Ret _ (_, s) => length (pushed ls) = 68%nat ∧ length (delivered ls) = 68%nat ∧ tail_past s = true
  | _, _ => False
  end.
Proof. vm_compute. done. Qed.

(** 66 events in, 66 out, twice, and one more. *)
Definition long_run : list action :=
  concat (sample_push <$> seq 0 66) ++ replicate 66 Next ++ concat (sample_push <$> seq 0 66) ++ replicate 66 Next
  ++ concat (sample_push <$> seq 0 1).

Lemma long_run_ok : Forall well_formed_call long_run.
Proof.
  unfold long_run. rewrite !Forall_app.
  split_and!; first [exact (sample_push_ok 66)|exact (sample_push_ok 1)|by apply Forall_replicate].
Qed.

Example kmod_reader_leaves_mapping_ex :
  ∃ ls s, sys_run sample_env sample_cfg long_run (fresh_system 1 sample_ring) = Ret [] (ls, s) ∧
  (length (delivered ls) = 132%nat → (132 < length (pushed ls))%nat → sy_half s = false →
   sys_step sample_env sample_cfg Next s = Ub BadAddress).
Proof.
  apply (kmod_reader_leaves_mapping sample_env sample_cfg 1 sample_ring long_run); [reflexivity..| | | | | ].
  - exact sample_ring_init.
  - reflexivity.
  - vm_compute. reflexivity.
  - exact long_run_ok.
  - vm_compute. discriminate.
Defined.

(** The run above is such a run. *)
Lemma long_run_counts :
  match sys_run sample_env sample_cfg long_run (fresh_system 1 sample_ring) with
  | Ret w (ls, s) => length (delivered ls) = 132%nat ∧ length (pushed ls) = 133%nat
      ∧ sys_step sample_env sample_cfg Next s = Ub BadAddress
  | _ => False
  end.
Proof. vm_compute. done. Qed.

(** The reader's two stores of the tail: between them the producers take the
    tail for one past the end and overwrite what has not been read.  A length
    of zero is then all the reader finds, from which it never goes on. *)
Lemma tail_store_race :
  match sys_run sample_env sample_cfg (overrun ++ [Next; Next]) (fresh_system 1 sample_ring) with
  | Ret w (ls, _) => w = [] ∧ length (pushed ls) = 134%nat ∧ length (delivered ls) = 67%nat
      ∧ calm sample_env sample_cfg (overrun ++ [Next; Next]) (fresh_system 1 sample_ring) = false
  | _ => False
  end.
Proof. vm_compute. done. Qed.
