(* ===== verification/KmodDevice.v ===== *)
(** * The device of the kernel module (kernel/kmod/kernel/sysmon_main.c)

    A consumer is what one process opened: a ring, a configuration and a mask
    of system calls.  The consumers are structures in memory, linked in a list
    that the probes walk; [linx_kmod_open], [linx_kmod_ioctl] and
    [linx_kmod_release] hold a mutex.  The model runs calls one after another,
    so a call that finds the mutex taken waits for ever: [Blocks]. *)
From S2P Require Import Prelude CString Memory KmodCodes KmodEvent KmodRing.

#[local] Open Scope Z_scope.

(** ** Data *)
Definition MAX_SYSCALLS_NUM : Z := 512.
Definition SYSMON_TP_MAX : Z := 3.

Definition EBADF : Z := 9.
Definition ENOMEM : Z := 12.
Definition EAGAIN : Z := 11.
Definition EFAULT : Z := 14.
Definition EBUSY : Z := 16.
Definition ENODEV : Z := 19.
Definition EINVAL : Z := 22.
Definition ENOTTY : Z := 25.

(** [_IO('l', n)] *)
Definition IO_l (n : Z) : Z := Z.lor (Z.shiftl 108 8) n.
Definition SYSMON_IOCTL_DISABLE_DROPPING_MODE : Z := IO_l 0.
Definition SYSMON_IOCTL_ENABLE_DROPPING_MODE : Z := IO_l 1.
Definition SYSMON_IOCTL_GET_VTID : Z := IO_l 2.
Definition SYSMON_IOCTL_GTE_PID : Z := IO_l 3.
Definition SYSMON_IOCTL_GTE_CURRENT_TID : Z := IO_l 4.
Definition SYSMON_IOCTL_GTE_CURRENT_PID : Z := IO_l 5.
Definition SYSMON_IOCTL_ENABLE_SYSCALL : Z := IO_l 6.
Definition SYSMON_IOCTL_DISABLE_SYSCALL : Z := IO_l 7.
Definition SYSMON_IOCTL_ENABLE_TP : Z := IO_l 8.
Definition SYSMON_IOCTL_DISABLE_TP : Z := IO_l 9.
Definition SYSMON_IOCTL_ENABLE_REAL_ARGS : Z := IO_l 10.
Definition SYSMON_IOCTL_DISABLE_REAL_ARGS : Z := IO_l 11.
Definition SYSMON_IOCTL_ENABLE_FDS : Z := IO_l 12.
Definition SYSMON_IOCTL_DISABLE_FDS : Z := IO_l 13.

(** [cn_task] names the process that opened the device. *)
Record linx_kmod_consumer := mk_consumer {
  cn_task : Z;
  cn_ring : kmod_ringbuffer_ctx;
  cn_cfg : kmod_consumer_config;
  cn_mask : gset Z
}.

Definition set_cn_ring (r : kmod_ringbuffer_ctx) (c : linx_kmod_consumer) : linx_kmod_consumer :=
  mk_consumer (cn_task c) r (cn_cfg c) (cn_mask c).
Definition set_cn_cfg (cfg : kmod_consumer_config) (c : linx_kmod_consumer) : linx_kmod_consumer :=
  mk_consumer (cn_task c) (cn_ring c) cfg (cn_mask c).
Definition set_cn_mask (m : gset Z) (c : linx_kmod_consumer) : linx_kmod_consumer :=
  mk_consumer (cn_task c) (cn_ring c) (cn_cfg c) m.

(** The globals and the consumers that are allocated, by address. *)
Record kmod_state := mk_kmod_state {
  ks_heap : gmap nat linx_kmod_consumer;
  linx_consumer_list : list nat;
  g_consumer_mutex : bool;      (* taken *)
  g_tracepoints_flags : Z;
  g_kmod_numdevs : Z;
  g_buffer_size : Z
}.

Definition set_heap (h : gmap nat linx_kmod_consumer) (st : kmod_state) : kmod_state :=
  mk_kmod_state h (linx_consumer_list st) (g_consumer_mutex st) (g_tracepoints_flags st) (g_kmod_numdevs st) (g_buffer_size st).
Definition set_list (l : list nat) (st : kmod_state) : kmod_state :=
  mk_kmod_state (ks_heap st) l (g_consumer_mutex st) (g_tracepoints_flags st) (g_kmod_numdevs st) (g_buffer_size st).
Definition set_mutex (b : bool) (st : kmod_state) : kmod_state :=
  mk_kmod_state (ks_heap st) (linx_consumer_list st) b (g_tracepoints_flags st) (g_kmod_numdevs st) (g_buffer_size st).
Definition set_flags (f : Z) (st : kmod_state) : kmod_state :=
  mk_kmod_state (ks_heap st) (linx_consumer_list st) (g_consumer_mutex st) f (g_kmod_numdevs st) (g_buffer_size st).

Inductive reply := Returns (ret : Z) | Blocks.

(** ** Opening and releasing *)

(** What the allocations answer: the consumer, the ring, and its two areas. *)
Record open_allocs := mk_open_allocs { oa_consumer : bool; oa_ring : bool; oa_buffer : bool; oa_info : bool }.

Definition linx_kmod_find_consumer (task : Z) (st : kmod_state) : option nat :=
  List.find (λ a, match ks_heap st !! a with Some c => cn_task c =? task | None => false end) (linx_consumer_list st).

Definition all_disabled : kmod_consumer_config := mk_consumer_config 0 0 0.

(** The reply, what [private_data] is set to, and the state.  The jump for a
    wrong minor number unlocks a mutex that was not locked; a ring that cannot
    be allocated leaves the answer at 0. *)
Definition linx_kmod_open (minor task : Z) (allocs : open_allocs) (st : kmod_state)
    : reply * option nat * kmod_state :=
  if g_kmod_numdevs st <=? minor then (Returns (- ENODEV), None, set_mutex false st)
  else if g_consumer_mutex st then (Blocks, None, st)
  else match linx_kmod_find_consumer task st with
  | None =>
      if negb (oa_consumer allocs) then (Returns (- ENOMEM), None, st)
      else if negb (oa_ring allocs) then (Returns (- ENOMEM), None, st)
      else match linx_init_ringbuffer (oa_buffer allocs) (oa_info allocs) (g_buffer_size st) with
      | None => (Returns 0, None, st)
      | Some ring =>
          let a := fresh (dom (ks_heap st)) in
          let c := mk_consumer task (set_open true ring) all_disabled ∅ in
          (Returns 0, Some a, set_list (a :: linx_consumer_list st) (set_heap (<[a := c]> (ks_heap st)) st))
      end
  | Some a =>
      match ks_heap st !! a with
      | Some c =>
          if kc_open (cn_ring c) then (Returns (- EBUSY), None, st)
          else
            let c := set_cn_cfg all_disabled (set_cn_ring (set_open true (cn_ring c)) c) in
            (Returns 0, Some a, set_heap (<[a := c]> (ks_heap st)) st)
      | None => (Returns 0, None, st)
      end
  end.

Definition linx_kmod_release (private_data : option nat) (st : kmod_state) : reply * kmod_state :=
  if g_consumer_mutex st then (Blocks, st)
  else match private_data with
  | None => (Returns 0, st)
  | Some a =>
      (Returns 0, set_list (List.filter (λ b, negb (a =? b)%nat) (linx_consumer_list st))
                    (set_heap (delete a (ks_heap st)) st))
  end.

(** ** Control *)

(** What a call of [ioctl] finds: the word at [arg], if it can be read, the
    numbers of the caller, and the process ids: with the task's thread and
    process number in its name space, or without a task. *)
Record ioctl_env := mk_ioctl_env {
  ie_word : Z → option Z;
  ie_current_tid : Z;
  ie_current_pid : Z;
  ie_find_pid : Z → option (option (Z * Z))
}.

Definition with_args (n : Z) (cfg : kmod_consumer_config) : kmod_consumer_config :=
  mk_consumer_config n (cc_fds_enabel cfg) (cc_drop_enabel cfg).
Definition with_fds (n : Z) (cfg : kmod_consumer_config) : kmod_consumer_config :=
  mk_consumer_config (cc_args_enable cfg) n (cc_drop_enabel cfg).
Definition with_drop (n : Z) (cfg : kmod_consumer_config) : kmod_consumer_config :=
  mk_consumer_config (cc_args_enable cfg) (cc_fds_enabel cfg) n.

(** The switch: the answer, whether the mutex is unlocked, the consumer and the
    flags.  The two cases that return at once keep the mutex. *)
Definition ioctl_switch (env : ioctl_env) (cmd arg syscall_nr flags : Z) (c : linx_kmod_consumer)
    : Z * bool * linx_kmod_consumer * Z :=
  let same ret := (ret, true, c, flags) in
  let config f := (0, true, set_cn_cfg (f (cn_cfg c)) c, flags) in
  if (cmd =? SYSMON_IOCTL_GTE_PID) || (cmd =? SYSMON_IOCTL_GET_VTID) then
    match ie_find_pid env arg with
    | None | Some None => same (- EINVAL)
    | Some (Some (tid, tgid)) => same (if cmd =? SYSMON_IOCTL_GET_VTID then tid else tgid)
    end
  else if cmd =? SYSMON_IOCTL_GTE_CURRENT_TID then same (ie_current_tid env)
  else if cmd =? SYSMON_IOCTL_GTE_CURRENT_PID then same (ie_current_pid env)
  else if cmd =? SYSMON_IOCTL_ENABLE_SYSCALL then
    if MAX_SYSCALLS_NUM <=? syscall_nr then same (- EINVAL)
    else (0, true, set_cn_mask ({[syscall_nr]} ∪ cn_mask c) c, flags)
  else if cmd =? SYSMON_IOCTL_DISABLE_SYSCALL then
    if MAX_SYSCALLS_NUM <=? syscall_nr then same (- EINVAL)
    else (0, true, set_cn_mask (cn_mask c ∖ {[syscall_nr]}) c, flags)
  else if cmd =? SYSMON_IOCTL_ENABLE_TP then
    if SYSMON_TP_MAX <=? arg then same (- EINVAL) else (0, true, c, Z.lor flags (Z.shiftl 1 arg))
  else if cmd =? SYSMON_IOCTL_DISABLE_TP then
    if SYSMON_TP_MAX <=? arg then same (- EINVAL) else (0, true, c, Z.ldiff flags (Z.shiftl 1 arg))
  else if cmd =? SYSMON_IOCTL_DISABLE_DROPPING_MODE then config (with_drop 0)
  else if cmd =? SYSMON_IOCTL_ENABLE_DROPPING_MODE then config (with_drop 1)
  else if cmd =? SYSMON_IOCTL_ENABLE_FDS then (0, false, c, flags)
  else if cmd =? SYSMON_IOCTL_DISABLE_FDS then config (with_fds 0)
  else if cmd =? SYSMON_IOCTL_ENABLE_REAL_ARGS then (0, false, c, flags)
  else if cmd =? SYSMON_IOCTL_DISABLE_REAL_ARGS then config (with_args 0)
  else same (- ENOTTY).

(** A file whose consumer is freed is no state of the system: a release is the
    last call on a file. *)
Definition linx_kmod_ioctl (env : ioctl_env) (private_data : option nat) (cmd arg : Z) (st : kmod_state)
    : outcome (reply * kmod_state) :=
  match private_data with
  | None => mret (Returns (- EBADF), st)
  | Some a =>
      match ie_word env arg with
      | None => mret (Returns (- EFAULT), st)
      | Some syscall_nr =>
          if g_consumer_mutex st then mret (Blocks, st)
          else
            c ← from_opt BadAddress (ks_heap st !! a);
            let '(ret, unlock, c, flags) := ioctl_switch env cmd arg syscall_nr (g_tracepoints_flags st) c in
            mret (Returns ret, set_mutex (negb unlock) (set_flags flags (set_heap (<[a := c]> (ks_heap st)) st)))
      end
  end.

(** ** Mapping *)

(** What is mapped: nothing, the page of the head and the tail, or pages of the
    buffer by number. *)
Inductive mapping := NoPages | InfoPage | BufferPages (pages : list Z).

Definition half_pages (mlen : Z) : list Z := Z.of_nat <$> seq 0 (Z.to_nat ((mlen + PAGE_SIZE - 1) / PAGE_SIZE)).

(** [remap_ok] tells whether mapping the n-th page succeeds. *)
Definition linx_kmod_mmap (remap_ok : Z → bool) (private_data : option nat) (len : Z) (st : kmod_state)
    : outcome (Z * mapping) :=
  match private_data with
  | None => mret (- EBADF, NoPages)
  | Some a =>
      c ← from_opt BadAddress (ks_heap st !! a);
      let size := kc_size (cn_ring c) in
      if wrap 32 (size * 2) <? len then mret (- EINVAL, NoPages)
      else if len <=? PAGE_SIZE then
        if remap_ok 0 then mret (0, InfoPage) else mret (- EAGAIN, NoPages)
      else if len =? wrap 32 (size * 2) then
        let half := half_pages (len / 2) in
        if forallb remap_ok (Z.of_nat <$> seq 0 (2 * length half)) then mret (0, BufferPages (half ++ half))
        else mret (- EAGAIN, NoPages)
      else mret (0, NoPages)
  end.

(** Where a user's address lies in the buffer. *)
Definition mapped_address (m : mapping) (u : Z) : option Z :=
  match m with
  | BufferPages pages =>
      if u <? 0 then None
      else page ← pages !! Z.to_nat (u / PAGE_SIZE); Some (page * PAGE_SIZE + u `mod` PAGE_SIZE)
  | _ => None
  end.

(** ** The probes *)
Fixpoint record_all (k : kmod_env) (task : kmod_task) (args : list Z) (evt : event_header_t) (l : list nat)
    (h : gmap nat linx_kmod_consumer) : outcome (gmap nat linx_kmod_consumer) :=
  match l with
  | [] => mret h
  | a :: l =>
      c ← from_opt BadAddress (h !! a);
      '(_, evt, r) ← linx_record_event k (cn_cfg c) task args evt (cn_ring c);
      record_all k task args evt l (<[a := set_cn_ring r c]> h)
  end.

(** The state and the depth of read-side critical sections after the probe. *)
Definition sys_enter_probe (k : kmod_env) (task : kmod_task) (args : list Z) (id rcu : Z) (st : kmod_state)
    : outcome (kmod_state * Z) :=
  if id <? 0 then mret (st, rcu)
  else if negb (linx_trace_syscall id) then mret (st, rcu)
  else
    '(hdr, rcu) ← probe_header k task id SYSCALL_ENTER 0 rcu;
    let hdr := if linx_net_syscall id then linx_net_info k args id hdr else hdr in
    h ← record_all k task args hdr (linx_consumer_list st) (ks_heap st);
    mret (set_heap h st, rcu).

Definition sys_exit_probe (k : kmod_env) (task : kmod_task) (args : list Z) (id ret rcu : Z) (st : kmod_state)
    : outcome (kmod_state * Z) :=
  if id <? 0 then mret (st, rcu)
  else if negb (linx_trace_syscall id) then mret (st, rcu)
  else
    '(hdr, rcu) ← probe_header k task id SYSCALL_EXIT ret rcu;
    h ← record_all k task args hdr (linx_consumer_list st) (ks_heap st);
    mret (set_heap h st, rcu).

(** ** The module

    One device.  What is registered, and the globals that point to it. *)
Inductive class_pointer := ClassNull | ClassError | Class | ClassDestroyed.
Inductive devs_pointer := DevsNull | Devs | DevsFreed.

Record module_state := mk_module {
  md_probes : bool;
  md_region : bool;
  md_class : class_pointer;
  md_devs : devs_pointer;
  md_cdev : bool;
  md_device : bool
}.

Record module_env := mk_module_env {
  me_region : bool;
  me_class : bool;
  me_devs : bool;
  me_cdev : bool;
  me_device : bool
}.

(** [init_module_err], without a device created: an error pointer is no class
    to destroy, and the freed array stays in its global. *)
Definition register_failed (ret : Z) (s : module_state) : Z * module_state :=
  (ret, mk_module (md_probes s) false
          (match md_class s with Class => ClassDestroyed | c => c end)
          (match md_devs s with Devs => DevsFreed | d => d end) false false).

Definition linx_register_cdev (env : module_env) (s : module_state) : Z * module_state :=
  let s := mk_module (md_probes s) (me_region env) (md_class s) (md_devs s) (md_cdev s) (md_device s) in
  if negb (me_region env) then register_failed (- ENOMEM) s
  else
    let s := mk_module (md_probes s) true (if me_class env then Class else ClassError) (md_devs s) (md_cdev s) (md_device s) in
    if negb (me_class env) then register_failed (- EFAULT) s
    else
      let s := mk_module (md_probes s) true Class (if me_devs env then Devs else DevsNull) (md_cdev s) (md_device s) in
      if negb (me_devs env) then register_failed (- ENOMEM) s
      else if negb (me_cdev env) then register_failed (- EFAULT) s
      else if negb (me_device env) then register_failed (- EFAULT) s
      else (0, mk_module (md_probes s) true Class Devs true true).

Definition linx_unregister_cdev (s : module_state) : outcome module_state :=
  _ ← (match md_devs s with DevsNull => Ub NullDeref | DevsFreed => Ub BadAddress | Devs => mret () end);
  _ ← (match md_class s with ClassDestroyed => Ub BadAddress | _ => mret () end);
  mret (mk_module (md_probes s) false (match md_class s with Class => ClassDestroyed | c => c end) DevsFreed false false).

Definition set_probes (b : bool) (s : module_state) : module_state :=
  mk_module b (md_region s) (md_class s) (md_devs s) (md_cdev s) (md_device s).

(** The answer is 0 whatever the registration answers. *)
Definition linx_init (env : module_env) (s : module_state) : Z * module_state :=
  let '(_, s) := linx_register_cdev env (set_probes true s) in (0, s).

Definition linx_exit (s : module_state) : outcome module_state := linx_unregister_cdev (set_probes false s).

Definition not_loaded : module_state := mk_module false false ClassNull DevsNull false false.

(** ** Runs *)
Inductive kmod_call :=
  | CallOpen (minor task : Z) (allocs : open_allocs)
  | CallRelease (private_data : option nat)
  | CallIoctl (env : ioctl_env) (private_data : option nat) (cmd arg : Z)
  | CallEnter (k : kmod_env) (task : kmod_task) (args : list Z) (id : Z)
  | CallExit (k : kmod_env) (task : kmod_task) (args : list Z) (id ret : Z).

Definition kmod_step (c : kmod_call) (st : kmod_state) : outcome (option reply * kmod_state) :=
  match c with
  | CallOpen minor task allocs => let '(r, _, st) := linx_kmod_open minor task allocs st in mret (Some r, st)
  | CallRelease pd => let '(r, st) := linx_kmod_release pd st in mret (Some r, st)
  | CallIoctl env pd cmd arg => '(r, st) ← linx_kmod_ioctl env pd cmd arg st; mret (Some r, st)
  | CallEnter k task args id => '(st, _) ← sys_enter_probe k task args id 0 st; mret (None, st)
  | CallExit k task args id ret => '(st, _) ← sys_exit_probe k task args id ret 0 st; mret (None, st)
  end.

Fixpoint kmod_run (calls : list kmod_call) (st : kmod_state) : outcome (list (option reply) * kmod_state) :=
  match calls with
  | [] => mret ([], st)
  | c :: calls => '(r, st) ← kmod_step c st; '(rs, st) ← kmod_run calls st; mret (r :: rs, st)
  end.

(** The calls that need the mutex, and the minor numbers there are. *)
Definition takes_mutex (c : kmod_call) : bool :=
  match c with
  | CallOpen _ _ _ | CallRelease _ => true
  | CallIoctl env pd _ arg => bool_decide (is_Some pd) && bool_decide (is_Some (ie_word env arg))
  | _ => false
  end.

Definition minor_exists (numdevs : Z) (c : kmod_call) : Prop :=
  match c with CallOpen minor _ _ => minor < numdevs | _ => True end.

Definition off (c : linx_kmod_consumer) : Prop := cc_args_enable (cn_cfg c) = 0 ∧ cc_fds_enabel (cn_cfg c) = 0.

(** ** Lemmas *)
Lemma record_all_configs k task args evt l h w h' :
  record_all k task args evt l h = Ret w h' →
  map_Forall (λ _, off) h → map_Forall (λ _, off) h'.
Proof.
  revert evt h w. induction l as [|a l IH]; intros evt h w Hr Hh; cbn [record_all] in Hr.
  - by injection Hr as _ <-.
  - apply bind_Ret_inv in Hr as (w1 & w2 & c & Hc & Hr & _).
    apply bind_Ret_inv in Hr as (w3 & w4 & [[res evt'] r] & _ & Hr & _).
    destruct (h !! a) as [c'|] eqn:Ha; [|done]. injection Hc as _ <-.
    eapply IH; [exact Hr|]. apply map_Forall_insert_2; [|done]. exact (Hh a c' Ha).
Qed.

Lemma ioctl_switch_off env cmd arg nr flags c ret unlock c' flags' :
  ioctl_switch env cmd arg nr flags c = (ret, unlock, c', flags') → off c → off c'.
Proof.
  unfold ioctl_switch. intros H [Ha Hf].
  repeat (match type of H with context[if ?b then _ else _] => destruct b end
          || match type of H with context[match ?o with Some _ => _ | None => _ end] => destruct o end
          || match type of H with context[let '(_, _) := ?p in _] => destruct p end);
    injection H as <- <- <- <-; done.
Qed.

(** A probe only changes the rings. *)
Definition rings_only (st st' : kmod_state) : Prop :=
  ∃ h, st' = set_heap h st ∧ (map_Forall (λ _, off) (ks_heap st) → map_Forall (λ _, off) h).

Lemma rings_only_refl st : rings_only st st.
Proof. exists (ks_heap st). by destruct st. Qed.

Lemma rings_only_record k task args evt st w h :
  record_all k task args evt (linx_consumer_list st) (ks_heap st) = Ret w h → rings_only st (set_heap h st).
Proof. intros H. exists h. split; [done|]. by eapply record_all_configs. Qed.

Lemma sys_enter_probe_rings k task args id rcu st w st' rcu' :
  sys_enter_probe k task args id rcu st = Ret w (st', rcu') → rings_only st st'.
Proof.
  unfold sys_enter_probe. intros H. destruct (id <? 0); [injection H as _ <- _; apply rings_only_refl|].
  destruct (negb (linx_trace_syscall id)); [injection H as _ <- _; apply rings_only_refl|].
  apply bind_Ret_inv in H as (w3 & w4 & [hdr rcu''] & _ & H & _).
  apply bind_Ret_inv in H as (w5 & w6 & h & H & Hr & _). injection Hr as _ <- _. by eapply rings_only_record.
Qed.

Lemma sys_exit_probe_rings k task args id ret rcu st w st' rcu' :
  sys_exit_probe k task args id ret rcu st = Ret w (st', rcu') → rings_only st st'.
Proof.
  unfold sys_exit_probe. intros H. destruct (id <? 0); [injection H as _ <- _; apply rings_only_refl|].
  destruct (negb (linx_trace_syscall id)); [injection H as _ <- _; apply rings_only_refl|].
  apply bind_Ret_inv in H as (w3 & w4 & [hdr rcu''] & _ & H & _).
  apply bind_Ret_inv in H as (w5 & w6 & h & H & Hr & _). injection Hr as _ <- _. by eapply rings_only_record.
Qed.

Lemma linx_kmod_open_off minor task allocs st r pd st' :
  linx_kmod_open minor task allocs st = (r, pd, st') →
  map_Forall (λ _, off) (ks_heap st) → map_Forall (λ _, off) (ks_heap st').
Proof.
  unfold linx_kmod_open. intros H Hh.
  destruct (_ <=? minor); [by injection H as <- <- <-|]. destruct (g_consumer_mutex st); [by injection H as <- <- <-|].
  destruct (linx_kmod_find_consumer task st) as [a|].
  - destruct (ks_heap st !! a) as [c|]; [|by injection H as <- <- <-].
    destruct (kc_open (cn_ring c)); injection H as <- <- <-; [done|]. by apply map_Forall_insert_2.
  - destruct (negb (oa_consumer allocs)); [by injection H as <- <- <-|].
    destruct (negb (oa_ring allocs)); [by injection H as <- <- <-|].
    destruct (linx_init_ringbuffer _ _ _); injection H as <- <- <-; [|done]. by apply map_Forall_insert_2.
Qed.

Lemma kmod_step_off c st w r st' :
  kmod_step c st = Ret w (r, st') → map_Forall (λ _, off) (ks_heap st) → map_Forall (λ _, off) (ks_heap st').
Proof.
  intros H Hh. destruct c as [minor task allocs|pd|env pd cmd arg|k task args id|k task args id ret]; cbn [kmod_step] in H.
  - destruct (linx_kmod_open minor task allocs st) as [[r' pd] st1] eqn:E. injection H as _ _ <-.
    by eapply linx_kmod_open_off.
  - unfold linx_kmod_release in H. destruct (g_consumer_mutex st), pd; injection H as _ _ <-; try done.
    by apply map_Forall_delete.
  - apply bind_Ret_inv in H as (w1 & w2 & [r' st1] & H & Hr & _). injection Hr as _ _ <-.
    unfold linx_kmod_ioctl in H. destruct pd as [a|]; [|by injection H as _ _ <-].
    destruct (ie_word env arg) as [nr|]; [|by injection H as _ _ <-].
    destruct (g_consumer_mutex st); [by injection H as _ _ <-|].
    destruct (ks_heap st !! a) as [c|] eqn:Ha; [|done]. cbn [from_opt] in H. rewrite bind_ret_l in H.
    destruct (ioctl_switch env cmd arg nr (g_tracepoints_flags st) c) as [[[ret unlock] c'] flags] eqn:Es.
    injection H as _ _ <-. apply map_Forall_insert_2; [|done]. eapply ioctl_switch_off; [exact Es|]. exact (Hh a c Ha).
  - apply bind_Ret_inv in H as (w1 & w2 & [st1 rcu] & H & Hr & _). injection Hr as _ _ <-.
    destruct (sys_enter_probe_rings _ _ _ _ _ _ _ _ _ H) as (h & -> & Hoff). by apply Hoff.
  - apply bind_Ret_inv in H as (w1 & w2 & [st1 rcu] & H & Hr & _). injection Hr as _ _ <-.
    destruct (sys_exit_probe_rings _ _ _ _ _ _ _ _ _ _ H) as (h & -> & Hoff). by apply Hoff.
Qed.

(** A taken mutex stays taken. *)
Lemma kmod_step_taken c st w r st' :
  kmod_step c st = Ret w (r, st') → g_consumer_mutex st = true → minor_exists (g_kmod_numdevs st) c →
  g_consumer_mutex st' = true ∧ g_kmod_numdevs st' = g_kmod_numdevs st
  ∧ (takes_mutex c = true → r = Some Blocks).
Proof.
  intros H Hm Hn. destruct c as [minor task allocs|pd|env pd cmd arg|k task args id|k task args id ret];
    cbn [kmod_step takes_mutex minor_exists] in *.
  - unfold linx_kmod_open in H. destruct (Z.leb_spec (g_kmod_numdevs st) minor); [lia|].
    rewrite Hm in H. by injection H as _ <- <-.
  - unfold linx_kmod_release in H. rewrite Hm in H. by injection H as _ <- <-.
  - apply bind_Ret_inv in H as (w1 & w2 & [r' st1] & H & Hr & _). injection Hr as _ <- <-.
    unfold linx_kmod_ioctl in H. destruct pd as [a|]; [|by injection H as _ <- <-].
    destruct (ie_word env arg) as [nr|] eqn:Ew; [|by injection H as _ <- <-; rewrite andb_false_r].
    rewrite Hm in H. by injection H as _ <- <-.
  - apply bind_Ret_inv in H as (w1 & w2 & [st1 rcu] & H & Hr & _). injection Hr as _ <- <-.
    by destruct (sys_enter_probe_rings _ _ _ _ _ _ _ _ _ H) as (h & -> & _).
  - apply bind_Ret_inv in H as (w1 & w2 & [st1 rcu] & H & Hr & _). injection Hr as _ <- <-.
    by destruct (sys_exit_probe_rings _ _ _ _ _ _ _ _ _ _ H) as (h & -> & _).
Qed.

Lemma kmod_run_taken calls st w rs st' :
  kmod_run calls st = Ret w (rs, st') → g_consumer_mutex st = true → Forall (minor_exists (g_kmod_numdevs st)) calls →
  Forall2 (λ c r, takes_mutex c = true → r = Some Blocks) calls rs.
Proof.
  revert st w rs. induction calls as [|c calls IH]; intros st w rs H Hm Hn; cbn [kmod_run] in H.
  - injection H as _ <- _. by constructor.
  - apply Forall_cons in Hn as [Hc Hn].
    apply bind_Ret_inv in H as (w1 & w2 & [r st1] & H1 & H & _).
    apply bind_Ret_inv in H as (w3 & w4 & [rs' st2] & H2 & H & _). injection H as _ <- <-.
    destruct (kmod_step_taken _ _ _ _ _ H1 Hm Hc) as (Hm1 & Hn1 & Hr).
    constructor; [done|]. eapply IH; [exact H2|done|by rewrite Hn1].
Qed.

(** *** The mapping *)
Lemma mapped_half (n : nat) p : (p < 2 * n)%nat →
  ((Z.of_nat <$> seq 0 n) ++ (Z.of_nat <$> seq 0 n)) !! p = Some (Z.of_nat (if (p <? n)%nat then p else p - n)).
Proof.
  intros Hp. destruct (Nat.ltb_spec p n).
  - rewrite lookup_app_l by (by rewrite length_fmap, length_seq). by rewrite list_lookup_fmap, lookup_seq_lt.
  - rewrite lookup_app_r by (by rewrite length_fmap, length_seq). rewrite length_fmap, length_seq.
    rewrite list_lookup_fmap, lookup_seq_lt by lia. done.
Qed.

Lemma mirror_address r u :
  kc_size r = BUFFER_SIZE →
  mapped_address (BufferPages ((Z.of_nat <$> seq 0 8) ++ (Z.of_nat <$> seq 0 8))) u = user_address r u.
Proof.
  intros Hs. unfold mapped_address, user_address. rewrite Hs.
  destruct (Z.ltb_spec u 0); [done|].
  destruct (decide (u < 2 * BUFFER_SIZE)) as [Hu|Hu].
  - assert (0 ≤ u / PAGE_SIZE < 16) as Hp by mods. rewrite mapped_half by lia.
    unfold mbind, option_bind.
    destruct (Nat.ltb_spec (Z.to_nat (u / PAGE_SIZE)) 8) as [H8|H8].
    + assert (u < BUFFER_SIZE) as Hb by (assert (u / PAGE_SIZE < 8) by lia; mods).
      destruct (Z.ltb_spec u BUFFER_SIZE); [|lia]. rewrite Z2Nat.id by lia. f_equal. mods.
    + assert (8 ≤ u / PAGE_SIZE) by lia. assert (BUFFER_SIZE ≤ u) as Hb by mods.
      destruct (Z.ltb_spec u BUFFER_SIZE); [lia|]. destruct (Z.ltb_spec u (2 * BUFFER_SIZE)); [|lia].
      rewrite Nat2Z.inj_sub, Z2Nat.id by lia. f_equal. mods.
  - assert (16 ≤ u / PAGE_SIZE) as Hp by mods.
    rewrite lookup_ge_None_2 by (rewrite length_app, length_fmap, length_seq; lia).
    destruct (Z.ltb_spec u BUFFER_SIZE); [mods|]. destruct (Z.ltb_spec u (2 * BUFFER_SIZE)); [lia|done].
Qed.

(** Mapping twice the size gives the reader the addresses of [user_address]. *)
Lemma mmap_mirror st a c :
  ks_heap st !! a = Some c → kc_size (cn_ring c) = BUFFER_SIZE →
  ∃ m, linx_kmod_mmap (λ _, true) (Some a) (2 * BUFFER_SIZE) st = Ret [] (0, m)
  ∧ ∀ u, mapped_address m u = user_address (cn_ring c) u.
Proof.
  intros Ha Hs. unfold linx_kmod_mmap. rewrite Ha, from_opt_some, bind_Ret_nil, Hs.
  exists (BufferPages ((Z.of_nat <$> seq 0 8) ++ (Z.of_nat <$> seq 0 8))). split; [vm_compute; reflexivity|].
  intros u. by apply mirror_address.
Qed.

(** *** The probes *)
Definition idle_consumer (c : linx_kmod_consumer) : Prop :=
  off c ∧ kc_preempt_count (cn_ring c) = 0 ∧ ∃ T q next, ring_rep T q next (cn_ring c).

(** What a probe leaves of a consumer whose ring has the events [q]: only the
    ring changes, and no CPU is in it. *)
Definition gets (e : event_header_t) (c c' : linx_kmod_consumer) : Prop :=
  c' = set_cn_ring (cn_ring c') c
  ∧ kc_preempt_count (cn_ring c') = 0 ∧ kc_open (cn_ring c') = kc_open (cn_ring c)
  ∧ ∀ T q next, ring_rep T q next (cn_ring c) →
    if (length q <? 66)%nat
    then ring_rep T (q ++ [set_len EVENT_HEADER_SIZE e]) next (cn_ring c')
    else ring_rep T q next (cn_ring c')
         ∧ ri_n_drop_evts (kc_info (cn_ring c')) = wrap 64 (ri_n_drop_evts (kc_info (cn_ring c)) + 1).

(** A ring determines how many events it holds. *)
Lemma ring_rep_length T q next T' q' next' r :
  ring_rep T q next r → ring_rep T' q' next' r → length q = length q'.
Proof.
  intros H H'. pose proof (free_space_exact _ _ _ _ H) as Hf. rewrite (free_space_exact _ _ _ _ H') in Hf.
  unfold EVENT_HEADER_SIZE in Hf. lia.
Qed.

Lemma buffer_write_open a bs r w r' : buffer_write a bs r = Ret w r' → kc_open r' = kc_open r.
Proof. unfold buffer_write. destruct (_ && _); [|done]. by intros [= _ <-]. Qed.

Lemma fill_event_open evt size r w next r' : fill_event evt size r = Ret w (next, r') → kc_open r' = kc_open r.
Proof.
  unfold fill_event. intros H. apply bind_Ret_inv in H as (w1 & w2 & r1 & H1 & H & _).
  apply buffer_write_open in H1. apply bind_Ret_inv in H as (w3 & w4 & [n r2] & H2 & H & _).
  injection H as _ _ <-. cbn [with_info kc_open]. rewrite <- H1.
  destruct (_ <=? _) in H2; [|by injection H2 as _ _ <-].
  apply bind_Ret_inv in H2 as (w5 & w6 & r3 & H3 & H2 & _). injection H2 as _ _ <-.
  destruct (_ <? _) in H3; [|by injection H3 as _ <-].
  apply bind_Ret_inv in H3 as (w7 & w8 & bs & _ & H3 & _). by apply buffer_write_open in H3.
Qed.

Lemma record_event_open k cfg task args evt r w res evt' r' :
  linx_record_event k cfg task args evt r = Ret w (res, evt', r') → kc_open r' = kc_open r.
Proof.
  unfold linx_record_event. destruct (enter r) as [[] r1] eqn:E; unfold enter in E; injection E as _ <-; cbn [negb].
  2: by intros [= _ _ _ <-].
  intros H. apply bind_Ret_inv in H as (w1 & w2 & size & _ & H & _).
  apply bind_Ret_inv in H as (w3 & w4 & evt1 & _ & H & _).
  destruct (_ <? _) in H; [by injection H as _ _ _ <-|].
  apply bind_Ret_inv in H as (w5 & w6 & [next r2] & Hf & H & _). injection H as _ _ _ <-.
  by apply fill_event_open in Hf.
Qed.

Lemma record_one k c task args e n0 :
  event_ok e → fits 32 n0 → idle_consumer c →
  ∃ res n r, linx_record_event k (cn_cfg c) task args (set_len n0 e) (cn_ring c) = Ret [] (res, set_len n e, r)
  ∧ fits 32 n ∧ gets e c (set_cn_ring r c).
Proof.
  intros He Hn ([Ha Hf] & Hc & T & q & next & Hr). pose proof (set_len_ok n0 e Hn He) as He0.
  pose proof (rr_len _ _ _ _ Hr) as Hlen.
  destruct (decide (length q ≤ 65)%nat) as [Hq|Hq].
  - destruct (record_event_room k (cn_cfg c) task args _ T q next (cn_ring c) Ha Hf Hr Hc He0 Hq) as (r & Hrec & _ & Hc' & _).
    exists 1, EVENT_HEADER_SIZE, r. split; [done|]. split; [unfold fits, EVENT_HEADER_SIZE; lia|].
    split; [done|]. split; [exact Hc'|]. split; [exact (record_event_open _ _ _ _ _ _ _ _ _ _ Hrec)|].
    intros T' q' next' Hr'. pose proof (ring_rep_length _ _ _ _ _ _ _ Hr' Hr) as Hq'.
    destruct (Nat.ltb_spec (length q') 66); [|lia].
    destruct (record_event_room k (cn_cfg c) task args _ T' q' next' (cn_ring c) Ha Hf Hr' Hc He0) as (r' & Hrec' & Hrep & _);
      [lia|]. rewrite Hrec in Hrec'. by injection Hrec' as ->.
  - assert (length q = 66%nat) as H66 by lia. exists 0, 0, (count_drop (cn_ring c)).
    split; [by rewrite (record_event_full k (cn_cfg c) task args _ T q next)|]. split; [unfold fits; lia|].
    split; [done|]. split; [exact Hc|]. split; [done|]. intros T' q' next' Hr'. rewrite (ring_rep_length _ _ _ _ _ _ _ Hr' Hr), H66.
    split; [by eapply ring_rep_same|done].
Qed.

Lemma record_all_spec k task args e l : ∀ n0 h,
  event_ok e → fits 32 n0 → NoDup l → (∀ a, a ∈ l → ∃ c, h !! a = Some c ∧ idle_consumer c) →
  ∃ h', record_all k task args (set_len n0 e) l h = Ret [] h'
  ∧ (∀ a, a ∉ l → h' !! a = h !! a)
  ∧ ∀ a c, a ∈ l → h !! a = Some c → ∃ c', h' !! a = Some c' ∧ gets e c c'.
Proof.
  induction l as [|a l IH]; intros n0 h He Hn Hnd Hall; cbn [record_all].
  - exists h. split_and!; [done..|]. intros a c Ha. by apply elem_of_nil in Ha.
  - apply NoDup_cons in Hnd as [Hnot Hnd].
    destruct (Hall a ltac:(by left)) as (c & Hc & Hidle). rewrite Hc, from_opt_some, bind_Ret_nil.
    destruct (record_one k c task args e n0 He Hn Hidle) as (res & n & r & -> & Hn' & Hgets). rewrite bind_Ret_nil.
    destruct (IH n (<[a := set_cn_ring r c]> h) He Hn' Hnd) as (h' & -> & Hout & Hin).
    { intros b Hb. destruct (Hall b ltac:(by right)) as (cb & Hcb & Hib). exists cb.
      rewrite lookup_insert_ne by (intros ->; done). done. }
    exists h'. split; [done|]. split.
    + intros b Hb. rewrite Hout by (intros Hb'; apply Hb; by right).
      apply lookup_insert_ne. intros ->. apply Hb. by left.
    + intros b cb Hb Hcb. destruct (decide (b = a)) as [->|Hne].
      * rewrite Hout by done. rewrite lookup_insert_eq. rewrite Hc in Hcb. injection Hcb as <-. eauto.
      * apply elem_of_cons in Hb as [->|Hb]; [done|]. apply Hin; [done|]. by rewrite lookup_insert_ne.
Qed.

(** ** Theorems *)

(** C12: a traced system call reaches every consumer.  Its entry builds one
    header of the task that runs and appends it to the ring of each consumer
    that has room, and counts a drop for each that has not; the mask of system
    calls has no say. *)
Theorem enter_probe_reaches_all (k : kmod_env) (task : kmod_task) (args : list Z) (id rcu : Z) (st : kmod_state) :
  task_ok k task → 0 ≤ id → linx_trace_syscall id = true → NoDup (linx_consumer_list st) →
  (∀ a, a ∈ linx_consumer_list st → ∃ c, ks_heap st !! a = Some c ∧ idle_consumer c) →
  ∃ e st' rcu', sys_enter_probe k task args id rcu st = Ret [] (st', rcu')
  ∧ probe_header k task id SYSCALL_ENTER 0 rcu = Ret [] (e, rcu')
  ∧ ∀ a c, a ∈ linx_consumer_list st → ks_heap st !! a = Some c →
      ∃ c', ks_heap st' !! a = Some c' ∧ gets e c c'.
Proof.
  intros Ht Hid Htr Hnd Hall. unfold sys_enter_probe.
  destruct (Z.ltb_spec id 0); [lia|]. rewrite Htr. cbn [negb].
  destruct (probe_header_ok k task id SYSCALL_ENTER 0 rcu Ht) as (e & rcu' & Hh & He); [unfold fits, SYSCALL_ENTER; lia|].
  rewrite Hh, bind_Ret_nil, (trace_not_net id Htr).
  destruct (record_all_spec k task args e (linx_consumer_list st) (ke_len e) (ks_heap st) He (eo_len e He) Hnd Hall)
    as (h & Hrec & _ & Hin).
  assert (set_len (ke_len e) e = e) as Hsame by (by destruct e). rewrite Hsame in Hrec.
  exists e, (set_heap h st), rcu'. rewrite Hrec, bind_Ret_nil. split; [done|]. split; [done|]. exact Hin.
Qed.

(** C23: the two requests that are kept from having an effect return while they
    hold the mutex.  They change nothing, and from then on every open, release
    or request of a process that has the device open waits for ever. *)
Theorem protected_ioctl_deadlocks (env : ioctl_env) (st : kmod_state) (a : nat) (c : linx_kmod_consumer)
    (cmd arg word : Z) (calls : list kmod_call) :
  cmd = SYSMON_IOCTL_ENABLE_FDS ∨ cmd = SYSMON_IOCTL_ENABLE_REAL_ARGS →
  ks_heap st !! a = Some c → ie_word env arg = Some word → g_consumer_mutex st = false →
  Forall (minor_exists (g_kmod_numdevs st)) calls →
  ∃ st1, linx_kmod_ioctl env (Some a) cmd arg st = Ret [] (Returns 0, st1)
  ∧ ks_heap st1 = ks_heap st
  ∧ ∀ w rs st2, kmod_run calls st1 = Ret w (rs, st2) →
     Forall2 (λ call r, takes_mutex call = true → r = Some Blocks) calls rs.
Proof.
  intros Hcmd Ha Hw Hm Hn. unfold linx_kmod_ioctl. rewrite Hw, Hm, Ha, from_opt_some, bind_Ret_nil.
  assert (ioctl_switch env cmd arg word (g_tracepoints_flags st) c = (0, false, c, g_tracepoints_flags st)) as ->.
  { by destruct Hcmd as [-> | ->]. }
  eexists. split; [done|]. cbn [ks_heap set_mutex set_flags set_heap]. split; [by apply insert_id|].
  intros w rs st2 Hrun. by eapply kmod_run_taken.
Qed.

(** Neither the arguments nor the descriptors of a call are ever asked for:
    whatever processes do, no consumer has either switched on. *)
Theorem details_never_enabled (calls : list kmod_call) (st : kmod_state) (w : list fault) (rs : list (option reply))
    (st' : kmod_state) :
  ks_heap st = ∅ → kmod_run calls st = Ret w (rs, st') → map_Forall (λ _, off) (ks_heap st').
Proof.
  intros H0. assert (map_Forall (λ _, off) (ks_heap st)) as Hoff by (rewrite H0; apply map_Forall_empty). clear H0.
  revert st w rs Hoff. induction calls as [|c calls IH]; intros st w rs Hoff H; cbn [kmod_run] in H.
  - by injection H as _ _ <-.
  - apply bind_Ret_inv in H as (w1 & w2 & [r st1] & H1 & H & _).
    apply bind_Ret_inv in H as (w3 & w4 & [rs' st2] & H2 & H & _). injection H as _ _ <-.
    eapply IH; [|exact H2]. by eapply kmod_step_off.
Qed.

(** Loading answers 0 even when the device could not be made, and then
    unloading the module uses what the registration has freed or never had. *)
Lemma exit_after_failed_init env :
  let '(ret, s) := linx_init env not_loaded in
  ret = 0 ∧
  if me_region env && me_class env && me_devs env && me_cdev env && me_device env
  then ∃ s', linx_exit s = Ret [] s' ∧ md_probes s' = false ∧ md_region s' = false ∧ md_devs s' = DevsFreed
       ∧ md_cdev s' = false ∧ md_device s' = false
  else ∃ f, linx_exit s = Ub f.
Proof. destruct env as [[] [] [] [] []]; cbn; eauto 10. Qed.

(** ** Examples *)
Definition sample_state : kmod_state :=
  mk_kmod_state {[0%nat := mk_consumer 1 (set_open true sample_ring) all_disabled ∅]} [0%nat] false 0 1 BUFFER_SIZE.

Definition sample_ioctl_env : ioctl_env := mk_ioctl_env (λ _, Some 0) 7 7 (λ _, None).

Lemma sample_task_ok : task_ok sample_env sample_task.
Proof.
  constructor; cbn; try (unfold fits; lia); [by apply Forall_nil|done|by eexists|].
  intros _ len. split; [lia|by apply Forall_nil].
Qed.

Lemma sample_idle a : a ∈ linx_consumer_list sample_state →
  ∃ c, ks_heap sample_state !! a = Some c ∧ idle_consumer c.
Proof.
  intros Ha. apply list_elem_of_singleton in Ha as ->. eexists. split; [reflexivity|].
  split; [by split|]. split; [reflexivity|]. exists 0, [], 0. apply init_ring_rep, sample_ring_init.
Qed.

Example enter_probe_reaches_all_ex :
  ∃ e st' rcu', sys_enter_probe sample_env sample_task [] NR_unlinkat 0 sample_state = Ret [] (st', rcu')
  ∧ probe_header sample_env sample_task NR_unlinkat SYSCALL_ENTER 0 0 = Ret [] (e, rcu')
  ∧ ∀ a c, a ∈ linx_consumer_list sample_state → ks_heap sample_state !! a = Some c →
      ∃ c', ks_heap st' !! a = Some c' ∧ gets e c c'.
Proof.
  apply (enter_probe_reaches_all sample_env sample_task [] NR_unlinkat 0 sample_state).
  - exact sample_task_ok.
  - discriminate.
  - reflexivity.
  - apply NoDup_singleton.
  - exact sample_idle.
Defined.

Example protected_ioctl_deadlocks_ex :
  ∃ st1, linx_kmod_ioctl sample_ioctl_env (Some 0%nat) SYSMON_IOCTL_ENABLE_FDS 16 sample_state = Ret [] (Returns 0, st1)
  ∧ ks_heap st1 = ks_heap sample_state
  ∧ ∀ w rs st2, kmod_run [CallOpen 0 2 (mk_open_allocs true true true true); CallRelease (Some 0%nat)] st1 = Ret w (rs, st2) →
     Forall2 (λ call r, takes_mutex call = true → r = Some Blocks)
       [CallOpen 0 2 (mk_open_allocs true true true true); CallRelease (Some 0%nat)] rs.
Proof.
  eapply (protected_ioctl_deadlocks sample_ioctl_env sample_state 0 _ SYSMON_IOCTL_ENABLE_FDS 16 0).
  - left. reflexivity.
  - reflexivity.
  - reflexivity.
  - reflexivity.
  - repeat constructor.
Defined.

Definition sample_empty : kmod_state := mk_kmod_state ∅ [] false 0 1 BUFFER_SIZE.

Definition sample_calls : list kmod_call :=
  [CallOpen 0 1 (mk_open_allocs true true true true);
   CallIoctl sample_ioctl_env (Some 0%nat) SYSMON_IOCTL_ENABLE_DROPPING_MODE 16;
   CallIoctl sample_ioctl_env (Some 0%nat) SYSMON_IOCTL_ENABLE_REAL_ARGS 16].

Definition sample_calls_end : kmod_state :=
  match kmod_run sample_calls sample_empty with Ret _ (_, st) => st | _ => sample_empty end.

Example details_never_enabled_ex :
  linx_consumer_list sample_calls_end = [0%nat] ∧ map_Forall (λ _, off) (ks_heap sample_calls_end).
Proof.
  split; [vm_compute; reflexivity|].
  eapply (details_never_enabled sample_calls sample_empty [] [Some (Returns 0); Some (Returns 0); Some (Returns 0)]).
  - reflexivity.
  - vm_cast_no_check (@eq_refl (outcome (list (option reply) * kmod_state)) (kmod_run sample_calls sample_empty)).
Defined.
