(* ===== verification/KmodFiles.v ===== *)
(** * Several openings of the device (kernel/kmod/kernel/sysmon_main.c)

    Processes open the device, map the ring that belongs to what they opened,
    send requests, take events and close, while the probes of other tasks run.
    [device_step] composes the file operations of [KmodDevice] and the reader
    of [KmodRing] as the kernel calls them: [open] makes a file with the
    consumer in [private_data], every other call names a file, and [release]
    is the last call on one, since a mapping keeps its file.

    What a process sees of all this is [spec_step]: a queue of events per
    file, a task that may have one file at most, and a lock that two requests
    leave taken.  The tracepoints the probes are bound to are at the end. *)
From S2P Require Import Prelude CString Memory KmodCodes KmodEvent KmodRing KmodDevice.
From stdpp Require Import gmap.

#[local] Open Scope Z_scope.
#[local] Set Warnings "-clear-no-such-hyp".

(** ** Files *)

(** [private_data], whether the two mappings have been made, and how far in
    its mapping the reader is. *)
Record dev_file := mk_dev_file {
  df_private : option nat;
  df_buffer : bool;
  df_info : bool;
  df_next : Z
}.

Record device := mk_device { dv_kmod : kmod_state; dv_files : gmap nat dev_file }.

Inductive device_call :=
  | DOpen (task : Z) (allocs : open_allocs)
  | DClose (f : nat)
  | DIoctl (f : nat) (env : ioctl_env) (cmd arg : Z)
  | DMmap (f : nat) (remap_ok : Z → bool) (len : Z)
  | DRead (f : nat)
  | DEnter (k : kmod_env) (task : kmod_task) (args : list Z) (id : Z)
  | DExit (k : kmod_env) (task : kmod_task) (args : list Z) (id ret : Z).

Inductive device_reply :=
  | Waits
  | Answer (ret : Z)
  | Opened (f : nat)
  | Mapped (ret : Z) (m : mapping)
  | Taken (e : option event_header_t)
  | Probed.

Definition answer (r : reply) : device_reply := match r with Returns ret => Answer ret | Blocks => Waits end.

Definition maps_buffer (m : mapping) : bool := match m with BufferPages _ => true | _ => false end.
Definition maps_info (m : mapping) : bool := match m with InfoPage => true | _ => false end.

(** A call on a file. *)
Definition on_file {F S} (f : nat) (files : gmap nat F) (s : S) (k : F → outcome (device_reply * S)) : outcome (device_reply * S) :=
  match files !! f with Some x => k x | None => mret (Answer (- EBADF), s) end.

Definition device_open (task : Z) (allocs : open_allocs) (d : device) : device_reply * device :=
  let '(r, private_data, st) := linx_kmod_open 0 task allocs (dv_kmod d) in
  match r with
  | Blocks => (Waits, d)
  | Returns ret =>
      if ret <? 0 then (Answer ret, mk_device st (dv_files d))
      else
        let f := fresh (dom (dv_files d)) in
        (Opened f, mk_device st (<[f := mk_dev_file private_data false false 0]> (dv_files d)))
  end.

(** The reader takes an event out of the ring of its file. *)
Definition device_read (f : nat) (x : dev_file) (d : device) : outcome (device_reply * device) :=
  if negb (df_buffer x && df_info x) then Ub BadAddress
  else
    a ← from_opt BadAddress (df_private x);
    c ← from_opt BadAddress (ks_heap (dv_kmod d) !! a);
    '(evt, next, r) ← linx_kmod_next (df_next x) (cn_ring c);
    mret (Taken evt, mk_device (set_heap (<[a := set_cn_ring r c]> (ks_heap (dv_kmod d))) (dv_kmod d))
                       (<[f := mk_dev_file (df_private x) (df_buffer x) (df_info x) next]> (dv_files d))).

Definition device_step (c : device_call) (d : device) : outcome (device_reply * device) :=
  let st := dv_kmod d in
  match c with
  | DOpen task allocs => mret (device_open task allocs d)
  | DClose f =>
      on_file f (dv_files d) d (λ x,
        let '(r, st) := linx_kmod_release (df_private x) st in
        mret (answer r, mk_device st (delete f (dv_files d))))
  | DIoctl f env cmd arg =>
      on_file f (dv_files d) d (λ x,
        '(r, st) ← linx_kmod_ioctl env (df_private x) cmd arg st; mret (answer r, mk_device st (dv_files d)))
  | DMmap f remap_ok len =>
      on_file f (dv_files d) d (λ x,
        '(ret, m) ← linx_kmod_mmap remap_ok (df_private x) len st;
        mret (Mapped ret m, mk_device st (<[f := mk_dev_file (df_private x) (df_buffer x || maps_buffer m) (df_info x || maps_info m)
                                                  (df_next x)]> (dv_files d))))
  | DRead f => on_file f (dv_files d) d (λ x, device_read f x d)
  | DEnter k task args id => '(st, _) ← sys_enter_probe k task args id 0 st; mret (Probed, mk_device st (dv_files d))
  | DExit k task args id ret => '(st, _) ← sys_exit_probe k task args id ret 0 st; mret (Probed, mk_device st (dv_files d))
  end.

(** ** What processes see *)

(** The task that opened, the events that wait, and the number of those that
    were taken. *)
Record event_queue := mk_queue { qu_task : Z; qu_events : list event_header_t; qu_reads : Z }.

Record spec_file := mk_spec_file { sf_queue : option event_queue; sf_buffer : bool; sf_info : bool }.

Record spec_device := mk_spec { sp_locked : bool; sp_files : gmap nat spec_file }.

Definition opened_by (task : Z) (y : spec_file) : Prop := qu_task <$> sf_queue y = Some task.

#[export] Instance opened_by_dec task y : Decision (opened_by task y).
Proof. unfold opened_by. apply _. Defined.

Definition has_file (task : Z) (files : gmap nat spec_file) : bool :=
  negb (bool_decide (map_Forall (λ _ y, ¬ opened_by task y) files)).

Definition spec_open (task : Z) (allocs : open_allocs) (s : spec_device) : device_reply * spec_device :=
  if sp_locked s then (Waits, s)
  else if has_file task (sp_files s) then (Answer (- EBUSY), s)
  else if negb (oa_consumer allocs && oa_ring allocs) then (Answer (- ENOMEM), s)
  else
    let q := if oa_buffer allocs && oa_info allocs then Some (mk_queue task [] 0) else None in
    let f := fresh (dom (sp_files s)) in
    (Opened f, mk_spec false (<[f := mk_spec_file q false false]> (sp_files s))).

(** What a request answers, and whether it keeps the lock. *)
Definition request (env : ioctl_env) (cmd arg syscall_nr : Z) : Z * bool :=
  if (cmd =? SYSMON_IOCTL_GTE_PID) || (cmd =? SYSMON_IOCTL_GET_VTID) then
    (match mjoin (ie_find_pid env arg) with
     | None => - EINVAL
     | Some (tid, tgid) => if cmd =? SYSMON_IOCTL_GET_VTID then tid else tgid
     end, false)
  else if cmd =? SYSMON_IOCTL_GTE_CURRENT_TID then (ie_current_tid env, false)
  else if cmd =? SYSMON_IOCTL_GTE_CURRENT_PID then (ie_current_pid env, false)
  else if (cmd =? SYSMON_IOCTL_ENABLE_SYSCALL) || (cmd =? SYSMON_IOCTL_DISABLE_SYSCALL) then
    (if MAX_SYSCALLS_NUM <=? syscall_nr then - EINVAL else 0, false)
  else if (cmd =? SYSMON_IOCTL_ENABLE_TP) || (cmd =? SYSMON_IOCTL_DISABLE_TP) then
    (if SYSMON_TP_MAX <=? arg then - EINVAL else 0, false)
  else if (cmd =? SYSMON_IOCTL_ENABLE_FDS) || (cmd =? SYSMON_IOCTL_ENABLE_REAL_ARGS) then (0, true)
  else if (cmd =? SYSMON_IOCTL_DISABLE_DROPPING_MODE) || (cmd =? SYSMON_IOCTL_ENABLE_DROPPING_MODE)
       || (cmd =? SYSMON_IOCTL_DISABLE_FDS) || (cmd =? SYSMON_IOCTL_DISABLE_REAL_ARGS) then (0, false)
  else (- ENOTTY, false).

Definition spec_mmap (remap_ok : Z → bool) (q : option event_queue) (len : Z) : Z * mapping :=
  match q with
  | None => (- EBADF, NoPages)
  | Some _ =>
      if 2 * BUFFER_SIZE <? len then (- EINVAL, NoPages)
      else if len <=? PAGE_SIZE then if remap_ok 0 then (0, InfoPage) else (- EAGAIN, NoPages)
      else if len =? 2 * BUFFER_SIZE then
        if forallb remap_ok (Z.of_nat <$> seq 0 16)
        then (0, BufferPages ((Z.of_nat <$> seq 0 8) ++ (Z.of_nat <$> seq 0 8))) else (- EAGAIN, NoPages)
      else (0, NoPages)
  end.

Definition append (e : event_header_t) (q : list event_header_t) : list event_header_t :=
  if (length q <? 66)%nat then q ++ [set_len EVENT_HEADER_SIZE e] else q.

Definition set_queue (q : option event_queue) (y : spec_file) : spec_file := mk_spec_file q (sf_buffer y) (sf_info y).
Definition change_queue (g : list event_header_t → list event_header_t) (y : spec_file) : spec_file :=
  set_queue ((λ q, mk_queue (qu_task q) (g (qu_events q)) (qu_reads q)) <$> sf_queue y) y.

(** A reader gets 132 events; with the next one it leaves its mapping. *)
Definition spec_read (f : nat) (y : spec_file) (s : spec_device) : outcome (device_reply * spec_device) :=
  if negb (sf_buffer y && sf_info y) then Ub BadAddress
  else
    q ← from_opt BadAddress (sf_queue y);
    match qu_events q with
    | [] => mret (Taken None, s)
    | e :: rest =>
        if 132 <=? qu_reads q then Ub BadAddress
        else mret (Taken (Some e), mk_spec (sp_locked s)
               (<[f := set_queue (Some (mk_queue (qu_task q) rest (qu_reads q + 1))) y]> (sp_files s)))
    end.

(** The probes that record a call, for every file. *)
Definition spec_probe (k : kmod_env) (task : kmod_task) (id type ret : Z) (s : spec_device)
    : outcome (device_reply * spec_device) :=
  if (0 <=? id) && linx_trace_syscall id then
    '(e, _) ← probe_header k task id type ret 0;
    mret (Probed, mk_spec (sp_locked s) (change_queue (append e) <$> sp_files s))
  else mret (Probed, s).

Definition spec_step (c : device_call) (s : spec_device) : outcome (device_reply * spec_device) :=
  match c with
  | DOpen task allocs => mret (spec_open task allocs s)
  | DClose f =>
      on_file f (sp_files s) s (λ _, mret (if sp_locked s then Waits else Answer 0, mk_spec (sp_locked s) (delete f (sp_files s))))
  | DIoctl f env cmd arg =>
      on_file f (sp_files s) s (λ y,
        match sf_queue y, ie_word env arg with
        | None, _ => mret (Answer (- EBADF), s)
        | Some _, None => mret (Answer (- EFAULT), s)
        | Some _, Some nr =>
            if sp_locked s then mret (Waits, s)
            else let '(ret, lock) := request env cmd arg nr in mret (Answer ret, mk_spec lock (sp_files s))
        end)
  | DMmap f remap_ok len =>
      on_file f (sp_files s) s (λ y,
        let '(ret, m) := spec_mmap remap_ok (sf_queue y) len in
        mret (Mapped ret m, mk_spec (sp_locked s)
               (<[f := mk_spec_file (sf_queue y) (sf_buffer y || maps_buffer m) (sf_info y || maps_info m)]> (sp_files s))))
  | DRead f => on_file f (sp_files s) s (λ y, spec_read f y s)
  | DEnter k task args id => spec_probe k task id SYSCALL_ENTER 0 s
  | DExit k task args id ret => spec_probe k task id SYSCALL_EXIT ret s
  end.

(** Runs of either. *)
Fixpoint run_calls {S} (step : device_call → S → outcome (device_reply * S)) (calls : list device_call) (s : S)
    : outcome (list device_reply * S) :=
  match calls with
  | [] => mret ([], s)
  | c :: calls => '(r, s) ← step c s; '(rs, s) ← run_calls step calls s; mret (r :: rs, s)
  end.

Definition device_run : list device_call → device → outcome (list device_reply * device) := run_calls device_step.
Definition spec_run : list device_call → spec_device → outcome (list device_reply * spec_device) := run_calls spec_step.

(** After loading the module. *)
Definition device_loaded : device := mk_device (mk_kmod_state ∅ [] false 0 1 BUFFER_SIZE) ∅.
Definition spec_loaded : spec_device := mk_spec false ∅.

(** What the kernel guarantees of the tasks whose calls are observed. *)
Definition call_ok (c : device_call) : Prop :=
  match c with DEnter k task _ _ | DExit k task _ _ _ => task_ok k task | _ => True end.

(** ** The relation *)
Definition queue_rep (st : kmod_state) (x : dev_file) (q : event_queue) : Prop :=
  ∃ a c, df_private x = Some a ∧ a ∈ linx_consumer_list st ∧ ks_heap st !! a = Some c
  ∧ cn_task c = qu_task q ∧ ring_rep (qu_reads q) (qu_events q) (df_next x) (cn_ring c).

Record file_rep (st : kmod_state) (x : dev_file) (y : spec_file) : Prop := {
  fr_buffer : df_buffer x = sf_buffer y;
  fr_info : df_info x = sf_info y;
  fr_queue : match sf_queue y with None => df_private x = None | Some q => queue_rep st x q end
}.

Definition live (c : linx_kmod_consumer) : Prop := idle_consumer c ∧ kc_open (cn_ring c) = true.

(** Every consumer is one that the probes can write to; as long as no call
    waits for ever, every consumer has a file and every file its own. *)
Record device_rep (d : device) (s : spec_device) : Prop := {
  dr_mutex : g_consumer_mutex (dv_kmod d) = sp_locked s;
  dr_devs : g_kmod_numdevs (dv_kmod d) = 1;
  dr_size : g_buffer_size (dv_kmod d) = BUFFER_SIZE;
  dr_nodup : NoDup (linx_consumer_list (dv_kmod d));
  dr_live a : a ∈ linx_consumer_list (dv_kmod d) → ∃ c, ks_heap (dv_kmod d) !! a = Some c ∧ live c;
  dr_files : map_Forall2 (λ _, file_rep (dv_kmod d)) (dv_files d) (sp_files s);
  dr_inj f g x y a : dv_files d !! f = Some x → dv_files d !! g = Some y → df_private x = Some a → df_private y = Some a → f = g;
  dr_owned a : sp_locked s = false → a ∈ linx_consumer_list (dv_kmod d) → ∃ f x, dv_files d !! f = Some x ∧ df_private x = Some a
}.

(** A call does the same on both sides: the same answer and related states, or
    the same fault. *)
Definition same_reply (R : device → spec_device → Prop) (m : outcome (device_reply * device)) (n : outcome (device_reply * spec_device)) : Prop :=
  match m, n with
  | Ret w (r, d), Ret w' (r', s) => w = w' ∧ r = r' ∧ R d s
  | Ub f, Ub f' => f = f'
  | _, _ => False
  end.

(** ** Lemmas *)
Lemma loaded_rep : device_rep device_loaded spec_loaded.
Proof.
  split; cbn; try done; [constructor|set_solver|apply map_Forall2_empty|set_solver].
Qed.

Lemma files_at d s f : device_rep d s →
  match dv_files d !! f, sp_files s !! f with Some x, Some y => file_rep (dv_kmod d) x y | None, None => True | _, _ => False end.
Proof.
  intros Hr. pose proof (dr_files _ _ Hr f) as H. by inversion H.
Qed.

Lemma files_dom d s : device_rep d s → dom (dv_files d) = dom (sp_files s).
Proof. intros Hr. eapply map_Forall2_dom_L, (dr_files _ _ Hr). Qed.

(** On a file that is not open both sides answer alike. *)
Lemma same_on_file d s f k k' :
  device_rep d s →
  (∀ x y, dv_files d !! f = Some x → sp_files s !! f = Some y → file_rep (dv_kmod d) x y → same_reply device_rep (k x) (k' y)) →
  same_reply device_rep (on_file f (dv_files d) d k) (on_file f (sp_files s) s k').
Proof.
  intros Hr H. unfold on_file. pose proof (files_at d s f Hr) as Hf.
  destruct (dv_files d !! f) as [x|] eqn:Ex, (sp_files s !! f) as [y|] eqn:Ey; try done. by apply H.
Qed.

(** The consumers change, each keeping its task, and with them the queues. *)
Lemma rep_change d s h (g : list event_header_t → list event_header_t) :
  device_rep d s →
  (∀ a c, a ∈ linx_consumer_list (dv_kmod d) → ks_heap (dv_kmod d) !! a = Some c → live c →
     ∃ c', h !! a = Some c' ∧ live c' ∧ cn_task c' = cn_task c
     ∧ ∀ T q next, ring_rep T q next (cn_ring c) → ring_rep T (g q) next (cn_ring c')) →
  device_rep (mk_device (set_heap h (dv_kmod d)) (dv_files d)) (mk_spec (sp_locked s) (change_queue g <$> sp_files s)).
Proof.
  intros Hr Hh. destruct Hr as [Hm Hd Hs Hn Hl Hf Hi Ho]. split; cbn [dv_kmod dv_files sp_locked sp_files]; try done.
  - intros a Ha. destruct (Hl a Ha) as (c & Hc & Hlive). destruct (Hh a c Ha Hc Hlive) as (c' & ? & ? & _). by exists c'.
  - intros f. rewrite lookup_fmap. destruct (Hf f) as [x y [Hb Hinfo Hq]|]; cbn; constructor.
    split; [done|done|]. cbn. destruct (sf_queue y) as [q|]; cbn; [|done].
    destruct Hq as (a & c & Hp & Ha & Hc & Ht & Hring). destruct (Hl a Ha) as (c0 & Hc0 & Hlive). rewrite Hc in Hc0. injection Hc0 as <-.
    destruct (Hh a c Ha Hc Hlive) as (c' & Hc' & _ & Ht' & Hring'). exists a, c'. cbn. split_and!; try done; [congruence|by apply Hring'].
Qed.

Lemma change_queue_id y : change_queue (λ q, q) y = y.
Proof. unfold change_queue, set_queue. destruct y as [[[]|] b i]; done. Qed.

(** One file changes, and its consumer. *)
Lemma set_heap_same st : set_heap (ks_heap st) st = st.
Proof. by destruct st. Qed.

Lemma rep_update_file d s h f x y x' y' :
  device_rep d s → dv_files d !! f = Some x → sp_files s !! f = Some y → df_private x' = df_private x →
  (∀ b, df_private x ≠ Some b → h !! b = ks_heap (dv_kmod d) !! b) →
  (∀ a c, df_private x = Some a → a ∈ linx_consumer_list (dv_kmod d) → ks_heap (dv_kmod d) !! a = Some c → live c →
     ∃ c', h !! a = Some c' ∧ live c') →
  file_rep (set_heap h (dv_kmod d)) x' y' →
  device_rep (mk_device (set_heap h (dv_kmod d)) (<[f := x']> (dv_files d))) (mk_spec (sp_locked s) (<[f := y']> (sp_files s))).
Proof.
  intros [Hm Hd Hs Hn Hl Hf Hinj Ho] Hx Hy Hp Hout Hlive Hxy.
  assert (∀ f' z, <[f := x']> (dv_files d) !! f' = Some z → ∃ z', dv_files d !! f' = Some z' ∧ df_private z' = df_private z) as Hz.
  { intros f' z. destruct (decide (f' = f)) as [->|Hne]; [rewrite lookup_insert_eq|rewrite lookup_insert_ne by done; eauto].
    intros [= <-]. by exists x. }
  split; cbn [dv_kmod dv_files sp_locked sp_files]; try done.
  - intros a Ha. cbn. destruct (Hl a Ha) as (c & Hc & Hlc). destruct (decide (df_private x = Some a)) as [Hpa|Hpa]; [by eapply Hlive|].
    exists c. by rewrite Hout.
  - intros f'. destruct (decide (f' = f)) as [->|Hne]; [rewrite !lookup_insert_eq; by constructor|]. rewrite !lookup_insert_ne by done.
    pose proof (Hf f') as Hf'. remember (dv_files d !! f') as o eqn:Ef in Hf'. symmetry in Ef. rewrite Ef.
    destruct Hf' as [z w [Hb Hi Hq]|]; constructor. split; [done|done|]. destruct (sf_queue w) as [q|]; [|done].
    destruct Hq as (a & c & Hpz & Ha & Hc & Hrest). exists a, c. split_and!; try done; [|by apply Hrest..].
    cbn. rewrite Hout; [done|]. intros Hpx. apply Hne. by apply (Hinj f' f z x a).
  - intros f1 f2 x1 x2 a H1 H2 Hp1 Hp2. destruct (Hz _ _ H1) as (z1 & Hz1 & E1), (Hz _ _ H2) as (z2 & Hz2 & E2).
    apply (Hinj f1 f2 z1 z2 a); congruence.
  - intros a Hlock Ha. destruct (Ho a Hlock Ha) as (f' & z & Hz' & Hpz). destruct (decide (f' = f)) as [->|Hne].
    + rewrite Hx in Hz'. injection Hz' as <-. exists f, x'. rewrite lookup_insert_eq. split; [done|congruence].
    + exists f', z. by rewrite lookup_insert_ne.
Qed.

(** *** Opening *)
Lemma find_file d s task :
  device_rep d s → sp_locked s = false →
  match linx_kmod_find_consumer task (dv_kmod d) with
  | Some a => has_file task (sp_files s) = true ∧ ∃ c, ks_heap (dv_kmod d) !! a = Some c ∧ kc_open (cn_ring c) = true
  | None => has_file task (sp_files s) = false
  end.
Proof.
  intros Hr Hlock. unfold linx_kmod_find_consumer, has_file. destruct (List.find _ _) as [a|] eqn:E.
  - apply List.find_some in E as [Ha%list_elem_of_In Ht]. destruct (dr_live _ _ Hr a Ha) as (c & Hc & _ & Hopen). rewrite Hc in Ht.
    apply Z.eqb_eq in Ht. split; [|by exists c]. apply negb_true_iff, bool_decide_eq_false_2. intros Hall.
    destruct (dr_owned _ _ Hr a Hlock Ha) as (f & x & Hx & Hp). pose proof (files_at d s f Hr) as Hf. rewrite Hx in Hf.
    destruct (sp_files s !! f) as [y|] eqn:Ey; [|done]. destruct Hf as [_ _ Hq]. apply (Hall f y Ey). unfold opened_by.
    destruct (sf_queue y) as [q|]; cbn; [|congruence].
    destruct Hq as (b & c' & Hp' & _ & Hc' & Ht' & _). rewrite Hp in Hp'. injection Hp' as <-. rewrite Hc in Hc'. injection Hc' as <-.
    by rewrite <- Ht', Ht.
  - apply negb_false_iff, bool_decide_eq_true_2. intros f y Hy Ho. pose proof (files_at d s f Hr) as Hf. rewrite Hy in Hf.
    destruct (dv_files d !! f) as [x|]; [|done]. destruct Hf as [_ _ Hq]. unfold opened_by in Ho.
    destruct (sf_queue y) as [q|]; cbn in Ho; [|done]. injection Ho as Ho.
    destruct Hq as (a & c & _ & Ha & Hc & Ht & _). apply list_elem_of_In in Ha.
    apply (List.find_none _ _ E) in Ha. cbn in Ha. rewrite Hc in Ha. apply Z.eqb_neq in Ha. congruence.
Qed.

(** A new file: without a consumer, or with one that no file has. *)
Lemma rep_new_file d s st x y f :
  device_rep d s → sp_locked s = false → f = fresh (dom (sp_files s)) →
  g_consumer_mutex st = false → g_kmod_numdevs st = 1 → g_buffer_size st = BUFFER_SIZE →
  NoDup (linx_consumer_list st) →
  (∀ a, a ∈ linx_consumer_list st → a ∈ linx_consumer_list (dv_kmod d) ∨ df_private x = Some a) →
  (∀ a, a ∈ linx_consumer_list (dv_kmod d) → a ∈ linx_consumer_list st ∧ ks_heap st !! a = ks_heap (dv_kmod d) !! a) →
  (∀ a, df_private x = Some a → (a ∉ linx_consumer_list (dv_kmod d)) ∧ (∃ c, ks_heap st !! a = Some c ∧ live c)) →
  file_rep st x y →
  device_rep (mk_device st (<[f := x]> (dv_files d))) (mk_spec false (<[f := y]> (sp_files s))).
Proof.
  intros Hr Hlock Hfr Hm Hd Hs Hn Hold Hkeep Hnew Hxy.
  assert (∀ f' x' a, dv_files d !! f' = Some x' → df_private x' = Some a → a ∈ linx_consumer_list (dv_kmod d)) as Hfiles.
  { intros f' x' a Hx' Hp. pose proof (files_at d s f' Hr) as Hf. rewrite Hx' in Hf. destruct (sp_files s !! f') as [y'|]; [|done].
    destruct Hf as [_ _ Hq]. destruct (sf_queue y') as [q|]; [|congruence]. destruct Hq as (b & c & Hp' & Hb & _). congruence. }
  assert (dv_files d !! f = None) as Hnone.
  { apply not_elem_of_dom. rewrite (files_dom d s Hr), Hfr. apply is_fresh. }
  split; cbn [dv_kmod dv_files sp_locked sp_files]; try done.
  - intros a Ha. destruct (Hold a Ha) as [Ho|Hp]; [|by apply Hnew in Hp as [_ ?]].
    destruct (Hkeep a Ho) as [_ ->]. by apply (dr_live _ _ Hr).
  - apply map_Forall2_insert_2; [done|]. intros f'. destruct (dr_files _ _ Hr f') as [x' y' [Hb Hi Hq]|]; constructor.
    split; [done|done|]. destruct (sf_queue y') as [q|]; [|done].
    destruct Hq as (a & c & Hp & Ha & Hc & Ht & Hring). exists a, c. destruct (Hkeep a Ha) as [? ->]. by split_and!.
  - intros f1 f2 x1 x2 a H1 H2 Hp1 Hp2.
    destruct (decide (f1 = f)) as [->|N1], (decide (f2 = f)) as [->|N2]; rewrite ?lookup_insert_eq, ?lookup_insert_ne in * by done; [done|..].
    + injection H1 as <-. destruct (Hnew a Hp1) as [Hout _]. destruct Hout. by eapply Hfiles.
    + injection H2 as <-. destruct (Hnew a Hp2) as [Hout _]. destruct Hout. by eapply Hfiles.
    + by apply (dr_inj _ _ Hr f1 f2 x1 x2 a).
  - intros a _ Ha. destruct (Hold a Ha) as [Ho|Hp].
    + destruct (dr_owned _ _ Hr a Hlock Ho) as (f' & x' & Hx' & Hp). exists f', x'. split; [|done].
      rewrite lookup_insert_ne; [done|]. intros ->. congruence.
    + exists f, x. by rewrite lookup_insert_eq.
Qed.

Lemma open_same task allocs d s :
  device_rep d s → same_reply device_rep (mret (device_open task allocs d)) (mret (spec_open task allocs s)).
Proof.
  intros Hr. unfold device_open, spec_open, linx_kmod_open. rewrite (dr_devs _ _ Hr). cbn [Z.leb Z.compare].
  rewrite (dr_mutex _ _ Hr). destruct (sp_locked s) eqn:Hlock; [done|]. pose proof (find_file d s task Hr Hlock) as Hfind.
  destruct (linx_kmod_find_consumer task (dv_kmod d)) as [a|].
  { destruct Hfind as (-> & c & -> & ->). cbn. split_and!; [done..|]. by destruct d. }
  rewrite Hfind. destruct (oa_consumer allocs); cbn [negb andb]; [|by destruct d].
  destruct (oa_ring allocs); cbn [negb andb]; [|by destruct d].
  rewrite (dr_size _ _ Hr). destruct (linx_init_ringbuffer (oa_buffer allocs) (oa_info allocs) BUFFER_SIZE) as [ring|] eqn:Ering;
    cbn [Z.ltb Z.compare].
  - assert (oa_buffer allocs = true ∧ oa_info allocs = true) as [Hb Hi].
    { unfold linx_init_ringbuffer in Ering. by destruct (oa_buffer allocs), (oa_info allocs). }
    rewrite Hb, Hi in *. cbn [andb]. set (a := fresh (dom (ks_heap (dv_kmod d)))).
    assert (ks_heap (dv_kmod d) !! a = None) as Ha by (apply not_elem_of_dom, is_fresh).
    assert (a ∉ linx_consumer_list (dv_kmod d)) as Hal.
    { intros Hin. destruct (dr_live _ _ Hr a Hin) as (c & Hc & _). congruence. }
    pose proof (init_ring_rep ring Ering) as Hrep.
    assert (kc_preempt_count (set_open true ring) = 0) as Hcount by (by injection Ering as <-).
    assert (live (mk_consumer task (set_open true ring) all_disabled ∅)) as Hlive.
    { split; [|done]. split; [done|]. split; [done|]. by exists 0, [], 0. }
    cbn. rewrite (files_dom d s Hr). split_and!; [done..|].
    apply rep_new_file; try done; cbn [linx_consumer_list ks_heap set_list set_heap g_consumer_mutex g_kmod_numdevs g_buffer_size df_private].
    + by rewrite (dr_mutex _ _ Hr).
    + apply (dr_devs _ _ Hr).
    + apply (dr_size _ _ Hr).
    + apply NoDup_cons. split; [done|]. apply (dr_nodup _ _ Hr).
    + intros b [->|Hb']%elem_of_cons; [by right|by left].
    + intros b Hb'. split; [by right|]. apply lookup_insert_ne. intros ->. done.
    + intros b [= <-]. split; [done|]. eexists. split; [apply lookup_insert_eq|done].
    + split; [done|done|]. exists a, (mk_consumer task (set_open true ring) all_disabled ∅). cbn.
      split_and!; [done|by left|apply lookup_insert_eq|done|done].
  - assert (oa_buffer allocs && oa_info allocs = false) as Hb.
    { unfold linx_init_ringbuffer in Ering. by destruct (oa_buffer allocs && oa_info allocs). }
    rewrite Hb. cbn. rewrite (files_dom d s Hr). split_and!; [done..|].
    apply rep_new_file; try done; cbn [df_private].
    + by rewrite (dr_mutex _ _ Hr).
    + apply (dr_devs _ _ Hr).
    + apply (dr_size _ _ Hr).
    + apply (dr_nodup _ _ Hr).
    + by left.
Qed.

(** *** Closing *)
Lemma close_same d s f :
  device_rep d s → same_reply device_rep (device_step (DClose f) d) (spec_step (DClose f) s).
Proof.
  intros Hr. cbn [device_step spec_step]. apply same_on_file; [done|]. intros x y Hx Hy [_ _ Hq].
  unfold linx_kmod_release. rewrite (dr_mutex _ _ Hr).
  assert (∀ f' x' a, delete f (dv_files d) !! f' = Some x' → df_private x' = Some a → dv_files d !! f' = Some x' ∧ df_private x ≠ Some a) as Hother.
  { intros f' x' a Hx' Hp. apply lookup_delete_Some in Hx' as [Hne Hx']. split; [done|]. intros Hp'. by apply Hne, (dr_inj _ _ Hr f f' x x' a). }
  destruct (sp_locked s) eqn:Hlock.
  { cbn. split_and!; [done..|]. split; cbn [dv_kmod dv_files sp_locked sp_files]; try by apply Hr.
    - by rewrite (dr_mutex _ _ Hr).
    - apply map_Forall2_delete, (dr_files _ _ Hr).
    - intros f1 f2 x1 x2 a H1 H2 Hp1 Hp2. eapply (dr_inj _ _ Hr); [apply (Hother f1 x1 a H1 Hp1)|apply (Hother f2 x2 a H2 Hp2)|done..].
    - done. }
  destruct (df_private x) as [a|] eqn:Hpx; cbn; (split_and!; [done..|]).
  - assert (∀ b, b ∈ List.filter (λ b, negb (a =? b)%nat) (linx_consumer_list (dv_kmod d)) ↔ b ≠ a ∧ b ∈ linx_consumer_list (dv_kmod d)) as Hin.
    { intros b. rewrite !list_elem_of_In, List.filter_In, negb_true_iff, Nat.eqb_neq. naive_solver. }
    split; cbn [dv_kmod dv_files sp_locked sp_files set_list set_heap g_consumer_mutex g_kmod_numdevs g_buffer_size linx_consumer_list ks_heap];
      try by apply Hr.
    + by rewrite (dr_mutex _ _ Hr).
    + rewrite NoDup_ListNoDup. apply List.NoDup_filter. rewrite <- NoDup_ListNoDup. apply (dr_nodup _ _ Hr).
    + intros b [Hne Hb]%Hin. rewrite lookup_delete_ne by done. by apply (dr_live _ _ Hr).
    + intros f'. destruct (decide (f' = f)) as [->|Hne]; [rewrite !lookup_delete_eq; constructor|].
      rewrite !lookup_delete_ne by done.
      pose proof (dr_files _ _ Hr f') as Hf. remember (dv_files d !! f') as o eqn:Ef in Hf. symmetry in Ef.
      destruct Hf as [x' y' [Hb Hi Hq']|]; rewrite ?Ef; constructor. split; [done|done|]. destruct (sf_queue y') as [q|]; [|done].
      destruct Hq' as (b & c & Hp & Hbl & Hc & Ht & Hring). exists b, c.
      assert (b ≠ a) as Hba. { intros ->. apply Hne. by apply (dr_inj _ _ Hr f' f x' x a). }
      split_and!; try done; cbn; [by apply Hin|by rewrite lookup_delete_ne].
    + intros f1 f2 x1 x2 b H1 H2 Hp1 Hp2. eapply (dr_inj _ _ Hr); [apply (Hother f1 x1 b H1 Hp1)|apply (Hother f2 x2 b H2 Hp2)|done..].
    + intros b _ [Hne Hb]%Hin. destruct (dr_owned _ _ Hr b Hlock Hb) as (f' & x' & Hx' & Hp). exists f', x'. split; [|done].
      rewrite lookup_delete_ne; [done|]. intros ->. congruence.
  - split; cbn [dv_kmod dv_files sp_locked sp_files]; try by apply Hr.
    + by rewrite (dr_mutex _ _ Hr).
    + apply map_Forall2_delete, (dr_files _ _ Hr).
    + intros f1 f2 x1 x2 b H1 H2 Hp1 Hp2. eapply (dr_inj _ _ Hr); [apply (Hother f1 x1 b H1 Hp1)|apply (Hother f2 x2 b H2 Hp2)|done..].
    + intros b _ Hb. destruct (dr_owned _ _ Hr b Hlock Hb) as (f' & x' & Hx' & Hp). exists f', x'. split; [|done].
      rewrite lookup_delete_ne; [done|]. intros ->. congruence.
Qed.

(** *** Requests *)
Lemma ioctl_request env cmd arg nr flags c ret unlock c' flags' :
  ioctl_switch env cmd arg nr flags c = (ret, unlock, c', flags') →
  request env cmd arg nr = (ret, negb unlock) ∧ cn_task c' = cn_task c ∧ cn_ring c' = cn_ring c.
Proof.
  unfold ioctl_switch, request, mjoin, option_join. cbv zeta beta.
  repeat match goal with
  | |- context [cmd =? ?X] => destruct (Z.eqb_spec cmd X) as [->|_]
  | |- context [?X =? ?Y] => let b := eval vm_compute in (X =? Y) in lazymatch b with true => change (X =? Y) with true | false => change (X =? Y) with false end
  end; cbn [orb];
    repeat match goal with
    | |- context [match ie_find_pid env arg with _ => _ end] => destruct (ie_find_pid env arg) as [[[]|]|]
    | |- context [?a <=? ?b] => destruct (a <=? b)
    end; cbn [negb]; intros [= <- <- <- <-]; done.
Qed.

Lemma ioctl_same d s f env cmd arg :
  device_rep d s → same_reply device_rep (device_step (DIoctl f env cmd arg) d) (spec_step (DIoctl f env cmd arg) s).
Proof.
  intros Hr. cbn [device_step spec_step]. apply same_on_file; [done|]. intros x y Hx Hy [_ _ Hq].
  unfold linx_kmod_ioctl. destruct (sf_queue y) as [q|]; [|rewrite Hq; by destruct d].
  destruct Hq as (a & c & -> & Ha & Hc & _). destruct (ie_word env arg) as [nr|]; [|by destruct d].
  rewrite (dr_mutex _ _ Hr). destruct (sp_locked s) eqn:Hlock; [by destruct d|].
  rewrite Hc, from_opt_some, bind_Ret_nil.
  destruct (ioctl_switch env cmd arg nr (g_tracepoints_flags (dv_kmod d)) c) as [[[ret unlock] c'] flags] eqn:Es.
  destruct (ioctl_request _ _ _ _ _ _ _ _ _ _ Es) as (Hreq & Ht & Hring). rewrite Hreq. cbn. split_and!; [done..|].
  assert (device_rep (mk_device (set_heap (<[a := c']> (ks_heap (dv_kmod d))) (dv_kmod d)) (dv_files d)) (mk_spec (sp_locked s) (change_queue (λ q, q) <$> sp_files s))) as H.
  { apply rep_change; [done|]. intros b cb Hb Hcb [[Hoff [Hcount Hrep]] Hopen]. destruct (decide (b = a)) as [->|Hne].
    - rewrite Hc in Hcb. injection Hcb as <-. exists c'. rewrite lookup_insert_eq. split; [done|].
      unfold live, idle_consumer. rewrite Hring, Ht. split; [|done]. split; [|done].
      split; [|done]. eapply ioctl_switch_off; [exact Es|done].
    - exists cb. by rewrite lookup_insert_ne. }
  rewrite (map_fmap_ext _ id), map_fmap_id in H by (intros; apply change_queue_id).
  destruct H as [? ? ? ? ? Hfi ? ?]. split; cbn [dv_kmod dv_files sp_locked sp_files] in *; try done.
  - intros f'. destruct (Hfi f') as [x' y' [Hb Hi Hq]|]; constructor. split; [done|done|]. by destruct (sf_queue y').
  - intros b _. by apply dr_owned0.
Qed.

(** *** Mapping and reading *)
Lemma mmap_same d s f remap_ok len :
  device_rep d s → same_reply device_rep (device_step (DMmap f remap_ok len) d) (spec_step (DMmap f remap_ok len) s).
Proof.
  intros Hr. cbn [device_step spec_step]. apply same_on_file; [done|]. intros x y Hx Hy [Hb Hi Hq].
  assert (linx_kmod_mmap remap_ok (df_private x) len (dv_kmod d) = Ret [] (spec_mmap remap_ok (sf_queue y) len)) as ->.
  { unfold linx_kmod_mmap, spec_mmap. destruct (sf_queue y) as [q|]; [|by rewrite Hq].
    destruct Hq as (a & c & -> & _ & -> & _ & Hring). rewrite from_opt_some, bind_Ret_nil, (rr_size _ _ _ _ Hring).
    change (wrap 32 (BUFFER_SIZE * 2)) with (2 * BUFFER_SIZE). destruct (_ <? len); [done|].
    destruct (len <=? PAGE_SIZE); [by destruct (remap_ok 0)|]. destruct (Z.eqb_spec len (2 * BUFFER_SIZE)) as [->|]; [|done].
    change (half_pages (2 * BUFFER_SIZE / 2)) with (Z.of_nat <$> seq 0 8). rewrite length_fmap, length_seq.
    by destruct (forallb remap_ok _). }
  rewrite bind_Ret_nil. destruct (spec_mmap remap_ok (sf_queue y) len) as [ret m]. cbn. split_and!; [done..|].
  rewrite <- (set_heap_same (dv_kmod d)) at 1. apply (rep_update_file _ _ _ _ x y); rewrite ?set_heap_same; eauto.
  split; cbn; [by rewrite Hb|by rewrite Hi|]. by destruct (sf_queue y).
Qed.

Lemma read_same d s f :
  device_rep d s → same_reply device_rep (device_step (DRead f) d) (spec_step (DRead f) s).
Proof.
  intros Hr. cbn [device_step spec_step]. apply same_on_file; [done|]. intros x y Hx Hy [Hb Hi Hq].
  unfold device_read, spec_read. rewrite Hb, Hi. destruct (negb _); [done|].
  destruct (sf_queue y) as [q|] eqn:Eq; [|by rewrite Hq].
  destruct Hq as (a & c & Hp & Ha & Hc & Ht & Hring). rewrite Hp, !from_opt_some, !bind_Ret_nil, Hc, from_opt_some, bind_Ret_nil.
  destruct (dr_live _ _ Hr a Ha) as (c0 & Hc0 & Hlive). rewrite Hc in Hc0. injection Hc0 as <-.
  destruct q as [task events reads]; cbn [qu_task qu_events qu_reads] in *. pose proof (rr_T _ _ _ _ Hring) as HT.
  destruct events as [|e rest].
  - rewrite (kmod_next_empty _ _ _ Hring), bind_Ret_nil. cbn. split_and!; [done..|].
    assert (set_cn_ring (cn_ring c) c = c) as -> by (by destruct c). rewrite insert_id by done. rewrite set_heap_same.
    assert (mk_dev_file (Some a) (sf_buffer y) (sf_info y) (df_next x) = x) as -> by (destruct x; cbn in *; by subst).
    rewrite insert_id by done. by destruct d.
  - destruct (Z.leb_spec 132 reads).
    + assert (reads = 132) as -> by lia. by rewrite (kmod_next_past _ _ _ _ Hring).
    + rewrite (kmod_next_front _ _ _ _ _ Hring), bind_Ret_nil by lia. cbn. split_and!; [done..|].
      pose proof (ring_rep_pop _ _ _ _ _ Hring ltac:(lia)) as Hpop.
      apply (rep_update_file _ _ _ _ x y); [done..| | |].
      * intros b Hne. apply lookup_insert_ne. congruence.
      * intros b cb Hp' _ Hcb [[Hoff [Hcount Hrep]] Hopen]. rewrite Hp in Hp'. injection Hp' as <-. rewrite lookup_insert_eq.
        rewrite Hc in Hcb. injection Hcb as <-. eexists. split; [done|].
        assert (∀ z r, kc_preempt_count (tail_wrap (tail_advance z r)) = kc_preempt_count r ∧ kc_open (tail_wrap (tail_advance z r)) = kc_open r) as Hkeep by done.
        split; [|by cbn [cn_ring set_cn_ring]; rewrite (proj2 (Hkeep _ _))]. split; [done|]. split; [by cbn [cn_ring set_cn_ring]; rewrite (proj1 (Hkeep _ _))|]. by eexists _, _, _.
      * split; cbn; [done|done|]. exists a, (set_cn_ring (tail_wrap (tail_advance EVENT_HEADER_SIZE (cn_ring c))) c). cbn.
        rewrite lookup_insert_eq. by split_and!.
Qed.

(** *** The probes *)
Lemma probe_same d s k task args id type ret :
  device_rep d s → task_ok k task → fits 32 type →
  same_reply device_rep
    (if (0 <=? id) && linx_trace_syscall id then
       '(hdr, rcu) ← probe_header k task id type ret 0;
       h ← record_all k task args hdr (linx_consumer_list (dv_kmod d)) (ks_heap (dv_kmod d));
       mret (Probed, mk_device (set_heap h (dv_kmod d)) (dv_files d))
     else mret (Probed, d))
    (spec_probe k task id type ret s).
Proof.
  intros Hr Ht Hty. unfold spec_probe. destruct ((0 <=? id) && linx_trace_syscall id) eqn:Etr; [|done].
  destruct (probe_header_ok k task id type ret 0 Ht Hty) as (e & rcu' & -> & He). rewrite !bind_Ret_nil.
  destruct (record_all_spec k task args e (linx_consumer_list (dv_kmod d)) (ke_len e) (ks_heap (dv_kmod d)) He (eo_len e He)
    (dr_nodup _ _ Hr)) as (h & Hrec & _ & Hin).
  { intros a Ha. destruct (dr_live _ _ Hr a Ha) as (c & Hc & [Hidle _]). eauto. }
  assert (set_len (ke_len e) e = e) as Hsame by (by destruct e). rewrite Hsame in Hrec. rewrite Hrec, bind_Ret_nil. cbn.
  split_and!; [done..|]. apply rep_change; [done|]. intros a c Ha Hc [[Hoff [Hcount (T & q & next & Hrep)]] Hopen].
  destruct (Hin a c Ha Hc) as (c' & Hc' & Hc'' & Hcount' & Hopen' & Hgets). exists c'. split; [done|].
  assert (∀ T q next, ring_rep T q next (cn_ring c) → ring_rep T (append e q) next (cn_ring c')) as Happ.
  { intros T' q' next' Hrep'. unfold append. specialize (Hgets _ _ _ Hrep'). destruct (length q' <? 66)%nat; [done|]. by destruct Hgets. }
  rewrite Hc''. cbn. split_and!; [|done|exact Happ]. split; [|by rewrite <- Hopen]. split; [done|]. split; [done|]. eauto.
Qed.

Lemma step_same c d s : device_rep d s → call_ok c → same_reply device_rep (device_step c d) (spec_step c s).
Proof.
  intros Hr Hc. destruct c as [task allocs|f|f env cmd arg|f remap_ok len|f|k task args id|k task args id ret].
  - by apply open_same.
  - by apply close_same.
  - by apply ioctl_same.
  - by apply mmap_same.
  - by apply read_same.
  - pose proof (probe_same d s k task args id SYSCALL_ENTER 0 Hr Hc ltac:(unfold fits, SYSCALL_ENTER; lia)) as H.
    cbn [device_step spec_step]. unfold sys_enter_probe. rewrite Z.leb_antisym in H.
    destruct (id <? 0); cbn [negb andb] in H; [by destruct d|].
    destruct (linx_trace_syscall id) eqn:Etr; cbn [negb andb] in *; [|by destruct d].
    destruct (probe_header k task id SYSCALL_ENTER 0 0) as [w [hdr rcu]| |]; cbn in *; [|done..].
    rewrite (trace_not_net _ Etr). destruct (record_all _ _ _ _ _ _) as [w' h| |]; cbn in *; [|done..]. by rewrite !app_nil_r in *.
  - pose proof (probe_same d s k task args id SYSCALL_EXIT ret Hr Hc ltac:(unfold fits, SYSCALL_EXIT; lia)) as H.
    cbn [device_step spec_step]. unfold sys_exit_probe. rewrite Z.leb_antisym in H.
    destruct (id <? 0); cbn [negb andb] in H; [by destruct d|].
    destruct (linx_trace_syscall id) eqn:Etr; cbn [negb andb] in *; [|by destruct d].
    destruct (probe_header k task id SYSCALL_EXIT ret 0) as [w [hdr rcu]| |]; cbn in *; [|done..].
    destruct (record_all _ _ _ _ _ _) as [w' h| |]; cbn in *; [|done..]. by rewrite !app_nil_r in *.
Qed.

Lemma run_same calls d s :
  device_rep d s → Forall call_ok calls →
  match device_run calls d, spec_run calls s with
  | Ret w (rs, d'), Ret w' (rs', s') => w = w' ∧ rs = rs' ∧ device_rep d' s'
  | Ub f, Ub f' => f = f'
  | _, _ => False
  end.
Proof.
  unfold device_run, spec_run. revert d s. induction calls as [|c calls IH]; intros d s Hr Hok; cbn [run_calls]; [done|].
  apply Forall_cons in Hok as [Hc Hok]. pose proof (step_same c d s Hr Hc) as H. unfold same_reply in H.
  destruct (device_step c d) as [w [r d1]|f|], (spec_step c s) as [w' [r' s1]|f'|]; cbn [mbind outcome_bind]; try done.
  destruct H as (-> & -> & Hr1). pose proof (IH d1 s1 Hr1 Hok) as H2.
  destruct (run_calls device_step calls d1) as [w2 [rs2 d2]|f2|], (run_calls spec_step calls s1) as [w2' [rs2' s2]|f2'|];
    cbn; try done. destruct H2 as (-> & -> & ?). done.
Qed.

(** ** Theorems *)

(** C10: whatever processes do with the device, in whatever order, with the
    probes of any tasks in between, every call answers what the queues of
    [spec_step] answer.  Each file that opens gets a queue of its own; a task
    that has a file is refused a second; every recorded call lies in each
    queue with room, once, and comes out in order; closing one file leaves the
    others as they are; no consumer is used after its release; and the only
    faults are a read that is not mapped and one past the 132nd event. *)
Theorem device_refines_queues (calls : list device_call) :
  Forall call_ok calls → fst <$> device_run calls device_loaded = fst <$> spec_run calls spec_loaded.
Proof.
  intros Hok. pose proof (run_same calls _ _ loaded_rep Hok) as H.
  destruct (device_run calls device_loaded) as [w [rs d]|f|], (spec_run calls spec_loaded) as [w' [rs' s]|f'|]; try done; cbn.
  - by destruct H as (-> & -> & _).
  - by rewrite H.
Qed.

(** ** An example: two processes, each with its own events *)
Definition demo_event : option event_header_t :=
  match probe_header sample_env sample_task NR_unlinkat SYSCALL_ENTER 0 0 with
  | Ret _ (e, _) => Some (set_len EVENT_HEADER_SIZE e)
  | _ => None
  end.

Definition all_allocs : open_allocs := mk_open_allocs true true true true.

Definition demo_calls : list device_call :=
  [DOpen 7 all_allocs; DOpen 7 all_allocs; DOpen 8 all_allocs;
   DMmap 0 (λ _, true) (2 * BUFFER_SIZE); DMmap 0 (λ _, true) 32;
   DMmap 1 (λ _, true) (2 * BUFFER_SIZE); DMmap 1 (λ _, true) 32;
   DEnter sample_env sample_task [] NR_unlinkat; DRead 0; DRead 0; DClose 0; DRead 1;
   DOpen 7 all_allocs; DIoctl 1 sample_ioctl_env SYSMON_IOCTL_ENABLE_FDS 16; DClose 1].

Example device_refines_queues_witness :
  fst <$> device_run demo_calls device_loaded
  = Ret [] [Opened 0; Answer (- EBUSY); Opened 1;
            Mapped 0 (BufferPages ((Z.of_nat <$> seq 0 8) ++ (Z.of_nat <$> seq 0 8))); Mapped 0 InfoPage;
            Mapped 0 (BufferPages ((Z.of_nat <$> seq 0 8) ++ (Z.of_nat <$> seq 0 8))); Mapped 0 InfoPage;
            Probed; Taken demo_event; Taken None; Answer 0; Taken demo_event; Opened 2; Answer 0; Waits].
Proof.
  rewrite (device_refines_queues demo_calls).
  - vm_compute. reflexivity.
  - repeat (apply List.Forall_cons; [try exact I; try exact sample_task_ok|]). apply List.Forall_nil.
Defined.

(** ** The tracepoints

    The kernel offers its tracepoints one after another; [visit_tracepoint]
    keeps those of the table's names.  [registered] are the pairs of a
    tracepoint and a probe that are bound. *)
Inductive probe_func := SysEnterProbe | SysExitProbe | SchedSwitchProbe.

#[export] Instance probe_func_eq_dec : EqDecision probe_func.
Proof. solve_decision. Defined.

Record tracepoint_entry := mk_tracepoint { te_name : string; te_tp : option nat; te_func : probe_func }.

Definition tracepoint : list tracepoint_entry :=
  [mk_tracepoint "sys_enter" None SysEnterProbe; mk_tracepoint "sys_exit" None SysExitProbe;
   mk_tracepoint "sched_switch" None SchedSwitchProbe].

Definition set_tp (tp : nat) (e : tracepoint_entry) : tracepoint_entry := mk_tracepoint (te_name e) (Some tp) (te_func e).

Definition visit_tracepoint (tp : nat) (name : string) (table : list tracepoint_entry) : list tracepoint_entry :=
  if streq name "sys_enter" then alter (set_tp tp) 0%nat table
  else if streq name "sys_exit" then alter (set_tp tp) 1%nat table
  else if streq name "sched_switch" then alter (set_tp tp) 2%nat table
  else table.

Definition for_each_kernel_tracepoint (kernel : list (nat * string)) (table : list tracepoint_entry) : list tracepoint_entry :=
  foldl (λ table '(tp, name), visit_tracepoint tp name table) table kernel.

(** A tracepoint the kernel does not offer has a null pointer. *)
Fixpoint compat_set_tracepoint (table : list tracepoint_entry) (registered : list (nat * probe_func)) : outcome (list (nat * probe_func)) :=
  match table with
  | [] => mret registered
  | e :: table => tp ← from_opt NullDeref (te_tp e); compat_set_tracepoint table (registered ++ [(tp, te_func e)])
  end.

Fixpoint clear_tracepoint (table : list tracepoint_entry) (registered : list (nat * probe_func)) : outcome (list (nat * probe_func)) :=
  match table with
  | [] => mret registered
  | e :: table =>
      tp ← from_opt NullDeref (te_tp e); clear_tracepoint table (filter (λ p, p ≠ (tp, te_func e)) registered)
  end.

(** The address the kernel's list gives for a name; the last one counts. *)
Definition offered (kernel : list (nat * string)) (name : string) : option nat :=
  foldl (λ o '(tp, n), if streq n name then Some tp else o) None kernel.

Lemma visited kernel : ∀ a b c,
  for_each_kernel_tracepoint kernel
    [mk_tracepoint "sys_enter" a SysEnterProbe; mk_tracepoint "sys_exit" b SysExitProbe; mk_tracepoint "sched_switch" c SchedSwitchProbe]
  = [mk_tracepoint "sys_enter" (foldl (λ o '(tp, n), if streq n "sys_enter" then Some tp else o) a kernel) SysEnterProbe;
     mk_tracepoint "sys_exit" (foldl (λ o '(tp, n), if streq n "sys_exit" then Some tp else o) b kernel) SysExitProbe;
     mk_tracepoint "sched_switch" (foldl (λ o '(tp, n), if streq n "sched_switch" then Some tp else o) c kernel) SchedSwitchProbe].
Proof.
  induction kernel as [|[tp name] kernel IH]; intros a b c; [done|]. cbn [foldl for_each_kernel_tracepoint].
  unfold for_each_kernel_tracepoint in IH. unfold visit_tracepoint, streq.
  repeat match goal with |- context [String.eqb name ?n] => destruct (String.eqb_spec name n) as [->|?] end; cbn [String.eqb Ascii.eqb Bool.eqb]; apply IH.
Qed.

(** Loading binds each probe to the tracepoint of its name and unloading takes
    all of them away; a kernel without one of the three stops both at a null
    pointer. *)
Theorem tracepoints_bound (kernel : list (nat * string)) :
  let table := for_each_kernel_tracepoint kernel tracepoint in
  match offered kernel "sys_enter", offered kernel "sys_exit", offered kernel "sched_switch" with
  | Some a, Some b, Some c =>
      compat_set_tracepoint table [] = Ret [] [(a, SysEnterProbe); (b, SysExitProbe); (c, SchedSwitchProbe)]
      ∧ clear_tracepoint table [(a, SysEnterProbe); (b, SysExitProbe); (c, SchedSwitchProbe)] = Ret [] []
  | _, _, _ => compat_set_tracepoint table [] = Ub NullDeref
  end.
Proof.
  cbv zeta. unfold tracepoint. rewrite visited. unfold offered.
  destruct (foldl _ None kernel) as [a|]; [|done]. destruct (foldl _ None kernel) as [b|]; [|done].
  destruct (foldl _ None kernel) as [c|]; [|done]. split; [done|].
  cbn [clear_tracepoint te_tp te_func from_opt]. rewrite !bind_ret_l. f_equal.
  repeat (rewrite filter_cons; first [rewrite decide_False by congruence | rewrite decide_True by congruence]). done.
Qed.
