(* ===== verification/KmodUser.v ===== *)
(** * The reader of the kernel module (kernel/kmod/user)

    The program opens the device, maps the ring, and writes a line per event to
    a log.  What the system answers is [user_env]; [local_time] is what
    [localtime_r] and [strftime] make of a number of seconds. *)
From S2P Require Import Prelude CString Memory Log KmodCodes KmodEvent KmodRing.
From Stdlib Require Import Ascii.

#[local] Open Scope Z_scope.

(** ** Lines (linx_logs.c) *)
Definition MAX_PRINT_LEN : nat := 2048.
Definition NR_syscalls : Z := 469.

Definition syscall_names : list (Z * string) :=
  [(NR_open, "open"); (NR_openat, "openat"); (NR_read, "read"); (NR_write, "write"); (NR_close, "close");
   (NR_execve, "execve"); (NR_clone, "clone"); (NR_unlink, "unlink"); (NR_unlinkat, "unlinkat"); (NR_socket, "socket");
   (NR_connect, "connect"); (NR_bind, "bind"); (NR_listen, "listen"); (NR_sendto, "sendto"); (NR_sendmsg, "sendmsg");
   (NR_recvfrom, "recvfrom"); (NR_recvmsg, "recvmsg")].

(** After [init_syscall_names]. *)
Definition get_syscall_name (id : Z) : string :=
  if id <? NR_syscalls then from_option snd "unknown" (List.find (λ x, x.1 =? id) syscall_names) else "unknown".

Definition newline : string := String (ascii_of_nat 10) "".

(** The C string in an array. *)
Fixpoint until_nul (l : list Z) : option (list Z) :=
  match l with
  | [] => None
  | b :: l => if b =? 0 then Some [] else (b ::.) <$> until_nul l
  end.

Definition string_of (l : list Z) : string := String.string_of_list_ascii (chr <$> l).
Definition array_string (l : list Z) : outcome string := string_of <$> from_opt OutOfBounds (until_nul l).

Fixpoint hex_digits (fuel : nat) (z : Z) (acc : string) : string :=
  match fuel with
  | O => acc
  | S fuel =>
      let d := z `mod` 16 in
      let acc := String (chr (if d <? 10 then 48 + d else 87 + d)) acc in
      if z / 16 =? 0 then acc else hex_digits fuel (z / 16) acc
  end.
Definition show_hex (z : Z) : string := hex_digits 8 z "".

Definition print_ip_address (ip : Z) : string :=
  show_int (ip `mod` 256) +:+ "." +:+ show_int (ip / 256 `mod` 256) +:+ "." +:+ show_int (ip / 65536 `mod` 256) +:+ "."
  +:+ show_int (ip / 16777216 `mod` 256).

Definition linx_protocol2str (protocol : Z) : string :=
  if protocol =? 6 then "TCP" else if protocol =? 17 then "UDP" else if protocol =? 1 then "ICMP" else "OTHER".

(** Both directions print the destination port. *)
Definition linx_print_net_log (net : komd_net_info_t) : list string :=
  ["addr=" +:+ show_hex (kn_saddr net) +:+ ", port=" +:+ show_hex (kn_sport net) +:+ " net->protocol="
     +:+ show_int (kn_protocol net) +:+ newline;
   if kn_direction net =? 0
   then "-> " +:+ print_ip_address (kn_daddr net) +:+ ":" +:+ show_int (kn_dport net) +:+ " via "
          +:+ linx_protocol2str (kn_protocol net) +:+ " " +:+ newline
   else "<- " +:+ print_ip_address (kn_saddr net) +:+ ":" +:+ show_int (kn_dport net) +:+ " via "
          +:+ linx_protocol2str (kn_protocol net) +:+ newline].

Section user.
Context (local_time : Z → string).

Definition linx_format_ts (ns : Z) : string :=
  local_time (ns / 1000000000) +:+ "." +:+ padded 9 (show_int (ns `mod` 1000000000)).

(** The line with its parts, before the buffer bounds it. *)
Definition event_line (time : string) (evt : event_header_t) (comm cmdline pcomm : string) : string :=
  "[" +:+ time +:+ "]: " +:+ get_syscall_name (ke_syscall_nr evt) +:+ " syscall=" +:+ show_int (ke_syscall_nr evt)
  +:+ " dir=" +:+ (if negb (ke_type evt =? 0) then "<" else ">") +:+ " res=" +:+ show_int (ke_res evt)
  +:+ " user=" +:+ (if negb (ke_user evt =? 0) then "user" else "root") +:+ " comm=" +:+ comm
  +:+ " cmdline=" +:+ cmdline +:+ " pid=" +:+ show_int (sext 32 (ke_pid evt)) +:+ " tid="
  +:+ show_int (sext 32 (ke_tid evt)) +:+ " ppid=" +:+ show_int (sext 32 (ke_ppid evt)) +:+ "(" +:+ pcomm +:+ ")"
  +:+ newline.

(** What is printed on the way, and the text in a buffer of [buflen] bytes;
    [fds_enabel] is false in every call. *)
Definition linx_log_format (evt : event_header_t) (buflen : nat) : outcome (list string * string) :=
  let time := stake 127 (linx_format_ts (ke_ts evt)) in
  let printed := if negb (ke_net_flag evt =? 0) then linx_print_net_log (ke_net evt) else [] in
  comm ← array_string (ke_proc evt);
  cmdline ← array_string (ke_cmdline evt);
  pcomm ← array_string (ke_pp_proc evt);
  mret (printed, stake (buflen - 1) (event_line time evt comm cmdline pcomm)).

Definition linx_log_print (evt : event_header_t) : outcome (list string) :=
  '(printed, text) ← linx_log_format evt MAX_PRINT_LEN; mret (printed ++ [text]).

(** What [write] answers to a text: how many bytes it wrote, or -1. *)
Definition linx_logs_write (write : string → Z) (evt : event_header_t) (file : string)
    : outcome (Z * list string * string) :=
  '(printed, text) ← linx_log_format evt 512;
  let nbytes := write text in
  let file := file +:+ stake (Z.to_nat nbytes) text in
  mret (if (wrap 64 nbytes <? Z.of_nat (strlen text)) || (nbytes <? 0) then -1 else 0, printed, file).

(** ** The device (linx_devset.c) *)

(** What is given back to the system. *)
Inductive closed_handle := ClosedFile (fd : Z) | UnmappedBuffer | UnmappedInfo.

Definition linx_logs_close (fd : Z) : closed_handle := ClosedFile fd.

Inductive map_pointer := Null | MapFailed | Mapped.

Record kmod_device := mk_kmod_device {
  kd_msg_fd : Z;
  kd_buffer : map_pointer;
  kd_next_event : Z;      (* an offset into the mapping *)
  kd_log_fd : Z;
  kd_bufinfo : map_pointer
}.

Record user_env := mk_user_env {
  ue_open_dev : Z;
  ue_open_log : option string → Z;
  ue_mmap_buffer : bool;
  ue_mmap_info : bool;
  ue_ioctl : Z;
  ue_write : string → Z
}.

Definition linx_logs_open (env : user_env) (filename : option string) : Z :=
  let fd := ue_open_log env filename in if fd <? 0 then -1 else fd.

Definition linx_kmod_init (env : user_env) (filename : option string) (dev : kmod_device) : Z * kmod_device :=
  let dev_fd := ue_open_dev env in
  if dev_fd <? 0 then (-1, dev)
  else
    let logs_fd := linx_logs_open env filename in
    if logs_fd <? 0 then (-1, dev)
    else if negb (ue_mmap_buffer env)
    then (-1, mk_kmod_device dev_fd MapFailed (kd_next_event dev) (kd_log_fd dev) (kd_bufinfo dev))
    else if negb (ue_mmap_info env) then (-1, mk_kmod_device dev_fd Mapped 0 logs_fd MapFailed)
    else (0, mk_kmod_device dev_fd Mapped 0 logs_fd Mapped).

Definition linx_kmod_config (env : user_env) : Z := if ue_ioctl env <? 0 then -1 else 0.

(** What the program shows and keeps: standard output and the log file. *)
Record user_output := mk_user_output { uo_stdout : list string; uo_file : string }.

Definition log_event (env : user_env) (evt : event_header_t) (out : user_output) : outcome user_output :=
  '(_, printed, file) ← linx_logs_write (ue_write env) evt (uo_file out);
  shown ← linx_log_print evt;
  mret (mk_user_output (uo_stdout out ++ printed ++ shown) file).

(** A call of [komd_next]: -1 without an event.  Its other two lines of output
    are left out. *)
Definition kmod_next_logged (env : user_env) (dev : kmod_device) (r : kmod_ringbuffer_ctx) (out : user_output)
    : outcome (Z * kmod_device * kmod_ringbuffer_ctx * user_output) :=
  match kd_bufinfo dev with
  | Null => Ub NullDeref
  | MapFailed => Ub BadAddress
  | Mapped =>
      '(evt, next, r') ← linx_kmod_next (kd_next_event dev) r;
      match evt with
      | None => mret (-1, dev, r, out)
      | Some evt =>
          out ← log_event env evt out;
          mret (0, mk_kmod_device (kd_msg_fd dev) (kd_buffer dev) next (kd_log_fd dev) (kd_bufinfo dev), r', out)
      end
  end.

Definition linx_kmod_close (dev : kmod_device) : Z * list closed_handle :=
  (0, (if 0 <? kd_log_fd dev then [linx_logs_close (kd_log_fd dev)] else [])
      ++ [UnmappedBuffer; UnmappedInfo; ClosedFile (kd_msg_fd dev)]).

Definition dashes : string := "----------------------------" +:+ newline.
Definition tab : string := String (ascii_of_nat 9) "".

(** The counters are 64 bits wide and printed with [%u]. *)
Definition print_print_all_event (dev : kmod_device) (r : kmod_ringbuffer_ctx) (out : user_output) : outcome user_output :=
  match kd_bufinfo dev with
  | Null => Ub NullDeref
  | MapFailed => Ub BadAddress
  | Mapped =>
      mret (mk_user_output
        (uo_stdout out ++ [dashes; tab +:+ "all events: " +:+ show_int (wrap 32 (ri_n_evts (kc_info r))) +:+ " " +:+ newline +:+ " " +:+ tab
           +:+ "drop events: " +:+ show_int (wrap 32 (ri_n_drop_evts (kc_info r))) +:+ newline; dashes]) (uo_file out))
  end.

(** The event of the self test. *)
Definition test_event : event_header_t :=
  mk_event_header 1749102993893615929 1 263 6666 6666 0 0 1234 0 (mk_net_info 0 0 0 0 0 0) 0
    (strncpy_bytes (zero_chars PROC_SIZE) (bytes_of "rm") (PROC_SIZE - 1))
    (strncpy_bytes (zero_chars PP_PROC_SIZE) (bytes_of "bash") (PP_PROC_SIZE - 1))
    (strncpy_bytes (zero_chars MAX_CMDLINE_LEN) (bytes_of "rm -rf 1.txt") (MAX_CMDLINE_LEN - 1))
    ([1; 2; 3] ++ replicate (FD_NUM - 3) 0).

(** A log that cannot be opened is written to all the same. *)
Definition linx_logs_test (env : user_env) (out : user_output) : outcome (Z * list closed_handle * user_output) :=
  shown ← linx_log_print test_event;
  let fd := linx_logs_open env None in
  '(_, printed, file) ← linx_logs_write (if fd <? 0 then λ _, -1 else ue_write env) test_event (uo_file out);
  mret (0, [linx_logs_close fd], mk_user_output (uo_stdout out ++ shown ++ printed) file).

(** ** main.c *)
Inductive user_option := OptFile (file : string) | OptTest | OptHelp | OptBad.

Definition usage (name : string) : list string :=
  ["Usage: " +:+ name +:+ " <Operation1>  <Operation file>" +:+ newline;
   "      Operation1: -f | -t |." +:+ newline;
   "            -f: Output path of log file." +:+ newline;
   "            -t: Test the log API." +:+ newline;
   "            -h: Print internal usage information and exit." +:+ newline;
   tab +:+ name +:+ " -f log.txt" +:+ newline;
   tab +:+ name +:+ " -t " +:+ newline].

(** Two options end the program. *)
Inductive early_end := SelfTest | ShowUsage.

(** The options: the file, what [ret] is, or an end.  [ret] has no initial
    value: it is a parameter. *)
Fixpoint options_loop (ret : Z) (file : option string) (opts : list user_option) : option string * Z + early_end :=
  match opts with
  | [] => inl (file, ret)
  | o :: opts =>
      if negb (ret =? 0) then inl (file, ret)
      else match o with
      | OptFile f => options_loop ret (Some f) opts
      | OptTest => inr SelfTest
      | OptHelp => inr ShowUsage
      | OptBad => options_loop (-1) file opts
      end
  end.

(** [n] passes of the loop on a ring that nobody writes meanwhile. *)
Fixpoint main_passes (n : nat) (env : user_env) (dev : kmod_device) (r : kmod_ringbuffer_ctx) (out : user_output)
    : outcome (kmod_device * kmod_ringbuffer_ctx * user_output) :=
  match n with
  | O => mret (dev, r, out)
  | S n => '(_, dev, r, out) ← kmod_next_logged env dev r out; main_passes n env dev r out
  end.

Definition g_kmod_dev : kmod_device := mk_kmod_device 0 Null 0 0 Null.

Definition show_usage (name : string) (out : user_output) : user_output :=
  mk_user_output (uo_stdout out ++ usage name) (uo_file out).

(** The handler of an interrupt: the counters, and the end of the process. *)
Definition signal_callback (dev : kmod_device) (r : kmod_ringbuffer_ctx) (out : user_output)
    : outcome (Z * list closed_handle * user_output) :=
  out ← print_print_all_event dev r out;
  let '(_, closed) := linx_kmod_close dev in
  mret (0, closed, out).

(** The answers of the initialisation and of the request are not looked at. *)
Definition kmod_main (name : string) (ret : Z) (opts : list user_option) (env : user_env) (passes : nat) (r : kmod_ringbuffer_ctx)
    (out : user_output) : outcome (Z * user_output + kmod_device * kmod_ringbuffer_ctx * user_output) :=
  match options_loop ret None opts with
  | inr SelfTest => '(_, _, out) ← linx_logs_test env out; mret (inl (0, out))
  | inr ShowUsage => mret (inl (0, show_usage name out))
  | inl (file, ret) =>
      if ret <? 0 then mret (inl (ret, show_usage name out))
      else
        let '(_, dev) := linx_kmod_init env file g_kmod_dev in
        res ← main_passes passes env dev r out; mret (inr res)
  end.
End user.

(** ** Lemmas *)
Lemma strncpy_zero n m s :
  (length s ≤ m ≤ n)%nat → strncpy_bytes (zero_chars n) s m = s ++ replicate (n - length s) 0.
Proof.
  intros H. unfold strncpy_bytes, zero_chars. rewrite take_app, take_ge, take_replicate, drop_replicate by lia.
  rewrite <- app_assoc, <- replicate_add. do 2 f_equal. lia.
Qed.

Lemma until_nul_terminated s n : Forall (λ b, b ≠ 0) s → until_nul (s ++ replicate (S n) 0) = Some s.
Proof.
  induction 1 as [|b s Hb _ IH]; [done|]. cbn [app until_nul]. destruct (Z.eqb_spec b 0); [done|]. by rewrite IH.
Qed.

Lemma array_string_copied n m s :
  (length s ≤ m ≤ n)%nat → (length s < n)%nat → Forall (λ b, b ≠ 0) s →
  array_string (strncpy_bytes (zero_chars n) s m) = Ret [] (string_of s).
Proof.
  intros Hm Hn Hs. unfold array_string. rewrite strncpy_zero by done.
  replace (n - length s)%nat with (S (n - length s - 1)) by lia. by rewrite until_nul_terminated.
Qed.

Lemma NUL_to_space_nonzero l : Forall (λ b, b ≠ 0) (NUL_to_space <$> l).
Proof. apply Forall_fmap, Forall_true. intros b. cbn. unfold NUL_to_space. destruct (Z.eqb_spec b 0); [lia|done]. Qed.

(** How much of the arguments of a process the header keeps. *)
Definition cmdline_part (text : list Z) : nat := if (255 <? length text)%nat then 254%nat else length text.

Lemma cmdline_kept k task rcu a b text :
  kt_find_vpid task = true → kt_pid_task task = true → kt_mm task = Some (a, b) →
  b - a = Z.of_nat (length text) → Z.of_nat (length text) < 2 ^ 31 →
  (∀ len, access_process_vm k a len = take (Z.to_nat len) text) →
  linx_get_cmdline k task (zero_chars MAX_CMDLINE_LEN) (Z.of_nat MAX_CMDLINE_LEN - 1) rcu
  = Ret [] (strncpy_bytes (zero_chars MAX_CMDLINE_LEN) (NUL_to_space <$> take (cmdline_part text) text)
              (cmdline_part text), rcu).
Proof.
  intros Hv Ht Hmm Hab Hl Hcopy. unfold linx_get_cmdline. rewrite Hv, Ht, Hmm. cbn [negb].
  rewrite from_opt_some, bind_Ret_nil, Hab, sext_small, wrap_small by lia.
  change (Z.of_nat MAX_CMDLINE_LEN - 1) with 255.
  assert ((if 255 <? Z.of_nat (length text) then 255 - 1 else Z.of_nat (length text)) = Z.of_nat (cmdline_part text)) as ->.
  { unfold cmdline_part. destruct (Z.ltb_spec 255 (Z.of_nat (length text))), (Nat.ltb_spec 255 (length text)); lia. }
  rewrite Hcopy, Nat2Z.id, length_take.
  assert ((cmdline_part text ≤ length text)%nat) as Hle by (unfold cmdline_part; destruct (Nat.ltb_spec 255 (length text)); lia).
  rewrite Nat.min_l by done. by rewrite Z.eqb_refl.
Qed.

Lemma sext_in_range z : int_ok z → sext 32 z = z.
Proof. intros H. apply sext_small; [lia|exact H]. Qed.

(** The calls that are traced, with their names. *)
Lemma traced_name id :
  linx_trace_syscall id = true →
  ∃ name, (id, name) ∈ [(2, "open"); (87, "unlink"); (257, "openat"); (263, "unlinkat")]%string
  ∧ get_syscall_name id = name ∧ wrap 32 id = id.
Proof.
  unfold linx_trace_syscall. rewrite !orb_true_iff, !Z.eqb_eq.
  intros [[[->| ->]| ->]| ->]; eexists; (split; [|split; reflexivity]); rewrite !elem_of_cons; tauto.
Qed.

(** ** Theorems *)
Section user_theorems.
Context (local_time : Z → string).

(** C32: what the log says of a system call.  The line of an event that a probe
    filled is these words with a blank between them: the time in seconds and
    nanoseconds, the name of the call, which is one of the four traced ones,
    its number, whether it enters or returns and the low 32 bits of the
    result, whether the user is root, the command, the arguments with spaces
    for their ends (the first 254 bytes of long ones), and the numbers of the
    process, of the task and of the parent with its command; the buffer keeps
    511 characters. *)
Theorem kmod_line_describes (k : kmod_env) (task : kmod_task) (id res rcu : Z) (exit : bool) (a b ppid : Z)
    (text pcomm : list Z) :
  linx_trace_syscall id = true →
  kt_find_vpid task = true → kt_pid_task task = true → kt_mm task = Some (a, b) →
  b - a = Z.of_nat (length text) → Z.of_nat (length text) < 2 ^ 31 →
  (∀ len, access_process_vm k a len = take (Z.to_nat len) text) →
  kt_real_parent task = Some (ppid, pcomm) →
  (length (kt_comm task) ≤ 63)%nat → Forall (λ b, b ≠ 0) (kt_comm task) →
  (length pcomm ≤ 63)%nat → Forall (λ b, b ≠ 0) pcomm →
  int_ok (kt_tgid task) → int_ok (kt_pid task) → int_ok ppid →
  ∃ e name, (id, name) ∈ [(2, "open"); (87, "unlink"); (257, "openat"); (263, "unlinkat")]%string
  ∧ probe_header k task id (if exit then SYSCALL_EXIT else SYSCALL_ENTER) res rcu = Ret [] (e, rcu)
  ∧ let ns := ktime_get_real_ns k in
    let time := local_time (ns / 10 ^ 9) +:+ "." +:+ padded 9 (show_int (ns `mod` 10 ^ 9)) in
    let args := (λ b, if b =? 0 then 32 else b) <$> (if (255 <? length text)%nat then take 254 text else text) in
    ∀ n, linx_log_format local_time (set_len n e) 512
     = Ret [] ([], stake 511 (String.concat " "
         ["[" +:+ stake 127 time +:+ "]:";
          name;
          "syscall=" +:+ show_int id;
          "dir=" +:+ (if exit then "<" else ">");
          "res=" +:+ show_int (sext 32 res);
          "user=" +:+ (if kt_user task =? 0 then "root" else "user");
          "comm=" +:+ string_of (kt_comm task);
          "cmdline=" +:+ string_of args;
          "pid=" +:+ show_int (kt_tgid task);
          "tid=" +:+ show_int (kt_pid task);
          "ppid=" +:+ show_int ppid +:+ "(" +:+ string_of pcomm +:+ ")" +:+ newline])).
Proof.
  intros Htr Hv Ht Hmm Hab Hl Hcopy Hp Hc Hcn Hpc Hpn Hi1 Hi2 Hi3.
  destruct (traced_name id Htr) as (name & Hin & Hname & Hid).
  unfold probe_header. rewrite Hp.
  rewrite (cmdline_kept k task rcu a b text) by done. rewrite bind_Ret_nil. eexists _, name. split; [done|].
  split; [done|]. cbv zeta. intros n. unfold linx_log_format.
  cbn [set_len ke_proc ke_cmdline ke_pp_proc ke_net_flag ke_ts].
  rewrite !array_string_copied; try done; try (unfold PROC_SIZE, PP_PROC_SIZE; lia).
  all: try apply NUL_to_space_nonzero.
  all: rewrite ?length_fmap, ?length_take.
  all: try (unfold cmdline_part, MAX_CMDLINE_LEN; destruct (Nat.ltb_spec 255 (length text)); lia).
  rewrite !bind_Ret_nil. unfold event_line.
  cbn [set_len ke_net_flag ke_syscall_nr ke_type ke_res ke_user ke_pid ke_tid ke_ppid].
  rewrite Hid, Hname, !(sext_in_range (kt_tgid task)), !(sext_in_range (kt_pid task)), !(sext_in_range ppid) by done.
  assert ((NUL_to_space <$> take (cmdline_part text) text)
    = (λ b, if b =? 0 then 32 else b) <$> (if (255 <? length text)%nat then take 254 text else text)) as ->.
  { unfold cmdline_part. destruct (255 <? length text)%nat; [done|]. by rewrite take_ge. }
  unfold linx_format_ts. cbn [String.concat]. rewrite !sapp_assoc. destruct exit, (kt_user task =? 0); reflexivity.
Qed.

Lemma log_event_ok env e t out :
  (∀ t, ue_write env t = Z.of_nat (strlen t)) →
  (∃ p, linx_log_format local_time e 512 = Ret [] (p, t)) → (∃ p, linx_log_print local_time e = Ret [] p) →
  ∃ shown, log_event local_time env e out = Ret [] (mk_user_output shown (uo_file out +:+ t)).
Proof.
  intros Hw [p Hp] [p' Hp']. unfold log_event, linx_logs_write. rewrite Hp, bind_Ret_nil, bind_ret_l.
  rewrite Hp', bind_Ret_nil, Hw, Nat2Z.id, stake_all. eauto.
Qed.

(** The passes of the program write a line per waiting event, in order. *)
Lemma main_passes_log env dev T q r out lines :
  kd_bufinfo dev = Mapped → ring_rep T q (kd_next_event dev) r → T + Z.of_nat (length q) ≤ 132 →
  (∀ t, ue_write env t = Z.of_nat (strlen t)) →
  Forall2 (λ e t, (∃ p, linx_log_format local_time e 512 = Ret [] (p, t)) ∧ ∃ p, linx_log_print local_time e = Ret [] p) q lines →
  ∃ dev' r' out', main_passes local_time (length q) env dev r out = Ret [] (dev', r', out')
  ∧ uo_file out' = foldl String.append (uo_file out) lines
  ∧ ring_rep (T + Z.of_nat (length q)) [] (kd_next_event dev') r'.
Proof.
  intros Hd Hr HT Hw Hl. revert T dev r out Hd Hr HT.
  induction Hl as [|e t q lines [Hp Hp'] _ IH]; intros T dev r out Hd Hr HT.
  - exists dev, r, out. cbn. rewrite Z.add_0_r. done.
  - cbn [length main_passes] in *. unfold kmod_next_logged at 1. rewrite Hd.
    rewrite (kmod_next_front T e q) by (done || lia). rewrite bind_Ret_nil.
    destruct (log_event_ok env e t out Hw Hp Hp') as [shown ->]. rewrite !bind_Ret_nil, bind_ret_l.
    assert (ring_rep (T + 1) q (kd_next_event dev + EVENT_HEADER_SIZE) (tail_wrap (tail_advance EVENT_HEADER_SIZE r))) as Hr'
      by (apply (ring_rep_pop T e); [done|lia]).
    edestruct (IH (T + 1)) as (dev' & r' & out' & Hrun & Hf & Hrep); [| |lia|].
    3: { exists dev', r', out'. split; [exact Hrun|]. split; [exact Hf|].
         by replace (T + Z.of_nat (S (length q))) with (T + 1 + Z.of_nat (length q)) by lia. }
    + reflexivity.
    + exact Hr'.
Qed.

(** The program goes on after a failed start: the first pass reads through a
    null pointer. *)
Lemma main_without_device name env passes r out :
  ue_open_dev env < 0 → kmod_main local_time name 0 [] env (S passes) r out = Ub NullDeref.
Proof.
  intros Hd. unfold kmod_main, linx_kmod_init. cbn. by destruct (Z.ltb_spec (ue_open_dev env) 0); [|lia].
Qed.

(** An interrupt while the program runs reports what the ring has counted and
    gives everything back; one before the device is mapped reads through a
    null pointer, since the handler is in place before. *)
Lemma interrupt_reports env file dev r out :
  linx_kmod_init env file g_kmod_dev = (0, dev) → 0 < ue_open_log env file →
  ∃ lines, signal_callback dev r out
    = Ret [] (0, [ClosedFile (ue_open_log env file); UnmappedBuffer; UnmappedInfo; ClosedFile (ue_open_dev env)],
              mk_user_output (uo_stdout out ++ lines) (uo_file out))
  ∧ signal_callback g_kmod_dev r out = Ub NullDeref.
Proof.
  unfold linx_kmod_init, linx_logs_open. destruct (ue_open_dev env <? 0); [done|]. intros H Hlog.
  destruct (Z.ltb_spec (ue_open_log env file) 0); [lia|]. destruct (Z.ltb_spec (ue_open_log env file) 0); [lia|].
  destruct (ue_mmap_buffer env); [|done]. destruct (ue_mmap_info env); [|done]. injection H as <-.
  unfold signal_callback, print_print_all_event. cbn [kd_bufinfo]. rewrite bind_ret_l. eexists. split; [|done].
  unfold linx_kmod_close. cbn [kd_log_fd kd_msg_fd]. by rewrite (proj2 (Z.ltb_lt _ _)).
Qed.
End user_theorems.

(** ** Examples *)

(** The self test shows one line and appends it to the log. *)
Definition test_line : string :=
  "[T.893615929]: unlinkat syscall=263 dir=< res=0 user=root comm=rm cmdline=rm -rf 1.txt pid=6666 tid=6666 ppid=1234(bash)" +:+ newline.

Example self_test :
  kmod_main (λ _, "T") "kmod" 0 [OptTest] (mk_user_env 3 (λ _, 4) true true 0 (λ t, Z.of_nat (strlen t))) 5 (mk_ring_ctx (mk_ring_info 0 0 0 0) ∅ 0 0 true)
    (mk_user_output [] "")
  = Ret [] (inl (0, mk_user_output [test_line] test_line)).
Proof. vm_compute. reflexivity. Qed.

Definition rm_args : list Z := bytes_of "rm" ++ [0] ++ bytes_of "1.txt" ++ [0].
Definition rm_env : kmod_env :=
  mk_kmod_env ∅ (λ _ _, true) (λ _, []) (λ _, None) (λ _ len, take (Z.to_nat len) rm_args) 1749102993893615929.
Definition rm_task : kmod_task :=
  mk_kmod_task 6666 6667 (bytes_of "rm") (Some (1234, bytes_of "bash")) 0 (Some (4096, 4105)) true true None.

Example rm_line :
  ('(e, _) ← probe_header rm_env rm_task NR_unlinkat SYSCALL_EXIT 0 0; linx_log_format (λ _, "T") e 512)
  = Ret [] ([], "[T.893615929]: unlinkat syscall=263 dir=< res=0 user=root comm=rm cmdline=rm 1.txt  pid=6666 tid=6667 ppid=1234(bash)"
            +:+ newline).
Proof. vm_compute. reflexivity. Qed.

Example kmod_line_describes_ex :
  ∃ e name, (263, name) ∈ [(2, "open"); (87, "unlink"); (257, "openat"); (263, "unlinkat")]%string
  ∧ probe_header rm_env rm_task 263 SYSCALL_EXIT 0 0 = Ret [] (e, 0)
  ∧ linx_log_format (λ _, "T") e 512
    = Ret [] ([], "[T.893615929]: " +:+ name +:+ " syscall=263 dir=< res=0 user=root comm=rm cmdline=rm 1.txt  pid=6666 tid=6667 ppid=1234(bash)"
              +:+ newline).
Proof.
  destruct (kmod_line_describes (λ _, "T") rm_env rm_task 263 0 0 true 4096 4105 1234 rm_args (bytes_of "bash"))
    as (e & name & Hin & He & Hline).
  - reflexivity.
  - reflexivity.
  - reflexivity.
  - reflexivity.
  - reflexivity.
  - reflexivity.
  - intros len. reflexivity.
  - reflexivity.
  - cbn. lia.
  - repeat constructor; discriminate.
  - cbn. lia.
  - repeat constructor; discriminate.
  - unfold int_ok. cbn. lia.
  - unfold int_ok. cbn. lia.
  - unfold int_ok. lia.
  - exists e, name. split; [exact Hin|]. split; [exact He|].
    assert (e = set_len (ke_len e) e) as -> by (destruct e; reflexivity).
    eapply eq_trans; [exact (Hline (ke_len e))|]. clear -Hin.
    rewrite !elem_of_cons in Hin. destruct Hin as [H|[H|[H|[H|H]]]]; try discriminate H; [|inversion H].
    injection H as ->. vm_compute. reflexivity.
Defined.
