(* ===== verification/Daemon.v ===== *)
(** * The program (userspace/linx_apd)

    [main] initialises the components in order, loads the rules and runs the
    event loop: every event is enriched and matched against the rules.  A
    failure and the signals SIGINT and SIGUSR1 end in [linx_resource_cleanup],
    which releases what a static variable says was initialised and calls
    [exit(0)].

    [Startup] models the first part of [main]; here the results of arguments,
    configuration, log and engine enter as return codes.  The loop takes its
    events from the ring of [Engine]. *)
From S2P Require Import Prelude CString Memory EventTable Uthash HashMap OpType Regex Lexer Float Ast Parser.
From S2P Require Import Output Match Yaml ThreadPool Alert RuleSet RuleLoad ProcFs ProcessCache MachineStatus EventRich.
From S2P Require Import Config Bpf Ringbuf Programs1 Programs2 Programs3 Programs4 Programs Engine.

#[local] Open Scope Z_scope.

(** ** Data (include/linx_resource_cleanup.h) *)
Inductive linx_resource_cleanup_type_t :=
  | LINX_RESOURCE_CLEANUP_ERROR
  | LINX_RESOURCE_CLEANUP_ARGS
  | LINX_RESOURCE_CLEANUP_CONFIG
  | LINX_RESOURCE_CLEANUP_LOG
  | LINX_RESOURCE_CLEANUP_HASH_MAP
  | LINX_RESOURCE_CLEANUP_PROCESS_CACHE
  | LINX_RESOURCE_CLEANUP_MACHINE_STATUS
  | LINX_RESOURCE_CLEANUP_EVENT_QUEUE
  | LINX_RESOURCE_CLEANUP_EVENT_RICH
  | LINX_RESOURCE_CLEANUP_ALERT
  | LINX_RESOURCE_CLEANUP_RULE_ENGINE
  | LINX_RESOURCE_CLEANUP_ENGINE.

(** The static variables of the components. *)
Record daemon := mk_daemon {
  d_cleanup_type : linx_resource_cleanup_type_t;
  d_registry : hash_map_state;
  d_cache : cache_state;
  d_machine : user_t * group_t;
  d_rich : rich_state;
  d_alert : alert_state;
  d_rule_set : option linx_rule_set_t
}.

Definition daemon_initial : daemon :=
  mk_daemon LINX_RESOURCE_CLEANUP_ERROR None None (mk_user 0 "" "" "" 0 "", mk_group 0 "") rich_initial None None.

Definition set_type (t : linx_resource_cleanup_type_t) (d : daemon) : daemon :=
  mk_daemon t (d_registry d) (d_cache d) (d_machine d) (d_rich d) (d_alert d) (d_rule_set d).
Definition set_registry (s : hash_map_state) (d : daemon) : daemon :=
  mk_daemon (d_cleanup_type d) s (d_cache d) (d_machine d) (d_rich d) (d_alert d) (d_rule_set d).
Definition set_cache (g : cache_state) (d : daemon) : daemon :=
  mk_daemon (d_cleanup_type d) (d_registry d) g (d_machine d) (d_rich d) (d_alert d) (d_rule_set d).
Definition set_machine (m : user_t * group_t) (d : daemon) : daemon :=
  mk_daemon (d_cleanup_type d) (d_registry d) (d_cache d) m (d_rich d) (d_alert d) (d_rule_set d).
Definition set_rich (st : rich_state) (d : daemon) : daemon :=
  mk_daemon (d_cleanup_type d) (d_registry d) (d_cache d) (d_machine d) st (d_alert d) (d_rule_set d).
Definition set_alert (a : alert_state) (d : daemon) : daemon :=
  mk_daemon (d_cleanup_type d) (d_registry d) (d_cache d) (d_machine d) (d_rich d) a (d_rule_set d).
Definition set_rule_set (r : option linx_rule_set_t) (d : daemon) : daemon :=
  mk_daemon (d_cleanup_type d) (d_registry d) (d_cache d) (d_machine d) (d_rich d) (d_alert d) r.

(** ** Release *)

(** The cases of the switch fall through to the ones below; the number of the
    type says how many are run. *)
Definition cleanup_level (t : linx_resource_cleanup_type_t) : nat :=
  match t with
  | LINX_RESOURCE_CLEANUP_ERROR => 0
  | LINX_RESOURCE_CLEANUP_ARGS => 1
  | LINX_RESOURCE_CLEANUP_CONFIG => 2
  | LINX_RESOURCE_CLEANUP_LOG => 3
  | LINX_RESOURCE_CLEANUP_HASH_MAP => 4
  | LINX_RESOURCE_CLEANUP_PROCESS_CACHE => 5
  | LINX_RESOURCE_CLEANUP_MACHINE_STATUS => 6
  | LINX_RESOURCE_CLEANUP_EVENT_QUEUE | LINX_RESOURCE_CLEANUP_EVENT_RICH => 7
  | LINX_RESOURCE_CLEANUP_ALERT => 8
  | LINX_RESOURCE_CLEANUP_RULE_ENGINE | LINX_RESOURCE_CLEANUP_ENGINE => 9
  end.

(** One case of the switch; those of the components not in [daemon] free their
    own memory. *)
Definition release (level : nat) (d : daemon) : outcome daemon :=
  match level with
  | 9%nat => r ← linx_rule_set_deinit (d_rule_set d); mret (set_rule_set r d)
  | 8%nat => a ← linx_alert_deinit (d_alert d); mret (set_alert a d)
  | 5%nat => g ← linx_process_cache_deinit (d_cache d); mret (set_cache g d)
  | 4%nat => mret (set_registry (linx_hash_map_deinit (d_registry d)) d)
  | _ => mret d
  end.

Fixpoint release_from (level : nat) (d : daemon) : outcome daemon :=
  match level with
  | O => mret d
  | S below => d ← release level d; release_from below d
  end.

(** The exit status and what is left. *)
Definition linx_resource_cleanup (d : daemon) : outcome (Z * daemon) :=
  d ← release_from (cleanup_level (d_cleanup_type d)) d; mret (0, d).

(** ** main *)

(** What the components that are not modelled return, and the inputs of the
    others. *)
Record boot := mk_boot {
  bt_arg_init : Z;
  bt_argp_parse : Z;
  bt_config_init : Z;
  bt_config_load : Z;
  bt_log_init : Z;
  bt_engine_init : Z;
  bt_cpus : Z;
  bt_machine : machine;
  bt_fs : filesystem;
  bt_rules_path : string
}.

Inductive main_result :=
  | Cleans_up (d : daemon)   (* raise(SIGUSR1) *)
  | Loops (d : daemon).      (* linx_event_loop *)

Section main.
Context `{Pcre2}.
Context (pagesize : Z) (local_time : Z → string) (addr_of : nat → Z) (evt_addr fd_addr user_addr group_addr : Z).
Context (offset_of : string → string → Z * Z).

(** [step code type next d]: a failure goes to [out]. *)
Definition guarded (code : Z) (t : linx_resource_cleanup_type_t) (d : daemon) (next : daemon → outcome main_result)
    : outcome main_result :=
  if negb (code =? 0) then mret (Cleans_up d) else next (set_type t d).

(** A failure is logged and [main] goes on. *)
Definition noted (code : Z) (t : linx_resource_cleanup_type_t) (d : daemon) : daemon :=
  if negb (code =? 0) then d else set_type t d.

(** From [linx_hash_map_init] to [linx_event_rich_init]: no failure stops
    [main].  The event queue is empty code. *)
Definition init_hash_map (d : daemon) : daemon :=
  let '(ret, s) := linx_hash_map_init (d_registry d) in
  noted ret LINX_RESOURCE_CLEANUP_HASH_MAP (set_registry s d).

Definition init_process_cache (b : boot) (d : daemon) : daemon :=
  let '(ret, s, g) := linx_process_cache_init (bt_cpus b) (offset_of "linx_process_info_t") (d_registry d) (d_cache d) in
  noted ret LINX_RESOURCE_CLEANUP_PROCESS_CACHE (set_cache g (set_registry s d)).

Definition init_machine_status (b : boot) (d : daemon) : outcome daemon :=
  '(ret, s, m) ← linx_machine_status_init offset_of (bt_machine b) (d_registry d) (d_machine d);
  mret (noted ret LINX_RESOURCE_CLEANUP_MACHINE_STATUS (set_machine m (set_registry s d))).

Definition init_event_rich (d : daemon) : daemon :=
  let '(ret, s) := linx_event_rich_init offset_of (d_registry d) in
  noted ret LINX_RESOURCE_CLEANUP_EVENT_RICH (set_registry s d).

Definition init_tables (b : boot) (d : daemon) : outcome daemon :=
  d ← init_machine_status b (init_process_cache b (init_hash_map d));
  mret (init_event_rich (set_type LINX_RESOURCE_CLEANUP_EVENT_QUEUE d)).

Definition init_rules (b : boot) (d : daemon) : outcome main_result :=
  let '(ret, a) := linx_alert_init (bt_cpus b) 4 (d_alert d) in
  guarded ret LINX_RESOURCE_CLEANUP_ALERT (set_alert a d) (λ d,
    '(ret, rules) ← linx_rule_engine_load evt_addr (d_registry d) (bt_fs b) (bt_rules_path b);
    guarded ret LINX_RESOURCE_CLEANUP_RULE_ENGINE (set_rule_set rules d) (λ d,
      guarded (bt_engine_init b) LINX_RESOURCE_CLEANUP_ENGINE d (λ d, mret (Loops d)))).

Definition main (b : boot) : outcome main_result :=
  guarded (bt_arg_init b) LINX_RESOURCE_CLEANUP_ARGS daemon_initial (λ d,
    if negb (bt_argp_parse b =? 0) then mret (Cleans_up d)
    else guarded (bt_config_init b) LINX_RESOURCE_CLEANUP_CONFIG d (λ d,
      if negb (bt_config_load b =? 0) then mret (Cleans_up d)
      else guarded (bt_log_init b) LINX_RESOURCE_CLEANUP_LOG d (λ d,
        d ← init_tables b d; init_rules b d))).

(** ** The event loop *)

(** What is in memory while the rules read it. *)
Context (memory_of : rich_state → cache_state → memory).

(** One pass of the loop with an event: the return codes are ignored. *)
Definition loop_pass (env : environment) (event : linx_event_t) (d : daemon) : outcome daemon :=
  '(_, (st, g, s)) ← linx_event_rich pagesize local_time addr_of evt_addr fd_addr user_addr group_addr env event
                       (d_rich d) (d_cache d) (d_registry d);
  '(_, a) ← linx_rule_set_match_rule (memory_of st g) s (d_rule_set d) (d_alert d);
  mret (set_alert a (set_registry s (set_cache g (set_rich st d)))).

(** The loop over the events it handles. *)
Fixpoint event_passes (es : list (environment * linx_event_t)) (d : daemon) : outcome daemon :=
  match es with
  | [] => mret d
  | (env, event) :: es => d ← loop_pass env event d; event_passes es d
  end.

(** [ring_buffer__poll] of libbpf. *)
Context (poll : (linx_ringbuf_t → option linx_event_t → Z * option linx_event_t) → list linx_ringbuf_t →
  option linx_event_t → Z * option linx_event_t * list linx_ringbuf_t).

(** The loop itself: [passes] gives for every pass the environment and the
    records the kernel has put into the ring since the pass before; [ring] is
    what was left there, and [buffer] the buffer of the engine. *)
Fixpoint linx_event_loop (passes : list (environment * list linx_ringbuf_t)) (ring : list linx_ringbuf_t)
    (buffer : option linx_event_t) (d : daemon) : outcome daemon :=
  match passes with
  | [] => mret d
  | (env, records) :: passes =>
      let '(ret, event, buffer, ring) := linx_engine_next poll (ring ++ records) buffer in
      if ret <=? 0 then linx_event_loop passes ring buffer d
      else
        event ← from_opt NullDeref event;
        d ← loop_pass env event d;
        linx_event_loop passes ring buffer d
  end.
End main.

(** ** The tables the enrichment never reaches *)
Definition unreached : list string := ["proc"; "user"; "group"].

Definition unbound (s : hash_map_state) : Prop :=
  ∃ h, s = Some h ∧ ut_find ft_table_name "fd" (hm_tables h) = None
    ∧ Forall (λ n, ft_base_addr <$> ut_find ft_table_name n (hm_tables h) = Some 0) unreached.

(** The update stops at "fd", which is not a table. *)
Lemma update_stops e f p u g s :
  unbound s →
  let x := linx_hash_map_update_tables_base (Some [("evt", e); ("fd", f); ("proc", p); ("user", u); ("group", g)]) s in
  x.1 = -1 ∧ unbound x.2.
Proof.
  intros (h & -> & Hfd & Hb) x. subst x.
  cbn [linx_hash_map_update_tables_base update_tables_loop linx_hash_map_update_table_base].
  destruct (ut_find ft_table_name "evt" (hm_tables h)) as [t|] eqn:E;
    cbn [Z.eqb fst snd with_tables hm_tables]; [|split; [done|by exists h]].
  assert (Hfind : ∀ n, n ≠ "evt" → ut_find ft_table_name n (ut_alter ft_table_name (set_base e) "evt" (hm_tables h))
    = ut_find ft_table_name n (hm_tables h)).
  { intros n Hn. by rewrite ut_find_alter, decide_False by done. }
  unfold linx_hash_map_update_table_base at 1 5. cbn [with_tables hm_tables]. rewrite Hfind, Hfd by done.
  cbn [Z.eqb fst snd]. split; [done|]. eexists. split; [reflexivity|]. cbn [with_tables hm_tables].
  split; [by rewrite Hfind|]. rewrite Forall_forall in *. intros n Hn. rewrite Hfind; [by apply Hb|].
  intros ->. clear -Hn. by repeat (apply elem_of_cons in Hn as [Hn|Hn]; [discriminate|]); inversion Hn.
Qed.

(** The registry through the initialisation. *)
Lemma noted_registry code t d : d_registry (noted code t d) = d_registry d.
Proof. unfold noted. by case_match. Qed.

Lemma noted_cache code t d : d_cache (noted code t d) = d_cache d.
Proof. unfold noted. by case_match. Qed.

Lemma init_process_cache_registry offset_of b d :
  d_cache d = None →
  d_registry (init_process_cache offset_of b d)
  = (linx_process_cache_bind_field (offset_of "linx_process_info_t") (d_registry d)).2.
Proof.
  intros Hg. unfold init_process_cache, linx_process_cache_init. rewrite Hg.
  destruct (linx_process_cache_bind_field _ _) as [ret s]. destruct (negb (ret =? 0)); [by rewrite noted_registry|].
  destruct (linx_thread_pool_add_task _ _ _) as [r1 p1]. destruct (linx_thread_pool_add_task p1 _ _) as [r2 p2].
  destruct ((r1 <? 0) || (r2 <? 0)); by rewrite noted_registry.
Qed.

Lemma init_machine_status_registry offset_of b d w d' :
  init_machine_status offset_of b d = Ret w d' →
  d_registry d' = (linx_machine_status_bind_field offset_of (d_registry d)).2.
Proof.
  unfold init_machine_status, linx_machine_status_init.
  destruct (linx_machine_status_bind_field offset_of (d_registry d)) as [ret s]. destruct (negb (ret =? 0)).
  - rewrite bind_ret_l. intros [= _ <-]. by rewrite noted_registry.
  - destruct (get_current_group (bt_machine b)); [|done|done]. cbn. intros [= _ <-]. by rewrite noted_registry.
Qed.

Lemma init_event_rich_registry offset_of d :
  d_registry (init_event_rich offset_of d) = (linx_event_rich_init offset_of (d_registry d)).2.
Proof. unfold init_event_rich. destruct (linx_event_rich_init _ _). by rewrite noted_registry. Qed.

(** The fields of a table registered before do not matter to the next. *)
Lemma bind_proc offs : ∃ t, linx_process_cache_bind_field offs (Some (mk_hash_map [] None))
  = (0, Some (mk_hash_map [mk_field_table "proc" t 0] None)).
Proof. eexists. reflexivity. Qed.

Lemma bind_machine offset_of t : ∃ u v,
  linx_machine_status_bind_field offset_of (Some (mk_hash_map [mk_field_table "proc" t 0] None))
  = (0, Some (mk_hash_map [mk_field_table "proc" t 0; mk_field_table "user" u 0; mk_field_table "group" v 0] None)).
Proof. do 2 eexists. reflexivity. Qed.

Lemma bind_evt offset_of t u v : ∃ e,
  linx_event_rich_init offset_of
    (Some (mk_hash_map [mk_field_table "proc" t 0; mk_field_table "user" u 0; mk_field_table "group" v 0] None))
  = (0, Some (mk_hash_map [mk_field_table "proc" t 0; mk_field_table "user" u 0; mk_field_table "group" v 0;
                           mk_field_table "evt" e 0] None)).
Proof. eexists. reflexivity. Qed.

(** After the initialisation every table is there, but "fd". *)
Lemma init_tables_unbound offset_of b d0 w d :
  d_registry d0 = None → d_cache d0 = None → init_tables offset_of b d0 = Ret w d →
  unbound (d_registry d).
Proof.
  intros Hr Hg H. unfold init_tables in H. bind_inv H. injection Hk as _ <-. rewrite init_event_rich_registry.
  cbn [set_type d_registry]. rewrite (init_machine_status_registry _ _ _ _ _ Hm), init_process_cache_registry.
  - unfold init_hash_map. rewrite Hr. cbn [linx_hash_map_init]. rewrite noted_registry. clear.
    cbn [set_registry d_registry].
    destruct (bind_proc (offset_of "linx_process_info_t")) as [t ->]. cbn [snd].
    destruct (bind_machine offset_of t) as (u & v & ->). cbn [snd]. destruct (bind_evt offset_of t u v) as [e ->].
    cbn [snd].
    eexists. split; [reflexivity|]. split; [done|repeat constructor].
  - unfold init_hash_map. rewrite Hr. cbn [linx_hash_map_init]. by rewrite noted_cache.
Qed.

Lemma guarded_loops code t d next w r :
  guarded code t d next = Ret w (Loops r) → code = 0 ∧ next (set_type t d) = Ret w (Loops r).
Proof. unfold guarded. destruct (Z.eqb_spec code 0); [done|]. by intros [=]. Qed.

Section facts.
Context `{Pcre2}.
Context (pagesize : Z) (local_time : Z → string) (addr_of : nat → Z) (evt_addr fd_addr user_addr group_addr : Z).
Context (offset_of : string → string → Z * Z) (memory_of : rich_state → cache_state → memory).

Abbreviation start := (main evt_addr offset_of).
Abbreviation loop := (event_passes pagesize local_time addr_of evt_addr fd_addr user_addr group_addr memory_of).

(** When [main] reaches the loop, the tables were initialised and the rules
    loaded. *)
Lemma main_loops b w d :
  start b = Ret w (Loops d) →
  (∃ w1 d1, init_tables offset_of b (set_type LINX_RESOURCE_CLEANUP_LOG (set_type LINX_RESOURCE_CLEANUP_CONFIG
      (set_type LINX_RESOURCE_CLEANUP_ARGS daemon_initial))) = Ret w1 d1 ∧ d_registry d = d_registry d1)
  ∧ (∃ w2, linx_rule_engine_load evt_addr (d_registry d) (bt_fs b) (bt_rules_path b) = Ret w2 (0, d_rule_set d))
  ∧ d_cleanup_type d = LINX_RESOURCE_CLEANUP_ENGINE.
Proof.
  intros Hs. apply guarded_loops in Hs as [_ Hs]. destruct (negb (bt_argp_parse b =? 0)); [done|].
  apply guarded_loops in Hs as [_ Hs]. destruct (negb (bt_config_load b =? 0)); [done|].
  apply guarded_loops in Hs as [_ Hs]. apply bind_Ret_inv in Hs as (w1 & w2 & d1 & H1 & H2 & _).
  unfold init_rules in H2. destruct (linx_alert_init _ _ _) as [ra a]. apply guarded_loops in H2 as [_ H2].
  apply bind_Ret_inv in H2 as (w3 & w4 & [ret rules] & H3 & H4 & _).
  apply guarded_loops in H4 as [-> H4]. apply guarded_loops in H4 as [_ H4]. injection H4 as _ <-.
  split; [exists w1, d1; by split|]. split; [by exists w3|done].
Qed.

Lemma loop_pass_registry env event d w d' :
  loop_pass pagesize local_time addr_of evt_addr fd_addr user_addr group_addr memory_of env event d = Ret w d' →
  d_rule_set d' = d_rule_set d ∧ d_cleanup_type d' = d_cleanup_type d
  ∧ (unbound (d_registry d) → unbound (d_registry d')).
Proof.
  unfold loop_pass. intros Hp. apply bind_Ret_inv in Hp as (w1 & w2 & [ret [[st g] s]] & H1 & H2 & _).
  apply bind_Ret_inv in H2 as (w3 & w4 & [b a] & _ & H4 & _). injection H4 as _ <-.
  split; [done|]. split; [done|]. cbn. intros Hu. apply rich_registry in H1 as [i Hi].
  pose proof (update_stops evt_addr fd_addr (from_option addr_of 0 i) user_addr group_addr (d_registry d) Hu) as [_ Hx].
  by rewrite Hi in Hx.
Qed.

Lemma loop_keeps es d w d' :
  loop es d = Ret w d' →
  d_rule_set d' = d_rule_set d ∧ d_cleanup_type d' = d_cleanup_type d ∧ (unbound (d_registry d) → unbound (d_registry d')).
Proof.
  revert d w. induction es as [|[env event] es IH]; intros d w; cbn [event_passes]; [by intros [= _ <-]|].
  intros Hl. apply bind_Ret_inv in Hl as (w1 & w2 & d1 & H1 & H2 & _). apply loop_pass_registry in H1 as (Hr1 & Ht1 & Hu).
  apply IH in H2 as (Hr2 & Ht2 & Hu2). split; [congruence|]. split; [congruence|auto].
Qed.

Lemma unbound_base s n :
  unbound s → n ∈ unreached →
  linx_hash_map_get_table_base (Some n) s = 0 ∧ is_Some (s ≫= λ h, ut_find ft_table_name n (hm_tables h)).
Proof.
  intros (h & -> & _ & Hb) Hn. rewrite Forall_forall in Hb. specialize (Hb n Hn). cbn.
  destruct (ut_find ft_table_name n (hm_tables h)); [|done]. injection Hb as Hb. eauto.
Qed.

(** C25: no rule ever sees a process, a user or a group.  Whatever [main] loads
    and whatever events follow, the update of the base addresses stops at the
    table "fd", which [linx_event_rich_init] does not register, so the tables
    "proc", "user" and "group" behind it keep the null address: the value of
    each of their fields is a null pointer, a numeric comparison with one is
    false, and a test of one as text reads the type that only a value would
    have set. *)
Theorem proc_fields_unreachable b w d es w' d' field n m :
  start b = Ret w (Loops d) → loop es d = Ret w' d' →
  n ∈ unreached → fr_found field = true → fr_table_name field = Some n →
  let s := d_registry d' in
  is_Some (s ≫= λ h, ut_find ft_table_name n (hm_tables h)) ∧
  (∀ type, linx_hash_map_get_value_ptr m s field type = Ret [] (0, type))
  ∧ (∀ cmp v, num_matcher m s cmp field v = Ret [] false)
  ∧ (∀ test v, plain_str_matcher m s test field v = Ub UninitRead)
  ∧ (∀ v, str_assign_matcher m s field v = Ub UninitRead ∧ str_ne_matcher m s field v = Ub UninitRead
       ∧ list_in_matcher m s field v = Ub UninitRead).
Proof.
  intros Hs Hl Hn Hf Ht s. apply main_loops in Hs as ((w1 & d1 & Hi & Hr) & _ & _).
  apply init_tables_unbound in Hi as Hu; [|reflexivity|reflexivity].
  destruct (loop_keeps _ _ _ _ Hl) as (_ & _ & Hx). rewrite Hr in Hx. destruct (unbound_base _ _ (Hx Hu) Hn) as [Hb Hsome].
  assert (Hp : ∀ type, linx_hash_map_get_value_ptr m s field type = Ret [] (0, type)).
  { intros type. unfold linx_hash_map_get_value_ptr. rewrite Hf, Ht. cbn [negb]. unfold s. by rewrite Hb. }
  assert (Hm : matcher_get_value_ptr m s field = Ret [] (0, None)).
  { unfold matcher_get_value_ptr. by rewrite Hp. }
  assert (Hsp : ∀ b, string_ptr m s b field = Ub UninitRead) by (intros; unfold string_ptr; by rewrite Hm).
  split; [|split; [exact Hp|split; [|split]]].
  - exact Hsome.
  - intros cmp v. unfold num_matcher. by rewrite Hm.
  - intros test v. unfold plain_str_matcher. by rewrite Hsp.
  - intros v.
    assert (Ha : str_assign_matcher m s field v = Ub UninitRead).
    { unfold str_assign_matcher, string_or_formatted. rewrite Hsp. reflexivity. }
    split; [exact Ha|]. split; [unfold str_ne_matcher; rewrite Ha; reflexivity|].
    unfold list_in_matcher, string_or_formatted. rewrite Hsp. reflexivity.
Qed.
(** ** Ending the program *)
Definition matches_set (rs : option linx_rule_set_t) : Prop :=
  match rs with Some rs => Forall (λ e, match_null (re_match e) = false) (rs_data rs) | None => True end.

Lemma set_add_matches rule mt om rs w ret rs' :
  linx_rule_set_add rule mt om rs = Ret w (ret, rs') → matches_set rs → matches_set rs'.
Proof.
  unfold linx_rule_set_add. intros Ha Hm. destruct rs as [rs|]; [|by injection Ha as _ _ <-].
  destruct rule as [rule|]; [|by injection Ha as _ _ <-].
  destruct (match_null mt) eqn:Hn; [by injection Ha as _ _ <-|]. destruct om as [om|]; [|by injection Ha as _ _ <-].
  assert (Hd : rs_data (if rs_capacity rs <=? rs_size rs then linx_rule_set_resize rs else rs) = rs_data rs) by (destruct (rs_capacity rs <=? rs_size rs); reflexivity).
  destruct (_ <? _); [|done]. injection Ha as _ _ <-. cbn. rewrite Hd. apply Forall_app. by repeat constructor.
Qed.

Lemma add_rules_matches s root h i n ret mt om rs w ret' rs' :
  add_rules evt_addr s root h i n ret mt om rs = Ret w (ret', rs') → matches_set rs → matches_set rs'.
Proof.
  revert i ret mt om rs w. induction n as [|n IH]; intros i ret mt om rs w Hl Hm; cbn [add_rules] in Hl;
    [by injection Hl as _ _ <-|].
  apply bind_Ret_inv in Hl as (? & ? & rule & _ & Hl & _). apply bind_Ret_inv in Hl as (? & ? & [? ?] & _ & Hl & _).
  apply bind_Ret_inv in Hl as (? & ? & [? ?] & _ & Hl & _). apply bind_Ret_inv in Hl as (? & ? & [? ?] & _ & Hl & _).
  apply bind_Ret_inv in Hl as (? & ? & [? ?] & Ha & Hl & _). eapply IH; [exact Hl|]. by eapply set_add_matches.
Qed.

Lemma load_file_matches s fs path rs w ret rs' :
  linx_rule_engine_load_file evt_addr s fs path rs = Ret w (ret, rs') → matches_set rs → matches_set rs'.
Proof.
  unfold linx_rule_engine_load_file. intros Hl Hm. apply bind_Ret_inv in Hl as (? & ? & [root h] & _ & Hl & _).
  destruct root as [root|]; [|by injection Hl as _ _ <-].
  unfold linx_rule_engine_add_rule_to_set in Hl.
  apply bind_Ret_inv in Hl as (? & ? & node & _ & Hl & _). by eapply add_rules_matches.
Qed.

Lemma load_entries_matches s fs dir es ret rs w ret' rs' :
  load_entries evt_addr s fs dir es ret rs = Ret w (ret', rs') → matches_set rs → matches_set rs'.
Proof.
  revert ret rs w. induction es as [|d es IH]; intros ret rs w Hl Hm; cbn [load_entries] in Hl; [by injection Hl as _ _ <-|].
  destruct (_ || _); [by eapply IH|]. apply bind_Ret_inv in Hl as (? & ? & [r rs1] & Hf & Hl & _).
  apply load_file_matches in Hf; [|done]. destruct (negb (r =? 0)); [by injection Hl as _ _ <-|by eapply IH].
Qed.

Lemma load_matches s fs path w ret rs :
  linx_rule_engine_load evt_addr s fs path = Ret w (ret, rs) → matches_set rs.
Proof.
  unfold linx_rule_engine_load. cbn [linx_rule_set_init]. assert (H0 : matches_set (Some (mk_rule_set [] 0))) by constructor.
  destruct (fs_stat fs path) as [[| |]|]; intros Hl; try (by injection Hl as _ _ <-).
  - unfold linx_rule_engine_load_dir in Hl. destruct (fs_readdir fs path); [by eapply load_entries_matches|].
    by injection Hl as _ _ <-.
  - by eapply load_file_matches.
Qed.

Lemma release_rules d rs e es :
  d_rule_set d = Some rs → rs_data rs = e :: es → match_null (re_match e) = false → release 9 d = Ub UninitRead.
Proof. intros Hr He Hn. cbn. by rewrite Hr, (rule_set_deinit_unset rs e es). Qed.

(** The program cannot be stopped cleanly.  When it runs with at least one
    rule, SIGINT and SIGUSR1 start the release with the rule set, whose
    destructor switches on a member that nothing sets.  And whatever the
    failure of [main], a release that comes to its end exits with the status
    of success. *)
Theorem shutdown_reads_unset b w d es w' d' rs :
  start b = Ret w (Loops d) → loop es d = Ret w' d' → d_rule_set d' = Some rs → rs_data rs ≠ [] →
  linx_resource_cleanup d' = Ub UninitRead
  ∧ ∀ d0 w0 status d1, linx_resource_cleanup d0 = Ret w0 (status, d1) → status = 0.
Proof.
  intros Hs Hl Hr Hne. destruct (main_loops _ _ _ Hs) as (_ & (w2 & Hload) & Ht). apply load_matches in Hload.
  destruct (loop_keeps _ _ _ _ Hl) as (Hrs & Hty & _). split.
  - rewrite <- Hrs, Hr in Hload. destruct (rs_data rs) as [|e rest] eqn:He; [done|]. unfold matches_set in Hload.
    rewrite He in Hload. apply Forall_cons in Hload as [Hn _]. unfold linx_resource_cleanup. rewrite Hty, Ht.
    cbn [cleanup_level release_from]. by rewrite (release_rules _ rs e rest).
  - intros d0 w0 status d1 H0. unfold linx_resource_cleanup in H0. bind_inv H0. by injection Hk as _ <- _.
Qed.

(** The events that are handled: the last record of every pass with records. *)
Definition handled (passes : list (environment * list linx_ringbuf_t)) : list (environment * linx_event_t) :=
  omap (λ x, (λ r, (x.1, received r)) <$> last x.2) passes.

(** C19: the event loop.  When every record is an event of at most 32 KB, the loop
    enriches and matches, in every pass that finds records, the last of them
    and no other: every event is copied over the one before in the one buffer
    of the engine, and the loop looks at the buffer once. *)
Theorem event_loop_handles_last poll passes d :
  poll_law poll →
  Forall (λ x, Forall (λ r, eh_size (rb_event r) ≤ LINX_EVENT_MAX_SIZE) x.2 ∧ Z.of_nat (length x.2) < 2 ^ 31) passes →
  ∀ buffer,
    linx_event_loop pagesize local_time addr_of evt_addr fd_addr user_addr group_addr memory_of poll passes [] buffer d
    = loop (handled passes) d.
Proof.
  intros Hpoll Hp. revert d. induction Hp as [|[env records] passes [Hs Hlen] _ IH]; intros d buffer; [done|].
  cbn [linx_event_loop app]. rewrite engine_next_last by done. unfold handled. cbn [omap list_omap fst snd] in *.
  destruct (last records) as [r|] eqn:El; cbn [fmap option_fmap option_map].
  - destruct records as [|r0 records]; [done|].
    destruct (Z.leb_spec (Z.of_nat (length (r0 :: records))) 0) as [E|_]; [cbn in E; lia|].
    cbn [from_opt event_passes]. rewrite bind_ret_l.
    destruct (loop_pass _ _ _ _ _ _ _ _ env (received r) d); [|done..]. cbn. by rewrite IH.
  - cbn. by apply IH.
Qed.

(** C20: from the system call to the enriched event.  The records of a run are
    events that programs have sent (any program but the exit of sendto), in
    any order and number per pass.  The enrichment of the events the loop
    handles reads nothing outside an event and fails for no other reason
    than an exit of [execve] handled after an exit of [openat] with no exit of
    [execve] in between, which ends in an invalid free. *)
Theorem kernel_events_enriched passes c s :
  Forall (λ x, Forall genuine x.2 ∧ proc_clean pagesize x.1) passes → cache_wf c →
  let result := run_events pagesize local_time addr_of evt_addr fd_addr user_addr group_addr (handled passes)
                  (rich_initial, Some c, s) in
  if crashes false (handled passes).*2 then result = Ub InvalidFree
  else ∃ w st' c' s', result = Ret w (st', Some c', s') ∧ cache_wf c'.
Proof.
  intros Hp Hc. apply run_crashes; [|apply rich_inv_initial|done].
  induction Hp as [|[env records] passes [Hg Hclean] _ IH]; [constructor|]. unfold handled. cbn [omap list_omap fst snd] in *.
  destruct (last records) as [r|] eqn:El; cbn [fmap option_fmap option_map]; [|exact IH]. constructor; [|exact IH].
  split; [done|]. rewrite Forall_forall in Hg. apply genuine_event, Hg. by apply last_Some_elem_of.
Qed.
End facts.

(** A run with one rule and one event. *)
Definition machine_ex : machine := mk_machine 0 0 None (λ _, None) (λ _, Some (mk_gr 0 "root")).
Definition num_rule : yaml := rule_yaml "r" "evt.num > 5" "seen".
Definition boot_ex : boot :=
  mk_boot 0 0 0 0 0 0 4 machine_ex
    (mk_fs (λ _, Some IsReg) (λ _, None) (λ _, Some (document (YSeq [num_rule])))) "rules.yaml".
Definition env_ex : environment := mk_env 100 (λ _, mk_procfs None None None None None) (λ _, None).
Definition event_of (type : Z) : linx_event_t := mk_linx_event 7 1 0 0 type "cat" "cat x" (replicate 32 8) ∅.
Definition memory_ex (st : rich_state) (g : cache_state) : memory := mem_block 4096 (le_split 8 (evt_num (rs_evt st))).

Definition offsets_ex (_ _ : string) : Z * Z := (0, 8).
Definition time_ex (_ : Z) : string := "2026-01-01 00:00:00".
Definition block_ex (a : nat) : Z := 8192 + Z.of_nat a.
Definition events_ex : list (environment * linx_event_t) := [(env_ex, event_of 0); (env_ex, event_of 8)].

Abbreviation start_ex := (main (H := lexer_engine) 4096 offsets_ex boot_ex).
Abbreviation loop_ex := (event_passes 4096 time_ex block_ex 4096 5000 6000 7000 memory_ex events_ex).

Lemma run_ex : ∃ w d w' d' rs, start_ex = Ret w (Loops d) ∧ loop_ex d = Ret w' d' ∧ d_rule_set d' = Some rs ∧ rs_data rs ≠ [].
Proof.
  destruct start_ex as [w [d|d]| |] eqn:E; vm_compute in E; try discriminate E. injection E as <- <-.
  do 5 eexists. split; [reflexivity|]. split; [vm_compute; reflexivity|]. split; [reflexivity|]. discriminate.
Qed.

Lemma proc_fields_unreachable_witness :
  ∃ w d w' d', start_ex = Ret w (Loops d) ∧ loop_ex d = Ret w' d'
    ∧ linx_hash_map_get_value_ptr ∅ (d_registry d')
        (linx_hash_map_get_field_by_path 4096 (Some "proc.name") (d_registry d')) None = Ret [] (0, None).
Proof.
  destruct run_ex as (w & d & w' & d' & _ & Hs & Hl & _). exists w, d, w', d'. split; [exact Hs|]. split; [exact Hl|].
  set (field := linx_hash_map_get_field_by_path 4096 (Some "proc.name") (d_registry d')).
  assert (Hf : fr_found field = true ∧ fr_table_name field = Some "proc").
  { revert Hl. destruct start_ex as [w0 [d0|d0]| |] eqn:E; vm_compute in E; try discriminate E.
    injection E as <- <-. injection Hs as _ <-. intros Hl. vm_compute in Hl. injection Hl as _ <-. split; reflexivity. }
  destruct Hf as [Hf Ht].
  refine (proj1 (proj2 (proc_fields_unreachable (H := lexer_engine) 4096 time_ex block_ex 4096 5000 6000 7000 offsets_ex memory_ex boot_ex w d events_ex w' d' field "proc" ∅ Hs Hl _ Hf Ht)) None).
  left.
Defined.

Lemma shutdown_reads_unset_witness :
  ∃ w d w' d', start_ex = Ret w (Loops d) ∧ loop_ex d = Ret w' d' ∧ linx_resource_cleanup d' = Ub UninitRead.
Proof.
  destruct run_ex as (w & d & w' & d' & rs & Hs & Hl & Hr & Hne). exists w, d, w', d'. split; [exact Hs|].
  split; [exact Hl|].
  exact (proj1 (shutdown_reads_unset (H := lexer_engine) 4096 time_ex block_ex 4096 5000 6000 7000 offsets_ex memory_ex boot_ex w d events_ex w' d' rs Hs Hl Hr Hne)).
Defined.

Definition record_ex : linx_ringbuf_t := filled (open_x kernel_ex (regs_ex [9; 65; 438]) 3) kernel_ex ringbuf_ex.

Lemma record_ex_genuine : genuine record_ex.
Proof.
  exists "open_x", open_x, kernel_ex, (regs_ex [9; 65; 438]), 3, ringbuf_ex, [], record_ex.
  do 4 (split; [first [exact open_x_in|discriminate|exact kernel_ex_ok|reflexivity]|]).
  exact (run_program_outcome open_x kernel_ex (regs_ex [9; 65; 438]) 3 ringbuf_ex kernel_ex_ok eq_refl).
Qed.

Abbreviation poll_ex :=
  (λ callback records buffer, (Z.of_nat (length records), foldl (λ b r, (callback r b).2) buffer records, [])).

Lemma event_loop_handles_last_witness :
  linx_event_loop 4096 time_ex block_ex 4096 5000 6000 7000 memory_ex poll_ex
    [(env_ex, [ringbuf_ex; record_ex]); (env_ex, [])] [] None daemon_initial
  = event_passes 4096 time_ex block_ex 4096 5000 6000 7000 memory_ex
      [(env_ex, received record_ex)] daemon_initial.
Proof.
  refine (event_loop_handles_last 4096 time_ex block_ex 4096 5000 6000 7000 memory_ex poll_ex
    [(env_ex, [ringbuf_ex; record_ex]); (env_ex, [])] daemon_initial poll_law_ex _ None).
  assert (eh_size (rb_event record_ex) ≤ LINX_EVENT_MAX_SIZE) as Hr by (by apply genuine_event, record_ex_genuine).
  repeat constructor; cbn [fst snd]; first [exact Hr|vm_compute; discriminate|idtac].
Defined.

Lemma kernel_events_enriched_witness :
  ∃ w st' c' s',
    run_events 4096 time_ex block_ex 4096 5000 6000 7000 [(rich_env, received record_ex)]
      (rich_initial, Some cache_ex, None) = Ret w (st', Some c', s').
Proof.
  assert (Forall (λ x, Forall genuine x.2 ∧ proc_clean 4096 x.1) [(rich_env, [record_ex])]) as H.
  { constructor; [|constructor]. split; [|exact rich_env_clean]. constructor; [exact record_ex_genuine|constructor]. }
  pose proof (kernel_events_enriched 4096 time_ex block_ex 4096 5000 6000 7000 _ cache_ex None H cache_ex_wf) as Hx.
  cbn [handled omap list_omap last fst snd fmap option_fmap option_map crashes list_fmap] in Hx.
  rewrite andb_false_r in Hx. destruct Hx as (w & st' & c' & s' & Hx & _). exists w, st', c', s'. exact Hx.
Defined.
