(* ===== verification/Signal.v ===== *)
(** * Signals (userspace/linx_apd/linx_signal.c)

    [main] registers one handler for SIGINT and SIGUSR1 before anything else;
    the handler releases the resources and ends the process.  A failure of
    [main] raises SIGUSR1 itself. *)
From S2P Require Import Prelude CString Memory EventTable HashMap ProcessCache MachineStatus EventRich Alert RuleSet Daemon.
From stdpp Require Import gmap.

#[local] Open Scope Z_scope.

Definition SIGINT : Z := 2.
Definition SIGUSR1 : Z := 10.
Definition EXIT_FAILURE : Z := 1.

(** The signals [linx_signal_handler] is registered for. *)
Definition handlers : Type := gset Z.

(** What a call leaves: the process goes on with the variables of the
    components, or it has ended with a status. *)
Inductive process (A : Type) :=
  | Running (a : A)
  | Exited (status : Z).
Arguments Running {A} a.
Arguments Exited {A} status.

Definition linx_signal_handler (signum : Z) (d : daemon) : outcome (process daemon) :=
  if (signum =? SIGINT) || (signum =? SIGUSR1) then '(status, _) ← linx_resource_cleanup d; mret (Exited status)
  else mret (Running d).

(** [sigaction] fails for signals that cannot be caught. *)
Definition linx_setup_signal (sigaction : Z → bool) (signum : Z) (s : handlers) : process handlers :=
  if sigaction signum then Running (({[signum]} ∪ s) : gset Z) else Exited EXIT_FAILURE.

(** The first two calls of [main]. *)
Definition setup_signals (sigaction : Z → bool) : process handlers :=
  match linx_setup_signal sigaction SIGINT (∅ : gset Z) with
  | Running s => linx_setup_signal sigaction SIGUSR1 s
  | Exited status => Exited status
  end.

(** A signal arrives: its handler runs, or the system ends the process. *)
Definition deliver (s : handlers) (signum : Z) (d : daemon) : outcome (process daemon) :=
  if bool_decide (signum ∈ (s : gset Z)) then linx_signal_handler signum d else mret (Exited (128 + signum)).

(** ** Lemmas *)

Lemma setup_signals_handlers sigaction s :
  setup_signals sigaction = Running s → SIGINT ∈ (s : gset Z) ∧ SIGUSR1 ∈ (s : gset Z).
Proof.
  unfold setup_signals, linx_setup_signal. destruct (sigaction SIGINT); [|done]. destruct (sigaction SIGUSR1); [|done].
  intros E. injection E as E. unfold handlers in *. subst s. set_solver.
Qed.

(** Once both handlers are in place, each of the two signals ends the process
    by the release, with status 0, whatever was initialised. *)
Theorem signals_release sigaction s signum d :
  setup_signals sigaction = Running s → signum = SIGINT ∨ signum = SIGUSR1 →
  deliver s signum d = ('(status, _) ← linx_resource_cleanup d; mret (Exited status))
  ∧ (∀ w x, deliver s signum d = Ret w x → x = Exited 0).
Proof.
  intros Hs Hn. destruct (setup_signals_handlers _ _ Hs) as [H1 H2].
  assert (deliver s signum d = ('(status, _) ← linx_resource_cleanup d; mret (Exited status))) as E.
  { unfold deliver. rewrite bool_decide_true by (destruct Hn as [-> | ->]; done). unfold linx_signal_handler. by destruct Hn as [-> | ->]. }
  split; [done|]. intros w x. rewrite E. unfold linx_resource_cleanup.
  destruct (release_from _ d) as [w' d'| |]; cbn; [|done..]. by intros [= _ <-].
Qed.

(** A signal that arrives before the arguments are initialised releases
    nothing. *)
Theorem early_signal sigaction s signum :
  setup_signals sigaction = Running s → signum = SIGINT ∨ signum = SIGUSR1 →
  deliver s signum daemon_initial = Ret [] (Exited 0).
Proof. intros Hs Hn. by destruct (signals_release sigaction s signum daemon_initial Hs Hn) as [-> _]. Qed.

Lemma signals_release_ex : deliver ({[SIGUSR1; SIGINT]} : gset Z) SIGUSR1 daemon_initial = Ret [] (Exited 0).
Proof. by destruct (signals_release (λ _, true) _ SIGUSR1 daemon_initial eq_refl (or_intror eq_refl)) as [-> _]. Defined.
