(* ===== verification/SyscallTable.v ===== *)
(** * The table of system calls (linx_syscall_table.c, linx_syscall_id.h)

    A macro file with a line per system call is expanded into the table of
    system calls: names, names of the two programs, and for every parameter
    its name and a type code chosen by [_Generic] from the C type the kernel
    declares.  The file is the same in src/include and kernel/ebpf/include,
    and so is linx_syscall_table.c in userspace and in the collector's plugin;
    the plugin is what reads it.  src/include/linx_syscall_id.h lists the
    numbers a second time, by hand.

    C types are terms of [c_type], the typedefs those of the generated
    vmlinux.h. *)
From S2P Require Import Prelude CString EventType EventTable.

#[local] Open Scope string_scope.
#[local] Open Scope Z_scope.

(** ** C types *)
Inductive c_type :=
  | TVoid | TChar | TShort | TInt | TLong | TLongLong
  | TUChar | TUShort | TUInt | TULong | TULongLong
  | TPtr (t : c_type)
  | TConst (t : c_type)
  | TStruct (tag : string)
  | TEnum (tag : string).

#[export] Instance c_type_eq_dec : EqDecision c_type.
Proof. solve_decision. Defined.

(** ** Type codes (kernel/ebpf/include/linx_type.h) *)
Inductive linx_type_t :=
  | LINX_TYPE_NONE | LINX_TYPE_INT8 | LINX_TYPE_INT16 | LINX_TYPE_INT32 | LINX_TYPE_INT64
  | LINX_TYPE_UINT8 | LINX_TYPE_UINT16 | LINX_TYPE_UINT32 | LINX_TYPE_UINT64
  | LINX_TYPE_CHARBUF | LINX_TYPE_BYTEBUF.

#[export] Instance linx_type_t_eq_dec : EqDecision linx_type_t.
Proof. solve_decision. Defined.

Definition LINX_SYSCALL_TYPE_ENTER : Z := 0.
Definition LINX_SYSCALL_TYPE_EXIT : Z := 1.

(** [GET_PARAM_TYPE]: [_Generic] drops the qualifiers of the type itself and
    picks the first compatible association; an enumeration without negative
    constants is compatible with [unsigned int]. *)
Fixpoint GET_PARAM_TYPE (t : c_type) : linx_type_t :=
  match t with
  | TConst t => GET_PARAM_TYPE t
  | TChar => LINX_TYPE_INT8
  | TShort => LINX_TYPE_INT16
  | TInt => LINX_TYPE_INT32
  | TLong | TLongLong => LINX_TYPE_INT64
  | TUChar => LINX_TYPE_UINT8
  | TUShort => LINX_TYPE_UINT16
  | TUInt | TEnum _ => LINX_TYPE_UINT32
  | TULong | TULongLong => LINX_TYPE_UINT64
  | TPtr TChar | TPtr (TConst TChar) => LINX_TYPE_CHARBUF
  | _ => LINX_TYPE_NONE
  end.

(** ** Typedefs (vmlinux.h) *)
Definition __kernel_ulong_t : c_type := TULong.
Definition __kernel_size_t : c_type := __kernel_ulong_t.
Definition size_t : c_type := __kernel_size_t.
Definition umode_t : c_type := TUShort.
Definition __kernel_long_t : c_type := TLong.
Definition __kernel_off_t : c_type := __kernel_long_t.
Definition off_t : c_type := __kernel_off_t.
Definition __kernel_loff_t : c_type := TLongLong.
Definition loff_t : c_type := __kernel_loff_t.
Definition fd_set : c_type := TStruct "__kernel_fd_set".
Definition __kernel_key_t : c_type := TInt.
Definition key_t : c_type := __kernel_key_t.
Definition __kernel_pid_t : c_type := TInt.
Definition pid_t : c_type := __kernel_pid_t.
Definition __kernel_uid32_t : c_type := TUInt.
Definition uid_t : c_type := __kernel_uid32_t.
Definition __kernel_gid32_t : c_type := TUInt.
Definition gid_t : c_type := __kernel_gid32_t.
Definition cap_user_header_t : c_type := TPtr (TStruct "__user_cap_header_struct").
Definition cap_user_data_t : c_type := TPtr (TStruct "__user_cap_data_struct").
Definition siginfo_t : c_type := TStruct "siginfo".
Definition stack_t : c_type := TStruct "sigaltstack".
Definition qid_t : c_type := __kernel_uid32_t.
Definition __kernel_old_time_t : c_type := __kernel_long_t.
Definition __u32 : c_type := TUInt.
Definition u32 : c_type := __u32.
Definition aio_context_t : c_type := __kernel_ulong_t.
Definition __u64 : c_type := TULongLong.
Definition u64 : c_type := __u64.
Definition uint64_t : c_type := u64.
Definition __kernel_clockid_t : c_type := TInt.
Definition clockid_t : c_type := __kernel_clockid_t.
Definition __kernel_timer_t : c_type := TInt.
Definition timer_t : c_type := __kernel_timer_t.
Definition __kernel_mqd_t : c_type := TInt.
Definition mqd_t : c_type := __kernel_mqd_t.
Definition __s32 : c_type := TInt.
Definition s32 : c_type := __s32.
Definition int32_t : c_type := s32.
Definition key_serial_t : c_type := int32_t.
Definition __kernel_rwf_t : c_type := TInt.
Definition rwf_t : c_type := __kernel_rwf_t.
Definition uint32_t : c_type := u32.

(** ** Rows *)
Record linx_syscall_table_t := mk_row {
  st_up_name : string;
  st_id : Z;
  enter_num : Z;
  exit_num : Z;
  st_name : option string;
  ebpf_prog_name : list (option string);
  param_name : list (option string);
  enter_type : list linx_type_t;
  exit_type : list linx_type_t
}.

Definition TABLE_PARAMS_MAX_COUNT : nat := 6.

(** Members of an array without an initialiser are zero. *)
Definition zero_fill {A} (n : nat) (z : A) (l : list A) : list A := take n (l ++ replicate n z).

(** [SYSCALL_MACRO], [ENTER_PARAM_MACRO] and [EXIT_PARAM_MACRO] of one line.
    The upper-case name and the number are kept in the row: linx_syscall_id.h
    of the collector expands the same lines into its enumerators. *)
Definition SYSCALL_MACRO (up_name low_name : string) (id e_num x_num : Z) (params ret : list (c_type * string))
    : linx_syscall_table_t :=
  mk_row up_name id e_num x_num (Some low_name) [Some (low_name +:+ "_e"); Some (low_name +:+ "_x")]
    (zero_fill TABLE_PARAMS_MAX_COUNT None (Some ∘ snd <$> params))
    (zero_fill TABLE_PARAMS_MAX_COUNT LINX_TYPE_NONE (GET_PARAM_TYPE ∘ fst <$> params))
    (zero_fill 1 LINX_TYPE_NONE (GET_PARAM_TYPE ∘ fst <$> ret)).

Definition syscall_read := SYSCALL_MACRO "READ" "read" 0 3 1 [(TUInt, "fd"); (TPtr TChar, "buf"); (size_t, "count")]
  [(TLong, "ret")].
Definition syscall_write := SYSCALL_MACRO "WRITE" "write" 1 3 1 [(TUInt, "fd"); (TPtr (TConst TChar), "buf"); (size_t,
  "count")] [(TLong, "ret")].
Definition syscall_open := SYSCALL_MACRO "OPEN" "open" 2 3 1 [(TPtr (TConst TChar), "filename"); (TInt, "flags");
  (umode_t, "mode")] [(TLong, "ret")].
Definition syscall_close := SYSCALL_MACRO "CLOSE" "close" 3 1 1 [(TUInt, "fd")] [(TLong, "ret")].
Definition syscall_stat := SYSCALL_MACRO "STAT" "stat" 4 2 1 [(TPtr (TConst TChar), "pathname"); (TPtr (TStruct
  "statfs"), "buf")] [(TLong, "ret")].
Definition syscall_fstat := SYSCALL_MACRO "FSTAT" "fstat" 5 2 1 [(TUInt, "fd"); (TPtr (TStruct "statfs"), "buf")]
  [(TLong, "ret")].
Definition syscall_lstat := SYSCALL_MACRO "LSTAT" "lstat" 6 2 1 [(TPtr (TConst TChar), "pathname"); (TPtr (TStruct
  "statfs"), "buf")] [(TLong, "ret")].
Definition syscall_poll := SYSCALL_MACRO "POLL" "poll" 7 3 1 [(TPtr (TStruct "pollfd"), "ufds"); (TUInt, "nfds");
  (TInt, "timeout_msecs")] [(TLong, "ret")].
Definition syscall_lseek := SYSCALL_MACRO "LSEEK" "lseek" 8 3 1 [(TUInt, "fd"); (off_t, "offset"); (TUInt, "whence")]
  [(TLong, "ret")].
Definition syscall_mmap := SYSCALL_MACRO "MMAP" "mmap" 9 6 1 [(TULong, "addr"); (TULong, "len"); (TULong, "prot");
  (TULong, "flags"); (TULong, "fd"); (TULong, "off")] [(TLong, "ret")].
Definition syscall_mprotect := SYSCALL_MACRO "MPROTECT" "mprotect" 10 3 1 [(TULong, "start"); (size_t, "len");
  (TULong, "prot")] [(TLong, "ret")].
Definition syscall_munmap := SYSCALL_MACRO "MUNMAP" "munmap" 11 2 1 [(TULong, "addr"); (size_t, "len")] [(TLong,
  "ret")].
Definition syscall_brk := SYSCALL_MACRO "BRK" "brk" 12 1 1 [(TULong, "brk")] [(TLong, "ret")].
Definition syscall_rt_sigaction := SYSCALL_MACRO "RT_SIGACTION" "rt_sigaction" 13 4 1 [(TInt, "sig"); (TPtr (TConst
  (TStruct "sigaction")), "act"); (TPtr (TStruct "sigaction"), "oact"); (size_t, "sigsetsize")] [(TLong, "ret")].
Definition syscall_rt_sigprocmask := SYSCALL_MACRO "RT_SIGPROCMASK" "rt_sigprocmask" 14 4 1 [(TInt, "how"); (TPtr
  (TStruct "sigset_t"), "nset"); (TPtr (TStruct "sigset_t"), "oset"); (size_t, "sigsetsize")] [(TLong, "ret")].
Definition syscall_rt_sigreturn := SYSCALL_MACRO "RT_SIGRETURN" "rt_sigreturn" 15 0 1 [] [(TLong, "ret")].
Definition syscall_ioctl := SYSCALL_MACRO "IOCTL" "ioctl" 16 3 1 [(TUInt, "fd"); (TUInt, "cmd"); (TULong, "arg")]
  [(TLong, "ret")].
Definition syscall_pread64 := SYSCALL_MACRO "PREAD64" "pread64" 17 4 1 [(TUInt, "fd"); (TPtr TChar, "buf"); (size_t,
  "count"); (loff_t, "pos")] [(TLong, "ret")].
Definition syscall_pwrite64 := SYSCALL_MACRO "PWRITE64" "pwrite64" 18 4 1 [(TUInt, "fd"); (TPtr (TConst TChar),
  "buf"); (size_t, "count"); (loff_t, "pos")] [(TLong, "ret")].
Definition syscall_readv := SYSCALL_MACRO "READV" "readv" 19 3 1 [(TULong, "fd"); (TPtr (TConst (TStruct "iovec")),
  "vec"); (TULong, "vlen")] [(TLong, "ret")].
Definition syscall_writev := SYSCALL_MACRO "WRITEV" "writev" 20 3 1 [(TULong, "fd"); (TPtr (TConst (TStruct "iovec")),
  "vec"); (TULong, "vlen")] [(TLong, "ret")].
Definition syscall_access := SYSCALL_MACRO "ACCESS" "access" 21 2 1 [(TPtr (TConst TChar), "filename"); (TInt,
  "mode")] [(TLong, "ret")].
Definition syscall_pipe := SYSCALL_MACRO "PIPE" "pipe" 22 1 1 [(TPtr TInt, "fildes")] [(TLong, "ret")].
Definition syscall_select := SYSCALL_MACRO "SELECT" "select" 23 5 1 [(TInt, "n"); (TPtr fd_set, "inp"); (TPtr fd_set,
  "outp"); (TPtr fd_set, "exp"); (TPtr (TStruct "__kernel_old_timeval"), "tvp")] [(TLong, "ret")].
Definition syscall_sched_yield := SYSCALL_MACRO "SCHED_YIELD" "sched_yield" 24 0 1 [] [(TLong, "ret")].
Definition syscall_mremap := SYSCALL_MACRO "MREMAP" "mremap" 25 5 1 [(TULong, "addr"); (TULong, "old_len"); (TULong,
  "new_len"); (TULong, "flags"); (TULong, "new_addr")] [(TLong, "ret")].
Definition syscall_msync := SYSCALL_MACRO "MSYNC" "msync" 26 3 1 [(TULong, "start"); (size_t, "len"); (TInt, "flags")]
  [(TLong, "ret")].
Definition syscall_mincore := SYSCALL_MACRO "MINCORE" "mincore" 27 3 1 [(TULong, "start"); (size_t, "len"); (TPtr
  TUChar, "vec")] [(TLong, "ret")].
Definition syscall_madvise := SYSCALL_MACRO "MADVISE" "madvise" 28 3 1 [(TULong, "start"); (size_t, "len_in"); (TInt,
  "behavior")] [(TLong, "ret")].
Definition syscall_shmget := SYSCALL_MACRO "SHMGET" "shmget" 29 3 1 [(key_t, "key"); (size_t, "size"); (TInt,
  "shmflg")] [(TLong, "ret")].
Definition syscall_shmat := SYSCALL_MACRO "SHMAT" "shmat" 30 3 1 [(TInt, "shmid"); (TPtr TChar, "shmaddr"); (TInt,
  "shmflg")] [(TLong, "ret")].
Definition syscall_shmctl := SYSCALL_MACRO "SHMCTL" "shmctl" 31 3 1 [(TInt, "shmid"); (TInt, "cmd"); (TPtr (TStruct
  "shmid_ds"), "buf")] [(TLong, "ret")].
Definition syscall_dup := SYSCALL_MACRO "DUP" "dup" 32 1 1 [(TUInt, "fildes")] [(TLong, "ret")].
Definition syscall_dup2 := SYSCALL_MACRO "DUP2" "dup2" 33 2 1 [(TUInt, "oldfd"); (TUInt, "newfd")] [(TLong, "ret")].
Definition syscall_pause := SYSCALL_MACRO "PAUSE" "pause" 34 0 1 [] [(TLong, "ret")].
Definition syscall_nanosleep := SYSCALL_MACRO "NANOSLEEP" "nanosleep" 35 2 1 [(TPtr (TStruct "__kernel_timespec"),
  "rqtp"); (TPtr (TStruct "__kernel_timespec"), "rmtp")] [(TLong, "ret")].
Definition syscall_getitimer := SYSCALL_MACRO "GETITIMER" "getitimer" 36 2 1 [(TInt, "which"); (TPtr (TStruct
  "__kernel_old_itimerval"), "value")] [(TLong, "ret")].
Definition syscall_alarm := SYSCALL_MACRO "ALARM" "alarm" 37 1 1 [(TUInt, "seconds")] [(TLong, "ret")].
Definition syscall_setitimer := SYSCALL_MACRO "SETITIMER" "setitimer" 38 3 1 [(TInt, "which"); (TPtr (TStruct
  "__kernel_old_itimerval"), "value"); (TPtr (TStruct "__kernel_old_itimerval"), "ovalue")] [(TLong, "ret")].
Definition syscall_getpid := SYSCALL_MACRO "GETPID" "getpid" 39 0 1 [] [(TLong, "ret")].
Definition syscall_sendfile := SYSCALL_MACRO "SENDFILE" "sendfile" 40 4 1 [(TInt, "out_fd"); (TInt, "in_fd"); (TPtr
  loff_t, "offset"); (size_t, "count")] [(TLong, "ret")].
Definition syscall_socket := SYSCALL_MACRO "SOCKET" "socket" 41 3 1 [(TInt, "family"); (TInt, "type"); (TInt,
  "protocol")] [(TLong, "ret")].
Definition syscall_connect := SYSCALL_MACRO "CONNECT" "connect" 42 3 1 [(TInt, "fd"); (TPtr (TStruct "sockaddr"),
  "uservaddr"); (TInt, "addrlen")] [(TLong, "ret")].
Definition syscall_accept := SYSCALL_MACRO "ACCEPT" "accept" 43 3 1 [(TInt, "fd"); (TPtr (TStruct "sockaddr"),
  "upeer_sockaddr"); (TPtr TInt, "upeer_addrlen")] [(TLong, "ret")].
Definition syscall_sendto := SYSCALL_MACRO "SENDTO" "sendto" 44 6 1 [(TInt, "fd"); (TPtr TVoid, "buff"); (size_t,
  "len"); (TUInt, "flags"); (TPtr (TStruct "sockaddr"), "addr"); (TInt, "addr_len")] [(TLong, "ret")].
Definition syscall_recvfrom := SYSCALL_MACRO "RECVFROM" "recvfrom" 45 6 1 [(TInt, "fd"); (TPtr TVoid, "ubuf");
  (size_t, "size"); (TUInt, "flags"); (TPtr (TStruct "sockaddr"), "addr"); (TPtr TInt, "addr_len")] [(TLong, "ret")].
Definition syscall_sendmsg := SYSCALL_MACRO "SENDMSG" "sendmsg" 46 3 1 [(TInt, "fd"); (TPtr (TStruct "user_msghdr"),
  "msg"); (TUInt, "flags")] [(TLong, "ret")].
Definition syscall_recvmsg := SYSCALL_MACRO "RECVMSG" "recvmsg" 47 3 1 [(TInt, "fd"); (TPtr (TStruct "user_msghdr"),
  "msg"); (TUInt, "flags")] [(TLong, "ret")].
Definition syscall_shutdown := SYSCALL_MACRO "SHUTDOWN" "shutdown" 48 2 1 [(TInt, "fd"); (TInt, "how")] [(TLong,
  "ret")].
Definition syscall_bind := SYSCALL_MACRO "BIND" "bind" 49 3 1 [(TInt, "fd"); (TPtr (TStruct "sockaddr"), "umyaddr");
  (TInt, "addrlen")] [(TLong, "ret")].
Definition syscall_listen := SYSCALL_MACRO "LISTEN" "listen" 50 2 1 [(TInt, "fd"); (TInt, "backlog")] [(TLong,
  "ret")].
Definition syscall_getsockname := SYSCALL_MACRO "GETSOCKNAME" "getsockname" 51 3 1 [(TInt, "fd"); (TPtr (TStruct
  "sockaddr"), "usockaddr"); (TPtr TInt, "usockaddr_len")] [(TLong, "ret")].
Definition syscall_getpeername := SYSCALL_MACRO "GETPEERNAME" "getpeername" 52 3 1 [(TInt, "fd"); (TPtr (TStruct
  "sockaddr"), "usockaddr"); (TPtr TInt, "usockaddr_len")] [(TLong, "ret")].
Definition syscall_socketpair := SYSCALL_MACRO "SOCKETPAIR" "socketpair" 53 4 1 [(TInt, "family"); (TInt, "type");
  (TInt, "protocol"); (TPtr TInt, "usockvec")] [(TLong, "ret")].
Definition syscall_setsockopt := SYSCALL_MACRO "SETSOCKOPT" "setsockopt" 54 5 1 [(TInt, "fd"); (TInt, "level"); (TInt,
  "optname"); (TPtr TChar, "optval"); (TInt, "optlen")] [(TLong, "ret")].
Definition syscall_getsockopt := SYSCALL_MACRO "GETSOCKOPT" "getsockopt" 55 5 1 [(TInt, "fd"); (TInt, "level"); (TInt,
  "optname"); (TPtr TChar, "optval"); (TPtr TInt, "optlen")] [(TLong, "ret")].
Definition syscall_clone := SYSCALL_MACRO "CLONE" "clone" 56 5 1 [(TULong, "clone_flags"); (TULong, "newsp"); (TPtr
  TInt, "parent_tidptr"); (TPtr TInt, "child_tidptr"); (TULong, "tls")] [(TLong, "ret")].
Definition syscall_fork := SYSCALL_MACRO "FORK" "fork" 57 0 1 [] [(TLong, "ret")].
Definition syscall_vfork := SYSCALL_MACRO "VFORK" "vfork" 58 0 1 [] [(TLong, "ret")].
Definition syscall_execve := SYSCALL_MACRO "EXECVE" "execve" 59 3 1 [(TPtr (TConst TChar), "filename"); (TPtr (TConst
  (TPtr (TConst TChar))), "argv"); (TPtr (TConst (TPtr (TConst TChar))), "envp")] [(TLong, "ret")].
Definition syscall_exit := SYSCALL_MACRO "EXIT" "exit" 60 1 1 [(TInt, "error_code")] [(TLong, "ret")].
Definition syscall_wait4 := SYSCALL_MACRO "WAIT4" "wait4" 61 4 1 [(pid_t, "upid"); (TPtr TInt, "stat_addr"); (TInt,
  "options"); (TPtr (TStruct "rusage"), "ru")] [(TLong, "ret")].
Definition syscall_kill := SYSCALL_MACRO "KILL" "kill" 62 2 1 [(pid_t, "pid"); (TInt, "sig")] [(TLong, "ret")].
Definition syscall_uname := SYSCALL_MACRO "UNAME" "uname" 63 1 1 [(TPtr (TStruct "new_utsname"), "name")] [(TLong,
  "ret")].
Definition syscall_semget := SYSCALL_MACRO "SEMGET" "semget" 64 3 1 [(key_t, "key"); (TInt, "nsems"); (TInt,
  "semflg")] [(TLong, "ret")].
Definition syscall_semop := SYSCALL_MACRO "SEMOP" "semop" 65 3 1 [(TInt, "semid"); (TPtr (TStruct "sembuf"), "tsops");
  (TUInt, "nsops")] [(TLong, "ret")].
Definition syscall_semctl := SYSCALL_MACRO "SEMCTL" "semctl" 66 4 1 [(TInt, "semid"); (TInt, "semnum"); (TInt, "cmd");
  (TULong, "arg")] [(TLong, "ret")].
Definition syscall_shmdt := SYSCALL_MACRO "SHMDT" "shmdt" 67 1 1 [(TPtr TChar, "shmaddr")] [(TLong, "ret")].
Definition syscall_msgget := SYSCALL_MACRO "MSGGET" "msgget" 68 2 1 [(key_t, "key"); (TInt, "msgflg")] [(TLong,
  "ret")].
Definition syscall_msgsnd := SYSCALL_MACRO "MSGSND" "msgsnd" 69 4 1 [(TInt, "msqid"); (TPtr (TStruct "msgbuf"),
  "msgp"); (size_t, "msgsz"); (TInt, "msgflg")] [(TLong, "ret")].
Definition syscall_msgrcv := SYSCALL_MACRO "MSGRCV" "msgrcv" 70 5 1 [(TInt, "msqid"); (TPtr (TStruct "msgbuf"),
  "msgp"); (size_t, "msgsz"); (TLong, "msgtyp"); (TInt, "msgflg")] [(TLong, "ret")].
Definition syscall_msgctl := SYSCALL_MACRO "MSGCTL" "msgctl" 71 3 1 [(TInt, "msqid"); (TInt, "cmd"); (TPtr (TStruct
  "msqid_ds"), "buf")] [(TLong, "ret")].
Definition syscall_fcntl := SYSCALL_MACRO "FCNTL" "fcntl" 72 3 1 [(TUInt, "fd"); (TUInt, "cmd"); (TULong, "arg")]
  [(TLong, "ret")].
Definition syscall_flock := SYSCALL_MACRO "FLOCK" "flock" 73 2 1 [(TUInt, "fd"); (TUInt, "cmd")] [(TLong, "ret")].
Definition syscall_fsync := SYSCALL_MACRO "FSYNC" "fsync" 74 1 1 [(TUInt, "fd")] [(TLong, "ret")].
Definition syscall_fdatasync := SYSCALL_MACRO "FDATASYNC" "fdatasync" 75 1 1 [(TUInt, "fd")] [(TLong, "ret")].
Definition syscall_truncate := SYSCALL_MACRO "TRUNCATE" "truncate" 76 2 1 [(TPtr (TConst TChar), "path"); (TLong,
  "length")] [(TLong, "ret")].
Definition syscall_ftruncate := SYSCALL_MACRO "FTRUNCATE" "ftruncate" 77 2 1 [(TUInt, "fd"); (off_t, "length")]
  [(TLong, "ret")].
Definition syscall_getdents := SYSCALL_MACRO "GETDENTS" "getdents" 78 3 1 [(TUInt, "fd"); (TPtr (TStruct
  "linux_dirent"), "dirent"); (TUInt, "count")] [(TLong, "ret")].
Definition syscall_getcwd := SYSCALL_MACRO "GETCWD" "getcwd" 79 2 1 [(TPtr TChar, "buf"); (TULong, "size")] [(TLong,
  "ret")].
Definition syscall_chdir := SYSCALL_MACRO "CHDIR" "chdir" 80 1 1 [(TPtr (TConst TChar), "filename")] [(TLong, "ret")].
Definition syscall_fchdir := SYSCALL_MACRO "FCHDIR" "fchdir" 81 1 1 [(TUInt, "fd")] [(TLong, "ret")].
Definition syscall_rename := SYSCALL_MACRO "RENAME" "rename" 82 2 1 [(TPtr (TConst TChar), "oldname"); (TPtr (TConst
  TChar), "newname")] [(TLong, "ret")].
Definition syscall_mkdir := SYSCALL_MACRO "MKDIR" "mkdir" 83 2 1 [(TPtr (TConst TChar), "pathname"); (umode_t,
  "mode")] [(TLong, "ret")].
Definition syscall_rmdir := SYSCALL_MACRO "RMDIR" "rmdir" 84 1 1 [(TPtr (TConst TChar), "pathname")] [(TLong, "ret")].
Definition syscall_creat := SYSCALL_MACRO "CREAT" "creat" 85 2 1 [(TPtr (TConst TChar), "pathname"); (umode_t,
  "mode")] [(TLong, "ret")].
Definition syscall_link := SYSCALL_MACRO "LINK" "link" 86 2 1 [(TPtr (TConst TChar), "oldname"); (TPtr (TConst TChar),
  "newname")] [(TLong, "ret")].
Definition syscall_unlink := SYSCALL_MACRO "UNLINK" "unlink" 87 1 1 [(TPtr (TConst TChar), "pathname")] [(TLong,
  "ret")].
Definition syscall_symlink := SYSCALL_MACRO "SYMLINK" "symlink" 88 2 1 [(TPtr (TConst TChar), "oldname"); (TPtr
  (TConst TChar), "newname")] [(TLong, "ret")].
Definition syscall_readlink := SYSCALL_MACRO "READLINK" "readlink" 89 3 1 [(TPtr (TConst TChar), "path"); (TPtr TChar,
  "buf"); (TInt, "bufsiz")] [(TLong, "ret")].
Definition syscall_chmod := SYSCALL_MACRO "CHMOD" "chmod" 90 2 1 [(TPtr (TConst TChar), "filename"); (umode_t,
  "mode")] [(TLong, "ret")].
Definition syscall_fchmod := SYSCALL_MACRO "FCHMOD" "fchmod" 91 2 1 [(TUInt, "fd"); (umode_t, "mode")] [(TLong,
  "ret")].
Definition syscall_chown := SYSCALL_MACRO "CHOWN" "chown" 92 3 1 [(TPtr (TConst TChar), "filename"); (uid_t, "user");
  (gid_t, "group")] [(TLong, "ret")].
Definition syscall_fchown := SYSCALL_MACRO "FCHOWN" "fchown" 93 3 1 [(TUInt, "fd"); (uid_t, "user"); (gid_t, "group")]
  [(TLong, "ret")].
Definition syscall_lchown := SYSCALL_MACRO "LCHOWN" "lchown" 94 3 1 [(TPtr (TConst TChar), "filename"); (uid_t,
  "user"); (gid_t, "group")] [(TLong, "ret")].
Definition syscall_umask := SYSCALL_MACRO "UMASK" "umask" 95 1 1 [(TInt, "mask")] [(TLong, "ret")].
Definition syscall_gettimeofday := SYSCALL_MACRO "GETTIMEOFDAY" "gettimeofday" 96 2 1 [(TPtr (TStruct
  "__kernel_old_timeval"), "tv"); (TPtr (TStruct "timezone"), "tz")] [(TLong, "ret")].
Definition syscall_getrlimit := SYSCALL_MACRO "GETRLIMIT" "getrlimit" 97 2 1 [(TUInt, "resource"); (TPtr (TStruct
  "rlimit"), "rlim")] [(TLong, "ret")].
Definition syscall_getrusage := SYSCALL_MACRO "GETRUSAGE" "getrusage" 98 2 1 [(TInt, "who"); (TPtr (TStruct "rusage"),
  "ru")] [(TLong, "ret")].
Definition syscall_sysinfo := SYSCALL_MACRO "SYSINFO" "sysinfo" 99 1 1 [(TPtr (TStruct "sysinfo"), "info")] [(TLong,
  "ret")].
Definition syscall_times := SYSCALL_MACRO "TIMES" "times" 100 1 1 [(TPtr (TStruct "tms"), "tbuf")] [(TLong, "ret")].
Definition syscall_ptrace := SYSCALL_MACRO "PTRACE" "ptrace" 101 4 1 [(TLong, "request"); (TLong, "pid"); (TULong,
  "addr"); (TULong, "data")] [(TLong, "ret")].
Definition syscall_getuid := SYSCALL_MACRO "GETUID" "getuid" 102 0 1 [] [(TLong, "ret")].
Definition syscall_syslog := SYSCALL_MACRO "SYSLOG" "syslog" 103 3 1 [(TInt, "type"); (TPtr TChar, "buf"); (TInt,
  "len")] [(TLong, "ret")].
Definition syscall_getgid := SYSCALL_MACRO "GETGID" "getgid" 104 0 1 [] [(TLong, "ret")].
Definition syscall_setuid := SYSCALL_MACRO "SETUID" "setuid" 105 1 1 [(uid_t, "uid")] [(TLong, "ret")].
Definition syscall_setgid := SYSCALL_MACRO "SETGID" "setgid" 106 1 1 [(gid_t, "gid")] [(TLong, "ret")].
Definition syscall_geteuid := SYSCALL_MACRO "GETEUID" "geteuid" 107 0 1 [] [(TLong, "ret")].
Definition syscall_getegid := SYSCALL_MACRO "GETEGID" "getegid" 108 0 1 [] [(TLong, "ret")].
Definition syscall_setpgid := SYSCALL_MACRO "SETPGID" "setpgid" 109 2 1 [(pid_t, "pid"); (pid_t, "pgid")] [(TLong,
  "ret")].
Definition syscall_getppid := SYSCALL_MACRO "GETPPID" "getppid" 110 0 1 [] [(TLong, "ret")].
Definition syscall_getpgrp := SYSCALL_MACRO "GETPGRP" "getpgrp" 111 0 1 [] [(TLong, "ret")].
Definition syscall_setsid := SYSCALL_MACRO "SETSID" "setsid" 112 0 1 [] [(TLong, "ret")].
Definition syscall_setreuid := SYSCALL_MACRO "SETREUID" "setreuid" 113 2 1 [(uid_t, "ruid"); (uid_t, "euid")] [(TLong,
  "ret")].
Definition syscall_setregid := SYSCALL_MACRO "SETREGID" "setregid" 114 2 1 [(gid_t, "rgid"); (gid_t, "egid")] [(TLong,
  "ret")].
Definition syscall_getgroups := SYSCALL_MACRO "GETGROUPS" "getgroups" 115 2 1 [(TInt, "gidsetsize"); (TPtr gid_t,
  "grouplist")] [(TLong, "ret")].
Definition syscall_setgroups := SYSCALL_MACRO "SETGROUPS" "setgroups" 116 2 1 [(TInt, "gidsetsize"); (TPtr gid_t,
  "grouplist")] [(TLong, "ret")].
Definition syscall_setresuid := SYSCALL_MACRO "SETRESUID" "setresuid" 117 3 1 [(uid_t, "ruid"); (uid_t, "euid");
  (uid_t, "suid")] [(TLong, "ret")].
Definition syscall_getresuid := SYSCALL_MACRO "GETRESUID" "getresuid" 118 3 1 [(TPtr uid_t, "ruidp"); (TPtr uid_t,
  "euidp"); (TPtr uid_t, "suidp")] [(TLong, "ret")].
Definition syscall_setresgid := SYSCALL_MACRO "SETRESGID" "setresgid" 119 3 1 [(gid_t, "rgid"); (gid_t, "egid");
  (gid_t, "sgid")] [(TLong, "ret")].
Definition syscall_getresgid := SYSCALL_MACRO "GETRESGID" "getresgid" 120 3 1 [(TPtr gid_t, "rgidp"); (TPtr gid_t,
  "egidp"); (TPtr gid_t, "sgidp")] [(TLong, "ret")].
Definition syscall_getpgid := SYSCALL_MACRO "GETPGID" "getpgid" 121 1 1 [(pid_t, "pid")] [(TLong, "ret")].
Definition syscall_setfsuid := SYSCALL_MACRO "SETFSUID" "setfsuid" 122 1 1 [(uid_t, "uid")] [(TLong, "ret")].
Definition syscall_setfsgid := SYSCALL_MACRO "SETFSGID" "setfsgid" 123 1 1 [(gid_t, "gid")] [(TLong, "ret")].
Definition syscall_getsid := SYSCALL_MACRO "GETSID" "getsid" 124 1 1 [(pid_t, "pid")] [(TLong, "ret")].
Definition syscall_capget := SYSCALL_MACRO "CAPGET" "capget" 125 2 1 [(cap_user_header_t, "header"); (cap_user_data_t,
  "dataptr")] [(TLong, "ret")].
Definition syscall_capset := SYSCALL_MACRO "CAPSET" "capset" 126 2 1 [(cap_user_header_t, "header"); (TConst
  cap_user_data_t, "data")] [(TLong, "ret")].
Definition syscall_rt_sigpending := SYSCALL_MACRO "RT_SIGPENDING" "rt_sigpending" 127 2 1 [(TPtr (TStruct "sigset_t"),
  "uset"); (size_t, "sigsetsize")] [(TLong, "ret")].
Definition syscall_rt_sigtimedwait := SYSCALL_MACRO "RT_SIGTIMEDWAIT" "rt_sigtimedwait" 128 4 1 [(TPtr (TConst
  (TStruct "sigset_t")), "uthese"); (TPtr siginfo_t, "uinfo"); (TPtr (TConst (TStruct "__kernel_timespec")), "uts");
  (size_t, "sigsetsize")] [(TLong, "ret")].
Definition syscall_rt_sigqueueinfo := SYSCALL_MACRO "RT_SIGQUEUEINFO" "rt_sigqueueinfo" 129 3 1 [(pid_t, "pid");
  (TInt, "sig"); (TPtr siginfo_t, "uinfo")] [(TLong, "ret")].
Definition syscall_rt_sigsuspend := SYSCALL_MACRO "RT_SIGSUSPEND" "rt_sigsuspend" 130 2 1 [(TPtr (TStruct "sigset_t"),
  "unewset"); (size_t, "sigsetsize")] [(TLong, "ret")].
Definition syscall_sigaltstack := SYSCALL_MACRO "SIGALTSTACK" "sigaltstack" 131 2 1 [(TPtr (TConst stack_t), "uss");
  (TPtr stack_t, "uoss")] [(TLong, "ret")].
Definition syscall_utime := SYSCALL_MACRO "UTIME" "utime" 132 2 1 [(TPtr TChar, "filename"); (TPtr (TStruct
  "utimbuf"), "times")] [(TLong, "ret")].
Definition syscall_mknod := SYSCALL_MACRO "MKNOD" "mknod" 133 3 1 [(TPtr (TConst TChar), "filename"); (umode_t,
  "mode"); (TUInt, "dev")] [(TLong, "ret")].
Definition syscall_uselib := SYSCALL_MACRO "USELIB" "uselib" 134 1 1 [(TPtr (TConst TChar), "library")] [(TLong,
  "ret")].
Definition syscall_personality := SYSCALL_MACRO "PERSONALITY" "personality" 135 1 1 [(TUInt, "personality")] [(TLong,
  "ret")].
Definition syscall_ustat := SYSCALL_MACRO "USTAT" "ustat" 136 2 1 [(TUInt, "dev"); (TPtr (TStruct "ustat"), "ubuf")]
  [(TLong, "ret")].
Definition syscall_statfs := SYSCALL_MACRO "STATFS" "statfs" 137 2 1 [(TPtr (TConst TChar), "pathname"); (TPtr
  (TStruct "statfs"), "buf")] [(TLong, "ret")].
Definition syscall_fstatfs := SYSCALL_MACRO "FSTATFS" "fstatfs" 138 2 1 [(TUInt, "fd"); (TPtr (TStruct "statfs"),
  "buf")] [(TLong, "ret")].
Definition syscall_sysfs := SYSCALL_MACRO "SYSFS" "sysfs" 139 3 1 [(TInt, "option"); (TULong, "arg1"); (TULong,
  "arg2")] [(TLong, "ret")].
Definition syscall_getpriority := SYSCALL_MACRO "GETPRIORITY" "getpriority" 140 2 1 [(TInt, "which"); (TInt, "who")]
  [(TLong, "ret")].
Definition syscall_setpriority := SYSCALL_MACRO "SETPRIORITY" "setpriority" 141 3 1 [(TInt, "which"); (TInt, "who");
  (TInt, "niceval")] [(TLong, "ret")].
Definition syscall_sched_setparam := SYSCALL_MACRO "SCHED_SETPARAM" "sched_setparam" 142 2 1 [(pid_t, "pid"); (TPtr
  (TStruct "sched_param"), "param")] [(TLong, "ret")].
Definition syscall_sched_getparam := SYSCALL_MACRO "SCHED_GETPARAM" "sched_getparam" 143 2 1 [(pid_t, "pid"); (TPtr
  (TStruct "sched_param"), "param")] [(TLong, "ret")].
Definition syscall_sched_setscheduler := SYSCALL_MACRO "SCHED_SETSCHEDULER" "sched_setscheduler" 144 3 1 [(pid_t,
  "pid"); (TInt, "policy"); (TPtr (TStruct "sched_param"), "param")] [(TLong, "ret")].
Definition syscall_sched_getscheduler := SYSCALL_MACRO "SCHED_GETSCHEDULER" "sched_getscheduler" 145 1 1 [(pid_t,
  "pid")] [(TLong, "ret")].
Definition syscall_sched_get_priority_max := SYSCALL_MACRO "SCHED_GET_PRIORITY_MAX" "sched_get_priority_max" 146 1 1
  [(TInt, "policy")] [(TLong, "ret")].
Definition syscall_sched_get_priority_min := SYSCALL_MACRO "SCHED_GET_PRIORITY_MIN" "sched_get_priority_min" 147 1 1
  [(TInt, "policy")] [(TLong, "ret")].
Definition syscall_sched_rr_get_interval := SYSCALL_MACRO "SCHED_RR_GET_INTERVAL" "sched_rr_get_interval" 148 2 1
  [(pid_t, "pid"); (TPtr (TStruct "__kernel_timespec"), "interval")] [(TLong, "ret")].
Definition syscall_mlock := SYSCALL_MACRO "MLOCK" "mlock" 149 2 1 [(TULong, "start"); (size_t, "len")] [(TLong,
  "ret")].
Definition syscall_munlock := SYSCALL_MACRO "MUNLOCK" "munlock" 150 2 1 [(TULong, "start"); (size_t, "len")] [(TLong,
  "ret")].
Definition syscall_mlockall := SYSCALL_MACRO "MLOCKALL" "mlockall" 151 1 1 [(TInt, "flags")] [(TLong, "ret")].
Definition syscall_munlockall := SYSCALL_MACRO "MUNLOCKALL" "munlockall" 152 0 1 [] [(TLong, "ret")].
Definition syscall_vhangup := SYSCALL_MACRO "VHANGUP" "vhangup" 153 0 1 [] [(TLong, "ret")].
Definition syscall_modify_ldt := SYSCALL_MACRO "MODIFY_LDT" "modify_ldt" 154 3 1 [(TInt, "func"); (TPtr TVoid, "ptr");
  (TULong, "bytecount")] [(TLong, "ret")].
Definition syscall_pivot_root := SYSCALL_MACRO "PIVOT_ROOT" "pivot_root" 155 2 1 [(TPtr (TConst TChar), "new_root");
  (TPtr (TConst TChar), "put_old")] [(TLong, "ret")].
Definition syscall__sysctl := SYSCALL_MACRO "_SYSCTL" "_sysctl" 156 1 1 [(TPtr (TStruct "__sysctl_args"), "args")]
  [(TLong, "ret")].
Definition syscall_prctl := SYSCALL_MACRO "PRCTL" "prctl" 157 5 1 [(TInt, "option"); (TULong, "arg2"); (TULong,
  "arg3"); (TULong, "arg4"); (TULong, "arg5")] [(TLong, "ret")].
Definition syscall_arch_prctl := SYSCALL_MACRO "ARCH_PRCTL" "arch_prctl" 158 2 1 [(TInt, "option"); (TULong, "arg2")]
  [(TLong, "ret")].
Definition syscall_adjtimex := SYSCALL_MACRO "ADJTIMEX" "adjtimex" 159 1 1 [(TPtr (TStruct "__kernel_timex"),
  "txc_p")] [(TLong, "ret")].
Definition syscall_setrlimit := SYSCALL_MACRO "SETRLIMIT" "setrlimit" 160 2 1 [(TUInt, "resource"); (TPtr (TStruct
  "rlimit"), "rlim")] [(TLong, "ret")].
Definition syscall_chroot := SYSCALL_MACRO "CHROOT" "chroot" 161 1 1 [(TPtr (TConst TChar), "filename")] [(TLong,
  "ret")].
Definition syscall_sync := SYSCALL_MACRO "SYNC" "sync" 162 0 1 [] [(TLong, "ret")].
Definition syscall_acct := SYSCALL_MACRO "ACCT" "acct" 163 1 1 [(TPtr (TConst TChar), "name")] [(TLong, "ret")].
Definition syscall_settimeofday := SYSCALL_MACRO "SETTIMEOFDAY" "settimeofday" 164 2 1 [(TPtr (TStruct
  "__kernel_old_timeval"), "tv"); (TPtr (TStruct "timezone"), "tz")] [(TLong, "ret")].
Definition syscall_mount := SYSCALL_MACRO "MOUNT" "mount" 165 5 1 [(TPtr TChar, "dev_name"); (TPtr TChar, "dir_name");
  (TPtr TChar, "type"); (TULong, "flags"); (TPtr TVoid, "data")] [(TLong, "ret")].
Definition syscall_umount2 := SYSCALL_MACRO "UMOUNT2" "umount2" 166 2 1 [(TPtr (TConst TChar), "target"); (TInt,
  "flags")] [(TLong, "ret")].
Definition syscall_swapon := SYSCALL_MACRO "SWAPON" "swapon" 167 2 1 [(TPtr (TConst TChar), "specialfile"); (TInt,
  "swap_flags")] [(TLong, "ret")].
Definition syscall_swapoff := SYSCALL_MACRO "SWAPOFF" "swapoff" 168 1 1 [(TPtr (TConst TChar), "specialfile")]
  [(TLong, "ret")].
Definition syscall_reboot := SYSCALL_MACRO "REBOOT" "reboot" 169 4 1 [(TInt, "magic1"); (TInt, "magic2"); (TUInt,
  "cmd"); (TPtr TVoid, "arg")] [(TLong, "ret")].
Definition syscall_sethostname := SYSCALL_MACRO "SETHOSTNAME" "sethostname" 170 2 1 [(TPtr TChar, "name"); (TInt,
  "len")] [(TLong, "ret")].
Definition syscall_setdomainname := SYSCALL_MACRO "SETDOMAINNAME" "setdomainname" 171 2 1 [(TPtr TChar, "name");
  (TInt, "len")] [(TLong, "ret")].
Definition syscall_iopl := SYSCALL_MACRO "IOPL" "iopl" 172 1 1 [(TUInt, "level")] [(TLong, "ret")].
Definition syscall_ioperm := SYSCALL_MACRO "IOPERM" "ioperm" 173 3 1 [(TULong, "from"); (TULong, "num"); (TInt,
  "turn_on")] [(TLong, "ret")].
Definition syscall_create_module := SYSCALL_MACRO "CREATE_MODULE" "create_module" 174 2 1 [(TPtr (TConst TChar),
  "name"); (size_t, "size")] [(TLong, "ret")].
Definition syscall_init_module := SYSCALL_MACRO "INIT_MODULE" "init_module" 175 3 1 [(TPtr TVoid, "umod"); (TULong,
  "len"); (TPtr (TConst TChar), "uargs")] [(TLong, "ret")].
Definition syscall_delete_module := SYSCALL_MACRO "DELETE_MODULE" "delete_module" 176 2 1 [(TPtr (TConst TChar),
  "name_user"); (TUInt, "flags")] [(TLong, "ret")].
Definition syscall_get_kernel_syms := SYSCALL_MACRO "GET_KERNEL_SYMS" "get_kernel_syms" 177 1 1 [(TPtr (TStruct
  "kernel_sym"), "table")] [(TLong, "ret")].
Definition syscall_query_module := SYSCALL_MACRO "QUERY_MODULE" "query_module" 178 5 1 [(TPtr (TConst TChar), "name");
  (TInt, "which"); (TPtr TVoid, "buf"); (size_t, "bufsize"); (TPtr size_t, "ret")] [(TLong, "ret")].
Definition syscall_quotactl := SYSCALL_MACRO "QUOTACTL" "quotactl" 179 4 1 [(TUInt, "cmd"); (TPtr (TConst TChar),
  "special"); (qid_t, "id"); (TPtr TVoid, "addr")] [(TLong, "ret")].
Definition syscall_nfsservctl := SYSCALL_MACRO "NFSSERVCTL" "nfsservctl" 180 3 1 [(TInt, "cmd"); (TPtr (TStruct
  "nfsctl_arg"), "argp"); (TPtr (TStruct "nfsctl_res"), "resp")] [(TLong, "ret")].
Definition syscall_gettid := SYSCALL_MACRO "GETTID" "gettid" 186 0 1 [] [(TLong, "ret")].
Definition syscall_readahead := SYSCALL_MACRO "READAHEAD" "readahead" 187 3 1 [(TInt, "fd"); (loff_t, "offset");
  (size_t, "count")] [(TLong, "ret")].
Definition syscall_setxattr := SYSCALL_MACRO "SETXATTR" "setxattr" 188 5 1 [(TPtr (TConst TChar), "pathname"); (TPtr
  (TConst TChar), "name"); (TPtr (TConst TVoid), "value"); (size_t, "size"); (TInt, "flags")] [(TLong, "ret")].
Definition syscall_lsetxattr := SYSCALL_MACRO "LSETXATTR" "lsetxattr" 189 5 1 [(TPtr (TConst TChar), "pathname");
  (TPtr (TConst TChar), "name"); (TPtr (TConst TVoid), "value"); (size_t, "size"); (TInt, "flags")] [(TLong, "ret")].
Definition syscall_fsetxattr := SYSCALL_MACRO "FSETXATTR" "fsetxattr" 190 5 1 [(TInt, "fd"); (TPtr (TConst TChar),
  "name"); (TPtr (TConst TVoid), "value"); (size_t, "size"); (TInt, "flags")] [(TLong, "ret")].
Definition syscall_getxattr := SYSCALL_MACRO "GETXATTR" "getxattr" 191 4 1 [(TPtr (TConst TChar), "pathname"); (TPtr
  (TConst TChar), "name"); (TPtr TVoid, "value"); (size_t, "size")] [(TLong, "ret")].
Definition syscall_lgetxattr := SYSCALL_MACRO "LGETXATTR" "lgetxattr" 192 4 1 [(TPtr (TConst TChar), "pathname");
  (TPtr (TConst TChar), "name"); (TPtr TVoid, "value"); (size_t, "size")] [(TLong, "ret")].
Definition syscall_fgetxattr := SYSCALL_MACRO "FGETXATTR" "fgetxattr" 193 4 1 [(TInt, "fd"); (TPtr (TConst TChar),
  "name"); (TPtr TVoid, "value"); (size_t, "size")] [(TLong, "ret")].
Definition syscall_listxattr := SYSCALL_MACRO "LISTXATTR" "listxattr" 194 3 1 [(TPtr (TConst TChar), "pathname");
  (TPtr TChar, "list"); (size_t, "size")] [(TLong, "ret")].
Definition syscall_llistxattr := SYSCALL_MACRO "LLISTXATTR" "llistxattr" 195 3 1 [(TPtr (TConst TChar), "pathname");
  (TPtr TChar, "list"); (size_t, "size")] [(TLong, "ret")].
Definition syscall_flistxattr := SYSCALL_MACRO "FLISTXATTR" "flistxattr" 196 3 1 [(TInt, "fd"); (TPtr TChar, "list");
  (size_t, "size")] [(TLong, "ret")].
Definition syscall_removexattr := SYSCALL_MACRO "REMOVEXATTR" "removexattr" 197 2 1 [(TPtr (TConst TChar),
  "pathname"); (TPtr (TConst TChar), "name")] [(TLong, "ret")].
Definition syscall_lremovexattr := SYSCALL_MACRO "LREMOVEXATTR" "lremovexattr" 198 2 1 [(TPtr (TConst TChar),
  "pathname"); (TPtr (TConst TChar), "name")] [(TLong, "ret")].
Definition syscall_fremovexattr := SYSCALL_MACRO "FREMOVEXATTR" "fremovexattr" 199 2 1 [(TInt, "fd"); (TPtr (TConst
  TChar), "name")] [(TLong, "ret")].
Definition syscall_tkill := SYSCALL_MACRO "TKILL" "tkill" 200 2 1 [(pid_t, "pid"); (TInt, "sig")] [(TLong, "ret")].
Definition syscall_time := SYSCALL_MACRO "TIME" "time" 201 1 1 [(TPtr __kernel_old_time_t, "tloc")] [(TLong, "ret")].
Definition syscall_futex := SYSCALL_MACRO "FUTEX" "futex" 202 6 1 [(TPtr u32, "uaddr"); (TInt, "op"); (u32, "val");
  (TPtr (TConst (TStruct "__kernel_timespec")), "utime"); (TPtr u32, "uaddr2"); (u32, "val3")] [(TLong, "ret")].
Definition syscall_sched_setaffinity := SYSCALL_MACRO "SCHED_SETAFFINITY" "sched_setaffinity" 203 3 1 [(pid_t, "pid");
  (TUInt, "len"); (TPtr TULong, "user_mask_ptr")] [(TLong, "ret")].
Definition syscall_sched_getaffinity := SYSCALL_MACRO "SCHED_GETAFFINITY" "sched_getaffinity" 204 3 1 [(pid_t, "pid");
  (TUInt, "len"); (TPtr TULong, "user_mask_ptr")] [(TLong, "ret")].
Definition syscall_set_thread_area := SYSCALL_MACRO "SET_THREAD_AREA" "set_thread_area" 205 1 1 [(TPtr (TStruct
  "user_desc"), "u_info")] [(TLong, "ret")].
Definition syscall_io_setup := SYSCALL_MACRO "IO_SETUP" "io_setup" 206 2 1 [(TUInt, "nr_events"); (TPtr aio_context_t,
  "ctxp")] [(TLong, "ret")].
Definition syscall_io_destroy := SYSCALL_MACRO "IO_DESTROY" "io_destroy" 207 1 1 [(aio_context_t, "ctx")] [(TLong,
  "ret")].
Definition syscall_io_getevents := SYSCALL_MACRO "IO_GETEVENTS" "io_getevents" 208 5 1 [(aio_context_t, "ctx_id");
  (TLong, "min_nr"); (TLong, "nr"); (TPtr (TStruct "io_event"), "events"); (TPtr (TStruct "__kernel_timespec"),
  "timeout")] [(TLong, "ret")].
Definition syscall_io_submit := SYSCALL_MACRO "IO_SUBMIT" "io_submit" 209 3 1 [(aio_context_t, "ctx_id"); (TLong,
  "nr"); (TPtr (TPtr (TStruct "iocb")), "iocbpp")] [(TLong, "ret")].
Definition syscall_io_cancel := SYSCALL_MACRO "IO_CANCEL" "io_cancel" 210 3 1 [(aio_context_t, "ctx_id"); (TPtr
  (TStruct "iocb"), "iocb"); (TPtr (TStruct "io_event"), "result")] [(TLong, "ret")].
Definition syscall_get_thread_area := SYSCALL_MACRO "GET_THREAD_AREA" "get_thread_area" 211 1 1 [(TPtr (TStruct
  "user_desc"), "u_info")] [(TLong, "ret")].
Definition syscall_lookup_dcookie := SYSCALL_MACRO "LOOKUP_DCOOKIE" "lookup_dcookie" 212 3 1 [(uint64_t, "cookie");
  (TPtr TChar, "buffer"); (size_t, "len")] [(TLong, "ret")].
Definition syscall_epoll_create := SYSCALL_MACRO "EPOLL_CREATE" "epoll_create" 213 1 1 [(TInt, "size")] [(TLong,
  "ret")].
Definition syscall_remap_file_pages := SYSCALL_MACRO "REMAP_FILE_PAGES" "remap_file_pages" 216 5 1 [(TULong, "start");
  (TULong, "size"); (TULong, "prot"); (TULong, "pgoff"); (TULong, "flags")] [(TLong, "ret")].
Definition syscall_getdents64 := SYSCALL_MACRO "GETDENTS64" "getdents64" 217 3 1 [(TUInt, "fd"); (TPtr (TStruct
  "linux_dirent64"), "dirent"); (TUInt, "count")] [(TLong, "ret")].
Definition syscall_set_tid_address := SYSCALL_MACRO "SET_TID_ADDRESS" "set_tid_address" 218 1 1 [(TPtr TInt,
  "tidptr")] [(TLong, "ret")].
Definition syscall_restart_syscall := SYSCALL_MACRO "RESTART_SYSCALL" "restart_syscall" 219 0 1 [] [(TLong, "ret")].
Definition syscall_semtimedop := SYSCALL_MACRO "SEMTIMEDOP" "semtimedop" 220 4 1 [(TInt, "semid"); (TPtr (TStruct
  "sembuf"), "tsops"); (TUInt, "nsops"); (TPtr (TConst (TStruct "__kernel_timespec")), "timeout")] [(TLong, "ret")].
Definition syscall_fadvise64 := SYSCALL_MACRO "FADVISE64" "fadvise64" 221 4 1 [(TInt, "fd"); (loff_t, "offset");
  (size_t, "len"); (TInt, "advice")] [(TLong, "ret")].
Definition syscall_timer_create := SYSCALL_MACRO "TIMER_CREATE" "timer_create" 222 3 1 [(TConst clockid_t,
  "which_clock"); (TPtr (TStruct "sigevent"), "timer_event_spec"); (TPtr timer_t, "created_timer_id")] [(TLong,
  "ret")].
Definition syscall_timer_settime := SYSCALL_MACRO "TIMER_SETTIME" "timer_settime" 223 4 1 [(timer_t, "timer_id");
  (TInt, "flags"); (TPtr (TConst (TStruct "__kernel_itimerspec")), "new_setting"); (TPtr (TStruct
  "__kernel_itimerspec"), "old_setting")] [(TLong, "ret")].
Definition syscall_timer_gettime := SYSCALL_MACRO "TIMER_GETTIME" "timer_gettime" 224 2 1 [(timer_t, "timer_id");
  (TPtr (TStruct "__kernel_itimerspec"), "setting")] [(TLong, "ret")].
Definition syscall_timer_getoverrun := SYSCALL_MACRO "TIMER_GETOVERRUN" "timer_getoverrun" 225 1 1 [(timer_t,
  "timer_id")] [(TLong, "ret")].
Definition syscall_timer_delete := SYSCALL_MACRO "TIMER_DELETE" "timer_delete" 226 1 1 [(timer_t, "timer_id")]
  [(TLong, "ret")].
Definition syscall_clock_settime := SYSCALL_MACRO "CLOCK_SETTIME" "clock_settime" 227 2 1 [(TConst clockid_t,
  "which_clock"); (TPtr (TConst (TStruct "__kernel_timespec")), "tp")] [(TLong, "ret")].
Definition syscall_clock_gettime := SYSCALL_MACRO "CLOCK_GETTIME" "clock_gettime" 228 2 1 [(TConst clockid_t,
  "which_clock"); (TPtr (TStruct "__kernel_timespec"), "tp")] [(TLong, "ret")].
Definition syscall_clock_getres := SYSCALL_MACRO "CLOCK_GETRES" "clock_getres" 229 2 1 [(TConst clockid_t,
  "which_clock"); (TPtr (TStruct "__kernel_timespec"), "tp")] [(TLong, "ret")].
Definition syscall_clock_nanosleep := SYSCALL_MACRO "CLOCK_NANOSLEEP" "clock_nanosleep" 230 4 1 [(TConst clockid_t,
  "which_clock"); (TInt, "flags"); (TPtr (TConst (TStruct "__kernel_timespec")), "rqtp"); (TPtr (TStruct
  "__kernel_timespec"), "rmtp")] [(TLong, "ret")].
Definition syscall_exit_group := SYSCALL_MACRO "EXIT_GROUP" "exit_group" 231 1 1 [(TInt, "error_code")] [(TLong,
  "ret")].
Definition syscall_epoll_wait := SYSCALL_MACRO "EPOLL_WAIT" "epoll_wait" 232 4 1 [(TInt, "epfd"); (TPtr (TStruct
  "epoll_event"), "events"); (TInt, "maxevents"); (TInt, "timeout")] [(TLong, "ret")].
Definition syscall_epoll_ctl := SYSCALL_MACRO "EPOLL_CTL" "epoll_ctl" 233 4 1 [(TInt, "epfd"); (TInt, "op"); (TInt,
  "fd"); (TPtr (TStruct "epoll_event"), "event")] [(TLong, "ret")].
Definition syscall_tgkill := SYSCALL_MACRO "TGKILL" "tgkill" 234 3 1 [(pid_t, "tgid"); (pid_t, "pid"); (TInt, "sig")]
  [(TLong, "ret")].
Definition syscall_utimes := SYSCALL_MACRO "UTIMES" "utimes" 235 2 1 [(TPtr TChar, "filename"); (TPtr (TStruct
  "__kernel_old_timeval"), "utimes")] [(TLong, "ret")].
Definition syscall_mbind := SYSCALL_MACRO "MBIND" "mbind" 237 6 1 [(TULong, "start"); (TULong, "len"); (TULong,
  "mode"); (TPtr (TConst TULong), "nmask"); (TULong, "maxnode"); (TUInt, "flags")] [(TLong, "ret")].
Definition syscall_set_mempolicy := SYSCALL_MACRO "SET_MEMPOLICY" "set_mempolicy" 238 3 1 [(TInt, "mode"); (TPtr
  (TConst TULong), "nmask"); (TULong, "maxnode")] [(TLong, "ret")].
Definition syscall_get_mempolicy := SYSCALL_MACRO "GET_MEMPOLICY" "get_mempolicy" 239 5 1 [(TPtr TInt, "policy");
  (TPtr TULong, "nmask"); (TULong, "maxnode"); (TULong, "addr"); (TULong, "flags")] [(TLong, "ret")].
Definition syscall_mq_open := SYSCALL_MACRO "MQ_OPEN" "mq_open" 240 4 1 [(TPtr (TConst TChar), "u_name"); (TInt,
  "oflag"); (umode_t, "mode"); (TPtr (TStruct "mq_attr"), "u_attr")] [(TLong, "ret")].
Definition syscall_mq_unlink := SYSCALL_MACRO "MQ_UNLINK" "mq_unlink" 241 1 1 [(TPtr (TConst TChar), "u_name")]
  [(TLong, "ret")].
Definition syscall_mq_timedsend := SYSCALL_MACRO "MQ_TIMEDSEND" "mq_timedsend" 242 5 1 [(mqd_t, "mqdes"); (TPtr
  (TConst TChar), "u_msg_ptr"); (size_t, "msg_len"); (TUInt, "msg_prio"); (TPtr (TConst (TStruct
  "__kernel_timespec")), "u_abs_timeout")] [(TLong, "ret")].
Definition syscall_mq_timedreceive := SYSCALL_MACRO "MQ_TIMEDRECEIVE" "mq_timedreceive" 243 5 1 [(mqd_t, "mqdes");
  (TPtr TChar, "u_msg_ptr"); (size_t, "msg_len"); (TPtr TUInt, "u_msg_prio"); (TPtr (TConst (TStruct
  "__kernel_timespec")), "u_abs_timeout")] [(TLong, "ret")].
Definition syscall_mq_notify := SYSCALL_MACRO "MQ_NOTIFY" "mq_notify" 244 2 1 [(mqd_t, "mqdes"); (TPtr (TConst
  (TStruct "sigevent")), "u_notification")] [(TLong, "ret")].
Definition syscall_mq_getsetattr := SYSCALL_MACRO "MQ_GETSETATTR" "mq_getsetattr" 245 3 1 [(mqd_t, "mqdes"); (TPtr
  (TConst (TStruct "mq_attr")), "u_mqstat"); (TPtr (TStruct "mq_attr"), "u_omqstat")] [(TLong, "ret")].
Definition syscall_kexec_load := SYSCALL_MACRO "KEXEC_LOAD" "kexec_load" 246 4 1 [(TULong, "entry"); (TULong,
  "nr_segments"); (TPtr (TStruct "kexec_segment"), "segments"); (TULong, "flags")] [(TLong, "ret")].
Definition syscall_waitid := SYSCALL_MACRO "WAITID" "waitid" 247 5 1 [(TInt, "which"); (pid_t, "upid"); (TPtr (TStruct
  "siginfo"), "infop"); (TInt, "options"); (TPtr (TStruct "rusage"), "ru")] [(TLong, "ret")].
Definition syscall_add_key := SYSCALL_MACRO "ADD_KEY" "add_key" 248 5 1 [(TPtr (TConst TChar), "_type"); (TPtr (TConst
  TChar), "_description"); (TPtr (TConst TVoid), "_payload"); (size_t, "plen"); (key_serial_t, "ringid")] [(TLong,
  "ret")].
Definition syscall_request_key := SYSCALL_MACRO "REQUEST_KEY" "request_key" 249 4 1 [(TPtr (TConst TChar), "_type");
  (TPtr (TConst TChar), "_description"); (TPtr (TConst TChar), "_callout_info"); (key_serial_t, "destringid")]
  [(TLong, "ret")].
Definition syscall_keyctl := SYSCALL_MACRO "KEYCTL" "keyctl" 250 5 1 [(TInt, "option"); (TULong, "arg2"); (TULong,
  "arg3"); (TULong, "arg4"); (TULong, "arg5")] [(TLong, "ret")].
Definition syscall_ioprio_set := SYSCALL_MACRO "IOPRIO_SET" "ioprio_set" 251 3 1 [(TInt, "which"); (TInt, "who");
  (TInt, "ioprio")] [(TLong, "ret")].
Definition syscall_ioprio_get := SYSCALL_MACRO "IOPRIO_GET" "ioprio_get" 252 2 1 [(TInt, "which"); (TInt, "who")]
  [(TLong, "ret")].
Definition syscall_inotify_init := SYSCALL_MACRO "INOTIFY_INIT" "inotify_init" 253 0 1 [] [(TLong, "ret")].
Definition syscall_inotify_add_watch := SYSCALL_MACRO "INOTIFY_ADD_WATCH" "inotify_add_watch" 254 3 1 [(TInt, "fd");
  (TPtr (TConst TChar), "pathname"); (u32, "mask")] [(TLong, "ret")].
Definition syscall_inotify_rm_watch := SYSCALL_MACRO "INOTIFY_RM_WATCH" "inotify_rm_watch" 255 2 1 [(TInt, "fd");
  (__s32, "wd")] [(TLong, "ret")].
Definition syscall_migrate_pages := SYSCALL_MACRO "MIGRATE_PAGES" "migrate_pages" 256 4 1 [(pid_t, "pid"); (TULong,
  "maxnode"); (TPtr (TConst TULong), "old_nodes"); (TPtr (TConst TULong), "new_nodes")] [(TLong, "ret")].
Definition syscall_openat := SYSCALL_MACRO "OPENAT" "openat" 257 4 1 [(TInt, "dfd"); (TPtr (TConst TChar),
  "filename"); (TInt, "flags"); (umode_t, "mode")] [(TLong, "ret")].
Definition syscall_mkdirat := SYSCALL_MACRO "MKDIRAT" "mkdirat" 258 3 1 [(TInt, "dfd"); (TPtr (TConst TChar),
  "pathname"); (umode_t, "mode")] [(TLong, "ret")].
Definition syscall_mknodat := SYSCALL_MACRO "MKNODAT" "mknodat" 259 4 1 [(TInt, "dfd"); (TPtr (TConst TChar),
  "filename"); (umode_t, "mode"); (TUInt, "dev")] [(TLong, "ret")].
Definition syscall_fchownat := SYSCALL_MACRO "FCHOWNAT" "fchownat" 260 5 1 [(TInt, "dfd"); (TPtr (TConst TChar),
  "filename"); (uid_t, "user"); (gid_t, "group"); (TInt, "flag")] [(TLong, "ret")].
Definition syscall_futimesat := SYSCALL_MACRO "FUTIMESAT" "futimesat" 261 3 1 [(TInt, "dfd"); (TPtr (TConst TChar),
  "filename"); (TPtr (TStruct "__kernel_old_timeval"), "utimes")] [(TLong, "ret")].
Definition syscall_newfstatat := SYSCALL_MACRO "NEWFSTATAT" "newfstatat" 262 4 1 [(TInt, "dfd"); (TPtr (TConst TChar),
  "filename"); (TPtr (TStruct "stat"), "statbuf"); (TInt, "flag")] [(TLong, "ret")].
Definition syscall_unlinkat := SYSCALL_MACRO "UNLINKAT" "unlinkat" 263 3 1 [(TInt, "dfd"); (TPtr (TConst TChar),
  "pathname"); (TInt, "flag")] [(TLong, "ret")].
Definition syscall_renameat := SYSCALL_MACRO "RENAMEAT" "renameat" 264 4 1 [(TInt, "olddfd"); (TPtr (TConst TChar),
  "oldname"); (TInt, "newdfd"); (TPtr (TConst TChar), "newname")] [(TLong, "ret")].
Definition syscall_linkat := SYSCALL_MACRO "LINKAT" "linkat" 265 5 1 [(TInt, "olddfd"); (TPtr (TConst TChar),
  "oldname"); (TInt, "newdfd"); (TPtr (TConst TChar), "newname"); (TInt, "flags")] [(TLong, "ret")].
Definition syscall_symlinkat := SYSCALL_MACRO "SYMLINKAT" "symlinkat" 266 3 1 [(TPtr (TConst TChar), "oldname");
  (TInt, "newdfd"); (TPtr (TConst TChar), "newname")] [(TLong, "ret")].
Definition syscall_readlinkat := SYSCALL_MACRO "READLINKAT" "readlinkat" 267 4 1 [(TInt, "dfd"); (TPtr (TConst TChar),
  "pathname"); (TPtr TChar, "buf"); (TInt, "bufsiz")] [(TLong, "ret")].
Definition syscall_fchmodat := SYSCALL_MACRO "FCHMODAT" "fchmodat" 268 3 1 [(TInt, "dfd"); (TPtr (TConst TChar),
  "filename"); (umode_t, "mode")] [(TLong, "ret")].
Definition syscall_faccessat := SYSCALL_MACRO "FACCESSAT" "faccessat" 269 3 1 [(TInt, "dfd"); (TPtr (TConst TChar),
  "filename"); (TInt, "mode")] [(TLong, "ret")].
Definition syscall_pselect6 := SYSCALL_MACRO "PSELECT6" "pselect6" 270 6 1 [(TInt, "n"); (TPtr fd_set, "inp"); (TPtr
  fd_set, "outp"); (TPtr fd_set, "exp"); (TPtr (TStruct "__kernel_timespec"), "tsp"); (TPtr TVoid, "sig")] [(TLong,
  "ret")].
Definition syscall_ppoll := SYSCALL_MACRO "PPOLL" "ppoll" 271 5 1 [(TPtr (TStruct "pollfd"), "ufds"); (TUInt, "nfds");
  (TPtr (TStruct "__kernel_timespec"), "tsp"); (TPtr (TConst (TStruct "sigset_t")), "sigmask"); (size_t,
  "sigsetsize")] [(TLong, "ret")].
Definition syscall_unshare := SYSCALL_MACRO "UNSHARE" "unshare" 272 1 1 [(TULong, "unshare_flags")] [(TLong, "ret")].
Definition syscall_set_robust_list := SYSCALL_MACRO "SET_ROBUST_LIST" "set_robust_list" 273 2 1 [(TPtr (TStruct
  "robust_list_head"), "head"); (size_t, "len")] [(TLong, "ret")].
Definition syscall_get_robust_list := SYSCALL_MACRO "GET_ROBUST_LIST" "get_robust_list" 274 3 1 [(TInt, "pid"); (TPtr
  (TPtr (TStruct "robust_list_head")), "head_ptr"); (TPtr size_t, "len_ptr")] [(TLong, "ret")].
Definition syscall_splice := SYSCALL_MACRO "SPLICE" "splice" 275 6 1 [(TInt, "fd_in"); (TPtr loff_t, "off_in"); (TInt,
  "fd_out"); (TPtr loff_t, "off_out"); (size_t, "len"); (TUInt, "flags")] [(TLong, "ret")].
Definition syscall_tee := SYSCALL_MACRO "TEE" "tee" 276 4 1 [(TInt, "fdin"); (TInt, "fdout"); (size_t, "len"); (TUInt,
  "flags")] [(TLong, "ret")].
Definition syscall_sync_file_range := SYSCALL_MACRO "SYNC_FILE_RANGE" "sync_file_range" 277 4 1 [(TInt, "fd");
  (loff_t, "offset"); (loff_t, "nbytes"); (TUInt, "flags")] [(TLong, "ret")].
Definition syscall_vmsplice := SYSCALL_MACRO "VMSPLICE" "vmsplice" 278 4 1 [(TInt, "fd"); (TPtr (TConst (TStruct
  "iovec")), "uiov"); (TULong, "nr_segs"); (TUInt, "flags")] [(TLong, "ret")].
Definition syscall_move_pages := SYSCALL_MACRO "MOVE_PAGES" "move_pages" 279 6 1 [(pid_t, "pid"); (TULong,
  "nr_pages"); (TPtr (TPtr (TConst TVoid)), "pages"); (TPtr (TConst TInt), "nodes"); (TPtr TInt, "status"); (TInt,
  "flags")] [(TLong, "ret")].
Definition syscall_utimensat := SYSCALL_MACRO "UTIMENSAT" "utimensat" 280 4 1 [(TInt, "dfd"); (TPtr (TConst TChar),
  "filename"); (TPtr (TStruct "__kernel_timespec"), "utimes"); (TInt, "flags")] [(TLong, "ret")].
Definition syscall_epoll_pwait := SYSCALL_MACRO "EPOLL_PWAIT" "epoll_pwait" 281 6 1 [(TInt, "epfd"); (TPtr (TStruct
  "epoll_event"), "events"); (TInt, "maxevents"); (TInt, "timeout"); (TPtr (TConst (TStruct "sigset_t")), "sigmask");
  (size_t, "sigsetsize")] [(TLong, "ret")].
Definition syscall_signalfd := SYSCALL_MACRO "SIGNALFD" "signalfd" 282 3 1 [(TInt, "ufd"); (TPtr (TStruct "sigset_t"),
  "user_mask"); (size_t, "sizemask")] [(TLong, "ret")].
Definition syscall_timerfd_create := SYSCALL_MACRO "TIMERFD_CREATE" "timerfd_create" 283 2 1 [(TInt, "clockid");
  (TInt, "flags")] [(TLong, "ret")].
Definition syscall_eventfd := SYSCALL_MACRO "EVENTFD" "eventfd" 284 1 1 [(TUInt, "count")] [(TLong, "ret")].
Definition syscall_fallocate := SYSCALL_MACRO "FALLOCATE" "fallocate" 285 4 1 [(TInt, "fd"); (TInt, "mode"); (loff_t,
  "offset"); (loff_t, "len")] [(TLong, "ret")].
Definition syscall_timerfd_settime := SYSCALL_MACRO "TIMERFD_SETTIME" "timerfd_settime" 286 4 1 [(TInt, "ufd"); (TInt,
  "flags"); (TPtr (TConst (TStruct "__kernel_itimerspec")), "utmr"); (TPtr (TStruct "__kernel_itimerspec"), "otmr")]
  [(TLong, "ret")].
Definition syscall_timerfd_gettime := SYSCALL_MACRO "TIMERFD_GETTIME" "timerfd_gettime" 287 2 1 [(TInt, "ufd"); (TPtr
  (TStruct "__kernel_itimerspec"), "otmr")] [(TLong, "ret")].
Definition syscall_accept4 := SYSCALL_MACRO "ACCEPT4" "accept4" 288 4 1 [(TInt, "fd"); (TPtr (TStruct "sockaddr"),
  "upeer_sockaddr"); (TPtr TInt, "upeer_addrlen"); (TInt, "flags")] [(TLong, "ret")].
Definition syscall_signalfd4 := SYSCALL_MACRO "SIGNALFD4" "signalfd4" 289 4 1 [(TInt, "ufd"); (TPtr (TStruct
  "sigset_t"), "user_mask"); (size_t, "sizemask"); (TInt, "flags")] [(TLong, "ret")].
Definition syscall_eventfd2 := SYSCALL_MACRO "EVENTFD2" "eventfd2" 290 2 1 [(TUInt, "count"); (TInt, "flags")]
  [(TLong, "ret")].
Definition syscall_epoll_create1 := SYSCALL_MACRO "EPOLL_CREATE1" "epoll_create1" 291 1 1 [(TInt, "flags")] [(TLong,
  "ret")].
Definition syscall_dup3 := SYSCALL_MACRO "DUP3" "dup3" 292 3 1 [(TUInt, "oldfd"); (TUInt, "newfd"); (TInt, "flags")]
  [(TLong, "ret")].
Definition syscall_pipe2 := SYSCALL_MACRO "PIPE2" "pipe2" 293 2 1 [(TPtr TInt, "fildes"); (TInt, "flags")] [(TLong,
  "ret")].
Definition syscall_inotify_init1 := SYSCALL_MACRO "INOTIFY_INIT1" "inotify_init1" 294 1 1 [(TInt, "flags")] [(TLong,
  "ret")].
Definition syscall_preadv := SYSCALL_MACRO "PREADV" "preadv" 295 5 1 [(TULong, "fd"); (TPtr (TConst (TStruct
  "iovec")), "vec"); (TULong, "vlen"); (TULong, "pos_l"); (TULong, "pos_h")] [(TLong, "ret")].
Definition syscall_pwritev := SYSCALL_MACRO "PWRITEV" "pwritev" 296 5 1 [(TULong, "fd"); (TPtr (TConst (TStruct
  "iovec")), "vec"); (TULong, "vlen"); (TULong, "pos_l"); (TULong, "pos_h")] [(TLong, "ret")].
Definition syscall_rt_tgsigqueueinfo := SYSCALL_MACRO "RT_TGSIGQUEUEINFO" "rt_tgsigqueueinfo" 297 4 1 [(pid_t,
  "tgid"); (pid_t, "pid"); (TInt, "sig"); (TPtr siginfo_t, "uinfo")] [(TLong, "ret")].
Definition syscall_perf_event_open := SYSCALL_MACRO "PERF_EVENT_OPEN" "perf_event_open" 298 5 1 [(TPtr (TStruct
  "perf_event_attr"), "attr_uptr"); (pid_t, "pid"); (TInt, "cpu"); (TInt, "group_fd"); (TULong, "flags")] [(TLong,
  "ret")].
Definition syscall_recvmmsg := SYSCALL_MACRO "RECVMMSG" "recvmmsg" 299 5 1 [(TInt, "fd"); (TPtr (TStruct "mmsghdr"),
  "mmsg"); (TUInt, "vlen"); (TUInt, "flags"); (TPtr (TStruct "__kernel_timespec"), "timeout")] [(TLong, "ret")].
Definition syscall_fanotify_init := SYSCALL_MACRO "FANOTIFY_INIT" "fanotify_init" 300 2 1 [(TUInt, "flags"); (TUInt,
  "event_f_flags")] [(TLong, "ret")].
Definition syscall_fanotify_mark := SYSCALL_MACRO "FANOTIFY_MARK" "fanotify_mark" 301 5 1 [(TInt, "fanotify_fd");
  (TUInt, "flags"); (__u64, "mask"); (TInt, "dfd"); (TPtr (TConst TChar), "pathname")] [(TLong, "ret")].
Definition syscall_prlimit64 := SYSCALL_MACRO "PRLIMIT64" "prlimit64" 302 4 1 [(pid_t, "pid"); (TUInt, "resource");
  (TPtr (TConst (TStruct "rlimit64")), "new_rlim"); (TPtr (TStruct "rlimit64"), "old_rlim")] [(TLong, "ret")].
Definition syscall_name_to_handle_at := SYSCALL_MACRO "NAME_TO_HANDLE_AT" "name_to_handle_at" 303 5 1 [(TInt, "dfd");
  (TPtr (TConst TChar), "name"); (TPtr (TStruct "file_handle"), "handle"); (TPtr TInt, "mnt_id"); (TInt, "flag")]
  [(TLong, "ret")].
Definition syscall_open_by_handle_at := SYSCALL_MACRO "OPEN_BY_HANDLE_AT" "open_by_handle_at" 304 3 1 [(TInt,
  "mountdirfd"); (TPtr (TStruct "file_handle"), "handle"); (TInt, "flags")] [(TLong, "ret")].
Definition syscall_clock_adjtime := SYSCALL_MACRO "CLOCK_ADJTIME" "clock_adjtime" 305 2 1 [(TConst clockid_t,
  "which_clock"); (TPtr (TStruct "__kernel_timex"), "utx")] [(TLong, "ret")].
Definition syscall_syncfs := SYSCALL_MACRO "SYNCFS" "syncfs" 306 1 1 [(TInt, "fd")] [(TLong, "ret")].
Definition syscall_sendmmsg := SYSCALL_MACRO "SENDMMSG" "sendmmsg" 307 4 1 [(TInt, "fd"); (TPtr (TStruct "mmsghdr"),
  "mmsg"); (TUInt, "vlen"); (TUInt, "flags")] [(TLong, "ret")].
Definition syscall_setns := SYSCALL_MACRO "SETNS" "setns" 308 2 1 [(TInt, "fd"); (TInt, "flags")] [(TLong, "ret")].
Definition syscall_getcpu := SYSCALL_MACRO "GETCPU" "getcpu" 309 3 1 [(TPtr TUInt, "cpup"); (TPtr TUInt, "nodep");
  (TPtr (TStruct "getcpu_cache"), "unused")] [(TLong, "ret")].
Definition syscall_process_vm_readv := SYSCALL_MACRO "PROCESS_VM_READV" "process_vm_readv" 310 6 1 [(pid_t, "pid");
  (TPtr (TConst (TStruct "iovec")), "lvec"); (TULong, "liovcnt"); (TPtr (TConst (TStruct "iovec")), "rvec"); (TULong,
  "riovcnt"); (TULong, "flags")] [(TLong, "ret")].
Definition syscall_process_vm_writev := SYSCALL_MACRO "PROCESS_VM_WRITEV" "process_vm_writev" 311 6 1 [(pid_t, "pid");
  (TPtr (TConst (TStruct "iovec")), "lvec"); (TULong, "liovcnt"); (TPtr (TConst (TStruct "iovec")), "rvec"); (TULong,
  "riovcnt"); (TULong, "flags")] [(TLong, "ret")].
Definition syscall_kcmp := SYSCALL_MACRO "KCMP" "kcmp" 312 5 1 [(pid_t, "pid1"); (pid_t, "pid2"); (TInt, "type");
  (TULong, "idx1"); (TULong, "idx2")] [(TLong, "ret")].
Definition syscall_finit_module := SYSCALL_MACRO "FINIT_MODULE" "finit_module" 313 3 1 [(TInt, "fd"); (TPtr (TConst
  TChar), "uargs"); (TInt, "flags")] [(TLong, "ret")].
Definition syscall_sched_setattr := SYSCALL_MACRO "SCHED_SETATTR" "sched_setattr" 314 3 1 [(pid_t, "pid"); (TPtr
  (TStruct "sched_attr"), "uattr"); (TUInt, "flags")] [(TLong, "ret")].
Definition syscall_sched_getattr := SYSCALL_MACRO "SCHED_GETATTR" "sched_getattr" 315 4 1 [(pid_t, "pid"); (TPtr
  (TStruct "sched_attr"), "uattr"); (TUInt, "usize"); (TUInt, "flags")] [(TLong, "ret")].
Definition syscall_renameat2 := SYSCALL_MACRO "RENAMEAT2" "renameat2" 316 5 1 [(TInt, "olddfd"); (TPtr (TConst TChar),
  "oldname"); (TInt, "newdfd"); (TPtr (TConst TChar), "newname"); (TUInt, "flags")] [(TLong, "ret")].
Definition syscall_seccomp := SYSCALL_MACRO "SECCOMP" "seccomp" 317 3 1 [(TUInt, "op"); (TUInt, "flags"); (TPtr TVoid,
  "uargs")] [(TLong, "ret")].
Definition syscall_getrandom := SYSCALL_MACRO "GETRANDOM" "getrandom" 318 3 1 [(TPtr TChar, "ubuf"); (size_t, "len");
  (TUInt, "flags")] [(TLong, "ret")].
Definition syscall_memfd_create := SYSCALL_MACRO "MEMFD_CREATE" "memfd_create" 319 2 1 [(TPtr (TConst TChar),
  "uname"); (TUInt, "flags")] [(TLong, "ret")].
Definition syscall_kexec_file_load := SYSCALL_MACRO "KEXEC_FILE_LOAD" "kexec_file_load" 320 5 1 [(TInt, "kernel_fd");
  (TInt, "initrd_fd"); (TULong, "cmdline_len"); (TPtr (TConst TChar), "cmdline_ptr"); (TULong, "flags")] [(TLong,
  "ret")].
Definition syscall_bpf := SYSCALL_MACRO "BPF" "bpf" 321 3 1 [(TInt, "cmd"); (TPtr (TStruct "bpf_attr"), "uattr");
  (TUInt, "size")] [(TLong, "ret")].
Definition syscall_execveat := SYSCALL_MACRO "EXECVEAT" "execveat" 322 5 1 [(TInt, "fd"); (TPtr (TConst TChar),
  "filename"); (TPtr (TConst (TPtr (TConst TChar))), "argv"); (TPtr (TConst (TPtr (TConst TChar))), "envp"); (TInt,
  "flags")] [(TLong, "ret")].
Definition syscall_userfaultfd := SYSCALL_MACRO "USERFAULTFD" "userfaultfd" 323 1 1 [(TInt, "flags")] [(TLong,
  "ret")].
Definition syscall_membarrier := SYSCALL_MACRO "MEMBARRIER" "membarrier" 324 3 1 [(TInt, "cmd"); (TUInt, "flags");
  (TInt, "cpu_id")] [(TLong, "ret")].
Definition syscall_mlock2 := SYSCALL_MACRO "MLOCK2" "mlock2" 325 3 1 [(TULong, "start"); (size_t, "len"); (TInt,
  "flags")] [(TLong, "ret")].
Definition syscall_copy_file_range := SYSCALL_MACRO "COPY_FILE_RANGE" "copy_file_range" 326 6 1 [(TInt, "fd_in");
  (TPtr loff_t, "off_in"); (TInt, "fd_out"); (TPtr loff_t, "off_out"); (size_t, "len"); (TUInt, "flags")] [(TLong,
  "ret")].
Definition syscall_preadv2 := SYSCALL_MACRO "PREADV2" "preadv2" 327 6 1 [(TULong, "fd"); (TPtr (TConst (TStruct
  "iovec")), "vec"); (TULong, "vlen"); (TULong, "pos_l"); (TULong, "pos_h"); (rwf_t, "flags")] [(TLong, "ret")].
Definition syscall_pwritev2 := SYSCALL_MACRO "PWRITEV2" "pwritev2" 328 6 1 [(TULong, "fd"); (TPtr (TConst (TStruct
  "iovec")), "vec"); (TULong, "vlen"); (TULong, "pos_l"); (TULong, "pos_h"); (rwf_t, "flags")] [(TLong, "ret")].
Definition syscall_pkey_mprotect := SYSCALL_MACRO "PKEY_MPROTECT" "pkey_mprotect" 329 4 1 [(TULong, "start"); (size_t,
  "len"); (TULong, "prot"); (TInt, "pkey")] [(TLong, "ret")].
Definition syscall_pkey_alloc := SYSCALL_MACRO "PKEY_ALLOC" "pkey_alloc" 330 2 1 [(TULong, "flags"); (TULong,
  "init_val")] [(TLong, "ret")].
Definition syscall_pkey_free := SYSCALL_MACRO "PKEY_FREE" "pkey_free" 331 1 1 [(TInt, "pkey")] [(TLong, "ret")].
Definition syscall_statx := SYSCALL_MACRO "STATX" "statx" 332 5 1 [(TInt, "dfd"); (TPtr (TConst TChar), "filename");
  (TUInt, "flags"); (TUInt, "mask"); (TPtr (TStruct "statx"), "buffer")] [(TLong, "ret")].
Definition syscall_io_pgetevents := SYSCALL_MACRO "IO_PGETEVENTS" "io_pgetevents" 333 6 1 [(aio_context_t, "ctx_id");
  (TLong, "min_nr"); (TLong, "nr"); (TPtr (TStruct "io_event"), "events"); (TPtr (TStruct "__kernel_timespec"),
  "timeout"); (TPtr (TConst (TStruct "__aio_sigset")), "usig")] [(TLong, "ret")].
Definition syscall_rseq := SYSCALL_MACRO "RSEQ" "rseq" 334 4 1 [(TPtr (TStruct "rseq"), "rseq"); (u32, "rseq_len");
  (TInt, "flags"); (u32, "sig")] [(TLong, "ret")].
Definition syscall_pidfd_send_signal := SYSCALL_MACRO "PIDFD_SEND_SIGNAL" "pidfd_send_signal" 424 4 1 [(TInt,
  "pidfd"); (TInt, "sig"); (TPtr siginfo_t, "info"); (TUInt, "flags")] [(TLong, "ret")].
Definition syscall_io_uring_setup := SYSCALL_MACRO "IO_URING_SETUP" "io_uring_setup" 425 2 1 [(u32, "entries"); (TPtr
  (TStruct "io_uring_params"), "params")] [(TLong, "ret")].
Definition syscall_io_uring_enter := SYSCALL_MACRO "IO_URING_ENTER" "io_uring_enter" 426 6 1 [(TUInt, "fd"); (u32,
  "to_submit"); (u32, "min_complete"); (u32, "flags"); (TPtr (TConst TVoid), "argp"); (size_t, "argsz")] [(TLong,
  "ret")].
Definition syscall_io_uring_register := SYSCALL_MACRO "IO_URING_REGISTER" "io_uring_register" 427 4 1 [(TUInt, "fd");
  (TUInt, "opcode"); (TPtr TVoid, "arg"); (TUInt, "nr_args")] [(TLong, "ret")].
Definition syscall_open_tree := SYSCALL_MACRO "OPEN_TREE" "open_tree" 428 3 1 [(TInt, "dfd"); (TPtr (TConst TChar),
  "filename"); (TUInt, "flags")] [(TLong, "ret")].
Definition syscall_move_mount := SYSCALL_MACRO "MOVE_MOUNT" "move_mount" 429 5 1 [(TInt, "from_dfd"); (TPtr (TConst
  TChar), "from_pathname"); (TInt, "to_dfd"); (TPtr (TConst TChar), "to_pathname"); (TUInt, "flags")] [(TLong,
  "ret")].
Definition syscall_fsopen := SYSCALL_MACRO "FSOPEN" "fsopen" 430 2 1 [(TPtr (TConst TChar), "_fs_name"); (TUInt,
  "flags")] [(TLong, "ret")].
Definition syscall_fsconfig := SYSCALL_MACRO "FSCONFIG" "fsconfig" 431 5 1 [(TInt, "fd"); (TUInt, "cmd"); (TPtr
  (TConst TChar), "_key"); (TPtr (TConst TVoid), "_value"); (TInt, "aux")] [(TLong, "ret")].
Definition syscall_fsmount := SYSCALL_MACRO "FSMOUNT" "fsmount" 432 3 1 [(TInt, "fs_fd"); (TUInt, "flags"); (TUInt,
  "attr_flags")] [(TLong, "ret")].
Definition syscall_fspick := SYSCALL_MACRO "FSPICK" "fspick" 433 3 1 [(TInt, "dfd"); (TPtr (TConst TChar), "path");
  (TUInt, "flags")] [(TLong, "ret")].
Definition syscall_pidfd_open := SYSCALL_MACRO "PIDFD_OPEN" "pidfd_open" 434 2 1 [(pid_t, "pid"); (TUInt, "flags")]
  [(TLong, "ret")].
Definition syscall_clone3 := SYSCALL_MACRO "CLONE3" "clone3" 435 2 1 [(TPtr (TStruct "clone_args"), "uargs"); (size_t,
  "size")] [(TLong, "ret")].
Definition syscall_close_range := SYSCALL_MACRO "CLOSE_RANGE" "close_range" 436 3 1 [(TUInt, "fd"); (TUInt, "max_fd");
  (TUInt, "flags")] [(TLong, "ret")].
Definition syscall_openat2 := SYSCALL_MACRO "OPENAT2" "openat2" 437 4 1 [(TInt, "dfd"); (TPtr (TConst TChar),
  "filename"); (TPtr (TStruct "open_how"), "how"); (size_t, "usize")] [(TLong, "ret")].
Definition syscall_pidfd_getfd := SYSCALL_MACRO "PIDFD_GETFD" "pidfd_getfd" 438 3 1 [(TInt, "pidfd"); (TInt, "fd");
  (TUInt, "flags")] [(TLong, "ret")].
Definition syscall_faccessat2 := SYSCALL_MACRO "FACCESSAT2" "faccessat2" 439 4 1 [(TInt, "dfd"); (TPtr (TConst TChar),
  "filename"); (TInt, "mode"); (TInt, "flags")] [(TLong, "ret")].
Definition syscall_process_madvise := SYSCALL_MACRO "PROCESS_MADVISE" "process_madvise" 440 5 1 [(TInt, "pidfd");
  (TPtr (TConst (TStruct "iovec")), "vec"); (size_t, "vlen"); (TInt, "behavior"); (TUInt, "flags")] [(TLong, "ret")].
Definition syscall_epoll_pwait2 := SYSCALL_MACRO "EPOLL_PWAIT2" "epoll_pwait2" 441 6 1 [(TInt, "epfd"); (TPtr (TStruct
  "epoll_event"), "events"); (TInt, "maxevents"); (TPtr (TConst (TStruct "__kernel_timespec")), "timeout"); (TPtr
  (TConst (TStruct "sigset_t")), "sigmask"); (size_t, "sigsetsize")] [(TLong, "ret")].
Definition syscall_mount_setattr := SYSCALL_MACRO "MOUNT_SETATTR" "mount_setattr" 442 5 1 [(TInt, "dfd"); (TPtr
  (TConst TChar), "path"); (TUInt, "flags"); (TPtr (TStruct "mount_attr"), "uattr"); (size_t, "usize")] [(TLong,
  "ret")].
Definition syscall_quotactl_fd := SYSCALL_MACRO "QUOTACTL_FD" "quotactl_fd" 443 4 1 [(TUInt, "fd"); (TUInt, "cmd");
  (qid_t, "id"); (TPtr TVoid, "addr")] [(TLong, "ret")].
Definition syscall_landlock_create_ruleset := SYSCALL_MACRO "LANDLOCK_CREATE_RULESET" "landlock_create_ruleset" 444 3
  1 [(TPtr (TConst (TStruct "landlock_ruleset_attr")), "attr"); (size_t, "size"); (uint32_t, "flags")] [(TLong,
  "ret")].
Definition syscall_landlock_add_rule := SYSCALL_MACRO "LANDLOCK_ADD_RULE" "landlock_add_rule" 445 4 1 [(TInt,
  "ruleset_fd"); (TEnum "landlock_rule_type", "rule_type"); (TPtr (TConst TVoid), "rule_attr"); (uint32_t, "flags")]
  [(TLong, "ret")].
Definition syscall_landlock_restrict_self := SYSCALL_MACRO "LANDLOCK_RESTRICT_SELF" "landlock_restrict_self" 446 2 1
  [(TInt, "ruleset_fd"); (uint32_t, "flags")] [(TLong, "ret")].
Definition syscall_memfd_secret := SYSCALL_MACRO "MEMFD_SECRET" "memfd_secret" 447 1 1 [(TUInt, "flags")] [(TLong,
  "ret")].
Definition syscall_process_mrelease := SYSCALL_MACRO "PROCESS_MRELEASE" "process_mrelease" 448 2 1 [(TInt, "pidfd");
  (TUInt, "flags")] [(TLong, "ret")].
Definition syscall_futex_waitv := SYSCALL_MACRO "FUTEX_WAITV" "futex_waitv" 449 5 1 [(TPtr (TStruct "futex_waitv"),
  "waiters"); (TUInt, "nr_futexes"); (TUInt, "flags"); (TPtr (TStruct "__kernel_timespec"), "timeout"); (clockid_t,
  "clockid")] [(TLong, "ret")].
Definition syscall_set_mempolicy_home_node := SYSCALL_MACRO "SET_MEMPOLICY_HOME_NODE" "set_mempolicy_home_node" 450 4
  1 [(TULong, "start"); (TULong, "len"); (TULong, "home_node"); (TULong, "flags")] [(TLong, "ret")].
Definition syscall_cachestat := SYSCALL_MACRO "CACHESTAT" "cachestat" 451 4 1 [(TUInt, "fd"); (TPtr (TStruct
  "cachestat_range"), "cstat_range"); (TPtr (TStruct "cachestat"), "cstat"); (TUInt, "flags")] [(TLong, "ret")].
Definition syscall_fchmodat2 := SYSCALL_MACRO "FCHMODAT2" "fchmodat2" 452 4 1 [(TInt, "dfd"); (TPtr (TConst TChar),
  "filename"); (umode_t, "mode"); (TUInt, "flags")] [(TLong, "ret")].

Definition syscall_rows : list linx_syscall_table_t := [syscall_read; syscall_write; syscall_open; syscall_close;
  syscall_stat; syscall_fstat; syscall_lstat; syscall_poll; syscall_lseek; syscall_mmap; syscall_mprotect;
  syscall_munmap; syscall_brk; syscall_rt_sigaction; syscall_rt_sigprocmask; syscall_rt_sigreturn; syscall_ioctl;
  syscall_pread64; syscall_pwrite64; syscall_readv; syscall_writev; syscall_access; syscall_pipe; syscall_select;
  syscall_sched_yield; syscall_mremap; syscall_msync; syscall_mincore; syscall_madvise; syscall_shmget; syscall_shmat;
  syscall_shmctl; syscall_dup; syscall_dup2; syscall_pause; syscall_nanosleep; syscall_getitimer; syscall_alarm;
  syscall_setitimer; syscall_getpid; syscall_sendfile; syscall_socket; syscall_connect; syscall_accept;
  syscall_sendto; syscall_recvfrom; syscall_sendmsg; syscall_recvmsg; syscall_shutdown; syscall_bind; syscall_listen;
  syscall_getsockname; syscall_getpeername; syscall_socketpair; syscall_setsockopt; syscall_getsockopt; syscall_clone;
  syscall_fork; syscall_vfork; syscall_execve; syscall_exit; syscall_wait4; syscall_kill; syscall_uname;
  syscall_semget; syscall_semop; syscall_semctl; syscall_shmdt; syscall_msgget; syscall_msgsnd; syscall_msgrcv;
  syscall_msgctl; syscall_fcntl; syscall_flock; syscall_fsync; syscall_fdatasync; syscall_truncate; syscall_ftruncate;
  syscall_getdents; syscall_getcwd; syscall_chdir; syscall_fchdir; syscall_rename; syscall_mkdir; syscall_rmdir;
  syscall_creat; syscall_link; syscall_unlink; syscall_symlink; syscall_readlink; syscall_chmod; syscall_fchmod;
  syscall_chown; syscall_fchown; syscall_lchown; syscall_umask; syscall_gettimeofday; syscall_getrlimit;
  syscall_getrusage; syscall_sysinfo; syscall_times; syscall_ptrace; syscall_getuid; syscall_syslog; syscall_getgid;
  syscall_setuid; syscall_setgid; syscall_geteuid; syscall_getegid; syscall_setpgid; syscall_getppid; syscall_getpgrp;
  syscall_setsid; syscall_setreuid; syscall_setregid; syscall_getgroups; syscall_setgroups; syscall_setresuid;
  syscall_getresuid; syscall_setresgid; syscall_getresgid; syscall_getpgid; syscall_setfsuid; syscall_setfsgid;
  syscall_getsid; syscall_capget; syscall_capset; syscall_rt_sigpending; syscall_rt_sigtimedwait;
  syscall_rt_sigqueueinfo; syscall_rt_sigsuspend; syscall_sigaltstack; syscall_utime; syscall_mknod; syscall_uselib;
  syscall_personality; syscall_ustat; syscall_statfs; syscall_fstatfs; syscall_sysfs; syscall_getpriority;
  syscall_setpriority; syscall_sched_setparam; syscall_sched_getparam; syscall_sched_setscheduler;
  syscall_sched_getscheduler; syscall_sched_get_priority_max; syscall_sched_get_priority_min;
  syscall_sched_rr_get_interval; syscall_mlock; syscall_munlock; syscall_mlockall; syscall_munlockall;
  syscall_vhangup; syscall_modify_ldt; syscall_pivot_root; syscall__sysctl; syscall_prctl; syscall_arch_prctl;
  syscall_adjtimex; syscall_setrlimit; syscall_chroot; syscall_sync; syscall_acct; syscall_settimeofday;
  syscall_mount; syscall_umount2; syscall_swapon; syscall_swapoff; syscall_reboot; syscall_sethostname;
  syscall_setdomainname; syscall_iopl; syscall_ioperm; syscall_create_module; syscall_init_module;
  syscall_delete_module; syscall_get_kernel_syms; syscall_query_module; syscall_quotactl; syscall_nfsservctl;
  syscall_gettid; syscall_readahead; syscall_setxattr; syscall_lsetxattr; syscall_fsetxattr; syscall_getxattr;
  syscall_lgetxattr; syscall_fgetxattr; syscall_listxattr; syscall_llistxattr; syscall_flistxattr;
  syscall_removexattr; syscall_lremovexattr; syscall_fremovexattr; syscall_tkill; syscall_time; syscall_futex;
  syscall_sched_setaffinity; syscall_sched_getaffinity; syscall_set_thread_area; syscall_io_setup; syscall_io_destroy;
  syscall_io_getevents; syscall_io_submit; syscall_io_cancel; syscall_get_thread_area; syscall_lookup_dcookie;
  syscall_epoll_create; syscall_remap_file_pages; syscall_getdents64; syscall_set_tid_address;
  syscall_restart_syscall; syscall_semtimedop; syscall_fadvise64; syscall_timer_create; syscall_timer_settime;
  syscall_timer_gettime; syscall_timer_getoverrun; syscall_timer_delete; syscall_clock_settime; syscall_clock_gettime;
  syscall_clock_getres; syscall_clock_nanosleep; syscall_exit_group; syscall_epoll_wait; syscall_epoll_ctl;
  syscall_tgkill; syscall_utimes; syscall_mbind; syscall_set_mempolicy; syscall_get_mempolicy; syscall_mq_open;
  syscall_mq_unlink; syscall_mq_timedsend; syscall_mq_timedreceive; syscall_mq_notify; syscall_mq_getsetattr;
  syscall_kexec_load; syscall_waitid; syscall_add_key; syscall_request_key; syscall_keyctl; syscall_ioprio_set;
  syscall_ioprio_get; syscall_inotify_init; syscall_inotify_add_watch; syscall_inotify_rm_watch;
  syscall_migrate_pages; syscall_openat; syscall_mkdirat; syscall_mknodat; syscall_fchownat; syscall_futimesat;
  syscall_newfstatat; syscall_unlinkat; syscall_renameat; syscall_linkat; syscall_symlinkat; syscall_readlinkat;
  syscall_fchmodat; syscall_faccessat; syscall_pselect6; syscall_ppoll; syscall_unshare; syscall_set_robust_list;
  syscall_get_robust_list; syscall_splice; syscall_tee; syscall_sync_file_range; syscall_vmsplice; syscall_move_pages;
  syscall_utimensat; syscall_epoll_pwait; syscall_signalfd; syscall_timerfd_create; syscall_eventfd;
  syscall_fallocate; syscall_timerfd_settime; syscall_timerfd_gettime; syscall_accept4; syscall_signalfd4;
  syscall_eventfd2; syscall_epoll_create1; syscall_dup3; syscall_pipe2; syscall_inotify_init1; syscall_preadv;
  syscall_pwritev; syscall_rt_tgsigqueueinfo; syscall_perf_event_open; syscall_recvmmsg; syscall_fanotify_init;
  syscall_fanotify_mark; syscall_prlimit64; syscall_name_to_handle_at; syscall_open_by_handle_at;
  syscall_clock_adjtime; syscall_syncfs; syscall_sendmmsg; syscall_setns; syscall_getcpu; syscall_process_vm_readv;
  syscall_process_vm_writev; syscall_kcmp; syscall_finit_module; syscall_sched_setattr; syscall_sched_getattr;
  syscall_renameat2; syscall_seccomp; syscall_getrandom; syscall_memfd_create; syscall_kexec_file_load; syscall_bpf;
  syscall_execveat; syscall_userfaultfd; syscall_membarrier; syscall_mlock2; syscall_copy_file_range; syscall_preadv2;
  syscall_pwritev2; syscall_pkey_mprotect; syscall_pkey_alloc; syscall_pkey_free; syscall_statx;
  syscall_io_pgetevents; syscall_rseq; syscall_pidfd_send_signal; syscall_io_uring_setup; syscall_io_uring_enter;
  syscall_io_uring_register; syscall_open_tree; syscall_move_mount; syscall_fsopen; syscall_fsconfig; syscall_fsmount;
  syscall_fspick; syscall_pidfd_open; syscall_clone3; syscall_close_range; syscall_openat2; syscall_pidfd_getfd;
  syscall_faccessat2; syscall_process_madvise; syscall_epoll_pwait2; syscall_mount_setattr; syscall_quotactl_fd;
  syscall_landlock_create_ruleset; syscall_landlock_add_rule; syscall_landlock_restrict_self; syscall_memfd_secret;
  syscall_process_mrelease; syscall_futex_waitv; syscall_set_mempolicy_home_node; syscall_cachestat;
  syscall_fchmodat2].

(** ** The array

    Designated initialisers put a row at its number; the other elements are
    zero.  [LINX_SYSCALL_MAX_IDX] follows the last enumerator. *)
Definition LINX_SYSCALL_MAX_IDX : Z := 453.

Definition zero_row : linx_syscall_table_t :=
  mk_row "" 0 0 0 None [None; None] (replicate TABLE_PARAMS_MAX_COUNT None)
    (replicate TABLE_PARAMS_MAX_COUNT LINX_TYPE_NONE) [LINX_TYPE_NONE].

Definition syscall_map : gmap Z linx_syscall_table_t := list_to_map ((λ r, (st_id r, r)) <$> syscall_rows).

Definition syscall_row (id : Z) : linx_syscall_table_t := default zero_row (syscall_map !! id).

(** [g_linx_syscall_table[id]]: the index is not checked by the code. *)
Definition g_linx_syscall_table (id : Z) : outcome linx_syscall_table_t :=
  if (0 <=? id) && (id <? LINX_SYSCALL_MAX_IDX) then mret (syscall_row id) else Ub OutOfBounds.

(** ** The second list of numbers (src/include/linx_syscall_id.h) *)
Definition LINX_SYSCALL_ID_READ : Z := 0.
Definition LINX_SYSCALL_ID_WRITE : Z := 1.
Definition LINX_SYSCALL_ID_OPEN : Z := 2.
Definition LINX_SYSCALL_ID_CLOSE : Z := 3.
Definition LINX_SYSCALL_ID_STAT : Z := 4.
Definition LINX_SYSCALL_ID_FSTAT : Z := 5.
Definition LINX_SYSCALL_ID_LSTAT : Z := 6.
Definition LINX_SYSCALL_ID_POLL : Z := 7.
Definition LINX_SYSCALL_ID_LSEEK : Z := 8.
Definition LINX_SYSCALL_ID_MMAP : Z := 9.
Definition LINX_SYSCALL_ID_MPROTECT : Z := 10.
Definition LINX_SYSCALL_ID_MUNMAP : Z := 11.
Definition LINX_SYSCALL_ID_BRK : Z := 12.
Definition LINX_SYSCALL_ID_RT_SIGACTION : Z := 13.
Definition LINX_SYSCALL_ID_RT_SIGPROCMASK : Z := 14.
Definition LINX_SYSCALL_ID_RT_SIGRETURN : Z := 15.
Definition LINX_SYSCALL_ID_IOCTL : Z := 16.
Definition LINX_SYSCALL_ID_PREAD64 : Z := 17.
Definition LINX_SYSCALL_ID_PWRITE64 : Z := 18.
Definition LINX_SYSCALL_ID_READV : Z := 19.
Definition LINX_SYSCALL_ID_WRITEV : Z := 20.
Definition LINX_SYSCALL_ID_ACCESS : Z := 21.
Definition LINX_SYSCALL_ID_PIPE : Z := 22.
Definition LINX_SYSCALL_ID_SELECT : Z := 23.
Definition LINX_SYSCALL_ID_SCHED_YIELD : Z := 24.
Definition LINX_SYSCALL_ID_MREMAP : Z := 25.
Definition LINX_SYSCALL_ID_MSYNC : Z := 26.
Definition LINX_SYSCALL_ID_MINCORE : Z := 27.
Definition LINX_SYSCALL_ID_MADVISE : Z := 28.
Definition LINX_SYSCALL_ID_SHMGET : Z := 29.
Definition LINX_SYSCALL_ID_SHMAT : Z := 30.
Definition LINX_SYSCALL_ID_SHMCTL : Z := 31.
Definition LINX_SYSCALL_ID_DUP : Z := 32.
Definition LINX_SYSCALL_ID_DUP2 : Z := 33.
Definition LINX_SYSCALL_ID_PAUSE : Z := 34.
Definition LINX_SYSCALL_ID_NANOSLEEP : Z := 35.
Definition LINX_SYSCALL_ID_GETITIMER : Z := 36.
Definition LINX_SYSCALL_ID_ALARM : Z := 37.
Definition LINX_SYSCALL_ID_SETITIMER : Z := 38.
Definition LINX_SYSCALL_ID_GETPID : Z := 39.
Definition LINX_SYSCALL_ID_SENDFILE : Z := 40.
Definition LINX_SYSCALL_ID_SOCKET : Z := 41.
Definition LINX_SYSCALL_ID_CONNECT : Z := 42.
Definition LINX_SYSCALL_ID_ACCEPT : Z := 43.
Definition LINX_SYSCALL_ID_SENDTO : Z := 44.
Definition LINX_SYSCALL_ID_RECVFROM : Z := 45.
Definition LINX_SYSCALL_ID_SENDMSG : Z := 46.
Definition LINX_SYSCALL_ID_RECVMSG : Z := 47.
Definition LINX_SYSCALL_ID_SHUTDOWN : Z := 48.
Definition LINX_SYSCALL_ID_BIND : Z := 49.
Definition LINX_SYSCALL_ID_LISTEN : Z := 50.
Definition LINX_SYSCALL_ID_GETSOCKNAME : Z := 51.
Definition LINX_SYSCALL_ID_GETPEERNAME : Z := 52.
Definition LINX_SYSCALL_ID_SOCKETPAIR : Z := 53.
Definition LINX_SYSCALL_ID_SETSOCKOPT : Z := 54.
Definition LINX_SYSCALL_ID_GETSOCKOPT : Z := 55.
Definition LINX_SYSCALL_ID_CLONE : Z := 56.
Definition LINX_SYSCALL_ID_FORK : Z := 57.
Definition LINX_SYSCALL_ID_VFORK : Z := 58.
Definition LINX_SYSCALL_ID_EXECVE : Z := 59.
Definition LINX_SYSCALL_ID_EXIT : Z := 60.
Definition LINX_SYSCALL_ID_WAIT4 : Z := 61.
Definition LINX_SYSCALL_ID_KILL : Z := 62.
Definition LINX_SYSCALL_ID_UNAME : Z := 63.
Definition LINX_SYSCALL_ID_SEMGET : Z := 64.
Definition LINX_SYSCALL_ID_SEMOP : Z := 65.
Definition LINX_SYSCALL_ID_SEMCTL : Z := 66.
Definition LINX_SYSCALL_ID_SHMDT : Z := 67.
Definition LINX_SYSCALL_ID_MSGGET : Z := 68.
Definition LINX_SYSCALL_ID_MSGSND : Z := 69.
Definition LINX_SYSCALL_ID_MSGRCV : Z := 70.
Definition LINX_SYSCALL_ID_MSGCTL : Z := 71.
Definition LINX_SYSCALL_ID_FCNTL : Z := 72.
Definition LINX_SYSCALL_ID_FLOCK : Z := 73.
Definition LINX_SYSCALL_ID_FSYNC : Z := 74.
Definition LINX_SYSCALL_ID_FDATASYNC : Z := 75.
Definition LINX_SYSCALL_ID_TRUNCATE : Z := 76.
Definition LINX_SYSCALL_ID_FTRUNCATE : Z := 77.
Definition LINX_SYSCALL_ID_GETDENTS : Z := 78.
Definition LINX_SYSCALL_ID_GETCWD : Z := 79.
Definition LINX_SYSCALL_ID_CHDIR : Z := 80.
Definition LINX_SYSCALL_ID_FCHDIR : Z := 81.
Definition LINX_SYSCALL_ID_RENAME : Z := 82.
Definition LINX_SYSCALL_ID_MKDIR : Z := 83.
Definition LINX_SYSCALL_ID_RMDIR : Z := 84.
Definition LINX_SYSCALL_ID_CREAT : Z := 85.
Definition LINX_SYSCALL_ID_LINK : Z := 86.
Definition LINX_SYSCALL_ID_UNLINK : Z := 87.
Definition LINX_SYSCALL_ID_SYMLINK : Z := 88.
Definition LINX_SYSCALL_ID_READLINK : Z := 89.
Definition LINX_SYSCALL_ID_CHMOD : Z := 90.
Definition LINX_SYSCALL_ID_FCHMOD : Z := 91.
Definition LINX_SYSCALL_ID_CHOWN : Z := 92.
Definition LINX_SYSCALL_ID_FCHOWN : Z := 93.
Definition LINX_SYSCALL_ID_LCHOWN : Z := 94.
Definition LINX_SYSCALL_ID_UMASK : Z := 95.
Definition LINX_SYSCALL_ID_GETTIMEOFDAY : Z := 96.
Definition LINX_SYSCALL_ID_GETRLIMIT : Z := 97.
Definition LINX_SYSCALL_ID_GETRUSAGE : Z := 98.
Definition LINX_SYSCALL_ID_SYSINFO : Z := 99.
Definition LINX_SYSCALL_ID_TIMES : Z := 100.
Definition LINX_SYSCALL_ID_PTRACE : Z := 101.
Definition LINX_SYSCALL_ID_GETUID : Z := 102.
Definition LINX_SYSCALL_ID_SYSLOG : Z := 103.
Definition LINX_SYSCALL_ID_GETGID : Z := 104.
Definition LINX_SYSCALL_ID_SETUID : Z := 105.
Definition LINX_SYSCALL_ID_SETGID : Z := 106.
Definition LINX_SYSCALL_ID_GETEUID : Z := 107.
Definition LINX_SYSCALL_ID_GETEGID : Z := 108.
Definition LINX_SYSCALL_ID_SETPGID : Z := 109.
Definition LINX_SYSCALL_ID_GETPPID : Z := 110.
Definition LINX_SYSCALL_ID_GETPGRP : Z := 111.
Definition LINX_SYSCALL_ID_SETSID : Z := 112.
Definition LINX_SYSCALL_ID_SETREUID : Z := 113.
Definition LINX_SYSCALL_ID_SETREGID : Z := 114.
Definition LINX_SYSCALL_ID_GETGROUPS : Z := 115.
Definition LINX_SYSCALL_ID_SETGROUPS : Z := 116.
Definition LINX_SYSCALL_ID_SETRESUID : Z := 117.
Definition LINX_SYSCALL_ID_GETRESUID : Z := 118.
Definition LINX_SYSCALL_ID_SETRESGID : Z := 119.
Definition LINX_SYSCALL_ID_GETRESGID : Z := 120.
Definition LINX_SYSCALL_ID_GETPGID : Z := 121.
Definition LINX_SYSCALL_ID_SETFSUID : Z := 122.
Definition LINX_SYSCALL_ID_SETFSGID : Z := 123.
Definition LINX_SYSCALL_ID_GETSID : Z := 124.
Definition LINX_SYSCALL_ID_CAPGET : Z := 125.
Definition LINX_SYSCALL_ID_CAPSET : Z := 126.
Definition LINX_SYSCALL_ID_RT_SIGPENDING : Z := 127.
Definition LINX_SYSCALL_ID_RT_SIGTIMEDWAIT : Z := 128.
Definition LINX_SYSCALL_ID_RT_SIGQUEUEINFO : Z := 129.
Definition LINX_SYSCALL_ID_RT_SIGSUSPEND : Z := 130.
Definition LINX_SYSCALL_ID_SIGALTSTACK : Z := 131.
Definition LINX_SYSCALL_ID_UTIME : Z := 132.
Definition LINX_SYSCALL_ID_MKNOD : Z := 133.
Definition LINX_SYSCALL_ID_USELIB : Z := 134.
Definition LINX_SYSCALL_ID_PERSONALITY : Z := 135.
Definition LINX_SYSCALL_ID_USTAT : Z := 136.
Definition LINX_SYSCALL_ID_STATFS : Z := 137.
Definition LINX_SYSCALL_ID_FSTATFS : Z := 138.
Definition LINX_SYSCALL_ID_SYSFS : Z := 139.
Definition LINX_SYSCALL_ID_GETPRIORITY : Z := 140.
Definition LINX_SYSCALL_ID_SETPRIORITY : Z := 141.
Definition LINX_SYSCALL_ID_SCHED_SETPARAM : Z := 142.
Definition LINX_SYSCALL_ID_SCHED_GETPARAM : Z := 143.
Definition LINX_SYSCALL_ID_SCHED_SETSCHEDULER : Z := 144.
Definition LINX_SYSCALL_ID_SCHED_GETSCHEDULER : Z := 145.
Definition LINX_SYSCALL_ID_SCHED_GET_PRIORITY_MAX : Z := 146.
Definition LINX_SYSCALL_ID_SCHED_GET_PRIORITY_MIN : Z := 147.
Definition LINX_SYSCALL_ID_SCHED_RR_GET_INTERVAL : Z := 148.
Definition LINX_SYSCALL_ID_MLOCK : Z := 149.
Definition LINX_SYSCALL_ID_MUNLOCK : Z := 150.
Definition LINX_SYSCALL_ID_MLOCKALL : Z := 151.
Definition LINX_SYSCALL_ID_MUNLOCKALL : Z := 152.
Definition LINX_SYSCALL_ID_VHANGUP : Z := 153.
Definition LINX_SYSCALL_ID_MODIFY_LDT : Z := 154.
Definition LINX_SYSCALL_ID_PIVOT_ROOT : Z := 155.
Definition LINX_SYSCALL_ID__SYSCTL : Z := 156.
Definition LINX_SYSCALL_ID_PRCTL : Z := 157.
Definition LINX_SYSCALL_ID_ARCH_PRCTL : Z := 158.
Definition LINX_SYSCALL_ID_ADJTIMEX : Z := 159.
Definition LINX_SYSCALL_ID_SETRLIMIT : Z := 160.
Definition LINX_SYSCALL_ID_CHROOT : Z := 161.
Definition LINX_SYSCALL_ID_SYNC : Z := 162.
Definition LINX_SYSCALL_ID_ACCT : Z := 163.
Definition LINX_SYSCALL_ID_SETTIMEOFDAY : Z := 164.
Definition LINX_SYSCALL_ID_MOUNT : Z := 165.
Definition LINX_SYSCALL_ID_UMOUNT2 : Z := 166.
Definition LINX_SYSCALL_ID_SWAPON : Z := 167.
Definition LINX_SYSCALL_ID_SWAPOFF : Z := 168.
Definition LINX_SYSCALL_ID_REBOOT : Z := 169.
Definition LINX_SYSCALL_ID_SETHOSTNAME : Z := 170.
Definition LINX_SYSCALL_ID_SETDOMAINNAME : Z := 171.
Definition LINX_SYSCALL_ID_IOPL : Z := 172.
Definition LINX_SYSCALL_ID_IOPERM : Z := 173.
Definition LINX_SYSCALL_ID_CREATE_MODULE : Z := 174.
Definition LINX_SYSCALL_ID_INIT_MODULE : Z := 175.
Definition LINX_SYSCALL_ID_DELETE_MODULE : Z := 176.
Definition LINX_SYSCALL_ID_GET_KERNEL_SYMS : Z := 177.
Definition LINX_SYSCALL_ID_QUERY_MODULE : Z := 178.
Definition LINX_SYSCALL_ID_QUOTACTL : Z := 179.
Definition LINX_SYSCALL_ID_NFSSERVCTL : Z := 180.
Definition LINX_SYSCALL_ID_GETTID : Z := 186.
Definition LINX_SYSCALL_ID_READAHEAD : Z := 187.
Definition LINX_SYSCALL_ID_SETXATTR : Z := 188.
Definition LINX_SYSCALL_ID_LSETXATTR : Z := 189.
Definition LINX_SYSCALL_ID_FSETXATTR : Z := 190.
Definition LINX_SYSCALL_ID_GETXATTR : Z := 191.
Definition LINX_SYSCALL_ID_LGETXATTR : Z := 192.
Definition LINX_SYSCALL_ID_FGETXATTR : Z := 193.
Definition LINX_SYSCALL_ID_LISTXATTR : Z := 194.
Definition LINX_SYSCALL_ID_LLISTXATTR : Z := 195.
Definition LINX_SYSCALL_ID_FLISTXATTR : Z := 196.
Definition LINX_SYSCALL_ID_REMOVEXATTR : Z := 197.
Definition LINX_SYSCALL_ID_LREMOVEXATTR : Z := 198.
Definition LINX_SYSCALL_ID_FREMOVEXATTR : Z := 199.
Definition LINX_SYSCALL_ID_TKILL : Z := 200.
Definition LINX_SYSCALL_ID_TIME : Z := 201.
Definition LINX_SYSCALL_ID_FUTEX : Z := 202.
Definition LINX_SYSCALL_ID_SCHED_SETAFFINITY : Z := 203.
Definition LINX_SYSCALL_ID_SCHED_GETAFFINITY : Z := 204.
Definition LINX_SYSCALL_ID_SET_THREAD_AREA : Z := 205.
Definition LINX_SYSCALL_ID_IO_SETUP : Z := 206.
Definition LINX_SYSCALL_ID_IO_DESTROY : Z := 207.
Definition LINX_SYSCALL_ID_IO_GETEVENTS : Z := 208.
Definition LINX_SYSCALL_ID_IO_SUBMIT : Z := 209.
Definition LINX_SYSCALL_ID_IO_CANCEL : Z := 210.
Definition LINX_SYSCALL_ID_GET_THREAD_AREA : Z := 211.
Definition LINX_SYSCALL_ID_LOOKUP_DCOOKIE : Z := 212.
Definition LINX_SYSCALL_ID_EPOLL_CREATE : Z := 213.
Definition LINX_SYSCALL_ID_REMAP_FILE_PAGES : Z := 216.
Definition LINX_SYSCALL_ID_GETDENTS64 : Z := 217.
Definition LINX_SYSCALL_ID_SET_TID_ADDRESS : Z := 218.
Definition LINX_SYSCALL_ID_RESTART_SYSCALL : Z := 219.
Definition LINX_SYSCALL_ID_SEMTIMEDOP : Z := 220.
Definition LINX_SYSCALL_ID_FADVISE64 : Z := 221.
Definition LINX_SYSCALL_ID_TIMER_CREATE : Z := 222.
Definition LINX_SYSCALL_ID_TIMER_SETTIME : Z := 223.
Definition LINX_SYSCALL_ID_TIMER_GETTIME : Z := 224.
Definition LINX_SYSCALL_ID_TIMER_GETOVERRUN : Z := 225.
Definition LINX_SYSCALL_ID_TIMER_DELETE : Z := 226.
Definition LINX_SYSCALL_ID_CLOCK_SETTIME : Z := 227.
Definition LINX_SYSCALL_ID_CLOCK_GETTIME : Z := 228.
Definition LINX_SYSCALL_ID_CLOCK_GETRES : Z := 229.
Definition LINX_SYSCALL_ID_CLOCK_NANOSLEEP : Z := 230.
Definition LINX_SYSCALL_ID_EXIT_GROUP : Z := 231.
Definition LINX_SYSCALL_ID_EPOLL_WAIT : Z := 232.
Definition LINX_SYSCALL_ID_EPOLL_CTL : Z := 233.
Definition LINX_SYSCALL_ID_TGKILL : Z := 234.
Definition LINX_SYSCALL_ID_UTIMES : Z := 235.
Definition LINX_SYSCALL_ID_MBIND : Z := 237.
Definition LINX_SYSCALL_ID_SET_MEMPOLICY : Z := 238.
Definition LINX_SYSCALL_ID_GET_MEMPOLICY : Z := 239.
Definition LINX_SYSCALL_ID_MQ_OPEN : Z := 240.
Definition LINX_SYSCALL_ID_MQ_UNLINK : Z := 241.
Definition LINX_SYSCALL_ID_MQ_TIMEDSEND : Z := 242.
Definition LINX_SYSCALL_ID_MQ_TIMEDRECEIVE : Z := 243.
Definition LINX_SYSCALL_ID_MQ_NOTIFY : Z := 244.
Definition LINX_SYSCALL_ID_MQ_GETSETATTR : Z := 245.
Definition LINX_SYSCALL_ID_KEXEC_LOAD : Z := 246.
Definition LINX_SYSCALL_ID_WAITID : Z := 247.
Definition LINX_SYSCALL_ID_ADD_KEY : Z := 248.
Definition LINX_SYSCALL_ID_REQUEST_KEY : Z := 249.
Definition LINX_SYSCALL_ID_KEYCTL : Z := 250.
Definition LINX_SYSCALL_ID_IOPRIO_SET : Z := 251.
Definition LINX_SYSCALL_ID_IOPRIO_GET : Z := 252.
Definition LINX_SYSCALL_ID_INOTIFY_INIT : Z := 253.
Definition LINX_SYSCALL_ID_INOTIFY_ADD_WATCH : Z := 254.
Definition LINX_SYSCALL_ID_INOTIFY_RM_WATCH : Z := 255.
Definition LINX_SYSCALL_ID_MIGRATE_PAGES : Z := 256.
Definition LINX_SYSCALL_ID_OPENAT : Z := 257.
Definition LINX_SYSCALL_ID_MKDIRAT : Z := 258.
Definition LINX_SYSCALL_ID_MKNODAT : Z := 259.
Definition LINX_SYSCALL_ID_FCHOWNAT : Z := 260.
Definition LINX_SYSCALL_ID_FUTIMESAT : Z := 261.
Definition LINX_SYSCALL_ID_NEWFSTATAT : Z := 262.
Definition LINX_SYSCALL_ID_UNLINKAT : Z := 263.
Definition LINX_SYSCALL_ID_RENAMEAT : Z := 264.
Definition LINX_SYSCALL_ID_LINKAT : Z := 265.
Definition LINX_SYSCALL_ID_SYMLINKAT : Z := 266.
Definition LINX_SYSCALL_ID_READLINKAT : Z := 267.
Definition LINX_SYSCALL_ID_FCHMODAT : Z := 268.
Definition LINX_SYSCALL_ID_FACCESSAT : Z := 269.
Definition LINX_SYSCALL_ID_PSELECT6 : Z := 270.
Definition LINX_SYSCALL_ID_PPOLL : Z := 271.
Definition LINX_SYSCALL_ID_UNSHARE : Z := 272.
Definition LINX_SYSCALL_ID_SET_ROBUST_LIST : Z := 273.
Definition LINX_SYSCALL_ID_GET_ROBUST_LIST : Z := 274.
Definition LINX_SYSCALL_ID_SPLICE : Z := 275.
Definition LINX_SYSCALL_ID_TEE : Z := 276.
Definition LINX_SYSCALL_ID_SYNC_FILE_RANGE : Z := 277.
Definition LINX_SYSCALL_ID_VMSPLICE : Z := 278.
Definition LINX_SYSCALL_ID_MOVE_PAGES : Z := 279.
Definition LINX_SYSCALL_ID_UTIMENSAT : Z := 280.
Definition LINX_SYSCALL_ID_EPOLL_PWAIT : Z := 281.
Definition LINX_SYSCALL_ID_SIGNALFD : Z := 282.
Definition LINX_SYSCALL_ID_TIMERFD_CREATE : Z := 283.
Definition LINX_SYSCALL_ID_EVENTFD : Z := 284.
Definition LINX_SYSCALL_ID_FALLOCATE : Z := 285.
Definition LINX_SYSCALL_ID_TIMERFD_SETTIME : Z := 286.
Definition LINX_SYSCALL_ID_TIMERFD_GETTIME : Z := 287.
Definition LINX_SYSCALL_ID_ACCEPT4 : Z := 288.
Definition LINX_SYSCALL_ID_SIGNALFD4 : Z := 289.
Definition LINX_SYSCALL_ID_EVENTFD2 : Z := 290.
Definition LINX_SYSCALL_ID_EPOLL_CREATE1 : Z := 291.
Definition LINX_SYSCALL_ID_DUP3 : Z := 292.
Definition LINX_SYSCALL_ID_PIPE2 : Z := 293.
Definition LINX_SYSCALL_ID_INOTIFY_INIT1 : Z := 294.
Definition LINX_SYSCALL_ID_PREADV : Z := 295.
Definition LINX_SYSCALL_ID_PWRITEV : Z := 296.
Definition LINX_SYSCALL_ID_RT_TGSIGQUEUEINFO : Z := 297.
Definition LINX_SYSCALL_ID_PERF_EVENT_OPEN : Z := 298.
Definition LINX_SYSCALL_ID_RECVMMSG : Z := 299.
Definition LINX_SYSCALL_ID_FANOTIFY_INIT : Z := 300.
Definition LINX_SYSCALL_ID_FANOTIFY_MARK : Z := 301.
Definition LINX_SYSCALL_ID_PRLIMIT64 : Z := 302.
Definition LINX_SYSCALL_ID_NAME_TO_HANDLE_AT : Z := 303.
Definition LINX_SYSCALL_ID_OPEN_BY_HANDLE_AT : Z := 304.
Definition LINX_SYSCALL_ID_CLOCK_ADJTIME : Z := 305.
Definition LINX_SYSCALL_ID_SYNCFS : Z := 306.
Definition LINX_SYSCALL_ID_SENDMMSG : Z := 307.
Definition LINX_SYSCALL_ID_SETNS : Z := 308.
Definition LINX_SYSCALL_ID_GETCPU : Z := 309.
Definition LINX_SYSCALL_ID_PROCESS_VM_READV : Z := 310.
Definition LINX_SYSCALL_ID_PROCESS_VM_WRITEV : Z := 311.
Definition LINX_SYSCALL_ID_KCMP : Z := 312.
Definition LINX_SYSCALL_ID_FINIT_MODULE : Z := 313.
Definition LINX_SYSCALL_ID_SCHED_SETATTR : Z := 314.
Definition LINX_SYSCALL_ID_SCHED_GETATTR : Z := 315.
Definition LINX_SYSCALL_ID_RENAMEAT2 : Z := 316.
Definition LINX_SYSCALL_ID_SECCOMP : Z := 317.
Definition LINX_SYSCALL_ID_GETRANDOM : Z := 318.
Definition LINX_SYSCALL_ID_MEMFD_CREATE : Z := 319.
Definition LINX_SYSCALL_ID_KEXEC_FILE_LOAD : Z := 320.
Definition LINX_SYSCALL_ID_BPF : Z := 321.
Definition LINX_SYSCALL_ID_EXECVEAT : Z := 322.
Definition LINX_SYSCALL_ID_USERFAULTFD : Z := 323.
Definition LINX_SYSCALL_ID_MEMBARRIER : Z := 324.
Definition LINX_SYSCALL_ID_MLOCK2 : Z := 325.
Definition LINX_SYSCALL_ID_COPY_FILE_RANGE : Z := 326.
Definition LINX_SYSCALL_ID_PREADV2 : Z := 327.
Definition LINX_SYSCALL_ID_PWRITEV2 : Z := 328.
Definition LINX_SYSCALL_ID_PKEY_MPROTECT : Z := 329.
Definition LINX_SYSCALL_ID_PKEY_ALLOC : Z := 330.
Definition LINX_SYSCALL_ID_PKEY_FREE : Z := 331.
Definition LINX_SYSCALL_ID_STATX : Z := 332.
Definition LINX_SYSCALL_ID_IO_PGETEVENTS : Z := 333.
Definition LINX_SYSCALL_ID_RSEQ : Z := 334.
Definition LINX_SYSCALL_ID_PIDFD_SEND_SIGNAL : Z := 424.
Definition LINX_SYSCALL_ID_IO_URING_SETUP : Z := 425.
Definition LINX_SYSCALL_ID_IO_URING_ENTER : Z := 426.
Definition LINX_SYSCALL_ID_IO_URING_REGISTER : Z := 427.
Definition LINX_SYSCALL_ID_OPEN_TREE : Z := 428.
Definition LINX_SYSCALL_ID_MOVE_MOUNT : Z := 429.
Definition LINX_SYSCALL_ID_FSOPEN : Z := 430.
Definition LINX_SYSCALL_ID_FSCONFIG : Z := 431.
Definition LINX_SYSCALL_ID_FSMOUNT : Z := 432.
Definition LINX_SYSCALL_ID_FSPICK : Z := 433.
Definition LINX_SYSCALL_ID_PIDFD_OPEN : Z := 434.
Definition LINX_SYSCALL_ID_CLONE3 : Z := 435.
Definition LINX_SYSCALL_ID_CLOSE_RANGE : Z := 436.
Definition LINX_SYSCALL_ID_OPENAT2 : Z := 437.
Definition LINX_SYSCALL_ID_PIDFD_GETFD : Z := 438.
Definition LINX_SYSCALL_ID_FACCESSAT2 : Z := 439.
Definition LINX_SYSCALL_ID_PROCESS_MADVISE : Z := 440.
Definition LINX_SYSCALL_ID_EPOLL_PWAIT2 : Z := 441.
Definition LINX_SYSCALL_ID_MOUNT_SETATTR : Z := 442.
Definition LINX_SYSCALL_ID_QUOTACTL_FD : Z := 443.
Definition LINX_SYSCALL_ID_LANDLOCK_CREATE_RULESET : Z := 444.
Definition LINX_SYSCALL_ID_LANDLOCK_ADD_RULE : Z := 445.
Definition LINX_SYSCALL_ID_LANDLOCK_RESTRICT_SELF : Z := 446.
Definition LINX_SYSCALL_ID_MEMFD_SECRET : Z := 447.
Definition LINX_SYSCALL_ID_PROCESS_MRELEASE : Z := 448.
Definition LINX_SYSCALL_ID_FUTEX_WAITV : Z := 449.
Definition LINX_SYSCALL_ID_SET_MEMPOLICY_HOME_NODE : Z := 450.
Definition LINX_SYSCALL_ID_CACHESTAT : Z := 451.
Definition LINX_SYSCALL_ID_FCHMODAT2 : Z := 452.

Definition linx_syscall_ids_1 : list (string * Z) :=
  [("READ", LINX_SYSCALL_ID_READ); ("WRITE", LINX_SYSCALL_ID_WRITE); ("OPEN", LINX_SYSCALL_ID_OPEN);
   ("CLOSE", LINX_SYSCALL_ID_CLOSE); ("STAT", LINX_SYSCALL_ID_STAT); ("FSTAT", LINX_SYSCALL_ID_FSTAT);
   ("LSTAT", LINX_SYSCALL_ID_LSTAT); ("POLL", LINX_SYSCALL_ID_POLL); ("LSEEK", LINX_SYSCALL_ID_LSEEK);
   ("MMAP", LINX_SYSCALL_ID_MMAP); ("MPROTECT", LINX_SYSCALL_ID_MPROTECT); ("MUNMAP", LINX_SYSCALL_ID_MUNMAP);
   ("BRK", LINX_SYSCALL_ID_BRK); ("RT_SIGACTION", LINX_SYSCALL_ID_RT_SIGACTION);
   ("RT_SIGPROCMASK", LINX_SYSCALL_ID_RT_SIGPROCMASK); ("RT_SIGRETURN", LINX_SYSCALL_ID_RT_SIGRETURN);
   ("IOCTL", LINX_SYSCALL_ID_IOCTL); ("PREAD64", LINX_SYSCALL_ID_PREAD64); ("PWRITE64", LINX_SYSCALL_ID_PWRITE64);
   ("READV", LINX_SYSCALL_ID_READV); ("WRITEV", LINX_SYSCALL_ID_WRITEV); ("ACCESS", LINX_SYSCALL_ID_ACCESS);
   ("PIPE", LINX_SYSCALL_ID_PIPE); ("SELECT", LINX_SYSCALL_ID_SELECT); ("SCHED_YIELD", LINX_SYSCALL_ID_SCHED_YIELD);
   ("MREMAP", LINX_SYSCALL_ID_MREMAP); ("MSYNC", LINX_SYSCALL_ID_MSYNC); ("MINCORE", LINX_SYSCALL_ID_MINCORE);
   ("MADVISE", LINX_SYSCALL_ID_MADVISE); ("SHMGET", LINX_SYSCALL_ID_SHMGET); ("SHMAT", LINX_SYSCALL_ID_SHMAT);
   ("SHMCTL", LINX_SYSCALL_ID_SHMCTL); ("DUP", LINX_SYSCALL_ID_DUP); ("DUP2", LINX_SYSCALL_ID_DUP2);
   ("PAUSE", LINX_SYSCALL_ID_PAUSE); ("NANOSLEEP", LINX_SYSCALL_ID_NANOSLEEP);
   ("GETITIMER", LINX_SYSCALL_ID_GETITIMER); ("ALARM", LINX_SYSCALL_ID_ALARM);
   ("SETITIMER", LINX_SYSCALL_ID_SETITIMER); ("GETPID", LINX_SYSCALL_ID_GETPID);
   ("SENDFILE", LINX_SYSCALL_ID_SENDFILE); ("SOCKET", LINX_SYSCALL_ID_SOCKET); ("CONNECT", LINX_SYSCALL_ID_CONNECT);
   ("ACCEPT", LINX_SYSCALL_ID_ACCEPT); ("SENDTO", LINX_SYSCALL_ID_SENDTO); ("RECVFROM", LINX_SYSCALL_ID_RECVFROM);
   ("SENDMSG", LINX_SYSCALL_ID_SENDMSG); ("RECVMSG", LINX_SYSCALL_ID_RECVMSG); ("SHUTDOWN", LINX_SYSCALL_ID_SHUTDOWN);
   ("BIND", LINX_SYSCALL_ID_BIND); ("LISTEN", LINX_SYSCALL_ID_LISTEN); ("GETSOCKNAME", LINX_SYSCALL_ID_GETSOCKNAME);
   ("GETPEERNAME", LINX_SYSCALL_ID_GETPEERNAME); ("SOCKETPAIR", LINX_SYSCALL_ID_SOCKETPAIR);
   ("SETSOCKOPT", LINX_SYSCALL_ID_SETSOCKOPT); ("GETSOCKOPT", LINX_SYSCALL_ID_GETSOCKOPT);
   ("CLONE", LINX_SYSCALL_ID_CLONE); ("FORK", LINX_SYSCALL_ID_FORK); ("VFORK", LINX_SYSCALL_ID_VFORK);
   ("EXECVE", LINX_SYSCALL_ID_EXECVE); ("EXIT", LINX_SYSCALL_ID_EXIT); ("WAIT4", LINX_SYSCALL_ID_WAIT4);
   ("KILL", LINX_SYSCALL_ID_KILL); ("UNAME", LINX_SYSCALL_ID_UNAME); ("SEMGET", LINX_SYSCALL_ID_SEMGET);
   ("SEMOP", LINX_SYSCALL_ID_SEMOP); ("SEMCTL", LINX_SYSCALL_ID_SEMCTL); ("SHMDT", LINX_SYSCALL_ID_SHMDT);
   ("MSGGET", LINX_SYSCALL_ID_MSGGET); ("MSGSND", LINX_SYSCALL_ID_MSGSND); ("MSGRCV", LINX_SYSCALL_ID_MSGRCV);
   ("MSGCTL", LINX_SYSCALL_ID_MSGCTL); ("FCNTL", LINX_SYSCALL_ID_FCNTL); ("FLOCK", LINX_SYSCALL_ID_FLOCK);
   ("FSYNC", LINX_SYSCALL_ID_FSYNC); ("FDATASYNC", LINX_SYSCALL_ID_FDATASYNC); ("TRUNCATE", LINX_SYSCALL_ID_TRUNCATE);
   ("FTRUNCATE", LINX_SYSCALL_ID_FTRUNCATE); ("GETDENTS", LINX_SYSCALL_ID_GETDENTS);
   ("GETCWD", LINX_SYSCALL_ID_GETCWD); ("CHDIR", LINX_SYSCALL_ID_CHDIR); ("FCHDIR", LINX_SYSCALL_ID_FCHDIR);
   ("RENAME", LINX_SYSCALL_ID_RENAME); ("MKDIR", LINX_SYSCALL_ID_MKDIR); ("RMDIR", LINX_SYSCALL_ID_RMDIR);
   ("CREAT", LINX_SYSCALL_ID_CREAT); ("LINK", LINX_SYSCALL_ID_LINK); ("UNLINK", LINX_SYSCALL_ID_UNLINK);
   ("SYMLINK", LINX_SYSCALL_ID_SYMLINK); ("READLINK", LINX_SYSCALL_ID_READLINK); ("CHMOD", LINX_SYSCALL_ID_CHMOD);
   ("FCHMOD", LINX_SYSCALL_ID_FCHMOD); ("CHOWN", LINX_SYSCALL_ID_CHOWN); ("FCHOWN", LINX_SYSCALL_ID_FCHOWN);
   ("LCHOWN", LINX_SYSCALL_ID_LCHOWN); ("UMASK", LINX_SYSCALL_ID_UMASK);
   ("GETTIMEOFDAY", LINX_SYSCALL_ID_GETTIMEOFDAY); ("GETRLIMIT", LINX_SYSCALL_ID_GETRLIMIT);
   ("GETRUSAGE", LINX_SYSCALL_ID_GETRUSAGE); ("SYSINFO", LINX_SYSCALL_ID_SYSINFO); ("TIMES", LINX_SYSCALL_ID_TIMES);
   ("PTRACE", LINX_SYSCALL_ID_PTRACE); ("GETUID", LINX_SYSCALL_ID_GETUID); ("SYSLOG", LINX_SYSCALL_ID_SYSLOG);
   ("GETGID", LINX_SYSCALL_ID_GETGID); ("SETUID", LINX_SYSCALL_ID_SETUID); ("SETGID", LINX_SYSCALL_ID_SETGID);
   ("GETEUID", LINX_SYSCALL_ID_GETEUID); ("GETEGID", LINX_SYSCALL_ID_GETEGID); ("SETPGID", LINX_SYSCALL_ID_SETPGID);
   ("GETPPID", LINX_SYSCALL_ID_GETPPID); ("GETPGRP", LINX_SYSCALL_ID_GETPGRP); ("SETSID", LINX_SYSCALL_ID_SETSID);
   ("SETREUID", LINX_SYSCALL_ID_SETREUID); ("SETREGID", LINX_SYSCALL_ID_SETREGID);
   ("GETGROUPS", LINX_SYSCALL_ID_GETGROUPS); ("SETGROUPS", LINX_SYSCALL_ID_SETGROUPS);
   ("SETRESUID", LINX_SYSCALL_ID_SETRESUID); ("GETRESUID", LINX_SYSCALL_ID_GETRESUID);
   ("SETRESGID", LINX_SYSCALL_ID_SETRESGID); ("GETRESGID", LINX_SYSCALL_ID_GETRESGID);
   ("GETPGID", LINX_SYSCALL_ID_GETPGID); ("SETFSUID", LINX_SYSCALL_ID_SETFSUID);
   ("SETFSGID", LINX_SYSCALL_ID_SETFSGID); ("GETSID", LINX_SYSCALL_ID_GETSID); ("CAPGET", LINX_SYSCALL_ID_CAPGET);
   ("CAPSET", LINX_SYSCALL_ID_CAPSET); ("RT_SIGPENDING", LINX_SYSCALL_ID_RT_SIGPENDING);
   ("RT_SIGTIMEDWAIT", LINX_SYSCALL_ID_RT_SIGTIMEDWAIT); ("RT_SIGQUEUEINFO", LINX_SYSCALL_ID_RT_SIGQUEUEINFO);
   ("RT_SIGSUSPEND", LINX_SYSCALL_ID_RT_SIGSUSPEND); ("SIGALTSTACK", LINX_SYSCALL_ID_SIGALTSTACK);
   ("UTIME", LINX_SYSCALL_ID_UTIME); ("MKNOD", LINX_SYSCALL_ID_MKNOD); ("USELIB", LINX_SYSCALL_ID_USELIB);
   ("PERSONALITY", LINX_SYSCALL_ID_PERSONALITY); ("USTAT", LINX_SYSCALL_ID_USTAT); ("STATFS", LINX_SYSCALL_ID_STATFS);
   ("FSTATFS", LINX_SYSCALL_ID_FSTATFS); ("SYSFS", LINX_SYSCALL_ID_SYSFS);
   ("GETPRIORITY", LINX_SYSCALL_ID_GETPRIORITY); ("SETPRIORITY", LINX_SYSCALL_ID_SETPRIORITY);
   ("SCHED_SETPARAM", LINX_SYSCALL_ID_SCHED_SETPARAM); ("SCHED_GETPARAM", LINX_SYSCALL_ID_SCHED_GETPARAM);
   ("SCHED_SETSCHEDULER", LINX_SYSCALL_ID_SCHED_SETSCHEDULER)].

Definition linx_syscall_ids_2 : list (string * Z) :=
  [("SCHED_GETSCHEDULER", LINX_SYSCALL_ID_SCHED_GETSCHEDULER);
   ("SCHED_GET_PRIORITY_MAX", LINX_SYSCALL_ID_SCHED_GET_PRIORITY_MAX);
   ("SCHED_GET_PRIORITY_MIN", LINX_SYSCALL_ID_SCHED_GET_PRIORITY_MIN);
   ("SCHED_RR_GET_INTERVAL", LINX_SYSCALL_ID_SCHED_RR_GET_INTERVAL); ("MLOCK", LINX_SYSCALL_ID_MLOCK);
   ("MUNLOCK", LINX_SYSCALL_ID_MUNLOCK); ("MLOCKALL", LINX_SYSCALL_ID_MLOCKALL);
   ("MUNLOCKALL", LINX_SYSCALL_ID_MUNLOCKALL); ("VHANGUP", LINX_SYSCALL_ID_VHANGUP);
   ("MODIFY_LDT", LINX_SYSCALL_ID_MODIFY_LDT); ("PIVOT_ROOT", LINX_SYSCALL_ID_PIVOT_ROOT);
   ("_SYSCTL", LINX_SYSCALL_ID__SYSCTL); ("PRCTL", LINX_SYSCALL_ID_PRCTL); ("ARCH_PRCTL", LINX_SYSCALL_ID_ARCH_PRCTL);
   ("ADJTIMEX", LINX_SYSCALL_ID_ADJTIMEX); ("SETRLIMIT", LINX_SYSCALL_ID_SETRLIMIT);
   ("CHROOT", LINX_SYSCALL_ID_CHROOT); ("SYNC", LINX_SYSCALL_ID_SYNC); ("ACCT", LINX_SYSCALL_ID_ACCT);
   ("SETTIMEOFDAY", LINX_SYSCALL_ID_SETTIMEOFDAY); ("MOUNT", LINX_SYSCALL_ID_MOUNT);
   ("UMOUNT2", LINX_SYSCALL_ID_UMOUNT2); ("SWAPON", LINX_SYSCALL_ID_SWAPON); ("SWAPOFF", LINX_SYSCALL_ID_SWAPOFF);
   ("REBOOT", LINX_SYSCALL_ID_REBOOT); ("SETHOSTNAME", LINX_SYSCALL_ID_SETHOSTNAME);
   ("SETDOMAINNAME", LINX_SYSCALL_ID_SETDOMAINNAME); ("IOPL", LINX_SYSCALL_ID_IOPL);
   ("IOPERM", LINX_SYSCALL_ID_IOPERM); ("CREATE_MODULE", LINX_SYSCALL_ID_CREATE_MODULE);
   ("INIT_MODULE", LINX_SYSCALL_ID_INIT_MODULE); ("DELETE_MODULE", LINX_SYSCALL_ID_DELETE_MODULE);
   ("GET_KERNEL_SYMS", LINX_SYSCALL_ID_GET_KERNEL_SYMS); ("QUERY_MODULE", LINX_SYSCALL_ID_QUERY_MODULE);
   ("QUOTACTL", LINX_SYSCALL_ID_QUOTACTL); ("NFSSERVCTL", LINX_SYSCALL_ID_NFSSERVCTL);
   ("GETTID", LINX_SYSCALL_ID_GETTID); ("READAHEAD", LINX_SYSCALL_ID_READAHEAD);
   ("SETXATTR", LINX_SYSCALL_ID_SETXATTR); ("LSETXATTR", LINX_SYSCALL_ID_LSETXATTR);
   ("FSETXATTR", LINX_SYSCALL_ID_FSETXATTR); ("GETXATTR", LINX_SYSCALL_ID_GETXATTR);
   ("LGETXATTR", LINX_SYSCALL_ID_LGETXATTR); ("FGETXATTR", LINX_SYSCALL_ID_FGETXATTR);
   ("LISTXATTR", LINX_SYSCALL_ID_LISTXATTR); ("LLISTXATTR", LINX_SYSCALL_ID_LLISTXATTR);
   ("FLISTXATTR", LINX_SYSCALL_ID_FLISTXATTR); ("REMOVEXATTR", LINX_SYSCALL_ID_REMOVEXATTR);
   ("LREMOVEXATTR", LINX_SYSCALL_ID_LREMOVEXATTR); ("FREMOVEXATTR", LINX_SYSCALL_ID_FREMOVEXATTR);
   ("TKILL", LINX_SYSCALL_ID_TKILL); ("TIME", LINX_SYSCALL_ID_TIME); ("FUTEX", LINX_SYSCALL_ID_FUTEX);
   ("SCHED_SETAFFINITY", LINX_SYSCALL_ID_SCHED_SETAFFINITY); ("SCHED_GETAFFINITY", LINX_SYSCALL_ID_SCHED_GETAFFINITY);
   ("SET_THREAD_AREA", LINX_SYSCALL_ID_SET_THREAD_AREA); ("IO_SETUP", LINX_SYSCALL_ID_IO_SETUP);
   ("IO_DESTROY", LINX_SYSCALL_ID_IO_DESTROY); ("IO_GETEVENTS", LINX_SYSCALL_ID_IO_GETEVENTS);
   ("IO_SUBMIT", LINX_SYSCALL_ID_IO_SUBMIT); ("IO_CANCEL", LINX_SYSCALL_ID_IO_CANCEL);
   ("GET_THREAD_AREA", LINX_SYSCALL_ID_GET_THREAD_AREA); ("LOOKUP_DCOOKIE", LINX_SYSCALL_ID_LOOKUP_DCOOKIE);
   ("EPOLL_CREATE", LINX_SYSCALL_ID_EPOLL_CREATE); ("REMAP_FILE_PAGES", LINX_SYSCALL_ID_REMAP_FILE_PAGES);
   ("GETDENTS64", LINX_SYSCALL_ID_GETDENTS64); ("SET_TID_ADDRESS", LINX_SYSCALL_ID_SET_TID_ADDRESS);
   ("RESTART_SYSCALL", LINX_SYSCALL_ID_RESTART_SYSCALL); ("SEMTIMEDOP", LINX_SYSCALL_ID_SEMTIMEDOP);
   ("FADVISE64", LINX_SYSCALL_ID_FADVISE64); ("TIMER_CREATE", LINX_SYSCALL_ID_TIMER_CREATE);
   ("TIMER_SETTIME", LINX_SYSCALL_ID_TIMER_SETTIME); ("TIMER_GETTIME", LINX_SYSCALL_ID_TIMER_GETTIME);
   ("TIMER_GETOVERRUN", LINX_SYSCALL_ID_TIMER_GETOVERRUN); ("TIMER_DELETE", LINX_SYSCALL_ID_TIMER_DELETE);
   ("CLOCK_SETTIME", LINX_SYSCALL_ID_CLOCK_SETTIME); ("CLOCK_GETTIME", LINX_SYSCALL_ID_CLOCK_GETTIME);
   ("CLOCK_GETRES", LINX_SYSCALL_ID_CLOCK_GETRES); ("CLOCK_NANOSLEEP", LINX_SYSCALL_ID_CLOCK_NANOSLEEP);
   ("EXIT_GROUP", LINX_SYSCALL_ID_EXIT_GROUP); ("EPOLL_WAIT", LINX_SYSCALL_ID_EPOLL_WAIT);
   ("EPOLL_CTL", LINX_SYSCALL_ID_EPOLL_CTL); ("TGKILL", LINX_SYSCALL_ID_TGKILL); ("UTIMES", LINX_SYSCALL_ID_UTIMES);
   ("MBIND", LINX_SYSCALL_ID_MBIND); ("SET_MEMPOLICY", LINX_SYSCALL_ID_SET_MEMPOLICY);
   ("GET_MEMPOLICY", LINX_SYSCALL_ID_GET_MEMPOLICY); ("MQ_OPEN", LINX_SYSCALL_ID_MQ_OPEN);
   ("MQ_UNLINK", LINX_SYSCALL_ID_MQ_UNLINK); ("MQ_TIMEDSEND", LINX_SYSCALL_ID_MQ_TIMEDSEND);
   ("MQ_TIMEDRECEIVE", LINX_SYSCALL_ID_MQ_TIMEDRECEIVE); ("MQ_NOTIFY", LINX_SYSCALL_ID_MQ_NOTIFY);
   ("MQ_GETSETATTR", LINX_SYSCALL_ID_MQ_GETSETATTR); ("KEXEC_LOAD", LINX_SYSCALL_ID_KEXEC_LOAD);
   ("WAITID", LINX_SYSCALL_ID_WAITID); ("ADD_KEY", LINX_SYSCALL_ID_ADD_KEY);
   ("REQUEST_KEY", LINX_SYSCALL_ID_REQUEST_KEY); ("KEYCTL", LINX_SYSCALL_ID_KEYCTL);
   ("IOPRIO_SET", LINX_SYSCALL_ID_IOPRIO_SET); ("IOPRIO_GET", LINX_SYSCALL_ID_IOPRIO_GET);
   ("INOTIFY_INIT", LINX_SYSCALL_ID_INOTIFY_INIT); ("INOTIFY_ADD_WATCH", LINX_SYSCALL_ID_INOTIFY_ADD_WATCH);
   ("INOTIFY_RM_WATCH", LINX_SYSCALL_ID_INOTIFY_RM_WATCH); ("MIGRATE_PAGES", LINX_SYSCALL_ID_MIGRATE_PAGES);
   ("OPENAT", LINX_SYSCALL_ID_OPENAT); ("MKDIRAT", LINX_SYSCALL_ID_MKDIRAT); ("MKNODAT", LINX_SYSCALL_ID_MKNODAT);
   ("FCHOWNAT", LINX_SYSCALL_ID_FCHOWNAT); ("FUTIMESAT", LINX_SYSCALL_ID_FUTIMESAT);
   ("NEWFSTATAT", LINX_SYSCALL_ID_NEWFSTATAT); ("UNLINKAT", LINX_SYSCALL_ID_UNLINKAT);
   ("RENAMEAT", LINX_SYSCALL_ID_RENAMEAT); ("LINKAT", LINX_SYSCALL_ID_LINKAT);
   ("SYMLINKAT", LINX_SYSCALL_ID_SYMLINKAT); ("READLINKAT", LINX_SYSCALL_ID_READLINKAT);
   ("FCHMODAT", LINX_SYSCALL_ID_FCHMODAT); ("FACCESSAT", LINX_SYSCALL_ID_FACCESSAT);
   ("PSELECT6", LINX_SYSCALL_ID_PSELECT6); ("PPOLL", LINX_SYSCALL_ID_PPOLL); ("UNSHARE", LINX_SYSCALL_ID_UNSHARE);
   ("SET_ROBUST_LIST", LINX_SYSCALL_ID_SET_ROBUST_LIST); ("GET_ROBUST_LIST", LINX_SYSCALL_ID_GET_ROBUST_LIST);
   ("SPLICE", LINX_SYSCALL_ID_SPLICE); ("TEE", LINX_SYSCALL_ID_TEE);
   ("SYNC_FILE_RANGE", LINX_SYSCALL_ID_SYNC_FILE_RANGE); ("VMSPLICE", LINX_SYSCALL_ID_VMSPLICE);
   ("MOVE_PAGES", LINX_SYSCALL_ID_MOVE_PAGES); ("UTIMENSAT", LINX_SYSCALL_ID_UTIMENSAT);
   ("EPOLL_PWAIT", LINX_SYSCALL_ID_EPOLL_PWAIT); ("SIGNALFD", LINX_SYSCALL_ID_SIGNALFD);
   ("TIMERFD_CREATE", LINX_SYSCALL_ID_TIMERFD_CREATE); ("EVENTFD", LINX_SYSCALL_ID_EVENTFD);
   ("FALLOCATE", LINX_SYSCALL_ID_FALLOCATE); ("TIMERFD_SETTIME", LINX_SYSCALL_ID_TIMERFD_SETTIME);
   ("TIMERFD_GETTIME", LINX_SYSCALL_ID_TIMERFD_GETTIME); ("ACCEPT4", LINX_SYSCALL_ID_ACCEPT4);
   ("SIGNALFD4", LINX_SYSCALL_ID_SIGNALFD4); ("EVENTFD2", LINX_SYSCALL_ID_EVENTFD2);
   ("EPOLL_CREATE1", LINX_SYSCALL_ID_EPOLL_CREATE1); ("DUP3", LINX_SYSCALL_ID_DUP3); ("PIPE2", LINX_SYSCALL_ID_PIPE2);
   ("INOTIFY_INIT1", LINX_SYSCALL_ID_INOTIFY_INIT1); ("PREADV", LINX_SYSCALL_ID_PREADV);
   ("PWRITEV", LINX_SYSCALL_ID_PWRITEV); ("RT_TGSIGQUEUEINFO", LINX_SYSCALL_ID_RT_TGSIGQUEUEINFO)].

Definition linx_syscall_ids_3 : list (string * Z) :=
  [("PERF_EVENT_OPEN", LINX_SYSCALL_ID_PERF_EVENT_OPEN); ("RECVMMSG", LINX_SYSCALL_ID_RECVMMSG);
   ("FANOTIFY_INIT", LINX_SYSCALL_ID_FANOTIFY_INIT); ("FANOTIFY_MARK", LINX_SYSCALL_ID_FANOTIFY_MARK);
   ("PRLIMIT64", LINX_SYSCALL_ID_PRLIMIT64); ("NAME_TO_HANDLE_AT", LINX_SYSCALL_ID_NAME_TO_HANDLE_AT);
   ("OPEN_BY_HANDLE_AT", LINX_SYSCALL_ID_OPEN_BY_HANDLE_AT); ("CLOCK_ADJTIME", LINX_SYSCALL_ID_CLOCK_ADJTIME);
   ("SYNCFS", LINX_SYSCALL_ID_SYNCFS); ("SENDMMSG", LINX_SYSCALL_ID_SENDMMSG); ("SETNS", LINX_SYSCALL_ID_SETNS);
   ("GETCPU", LINX_SYSCALL_ID_GETCPU); ("PROCESS_VM_READV", LINX_SYSCALL_ID_PROCESS_VM_READV);
   ("PROCESS_VM_WRITEV", LINX_SYSCALL_ID_PROCESS_VM_WRITEV); ("KCMP", LINX_SYSCALL_ID_KCMP);
   ("FINIT_MODULE", LINX_SYSCALL_ID_FINIT_MODULE); ("SCHED_SETATTR", LINX_SYSCALL_ID_SCHED_SETATTR);
   ("SCHED_GETATTR", LINX_SYSCALL_ID_SCHED_GETATTR); ("RENAMEAT2", LINX_SYSCALL_ID_RENAMEAT2);
   ("SECCOMP", LINX_SYSCALL_ID_SECCOMP); ("GETRANDOM", LINX_SYSCALL_ID_GETRANDOM);
   ("MEMFD_CREATE", LINX_SYSCALL_ID_MEMFD_CREATE); ("KEXEC_FILE_LOAD", LINX_SYSCALL_ID_KEXEC_FILE_LOAD);
   ("BPF", LINX_SYSCALL_ID_BPF); ("EXECVEAT", LINX_SYSCALL_ID_EXECVEAT); ("USERFAULTFD", LINX_SYSCALL_ID_USERFAULTFD);
   ("MEMBARRIER", LINX_SYSCALL_ID_MEMBARRIER); ("MLOCK2", LINX_SYSCALL_ID_MLOCK2);
   ("COPY_FILE_RANGE", LINX_SYSCALL_ID_COPY_FILE_RANGE); ("PREADV2", LINX_SYSCALL_ID_PREADV2);
   ("PWRITEV2", LINX_SYSCALL_ID_PWRITEV2); ("PKEY_MPROTECT", LINX_SYSCALL_ID_PKEY_MPROTECT);
   ("PKEY_ALLOC", LINX_SYSCALL_ID_PKEY_ALLOC); ("PKEY_FREE", LINX_SYSCALL_ID_PKEY_FREE);
   ("STATX", LINX_SYSCALL_ID_STATX); ("IO_PGETEVENTS", LINX_SYSCALL_ID_IO_PGETEVENTS); ("RSEQ", LINX_SYSCALL_ID_RSEQ);
   ("PIDFD_SEND_SIGNAL", LINX_SYSCALL_ID_PIDFD_SEND_SIGNAL); ("IO_URING_SETUP", LINX_SYSCALL_ID_IO_URING_SETUP);
   ("IO_URING_ENTER", LINX_SYSCALL_ID_IO_URING_ENTER); ("IO_URING_REGISTER", LINX_SYSCALL_ID_IO_URING_REGISTER);
   ("OPEN_TREE", LINX_SYSCALL_ID_OPEN_TREE); ("MOVE_MOUNT", LINX_SYSCALL_ID_MOVE_MOUNT);
   ("FSOPEN", LINX_SYSCALL_ID_FSOPEN); ("FSCONFIG", LINX_SYSCALL_ID_FSCONFIG); ("FSMOUNT", LINX_SYSCALL_ID_FSMOUNT);
   ("FSPICK", LINX_SYSCALL_ID_FSPICK); ("PIDFD_OPEN", LINX_SYSCALL_ID_PIDFD_OPEN); ("CLONE3", LINX_SYSCALL_ID_CLONE3);
   ("CLOSE_RANGE", LINX_SYSCALL_ID_CLOSE_RANGE); ("OPENAT2", LINX_SYSCALL_ID_OPENAT2);
   ("PIDFD_GETFD", LINX_SYSCALL_ID_PIDFD_GETFD); ("FACCESSAT2", LINX_SYSCALL_ID_FACCESSAT2);
   ("PROCESS_MADVISE", LINX_SYSCALL_ID_PROCESS_MADVISE); ("EPOLL_PWAIT2", LINX_SYSCALL_ID_EPOLL_PWAIT2);
   ("MOUNT_SETATTR", LINX_SYSCALL_ID_MOUNT_SETATTR); ("QUOTACTL_FD", LINX_SYSCALL_ID_QUOTACTL_FD);
   ("LANDLOCK_CREATE_RULESET", LINX_SYSCALL_ID_LANDLOCK_CREATE_RULESET);
   ("LANDLOCK_ADD_RULE", LINX_SYSCALL_ID_LANDLOCK_ADD_RULE);
   ("LANDLOCK_RESTRICT_SELF", LINX_SYSCALL_ID_LANDLOCK_RESTRICT_SELF); ("MEMFD_SECRET", LINX_SYSCALL_ID_MEMFD_SECRET);
   ("PROCESS_MRELEASE", LINX_SYSCALL_ID_PROCESS_MRELEASE); ("FUTEX_WAITV", LINX_SYSCALL_ID_FUTEX_WAITV);
   ("SET_MEMPOLICY_HOME_NODE", LINX_SYSCALL_ID_SET_MEMPOLICY_HOME_NODE); ("CACHESTAT", LINX_SYSCALL_ID_CACHESTAT);
   ("FCHMODAT2", LINX_SYSCALL_ID_FCHMODAT2)].

Definition linx_syscall_ids : list (string * Z) := linx_syscall_ids_1 ++ linx_syscall_ids_2 ++ linx_syscall_ids_3.

(** ** Facts *)
Lemma syscall_row_in r : r ∈ syscall_rows → syscall_row (st_id r) = r.
Proof.
  intros Hr. unfold syscall_row, syscall_map.
  rewrite (elem_of_list_to_map_1 _ (st_id r) r); [done| |].
  - rewrite <- list_fmap_compose. apply (bool_decide_eq_true_1 (NoDup _)). vm_compute. reflexivity.
  - by apply list_elem_of_fmap_2' with (x := r).
Qed.

Lemma syscall_row_cases id : syscall_row id = zero_row ∨ syscall_row id ∈ syscall_rows ∧ st_id (syscall_row id) = id.
Proof.
  unfold syscall_row. destruct (syscall_map !! id) as [r|] eqn:E; cbn; [right|by left].
  apply elem_of_list_to_map_2 in E. apply list_elem_of_fmap in E as (r' & [= -> ->] & Hr). done.
Qed.

(** A row is in order: its number is in the array, it declares as many
    parameters as it counts, with names, and its programs carry its name. *)
Definition row_ok (r : linx_syscall_table_t) : bool :=
  bool_decide (0 ≤ st_id r < LINX_SYSCALL_MAX_IDX)
  && bool_decide (0 ≤ enter_num r ≤ 6) && bool_decide (exit_num r = 1)
  && match st_name r with
     | Some n => bool_decide (ebpf_prog_name r = [Some (n +:+ "_e"); Some (n +:+ "_x")])
     | None => false
     end
  && bool_decide (length (param_name r) = 6%nat) && bool_decide (length (enter_type r) = 6%nat)
  && forallb (λ i, bool_decide (is_Some (param_name r !! i ≫= id)) || bool_decide (Z.to_nat (enter_num r) ≤ i)%nat)
       (seq 0 6)
  && bool_decide (exit_type r = [LINX_TYPE_INT64]).

Lemma syscall_rows_checked : forallb row_ok syscall_rows = true.
Proof. vm_compute. reflexivity. Qed.

Lemma syscall_row_ok r : r ∈ syscall_rows → row_ok r = true.
Proof.
  intros Hr. pose proof syscall_rows_checked as H. rewrite forallb_forall in H. by apply H, list_elem_of_In.
Qed.

(** *** The parameters, in the words of the table of events

    userspace's linx_event_table.c lists the calls a second time, twice per
    call, with the parameters of the call in the event of its return. *)
Definition field_type_of (t : linx_type_t) : linx_field_type_t :=
  match t with
  | LINX_TYPE_NONE => LINX_FIELD_TYPE_UNKNOWN
  | LINX_TYPE_INT8 => LINX_FIELD_TYPE_INT8
  | LINX_TYPE_INT16 => LINX_FIELD_TYPE_INT16
  | LINX_TYPE_INT32 => LINX_FIELD_TYPE_INT32
  | LINX_TYPE_INT64 => LINX_FIELD_TYPE_INT64
  | LINX_TYPE_UINT8 => LINX_FIELD_TYPE_UINT8
  | LINX_TYPE_UINT16 => LINX_FIELD_TYPE_UINT16
  | LINX_TYPE_UINT32 => LINX_FIELD_TYPE_UINT32
  | LINX_TYPE_UINT64 => LINX_FIELD_TYPE_UINT64
  | LINX_TYPE_CHARBUF => LINX_FIELD_TYPE_CHARBUF
  | LINX_TYPE_BYTEBUF => LINX_FIELD_TYPE_BYTEBUF
  end.

Definition row_parameters (r : linx_syscall_table_t) : list (option string * linx_field_type_t) :=
  take (Z.to_nat (enter_num r)) (zip (param_name r) (field_type_of <$> enter_type r)).

Definition event_parameters (i : Z) : option (list (option string * linx_field_type_t)) :=
  (λ e, (λ p, (Some (lp_name p), lp_type p)) <$> le_params e) <$> g_linx_event_table i.

(** The nine calls whose parameters the two tables give differently, as the
    table of system calls has them. *)
Definition parameters_otherwise : list (Z * list (option string * linx_field_type_t)) :=
  [(0, [(Some "fd", LINX_FIELD_TYPE_UINT32); (Some "buf", LINX_FIELD_TYPE_CHARBUF); (Some "count", LINX_FIELD_TYPE_UINT64)]);
   (1, [(Some "fd", LINX_FIELD_TYPE_UINT32); (Some "buf", LINX_FIELD_TYPE_CHARBUF); (Some "count", LINX_FIELD_TYPE_UINT64)]);
   (32, [(Some "fildes", LINX_FIELD_TYPE_UINT32)]);
   (33, [(Some "oldfd", LINX_FIELD_TYPE_UINT32); (Some "newfd", LINX_FIELD_TYPE_UINT32)]);
   (44, [(Some "fd", LINX_FIELD_TYPE_INT32); (Some "buff", LINX_FIELD_TYPE_UNKNOWN); (Some "len", LINX_FIELD_TYPE_UINT64);
         (Some "flags", LINX_FIELD_TYPE_UINT32); (Some "addr", LINX_FIELD_TYPE_UNKNOWN); (Some "addr_len", LINX_FIELD_TYPE_INT32)]);
   (45, [(Some "fd", LINX_FIELD_TYPE_INT32); (Some "ubuf", LINX_FIELD_TYPE_UNKNOWN); (Some "size", LINX_FIELD_TYPE_UINT64);
         (Some "flags", LINX_FIELD_TYPE_UINT32); (Some "addr", LINX_FIELD_TYPE_UNKNOWN); (Some "addr_len", LINX_FIELD_TYPE_UNKNOWN)]);
   (59, [(Some "filename", LINX_FIELD_TYPE_CHARBUF); (Some "argv", LINX_FIELD_TYPE_UNKNOWN); (Some "envp", LINX_FIELD_TYPE_UNKNOWN)]);
   (257, [(Some "dfd", LINX_FIELD_TYPE_INT32); (Some "filename", LINX_FIELD_TYPE_CHARBUF); (Some "flags", LINX_FIELD_TYPE_INT32);
          (Some "mode", LINX_FIELD_TYPE_UINT16)]);
   (292, [(Some "oldfd", LINX_FIELD_TYPE_UINT32); (Some "newfd", LINX_FIELD_TYPE_UINT32); (Some "flags", LINX_FIELD_TYPE_INT32)])].

Definition row_agrees (r : linx_syscall_table_t) : bool :=
  bool_decide (st_name r = Some (slower (st_up_name r)))
  && bool_decide (le_name <$> g_linx_event_table (2 * st_id r) = Some (slower (st_up_name r)))
  && bool_decide (Some (row_parameters r) =
       match List.find (λ x, x.1 =? st_id r) parameters_otherwise with
       | Some (_, ps) => Some ps
       | None => event_parameters (2 * st_id r + 1)
       end).

Lemma rows_agree_checked : forallb row_agrees syscall_rows = true.
Proof. vm_compute. reflexivity. Qed.

Lemma parameters_functional i ps ps' :
  (i, ps) ∈ parameters_otherwise → (i, ps') ∈ parameters_otherwise → ps = ps'.
Proof.
  assert (NoDup parameters_otherwise.*1) as Hnd by (apply (bool_decide_eq_true_1 (NoDup parameters_otherwise.*1)); by vm_compute).
  intros H1 H2. revert Hnd H1 H2. generalize parameters_otherwise. intros l. induction l as [|[j q] l IH]; cbn.
  - intros _ H. inversion H.
  - intros [Hni Hnd]%NoDup_cons. rewrite !elem_of_cons. intros [E1|H1] [E2|H2]; simplify_eq; try done.
    + by destruct Hni; apply list_elem_of_fmap_2' with (x := (j, ps')).
    + by destruct Hni; apply list_elem_of_fmap_2' with (x := (j, ps)).
    + by apply IH.
Qed.

Lemma row_agrees_spec r :
  r ∈ syscall_rows →
  st_name r = Some (slower (st_up_name r))
  ∧ (∃ e, g_linx_event_table (2 * st_id r) = Some e ∧ le_name e = slower (st_up_name r))
  ∧ ((∀ ps, (st_id r, ps) ∉ parameters_otherwise) → event_parameters (2 * st_id r + 1) = Some (row_parameters r))
  ∧ (∀ ps, (st_id r, ps) ∈ parameters_otherwise → row_parameters r = ps).
Proof.
  intros Hr. pose proof rows_agree_checked as H. rewrite forallb_forall in H. apply list_elem_of_In, H in Hr. clear H.
  unfold row_agrees in Hr. rewrite !andb_true_iff, !bool_decide_eq_true in Hr. destruct Hr as [[Hn He] Hp].
  split; [done|]. split; [by apply fmap_Some in He as (e & He & Hne); exists e|].
  destruct (List.find _ parameters_otherwise) as [[j ps0]|] eqn:Ef.
  - apply List.find_some in Ef as [Hin Hj]. cbn in Hj. apply Z.eqb_eq in Hj as ->. apply list_elem_of_In in Hin.
    split; [intros Hno; by destruct (Hno ps0)|]. intros ps Hps. injection Hp as ->. by eapply parameters_functional.
  - split; [done|]. intros ps Hps%list_elem_of_In. apply (List.find_none _ _ Ef) in Hps. cbn in Hps. by rewrite Z.eqb_refl in Hps.
Qed.

(** C37: the tables and the enumerations of the calls agree.  A name of
    linx_syscall_id.h has the number that the table's line of the same name
    gives, every line of the table has such a name, and the line at a number
    of the list is the line of that name, the others are empty; the types of
    events are numbered after the calls, twice the number for the entry and
    one more for the return.  A line is named by its upper-case name in small
    letters, and by the table of events as well; its parameters have the
    names and types of the event of the return, but for nine calls, whose
    parameters are those of [parameters_otherwise]. *)
Theorem syscall_table_agrees :
  (λ r, (st_up_name r, st_id r)) <$> syscall_rows = linx_syscall_ids ∧
  (∀ n i, (n, i) ∈ linx_syscall_ids → ∃ r,
     g_linx_syscall_table i = Ret [] r ∧ st_up_name r = n ∧ st_id r = i ∧ row_ok r = true
     ∧ st_name r = Some (slower n)
     ∧ (∃ e, g_linx_event_table (2 * i) = Some e ∧ le_name e = slower n)
     ∧ ((∀ ps, (i, ps) ∉ parameters_otherwise) → event_parameters (2 * i + 1) = Some (row_parameters r))
     ∧ (∀ ps, (i, ps) ∈ parameters_otherwise → row_parameters r = ps)) ∧
  (∀ i, 0 ≤ i < LINX_SYSCALL_MAX_IDX → (∀ n, (n, i) ∉ linx_syscall_ids) →
     g_linx_syscall_table i = Ret [] zero_row) ∧
  linx_event_types = concat ((λ x, [(x.1 +:+ "_E", 2 * x.2); (x.1 +:+ "_X", 2 * x.2 + 1)]) <$> linx_syscall_ids) ∧
  LINX_EVENT_TYPE_MAX = 2 * LINX_SYSCALL_MAX_IDX.
Proof.
  assert ((λ r, (st_up_name r, st_id r)) <$> syscall_rows = linx_syscall_ids) as He by (vm_compute; reflexivity).
  split; [exact He|]. split; [|split; [|split; [by vm_compute|done]]]; rewrite <- He.
  - intros n i Hi. apply list_elem_of_fmap in Hi as (r & [= -> ->] & Hr). exists r.
    pose proof (syscall_row_ok _ Hr) as Hok. split; [|split; [done|split; [done|split; [done|by apply row_agrees_spec]]]].
    unfold g_linx_syscall_table. assert (0 ≤ st_id r < LINX_SYSCALL_MAX_IDX) as Hb.
    { unfold row_ok in Hok. rewrite !andb_true_iff in Hok. destruct Hok as [[[[[[[Hok _] _] _] _] _] _] _].
      by apply bool_decide_eq_true in Hok. }
    destruct (Z.leb_spec 0 (st_id r)), (Z.ltb_spec (st_id r) LINX_SYSCALL_MAX_IDX); try lia.
    cbn. by rewrite syscall_row_in.
  - intros i Hb Hn. unfold g_linx_syscall_table.
    destruct (Z.leb_spec 0 i), (Z.ltb_spec i LINX_SYSCALL_MAX_IDX); try lia. cbn [andb].
    destruct (syscall_row_cases i) as [->|[Hr Hi]]; [done|].
    destruct (Hn (st_up_name (syscall_row i))). rewrite <- Hi at 2.
    by apply list_elem_of_fmap_2' with (x := syscall_row i).
Qed.

(** The line of openat, one of the nine. *)
Lemma syscall_table_agrees_ex :
  ∃ r, g_linx_syscall_table 257 = Ret [] r ∧ st_name r = Some "openat"
  ∧ row_parameters r = [(Some "dfd", LINX_FIELD_TYPE_INT32); (Some "filename", LINX_FIELD_TYPE_CHARBUF);
      (Some "flags", LINX_FIELD_TYPE_INT32); (Some "mode", LINX_FIELD_TYPE_UINT16)].
Proof.
  destruct (proj1 (proj2 syscall_table_agrees) "OPENAT" 257) as (r & Hr & _ & _ & _ & Hn & _ & _ & Hp).
  - vm_compute. repeat first [left; reflexivity|right].
  - exists r. split; [exact Hr|]. split; [exact Hn|]. apply Hp. vm_compute. repeat first [left; reflexivity|right].
Defined.

(** The types of events (include/linx_event_type.h) are numbered after the
    calls: twice the number for the entry, one more for the return. *)
Theorem event_types_agree :
  linx_event_types = concat ((λ r, [(st_up_name r +:+ "_E", 2 * st_id r); (st_up_name r +:+ "_X", 2 * st_id r + 1)]) <$> syscall_rows)
  ∧ LINX_EVENT_TYPE_MAX = 2 * LINX_SYSCALL_MAX_IDX.
Proof. split; vm_compute; reflexivity. Qed.
