(* ===== verification/CollectorPath.v ===== *)
(** * The path of a file (kernel/ebpf/ebpf/include/ringbuf_func.h)

    The collector writes into its events the paths of the open files and of the
    executable of a process.  [linx_get_file_path] walks from the directory
    entry of the file to the root, collecting at most twelve names, and prints
    them in reverse.  Kernel objects are addresses: every member is read with
    [bpf_probe_read], whose answers are part of [kernel], and the offsets of
    the members, which the loader takes from the running kernel, are a
    parameter. *)
From S2P Require Import Prelude CString Memory EventType Bpf.

#[local] Open Scope Z_scope.

Definition FILE_PATH_MAX_DEPTH : nat := 12.
Definition LINX_PATH_MAX_SIZE : Z := 256.

(** Offsets in struct file, mount, vfsmount and dentry. *)
Record layout := mk_layout {
  o_f_path_dentry : Z;
  o_f_path_mnt : Z;
  o_mnt : Z;
  o_mnt_parent : Z;
  o_mnt_mountpoint : Z;
  o_mnt_root : Z;
  o_d_parent : Z;
  o_d_name : Z
}.

(** A name of a directory entry: where its text is, and its length. *)
Record qstr := mk_qstr { q_name : Z; q_len : Z }.

Definition le_value (bs : list Z) : Z := foldr (λ b v, b + 256 * v) 0 bs.

(** The state of the walk: entry, its mount and the pointer the mount's root is
    read through, and the names so far. *)
Record walk := mk_walk { w_dentry : Z; w_mnt : Z; w_vfsmnt : Z; w_components : list qstr }.

Section path.
Context (k : kernel) (lay : layout).

(** A pointer member; the callers stop at a failure and at a null pointer. *)
Definition read_pointer (a : Z) : option Z :=
  p ← le_value <$> bpf_probe_read k KERNEL a 8;
  if p =? 0 then None else Some p.

(** [struct qstr]: hash and length, four bytes each, and the pointer. *)
Definition read_qstr (a : Z) : option qstr :=
  (λ bs, mk_qstr (le_value (drop 8 bs)) (le_value (take 4 (drop 4 bs)))) <$> bpf_probe_read k KERNEL a 16.

Definition add_component (q : qstr) (w : walk) : list qstr :=
  if (0 <? q_len q) && (length (w_components w) <? FILE_PATH_MAX_DEPTH)%nat then w_components w ++ [q] else w_components w.

(** The body of the first loop; [None] is its [break].  At the root of a mount
    the walk goes on at the mount point.  The pointer [vfsmnt] is then read
    from the address of the member [mnt->mnt], not set to it. *)
Definition path_step (w : walk) : option walk :=
  mnt_parent ← read_pointer (w_mnt w + o_mnt_parent lay);
  dentry_mnt ← read_pointer (w_vfsmnt w + o_mnt_root lay);
  dentry_parent ← read_pointer (w_dentry w + o_d_parent lay);
  if (w_dentry w =? dentry_mnt) || (w_dentry w =? dentry_parent) then
    if negb (w_dentry w =? dentry_mnt) || negb (w_mnt w =? mnt_parent) then
      dentry ← read_pointer (w_mnt w + o_mnt_mountpoint lay);
      mnt ← le_value <$> bpf_probe_read k KERNEL (w_mnt w + o_mnt_parent lay) 8;
      vfsmnt ← read_pointer (mnt + o_mnt lay);
      Some (mk_walk dentry mnt vfsmnt (w_components w))
    else None
  else
    qname ← read_qstr (w_dentry w + o_d_name lay);
    Some (mk_walk dentry_parent (w_mnt w) (w_vfsmnt w) (add_component qname w)).

Fixpoint path_loop (fuel : nat) (w : walk) : list qstr :=
  match fuel with
  | O => w_components w
  | S fuel => match path_step w with Some w => path_loop fuel w | None => w_components w end
  end.

(** The second loop: [acc] is what is in [buf] before [pos]. *)
Fixpoint put_components (size : Z) (names : list qstr) (acc : string) : string :=
  match names with
  | [] => acc
  | q :: names =>
      let pos := Z.of_nat (strlen acc) in
      if size - 1 <=? pos then acc
      else
        let acc := acc +:+ "/" in
        match bpf_probe_read_str k KERNEL (q_name q) (size - (pos + 1)) with
        | None => acc
        | Some bs => put_components size names (acc +:+ text bs)
        end
  end.

(** The code and the text in [buf], which is cleared first. *)
Definition linx_get_file_path (file size : Z) : Z * string :=
  match read_pointer (file + o_f_path_dentry lay), read_pointer (file + o_f_path_mnt lay) with
  | Some dentry, Some vfsmnt =>
      let mnt := vfsmnt - o_mnt lay in
      if mnt =? 0 then (-1, "")
      else
        match path_loop FILE_PATH_MAX_DEPTH (mk_walk dentry mnt vfsmnt []) with
        | [] => (-1, "")
        | components =>
            let s := put_components size (rev components) "" in (Z.of_nat (strlen s), s)
        end
  | _, _ => (-1, "")
  end.
End path.

(** ** Names of a chain of entries

    [chain r d names e]: from [d] to [e] through parents, none of which but
    [e] is [r] or its own parent, with the names on the way. *)
Section chain.
Context (k : kernel) (lay : layout).

Definition name_at (q : qstr) (s : string) : Prop :=
  no_nul s = true ∧ 0 < q_len q
  ∧ ∀ lim, Z.of_nat (strlen s) < lim → bpf_probe_read_str k KERNEL (q_name q) lim = Some (cstr_bytes s).

Inductive chain (r : Z) : Z → list (qstr * string) → Z → Prop :=
  | chain_end e : chain r e [] e
  | chain_up d p q s names e :
      read_pointer k (d + o_d_parent lay) = Some p → d ≠ r → d ≠ p →
      read_qstr k (d + o_d_name lay) = Some q → name_at q s →
      chain r p names e → chain r d ((q, s) :: names) e.

(** A walk stands in a mount. *)
Definition in_mount (w : walk) (mnt_parent r : Z) : Prop :=
  read_pointer k (w_mnt w + o_mnt_parent lay) = Some mnt_parent
  ∧ read_pointer k (w_vfsmnt w + o_mnt_root lay) = Some r.

(** A path is printed from the root. *)
Fixpoint path_text (names : list string) : string :=
  match names with [] => "" | s :: names => "/" +:+ s +:+ path_text names end.

Lemma path_text_app a b : path_text (a ++ b) = path_text a +:+ path_text b.
Proof. induction a as [|s a IH]; cbn; [done|]. by rewrite IH, sapp_assoc. Qed.

Lemma text_cstr s : no_nul s = true → text (cstr_bytes s) = s.
Proof.
  induction s as [|c s IH]; cbn; [done|]. intros [Hc Hs]%andb_true_iff. apply negb_true_iff in Hc.
  by rewrite Hc, chr_code, IH.
Qed.

(** The second loop prints what fits. *)
Lemma put_components_names size names acc :
  Forall (λ x, name_at x.1 x.2) names →
  Z.of_nat (strlen acc) + Z.of_nat (strlen (path_text names.*2)) < size →
  put_components k size names.*1 acc = acc +:+ path_text names.*2.
Proof.
  revert acc. induction names as [|[q s] names IH]; intros acc Hn Hl; cbn; [by rewrite sapp_nil_r|].
  inversion Hn as [|? ? (Hs & _ & Hr) Hn']; subst. cbn in Hl, Hr. rewrite strlen_app in Hl.
  destruct (Z.leb_spec (size - 1) (Z.of_nat (strlen acc))); [lia|]. rewrite Hr by lia.
  rewrite text_cstr, IH by (done || (rewrite !strlen_app; cbn; lia)). by rewrite !sapp_assoc.
Qed.

(** The first loop collects the names of a chain. *)
Lemma path_loop_chain n r d names e w mp :
  chain r d names e → in_mount w mp r → w_dentry w = d →
  (length (w_components w) + length names ≤ FILE_PATH_MAX_DEPTH)%nat →
  path_loop k lay (length names + n) w
  = path_loop k lay n (mk_walk e (w_mnt w) (w_vfsmnt w) (w_components w ++ names.*1)).
Proof.
  intros Hc. revert w. induction Hc as [e|d p q s names e Hp Hr Hd Hq (Hs & Hlen & _) _ IH]; intros w Hm Hw Hl.
  - cbn. rewrite app_nil_r, <- Hw. by destruct w.
  - cbn [length Nat.add path_loop fmap list_fmap fst] in *. destruct Hm as [Hm1 Hm2]. subst d.
    unfold path_step. rewrite Hm1, Hm2. cbn [mbind option_bind]. rewrite Hp. cbn [mbind option_bind].
    rewrite (proj2 (Z.eqb_neq _ _) Hr), (proj2 (Z.eqb_neq _ _) Hd). cbn [orb]. rewrite Hq. cbn [mbind option_bind].
    unfold add_component. rewrite (proj2 (Z.ltb_lt _ _) Hlen).
    destruct (Nat.ltb_spec (length (w_components w)) FILE_PATH_MAX_DEPTH); [|lia]. cbn [andb].
    rewrite IH; [cbn [w_components w_mnt w_vfsmnt]; by rewrite <- app_assoc|done|done|]. cbn [w_components]. rewrite length_app. cbn. lia.
Qed.

(** More than twelve names: the rest is left out. *)
Lemma path_loop_full n r d names e w mp :
  chain r d names e → in_mount w mp r → w_dentry w = d →
  (n ≤ length names)%nat → (length (w_components w) + n ≤ FILE_PATH_MAX_DEPTH)%nat →
  path_loop k lay n w = w_components w ++ (take n names).*1.
Proof.
  intros Hc. revert w n. induction Hc as [e|d p q s names e Hp Hr Hd Hq (Hs & Hlen & _) _ IH]; intros w n Hm Hw Hn Hl.
  - cbn in Hn. destruct n; [|lia]. cbn. by rewrite app_nil_r.
  - destruct n as [|n]; [cbn; by rewrite app_nil_r|]. cbn [length path_loop take fmap list_fmap fst] in *.
    destruct Hm as [Hm1 Hm2]. subst d.
    unfold path_step. rewrite Hm1, Hm2. cbn [mbind option_bind]. rewrite Hp. cbn [mbind option_bind].
    rewrite (proj2 (Z.eqb_neq _ _) Hr), (proj2 (Z.eqb_neq _ _) Hd). cbn [orb]. rewrite Hq. cbn [mbind option_bind].
    unfold add_component. rewrite (proj2 (Z.ltb_lt _ _) Hlen).
    destruct (Nat.ltb_spec (length (w_components w)) FILE_PATH_MAX_DEPTH); [|lia]. cbn [andb].
    rewrite IH; [cbn [w_components w_mnt w_vfsmnt]; by rewrite <- app_assoc|done|done|lia|]. cbn [w_components]. rewrite length_app. cbn. lia.
Qed.

Lemma fmap_rev {A B} (f : A → B) (l : list A) : f <$> rev l = rev (f <$> l).
Proof. exact (List.map_rev f l). Qed.

Lemma chain_names r d names e : chain r d names e → Forall (λ x, name_at x.1 x.2) names.
Proof. induction 1; constructor; auto. Qed.

(** At the root of the mount that is its own parent the walk ends. *)
Lemma path_loop_root n w :
  in_mount w (w_mnt w) (w_dentry w) → path_loop k lay n w = w_components w.
Proof.
  intros [H1 H2]. destruct n; cbn; [done|]. unfold path_step. rewrite H1, H2. cbn.
  destruct (read_pointer k (w_dentry w + o_d_parent lay)) as [p|]; cbn; [|done].
  rewrite !Z.eqb_refl. done.
Qed.

(** At the root of a file system without a mount above, read through a pointer
    that is not the mount: the walk turns on the spot. *)
Lemma path_loop_turns n w r :
  in_mount w (w_mnt w) r → w_dentry w ≠ r →
  read_pointer k (w_dentry w + o_d_parent lay) = Some (w_dentry w) →
  read_pointer k (w_mnt w + o_mnt_mountpoint lay) = Some (w_dentry w) →
  read_pointer k (w_mnt w + o_mnt lay) = Some (w_vfsmnt w) →
  path_loop k lay n w = w_components w.
Proof.
  intros [H1 H2] Hr Hd Hm Hv. induction n as [|n IH]; cbn; [done|].
  replace (path_step k lay w) with (Some w); [done|]. unfold path_step. rewrite H1, H2. cbn. rewrite Hd. cbn.
  rewrite (proj2 (Z.eqb_neq _ _) Hr), Z.eqb_refl. cbn. rewrite Hm. cbn.
  assert (le_value <$> bpf_probe_read k KERNEL (w_mnt w + o_mnt_parent lay) 8 = Some (w_mnt w)) as ->.
  { unfold read_pointer in H1. destruct (le_value <$> _) as [p|]; [|done]. cbn in H1. destruct (p =? 0); [done|].
    by injection H1 as ->. }
  cbn. rewrite Hv. by destruct w.
Qed.
End chain.

(** C21: the path of a file in the root mount is printed with its last twelve
    names, from the root: the whole path when the file is at most twelve
    entries deep.  In a mounted file system, the names up to its root are
    followed by those from its mount point to the root, when the two parts
    and the step between them make at most twelve. *)
Theorem file_path_names k lay file size d vfsmnt r mp names e :
  let mnt := vfsmnt - o_mnt lay in
  read_pointer k (file + o_f_path_dentry lay) = Some d →
  read_pointer k (file + o_f_path_mnt lay) = Some vfsmnt →
  mnt ≠ 0 → in_mount k lay (mk_walk d mnt vfsmnt []) mp r →
  chain k lay r d names e → names ≠ [] → e = r →
  (mp = mnt → ∀ p, p = path_text (rev (take 12 names.*2)) → Z.of_nat (strlen p) < size →
     linx_get_file_path k lay file size = (Z.of_nat (strlen p), p))
  ∧ (mp ≠ mnt → ∀ junk vfsmnt' point above root p,
     is_Some (read_pointer k (r + o_d_parent lay)) →
     read_pointer k (mnt + o_mnt_mountpoint lay) = Some point →
     read_pointer k (mp + o_mnt lay) = Some vfsmnt' →
     in_mount k lay (mk_walk point mp vfsmnt' []) mp junk → root ≠ junk →
     read_pointer k (root + o_d_parent lay) = Some root →
     read_pointer k (mp + o_mnt_mountpoint lay) = Some root →
     chain k lay junk point above root →
     (length names + 1 + length above ≤ 12)%nat →
     p = path_text (rev (names.*2 ++ above.*2)) → Z.of_nat (strlen p) < size →
     linx_get_file_path k lay file size = (Z.of_nat (strlen p), p)).
Proof.
  intros mnt Hd Hv Hmnt Hin Hc Hne ->.
  assert (∀ l p, path_loop k lay FILE_PATH_MAX_DEPTH (mk_walk d mnt vfsmnt []) = l.*1 → l ≠ [] →
    Forall (λ x, name_at k x.1 x.2) l → p = path_text (rev l.*2) → Z.of_nat (strlen p) < size →
    linx_get_file_path k lay file size = (Z.of_nat (strlen p), p)) as Hfin.
  { intros l p Hl Hnl Hf -> Hs. unfold linx_get_file_path. rewrite Hd, Hv. fold mnt.
    rewrite (proj2 (Z.eqb_neq _ _) Hmnt), Hl. rewrite <- !fmap_rev in *.
    destruct (l.*1) eqn:El; [by destruct l|]. rewrite <- El, <- fmap_rev.
    rewrite put_components_names; [done|by apply Forall_rev|cbn; lia]. }
  split.
  - intros -> p -> Hs. apply (Hfin (take 12 names)); [| |by apply Forall_take, (chain_names _ _ _ _ _ _ Hc)|by rewrite fmap_take|done].
    + destruct (decide (12 ≤ length names)%nat) as [Hle|Hle].
      * erewrite path_loop_full; [reflexivity|done..].
      * rewrite take_ge by lia. replace FILE_PATH_MAX_DEPTH with (length names + (12 - length names))%nat at 1 by (unfold FILE_PATH_MAX_DEPTH; lia).
        erewrite path_loop_chain; [|done..|cbn; unfold FILE_PATH_MAX_DEPTH; lia]. rewrite path_loop_root; done.
    + by destruct names.
  - intros Hmp junk vfsmnt' point above root p [rp Hrp] Hpt Hv' Hin' Hroot Hrr Hrm Hc' Hl -> Hs.
    apply (Hfin (names ++ above)); [| |by apply Forall_app; eauto using chain_names|by rewrite fmap_app|done].
    + replace FILE_PATH_MAX_DEPTH with (length names + S (length above + (11 - length names - length above)))%nat at 1
        by (unfold FILE_PATH_MAX_DEPTH; lia).
      erewrite path_loop_chain; [|done..|cbn; unfold FILE_PATH_MAX_DEPTH; lia]. cbn [w_mnt w_vfsmnt w_components app path_loop].
      assert (path_step k lay (mk_walk r mnt vfsmnt names.*1) = Some (mk_walk point mp vfsmnt' names.*1)) as ->.
      { destruct Hin as [H1 H2]. unfold path_step. cbn in *. rewrite H1, H2. cbn. rewrite Hrp. cbn. rewrite Z.eqb_refl. cbn.
        rewrite (proj2 (Z.eqb_neq mnt mp)) by done. cbn. rewrite Hpt. cbn.
        assert (le_value <$> bpf_probe_read k KERNEL (mnt + o_mnt_parent lay) 8 = Some mp) as ->.
        { unfold read_pointer in H1. destruct (le_value <$> _) as [q|]; [|done]. cbn in H1. destruct (q =? 0); [done|].
          by injection H1 as ->. }
        cbn. by rewrite Hv'. }
      erewrite path_loop_chain; [|done|done|done|cbn; unfold FILE_PATH_MAX_DEPTH; rewrite length_fmap; lia].
      cbn [w_mnt w_vfsmnt w_components]. rewrite (path_loop_turns _ _ _ _ junk); [by rewrite fmap_app|done..].
    + by destruct names.
Qed.

(** ** Example: /etc/passwd *)
Definition path_memory (l : list (Z * list Z)) : memory := foldr (λ x m, write_bytes m x.1 x.2) ∅ l.

Definition task_none : task_struct := mk_task None None None 0 None None 0.

Definition memory_kernel (m : memory) : kernel :=
  mk_kernel 0 0 0 (replicate 16 0) task_none
    (λ _ a n, mapM (λ i, m !! (a + Z.of_nat i)) (seq 0 n))
    (λ _ a lim, s ← load_cstr m a; Some (if Z.of_nat (strlen s) <? lim then cstr_bytes s else []))
    (λ _, 0%nat) true 0.

Definition layout_ex : layout := mk_layout 0 8 8 0 24 0 0 8.

Definition path_kernel_ex : kernel :=
  memory_kernel (path_memory
    [(1000, le_split 8 2000 ++ le_split 8 3008);
     (3000, le_split 8 3000 ++ le_split 8 2200);
     (2000, le_split 8 2100 ++ le_split 4 7 ++ le_split 4 6 ++ le_split 8 4000);
     (2100, le_split 8 2200 ++ le_split 4 9 ++ le_split 4 3 ++ le_split 8 4100);
     (4000, cstr_bytes "passwd"); (4100, cstr_bytes "etc")]).

Lemma name_at_ex a s n :
  no_nul s = true → 0 < n → load_cstr (path_memory
    [(1000, le_split 8 2000 ++ le_split 8 3008);
     (3000, le_split 8 3000 ++ le_split 8 2200);
     (2000, le_split 8 2100 ++ le_split 4 7 ++ le_split 4 6 ++ le_split 8 4000);
     (2100, le_split 8 2200 ++ le_split 4 9 ++ le_split 4 3 ++ le_split 8 4100);
     (4000, cstr_bytes "passwd"); (4100, cstr_bytes "etc")]) a = Some s →
  name_at path_kernel_ex (mk_qstr a n) s.
Proof.
  intros Hs Hn Hm. split; [done|]. split; [done|]. intros lim Hl. unfold path_kernel_ex, memory_kernel.
  cbn [bpf_probe_read_str q_name]. rewrite Hm. cbn [mbind option_bind]. by rewrite (proj2 (Z.ltb_lt _ _) Hl).
Qed.

Lemma file_path_names_ex : linx_get_file_path path_kernel_ex layout_ex 1000 256 = (11, "/etc/passwd").
Proof.
  apply (proj1 (file_path_names path_kernel_ex layout_ex 1000 256 2000 3008 2200 3000
    [(mk_qstr 4000 6, "passwd"); (mk_qstr 4100 3, "etc")] 2200 ltac:(reflexivity) ltac:(reflexivity) ltac:(done)
    ltac:(split; reflexivity)
    ltac:(repeat (eapply chain_up; [reflexivity|done|done|reflexivity|apply name_at_ex; [done|done|by vm_compute]|]); apply chain_end)
    ltac:(done) ltac:(done)) ltac:(done) _ eq_refl).
  done.
Defined.
