(* ===== verification/CollectorRing.v ===== *)
(** * The events of the collector (kernel/ebpf/ebpf/include/ringbuf_func.h)

    kernel/ebpf/ebpf and kernel/ebpf/plugin are a collector of its own: the
    programs fill an event with the arguments of a system call when it
    returns, and a plugin of Falco prints it.  The event has a header of 3896
    bytes, here a record whose character arrays are the texts in them, and the
    arguments behind it, here a memory.

    [linx_ringbuf_load_event] fills the header of the buffer of the CPU in
    place: what cannot be found for the current process keeps what an earlier
    event left. *)
From S2P Require Import Prelude CString Memory EventType Bpf CollectorPath.

#[local] Open Scope Z_scope.

(** ** Sizes (kernel/ebpf/include/linx_size_define.h, linx_event.h) *)
Definition SYSCALL_PARAMS_MAX_COUNT : nat := 6.
Definition LINX_FDS_MAX_SIZE : nat := 12.

(** Seven words, the type, three words of 4 bytes, the descriptors and their
    paths, four texts, six sizes; the type is padded to 4 bytes. *)
Definition LINX_EVENT_HEADER_SIZE : Z := 7 * 8 + 4 + 3 * 4 + 12 * 4 + 12 * 256 + 16 + 128 + 256 + 256 + 6 * 8.

Record linx_event_t := mk_event {
  ev_tid : Z;
  ev_pid : Z;
  ev_ppid : Z;
  ev_uid : Z;
  ev_gid : Z;
  ev_time : Z;
  ev_res : Z;
  ev_type : Z;
  ev_syscall_id : Z;
  ev_nfds : Z;
  ev_fds : list Z;
  ev_fd_path : list string;
  ev_comm : string;
  ev_cmdline : string;
  ev_fullpath : string;
  ev_p_fullpath : string;
  ev_params_size : list Z
}.

Record linx_ringbuf_t := mk_ringbuf {
  rb_event : linx_event_t;
  rb_data : memory;
  rb_index : Z;
  rb_payload_pos : Z;
  rb_reserved_event_size : Z
}.

Definition set_params_size (l : list Z) (e : linx_event_t) : linx_event_t :=
  mk_event (ev_tid e) (ev_pid e) (ev_ppid e) (ev_uid e) (ev_gid e) (ev_time e) (ev_res e) (ev_type e) (ev_syscall_id e)
    (ev_nfds e) (ev_fds e) (ev_fd_path e) (ev_comm e) (ev_cmdline e) (ev_fullpath e) (ev_p_fullpath e) l.

Definition with_data (d : memory) (rb : linx_ringbuf_t) : linx_ringbuf_t :=
  mk_ringbuf (rb_event rb) d (rb_index rb) (rb_payload_pos rb) (rb_reserved_event_size rb).

Definition advance (n : Z) (rb : linx_ringbuf_t) : linx_ringbuf_t :=
  mk_ringbuf (rb_event rb) (rb_data rb) (rb_index rb) (wrap 64 (rb_payload_pos rb + n)) (rb_reserved_event_size rb).

(** ** Stores *)
Definition SAFE_ACCESS (x : Z) : Z := Z.land x (LINX_EVENT_MAX_SIZE - 1).

Definition write_at (a : Z) (bs : list Z) (rb : linx_ringbuf_t) : outcome linx_ringbuf_t :=
  if (LINX_EVENT_HEADER_SIZE <=? a) && (a + Z.of_nat (length bs) <=? LINX_EVENT_MAX_SIZE * 2)
  then mret (with_data (write_bytes (rb_data rb) a bs) rb) else Ub OutOfBounds.

(** [params_size[index++] = size]: the index has 8 bits, the array six
    elements. *)
Definition push_size (size : Z) (rb : linx_ringbuf_t) : outcome linx_ringbuf_t :=
  if rb_index rb <? Z.of_nat SYSCALL_PARAMS_MAX_COUNT then
    mret (mk_ringbuf (set_params_size (<[Z.to_nat (rb_index rb) := size]> (ev_params_size (rb_event rb))) (rb_event rb))
            (rb_data rb) (wrap 8 (rb_index rb + 1)) (rb_payload_pos rb) (rb_reserved_event_size rb))
  else Ub OutOfBounds.

Definition PUSH_FIXED_SIZE_TO_RINGBUF (n : nat) (value : Z) (rb : linx_ringbuf_t) : outcome linx_ringbuf_t :=
  rb ← write_at (SAFE_ACCESS (rb_payload_pos rb)) (le_split n value) rb;
  push_size (Z.of_nat n) (advance (Z.of_nat n) rb).

Definition linx_ringbuf_store_s8 := PUSH_FIXED_SIZE_TO_RINGBUF 1.
Definition linx_ringbuf_store_s16 := PUSH_FIXED_SIZE_TO_RINGBUF 2.
Definition linx_ringbuf_store_s32 := PUSH_FIXED_SIZE_TO_RINGBUF 4.
Definition linx_ringbuf_store_s64 := PUSH_FIXED_SIZE_TO_RINGBUF 8.
Definition linx_ringbuf_store_u8 := PUSH_FIXED_SIZE_TO_RINGBUF 1.
Definition linx_ringbuf_store_u16 := PUSH_FIXED_SIZE_TO_RINGBUF 2.
Definition linx_ringbuf_store_u32 := PUSH_FIXED_SIZE_TO_RINGBUF 4.
Definition linx_ringbuf_store_u64 := PUSH_FIXED_SIZE_TO_RINGBUF 8.

(** The process the collector looks at: the kernel's answers, the layout of
    its objects, [task->files->fdt] (number of slots and address of the table,
    0 when a pointer on the way is null), [task->mm->exe_file] and the copy of
    the parent's name. *)
Record ckernel := mk_ckernel {
  ck_kernel : kernel;
  ck_layout : layout;
  ck_max_fds : Z;
  ck_fd_table : Z;
  ck_exe_file : Z;
  ck_parent_comm : Z
}.

Section stores.
Context (c : ckernel).
Let k := ck_kernel c.

(** The number of bytes written; after a failure nothing counts. *)
Definition linx_push_charpointer (charpointer limit : Z) (mem : read_memory_t) (rb : linx_ringbuf_t)
    : outcome (Z * linx_ringbuf_t) :=
  match bpf_probe_read_str k mem charpointer limit with
  | None => mret (0, rb)
  | Some bs =>
      let bs := if (length bs =? 0)%nat then [0] else bs in
      rb ← write_at (SAFE_ACCESS (rb_payload_pos rb)) bs rb;
      mret (wrap 16 (Z.of_nat (length bs)), advance (Z.of_nat (length bs)) rb)
  end.

Definition linx_push_bytebuf (pointer len_to_read : Z) (mem : read_memory_t) (rb : linx_ringbuf_t)
    : outcome (Z * linx_ringbuf_t) :=
  match bpf_probe_read k mem pointer (Z.to_nat len_to_read) with
  | None => mret (0, rb)
  | Some bs =>
      rb ← write_at (SAFE_ACCESS (rb_payload_pos rb)) bs rb;
      mret (len_to_read, advance len_to_read rb)
  end.

(** A null pointer stores no byte and the size 0. *)
Definition linx_ringbuf_store_charpointer (charpointer len_to_read : Z) (mem : read_memory_t) (rb : linx_ringbuf_t)
    : outcome linx_ringbuf_t :=
  '(len, rb) ← (if negb (charpointer =? 0) then linx_push_charpointer charpointer len_to_read mem rb else mret (0, rb));
  push_size len rb.

Definition linx_ringbuf_store_bytebuf (pointer len_to_read : Z) (mem : read_memory_t) (rb : linx_ringbuf_t)
    : outcome linx_ringbuf_t :=
  '(len, rb) ← (if negb (pointer =? 0) && (0 <? len_to_read) then linx_push_bytebuf pointer len_to_read mem rb
                else mret (0, rb));
  push_size len rb.

(** ** The header *)
Definition linx_get_ppid (task : task_struct) : Z := from_option (wrap 32) 0 (t_parent_tgid task).

(** The descriptors that are open among the first twelve, with their paths.
    Without a table the event keeps what it held. *)
Fixpoint task_file_loop (i n : nat) (nfds : nat) (e : list Z * list string) : nat * (list Z * list string) :=
  match n with
  | O => (nfds, e)
  | S n =>
      match read_pointer k (ck_fd_table c + 8 * Z.of_nat i) with
      | None => task_file_loop (S i) n nfds e
      | Some file =>
          task_file_loop (S i) n (S nfds)
            (<[nfds := Z.of_nat i]> e.1, <[nfds := (linx_get_file_path k (ck_layout c) file LINX_PATH_MAX_SIZE).2]> e.2)
      end
  end.

Definition linx_get_task_file (e : linx_event_t) : Z * list Z * list string :=
  if (ck_max_fds c =? 0) || (ck_fd_table c =? 0) then (ev_nfds e, ev_fds e, ev_fd_path e)
  else
    let max_fds := if ck_max_fds c <? Z.of_nat LINX_FDS_MAX_SIZE then ck_max_fds c else Z.of_nat LINX_FDS_MAX_SIZE in
    let '(nfds, (fds, paths)) := task_file_loop 0 (Z.to_nat max_fds) 0 (ev_fds e, ev_fd_path e) in
    (Z.of_nat nfds, fds, paths).

(** The arguments, separated by NUL, become a text with spaces, which ends at
    the last byte.  Longer than 127 bytes they are left out and the text in the
    buffer stays. *)
Definition linx_get_process_cmdline (task : task_struct) (cmdline : string) : string :=
  match t_mm task with
  | None => cmdline
  | Some mm =>
      let len := wrap 64 (mm_arg_end mm - mm_arg_start mm) in
      if (len <=? 0) || (LINX_CMDLINE_MAX_SIZE - 1 <? len) then cmdline
      else
        let n := Z.to_nat len in
        let bytes := default (replicate n 0) (bpf_probe_read k USER (mm_arg_start mm) n) in
        text (<[(n - 1)%nat := 0]> ((λ b, if b =? 0 then 32 else b) <$> bytes))
  end.

Definition linx_get_comm_fullpath (fullpath : string) : string :=
  if ck_exe_file c =? 0 then fullpath else (linx_get_file_path k (ck_layout c) (ck_exe_file c) LINX_PATH_MAX_SIZE).2.

(** The name of the parent, although the member is called a path; the reader
    clears the array when it fails. *)
Definition linx_get_parent_fullpath (fullpath : string) : string :=
  if ck_parent_comm c =? 0 then fullpath
  else match bpf_probe_read_str k KERNEL (ck_parent_comm c) LINX_PATH_MAX_SIZE with
       | Some bs => text bs
       | None => ""
       end.

Definition load_header (syscall_id type res : Z) (e : linx_event_t) : linx_event_t :=
  let task := bpf_get_current_task_btf k in
  let tg_pid := bpf_get_current_pid_tgid k in
  let uid_gid := bpf_get_current_uid_gid k in
  let '(nfds, fds, paths) := linx_get_task_file e in
  mk_event (Z.shiftr tg_pid 32) (wrap 32 tg_pid) (linx_get_ppid task) (wrap 32 uid_gid) (Z.shiftr uid_gid 32)
    (wrap 64 (g_boot_time k + bpf_ktime_get_boot_ns k)) (wrap 64 res) (wrap 8 type) (wrap 32 syscall_id) nfds fds paths
    (text (bpf_get_current_comm k)) (linx_get_process_cmdline task (ev_cmdline e)) (linx_get_comm_fullpath (ev_fullpath e))
    (linx_get_parent_fullpath (ev_p_fullpath e)) (ev_params_size e).

Definition linx_ringbuf_load_event (syscall_id type res : Z) (rb : linx_ringbuf_t) : linx_ringbuf_t :=
  mk_ringbuf (load_header syscall_id type res (rb_event rb)) (rb_data rb) 0 LINX_EVENT_HEADER_SIZE LINX_EVENT_MAX_SIZE.

(** What is sent, when something is: the bytes below the position. *)
Definition linx_ringbuf_submit_event (rb : linx_ringbuf_t) : option linx_ringbuf_t :=
  if LINX_EVENT_MAX_SIZE <? rb_payload_pos rb then None else if bpf_ringbuf_output k then Some rb else None.

(** ** Programs

    What a program stores: an integer of [n] bytes, or the text at a pointer. *)
Inductive param :=
  | StoreFixed (n : nat) (value : Z)
  | StoreCharpointer (charpointer len : Z) (mem : read_memory_t).

Definition store (p : param) (rb : linx_ringbuf_t) : outcome linx_ringbuf_t :=
  match p with
  | StoreFixed n v => PUSH_FIXED_SIZE_TO_RINGBUF n v rb
  | StoreCharpointer a n m => linx_ringbuf_store_charpointer a n m rb
  end.

Fixpoint store_all (ps : list param) (rb : linx_ringbuf_t) : outcome linx_ringbuf_t :=
  match ps with
  | [] => mret rb
  | p :: ps => rb ← store p rb; store_all ps rb
  end.
End stores.

(** The body of a program: the number, type and result it loads and its
    stores. *)
Record program_body := mk_body { pb_syscall_id : Z; pb_type : Z; pb_res : Z; pb_params : list param }.

Abbreviation program := (kernel → pt_regs → Z → program_body).

Definition run_program (p : program) (c : ckernel) (regs : pt_regs) (arg : Z) (rb : linx_ringbuf_t)
    : outcome (linx_ringbuf_t * option linx_ringbuf_t) :=
  let b := p (ck_kernel c) regs arg in
  rb ← store_all c (pb_params b) (linx_ringbuf_load_event c (pb_syscall_id b) (pb_type b) (pb_res b) rb);
  mret (rb, linx_ringbuf_submit_event c rb).

(** ** What a store adds *)
Definition param_bytes (k : kernel) (p : param) : list Z :=
  match p with
  | StoreFixed n v => le_split n v
  | StoreCharpointer a n m =>
      if a =? 0 then []
      else match bpf_probe_read_str k m a n with None => [] | Some [] => [0] | Some bs => bs end
  end.

Definition param_max (p : param) : Z :=
  match p with StoreFixed n _ => Z.of_nat n | StoreCharpointer _ n _ => Z.max 1 n end.

Definition params_max (ps : list param) : Z := foldr (λ p n, param_max p + n) 0 ps.

(** The buffer with one parameter more. *)
Definition put (bs : list Z) (rb : linx_ringbuf_t) : linx_ringbuf_t :=
  mk_ringbuf
    (set_params_size (<[Z.to_nat (rb_index rb) := Z.of_nat (length bs)]> (ev_params_size (rb_event rb))) (rb_event rb))
    (write_bytes (rb_data rb) (rb_payload_pos rb) bs) (rb_index rb + 1) (rb_payload_pos rb + Z.of_nat (length bs))
    (rb_reserved_event_size rb).

Definition put_all (bss : list (list Z)) (rb : linx_ringbuf_t) : linx_ringbuf_t := foldl (λ rb bs, put bs rb) rb bss.

(** Position and index are where the next parameter of at most [n] bytes
    can go. *)
Definition room (n : Z) (rb : linx_ringbuf_t) : Prop :=
  LINX_EVENT_HEADER_SIZE ≤ rb_payload_pos rb ∧ rb_payload_pos rb + n < LINX_EVENT_MAX_SIZE ∧ 0 ≤ rb_index rb < 6.

Lemma collector_header_size : LINX_EVENT_HEADER_SIZE = 3896. Proof. reflexivity. Qed.
Lemma collector_max_size : LINX_EVENT_MAX_SIZE = 32768. Proof. reflexivity. Qed.

Ltac csize_lia := rewrite ?collector_header_size, ?collector_max_size in *; lia.

Lemma safe_access_small x : 0 ≤ x < LINX_EVENT_MAX_SIZE → SAFE_ACCESS x = x.
Proof.
  intros Hx. unfold SAFE_ACCESS. change (LINX_EVENT_MAX_SIZE - 1) with (Z.ones 15). rewrite Z.land_ones by lia.
  apply Z.mod_small. exact Hx.
Qed.

Lemma room_weaken n n' rb : n' ≤ n → room n rb → room n' rb.
Proof. unfold room. lia. Qed.

(** Writing at the position and counting the size. *)
Lemma push_put bs rb :
  room (Z.of_nat (length bs)) rb →
  (rb' ← write_at (SAFE_ACCESS (rb_payload_pos rb)) bs rb;
   push_size (Z.of_nat (length bs)) (advance (Z.of_nat (length bs)) rb')) = Ret [] (put bs rb).
Proof.
  intros (H1 & H2 & H3). rewrite safe_access_small by csize_lia. unfold write_at.
  rewrite (proj2 (Z.leb_le _ _) H1). rewrite (proj2 (Z.leb_le _ (LINX_EVENT_MAX_SIZE * 2))) by csize_lia.
  cbn [andb]. rewrite bind_ret_l. unfold push_size, advance, with_data. cbn [rb_index rb_payload_pos rb_event rb_data rb_reserved_event_size].
  destruct (Z.ltb_spec (rb_index rb) (Z.of_nat SYSCALL_PARAMS_MAX_COUNT)) as [_|H]; [|change (Z.of_nat SYSCALL_PARAMS_MAX_COUNT) with 6 in H; lia].
  rewrite (wrap_small 8) by lia. rewrite wrap_small by (change (2 ^ 64) with 18446744073709551616; csize_lia). done.
Qed.

Lemma push_size_put rb : room 0 rb → push_size 0 rb = Ret [] (put [] rb).
Proof.
  intros (H1 & H2 & H3). unfold push_size, put. cbn [write_bytes length].
  destruct (Z.ltb_spec (rb_index rb) (Z.of_nat SYSCALL_PARAMS_MAX_COUNT)) as [_|H]; [|change (Z.of_nat SYSCALL_PARAMS_MAX_COUNT) with 6 in H; lia].
  rewrite (wrap_small 8) by lia. change (Z.of_nat 0) with 0. by rewrite Z.add_0_r.
Qed.

Section store_facts.
Context (c : ckernel) (Hk : kernel_ok (ck_kernel c)).

Lemma stored_bytes_max p : Z.of_nat (length (param_bytes (ck_kernel c) p)) ≤ param_max p.
Proof.
  destruct p as [n v|a n m]; cbn [param_bytes param_max]; [by rewrite le_split_length|].
  destruct (a =? 0); [cbn; lia|]. destruct (bpf_probe_read_str _ m a n) as [[|b bs]|] eqn:E; [cbn; lia| |cbn; lia].
  apply (ko_str _ Hk) in E. lia.
Qed.

Lemma store_put p rb : room (param_max p) rb → store c p rb = Ret [] (put (param_bytes (ck_kernel c) p) rb).
Proof.
  intros Hr. destruct p as [n v|a n m]; cbn [store param_max] in *.
  - unfold PUSH_FIXED_SIZE_TO_RINGBUF. cbn [param_bytes].
    rewrite <- (push_put (le_split n v)) by (by rewrite le_split_length). by rewrite le_split_length.
  - unfold linx_ringbuf_store_charpointer. pose proof (stored_bytes_max (StoreCharpointer a n m)) as Hm.
    cbn [param_bytes param_max] in *.
    assert (room 0 rb) as H0 by (eapply room_weaken; [|done]; lia).
    destruct (a =? 0); cbn [negb]; [rewrite bind_ret_l; by apply push_size_put|]. unfold linx_push_charpointer.
    destruct (bpf_probe_read_str (ck_kernel c) m a n) as [bs|] eqn:E; [|rewrite bind_ret_l; by apply push_size_put].
    replace (match bs with [] => [0] | _ => bs end) with (if (length bs =? 0)%nat then [0] else bs) in * by (by destruct bs).
    set (bs' := if (length bs =? 0)%nat then [0] else bs) in *.
    rewrite <- (push_put bs') by (eapply room_weaken; [exact Hm|exact Hr]).
    destruct (write_at _ bs' rb) as [w rb'| |]; cbn; [|done..]. rewrite wrap_small; [by rewrite app_nil_r|].
    destruct Hr as (H1 & H2 & H3). csize_lia.
Qed.

Lemma params_max_pos ps : 0 ≤ params_max ps.
Proof.
  unfold params_max. induction ps as [|p ps IH]; cbn; [done|]. pose proof (stored_bytes_max p). lia.
Qed.

Lemma store_all_put ps rb :
  room (params_max ps) rb → rb_index rb + Z.of_nat (length ps) ≤ 6 →
  store_all c ps rb = Ret [] (put_all (param_bytes (ck_kernel c) <$> ps) rb).
Proof.
  revert rb. induction ps as [|p ps IH]; intros rb Hr Hl; cbn [store_all fmap list_fmap put_all foldl length] in *; [done|].
  change (params_max (p :: ps)) with (param_max p + params_max ps) in Hr.
  pose proof (params_max_pos ps). pose proof (stored_bytes_max p).
  rewrite store_put by (eapply room_weaken; [|done]; lia). rewrite bind_Ret_nil.
  destruct ps as [|p' ps']; [done|].
  apply IH; [|cbn [put rb_index length] in *; lia].
  destruct Hr as (H1 & H2 & H3). unfold room, put. cbn [rb_payload_pos rb_index length] in *. lia.
Qed.
End store_facts.

Lemma put_all_position bss rb :
  rb_payload_pos (put_all bss rb) = rb_payload_pos rb + Z.of_nat (length (concat bss)).
Proof.
  revert rb. induction bss as [|bs bss IH]; intros rb; cbn [put_all foldl concat]; [cbn; lia|].
  fold (put_all bss (put bs rb)). rewrite IH, length_app. cbn [put rb_payload_pos]. lia.
Qed.

Lemma put_all_memory bss rb :
  rb_data (put_all bss rb) = write_bytes (rb_data rb) (rb_payload_pos rb) (concat bss).
Proof.
  revert rb. induction bss as [|bs bss IH]; intros rb; cbn [put_all foldl concat]; [done|].
  fold (put_all bss (put bs rb)). rewrite IH, write_bytes_app. done.
Qed.

(** The stores touch no member of the event but the sizes. *)
Lemma put_all_header bss rb :
  ∃ l, rb_event (put_all bss rb) = set_params_size l (rb_event rb).
Proof.
  revert rb. induction bss as [|bs bss IH]; intros rb; cbn [put_all foldl].
  - exists (ev_params_size (rb_event rb)). by destruct rb as [[] ? ? ? ?].
  - fold (put_all bss (put bs rb)). destruct (IH (put bs rb)) as [l ->]. by exists l.
Qed.

(** ** The language of the programs *)
Definition int32 (v : Z) : Z := sext 32 v.
Definition int64 (v : Z) : Z := sext 64 v.
Definition uint16 (v : Z) : Z := wrap 16 v.
Definition uint32 (v : Z) : Z := wrap 32 v.
Definition uint64 (v : Z) : Z := wrap 64 v.

(** [T x = 0; if (p) bpf_probe_read_user(&x, sizeof(x), p);] *)
Definition user_value (n : nat) (k : kernel) (p : Z) : Z :=
  if p =? 0 then 0 else from_option le_value 0 (bpf_probe_read k USER p n).
Definition user_int32 (k : kernel) (p : Z) : Z := sext 32 (user_value 4 k p).
Definition user_uint32 (k : kernel) (p : Z) : Z := user_value 4 k p.
Definition user_int64 (k : kernel) (p : Z) : Z := sext 64 (user_value 8 k p).
Definition user_uint64 (k : kernel) (p : Z) : Z := user_value 8 k p.

Definition store_s32 (v : Z) : param := StoreFixed 4 v.
Definition store_u32 (v : Z) : param := StoreFixed 4 v.
Definition store_s64 (v : Z) : param := StoreFixed 8 v.
Definition store_u64 (v : Z) : param := StoreFixed 8 v.
Definition store_u16 (v : Z) : param := StoreFixed 2 v.
Definition store_charpointer (charpointer len_to_read : Z) (mem : read_memory_t) : param :=
  StoreCharpointer charpointer (uint16 len_to_read) mem.
