(* ===== verification/CollectorPrograms1.v ===== *)
(** * The collector's programs (kernel/ebpf/ebpf/tail_calls, first part)

    One definition per program: the program of the entry of a system call and
    the program of its return, in the order of the table of system calls. *)
From S2P Require Import Prelude CString Memory EventType Bpf SyscallTable CollectorPath CollectorRing.

#[local] Open Scope Z_scope.

(** read.bpf.c *)
Definition read_e : program := λ k regs id, mk_body id LINX_SYSCALL_TYPE_ENTER (-1) [].
Definition read_x : program := λ k regs ret, mk_body (get_syscall_id regs) LINX_SYSCALL_TYPE_EXIT ret
  [store_u32 (uint32 (get_pt_regs_argumnet regs 0));
   store_charpointer (uint64 (get_pt_regs_argumnet regs 1)) LINX_CHARBUF_MAX_SIZE USER;
   store_u64 (uint64 (get_pt_regs_argumnet regs 2))].

(** write.bpf.c *)
Definition write_e : program := λ k regs id, mk_body id LINX_SYSCALL_TYPE_ENTER (-1) [].
Definition write_x : program := λ k regs ret, mk_body (get_syscall_id regs) LINX_SYSCALL_TYPE_EXIT ret
  [store_u32 (uint32 (get_pt_regs_argumnet regs 0));
   store_charpointer (uint64 (get_pt_regs_argumnet regs 1)) LINX_CHARBUF_MAX_SIZE USER;
   store_u64 (uint64 (get_pt_regs_argumnet regs 2))].

(** open.bpf.c *)
Definition open_e : program := λ k regs id, mk_body id LINX_SYSCALL_TYPE_ENTER (-1) [].
Definition open_x : program := λ k regs ret, mk_body (get_syscall_id regs) LINX_SYSCALL_TYPE_EXIT ret
  [store_charpointer (uint64 (get_pt_regs_argumnet regs 0)) LINX_CHARBUF_MAX_SIZE USER;
   store_s32 (int32 (get_pt_regs_argumnet regs 1));
   store_u16 (uint16 (get_pt_regs_argumnet regs 2))].

(** close.bpf.c *)
Definition close_e : program := λ k regs id, mk_body id LINX_SYSCALL_TYPE_ENTER (-1) [].
Definition close_x : program := λ k regs ret, mk_body (get_syscall_id regs) LINX_SYSCALL_TYPE_EXIT ret
  [store_u32 (uint32 (get_pt_regs_argumnet regs 0))].

(** stat.bpf.c *)
Definition stat_e : program := λ k regs id, mk_body id LINX_SYSCALL_TYPE_ENTER (-1) [].
Definition stat_x : program := λ k regs ret, mk_body (get_syscall_id regs) LINX_SYSCALL_TYPE_EXIT ret
  [store_charpointer (uint64 (get_pt_regs_argumnet regs 0)) LINX_CHARBUF_MAX_SIZE USER;
   store_u64 (uint64 (get_pt_regs_argumnet regs 1))].

(** fstat.bpf.c *)
Definition fstat_e : program := λ k regs id, mk_body id LINX_SYSCALL_TYPE_ENTER (-1) [].
Definition fstat_x : program := λ k regs ret, mk_body (get_syscall_id regs) LINX_SYSCALL_TYPE_EXIT ret
  [store_u32 (uint32 (get_pt_regs_argumnet regs 0));
   store_u64 (uint64 (get_pt_regs_argumnet regs 1))].

(** lstat.bpf.c *)
Definition lstat_e : program := λ k regs id, mk_body id LINX_SYSCALL_TYPE_ENTER (-1) [].
Definition lstat_x : program := λ k regs ret, mk_body (get_syscall_id regs) LINX_SYSCALL_TYPE_EXIT ret
  [store_charpointer (uint64 (get_pt_regs_argumnet regs 0)) LINX_CHARBUF_MAX_SIZE USER;
   store_u64 (uint64 (get_pt_regs_argumnet regs 1))].

(** poll.bpf.c *)
Definition poll_e : program := λ k regs id, mk_body id LINX_SYSCALL_TYPE_ENTER (-1) [].
Definition poll_x : program := λ k regs ret, mk_body (get_syscall_id regs) LINX_SYSCALL_TYPE_EXIT ret
  [store_u64 (uint64 (get_pt_regs_argumnet regs 0));
   store_u32 (uint32 (get_pt_regs_argumnet regs 1));
   store_s32 (int32 (get_pt_regs_argumnet regs 2))].

(** lseek.bpf.c *)
Definition lseek_e : program := λ k regs id, mk_body id LINX_SYSCALL_TYPE_ENTER (-1) [].
Definition lseek_x : program := λ k regs ret, mk_body (get_syscall_id regs) LINX_SYSCALL_TYPE_EXIT ret
  [store_u32 (uint32 (get_pt_regs_argumnet regs 0));
   store_s64 (int64 (get_pt_regs_argumnet regs 1));
   store_u32 (uint32 (get_pt_regs_argumnet regs 2))].

(** mmap.bpf.c *)
Definition mmap_e : program := λ k regs id, mk_body id LINX_SYSCALL_TYPE_ENTER (-1) [].
Definition mmap_x : program := λ k regs ret, mk_body (get_syscall_id regs) LINX_SYSCALL_TYPE_EXIT ret
  [store_u64 (uint64 (get_pt_regs_argumnet regs 0));
   store_u64 (uint64 (get_pt_regs_argumnet regs 1));
   store_u64 (uint64 (get_pt_regs_argumnet regs 2));
   store_u64 (uint64 (get_pt_regs_argumnet regs 3));
   store_u64 (uint64 (get_pt_regs_argumnet regs 4));
   store_u64 (uint64 (get_pt_regs_argumnet regs 5))].

(** mprotect.bpf.c *)
Definition mprotect_e : program := λ k regs id, mk_body id LINX_SYSCALL_TYPE_ENTER (-1) [].
Definition mprotect_x : program := λ k regs ret, mk_body (get_syscall_id regs) LINX_SYSCALL_TYPE_EXIT ret
  [store_u64 (uint64 (get_pt_regs_argumnet regs 0));
   store_u64 (uint64 (get_pt_regs_argumnet regs 1));
   store_u64 (uint64 (get_pt_regs_argumnet regs 2))].

(** munmap.bpf.c *)
Definition munmap_e : program := λ k regs id, mk_body id LINX_SYSCALL_TYPE_ENTER (-1) [].
Definition munmap_x : program := λ k regs ret, mk_body (get_syscall_id regs) LINX_SYSCALL_TYPE_EXIT ret
  [store_u64 (uint64 (get_pt_regs_argumnet regs 0));
   store_u64 (uint64 (get_pt_regs_argumnet regs 1))].

(** brk.bpf.c *)
Definition brk_e : program := λ k regs id, mk_body id LINX_SYSCALL_TYPE_ENTER (-1) [].
Definition brk_x : program := λ k regs ret, mk_body (get_syscall_id regs) LINX_SYSCALL_TYPE_EXIT ret
  [store_u64 (uint64 (get_pt_regs_argumnet regs 0))].

(** rt_sigaction.bpf.c *)
Definition rt_sigaction_e : program := λ k regs id, mk_body id LINX_SYSCALL_TYPE_ENTER (-1) [].
Definition rt_sigaction_x : program := λ k regs ret, mk_body (get_syscall_id regs) LINX_SYSCALL_TYPE_EXIT ret
  [store_s32 (int32 (get_pt_regs_argumnet regs 0));
   store_u64 (uint64 (get_pt_regs_argumnet regs 1));
   store_u64 (uint64 (get_pt_regs_argumnet regs 2));
   store_u64 (uint64 (get_pt_regs_argumnet regs 3))].

(** rt_sigprocmask.bpf.c *)
Definition rt_sigprocmask_e : program := λ k regs id, mk_body id LINX_SYSCALL_TYPE_ENTER (-1) [].
Definition rt_sigprocmask_x : program := λ k regs ret, mk_body (get_syscall_id regs) LINX_SYSCALL_TYPE_EXIT ret
  [store_s32 (int32 (get_pt_regs_argumnet regs 0));
   store_u64 (uint64 (get_pt_regs_argumnet regs 1));
   store_u64 (uint64 (get_pt_regs_argumnet regs 2));
   store_u64 (uint64 (get_pt_regs_argumnet regs 3))].

(** rt_sigreturn.bpf.c *)
Definition rt_sigreturn_e : program := λ k regs id, mk_body id LINX_SYSCALL_TYPE_ENTER (-1) [].
Definition rt_sigreturn_x : program := λ k regs ret, mk_body (get_syscall_id regs) LINX_SYSCALL_TYPE_EXIT ret
  [].

(** ioctl.bpf.c *)
Definition ioctl_e : program := λ k regs id, mk_body id LINX_SYSCALL_TYPE_ENTER (-1) [].
Definition ioctl_x : program := λ k regs ret, mk_body (get_syscall_id regs) LINX_SYSCALL_TYPE_EXIT ret
  [store_u32 (uint32 (get_pt_regs_argumnet regs 0));
   store_u32 (uint32 (get_pt_regs_argumnet regs 1));
   store_u64 (uint64 (get_pt_regs_argumnet regs 2))].

(** pread64.bpf.c *)
Definition pread64_e : program := λ k regs id, mk_body id LINX_SYSCALL_TYPE_ENTER (-1) [].
Definition pread64_x : program := λ k regs ret, mk_body (get_syscall_id regs) LINX_SYSCALL_TYPE_EXIT ret
  [store_u32 (uint32 (get_pt_regs_argumnet regs 0));
   store_charpointer (uint64 (get_pt_regs_argumnet regs 1)) LINX_CHARBUF_MAX_SIZE USER;
   store_u64 (uint64 (get_pt_regs_argumnet regs 2));
   store_s64 (int64 (get_pt_regs_argumnet regs 3))].

(** pwrite64.bpf.c *)
Definition pwrite64_e : program := λ k regs id, mk_body id LINX_SYSCALL_TYPE_ENTER (-1) [].
Definition pwrite64_x : program := λ k regs ret, mk_body (get_syscall_id regs) LINX_SYSCALL_TYPE_EXIT ret
  [store_u32 (uint32 (get_pt_regs_argumnet regs 0));
   store_charpointer (uint64 (get_pt_regs_argumnet regs 1)) LINX_CHARBUF_MAX_SIZE USER;
   store_u64 (uint64 (get_pt_regs_argumnet regs 2));
   store_s64 (int64 (get_pt_regs_argumnet regs 3))].

(** readv.bpf.c *)
Definition readv_e : program := λ k regs id, mk_body id LINX_SYSCALL_TYPE_ENTER (-1) [].
Definition readv_x : program := λ k regs ret, mk_body (get_syscall_id regs) LINX_SYSCALL_TYPE_EXIT ret
  [store_u64 (uint64 (get_pt_regs_argumnet regs 0));
   store_u64 (uint64 (get_pt_regs_argumnet regs 1));
   store_u64 (uint64 (get_pt_regs_argumnet regs 2))].

(** writev.bpf.c *)
Definition writev_e : program := λ k regs id, mk_body id LINX_SYSCALL_TYPE_ENTER (-1) [].
Definition writev_x : program := λ k regs ret, mk_body (get_syscall_id regs) LINX_SYSCALL_TYPE_EXIT ret
  [store_u64 (uint64 (get_pt_regs_argumnet regs 0));
   store_u64 (uint64 (get_pt_regs_argumnet regs 1));
   store_u64 (uint64 (get_pt_regs_argumnet regs 2))].

(** access.bpf.c *)
Definition access_e : program := λ k regs id, mk_body id LINX_SYSCALL_TYPE_ENTER (-1) [].
Definition access_x : program := λ k regs ret, mk_body (get_syscall_id regs) LINX_SYSCALL_TYPE_EXIT ret
  [store_charpointer (uint64 (get_pt_regs_argumnet regs 0)) LINX_CHARBUF_MAX_SIZE USER;
   store_s32 (int32 (get_pt_regs_argumnet regs 1))].

(** pipe.bpf.c *)
Definition pipe_e : program := λ k regs id, mk_body id LINX_SYSCALL_TYPE_ENTER (-1) [].
Definition pipe_x : program := λ k regs ret, mk_body (get_syscall_id regs) LINX_SYSCALL_TYPE_EXIT ret
  [store_s32 (user_int32 k (get_pt_regs_argumnet regs 0))].

(** select.bpf.c *)
Definition select_e : program := λ k regs id, mk_body id LINX_SYSCALL_TYPE_ENTER (-1) [].
Definition select_x : program := λ k regs ret, mk_body (get_syscall_id regs) LINX_SYSCALL_TYPE_EXIT ret
  [store_s32 (int32 (get_pt_regs_argumnet regs 0));
   store_u64 (uint64 (get_pt_regs_argumnet regs 1));
   store_u64 (uint64 (get_pt_regs_argumnet regs 2));
   store_u64 (uint64 (get_pt_regs_argumnet regs 3));
   store_u64 (uint64 (get_pt_regs_argumnet regs 4))].

(** sched_yield.bpf.c *)
Definition sched_yield_e : program := λ k regs id, mk_body id LINX_SYSCALL_TYPE_ENTER (-1) [].
Definition sched_yield_x : program := λ k regs ret, mk_body (get_syscall_id regs) LINX_SYSCALL_TYPE_EXIT ret
  [].

(** mremap.bpf.c *)
Definition mremap_e : program := λ k regs id, mk_body id LINX_SYSCALL_TYPE_ENTER (-1) [].
Definition mremap_x : program := λ k regs ret, mk_body (get_syscall_id regs) LINX_SYSCALL_TYPE_EXIT ret
  [store_u64 (uint64 (get_pt_regs_argumnet regs 0));
   store_u64 (uint64 (get_pt_regs_argumnet regs 1));
   store_u64 (uint64 (get_pt_regs_argumnet regs 2));
   store_u64 (uint64 (get_pt_regs_argumnet regs 3));
   store_u64 (uint64 (get_pt_regs_argumnet regs 4))].

(** msync.bpf.c *)
Definition msync_e : program := λ k regs id, mk_body id LINX_SYSCALL_TYPE_ENTER (-1) [].
Definition msync_x : program := λ k regs ret, mk_body (get_syscall_id regs) LINX_SYSCALL_TYPE_EXIT ret
  [store_u64 (uint64 (get_pt_regs_argumnet regs 0));
   store_u64 (uint64 (get_pt_regs_argumnet regs 1));
   store_s32 (int32 (get_pt_regs_argumnet regs 2))].

(** mincore.bpf.c *)
Definition mincore_e : program := λ k regs id, mk_body id LINX_SYSCALL_TYPE_ENTER (-1) [].
Definition mincore_x : program := λ k regs ret, mk_body (get_syscall_id regs) LINX_SYSCALL_TYPE_EXIT ret
  [store_u64 (uint64 (get_pt_regs_argumnet regs 0));
   store_u64 (uint64 (get_pt_regs_argumnet regs 1));
   store_charpointer (uint64 (get_pt_regs_argumnet regs 2)) LINX_CHARBUF_MAX_SIZE USER].

(** madvise.bpf.c *)
Definition madvise_e : program := λ k regs id, mk_body id LINX_SYSCALL_TYPE_ENTER (-1) [].
Definition madvise_x : program := λ k regs ret, mk_body (get_syscall_id regs) LINX_SYSCALL_TYPE_EXIT ret
  [store_u64 (uint64 (get_pt_regs_argumnet regs 0));
   store_u64 (uint64 (get_pt_regs_argumnet regs 1));
   store_s32 (int32 (get_pt_regs_argumnet regs 2))].

(** shmget.bpf.c *)
Definition shmget_e : program := λ k regs id, mk_body id LINX_SYSCALL_TYPE_ENTER (-1) [].
Definition shmget_x : program := λ k regs ret, mk_body (get_syscall_id regs) LINX_SYSCALL_TYPE_EXIT ret
  [store_s32 (int32 (get_pt_regs_argumnet regs 0));
   store_u64 (uint64 (get_pt_regs_argumnet regs 1));
   store_s32 (int32 (get_pt_regs_argumnet regs 2))].

(** shmat.bpf.c *)
Definition shmat_e : program := λ k regs id, mk_body id LINX_SYSCALL_TYPE_ENTER (-1) [].
Definition shmat_x : program := λ k regs ret, mk_body (get_syscall_id regs) LINX_SYSCALL_TYPE_EXIT ret
  [store_s32 (int32 (get_pt_regs_argumnet regs 0));
   store_charpointer (uint64 (get_pt_regs_argumnet regs 1)) LINX_CHARBUF_MAX_SIZE USER;
   store_s32 (int32 (get_pt_regs_argumnet regs 2))].

(** shmctl.bpf.c *)
Definition shmctl_e : program := λ k regs id, mk_body id LINX_SYSCALL_TYPE_ENTER (-1) [].
Definition shmctl_x : program := λ k regs ret, mk_body (get_syscall_id regs) LINX_SYSCALL_TYPE_EXIT ret
  [store_s32 (int32 (get_pt_regs_argumnet regs 0));
   store_s32 (int32 (get_pt_regs_argumnet regs 1));
   store_u64 (uint64 (get_pt_regs_argumnet regs 2))].

(** dup.bpf.c *)
Definition dup_e : program := λ k regs id, mk_body id LINX_SYSCALL_TYPE_ENTER (-1) [].
Definition dup_x : program := λ k regs ret, mk_body (get_syscall_id regs) LINX_SYSCALL_TYPE_EXIT ret
  [store_u32 (uint32 (get_pt_regs_argumnet regs 0))].

(** dup2.bpf.c *)
Definition dup2_e : program := λ k regs id, mk_body id LINX_SYSCALL_TYPE_ENTER (-1) [].
Definition dup2_x : program := λ k regs ret, mk_body (get_syscall_id regs) LINX_SYSCALL_TYPE_EXIT ret
  [store_u32 (uint32 (get_pt_regs_argumnet regs 0));
   store_u32 (uint32 (get_pt_regs_argumnet regs 1))].

(** pause.bpf.c *)
Definition pause_e : program := λ k regs id, mk_body id LINX_SYSCALL_TYPE_ENTER (-1) [].
Definition pause_x : program := λ k regs ret, mk_body (get_syscall_id regs) LINX_SYSCALL_TYPE_EXIT ret
  [].

(** nanosleep.bpf.c *)
Definition nanosleep_e : program := λ k regs id, mk_body id LINX_SYSCALL_TYPE_ENTER (-1) [].
Definition nanosleep_x : program := λ k regs ret, mk_body (get_syscall_id regs) LINX_SYSCALL_TYPE_EXIT ret
  [store_u64 (uint64 (get_pt_regs_argumnet regs 0));
   store_u64 (uint64 (get_pt_regs_argumnet regs 1))].

(** getitimer.bpf.c *)
Definition getitimer_e : program := λ k regs id, mk_body id LINX_SYSCALL_TYPE_ENTER (-1) [].
Definition getitimer_x : program := λ k regs ret, mk_body (get_syscall_id regs) LINX_SYSCALL_TYPE_EXIT ret
  [store_s32 (int32 (get_pt_regs_argumnet regs 0));
   store_u64 (uint64 (get_pt_regs_argumnet regs 1))].

(** alarm.bpf.c *)
Definition alarm_e : program := λ k regs id, mk_body id LINX_SYSCALL_TYPE_ENTER (-1) [].
Definition alarm_x : program := λ k regs ret, mk_body (get_syscall_id regs) LINX_SYSCALL_TYPE_EXIT ret
  [store_u32 (uint32 (get_pt_regs_argumnet regs 0))].

(** setitimer.bpf.c *)
Definition setitimer_e : program := λ k regs id, mk_body id LINX_SYSCALL_TYPE_ENTER (-1) [].
Definition setitimer_x : program := λ k regs ret, mk_body (get_syscall_id regs) LINX_SYSCALL_TYPE_EXIT ret
  [store_s32 (int32 (get_pt_regs_argumnet regs 0));
   store_u64 (uint64 (get_pt_regs_argumnet regs 1));
   store_u64 (uint64 (get_pt_regs_argumnet regs 2))].

(** getpid.bpf.c *)
Definition getpid_e : program := λ k regs id, mk_body id LINX_SYSCALL_TYPE_ENTER (-1) [].
Definition getpid_x : program := λ k regs ret, mk_body (get_syscall_id regs) LINX_SYSCALL_TYPE_EXIT ret
  [].

(** sendfile.bpf.c *)
Definition sendfile_e : program := λ k regs id, mk_body id LINX_SYSCALL_TYPE_ENTER (-1) [].
Definition sendfile_x : program := λ k regs ret, mk_body (get_syscall_id regs) LINX_SYSCALL_TYPE_EXIT ret
  [store_s32 (int32 (get_pt_regs_argumnet regs 0));
   store_s32 (int32 (get_pt_regs_argumnet regs 1));
   store_s64 (user_int64 k (get_pt_regs_argumnet regs 2));
   store_u64 (uint64 (get_pt_regs_argumnet regs 3))].

(** socket.bpf.c *)
Definition socket_e : program := λ k regs id, mk_body id LINX_SYSCALL_TYPE_ENTER (-1) [].
Definition socket_x : program := λ k regs ret, mk_body (get_syscall_id regs) LINX_SYSCALL_TYPE_EXIT ret
  [store_s32 (int32 (get_pt_regs_argumnet regs 0));
   store_s32 (int32 (get_pt_regs_argumnet regs 1));
   store_s32 (int32 (get_pt_regs_argumnet regs 2))].

(** connect.bpf.c *)
Definition connect_e : program := λ k regs id, mk_body id LINX_SYSCALL_TYPE_ENTER (-1) [].
Definition connect_x : program := λ k regs ret, mk_body (get_syscall_id regs) LINX_SYSCALL_TYPE_EXIT ret
  [store_s32 (int32 (get_pt_regs_argumnet regs 0));
   store_u64 (uint64 (get_pt_regs_argumnet regs 1));
   store_s32 (int32 (get_pt_regs_argumnet regs 2))].

(** accept.bpf.c *)
Definition accept_e : program := λ k regs id, mk_body id LINX_SYSCALL_TYPE_ENTER (-1) [].
Definition accept_x : program := λ k regs ret, mk_body (get_syscall_id regs) LINX_SYSCALL_TYPE_EXIT ret
  [store_s32 (int32 (get_pt_regs_argumnet regs 0));
   store_u64 (uint64 (get_pt_regs_argumnet regs 1));
   store_s32 (user_int32 k (get_pt_regs_argumnet regs 2))].

(** sendto.bpf.c *)
Definition sendto_e : program := λ k regs id, mk_body id LINX_SYSCALL_TYPE_ENTER (-1) [].
Definition sendto_x : program := λ k regs ret, mk_body (get_syscall_id regs) LINX_SYSCALL_TYPE_EXIT ret
  [store_s32 (int32 (get_pt_regs_argumnet regs 0));
   store_u64 (uint64 (get_pt_regs_argumnet regs 1));
   store_u64 (uint64 (get_pt_regs_argumnet regs 2));
   store_u32 (uint32 (get_pt_regs_argumnet regs 3));
   store_u64 (uint64 (get_pt_regs_argumnet regs 4));
   store_s32 (int32 (get_pt_regs_argumnet regs 5))].

(** recvfrom.bpf.c *)
Definition recvfrom_e : program := λ k regs id, mk_body id LINX_SYSCALL_TYPE_ENTER (-1) [].
Definition recvfrom_x : program := λ k regs ret, mk_body (get_syscall_id regs) LINX_SYSCALL_TYPE_EXIT ret
  [store_s32 (int32 (get_pt_regs_argumnet regs 0));
   store_u64 (uint64 (get_pt_regs_argumnet regs 1));
   store_u64 (uint64 (get_pt_regs_argumnet regs 2));
   store_u32 (uint32 (get_pt_regs_argumnet regs 3));
   store_u64 (uint64 (get_pt_regs_argumnet regs 4));
   store_s32 (user_int32 k (get_pt_regs_argumnet regs 5))].

(** sendmsg.bpf.c *)
Definition sendmsg_e : program := λ k regs id, mk_body id LINX_SYSCALL_TYPE_ENTER (-1) [].
Definition sendmsg_x : program := λ k regs ret, mk_body (get_syscall_id regs) LINX_SYSCALL_TYPE_EXIT ret
  [store_s32 (int32 (get_pt_regs_argumnet regs 0));
   store_u64 (uint64 (get_pt_regs_argumnet regs 1));
   store_u32 (uint32 (get_pt_regs_argumnet regs 2))].

(** recvmsg.bpf.c *)
Definition recvmsg_e : program := λ k regs id, mk_body id LINX_SYSCALL_TYPE_ENTER (-1) [].
Definition recvmsg_x : program := λ k regs ret, mk_body (get_syscall_id regs) LINX_SYSCALL_TYPE_EXIT ret
  [store_s32 (int32 (get_pt_regs_argumnet regs 0));
   store_u64 (uint64 (get_pt_regs_argumnet regs 1));
   store_u32 (uint32 (get_pt_regs_argumnet regs 2))].

(** shutdown.bpf.c *)
Definition shutdown_e : program := λ k regs id, mk_body id LINX_SYSCALL_TYPE_ENTER (-1) [].
Definition shutdown_x : program := λ k regs ret, mk_body (get_syscall_id regs) LINX_SYSCALL_TYPE_EXIT ret
  [store_s32 (int32 (get_pt_regs_argumnet regs 0));
   store_s32 (int32 (get_pt_regs_argumnet regs 1))].

(** bind.bpf.c *)
Definition bind_e : program := λ k regs id, mk_body id LINX_SYSCALL_TYPE_ENTER (-1) [].
Definition bind_x : program := λ k regs ret, mk_body (get_syscall_id regs) LINX_SYSCALL_TYPE_EXIT ret
  [store_s32 (int32 (get_pt_regs_argumnet regs 0));
   store_u64 (uint64 (get_pt_regs_argumnet regs 1));
   store_s32 (int32 (get_pt_regs_argumnet regs 2))].

(** listen.bpf.c *)
Definition listen_e : program := λ k regs id, mk_body id LINX_SYSCALL_TYPE_ENTER (-1) [].
Definition listen_x : program := λ k regs ret, mk_body (get_syscall_id regs) LINX_SYSCALL_TYPE_EXIT ret
  [store_s32 (int32 (get_pt_regs_argumnet regs 0));
   store_s32 (int32 (get_pt_regs_argumnet regs 1))].

(** getsockname.bpf.c *)
Definition getsockname_e : program := λ k regs id, mk_body id LINX_SYSCALL_TYPE_ENTER (-1) [].
Definition getsockname_x : program := λ k regs ret, mk_body (get_syscall_id regs) LINX_SYSCALL_TYPE_EXIT ret
  [store_s32 (int32 (get_pt_regs_argumnet regs 0));
   store_u64 (uint64 (get_pt_regs_argumnet regs 1));
   store_s32 (user_int32 k (get_pt_regs_argumnet regs 2))].

(** getpeername.bpf.c *)
Definition getpeername_e : program := λ k regs id, mk_body id LINX_SYSCALL_TYPE_ENTER (-1) [].
Definition getpeername_x : program := λ k regs ret, mk_body (get_syscall_id regs) LINX_SYSCALL_TYPE_EXIT ret
  [store_s32 (int32 (get_pt_regs_argumnet regs 0));
   store_u64 (uint64 (get_pt_regs_argumnet regs 1));
   store_s32 (user_int32 k (get_pt_regs_argumnet regs 2))].

(** socketpair.bpf.c *)
Definition socketpair_e : program := λ k regs id, mk_body id LINX_SYSCALL_TYPE_ENTER (-1) [].
Definition socketpair_x : program := λ k regs ret, mk_body (get_syscall_id regs) LINX_SYSCALL_TYPE_EXIT ret
  [store_s32 (int32 (get_pt_regs_argumnet regs 0));
   store_s32 (int32 (get_pt_regs_argumnet regs 1));
   store_s32 (int32 (get_pt_regs_argumnet regs 2));
   store_s32 (user_int32 k (get_pt_regs_argumnet regs 3))].

(** setsockopt.bpf.c *)
Definition setsockopt_e : program := λ k regs id, mk_body id LINX_SYSCALL_TYPE_ENTER (-1) [].
Definition setsockopt_x : program := λ k regs ret, mk_body (get_syscall_id regs) LINX_SYSCALL_TYPE_EXIT ret
  [store_s32 (int32 (get_pt_regs_argumnet regs 0));
   store_s32 (int32 (get_pt_regs_argumnet regs 1));
   store_s32 (int32 (get_pt_regs_argumnet regs 2));
   store_charpointer (uint64 (get_pt_regs_argumnet regs 3)) LINX_CHARBUF_MAX_SIZE USER;
   store_s32 (int32 (get_pt_regs_argumnet regs 4))].

(** getsockopt.bpf.c *)
Definition getsockopt_e : program := λ k regs id, mk_body id LINX_SYSCALL_TYPE_ENTER (-1) [].
Definition getsockopt_x : program := λ k regs ret, mk_body (get_syscall_id regs) LINX_SYSCALL_TYPE_EXIT ret
  [store_s32 (int32 (get_pt_regs_argumnet regs 0));
   store_s32 (int32 (get_pt_regs_argumnet regs 1));
   store_s32 (int32 (get_pt_regs_argumnet regs 2));
   store_charpointer (uint64 (get_pt_regs_argumnet regs 3)) LINX_CHARBUF_MAX_SIZE USER;
   store_s32 (user_int32 k (get_pt_regs_argumnet regs 4))].

(** clone.bpf.c *)
Definition clone_e : program := λ k regs id, mk_body id LINX_SYSCALL_TYPE_ENTER (-1) [].
Definition clone_x : program := λ k regs ret, mk_body (get_syscall_id regs) LINX_SYSCALL_TYPE_EXIT ret
  [store_u64 (uint64 (get_pt_regs_argumnet regs 0));
   store_u64 (uint64 (get_pt_regs_argumnet regs 1));
   store_s32 (user_int32 k (get_pt_regs_argumnet regs 2));
   store_s32 (user_int32 k (get_pt_regs_argumnet regs 3));
   store_u64 (uint64 (get_pt_regs_argumnet regs 4))].

(** fork.bpf.c *)
Definition fork_e : program := λ k regs id, mk_body id LINX_SYSCALL_TYPE_ENTER (-1) [].
Definition fork_x : program := λ k regs ret, mk_body (get_syscall_id regs) LINX_SYSCALL_TYPE_EXIT ret
  [].

(** vfork.bpf.c *)
Definition vfork_e : program := λ k regs id, mk_body id LINX_SYSCALL_TYPE_ENTER (-1) [].
Definition vfork_x : program := λ k regs ret, mk_body (get_syscall_id regs) LINX_SYSCALL_TYPE_EXIT ret
  [].

(** execve.bpf.c *)
Definition execve_e : program := λ k regs id, mk_body id LINX_SYSCALL_TYPE_ENTER (-1) [].
Definition execve_x : program := λ k regs ret, mk_body (get_syscall_id regs) LINX_SYSCALL_TYPE_EXIT ret
  [store_charpointer (uint64 (get_pt_regs_argumnet regs 0)) LINX_CHARBUF_MAX_SIZE USER;
   store_charpointer (uint64 (get_pt_regs_argumnet regs 1)) LINX_CHARBUF_MAX_SIZE USER;
   store_charpointer (uint64 (get_pt_regs_argumnet regs 2)) LINX_CHARBUF_MAX_SIZE USER].

(** exit.bpf.c *)
Definition exit_e : program := λ k regs id, mk_body id LINX_SYSCALL_TYPE_ENTER (-1) [].
Definition exit_x : program := λ k regs ret, mk_body (get_syscall_id regs) LINX_SYSCALL_TYPE_EXIT ret
  [store_s32 (int32 (get_pt_regs_argumnet regs 0))].

(** wait4.bpf.c *)
Definition wait4_e : program := λ k regs id, mk_body id LINX_SYSCALL_TYPE_ENTER (-1) [].
Definition wait4_x : program := λ k regs ret, mk_body (get_syscall_id regs) LINX_SYSCALL_TYPE_EXIT ret
  [store_s32 (int32 (get_pt_regs_argumnet regs 0));
   store_s32 (user_int32 k (get_pt_regs_argumnet regs 1));
   store_s32 (int32 (get_pt_regs_argumnet regs 2));
   store_u64 (uint64 (get_pt_regs_argumnet regs 3))].

(** kill.bpf.c *)
Definition kill_e : program := λ k regs id, mk_body id LINX_SYSCALL_TYPE_ENTER (-1) [].
Definition kill_x : program := λ k regs ret, mk_body (get_syscall_id regs) LINX_SYSCALL_TYPE_EXIT ret
  [store_s32 (int32 (get_pt_regs_argumnet regs 0));
   store_s32 (int32 (get_pt_regs_argumnet regs 1))].

(** uname.bpf.c *)
Definition uname_e : program := λ k regs id, mk_body id LINX_SYSCALL_TYPE_ENTER (-1) [].
Definition uname_x : program := λ k regs ret, mk_body (get_syscall_id regs) LINX_SYSCALL_TYPE_EXIT ret
  [store_u64 (uint64 (get_pt_regs_argumnet regs 0))].

(** semget.bpf.c *)
Definition semget_e : program := λ k regs id, mk_body id LINX_SYSCALL_TYPE_ENTER (-1) [].
Definition semget_x : program := λ k regs ret, mk_body (get_syscall_id regs) LINX_SYSCALL_TYPE_EXIT ret
  [store_s32 (int32 (get_pt_regs_argumnet regs 0));
   store_s32 (int32 (get_pt_regs_argumnet regs 1));
   store_s32 (int32 (get_pt_regs_argumnet regs 2))].

(** semop.bpf.c *)
Definition semop_e : program := λ k regs id, mk_body id LINX_SYSCALL_TYPE_ENTER (-1) [].
Definition semop_x : program := λ k regs ret, mk_body (get_syscall_id regs) LINX_SYSCALL_TYPE_EXIT ret
  [store_s32 (int32 (get_pt_regs_argumnet regs 0));
   store_u64 (uint64 (get_pt_regs_argumnet regs 1));
   store_u32 (uint32 (get_pt_regs_argumnet regs 2))].

(** semctl.bpf.c *)
Definition semctl_e : program := λ k regs id, mk_body id LINX_SYSCALL_TYPE_ENTER (-1) [].
Definition semctl_x : program := λ k regs ret, mk_body (get_syscall_id regs) LINX_SYSCALL_TYPE_EXIT ret
  [store_s32 (int32 (get_pt_regs_argumnet regs 0));
   store_s32 (int32 (get_pt_regs_argumnet regs 1));
   store_s32 (int32 (get_pt_regs_argumnet regs 2));
   store_u64 (uint64 (get_pt_regs_argumnet regs 3))].

(** shmdt.bpf.c *)
Definition shmdt_e : program := λ k regs id, mk_body id LINX_SYSCALL_TYPE_ENTER (-1) [].
Definition shmdt_x : program := λ k regs ret, mk_body (get_syscall_id regs) LINX_SYSCALL_TYPE_EXIT ret
  [store_charpointer (uint64 (get_pt_regs_argumnet regs 0)) LINX_CHARBUF_MAX_SIZE USER].

(** msgget.bpf.c *)
Definition msgget_e : program := λ k regs id, mk_body id LINX_SYSCALL_TYPE_ENTER (-1) [].
Definition msgget_x : program := λ k regs ret, mk_body (get_syscall_id regs) LINX_SYSCALL_TYPE_EXIT ret
  [store_s32 (int32 (get_pt_regs_argumnet regs 0));
   store_s32 (int32 (get_pt_regs_argumnet regs 1))].

(** msgsnd.bpf.c *)
Definition msgsnd_e : program := λ k regs id, mk_body id LINX_SYSCALL_TYPE_ENTER (-1) [].
Definition msgsnd_x : program := λ k regs ret, mk_body (get_syscall_id regs) LINX_SYSCALL_TYPE_EXIT ret
  [store_s32 (int32 (get_pt_regs_argumnet regs 0));
   store_u64 (uint64 (get_pt_regs_argumnet regs 1));
   store_u64 (uint64 (get_pt_regs_argumnet regs 2));
   store_s32 (int32 (get_pt_regs_argumnet regs 3))].

(** msgrcv.bpf.c *)
Definition msgrcv_e : program := λ k regs id, mk_body id LINX_SYSCALL_TYPE_ENTER (-1) [].
Definition msgrcv_x : program := λ k regs ret, mk_body (get_syscall_id regs) LINX_SYSCALL_TYPE_EXIT ret
  [store_s32 (int32 (get_pt_regs_argumnet regs 0));
   store_u64 (uint64 (get_pt_regs_argumnet regs 1));
   store_u64 (uint64 (get_pt_regs_argumnet regs 2));
   store_s64 (int64 (get_pt_regs_argumnet regs 3));
   store_s32 (int32 (get_pt_regs_argumnet regs 4))].

(** msgctl.bpf.c *)
Definition msgctl_e : program := λ k regs id, mk_body id LINX_SYSCALL_TYPE_ENTER (-1) [].
Definition msgctl_x : program := λ k regs ret, mk_body (get_syscall_id regs) LINX_SYSCALL_TYPE_EXIT ret
  [store_s32 (int32 (get_pt_regs_argumnet regs 0));
   store_s32 (int32 (get_pt_regs_argumnet regs 1));
   store_u64 (uint64 (get_pt_regs_argumnet regs 2))].

(** fcntl.bpf.c *)
Definition fcntl_e : program := λ k regs id, mk_body id LINX_SYSCALL_TYPE_ENTER (-1) [].
Definition fcntl_x : program := λ k regs ret, mk_body (get_syscall_id regs) LINX_SYSCALL_TYPE_EXIT ret
  [store_u32 (uint32 (get_pt_regs_argumnet regs 0));
   store_u32 (uint32 (get_pt_regs_argumnet regs 1));
   store_u64 (uint64 (get_pt_regs_argumnet regs 2))].

(** flock.bpf.c *)
Definition flock_e : program := λ k regs id, mk_body id LINX_SYSCALL_TYPE_ENTER (-1) [].
Definition flock_x : program := λ k regs ret, mk_body (get_syscall_id regs) LINX_SYSCALL_TYPE_EXIT ret
  [store_u32 (uint32 (get_pt_regs_argumnet regs 0));
   store_u32 (uint32 (get_pt_regs_argumnet regs 1))].

(** fsync.bpf.c *)
Definition fsync_e : program := λ k regs id, mk_body id LINX_SYSCALL_TYPE_ENTER (-1) [].
Definition fsync_x : program := λ k regs ret, mk_body (get_syscall_id regs) LINX_SYSCALL_TYPE_EXIT ret
  [store_u32 (uint32 (get_pt_regs_argumnet regs 0))].

(** fdatasync.bpf.c *)
Definition fdatasync_e : program := λ k regs id, mk_body id LINX_SYSCALL_TYPE_ENTER (-1) [].
Definition fdatasync_x : program := λ k regs ret, mk_body (get_syscall_id regs) LINX_SYSCALL_TYPE_EXIT ret
  [store_u32 (uint32 (get_pt_regs_argumnet regs 0))].

(** truncate.bpf.c *)
Definition truncate_e : program := λ k regs id, mk_body id LINX_SYSCALL_TYPE_ENTER (-1) [].
Definition truncate_x : program := λ k regs ret, mk_body (get_syscall_id regs) LINX_SYSCALL_TYPE_EXIT ret
  [store_charpointer (uint64 (get_pt_regs_argumnet regs 0)) LINX_CHARBUF_MAX_SIZE USER;
   store_s64 (int64 (get_pt_regs_argumnet regs 1))].

(** ftruncate.bpf.c *)
Definition ftruncate_e : program := λ k regs id, mk_body id LINX_SYSCALL_TYPE_ENTER (-1) [].
Definition ftruncate_x : program := λ k regs ret, mk_body (get_syscall_id regs) LINX_SYSCALL_TYPE_EXIT ret
  [store_u32 (uint32 (get_pt_regs_argumnet regs 0));
   store_s64 (int64 (get_pt_regs_argumnet regs 1))].

(** getdents.bpf.c *)
Definition getdents_e : program := λ k regs id, mk_body id LINX_SYSCALL_TYPE_ENTER (-1) [].
Definition getdents_x : program := λ k regs ret, mk_body (get_syscall_id regs) LINX_SYSCALL_TYPE_EXIT ret
  [store_u32 (uint32 (get_pt_regs_argumnet regs 0));
   store_u64 (uint64 (get_pt_regs_argumnet regs 1));
   store_u32 (uint32 (get_pt_regs_argumnet regs 2))].

(** getcwd.bpf.c *)
Definition getcwd_e : program := λ k regs id, mk_body id LINX_SYSCALL_TYPE_ENTER (-1) [].
Definition getcwd_x : program := λ k regs ret, mk_body (get_syscall_id regs) LINX_SYSCALL_TYPE_EXIT ret
  [store_charpointer (uint64 (get_pt_regs_argumnet regs 0)) LINX_CHARBUF_MAX_SIZE USER;
   store_u64 (uint64 (get_pt_regs_argumnet regs 1))].

(** chdir.bpf.c *)
Definition chdir_e : program := λ k regs id, mk_body id LINX_SYSCALL_TYPE_ENTER (-1) [].
Definition chdir_x : program := λ k regs ret, mk_body (get_syscall_id regs) LINX_SYSCALL_TYPE_EXIT ret
  [store_charpointer (uint64 (get_pt_regs_argumnet regs 0)) LINX_CHARBUF_MAX_SIZE USER].

(** fchdir.bpf.c *)
Definition fchdir_e : program := λ k regs id, mk_body id LINX_SYSCALL_TYPE_ENTER (-1) [].
Definition fchdir_x : program := λ k regs ret, mk_body (get_syscall_id regs) LINX_SYSCALL_TYPE_EXIT ret
  [store_u32 (uint32 (get_pt_regs_argumnet regs 0))].

(** rename.bpf.c *)
Definition rename_e : program := λ k regs id, mk_body id LINX_SYSCALL_TYPE_ENTER (-1) [].
Definition rename_x : program := λ k regs ret, mk_body (get_syscall_id regs) LINX_SYSCALL_TYPE_EXIT ret
  [store_charpointer (uint64 (get_pt_regs_argumnet regs 0)) LINX_CHARBUF_MAX_SIZE USER;
   store_charpointer (uint64 (get_pt_regs_argumnet regs 1)) LINX_CHARBUF_MAX_SIZE USER].

(** mkdir.bpf.c *)
Definition mkdir_e : program := λ k regs id, mk_body id LINX_SYSCALL_TYPE_ENTER (-1) [].
Definition mkdir_x : program := λ k regs ret, mk_body (get_syscall_id regs) LINX_SYSCALL_TYPE_EXIT ret
  [store_charpointer (uint64 (get_pt_regs_argumnet regs 0)) LINX_CHARBUF_MAX_SIZE USER;
   store_u16 (uint16 (get_pt_regs_argumnet regs 1))].

(** rmdir.bpf.c *)
Definition rmdir_e : program := λ k regs id, mk_body id LINX_SYSCALL_TYPE_ENTER (-1) [].
Definition rmdir_x : program := λ k regs ret, mk_body (get_syscall_id regs) LINX_SYSCALL_TYPE_EXIT ret
  [store_charpointer (uint64 (get_pt_regs_argumnet regs 0)) LINX_CHARBUF_MAX_SIZE USER].

(** creat.bpf.c *)
Definition creat_e : program := λ k regs id, mk_body id LINX_SYSCALL_TYPE_ENTER (-1) [].
Definition creat_x : program := λ k regs ret, mk_body (get_syscall_id regs) LINX_SYSCALL_TYPE_EXIT ret
  [store_charpointer (uint64 (get_pt_regs_argumnet regs 0)) LINX_CHARBUF_MAX_SIZE USER;
   store_u16 (uint16 (get_pt_regs_argumnet regs 1))].

(** link.bpf.c *)
Definition link_e : program := λ k regs id, mk_body id LINX_SYSCALL_TYPE_ENTER (-1) [].
Definition link_x : program := λ k regs ret, mk_body (get_syscall_id regs) LINX_SYSCALL_TYPE_EXIT ret
  [store_charpointer (uint64 (get_pt_regs_argumnet regs 0)) LINX_CHARBUF_MAX_SIZE USER;
   store_charpointer (uint64 (get_pt_regs_argumnet regs 1)) LINX_CHARBUF_MAX_SIZE USER].

(** unlink.bpf.c *)
Definition unlink_e : program := λ k regs id, mk_body id LINX_SYSCALL_TYPE_ENTER (-1) [].
Definition unlink_x : program := λ k regs ret, mk_body (get_syscall_id regs) LINX_SYSCALL_TYPE_EXIT ret
  [store_charpointer (uint64 (get_pt_regs_argumnet regs 0)) LINX_CHARBUF_MAX_SIZE USER].

(** symlink.bpf.c *)
Definition symlink_e : program := λ k regs id, mk_body id LINX_SYSCALL_TYPE_ENTER (-1) [].
Definition symlink_x : program := λ k regs ret, mk_body (get_syscall_id regs) LINX_SYSCALL_TYPE_EXIT ret
  [store_charpointer (uint64 (get_pt_regs_argumnet regs 0)) LINX_CHARBUF_MAX_SIZE USER;
   store_charpointer (uint64 (get_pt_regs_argumnet regs 1)) LINX_CHARBUF_MAX_SIZE USER].

(** readlink.bpf.c *)
Definition readlink_e : program := λ k regs id, mk_body id LINX_SYSCALL_TYPE_ENTER (-1) [].
Definition readlink_x : program := λ k regs ret, mk_body (get_syscall_id regs) LINX_SYSCALL_TYPE_EXIT ret
  [store_charpointer (uint64 (get_pt_regs_argumnet regs 0)) LINX_CHARBUF_MAX_SIZE USER;
   store_charpointer (uint64 (get_pt_regs_argumnet regs 1)) LINX_CHARBUF_MAX_SIZE USER;
   store_s32 (int32 (get_pt_regs_argumnet regs 2))].

(** chmod.bpf.c *)
Definition chmod_e : program := λ k regs id, mk_body id LINX_SYSCALL_TYPE_ENTER (-1) [].
Definition chmod_x : program := λ k regs ret, mk_body (get_syscall_id regs) LINX_SYSCALL_TYPE_EXIT ret
  [store_charpointer (uint64 (get_pt_regs_argumnet regs 0)) LINX_CHARBUF_MAX_SIZE USER;
   store_u16 (uint16 (get_pt_regs_argumnet regs 1))].

(** fchmod.bpf.c *)
Definition fchmod_e : program := λ k regs id, mk_body id LINX_SYSCALL_TYPE_ENTER (-1) [].
Definition fchmod_x : program := λ k regs ret, mk_body (get_syscall_id regs) LINX_SYSCALL_TYPE_EXIT ret
  [store_u32 (uint32 (get_pt_regs_argumnet regs 0));
   store_u16 (uint16 (get_pt_regs_argumnet regs 1))].

(** chown.bpf.c *)
Definition chown_e : program := λ k regs id, mk_body id LINX_SYSCALL_TYPE_ENTER (-1) [].
Definition chown_x : program := λ k regs ret, mk_body (get_syscall_id regs) LINX_SYSCALL_TYPE_EXIT ret
  [store_charpointer (uint64 (get_pt_regs_argumnet regs 0)) LINX_CHARBUF_MAX_SIZE USER;
   store_u32 (uint32 (get_pt_regs_argumnet regs 1));
   store_u32 (uint32 (get_pt_regs_argumnet regs 2))].

(** fchown.bpf.c *)
Definition fchown_e : program := λ k regs id, mk_body id LINX_SYSCALL_TYPE_ENTER (-1) [].
Definition fchown_x : program := λ k regs ret, mk_body (get_syscall_id regs) LINX_SYSCALL_TYPE_EXIT ret
  [store_u32 (uint32 (get_pt_regs_argumnet regs 0));
   store_u32 (uint32 (get_pt_regs_argumnet regs 1));
   store_u32 (uint32 (get_pt_regs_argumnet regs 2))].

(** lchown.bpf.c *)
Definition lchown_e : program := λ k regs id, mk_body id LINX_SYSCALL_TYPE_ENTER (-1) [].
Definition lchown_x : program := λ k regs ret, mk_body (get_syscall_id regs) LINX_SYSCALL_TYPE_EXIT ret
  [store_charpointer (uint64 (get_pt_regs_argumnet regs 0)) LINX_CHARBUF_MAX_SIZE USER;
   store_u32 (uint32 (get_pt_regs_argumnet regs 1));
   store_u32 (uint32 (get_pt_regs_argumnet regs 2))].

(** umask.bpf.c *)
Definition umask_e : program := λ k regs id, mk_body id LINX_SYSCALL_TYPE_ENTER (-1) [].
Definition umask_x : program := λ k regs ret, mk_body (get_syscall_id regs) LINX_SYSCALL_TYPE_EXIT ret
  [store_s32 (int32 (get_pt_regs_argumnet regs 0))].

(** gettimeofday.bpf.c *)
Definition gettimeofday_e : program := λ k regs id, mk_body id LINX_SYSCALL_TYPE_ENTER (-1) [].
Definition gettimeofday_x : program := λ k regs ret, mk_body (get_syscall_id regs) LINX_SYSCALL_TYPE_EXIT ret
  [store_u64 (uint64 (get_pt_regs_argumnet regs 0));
   store_u64 (uint64 (get_pt_regs_argumnet regs 1))].

(** getrlimit.bpf.c *)
Definition getrlimit_e : program := λ k regs id, mk_body id LINX_SYSCALL_TYPE_ENTER (-1) [].
Definition getrlimit_x : program := λ k regs ret, mk_body (get_syscall_id regs) LINX_SYSCALL_TYPE_EXIT ret
  [store_u32 (uint32 (get_pt_regs_argumnet regs 0));
   store_u64 (uint64 (get_pt_regs_argumnet regs 1))].

(** getrusage.bpf.c *)
Definition getrusage_e : program := λ k regs id, mk_body id LINX_SYSCALL_TYPE_ENTER (-1) [].
Definition getrusage_x : program := λ k regs ret, mk_body (get_syscall_id regs) LINX_SYSCALL_TYPE_EXIT ret
  [store_s32 (int32 (get_pt_regs_argumnet regs 0));
   store_u64 (uint64 (get_pt_regs_argumnet regs 1))].

(** sysinfo.bpf.c *)
Definition sysinfo_e : program := λ k regs id, mk_body id LINX_SYSCALL_TYPE_ENTER (-1) [].
Definition sysinfo_x : program := λ k regs ret, mk_body (get_syscall_id regs) LINX_SYSCALL_TYPE_EXIT ret
  [store_u64 (uint64 (get_pt_regs_argumnet regs 0))].

(** times.bpf.c *)
Definition times_e : program := λ k regs id, mk_body id LINX_SYSCALL_TYPE_ENTER (-1) [].
Definition times_x : program := λ k regs ret, mk_body (get_syscall_id regs) LINX_SYSCALL_TYPE_EXIT ret
  [store_u64 (uint64 (get_pt_regs_argumnet regs 0))].

(** ptrace.bpf.c *)
Definition ptrace_e : program := λ k regs id, mk_body id LINX_SYSCALL_TYPE_ENTER (-1) [].
Definition ptrace_x : program := λ k regs ret, mk_body (get_syscall_id regs) LINX_SYSCALL_TYPE_EXIT ret
  [store_s64 (int64 (get_pt_regs_argumnet regs 0));
   store_s64 (int64 (get_pt_regs_argumnet regs 1));
   store_u64 (uint64 (get_pt_regs_argumnet regs 2));
   store_u64 (uint64 (get_pt_regs_argumnet regs 3))].

(** getuid.bpf.c *)
Definition getuid_e : program := λ k regs id, mk_body id LINX_SYSCALL_TYPE_ENTER (-1) [].
Definition getuid_x : program := λ k regs ret, mk_body (get_syscall_id regs) LINX_SYSCALL_TYPE_EXIT ret
  [].

(** syslog.bpf.c *)
Definition syslog_e : program := λ k regs id, mk_body id LINX_SYSCALL_TYPE_ENTER (-1) [].
Definition syslog_x : program := λ k regs ret, mk_body (get_syscall_id regs) LINX_SYSCALL_TYPE_EXIT ret
  [store_s32 (int32 (get_pt_regs_argumnet regs 0));
   store_charpointer (uint64 (get_pt_regs_argumnet regs 1)) LINX_CHARBUF_MAX_SIZE USER;
   store_s32 (int32 (get_pt_regs_argumnet regs 2))].

(** getgid.bpf.c *)
Definition getgid_e : program := λ k regs id, mk_body id LINX_SYSCALL_TYPE_ENTER (-1) [].
Definition getgid_x : program := λ k regs ret, mk_body (get_syscall_id regs) LINX_SYSCALL_TYPE_EXIT ret
  [].

(** setuid.bpf.c *)
Definition setuid_e : program := λ k regs id, mk_body id LINX_SYSCALL_TYPE_ENTER (-1) [].
Definition setuid_x : program := λ k regs ret, mk_body (get_syscall_id regs) LINX_SYSCALL_TYPE_EXIT ret
  [store_u32 (uint32 (get_pt_regs_argumnet regs 0))].

(** setgid.bpf.c *)
Definition setgid_e : program := λ k regs id, mk_body id LINX_SYSCALL_TYPE_ENTER (-1) [].
Definition setgid_x : program := λ k regs ret, mk_body (get_syscall_id regs) LINX_SYSCALL_TYPE_EXIT ret
  [store_u32 (uint32 (get_pt_regs_argumnet regs 0))].

(** geteuid.bpf.c *)
Definition geteuid_e : program := λ k regs id, mk_body id LINX_SYSCALL_TYPE_ENTER (-1) [].
Definition geteuid_x : program := λ k regs ret, mk_body (get_syscall_id regs) LINX_SYSCALL_TYPE_EXIT ret
  [].

(** getegid.bpf.c *)
Definition getegid_e : program := λ k regs id, mk_body id LINX_SYSCALL_TYPE_ENTER (-1) [].
Definition getegid_x : program := λ k regs ret, mk_body (get_syscall_id regs) LINX_SYSCALL_TYPE_EXIT ret
  [].

(** setpgid.bpf.c *)
Definition setpgid_e : program := λ k regs id, mk_body id LINX_SYSCALL_TYPE_ENTER (-1) [].
Definition setpgid_x : program := λ k regs ret, mk_body (get_syscall_id regs) LINX_SYSCALL_TYPE_EXIT ret
  [store_s32 (int32 (get_pt_regs_argumnet regs 0));
   store_s32 (int32 (get_pt_regs_argumnet regs 1))].

(** getppid.bpf.c *)
Definition getppid_e : program := λ k regs id, mk_body id LINX_SYSCALL_TYPE_ENTER (-1) [].
Definition getppid_x : program := λ k regs ret, mk_body (get_syscall_id regs) LINX_SYSCALL_TYPE_EXIT ret
  [].

(** getpgrp.bpf.c *)
Definition getpgrp_e : program := λ k regs id, mk_body id LINX_SYSCALL_TYPE_ENTER (-1) [].
Definition getpgrp_x : program := λ k regs ret, mk_body (get_syscall_id regs) LINX_SYSCALL_TYPE_EXIT ret
  [].

(** setsid.bpf.c *)
Definition setsid_e : program := λ k regs id, mk_body id LINX_SYSCALL_TYPE_ENTER (-1) [].
Definition setsid_x : program := λ k regs ret, mk_body (get_syscall_id regs) LINX_SYSCALL_TYPE_EXIT ret
  [].

(** setreuid.bpf.c *)
Definition setreuid_e : program := λ k regs id, mk_body id LINX_SYSCALL_TYPE_ENTER (-1) [].
Definition setreuid_x : program := λ k regs ret, mk_body (get_syscall_id regs) LINX_SYSCALL_TYPE_EXIT ret
  [store_u32 (uint32 (get_pt_regs_argumnet regs 0));
   store_u32 (uint32 (get_pt_regs_argumnet regs 1))].

(** setregid.bpf.c *)
Definition setregid_e : program := λ k regs id, mk_body id LINX_SYSCALL_TYPE_ENTER (-1) [].
Definition setregid_x : program := λ k regs ret, mk_body (get_syscall_id regs) LINX_SYSCALL_TYPE_EXIT ret
  [store_u32 (uint32 (get_pt_regs_argumnet regs 0));
   store_u32 (uint32 (get_pt_regs_argumnet regs 1))].

(** getgroups.bpf.c *)
Definition getgroups_e : program := λ k regs id, mk_body id LINX_SYSCALL_TYPE_ENTER (-1) [].
Definition getgroups_x : program := λ k regs ret, mk_body (get_syscall_id regs) LINX_SYSCALL_TYPE_EXIT ret
  [store_s32 (int32 (get_pt_regs_argumnet regs 0));
   store_u32 (user_uint32 k (get_pt_regs_argumnet regs 1))].

(** setgroups.bpf.c *)
Definition setgroups_e : program := λ k regs id, mk_body id LINX_SYSCALL_TYPE_ENTER (-1) [].
Definition setgroups_x : program := λ k regs ret, mk_body (get_syscall_id regs) LINX_SYSCALL_TYPE_EXIT ret
  [store_s32 (int32 (get_pt_regs_argumnet regs 0));
   store_u32 (user_uint32 k (get_pt_regs_argumnet regs 1))].

(** setresuid.bpf.c *)
Definition setresuid_e : program := λ k regs id, mk_body id LINX_SYSCALL_TYPE_ENTER (-1) [].
Definition setresuid_x : program := λ k regs ret, mk_body (get_syscall_id regs) LINX_SYSCALL_TYPE_EXIT ret
  [store_u32 (uint32 (get_pt_regs_argumnet regs 0));
   store_u32 (uint32 (get_pt_regs_argumnet regs 1));
   store_u32 (uint32 (get_pt_regs_argumnet regs 2))].

(** getresuid.bpf.c *)
Definition getresuid_e : program := λ k regs id, mk_body id LINX_SYSCALL_TYPE_ENTER (-1) [].
Definition getresuid_x : program := λ k regs ret, mk_body (get_syscall_id regs) LINX_SYSCALL_TYPE_EXIT ret
  [store_u32 (user_uint32 k (get_pt_regs_argumnet regs 0));
   store_u32 (user_uint32 k (get_pt_regs_argumnet regs 1));
   store_u32 (user_uint32 k (get_pt_regs_argumnet regs 2))].

(** setresgid.bpf.c *)
Definition setresgid_e : program := λ k regs id, mk_body id LINX_SYSCALL_TYPE_ENTER (-1) [].
Definition setresgid_x : program := λ k regs ret, mk_body (get_syscall_id regs) LINX_SYSCALL_TYPE_EXIT ret
  [store_u32 (uint32 (get_pt_regs_argumnet regs 0));
   store_u32 (uint32 (get_pt_regs_argumnet regs 1));
   store_u32 (uint32 (get_pt_regs_argumnet regs 2))].

(** getresgid.bpf.c *)
Definition getresgid_e : program := λ k regs id, mk_body id LINX_SYSCALL_TYPE_ENTER (-1) [].
Definition getresgid_x : program := λ k regs ret, mk_body (get_syscall_id regs) LINX_SYSCALL_TYPE_EXIT ret
  [store_u32 (user_uint32 k (get_pt_regs_argumnet regs 0));
   store_u32 (user_uint32 k (get_pt_regs_argumnet regs 1));
   store_u32 (user_uint32 k (get_pt_regs_argumnet regs 2))].

(** getpgid.bpf.c *)
Definition getpgid_e : program := λ k regs id, mk_body id LINX_SYSCALL_TYPE_ENTER (-1) [].
Definition getpgid_x : program := λ k regs ret, mk_body (get_syscall_id regs) LINX_SYSCALL_TYPE_EXIT ret
  [store_s32 (int32 (get_pt_regs_argumnet regs 0))].

(** setfsuid.bpf.c *)
Definition setfsuid_e : program := λ k regs id, mk_body id LINX_SYSCALL_TYPE_ENTER (-1) [].
Definition setfsuid_x : program := λ k regs ret, mk_body (get_syscall_id regs) LINX_SYSCALL_TYPE_EXIT ret
  [store_u32 (uint32 (get_pt_regs_argumnet regs 0))].

(** setfsgid.bpf.c *)
Definition setfsgid_e : program := λ k regs id, mk_body id LINX_SYSCALL_TYPE_ENTER (-1) [].
Definition setfsgid_x : program := λ k regs ret, mk_body (get_syscall_id regs) LINX_SYSCALL_TYPE_EXIT ret
  [store_u32 (uint32 (get_pt_regs_argumnet regs 0))].

(** getsid.bpf.c *)
Definition getsid_e : program := λ k regs id, mk_body id LINX_SYSCALL_TYPE_ENTER (-1) [].
Definition getsid_x : program := λ k regs ret, mk_body (get_syscall_id regs) LINX_SYSCALL_TYPE_EXIT ret
  [store_s32 (int32 (get_pt_regs_argumnet regs 0))].

(** capget.bpf.c *)
Definition capget_e : program := λ k regs id, mk_body id LINX_SYSCALL_TYPE_ENTER (-1) [].
Definition capget_x : program := λ k regs ret, mk_body (get_syscall_id regs) LINX_SYSCALL_TYPE_EXIT ret
  [store_u64 (uint64 (get_pt_regs_argumnet regs 0));
   store_u64 (uint64 (get_pt_regs_argumnet regs 1))].

(** capset.bpf.c *)
Definition capset_e : program := λ k regs id, mk_body id LINX_SYSCALL_TYPE_ENTER (-1) [].
Definition capset_x : program := λ k regs ret, mk_body (get_syscall_id regs) LINX_SYSCALL_TYPE_EXIT ret
  [store_u64 (uint64 (get_pt_regs_argumnet regs 0));
   store_u64 (uint64 (get_pt_regs_argumnet regs 1))].

(** rt_sigpending.bpf.c *)
Definition rt_sigpending_e : program := λ k regs id, mk_body id LINX_SYSCALL_TYPE_ENTER (-1) [].
Definition rt_sigpending_x : program := λ k regs ret, mk_body (get_syscall_id regs) LINX_SYSCALL_TYPE_EXIT ret
  [store_u64 (uint64 (get_pt_regs_argumnet regs 0));
   store_u64 (uint64 (get_pt_regs_argumnet regs 1))].

(** rt_sigtimedwait.bpf.c *)
Definition rt_sigtimedwait_e : program := λ k regs id, mk_body id LINX_SYSCALL_TYPE_ENTER (-1) [].
Definition rt_sigtimedwait_x : program := λ k regs ret, mk_body (get_syscall_id regs) LINX_SYSCALL_TYPE_EXIT ret
  [store_u64 (uint64 (get_pt_regs_argumnet regs 0));
   store_u64 (uint64 (get_pt_regs_argumnet regs 1));
   store_u64 (uint64 (get_pt_regs_argumnet regs 2));
   store_u64 (uint64 (get_pt_regs_argumnet regs 3))].

(** rt_sigqueueinfo.bpf.c *)
Definition rt_sigqueueinfo_e : program := λ k regs id, mk_body id LINX_SYSCALL_TYPE_ENTER (-1) [].
Definition rt_sigqueueinfo_x : program := λ k regs ret, mk_body (get_syscall_id regs) LINX_SYSCALL_TYPE_EXIT ret
  [store_s32 (int32 (get_pt_regs_argumnet regs 0));
   store_s32 (int32 (get_pt_regs_argumnet regs 1));
   store_u64 (uint64 (get_pt_regs_argumnet regs 2))].

(** rt_sigsuspend.bpf.c *)
Definition rt_sigsuspend_e : program := λ k regs id, mk_body id LINX_SYSCALL_TYPE_ENTER (-1) [].
Definition rt_sigsuspend_x : program := λ k regs ret, mk_body (get_syscall_id regs) LINX_SYSCALL_TYPE_EXIT ret
  [store_u64 (uint64 (get_pt_regs_argumnet regs 0));
   store_u64 (uint64 (get_pt_regs_argumnet regs 1))].

(** sigaltstack.bpf.c *)
Definition sigaltstack_e : program := λ k regs id, mk_body id LINX_SYSCALL_TYPE_ENTER (-1) [].
Definition sigaltstack_x : program := λ k regs ret, mk_body (get_syscall_id regs) LINX_SYSCALL_TYPE_EXIT ret
  [store_u64 (uint64 (get_pt_regs_argumnet regs 0));
   store_u64 (uint64 (get_pt_regs_argumnet regs 1))].

(** utime.bpf.c *)
Definition utime_e : program := λ k regs id, mk_body id LINX_SYSCALL_TYPE_ENTER (-1) [].
Definition utime_x : program := λ k regs ret, mk_body (get_syscall_id regs) LINX_SYSCALL_TYPE_EXIT ret
  [store_charpointer (uint64 (get_pt_regs_argumnet regs 0)) LINX_CHARBUF_MAX_SIZE USER;
   store_u64 (uint64 (get_pt_regs_argumnet regs 1))].

(** mknod.bpf.c *)
Definition mknod_e : program := λ k regs id, mk_body id LINX_SYSCALL_TYPE_ENTER (-1) [].
Definition mknod_x : program := λ k regs ret, mk_body (get_syscall_id regs) LINX_SYSCALL_TYPE_EXIT ret
  [store_charpointer (uint64 (get_pt_regs_argumnet regs 0)) LINX_CHARBUF_MAX_SIZE USER;
   store_u16 (uint16 (get_pt_regs_argumnet regs 1));
   store_u32 (uint32 (get_pt_regs_argumnet regs 2))].

(** uselib.bpf.c *)
Definition uselib_e : program := λ k regs id, mk_body id LINX_SYSCALL_TYPE_ENTER (-1) [].
Definition uselib_x : program := λ k regs ret, mk_body (get_syscall_id regs) LINX_SYSCALL_TYPE_EXIT ret
  [store_charpointer (uint64 (get_pt_regs_argumnet regs 0)) LINX_CHARBUF_MAX_SIZE USER].

(** personality.bpf.c *)
Definition personality_e : program := λ k regs id, mk_body id LINX_SYSCALL_TYPE_ENTER (-1) [].
Definition personality_x : program := λ k regs ret, mk_body (get_syscall_id regs) LINX_SYSCALL_TYPE_EXIT ret
  [store_u32 (uint32 (get_pt_regs_argumnet regs 0))].

(** ustat.bpf.c *)
Definition ustat_e : program := λ k regs id, mk_body id LINX_SYSCALL_TYPE_ENTER (-1) [].
Definition ustat_x : program := λ k regs ret, mk_body (get_syscall_id regs) LINX_SYSCALL_TYPE_EXIT ret
  [store_u32 (uint32 (get_pt_regs_argumnet regs 0));
   store_u64 (uint64 (get_pt_regs_argumnet regs 1))].

(** statfs.bpf.c *)
Definition statfs_e : program := λ k regs id, mk_body id LINX_SYSCALL_TYPE_ENTER (-1) [].
Definition statfs_x : program := λ k regs ret, mk_body (get_syscall_id regs) LINX_SYSCALL_TYPE_EXIT ret
  [store_charpointer (uint64 (get_pt_regs_argumnet regs 0)) LINX_CHARBUF_MAX_SIZE USER;
   store_u64 (uint64 (get_pt_regs_argumnet regs 1))].

(** fstatfs.bpf.c *)
Definition fstatfs_e : program := λ k regs id, mk_body id LINX_SYSCALL_TYPE_ENTER (-1) [].
Definition fstatfs_x : program := λ k regs ret, mk_body (get_syscall_id regs) LINX_SYSCALL_TYPE_EXIT ret
  [store_u32 (uint32 (get_pt_regs_argumnet regs 0));
   store_u64 (uint64 (get_pt_regs_argumnet regs 1))].

(** sysfs.bpf.c *)
Definition sysfs_e : program := λ k regs id, mk_body id LINX_SYSCALL_TYPE_ENTER (-1) [].
Definition sysfs_x : program := λ k regs ret, mk_body (get_syscall_id regs) LINX_SYSCALL_TYPE_EXIT ret
  [store_s32 (int32 (get_pt_regs_argumnet regs 0));
   store_u64 (uint64 (get_pt_regs_argumnet regs 1));
   store_u64 (uint64 (get_pt_regs_argumnet regs 2))].

(** getpriority.bpf.c *)
Definition getpriority_e : program := λ k regs id, mk_body id LINX_SYSCALL_TYPE_ENTER (-1) [].
Definition getpriority_x : program := λ k regs ret, mk_body (get_syscall_id regs) LINX_SYSCALL_TYPE_EXIT ret
  [store_s32 (int32 (get_pt_regs_argumnet regs 0));
   store_s32 (int32 (get_pt_regs_argumnet regs 1))].

(** setpriority.bpf.c *)
Definition setpriority_e : program := λ k regs id, mk_body id LINX_SYSCALL_TYPE_ENTER (-1) [].
Definition setpriority_x : program := λ k regs ret, mk_body (get_syscall_id regs) LINX_SYSCALL_TYPE_EXIT ret
  [store_s32 (int32 (get_pt_regs_argumnet regs 0));
   store_s32 (int32 (get_pt_regs_argumnet regs 1));
   store_s32 (int32 (get_pt_regs_argumnet regs 2))].

(** sched_setparam.bpf.c *)
Definition sched_setparam_e : program := λ k regs id, mk_body id LINX_SYSCALL_TYPE_ENTER (-1) [].
Definition sched_setparam_x : program := λ k regs ret, mk_body (get_syscall_id regs) LINX_SYSCALL_TYPE_EXIT ret
  [store_s32 (int32 (get_pt_regs_argumnet regs 0));
   store_u64 (uint64 (get_pt_regs_argumnet regs 1))].

(** sched_getparam.bpf.c *)
Definition sched_getparam_e : program := λ k regs id, mk_body id LINX_SYSCALL_TYPE_ENTER (-1) [].
Definition sched_getparam_x : program := λ k regs ret, mk_body (get_syscall_id regs) LINX_SYSCALL_TYPE_EXIT ret
  [store_s32 (int32 (get_pt_regs_argumnet regs 0));
   store_u64 (uint64 (get_pt_regs_argumnet regs 1))].

(** sched_setscheduler.bpf.c *)
Definition sched_setscheduler_e : program := λ k regs id, mk_body id LINX_SYSCALL_TYPE_ENTER (-1) [].
Definition sched_setscheduler_x : program := λ k regs ret, mk_body (get_syscall_id regs) LINX_SYSCALL_TYPE_EXIT ret
  [store_s32 (int32 (get_pt_regs_argumnet regs 0));
   store_s32 (int32 (get_pt_regs_argumnet regs 1));
   store_u64 (uint64 (get_pt_regs_argumnet regs 2))].

(** sched_getscheduler.bpf.c *)
Definition sched_getscheduler_e : program := λ k regs id, mk_body id LINX_SYSCALL_TYPE_ENTER (-1) [].
Definition sched_getscheduler_x : program := λ k regs ret, mk_body (get_syscall_id regs) LINX_SYSCALL_TYPE_EXIT ret
  [store_s32 (int32 (get_pt_regs_argumnet regs 0))].

(** sched_get_priority_max.bpf.c *)
Definition sched_get_priority_max_e : program := λ k regs id, mk_body id LINX_SYSCALL_TYPE_ENTER (-1) [].
Definition sched_get_priority_max_x : program :=
  λ k regs ret, mk_body (get_syscall_id regs) LINX_SYSCALL_TYPE_EXIT ret
  [store_s32 (int32 (get_pt_regs_argumnet regs 0))].

(** sched_get_priority_min.bpf.c *)
Definition sched_get_priority_min_e : program := λ k regs id, mk_body id LINX_SYSCALL_TYPE_ENTER (-1) [].
Definition sched_get_priority_min_x : program :=
  λ k regs ret, mk_body (get_syscall_id regs) LINX_SYSCALL_TYPE_EXIT ret
  [store_s32 (int32 (get_pt_regs_argumnet regs 0))].

(** sched_rr_get_interval.bpf.c *)
Definition sched_rr_get_interval_e : program := λ k regs id, mk_body id LINX_SYSCALL_TYPE_ENTER (-1) [].
Definition sched_rr_get_interval_x : program := λ k regs ret, mk_body (get_syscall_id regs) LINX_SYSCALL_TYPE_EXIT ret
  [store_s32 (int32 (get_pt_regs_argumnet regs 0));
   store_u64 (uint64 (get_pt_regs_argumnet regs 1))].

(** mlock.bpf.c *)
Definition mlock_e : program := λ k regs id, mk_body id LINX_SYSCALL_TYPE_ENTER (-1) [].
Definition mlock_x : program := λ k regs ret, mk_body (get_syscall_id regs) LINX_SYSCALL_TYPE_EXIT ret
  [store_u64 (uint64 (get_pt_regs_argumnet regs 0));
   store_u64 (uint64 (get_pt_regs_argumnet regs 1))].

(** munlock.bpf.c *)
Definition munlock_e : program := λ k regs id, mk_body id LINX_SYSCALL_TYPE_ENTER (-1) [].
Definition munlock_x : program := λ k regs ret, mk_body (get_syscall_id regs) LINX_SYSCALL_TYPE_EXIT ret
  [store_u64 (uint64 (get_pt_regs_argumnet regs 0));
   store_u64 (uint64 (get_pt_regs_argumnet regs 1))].

(** mlockall.bpf.c *)
Definition mlockall_e : program := λ k regs id, mk_body id LINX_SYSCALL_TYPE_ENTER (-1) [].
Definition mlockall_x : program := λ k regs ret, mk_body (get_syscall_id regs) LINX_SYSCALL_TYPE_EXIT ret
  [store_s32 (int32 (get_pt_regs_argumnet regs 0))].

(** munlockall.bpf.c *)
Definition munlockall_e : program := λ k regs id, mk_body id LINX_SYSCALL_TYPE_ENTER (-1) [].
Definition munlockall_x : program := λ k regs ret, mk_body (get_syscall_id regs) LINX_SYSCALL_TYPE_EXIT ret
  [].

(** vhangup.bpf.c *)
Definition vhangup_e : program := λ k regs id, mk_body id LINX_SYSCALL_TYPE_ENTER (-1) [].
Definition vhangup_x : program := λ k regs ret, mk_body (get_syscall_id regs) LINX_SYSCALL_TYPE_EXIT ret
  [].

(** modify_ldt.bpf.c *)
Definition modify_ldt_e : program := λ k regs id, mk_body id LINX_SYSCALL_TYPE_ENTER (-1) [].
Definition modify_ldt_x : program := λ k regs ret, mk_body (get_syscall_id regs) LINX_SYSCALL_TYPE_EXIT ret
  [store_s32 (int32 (get_pt_regs_argumnet regs 0));
   store_u64 (uint64 (get_pt_regs_argumnet regs 1));
   store_u64 (uint64 (get_pt_regs_argumnet regs 2))].

(** pivot_root.bpf.c *)
Definition pivot_root_e : program := λ k regs id, mk_body id LINX_SYSCALL_TYPE_ENTER (-1) [].
Definition pivot_root_x : program := λ k regs ret, mk_body (get_syscall_id regs) LINX_SYSCALL_TYPE_EXIT ret
  [store_charpointer (uint64 (get_pt_regs_argumnet regs 0)) LINX_CHARBUF_MAX_SIZE USER;
   store_charpointer (uint64 (get_pt_regs_argumnet regs 1)) LINX_CHARBUF_MAX_SIZE USER].

(** _sysctl.bpf.c *)
Definition _sysctl_e : program := λ k regs id, mk_body id LINX_SYSCALL_TYPE_ENTER (-1) [].
Definition _sysctl_x : program := λ k regs ret, mk_body (get_syscall_id regs) LINX_SYSCALL_TYPE_EXIT ret
  [store_u64 (uint64 (get_pt_regs_argumnet regs 0))].

(** prctl.bpf.c *)
Definition prctl_e : program := λ k regs id, mk_body id LINX_SYSCALL_TYPE_ENTER (-1) [].
Definition prctl_x : program := λ k regs ret, mk_body (get_syscall_id regs) LINX_SYSCALL_TYPE_EXIT ret
  [store_s32 (int32 (get_pt_regs_argumnet regs 0));
   store_u64 (uint64 (get_pt_regs_argumnet regs 1));
   store_u64 (uint64 (get_pt_regs_argumnet regs 2));
   store_u64 (uint64 (get_pt_regs_argumnet regs 3));
   store_u64 (uint64 (get_pt_regs_argumnet regs 4))].

(** arch_prctl.bpf.c *)
Definition arch_prctl_e : program := λ k regs id, mk_body id LINX_SYSCALL_TYPE_ENTER (-1) [].
Definition arch_prctl_x : program := λ k regs ret, mk_body (get_syscall_id regs) LINX_SYSCALL_TYPE_EXIT ret
  [store_s32 (int32 (get_pt_regs_argumnet regs 0));
   store_u64 (uint64 (get_pt_regs_argumnet regs 1))].

(** adjtimex.bpf.c *)
Definition adjtimex_e : program := λ k regs id, mk_body id LINX_SYSCALL_TYPE_ENTER (-1) [].
Definition adjtimex_x : program := λ k regs ret, mk_body (get_syscall_id regs) LINX_SYSCALL_TYPE_EXIT ret
  [store_u64 (uint64 (get_pt_regs_argumnet regs 0))].

(** setrlimit.bpf.c *)
Definition setrlimit_e : program := λ k regs id, mk_body id LINX_SYSCALL_TYPE_ENTER (-1) [].
Definition setrlimit_x : program := λ k regs ret, mk_body (get_syscall_id regs) LINX_SYSCALL_TYPE_EXIT ret
  [store_u32 (uint32 (get_pt_regs_argumnet regs 0));
   store_u64 (uint64 (get_pt_regs_argumnet regs 1))].

(** chroot.bpf.c *)
Definition chroot_e : program := λ k regs id, mk_body id LINX_SYSCALL_TYPE_ENTER (-1) [].
Definition chroot_x : program := λ k regs ret, mk_body (get_syscall_id regs) LINX_SYSCALL_TYPE_EXIT ret
  [store_charpointer (uint64 (get_pt_regs_argumnet regs 0)) LINX_CHARBUF_MAX_SIZE USER].

(** sync.bpf.c *)
Definition sync_e : program := λ k regs id, mk_body id LINX_SYSCALL_TYPE_ENTER (-1) [].
Definition sync_x : program := λ k regs ret, mk_body (get_syscall_id regs) LINX_SYSCALL_TYPE_EXIT ret
  [].

(** acct.bpf.c *)
Definition acct_e : program := λ k regs id, mk_body id LINX_SYSCALL_TYPE_ENTER (-1) [].
Definition acct_x : program := λ k regs ret, mk_body (get_syscall_id regs) LINX_SYSCALL_TYPE_EXIT ret
  [store_charpointer (uint64 (get_pt_regs_argumnet regs 0)) LINX_CHARBUF_MAX_SIZE USER].

(** settimeofday.bpf.c *)
Definition settimeofday_e : program := λ k regs id, mk_body id LINX_SYSCALL_TYPE_ENTER (-1) [].
Definition settimeofday_x : program := λ k regs ret, mk_body (get_syscall_id regs) LINX_SYSCALL_TYPE_EXIT ret
  [store_u64 (uint64 (get_pt_regs_argumnet regs 0));
   store_u64 (uint64 (get_pt_regs_argumnet regs 1))].

(** mount.bpf.c *)
Definition mount_e : program := λ k regs id, mk_body id LINX_SYSCALL_TYPE_ENTER (-1) [].
Definition mount_x : program := λ k regs ret, mk_body (get_syscall_id regs) LINX_SYSCALL_TYPE_EXIT ret
  [store_charpointer (uint64 (get_pt_regs_argumnet regs 0)) LINX_CHARBUF_MAX_SIZE USER;
   store_charpointer (uint64 (get_pt_regs_argumnet regs 1)) LINX_CHARBUF_MAX_SIZE USER;
   store_charpointer (uint64 (get_pt_regs_argumnet regs 2)) LINX_CHARBUF_MAX_SIZE USER;
   store_u64 (uint64 (get_pt_regs_argumnet regs 3));
   store_u64 (uint64 (get_pt_regs_argumnet regs 4))].

(** umount2.bpf.c *)
Definition umount2_e : program := λ k regs id, mk_body id LINX_SYSCALL_TYPE_ENTER (-1) [].
Definition umount2_x : program := λ k regs ret, mk_body (get_syscall_id regs) LINX_SYSCALL_TYPE_EXIT ret
  [store_charpointer (uint64 (get_pt_regs_argumnet regs 0)) LINX_CHARBUF_MAX_SIZE USER;
   store_s32 (int32 (get_pt_regs_argumnet regs 1))].

(** swapon.bpf.c *)
Definition swapon_e : program := λ k regs id, mk_body id LINX_SYSCALL_TYPE_ENTER (-1) [].
Definition swapon_x : program := λ k regs ret, mk_body (get_syscall_id regs) LINX_SYSCALL_TYPE_EXIT ret
  [store_charpointer (uint64 (get_pt_regs_argumnet regs 0)) LINX_CHARBUF_MAX_SIZE USER;
   store_s32 (int32 (get_pt_regs_argumnet regs 1))].

(** swapoff.bpf.c *)
Definition swapoff_e : program := λ k regs id, mk_body id LINX_SYSCALL_TYPE_ENTER (-1) [].
Definition swapoff_x : program := λ k regs ret, mk_body (get_syscall_id regs) LINX_SYSCALL_TYPE_EXIT ret
  [store_charpointer (uint64 (get_pt_regs_argumnet regs 0)) LINX_CHARBUF_MAX_SIZE USER].

(** reboot.bpf.c *)
Definition reboot_e : program := λ k regs id, mk_body id LINX_SYSCALL_TYPE_ENTER (-1) [].
Definition reboot_x : program := λ k regs ret, mk_body (get_syscall_id regs) LINX_SYSCALL_TYPE_EXIT ret
  [store_s32 (int32 (get_pt_regs_argumnet regs 0));
   store_s32 (int32 (get_pt_regs_argumnet regs 1));
   store_u32 (uint32 (get_pt_regs_argumnet regs 2));
   store_u64 (uint64 (get_pt_regs_argumnet regs 3))].

(** sethostname.bpf.c *)
Definition sethostname_e : program := λ k regs id, mk_body id LINX_SYSCALL_TYPE_ENTER (-1) [].
Definition sethostname_x : program := λ k regs ret, mk_body (get_syscall_id regs) LINX_SYSCALL_TYPE_EXIT ret
  [store_charpointer (uint64 (get_pt_regs_argumnet regs 0)) LINX_CHARBUF_MAX_SIZE USER;
   store_s32 (int32 (get_pt_regs_argumnet regs 1))].

(** setdomainname.bpf.c *)
Definition setdomainname_e : program := λ k regs id, mk_body id LINX_SYSCALL_TYPE_ENTER (-1) [].
Definition setdomainname_x : program := λ k regs ret, mk_body (get_syscall_id regs) LINX_SYSCALL_TYPE_EXIT ret
  [store_charpointer (uint64 (get_pt_regs_argumnet regs 0)) LINX_CHARBUF_MAX_SIZE USER;
   store_s32 (int32 (get_pt_regs_argumnet regs 1))].

(** iopl.bpf.c *)
Definition iopl_e : program := λ k regs id, mk_body id LINX_SYSCALL_TYPE_ENTER (-1) [].
Definition iopl_x : program := λ k regs ret, mk_body (get_syscall_id regs) LINX_SYSCALL_TYPE_EXIT ret
  [store_u32 (uint32 (get_pt_regs_argumnet regs 0))].

(** ioperm.bpf.c *)
Definition ioperm_e : program := λ k regs id, mk_body id LINX_SYSCALL_TYPE_ENTER (-1) [].
Definition ioperm_x : program := λ k regs ret, mk_body (get_syscall_id regs) LINX_SYSCALL_TYPE_EXIT ret
  [store_u64 (uint64 (get_pt_regs_argumnet regs 0));
   store_u64 (uint64 (get_pt_regs_argumnet regs 1));
   store_s32 (int32 (get_pt_regs_argumnet regs 2))].

(** create_module.bpf.c *)
Definition create_module_e : program := λ k regs id, mk_body id LINX_SYSCALL_TYPE_ENTER (-1) [].
Definition create_module_x : program := λ k regs ret, mk_body (get_syscall_id regs) LINX_SYSCALL_TYPE_EXIT ret
  [store_charpointer (uint64 (get_pt_regs_argumnet regs 0)) LINX_CHARBUF_MAX_SIZE USER;
   store_u64 (uint64 (get_pt_regs_argumnet regs 1))].

(** init_module.bpf.c *)
Definition init_module_e : program := λ k regs id, mk_body id LINX_SYSCALL_TYPE_ENTER (-1) [].
Definition init_module_x : program := λ k regs ret, mk_body (get_syscall_id regs) LINX_SYSCALL_TYPE_EXIT ret
  [store_u64 (uint64 (get_pt_regs_argumnet regs 0));
   store_u64 (uint64 (get_pt_regs_argumnet regs 1));
   store_charpointer (uint64 (get_pt_regs_argumnet regs 2)) LINX_CHARBUF_MAX_SIZE USER].

(** delete_module.bpf.c *)
Definition delete_module_e : program := λ k regs id, mk_body id LINX_SYSCALL_TYPE_ENTER (-1) [].
Definition delete_module_x : program := λ k regs ret, mk_body (get_syscall_id regs) LINX_SYSCALL_TYPE_EXIT ret
  [store_charpointer (uint64 (get_pt_regs_argumnet regs 0)) LINX_CHARBUF_MAX_SIZE USER;
   store_u32 (uint32 (get_pt_regs_argumnet regs 1))].

(** get_kernel_syms.bpf.c *)
Definition get_kernel_syms_e : program := λ k regs id, mk_body id LINX_SYSCALL_TYPE_ENTER (-1) [].
Definition get_kernel_syms_x : program := λ k regs ret, mk_body (get_syscall_id regs) LINX_SYSCALL_TYPE_EXIT ret
  [store_u64 (uint64 (get_pt_regs_argumnet regs 0))].

(** The object holds a program under its name. *)
Definition collector_programs_1 : list (string * program) := [
  ("read_e", read_e); ("read_x", read_x); ("write_e", write_e); ("write_x", write_x); ("open_e", open_e);
  ("open_x", open_x); ("close_e", close_e); ("close_x", close_x); ("stat_e", stat_e); ("stat_x", stat_x);
  ("fstat_e", fstat_e); ("fstat_x", fstat_x); ("lstat_e", lstat_e); ("lstat_x", lstat_x); ("poll_e", poll_e);
  ("poll_x", poll_x); ("lseek_e", lseek_e); ("lseek_x", lseek_x); ("mmap_e", mmap_e); ("mmap_x", mmap_x);
  ("mprotect_e", mprotect_e); ("mprotect_x", mprotect_x); ("munmap_e", munmap_e); ("munmap_x", munmap_x);
  ("brk_e", brk_e); ("brk_x", brk_x); ("rt_sigaction_e", rt_sigaction_e); ("rt_sigaction_x", rt_sigaction_x);
  ("rt_sigprocmask_e", rt_sigprocmask_e); ("rt_sigprocmask_x", rt_sigprocmask_x);
  ("rt_sigreturn_e", rt_sigreturn_e); ("rt_sigreturn_x", rt_sigreturn_x); ("ioctl_e", ioctl_e);
  ("ioctl_x", ioctl_x); ("pread64_e", pread64_e); ("pread64_x", pread64_x); ("pwrite64_e", pwrite64_e);
  ("pwrite64_x", pwrite64_x); ("readv_e", readv_e); ("readv_x", readv_x); ("writev_e", writev_e);
  ("writev_x", writev_x); ("access_e", access_e); ("access_x", access_x); ("pipe_e", pipe_e); ("pipe_x", pipe_x);
  ("select_e", select_e); ("select_x", select_x); ("sched_yield_e", sched_yield_e);
  ("sched_yield_x", sched_yield_x); ("mremap_e", mremap_e); ("mremap_x", mremap_x); ("msync_e", msync_e);
  ("msync_x", msync_x); ("mincore_e", mincore_e); ("mincore_x", mincore_x); ("madvise_e", madvise_e);
  ("madvise_x", madvise_x); ("shmget_e", shmget_e); ("shmget_x", shmget_x); ("shmat_e", shmat_e);
  ("shmat_x", shmat_x); ("shmctl_e", shmctl_e); ("shmctl_x", shmctl_x); ("dup_e", dup_e); ("dup_x", dup_x);
  ("dup2_e", dup2_e); ("dup2_x", dup2_x); ("pause_e", pause_e); ("pause_x", pause_x); ("nanosleep_e", nanosleep_e);
  ("nanosleep_x", nanosleep_x); ("getitimer_e", getitimer_e); ("getitimer_x", getitimer_x); ("alarm_e", alarm_e);
  ("alarm_x", alarm_x); ("setitimer_e", setitimer_e); ("setitimer_x", setitimer_x); ("getpid_e", getpid_e);
  ("getpid_x", getpid_x); ("sendfile_e", sendfile_e); ("sendfile_x", sendfile_x); ("socket_e", socket_e);
  ("socket_x", socket_x); ("connect_e", connect_e); ("connect_x", connect_x); ("accept_e", accept_e);
  ("accept_x", accept_x); ("sendto_e", sendto_e); ("sendto_x", sendto_x); ("recvfrom_e", recvfrom_e);
  ("recvfrom_x", recvfrom_x); ("sendmsg_e", sendmsg_e); ("sendmsg_x", sendmsg_x); ("recvmsg_e", recvmsg_e);
  ("recvmsg_x", recvmsg_x); ("shutdown_e", shutdown_e); ("shutdown_x", shutdown_x); ("bind_e", bind_e);
  ("bind_x", bind_x); ("listen_e", listen_e); ("listen_x", listen_x); ("getsockname_e", getsockname_e);
  ("getsockname_x", getsockname_x); ("getpeername_e", getpeername_e); ("getpeername_x", getpeername_x);
  ("socketpair_e", socketpair_e); ("socketpair_x", socketpair_x); ("setsockopt_e", setsockopt_e);
  ("setsockopt_x", setsockopt_x); ("getsockopt_e", getsockopt_e); ("getsockopt_x", getsockopt_x);
  ("clone_e", clone_e); ("clone_x", clone_x); ("fork_e", fork_e); ("fork_x", fork_x); ("vfork_e", vfork_e);
  ("vfork_x", vfork_x); ("execve_e", execve_e); ("execve_x", execve_x); ("exit_e", exit_e); ("exit_x", exit_x);
  ("wait4_e", wait4_e); ("wait4_x", wait4_x); ("kill_e", kill_e); ("kill_x", kill_x); ("uname_e", uname_e);
  ("uname_x", uname_x); ("semget_e", semget_e); ("semget_x", semget_x); ("semop_e", semop_e); ("semop_x", semop_x);
  ("semctl_e", semctl_e); ("semctl_x", semctl_x); ("shmdt_e", shmdt_e); ("shmdt_x", shmdt_x);
  ("msgget_e", msgget_e); ("msgget_x", msgget_x); ("msgsnd_e", msgsnd_e); ("msgsnd_x", msgsnd_x);
  ("msgrcv_e", msgrcv_e); ("msgrcv_x", msgrcv_x); ("msgctl_e", msgctl_e); ("msgctl_x", msgctl_x);
  ("fcntl_e", fcntl_e); ("fcntl_x", fcntl_x); ("flock_e", flock_e); ("flock_x", flock_x); ("fsync_e", fsync_e);
  ("fsync_x", fsync_x); ("fdatasync_e", fdatasync_e); ("fdatasync_x", fdatasync_x); ("truncate_e", truncate_e);
  ("truncate_x", truncate_x); ("ftruncate_e", ftruncate_e); ("ftruncate_x", ftruncate_x);
  ("getdents_e", getdents_e); ("getdents_x", getdents_x); ("getcwd_e", getcwd_e); ("getcwd_x", getcwd_x);
  ("chdir_e", chdir_e); ("chdir_x", chdir_x); ("fchdir_e", fchdir_e); ("fchdir_x", fchdir_x);
  ("rename_e", rename_e); ("rename_x", rename_x); ("mkdir_e", mkdir_e); ("mkdir_x", mkdir_x); ("rmdir_e", rmdir_e);
  ("rmdir_x", rmdir_x); ("creat_e", creat_e); ("creat_x", creat_x); ("link_e", link_e); ("link_x", link_x);
  ("unlink_e", unlink_e); ("unlink_x", unlink_x); ("symlink_e", symlink_e); ("symlink_x", symlink_x);
  ("readlink_e", readlink_e); ("readlink_x", readlink_x); ("chmod_e", chmod_e); ("chmod_x", chmod_x);
  ("fchmod_e", fchmod_e); ("fchmod_x", fchmod_x); ("chown_e", chown_e); ("chown_x", chown_x);
  ("fchown_e", fchown_e); ("fchown_x", fchown_x); ("lchown_e", lchown_e); ("lchown_x", lchown_x);
  ("umask_e", umask_e); ("umask_x", umask_x); ("gettimeofday_e", gettimeofday_e);
  ("gettimeofday_x", gettimeofday_x); ("getrlimit_e", getrlimit_e); ("getrlimit_x", getrlimit_x);
  ("getrusage_e", getrusage_e); ("getrusage_x", getrusage_x); ("sysinfo_e", sysinfo_e); ("sysinfo_x", sysinfo_x);
  ("times_e", times_e); ("times_x", times_x); ("ptrace_e", ptrace_e); ("ptrace_x", ptrace_x);
  ("getuid_e", getuid_e); ("getuid_x", getuid_x); ("syslog_e", syslog_e); ("syslog_x", syslog_x);
  ("getgid_e", getgid_e); ("getgid_x", getgid_x); ("setuid_e", setuid_e); ("setuid_x", setuid_x);
  ("setgid_e", setgid_e); ("setgid_x", setgid_x); ("geteuid_e", geteuid_e); ("geteuid_x", geteuid_x);
  ("getegid_e", getegid_e); ("getegid_x", getegid_x); ("setpgid_e", setpgid_e); ("setpgid_x", setpgid_x);
  ("getppid_e", getppid_e); ("getppid_x", getppid_x); ("getpgrp_e", getpgrp_e); ("getpgrp_x", getpgrp_x);
  ("setsid_e", setsid_e); ("setsid_x", setsid_x); ("setreuid_e", setreuid_e); ("setreuid_x", setreuid_x);
  ("setregid_e", setregid_e); ("setregid_x", setregid_x); ("getgroups_e", getgroups_e);
  ("getgroups_x", getgroups_x); ("setgroups_e", setgroups_e); ("setgroups_x", setgroups_x);
  ("setresuid_e", setresuid_e); ("setresuid_x", setresuid_x); ("getresuid_e", getresuid_e);
  ("getresuid_x", getresuid_x); ("setresgid_e", setresgid_e); ("setresgid_x", setresgid_x);
  ("getresgid_e", getresgid_e); ("getresgid_x", getresgid_x); ("getpgid_e", getpgid_e); ("getpgid_x", getpgid_x);
  ("setfsuid_e", setfsuid_e); ("setfsuid_x", setfsuid_x); ("setfsgid_e", setfsgid_e); ("setfsgid_x", setfsgid_x);
  ("getsid_e", getsid_e); ("getsid_x", getsid_x); ("capget_e", capget_e); ("capget_x", capget_x);
  ("capset_e", capset_e); ("capset_x", capset_x); ("rt_sigpending_e", rt_sigpending_e);
  ("rt_sigpending_x", rt_sigpending_x); ("rt_sigtimedwait_e", rt_sigtimedwait_e);
  ("rt_sigtimedwait_x", rt_sigtimedwait_x); ("rt_sigqueueinfo_e", rt_sigqueueinfo_e);
  ("rt_sigqueueinfo_x", rt_sigqueueinfo_x); ("rt_sigsuspend_e", rt_sigsuspend_e);
  ("rt_sigsuspend_x", rt_sigsuspend_x); ("sigaltstack_e", sigaltstack_e); ("sigaltstack_x", sigaltstack_x);
  ("utime_e", utime_e); ("utime_x", utime_x); ("mknod_e", mknod_e); ("mknod_x", mknod_x); ("uselib_e", uselib_e);
  ("uselib_x", uselib_x); ("personality_e", personality_e); ("personality_x", personality_x); ("ustat_e", ustat_e);
  ("ustat_x", ustat_x); ("statfs_e", statfs_e); ("statfs_x", statfs_x); ("fstatfs_e", fstatfs_e);
  ("fstatfs_x", fstatfs_x); ("sysfs_e", sysfs_e); ("sysfs_x", sysfs_x); ("getpriority_e", getpriority_e);
  ("getpriority_x", getpriority_x); ("setpriority_e", setpriority_e); ("setpriority_x", setpriority_x);
  ("sched_setparam_e", sched_setparam_e); ("sched_setparam_x", sched_setparam_x);
  ("sched_getparam_e", sched_getparam_e); ("sched_getparam_x", sched_getparam_x);
  ("sched_setscheduler_e", sched_setscheduler_e); ("sched_setscheduler_x", sched_setscheduler_x);
  ("sched_getscheduler_e", sched_getscheduler_e); ("sched_getscheduler_x", sched_getscheduler_x);
  ("sched_get_priority_max_e", sched_get_priority_max_e); ("sched_get_priority_max_x", sched_get_priority_max_x);
  ("sched_get_priority_min_e", sched_get_priority_min_e); ("sched_get_priority_min_x", sched_get_priority_min_x);
  ("sched_rr_get_interval_e", sched_rr_get_interval_e); ("sched_rr_get_interval_x", sched_rr_get_interval_x);
  ("mlock_e", mlock_e); ("mlock_x", mlock_x); ("munlock_e", munlock_e); ("munlock_x", munlock_x);
  ("mlockall_e", mlockall_e); ("mlockall_x", mlockall_x); ("munlockall_e", munlockall_e);
  ("munlockall_x", munlockall_x); ("vhangup_e", vhangup_e); ("vhangup_x", vhangup_x);
  ("modify_ldt_e", modify_ldt_e); ("modify_ldt_x", modify_ldt_x); ("pivot_root_e", pivot_root_e);
  ("pivot_root_x", pivot_root_x); ("_sysctl_e", _sysctl_e); ("_sysctl_x", _sysctl_x); ("prctl_e", prctl_e);
  ("prctl_x", prctl_x); ("arch_prctl_e", arch_prctl_e); ("arch_prctl_x", arch_prctl_x); ("adjtimex_e", adjtimex_e);
  ("adjtimex_x", adjtimex_x); ("setrlimit_e", setrlimit_e); ("setrlimit_x", setrlimit_x); ("chroot_e", chroot_e);
  ("chroot_x", chroot_x); ("sync_e", sync_e); ("sync_x", sync_x); ("acct_e", acct_e); ("acct_x", acct_x);
  ("settimeofday_e", settimeofday_e); ("settimeofday_x", settimeofday_x); ("mount_e", mount_e);
  ("mount_x", mount_x); ("umount2_e", umount2_e); ("umount2_x", umount2_x); ("swapon_e", swapon_e);
  ("swapon_x", swapon_x); ("swapoff_e", swapoff_e); ("swapoff_x", swapoff_x); ("reboot_e", reboot_e);
  ("reboot_x", reboot_x); ("sethostname_e", sethostname_e); ("sethostname_x", sethostname_x);
  ("setdomainname_e", setdomainname_e); ("setdomainname_x", setdomainname_x); ("iopl_e", iopl_e);
  ("iopl_x", iopl_x); ("ioperm_e", ioperm_e); ("ioperm_x", ioperm_x); ("create_module_e", create_module_e);
  ("create_module_x", create_module_x); ("init_module_e", init_module_e); ("init_module_x", init_module_x);
  ("delete_module_e", delete_module_e); ("delete_module_x", delete_module_x);
  ("get_kernel_syms_e", get_kernel_syms_e); ("get_kernel_syms_x", get_kernel_syms_x)].
