(* ===== verification/CollectorPrograms2.v ===== *)
(** * The collector's programs (kernel/ebpf/ebpf/tail_calls, second part)

    One definition per program: the program of the entry of a system call and
    the program of its return, in the order of the table of system calls. *)
From S2P Require Import Prelude CString Memory EventType Bpf SyscallTable CollectorPath CollectorRing.

#[local] Open Scope Z_scope.

(** query_module.bpf.c *)
Definition query_module_e : program := λ k regs id, mk_body id LINX_SYSCALL_TYPE_ENTER (-1) [].
Definition query_module_x : program := λ k regs ret, mk_body (get_syscall_id regs) LINX_SYSCALL_TYPE_EXIT ret
  [store_charpointer (uint64 (get_pt_regs_argumnet regs 0)) LINX_CHARBUF_MAX_SIZE USER;
   store_s32 (int32 (get_pt_regs_argumnet regs 1));
   store_u64 (uint64 (get_pt_regs_argumnet regs 2));
   store_u64 (uint64 (get_pt_regs_argumnet regs 3));
   store_u64 (user_uint64 k (get_pt_regs_argumnet regs 4))].

(** quotactl.bpf.c *)
Definition quotactl_e : program := λ k regs id, mk_body id LINX_SYSCALL_TYPE_ENTER (-1) [].
Definition quotactl_x : program := λ k regs ret, mk_body (get_syscall_id regs) LINX_SYSCALL_TYPE_EXIT ret
  [store_u32 (uint32 (get_pt_regs_argumnet regs 0));
   store_charpointer (uint64 (get_pt_regs_argumnet regs 1)) LINX_CHARBUF_MAX_SIZE USER;
   store_u32 (uint32 (get_pt_regs_argumnet regs 2));
   store_u64 (uint64 (get_pt_regs_argumnet regs 3))].

(** nfsservctl.bpf.c *)
Definition nfsservctl_e : program := λ k regs id, mk_body id LINX_SYSCALL_TYPE_ENTER (-1) [].
Definition nfsservctl_x : program := λ k regs ret, mk_body (get_syscall_id regs) LINX_SYSCALL_TYPE_EXIT ret
  [store_s32 (int32 (get_pt_regs_argumnet regs 0));
   store_u64 (uint64 (get_pt_regs_argumnet regs 1));
   store_u64 (uint64 (get_pt_regs_argumnet regs 2))].

(** gettid.bpf.c *)
Definition gettid_e : program := λ k regs id, mk_body id LINX_SYSCALL_TYPE_ENTER (-1) [].
Definition gettid_x : program := λ k regs ret, mk_body (get_syscall_id regs) LINX_SYSCALL_TYPE_EXIT ret
  [].

(** readahead.bpf.c *)
Definition readahead_e : program := λ k regs id, mk_body id LINX_SYSCALL_TYPE_ENTER (-1) [].
Definition readahead_x : program := λ k regs ret, mk_body (get_syscall_id regs) LINX_SYSCALL_TYPE_EXIT ret
  [store_s32 (int32 (get_pt_regs_argumnet regs 0));
   store_s64 (int64 (get_pt_regs_argumnet regs 1));
   store_u64 (uint64 (get_pt_regs_argumnet regs 2))].

(** setxattr.bpf.c *)
Definition setxattr_e : program := λ k regs id, mk_body id LINX_SYSCALL_TYPE_ENTER (-1) [].
Definition setxattr_x : program := λ k regs ret, mk_body (get_syscall_id regs) LINX_SYSCALL_TYPE_EXIT ret
  [store_charpointer (uint64 (get_pt_regs_argumnet regs 0)) LINX_CHARBUF_MAX_SIZE USER;
   store_charpointer (uint64 (get_pt_regs_argumnet regs 1)) LINX_CHARBUF_MAX_SIZE USER;
   store_u64 (uint64 (get_pt_regs_argumnet regs 2));
   store_u64 (uint64 (get_pt_regs_argumnet regs 3));
   store_s32 (int32 (get_pt_regs_argumnet regs 4))].

(** lsetxattr.bpf.c *)
Definition lsetxattr_e : program := λ k regs id, mk_body id LINX_SYSCALL_TYPE_ENTER (-1) [].
Definition lsetxattr_x : program := λ k regs ret, mk_body (get_syscall_id regs) LINX_SYSCALL_TYPE_EXIT ret
  [store_charpointer (uint64 (get_pt_regs_argumnet regs 0)) LINX_CHARBUF_MAX_SIZE USER;
   store_charpointer (uint64 (get_pt_regs_argumnet regs 1)) LINX_CHARBUF_MAX_SIZE USER;
   store_u64 (uint64 (get_pt_regs_argumnet regs 2));
   store_u64 (uint64 (get_pt_regs_argumnet regs 3));
   store_s32 (int32 (get_pt_regs_argumnet regs 4))].

(** fsetxattr.bpf.c *)
Definition fsetxattr_e : program := λ k regs id, mk_body id LINX_SYSCALL_TYPE_ENTER (-1) [].
Definition fsetxattr_x : program := λ k regs ret, mk_body (get_syscall_id regs) LINX_SYSCALL_TYPE_EXIT ret
  [store_s32 (int32 (get_pt_regs_argumnet regs 0));
   store_charpointer (uint64 (get_pt_regs_argumnet regs 1)) LINX_CHARBUF_MAX_SIZE USER;
   store_u64 (uint64 (get_pt_regs_argumnet regs 2));
   store_u64 (uint64 (get_pt_regs_argumnet regs 3));
   store_s32 (int32 (get_pt_regs_argumnet regs 4))].

(** getxattr.bpf.c *)
Definition getxattr_e : program := λ k regs id, mk_body id LINX_SYSCALL_TYPE_ENTER (-1) [].
Definition getxattr_x : program := λ k regs ret, mk_body (get_syscall_id regs) LINX_SYSCALL_TYPE_EXIT ret
  [store_charpointer (uint64 (get_pt_regs_argumnet regs 0)) LINX_CHARBUF_MAX_SIZE USER;
   store_charpointer (uint64 (get_pt_regs_argumnet regs 1)) LINX_CHARBUF_MAX_SIZE USER;
   store_u64 (uint64 (get_pt_regs_argumnet regs 2));
   store_u64 (uint64 (get_pt_regs_argumnet regs 3))].

(** lgetxattr.bpf.c *)
Definition lgetxattr_e : program := λ k regs id, mk_body id LINX_SYSCALL_TYPE_ENTER (-1) [].
Definition lgetxattr_x : program := λ k regs ret, mk_body (get_syscall_id regs) LINX_SYSCALL_TYPE_EXIT ret
  [store_charpointer (uint64 (get_pt_regs_argumnet regs 0)) LINX_CHARBUF_MAX_SIZE USER;
   store_charpointer (uint64 (get_pt_regs_argumnet regs 1)) LINX_CHARBUF_MAX_SIZE USER;
   store_u64 (uint64 (get_pt_regs_argumnet regs 2));
   store_u64 (uint64 (get_pt_regs_argumnet regs 3))].

(** fgetxattr.bpf.c *)
Definition fgetxattr_e : program := λ k regs id, mk_body id LINX_SYSCALL_TYPE_ENTER (-1) [].
Definition fgetxattr_x : program := λ k regs ret, mk_body (get_syscall_id regs) LINX_SYSCALL_TYPE_EXIT ret
  [store_s32 (int32 (get_pt_regs_argumnet regs 0));
   store_charpointer (uint64 (get_pt_regs_argumnet regs 1)) LINX_CHARBUF_MAX_SIZE USER;
   store_u64 (uint64 (get_pt_regs_argumnet regs 2));
   store_u64 (uint64 (get_pt_regs_argumnet regs 3))].

(** listxattr.bpf.c *)
Definition listxattr_e : program := λ k regs id, mk_body id LINX_SYSCALL_TYPE_ENTER (-1) [].
Definition listxattr_x : program := λ k regs ret, mk_body (get_syscall_id regs) LINX_SYSCALL_TYPE_EXIT ret
  [store_charpointer (uint64 (get_pt_regs_argumnet regs 0)) LINX_CHARBUF_MAX_SIZE USER;
   store_charpointer (uint64 (get_pt_regs_argumnet regs 1)) LINX_CHARBUF_MAX_SIZE USER;
   store_u64 (uint64 (get_pt_regs_argumnet regs 2))].

(** llistxattr.bpf.c *)
Definition llistxattr_e : program := λ k regs id, mk_body id LINX_SYSCALL_TYPE_ENTER (-1) [].
Definition llistxattr_x : program := λ k regs ret, mk_body (get_syscall_id regs) LINX_SYSCALL_TYPE_EXIT ret
  [store_charpointer (uint64 (get_pt_regs_argumnet regs 0)) LINX_CHARBUF_MAX_SIZE USER;
   store_charpointer (uint64 (get_pt_regs_argumnet regs 1)) LINX_CHARBUF_MAX_SIZE USER;
   store_u64 (uint64 (get_pt_regs_argumnet regs 2))].

(** flistxattr.bpf.c *)
Definition flistxattr_e : program := λ k regs id, mk_body id LINX_SYSCALL_TYPE_ENTER (-1) [].
Definition flistxattr_x : program := λ k regs ret, mk_body (get_syscall_id regs) LINX_SYSCALL_TYPE_EXIT ret
  [store_s32 (int32 (get_pt_regs_argumnet regs 0));
   store_charpointer (uint64 (get_pt_regs_argumnet regs 1)) LINX_CHARBUF_MAX_SIZE USER;
   store_u64 (uint64 (get_pt_regs_argumnet regs 2))].

(** removexattr.bpf.c *)
Definition removexattr_e : program := λ k regs id, mk_body id LINX_SYSCALL_TYPE_ENTER (-1) [].
Definition removexattr_x : program := λ k regs ret, mk_body (get_syscall_id regs) LINX_SYSCALL_TYPE_EXIT ret
  [store_charpointer (uint64 (get_pt_regs_argumnet regs 0)) LINX_CHARBUF_MAX_SIZE USER;
   store_charpointer (uint64 (get_pt_regs_argumnet regs 1)) LINX_CHARBUF_MAX_SIZE USER].

(** lremovexattr.bpf.c *)
Definition lremovexattr_e : program := λ k regs id, mk_body id LINX_SYSCALL_TYPE_ENTER (-1) [].
Definition lremovexattr_x : program := λ k regs ret, mk_body (get_syscall_id regs) LINX_SYSCALL_TYPE_EXIT ret
  [store_charpointer (uint64 (get_pt_regs_argumnet regs 0)) LINX_CHARBUF_MAX_SIZE USER;
   store_charpointer (uint64 (get_pt_regs_argumnet regs 1)) LINX_CHARBUF_MAX_SIZE USER].

(** fremovexattr.bpf.c *)
Definition fremovexattr_e : program := λ k regs id, mk_body id LINX_SYSCALL_TYPE_ENTER (-1) [].
Definition fremovexattr_x : program := λ k regs ret, mk_body (get_syscall_id regs) LINX_SYSCALL_TYPE_EXIT ret
  [store_s32 (int32 (get_pt_regs_argumnet regs 0));
   store_charpointer (uint64 (get_pt_regs_argumnet regs 1)) LINX_CHARBUF_MAX_SIZE USER].

(** tkill.bpf.c *)
Definition tkill_e : program := λ k regs id, mk_body id LINX_SYSCALL_TYPE_ENTER (-1) [].
Definition tkill_x : program := λ k regs ret, mk_body (get_syscall_id regs) LINX_SYSCALL_TYPE_EXIT ret
  [store_s32 (int32 (get_pt_regs_argumnet regs 0));
   store_s32 (int32 (get_pt_regs_argumnet regs 1))].

(** time.bpf.c *)
Definition time_e : program := λ k regs id, mk_body id LINX_SYSCALL_TYPE_ENTER (-1) [].
Definition time_x : program := λ k regs ret, mk_body (get_syscall_id regs) LINX_SYSCALL_TYPE_EXIT ret
  [store_u64 (uint64 (get_pt_regs_argumnet regs 0))].

(** futex.bpf.c *)
Definition futex_e : program := λ k regs id, mk_body id LINX_SYSCALL_TYPE_ENTER (-1) [].
Definition futex_x : program := λ k regs ret, mk_body (get_syscall_id regs) LINX_SYSCALL_TYPE_EXIT ret
  [store_u32 (user_uint32 k (get_pt_regs_argumnet regs 0));
   store_s32 (int32 (get_pt_regs_argumnet regs 1));
   store_u32 (uint32 (get_pt_regs_argumnet regs 2));
   store_u64 (uint64 (get_pt_regs_argumnet regs 3));
   store_u32 (user_uint32 k (get_pt_regs_argumnet regs 4));
   store_u32 (uint32 (get_pt_regs_argumnet regs 5))].

(** sched_setaffinity.bpf.c *)
Definition sched_setaffinity_e : program := λ k regs id, mk_body id LINX_SYSCALL_TYPE_ENTER (-1) [].
Definition sched_setaffinity_x : program := λ k regs ret, mk_body (get_syscall_id regs) LINX_SYSCALL_TYPE_EXIT ret
  [store_s32 (int32 (get_pt_regs_argumnet regs 0));
   store_u32 (uint32 (get_pt_regs_argumnet regs 1));
   store_u64 (user_uint64 k (get_pt_regs_argumnet regs 2))].

(** sched_getaffinity.bpf.c *)
Definition sched_getaffinity_e : program := λ k regs id, mk_body id LINX_SYSCALL_TYPE_ENTER (-1) [].
Definition sched_getaffinity_x : program := λ k regs ret, mk_body (get_syscall_id regs) LINX_SYSCALL_TYPE_EXIT ret
  [store_s32 (int32 (get_pt_regs_argumnet regs 0));
   store_u32 (uint32 (get_pt_regs_argumnet regs 1));
   store_u64 (user_uint64 k (get_pt_regs_argumnet regs 2))].

(** set_thread_area.bpf.c *)
Definition set_thread_area_e : program := λ k regs id, mk_body id LINX_SYSCALL_TYPE_ENTER (-1) [].
Definition set_thread_area_x : program := λ k regs ret, mk_body (get_syscall_id regs) LINX_SYSCALL_TYPE_EXIT ret
  [store_u64 (uint64 (get_pt_regs_argumnet regs 0))].

(** io_setup.bpf.c *)
Definition io_setup_e : program := λ k regs id, mk_body id LINX_SYSCALL_TYPE_ENTER (-1) [].
Definition io_setup_x : program := λ k regs ret, mk_body (get_syscall_id regs) LINX_SYSCALL_TYPE_EXIT ret
  [store_u32 (uint32 (get_pt_regs_argumnet regs 0));
   store_u64 (uint64 (get_pt_regs_argumnet regs 1))].

(** io_destroy.bpf.c *)
Definition io_destroy_e : program := λ k regs id, mk_body id LINX_SYSCALL_TYPE_ENTER (-1) [].
Definition io_destroy_x : program := λ k regs ret, mk_body (get_syscall_id regs) LINX_SYSCALL_TYPE_EXIT ret
  [store_u64 (uint64 (get_pt_regs_argumnet regs 0))].

(** io_getevents.bpf.c *)
Definition io_getevents_e : program := λ k regs id, mk_body id LINX_SYSCALL_TYPE_ENTER (-1) [].
Definition io_getevents_x : program := λ k regs ret, mk_body (get_syscall_id regs) LINX_SYSCALL_TYPE_EXIT ret
  [store_u64 (uint64 (get_pt_regs_argumnet regs 0));
   store_s64 (int64 (get_pt_regs_argumnet regs 1));
   store_s64 (int64 (get_pt_regs_argumnet regs 2));
   store_u64 (uint64 (get_pt_regs_argumnet regs 3));
   store_u64 (uint64 (get_pt_regs_argumnet regs 4))].

(** io_submit.bpf.c *)
Definition io_submit_e : program := λ k regs id, mk_body id LINX_SYSCALL_TYPE_ENTER (-1) [].
Definition io_submit_x : program := λ k regs ret, mk_body (get_syscall_id regs) LINX_SYSCALL_TYPE_EXIT ret
  [store_u64 (uint64 (get_pt_regs_argumnet regs 0));
   store_s64 (int64 (get_pt_regs_argumnet regs 1));
   store_u64 (uint64 (get_pt_regs_argumnet regs 2))].

(** io_cancel.bpf.c *)
Definition io_cancel_e : program := λ k regs id, mk_body id LINX_SYSCALL_TYPE_ENTER (-1) [].
Definition io_cancel_x : program := λ k regs ret, mk_body (get_syscall_id regs) LINX_SYSCALL_TYPE_EXIT ret
  [store_u64 (uint64 (get_pt_regs_argumnet regs 0));
   store_u64 (uint64 (get_pt_regs_argumnet regs 1));
   store_u64 (uint64 (get_pt_regs_argumnet regs 2))].

(** get_thread_area.bpf.c *)
Definition get_thread_area_e : program := λ k regs id, mk_body id LINX_SYSCALL_TYPE_ENTER (-1) [].
Definition get_thread_area_x : program := λ k regs ret, mk_body (get_syscall_id regs) LINX_SYSCALL_TYPE_EXIT ret
  [store_u64 (uint64 (get_pt_regs_argumnet regs 0))].

(** lookup_dcookie.bpf.c *)
Definition lookup_dcookie_e : program := λ k regs id, mk_body id LINX_SYSCALL_TYPE_ENTER (-1) [].
Definition lookup_dcookie_x : program := λ k regs ret, mk_body (get_syscall_id regs) LINX_SYSCALL_TYPE_EXIT ret
  [store_u64 (uint64 (get_pt_regs_argumnet regs 0));
   store_charpointer (uint64 (get_pt_regs_argumnet regs 1)) LINX_CHARBUF_MAX_SIZE USER;
   store_u64 (uint64 (get_pt_regs_argumnet regs 2))].

(** epoll_create.bpf.c *)
Definition epoll_create_e : program := λ k regs id, mk_body id LINX_SYSCALL_TYPE_ENTER (-1) [].
Definition epoll_create_x : program := λ k regs ret, mk_body (get_syscall_id regs) LINX_SYSCALL_TYPE_EXIT ret
  [store_s32 (int32 (get_pt_regs_argumnet regs 0))].

(** remap_file_pages.bpf.c *)
Definition remap_file_pages_e : program := λ k regs id, mk_body id LINX_SYSCALL_TYPE_ENTER (-1) [].
Definition remap_file_pages_x : program := λ k regs ret, mk_body (get_syscall_id regs) LINX_SYSCALL_TYPE_EXIT ret
  [store_u64 (uint64 (get_pt_regs_argumnet regs 0));
   store_u64 (uint64 (get_pt_regs_argumnet regs 1));
   store_u64 (uint64 (get_pt_regs_argumnet regs 2));
   store_u64 (uint64 (get_pt_regs_argumnet regs 3));
   store_u64 (uint64 (get_pt_regs_argumnet regs 4))].

(** getdents64.bpf.c *)
Definition getdents64_e : program := λ k regs id, mk_body id LINX_SYSCALL_TYPE_ENTER (-1) [].
Definition getdents64_x : program := λ k regs ret, mk_body (get_syscall_id regs) LINX_SYSCALL_TYPE_EXIT ret
  [store_u32 (uint32 (get_pt_regs_argumnet regs 0));
   store_u64 (uint64 (get_pt_regs_argumnet regs 1));
   store_u32 (uint32 (get_pt_regs_argumnet regs 2))].

(** set_tid_address.bpf.c *)
Definition set_tid_address_e : program := λ k regs id, mk_body id LINX_SYSCALL_TYPE_ENTER (-1) [].
Definition set_tid_address_x : program := λ k regs ret, mk_body (get_syscall_id regs) LINX_SYSCALL_TYPE_EXIT ret
  [store_s32 (user_int32 k (get_pt_regs_argumnet regs 0))].

(** restart_syscall.bpf.c *)
Definition restart_syscall_e : program := λ k regs id, mk_body id LINX_SYSCALL_TYPE_ENTER (-1) [].
Definition restart_syscall_x : program := λ k regs ret, mk_body (get_syscall_id regs) LINX_SYSCALL_TYPE_EXIT ret
  [].

(** semtimedop.bpf.c *)
Definition semtimedop_e : program := λ k regs id, mk_body id LINX_SYSCALL_TYPE_ENTER (-1) [].
Definition semtimedop_x : program := λ k regs ret, mk_body (get_syscall_id regs) LINX_SYSCALL_TYPE_EXIT ret
  [store_s32 (int32 (get_pt_regs_argumnet regs 0));
   store_u64 (uint64 (get_pt_regs_argumnet regs 1));
   store_u32 (uint32 (get_pt_regs_argumnet regs 2));
   store_u64 (uint64 (get_pt_regs_argumnet regs 3))].

(** fadvise64.bpf.c *)
Definition fadvise64_e : program := λ k regs id, mk_body id LINX_SYSCALL_TYPE_ENTER (-1) [].
Definition fadvise64_x : program := λ k regs ret, mk_body (get_syscall_id regs) LINX_SYSCALL_TYPE_EXIT ret
  [store_s32 (int32 (get_pt_regs_argumnet regs 0));
   store_s64 (int64 (get_pt_regs_argumnet regs 1));
   store_u64 (uint64 (get_pt_regs_argumnet regs 2));
   store_s32 (int32 (get_pt_regs_argumnet regs 3))].

(** timer_create.bpf.c *)
Definition timer_create_e : program := λ k regs id, mk_body id LINX_SYSCALL_TYPE_ENTER (-1) [].
Definition timer_create_x : program := λ k regs ret, mk_body (get_syscall_id regs) LINX_SYSCALL_TYPE_EXIT ret
  [store_s32 (int32 (get_pt_regs_argumnet regs 0));
   store_u64 (uint64 (get_pt_regs_argumnet regs 1));
   store_u64 (uint64 (get_pt_regs_argumnet regs 2))].

(** timer_settime.bpf.c *)
Definition timer_settime_e : program := λ k regs id, mk_body id LINX_SYSCALL_TYPE_ENTER (-1) [].
Definition timer_settime_x : program := λ k regs ret, mk_body (get_syscall_id regs) LINX_SYSCALL_TYPE_EXIT ret
  [store_s32 (int32 (get_pt_regs_argumnet regs 0));
   store_s32 (int32 (get_pt_regs_argumnet regs 1));
   store_u64 (uint64 (get_pt_regs_argumnet regs 2));
   store_u64 (uint64 (get_pt_regs_argumnet regs 3))].

(** timer_gettime.bpf.c *)
Definition timer_gettime_e : program := λ k regs id, mk_body id LINX_SYSCALL_TYPE_ENTER (-1) [].
Definition timer_gettime_x : program := λ k regs ret, mk_body (get_syscall_id regs) LINX_SYSCALL_TYPE_EXIT ret
  [store_s32 (int32 (get_pt_regs_argumnet regs 0));
   store_u64 (uint64 (get_pt_regs_argumnet regs 1))].

(** timer_getoverrun.bpf.c *)
Definition timer_getoverrun_e : program := λ k regs id, mk_body id LINX_SYSCALL_TYPE_ENTER (-1) [].
Definition timer_getoverrun_x : program := λ k regs ret, mk_body (get_syscall_id regs) LINX_SYSCALL_TYPE_EXIT ret
  [store_s32 (int32 (get_pt_regs_argumnet regs 0))].

(** timer_delete.bpf.c *)
Definition timer_delete_e : program := λ k regs id, mk_body id LINX_SYSCALL_TYPE_ENTER (-1) [].
Definition timer_delete_x : program := λ k regs ret, mk_body (get_syscall_id regs) LINX_SYSCALL_TYPE_EXIT ret
  [store_s32 (int32 (get_pt_regs_argumnet regs 0))].

(** clock_settime.bpf.c *)
Definition clock_settime_e : program := λ k regs id, mk_body id LINX_SYSCALL_TYPE_ENTER (-1) [].
Definition clock_settime_x : program := λ k regs ret, mk_body (get_syscall_id regs) LINX_SYSCALL_TYPE_EXIT ret
  [store_s32 (int32 (get_pt_regs_argumnet regs 0));
   store_u64 (uint64 (get_pt_regs_argumnet regs 1))].

(** clock_gettime.bpf.c *)
Definition clock_gettime_e : program := λ k regs id, mk_body id LINX_SYSCALL_TYPE_ENTER (-1) [].
Definition clock_gettime_x : program := λ k regs ret, mk_body (get_syscall_id regs) LINX_SYSCALL_TYPE_EXIT ret
  [store_s32 (int32 (get_pt_regs_argumnet regs 0));
   store_u64 (uint64 (get_pt_regs_argumnet regs 1))].

(** clock_getres.bpf.c *)
Definition clock_getres_e : program := λ k regs id, mk_body id LINX_SYSCALL_TYPE_ENTER (-1) [].
Definition clock_getres_x : program := λ k regs ret, mk_body (get_syscall_id regs) LINX_SYSCALL_TYPE_EXIT ret
  [store_s32 (int32 (get_pt_regs_argumnet regs 0));
   store_u64 (uint64 (get_pt_regs_argumnet regs 1))].

(** clock_nanosleep.bpf.c *)
Definition clock_nanosleep_e : program := λ k regs id, mk_body id LINX_SYSCALL_TYPE_ENTER (-1) [].
Definition clock_nanosleep_x : program := λ k regs ret, mk_body (get_syscall_id regs) LINX_SYSCALL_TYPE_EXIT ret
  [store_s32 (int32 (get_pt_regs_argumnet regs 0));
   store_s32 (int32 (get_pt_regs_argumnet regs 1));
   store_u64 (uint64 (get_pt_regs_argumnet regs 2));
   store_u64 (uint64 (get_pt_regs_argumnet regs 3))].

(** exit_group.bpf.c *)
Definition exit_group_e : program := λ k regs id, mk_body id LINX_SYSCALL_TYPE_ENTER (-1) [].
Definition exit_group_x : program := λ k regs ret, mk_body (get_syscall_id regs) LINX_SYSCALL_TYPE_EXIT ret
  [store_s32 (int32 (get_pt_regs_argumnet regs 0))].

(** epoll_wait.bpf.c *)
Definition epoll_wait_e : program := λ k regs id, mk_body id LINX_SYSCALL_TYPE_ENTER (-1) [].
Definition epoll_wait_x : program := λ k regs ret, mk_body (get_syscall_id regs) LINX_SYSCALL_TYPE_EXIT ret
  [store_s32 (int32 (get_pt_regs_argumnet regs 0));
   store_u64 (uint64 (get_pt_regs_argumnet regs 1));
   store_s32 (int32 (get_pt_regs_argumnet regs 2));
   store_s32 (int32 (get_pt_regs_argumnet regs 3))].

(** epoll_ctl.bpf.c *)
Definition epoll_ctl_e : program := λ k regs id, mk_body id LINX_SYSCALL_TYPE_ENTER (-1) [].
Definition epoll_ctl_x : program := λ k regs ret, mk_body (get_syscall_id regs) LINX_SYSCALL_TYPE_EXIT ret
  [store_s32 (int32 (get_pt_regs_argumnet regs 0));
   store_s32 (int32 (get_pt_regs_argumnet regs 1));
   store_s32 (int32 (get_pt_regs_argumnet regs 2));
   store_u64 (uint64 (get_pt_regs_argumnet regs 3))].

(** tgkill.bpf.c *)
Definition tgkill_e : program := λ k regs id, mk_body id LINX_SYSCALL_TYPE_ENTER (-1) [].
Definition tgkill_x : program := λ k regs ret, mk_body (get_syscall_id regs) LINX_SYSCALL_TYPE_EXIT ret
  [store_s32 (int32 (get_pt_regs_argumnet regs 0));
   store_s32 (int32 (get_pt_regs_argumnet regs 1));
   store_s32 (int32 (get_pt_regs_argumnet regs 2))].

(** utimes.bpf.c *)
Definition utimes_e : program := λ k regs id, mk_body id LINX_SYSCALL_TYPE_ENTER (-1) [].
Definition utimes_x : program := λ k regs ret, mk_body (get_syscall_id regs) LINX_SYSCALL_TYPE_EXIT ret
  [store_charpointer (uint64 (get_pt_regs_argumnet regs 0)) LINX_CHARBUF_MAX_SIZE USER;
   store_u64 (uint64 (get_pt_regs_argumnet regs 1))].

(** mbind.bpf.c *)
Definition mbind_e : program := λ k regs id, mk_body id LINX_SYSCALL_TYPE_ENTER (-1) [].
Definition mbind_x : program := λ k regs ret, mk_body (get_syscall_id regs) LINX_SYSCALL_TYPE_EXIT ret
  [store_u64 (uint64 (get_pt_regs_argumnet regs 0));
   store_u64 (uint64 (get_pt_regs_argumnet regs 1));
   store_u64 (uint64 (get_pt_regs_argumnet regs 2));
   store_u64 (user_uint64 k (get_pt_regs_argumnet regs 3));
   store_u64 (uint64 (get_pt_regs_argumnet regs 4));
   store_u32 (uint32 (get_pt_regs_argumnet regs 5))].

(** set_mempolicy.bpf.c *)
Definition set_mempolicy_e : program := λ k regs id, mk_body id LINX_SYSCALL_TYPE_ENTER (-1) [].
Definition set_mempolicy_x : program := λ k regs ret, mk_body (get_syscall_id regs) LINX_SYSCALL_TYPE_EXIT ret
  [store_s32 (int32 (get_pt_regs_argumnet regs 0));
   store_u64 (user_uint64 k (get_pt_regs_argumnet regs 1));
   store_u64 (uint64 (get_pt_regs_argumnet regs 2))].

(** get_mempolicy.bpf.c *)
Definition get_mempolicy_e : program := λ k regs id, mk_body id LINX_SYSCALL_TYPE_ENTER (-1) [].
Definition get_mempolicy_x : program := λ k regs ret, mk_body (get_syscall_id regs) LINX_SYSCALL_TYPE_EXIT ret
  [store_s32 (user_int32 k (get_pt_regs_argumnet regs 0));
   store_u64 (user_uint64 k (get_pt_regs_argumnet regs 1));
   store_u64 (uint64 (get_pt_regs_argumnet regs 2));
   store_u64 (uint64 (get_pt_regs_argumnet regs 3));
   store_u64 (uint64 (get_pt_regs_argumnet regs 4))].

(** mq_open.bpf.c *)
Definition mq_open_e : program := λ k regs id, mk_body id LINX_SYSCALL_TYPE_ENTER (-1) [].
Definition mq_open_x : program := λ k regs ret, mk_body (get_syscall_id regs) LINX_SYSCALL_TYPE_EXIT ret
  [store_charpointer (uint64 (get_pt_regs_argumnet regs 0)) LINX_CHARBUF_MAX_SIZE USER;
   store_s32 (int32 (get_pt_regs_argumnet regs 1));
   store_u16 (uint16 (get_pt_regs_argumnet regs 2));
   store_u64 (uint64 (get_pt_regs_argumnet regs 3))].

(** mq_unlink.bpf.c *)
Definition mq_unlink_e : program := λ k regs id, mk_body id LINX_SYSCALL_TYPE_ENTER (-1) [].
Definition mq_unlink_x : program := λ k regs ret, mk_body (get_syscall_id regs) LINX_SYSCALL_TYPE_EXIT ret
  [store_charpointer (uint64 (get_pt_regs_argumnet regs 0)) LINX_CHARBUF_MAX_SIZE USER].

(** mq_timedsend.bpf.c *)
Definition mq_timedsend_e : program := λ k regs id, mk_body id LINX_SYSCALL_TYPE_ENTER (-1) [].
Definition mq_timedsend_x : program := λ k regs ret, mk_body (get_syscall_id regs) LINX_SYSCALL_TYPE_EXIT ret
  [store_s32 (int32 (get_pt_regs_argumnet regs 0));
   store_charpointer (uint64 (get_pt_regs_argumnet regs 1)) LINX_CHARBUF_MAX_SIZE USER;
   store_u64 (uint64 (get_pt_regs_argumnet regs 2));
   store_u32 (uint32 (get_pt_regs_argumnet regs 3));
   store_u64 (uint64 (get_pt_regs_argumnet regs 4))].

(** mq_timedreceive.bpf.c *)
Definition mq_timedreceive_e : program := λ k regs id, mk_body id LINX_SYSCALL_TYPE_ENTER (-1) [].
Definition mq_timedreceive_x : program := λ k regs ret, mk_body (get_syscall_id regs) LINX_SYSCALL_TYPE_EXIT ret
  [store_s32 (int32 (get_pt_regs_argumnet regs 0));
   store_charpointer (uint64 (get_pt_regs_argumnet regs 1)) LINX_CHARBUF_MAX_SIZE USER;
   store_u64 (uint64 (get_pt_regs_argumnet regs 2));
   store_u32 (user_uint32 k (get_pt_regs_argumnet regs 3));
   store_u64 (uint64 (get_pt_regs_argumnet regs 4))].

(** mq_notify.bpf.c *)
Definition mq_notify_e : program := λ k regs id, mk_body id LINX_SYSCALL_TYPE_ENTER (-1) [].
Definition mq_notify_x : program := λ k regs ret, mk_body (get_syscall_id regs) LINX_SYSCALL_TYPE_EXIT ret
  [store_s32 (int32 (get_pt_regs_argumnet regs 0));
   store_u64 (uint64 (get_pt_regs_argumnet regs 1))].

(** mq_getsetattr.bpf.c *)
Definition mq_getsetattr_e : program := λ k regs id, mk_body id LINX_SYSCALL_TYPE_ENTER (-1) [].
Definition mq_getsetattr_x : program := λ k regs ret, mk_body (get_syscall_id regs) LINX_SYSCALL_TYPE_EXIT ret
  [store_s32 (int32 (get_pt_regs_argumnet regs 0));
   store_u64 (uint64 (get_pt_regs_argumnet regs 1));
   store_u64 (uint64 (get_pt_regs_argumnet regs 2))].

(** kexec_load.bpf.c *)
Definition kexec_load_e : program := λ k regs id, mk_body id LINX_SYSCALL_TYPE_ENTER (-1) [].
Definition kexec_load_x : program := λ k regs ret, mk_body (get_syscall_id regs) LINX_SYSCALL_TYPE_EXIT ret
  [store_u64 (uint64 (get_pt_regs_argumnet regs 0));
   store_u64 (uint64 (get_pt_regs_argumnet regs 1));
   store_u64 (uint64 (get_pt_regs_argumnet regs 2));
   store_u64 (uint64 (get_pt_regs_argumnet regs 3))].

(** waitid.bpf.c *)
Definition waitid_e : program := λ k regs id, mk_body id LINX_SYSCALL_TYPE_ENTER (-1) [].
Definition waitid_x : program := λ k regs ret, mk_body (get_syscall_id regs) LINX_SYSCALL_TYPE_EXIT ret
  [store_s32 (int32 (get_pt_regs_argumnet regs 0));
   store_s32 (int32 (get_pt_regs_argumnet regs 1));
   store_u64 (uint64 (get_pt_regs_argumnet regs 2));
   store_s32 (int32 (get_pt_regs_argumnet regs 3));
   store_u64 (uint64 (get_pt_regs_argumnet regs 4))].

(** add_key.bpf.c *)
Definition add_key_e : program := λ k regs id, mk_body id LINX_SYSCALL_TYPE_ENTER (-1) [].
Definition add_key_x : program := λ k regs ret, mk_body (get_syscall_id regs) LINX_SYSCALL_TYPE_EXIT ret
  [store_charpointer (uint64 (get_pt_regs_argumnet regs 0)) LINX_CHARBUF_MAX_SIZE USER;
   store_charpointer (uint64 (get_pt_regs_argumnet regs 1)) LINX_CHARBUF_MAX_SIZE USER;
   store_u64 (uint64 (get_pt_regs_argumnet regs 2));
   store_u64 (uint64 (get_pt_regs_argumnet regs 3));
   store_s32 (int32 (get_pt_regs_argumnet regs 4))].

(** request_key.bpf.c *)
Definition request_key_e : program := λ k regs id, mk_body id LINX_SYSCALL_TYPE_ENTER (-1) [].
Definition request_key_x : program := λ k regs ret, mk_body (get_syscall_id regs) LINX_SYSCALL_TYPE_EXIT ret
  [store_charpointer (uint64 (get_pt_regs_argumnet regs 0)) LINX_CHARBUF_MAX_SIZE USER;
   store_charpointer (uint64 (get_pt_regs_argumnet regs 1)) LINX_CHARBUF_MAX_SIZE USER;
   store_charpointer (uint64 (get_pt_regs_argumnet regs 2)) LINX_CHARBUF_MAX_SIZE USER;
   store_s32 (int32 (get_pt_regs_argumnet regs 3))].

(** keyctl.bpf.c *)
Definition keyctl_e : program := λ k regs id, mk_body id LINX_SYSCALL_TYPE_ENTER (-1) [].
Definition keyctl_x : program := λ k regs ret, mk_body (get_syscall_id regs) LINX_SYSCALL_TYPE_EXIT ret
  [store_s32 (int32 (get_pt_regs_argumnet regs 0));
   store_u64 (uint64 (get_pt_regs_argumnet regs 1));
   store_u64 (uint64 (get_pt_regs_argumnet regs 2));
   store_u64 (uint64 (get_pt_regs_argumnet regs 3));
   store_u64 (uint64 (get_pt_regs_argumnet regs 4))].

(** ioprio_set.bpf.c *)
Definition ioprio_set_e : program := λ k regs id, mk_body id LINX_SYSCALL_TYPE_ENTER (-1) [].
Definition ioprio_set_x : program := λ k regs ret, mk_body (get_syscall_id regs) LINX_SYSCALL_TYPE_EXIT ret
  [store_s32 (int32 (get_pt_regs_argumnet regs 0));
   store_s32 (int32 (get_pt_regs_argumnet regs 1));
   store_s32 (int32 (get_pt_regs_argumnet regs 2))].

(** ioprio_get.bpf.c *)
Definition ioprio_get_e : program := λ k regs id, mk_body id LINX_SYSCALL_TYPE_ENTER (-1) [].
Definition ioprio_get_x : program := λ k regs ret, mk_body (get_syscall_id regs) LINX_SYSCALL_TYPE_EXIT ret
  [store_s32 (int32 (get_pt_regs_argumnet regs 0));
   store_s32 (int32 (get_pt_regs_argumnet regs 1))].

(** inotify_init.bpf.c *)
Definition inotify_init_e : program := λ k regs id, mk_body id LINX_SYSCALL_TYPE_ENTER (-1) [].
Definition inotify_init_x : program := λ k regs ret, mk_body (get_syscall_id regs) LINX_SYSCALL_TYPE_EXIT ret
  [].

(** inotify_add_watch.bpf.c *)
Definition inotify_add_watch_e : program := λ k regs id, mk_body id LINX_SYSCALL_TYPE_ENTER (-1) [].
Definition inotify_add_watch_x : program := λ k regs ret, mk_body (get_syscall_id regs) LINX_SYSCALL_TYPE_EXIT ret
  [store_s32 (int32 (get_pt_regs_argumnet regs 0));
   store_charpointer (uint64 (get_pt_regs_argumnet regs 1)) LINX_CHARBUF_MAX_SIZE USER;
   store_u32 (uint32 (get_pt_regs_argumnet regs 2))].

(** inotify_rm_watch.bpf.c *)
Definition inotify_rm_watch_e : program := λ k regs id, mk_body id LINX_SYSCALL_TYPE_ENTER (-1) [].
Definition inotify_rm_watch_x : program := λ k regs ret, mk_body (get_syscall_id regs) LINX_SYSCALL_TYPE_EXIT ret
  [store_s32 (int32 (get_pt_regs_argumnet regs 0));
   store_s32 (int32 (get_pt_regs_argumnet regs 1))].

(** migrate_pages.bpf.c *)
Definition migrate_pages_e : program := λ k regs id, mk_body id LINX_SYSCALL_TYPE_ENTER (-1) [].
Definition migrate_pages_x : program := λ k regs ret, mk_body (get_syscall_id regs) LINX_SYSCALL_TYPE_EXIT ret
  [store_s32 (int32 (get_pt_regs_argumnet regs 0));
   store_u64 (uint64 (get_pt_regs_argumnet regs 1));
   store_u64 (user_uint64 k (get_pt_regs_argumnet regs 2));
   store_u64 (user_uint64 k (get_pt_regs_argumnet regs 3))].

(** openat.bpf.c *)
Definition openat_e : program := λ k regs id, mk_body id LINX_SYSCALL_TYPE_ENTER (-1) [].
Definition openat_x : program := λ k regs ret, mk_body (get_syscall_id regs) LINX_SYSCALL_TYPE_EXIT ret
  [store_s32 (int32 (get_pt_regs_argumnet regs 0));
   store_charpointer (uint64 (get_pt_regs_argumnet regs 1)) LINX_CHARBUF_MAX_SIZE USER;
   store_s32 (int32 (get_pt_regs_argumnet regs 2));
   store_u16 (uint16 (get_pt_regs_argumnet regs 3))].

(** mkdirat.bpf.c *)
Definition mkdirat_e : program := λ k regs id, mk_body id LINX_SYSCALL_TYPE_ENTER (-1) [].
Definition mkdirat_x : program := λ k regs ret, mk_body (get_syscall_id regs) LINX_SYSCALL_TYPE_EXIT ret
  [store_s32 (int32 (get_pt_regs_argumnet regs 0));
   store_charpointer (uint64 (get_pt_regs_argumnet regs 1)) LINX_CHARBUF_MAX_SIZE USER;
   store_u16 (uint16 (get_pt_regs_argumnet regs 2))].

(** mknodat.bpf.c *)
Definition mknodat_e : program := λ k regs id, mk_body id LINX_SYSCALL_TYPE_ENTER (-1) [].
Definition mknodat_x : program := λ k regs ret, mk_body (get_syscall_id regs) LINX_SYSCALL_TYPE_EXIT ret
  [store_s32 (int32 (get_pt_regs_argumnet regs 0));
   store_charpointer (uint64 (get_pt_regs_argumnet regs 1)) LINX_CHARBUF_MAX_SIZE USER;
   store_u16 (uint16 (get_pt_regs_argumnet regs 2));
   store_u32 (uint32 (get_pt_regs_argumnet regs 3))].

(** fchownat.bpf.c *)
Definition fchownat_e : program := λ k regs id, mk_body id LINX_SYSCALL_TYPE_ENTER (-1) [].
Definition fchownat_x : program := λ k regs ret, mk_body (get_syscall_id regs) LINX_SYSCALL_TYPE_EXIT ret
  [store_s32 (int32 (get_pt_regs_argumnet regs 0));
   store_charpointer (uint64 (get_pt_regs_argumnet regs 1)) LINX_CHARBUF_MAX_SIZE USER;
   store_u32 (uint32 (get_pt_regs_argumnet regs 2));
   store_u32 (uint32 (get_pt_regs_argumnet regs 3));
   store_s32 (int32 (get_pt_regs_argumnet regs 4))].

(** futimesat.bpf.c *)
Definition futimesat_e : program := λ k regs id, mk_body id LINX_SYSCALL_TYPE_ENTER (-1) [].
Definition futimesat_x : program := λ k regs ret, mk_body (get_syscall_id regs) LINX_SYSCALL_TYPE_EXIT ret
  [store_s32 (int32 (get_pt_regs_argumnet regs 0));
   store_charpointer (uint64 (get_pt_regs_argumnet regs 1)) LINX_CHARBUF_MAX_SIZE USER;
   store_u64 (uint64 (get_pt_regs_argumnet regs 2))].

(** newfstatat.bpf.c *)
Definition newfstatat_e : program := λ k regs id, mk_body id LINX_SYSCALL_TYPE_ENTER (-1) [].
Definition newfstatat_x : program := λ k regs ret, mk_body (get_syscall_id regs) LINX_SYSCALL_TYPE_EXIT ret
  [store_s32 (int32 (get_pt_regs_argumnet regs 0));
   store_charpointer (uint64 (get_pt_regs_argumnet regs 1)) LINX_CHARBUF_MAX_SIZE USER;
   store_u64 (uint64 (get_pt_regs_argumnet regs 2));
   store_s32 (int32 (get_pt_regs_argumnet regs 3))].

(** unlinkat.bpf.c *)
Definition unlinkat_e : program := λ k regs id, mk_body id LINX_SYSCALL_TYPE_ENTER (-1) [].
Definition unlinkat_x : program := λ k regs ret, mk_body (get_syscall_id regs) LINX_SYSCALL_TYPE_EXIT ret
  [store_s32 (int32 (get_pt_regs_argumnet regs 0));
   store_charpointer (uint64 (get_pt_regs_argumnet regs 1)) LINX_CHARBUF_MAX_SIZE USER;
   store_s32 (int32 (get_pt_regs_argumnet regs 2))].

(** renameat.bpf.c *)
Definition renameat_e : program := λ k regs id, mk_body id LINX_SYSCALL_TYPE_ENTER (-1) [].
Definition renameat_x : program := λ k regs ret, mk_body (get_syscall_id regs) LINX_SYSCALL_TYPE_EXIT ret
  [store_s32 (int32 (get_pt_regs_argumnet regs 0));
   store_charpointer (uint64 (get_pt_regs_argumnet regs 1)) LINX_CHARBUF_MAX_SIZE USER;
   store_s32 (int32 (get_pt_regs_argumnet regs 2));
   store_charpointer (uint64 (get_pt_regs_argumnet regs 3)) LINX_CHARBUF_MAX_SIZE USER].

(** linkat.bpf.c *)
Definition linkat_e : program := λ k regs id, mk_body id LINX_SYSCALL_TYPE_ENTER (-1) [].
Definition linkat_x : program := λ k regs ret, mk_body (get_syscall_id regs) LINX_SYSCALL_TYPE_EXIT ret
  [store_s32 (int32 (get_pt_regs_argumnet regs 0));
   store_charpointer (uint64 (get_pt_regs_argumnet regs 1)) LINX_CHARBUF_MAX_SIZE USER;
   store_s32 (int32 (get_pt_regs_argumnet regs 2));
   store_charpointer (uint64 (get_pt_regs_argumnet regs 3)) LINX_CHARBUF_MAX_SIZE USER;
   store_s32 (int32 (get_pt_regs_argumnet regs 4))].

(** symlinkat.bpf.c *)
Definition symlinkat_e : program := λ k regs id, mk_body id LINX_SYSCALL_TYPE_ENTER (-1) [].
Definition symlinkat_x : program := λ k regs ret, mk_body (get_syscall_id regs) LINX_SYSCALL_TYPE_EXIT ret
  [store_charpointer (uint64 (get_pt_regs_argumnet regs 0)) LINX_CHARBUF_MAX_SIZE USER;
   store_s32 (int32 (get_pt_regs_argumnet regs 1));
   store_charpointer (uint64 (get_pt_regs_argumnet regs 2)) LINX_CHARBUF_MAX_SIZE USER].

(** readlinkat.bpf.c *)
Definition readlinkat_e : program := λ k regs id, mk_body id LINX_SYSCALL_TYPE_ENTER (-1) [].
Definition readlinkat_x : program := λ k regs ret, mk_body (get_syscall_id regs) LINX_SYSCALL_TYPE_EXIT ret
  [store_s32 (int32 (get_pt_regs_argumnet regs 0));
   store_charpointer (uint64 (get_pt_regs_argumnet regs 1)) LINX_CHARBUF_MAX_SIZE USER;
   store_charpointer (uint64 (get_pt_regs_argumnet regs 2)) LINX_CHARBUF_MAX_SIZE USER;
   store_s32 (int32 (get_pt_regs_argumnet regs 3))].

(** fchmodat.bpf.c *)
Definition fchmodat_e : program := λ k regs id, mk_body id LINX_SYSCALL_TYPE_ENTER (-1) [].
Definition fchmodat_x : program := λ k regs ret, mk_body (get_syscall_id regs) LINX_SYSCALL_TYPE_EXIT ret
  [store_s32 (int32 (get_pt_regs_argumnet regs 0));
   store_charpointer (uint64 (get_pt_regs_argumnet regs 1)) LINX_CHARBUF_MAX_SIZE USER;
   store_u16 (uint16 (get_pt_regs_argumnet regs 2))].

(** faccessat.bpf.c *)
Definition faccessat_e : program := λ k regs id, mk_body id LINX_SYSCALL_TYPE_ENTER (-1) [].
Definition faccessat_x : program := λ k regs ret, mk_body (get_syscall_id regs) LINX_SYSCALL_TYPE_EXIT ret
  [store_s32 (int32 (get_pt_regs_argumnet regs 0));
   store_charpointer (uint64 (get_pt_regs_argumnet regs 1)) LINX_CHARBUF_MAX_SIZE USER;
   store_s32 (int32 (get_pt_regs_argumnet regs 2))].

(** pselect6.bpf.c *)
Definition pselect6_e : program := λ k regs id, mk_body id LINX_SYSCALL_TYPE_ENTER (-1) [].
Definition pselect6_x : program := λ k regs ret, mk_body (get_syscall_id regs) LINX_SYSCALL_TYPE_EXIT ret
  [store_s32 (int32 (get_pt_regs_argumnet regs 0));
   store_u64 (uint64 (get_pt_regs_argumnet regs 1));
   store_u64 (uint64 (get_pt_regs_argumnet regs 2));
   store_u64 (uint64 (get_pt_regs_argumnet regs 3));
   store_u64 (uint64 (get_pt_regs_argumnet regs 4));
   store_u64 (uint64 (get_pt_regs_argumnet regs 5))].

(** ppoll.bpf.c *)
Definition ppoll_e : program := λ k regs id, mk_body id LINX_SYSCALL_TYPE_ENTER (-1) [].
Definition ppoll_x : program := λ k regs ret, mk_body (get_syscall_id regs) LINX_SYSCALL_TYPE_EXIT ret
  [store_u64 (uint64 (get_pt_regs_argumnet regs 0));
   store_u32 (uint32 (get_pt_regs_argumnet regs 1));
   store_u64 (uint64 (get_pt_regs_argumnet regs 2));
   store_u64 (uint64 (get_pt_regs_argumnet regs 3));
   store_u64 (uint64 (get_pt_regs_argumnet regs 4))].

(** unshare.bpf.c *)
Definition unshare_e : program := λ k regs id, mk_body id LINX_SYSCALL_TYPE_ENTER (-1) [].
Definition unshare_x : program := λ k regs ret, mk_body (get_syscall_id regs) LINX_SYSCALL_TYPE_EXIT ret
  [store_u64 (uint64 (get_pt_regs_argumnet regs 0))].

(** set_robust_list.bpf.c *)
Definition set_robust_list_e : program := λ k regs id, mk_body id LINX_SYSCALL_TYPE_ENTER (-1) [].
Definition set_robust_list_x : program := λ k regs ret, mk_body (get_syscall_id regs) LINX_SYSCALL_TYPE_EXIT ret
  [store_u64 (uint64 (get_pt_regs_argumnet regs 0));
   store_u64 (uint64 (get_pt_regs_argumnet regs 1))].

(** get_robust_list.bpf.c *)
Definition get_robust_list_e : program := λ k regs id, mk_body id LINX_SYSCALL_TYPE_ENTER (-1) [].
Definition get_robust_list_x : program := λ k regs ret, mk_body (get_syscall_id regs) LINX_SYSCALL_TYPE_EXIT ret
  [store_s32 (int32 (get_pt_regs_argumnet regs 0));
   store_u64 (uint64 (get_pt_regs_argumnet regs 1));
   store_u64 (user_uint64 k (get_pt_regs_argumnet regs 2))].

(** splice.bpf.c *)
Definition splice_e : program := λ k regs id, mk_body id LINX_SYSCALL_TYPE_ENTER (-1) [].
Definition splice_x : program := λ k regs ret, mk_body (get_syscall_id regs) LINX_SYSCALL_TYPE_EXIT ret
  [store_s32 (int32 (get_pt_regs_argumnet regs 0));
   store_s64 (user_int64 k (get_pt_regs_argumnet regs 1));
   store_s32 (int32 (get_pt_regs_argumnet regs 2));
   store_s64 (user_int64 k (get_pt_regs_argumnet regs 3));
   store_u64 (uint64 (get_pt_regs_argumnet regs 4));
   store_u32 (uint32 (get_pt_regs_argumnet regs 5))].

(** tee.bpf.c *)
Definition tee_e : program := λ k regs id, mk_body id LINX_SYSCALL_TYPE_ENTER (-1) [].
Definition tee_x : program := λ k regs ret, mk_body (get_syscall_id regs) LINX_SYSCALL_TYPE_EXIT ret
  [store_s32 (int32 (get_pt_regs_argumnet regs 0));
   store_s32 (int32 (get_pt_regs_argumnet regs 1));
   store_u64 (uint64 (get_pt_regs_argumnet regs 2));
   store_u32 (uint32 (get_pt_regs_argumnet regs 3))].

(** sync_file_range.bpf.c *)
Definition sync_file_range_e : program := λ k regs id, mk_body id LINX_SYSCALL_TYPE_ENTER (-1) [].
Definition sync_file_range_x : program := λ k regs ret, mk_body (get_syscall_id regs) LINX_SYSCALL_TYPE_EXIT ret
  [store_s32 (int32 (get_pt_regs_argumnet regs 0));
   store_s64 (int64 (get_pt_regs_argumnet regs 1));
   store_s64 (int64 (get_pt_regs_argumnet regs 2));
   store_u32 (uint32 (get_pt_regs_argumnet regs 3))].

(** vmsplice.bpf.c *)
Definition vmsplice_e : program := λ k regs id, mk_body id LINX_SYSCALL_TYPE_ENTER (-1) [].
Definition vmsplice_x : program := λ k regs ret, mk_body (get_syscall_id regs) LINX_SYSCALL_TYPE_EXIT ret
  [store_s32 (int32 (get_pt_regs_argumnet regs 0));
   store_u64 (uint64 (get_pt_regs_argumnet regs 1));
   store_u64 (uint64 (get_pt_regs_argumnet regs 2));
   store_u32 (uint32 (get_pt_regs_argumnet regs 3))].

(** move_pages.bpf.c *)
Definition move_pages_e : program := λ k regs id, mk_body id LINX_SYSCALL_TYPE_ENTER (-1) [].
Definition move_pages_x : program := λ k regs ret, mk_body (get_syscall_id regs) LINX_SYSCALL_TYPE_EXIT ret
  [store_s32 (int32 (get_pt_regs_argumnet regs 0));
   store_u64 (uint64 (get_pt_regs_argumnet regs 1));
   store_u64 (uint64 (get_pt_regs_argumnet regs 2));
   store_u64 (uint64 (get_pt_regs_argumnet regs 3));
   store_s32 (user_int32 k (get_pt_regs_argumnet regs 4));
   store_s32 (int32 (get_pt_regs_argumnet regs 5))].

(** utimensat.bpf.c *)
Definition utimensat_e : program := λ k regs id, mk_body id LINX_SYSCALL_TYPE_ENTER (-1) [].
Definition utimensat_x : program := λ k regs ret, mk_body (get_syscall_id regs) LINX_SYSCALL_TYPE_EXIT ret
  [store_s32 (int32 (get_pt_regs_argumnet regs 0));
   store_charpointer (uint64 (get_pt_regs_argumnet regs 1)) LINX_CHARBUF_MAX_SIZE USER;
   store_u64 (uint64 (get_pt_regs_argumnet regs 2));
   store_s32 (int32 (get_pt_regs_argumnet regs 3))].

(** epoll_pwait.bpf.c *)
Definition epoll_pwait_e : program := λ k regs id, mk_body id LINX_SYSCALL_TYPE_ENTER (-1) [].
Definition epoll_pwait_x : program := λ k regs ret, mk_body (get_syscall_id regs) LINX_SYSCALL_TYPE_EXIT ret
  [store_s32 (int32 (get_pt_regs_argumnet regs 0));
   store_u64 (uint64 (get_pt_regs_argumnet regs 1));
   store_s32 (int32 (get_pt_regs_argumnet regs 2));
   store_s32 (int32 (get_pt_regs_argumnet regs 3));
   store_u64 (uint64 (get_pt_regs_argumnet regs 4));
   store_u64 (uint64 (get_pt_regs_argumnet regs 5))].

(** signalfd.bpf.c *)
Definition signalfd_e : program := λ k regs id, mk_body id LINX_SYSCALL_TYPE_ENTER (-1) [].
Definition signalfd_x : program := λ k regs ret, mk_body (get_syscall_id regs) LINX_SYSCALL_TYPE_EXIT ret
  [store_s32 (int32 (get_pt_regs_argumnet regs 0));
   store_u64 (uint64 (get_pt_regs_argumnet regs 1));
   store_u64 (uint64 (get_pt_regs_argumnet regs 2))].

(** timerfd_create.bpf.c *)
Definition timerfd_create_e : program := λ k regs id, mk_body id LINX_SYSCALL_TYPE_ENTER (-1) [].
Definition timerfd_create_x : program := λ k regs ret, mk_body (get_syscall_id regs) LINX_SYSCALL_TYPE_EXIT ret
  [store_s32 (int32 (get_pt_regs_argumnet regs 0));
   store_s32 (int32 (get_pt_regs_argumnet regs 1))].

(** eventfd.bpf.c *)
Definition eventfd_e : program := λ k regs id, mk_body id LINX_SYSCALL_TYPE_ENTER (-1) [].
Definition eventfd_x : program := λ k regs ret, mk_body (get_syscall_id regs) LINX_SYSCALL_TYPE_EXIT ret
  [store_u32 (uint32 (get_pt_regs_argumnet regs 0))].

(** fallocate.bpf.c *)
Definition fallocate_e : program := λ k regs id, mk_body id LINX_SYSCALL_TYPE_ENTER (-1) [].
Definition fallocate_x : program := λ k regs ret, mk_body (get_syscall_id regs) LINX_SYSCALL_TYPE_EXIT ret
  [store_s32 (int32 (get_pt_regs_argumnet regs 0));
   store_s32 (int32 (get_pt_regs_argumnet regs 1));
   store_s64 (int64 (get_pt_regs_argumnet regs 2));
   store_s64 (int64 (get_pt_regs_argumnet regs 3))].

(** timerfd_settime.bpf.c *)
Definition timerfd_settime_e : program := λ k regs id, mk_body id LINX_SYSCALL_TYPE_ENTER (-1) [].
Definition timerfd_settime_x : program := λ k regs ret, mk_body (get_syscall_id regs) LINX_SYSCALL_TYPE_EXIT ret
  [store_s32 (int32 (get_pt_regs_argumnet regs 0));
   store_s32 (int32 (get_pt_regs_argumnet regs 1));
   store_u64 (uint64 (get_pt_regs_argumnet regs 2));
   store_u64 (uint64 (get_pt_regs_argumnet regs 3))].

(** timerfd_gettime.bpf.c *)
Definition timerfd_gettime_e : program := λ k regs id, mk_body id LINX_SYSCALL_TYPE_ENTER (-1) [].
Definition timerfd_gettime_x : program := λ k regs ret, mk_body (get_syscall_id regs) LINX_SYSCALL_TYPE_EXIT ret
  [store_s32 (int32 (get_pt_regs_argumnet regs 0));
   store_u64 (uint64 (get_pt_regs_argumnet regs 1))].

(** accept4.bpf.c *)
Definition accept4_e : program := λ k regs id, mk_body id LINX_SYSCALL_TYPE_ENTER (-1) [].
Definition accept4_x : program := λ k regs ret, mk_body (get_syscall_id regs) LINX_SYSCALL_TYPE_EXIT ret
  [store_s32 (int32 (get_pt_regs_argumnet regs 0));
   store_u64 (uint64 (get_pt_regs_argumnet regs 1));
   store_s32 (user_int32 k (get_pt_regs_argumnet regs 2));
   store_s32 (int32 (get_pt_regs_argumnet regs 3))].

(** signalfd4.bpf.c *)
Definition signalfd4_e : program := λ k regs id, mk_body id LINX_SYSCALL_TYPE_ENTER (-1) [].
Definition signalfd4_x : program := λ k regs ret, mk_body (get_syscall_id regs) LINX_SYSCALL_TYPE_EXIT ret
  [store_s32 (int32 (get_pt_regs_argumnet regs 0));
   store_u64 (uint64 (get_pt_regs_argumnet regs 1));
   store_u64 (uint64 (get_pt_regs_argumnet regs 2));
   store_s32 (int32 (get_pt_regs_argumnet regs 3))].

(** eventfd2.bpf.c *)
Definition eventfd2_e : program := λ k regs id, mk_body id LINX_SYSCALL_TYPE_ENTER (-1) [].
Definition eventfd2_x : program := λ k regs ret, mk_body (get_syscall_id regs) LINX_SYSCALL_TYPE_EXIT ret
  [store_u32 (uint32 (get_pt_regs_argumnet regs 0));
   store_s32 (int32 (get_pt_regs_argumnet regs 1))].

(** epoll_create1.bpf.c *)
Definition epoll_create1_e : program := λ k regs id, mk_body id LINX_SYSCALL_TYPE_ENTER (-1) [].
Definition epoll_create1_x : program := λ k regs ret, mk_body (get_syscall_id regs) LINX_SYSCALL_TYPE_EXIT ret
  [store_s32 (int32 (get_pt_regs_argumnet regs 0))].

(** dup3.bpf.c *)
Definition dup3_e : program := λ k regs id, mk_body id LINX_SYSCALL_TYPE_ENTER (-1) [].
Definition dup3_x : program := λ k regs ret, mk_body (get_syscall_id regs) LINX_SYSCALL_TYPE_EXIT ret
  [store_u32 (uint32 (get_pt_regs_argumnet regs 0));
   store_u32 (uint32 (get_pt_regs_argumnet regs 1));
   store_s32 (int32 (get_pt_regs_argumnet regs 2))].

(** pipe2.bpf.c *)
Definition pipe2_e : program := λ k regs id, mk_body id LINX_SYSCALL_TYPE_ENTER (-1) [].
Definition pipe2_x : program := λ k regs ret, mk_body (get_syscall_id regs) LINX_SYSCALL_TYPE_EXIT ret
  [store_s32 (user_int32 k (get_pt_regs_argumnet regs 0));
   store_s32 (int32 (get_pt_regs_argumnet regs 1))].

(** inotify_init1.bpf.c *)
Definition inotify_init1_e : program := λ k regs id, mk_body id LINX_SYSCALL_TYPE_ENTER (-1) [].
Definition inotify_init1_x : program := λ k regs ret, mk_body (get_syscall_id regs) LINX_SYSCALL_TYPE_EXIT ret
  [store_s32 (int32 (get_pt_regs_argumnet regs 0))].

(** preadv.bpf.c *)
Definition preadv_e : program := λ k regs id, mk_body id LINX_SYSCALL_TYPE_ENTER (-1) [].
Definition preadv_x : program := λ k regs ret, mk_body (get_syscall_id regs) LINX_SYSCALL_TYPE_EXIT ret
  [store_u64 (uint64 (get_pt_regs_argumnet regs 0));
   store_u64 (uint64 (get_pt_regs_argumnet regs 1));
   store_u64 (uint64 (get_pt_regs_argumnet regs 2));
   store_u64 (uint64 (get_pt_regs_argumnet regs 3));
   store_u64 (uint64 (get_pt_regs_argumnet regs 4))].

(** pwritev.bpf.c *)
Definition pwritev_e : program := λ k regs id, mk_body id LINX_SYSCALL_TYPE_ENTER (-1) [].
Definition pwritev_x : program := λ k regs ret, mk_body (get_syscall_id regs) LINX_SYSCALL_TYPE_EXIT ret
  [store_u64 (uint64 (get_pt_regs_argumnet regs 0));
   store_u64 (uint64 (get_pt_regs_argumnet regs 1));
   store_u64 (uint64 (get_pt_regs_argumnet regs 2));
   store_u64 (uint64 (get_pt_regs_argumnet regs 3));
   store_u64 (uint64 (get_pt_regs_argumnet regs 4))].

(** rt_tgsigqueueinfo.bpf.c *)
Definition rt_tgsigqueueinfo_e : program := λ k regs id, mk_body id LINX_SYSCALL_TYPE_ENTER (-1) [].
Definition rt_tgsigqueueinfo_x : program := λ k regs ret, mk_body (get_syscall_id regs) LINX_SYSCALL_TYPE_EXIT ret
  [store_s32 (int32 (get_pt_regs_argumnet regs 0));
   store_s32 (int32 (get_pt_regs_argumnet regs 1));
   store_s32 (int32 (get_pt_regs_argumnet regs 2));
   store_u64 (uint64 (get_pt_regs_argumnet regs 3))].

(** perf_event_open.bpf.c *)
Definition perf_event_open_e : program := λ k regs id, mk_body id LINX_SYSCALL_TYPE_ENTER (-1) [].
Definition perf_event_open_x : program := λ k regs ret, mk_body (get_syscall_id regs) LINX_SYSCALL_TYPE_EXIT ret
  [store_u64 (uint64 (get_pt_regs_argumnet regs 0));
   store_s32 (int32 (get_pt_regs_argumnet regs 1));
   store_s32 (int32 (get_pt_regs_argumnet regs 2));
   store_s32 (int32 (get_pt_regs_argumnet regs 3));
   store_u64 (uint64 (get_pt_regs_argumnet regs 4))].

(** recvmmsg.bpf.c *)
Definition recvmmsg_e : program := λ k regs id, mk_body id LINX_SYSCALL_TYPE_ENTER (-1) [].
Definition recvmmsg_x : program := λ k regs ret, mk_body (get_syscall_id regs) LINX_SYSCALL_TYPE_EXIT ret
  [store_s32 (int32 (get_pt_regs_argumnet regs 0));
   store_u64 (uint64 (get_pt_regs_argumnet regs 1));
   store_u32 (uint32 (get_pt_regs_argumnet regs 2));
   store_u32 (uint32 (get_pt_regs_argumnet regs 3));
   store_u64 (uint64 (get_pt_regs_argumnet regs 4))].

(** fanotify_init.bpf.c *)
Definition fanotify_init_e : program := λ k regs id, mk_body id LINX_SYSCALL_TYPE_ENTER (-1) [].
Definition fanotify_init_x : program := λ k regs ret, mk_body (get_syscall_id regs) LINX_SYSCALL_TYPE_EXIT ret
  [store_u32 (uint32 (get_pt_regs_argumnet regs 0));
   store_u32 (uint32 (get_pt_regs_argumnet regs 1))].

(** fanotify_mark.bpf.c *)
Definition fanotify_mark_e : program := λ k regs id, mk_body id LINX_SYSCALL_TYPE_ENTER (-1) [].
Definition fanotify_mark_x : program := λ k regs ret, mk_body (get_syscall_id regs) LINX_SYSCALL_TYPE_EXIT ret
  [store_s32 (int32 (get_pt_regs_argumnet regs 0));
   store_u32 (uint32 (get_pt_regs_argumnet regs 1));
   store_u64 (uint64 (get_pt_regs_argumnet regs 2));
   store_s32 (int32 (get_pt_regs_argumnet regs 3));
   store_charpointer (uint64 (get_pt_regs_argumnet regs 4)) LINX_CHARBUF_MAX_SIZE USER].

(** prlimit64.bpf.c *)
Definition prlimit64_e : program := λ k regs id, mk_body id LINX_SYSCALL_TYPE_ENTER (-1) [].
Definition prlimit64_x : program := λ k regs ret, mk_body (get_syscall_id regs) LINX_SYSCALL_TYPE_EXIT ret
  [store_s32 (int32 (get_pt_regs_argumnet regs 0));
   store_u32 (uint32 (get_pt_regs_argumnet regs 1));
   store_u64 (uint64 (get_pt_regs_argumnet regs 2));
   store_u64 (uint64 (get_pt_regs_argumnet regs 3))].

(** name_to_handle_at.bpf.c *)
Definition name_to_handle_at_e : program := λ k regs id, mk_body id LINX_SYSCALL_TYPE_ENTER (-1) [].
Definition name_to_handle_at_x : program := λ k regs ret, mk_body (get_syscall_id regs) LINX_SYSCALL_TYPE_EXIT ret
  [store_s32 (int32 (get_pt_regs_argumnet regs 0));
   store_charpointer (uint64 (get_pt_regs_argumnet regs 1)) LINX_CHARBUF_MAX_SIZE USER;
   store_u64 (uint64 (get_pt_regs_argumnet regs 2));
   store_s32 (user_int32 k (get_pt_regs_argumnet regs 3));
   store_s32 (int32 (get_pt_regs_argumnet regs 4))].

(** open_by_handle_at.bpf.c *)
Definition open_by_handle_at_e : program := λ k regs id, mk_body id LINX_SYSCALL_TYPE_ENTER (-1) [].
Definition open_by_handle_at_x : program := λ k regs ret, mk_body (get_syscall_id regs) LINX_SYSCALL_TYPE_EXIT ret
  [store_s32 (int32 (get_pt_regs_argumnet regs 0));
   store_u64 (uint64 (get_pt_regs_argumnet regs 1));
   store_s32 (int32 (get_pt_regs_argumnet regs 2))].

(** clock_adjtime.bpf.c *)
Definition clock_adjtime_e : program := λ k regs id, mk_body id LINX_SYSCALL_TYPE_ENTER (-1) [].
Definition clock_adjtime_x : program := λ k regs ret, mk_body (get_syscall_id regs) LINX_SYSCALL_TYPE_EXIT ret
  [store_s32 (int32 (get_pt_regs_argumnet regs 0));
   store_u64 (uint64 (get_pt_regs_argumnet regs 1))].

(** syncfs.bpf.c *)
Definition syncfs_e : program := λ k regs id, mk_body id LINX_SYSCALL_TYPE_ENTER (-1) [].
Definition syncfs_x : program := λ k regs ret, mk_body (get_syscall_id regs) LINX_SYSCALL_TYPE_EXIT ret
  [store_s32 (int32 (get_pt_regs_argumnet regs 0))].

(** sendmmsg.bpf.c *)
Definition sendmmsg_e : program := λ k regs id, mk_body id LINX_SYSCALL_TYPE_ENTER (-1) [].
Definition sendmmsg_x : program := λ k regs ret, mk_body (get_syscall_id regs) LINX_SYSCALL_TYPE_EXIT ret
  [store_s32 (int32 (get_pt_regs_argumnet regs 0));
   store_u64 (uint64 (get_pt_regs_argumnet regs 1));
   store_u32 (uint32 (get_pt_regs_argumnet regs 2));
   store_u32 (uint32 (get_pt_regs_argumnet regs 3))].

(** setns.bpf.c *)
Definition setns_e : program := λ k regs id, mk_body id LINX_SYSCALL_TYPE_ENTER (-1) [].
Definition setns_x : program := λ k regs ret, mk_body (get_syscall_id regs) LINX_SYSCALL_TYPE_EXIT ret
  [store_s32 (int32 (get_pt_regs_argumnet regs 0));
   store_s32 (int32 (get_pt_regs_argumnet regs 1))].

(** getcpu.bpf.c *)
Definition getcpu_e : program := λ k regs id, mk_body id LINX_SYSCALL_TYPE_ENTER (-1) [].
Definition getcpu_x : program := λ k regs ret, mk_body (get_syscall_id regs) LINX_SYSCALL_TYPE_EXIT ret
  [store_u32 (user_uint32 k (get_pt_regs_argumnet regs 0));
   store_u32 (user_uint32 k (get_pt_regs_argumnet regs 1));
   store_u64 (uint64 (get_pt_regs_argumnet regs 2))].

(** process_vm_readv.bpf.c *)
Definition process_vm_readv_e : program := λ k regs id, mk_body id LINX_SYSCALL_TYPE_ENTER (-1) [].
Definition process_vm_readv_x : program := λ k regs ret, mk_body (get_syscall_id regs) LINX_SYSCALL_TYPE_EXIT ret
  [store_s32 (int32 (get_pt_regs_argumnet regs 0));
   store_u64 (uint64 (get_pt_regs_argumnet regs 1));
   store_u64 (uint64 (get_pt_regs_argumnet regs 2));
   store_u64 (uint64 (get_pt_regs_argumnet regs 3));
   store_u64 (uint64 (get_pt_regs_argumnet regs 4));
   store_u64 (uint64 (get_pt_regs_argumnet regs 5))].

(** process_vm_writev.bpf.c *)
Definition process_vm_writev_e : program := λ k regs id, mk_body id LINX_SYSCALL_TYPE_ENTER (-1) [].
Definition process_vm_writev_x : program := λ k regs ret, mk_body (get_syscall_id regs) LINX_SYSCALL_TYPE_EXIT ret
  [store_s32 (int32 (get_pt_regs_argumnet regs 0));
   store_u64 (uint64 (get_pt_regs_argumnet regs 1));
   store_u64 (uint64 (get_pt_regs_argumnet regs 2));
   store_u64 (uint64 (get_pt_regs_argumnet regs 3));
   store_u64 (uint64 (get_pt_regs_argumnet regs 4));
   store_u64 (uint64 (get_pt_regs_argumnet regs 5))].

(** kcmp.bpf.c *)
Definition kcmp_e : program := λ k regs id, mk_body id LINX_SYSCALL_TYPE_ENTER (-1) [].
Definition kcmp_x : program := λ k regs ret, mk_body (get_syscall_id regs) LINX_SYSCALL_TYPE_EXIT ret
  [store_s32 (int32 (get_pt_regs_argumnet regs 0));
   store_s32 (int32 (get_pt_regs_argumnet regs 1));
   store_s32 (int32 (get_pt_regs_argumnet regs 2));
   store_u64 (uint64 (get_pt_regs_argumnet regs 3));
   store_u64 (uint64 (get_pt_regs_argumnet regs 4))].

(** finit_module.bpf.c *)
Definition finit_module_e : program := λ k regs id, mk_body id LINX_SYSCALL_TYPE_ENTER (-1) [].
Definition finit_module_x : program := λ k regs ret, mk_body (get_syscall_id regs) LINX_SYSCALL_TYPE_EXIT ret
  [store_s32 (int32 (get_pt_regs_argumnet regs 0));
   store_charpointer (uint64 (get_pt_regs_argumnet regs 1)) LINX_CHARBUF_MAX_SIZE USER;
   store_s32 (int32 (get_pt_regs_argumnet regs 2))].

(** sched_setattr.bpf.c *)
Definition sched_setattr_e : program := λ k regs id, mk_body id LINX_SYSCALL_TYPE_ENTER (-1) [].
Definition sched_setattr_x : program := λ k regs ret, mk_body (get_syscall_id regs) LINX_SYSCALL_TYPE_EXIT ret
  [store_s32 (int32 (get_pt_regs_argumnet regs 0));
   store_u64 (uint64 (get_pt_regs_argumnet regs 1));
   store_u32 (uint32 (get_pt_regs_argumnet regs 2))].

(** sched_getattr.bpf.c *)
Definition sched_getattr_e : program := λ k regs id, mk_body id LINX_SYSCALL_TYPE_ENTER (-1) [].
Definition sched_getattr_x : program := λ k regs ret, mk_body (get_syscall_id regs) LINX_SYSCALL_TYPE_EXIT ret
  [store_s32 (int32 (get_pt_regs_argumnet regs 0));
   store_u64 (uint64 (get_pt_regs_argumnet regs 1));
   store_u32 (uint32 (get_pt_regs_argumnet regs 2));
   store_u32 (uint32 (get_pt_regs_argumnet regs 3))].

(** renameat2.bpf.c *)
Definition renameat2_e : program := λ k regs id, mk_body id LINX_SYSCALL_TYPE_ENTER (-1) [].
Definition renameat2_x : program := λ k regs ret, mk_body (get_syscall_id regs) LINX_SYSCALL_TYPE_EXIT ret
  [store_s32 (int32 (get_pt_regs_argumnet regs 0));
   store_charpointer (uint64 (get_pt_regs_argumnet regs 1)) LINX_CHARBUF_MAX_SIZE USER;
   store_s32 (int32 (get_pt_regs_argumnet regs 2));
   store_charpointer (uint64 (get_pt_regs_argumnet regs 3)) LINX_CHARBUF_MAX_SIZE USER;
   store_u32 (uint32 (get_pt_regs_argumnet regs 4))].

(** seccomp.bpf.c *)
Definition seccomp_e : program := λ k regs id, mk_body id LINX_SYSCALL_TYPE_ENTER (-1) [].
Definition seccomp_x : program := λ k regs ret, mk_body (get_syscall_id regs) LINX_SYSCALL_TYPE_EXIT ret
  [store_u32 (uint32 (get_pt_regs_argumnet regs 0));
   store_u32 (uint32 (get_pt_regs_argumnet regs 1));
   store_u64 (uint64 (get_pt_regs_argumnet regs 2))].

(** getrandom.bpf.c *)
Definition getrandom_e : program := λ k regs id, mk_body id LINX_SYSCALL_TYPE_ENTER (-1) [].
Definition getrandom_x : program := λ k regs ret, mk_body (get_syscall_id regs) LINX_SYSCALL_TYPE_EXIT ret
  [store_charpointer (uint64 (get_pt_regs_argumnet regs 0)) LINX_CHARBUF_MAX_SIZE USER;
   store_u64 (uint64 (get_pt_regs_argumnet regs 1));
   store_u32 (uint32 (get_pt_regs_argumnet regs 2))].

(** memfd_create.bpf.c *)
Definition memfd_create_e : program := λ k regs id, mk_body id LINX_SYSCALL_TYPE_ENTER (-1) [].
Definition memfd_create_x : program := λ k regs ret, mk_body (get_syscall_id regs) LINX_SYSCALL_TYPE_EXIT ret
  [store_charpointer (uint64 (get_pt_regs_argumnet regs 0)) LINX_CHARBUF_MAX_SIZE USER;
   store_u32 (uint32 (get_pt_regs_argumnet regs 1))].

(** kexec_file_load.bpf.c *)
Definition kexec_file_load_e : program := λ k regs id, mk_body id LINX_SYSCALL_TYPE_ENTER (-1) [].
Definition kexec_file_load_x : program := λ k regs ret, mk_body (get_syscall_id regs) LINX_SYSCALL_TYPE_EXIT ret
  [store_s32 (int32 (get_pt_regs_argumnet regs 0));
   store_s32 (int32 (get_pt_regs_argumnet regs 1));
   store_u64 (uint64 (get_pt_regs_argumnet regs 2));
   store_charpointer (uint64 (get_pt_regs_argumnet regs 3)) LINX_CHARBUF_MAX_SIZE USER;
   store_u64 (uint64 (get_pt_regs_argumnet regs 4))].

(** bpf.bpf.c *)
Definition bpf_e : program := λ k regs id, mk_body id LINX_SYSCALL_TYPE_ENTER (-1) [].
Definition bpf_x : program := λ k regs ret, mk_body (get_syscall_id regs) LINX_SYSCALL_TYPE_EXIT ret
  [store_s32 (int32 (get_pt_regs_argumnet regs 0));
   store_u64 (uint64 (get_pt_regs_argumnet regs 1));
   store_u32 (uint32 (get_pt_regs_argumnet regs 2))].

(** execveat.bpf.c *)
Definition execveat_e : program := λ k regs id, mk_body id LINX_SYSCALL_TYPE_ENTER (-1) [].
Definition execveat_x : program := λ k regs ret, mk_body (get_syscall_id regs) LINX_SYSCALL_TYPE_EXIT ret
  [store_s32 (int32 (get_pt_regs_argumnet regs 0));
   store_charpointer (uint64 (get_pt_regs_argumnet regs 1)) LINX_CHARBUF_MAX_SIZE USER;
   store_charpointer (uint64 (get_pt_regs_argumnet regs 2)) LINX_CHARBUF_MAX_SIZE USER;
   store_charpointer (uint64 (get_pt_regs_argumnet regs 3)) LINX_CHARBUF_MAX_SIZE USER;
   store_s32 (int32 (get_pt_regs_argumnet regs 4))].

(** userfaultfd.bpf.c *)
Definition userfaultfd_e : program := λ k regs id, mk_body id LINX_SYSCALL_TYPE_ENTER (-1) [].
Definition userfaultfd_x : program := λ k regs ret, mk_body (get_syscall_id regs) LINX_SYSCALL_TYPE_EXIT ret
  [store_s32 (int32 (get_pt_regs_argumnet regs 0))].

(** membarrier.bpf.c *)
Definition membarrier_e : program := λ k regs id, mk_body id LINX_SYSCALL_TYPE_ENTER (-1) [].
Definition membarrier_x : program := λ k regs ret, mk_body (get_syscall_id regs) LINX_SYSCALL_TYPE_EXIT ret
  [store_s32 (int32 (get_pt_regs_argumnet regs 0));
   store_u32 (uint32 (get_pt_regs_argumnet regs 1));
   store_s32 (int32 (get_pt_regs_argumnet regs 2))].

(** mlock2.bpf.c *)
Definition mlock2_e : program := λ k regs id, mk_body id LINX_SYSCALL_TYPE_ENTER (-1) [].
Definition mlock2_x : program := λ k regs ret, mk_body (get_syscall_id regs) LINX_SYSCALL_TYPE_EXIT ret
  [store_u64 (uint64 (get_pt_regs_argumnet regs 0));
   store_u64 (uint64 (get_pt_regs_argumnet regs 1));
   store_s32 (int32 (get_pt_regs_argumnet regs 2))].

(** copy_file_range.bpf.c *)
Definition copy_file_range_e : program := λ k regs id, mk_body id LINX_SYSCALL_TYPE_ENTER (-1) [].
Definition copy_file_range_x : program := λ k regs ret, mk_body (get_syscall_id regs) LINX_SYSCALL_TYPE_EXIT ret
  [store_s32 (int32 (get_pt_regs_argumnet regs 0));
   store_s64 (user_int64 k (get_pt_regs_argumnet regs 1));
   store_s32 (int32 (get_pt_regs_argumnet regs 2));
   store_s64 (user_int64 k (get_pt_regs_argumnet regs 3));
   store_u64 (uint64 (get_pt_regs_argumnet regs 4));
   store_u32 (uint32 (get_pt_regs_argumnet regs 5))].

(** preadv2.bpf.c *)
Definition preadv2_e : program := λ k regs id, mk_body id LINX_SYSCALL_TYPE_ENTER (-1) [].
Definition preadv2_x : program := λ k regs ret, mk_body (get_syscall_id regs) LINX_SYSCALL_TYPE_EXIT ret
  [store_u64 (uint64 (get_pt_regs_argumnet regs 0));
   store_u64 (uint64 (get_pt_regs_argumnet regs 1));
   store_u64 (uint64 (get_pt_regs_argumnet regs 2));
   store_u64 (uint64 (get_pt_regs_argumnet regs 3));
   store_u64 (uint64 (get_pt_regs_argumnet regs 4));
   store_s32 (int32 (get_pt_regs_argumnet regs 5))].

(** pwritev2.bpf.c *)
Definition pwritev2_e : program := λ k regs id, mk_body id LINX_SYSCALL_TYPE_ENTER (-1) [].
Definition pwritev2_x : program := λ k regs ret, mk_body (get_syscall_id regs) LINX_SYSCALL_TYPE_EXIT ret
  [store_u64 (uint64 (get_pt_regs_argumnet regs 0));
   store_u64 (uint64 (get_pt_regs_argumnet regs 1));
   store_u64 (uint64 (get_pt_regs_argumnet regs 2));
   store_u64 (uint64 (get_pt_regs_argumnet regs 3));
   store_u64 (uint64 (get_pt_regs_argumnet regs 4));
   store_s32 (int32 (get_pt_regs_argumnet regs 5))].

(** pkey_mprotect.bpf.c *)
Definition pkey_mprotect_e : program := λ k regs id, mk_body id LINX_SYSCALL_TYPE_ENTER (-1) [].
Definition pkey_mprotect_x : program := λ k regs ret, mk_body (get_syscall_id regs) LINX_SYSCALL_TYPE_EXIT ret
  [store_u64 (uint64 (get_pt_regs_argumnet regs 0));
   store_u64 (uint64 (get_pt_regs_argumnet regs 1));
   store_u64 (uint64 (get_pt_regs_argumnet regs 2));
   store_s32 (int32 (get_pt_regs_argumnet regs 3))].

(** pkey_alloc.bpf.c *)
Definition pkey_alloc_e : program := λ k regs id, mk_body id LINX_SYSCALL_TYPE_ENTER (-1) [].
Definition pkey_alloc_x : program := λ k regs ret, mk_body (get_syscall_id regs) LINX_SYSCALL_TYPE_EXIT ret
  [store_u64 (uint64 (get_pt_regs_argumnet regs 0));
   store_u64 (uint64 (get_pt_regs_argumnet regs 1))].

(** pkey_free.bpf.c *)
Definition pkey_free_e : program := λ k regs id, mk_body id LINX_SYSCALL_TYPE_ENTER (-1) [].
Definition pkey_free_x : program := λ k regs ret, mk_body (get_syscall_id regs) LINX_SYSCALL_TYPE_EXIT ret
  [store_s32 (int32 (get_pt_regs_argumnet regs 0))].

(** statx.bpf.c *)
Definition statx_e : program := λ k regs id, mk_body id LINX_SYSCALL_TYPE_ENTER (-1) [].
Definition statx_x : program := λ k regs ret, mk_body (get_syscall_id regs) LINX_SYSCALL_TYPE_EXIT ret
  [store_s32 (int32 (get_pt_regs_argumnet regs 0));
   store_charpointer (uint64 (get_pt_regs_argumnet regs 1)) LINX_CHARBUF_MAX_SIZE USER;
   store_u32 (uint32 (get_pt_regs_argumnet regs 2));
   store_u32 (uint32 (get_pt_regs_argumnet regs 3));
   store_u64 (uint64 (get_pt_regs_argumnet regs 4))].

(** io_pgetevents.bpf.c *)
Definition io_pgetevents_e : program := λ k regs id, mk_body id LINX_SYSCALL_TYPE_ENTER (-1) [].
Definition io_pgetevents_x : program := λ k regs ret, mk_body (get_syscall_id regs) LINX_SYSCALL_TYPE_EXIT ret
  [store_u64 (uint64 (get_pt_regs_argumnet regs 0));
   store_s64 (int64 (get_pt_regs_argumnet regs 1));
   store_s64 (int64 (get_pt_regs_argumnet regs 2));
   store_u64 (uint64 (get_pt_regs_argumnet regs 3));
   store_u64 (uint64 (get_pt_regs_argumnet regs 4));
   store_u64 (uint64 (get_pt_regs_argumnet regs 5))].

(** rseq.bpf.c *)
Definition rseq_e : program := λ k regs id, mk_body id LINX_SYSCALL_TYPE_ENTER (-1) [].
Definition rseq_x : program := λ k regs ret, mk_body (get_syscall_id regs) LINX_SYSCALL_TYPE_EXIT ret
  [store_u64 (uint64 (get_pt_regs_argumnet regs 0));
   store_u32 (uint32 (get_pt_regs_argumnet regs 1));
   store_s32 (int32 (get_pt_regs_argumnet regs 2));
   store_u32 (uint32 (get_pt_regs_argumnet regs 3))].

(** pidfd_send_signal.bpf.c *)
Definition pidfd_send_signal_e : program := λ k regs id, mk_body id LINX_SYSCALL_TYPE_ENTER (-1) [].
Definition pidfd_send_signal_x : program := λ k regs ret, mk_body (get_syscall_id regs) LINX_SYSCALL_TYPE_EXIT ret
  [store_s32 (int32 (get_pt_regs_argumnet regs 0));
   store_s32 (int32 (get_pt_regs_argumnet regs 1));
   store_u64 (uint64 (get_pt_regs_argumnet regs 2));
   store_u32 (uint32 (get_pt_regs_argumnet regs 3))].

(** io_uring_setup.bpf.c *)
Definition io_uring_setup_e : program := λ k regs id, mk_body id LINX_SYSCALL_TYPE_ENTER (-1) [].
Definition io_uring_setup_x : program := λ k regs ret, mk_body (get_syscall_id regs) LINX_SYSCALL_TYPE_EXIT ret
  [store_u32 (uint32 (get_pt_regs_argumnet regs 0));
   store_u64 (uint64 (get_pt_regs_argumnet regs 1))].

(** io_uring_enter.bpf.c *)
Definition io_uring_enter_e : program := λ k regs id, mk_body id LINX_SYSCALL_TYPE_ENTER (-1) [].
Definition io_uring_enter_x : program := λ k regs ret, mk_body (get_syscall_id regs) LINX_SYSCALL_TYPE_EXIT ret
  [store_u32 (uint32 (get_pt_regs_argumnet regs 0));
   store_u32 (uint32 (get_pt_regs_argumnet regs 1));
   store_u32 (uint32 (get_pt_regs_argumnet regs 2));
   store_u32 (uint32 (get_pt_regs_argumnet regs 3));
   store_u64 (uint64 (get_pt_regs_argumnet regs 4));
   store_u64 (uint64 (get_pt_regs_argumnet regs 5))].

(** io_uring_register.bpf.c *)
Definition io_uring_register_e : program := λ k regs id, mk_body id LINX_SYSCALL_TYPE_ENTER (-1) [].
Definition io_uring_register_x : program := λ k regs ret, mk_body (get_syscall_id regs) LINX_SYSCALL_TYPE_EXIT ret
  [store_u32 (uint32 (get_pt_regs_argumnet regs 0));
   store_u32 (uint32 (get_pt_regs_argumnet regs 1));
   store_u64 (uint64 (get_pt_regs_argumnet regs 2));
   store_u32 (uint32 (get_pt_regs_argumnet regs 3))].

(** open_tree.bpf.c *)
Definition open_tree_e : program := λ k regs id, mk_body id LINX_SYSCALL_TYPE_ENTER (-1) [].
Definition open_tree_x : program := λ k regs ret, mk_body (get_syscall_id regs) LINX_SYSCALL_TYPE_EXIT ret
  [store_s32 (int32 (get_pt_regs_argumnet regs 0));
   store_charpointer (uint64 (get_pt_regs_argumnet regs 1)) LINX_CHARBUF_MAX_SIZE USER;
   store_u32 (uint32 (get_pt_regs_argumnet regs 2))].

(** move_mount.bpf.c *)
Definition move_mount_e : program := λ k regs id, mk_body id LINX_SYSCALL_TYPE_ENTER (-1) [].
Definition move_mount_x : program := λ k regs ret, mk_body (get_syscall_id regs) LINX_SYSCALL_TYPE_EXIT ret
  [store_s32 (int32 (get_pt_regs_argumnet regs 0));
   store_charpointer (uint64 (get_pt_regs_argumnet regs 1)) LINX_CHARBUF_MAX_SIZE USER;
   store_s32 (int32 (get_pt_regs_argumnet regs 2));
   store_charpointer (uint64 (get_pt_regs_argumnet regs 3)) LINX_CHARBUF_MAX_SIZE USER;
   store_u32 (uint32 (get_pt_regs_argumnet regs 4))].

(** fsopen.bpf.c *)
Definition fsopen_e : program := λ k regs id, mk_body id LINX_SYSCALL_TYPE_ENTER (-1) [].
Definition fsopen_x : program := λ k regs ret, mk_body (get_syscall_id regs) LINX_SYSCALL_TYPE_EXIT ret
  [store_charpointer (uint64 (get_pt_regs_argumnet regs 0)) LINX_CHARBUF_MAX_SIZE USER;
   store_u32 (uint32 (get_pt_regs_argumnet regs 1))].

(** fsconfig.bpf.c *)
Definition fsconfig_e : program := λ k regs id, mk_body id LINX_SYSCALL_TYPE_ENTER (-1) [].
Definition fsconfig_x : program := λ k regs ret, mk_body (get_syscall_id regs) LINX_SYSCALL_TYPE_EXIT ret
  [store_s32 (int32 (get_pt_regs_argumnet regs 0));
   store_u32 (uint32 (get_pt_regs_argumnet regs 1));
   store_charpointer (uint64 (get_pt_regs_argumnet regs 2)) LINX_CHARBUF_MAX_SIZE USER;
   store_u64 (uint64 (get_pt_regs_argumnet regs 3));
   store_s32 (int32 (get_pt_regs_argumnet regs 4))].

(** fsmount.bpf.c *)
Definition fsmount_e : program := λ k regs id, mk_body id LINX_SYSCALL_TYPE_ENTER (-1) [].
Definition fsmount_x : program := λ k regs ret, mk_body (get_syscall_id regs) LINX_SYSCALL_TYPE_EXIT ret
  [store_s32 (int32 (get_pt_regs_argumnet regs 0));
   store_u32 (uint32 (get_pt_regs_argumnet regs 1));
   store_u32 (uint32 (get_pt_regs_argumnet regs 2))].

(** fspick.bpf.c *)
Definition fspick_e : program := λ k regs id, mk_body id LINX_SYSCALL_TYPE_ENTER (-1) [].
Definition fspick_x : program := λ k regs ret, mk_body (get_syscall_id regs) LINX_SYSCALL_TYPE_EXIT ret
  [store_s32 (int32 (get_pt_regs_argumnet regs 0));
   store_charpointer (uint64 (get_pt_regs_argumnet regs 1)) LINX_CHARBUF_MAX_SIZE USER;
   store_u32 (uint32 (get_pt_regs_argumnet regs 2))].

(** pidfd_open.bpf.c *)
Definition pidfd_open_e : program := λ k regs id, mk_body id LINX_SYSCALL_TYPE_ENTER (-1) [].
Definition pidfd_open_x : program := λ k regs ret, mk_body (get_syscall_id regs) LINX_SYSCALL_TYPE_EXIT ret
  [store_s32 (int32 (get_pt_regs_argumnet regs 0));
   store_u32 (uint32 (get_pt_regs_argumnet regs 1))].

(** clone3.bpf.c *)
Definition clone3_e : program := λ k regs id, mk_body id LINX_SYSCALL_TYPE_ENTER (-1) [].
Definition clone3_x : program := λ k regs ret, mk_body (get_syscall_id regs) LINX_SYSCALL_TYPE_EXIT ret
  [store_u64 (uint64 (get_pt_regs_argumnet regs 0));
   store_u64 (uint64 (get_pt_regs_argumnet regs 1))].

(** close_range.bpf.c *)
Definition close_range_e : program := λ k regs id, mk_body id LINX_SYSCALL_TYPE_ENTER (-1) [].
Definition close_range_x : program := λ k regs ret, mk_body (get_syscall_id regs) LINX_SYSCALL_TYPE_EXIT ret
  [store_u32 (uint32 (get_pt_regs_argumnet regs 0));
   store_u32 (uint32 (get_pt_regs_argumnet regs 1));
   store_u32 (uint32 (get_pt_regs_argumnet regs 2))].

(** openat2.bpf.c *)
Definition openat2_e : program := λ k regs id, mk_body id LINX_SYSCALL_TYPE_ENTER (-1) [].
Definition openat2_x : program := λ k regs ret, mk_body (get_syscall_id regs) LINX_SYSCALL_TYPE_EXIT ret
  [store_s32 (int32 (get_pt_regs_argumnet regs 0));
   store_charpointer (uint64 (get_pt_regs_argumnet regs 1)) LINX_CHARBUF_MAX_SIZE USER;
   store_u64 (uint64 (get_pt_regs_argumnet regs 2));
   store_u64 (uint64 (get_pt_regs_argumnet regs 3))].

(** pidfd_getfd.bpf.c *)
Definition pidfd_getfd_e : program := λ k regs id, mk_body id LINX_SYSCALL_TYPE_ENTER (-1) [].
Definition pidfd_getfd_x : program := λ k regs ret, mk_body (get_syscall_id regs) LINX_SYSCALL_TYPE_EXIT ret
  [store_s32 (int32 (get_pt_regs_argumnet regs 0));
   store_s32 (int32 (get_pt_regs_argumnet regs 1));
   store_u32 (uint32 (get_pt_regs_argumnet regs 2))].

(** faccessat2.bpf.c *)
Definition faccessat2_e : program := λ k regs id, mk_body id LINX_SYSCALL_TYPE_ENTER (-1) [].
Definition faccessat2_x : program := λ k regs ret, mk_body (get_syscall_id regs) LINX_SYSCALL_TYPE_EXIT ret
  [store_s32 (int32 (get_pt_regs_argumnet regs 0));
   store_charpointer (uint64 (get_pt_regs_argumnet regs 1)) LINX_CHARBUF_MAX_SIZE USER;
   store_s32 (int32 (get_pt_regs_argumnet regs 2));
   store_s32 (int32 (get_pt_regs_argumnet regs 3))].

(** process_madvise.bpf.c *)
Definition process_madvise_e : program := λ k regs id, mk_body id LINX_SYSCALL_TYPE_ENTER (-1) [].
Definition process_madvise_x : program := λ k regs ret, mk_body (get_syscall_id regs) LINX_SYSCALL_TYPE_EXIT ret
  [store_s32 (int32 (get_pt_regs_argumnet regs 0));
   store_u64 (uint64 (get_pt_regs_argumnet regs 1));
   store_u64 (uint64 (get_pt_regs_argumnet regs 2));
   store_s32 (int32 (get_pt_regs_argumnet regs 3));
   store_u32 (uint32 (get_pt_regs_argumnet regs 4))].

(** epoll_pwait2.bpf.c *)
Definition epoll_pwait2_e : program := λ k regs id, mk_body id LINX_SYSCALL_TYPE_ENTER (-1) [].
Definition epoll_pwait2_x : program := λ k regs ret, mk_body (get_syscall_id regs) LINX_SYSCALL_TYPE_EXIT ret
  [store_s32 (int32 (get_pt_regs_argumnet regs 0));
   store_u64 (uint64 (get_pt_regs_argumnet regs 1));
   store_s32 (int32 (get_pt_regs_argumnet regs 2));
   store_u64 (uint64 (get_pt_regs_argumnet regs 3));
   store_u64 (uint64 (get_pt_regs_argumnet regs 4));
   store_u64 (uint64 (get_pt_regs_argumnet regs 5))].

(** mount_setattr.bpf.c *)
Definition mount_setattr_e : program := λ k regs id, mk_body id LINX_SYSCALL_TYPE_ENTER (-1) [].
Definition mount_setattr_x : program := λ k regs ret, mk_body (get_syscall_id regs) LINX_SYSCALL_TYPE_EXIT ret
  [store_s32 (int32 (get_pt_regs_argumnet regs 0));
   store_charpointer (uint64 (get_pt_regs_argumnet regs 1)) LINX_CHARBUF_MAX_SIZE USER;
   store_u32 (uint32 (get_pt_regs_argumnet regs 2));
   store_u64 (uint64 (get_pt_regs_argumnet regs 3));
   store_u64 (uint64 (get_pt_regs_argumnet regs 4))].

(** quotactl_fd.bpf.c *)
Definition quotactl_fd_e : program := λ k regs id, mk_body id LINX_SYSCALL_TYPE_ENTER (-1) [].
Definition quotactl_fd_x : program := λ k regs ret, mk_body (get_syscall_id regs) LINX_SYSCALL_TYPE_EXIT ret
  [store_u32 (uint32 (get_pt_regs_argumnet regs 0));
   store_u32 (uint32 (get_pt_regs_argumnet regs 1));
   store_u32 (uint32 (get_pt_regs_argumnet regs 2));
   store_u64 (uint64 (get_pt_regs_argumnet regs 3))].

(** landlock_create_ruleset.bpf.c *)
Definition landlock_create_ruleset_e : program := λ k regs id, mk_body id LINX_SYSCALL_TYPE_ENTER (-1) [].
Definition landlock_create_ruleset_x : program :=
  λ k regs ret, mk_body (get_syscall_id regs) LINX_SYSCALL_TYPE_EXIT ret
  [store_u64 (uint64 (get_pt_regs_argumnet regs 0));
   store_u64 (uint64 (get_pt_regs_argumnet regs 1));
   store_u64 (uint64 (get_pt_regs_argumnet regs 2))].

(** landlock_add_rule.bpf.c *)
Definition landlock_add_rule_e : program := λ k regs id, mk_body id LINX_SYSCALL_TYPE_ENTER (-1) [].
Definition landlock_add_rule_x : program := λ k regs ret, mk_body (get_syscall_id regs) LINX_SYSCALL_TYPE_EXIT ret
  [store_s32 (int32 (get_pt_regs_argumnet regs 0));
   store_u64 (uint64 (get_pt_regs_argumnet regs 1));
   store_u64 (uint64 (get_pt_regs_argumnet regs 2));
   store_u64 (uint64 (get_pt_regs_argumnet regs 3))].

(** landlock_restrict_self.bpf.c *)
Definition landlock_restrict_self_e : program := λ k regs id, mk_body id LINX_SYSCALL_TYPE_ENTER (-1) [].
Definition landlock_restrict_self_x : program :=
  λ k regs ret, mk_body (get_syscall_id regs) LINX_SYSCALL_TYPE_EXIT ret
  [store_s32 (int32 (get_pt_regs_argumnet regs 0));
   store_u64 (uint64 (get_pt_regs_argumnet regs 1))].

(** memfd_secret.bpf.c *)
Definition memfd_secret_e : program := λ k regs id, mk_body id LINX_SYSCALL_TYPE_ENTER (-1) [].
Definition memfd_secret_x : program := λ k regs ret, mk_body (get_syscall_id regs) LINX_SYSCALL_TYPE_EXIT ret
  [store_u32 (uint32 (get_pt_regs_argumnet regs 0))].

(** process_mrelease.bpf.c *)
Definition process_mrelease_e : program := λ k regs id, mk_body id LINX_SYSCALL_TYPE_ENTER (-1) [].
Definition process_mrelease_x : program := λ k regs ret, mk_body (get_syscall_id regs) LINX_SYSCALL_TYPE_EXIT ret
  [store_s32 (int32 (get_pt_regs_argumnet regs 0));
   store_u32 (uint32 (get_pt_regs_argumnet regs 1))].

(** futex_waitv.bpf.c *)
Definition futex_waitv_e : program := λ k regs id, mk_body id LINX_SYSCALL_TYPE_ENTER (-1) [].
Definition futex_waitv_x : program := λ k regs ret, mk_body (get_syscall_id regs) LINX_SYSCALL_TYPE_EXIT ret
  [store_u64 (uint64 (get_pt_regs_argumnet regs 0));
   store_u32 (uint32 (get_pt_regs_argumnet regs 1));
   store_u32 (uint32 (get_pt_regs_argumnet regs 2));
   store_u64 (uint64 (get_pt_regs_argumnet regs 3));
   store_s32 (int32 (get_pt_regs_argumnet regs 4))].

(** set_mempolicy_home_node.bpf.c *)
Definition set_mempolicy_home_node_e : program := λ k regs id, mk_body id LINX_SYSCALL_TYPE_ENTER (-1) [].
Definition set_mempolicy_home_node_x : program :=
  λ k regs ret, mk_body (get_syscall_id regs) LINX_SYSCALL_TYPE_EXIT ret
  [store_u64 (uint64 (get_pt_regs_argumnet regs 0));
   store_u64 (uint64 (get_pt_regs_argumnet regs 1));
   store_u64 (uint64 (get_pt_regs_argumnet regs 2));
   store_u64 (uint64 (get_pt_regs_argumnet regs 3))].

(** cachestat.bpf.c *)
Definition cachestat_e : program := λ k regs id, mk_body id LINX_SYSCALL_TYPE_ENTER (-1) [].
Definition cachestat_x : program := λ k regs ret, mk_body (get_syscall_id regs) LINX_SYSCALL_TYPE_EXIT ret
  [store_u32 (uint32 (get_pt_regs_argumnet regs 0));
   store_u64 (uint64 (get_pt_regs_argumnet regs 1));
   store_u64 (uint64 (get_pt_regs_argumnet regs 2));
   store_u32 (uint32 (get_pt_regs_argumnet regs 3))].

(** fchmodat2.bpf.c *)
Definition fchmodat2_e : program := λ k regs id, mk_body id LINX_SYSCALL_TYPE_ENTER (-1) [].
Definition fchmodat2_x : program := λ k regs ret, mk_body (get_syscall_id regs) LINX_SYSCALL_TYPE_EXIT ret
  [store_s32 (int32 (get_pt_regs_argumnet regs 0));
   store_charpointer (uint64 (get_pt_regs_argumnet regs 1)) LINX_CHARBUF_MAX_SIZE USER;
   store_u16 (uint16 (get_pt_regs_argumnet regs 2));
   store_u32 (uint32 (get_pt_regs_argumnet regs 3))].

(** The object holds a program under its name. *)
Definition collector_programs_2 : list (string * program) := [
  ("query_module_e", query_module_e); ("query_module_x", query_module_x); ("quotactl_e", quotactl_e);
  ("quotactl_x", quotactl_x); ("nfsservctl_e", nfsservctl_e); ("nfsservctl_x", nfsservctl_x);
  ("gettid_e", gettid_e); ("gettid_x", gettid_x); ("readahead_e", readahead_e); ("readahead_x", readahead_x);
  ("setxattr_e", setxattr_e); ("setxattr_x", setxattr_x); ("lsetxattr_e", lsetxattr_e);
  ("lsetxattr_x", lsetxattr_x); ("fsetxattr_e", fsetxattr_e); ("fsetxattr_x", fsetxattr_x);
  ("getxattr_e", getxattr_e); ("getxattr_x", getxattr_x); ("lgetxattr_e", lgetxattr_e);
  ("lgetxattr_x", lgetxattr_x); ("fgetxattr_e", fgetxattr_e); ("fgetxattr_x", fgetxattr_x);
  ("listxattr_e", listxattr_e); ("listxattr_x", listxattr_x); ("llistxattr_e", llistxattr_e);
  ("llistxattr_x", llistxattr_x); ("flistxattr_e", flistxattr_e); ("flistxattr_x", flistxattr_x);
  ("removexattr_e", removexattr_e); ("removexattr_x", removexattr_x); ("lremovexattr_e", lremovexattr_e);
  ("lremovexattr_x", lremovexattr_x); ("fremovexattr_e", fremovexattr_e); ("fremovexattr_x", fremovexattr_x);
  ("tkill_e", tkill_e); ("tkill_x", tkill_x); ("time_e", time_e); ("time_x", time_x); ("futex_e", futex_e);
  ("futex_x", futex_x); ("sched_setaffinity_e", sched_setaffinity_e); ("sched_setaffinity_x", sched_setaffinity_x);
  ("sched_getaffinity_e", sched_getaffinity_e); ("sched_getaffinity_x", sched_getaffinity_x);
  ("set_thread_area_e", set_thread_area_e); ("set_thread_area_x", set_thread_area_x); ("io_setup_e", io_setup_e);
  ("io_setup_x", io_setup_x); ("io_destroy_e", io_destroy_e); ("io_destroy_x", io_destroy_x);
  ("io_getevents_e", io_getevents_e); ("io_getevents_x", io_getevents_x); ("io_submit_e", io_submit_e);
  ("io_submit_x", io_submit_x); ("io_cancel_e", io_cancel_e); ("io_cancel_x", io_cancel_x);
  ("get_thread_area_e", get_thread_area_e); ("get_thread_area_x", get_thread_area_x);
  ("lookup_dcookie_e", lookup_dcookie_e); ("lookup_dcookie_x", lookup_dcookie_x);
  ("epoll_create_e", epoll_create_e); ("epoll_create_x", epoll_create_x);
  ("remap_file_pages_e", remap_file_pages_e); ("remap_file_pages_x", remap_file_pages_x);
  ("getdents64_e", getdents64_e); ("getdents64_x", getdents64_x); ("set_tid_address_e", set_tid_address_e);
  ("set_tid_address_x", set_tid_address_x); ("restart_syscall_e", restart_syscall_e);
  ("restart_syscall_x", restart_syscall_x); ("semtimedop_e", semtimedop_e); ("semtimedop_x", semtimedop_x);
  ("fadvise64_e", fadvise64_e); ("fadvise64_x", fadvise64_x); ("timer_create_e", timer_create_e);
  ("timer_create_x", timer_create_x); ("timer_settime_e", timer_settime_e); ("timer_settime_x", timer_settime_x);
  ("timer_gettime_e", timer_gettime_e); ("timer_gettime_x", timer_gettime_x);
  ("timer_getoverrun_e", timer_getoverrun_e); ("timer_getoverrun_x", timer_getoverrun_x);
  ("timer_delete_e", timer_delete_e); ("timer_delete_x", timer_delete_x); ("clock_settime_e", clock_settime_e);
  ("clock_settime_x", clock_settime_x); ("clock_gettime_e", clock_gettime_e); ("clock_gettime_x", clock_gettime_x);
  ("clock_getres_e", clock_getres_e); ("clock_getres_x", clock_getres_x); ("clock_nanosleep_e", clock_nanosleep_e);
  ("clock_nanosleep_x", clock_nanosleep_x); ("exit_group_e", exit_group_e); ("exit_group_x", exit_group_x);
  ("epoll_wait_e", epoll_wait_e); ("epoll_wait_x", epoll_wait_x); ("epoll_ctl_e", epoll_ctl_e);
  ("epoll_ctl_x", epoll_ctl_x); ("tgkill_e", tgkill_e); ("tgkill_x", tgkill_x); ("utimes_e", utimes_e);
  ("utimes_x", utimes_x); ("mbind_e", mbind_e); ("mbind_x", mbind_x); ("set_mempolicy_e", set_mempolicy_e);
  ("set_mempolicy_x", set_mempolicy_x); ("get_mempolicy_e", get_mempolicy_e); ("get_mempolicy_x", get_mempolicy_x);
  ("mq_open_e", mq_open_e); ("mq_open_x", mq_open_x); ("mq_unlink_e", mq_unlink_e); ("mq_unlink_x", mq_unlink_x);
  ("mq_timedsend_e", mq_timedsend_e); ("mq_timedsend_x", mq_timedsend_x); ("mq_timedreceive_e", mq_timedreceive_e);
  ("mq_timedreceive_x", mq_timedreceive_x); ("mq_notify_e", mq_notify_e); ("mq_notify_x", mq_notify_x);
  ("mq_getsetattr_e", mq_getsetattr_e); ("mq_getsetattr_x", mq_getsetattr_x); ("kexec_load_e", kexec_load_e);
  ("kexec_load_x", kexec_load_x); ("waitid_e", waitid_e); ("waitid_x", waitid_x); ("add_key_e", add_key_e);
  ("add_key_x", add_key_x); ("request_key_e", request_key_e); ("request_key_x", request_key_x);
  ("keyctl_e", keyctl_e); ("keyctl_x", keyctl_x); ("ioprio_set_e", ioprio_set_e); ("ioprio_set_x", ioprio_set_x);
  ("ioprio_get_e", ioprio_get_e); ("ioprio_get_x", ioprio_get_x); ("inotify_init_e", inotify_init_e);
  ("inotify_init_x", inotify_init_x); ("inotify_add_watch_e", inotify_add_watch_e);
  ("inotify_add_watch_x", inotify_add_watch_x); ("inotify_rm_watch_e", inotify_rm_watch_e);
  ("inotify_rm_watch_x", inotify_rm_watch_x); ("migrate_pages_e", migrate_pages_e);
  ("migrate_pages_x", migrate_pages_x); ("openat_e", openat_e); ("openat_x", openat_x); ("mkdirat_e", mkdirat_e);
  ("mkdirat_x", mkdirat_x); ("mknodat_e", mknodat_e); ("mknodat_x", mknodat_x); ("fchownat_e", fchownat_e);
  ("fchownat_x", fchownat_x); ("futimesat_e", futimesat_e); ("futimesat_x", futimesat_x);
  ("newfstatat_e", newfstatat_e); ("newfstatat_x", newfstatat_x); ("unlinkat_e", unlinkat_e);
  ("unlinkat_x", unlinkat_x); ("renameat_e", renameat_e); ("renameat_x", renameat_x); ("linkat_e", linkat_e);
  ("linkat_x", linkat_x); ("symlinkat_e", symlinkat_e); ("symlinkat_x", symlinkat_x);
  ("readlinkat_e", readlinkat_e); ("readlinkat_x", readlinkat_x); ("fchmodat_e", fchmodat_e);
  ("fchmodat_x", fchmodat_x); ("faccessat_e", faccessat_e); ("faccessat_x", faccessat_x);
  ("pselect6_e", pselect6_e); ("pselect6_x", pselect6_x); ("ppoll_e", ppoll_e); ("ppoll_x", ppoll_x);
  ("unshare_e", unshare_e); ("unshare_x", unshare_x); ("set_robust_list_e", set_robust_list_e);
  ("set_robust_list_x", set_robust_list_x); ("get_robust_list_e", get_robust_list_e);
  ("get_robust_list_x", get_robust_list_x); ("splice_e", splice_e); ("splice_x", splice_x); ("tee_e", tee_e);
  ("tee_x", tee_x); ("sync_file_range_e", sync_file_range_e); ("sync_file_range_x", sync_file_range_x);
  ("vmsplice_e", vmsplice_e); ("vmsplice_x", vmsplice_x); ("move_pages_e", move_pages_e);
  ("move_pages_x", move_pages_x); ("utimensat_e", utimensat_e); ("utimensat_x", utimensat_x);
  ("epoll_pwait_e", epoll_pwait_e); ("epoll_pwait_x", epoll_pwait_x); ("signalfd_e", signalfd_e);
  ("signalfd_x", signalfd_x); ("timerfd_create_e", timerfd_create_e); ("timerfd_create_x", timerfd_create_x);
  ("eventfd_e", eventfd_e); ("eventfd_x", eventfd_x); ("fallocate_e", fallocate_e); ("fallocate_x", fallocate_x);
  ("timerfd_settime_e", timerfd_settime_e); ("timerfd_settime_x", timerfd_settime_x);
  ("timerfd_gettime_e", timerfd_gettime_e); ("timerfd_gettime_x", timerfd_gettime_x); ("accept4_e", accept4_e);
  ("accept4_x", accept4_x); ("signalfd4_e", signalfd4_e); ("signalfd4_x", signalfd4_x); ("eventfd2_e", eventfd2_e);
  ("eventfd2_x", eventfd2_x); ("epoll_create1_e", epoll_create1_e); ("epoll_create1_x", epoll_create1_x);
  ("dup3_e", dup3_e); ("dup3_x", dup3_x); ("pipe2_e", pipe2_e); ("pipe2_x", pipe2_x);
  ("inotify_init1_e", inotify_init1_e); ("inotify_init1_x", inotify_init1_x); ("preadv_e", preadv_e);
  ("preadv_x", preadv_x); ("pwritev_e", pwritev_e); ("pwritev_x", pwritev_x);
  ("rt_tgsigqueueinfo_e", rt_tgsigqueueinfo_e); ("rt_tgsigqueueinfo_x", rt_tgsigqueueinfo_x);
  ("perf_event_open_e", perf_event_open_e); ("perf_event_open_x", perf_event_open_x); ("recvmmsg_e", recvmmsg_e);
  ("recvmmsg_x", recvmmsg_x); ("fanotify_init_e", fanotify_init_e); ("fanotify_init_x", fanotify_init_x);
  ("fanotify_mark_e", fanotify_mark_e); ("fanotify_mark_x", fanotify_mark_x); ("prlimit64_e", prlimit64_e);
  ("prlimit64_x", prlimit64_x); ("name_to_handle_at_e", name_to_handle_at_e);
  ("name_to_handle_at_x", name_to_handle_at_x); ("open_by_handle_at_e", open_by_handle_at_e);
  ("open_by_handle_at_x", open_by_handle_at_x); ("clock_adjtime_e", clock_adjtime_e);
  ("clock_adjtime_x", clock_adjtime_x); ("syncfs_e", syncfs_e); ("syncfs_x", syncfs_x); ("sendmmsg_e", sendmmsg_e);
  ("sendmmsg_x", sendmmsg_x); ("setns_e", setns_e); ("setns_x", setns_x); ("getcpu_e", getcpu_e);
  ("getcpu_x", getcpu_x); ("process_vm_readv_e", process_vm_readv_e); ("process_vm_readv_x", process_vm_readv_x);
  ("process_vm_writev_e", process_vm_writev_e); ("process_vm_writev_x", process_vm_writev_x); ("kcmp_e", kcmp_e);
  ("kcmp_x", kcmp_x); ("finit_module_e", finit_module_e); ("finit_module_x", finit_module_x);
  ("sched_setattr_e", sched_setattr_e); ("sched_setattr_x", sched_setattr_x); ("sched_getattr_e", sched_getattr_e);
  ("sched_getattr_x", sched_getattr_x); ("renameat2_e", renameat2_e); ("renameat2_x", renameat2_x);
  ("seccomp_e", seccomp_e); ("seccomp_x", seccomp_x); ("getrandom_e", getrandom_e); ("getrandom_x", getrandom_x);
  ("memfd_create_e", memfd_create_e); ("memfd_create_x", memfd_create_x); ("kexec_file_load_e", kexec_file_load_e);
  ("kexec_file_load_x", kexec_file_load_x); ("bpf_e", bpf_e); ("bpf_x", bpf_x); ("execveat_e", execveat_e);
  ("execveat_x", execveat_x); ("userfaultfd_e", userfaultfd_e); ("userfaultfd_x", userfaultfd_x);
  ("membarrier_e", membarrier_e); ("membarrier_x", membarrier_x); ("mlock2_e", mlock2_e); ("mlock2_x", mlock2_x);
  ("copy_file_range_e", copy_file_range_e); ("copy_file_range_x", copy_file_range_x); ("preadv2_e", preadv2_e);
  ("preadv2_x", preadv2_x); ("pwritev2_e", pwritev2_e); ("pwritev2_x", pwritev2_x);
  ("pkey_mprotect_e", pkey_mprotect_e); ("pkey_mprotect_x", pkey_mprotect_x); ("pkey_alloc_e", pkey_alloc_e);
  ("pkey_alloc_x", pkey_alloc_x); ("pkey_free_e", pkey_free_e); ("pkey_free_x", pkey_free_x); ("statx_e", statx_e);
  ("statx_x", statx_x); ("io_pgetevents_e", io_pgetevents_e); ("io_pgetevents_x", io_pgetevents_x);
  ("rseq_e", rseq_e); ("rseq_x", rseq_x); ("pidfd_send_signal_e", pidfd_send_signal_e);
  ("pidfd_send_signal_x", pidfd_send_signal_x); ("io_uring_setup_e", io_uring_setup_e);
  ("io_uring_setup_x", io_uring_setup_x); ("io_uring_enter_e", io_uring_enter_e);
  ("io_uring_enter_x", io_uring_enter_x); ("io_uring_register_e", io_uring_register_e);
  ("io_uring_register_x", io_uring_register_x); ("open_tree_e", open_tree_e); ("open_tree_x", open_tree_x);
  ("move_mount_e", move_mount_e); ("move_mount_x", move_mount_x); ("fsopen_e", fsopen_e); ("fsopen_x", fsopen_x);
  ("fsconfig_e", fsconfig_e); ("fsconfig_x", fsconfig_x); ("fsmount_e", fsmount_e); ("fsmount_x", fsmount_x);
  ("fspick_e", fspick_e); ("fspick_x", fspick_x); ("pidfd_open_e", pidfd_open_e); ("pidfd_open_x", pidfd_open_x);
  ("clone3_e", clone3_e); ("clone3_x", clone3_x); ("close_range_e", close_range_e);
  ("close_range_x", close_range_x); ("openat2_e", openat2_e); ("openat2_x", openat2_x);
  ("pidfd_getfd_e", pidfd_getfd_e); ("pidfd_getfd_x", pidfd_getfd_x); ("faccessat2_e", faccessat2_e);
  ("faccessat2_x", faccessat2_x); ("process_madvise_e", process_madvise_e);
  ("process_madvise_x", process_madvise_x); ("epoll_pwait2_e", epoll_pwait2_e); ("epoll_pwait2_x", epoll_pwait2_x);
  ("mount_setattr_e", mount_setattr_e); ("mount_setattr_x", mount_setattr_x); ("quotactl_fd_e", quotactl_fd_e);
  ("quotactl_fd_x", quotactl_fd_x); ("landlock_create_ruleset_e", landlock_create_ruleset_e);
  ("landlock_create_ruleset_x", landlock_create_ruleset_x); ("landlock_add_rule_e", landlock_add_rule_e);
  ("landlock_add_rule_x", landlock_add_rule_x); ("landlock_restrict_self_e", landlock_restrict_self_e);
  ("landlock_restrict_self_x", landlock_restrict_self_x); ("memfd_secret_e", memfd_secret_e);
  ("memfd_secret_x", memfd_secret_x); ("process_mrelease_e", process_mrelease_e);
  ("process_mrelease_x", process_mrelease_x); ("futex_waitv_e", futex_waitv_e); ("futex_waitv_x", futex_waitv_x);
  ("set_mempolicy_home_node_e", set_mempolicy_home_node_e);
  ("set_mempolicy_home_node_x", set_mempolicy_home_node_x); ("cachestat_e", cachestat_e);
  ("cachestat_x", cachestat_x); ("fchmodat2_e", fchmodat2_e); ("fchmodat2_x", fchmodat2_x)].
