(* ===== verification/PluginFormat.v ===== *)
(** * Printing an event (kernel/ebpf/plugin/linx_event_rich/linx_event_get.c)

    The plugin prints the fields of an event into buffers of a fixed size with
    the macro [LINX_SNPRINTF].  A buffer is a list of bytes; a function is
    given the offset and the size of the part it may write.  The macro counts
    the bytes already written twice: they are subtracted from the size it is
    given and added to what it compares with it, so a line of several pieces
    is refused from about half of the buffer on.

    Messages to the log are left out: the log is open while these functions
    run.  The names of users and groups and the printed local time come from
    the machine and are parameters. *)
From S2P Require Import Prelude CString Memory EventType Bpf SyscallTable CollectorPath CollectorRing.

#[local] Open Scope Z_scope.

(** ** Buffers *)
Definition len (s : string) : Z := Z.of_nat (strlen s).

(** [bs] over the bytes from [off] on. *)
Definition overwrite (buf : list Z) (off : nat) (bs : list Z) : list Z :=
  take off buf ++ bs ++ drop (off + length bs) buf.

Definition write_buf (buf : list Z) (off : Z) (bs : list Z) : outcome (list Z) :=
  if (0 <=? off) && (off + Z.of_nat (length bs) <=? Z.of_nat (length buf))
  then mret (overwrite buf (Z.to_nat off) bs) else Ub HeapOverflow.

(** [snprintf(buf + off, size, ...)] of a text. *)
Definition snprintf (buf : list Z) (off size : Z) (s : string) : outcome (list Z) :=
  if size =? 0 then mret buf else write_buf buf off (cstr_bytes (stake (Z.to_nat (size - 1)) s)).

(** The macro, with its result, the counter and the buffer.  The sizes are
    of type [size_t]. *)
Definition LINX_SNPRINTF (byte_write : Z) (buf : list Z) (off size : Z) (s : string) : outcome (Z * Z * list Z) :=
  buf ← snprintf buf off size s;
  let result := len s in
  if (size <? result) || (wrap 64 (size - 1) <? byte_write + result) then mret (-1, byte_write, buf)
  else mret (result, byte_write + result, buf).

(** A function that prints into a part of a buffer: result and buffer. *)
Definition formatter : Type := list Z → Z → Z → outcome (Z * list Z).

(** One text: [if (LINX_SNPRINTF(byte_write, buf, buf_size, ...) < 0) return -1;
    return byte_write;]. *)
Definition get_text (s : string) : formatter := λ buf off size,
  '(r, bw, buf) ← LINX_SNPRINTF 0 buf off size s; mret (if r <? 0 then -1 else bw, buf).

(** Several pieces, each at [buf + byte_write] with [buf_size - byte_write]
    bytes and a return at the first failure: texts through the macro with the
    counter of the function, and other formatters. *)
Inductive piece :=
  | Text (s : string)
  | Sub (f : formatter).

Fixpoint run_pieces (ps : list piece) (off size bw : Z) (buf : list Z) : outcome (Z * list Z) :=
  match ps with
  | [] => mret (bw, buf)
  | Text s :: ps =>
      '(r, bw', buf) ← LINX_SNPRINTF bw buf (off + bw) (wrap 64 (size - bw)) s;
      if r <? 0 then mret (-1, buf) else run_pieces ps off size bw' buf
  | Sub f :: ps =>
      '(r, buf) ← f buf (off + bw) (wrap 64 (size - bw));
      if r <? 0 then mret (r, buf) else run_pieces ps off size (bw + r) buf
  end.

Definition pieces (ps : list piece) : formatter := λ buf off size, run_pieces ps off size 0 buf.

(** ** The machine *)
Record machine := mk_machine {
  getpwuid : Z → option string;
  getgrgid : Z → option string;
  local_time : Z → string   (* strftime of localtime with "%Y-%m-%d %H:%M:%S" *)
}.

(** [%lu], [%d], [%ld] of a word of 64 or 32 bits. *)
Definition fmt_lu (z : Z) : string := show_int (wrap 64 z).
Definition fmt_ld (z : Z) : string := show_int (sext 64 z).
Definition fmt_d (z : Z) : string := show_int (sext 32 z).

(** [%09lu] *)
Definition pad9 (z : Z) : string := let s := fmt_lu z in String.concat "" (replicate (9 - strlen s) "0") +:+ s.

(** A null pointer for [%s]. *)
Definition fmt_s (s : option string) : outcome string := from_opt NullDeref s.

Section getters.
Context (m : machine).

Definition linx_event_get_fullpath (event : linx_event_t) : formatter := get_text (ev_fullpath event).

(** The length of [strftime] is 0 when the text does not fit. *)
Definition linx_event_get_time (event : linx_event_t) : formatter := λ buf off size,
  let ns := ev_time event in
  let remaining_ns := ns `mod` 1000000000 in
  let s := local_time m (ns / 1000000000) in
  '(l, buf) ← (if len s <? size then buf ← write_buf buf off (cstr_bytes s); mret (len s, buf) else mret (0, buf));
  '(r, bw, buf) ← LINX_SNPRINTF 0 buf (off + l) (wrap 64 (size - l)) ("." +:+ pad9 remaining_ns);
  mret (if r <? 0 then -1 else bw + l, buf).

Definition linx_event_get_syscall (event : linx_event_t) : formatter := λ buf off size,
  row ← g_linx_syscall_table (ev_syscall_id event);
  name ← fmt_s (st_name row);
  get_text (fmt_d (ev_syscall_id event) +:+ "(" +:+ name +:+ ")") buf off size.

Definition linx_event_get_syscall_name (event : linx_event_t) : formatter := λ buf off size,
  row ← g_linx_syscall_table (ev_syscall_id event);
  name ← fmt_s (st_name row);
  get_text name buf off size.

Definition linx_event_get_syscall_id (event : linx_event_t) : formatter := get_text (fmt_d (ev_syscall_id event)).

Definition linx_event_get_res (event : linx_event_t) : formatter := get_text (fmt_ld (ev_res event)).

Definition linx_event_get_comm (event : linx_event_t) : formatter := get_text (ev_comm event).

Definition linx_event_get_cmdline (event : linx_event_t) : formatter := get_text (ev_cmdline event).

Definition linx_event_get_pid (event : linx_event_t) : formatter := get_text (fmt_lu (ev_pid event)).

Definition linx_event_get_tid (event : linx_event_t) : formatter := get_text (fmt_lu (ev_tid event)).

Definition linx_event_get_ppid_id (event : linx_event_t) : formatter := get_text (fmt_lu (ev_ppid event)).

Definition linx_event_get_ppid_name (event : linx_event_t) : formatter := get_text (ev_p_fullpath event).

Definition linx_event_get_ppid (event : linx_event_t) : formatter :=
  pieces [Sub (linx_event_get_ppid_id event); Text "("; Sub (linx_event_get_ppid_name event); Text ")"].

Definition linx_event_get_user_id (event : linx_event_t) : formatter := get_text (fmt_lu (ev_uid event)).

Definition linx_event_get_user (event : linx_event_t) : formatter :=
  match getpwuid m (wrap 32 (ev_uid event)) with
  | None => get_text "unknow"
  | Some pw_name => get_text pw_name
  end.

Definition linx_event_get_user_all (event : linx_event_t) : formatter :=
  pieces [Sub (linx_event_get_user_id event); Text "("; Sub (linx_event_get_user event); Text ")"].

Definition linx_event_get_group_id (event : linx_event_t) : formatter := get_text (fmt_lu (ev_gid event)).

Definition linx_event_get_group (event : linx_event_t) : formatter :=
  match getgrgid m (wrap 32 (ev_gid event)) with
  | None => get_text "unknow"
  | Some gr_name => get_text gr_name
  end.

Definition linx_event_get_group_all (event : linx_event_t) : formatter :=
  pieces [Sub (linx_event_get_group_id event); Text "("; Sub (linx_event_get_group event); Text ")"].

(** ** Descriptors

    [element i] is what is printed of descriptor [i]; [n] of them are left. *)
Fixpoint fds_loop (element : nat → outcome string) (i n : nat) (off size bw : Z) (buf : list Z) : outcome (Z * list Z) :=
  match n with
  | O => mret (bw, buf)
  | S n =>
      s ← element i;
      '(r, buf) ← run_pieces (match n with O => [Text s] | _ => [Text s; Text ", "] end) off size bw buf;
      if r <? 0 then mret (-1, buf) else fds_loop element (S i) n off size r buf
  end.

Definition fd_number (event : linx_event_t) (i : nat) : outcome string :=
  fmt_d <$> from_opt OutOfBounds (ev_fds event !! i).

Definition fd_name (event : linx_event_t) (i : nat) : outcome string := from_opt OutOfBounds (ev_fd_path event !! i).

Definition linx_event_get_fds_id (event : linx_event_t) : formatter := λ buf off size,
  fds_loop (fd_number event) 0 (Z.to_nat (ev_nfds event)) off size 0 buf.

Definition linx_event_get_fds_name (event : linx_event_t) : formatter := λ buf off size,
  fds_loop (fd_name event) 0 (Z.to_nat (ev_nfds event)) off size 0 buf.

Definition linx_event_get_fds (event : linx_event_t) : formatter := λ buf off size,
  fds_loop (λ i, fd ← fd_number event i; path ← fd_name event i; mret (fd +:+ "(" +:+ path +:+ ")"))
    0 (Z.to_nat (ev_nfds event)) off size 0 buf.

Definition linx_event_get_dir (event : linx_event_t) : formatter :=
  if ev_type event =? LINX_SYSCALL_TYPE_ENTER then get_text ">" else get_text "<".
End getters.

(** ** Arguments

    [data] is the position in the bytes of the event.  A parameter is the text
    to print and the position behind it; [str_max_size] is the limit of the
    configuration, cast to [int] for the precision of [%.*s], where a negative
    one counts as none. *)
Section arguments.
Context (mem : memory) (str_max_size : Z).

Definition read_data (data : Z) (n : nat) : outcome Z := from_opt BadAddress (load_le mem data n).

Definition limit_text (s : string) : string :=
  if str_max_size <? len s then
    let prec := sext 32 str_max_size in
    (if prec <? 0 then s else stake (Z.to_nat prec) s) +:+ "..."
  else s.

Definition enter_param_text (ty : linx_type_t) (data : Z) : outcome (string * Z) :=
  let int n f := v ← read_data data n; mret (show_int (f v), data + Z.of_nat n) in
  match ty with
  | LINX_TYPE_NONE => int 8%nat (wrap 64)
  | LINX_TYPE_INT8 => int 1%nat (sext 8)
  | LINX_TYPE_INT16 => int 2%nat (sext 16)
  | LINX_TYPE_INT32 => int 4%nat (sext 32)
  | LINX_TYPE_INT64 => int 8%nat (sext 64)
  | LINX_TYPE_UINT8 => int 1%nat (wrap 8)
  | LINX_TYPE_UINT16 => int 2%nat (wrap 16)
  | LINX_TYPE_UINT32 => int 4%nat (wrap 32)
  | LINX_TYPE_UINT64 => int 8%nat (wrap 64)
  | LINX_TYPE_CHARBUF | LINX_TYPE_BYTEBUF =>
      s ← from_opt BadAddress (load_cstr mem data);
      mret (limit_text s, data + (len s + 1))
  end.

(** Code, counter, position and buffer. *)
Definition get_syscall_enter_params (syscall_id : Z) (idx : nat) (byte_write data : Z) (buf : list Z) (off size : Z)
    : outcome (Z * Z * Z * list Z) :=
  row ← g_linx_syscall_table syscall_id;
  ty ← from_opt OutOfBounds (enter_type row !! idx);
  '(s, data') ← enter_param_text ty data;
  '(r, bw, buf) ← LINX_SNPRINTF byte_write buf (off + byte_write) size s;
  if r <? 0 then mret (-1, byte_write, data, buf) else mret (0, bw, data', buf).

(** Not called. *)
Definition get_syscall_exit_params (syscall_id : Z) (idx : nat) (byte_write data : Z) (buf : list Z) (off size : Z)
    : outcome (Z * Z * Z * list Z) :=
  row ← g_linx_syscall_table syscall_id;
  ty ← from_opt OutOfBounds (exit_type row !! idx);
  match ty with
  | LINX_TYPE_INT64 =>
      v ← read_data data 8;
      '(r, bw, buf) ← LINX_SNPRINTF byte_write buf (off + byte_write) size (fmt_ld v);
      if r <? 0 then mret (-1, byte_write, data, buf) else mret (0, bw, data + 8, buf)
  | _ => mret (-1, byte_write, data, buf)
  end.

(** Parameter [i] on, [n] of them left. *)
Fixpoint params_loop (syscall_id : Z) (row : linx_syscall_table_t) (i n : nat) (off size bw data : Z) (buf : list Z)
    : outcome (Z * list Z) :=
  match n with
  | O => mret (bw, buf)
  | S n =>
      name ← from_opt OutOfBounds (param_name row !! i); name ← fmt_s name;
      '(r, bw, buf) ← LINX_SNPRINTF bw buf (off + bw) (wrap 64 (size - bw)) (name +:+ "=");
      if r <? 0 then mret (-1, buf)
      else
        '(r, bw, data, buf) ← get_syscall_enter_params syscall_id i bw data buf off (wrap 64 (size - bw));
        if negb (r =? 0) then mret (-1, buf)
        else
          '(r, bw, buf) ← LINX_SNPRINTF bw buf (off + bw) (wrap 64 (size - bw)) (match n with O => ")" | _ => ", " end);
          if r <? 0 then mret (-1, buf) else params_loop syscall_id row (S i) n off size bw data buf
  end.

Definition linx_event_get_args (event : linx_event_t) : formatter := λ buf off size,
  '(r, bw, buf) ← LINX_SNPRINTF 0 buf off size "(";
  if r <? 0 then mret (-1, buf)
  else
    row ← g_linx_syscall_table (ev_syscall_id event);
    '(r, buf) ← params_loop (ev_syscall_id event) row 0 (Z.to_nat (enter_num row)) off size bw LINX_EVENT_HEADER_SIZE buf;
    if r <? 0 then mret (-1, buf)
    else buf ← write_buf buf (off + r) [0]; mret (r, buf).
End arguments.

(** ** What a buffer holds *)
Definition codes (s : string) : list Z := code <$> String.list_ascii_of_string s.

Definition body_at (buf : list Z) (off : Z) (s : string) : Prop :=
  ∀ i b, codes s !! i = Some b → buf !! (Z.to_nat off + i)%nat = Some b.

Definition holds (buf : list Z) (off : Z) (s : string) : Prop :=
  body_at buf off s ∧ buf !! (Z.to_nat off + strlen s)%nat = Some 0.

(** Nothing outside of [size] bytes from [off] changes. *)
Definition framed (buf buf' : list Z) (off size : Z) : Prop :=
  length buf' = length buf
  ∧ ∀ i, Z.of_nat i < off ∨ off + size ≤ Z.of_nat i → buf' !! i = buf !! i.

Lemma codes_length s : length (codes s) = strlen s.
Proof. unfold codes. rewrite length_fmap. induction s; cbn; auto. Qed.

Lemma codes_app a b : codes (a +:+ b) = codes a ++ codes b.
Proof. unfold codes. induction a as [|c a IH]; cbn; [done|]. by rewrite IH. Qed.

Lemma cstr_codes s : cstr_bytes s = codes s ++ [0].
Proof. unfold codes. induction s as [|c s IH]; cbn; [done|]. by rewrite IH. Qed.

Lemma len_app a b : len (a +:+ b) = len a + len b.
Proof. unfold len. rewrite strlen_app. lia. Qed.

Lemma len_nonneg s : 0 ≤ len s.
Proof. unfold len. lia. Qed.

Lemma overwrite_lookup buf off bs i :
  (off + length bs ≤ length buf)%nat →
  overwrite buf off bs !! i = if decide (off ≤ i < off + length bs)%nat then bs !! (i - off)%nat else buf !! i.
Proof.
  intros Hl. unfold overwrite. assert (length (take off buf) = off) as Ht by (rewrite length_take; lia).
  destruct (decide _) as [Hi|Hi].
  - rewrite lookup_app_r by lia. rewrite Ht. by rewrite lookup_app_l by lia.
  - destruct (decide (i < off)%nat).
    + rewrite lookup_app_l by lia. by rewrite lookup_take_lt by lia.
    + rewrite lookup_app_r by lia. rewrite lookup_app_r by lia. rewrite lookup_drop, Ht. f_equal. lia.
Qed.

Lemma overwrite_length buf off bs : (off + length bs ≤ length buf)%nat → length (overwrite buf off bs) = length buf.
Proof. intros H. unfold overwrite. rewrite !length_app, length_take, length_drop. lia. Qed.

Lemma framed_refl buf off size : framed buf buf off size.
Proof. done. Qed.

Lemma framed_trans b1 b2 b3 off size : framed b1 b2 off size → framed b2 b3 off size → framed b1 b3 off size.
Proof. intros [H1 H2] [H3 H4]. split; [congruence|]. intros i Hi. by rewrite H4, H2. Qed.

(** A part of a part. *)
Lemma framed_sub b b' off size off' size' :
  off ≤ off' → off' + size' ≤ off + size → framed b b' off' size' → framed b b' off size.
Proof. intros H1 H2 [H3 H4]. split; [done|]. intros i Hi. apply H4. lia. Qed.

Lemma body_framed b b' off off' size' s :
  0 ≤ off → off + len s ≤ off' → framed b b' off' size' → body_at b off s → body_at b' off s.
Proof.
  intros H0 Hl [_ Hf] Hb i c Hi. rewrite Hf; [by apply Hb|]. left.
  apply lookup_lt_Some in Hi. rewrite codes_length in Hi. unfold len in Hl. lia.
Qed.

Lemma holds_app buf off a b : 0 ≤ off → body_at buf off a → holds buf (off + len a) b → holds buf off (a +:+ b).
Proof.
  intros H0 Ha [Hb Hn]. unfold len in *. split.
  - intros i c. rewrite codes_app. destruct (decide (i < strlen a)%nat).
    + rewrite lookup_app_l by (rewrite codes_length; lia). apply Ha.
    + rewrite lookup_app_r by (rewrite codes_length; lia). rewrite codes_length. intros Hc. apply Hb in Hc.
      rewrite <- Hc. f_equal. lia.
  - rewrite strlen_app, <- Hn. f_equal. lia.
Qed.

(** [snprintf] stays in its part and prints what fits. *)
Lemma snprintf_spec buf off size s :
  0 ≤ off → 0 < size → off + size ≤ Z.of_nat (length buf) →
  ∃ buf', snprintf buf off size s = Ret [] buf' ∧ framed buf buf' off size
    ∧ holds buf' off (stake (Z.to_nat (size - 1)) s).
Proof.
  intros H0 Hs Hl. unfold snprintf. rewrite (proj2 (Z.eqb_neq size 0)) by lia.
  set (t := stake _ s).
  assert (length (cstr_bytes t) = S (strlen t)) as Hc by apply cstr_bytes_length.
  assert (strlen t ≤ Z.to_nat (size - 1))%nat as Ht by (subst t; rewrite strlen_stake; lia).
  unfold write_buf. rewrite (proj2 (Z.leb_le 0 off)) by lia.
  rewrite (proj2 (Z.leb_le _ _)) by lia. cbn [andb].
  eexists. split; [reflexivity|]. split; [split|split].
  - apply overwrite_length. lia.
  - intros i Hi. rewrite overwrite_lookup by lia. rewrite decide_False by lia. done.
  - intros i b Hi. pose proof Hi as Hlt. apply lookup_lt_Some in Hlt. rewrite codes_length in Hlt.
    rewrite overwrite_lookup by lia. rewrite decide_True by lia. rewrite cstr_codes.
    rewrite lookup_app_l by (rewrite codes_length; lia). rewrite <- Hi. f_equal. lia.
  - rewrite overwrite_lookup by lia. rewrite decide_True by lia. rewrite cstr_codes.
    rewrite lookup_app_r by (rewrite codes_length; lia). rewrite codes_length.
    replace (_ - _ - _)%nat with 0%nat by lia. done.
Qed.

(** The macro succeeds when the text fits behind the counter a second time. *)
Lemma LINX_SNPRINTF_spec bw buf off size s :
  0 ≤ off → 0 ≤ bw → 0 < size < 2 ^ 64 → off + size ≤ Z.of_nat (length buf) →
  ∃ buf', LINX_SNPRINTF bw buf off size s
      = Ret [] (if bw + len s <? size then (len s, bw + len s, buf') else (-1, bw, buf'))
    ∧ framed buf buf' off size ∧ (bw + len s < size → holds buf' off s).
Proof.
  intros H0 Hb Hs Hl. destruct (snprintf_spec buf off size s) as (buf' & E & Hf & Hh); [lia..|].
  exists buf'. unfold LINX_SNPRINTF. rewrite E, bind_Ret_nil. rewrite wrap_small by lia. pose proof (len_nonneg s).
  split; [|split; [done|]].
  - destruct (Z.ltb_spec (bw + len s) size).
    + rewrite (proj2 (Z.ltb_ge size (len s))) by lia. by rewrite (proj2 (Z.ltb_ge (size - 1) (bw + len s))) by lia.
    + rewrite (proj2 (Z.ltb_lt (size - 1) (bw + len s))) by lia. by rewrite orb_true_r.
  - intros Hlt. replace (stake (Z.to_nat (size - 1)) s) with s in Hh; [done|].
    rewrite <- (stake_sdrop (Z.to_nat (size - 1)) s) at 1. rewrite sdrop_all, sapp_nil_r; [done|]. unfold len in *. lia.
Qed.

(** ** What a formatter prints

    [prints_as f s fit]: in a part of [size] bytes [f] prints [s] and returns
    its length when [fit size], and fails otherwise; either way it writes
    nothing outside of the part. *)
Record prints_as (f : formatter) (s : string) (fit : Z → bool) : Prop := {
  pa_run buf off size :
    0 ≤ off → 0 < size < 2 ^ 63 → off + size ≤ Z.of_nat (length buf) →
    ∃ buf', f buf off size = Ret [] (if fit size then len s else -1, buf')
      ∧ framed buf buf' off size ∧ (fit size = true → holds buf' off s);
  pa_fit size : fit size = true → len s < size
}.

Definition text_fits (s : string) (size : Z) : bool := len s <? size.

Lemma get_text_prints s : prints_as (get_text s) s (text_fits s).
Proof.
  split; [|intros size; apply Z.ltb_lt]. intros buf off size H0 Hs Hl.
  destruct (LINX_SNPRINTF_spec 0 buf off size s) as (buf' & E & Hf & Hh); [lia..|].
  exists buf'. unfold get_text, text_fits. rewrite E. split; [|split; [done|intros H%Z.ltb_lt; by apply Hh]].
  cbn [Z.add]. pose proof (len_nonneg s). change (0 + len s) with (len s). destruct (len s <? size); cbn; [|done].
  by rewrite (proj2 (Z.ltb_ge (len s) 0)) by lia.
Qed.

(** The same where it fits, in a part that starts with a NUL: what the
    functions that leave the buffer alone print, too. *)
Record prints_when (f : formatter) (s : string) (fit : Z → bool) : Prop := {
  pw_run buf off size :
    0 ≤ off → 0 < size < 2 ^ 63 → off + size ≤ Z.of_nat (length buf) → buf !! Z.to_nat off = Some 0 → fit size = true →
    ∃ buf', f buf off size = Ret [] (len s, buf') ∧ framed buf buf' off size ∧ holds buf' off s;
  pw_fit size : fit size = true → len s < size
}.

Lemma prints_as_when f s fit : prints_as f s fit → prints_when f s fit.
Proof.
  intros [Hr Hf]. split; [|done]. intros buf off size H0 Hs Hl _ E.
  destruct (Hr buf off size H0 Hs Hl) as (buf' & Er & Hb & Hh). rewrite E in Er. eauto.
Qed.

(** The text of a piece, and when it fits: with [w] bytes written before, a
    text needs its length and twice [w]. *)
Definition piece_shape : Type := string * option (Z → bool).

Definition piece_ok (p : piece) (x : piece_shape) : Prop :=
  match p, x with
  | Text s, (s', None) => s = s'
  | Sub f, (s, Some fit) => prints_as f s fit
  | _, _ => False
  end.

Fixpoint pieces_fit (l : list piece_shape) (size w : Z) : bool :=
  match l with
  | [] => true
  | (s, None) :: l => (w + len s <? size - w) && pieces_fit l size (w + len s)
  | (s, Some fit) :: l => fit (size - w) && pieces_fit l size (w + len s)
  end.

Definition pieces_text (l : list piece_shape) : string := String.concat "" l.*1.

Lemma concat_cons s l : String.concat "" (s :: l) = s +:+ String.concat "" l.
Proof. destruct l; cbn; [by rewrite sapp_nil_r|done]. Qed.

Lemma pieces_text_cons x l : pieces_text (x :: l) = x.1 +:+ pieces_text l.
Proof. apply concat_cons. Qed.

Lemma pieces_fit_len l size w : 0 ≤ w < size → Forall (λ x, match x with (s, Some fit) => ∀ n, fit n = true → len s < n | _ => True end) l →
  pieces_fit l size w = true → w + len (pieces_text l) < size.
Proof.
  revert w. induction l as [|[s [fit|]] l IH]; intros w Hw Hl; cbn [pieces_fit].
  - intros _. change (len (pieces_text [])) with 0. lia.
  - rewrite andb_true_iff, pieces_text_cons, len_app. intros [Hf Hr]. inversion Hl as [|? ? H1 H2]; subst.
    apply H1 in Hf. pose proof (len_nonneg s). specialize (IH (w + len s) ltac:(lia) H2 Hr). cbn [fst]. lia.
  - rewrite andb_true_iff, pieces_text_cons, len_app, Z.ltb_lt. intros [Hf Hr]. inversion Hl as [|? ? H1 H2]; subst.
    pose proof (len_nonneg s). specialize (IH (w + len s) ltac:(lia) H2 Hr). cbn [fst]. lia.
Qed.

(** The pieces of one function, [s] being what it has printed before. *)
Lemma run_pieces_spec ps l off size s buf :
  Forall2 piece_ok ps l → 0 ≤ off → 0 < size < 2 ^ 63 → off + size ≤ Z.of_nat (length buf) → len s < size →
  body_at buf off s → (ps = [] → holds buf off s) →
  ∃ buf', run_pieces ps off size (len s) buf
      = Ret [] (if pieces_fit l size (len s) then len (s +:+ pieces_text l) else -1, buf')
    ∧ framed buf buf' off size ∧ (pieces_fit l size (len s) = true → holds buf' off (s +:+ pieces_text l)).
Proof.
  intros Hps H0 Hs. revert s buf. induction Hps as [|p [t fit] ps l Hp Hps IH]; intros s buf Hl Hw Hb Hn.
  { exists buf. change (pieces_text []) with "". rewrite sapp_nil_r. split; [done|]. split; [done|]. intros _. by apply Hn. }
  cbn [run_pieces pieces_fit]. pose proof (len_nonneg s) as Hs0. pose proof (len_nonneg t) as Ht0.
  rewrite pieces_text_cons. cbn [fst]. rewrite <- sapp_assoc.
  assert (∀ buf1, framed buf buf1 (off + len s) (size - len s) → holds buf1 (off + len s) t → len s + len t < size →
    ∃ buf', run_pieces ps off size (len s + len t) buf1
      = Ret [] (if pieces_fit l size (len s + len t) then len ((s +:+ t) +:+ pieces_text l) else -1, buf')
    ∧ framed buf buf' off size
    ∧ (pieces_fit l size (len s + len t) = true → holds buf' off ((s +:+ t) +:+ pieces_text l))) as Hnext.
  { intros buf1 Hf1 Hh1 Hlt. rewrite <- len_app in *. pose proof Hf1 as [Hl1 _].
    assert (holds buf1 off (s +:+ t)) as Hh.
    { apply holds_app; [done| |done]. by eapply body_framed; [| |exact Hf1|]; [lia..|]. }
    destruct (IH (s +:+ t) buf1) as (buf' & E & Hf' & Hh'); [lia|done|apply Hh|done|].
    exists buf'. split; [exact E|]. split; [|exact Hh'].
    eapply framed_trans; [|exact Hf']. eapply framed_sub; [| |exact Hf1]; lia. }
  rewrite wrap_small by (change (2 ^ 63) with 9223372036854775808 in *; change (2 ^ 64) with 18446744073709551616; lia).
  destruct p as [t'|f], fit as [fit|]; cbn in Hp; try done; subst.
  - destruct (LINX_SNPRINTF_spec (len s) buf (off + len s) (size - len s) t) as (buf1 & E & Hf1 & Hh1).
    1-4: change (2 ^ 63) with 9223372036854775808 in *; change (2 ^ 64) with 18446744073709551616; lia.
    rewrite E, bind_Ret_nil. destruct (Z.ltb_spec (len s + len t) (size - len s)) as [Hlt|Hlt]; cbn [andb].
    + rewrite (proj2 (Z.ltb_ge (len t) 0)) by lia. apply Hnext; [done|by apply Hh1|lia].
    + exists buf1. split; [done|]. split; [|done]. eapply framed_sub; [| |exact Hf1]; lia.
  - destruct (pa_run _ _ _ Hp buf (off + len s) (size - len s)) as (buf1 & E & Hf1 & Hh1); [lia..|].
    rewrite E, bind_Ret_nil. destruct (fit (size - len s)) eqn:Hfit; cbn [andb].
    + rewrite (proj2 (Z.ltb_ge (len t) 0)) by lia. apply (pa_fit _ _ _ Hp) in Hfit. apply Hnext; [done|by apply Hh1|lia].
    + exists buf1. split; [done|]. split; [|done]. eapply framed_sub; [| |exact Hf1]; lia.
Qed.

Lemma piece_ok_fit ps l : Forall2 piece_ok ps l →
  Forall (λ x : piece_shape, match x with (s, Some fit) => ∀ n, fit n = true → len s < n | _ => True end) l.
Proof.
  induction 1 as [|p [s [fit|]] ps l Hp _ IH]; constructor; try done. destruct p; [done|]. apply (pa_fit _ _ _ Hp).
Qed.

Lemma pieces_prints ps l :
  Forall2 piece_ok ps l → ps ≠ [] → prints_as (pieces ps) (pieces_text l) (λ size, (0 <? size) && pieces_fit l size 0).
Proof.
  intros Hps Hne. split.
  - intros buf off size H0 Hs Hl. unfold pieces.
    destruct (run_pieces_spec ps l off size "" buf) as (buf' & E & Hf & Hh);
      [exact Hps|exact H0|exact Hs|exact Hl|change (len "") with 0; lia|by intros [|]|done|].
    change (len "") with 0 in *. rewrite (proj2 (Z.ltb_lt 0 size)) by lia. cbn [andb].
    exists buf'. rewrite E. done.
  - intros size [Hs Hf]%andb_true_iff. apply Z.ltb_lt in Hs.
    pose proof (pieces_fit_len l size 0 ltac:(lia) (piece_ok_fit _ _ Hps) Hf). lia.
Qed.

Lemma LINX_SNPRINTF_cases bw buf off size s :
  (∃ f, LINX_SNPRINTF bw buf off size s = Ub f) ∨
  (∃ b, LINX_SNPRINTF bw buf off size s = Ret [] (-1, bw, b)) ∨
  (∃ b, LINX_SNPRINTF bw buf off size s = Ret [] (len s, bw + len s, b)).
Proof.
  unfold LINX_SNPRINTF, snprintf, write_buf. destruct (size =? 0).
  - rewrite bind_ret_l. destruct (_ || _); eauto.
  - destruct ((0 <=? off) && _); [|left; by eexists]. rewrite bind_ret_l. destruct (_ || _); eauto.
Qed.

Definition piece_when (p : piece) (x : piece_shape) : Prop :=
  match p, x with
  | Text s, (s', None) => s = s'
  | Sub f, (s, Some fit) => prints_when f s fit
  | _, _ => False
  end.

(** A line that fits, [s] being what has been printed before. *)
Lemma run_pieces_when ps l off size s buf :
  Forall2 piece_when ps l → 0 ≤ off → 0 < size < 2 ^ 63 → off + size ≤ Z.of_nat (length buf) → len s < size →
  holds buf off s → pieces_fit l size (len s) = true →
  ∃ buf', run_pieces ps off size (len s) buf = Ret [] (len (s +:+ pieces_text l), buf')
    ∧ framed buf buf' off size ∧ holds buf' off (s +:+ pieces_text l).
Proof.
  intros Hps H0 Hs. revert s buf. induction Hps as [|p [t fit] ps l Hp Hps IH]; intros s buf Hl Hw Hb Hfit.
  { exists buf. change (pieces_text []) with "". by rewrite sapp_nil_r. }
  cbn [run_pieces pieces_fit] in *. pose proof (len_nonneg s) as Hs0. pose proof (len_nonneg t) as Ht0.
  rewrite pieces_text_cons. cbn [fst]. rewrite <- sapp_assoc.
  assert (∀ buf1, framed buf buf1 (off + len s) (size - len s) → holds buf1 (off + len s) t → len s + len t < size →
    pieces_fit l size (len s + len t) = true →
    ∃ buf', run_pieces ps off size (len s + len t) buf1 = Ret [] (len ((s +:+ t) +:+ pieces_text l), buf')
    ∧ framed buf buf' off size ∧ holds buf' off ((s +:+ t) +:+ pieces_text l)) as Hnext.
  { intros buf1 Hf1 Hh1 Hlt Hfl. rewrite <- len_app in *. pose proof Hf1 as [Hl1 _]. destruct Hb as [Hb Hz].
    assert (holds buf1 off (s +:+ t)) as Hh.
    { apply holds_app; [done| |done]. by eapply body_framed; [| |exact Hf1|]; [lia..|]. }
    destruct (IH (s +:+ t) buf1) as (buf' & E & Hf' & Hh'); [lia|done|done|done|].
    exists buf'. split; [exact E|]. split; [|exact Hh'].
    eapply framed_trans; [|exact Hf']. eapply framed_sub; [| |exact Hf1]; lia. }
  rewrite wrap_small by (change (2 ^ 63) with 9223372036854775808 in *; change (2 ^ 64) with 18446744073709551616; lia).
  destruct p as [t'|f], fit as [fit|]; cbn in Hp; try done; subst; apply andb_true_iff in Hfit as [Hf1 Hf2].
  - apply Z.ltb_lt in Hf1. destruct (LINX_SNPRINTF_spec (len s) buf (off + len s) (size - len s) t) as (buf1 & E & Hfr & Hh1).
    1-4: change (2 ^ 63) with 9223372036854775808 in *; change (2 ^ 64) with 18446744073709551616; lia.
    rewrite E, bind_Ret_nil. rewrite (proj2 (Z.ltb_lt _ _) Hf1), (proj2 (Z.ltb_ge (len t) 0)) by lia.
    apply Hnext; [done|by apply Hh1|lia|done].
  - destruct (pw_run _ _ _ Hp buf (off + len s) (size - len s)) as (buf1 & E & Hfr & Hh1); [lia..| |done|].
    { destruct Hb as [_ Hz]. rewrite <- Hz. f_equal. unfold len. lia. }
    rewrite E, bind_Ret_nil, (proj2 (Z.ltb_ge (len t) 0)) by lia.
    apply (pw_fit _ _ _ Hp) in Hf1. apply Hnext; [done|done|lia|done].
Qed.

(** ** Lists of descriptors *)
Fixpoint sep_pieces (l : list string) : list piece :=
  match l with
  | [] => []
  | s :: l => match l with [] => [Text s] | _ => Text s :: Text ", " :: sep_pieces l end
  end.

Fixpoint sep_shapes (l : list string) : list piece_shape :=
  match l with
  | [] => []
  | s :: l => match l with [] => [(s, None)] | _ => (s, None) :: (", ", None) :: sep_shapes l end
  end.

Lemma sep_pieces_ok l : Forall2 piece_ok (sep_pieces l) (sep_shapes l).
Proof. induction l as [|s [|s' l] IH]; cbn [sep_pieces sep_shapes]; repeat constructor. exact IH. Qed.

Lemma sep_shapes_text l : pieces_text (sep_shapes l) = String.concat ", " l.
Proof.
  induction l as [|s [|s' l] IH]; [done|done|]. cbn [sep_shapes] in *. rewrite !pieces_text_cons. cbn [fst]. by rewrite IH.
Qed.

Lemma fds_loop_pieces element texts i off size bw buf :
  0 ≤ bw → (∀ j s, texts !! j = Some s → element (i + j)%nat = Ret [] s) →
  fds_loop element i (length texts) off size bw buf = run_pieces (sep_pieces texts) off size bw buf.
Proof.
  revert i bw buf. induction texts as [|s texts IH]; intros i bw buf Hbw He; [done|].
  cbn [length fds_loop]. rewrite <- (Nat.add_0_r i) at 1. rewrite (He 0%nat s eq_refl), bind_Ret_nil.
  assert (∀ j s', texts !! j = Some s' → element (S i + j)%nat = Ret [] s') as He'.
  { intros j s' Hj. rewrite <- (He (S j) s' Hj). f_equal. lia. }
  pose proof (len_nonneg s) as Hs. destruct texts as [|s' texts]; cbn [length sep_pieces run_pieces].
  - destruct (LINX_SNPRINTF_cases bw buf (off + bw) (wrap 64 (size - bw)) s) as [[f E]|[[b E]|[b E]]]; rewrite E; [done|done|].
    rewrite !bind_Ret_nil. rewrite (proj2 (Z.ltb_ge (len s) 0)) by lia. rewrite bind_ret_l.
    by rewrite (proj2 (Z.ltb_ge (bw + len s) 0)) by lia.
  - destruct (LINX_SNPRINTF_cases bw buf (off + bw) (wrap 64 (size - bw)) s) as [[f E]|[[b E]|[b E]]]; rewrite E; [done|done|].
    rewrite !bind_Ret_nil. rewrite (proj2 (Z.ltb_ge (len s) 0)) by lia.
    destruct (LINX_SNPRINTF_cases (bw + len s) b (off + (bw + len s)) (wrap 64 (size - (bw + len s))) ", ")
      as [[f E']|[[b' E']|[b' E']]]; rewrite E'; [done|done|].
    rewrite !bind_Ret_nil. change (len ", " <? 0) with false. cbv iota. rewrite bind_ret_l.
    pose proof (len_nonneg ", "). rewrite (proj2 (Z.ltb_ge (bw + len s + len ", ") 0)) by lia.
    change (S (length texts)) with (length (s' :: texts)). by apply IH; [lia|].
Qed.

Lemma fds_prints element texts :
  texts ≠ [] → (∀ j s, texts !! j = Some s → element j = Ret [] s) →
  prints_as (λ buf off size, fds_loop element 0 (length texts) off size 0 buf) (String.concat ", " texts)
    (λ size, (0 <? size) && pieces_fit (sep_shapes texts) size 0).
Proof.
  intros Hne He. rewrite <- sep_shapes_text.
  assert (sep_pieces texts ≠ []) as Hp by (by destruct texts as [|? []]).
  destruct (pieces_prints _ _ (sep_pieces_ok texts) Hp) as [Hrun Hfit]. split; [|exact Hfit].
  intros buf off size H0 Hs Hl. rewrite fds_loop_pieces by done. by apply Hrun.
Qed.

(** ** Lists of arguments

    Name and text of every parameter. *)
Fixpoint args_pieces (l : list (string * string)) : list piece :=
  match l with
  | [] => []
  | (n, t) :: l => Text (n +:+ "=") :: Text t :: Text (match l with [] => ")" | _ => ", " end) :: args_pieces l
  end.

Fixpoint args_shapes (l : list (string * string)) : list piece_shape :=
  match l with
  | [] => []
  | (n, t) :: l => (n +:+ "=", None) :: (t, None) :: (match l with [] => ")" | _ => ", " end, None) :: args_shapes l
  end.

Definition args_text (l : list (string * string)) : string := "(" +:+ pieces_text (args_shapes l).

Lemma args_pieces_ok l : Forall2 piece_ok (args_pieces l) (args_shapes l).
Proof. induction l as [|[n t] l IH]; cbn [args_pieces args_shapes]; repeat constructor. exact IH. Qed.

Section arguments_facts.
Context (mem : memory) (str_max_size : Z).

(** The parameters of a row from [i] on, read from [data] on. *)
Inductive reads (row : linx_syscall_table_t) : nat → Z → list (string * string) → Z → Prop :=
  | reads_nil i data : reads row i data [] data
  | reads_cons i data n ty t data' l data'' :
      param_name row !! i = Some (Some n) → enter_type row !! i = Some ty →
      enter_param_text mem str_max_size ty data = Ret [] (t, data') →
      reads row (S i) data' l data'' → reads row i data ((n, t) :: l) data''.

Lemma params_loop_pieces id row i l off size bw data data' buf :
  g_linx_syscall_table id = Ret [] row → 0 ≤ bw → reads row i data l data' →
  params_loop mem str_max_size id row i (length l) off size bw data buf = run_pieces (args_pieces l) off size bw buf.
Proof.
  intros Hrow Hbw Hr. revert bw buf Hbw. induction Hr as [i data|i data n ty t data1 l data2 Hn Hty Ht Hr IH]; intros bw buf Hbw; [done|].
  cbn [length params_loop args_pieces run_pieces]. rewrite Hn. cbn [from_opt]. rewrite bind_ret_l. unfold fmt_s. cbn [from_opt]. rewrite bind_ret_l.
  pose proof (len_nonneg (n +:+ "=")) as Hn0. pose proof (len_nonneg t) as Ht0.
  destruct (LINX_SNPRINTF_cases bw buf (off + bw) (wrap 64 (size - bw)) (n +:+ "=")) as [[f E]|[[b E]|[b E]]]; rewrite E; [done|done|].
  rewrite !bind_Ret_nil. rewrite (proj2 (Z.ltb_ge (len (n +:+ "=")) 0)) by lia.
  set (bw1 := bw + len (n +:+ "=")) in *. unfold get_syscall_enter_params. rewrite Hrow, !bind_Ret_nil, Hty. cbn [from_opt].
  rewrite bind_ret_l, Ht, bind_Ret_nil.
  destruct (LINX_SNPRINTF_cases bw1 b (off + bw1) (wrap 64 (size - bw1)) t) as [[f E']|[[b' E']|[b' E']]]; rewrite E'; [done|done|].
  rewrite !bind_Ret_nil. rewrite (proj2 (Z.ltb_ge (len t) 0)) by lia. rewrite bind_ret_l. cbn [negb Z.eqb].
  replace (match length l with O => ")" | _ => ", " end) with (match l with [] => ")" | _ => ", " end) by (by destruct l).
  set (sep := match l with [] => ")" | _ => ", " end). pose proof (len_nonneg sep) as Hs0. set (bw2 := bw1 + len t) in *.
  destruct (LINX_SNPRINTF_cases bw2 b' (off + bw2) (wrap 64 (size - bw2)) sep) as [[f E'']|[[b'' E'']|[b'' E'']]]; rewrite E''; [done|done|].
  rewrite !bind_Ret_nil. rewrite (proj2 (Z.ltb_ge (len sep) 0)) by lia. apply IH. lia.
Qed.

(** The arguments of an event: the texts in the bytes behind its header. *)
Lemma get_args_prints event row l data :
  g_linx_syscall_table (ev_syscall_id event) = Ret [] row → Z.to_nat (enter_num row) = length l →
  reads row 0 LINX_EVENT_HEADER_SIZE l data →
  prints_as (linx_event_get_args mem str_max_size event) (args_text l)
    (λ size, (0 <? size) && pieces_fit (("(", None) :: args_shapes l) size 0).
Proof.
  intros Hrow Hn Hr.
  assert (Forall2 piece_ok (Text "(" :: args_pieces l) (("(", None) :: args_shapes l)) as Hok.
  { constructor; [done|]. apply args_pieces_ok. }
  destruct (pieces_prints _ _ Hok ltac:(done)) as [Hrun Hfit].
  assert (pieces_text (("(", None) :: args_shapes l) = args_text l) as Ht by apply pieces_text_cons.
  rewrite Ht in *. split; [|exact Hfit]. intros buf off size H0 Hs Hl.
  destruct (Hrun buf off size H0 Hs Hl) as (buf' & E & Hf & Hh). specialize (Hfit size). cbv beta in *.
  remember ((0 <? size) && pieces_fit _ size 0) as fits eqn:Efits. clear Efits. unfold pieces in E. cbn [run_pieces] in E.
  unfold linx_event_get_args. rewrite Z.add_0_r, Z.sub_0_r, wrap_small in E
    by (change (2 ^ 63) with 9223372036854775808 in *; change (2 ^ 64) with 18446744073709551616; lia).
  destruct (LINX_SNPRINTF_cases 0 buf off size "(") as [[f E']|[[b E']|[b E']]]; rewrite E' in *; rewrite ?bind_Ret_nil in *.
  - done.
  - injection E as E ->. destruct fits; [pose proof (len_nonneg (args_text l)); lia|]. by exists buf'.
  - change (len "(" <? 0) with false in *. cbn [Z.add] in *. rewrite Hrow, bind_Ret_nil, Hn.
    rewrite (params_loop_pieces _ row 0 l _ _ _ _ data) by (done || by cbn).
    rewrite E, bind_Ret_nil. destruct fits; [|by exists buf'].
    pose proof (len_nonneg (args_text l)). rewrite (proj2 (Z.ltb_ge (len (args_text l)) 0)) by lia.
    specialize (Hfit eq_refl). destruct (Hh eq_refl) as [Hb Hz]. destruct Hf as [Hfl Hff]. unfold len in *.
    unfold write_buf. rewrite (proj2 (Z.leb_le 0 _)) by lia. rewrite (proj2 (Z.leb_le _ _)) by (cbn [length]; lia).
    cbn [andb]. rewrite bind_ret_l.
    replace (overwrite buf' (Z.to_nat (off + Z.of_nat (strlen (args_text l)))) [0]) with buf'; [by exists buf'|].
    replace (Z.to_nat (off + _)) with (Z.to_nat off + strlen (args_text l))%nat by lia.
    apply list_eq. intros i. rewrite overwrite_lookup by (cbn [length]; lia). cbn [length].
    destruct (decide _) as [Hi|Hi]; [|done]. replace i with (Z.to_nat off + strlen (args_text l))%nat by lia.
    rewrite Hz. by replace (_ - _)%nat with 0%nat by lia.
Qed.
End arguments_facts.

(** When the arguments of a line fit: [pieces_fit] of its pieces. *)
Definition args_fit (l : list (string * string)) (size : Z) : bool :=
  (0 <? size) && pieces_fit (("(", None) :: args_shapes l) size 0.

(** The last piece needs twice what is before it. *)
Lemma pieces_fit_last l s size w :
  pieces_fit (l ++ [(s, None)]) size w = true → 2 * (w + len (pieces_text l)) + len s < size.
Proof.
  revert w. induction l as [|[t [fit|]] l IH]; intros w; cbn [app pieces_fit].
  - rewrite andb_true_r, Z.ltb_lt. change (len (pieces_text [])) with 0. lia.
  - rewrite andb_true_iff. intros [_ H]. apply IH in H. rewrite pieces_text_cons, len_app. cbn [fst]. lia.
  - rewrite andb_true_iff. intros [_ H]. apply IH in H. rewrite pieces_text_cons, len_app. cbn [fst]. lia.
Qed.

Lemma args_shapes_last l : l ≠ [] → ∃ l', args_shapes l = l' ++ [(")", None)].
Proof.
  induction l as [|[n t] l IH]; [done|]. intros _. destruct l as [|y l].
  - exists [(n +:+ "=", None); (t, None)]. done.
  - destruct (IH ltac:(done)) as [l' E]. exists ((n +:+ "=", None) :: (t, None) :: (", ", None) :: l').
    cbn [args_shapes app] in *. by rewrite E.
Qed.

Lemma args_fit_half l size :
  l ≠ [] → args_fit l size = true → 2 * len (args_text l) ≤ size.
Proof.
  intros Hl Hf. unfold args_fit in Hf. apply andb_true_iff in Hf as [_ Hf].
  destruct (args_shapes_last l Hl) as [l' E]. unfold args_text. rewrite E in *.
  apply (pieces_fit_last (("(", None) :: l')) in Hf.
  assert (pieces_text (l' ++ [(")", None)]) = pieces_text l' +:+ ")") as ->.
  { clear. induction l' as [|x l' IH]; [done|]. cbn [app]. by rewrite !pieces_text_cons, IH, sapp_assoc. }
  rewrite pieces_text_cons in Hf. cbn [fst] in Hf. rewrite !len_app in *. change (len ")") with 1 in *. lia.
Qed.

(** C40: arguments are printed into at most half of their buffer: a line that is
    longer than half of the buffer is refused, although the buffer has room for
    it, since every check adds the bytes already written to those that are left. *)
Theorem arguments_fill_half mem m e row l data buf off size r buf' :
  g_linx_syscall_table (ev_syscall_id e) = Ret [] row → Z.to_nat (enter_num row) = length l → l ≠ [] →
  reads mem m row 0 LINX_EVENT_HEADER_SIZE l data →
  0 ≤ off → 0 < size < 2 ^ 63 → off + size ≤ Z.of_nat (length buf) →
  linx_event_get_args mem m e buf off size = Ret [] (r, buf') →
  r = -1 ∨ r = len (args_text l) ∧ 2 * r ≤ size.
Proof.
  intros Hrow Hn Hl Hr H0 Hs Hb E.
  assert (prints_as (linx_event_get_args mem m e) (args_text l) (args_fit l)) as [Hrun _] by (by eapply get_args_prints).
  destruct (Hrun buf off size H0 Hs Hb) as (b & E' & _). rewrite E in E'.
  destruct (args_fit l size) eqn:Ef; injection E' as -> _; [right|by left].
  split; [done|]. by apply args_fit_half.
Qed.

(** ** What every field prints *)
Create HintDb prints.

Section fields.
Context (m : machine) (e : linx_event_t).

Definition user_text : string := default "unknow" (getpwuid m (wrap 32 (ev_uid e))).
Definition group_text : string := default "unknow" (getgrgid m (wrap 32 (ev_gid e))).
Definition time_text : string := local_time m (ev_time e / 1000000000) +:+ "." +:+ pad9 (ev_time e `mod` 1000000000).
Definition dir_text : string := if ev_type e =? LINX_SYSCALL_TYPE_ENTER then ">" else "<".

(** [number(name)] *)
Definition both (n s : string) : string := n +:+ "(" +:+ s +:+ ")".

Definition both_fits (n s : string) (size : Z) : bool :=
  (0 <? size)
  && pieces_fit [(n, Some (text_fits n)); ("(", None); (s, Some (text_fits s)); (")", None)] size 0.

Lemma both_prints f g n s :
  prints_as f n (text_fits n) → prints_as g s (text_fits s) →
  prints_as (pieces [Sub f; Text "("; Sub g; Text ")"]) (both n s) (both_fits n s).
Proof.
  intros Hf Hg. assert (Forall2 piece_ok [Sub f; Text "("; Sub g; Text ")"]
    [(n, Some (text_fits n)); ("(", None); (s, Some (text_fits s)); (")", None)]) as H
    by (repeat (constructor; [exact Hf || exact Hg || reflexivity|]); constructor).
  pose proof (pieces_prints _ _ H ltac:(done)) as Hp. rewrite !pieces_text_cons in Hp. cbn [fst] in Hp.
  change (pieces_text []) with "" in Hp. rewrite sapp_nil_r in Hp. exact Hp.
Qed.

Lemma get_user_prints : prints_as (linx_event_get_user m e) user_text (text_fits user_text).
Proof. unfold linx_event_get_user, user_text. destruct (getpwuid m _); apply get_text_prints. Qed.

Lemma get_group_prints : prints_as (linx_event_get_group m e) group_text (text_fits group_text).
Proof. unfold linx_event_get_group, group_text. destruct (getgrgid m _); apply get_text_prints. Qed.

Lemma get_dir_prints : prints_as (linx_event_get_dir e) dir_text (text_fits dir_text).
Proof. unfold linx_event_get_dir, dir_text. destruct (_ =? _); apply get_text_prints. Qed.

Lemma get_user_all_prints :
  prints_as (linx_event_get_user_all m e) (both (fmt_lu (ev_uid e)) user_text) (both_fits (fmt_lu (ev_uid e)) user_text).
Proof. apply both_prints; [apply get_text_prints|apply get_user_prints]. Qed.

Lemma get_group_all_prints :
  prints_as (linx_event_get_group_all m e) (both (fmt_lu (ev_gid e)) group_text) (both_fits (fmt_lu (ev_gid e)) group_text).
Proof. apply both_prints; [apply get_text_prints|apply get_group_prints]. Qed.

Lemma get_ppid_prints :
  prints_as (linx_event_get_ppid e) (both (fmt_lu (ev_ppid e)) (ev_p_fullpath e))
    (both_fits (fmt_lu (ev_ppid e)) (ev_p_fullpath e)).
Proof. apply both_prints; apply get_text_prints. Qed.

Section syscall_name.
Context (row : linx_syscall_table_t) (name : string).
Context (Hrow : g_linx_syscall_table (ev_syscall_id e) = Ret [] row) (Hname : st_name row = Some name).

Lemma prints_as_ext f g s fit : (∀ buf off size, f buf off size = g buf off size) → prints_as g s fit → prints_as f s fit.
Proof. intros H [Hr Hf]. split; [|done]. intros. rewrite H. by apply Hr. Qed.

Lemma get_syscall_name_prints : prints_as (linx_event_get_syscall_name e) name (text_fits name).
Proof.
  eapply prints_as_ext; [|apply get_text_prints]. intros. unfold linx_event_get_syscall_name.
  rewrite Hrow, bind_Ret_nil, Hname. unfold fmt_s. cbn [from_opt]. by rewrite bind_ret_l.
Qed.

Lemma get_syscall_prints :
  prints_as (linx_event_get_syscall e) (both (fmt_d (ev_syscall_id e)) name) (text_fits (both (fmt_d (ev_syscall_id e)) name)).
Proof.
  eapply prints_as_ext; [|apply get_text_prints]. intros. unfold linx_event_get_syscall.
  rewrite Hrow, bind_Ret_nil, Hname. unfold fmt_s. cbn [from_opt]. by rewrite bind_ret_l.
Qed.
End syscall_name.

(** [strftime], and the fraction behind it. *)
Lemma get_time_run buf off size :
  0 ≤ off → 0 < size < 2 ^ 63 → off + size ≤ Z.of_nat (length buf) → text_fits time_text size = true →
  ∃ buf', linx_event_get_time m e buf off size = Ret [] (len time_text, buf') ∧ framed buf buf' off size ∧ holds buf' off time_text.
Proof.
  intros H0 Hs Hl Hf%Z.ltb_lt.
  unfold linx_event_get_time, time_text in *. set (s := local_time m _) in *. set (t := "." +:+ pad9 _) in *.
  rewrite len_app in *. pose proof (len_nonneg s) as Hs0. pose proof (len_nonneg t) as Ht0.
  cbv zeta. rewrite (proj2 (Z.ltb_lt (len s) size)) by lia.
  destruct (snprintf_spec buf off size s) as (buf1 & E & Hfr & Hh); [lia..|].
  assert (stake (Z.to_nat (size - 1)) s = s) as Es.
  { rewrite <- (stake_sdrop (Z.to_nat (size - 1)) s) at 2. rewrite sdrop_all, sapp_nil_r; [done|]. unfold len in *. lia. }
  unfold snprintf in E. rewrite (proj2 (Z.eqb_neq size 0)), Es in E by lia. rewrite Es in Hh. rewrite E, bind_Ret_nil, bind_ret_l.
  rewrite wrap_small by (change (2 ^ 63) with 9223372036854775808 in *; change (2 ^ 64) with 18446744073709551616; lia).
  pose proof Hfr as [Hl1 _].
  destruct (LINX_SNPRINTF_spec 0 buf1 (off + len s) (size - len s) t) as (buf2 & E2 & Hfr2 & Hh2).
  1-4: change (2 ^ 63) with 9223372036854775808 in *; change (2 ^ 64) with 18446744073709551616; lia.
  rewrite E2. cbn [Z.add]. rewrite bind_Ret_nil. change (0 + len t) with (len t) in *.
  rewrite (proj2 (Z.ltb_lt _ _)) by lia. rewrite (proj2 (Z.ltb_ge (len t) 0)) by lia.
  exists buf2. split; [by rewrite Z.add_comm|]. split.
  - eapply framed_trans; [exact Hfr|]. eapply framed_sub; [| |exact Hfr2]; lia.
  - apply holds_app; [done| |apply Hh2; lia]. by eapply body_framed; [| |exact Hfr2|apply Hh]; [lia..|].
Qed.

Lemma get_time_prints : prints_when (linx_event_get_time m e) time_text (text_fits time_text).
Proof. split; [|intros size; apply Z.ltb_lt]. intros. by apply get_time_run. Qed.

(** ** Descriptors

    The texts of the descriptors of an event. *)
Definition fd_texts (element : Z → string → string) : list string :=
  zip_with element (take (Z.to_nat (ev_nfds e)) (ev_fds e)) (take (Z.to_nat (ev_nfds e)) (ev_fd_path e)).

Definition fds_fit (texts : list string) (size : Z) : bool := (0 <? size) && pieces_fit (sep_shapes texts) size 0.

Context (Hfds : (Z.to_nat (ev_nfds e) ≤ length (ev_fds e))%nat) (Hpaths : (Z.to_nat (ev_nfds e) ≤ length (ev_fd_path e))%nat).

Lemma fd_texts_length element : length (fd_texts element) = Z.to_nat (ev_nfds e).
Proof. unfold fd_texts. rewrite length_zip_with, !length_take. lia. Qed.

Lemma fd_texts_lookup element j s :
  fd_texts element !! j = Some s →
  ∃ fd path, ev_fds e !! j = Some fd ∧ ev_fd_path e !! j = Some path ∧ s = element fd path.
Proof.
  unfold fd_texts. intros (fd & path & -> & H1 & H2)%lookup_zip_with_Some.
  apply lookup_take_Some in H1 as [H1 _]. apply lookup_take_Some in H2 as [H2 _]. eauto.
Qed.

Lemma get_fds_prints :
  ev_nfds e > 0 →
  let texts := fd_texts (λ fd path, both (fmt_d fd) path) in
  prints_as (linx_event_get_fds e) (String.concat ", " texts) (fds_fit texts).
Proof.
  intros Hn texts. unfold linx_event_get_fds. rewrite <- (fd_texts_length (λ fd path, both (fmt_d fd) path)). apply fds_prints.
  - intros E. pose proof (fd_texts_length (λ fd path, both (fmt_d fd) path)) as Hl. fold texts in Hl. rewrite E in Hl. cbn in Hl. lia.
  - intros j s (fd & path & H1 & H2 & ->)%fd_texts_lookup. unfold fd_number, fd_name. rewrite H1, H2. reflexivity.
Qed.

Lemma get_fds_id_prints :
  ev_nfds e > 0 → let texts := fd_texts (λ fd _, fmt_d fd) in
  prints_as (linx_event_get_fds_id e) (String.concat ", " texts) (fds_fit texts).
Proof.
  intros Hn texts. unfold linx_event_get_fds_id. rewrite <- (fd_texts_length (λ fd _, fmt_d fd)). apply fds_prints.
  - intros E. pose proof (fd_texts_length (λ fd _, fmt_d fd)) as Hl. fold texts in Hl. rewrite E in Hl. cbn in Hl. lia.
  - intros j s (fd & path & H1 & H2 & ->)%fd_texts_lookup. unfold fd_number. by rewrite H1.
Qed.

Lemma get_fds_name_prints :
  ev_nfds e > 0 → let texts := fd_texts (λ _ path, path) in
  prints_as (linx_event_get_fds_name e) (String.concat ", " texts) (fds_fit texts).
Proof.
  intros Hn texts. unfold linx_event_get_fds_name. rewrite <- (fd_texts_length (λ _ path, path)). apply fds_prints.
  - intros E. pose proof (fd_texts_length (λ _ path, path)) as Hl. fold texts in Hl. rewrite E in Hl. cbn in Hl. lia.
  - intros j s (fd & path & H1 & H2 & ->)%fd_texts_lookup. unfold fd_name. by rewrite H2.
Qed.

(** Without descriptors nothing is written, not even a NUL. *)
Lemma no_fds_untouched buf off size : ev_nfds e = 0 → linx_event_get_fds e buf off size = Ret [] (0, buf).
Proof. intros E. unfold linx_event_get_fds. by rewrite E. Qed.

Lemma get_fds_when :
  let texts := fd_texts (λ fd path, both (fmt_d fd) path) in
  prints_when (linx_event_get_fds e) (String.concat ", " texts) (fds_fit texts).
Proof.
  intros texts. destruct (decide (ev_nfds e > 0)) as [Hn|Hn]; [by apply prints_as_when, get_fds_prints|].
  assert (texts = []) as ->.
  { apply nil_length_inv. unfold texts. rewrite fd_texts_length. lia. }
  split; [|intros size; unfold fds_fit; rewrite andb_true_r; apply Z.ltb_lt].
  intros buf off size H0 Hs Hl Hz _. exists buf. unfold linx_event_get_fds.
  replace (Z.to_nat (ev_nfds e)) with 0%nat by lia. split; [done|]. split; [done|]. split; [done|].
  cbn. by rewrite Nat.add_0_r.
Qed.
End fields.

#[export] Hint Resolve get_text_prints get_user_prints get_group_prints get_dir_prints get_user_all_prints get_group_all_prints
  get_ppid_prints get_syscall_name_prints get_syscall_prints get_time_prints prints_as_when : prints.

(** ** Example

    The event of close(3): its line has six bytes, a buffer of eleven is too
    small for it and one of twelve is enough. *)
Definition close_event_ex : linx_event_t :=
  mk_event 0 0 0 0 0 0 0 LINX_SYSCALL_TYPE_EXIT 3 0 (replicate 12 0) (replicate 12 "") "" "" "" "" (replicate 6 0).

Definition close_memory_ex : memory := write_bytes ∅ LINX_EVENT_HEADER_SIZE [3; 0; 0; 0].

Lemma arguments_fill_half_ex :
  args_text [("fd", "3")] = "(fd=3)"
  ∧ linx_event_get_args close_memory_ex 100 close_event_ex (replicate 11 1) 0 11
    = Ret [] (-1, [40; 102; 100; 61; 51; 41; 0; 1; 1; 1; 1])
  ∧ linx_event_get_args close_memory_ex 100 close_event_ex (replicate 12 1) 0 12
    = Ret [] (6, [40; 102; 100; 61; 51; 41; 0; 1; 1; 1; 1; 1])
  ∧ 2 * 6 ≤ 12.
Proof.
  split; [reflexivity|]. split; [vm_compute; reflexivity|]. split; [vm_compute; reflexivity|].
  destruct (arguments_fill_half close_memory_ex 100 close_event_ex syscall_close [("fd", "3")] (LINX_EVENT_HEADER_SIZE + 4)
    (replicate 12 1) 0 12 6 [40; 102; 100; 61; 51; 41; 0; 1; 1; 1; 1; 1]) as [H|[_ H]].
  - vm_compute. reflexivity.
  - reflexivity.
  - discriminate.
  - apply (reads_cons _ _ _ 0 _ "fd" LINX_TYPE_UINT32 "3" (LINX_EVENT_HEADER_SIZE + 4)); [reflexivity|reflexivity| |constructor].
    vm_compute. reflexivity.
  - lia.
  - lia.
  - cbn. lia.
  - vm_compute. reflexivity.
  - discriminate.
  - exact H.
Defined.
