(* ===== verification/Collector.v ===== *)
(** * The collector's programs and the table of system calls

    The programs of kernel/ebpf/ebpf/tail_calls and the macro file of the
    table were generated from the kernel's headers by different scripts.  The
    plugin reads what a program stored with the types of the table.  This file
    compares the two, models the two entry programs and the way of an event to
    the plugin, and shows what the plugin prints of the arguments. *)
From S2P Require Import Prelude CString Memory EventType Bpf SyscallTable CollectorPath CollectorRing PluginFormat.
From S2P Require Import CollectorPrograms1 CollectorPrograms2.

#[local] Open Scope Z_scope.

Definition collector_programs : list (string * program) := collector_programs_1 ++ collector_programs_2.

(** [bpf_object__find_program_by_name] *)
Fixpoint find_program (l : list (string * program)) (name : string) : option program :=
  match l with
  | [] => None
  | (n, p) :: l => if streq n name then Some p else find_program l name
  end.

(** ** What the table expects of a program *)

(** The store that leaves an argument as the plugin reads it. *)
Definition stored (ty : linx_type_t) (a : Z) : param :=
  match ty with
  | LINX_TYPE_INT8 => StoreFixed 1 (sext 8 a)
  | LINX_TYPE_INT16 => StoreFixed 2 (sext 16 a)
  | LINX_TYPE_INT32 => store_s32 (int32 a)
  | LINX_TYPE_INT64 => store_s64 (int64 a)
  | LINX_TYPE_UINT8 => StoreFixed 1 (wrap 8 a)
  | LINX_TYPE_UINT16 => store_u16 (uint16 a)
  | LINX_TYPE_UINT32 => store_u32 (uint32 a)
  | LINX_TYPE_UINT64 | LINX_TYPE_NONE => store_u64 (uint64 a)
  | LINX_TYPE_CHARBUF | LINX_TYPE_BYTEBUF => store_charpointer (uint64 a) LINX_CHARBUF_MAX_SIZE USER
  end.

Definition row_types (r : linx_syscall_table_t) : list linx_type_t := take (Z.to_nat (enter_num r)) (enter_type r).

Definition expected_params (r : linx_syscall_table_t) (regs : pt_regs) : list param :=
  imap (λ i ty, stored ty (get_pt_regs_argumnet regs (Z.of_nat i))) (row_types r).

(** The system calls with an argument that is stored otherwise: what a
    pointer to an integer points to, a list of texts taken for a text, an
    unsigned number of 32 bits as 64. *)
Definition stored_otherwise : list string :=
  ["pipe"; "mincore"; "sendfile"; "accept"; "recvfrom"; "getsockname"; "getpeername"; "socketpair"; "getsockopt";
   "clone"; "execve"; "wait4"; "getgroups"; "setgroups"; "getresuid"; "getresgid"; "query_module"; "futex";
   "sched_setaffinity"; "sched_getaffinity"; "set_tid_address"; "mbind"; "set_mempolicy"; "get_mempolicy";
   "mq_timedreceive"; "migrate_pages"; "get_robust_list"; "splice"; "move_pages"; "accept4"; "pipe2";
   "name_to_handle_at"; "getcpu"; "execveat"; "copy_file_range"; "landlock_create_ruleset"; "landlock_add_rule";
   "landlock_restrict_self"].

(** Those where it also takes another number of bytes, so that the following
    arguments are read from the wrong place. *)
Definition stored_at_odds : list string :=
  ["pipe"; "mincore"; "accept"; "recvfrom"; "getsockname"; "getpeername"; "socketpair"; "getsockopt"; "clone";
   "execve"; "wait4"; "getgroups"; "setgroups"; "getresuid"; "getresgid"; "futex"; "set_tid_address"; "get_mempolicy";
   "mq_timedreceive"; "move_pages"; "accept4"; "pipe2"; "name_to_handle_at"; "getcpu"; "execveat";
   "landlock_create_ruleset"; "landlock_add_rule"; "landlock_restrict_self"].

Definition listed (l : list string) (n : string) : bool := existsb (streq n) l.

(** The bytes a parameter takes; [None] for a text. *)
Definition param_width (p : param) : option nat :=
  match p with StoreFixed n _ => Some n | StoreCharpointer _ _ _ => None end.

(** The programs of one row: the entry's sends the header alone, the exit's
    stores the arguments, as the table expects unless the call is listed. *)
Definition row_programs (r : linx_syscall_table_t) (e x : string * program) : Prop :=
  ∃ n, st_name r = Some n ∧ e.1 = n +:+ "_e" ∧ x.1 = n +:+ "_x"
  ∧ (∀ k regs id, e.2 k regs id = mk_body id LINX_SYSCALL_TYPE_ENTER (-1) [])
  ∧ (∀ k regs ret, ∃ ps, x.2 k regs ret = mk_body (get_syscall_id regs) LINX_SYSCALL_TYPE_EXIT ret ps
       ∧ length ps = length (row_types r)
       ∧ (listed stored_otherwise n = false → ps = expected_params r regs)
       ∧ (bool_decide (param_width <$> ps = param_width <$> expected_params r regs) = negb (listed stored_at_odds n))).

Inductive rows_programs : list linx_syscall_table_t → list (string * program) → Prop :=
  | rows_nil : rows_programs [] []
  | rows_cons r rs e x ps : row_programs r e x → rows_programs rs ps → rows_programs (r :: rs) (e :: x :: ps).

Ltac row_tac :=
  eexists; split; [reflexivity|]; split; [reflexivity|]; split; [reflexivity|]; split; [reflexivity|];
  intros k regs ret; eexists; split; [reflexivity|]; split; [reflexivity|];
  split; [first [intros H; vm_compute in H; discriminate H|intros _; reflexivity]|reflexivity].

Lemma rows_programs_all : rows_programs syscall_rows collector_programs.
Proof.
  unfold syscall_rows, collector_programs, collector_programs_1, collector_programs_2. cbn [app].
  repeat (apply rows_cons; [row_tac|]). apply rows_nil.
Qed.

(** ** From the ring to the plugin (linx_ebpf_ringbuf.c)

    The buffer of the plugin is cleared and the bytes that were sent are copied
    to its start. *)
Definition received_byte (rb : linx_ringbuf_t) (a : Z) : Z :=
  if a <? rb_payload_pos rb then default 0 (rb_data rb !! a) else 0.

Definition received_memory (rb : linx_ringbuf_t) : memory :=
  list_to_map ((λ i, (LINX_EVENT_HEADER_SIZE + Z.of_nat i, received_byte rb (LINX_EVENT_HEADER_SIZE + Z.of_nat i)))
    <$> seq 0 (Z.to_nat (LINX_EVENT_MAX_SIZE - LINX_EVENT_HEADER_SIZE))).

(** ** The text of an argument

    What a system call was called with: a number in the width and sign of its
    type, or the text the pointer leads to, if there is one. *)
Definition arg_text (str_max_size : Z) (k : kernel) (ty : linx_type_t) (a : Z) : option string :=
  match ty with
  | LINX_TYPE_INT8 => Some (show_int (sext 8 a))
  | LINX_TYPE_INT16 => Some (show_int (sext 16 a))
  | LINX_TYPE_INT32 => Some (show_int (sext 32 a))
  | LINX_TYPE_INT64 => Some (show_int (sext 64 a))
  | LINX_TYPE_UINT8 => Some (show_int (wrap 8 a))
  | LINX_TYPE_UINT16 => Some (show_int (wrap 16 a))
  | LINX_TYPE_UINT32 => Some (show_int (wrap 32 a))
  | LINX_TYPE_UINT64 | LINX_TYPE_NONE => Some (show_int (wrap 64 a))
  | LINX_TYPE_CHARBUF | LINX_TYPE_BYTEBUF =>
      if wrap 64 a =? 0 then None
      else limit_text str_max_size ∘ text <$> bpf_probe_read_str k USER (wrap 64 a) LINX_CHARBUF_MAX_SIZE
  end.

(** Names and texts of the arguments of a call. *)
Definition describe_from (str_max_size : Z) (k : kernel) (r : linx_syscall_table_t) (regs : pt_regs) (i n : nat)
    : option (list (string * string)) :=
  mapM (λ i, n ← (param_name r !! i) ≫= id; ty ← enter_type r !! i;
    t ← arg_text str_max_size k ty (get_pt_regs_argumnet regs (Z.of_nat i)); Some (n, t)) (seq i n).

Definition describe (str_max_size : Z) (k : kernel) (r : linx_syscall_table_t) (regs : pt_regs)
    : option (list (string * string)) :=
  describe_from str_max_size k r regs 0 (Z.to_nat (enter_num r)).

(** ** Lemmas *)
Lemma row_program r :
  r ∈ syscall_rows → ∃ e x, row_programs r e x ∧ e ∈ collector_programs ∧ x ∈ collector_programs.
Proof.
  intros Hr. pose proof rows_programs_all as H. induction H as [|r' rs e x ps H _ IH]; [by apply not_elem_of_nil in Hr|].
  apply elem_of_cons in Hr as [->|Hr].
  - exists e, x. rewrite !elem_of_cons. auto.
  - destruct (IH Hr) as (e' & x' & H1 & H2 & H3). exists e', x'. rewrite !elem_of_cons. auto 10.
Qed.

Lemma wrap_sext w z : 0 < w → wrap w (sext w z) = wrap w z.
Proof.
  intros Hw. unfold sext. assert (wrap w (wrap w z - 2 ^ w) = wrap w z) as H.
  { unfold wrap. rewrite <- (Z.mul_1_l (2 ^ w)) at 2. rewrite Zminus_mod, Z.mul_1_l, Z_mod_same_full, Z.sub_0_r.
    by rewrite !Zmod_mod. }
  destruct (_ <? _); [unfold wrap; by rewrite Zmod_mod|exact H].
Qed.

(** A stored number read back in its width. *)
Lemma read_data_int mem data n v :
  bytes_at mem data (le_split n v) → read_data mem data n = Ret [] (wrap (8 * Z.of_nat n) v).
Proof.
  intros H. unfold read_data. rewrite (load_le_bytes _ _ _ _ H). cbn. unfold wrap.
  rewrite Z.pow_mul_r by lia. done.
Qed.

(** A text that was read ends with its only NUL. *)
Lemma read_text k m a lim bs :
  kernel_ok k → bpf_probe_read_str k m a lim = Some bs →
  ∃ s, (match bs with [] => [0] | _ => bs end) = s ++ [0] ∧ text bs = text s
    ∧ Forall (λ b, b ≠ 0) s ∧ Forall (λ b, 0 ≤ b < 256) s.
Proof.
  intros Hk E. destruct bs as [|b bs]; [by exists []|].
  destruct (ko_str_nul k Hk _ _ _ _ E ltac:(done)) as (s & Es & Hs). exists s. split; [done|].
  pose proof (ko_str_bytes k Hk _ _ _ _ E) as Hr. rewrite Es in *. apply Forall_app in Hr as [Hr _].
  split; [|done]. clear -Hs. induction Hs as [|c s Hc _ IH]; cbn; [done|]. apply Z.eqb_neq in Hc. by rewrite Hc, IH.
Qed.

Lemma stored_reads mem m k ty a t data :
  kernel_ok k → bytes_at mem data (param_bytes k (stored ty a)) → arg_text m k ty a = Some t →
  enter_param_text mem m ty data = Ret [] (t, data + Z.of_nat (length (param_bytes k (stored ty a)))).
Proof.
  intros Hk Hb Ht.
  assert (∀ n w f v, wrap w (f v) = wrap w v → w = 8 * Z.of_nat n → bytes_at mem data (le_split n (f v)) →
    read_data mem data n = Ret [] (wrap w v)) as Hint.
  { intros n w f v Hf -> Hv. rewrite (read_data_int _ _ _ _ Hv). by rewrite Hf. }
  destruct ty; cbn [stored] in *.
  10, 11: cbn [enter_param_text arg_text store_charpointer param_bytes] in *;
    change (uint16 LINX_CHARBUF_MAX_SIZE) with LINX_CHARBUF_MAX_SIZE in *; unfold uint64 in *;
    destruct (wrap 64 a =? 0); [done|];
    destruct (bpf_probe_read_str k USER (wrap 64 a) LINX_CHARBUF_MAX_SIZE) as [bs|] eqn:E; [|done]; cbn in Ht; injection Ht as <-;
    destruct (read_text k _ _ _ _ Hk E) as (s & Es & -> & Hs & Hr);
    rewrite Es in *; destruct (text_bytes s Hs Hr) as [Ec En]; rewrite <- Ec in Hb;
    rewrite (load_cstr_at _ _ _ En Hb); cbn; rewrite <- Ec, cstr_bytes_length; unfold len; repeat f_equal; lia.
  all: cbn [enter_param_text arg_text store_s32 store_u32 store_s64 store_u64 store_u16 param_bytes] in *; rewrite le_split_length;
    injection Ht as <-; unfold int32, int64, uint16, uint32, uint64 in *.
  all: match type of Hb with bytes_at _ _ (le_split ?n (?f ?w ?v)) =>
      rewrite (Hint n w (f w) v ltac:(first [by apply wrap_sext|by unfold wrap; rewrite Zmod_mod]) eq_refl Hb) end.
  all: rewrite bind_Ret_nil; rewrite ?sext_wrap; unfold wrap; rewrite ?Zmod_mod; done.
Qed.

Definition param_at (r : linx_syscall_table_t) (regs : pt_regs) (i : nat) : param :=
  stored (default LINX_TYPE_NONE (enter_type r !! i)) (get_pt_regs_argumnet regs (Z.of_nat i)).

Lemma imap_seq {A B} (d : A) (f : nat → A → B) (l : list A) (i : nat) :
  imap (λ j, f (i + j)%nat) l = (λ j, f j (default d (l !! (j - i)%nat))) <$> seq i (length l).
Proof.
  revert i. induction l as [|x l IH]; intros i; [done|]. cbn [imap length seq fmap list_fmap]. f_equal.
  - by rewrite Nat.add_0_r, Nat.sub_diag.
  - rewrite (imap_ext _ (λ j, f (S i + j)%nat)) by (intros j y _; cbn; f_equal; lia). rewrite IH.
    apply list_fmap_ext. intros j x' Hj. apply lookup_seq in Hj as [-> Hj].
    replace (S i + j - i)%nat with (S j) by lia. by replace (S i + j - S i)%nat with j by lia.
Qed.

Lemma row_bounds r : r ∈ syscall_rows →
  0 ≤ st_id r < LINX_SYSCALL_MAX_IDX ∧ (Z.to_nat (enter_num r) ≤ 6)%nat ∧ length (enter_type r) = 6%nat.
Proof.
  intros Hr. apply syscall_row_ok in Hr. unfold row_ok in Hr. rewrite !andb_true_iff in Hr.
  destruct Hr as [[[[[[[H1 H2] _] _] _] H3] _] _]. apply bool_decide_eq_true in H1, H2, H3. split; [done|]. split; [lia|done].
Qed.

Lemma expected_seq r regs :
  r ∈ syscall_rows → expected_params r regs = param_at r regs <$> seq 0 (Z.to_nat (enter_num r)).
Proof.
  intros Hr. pose proof (row_bounds r Hr) as (_ & Hn & Hl). unfold expected_params.
  etransitivity; [exact (imap_seq LINX_TYPE_NONE (λ i ty, stored ty (get_pt_regs_argumnet regs (Z.of_nat i))) (row_types r) 0)|].
  unfold row_types at 2. rewrite length_take, Hl, Nat.min_l by done.
  apply list_fmap_ext. intros j x Hj. apply lookup_seq in Hj as [-> Hj]. unfold param_at, row_types. cbn [Nat.add].
  rewrite Nat.sub_0_r. by rewrite lookup_take_lt by done.
Qed.

Lemma stored_max ty a : param_max (stored ty a) ≤ 4096.
Proof. by destruct ty. Qed.

Lemma params_max_expected r regs n i : params_max (param_at r regs <$> seq i n) ≤ 4096 * Z.of_nat n.
Proof.
  revert i. induction n as [|n IH]; intros i; [done|]. cbn [seq fmap list_fmap].
  change (params_max (?p :: ?ps)) with (param_max p + params_max ps).
  specialize (IH (S i)). pose proof (stored_max (default LINX_TYPE_NONE (enter_type r !! i)) (get_pt_regs_argumnet regs (Z.of_nat i))).
  unfold param_at at 1. lia.
Qed.

(** The arguments that are described are read back from their bytes. *)
Lemma describe_reads mem m k r regs i n l data :
  kernel_ok k → describe_from m k r regs i n = Some l →
  bytes_at mem data (concat (param_bytes k <$> (param_at r regs <$> seq i n))) →
  length l = n ∧ ∃ data', reads mem m r i data l data'.
Proof.
  intros Hk. revert i l data. induction n as [|n IH]; intros i l data Hd Hb; unfold describe_from in Hd; cbn in Hd.
  - injection Hd as <-. split; [done|]. exists data. constructor.
  - destruct ((param_name r !! i) ≫= id) as [name|] eqn:En; [|done]. cbn in Hd.
    destruct (enter_type r !! i) as [ty|] eqn:Et; [|done]. cbn in Hd.
    destruct (arg_text m k ty _) as [t|] eqn:Ea; [|done]. cbn in Hd.
    destruct (mapM _ (seq (S i) n)) as [l'|] eqn:El; [|done]. cbn in Hd. injection Hd as <-.
    cbn [seq fmap list_fmap concat] in Hb. apply bytes_at_app in Hb as [Hb1 Hb2].
    destruct (IH (S i) l' _ El Hb2) as [Hl [data' Hr]].
    split; [cbn; by rewrite Hl|]. exists data'. unfold param_at in Hb1, Hr. rewrite Et in Hb1, Hr. cbn [default from_option id] in Hb1, Hr.
    econstructor; [|exact Et|by eapply stored_reads|exact Hr].
    destruct (param_name r !! i) as [[?|]|]; cbn in En; congruence.
Qed.

Lemma received_memory_lookup rb a :
  LINX_EVENT_HEADER_SIZE ≤ a < LINX_EVENT_MAX_SIZE → received_memory rb !! a = Some (received_byte rb a).
Proof.
  intros Ha. unfold received_memory. apply elem_of_list_to_map_1.
  - rewrite <- list_fmap_compose. apply NoDup_fmap_2; [|apply NoDup_seq]. intros x y H. cbn in H. lia.
  - apply list_elem_of_fmap. exists (Z.to_nat (a - LINX_EVENT_HEADER_SIZE)). split.
    + rewrite Z2Nat.id by lia. f_equal; [lia|f_equal; lia].
    + apply elem_of_seq. lia.
Qed.
#[global] Opaque received_memory.

Lemma collected_bytes rb a bs :
  LINX_EVENT_HEADER_SIZE ≤ a → a + Z.of_nat (length bs) ≤ rb_payload_pos rb → rb_payload_pos rb ≤ LINX_EVENT_MAX_SIZE →
  bytes_at (rb_data rb) a bs → bytes_at (received_memory rb) a bs.
Proof.
  intros Ha Hp Hm. revert a Ha Hp. induction bs as [|b bs IH]; intros a Ha Hp; cbn [bytes_at length] in *; [done|].
  intros [Hb Hl]. split; [|apply IH; [lia..|done]].
  rewrite received_memory_lookup by lia. unfold received_byte. rewrite (proj2 (Z.ltb_lt a _)) by lia. by rewrite Hb.
Qed.

Lemma collector_names : NoDup collector_programs.*1.
Proof. apply (bool_decide_eq_true_1 (NoDup _)). vm_compute. reflexivity. Qed.

Lemma find_program_in l n p : NoDup l.*1 → (n, p) ∈ l → find_program l n = Some p.
Proof.
  induction l as [|[n' p'] l IH]; cbn; intros Hn Hi; [by apply not_elem_of_nil in Hi|].
  apply NoDup_cons in Hn as [Hn Hl]. apply elem_of_cons in Hi as [[= -> ->]|Hi]; [by rewrite streq_refl|].
  destruct (streq_spec n' n) as [->|]; [|by apply IH]. destruct Hn. by apply list_elem_of_fmap_2' with (x := (n, p)).
Qed.

(** ** What is sent *)

Lemma load_header_fields c id type res e :
  ev_syscall_id (load_header c id type res e) = wrap 32 id ∧ ev_type (load_header c id type res e) = wrap 8 type
  ∧ ev_res (load_header c id type res e) = wrap 64 res.
Proof. unfold load_header. by destruct (linx_get_task_file c e) as [[nfds fds] paths]. Qed.

(** A program whose stores are those of [n] parameters of a row. *)
Lemma run_row_program c p regs arg rb r n b :
  kernel_ok (ck_kernel c) → (n ≤ 6)%nat → p (ck_kernel c) regs arg = b → pb_params b = param_at r regs <$> seq 0 n →
  ∃ rb', run_program p c regs arg rb = Ret [] (rb', if bpf_ringbuf_output (ck_kernel c) then Some rb' else None)
    ∧ ev_syscall_id (rb_event rb') = wrap 32 (pb_syscall_id b) ∧ ev_type (rb_event rb') = wrap 8 (pb_type b)
    ∧ ev_res (rb_event rb') = wrap 64 (pb_res b)
    ∧ rb_payload_pos rb' = LINX_EVENT_HEADER_SIZE
        + Z.of_nat (length (concat (param_bytes (ck_kernel c) <$> (param_at r regs <$> seq 0 n))))
    ∧ rb_payload_pos rb' ≤ LINX_EVENT_MAX_SIZE
    ∧ bytes_at (rb_data rb') LINX_EVENT_HEADER_SIZE (concat (param_bytes (ck_kernel c) <$> (param_at r regs <$> seq 0 n)))
    ∧ ∃ sizes, rb_event rb' = set_params_size sizes (load_header c (pb_syscall_id b) (pb_type b) (pb_res b) (rb_event rb)).
Proof.
  intros Hk Hn Hb Hp. unfold run_program. rewrite Hb, Hp. cbv zeta.
  set (rb0 := linx_ringbuf_load_event _ _ _ _ _). set (ps := param_at r regs <$> seq 0 n).
  pose proof (params_max_expected r regs n 0) as Hm.
  assert (room (params_max ps) rb0) as Hroom.
  { unfold room. subst rb0. cbn [linx_ringbuf_load_event rb_payload_pos rb_index]. fold ps in Hm. csize_lia. }
  assert (length ps = n) as Hlen by (unfold ps; by rewrite length_fmap, length_seq).
  rewrite store_all_put; [|done|done|rewrite Hlen; change (rb_index rb0) with 0; lia].
  rewrite bind_Ret_nil. set (bss := param_bytes (ck_kernel c) <$> ps). exists (put_all bss rb0).
  assert (rb_payload_pos (put_all bss rb0) = LINX_EVENT_HEADER_SIZE + Z.of_nat (length (concat bss))) as Hpos
    by apply put_all_position.
  assert (Z.of_nat (length (concat bss)) ≤ params_max ps) as Hc.
  { unfold bss. clear -Hk. induction ps as [|p ps IH]; [done|]. cbn [fmap list_fmap concat].
    rewrite length_app, Nat2Z.inj_add. change (params_max (p :: ps)) with (param_max p + params_max ps).
    pose proof (stored_bytes_max c Hk p). lia. }
  destruct Hroom as (H1 & H2 & _). change (rb_payload_pos rb0) with LINX_EVENT_HEADER_SIZE in *.
  split.
  { unfold linx_ringbuf_submit_event. rewrite Hpos. rewrite (proj2 (Z.ltb_ge LINX_EVENT_MAX_SIZE _)) by lia. done. }
  destruct (put_all_header bss rb0) as [l El].
  assert (rb_event (put_all bss rb0) = set_params_size l (load_header c (pb_syscall_id b) (pb_type b) (pb_res b) (rb_event rb))) as E
    by exact El.
  rewrite E. destruct (load_header_fields c (pb_syscall_id b) (pb_type b) (pb_res b) (rb_event rb)) as (Hi & Ht & Hr).
  split; [exact Hi|]. split; [exact Ht|]. split; [exact Hr|]. split; [exact Hpos|]. split; [rewrite Hpos; lia|].
  split; [|by exists l]. rewrite put_all_memory. apply write_bytes_at.
Qed.

(** A call of the table that is stored as the table says: its event, and its
    arguments in the bytes the plugin receives. *)
Lemma collected_event r c regs ret rb m l :
  r ∈ syscall_rows → (∀ n, st_name r = Some n → listed stored_otherwise n = false) →
  kernel_ok (ck_kernel c) → get_syscall_id regs = st_id r → describe m (ck_kernel c) r regs = Some l →
  ∃ n x rb' sizes data, st_name r = Some n ∧ (n +:+ "_x", x) ∈ collector_programs
    ∧ run_program x c regs ret rb = Ret [] (rb', if bpf_ringbuf_output (ck_kernel c) then Some rb' else None)
    ∧ rb_event rb' = set_params_size sizes (load_header c (st_id r) LINX_SYSCALL_TYPE_EXIT ret (rb_event rb))
    ∧ rb_payload_pos rb' ≤ LINX_EVENT_MAX_SIZE
    ∧ ev_syscall_id (rb_event rb') = st_id r ∧ g_linx_syscall_table (ev_syscall_id (rb_event rb')) = Ret [] r
    ∧ Z.to_nat (enter_num r) = length l ∧ reads (received_memory rb') m r 0 LINX_EVENT_HEADER_SIZE l data.
Proof.
  intros Hr Hn Hk Hid Hd. destruct (row_bounds r Hr) as (Hb & Hnum & _).
  destruct (row_program r Hr) as (e & x & (n & Hname & _ & Hx & _ & Hprog) & _ & Hin).
  destruct (Hprog (ck_kernel c) regs ret) as (ps & Hbody & _ & Hps & _). rewrite (Hps (Hn n Hname)) in Hbody.
  rewrite expected_seq in Hbody by done.
  destruct (run_row_program c x.2 regs ret rb r _ _ Hk Hnum Hbody eq_refl)
    as (rb' & Hrun & Hi & Ht & Hres & Hpos & Hmax & Hbytes & sizes & He).
  cbn [pb_syscall_id pb_type pb_res] in *. rewrite Hid in *. rewrite wrap_small in Hi
    by (unfold LINX_SYSCALL_MAX_IDX in Hb; change (2 ^ 32) with 4294967296; lia).
  apply collected_bytes in Hbytes; [|lia|rewrite Hpos; lia|done].
  destruct (describe_reads _ m (ck_kernel c) r regs 0 _ l _ Hk Hd Hbytes) as [Hl [data Hreads]].
  exists n, x.2, rb', sizes, data. split; [done|]. split; [by rewrite <- Hx, <- surjective_pairing|].
  split; [done|]. split; [done|]. split; [done|]. split; [done|].
  split; [|by split]. rewrite Hi. unfold g_linx_syscall_table. rewrite (proj2 (Z.leb_le 0 _)) by lia. rewrite (proj2 (Z.ltb_lt _ _)) by lia.
  cbn [andb]. by rewrite syscall_row_in.
Qed.

(** C7: the plugin prints the arguments of a system call as the call was made.
    For every system call of the table, apart from the listed ones, the
    program of its return sends an event with the number of the call; in the
    32 KB the plugin receives, every argument of the declared type is read
    back, and the line is "(name=value, ...)".  It is printed when its pieces
    fit, refused otherwise, and writes nothing outside of its buffer. *)
Theorem collected_arguments_printed r c regs ret rb m l :
  r ∈ syscall_rows → (∀ n, st_name r = Some n → listed stored_otherwise n = false) →
  kernel_ok (ck_kernel c) → get_syscall_id regs = st_id r → describe m (ck_kernel c) r regs = Some l →
  ∃ n x rb', st_name r = Some n ∧ find_program collector_programs (n +:+ "_x") = Some x
    ∧ run_program x c regs ret rb = Ret [] (rb', if bpf_ringbuf_output (ck_kernel c) then Some rb' else None)
    ∧ ev_syscall_id (rb_event rb') = st_id r ∧ ev_type (rb_event rb') = LINX_SYSCALL_TYPE_EXIT
    ∧ ev_res (rb_event rb') = wrap 64 ret
    ∧ prints_as (linx_event_get_args (received_memory rb') m (rb_event rb')) (args_text l) (args_fit l).
Proof.
  intros Hr Hn Hk Hid Hd. destruct (collected_event r c regs ret rb m l Hr Hn Hk Hid Hd)
    as (n & x & rb' & sizes & data & Hname & Hin & Hrun & He & _ & Hi & Hrow & Hnum & Hreads).
  exists n, x, rb'. split; [done|]. split; [exact (find_program_in _ _ _ collector_names Hin)|]. split; [exact Hrun|].
  split; [exact Hi|]. rewrite He.
  destruct (load_header_fields c (st_id r) LINX_SYSCALL_TYPE_EXIT ret (rb_event rb)) as (_ & Ht & Hres).
  split; [exact Ht|]. split; [exact Hres|]. rewrite <- He. by eapply get_args_prints.
Qed.

(** ** What is not printed as it was called *)

Definition zero_text (ty : linx_type_t) : string :=
  match ty with LINX_TYPE_CHARBUF | LINX_TYPE_BYTEBUF => "" | _ => "0" end.

Definition zero_arguments (r : linx_syscall_table_t) : list (string * string) :=
  (λ i, (default "" ((param_name r !! i) ≫= id), zero_text (default LINX_TYPE_NONE (enter_type r !! i))))
    <$> seq 0 (Z.to_nat (enter_num r)).

Lemma le_split_0 n : le_split n 0 = replicate n 0.
Proof.
  induction n as [|n IH]; [done|]. cbn [le_split replicate]. change (0 / 256) with 0. by rewrite IH.
Qed.

Lemma bytes_at_replicate mem a n : (∀ i, a ≤ i < a + Z.of_nat n → mem !! i = Some 0) → bytes_at mem a (replicate n 0).
Proof.
  revert a. induction n as [|n IH]; intros a H; cbn; [done|]. split; [apply H; lia|]. apply IH. intros i Hi. apply H. lia.
Qed.

Lemma zero_reads mem m ty data :
  0 ≤ m → (∀ i, data ≤ i < data + 8 → mem !! i = Some 0) →
  ∃ d, enter_param_text mem m ty data = Ret [] (zero_text ty, d) ∧ data ≤ d ≤ data + 8.
Proof.
  intros Hm Hz.
  assert (∀ n, (n ≤ 8)%nat → read_data mem data n = Ret [] 0) as Hint.
  { intros n Hn. rewrite (read_data_int mem data n 0).
    - unfold wrap. by rewrite Z.mod_0_l by (apply Z.pow_nonzero; lia).
    - rewrite le_split_0. apply bytes_at_replicate. intros i Hi. apply Hz. lia. }
  assert (load_cstr mem data = Some "") as Hs.
  { apply load_cstr_at; [done|]. split; [|done]. apply Hz. lia. }
  destruct ty; cbn [enter_param_text zero_text].
  10, 11: rewrite Hs; cbn [from_opt]; rewrite bind_ret_l; unfold limit_text; change (len "") with 0;
    rewrite (proj2 (Z.ltb_ge m 0)) by lia; eexists; (split; [reflexivity|lia]).
  all: rewrite Hint by lia; rewrite bind_Ret_nil; eexists; (split; [reflexivity|lia]).
Qed.

(** At the entry of a system call its arguments are not collected: the
    event of the entry is the header alone, and the plugin prints every
    argument of it as 0 or as the empty text. *)
Theorem entry_arguments_zero r c regs rb m :
  r ∈ syscall_rows → kernel_ok (ck_kernel c) → 0 ≤ m →
  ∃ n e rb', st_name r = Some n ∧ find_program collector_programs (n +:+ "_e") = Some e
    ∧ run_program e c regs (st_id r) rb = Ret [] (rb', if bpf_ringbuf_output (ck_kernel c) then Some rb' else None)
    ∧ ev_type (rb_event rb') = LINX_SYSCALL_TYPE_ENTER ∧ rb_payload_pos rb' = LINX_EVENT_HEADER_SIZE
    ∧ prints_as (linx_event_get_args (received_memory rb') m (rb_event rb')) (args_text (zero_arguments r))
        (args_fit (zero_arguments r)).
Proof.
  intros Hr Hk Hm. destruct (row_bounds r Hr) as (Hb & Hnum & Hty).
  destruct (row_program r Hr) as (e & x & (n & Hname & He & _ & Hprog & _) & Hin & _).
  destruct (run_row_program c e.2 regs (st_id r) rb r 0 _ Hk ltac:(lia) (Hprog _ _ _) eq_refl)
    as (rb' & Hrun & Hi & Ht & _ & Hpos & _ & _).
  exists n, e.2, rb'. split; [done|]. split.
  { apply find_program_in; [apply collector_names|]. by rewrite <- He, <- surjective_pairing. }
  cbn [pb_syscall_id pb_type seq fmap list_fmap concat length] in *. rewrite Z.add_0_r in Hpos.
  split; [done|]. split; [done|]. split; [done|].
  assert (∀ i, LINX_EVENT_HEADER_SIZE ≤ i < LINX_EVENT_MAX_SIZE → received_memory rb' !! i = Some 0) as Hz.
  { intros i Hi'. rewrite received_memory_lookup by done. unfold received_byte. by rewrite (proj2 (Z.ltb_ge _ _)) by lia. }
  assert (∀ k i data, (i + k ≤ 6)%nat → (i + k ≤ Z.to_nat (enter_num r))%nat → LINX_EVENT_HEADER_SIZE ≤ data →
    data + 8 * Z.of_nat k ≤ LINX_EVENT_MAX_SIZE → ∃ data', reads (received_memory rb') m r i data
      ((λ i, (default "" ((param_name r !! i) ≫= id), zero_text (default LINX_TYPE_NONE (enter_type r !! i)))) <$> seq i k) data') as Hreads.
  { induction k as [|k IH]; intros i data H6 Hk' Hd Hmax; [exists data; constructor|].
    destruct (lookup_lt_is_Some_2 (enter_type r) i ltac:(lia)) as [ty Ety].
    assert (∃ s, param_name r !! i = Some (Some s)) as [s Es].
    { apply syscall_row_ok in Hr. unfold row_ok in Hr. rewrite !andb_true_iff in Hr. destruct Hr as [[_ Hnames] _].
      rewrite forallb_forall in Hnames. specialize (Hnames i ltac:(apply in_seq; lia)).
      apply orb_true_iff in Hnames as [Hs|Hs]; apply bool_decide_eq_true in Hs; [|lia]. destruct Hs as [s Hs].
      destruct (param_name r !! i) as [[s'|]|]; cbn in Hs; try done. by exists s'. }
    destruct (zero_reads (received_memory rb') m ty data Hm) as (d & E & Hd1); [intros j Hj; apply Hz; lia|].
    destruct (IH (S i) d) as [data' Hr']; [lia..|]. exists data'. cbn [seq fmap list_fmap]. rewrite Es, Ety. cbn.
    econstructor; [exact Es|exact Ety|exact E|exact Hr']. }
  destruct (Hreads (Z.to_nat (enter_num r)) 0%nat LINX_EVENT_HEADER_SIZE) as [data' Hrd]; [lia|lia|lia|csize_lia|].
  eapply get_args_prints; [|by unfold zero_arguments; rewrite length_fmap, length_seq|exact Hrd].
  rewrite Hi, wrap_small by (unfold LINX_SYSCALL_MAX_IDX in Hb; change (2 ^ 32) with 4294967296; lia).
  unfold g_linx_syscall_table. rewrite (proj2 (Z.leb_le 0 _)) by lia. rewrite (proj2 (Z.ltb_lt _ _)) by lia.
  cbn [andb]. by rewrite syscall_row_in.
Qed.

Lemma unlinkat_row : g_linx_syscall_table 263 = Ret [] syscall_unlinkat.
Proof. by vm_compute. Qed.

(** A text argument that is a null pointer stores no byte, and the plugin
    takes the bytes of the next argument for it.  The call
    [unlinkat(dfd, NULL, flag)] with a flag that is a multiple of 256 is printed
    with the flag divided by 256: [AT_REMOVEDIR], 512, becomes 2. *)
Theorem null_text_shifts c regs ret rb m dfd flag :
  kernel_ok (ck_kernel c) → get_syscall_id regs = 263 → 0 ≤ m →
  r_args regs = [dfd; 0; 256 * flag] → 0 ≤ flag < 2 ^ 23 →
  ∃ rb', run_program unlinkat_x c regs ret rb = Ret [] (rb', if bpf_ringbuf_output (ck_kernel c) then Some rb' else None)
    ∧ let l := [("dfd", show_int (sext 32 dfd)); ("pathname", ""); ("flag", show_int flag)] in
      prints_as (linx_event_get_args (received_memory rb') m (rb_event rb')) (args_text l) (args_fit l).
Proof.
  intros Hk Hid Hm Hargs Hflag.
  assert (pb_params (unlinkat_x (ck_kernel c) regs ret) = param_at syscall_unlinkat regs <$> seq 0 3) as Hps by reflexivity.
  destruct (run_row_program c unlinkat_x regs ret rb syscall_unlinkat 3 _ Hk ltac:(lia) eq_refl Hps)
    as (rb' & Hrun & Hi & _ & _ & Hpos & Hmax & Hbytes & _).
  exists rb'. split; [done|]. intros l. cbn [pb_syscall_id unlinkat_x] in Hi. rewrite Hid in Hi. change (wrap 32 263) with 263 in Hi.
  assert (concat (param_bytes (ck_kernel c) <$> (param_at syscall_unlinkat regs <$> seq 0 3))
    = le_split 4 (sext 32 dfd) ++ le_split 4 (256 * flag)) as Hcat.
  { assert (param_at syscall_unlinkat regs <$> seq 0 3 = [store_s32 (int32 dfd);
      store_charpointer (uint64 0) LINX_CHARBUF_MAX_SIZE USER; store_s32 (int32 (256 * flag))]) as ->.
    { unfold param_at, get_pt_regs_argumnet. rewrite Hargs. reflexivity. }
    cbn [fmap list_fmap concat]. unfold store_s32, int32. cbn [param_bytes]. rewrite app_nil_r.
    rewrite (sext_small 32 (256 * flag)); [done|lia|]. change (2 ^ 23) with 8388608 in Hflag.
    change (2 ^ (32 - 1)) with 2147483648. lia. }
  rewrite Hcat in *. rewrite length_app, !le_split_length in Hpos. cbn [Nat.add] in Hpos.
  apply collected_bytes in Hbytes; [|lia|rewrite Hpos, length_app, !le_split_length; lia|done].
  apply bytes_at_app in Hbytes as [H1 H2]. rewrite le_split_length in H2. change (Z.of_nat 4) with 4 in H2.
  assert (received_memory rb' !! (LINX_EVENT_HEADER_SIZE + 8) = Some 0) as Hz.
  { rewrite received_memory_lookup by csize_lia. unfold received_byte. by rewrite (proj2 (Z.ltb_ge _ _)) by lia. }
  change (le_split 4 (256 * flag)) with ((256 * flag) `mod` 256 :: le_split 3 (256 * flag / 256)) in H2.
  rewrite (Z.mul_comm 256), Z_mod_mult, Z.div_mul in H2 by lia. destruct H2 as [H2 H3].
  assert (bytes_at (received_memory rb') (LINX_EVENT_HEADER_SIZE + 4 + 1) (le_split 4 flag)) as H4.
  { change (le_split 4 flag) with (le_split 3 flag ++ [(flag / 256 / 256 / 256) `mod` 256]). apply bytes_at_app. split; [done|].
    rewrite le_split_length. split; [|done]. replace (LINX_EVENT_HEADER_SIZE + 4 + 1 + Z.of_nat 3) with (LINX_EVENT_HEADER_SIZE + 8) by lia.
    assert (flag / 256 / 256 / 256 = 0) as ->; [|exact Hz]. change (2 ^ 23) with 8388608 in Hflag.
    rewrite !Z.div_div by lia. apply Z.div_small. lia. }
  apply (get_args_prints _ _ _ syscall_unlinkat l (LINX_EVENT_HEADER_SIZE + 4 + 1 + 4)).
  - rewrite Hi. by rewrite unlinkat_row.
  - done.
  - econstructor; [reflexivity|reflexivity| |econstructor; [reflexivity|reflexivity| |econstructor; [reflexivity|reflexivity| |constructor]]].
    + change ((GET_PARAM_TYPE ∘ fst) _) with LINX_TYPE_INT32. cbn [enter_param_text].
      rewrite (read_data_int _ _ _ _ H1), bind_Ret_nil. change (8 * Z.of_nat 4) with 32. rewrite wrap_sext, sext_wrap by done. reflexivity.
    + change ((GET_PARAM_TYPE ∘ fst) _) with LINX_TYPE_CHARBUF. cbn [enter_param_text].
      change (Z.of_nat 4) with 4. rewrite (load_cstr_at _ _ "" eq_refl (conj H2 I)). cbn [from_opt]. rewrite bind_ret_l. unfold limit_text.
      change (len "") with 0. rewrite (proj2 (Z.ltb_ge m 0)) by lia. reflexivity.
    + change ((GET_PARAM_TYPE ∘ fst) _) with LINX_TYPE_INT32. cbn [enter_param_text].
      change (0 + 1) with 1. rewrite (read_data_int _ _ _ _ H4), bind_Ret_nil. change (8 * Z.of_nat 4) with 32.
      rewrite sext_wrap, sext_small; [reflexivity|done|]. change (2 ^ 23) with 8388608 in Hflag.
      change (2 ^ (32 - 1)) with 2147483648. lia.
Qed.

(** ** Examples

    A kernel in which every text is "A", for a process without files. *)
Definition collector_kernel_ex : kernel :=
  mk_kernel (77 * 2 ^ 32 + 78) (5 * 2 ^ 32 + 6) 10 (replicate 16 65) task_none
    (λ _ _ n, Some (replicate n 65)) (λ _ _ lim, if lim <? 2 then Some [] else Some [65; 0]) (λ _, 0%nat) true 1000.

Definition ckernel_ex : ckernel := mk_ckernel collector_kernel_ex layout_ex 0 0 0 0.

Definition collector_regs_ex (id : Z) (args : list Z) : pt_regs := mk_regs args id.

Definition collector_ringbuf_ex : linx_ringbuf_t :=
  mk_ringbuf (mk_event 0 0 0 0 0 0 0 0 0 0 (replicate 12 0) (replicate 12 "") "" "" "" "" (replicate 6 0)) ∅ 0 0 0.

Lemma collector_kernel_ex_ok : kernel_ok collector_kernel_ex.
Proof.
  split; cbn.
  - intros _ _ n bs [= <-]. by rewrite length_replicate.
  - intros _ _ n bs [= <-]. apply Forall_replicate. lia.
  - intros _ _ lim bs. destruct (Z.ltb_spec lim 2); intros [= <-]; cbn; lia.
  - intros _ _ lim bs. destruct (lim <? 2); intros [= <-]; repeat constructor; lia.
  - intros _ _ lim bs. destruct (lim <? 2); intros [= <-]; [done|]. intros _. exists [65]. split; [done|repeat constructor; lia].
Qed.

Lemma unlinkat_in : syscall_unlinkat ∈ syscall_rows.
Proof. apply list_elem_of_lookup_2 with (i := 255%nat). reflexivity. Qed.

Definition unlinkat_regs_ex : pt_regs := collector_regs_ex 263 [2 ^ 64 - 100; 4096; 512].

(** unlinkat(-100, "A", 512) of the example, when it returns, into 80 bytes. *)
Lemma collected_arguments_printed_ex :
  ∃ x rb' buf, run_program x ckernel_ex unlinkat_regs_ex 0 collector_ringbuf_ex = Ret [] (rb', Some rb')
    ∧ linx_event_get_args (received_memory rb') 100 (rb_event rb') (replicate 80 1) 0 80 = Ret [] (32, buf)
    ∧ holds buf 0 "(dfd=-100, pathname=A, flag=512)".
Proof.
  destruct (collected_arguments_printed syscall_unlinkat ckernel_ex unlinkat_regs_ex 0
    collector_ringbuf_ex 100 [("dfd", "-100"); ("pathname", "A"); ("flag", "512")] unlinkat_in
    ltac:(by intros n [= <-]) collector_kernel_ex_ok eq_refl eq_refl)
    as (n & x & rb' & _ & _ & Hrun & _ & _ & _ & [Hp _]).
  destruct (Hp (replicate 80 1) 0 80 ltac:(done) ltac:(done) ltac:(done)) as (buf & E & _ & Hh).
  exists x, rb', buf. split; [exact Hrun|]. split; [exact E|exact (Hh eq_refl)].
Defined.

(** The same call when it starts. *)
Lemma entry_arguments_zero_ex :
  ∃ e rb' buf, run_program e ckernel_ex unlinkat_regs_ex 263 collector_ringbuf_ex = Ret [] (rb', Some rb')
    ∧ linx_event_get_args (received_memory rb') 100 (rb_event rb') (replicate 80 1) 0 80 = Ret [] (26, buf)
    ∧ holds buf 0 "(dfd=0, pathname=, flag=0)".
Proof.
  destruct (entry_arguments_zero syscall_unlinkat ckernel_ex unlinkat_regs_ex collector_ringbuf_ex 100 unlinkat_in
    collector_kernel_ex_ok ltac:(done)) as (n & e & rb' & _ & _ & Hrun & _ & _ & [Hp _]).
  destruct (Hp (replicate 80 1) 0 80 ltac:(done) ltac:(done) ltac:(done)) as (buf & E & _ & Hh).
  exists e, rb', buf. split; [exact Hrun|]. split; [exact E|exact (Hh eq_refl)].
Defined.

(** unlinkat(-100, NULL, 512): the flag becomes 2. *)
Lemma null_text_shifts_ex :
  ∃ rb' buf, run_program unlinkat_x ckernel_ex (collector_regs_ex 263 [2 ^ 64 - 100; 0; 512]) 0 collector_ringbuf_ex
      = Ret [] (rb', Some rb')
    ∧ linx_event_get_args (received_memory rb') 100 (rb_event rb') (replicate 80 1) 0 80 = Ret [] (29, buf)
    ∧ holds buf 0 "(dfd=-100, pathname=, flag=2)".
Proof.
  destruct (null_text_shifts ckernel_ex (collector_regs_ex 263 [2 ^ 64 - 100; 0; 512]) 0 collector_ringbuf_ex 100
    (2 ^ 64 - 100) 2 collector_kernel_ex_ok eq_refl ltac:(done) eq_refl ltac:(done)) as (rb' & Hrun & [Hp _]).
  destruct (Hp (replicate 80 1) 0 80 ltac:(done) ltac:(done) ltac:(done)) as (buf & E & _ & Hh).
  exists rb', buf. split; [exact Hrun|]. split; [exact E|exact (Hh eq_refl)].
Defined.
