(* ===== verification/PluginLog.v ===== *)
(** * The log of the plugin (kernel/ebpf/plugin/linx_log/linx_log.c)

    One line per message, written at once.  Before [linx_log_init] and after
    [linx_log_close] the level is the lowest and there is no file, so any
    message is printed through a null pointer.  What [vfprintf] makes of a
    format and the clock are inputs. *)
From S2P Require Import Prelude CString.
From Stdlib Require Import Ascii.

#[local] Open Scope Z_scope.

Definition LINX_LOG_DEBUG : Z := 0.
Definition LINX_LOG_INFO : Z := 1.
Definition LINX_LOG_WARNING : Z := 2.
Definition LINX_LOG_ERROR : Z := 3.
Definition LINX_LOG_FATAL : Z := 4.
Definition LINX_LOG_MAX : nat := 5.

Definition linx_log_level_str : list string := ["DEBUG"; "INFO"; "WARNING"; "ERROR"; "FATAL"].

(** [FILE *]: null, [stderr] or an opened file. *)
Inductive log_target :=
  | NoFile
  | Stderr
  | File (name : string).

Record linx_log_t := mk_log { log_level : Z; log_file : log_target }.

(** [g_linx_log] at the start of the program. *)
Definition g_linx_log : linx_log_t := mk_log 0 NoFile.

(** [fopen] with "a" answers whether a file can be opened. *)
Definition linx_log_init (fopen : string → bool) (level : Z) (log_file : option string) : linx_log_t :=
  mk_log level (match log_file with Some name => if fopen name then File name else Stderr | None => Stderr end).

Definition linx_log_close (g : linx_log_t) : linx_log_t := mk_log (log_level g) NoFile.

(** What a message does: nothing, a line in a file, and then perhaps the end of
    the process. *)
Inductive message_effect :=
  | Silent
  | Printed (target : log_target) (line : string) (exits : bool).

(** [%03ld] *)
Definition pad3 (z : Z) : string := let s := show_int z in String.concat "" (replicate (3 - strlen s) "0") +:+ s.

Section message.
Context (g : linx_log_t) (time_buf : string) (usec : Z).

Definition linx_log_message_v (level : Z) (file : string) (line : Z) (text : string) : outcome message_effect :=
  if level <? log_level g then mret Silent
  else
    name ← from_opt OutOfBounds (linx_log_level_str !! Z.to_nat level);
    match log_file g with
    | NoFile => Ub NullDeref
    | target =>
        mret (Printed target
          (time_buf +:+ "." +:+ pad3 (usec / 1000) +:+ " [" +:+ name +:+ "] [" +:+ file +:+ ":" +:+ show_int line +:+ "] "
           +:+ text +:+ String "010"%char "") (level =? LINX_LOG_FATAL))
    end.

Definition linx_log_message (level : Z) (file : string) (line : Z) (text : string) : outcome message_effect :=
  if level <? log_level g then mret Silent else linx_log_message_v level file line text.
End message.

(** A message of one of the macros whose line is left out: whether the program
    goes on.  None of them is fatal. *)
Definition LINX_LOG (g : linx_log_t) (level : Z) : outcome unit :=
  if level <? log_level g then mret () else match log_file g with NoFile => Ub NullDeref | _ => mret () end.

Lemma LINX_LOG_message g time_buf usec level file line text :
  0 ≤ level < LINX_LOG_FATAL →
  LINX_LOG g level = ('e ← linx_log_message g time_buf usec level file line text; mret ()).
Proof.
  intros Hl. unfold LINX_LOG, linx_log_message, linx_log_message_v. destruct (level <? log_level g); [done|].
  destruct (lookup_lt_is_Some_2 linx_log_level_str (Z.to_nat level)) as [name ->]; [unfold LINX_LOG_FATAL in *; cbn; lia|].
  cbn [from_opt]. rewrite bind_ret_l. by destruct (log_file g).
Qed.

(** An initialised log never stops the program. *)
Lemma LINX_LOG_open g level : log_file g ≠ NoFile → LINX_LOG g level = mret ().
Proof. intros H. unfold LINX_LOG. destruct (_ <? _); [done|]. by destruct (log_file g). Qed.

Lemma linx_log_init_open fopen level file : log_file (linx_log_init fopen level file) ≠ NoFile.
Proof. unfold linx_log_init. destruct file as [n|]; [cbn; by destruct (fopen n)|done]. Qed.

Lemma LINX_LOG_closed g : log_level g ≤ LINX_LOG_WARNING → log_file g = NoFile → LINX_LOG g LINX_LOG_WARNING = Ub NullDeref.
Proof. intros Hl E. unfold LINX_LOG. rewrite E. by rewrite (proj2 (Z.ltb_ge _ _)) by lia. Qed.
