(* ===== verification/PluginFile.v ===== *)
(** * The file of events (kernel/ebpf/plugin/linx_event_putfile/linx_event_putfile.c)

    The plugin writes its lines through a mapping of the file.  The mapping is a
    window of 4 MiB that starts at a multiple of its size; the file is made as
    long as the end of the window, and cut to the bytes written when the plugin
    ends.  A line that crosses the end of the window moves the window to the
    place where the line ends, so that its start lies before the window.

    The state is the four variables of the file and the bytes of the file
    behind the descriptor.  Whether the system extends and maps a file is an
    input.  Offsets of a file stay below 2^63 and are not wrapped. *)
From S2P Require Import Prelude CString PluginLog.

#[local] Open Scope Z_scope.

Definition LINX_EVENT_MAP_WINDOW_SIZE : Z := 4 * 1024 * 1024.
Definition LINX_EVENT_PUTLINE_MAX_LEN : Z := 8 * 1024.

(** ** Data *)
Inductive map_pointer :=
  | MapNull
  | MapFailed
  | Mapped (offset size : Z).

Record linx_event_putfile_t := mk_putfile {
  pf_map : map_pointer;
  pf_write_offset : Z;
  pf_map_offset : Z;
  pf_map_size : Z
}.

(** The variables and the open file; [None] when there is none. *)
Record file_world := mk_files { fw_putfile : linx_event_putfile_t; fw_file : option (list Z) }.

Definition g_linx_event_putfile : linx_event_putfile_t := mk_putfile MapNull 0 0 0.

(** [open] answers a descriptor and what is in the file. *)
Record file_host := mk_file_host {
  h_open : string → option (Z * list Z);
  h_ftruncate : Z → bool;
  h_mmap : Z → bool
}.

(** ** The system *)

(** Cut or extended with zeros. *)
Definition resize_to (n : Z) (bs : list Z) : list Z :=
  take (Z.to_nat n) bs ++ replicate (Z.to_nat n - length bs) 0.

Section host.
Context (h : file_host) (log : linx_log_t).

Definition ftruncate (n : Z) (file : option (list Z)) : bool * option (list Z) :=
  match file with
  | Some bs => if h_ftruncate h n then (true, Some (resize_to n bs)) else (false, file)
  | None => (false, None)
  end.

Definition mmap (size offset : Z) (file : option (list Z)) : map_pointer :=
  match file with
  | Some _ => if (0 <? size) && h_mmap h offset then Mapped offset size else MapFailed
  | None => MapFailed
  end.

(** [memcpy(map + pos, buf, n)].  A page behind the end of the file cannot be
    touched, and what is written behind the end in the last page is lost. *)
Definition page_end (n : nat) : Z := (Z.of_nat n + 4095) / 4096 * 4096.

Definition write_map (p : map_pointer) (pos : Z) (buf : list Z) (file : option (list Z)) : outcome (option (list Z)) :=
  match p, file with
  | MapNull, _ => Ub NullDeref
  | MapFailed, _ | _, None => Ub BadAddress
  | Mapped offset size, Some bs =>
      if (0 <=? pos) && (pos + Z.of_nat (length buf) <=? size) then
        if offset + pos + Z.of_nat (length buf) <=? page_end (length bs) then
          let at_ := Z.to_nat (offset + pos) in
          let padded := resize_to (page_end (length bs)) bs in
          mret (Some (take (length bs) (take at_ padded ++ buf ++ drop (at_ + length buf) padded)))
        else Ub BadAddress
      else Ub OutOfBounds
  end.

(** ** Operations *)

(** Code, descriptor and state.  After a failure the descriptor is closed and
    kept. *)
Definition linx_event_open_file (file : string) (w : file_world) : outcome (Z * Z * file_world) :=
  match h_open h file with
  | None => _ ← LINX_LOG log LINX_LOG_ERROR; mret (-1, -1, mk_files (fw_putfile w) None)
  | Some (fd, bs) =>
      let file_size := Z.of_nat (length bs) in
      let map_offset := file_size / LINX_EVENT_MAP_WINDOW_SIZE * LINX_EVENT_MAP_WINDOW_SIZE in
      let s map := mk_putfile map file_size map_offset LINX_EVENT_MAP_WINDOW_SIZE in
      let '(ok, f) := ftruncate (map_offset + LINX_EVENT_MAP_WINDOW_SIZE) (Some bs) in
      if negb ok then
        _ ← LINX_LOG log LINX_LOG_ERROR; mret (-1, fd, mk_files (s (pf_map (fw_putfile w))) None)
      else
        match mmap LINX_EVENT_MAP_WINDOW_SIZE map_offset f with
        | Mapped offset size => mret (0, fd, mk_files (s (Mapped offset size)) f)
        | p => _ ← LINX_LOG log LINX_LOG_ERROR; mret (-1, fd, mk_files (s p) None)
        end
  end.

(** The window moves when the line does not end in it. *)
Definition move_window (n : Z) (w : file_world) : file_world :=
  let s := fw_putfile w in
  let map_offset := (pf_write_offset s + n) / LINX_EVENT_MAP_WINDOW_SIZE * LINX_EVENT_MAP_WINDOW_SIZE in
  let '(_, f) := ftruncate (map_offset + pf_map_size s) (fw_file w) in
  mk_files (mk_putfile (mmap (pf_map_size s) map_offset f) (pf_write_offset s) map_offset (pf_map_size s)) f.

Definition put_bytes (buf : list Z) (w : file_world) : outcome (Z * file_world) :=
  let s := fw_putfile w in
  let n := Z.of_nat (length buf) in
  let window_pos := pf_write_offset s - pf_map_offset s in
  f ← write_map (pf_map s) window_pos buf (fw_file w);
  mret (n, mk_files (mk_putfile (pf_map s) (pf_write_offset s + n) (pf_map_offset s) (pf_map_size s)) f).

Definition linx_event_putfile_write (buf : list Z) (w : file_world) : outcome (Z * file_world) :=
  let s := fw_putfile w in
  let n := Z.of_nat (length buf) in
  let window_end := pf_map_offset s + pf_map_size s in
  if window_end <? pf_write_offset s + n then
    let w := move_window n w in
    match pf_map (fw_putfile w) with
    | MapFailed => _ ← LINX_LOG log LINX_LOG_ERROR; mret (-1, w)
    | _ => put_bytes buf w
    end
  else put_bytes buf w.

(** What is in the file at the end; a system that cannot cut it leaves the
    zeros. *)
Definition linx_event_putfile_clean (w : file_world) : option (list Z) :=
  (ftruncate (pf_write_offset (fw_putfile w)) (fw_file w)).2.

(** The lines of a run. *)
Fixpoint put_lines (lines : list (list Z)) (w : file_world) : outcome file_world :=
  match lines with
  | [] => mret w
  | l :: lines => '(_, w) ← linx_event_putfile_write l w; put_lines lines w
  end.
End host.

(** ** What the file holds *)

(** [n] bytes are in the file: does a line cross the end of a window? *)
Fixpoint crosses (n : Z) (lines : list (list Z)) : bool :=
  match lines with
  | [] => false
  | l :: lines =>
      (LINX_EVENT_MAP_WINDOW_SIZE <? n `mod` LINX_EVENT_MAP_WINDOW_SIZE + Z.of_nat (length l))
      || crosses (n + Z.of_nat (length l)) lines
  end.

Lemma window_size : LINX_EVENT_MAP_WINDOW_SIZE = 4194304. Proof. reflexivity. Qed.
Ltac wsize_lia := rewrite ?window_size in *; lia.

Section facts.
Context (h : file_host) (log : linx_log_t).
Context (Hf : ∀ n, h_ftruncate h n = true) (Hm : ∀ n, h_mmap h n = true).

(** The window of a running plugin, with the bytes written. *)
Record window_ok (w : file_world) (bs : list Z) : Prop := {
  wo_offset : ∃ k, 0 ≤ k ∧ pf_map_offset (fw_putfile w) = k * LINX_EVENT_MAP_WINDOW_SIZE;
  wo_size : pf_map_size (fw_putfile w) = LINX_EVENT_MAP_WINDOW_SIZE;
  wo_map : pf_map (fw_putfile w) = Mapped (pf_map_offset (fw_putfile w)) LINX_EVENT_MAP_WINDOW_SIZE;
  wo_written : pf_write_offset (fw_putfile w) = Z.of_nat (length bs);
  wo_inside : pf_map_offset (fw_putfile w) ≤ Z.of_nat (length bs) ≤ pf_map_offset (fw_putfile w) + LINX_EVENT_MAP_WINDOW_SIZE;
  wo_file : ∃ rest, fw_file w = Some (bs ++ rest)
    ∧ Z.of_nat (length (bs ++ rest)) = pf_map_offset (fw_putfile w) + LINX_EVENT_MAP_WINDOW_SIZE
}.

Lemma resize_to_id bs : resize_to (Z.of_nat (length bs)) bs = bs.
Proof. unfold resize_to. rewrite Nat2Z.id, firstn_all, Nat.sub_diag. apply app_nil_r. Qed.

Lemma resize_to_grow n bs : Z.of_nat (length bs) ≤ n → ∃ rest, resize_to n bs = bs ++ rest ∧ Z.of_nat (length (bs ++ rest)) = n.
Proof.
  intros H. exists (replicate (Z.to_nat n - length bs) 0). unfold resize_to. rewrite take_ge by lia.
  rewrite length_app, length_replicate. split; [done|lia].
Qed.

Lemma resize_to_cut bs rest : resize_to (Z.of_nat (length bs)) (bs ++ rest) = bs.
Proof.
  unfold resize_to. rewrite Nat2Z.id, take_app_length, length_app.
  replace (length bs - _)%nat with 0%nat by lia. apply app_nil_r.
Qed.

Lemma page_end_window k n : Z.of_nat n = k * LINX_EVENT_MAP_WINDOW_SIZE → page_end n = Z.of_nat n.
Proof.
  unfold page_end. intros ->. change LINX_EVENT_MAP_WINDOW_SIZE with (1024 * 4096). rewrite Z.mul_assoc.
  rewrite (Z.add_comm (_ * 4096)), Z.div_add by lia. change (4095 `div` 4096) with 0. lia.
Qed.

Lemma put_bytes_ok w bs l :
  window_ok w bs → Z.of_nat (length bs) + Z.of_nat (length l) ≤ pf_map_offset (fw_putfile w) + LINX_EVENT_MAP_WINDOW_SIZE →
  ∃ w', put_bytes l w = Ret [] (Z.of_nat (length l), w') ∧ window_ok w' (bs ++ l).
Proof.
  intros [(k & Hk & Ho) Hs Hp Hw Hi (rest & Ef & El)] Hl. unfold put_bytes. rewrite Hp, Hw, Ef. unfold write_map.
  set (off := pf_map_offset (fw_putfile w)) in *.
  rewrite (proj2 (Z.leb_le 0 _)), (proj2 (Z.leb_le _ LINX_EVENT_MAP_WINDOW_SIZE)) by lia. cbn [andb].
  assert (page_end (length (bs ++ rest)) = Z.of_nat (length (bs ++ rest))) as Ep by (apply (page_end_window (k + 1)); lia).
  rewrite Ep, resize_to_id, El. rewrite (proj2 (Z.leb_le _ _)) by lia. rewrite bind_ret_l.
  replace (Z.to_nat (off + (Z.of_nat (length bs) - off))) with (length bs) by lia.
  rewrite take_app_length, drop_app_add. rewrite length_app in El.
  assert (length (bs ++ rest) = length (bs ++ l ++ drop (length l) rest)) as Elen.
  { rewrite !length_app, length_drop. lia. }
  rewrite Elen, firstn_all, app_assoc.
  eexists. split; [reflexivity|]. split; cbn; [by exists k|done|done|rewrite length_app; lia|rewrite length_app; lia|].
  exists (drop (length l) rest). split; [done|]. rewrite <- app_assoc, <- Elen, length_app. exact El.
Qed.

Lemma put_bytes_before w l :
  pf_map (fw_putfile w) = Mapped (pf_map_offset (fw_putfile w)) LINX_EVENT_MAP_WINDOW_SIZE →
  pf_write_offset (fw_putfile w) < pf_map_offset (fw_putfile w) → is_Some (fw_file w) →
  put_bytes l w = Ub OutOfBounds.
Proof.
  intros Hp Hw [bs Ef]. unfold put_bytes, write_map. rewrite Hp, Ef. by rewrite (proj2 (Z.leb_gt 0 _)) by lia.
Qed.

Lemma putfile_write_cases w bs l :
  window_ok w bs → 0 < Z.of_nat (length l) ≤ LINX_EVENT_PUTLINE_MAX_LEN →
  if LINX_EVENT_MAP_WINDOW_SIZE <? Z.of_nat (length bs) `mod` LINX_EVENT_MAP_WINDOW_SIZE + Z.of_nat (length l)
  then linx_event_putfile_write h log l w = Ub OutOfBounds
  else ∃ w', linx_event_putfile_write h log l w = Ret [] (Z.of_nat (length l), w') ∧ window_ok w' (bs ++ l).
Proof.
  intros Hok Hl. pose proof Hok as [(k & Hk & Ho) Hs Hp Hw Hi (rest & Ef & El)].
  change LINX_EVENT_PUTLINE_MAX_LEN with 8192 in Hl. unfold linx_event_putfile_write. rewrite Hs, Hw.
  set (off := pf_map_offset (fw_putfile w)) in *. set (n := Z.of_nat (length bs)) in *. set (d := Z.of_nat (length l)) in *.
  destruct (Z.ltb_spec (off + LINX_EVENT_MAP_WINDOW_SIZE) (n + d)) as [Hmove|Hstay].
  - assert ((n + d) / LINX_EVENT_MAP_WINDOW_SIZE = k + 1) as Eq.
    { symmetry. apply (Z.div_unique _ _ _ (n + d - (k + 1) * LINX_EVENT_MAP_WINDOW_SIZE)); wsize_lia. }
    unfold move_window. rewrite Ef, Hw, Hs, Eq. cbn [ftruncate]. rewrite Hf. cbn [mmap]. rewrite Hm.
    change (0 <? LINX_EVENT_MAP_WINDOW_SIZE) with true. cbn [andb fw_putfile pf_map].
    destruct (decide (n = off + LINX_EVENT_MAP_WINDOW_SIZE)) as [En|En].
    + rewrite En, Ho. replace (k * LINX_EVENT_MAP_WINDOW_SIZE + LINX_EVENT_MAP_WINDOW_SIZE)
        with ((k + 1) * LINX_EVENT_MAP_WINDOW_SIZE) by lia.
      rewrite Z_mod_mult. rewrite (proj2 (Z.ltb_ge _ _)) by wsize_lia.
      apply put_bytes_ok; [|cbn; wsize_lia]. split; cbn; [exists (k + 1); split; [lia|done]|done|done|fold n; lia|fold n; wsize_lia|].
      rewrite length_app in El. assert (rest = []) as -> by (apply nil_length_inv; lia). rewrite app_nil_r.
      destruct (resize_to_grow ((k + 1) * LINX_EVENT_MAP_WINDOW_SIZE + LINX_EVENT_MAP_WINDOW_SIZE) bs) as (r & E & Hr); [wsize_lia|].
      exists r. by rewrite E.
    + assert (n `mod` LINX_EVENT_MAP_WINDOW_SIZE = n - off) as ->.
      { symmetry. apply (Z.mod_unique _ _ k); wsize_lia. }
      rewrite (proj2 (Z.ltb_lt _ _)) by lia. apply put_bytes_before; cbn; [done|fold n; wsize_lia|done].
  - assert (n `mod` LINX_EVENT_MAP_WINDOW_SIZE = n - off) as ->.
    { symmetry. apply (Z.mod_unique _ _ k); wsize_lia. }
    rewrite (proj2 (Z.ltb_ge _ _)) by lia. by apply put_bytes_ok.
Qed.

Lemma put_lines_cases w bs lines :
  window_ok w bs → Forall (λ l, 0 < Z.of_nat (length l) ≤ LINX_EVENT_PUTLINE_MAX_LEN) lines →
  if crosses (Z.of_nat (length bs)) lines then put_lines h log lines w = Ub OutOfBounds
  else ∃ w', put_lines h log lines w = Ret [] w' ∧ window_ok w' (bs ++ concat lines).
Proof.
  revert w bs. induction lines as [|l lines IH]; intros w bs Hw Hl; cbn [crosses put_lines concat].
  - exists w. by rewrite app_nil_r.
  - inversion Hl as [|? ? Hl1 Hl2]; subst. pose proof (putfile_write_cases w bs l Hw Hl1) as H.
    destruct (_ <? _); cbn [orb]; [by rewrite H|]. destruct H as (w' & -> & Hw'). rewrite bind_Ret_nil.
    specialize (IH w' (bs ++ l) Hw' Hl2). rewrite length_app, Nat2Z.inj_add in IH. by rewrite app_assoc.
Qed.
End facts.

(** The whole life of the file: opened, written and closed. *)
Definition put_file (h : file_host) (log : linx_log_t) (path : string) (lines : list (list Z)) : outcome (option (list Z)) :=
  '(_, _, w) ← linx_event_open_file h log path (mk_files g_linx_event_putfile None);
  w ← put_lines h log lines w;
  mret (linx_event_putfile_clean h w).

(** C16: on a system that extends and maps the file, the file holds at the end
    what it held and then every line, whole and in order; but a line that
    crosses a multiple of 4 MiB is written in front of the mapping, outside of
    it. *)
Theorem events_file_appends h log path lines fd bs :
  (∀ n, h_ftruncate h n = true) → (∀ n, h_mmap h n = true) → h_open h path = Some (fd, bs) →
  Forall (λ l, 0 < Z.of_nat (length l) ≤ LINX_EVENT_PUTLINE_MAX_LEN) lines →
  put_file h log path lines
  = if crosses (Z.of_nat (length bs)) lines then Ub OutOfBounds else Ret [] (Some (bs ++ concat lines)).
Proof.
  intros Hf Hm Ho Hl. unfold put_file, linx_event_open_file. rewrite Ho. cbn [ftruncate]. rewrite Hf. cbn [negb mmap]. rewrite Hm.
  change (0 <? LINX_EVENT_MAP_WINDOW_SIZE) with true. cbn [andb]. rewrite bind_ret_l.
  set (n := Z.of_nat (length bs)). set (off := n / LINX_EVENT_MAP_WINDOW_SIZE * LINX_EVENT_MAP_WINDOW_SIZE).
  pose proof (Z.div_mod n LINX_EVENT_MAP_WINDOW_SIZE ltac:(done)) as Hd.
  pose proof (Z.mod_pos_bound n LINX_EVENT_MAP_WINDOW_SIZE ltac:(done)) as Hb.
  assert (off ≤ n < off + LINX_EVENT_MAP_WINDOW_SIZE) as Hn by (unfold off; lia).
  match goal with |- context [put_lines h log lines ?w] => assert (window_ok w bs) as Hw end.
  { split; cbn; [|done|done|done|fold n; lia|].
    - exists (n / LINX_EVENT_MAP_WINDOW_SIZE). split; [apply Z.div_pos; [lia|done]|done].
    - destruct (resize_to_grow (off + LINX_EVENT_MAP_WINDOW_SIZE) bs) as (r & E & Hr); [fold n; lia|]. exists r. by rewrite E. }
  pose proof (put_lines_cases h log Hf Hm _ bs lines Hw Hl) as H. fold n in H.
  destruct (crosses n lines); [by rewrite H|]. destruct H as (w' & -> & [_ _ _ Hwr _ (rest & Ef & _)]).
  rewrite bind_Ret_nil. unfold linx_event_putfile_clean. rewrite Ef, Hwr. cbn [ftruncate]. rewrite Hf. cbn [snd].
  by rewrite resize_to_cut.
Qed.

(** ** Examples *)
Definition file_host_ex (bs : list Z) : file_host := mk_file_host (λ _, Some (7, bs)) (λ _, true) (λ _, true).

(** Two lines behind what the file holds; and a line of three bytes when the
    window has room for one. *)
Lemma events_file_appends_ex :
  put_file (file_host_ex [104; 105; 10]) (mk_log 3 Stderr) "1.txt" [[97; 10]; [98; 10]] = Ret [] (Some [104; 105; 10; 97; 10; 98; 10])
  ∧ ∀ bs, Z.of_nat (length bs) = LINX_EVENT_MAP_WINDOW_SIZE - 1 →
      put_file (file_host_ex bs) (mk_log 3 Stderr) "1.txt" [[97; 98; 10]] = Ub OutOfBounds.
Proof.
  split; [|intros bs Hb].
  - rewrite (events_file_appends _ _ _ _ 7 [104; 105; 10]); [reflexivity|done..|].
    repeat constructor; change LINX_EVENT_PUTLINE_MAX_LEN with 8192; cbn; lia.
  - rewrite (events_file_appends _ _ _ _ 7 bs); [|done..|].
    + rewrite Hb. reflexivity.
    + repeat constructor; change LINX_EVENT_PUTLINE_MAX_LEN with 8192; cbn; lia.
Defined.
