(* ===== verification/PluginConfig.v ===== *)
(** * Configuration of the plugin (kernel/ebpf/plugin/plugin_config)

    Two JSON documents: one when the plugin is initialised, one when the
    capture is opened.  Members are looked up by name, one after another.  The
    log is not open while the first one is read, so that any message about it,
    a missing member included, is printed through a null pointer.

    The JSON parser, the files and the process number are inputs. *)
From S2P Require Import Prelude CString Memory SyscallTable CollectorPath PluginLog PluginFormat PluginFile.
From S2P Require Config.

#[local] Open Scope Z_scope.

(** What this code uses of cJSON besides parsing and looking up members. *)
Class CJsonValues `{Config.CJson} := {
  valuestring : Config.cJSON → option string;
  cJSON_GetArraySize : Config.cJSON → Z;
  cJSON_GetArrayItem : Config.cJSON → Z → option Config.cJSON
}.

(** ** Data (include/plugin_config.h, include/plugin_config_common.h, plugin_config.c) *)
Definition LINX_BPF_FILTER_PID_MAX_SIZE : Z := 64.
Definition LINX_BPF_FILTER_COMM_MAX_SIZE : Z := 16.
Definition LINX_COMM_MAX_SIZE : Z := 16.

Record output_config_t := mk_output {
  oc_fd : Z;
  oc_format : Z;
  oc_path : string;
  oc_put_flag : bool
}.

Record init_config_t := mk_init_config {
  ic_rich_value_size : Z;
  ic_str_max_size : Z;
  ic_output_config : output_config_t;
  ic_log_level : Z;
  ic_log_file : string
}.

Record open_config_t := mk_open_config {
  oc_filter_own : bool;
  oc_filter_falco : bool;
  oc_filter_pids : list Z;
  oc_filter_comms : list (list Z);
  oc_drop_mode : bool;
  oc_drop_failed : bool;
  oc_interest_syscall_table : list Z
}.

Record plugin_config_t := mk_plugin_config { init_config : init_config_t; open_config : open_config_t }.

(** Only unlinkat is collected by default. *)
Definition g_plugin_config : plugin_config_t :=
  mk_plugin_config
    (mk_init_config 1024 100 (mk_output (-1) 0 "" false) LINX_LOG_ERROR "")
    (mk_open_config false false (replicate 64 0) (replicate 16 (replicate 16 0)) false false
       (<[Z.to_nat (st_id syscall_unlinkat) := 1]> (replicate 453 0))).

Definition set_output (o : output_config_t) (c : init_config_t) : init_config_t :=
  mk_init_config (ic_rich_value_size c) (ic_str_max_size c) o (ic_log_level c) (ic_log_file c).

Definition set_filters (pids : list Z) (comms : list (list Z)) (c : open_config_t) : open_config_t :=
  mk_open_config (oc_filter_own c) (oc_filter_falco c) pids comms (oc_drop_mode c) (oc_drop_failed c)
    (oc_interest_syscall_table c).

Section parse.
Context `{CJsonValues} (log : linx_log_t).

(** A string member; the callers read through it. *)
Definition text_of (member : Config.cJSON) : outcome string := from_opt NullDeref (valuestring member).

(** ** The configuration of the plugin (plugin_init_config.c) *)
Section init.
Context (h : file_host).

Definition init_config_members : list string :=
  ["rich_value_size"; "str_max_size"; "putfile"; "path"; "format"; "log_level"; "log_file"].

Fixpoint level_index (i : Z) (levels : list string) (s : string) : option Z :=
  match levels with
  | [] => None
  | l :: levels => if streq l s then Some i else level_index (i + 1) levels s
  end.

Definition plugin_config_fill_linx_log_level (s : string) (c : init_config_t) : outcome init_config_t :=
  match level_index 0 linx_log_level_str s with
  | Some i => mret (mk_init_config (ic_rich_value_size c) (ic_str_max_size c) (ic_output_config c) i (ic_log_file c))
  | None => _ ← LINX_LOG log LINX_LOG_WARNING; mret c
  end.

(** [strcpy] into an array of 256 with room for 255: the NUL of a path of 256
    is the format; behind the name of the log come three unused bytes and then
    the path. *)
Definition copy_path (s : string) (o : output_config_t) : outcome output_config_t :=
  if len s <? LINX_PATH_MAX_SIZE then mret (mk_output (oc_fd o) (oc_format o) s (oc_put_flag o))
  else Ret [OutOfBounds] (mk_output (oc_fd o) 0 s (oc_put_flag o)).

Definition copy_log_file (s : string) (c : init_config_t) : outcome init_config_t :=
  let with_file c := mk_init_config (ic_rich_value_size c) (ic_str_max_size c) (ic_output_config c) (ic_log_level c) s in
  if len s <? LINX_PATH_MAX_SIZE then mret (with_file c)
  else if len s <? 2 * LINX_PATH_MAX_SIZE + 3 then
    let o := ic_output_config c in
    let path := if len s <? LINX_PATH_MAX_SIZE + 3 then oc_path o else sdrop (Z.to_nat LINX_PATH_MAX_SIZE + 3) s in
    Ret [OutOfBounds] (with_file (set_output (mk_output (oc_fd o) (oc_format o) path (oc_put_flag o)) c))
  else Ub OutOfBounds.

(** The [switch] of the loop. *)
Definition init_member (i : nat) (member : Config.cJSON) (s : init_config_t * file_world)
    : outcome (init_config_t * file_world) :=
  let '(c, w) := s in
  let o := ic_output_config c in
  match i with
  | 0%nat =>
      mret (mk_init_config (wrap 64 (Config.valueint member)) (ic_str_max_size c) o (ic_log_level c) (ic_log_file c), w)
  | 1%nat =>
      mret (mk_init_config (ic_rich_value_size c) (wrap 64 (Config.valueint member)) o (ic_log_level c) (ic_log_file c), w)
  | 2%nat =>
      t ← text_of member;
      mret (if streq t "true" then set_output (mk_output (oc_fd o) (oc_format o) (oc_path o) true) c else c, w)
  | 3%nat =>
      t ← text_of member;
      if LINX_PATH_MAX_SIZE <? len t then _ ← LINX_LOG log LINX_LOG_WARNING; mret (c, w)
      else
        o ← copy_path t o;
        if oc_put_flag o then
          '(r, fd, w) ← linx_event_open_file h log (oc_path o) w;
          _ ← (if r <? 0 then LINX_LOG log LINX_LOG_ERROR else mret ());
          mret (set_output (mk_output fd (oc_format o) (oc_path o) (oc_put_flag o)) c, w)
        else mret (set_output o c, w)
  | 4%nat =>
      t ← text_of member;
      mret (if streq t "json" then set_output (mk_output (oc_fd o) 1 (oc_path o) (oc_put_flag o)) c else c, w)
  | 5%nat => t ← text_of member; c ← plugin_config_fill_linx_log_level t c; mret (c, w)
  | 6%nat => t ← text_of member; c ← copy_log_file t c; mret (c, w)
  | _ => mret s
  end.

(** Members [names], numbered from [i]. *)
Fixpoint init_loop (json : Config.cJSON) (i : nat) (names : list string) (s : init_config_t * file_world)
    : outcome (init_config_t * file_world) :=
  match names with
  | [] => mret s
  | name :: names =>
      s ← match Config.cJSON_GetObjectItem json name with
          | None => _ ← LINX_LOG log LINX_LOG_WARNING; mret s
          | Some member => init_member i member s
          end;
      init_loop json (S i) names s
  end.

Definition plugin_config_parse_init_config (config : option string) (s : init_config_t * file_world)
    : outcome (init_config_t * file_world) :=
  match config with
  | None => _ ← LINX_LOG log LINX_LOG_WARNING; mret s
  | Some text =>
      match Config.cJSON_Parse text with
      | None => _ ← LINX_LOG log LINX_LOG_WARNING; mret s
      | Some json => init_loop json 0 init_config_members s
      end
  end.
End init.

(** ** The configuration of the capture (plugin_open_config.c) *)
Section open.
Context (fs_text : string → option string) (heap_tail : string) (getpid : Z).

Definition open_config_members : list string :=
  ["filter_own"; "filter_falco"; "filter_pids"; "filter_comms"; "drop_mode"; "drop_failed"; "interest_syscall_file"].

(** A message with a string of the program in it. *)
Definition LINX_LOG_text (level : Z) (s : option string) : outcome unit :=
  if level <? log_level log then mret () else _ ← fmt_s s; LINX_LOG log level.

(** The numbers of the table without a call have a null name, which cJSON does
    not find. *)
Fixpoint interest_loop (json : Config.cJSON) (n : nat) (i : Z) (table : list Z) : outcome (list Z) :=
  match n with
  | O => mret table
  | S n =>
      row ← g_linx_syscall_table i;
      table ← match st_name row ≫= Config.cJSON_GetObjectItem json with
              | None => _ ← LINX_LOG_text LINX_LOG_WARNING (st_name row); mret table
              | Some member =>
                  match Config.cJSON_GetObjectItem member "interesting" with
                  | None => _ ← LINX_LOG log LINX_LOG_WARNING; mret table
                  | Some interest => mret (<[Z.to_nat i := wrap 8 (Config.valueint interest)]> table)
                  end
              end;
      interest_loop json n (i + 1) table
  end.

(** The text is read into a block without room for a NUL. *)
Definition plugin_config_fill_interest_syscall_table (file_path : option string) (table : list Z) : outcome (list Z) :=
  match file_path ≫= fs_text with
  | None => _ ← LINX_LOG_text LINX_LOG_ERROR file_path; mret table
  | Some contents =>
      text ← Config.json_text heap_tail contents;
      match Config.cJSON_Parse text with
      | None => _ ← LINX_LOG log LINX_LOG_WARNING; mret table
      | Some json => interest_loop json (Z.to_nat LINX_SYSCALL_MAX_IDX) 0 table
      end
  end.

(** [filter_pids[array_index++] = x] *)
Definition push_pid (x : Z) (s : list Z * Z) : list Z * Z := (<[Z.to_nat s.2 := wrap 32 x]> s.1, s.2 + 1).

(** Elements [idx] on, [n] of them. *)
Fixpoint pids_loop (member : Config.cJSON) (idx : Z) (n : nat) (s : list Z * Z) : outcome (list Z * Z) :=
  match n with
  | O => mret s
  | S n =>
      if s.2 <? LINX_BPF_FILTER_PID_MAX_SIZE then
        match cJSON_GetArrayItem member idx with
        | None => _ ← LINX_LOG log LINX_LOG_WARNING; pids_loop member (idx + 1) n s
        | Some item => pids_loop member (idx + 1) n (push_pid (Config.valueint item) s)
        end
      else mret s
  end.

(** One counter of bytes serves all names: a name is refused when it does not
    fit behind those before it.  A refused name stays in its slot until the
    next one is tried there. *)
Fixpoint comms_loop (member : Config.cJSON) (idx : Z) (n : nat) (array_index byte_write : Z) (comms : list (list Z))
    : outcome (list (list Z) * Z) :=
  match n with
  | O => mret (comms, byte_write)
  | S n =>
      if array_index <? LINX_BPF_FILTER_COMM_MAX_SIZE then
        match cJSON_GetArrayItem member idx with
        | None => _ ← LINX_LOG log LINX_LOG_WARNING; comms_loop member (idx + 1) n array_index byte_write comms
        | Some item =>
            t ← fmt_s (valuestring item);
            slot ← from_opt OutOfBounds (comms !! Z.to_nat array_index);
            '(r, bw, slot) ← LINX_SNPRINTF byte_write slot 0 LINX_COMM_MAX_SIZE t;
            let comms := <[Z.to_nat array_index := slot]> comms in
            if 0 <? r then comms_loop member (idx + 1) n (array_index + 1) bw comms
            else _ ← LINX_LOG log LINX_LOG_WARNING; comms_loop member (idx + 1) n array_index bw comms
        end
      else mret (comms, byte_write)
  end.

Definition filter_comms (member : Config.cJSON) (s : open_config_t * Z) : outcome (open_config_t * Z) :=
  let '(c, bw) := s in
  '(comms, bw) ← comms_loop member 0 (Z.to_nat (cJSON_GetArraySize member)) 0 bw (oc_filter_comms c);
  mret (set_filters (oc_filter_pids c) comms c, bw).

Definition filter_pids (member : Config.cJSON) (c : open_config_t) : outcome open_config_t :=
  let s := (oc_filter_pids c, 0) in
  let s := if oc_filter_own c then push_pid getpid s else s in
  let s := if oc_filter_falco c then push_pid (getpid + 1) s else s in
  '(pids, _) ← pids_loop member 0 (Z.to_nat (cJSON_GetArraySize member)) s;
  mret (set_filters pids (oc_filter_comms c) c).

(** The [switch]: the case of the numbers has no [break] and goes on with that
    of the names, on the same member. *)
Definition open_member (i : nat) (member : Config.cJSON) (s : open_config_t * Z) : outcome (open_config_t * Z) :=
  let '(c, bw) := s in
  let flag (f : open_config_t) := t ← text_of member; mret (if streq t "true" then f else c, bw) in
  match i with
  | 0%nat => flag (mk_open_config true (oc_filter_falco c) (oc_filter_pids c) (oc_filter_comms c) (oc_drop_mode c)
                     (oc_drop_failed c) (oc_interest_syscall_table c))
  | 1%nat => flag (mk_open_config (oc_filter_own c) true (oc_filter_pids c) (oc_filter_comms c) (oc_drop_mode c)
                     (oc_drop_failed c) (oc_interest_syscall_table c))
  | 2%nat => c ← filter_pids member c; filter_comms member (c, bw)
  | 3%nat => filter_comms member (c, bw)
  | 4%nat => flag (mk_open_config (oc_filter_own c) (oc_filter_falco c) (oc_filter_pids c) (oc_filter_comms c) true
                     (oc_drop_failed c) (oc_interest_syscall_table c))
  | 5%nat => flag (mk_open_config (oc_filter_own c) (oc_filter_falco c) (oc_filter_pids c) (oc_filter_comms c)
                     (oc_drop_mode c) true (oc_interest_syscall_table c))
  | 6%nat =>
      table ← plugin_config_fill_interest_syscall_table (valuestring member) (oc_interest_syscall_table c);
      mret (mk_open_config (oc_filter_own c) (oc_filter_falco c) (oc_filter_pids c) (oc_filter_comms c) (oc_drop_mode c)
              (oc_drop_failed c) table, bw)
  | _ => mret s
  end.

Fixpoint open_loop (json : Config.cJSON) (i : nat) (names : list string) (s : open_config_t * Z)
    : outcome (open_config_t * Z) :=
  match names with
  | [] => mret s
  | name :: names =>
      s ← match Config.cJSON_GetObjectItem json name with
          | None => _ ← LINX_LOG log LINX_LOG_WARNING; mret s
          | Some member => open_member i member s
          end;
      open_loop json (S i) names s
  end.

Definition plugin_config_parse_open_config (config : option string) (c : open_config_t) : outcome open_config_t :=
  match config with
  | None => _ ← LINX_LOG log LINX_LOG_WARNING; mret c
  | Some text =>
      match Config.cJSON_Parse text with
      | None => _ ← LINX_LOG log LINX_LOG_WARNING; mret c
      | Some json => s ← open_loop json 0 open_config_members (c, 0); mret s.1
      end
  end.
End open.
End parse.

(** ** The first document *)
Section init_facts.
Context `{CJsonValues} (h : file_host).

Lemma log_unopened level : LINX_LOG g_linx_log level = if level <? 0 then mret () else Ub NullDeref.
Proof. reflexivity. Qed.

Definition stops_or_returns {A} (m : outcome A) : Prop := (∃ w a, m = Ret w a) ∨ (∃ f, m = Ub f).

Lemma stops_bind {A B} (m : outcome A) (k : A → outcome B) :
  stops_or_returns m → (∀ a, stops_or_returns (k a)) → stops_or_returns (m ≫= k).
Proof.
  intros [(w & a & ->)|[f ->]] Hk; [|right; by exists f]. cbn.
  destruct (Hk a) as [(w' & b & ->)|[f ->]]; [left|right]; eauto.
Qed.

Lemma stops_ret {A} (a : A) : stops_or_returns (mret a).
Proof. left. by exists [], a. Qed.

Lemma stops_from_opt {A} f (o : option A) : stops_or_returns (from_opt f o).
Proof. destruct o; [apply stops_ret|right; by exists f]. Qed.

Lemma stops_log log level : stops_or_returns (LINX_LOG log level).
Proof. unfold LINX_LOG. destruct (_ <? _); [apply stops_ret|]. destruct (log_file log); [right; by eexists|apply stops_ret..]. Qed.

Ltac stops :=
  repeat first
    [ apply stops_ret | apply stops_from_opt | apply stops_log
    | apply stops_bind; [|intros]
    | match goal with
      | |- stops_or_returns (Ret ?w ?a) => left; by exists w, a
      | |- stops_or_returns (Ub ?f) => right; by exists f
      | |- stops_or_returns (match ?x with _ => _ end) => destruct x
      end ].

Lemma open_file_stops log path w : stops_or_returns (linx_event_open_file h log path w).
Proof. unfold linx_event_open_file. cbv zeta. stops. Qed.

Lemma init_member_stops log i member s : stops_or_returns (init_member log h i member s).
Proof.
  destruct s as [c w]. unfold init_member, text_of, plugin_config_fill_linx_log_level, copy_path, copy_log_file. cbv zeta.
  destruct i as [|[|[|[|[|[|[|i]]]]]]]; stops. apply open_file_stops.
Qed.

Lemma init_loop_missing json i names s :
  (∃ name, name ∈ names ∧ Config.cJSON_GetObjectItem json name = None) →
  ∃ f, init_loop g_linx_log h json i names s = Ub f.
Proof.
  revert i s. induction names as [|name names IH]; intros i s (n & Hn & E); [by apply not_elem_of_nil in Hn|].
  cbn [init_loop]. destruct (Config.cJSON_GetObjectItem json name) as [member|] eqn:En.
  - destruct (init_member_stops g_linx_log i member s) as [(w & s' & ->)|[f ->]]; [|by exists f].
    apply elem_of_cons in Hn as [->|Hn]; [congruence|].
    destruct (IH (S i) s') as [f Hf]; [by exists n|]. exists f. cbn. by rewrite Hf.
  - exists NullDeref. reflexivity.
Qed.

(** C32: "even if the configuration is wrong, the defaults are used", a comment
    says.  The plugin does not come that far: without a document, with one that
    is no JSON, or with one that lacks any of the seven members, it stops at
    the message about it, since the log is opened only afterwards. *)
Theorem incomplete_config_stops config s :
  (∀ text json, config = Some text → Config.cJSON_Parse text = Some json →
     ∃ name, name ∈ init_config_members ∧ Config.cJSON_GetObjectItem json name = None) →
  ∃ f, plugin_config_parse_init_config g_linx_log h config s = Ub f.
Proof.
  intros Hc. unfold plugin_config_parse_init_config. destruct config as [text|]; [|by exists NullDeref].
  destruct (Config.cJSON_Parse text) as [json|] eqn:E; [|by exists NullDeref].
  apply init_loop_missing. by eapply Hc.
Qed.

(** The document as it should be. *)
Record init_document (json : Config.cJSON) (rich max : Z) (put path format level file : string) : Prop := {
  id_rich : ∃ m, Config.cJSON_GetObjectItem json "rich_value_size" = Some m ∧ Config.valueint m = rich;
  id_max : ∃ m, Config.cJSON_GetObjectItem json "str_max_size" = Some m ∧ Config.valueint m = max;
  id_put : ∃ m, Config.cJSON_GetObjectItem json "putfile" = Some m ∧ valuestring m = Some put;
  id_path : ∃ m, Config.cJSON_GetObjectItem json "path" = Some m ∧ valuestring m = Some path;
  id_format : ∃ m, Config.cJSON_GetObjectItem json "format" = Some m ∧ valuestring m = Some format;
  id_level : ∃ m, Config.cJSON_GetObjectItem json "log_level" = Some m ∧ valuestring m = Some level;
  id_file : ∃ m, Config.cJSON_GetObjectItem json "log_file" = Some m ∧ valuestring m = Some file
}.

Section members.
Context (log : linx_log_t) (m : Config.cJSON) (t : string) (Ht : valuestring m = Some t) (c : init_config_t) (w : file_world).

Lemma member_text : text_of m = Ret [] t.
Proof. unfold text_of. by rewrite Ht. Qed.

Lemma put_member :
  init_member log h 2 m (c, w)
  = Ret [] (set_output (mk_output (oc_fd (ic_output_config c)) (oc_format (ic_output_config c)) (oc_path (ic_output_config c))
              (streq t "true" || oc_put_flag (ic_output_config c))) c, w).
Proof.
  cbn [init_member]. rewrite member_text, bind_Ret_nil. destruct (streq t "true"); [done|]. by destruct c as [? ? [] ? ?].
Qed.

Lemma path_member fd w' :
  len t < LINX_PATH_MAX_SIZE →
  (if oc_put_flag (ic_output_config c) then linx_event_open_file h log t w = Ret [] (0, fd, w')
   else fd = oc_fd (ic_output_config c) ∧ w' = w) →
  init_member log h 3 m (c, w)
  = Ret [] (set_output (mk_output fd (oc_format (ic_output_config c)) t (oc_put_flag (ic_output_config c))) c, w').
Proof.
  intros Hl Ho. cbn [init_member]. rewrite member_text, bind_Ret_nil. rewrite (proj2 (Z.ltb_ge _ _)) by lia.
  unfold copy_path. rewrite (proj2 (Z.ltb_lt _ _) Hl), bind_ret_l. cbn [oc_put_flag oc_path oc_format oc_fd].
  destruct (oc_put_flag _); [by rewrite Ho, bind_Ret_nil|by destruct Ho as [-> ->]].
Qed.

Lemma format_member :
  init_member log h 4 m (c, w)
  = Ret [] (set_output (mk_output (oc_fd (ic_output_config c))
              (if streq t "json" then 1 else oc_format (ic_output_config c)) (oc_path (ic_output_config c))
              (oc_put_flag (ic_output_config c))) c, w).
Proof.
  cbn [init_member]. rewrite member_text, bind_Ret_nil. destruct (streq t "json"); [done|]. by destruct c as [? ? [] ? ?].
Qed.

Lemma level_member i :
  level_index 0 linx_log_level_str t = Some i →
  init_member log h 5 m (c, w)
  = Ret [] (mk_init_config (ic_rich_value_size c) (ic_str_max_size c) (ic_output_config c) i (ic_log_file c), w).
Proof.
  intros Hi. cbn [init_member]. rewrite member_text, bind_Ret_nil. unfold plugin_config_fill_linx_log_level. rewrite Hi.
  by rewrite bind_ret_l.
Qed.

Lemma file_member :
  len t < LINX_PATH_MAX_SIZE →
  init_member log h 6 m (c, w)
  = Ret [] (mk_init_config (ic_rich_value_size c) (ic_str_max_size c) (ic_output_config c) (ic_log_level c) t, w).
Proof.
  intros Hl. cbn [init_member]. rewrite member_text, bind_Ret_nil. unfold copy_log_file.
  by rewrite (proj2 (Z.ltb_lt _ _) Hl), bind_ret_l.
Qed.
End members.

(** From a complete document every setting is read: the two sizes, whether
    and where events are put, the format, and level and file of the log; the
    file of events is opened when it is wanted. *)
Theorem init_config_reads log text json rich max put path format level file i c w fd w' :
  Config.cJSON_Parse text = Some json → init_document json rich max put path format level file →
  len path < LINX_PATH_MAX_SIZE → len file < LINX_PATH_MAX_SIZE → level_index 0 linx_log_level_str level = Some i →
  (if streq put "true" || oc_put_flag (ic_output_config c) then linx_event_open_file h log path w = Ret [] (0, fd, w')
   else fd = oc_fd (ic_output_config c) ∧ w' = w) →
  plugin_config_parse_init_config log h (Some text) (c, w)
  = Ret [] (mk_init_config (wrap 64 rich) (wrap 64 max)
              (mk_output fd (if streq format "json" then 1 else oc_format (ic_output_config c)) path
                 (streq put "true" || oc_put_flag (ic_output_config c))) i file, w').
Proof.
  intros Hj [(m0 & E0 & V0) (m1 & E1 & V1) (m2 & E2 & V2) (m3 & E3 & V3) (m4 & E4 & V4) (m5 & E5 & V5) (m6 & E6 & V6)].
  intros Hp Hf Hl Ho. unfold plugin_config_parse_init_config. rewrite Hj. unfold init_config_members. cbn [init_loop].
  rewrite E0, E1, E2, E3, E4, E5, E6. do 2 (cbn [init_member]; rewrite bind_ret_l). rewrite V0, V1.
  rewrite (put_member _ _ _ V2), bind_Ret_nil.
  erewrite (path_member _ _ _ V3); [|exact Hp|exact Ho]. rewrite bind_Ret_nil.
  rewrite (format_member _ _ _ V4), bind_Ret_nil. rewrite (level_member _ _ _ V5 _ _ _ Hl), bind_Ret_nil.
  by rewrite (file_member _ _ _ V6 _ _ Hf), bind_Ret_nil.
Qed.
End init_facts.

(** ** The second document *)

(** The names that are taken: not empty, and 15 bytes at most with those
    before. *)
Fixpoint kept (bw : Z) (ts : list string) : list string :=
  match ts with
  | [] => []
  | t :: ts => if negb (streq t "") && (bw + len t <? LINX_COMM_MAX_SIZE) then t :: kept (bw + len t) ts else kept bw ts
  end.

Lemma kept_length bw ts : (length (kept bw ts) ≤ length ts)%nat.
Proof.
  revert bw. induction ts as [|t ts IH]; intros bw; cbn; [lia|].
  destruct (_ && _); cbn; specialize (IH (bw + len t)) as H1; specialize (IH bw); lia.
Qed.

Definition total (ts : list string) : Z := foldr (λ t n, len t + n) 0 ts.

Lemma len_empty t : len t = 0 ↔ t = "".
Proof. unfold len. destruct t; cbn; split; intros H; try done; lia. Qed.

Lemma text_holds s (buf : list Z) : no_nul s = true → holds buf 0 s → text buf = s.
Proof.
  intros Hn [Hb Hz]. cbn in Hz. assert (∃ rest, buf = codes s ++ 0 :: rest) as [rest ->].
  { exists (drop (S (strlen s)) buf). apply list_eq. intros i. destruct (decide (i < strlen s)%nat).
    - rewrite lookup_app_l by (rewrite codes_length; lia).
      destruct (lookup_lt_is_Some_2 (codes s) i) as [b Eb]; [rewrite codes_length; lia|]. rewrite Eb. by apply Hb.
    - rewrite lookup_app_r by (rewrite codes_length; lia). rewrite codes_length.
      destruct (decide (i = strlen s)) as [->|]; [by rewrite Nat.sub_diag|].
      rewrite lookup_cons_ne_0 by lia. rewrite lookup_drop. f_equal. lia. }
  clear -Hn. induction s as [|c s IH]; [done|]. cbn in Hn. apply andb_true_iff in Hn as [Hc Hn]. apply negb_true_iff in Hc.
  change (codes (String c s)) with (code c :: codes s). cbn. by rewrite Hc, chr_code, IH.
Qed.

Section open_facts.
Context `{CJsonValues} (log : linx_log_t) (Hlog : log_file log ≠ NoFile).

Lemma LINX_LOG_ret {A} level (k : unit → outcome A) : (LINX_LOG log level ≫= k) = k ().
Proof. rewrite LINX_LOG_open by done. apply bind_ret_l. Qed.

Lemma comm_slot bw slot t :
  length slot = 16%nat → 0 ≤ bw →
  ∃ slot', LINX_SNPRINTF bw slot 0 LINX_COMM_MAX_SIZE t
      = Ret [] (if bw + len t <? LINX_COMM_MAX_SIZE then (len t, bw + len t, slot') else (-1, bw, slot'))
    ∧ length slot' = 16%nat ∧ (bw + len t < LINX_COMM_MAX_SIZE → holds slot' 0 t).
Proof.
  intros Hl Hb. destruct (LINX_SNPRINTF_spec bw slot 0 LINX_COMM_MAX_SIZE t) as (slot' & E & [Hf _] & Hh);
    [lia|done|done|rewrite Hl; done|]. exists slot'. split; [exact E|]. split; [lia|done].
Qed.

Definition items (member : Config.cJSON) (i : Z) (ts : list string) : Prop :=
  ∀ j t, ts !! j = Some t → ∃ m, cJSON_GetArrayItem member (i + Z.of_nat j) = Some m ∧ valuestring m = Some t.

Lemma items_tail member i t ts : items member i (t :: ts) → items member (i + 1) ts.
Proof. intros Hi j t' Hj. destruct (Hi (S j) t' Hj) as (m & Hm). exists m. by replace (i + 1 + Z.of_nat j) with (i + Z.of_nat (S j)) by lia. Qed.

Lemma comms_loop_kept member i ts a bw comms :
  items member i ts → Forall (λ t, no_nul t = true) ts → Forall (λ s, length s = 16%nat) comms → length comms = 16%nat →
  0 ≤ a ≤ bw → bw < LINX_COMM_MAX_SIZE →
  ∃ comms', comms_loop log member i (length ts) a bw comms = Ret [] (comms', bw + total (kept bw ts))
    ∧ (length comms' = 16%nat ∧ Forall (λ s, length s = 16%nat) comms')
    ∧ bw + total (kept bw ts) < LINX_COMM_MAX_SIZE
    ∧ (∀ j t, kept bw ts !! j = Some t → ∃ slot, comms' !! (Z.to_nat a + j)%nat = Some slot ∧ text slot = t)
    ∧ (∀ j, (j < Z.to_nat a ∨ Z.to_nat a + length (kept bw ts) < j)%nat → comms' !! j = comms !! j)
    ∧ (length (kept bw ts) = length ts → comms' !! (Z.to_nat a + length ts)%nat = comms !! (Z.to_nat a + length ts)%nat).
Proof.
  revert i a bw comms. induction ts as [|t ts IH]; intros i a bw comms Hi Hn Hs Hl Ha Hb; cbn [length comms_loop kept].
  { exists comms. cbn. rewrite Z.add_0_r. split; [done|]. split; [done|]. split; [done|]. split; [done|]. done. }
  change LINX_BPF_FILTER_COMM_MAX_SIZE with 16. change LINX_COMM_MAX_SIZE with 16 in *.
  rewrite (proj2 (Z.ltb_lt a 16)) by lia. destruct (Hi 0%nat t eq_refl) as (m & Em & Et). rewrite Z.add_0_r in Em. rewrite Em, Et.
  unfold fmt_s. cbn [from_opt]. rewrite bind_ret_l.
  destruct (lookup_lt_is_Some_2 comms (Z.to_nat a)) as [slot Eslot]; [lia|]. rewrite Eslot. cbn [from_opt]. rewrite bind_ret_l.
  assert (length slot = 16%nat) as Hslot by (rewrite Forall_lookup in Hs; by eapply Hs).
  destruct (comm_slot bw slot t Hslot ltac:(lia)) as (slot' & E & Hl' & Hh). change LINX_COMM_MAX_SIZE with 16 in *.
  rewrite E, bind_Ret_nil. inversion Hn as [|? ? Ht Hn']; subst. pose proof (len_nonneg t) as Ht0.
  set (comms1 := <[Z.to_nat a := slot']> comms).
  assert (Forall (λ s, length s = 16%nat) comms1) as Hs1 by (apply Forall_insert; done).
  assert (length comms1 = 16%nat) as Hl1 by (unfold comms1; by rewrite length_insert).
  destruct (streq_spec t "") as [->|Hne]; cbn [negb andb].
  - change (len "") with 0 in *. rewrite Z.add_0_r, (proj2 (Z.ltb_lt bw 16)) by lia. cbv beta iota. change (0 <? 0) with false. cbv iota.
    rewrite LINX_LOG_ret. destruct (IH (i + 1) a bw comms1) as (comms' & E' & Hsl & Htot & Hk & Hu & Hx);
      [by eapply items_tail|done..|]. exists comms'. split; [exact E'|]. split; [exact Hsl|]. split; [done|]. split; [done|]. split.
    + intros j Hj. rewrite Hu by done. unfold comms1. by rewrite list_lookup_insert_ne by lia.
    + intros Hk'. pose proof (kept_length bw ts). lia.
  - assert (len t ≠ 0) as Hnz by (by rewrite len_empty). destruct (Z.ltb_spec (bw + len t) 16) as [Hfit|Hfit].
    + cbv beta iota. rewrite (proj2 (Z.ltb_lt 0 (len t))) by lia.
      destruct (IH (i + 1) (a + 1) (bw + len t) comms1) as (comms' & E' & Hsl & Htot & Hk & Hu & Hx);
        [by eapply items_tail|done..|lia|done|]. exists comms'. cbn [total foldr]. fold (total (kept (bw + len t) ts)).
      rewrite Z.add_assoc. split; [exact E'|]. split; [exact Hsl|]. split; [done|]. split; [|split].
      * intros [|j] t' Hj; cbn in Hj.
        -- injection Hj as <-. exists slot'. split; [|apply text_holds; [done|by apply Hh]].
           rewrite Hu by lia. rewrite Nat.add_0_r. unfold comms1. by rewrite list_lookup_insert_eq by lia.
        -- destruct (Hk j t' Hj) as (s & H1 & H2). exists s. split; [|done]. rewrite <- H1. f_equal. lia.
      * intros j Hj. cbn [length] in Hj. rewrite Hu by lia. unfold comms1. by rewrite list_lookup_insert_ne by lia.
      * intros Hlen. cbn [length] in Hlen. replace (Z.to_nat a + S (length ts))%nat with (Z.to_nat (a + 1) + length ts)%nat by lia.
        rewrite Hx by lia. unfold comms1. by rewrite list_lookup_insert_ne by lia.
    + cbv beta iota. change (0 <? -1) with false. cbv iota. rewrite LINX_LOG_ret.
      destruct (IH (i + 1) a bw comms1) as (comms' & E' & Hsl & Htot & Hk & Hu & Hx);
        [by eapply items_tail|done..|]. exists comms'. split; [exact E'|]. split; [exact Hsl|]. split; [done|]. split; [done|]. split.
      * intros j Hj. rewrite Hu by done. unfold comms1. by rewrite list_lookup_insert_ne by lia.
      * intros Hk'. pose proof (kept_length bw ts). lia.
Qed.

(** The table of calls, when nothing is said about the unnamed numbers. *)
Definition interest_of (json : Config.cJSON) (j : nat) : option Z :=
  match st_name (syscall_row (Z.of_nat j)) ≫= Config.cJSON_GetObjectItem json with
  | None => None
  | Some member => wrap 8 ∘ Config.valueint <$> Config.cJSON_GetObjectItem member "interesting"
  end.

Lemma interest_loop_reads json n i table :
  LINX_LOG_WARNING < log_level log → 0 ≤ i → i + Z.of_nat n ≤ LINX_SYSCALL_MAX_IDX →
  ∃ table', interest_loop log json n i table = Ret [] table' ∧ length table' = length table
    ∧ ∀ j, table' !! j = if bool_decide (i ≤ Z.of_nat j < i + Z.of_nat n)
                         then (λ old, default old (interest_of json j)) <$> table !! j else table !! j.
Proof.
  intros Hw. revert i table. induction n as [|n IH]; intros i table Hi Hn.
  { exists table. split; [done|]. split; [done|]. intros j. by rewrite bool_decide_eq_false_2 by lia. }
  cbn [interest_loop]. unfold g_linx_syscall_table.
  rewrite (proj2 (Z.leb_le 0 i)), (proj2 (Z.ltb_lt i _)) by lia. cbn [andb]. rewrite bind_ret_l.
  assert (∃ table1, (match st_name (syscall_row i) ≫= Config.cJSON_GetObjectItem json with
      | None => _ ← LINX_LOG_text log LINX_LOG_WARNING (st_name (syscall_row i)); mret table
      | Some member => match Config.cJSON_GetObjectItem member "interesting" with
          | None => _ ← LINX_LOG log LINX_LOG_WARNING; mret table
          | Some interest => mret (<[Z.to_nat i := wrap 8 (Config.valueint interest)]> table) end end : outcome (list Z))
      = Ret [] table1 ∧ table1 = alter (λ old, default old (interest_of json (Z.to_nat i))) (Z.to_nat i) table) as (table1 & -> & Ht).
  { unfold interest_of. rewrite Z2Nat.id by lia.
    assert (alter (λ old : Z, old) (Z.to_nat i) table = table) as Hid by (by apply list_alter_id).
    destruct (st_name _ ≫= _) as [member|].
    - destruct (Config.cJSON_GetObjectItem member "interesting") as [v|]; cbn;
        [|exists table; by rewrite LINX_LOG_ret, Hid]. eexists. split; [reflexivity|]. apply list_eq. intros j. destruct (decide (j = Z.to_nat i)) as [->|Hj].
      + rewrite list_lookup_alter_eq. destruct (table !! Z.to_nat i) eqn:E; cbn.
        * rewrite list_lookup_insert_eq; [done|by eapply lookup_lt_Some].
        * rewrite list_insert_ge; [done|]. by apply lookup_ge_None_1.
      + by rewrite list_lookup_insert_ne, list_lookup_alter_ne by done.
    - exists table. cbn. unfold LINX_LOG_text. by rewrite (proj2 (Z.ltb_lt _ _) Hw), bind_ret_l, Hid. }
  rewrite bind_Ret_nil. destruct (IH (i + 1) table1) as (table' & E & Hl & Hj); [lia..|]. exists table'.
  split; [exact E|]. split; [by rewrite Hl, Ht, length_alter|]. intros j. rewrite Hj, Ht.
  destruct (decide (j = Z.to_nat i)) as [->|Hne].
  - rewrite bool_decide_eq_false_2, bool_decide_eq_true_2 by lia. apply list_lookup_alter_eq.
  - rewrite list_lookup_alter_ne by done. by rewrite (bool_decide_ext (i + 1 ≤ _ < _) (i ≤ Z.of_nat j < i + Z.of_nat (S n))) by lia.
Qed.
End open_facts.

Section open_document.
Context `{CJsonValues} (log : linx_log_t) (Hlog : log_file log ≠ NoFile).
Context (fs_text : string → option string) (heap_tail : string) (getpid : Z).

Record comm_slots (c : open_config_t) : Prop := {
  cs_length : length (oc_filter_comms c) = 16%nat;
  cs_slots : Forall (λ s, length s = 16%nat) (oc_filter_comms c)
}.

Definition flag_member (json : Config.cJSON) (name v : string) : Prop :=
  ∃ m, Config.cJSON_GetObjectItem json name = Some m ∧ valuestring m = Some v.

(** An array whose elements have these numbers and strings. *)
Definition elements (member : Config.cJSON) (xs : list (Z * string)) : Prop :=
  cJSON_GetArraySize member = Z.of_nat (length xs)
  ∧ ∀ j x, xs !! j = Some x → ∃ m, cJSON_GetArrayItem member (Z.of_nat j) = Some m
      ∧ Config.valueint m = x.1 ∧ valuestring m = Some x.2.

(** A document with the processes [pids], the names [ts] and a file of calls
    whose text is that of [calls]. *)
Record open_document (json calls : Config.cJSON) (own falco mode failed : string) (pids : list (Z * string)) (ts : list string)
    (faults : list fault) : Prop := {
  od_own : flag_member json "filter_own" own;
  od_falco : flag_member json "filter_falco" falco;
  od_pids : ∃ m, Config.cJSON_GetObjectItem json "filter_pids" = Some m ∧ elements m pids;
  od_texts : Forall (λ x, no_nul x.2 = true) pids;
  od_comms : ∃ m, Config.cJSON_GetObjectItem json "filter_comms" = Some m
    ∧ cJSON_GetArraySize m = Z.of_nat (length ts) ∧ items m 0 ts;
  od_names : Forall (λ t, no_nul t = true) ts;
  od_mode : flag_member json "drop_mode" mode;
  od_failed : flag_member json "drop_failed" failed;
  od_calls : ∃ m file contents text, Config.cJSON_GetObjectItem json "interest_syscall_file" = Some m
    ∧ valuestring m = Some file ∧ fs_text file = Some contents
    ∧ Config.json_text heap_tail contents = Ret faults text ∧ Config.cJSON_Parse text = Some calls
}.

(** The processes that are left out: the plugin itself and, by its number, the
    one that was started next. *)
Definition own_pids (own falco : bool) : list Z :=
  (if own then [wrap 32 getpid] else []) ++ (if falco then [wrap 32 (getpid + 1)] else []).

(** An array in which [l] is stored from the front. *)
Definition stored_front (l old : list Z) : list Z := l ++ drop (length l) old.

Lemma push_stored x l old :
  (length l < length old)%nat →
  push_pid x (stored_front l old, Z.of_nat (length l)) = (stored_front (l ++ [wrap 32 x]) old, Z.of_nat (length (l ++ [wrap 32 x]))).
Proof.
  intros Hl. unfold push_pid, stored_front. cbn [fst snd]. rewrite length_app, Nat2Z.id. cbn [length].
  destruct (lookup_lt_is_Some_2 old (length l) Hl) as [y Hy]. rewrite (drop_S _ _ _ Hy).
  replace (length l) with (length l + 0)%nat at 1 by lia. rewrite insert_app_r. cbn. rewrite <- app_assoc. cbn.
  rewrite Nat.add_1_r. f_equal. lia.
Qed.

Lemma pids_loop_stores m xs i l old :
  (∀ j x, xs !! j = Some x → ∃ e, cJSON_GetArrayItem m (i + Z.of_nat j) = Some e ∧ Config.valueint e = x) →
  length old = Z.to_nat LINX_BPF_FILTER_PID_MAX_SIZE → (length l ≤ length old)%nat →
  ∃ n, pids_loop log m i (length xs) (stored_front l old, Z.of_nat (length l))
       = Ret [] (stored_front (take 64 (l ++ (wrap 32 <$> xs))) old, n).
Proof.
  change (Z.to_nat LINX_BPF_FILTER_PID_MAX_SIZE) with 64%nat. intros Hx Ho. revert i l Hx.
  induction xs as [|x xs IH]; intros i l Hx Hl; cbn [length pids_loop].
  { rewrite app_nil_r, take_ge by lia. by eexists. }
  cbn [snd]. change LINX_BPF_FILTER_PID_MAX_SIZE with 64. destruct (Z.ltb_spec (Z.of_nat (length l)) 64).
  - destruct (Hx 0%nat x eq_refl) as (e & He & <-). rewrite Z.add_0_r in He. rewrite He, push_stored by lia.
    destruct (IH (i + 1) (l ++ [wrap 32 (Config.valueint e)])) as [n ->].
    + intros j y Hj. destruct (Hx (S j) y Hj) as (e' & He' & Hv). exists e'. split; [|done]. rewrite <- He'. f_equal. lia.
    + rewrite length_app. cbn. lia.
    + exists n. by rewrite <- app_assoc.
  - eexists. rewrite take_app_le, (take_ge l) by lia. done.
Qed.

Lemma filter_pids_stores m xs c :
  elements m xs → length (oc_filter_pids c) = Z.to_nat LINX_BPF_FILTER_PID_MAX_SIZE →
  filter_pids log getpid m c
  = Ret [] (set_filters (stored_front (take 64 (own_pids (oc_filter_own c) (oc_filter_falco c) ++ (wrap 32 <$> xs.*1))) (oc_filter_pids c))
              (oc_filter_comms c) c).
Proof.
  intros [Hn Hx] Ho. unfold filter_pids. rewrite Hn, Nat2Z.id.
  assert (∀ j v, xs.*1 !! j = Some v → ∃ e, cJSON_GetArrayItem m (0 + Z.of_nat j) = Some e ∧ Config.valueint e = v) as Hv.
  { intros j v Hj. apply list_lookup_fmap_Some in Hj as (x & -> & Hj). destruct (Hx j x Hj) as (e & He & Hi & _). by exists e. }
  assert ((1 < length (oc_filter_pids c))%nat) as H1 by (rewrite Ho; change (Z.to_nat LINX_BPF_FILTER_PID_MAX_SIZE) with 64%nat; lia).
  set (own := own_pids (oc_filter_own c) (oc_filter_falco c)).
  assert ((length own ≤ 2)%nat) as H2 by (unfold own, own_pids; destruct (oc_filter_own c), (oc_filter_falco c); cbn; lia).
  match goal with |- context [pids_loop log m 0 _ ?s] =>
    assert (s = (stored_front own (oc_filter_pids c), Z.of_nat (length own))) as -> end.
  { assert (stored_front [] (oc_filter_pids c) = oc_filter_pids c) as E0 by done.
    pose proof (push_stored getpid [] (oc_filter_pids c) ltac:(cbn; lia)) as P1. rewrite E0 in P1. cbn [app length] in P1. change (Z.of_nat 0) with 0 in P1.
    pose proof (push_stored (getpid + 1) [] (oc_filter_pids c) ltac:(cbn; lia)) as P2. rewrite E0 in P2. cbn [app length] in P2. change (Z.of_nat 0) with 0 in P2.
    pose proof (push_stored (getpid + 1) [wrap 32 getpid] (oc_filter_pids c) ltac:(cbn; lia)) as P3. cbn [app length] in P3.
    unfold own, own_pids. destruct (oc_filter_own c), (oc_filter_falco c); cbn [app length Z.of_nat]; rewrite ?P1, ?P2, ?P3; done. }
  destruct (pids_loop_stores m xs.*1 0 own (oc_filter_pids c) Hv Ho ltac:(lia)) as [n E]. rewrite length_fmap in E.
  by rewrite E, bind_Ret_nil.
Qed.

Lemma flag_step (f c : open_config_t) m v (bw : Z) :
  valuestring m = Some v →
  (t ← text_of m; mret (if streq t "true" then f else c, bw)) = Ret [] (if streq v "true" then f else c, bw).
Proof. intros V. unfold text_of. by rewrite V. Qed.

Ltac open_fields :=
  cbn [oc_filter_own oc_filter_falco oc_filter_pids oc_filter_comms oc_drop_mode oc_drop_failed oc_interest_syscall_table].

Lemma if_own (b : bool) f p c m d t :
  (if b then mk_open_config true f p c m d t else mk_open_config false f p c m d t) = mk_open_config b f p c m d t.
Proof. by destruct b. Qed.
Lemma if_falco (b : bool) o p c m d t :
  (if b then mk_open_config o true p c m d t else mk_open_config o false p c m d t) = mk_open_config o b p c m d t.
Proof. by destruct b. Qed.
Lemma if_mode (b : bool) o f p c d t :
  (if b then mk_open_config o f p c true d t else mk_open_config o f p c false d t) = mk_open_config o f p c b d t.
Proof. by destruct b. Qed.
Lemma if_failed (b : bool) o f p c m t :
  (if b then mk_open_config o f p c m true t else mk_open_config o f p c m false t) = mk_open_config o f p c m b t.
Proof. by destruct b. Qed.

Lemma total_nonneg ts : 0 ≤ total ts.
Proof. induction ts as [|t ts IH]; cbn; [lia|]. pose proof (len_nonneg t). unfold total in IH. lia. Qed.

Lemma elements_items m xs : elements m xs → items m 0 xs.*2.
Proof.
  intros [_ Hx] j t Hj. apply list_lookup_fmap_Some in Hj as (x & -> & Hj). destruct (Hx j x Hj) as (e & He & _ & Hs).
  by exists e.
Qed.

Lemma filter_comms_kept m ts c bw :
  items m 0 ts → cJSON_GetArraySize m = Z.of_nat (length ts) → Forall (λ t, no_nul t = true) ts → comm_slots c →
  0 ≤ bw < LINX_COMM_MAX_SIZE →
  ∃ comms, filter_comms log m (c, bw) = Ret [] (set_filters (oc_filter_pids c) comms c, bw + total (kept bw ts))
    ∧ bw + total (kept bw ts) < LINX_COMM_MAX_SIZE
    ∧ length comms = 16%nat ∧ Forall (λ s, length s = 16%nat) comms
    ∧ (∀ j t, kept bw ts !! j = Some t → ∃ slot, comms !! j = Some slot ∧ Memory.text slot = t)
    ∧ (∀ j, (length (kept bw ts) < j)%nat → comms !! j = oc_filter_comms c !! j).
Proof.
  intros Hi Hsz Hn [Hl Hs] Hb. unfold filter_comms. rewrite Hsz, Nat2Z.id.
  destruct (comms_loop_kept log Hlog m 0 ts 0 bw (oc_filter_comms c) Hi Hn Hs Hl ltac:(lia) ltac:(lia))
    as (comms & E & [H1 H2] & Htot & Hk & Hu & _). exists comms. rewrite E, bind_Ret_nil. split; [done|]. split; [done|].
  split; [done|]. split; [done|]. split; [exact Hk|]. intros j Hj. apply Hu. right. exact Hj.
Qed.


Lemma open_flag_stops (f c : open_config_t) m (bw : Z) :
  stops_or_returns (t ← text_of m; mret (if streq t "true" then f else c, bw)).
Proof. apply stops_bind; [apply stops_from_opt|intros; apply stops_ret]. Qed.

(** Process numbers cannot be filtered: the case of the numbers falls
    through into that of the names, which prints the string of the first
    element, and a number has none. *)
Theorem numeric_pids_undefined text json m item c :
  Config.cJSON_Parse text = Some json → Config.cJSON_GetObjectItem json "filter_pids" = Some m →
  0 < cJSON_GetArraySize m → cJSON_GetArrayItem m 0 = Some item → valuestring item = None →
  ∃ f, plugin_config_parse_open_config log fs_text heap_tail getpid (Some text) c = Ub f.
Proof.
  intros Hj Hm Hn Hi Hv. unfold plugin_config_parse_open_config. rewrite Hj. unfold open_config_members.
  assert (∀ s, ∃ f, open_member log fs_text heap_tail getpid 2 m s = Ub f) as H2.
  { intros [c0 bw]. cbn [open_member]. unfold filter_pids, filter_comms.
    destruct (Z.to_nat (cJSON_GetArraySize m)) as [|n] eqn:En; [lia|].
    assert (∀ comms, comms_loop log m 0 (S n) 0 bw comms = Ub NullDeref) as Hc.
    { intros comms. cbn [comms_loop]. change (0 <? LINX_BPF_FILTER_COMM_MAX_SIZE) with true. by rewrite Hi, Hv. }
    match goal with |- context [pids_loop log m 0 (S n) ?s] => generalize s end. intros s.
    assert (stops_or_returns (pids_loop log m 0 (S n) s)) as [(w & [pids a] & ->)|[f ->]];
      [|exists NullDeref; cbn [mbind outcome_bind mret outcome_ret]; by rewrite Hc|by exists f].
    generalize (S n) 0 s. intros k. induction k as [|k IH]; intros i s'; cbn [pids_loop]; [apply stops_ret|].
    destruct (_ <? _); [|apply stops_ret]. destruct (cJSON_GetArrayItem m i); [apply IH|].
    apply stops_bind; [apply stops_log|intros; apply IH]. }
  cbn [open_loop]. rewrite Hm.
  assert (∀ i name s, i = 0%nat ∨ i = 1%nat → stops_or_returns (match Config.cJSON_GetObjectItem json name with
    | None => _ ← LINX_LOG log LINX_LOG_WARNING; mret s | Some member => open_member log fs_text heap_tail getpid i member s end)) as H01.
  { intros i name [c0 bw] Hi'. destruct (Config.cJSON_GetObjectItem json name) as [member|].
    - destruct Hi' as [-> | ->]; apply open_flag_stops.
    - apply stops_bind; [apply stops_log|intros; apply stops_ret]. }
  destruct (H01 0%nat "filter_own" (c, 0) (or_introl eq_refl)) as [(w0 & s0 & ->)|[f ->]]; [cbn|by exists f].
  destruct (H01 1%nat "filter_falco" s0 (or_intror eq_refl)) as [(w1 & s1 & ->)|[f ->]]; [cbn|by exists f].
  destruct (H2 s1) as [f Hf]. exists f. by rewrite Hf.
Qed.
End open_document.

(** ** Examples *)
#[local] Set Warnings "-register-all".

Inductive json_ex :=
  | JNumber (n : Z)
  | JString (s : string)
  | JArray (l : list json_ex)
  | JObject (l : list (string * json_ex)).

Definition json_call_ex : json_ex := JObject [("read", JObject [("interesting", JNumber 1)]); ("write", JNumber 0)].

Definition json_init_ex : json_ex :=
  JObject [("rich_value_size", JNumber 2048); ("str_max_size", JNumber 64); ("putfile", JString "true");
    ("path", JString "events.log"); ("format", JString "normal"); ("log_level", JString "INFO"); ("log_file", JString "x.log")].

Definition json_open_ex : json_ex :=
  JObject [("filter_own", JString "true"); ("filter_falco", JString "false"); ("filter_pids", JArray [JString "cat"]);
    ("filter_comms", JArray [JString "systemd"; JString "journald"; JString "sshd"]); ("drop_mode", JString "false");
    ("drop_failed", JString "true"); ("interest_syscall_file", JString "calls.json")].

#[local] Instance cjson_ex : Config.CJson := {|
  Config.cJSON := json_ex;
  Config.cJSON_Parse s :=
    if streq s "init" then Some json_init_ex else if streq s "open" then Some json_open_ex
    else if streq s "calls" then Some json_call_ex
    else if streq s "pids" then Some (JObject [("filter_pids", JArray [JNumber 4242])]) else None;
  Config.cJSON_GetObjectItem j name := match j with JObject l => snd <$> List.find (λ x, streq x.1 name) l | _ => None end;
  Config.valueint j := match j with JNumber n => n | _ => 0 end
|}.

#[local] Instance cjson_values_ex : CJsonValues := {|
  valuestring j := match j with JString s => Some s | _ => None end;
  cJSON_GetArraySize j := match j with JArray l => Z.of_nat (length l) | _ => 0 end;
  cJSON_GetArrayItem j i := match j with JArray l => l !! Z.to_nat i | _ => None end
|}.

Definition open_log_ex : linx_log_t := mk_log LINX_LOG_ERROR Stderr.
Definition files_ex : file_world := mk_files g_linx_event_putfile None.

(** No document, and one without the settings of the plugin. *)
Lemma incomplete_config_stops_ex :
  (∃ f, plugin_config_parse_init_config g_linx_log (file_host_ex []) None (init_config g_plugin_config, files_ex) = Ub f)
  ∧ ∃ f, plugin_config_parse_init_config g_linx_log (file_host_ex []) (Some "open") (init_config g_plugin_config, files_ex) = Ub f.
Proof.
  split; apply incomplete_config_stops; [done|]. intros text json [= <-] [= <-]. exists "path". split; [|done].
  apply list_elem_of_lookup_2 with (i := 3%nat). reflexivity.
Defined.

Lemma init_config_reads_ex :
  ∃ w', plugin_config_parse_init_config open_log_ex (file_host_ex []) (Some "init") (init_config g_plugin_config, files_ex)
  = Ret [] (mk_init_config 2048 64 (mk_output 7 0 "events.log" true) 1 "x.log", w').
Proof.
  eexists. eapply (@init_config_reads cjson_ex cjson_values_ex (file_host_ex []) open_log_ex "init" json_init_ex 2048 64 "true" "events.log" "normal" "INFO" "x.log").
  all: try (split; eexists; split; reflexivity). all: reflexivity.
Defined.


Lemma numeric_pids_undefined_ex :
  ∃ f, plugin_config_parse_open_config open_log_ex (λ _, None) "" 42 (Some "pids") (open_config g_plugin_config) = Ub f.
Proof. by eapply (@numeric_pids_undefined cjson_ex cjson_values_ex open_log_ex (λ _, None) "" 42 "pids" _ (JArray [JNumber 4242]) (JNumber 4242)). Defined.
