(* ===== verification/PluginEbpf.v ===== *)
(** * The collector: loading, filtering and receiving (kernel/ebpf/plugin/ebpf_user,
    kernel/ebpf/ebpf/syscall_enter.bpf.c, syscall_exit.bpf.c)

    As in the event engine, the object with the programs is opened, the
    programs of calls that are not of interest are not loaded, two tables lead
    from the number of a call to its programs, and variables hold the filters.
    Here the names of the programs come from the table of system calls.

    maps.h and bpf_check.h are those of the event engine, so the object
    ([linx_bpf]), the answers of libbpf ([host]) and the checks of the kernel
    side are taken from Engine.v. *)
From S2P Require Import Prelude CString Memory EventType Bpf SyscallTable CollectorPath CollectorRing PluginFormat.
From S2P Require Import CollectorPrograms1 CollectorPrograms2 Collector PluginLog PluginFile PluginConfig.
From S2P Require Engine.

#[local] Open Scope Z_scope.

Abbreviation linx_bpf := Engine.linx_bpf.
Abbreviation skel_pointer := Engine.skel_pointer.
Abbreviation Skel := Engine.Skel.

Section start.
Context (h : Engine.host) (log : linx_log_t) (config : open_config_t).

Definition interesting (i : Z) : bool := negb (default 0 (oc_interest_syscall_table config !! Z.to_nat i) =? 0).

Definition object_program (name : string) : option program := find_program collector_programs name.

(** ** Loading (linx_ebpf_load.c) *)
Definition linx_ebpf_open (p : skel_pointer) : outcome (Z * skel_pointer) :=
  if Engine.h_linx_bpf__open h then mret (0, Skel Engine.linx_bpf_zero)
  else _ ← LINX_LOG log LINX_LOG_ERROR; mret (-1, Engine.SkelNull).

(** One program that is not to be loaded; the answer of [set_autoload] is not
    looked at. *)
Definition disable_program (row : linx_syscall_table_t) (prog : option string) (s : linx_bpf) : outcome linx_bpf :=
  match prog with
  | None => _ ← LINX_LOG_text log LINX_LOG_DEBUG (st_name row); mret s
  | Some name =>
      match object_program name with
      | None => _ ← LINX_LOG_text log LINX_LOG_DEBUG (st_name row); mret s
      | Some _ => mret (if Engine.h_set_autoload h name =? 0 then Engine.set_disabled (name :: Engine.sk_disabled s) s else s)
      end
  end.

Fixpoint disable_loop (n : nat) (i : Z) (s : linx_bpf) : outcome linx_bpf :=
  match n with
  | O => mret s
  | S n =>
      row ← g_linx_syscall_table i;
      s ← (if interesting i then _ ← LINX_LOG_text log LINX_LOG_DEBUG (st_name row); mret s
           else
             e ← from_opt OutOfBounds (ebpf_prog_name row !! 0%nat);
             s ← disable_program row e s;
             x ← from_opt OutOfBounds (ebpf_prog_name row !! 1%nat);
             disable_program row x s);
      disable_loop n (i + 1) s
  end.

(** A failure destroys the object and keeps the pointer. *)
Definition linx_ebpf_load (p : skel_pointer) : outcome (Z * skel_pointer) :=
  s ← Engine.read_skel p;
  s ← disable_loop (Z.to_nat LINX_SYSCALL_MAX_IDX) 0 s;
  if negb (Engine.h_linx_bpf__load h =? 0) then _ ← LINX_LOG log LINX_LOG_ERROR; mret (-1, Engine.SkelFreed)
  else mret (0, Skel s).

(** The program for packets is attached to one network device, "ens3"; the
    start goes on without it. *)
Definition linx_ebpf_probe_load (p : skel_pointer) : outcome (Z * skel_pointer) :=
  _ ← Engine.read_skel p;
  if negb (Engine.h_attach h "sys_enter") then _ ← LINX_LOG log LINX_LOG_ERROR; mret (-1, p)
  else if negb (Engine.h_attach h "sys_exit") then _ ← LINX_LOG log LINX_LOG_ERROR; mret (-1, p)
  else _ ← (if negb (Engine.h_attach h "xdp_pass") then LINX_LOG log LINX_LOG_ERROR else mret ()); mret (0, p).

Definition linx_get_boot_time : outcome (Z * Z) :=
  match Engine.h_boottime h, Engine.h_realtime h with
  | Some boot, Some wall =>
      mret (0, wrap 64 (Engine.timespec_to_nsec wall - Engine.timespec_to_nsec boot))
  | _, _ => _ ← LINX_LOG log LINX_LOG_ERROR; mret (-1, 0)
  end.

(** ** Tables and variables (linx_ebpf_maps.c, linx_ebpf_ringbuf.c) *)
Definition linx_ebpf_maps_before_load (p : skel_pointer) : outcome (Z * skel_pointer) :=
  if Engine.h_sysconf h =? -1 then _ ← LINX_LOG log LINX_LOG_ERROR; mret (-1, p)
  else
    _ ← Engine.read_skel p;
    if negb (Engine.h_set_max_entries h =? 0) then _ ← LINX_LOG log LINX_LOG_ERROR; mret (-1, p) else mret (0, p).

Definition linx_ebpf_ringbuf_init (p : skel_pointer) : outcome (Z * skel_pointer) :=
  _ ← Engine.read_skel p;
  if Engine.h_ring_buffer__new h then mret (0, p)
  else _ ← LINX_LOG log LINX_LOG_ERROR; mret (-1, Engine.SkelFreed).

Definition linx_ebpf_add_prog_to_tail_table (name : string) (key : Z) (table : gmap Z string) : outcome (Z * gmap Z string) :=
  match object_program name with
  | None => _ ← LINX_LOG log LINX_LOG_WARNING; mret (0, table)
  | Some _ =>
      if Engine.h_program__fd h name <=? 0 then _ ← LINX_LOG log LINX_LOG_ERROR; mret (-1, table)
      else if negb (Engine.h_map_update_elem h name key =? 0) then _ ← LINX_LOG log LINX_LOG_ERROR; mret (-1, table)
      else mret (0, <[key := name]> table)
  end.

(** [if (name != NULL) ...] *)
Definition add_named (name : option string) (key : Z) (table : gmap Z string) : outcome (Z * gmap Z string) :=
  match name with
  | None => mret (0, table)
  | Some name =>
      '(r, table) ← linx_ebpf_add_prog_to_tail_table name key table;
      if negb (r =? 0) then _ ← LINX_LOG log LINX_LOG_ERROR; mret (-1, table) else mret (0, table)
  end.

Fixpoint tail_loop (n : nat) (i : Z) (enter exit : gmap Z string) : outcome (Z * (gmap Z string * gmap Z string)) :=
  match n with
  | O => mret (0, (enter, exit))
  | S n =>
      row ← g_linx_syscall_table i;
      if negb (interesting i) then
        _ ← LINX_LOG_text log LINX_LOG_DEBUG (st_name row); tail_loop n (i + 1) enter exit
      else
        e ← from_opt OutOfBounds (ebpf_prog_name row !! Z.to_nat LINX_SYSCALL_TYPE_ENTER);
        x ← from_opt OutOfBounds (ebpf_prog_name row !! Z.to_nat LINX_SYSCALL_TYPE_EXIT);
        '(r, enter) ← add_named e i enter;
        if negb (r =? 0) then mret (-1, (enter, exit))
        else
          '(r, exit) ← add_named x i exit;
          if negb (r =? 0) then mret (-1, (enter, exit)) else tail_loop n (i + 1) enter exit
  end.

Definition linx_ebpf_load_tail_call_map (p : skel_pointer) : outcome (Z * skel_pointer) :=
  s ← Engine.read_skel p;
  '(ret, (enter, exit)) ← tail_loop (Z.to_nat LINX_SYSCALL_MAX_IDX) 0 (Engine.syscall_enter_tail_table s) (Engine.syscall_exit_tail_table s);
  mret (ret, Skel (Engine.set_tables enter exit s)).

(** Both copies stop at the first empty element.  Names are printed with one
    counter for all of them, but what is refused is printed all the same. *)
Fixpoint copy_pids (from to : list Z) : list Z :=
  match from, to with
  | x :: from, _ :: to' => if x =? 0 then to else x :: copy_pids from to'
  | _, _ => to
  end.

Fixpoint copy_comms (from to : list (list Z)) (byte_write : Z) : outcome (list (list Z)) :=
  match from, to with
  | x :: from, y :: to' =>
      if default 0 (head x) =? 0 then mret to
      else
        '(r, bw, y) ← LINX_SNPRINTF byte_write y 0 LINX_COMM_MAX_SIZE (text x);
        _ ← (if r <? 0 then LINX_LOG log LINX_LOG_WARNING else mret ());
        rest ← copy_comms from to' bw;
        mret (y :: rest)
  | _, _ => mret to
  end.

Definition with_filters (pids : list Z) (comms : list (list Z)) (s : linx_bpf) : linx_bpf :=
  Engine.mk_skel (Engine.sk_disabled s) (Engine.syscall_enter_tail_table s) (Engine.syscall_exit_tail_table s) pids comms
    (Engine.g_interesting_syscalls_table s) (Engine.sk_boot_time s) (Engine.g_drop_mode s) (Engine.g_drop_failed s).

Definition linx_ebpf_set_filter_pids (s : linx_bpf) : linx_bpf :=
  with_filters (copy_pids (oc_filter_pids config) (Engine.g_filter_pids s)) (Engine.g_filter_comms s) s.

Definition linx_ebpf_set_filter_comms (s : linx_bpf) : outcome linx_bpf :=
  comms ← copy_comms (oc_filter_comms config) (Engine.g_filter_comms s) 0;
  mret (with_filters (Engine.g_filter_pids s) comms s).

Definition linx_ebpf_set_interesting_syscalls_table (s : linx_bpf) : linx_bpf :=
  Engine.mk_skel (Engine.sk_disabled s) (Engine.syscall_enter_tail_table s) (Engine.syscall_exit_tail_table s)
    (Engine.g_filter_pids s) (Engine.g_filter_comms s) (oc_interest_syscall_table config) (Engine.sk_boot_time s)
    (Engine.g_drop_mode s) (Engine.g_drop_failed s).

(** [ret = ret ? : step] *)
Definition unless_failed (r : Z * skel_pointer) (step : skel_pointer → outcome (Z * skel_pointer)) : outcome (Z * skel_pointer) :=
  if negb (r.1 =? 0) then mret r else step r.2.

Definition set_variables (boot_time : Z) (s : linx_bpf) : outcome linx_bpf :=
  s ← linx_ebpf_set_filter_comms (linx_ebpf_set_filter_pids (Engine.linx_ebpf_set_boot_time boot_time s));
  mret (linx_ebpf_set_interesting_syscalls_table (Engine.linx_ebpf_set_drop_failed (Z.b2z (oc_drop_failed config))
    (Engine.linx_ebpf_set_drop_mode (Z.b2z (oc_drop_mode config)) s))).

(** The variables are written whether or not a step failed, through a pointer
    that is null when the object could not be opened and freed when it could
    not be loaded. *)
Definition linx_ebpf_init : outcome (Z * skel_pointer) :=
  r ← linx_ebpf_open Engine.SkelNull;
  r ← unless_failed r linx_ebpf_maps_before_load;
  r ← unless_failed r linx_ebpf_load;
  r ← unless_failed r linx_ebpf_ringbuf_init;
  r ← unless_failed r linx_ebpf_load_tail_call_map;
  r ← unless_failed r linx_ebpf_probe_load;
  '(ret, boot_time) ← (if negb (r.1 =? 0) then mret (r.1, 0) else linx_get_boot_time);
  s ← Engine.read_skel r.2;
  s ← set_variables boot_time s;
  mret (ret, Skel s).
End start.

(** ** The kernel at a system call *)
Section syscall.
Context (s : linx_bpf) (c : ckernel).

Definition with_boot_time : ckernel :=
  mk_ckernel (Engine.with_boot_time s (ck_kernel c)) (ck_layout c) (ck_max_fds c) (ck_fd_table c) (ck_exe_file c)
    (ck_parent_comm c).

Definition filtered : bool := Engine.filtered s (ck_kernel c).

Definition bpf_tail_call (table : gmap Z string) (id : Z) (regs : pt_regs) (arg : Z) (rb : linx_ringbuf_t)
    : outcome (linx_ringbuf_t * option linx_ringbuf_t) :=
  match table !! wrap 32 id ≫= object_program with
  | None => mret (rb, None)
  | Some p => run_program p with_boot_time regs arg rb
  end.

Definition sys_enter (regs : pt_regs) (syscall_id : Z) (rb : linx_ringbuf_t) : outcome (linx_ringbuf_t * option linx_ringbuf_t) :=
  if filtered then mret (rb, None)
  else if Engine.check_interesting_syscall s syscall_id =? 0 then mret (rb, None)
  else bpf_tail_call (Engine.syscall_enter_tail_table s) syscall_id regs syscall_id rb.

Definition sys_exit (regs : pt_regs) (ret : Z) (rb : linx_ringbuf_t) : outcome (linx_ringbuf_t * option linx_ringbuf_t) :=
  let syscall_id := get_syscall_id regs in
  if filtered then mret (rb, None)
  else if Engine.check_interesting_syscall s syscall_id =? 0 then mret (rb, None)
  else if negb (Engine.g_drop_failed s =? 0) && (ret <? 0) then mret (rb, None)
  else bpf_tail_call (Engine.syscall_exit_tail_table s) syscall_id regs ret rb.
End syscall.

(** ** Receiving (linx_ebpf_ringbuf.c)

    [g_ringbuf_data]: header and the bytes behind it. *)
Abbreviation ringbuf_data := (linx_event_t * memory)%type.

Definition received (rb : linx_ringbuf_t) : ringbuf_data := (rb_event rb, received_memory rb).

Definition linx_handle_event (log : linx_log_t) (data : linx_ringbuf_t) (buffer : ringbuf_data) : outcome (Z * ringbuf_data) :=
  if LINX_EVENT_MAX_SIZE <? rb_payload_pos data then _ ← LINX_LOG log LINX_LOG_WARNING; mret (-1, buffer)
  else mret (0, received data).

Section receive.
Context (ring_buffer__poll :
  (linx_ringbuf_t → ringbuf_data → outcome (Z * ringbuf_data)) → list linx_ringbuf_t → ringbuf_data →
  outcome (Z * ringbuf_data * list linx_ringbuf_t)).

(** Code, buffer and what is left in the ring. *)
Definition linx_ebpf_get_ringbuf_msg (log : linx_log_t) (ring : list linx_ringbuf_t) (buffer : ringbuf_data)
    : outcome (Z * ringbuf_data * list linx_ringbuf_t) := ring_buffer__poll (linx_handle_event log) ring buffer.
End receive.

(** The documented behaviour of [ring_buffer__poll]: it calls back for every
    record and answers their number when no call fails. *)
Fixpoint call_back (callback : linx_ringbuf_t → ringbuf_data → outcome (Z * ringbuf_data)) (l : list linx_ringbuf_t)
    (b : ringbuf_data) : outcome ringbuf_data :=
  match l with
  | [] => mret b
  | r :: l => '(_, b) ← callback r b; call_back callback l b
  end.

Definition poll_law (poll : (linx_ringbuf_t → ringbuf_data → outcome (Z * ringbuf_data)) → list linx_ringbuf_t →
    ringbuf_data → outcome (Z * ringbuf_data * list linx_ringbuf_t)) : Prop :=
  ∀ callback records b,
    Z.of_nat (length records) < 2 ^ 31 → (∀ r b, r ∈ records → ∃ b', callback r b = Ret [] (0, b')) →
    poll callback records b = (b ← call_back callback records b; mret (Z.of_nat (length records), b, [])).

(** ** Filters *)
Section filters.
Context (log : linx_log_t) (Hlog : log_file log ≠ NoFile).

Lemma copied_pids_check from n pid :
  (length from ≤ n)%nat →
  Engine.check_pid_need_filtered (copy_pids from (replicate n 0)) pid = Engine.check_pid_need_filtered from pid.
Proof.
  revert n. induction from as [|x from IH]; intros n Hn; cbn in Hn; [by destruct n|].
  destruct n as [|n]; [lia|]. cbn [replicate copy_pids Engine.check_pid_need_filtered].
  destruct (Z.eqb_spec x 0) as [->|Hx]; [done|]. cbn [Engine.check_pid_need_filtered].
  apply Z.eqb_neq in Hx. by rewrite Hx, IH by lia.
Qed.

(** The name of a command in its array. *)
Definition padded (s : string) : list Z := codes s ++ replicate (16 - strlen s) 0.

(** A process runs a named command. *)
Fixpoint named (comms : list (list Z)) (comm : list Z) : bool :=
  match comms with
  | [] => false
  | x :: comms =>
      if default 0 (head x) =? 0 then false else bool_decide (comm = padded (text x)) || named comms comm
  end.

Lemma snprintf_padded s :
  len s < LINX_COMM_MAX_SIZE → snprintf (replicate 16 0) 0 LINX_COMM_MAX_SIZE s = Ret [] (padded s).
Proof.
  intros Hl. unfold snprintf. change (LINX_COMM_MAX_SIZE =? 0) with false. cbv iota.
  change LINX_COMM_MAX_SIZE with 16 in *. unfold len in Hl.
  replace (stake (Z.to_nat (16 - 1)) s) with s.
  2:{ rewrite <- (stake_sdrop (Z.to_nat (16 - 1)) s) at 1. rewrite sdrop_all, sapp_nil_r; [done|]. lia. }
  unfold write_buf. rewrite cstr_bytes_length. change (0 <=? 0) with true.
  rewrite (proj2 (Z.leb_le (0 + _) _)) by (rewrite length_replicate; lia). cbn [andb].
  unfold overwrite, padded. rewrite cstr_bytes_length, cstr_codes. change (Z.to_nat 0) with 0%nat. rewrite take_0.
  change ([] ++ ?l) with l. cbn [Nat.add]. rewrite <- app_assoc, drop_replicate. do 2 f_equal. replace (16 - strlen s)%nat with (S (16 - S (strlen s))) by lia. done.
Qed.

Lemma padded_head s : s ≠ "" → no_nul s = true → (default 0 (head (padded s)) =? 0) = false.
Proof. destruct s as [|c s]; [done|]. cbn. intros _ [H _]%andb_true_iff. by apply negb_true_iff in H. Qed.

Lemma copy_comms_check from n bw :
  Forall (λ x, len (text x) < LINX_COMM_MAX_SIZE ∧ no_nul (text x) = true) from → (length from ≤ n)%nat →
  ∃ to, copy_comms log from (replicate n (replicate 16 0)) bw = Ret [] to
    ∧ ∀ comm, Engine.check_comm_need_filtered to comm = named from comm.
Proof.
  intros Hf. revert n bw. induction Hf as [|x from [Hx Hn] Hf IH]; intros n bw Hl; cbn in Hl.
  - exists (replicate n (replicate 16 0)). destruct n; cbn; done.
  - destruct n as [|n]; [lia|]. rewrite replicate_S. cbn [copy_comms named].
    destruct (default 0 (head x) =? 0) eqn:Eh; [by exists (replicate (S n) (replicate 16 0))|].
    unfold LINX_SNPRINTF. rewrite (snprintf_padded _ Hx), bind_Ret_nil.
    destruct (IH n (bw + len (text x)) ltac:(lia)) as (to1 & E1 & H1). destruct (IH n bw ltac:(lia)) as (to2 & E2 & H2).
    assert (text x ≠ "") as Hne by (destruct x as [|b x]; cbn in *; [done|by rewrite Eh]).
    pose proof (padded_head _ Hne Hn) as Hp. pose proof (len_nonneg (text x)).
    destruct (_ || _); rewrite bind_ret_l; [change (-1 <? 0) with true|rewrite (proj2 (Z.ltb_ge (len (text x)) 0)) by lia]; cbv iota.
    + rewrite LINX_LOG_open, bind_ret_l, E2, bind_Ret_nil by done. eexists. split; [reflexivity|]. intros comm.
      cbn [Engine.check_comm_need_filtered]. rewrite Hp, H2. by case_bool_decide.
    + rewrite bind_ret_l, E1, bind_Ret_nil. eexists. split; [reflexivity|]. intros comm.
      cbn [Engine.check_comm_need_filtered]. rewrite Hp, H1. by case_bool_decide.
Qed.
End filters.

(** ** Tables *)
#[local] Opaque collector_programs.

Section tables.
Context (h : Engine.host) (log : linx_log_t) (config : open_config_t).
Context (Hlog : log_file log ≠ NoFile) (Hlevel : LINX_LOG_DEBUG < log_level log).

(** Everything that is asked of the system works. *)
Record host_works : Prop := {
  hw_open : Engine.h_linx_bpf__open h = true;
  hw_sysconf : Engine.h_sysconf h ≠ -1;
  hw_set_max_entries : Engine.h_set_max_entries h = 0;
  hw_load : Engine.h_linx_bpf__load h = 0;
  hw_ring : Engine.h_ring_buffer__new h = true;
  hw_fd : ∀ n, 0 < Engine.h_program__fd h n;
  hw_update : ∀ n i, Engine.h_map_update_elem h n i = 0;
  hw_enter : Engine.h_attach h "sys_enter" = true;
  hw_exit : Engine.h_attach h "sys_exit" = true;
  hw_clocks : is_Some (Engine.h_boottime h) ∧ is_Some (Engine.h_realtime h)
}.
Context (Hh : host_works).

Lemma debug_text {A} s (k : unit → outcome A) : (LINX_LOG_text log LINX_LOG_DEBUG s ≫= k) = k ().
Proof. unfold LINX_LOG_text. rewrite (proj2 (Z.ltb_lt _ _) Hlevel). apply bind_ret_l. Qed.

(** Names of programs in the table: both or none. *)
Definition program_names (row : linx_syscall_table_t) : Prop :=
  (∃ n, row ∈ syscall_rows ∧ st_name row = Some n ∧ ebpf_prog_name row = [Some (n +:+ "_e"); Some (n +:+ "_x")])
  ∨ row = zero_row.

Lemma row_program_names i : program_names (syscall_row i).
Proof.
  destruct (syscall_row_cases i) as [->|[Hr _]]; [by right|left].
  assert (forallb (λ r, match st_name r with Some n => bool_decide (ebpf_prog_name r = [Some (n +:+ "_e"); Some (n +:+ "_x")]) | None => false end)
    syscall_rows = true) as H by (vm_compute; reflexivity).
  rewrite forallb_forall in H. specialize (H _ (proj1 (list_elem_of_In _ _) Hr)).
  destruct (st_name (syscall_row i)) as [n|]; [|done]. exists n. by apply bool_decide_eq_true in H.
Qed.

Lemma table_row i : 0 ≤ i < LINX_SYSCALL_MAX_IDX → g_linx_syscall_table i = Ret [] (syscall_row i).
Proof. intros Hi. unfold g_linx_syscall_table. by rewrite (proj2 (Z.leb_le 0 i)), (proj2 (Z.ltb_lt i _)) by lia. Qed.

(** Both programs of a row. *)
Lemma row_finds r n : r ∈ syscall_rows → st_name r = Some n →
  ∃ e x, object_program (n +:+ "_e") = Some e ∧ object_program (n +:+ "_x") = Some x
    ∧ (∀ k regs id, e k regs id = mk_body id LINX_SYSCALL_TYPE_ENTER (-1) [])
    ∧ (∀ k regs ret, ∃ ps, x k regs ret = mk_body (get_syscall_id regs) LINX_SYSCALL_TYPE_EXIT ret ps).
Proof.
  intros Hr Hn. destruct (row_program r Hr) as ([en e] & [xn x] & (n' & Hn' & He & Hx & Be & Bx) & Ie & Ix).
  assert (n' = n) as -> by congruence. cbn [fst snd] in He, Hx, Be, Bx. subst en xn. exists e, x.
  split; [exact (find_program_in _ _ _ collector_names Ie)|]. split; [exact (find_program_in _ _ _ collector_names Ix)|].
  split; [done|]. intros k regs ret. destruct (Bx k regs ret) as (ps & E & _). by exists ps.
Qed.

(** What the tables hold between [i] and [j]. *)
Definition entry (ending : string) (i j : Z) (table : gmap Z string) (k : Z) : option string :=
  if bool_decide (i ≤ k < j) && interesting config k
  then match st_name (syscall_row k) with Some n => Some (n +:+ ending) | None => table !! k end
  else table !! k.

Lemma entry_skip ending i j table k : interesting config i = false → entry ending (i + 1) j table k = entry ending i j table k.
Proof.
  intros Hi. unfold entry. destruct (decide (k = i)) as [->|Hk]; [by rewrite Hi, !andb_false_r|].
  by rewrite (bool_decide_ext (i + 1 ≤ k < j) (i ≤ k < j)) by lia.
Qed.

Lemma entry_none ending i j table k : st_name (syscall_row i) = None → entry ending (i + 1) j table k = entry ending i j table k.
Proof.
  intros Hi. unfold entry. destruct (decide (k = i)) as [->|Hk].
  - rewrite bool_decide_eq_false_2 by lia. cbn [andb]. rewrite Hi. by destruct (_ && _).
  - by rewrite (bool_decide_ext (i + 1 ≤ k < j) (i ≤ k < j)) by lia.
Qed.

Lemma entry_insert ending i j table n k :
  interesting config i = true → i < j → st_name (syscall_row i) = Some n →
  entry ending (i + 1) j (<[i := n +:+ ending]> table) k = entry ending i j table k.
Proof.
  intros Hi Hj Hn. unfold entry. destruct (decide (k = i)) as [->|Hk].
  - rewrite bool_decide_eq_false_2, bool_decide_eq_true_2, Hi, Hn by lia. cbn. by rewrite lookup_insert_eq.
  - rewrite (bool_decide_ext (i + 1 ≤ k < j) (i ≤ k < j)) by lia. by rewrite lookup_insert_ne by done.
Qed.

Lemma add_named_ok n i table p :
  object_program n = Some p → add_named h log (Some n) i table = Ret [] (0, <[i := n]> table).
Proof.
  intros Hp. cbn [add_named]. unfold linx_ebpf_add_prog_to_tail_table. rewrite Hp.
  rewrite (proj2 (Z.leb_gt _ 0)) by apply Hh. by rewrite (hw_update Hh).
Qed.

Lemma tail_tables_spec n i enter exit :
  0 ≤ i → i + Z.of_nat n ≤ LINX_SYSCALL_MAX_IDX →
  ∃ enter' exit', tail_loop h log config n i enter exit = Ret [] (0, (enter', exit'))
    ∧ ∀ k, enter' !! k = entry "_e" i (i + Z.of_nat n) enter k ∧ exit' !! k = entry "_x" i (i + Z.of_nat n) exit k.
Proof.
  revert i enter exit. induction n as [|n IH]; intros i enter exit Hi Hn; cbn [tail_loop].
  { exists enter, exit. split; [done|]. intros k. unfold entry. by rewrite !bool_decide_eq_false_2 by lia. }
  replace (i + Z.of_nat (S n)) with (i + 1 + Z.of_nat n) in * by lia. rewrite table_row, bind_Ret_nil by lia.
  destruct (interesting config i) eqn:Hint; cbn [negb].
  2:{ rewrite debug_text. destruct (IH (i + 1) enter exit) as (e' & x' & H1 & H2); [lia..|]. exists e', x'. split; [done|].
      intros k. destruct (H2 k) as [-> ->]. by rewrite !(entry_skip _ i). }
  destruct (row_program_names i) as [(nm & Hr & Hnm & Hp)|Hz].
  - destruct (row_finds _ _ Hr Hnm) as (e & x & He & Hx & _). rewrite Hp.
    change ([Some (nm +:+ "_e"); Some (nm +:+ "_x")] !! Z.to_nat LINX_SYSCALL_TYPE_ENTER) with (Some (Some (nm +:+ "_e"))).
    change ([Some (nm +:+ "_e"); Some (nm +:+ "_x")] !! Z.to_nat LINX_SYSCALL_TYPE_EXIT) with (Some (Some (nm +:+ "_x"))). cbn [from_opt]. rewrite !bind_ret_l.
    rewrite (add_named_ok _ _ _ _ He), bind_Ret_nil. cbn [negb Z.eqb]. rewrite (add_named_ok _ _ _ _ Hx), bind_Ret_nil. cbn [negb Z.eqb].
    destruct (IH (i + 1) (<[i := nm +:+ "_e"]> enter) (<[i := nm +:+ "_x"]> exit)) as (e' & x' & H1 & H2); [lia..|].
    exists e', x'. split; [done|]. intros k. destruct (H2 k) as [-> ->]. rewrite (entry_insert "_e" i) by (exact Hint || exact Hnm || lia).
    by rewrite (entry_insert "_x" i) by (exact Hint || exact Hnm || lia).
  - rewrite Hz. change (ebpf_prog_name zero_row !! Z.to_nat LINX_SYSCALL_TYPE_ENTER) with (Some (@None string)).
    change (ebpf_prog_name zero_row !! Z.to_nat LINX_SYSCALL_TYPE_EXIT) with (Some (@None string)). cbn [from_opt]. rewrite !bind_ret_l.
    cbn [add_named]. do 2 (rewrite bind_ret_l; cbn [negb Z.eqb]). destruct (IH (i + 1) enter exit) as (e' & x' & -> & H2); [lia..|]. exists e', x'. split; [done|].
    intros k. destruct (H2 k) as [-> ->]. by rewrite !(entry_none _ i) by (by rewrite Hz).
Qed.

Lemma disable_program_tables row prog s :
  ∃ s', disable_program h log row prog s = Ret [] s'
    ∧ Engine.syscall_enter_tail_table s' = Engine.syscall_enter_tail_table s
    ∧ Engine.syscall_exit_tail_table s' = Engine.syscall_exit_tail_table s
    ∧ Engine.g_filter_pids s' = Engine.g_filter_pids s ∧ Engine.g_filter_comms s' = Engine.g_filter_comms s.
Proof.
  destruct prog as [n|]; cbn [disable_program]; [|rewrite debug_text; by exists s].
  destruct (object_program n); [|rewrite debug_text; by exists s]. eexists. split; [reflexivity|].
  by destruct (_ =? 0).
Qed.

Lemma disable_loop_tables n i s :
  0 ≤ i → i + Z.of_nat n ≤ LINX_SYSCALL_MAX_IDX →
  ∃ s', disable_loop h log config n i s = Ret [] s'
    ∧ Engine.syscall_enter_tail_table s' = Engine.syscall_enter_tail_table s
    ∧ Engine.syscall_exit_tail_table s' = Engine.syscall_exit_tail_table s
    ∧ Engine.g_filter_pids s' = Engine.g_filter_pids s ∧ Engine.g_filter_comms s' = Engine.g_filter_comms s.
Proof.
  revert i s. induction n as [|n IH]; intros i s Hi Hn; cbn [disable_loop]; [by exists s|].
  rewrite table_row, bind_Ret_nil by lia. destruct (interesting config i).
  - rewrite debug_text, bind_ret_l. apply IH; lia.
  - assert (∃ e x, ebpf_prog_name (syscall_row i) = [e; x]) as (e & x & ->).
    { destruct (row_program_names i) as [(nm & _ & _ & ->)| ->]; [eauto|by eexists _, _]. }
    change ([e; x] !! 0%nat) with (Some e). change ([e; x] !! 1%nat) with (Some x). cbn [from_opt]. rewrite !bind_ret_l.
    destruct (disable_program_tables (syscall_row i) e s) as (s1 & -> & E1). rewrite bind_Ret_nil, bind_ret_l.
    destruct (disable_program_tables (syscall_row i) x s1) as (s2 & -> & E2). rewrite bind_Ret_nil.
    destruct (IH (i + 1) s2) as (s3 & E & E3); [lia..|]. exists s3. split; [done|]. destruct E1 as (?&?&?&?), E2 as (?&?&?&?), E3 as (?&?&?&?). repeat split; congruence.
Qed.

(** The configuration: 453 switches of a byte, names that end in their arrays. *)
Record open_config_ok : Prop := {
  co_pids : (length (oc_filter_pids config) ≤ 64)%nat;
  co_comms : (length (oc_filter_comms config) ≤ 16)%nat;
  co_names : Forall (λ x, len (text x) < LINX_COMM_MAX_SIZE ∧ no_nul (text x) = true) (oc_filter_comms config)
}.

(** What keeps the events of a process back. *)
Definition held_back (c : ckernel) : bool :=
  Engine.check_pid_need_filtered (oc_filter_pids config) (wrap 32 (bpf_get_current_pid_tgid (ck_kernel c)))
  || named (oc_filter_comms config) (bpf_get_current_comm (ck_kernel c)) || oc_drop_mode config.

Lemma ebpf_init_works :
  open_config_ok →
  ∃ s, linx_ebpf_init h log config = Ret [] (0, Skel s)
    ∧ (∀ k, Engine.syscall_enter_tail_table s !! k = entry "_e" 0 453 ∅ k ∧ Engine.syscall_exit_tail_table s !! k = entry "_x" 0 453 ∅ k)
    ∧ Engine.g_interesting_syscalls_table s = oc_interest_syscall_table config
    ∧ Engine.g_drop_failed s = Z.b2z (oc_drop_failed config)
    ∧ ∀ c, filtered s c = held_back c.
Proof.
  intros [Hp Hc Hn]. unfold linx_ebpf_init, linx_ebpf_open. rewrite (hw_open Hh), bind_ret_l.
  unfold unless_failed at 5. cbn [fst snd Z.eqb negb]. unfold linx_ebpf_maps_before_load.
  rewrite (proj2 (Z.eqb_neq _ _) (hw_sysconf Hh)). cbn [Engine.read_skel]. rewrite bind_ret_l, (hw_set_max_entries Hh). cbn [negb Z.eqb].
  rewrite bind_ret_l. unfold unless_failed at 4. cbn [fst snd Z.eqb negb]. unfold linx_ebpf_load. cbn [Engine.read_skel]. rewrite bind_ret_l.
  destruct (disable_loop_tables (Z.to_nat LINX_SYSCALL_MAX_IDX) 0 Engine.linx_bpf_zero) as (s1 & -> & He & Hx & Ep & Ec); [done..|].
  rewrite bind_Ret_nil, (hw_load Hh). cbn [negb Z.eqb]. rewrite bind_ret_l.
  unfold unless_failed at 3. cbn [fst snd Z.eqb negb]. unfold linx_ebpf_ringbuf_init. cbn [Engine.read_skel]. rewrite bind_ret_l, (hw_ring Hh).
  rewrite bind_ret_l. unfold unless_failed at 2. cbn [fst snd Z.eqb negb]. unfold linx_ebpf_load_tail_call_map. cbn [Engine.read_skel].
  rewrite bind_ret_l. destruct (tail_tables_spec (Z.to_nat LINX_SYSCALL_MAX_IDX) 0 (Engine.syscall_enter_tail_table s1)
    (Engine.syscall_exit_tail_table s1)) as (enter & exit & -> & Ht); [done..|]. rewrite bind_Ret_nil, bind_ret_l.
  unfold unless_failed. cbn [fst snd Z.eqb negb]. unfold linx_ebpf_probe_load. cbn [Engine.read_skel].
  rewrite bind_ret_l, (hw_enter Hh), (hw_exit Hh). cbn [negb].
  assert (∀ {A} (k : unit → outcome A), ((if negb (Engine.h_attach h "xdp_pass") then LINX_LOG log LINX_LOG_ERROR else mret ()) ≫= k) = k ()) as Hxdp.
  { intros A k. destruct (negb _); [rewrite LINX_LOG_open by done|]; apply bind_ret_l. }
  rewrite Hxdp, bind_ret_l. cbn [fst snd Z.eqb negb]. unfold linx_get_boot_time.
  destruct (hw_clocks Hh) as [[b ->] [w ->]]. rewrite bind_ret_l. cbn [Engine.read_skel]. rewrite bind_ret_l.
  unfold set_variables, linx_ebpf_set_filter_comms, linx_ebpf_set_filter_pids, Engine.linx_ebpf_set_boot_time, Engine.set_tables.
  cbn [Engine.g_filter_comms Engine.g_filter_pids with_filters]. rewrite Ec, Ep. cbn [Engine.linx_bpf_zero Engine.g_filter_comms Engine.g_filter_pids].
  destruct (copy_comms_check log Hlog (oc_filter_comms config) 16 0 Hn Hc) as (comms & -> & Hcomms).
  rewrite bind_Ret_nil, !bind_ret_l. eexists. split; [reflexivity|]. split; [|split; [reflexivity|split; [reflexivity|]]].
  - intros k. destruct (Ht k) as [H1 H2]. rewrite He, Hx in *. split; [exact H1|exact H2].
  - intros c. unfold filtered, Engine.filtered, held_back.
    cbn [Engine.g_filter_pids Engine.g_filter_comms Engine.g_drop_mode linx_ebpf_set_interesting_syscalls_table Engine.linx_ebpf_set_drop_failed
      Engine.linx_ebpf_set_drop_mode with_filters].
    rewrite copied_pids_check, Hcomms by done. by destruct (oc_drop_mode config).
Qed.
End tables.

(** C11: once the collector has started, an observed system call runs its own
    program and no other: at the entry and at the return of every call of the
    table that is of interest, in a process that is neither filtered by number
    nor by name, the program with the name of the call runs, except for failed
    calls when these are dropped; otherwise nothing is sent. *)
Theorem collector_dispatches h log config :
  log_file log ≠ NoFile → LINX_LOG_DEBUG < log_level log → host_works h → open_config_ok config →
  ∃ s, linx_ebpf_init h log config = Ret [] (0, Skel s)
    ∧ ∀ r n, r ∈ syscall_rows → st_name r = Some n →
        ∃ e x, (n +:+ "_e", e) ∈ collector_programs ∧ (n +:+ "_x", x) ∈ collector_programs ∧ ∀ c regs rb,
          sys_enter s c regs (st_id r) rb
          = (if held_back config c || negb (interesting config (st_id r)) then Ret [] (rb, None)
             else run_program e (with_boot_time s c) regs (st_id r) rb)
          ∧ (get_syscall_id regs = st_id r → ∀ ret, sys_exit s c regs ret rb
             = if held_back config c || negb (interesting config (st_id r)) || (oc_drop_failed config && (ret <? 0))
               then Ret [] (rb, None) else run_program x (with_boot_time s c) regs ret rb).
Proof.
  intros Hlog Hlevel Hh Hc. destruct (ebpf_init_works h log config Hlog Hlevel Hh Hc) as (s & E & Ht & Hi & Hd & Hf).
  exists s. split; [exact E|]. intros r n Hr Hn. destruct (row_bounds r Hr) as [Hb _].
  destruct (row_program r Hr) as ([en e] & [xn x] & (n' & Hn' & Ee & Ex & _) & Ie & Ix).
  assert (n' = n) as -> by congruence. cbn [fst] in Ee, Ex. subst en xn. exists e, x. split; [exact Ie|]. split; [exact Ix|].
  assert (object_program (n +:+ "_e") = Some e) as Fe by exact (find_program_in _ _ _ collector_names Ie).
  assert (object_program (n +:+ "_x") = Some x) as Fx by exact (find_program_in _ _ _ collector_names Ix).
  intros c regs rb. change LINX_SYSCALL_MAX_IDX with 453 in Hb.
  assert ((Engine.check_interesting_syscall s (st_id r) =? 0) = negb (interesting config (st_id r))) as Hint.
  { rewrite Engine.check_interesting_spec by done. rewrite Hi. unfold interesting. by rewrite negb_involutive. }
  destruct (Ht (st_id r)) as [He Hx]. unfold entry in He, Hx.
  rewrite bool_decide_eq_true_2, (syscall_row_in r Hr), Hn in He, Hx by done. cbn [andb] in He, Hx.
  assert (wrap 32 (st_id r) = st_id r) as Hw by (apply wrap_small; change (2 ^ 32) with 4294967296; lia). split.
  - unfold sys_enter. rewrite Hf, Hint. destruct (held_back config c); [done|]. cbn [orb].
    destruct (interesting config (st_id r)); [|done]. cbn [negb]. unfold bpf_tail_call.
    rewrite Hw, He. cbn [mbind option_bind]. by rewrite Fe.
  - intros Hid ret. unfold sys_exit. rewrite Hid, Hf, Hint. destruct (held_back config c); [done|]. cbn [orb].
    destruct (interesting config (st_id r)); [|done]. cbn [negb orb]. rewrite Hd.
    destruct (oc_drop_failed config); cbn [Z.b2z Z.eqb negb andb].
    + destruct (ret <? 0); [done|]. unfold bpf_tail_call. rewrite Hw, Hx. cbn [mbind option_bind]. by rewrite Fx.
    + unfold bpf_tail_call. rewrite Hw, Hx. cbn [mbind option_bind]. by rewrite Fx.
Qed.

(** ** Examples *)
Definition host_works_ex : Engine.host :=
  Engine.mk_host true 8 0 (λ _, 0) 0 true (λ _, 5) (λ _ _, 0) (λ _, true) (Some (100, 0)) (Some (1700000000, 0)).

(** The default configuration collects unlinkat alone. *)
Lemma collector_dispatches_ex :
  ∃ s x, linx_ebpf_init host_works_ex open_log_ex (open_config g_plugin_config) = Ret [] (0, Skel s)
    ∧ sys_exit s ckernel_ex unlinkat_regs_ex 0 collector_ringbuf_ex
      = run_program x (with_boot_time s ckernel_ex) unlinkat_regs_ex 0 collector_ringbuf_ex
    ∧ sys_enter s ckernel_ex unlinkat_regs_ex 0 collector_ringbuf_ex = Ret [] (collector_ringbuf_ex, None).
Proof.
  destruct (collector_dispatches host_works_ex open_log_ex (open_config g_plugin_config)) as (s & E & H).
  - done.
  - done.
  - split; try done; cbn; try lia; split; by eexists.
  - split; cbn; [lia|lia|]. repeat constructor.
  - destruct (H syscall_unlinkat "unlinkat" unlinkat_in eq_refl) as (e & x & _ & _ & Hx).
    assert (syscall_read ∈ syscall_rows) as Hread by (apply list_elem_of_lookup_2 with (i := 0%nat); reflexivity).
    destruct (H syscall_read "read" Hread eq_refl) as (e' & x' & _ & _ & He).
    exists s, x. split; [exact E|]. split.
    + destruct (Hx ckernel_ex unlinkat_regs_ex collector_ringbuf_ex) as [_ Hx']. rewrite (Hx' eq_refl 0). reflexivity.
    + destruct (He ckernel_ex unlinkat_regs_ex collector_ringbuf_ex) as [He' _]. exact He'.
Defined.
