(* ===== verification/PluginLine.v ===== *)
(** * The line of an event (kernel/ebpf/plugin/linx_event_putfile/linx_event_putfile.c)

    For the file of events a line with every field is printed into a block of
    8 KB and written.  When a field does not fit the line is dropped and the
    block is lost. *)
From S2P Require Import Prelude CString Memory EventType Bpf SyscallTable CollectorPath CollectorRing PluginFormat.
From S2P Require Import PluginLog PluginFile PluginConfig.
From Stdlib Require Import Ascii.

#[local] Open Scope Z_scope.

Section line.
Context (m : machine) (str_max_size : Z) (mem : memory) (event : linx_event_t).

(** ** Printing

    The functions print at [buf + byte_write] with what is left of the block;
    the macro does so too, its last argument is evaluated every time. *)
Definition LINX_EVENT_PUTFILE_FUNC (name : string) (f : formatter) : list piece := [Text (name +:+ "="); Sub f; Text ", "].

Definition linx_event_putfile_normal_time : list piece := [Text "["; Sub (linx_event_get_time m event); Text "]: "].

Definition linx_event_putfile_normal_sysname : list piece := [Sub (linx_event_get_syscall_name event); Text ", "].

Definition linx_event_putfile_normal_fds : list piece := [Text "fds=["; Sub (linx_event_get_fds event); Text "]"].

Definition line_steps : list (list piece) :=
  [linx_event_putfile_normal_time; linx_event_putfile_normal_sysname;
   LINX_EVENT_PUTFILE_FUNC "syscall_id" (linx_event_get_syscall_id event);
   LINX_EVENT_PUTFILE_FUNC "dir" (linx_event_get_dir event);
   LINX_EVENT_PUTFILE_FUNC "res" (linx_event_get_res event);
   LINX_EVENT_PUTFILE_FUNC "user" (linx_event_get_user m event);
   LINX_EVENT_PUTFILE_FUNC "comm" (linx_event_get_comm event);
   LINX_EVENT_PUTFILE_FUNC "cmdline" (linx_event_get_cmdline event);
   LINX_EVENT_PUTFILE_FUNC "pid" (linx_event_get_pid event);
   LINX_EVENT_PUTFILE_FUNC "tid" (linx_event_get_tid event);
   LINX_EVENT_PUTFILE_FUNC "ppid" (linx_event_get_ppid event);
   LINX_EVENT_PUTFILE_FUNC "args" (linx_event_get_args mem str_max_size event);
   linx_event_putfile_normal_fds; [Text (String "010"%char "")]].

(** [None] when a step fails. *)
Fixpoint run_steps (steps : list (list piece)) (bw : Z) (buf : list Z) : outcome (option (Z * list Z)) :=
  match steps with
  | [] => mret (Some (bw, buf))
  | ps :: steps =>
      '(r, buf) ← run_pieces ps 0 LINX_EVENT_PUTLINE_MAX_LEN bw buf;
      if r <? 0 then mret None else run_steps steps r buf
  end.

(** ** Writing *)
Section write.
Context (h : file_host) (log : linx_log_t).

Definition linx_event_putfile_normal (w : file_world) : outcome file_world :=
  r ← run_steps line_steps 0 (replicate (Z.to_nat LINX_EVENT_PUTLINE_MAX_LEN) 0);
  match r with
  | None => _ ← LINX_LOG log LINX_LOG_ERROR; mret w
  | Some (byte_write, buf) =>
      '(ret, w) ← linx_event_putfile_write h log (take (Z.to_nat byte_write) buf) w;
      _ ← (if ret <? 0 then LINX_LOG log LINX_LOG_ERROR else mret ());
      mret w
  end.

(** The format "json" writes nothing. *)
Definition linx_event_putfile (o : output_config_t) (w : file_world) : outcome file_world :=
  if negb (oc_put_flag o) then _ ← LINX_LOG log LINX_LOG_DEBUG; mret w
  else if oc_format o =? 0 then _ ← LINX_LOG log LINX_LOG_DEBUG; linx_event_putfile_normal w
  else if oc_format o =? 1 then _ ← LINX_LOG log LINX_LOG_DEBUG; mret w
  else _ ← LINX_LOG log LINX_LOG_WARNING; mret w.
End write.
End line.

(** ** Lemmas *)
Lemma pieces_fit_app a b size w : pieces_fit (a ++ b) size w = pieces_fit a size w && pieces_fit b size (w + len (pieces_text a)).
Proof.
  revert w. induction a as [|[s [fit|]] a IH]; intros w; cbn [app pieces_fit].
  - change (len (pieces_text [])) with 0. by rewrite Z.add_0_r.
  - rewrite IH, pieces_text_cons, len_app, Z.add_assoc. by rewrite andb_assoc.
  - rewrite IH, pieces_text_cons, len_app, Z.add_assoc. by rewrite andb_assoc.
Qed.

Lemma pieces_text_app a b : pieces_text (a ++ b) = pieces_text a +:+ pieces_text b.
Proof.
  induction a as [|x a IH]; [done|]. cbn [app]. by rewrite !pieces_text_cons, IH, sapp_assoc.
Qed.

Lemma pieces_fit_below l size w :
  0 ≤ w < size → Forall (λ x : piece_shape, match x with (s, Some fit) => ∀ n, fit n = true → len s < n | _ => True end) l →
  pieces_fit l size w = true → w + len (pieces_text l) < size.
Proof. apply pieces_fit_len. Qed.

Lemma piece_when_fit ps l : Forall2 piece_when ps l →
  Forall (λ x : piece_shape, match x with (s, Some fit) => ∀ n, fit n = true → len s < n | _ => True end) l.
Proof.
  induction 1 as [|p [s [fit|]] ps l Hp _ IH]; constructor; try done. destruct p; [done|]. apply (pw_fit _ _ _ Hp).
Qed.

Lemma run_steps_when steps shapes s buf :
  Forall2 (Forall2 piece_when) steps shapes → Z.of_nat (length buf) = LINX_EVENT_PUTLINE_MAX_LEN →
  len s < LINX_EVENT_PUTLINE_MAX_LEN → holds buf 0 s → pieces_fit (concat shapes) LINX_EVENT_PUTLINE_MAX_LEN (len s) = true →
  ∃ buf', run_steps steps (len s) buf = Ret [] (Some (len (s +:+ pieces_text (concat shapes)), buf'))
    ∧ holds buf' 0 (s +:+ pieces_text (concat shapes)).
Proof.
  intros Hs. revert s buf. induction Hs as [|ps l steps shapes Hp Hs IH]; intros s buf Hl Hlen Hh Hfit; cbn [run_steps concat] in *.
  { exists buf. change (pieces_text []) with "". by rewrite sapp_nil_r. }
  rewrite pieces_fit_app in Hfit. apply andb_true_iff in Hfit as [Hf1 Hf2]. rewrite <- len_app in Hf2.
  destruct (run_pieces_when ps l 0 LINX_EVENT_PUTLINE_MAX_LEN s buf) as (buf1 & E & [Hlen1 _] & Hh1);
    [done|done|done|lia|done|done|done|]. rewrite E, bind_Ret_nil.
  pose proof (len_nonneg (s +:+ pieces_text l)). rewrite (proj2 (Z.ltb_ge _ 0)) by done.
  pose proof (pieces_fit_below l _ _ ltac:(split; [apply len_nonneg|exact Hlen]) (piece_when_fit _ _ Hp) Hf1) as Hb.
  destruct (IH (s +:+ pieces_text l) buf1) as (buf2 & E2 & Hh2); [lia|by rewrite len_app|done|done|].
  exists buf2. rewrite pieces_text_app, <- sapp_assoc. done.
Qed.

Lemma holds_take buf s : holds buf 0 s → take (strlen s) buf = codes s.
Proof.
  intros [Hb _]. apply list_eq. intros i. destruct (decide (i < strlen s)%nat).
  - rewrite lookup_take_lt by done. destruct (lookup_lt_is_Some_2 (codes s) i) as [b E]; [by rewrite codes_length|].
    rewrite E. by apply Hb.
  - rewrite lookup_take_ge by lia. symmetry. apply lookup_ge_None_2. rewrite codes_length. lia.
Qed.

(** ** What is written *)
Section facts.
Context (m : machine) (str_max_size : Z) (mem : memory) (e : linx_event_t).
Context (row : linx_syscall_table_t) (name : string) (args : list (string * string)).

Definition field (name text : string) (fit : Z → bool) : list piece_shape := [(name +:+ "=", None); (text, Some fit); (", ", None)].

Definition simple (name text : string) : list piece_shape := field name text (text_fits text).

Definition fd_list : list string := fd_texts e (λ fd path, both (fmt_d fd) path).

Definition line_shapes : list (list piece_shape) :=
  [[("[", None); (time_text m e, Some (text_fits (time_text m e))); ("]: ", None)];
   [(name, Some (text_fits name)); (", ", None)];
   simple "syscall_id" (fmt_d (ev_syscall_id e)); simple "dir" (dir_text e); simple "res" (fmt_ld (ev_res e));
   simple "user" (user_text m e); simple "comm" (ev_comm e); simple "cmdline" (ev_cmdline e);
   simple "pid" (fmt_lu (ev_pid e)); simple "tid" (fmt_lu (ev_tid e));
   field "ppid" (both (fmt_lu (ev_ppid e)) (ev_p_fullpath e)) (both_fits (fmt_lu (ev_ppid e)) (ev_p_fullpath e));
   field "args" (args_text args) (λ size, (0 <? size) && pieces_fit (("(", None) :: args_shapes args) size 0);
   [("fds=[", None); (String.concat ", " fd_list, Some (fds_fit fd_list)); ("]", None)];
   [(String "010"%char "", None)]].

(** The line, and whether it fits. *)
Definition line_text : string :=
  "[" +:+ time_text m e +:+ "]: " +:+ name +:+ ", syscall_id=" +:+ fmt_d (ev_syscall_id e) +:+ ", dir=" +:+ dir_text e
  +:+ ", res=" +:+ fmt_ld (ev_res e) +:+ ", user=" +:+ user_text m e +:+ ", comm=" +:+ ev_comm e
  +:+ ", cmdline=" +:+ ev_cmdline e +:+ ", pid=" +:+ fmt_lu (ev_pid e) +:+ ", tid=" +:+ fmt_lu (ev_tid e)
  +:+ ", ppid=" +:+ both (fmt_lu (ev_ppid e)) (ev_p_fullpath e) +:+ ", args=" +:+ args_text args
  +:+ ", fds=[" +:+ String.concat ", " fd_list +:+ "]" +:+ String "010"%char "".

Definition line_fits : bool := pieces_fit (concat line_shapes) LINX_EVENT_PUTLINE_MAX_LEN 0.

Lemma line_shapes_text : pieces_text (concat line_shapes) = line_text.
Proof.
  unfold line_text, line_shapes, simple, field. cbn [concat app]. rewrite !pieces_text_cons. cbn [fst].
  change (pieces_text []) with "". rewrite !sapp_nil_r, !sapp_assoc. reflexivity.
Qed.

Context (Hrow : g_linx_syscall_table (ev_syscall_id e) = Ret [] row) (Hname : st_name row = Some name).
Context (Hnum : Z.to_nat (enter_num row) = length args).
Context (data : Z) (Hargs : reads mem str_max_size row 0 LINX_EVENT_HEADER_SIZE args data).
Context (Hfds : (Z.to_nat (ev_nfds e) ≤ length (ev_fds e))%nat) (Hpaths : (Z.to_nat (ev_nfds e) ≤ length (ev_fd_path e))%nat).

Lemma func_when n f s fit : prints_as f s fit → Forall2 piece_when (LINX_EVENT_PUTFILE_FUNC n f) (field n s fit).
Proof. intros H. constructor; [done|]. constructor; [by apply prints_as_when|]. constructor; [done|constructor]. Qed.

Lemma text_when s : Forall2 piece_when [Text s] [(s, None)].
Proof. constructor; [done|constructor]. Qed.

Lemma line_steps_when : Forall2 (Forall2 piece_when) (line_steps m str_max_size mem e) line_shapes.
Proof.
  unfold line_steps, line_shapes, simple.
  repeat match goal with |- Forall2 (Forall2 _) _ _ => constructor end.
  all: try (apply func_when; solve [eauto with prints nocore]).
  - constructor; [done|]. constructor; [apply get_time_prints|apply text_when].
  - constructor; [|apply text_when]. apply prints_as_when. by eapply get_syscall_name_prints.
  - apply func_when. by eapply get_args_prints.
  - constructor; [done|]. constructor; [by apply get_fds_when|apply text_when].
  - apply text_when.
Qed.

Lemma event_line_printed :
  line_fits = true →
  ∃ buf, run_steps (line_steps m str_max_size mem e) 0 (replicate (Z.to_nat LINX_EVENT_PUTLINE_MAX_LEN) 0)
    = Ret [] (Some (len line_text, buf)) ∧ take (Z.to_nat (len line_text)) buf = codes line_text.
Proof.
  intros Hf. destruct (run_steps_when _ _ "" (replicate (Z.to_nat LINX_EVENT_PUTLINE_MAX_LEN) 0) line_steps_when) as (buf & E & Hh).
  - rewrite length_replicate. done.
  - done.
  - split; [by intros [|]|]. apply lookup_replicate_2.
    change LINX_EVENT_PUTLINE_MAX_LEN with 8192. change (Z.to_nat 0 + strlen "")%nat with 0%nat. lia.
  - exact Hf.
  - rewrite line_shapes_text in *. exists buf. split; [exact E|]. unfold len. rewrite Nat2Z.id. by apply holds_take.
Qed.
End facts.

(** C22: the file of events describes them: for an event of a call of the
    table, whose arguments can be read, one line is added to the file with the
    time, the call and its number, the direction, the result, the user, the
    command, the process, the thread, the parent, the arguments and the
    descriptors; unless the line crosses the end of the window, where it is
    written outside of the mapping. *)
Theorem event_line_written m str_max_size mem e row name args data h log o w bs :
  log_file log ≠ NoFile → (∀ n, h_ftruncate h n = true) → (∀ n, h_mmap h n = true) →
  g_linx_syscall_table (ev_syscall_id e) = Ret [] row → st_name row = Some name → Z.to_nat (enter_num row) = length args →
  reads mem str_max_size row 0 LINX_EVENT_HEADER_SIZE args data →
  (Z.to_nat (ev_nfds e) ≤ length (ev_fds e))%nat → (Z.to_nat (ev_nfds e) ≤ length (ev_fd_path e))%nat →
  line_fits m e name args = true → oc_put_flag o = true → oc_format o = 0 → window_ok w bs →
  let line := codes (line_text m e name args) in
  if LINX_EVENT_MAP_WINDOW_SIZE <? Z.of_nat (length bs) `mod` LINX_EVENT_MAP_WINDOW_SIZE + Z.of_nat (length line)
  then linx_event_putfile m str_max_size mem e h log o w = Ub OutOfBounds
  else ∃ w', linx_event_putfile m str_max_size mem e h log o w = Ret [] w' ∧ window_ok w' (bs ++ line).
Proof.
  intros Hlog Hf Hm Hrow Hname Hnum Hargs Hfds Hpaths Hfit Hput Hfmt Hw line.
  destruct (event_line_printed m str_max_size mem e row name args Hrow Hname Hnum data Hargs Hfds Hpaths Hfit) as (buf & E & Hb).
  assert (0 < Z.of_nat (length line) ≤ LINX_EVENT_PUTLINE_MAX_LEN) as Hlen.
  { unfold line. rewrite codes_length. change (Z.of_nat (strlen (line_text m e name args))) with (len (line_text m e name args)). split.
    - unfold line_text. rewrite len_app. change (len "[") with 1. match goal with |- _ < 1 + len ?s => pose proof (len_nonneg s) end. lia.
    - apply (pieces_fit_below _ LINX_EVENT_PUTLINE_MAX_LEN 0) in Hfit; [rewrite line_shapes_text in Hfit; lia|done|].
      pose proof (line_steps_when m str_max_size mem e row name args Hrow Hname Hnum data Hargs Hfds Hpaths) as Hs.
      apply Forall_concat. clear -Hs. induction Hs as [|ps l steps shapes H _ IH]; constructor; [by eapply piece_when_fit|done]. }
  assert (linx_event_putfile m str_max_size mem e h log o w = ('(_, w') ← linx_event_putfile_write h log line w; mret w')
    ∨ linx_event_putfile_write h log line w = Ub OutOfBounds
      ∧ linx_event_putfile m str_max_size mem e h log o w = Ub OutOfBounds) as Hput'.
  { unfold linx_event_putfile. rewrite Hput, Hfmt. cbn [negb Z.eqb]. rewrite LINX_LOG_open, bind_ret_l by done.
    unfold linx_event_putfile_normal. rewrite E, bind_Ret_nil, Hb. fold line.
    pose proof (putfile_write_cases h log Hf Hm w bs line Hw Hlen) as Hc. destruct (_ <? _); [right; by rewrite Hc|left].
    destruct Hc as (w' & -> & _). rewrite !bind_Ret_nil. rewrite (proj2 (Z.ltb_ge _ 0)) by lia. by rewrite bind_ret_l. }
  pose proof (putfile_write_cases h log Hf Hm w bs line Hw Hlen) as Hc.
  destruct (_ <? _).
  - destruct Hput' as [->|[_ ->]]; [by rewrite Hc|done].
  - destruct Hc as (w' & Ew & Hw'). exists w'. split; [|done]. destruct Hput' as [->|[E' _]]; [by rewrite Ew|congruence].
Qed.

(** ** Examples

    getpid, called by a shell. *)
Definition machine_ex : machine :=
  mk_machine (λ u, if u =? 0 then Some "root" else None) (λ g, if g =? 0 then Some "root" else None) (λ _, "2023-11-14 22:13:20").

Definition event_ex : linx_event_t :=
  mk_event 77 77 1 0 1000 1700000000000000005 77 1 39 1 (replicate 12 0) ("/dev/null" :: replicate 11 "") "sh" "sh -c id" "/usr/bin/sh"
    "init" (replicate 6 0).

Definition line_ex : string :=
  "[2023-11-14 22:13:20.000000005]: getpid, syscall_id=39, dir=<, res=77, user=root, comm=sh, cmdline=sh -c id, "
  +:+ "pid=77, tid=77, ppid=1(init), args=(, fds=[0(/dev/null)]" +:+ String "010"%char "".

Definition window_ex : file_world :=
  mk_files (mk_putfile (Mapped 0 LINX_EVENT_MAP_WINDOW_SIZE) 0 0 LINX_EVENT_MAP_WINDOW_SIZE)
    (Some (replicate (Z.to_nat LINX_EVENT_MAP_WINDOW_SIZE) 0)).

Lemma window_ex_ok : window_ok window_ex [].
Proof.
  split; cbn [window_ex fw_putfile pf_map_offset pf_map_size pf_map pf_write_offset length]; try done.
  - by exists 0.
  - exists (replicate (Z.to_nat LINX_EVENT_MAP_WINDOW_SIZE) 0). cbn [window_ex fw_file app].
    split; [reflexivity|]. rewrite length_replicate, Z2Nat.id by done. reflexivity.
Qed.

Lemma event_line_written_ex :
  ∃ w', linx_event_putfile machine_ex 100 ∅ event_ex (file_host_ex []) open_log_ex (mk_output 7 0 "events.log" true) window_ex = Ret [] w'
    ∧ window_ok w' (codes line_ex).
Proof.
  pose proof (event_line_written machine_ex 100 ∅ event_ex syscall_getpid "getpid" [] LINX_EVENT_HEADER_SIZE (file_host_ex []) open_log_ex
    (mk_output 7 0 "events.log" true) window_ex [] ltac:(done) ltac:(done) ltac:(done) eq_refl eq_refl eq_refl
    (reads_nil _ _ _ _ _) ltac:(cbn; lia) ltac:(cbn; lia) ltac:(vm_compute; reflexivity) eq_refl eq_refl window_ex_ok) as H.
  cbv zeta in H. replace (line_text machine_ex event_ex "getpid" []) with (line_ex) in H by (vm_compute; reflexivity).
  change (LINX_EVENT_MAP_WINDOW_SIZE <? _) with false in H. exact H.
Defined.
