(* ===== verification/PluginRich.v ===== *)
(** * Fields (kernel/ebpf/plugin/linx_event_rich/linx_event_rich.c,
    plugin/plugin_field_extraction.c)

    The plugin offers thirteen fields.  The first seven are printed into a
    buffer of their own each, the others are read where they are in the event.
    The type, the user, the group and the descriptors take an argument, "key"
    or "value", for the number or the name alone. *)
From S2P Require Import Prelude CString Memory EventType Bpf SyscallTable CollectorPath CollectorRing PluginFormat.
From S2P Require Import PluginLog PluginFile PluginConfig PluginLine.
From Stdlib Require Import Ascii.

#[local] Open Scope Z_scope.

(** ** The fields (include/macro/plugin_fields_macro.h, include/plugin_field_idx.h) *)
Record field_row := mk_field_row {
  fr_idx : Z;
  fr_up_name : string;
  fr_low_name : string;
  fr_type : string;
  fr_is_list : bool;
  fr_is_required : bool;
  fr_is_index : bool;
  fr_is_key : bool;
  fr_add_output : bool;
  fr_display : string;
  fr_desc : string
}.

Definition PLUGIN_FIELDS_MACRO_ALL : list field_row :=
  [mk_field_row 0 "TYPE" "type" "string" true false false true false "" "以字符串形式输出当前触发的系统调用,可以跟上参数：[key]表示系统调用号,[value]表示系统调用名;不跟参数时默认输出:号(名)";
   mk_field_row 1 "USER" "user" "string" true false false true false "" "触发系统调用的UID,可以跟上参数：[key]表示uid,[value]表示uid对应的用户名;不跟参数时默认输出:号(名)";
   mk_field_row 2 "GROUP" "group" "string" true false false true false "" "触发系统调用的GID,可以跟上参数：[key]表示gid,[value]表示gid对应的组名;不跟参数时默认输出:号(名)";
   mk_field_row 3 "FDS" "fds" "string" true false false true false "" "触发系统调用时关联的文件,可以跟上参数：[key]表示fd,[value]表示fd对应的文件名;不跟参数时默认输出:号(名)";
   mk_field_row 4 "ARGS" "args" "string" false false false false false "" "按照一定格式输出的关于系统调用的所有相关信息";
   mk_field_row 5 "TIME" "time" "string" false false false false false "" "触发系统调用的时间";
   mk_field_row 6 "DIR" "dir" "string" true false false false false "" "标识是进入还是退出系统调用,'>'表示进入,'<' 表示退出";
   mk_field_row 7 "COMM" "comm" "string" true false false false false "" "触发系统调用的命令";
   mk_field_row 8 "PID" "pid" "uint64" true false false false false "" "触发系统调用的PID";
   mk_field_row 9 "TID" "tid" "uint64" true false false false false "" "触发系统调用的TID";
   mk_field_row 10 "PPID" "ppid" "uint64" true false false false false "" "触发系统调用的PPID";
   mk_field_row 11 "CMDLINE" "cmdline" "string" true false false false false "" "触发系统调用的cmdline";
   mk_field_row 12 "FULLPATH" "fullpath" "string" true false false false false "" "触发系统调用的命令的绝对路径"].

Definition PLUGIN_FIELDS_TYPE : Z := 0.
Definition PLUGIN_FIELDS_USER : Z := 1.
Definition PLUGIN_FIELDS_GROUP : Z := 2.
Definition PLUGIN_FIELDS_FDS : Z := 3.
Definition PLUGIN_FIELDS_ARGS : Z := 4.
Definition PLUGIN_FIELDS_TIME : Z := 5.
Definition PLUGIN_FIELDS_DIR : Z := 6.
Definition PLUGIN_FIELDS_COMM : Z := 7.
Definition PLUGIN_FIELDS_PID : Z := 8.
Definition PLUGIN_FIELDS_TID : Z := 9.
Definition PLUGIN_FIELDS_PPID : Z := 10.
Definition PLUGIN_FIELDS_CMDLINE : Z := 11.
Definition PLUGIN_FIELDS_FULLPATH : Z := 12.

(** The list of fields as the host reads it, a JSON text. *)
Definition quote : string := String "034"%char "".
Definition newline : string := String "010"%char "".
Definition tab : string := String "009"%char "".
Definition quoted (s : string) : string := quote +:+ s +:+ quote.
Definition bool_text (b : bool) : string := if b then "true" else "false".

Definition PLUGIN_FIELDS_MACRO (r : field_row) : string :=
  tab +:+ "{" +:+ newline
  +:+ tab +:+ tab +:+ quoted "type" +:+ ": " +:+ quoted (fr_type r) +:+ "," +:+ newline
  +:+ tab +:+ tab +:+ quoted "name" +:+ ": " +:+ quoted ("linx." +:+ fr_low_name r) +:+ "," +:+ newline
  +:+ tab +:+ tab +:+ quoted "isList" +:+ ": " +:+ bool_text (fr_is_list r) +:+ "," +:+ newline
  +:+ tab +:+ tab +:+ quoted "arg" +:+ ": {" +:+ newline
  +:+ tab +:+ tab +:+ tab +:+ quoted "isRequired" +:+ ": " +:+ bool_text (fr_is_required r) +:+ "," +:+ newline
  +:+ tab +:+ tab +:+ tab +:+ quoted "isIndex" +:+ ": " +:+ bool_text (fr_is_index r) +:+ "," +:+ newline
  +:+ tab +:+ tab +:+ tab +:+ quoted "isKey" +:+ ": " +:+ bool_text (fr_is_key r) +:+ newline
  +:+ tab +:+ tab +:+ "}," +:+ newline
  +:+ tab +:+ tab +:+ quoted "addOutput" +:+ ": " +:+ bool_text (fr_add_output r) +:+ "," +:+ newline
  +:+ tab +:+ tab +:+ quoted "display" +:+ ": " +:+ quoted (fr_display r) +:+ "," +:+ newline
  +:+ tab +:+ tab +:+ quoted "desc" +:+ ": " +:+ quoted (fr_desc r) +:+ newline
  +:+ tab +:+ "}," +:+ newline.

Definition plugin_fields : string :=
  "[" +:+ newline +:+ String.concat "" (PLUGIN_FIELDS_MACRO <$> PLUGIN_FIELDS_MACRO_ALL)
  +:+ "{" +:+ quoted "type" +:+ ": " +:+ quoted "string" +:+ ", " +:+ quoted "name" +:+ ": " +:+ quoted "end" +:+ ", "
  +:+ quoted "desc" +:+ ": " +:+ quoted "用于通过json检查" +:+ "}]" +:+ newline.

Definition plugin_get_fields : string := plugin_fields.

(** ** The buffers (linx_event_rich.c) *)

(** [value[PLUGIN_FIELDS_COMM]] *)
Abbreviation linx_event_rich_t := (list (list Z)).

(** What the host asks for; [arg_key] is null without a key. *)
Record extract_field := mk_extract_field {
  field_id : Z;
  arg_present : bool;
  arg_key : option string
}.

(** [calloc] answers block [i]. *)
Definition linx_event_rich_init (calloc : nat → bool) (size : Z) : option linx_event_rich_t :=
  if forallb calloc (seq 0 (Z.to_nat PLUGIN_FIELDS_COMM))
  then Some (replicate (Z.to_nat PLUGIN_FIELDS_COMM) (replicate (Z.to_nat size) 0)) else None.

Section rich.
Context (m : machine) (log : linx_log_t) (rich_value_size str_max_size : Z) (event : linx_event_t) (mem : memory).

(** A formatter on the buffer, with a message when it fails. *)
Definition get_logged (f : formatter) (buf : list Z) : outcome (Z * list Z) :=
  '(ret, buf) ← f buf 0 rich_value_size;
  _ ← (if ret <? 0 then LINX_LOG log LINX_LOG_ERROR else mret ());
  mret (ret, buf).

Definition no_field (buf : list Z) : outcome (Z * list Z) := _ ← LINX_LOG log LINX_LOG_WARNING; mret (-1, buf).

Definition linx_event_rich_msg_has_args (f : extract_field) (buf : list Z) : outcome (Z * list Z) :=
  let id := field_id f in
  if arg_present f then
    key ← from_opt NullDeref (arg_key f);
    if streq key "key" then
      if id =? PLUGIN_FIELDS_TYPE then get_logged (linx_event_get_syscall_id event) buf
      else if id =? PLUGIN_FIELDS_USER then get_logged (linx_event_get_user_id event) buf
      else if id =? PLUGIN_FIELDS_GROUP then get_logged (linx_event_get_group_id event) buf
      else if id =? PLUGIN_FIELDS_FDS then get_logged (linx_event_get_fds_id event) buf
      else no_field buf
    else if streq key "value" then
      if id =? PLUGIN_FIELDS_TYPE then get_logged (linx_event_get_syscall_name event) buf
      else if id =? PLUGIN_FIELDS_USER then get_logged (linx_event_get_user m event) buf
      else if id =? PLUGIN_FIELDS_GROUP then get_logged (linx_event_get_group m event) buf
      else if id =? PLUGIN_FIELDS_FDS then get_logged (linx_event_get_fds_name event) buf
      else no_field buf
    else mret (-1, buf)
  else
    if id =? PLUGIN_FIELDS_TYPE then get_logged (linx_event_get_syscall event) buf
    else if id =? PLUGIN_FIELDS_USER then get_logged (linx_event_get_user_all m event) buf
    else if id =? PLUGIN_FIELDS_GROUP then get_logged (linx_event_get_group_all m event) buf
    else if id =? PLUGIN_FIELDS_FDS then get_logged (linx_event_get_fds event) buf
    else no_field buf.

Definition rich_switch (f : extract_field) (buf : list Z) : outcome (Z * list Z) :=
  let offset := field_id f in
  if (offset =? PLUGIN_FIELDS_TYPE) || (offset =? PLUGIN_FIELDS_USER) || (offset =? PLUGIN_FIELDS_GROUP)
     || (offset =? PLUGIN_FIELDS_FDS)
  then
    '(ret, buf) ← linx_event_rich_msg_has_args f buf;
    _ ← (if ret <? 0 then LINX_LOG log LINX_LOG_ERROR else mret ());
    mret (ret, buf)
  else if offset =? PLUGIN_FIELDS_ARGS then get_logged (linx_event_get_args mem str_max_size event) buf
  else if offset =? PLUGIN_FIELDS_TIME then get_logged (linx_event_get_time m event) buf
  else if offset =? PLUGIN_FIELDS_DIR then get_logged (linx_event_get_dir event) buf
  else no_field buf.

Definition linx_event_rich_msg (rich : linx_event_rich_t) (f : extract_field) : outcome (Z * linx_event_rich_t) :=
  buf ← from_opt OutOfBounds (rich !! Z.to_nat (field_id f));
  '(ret, buf) ← rich_switch f buf;
  mret (if 0 <? ret then 0 else ret, <[Z.to_nat (field_id f) := buf]> rich).

(** ** Extraction (plugin_field_extraction.c) *)
Inductive extracted :=
  | ResStr (s : string)
  | ResU64 (v : Z).

(** The codes of the host's interface. *)
Inductive ss_plugin_rc :=
  | SS_PLUGIN_SUCCESS
  | SS_PLUGIN_FAILURE
  | SS_PLUGIN_TIMEOUT.

(** Result code, value and the buffers; strings are read through the pointer
    that is returned. *)
Definition extract_event_field (rich : linx_event_rich_t) (f : extract_field)
    : outcome (ss_plugin_rc * option extracted * linx_event_rich_t) :=
  let id := field_id f in
  if (0 <=? id) && (id <? PLUGIN_FIELDS_COMM) then
    '(r, rich) ← linx_event_rich_msg rich f;
    if negb (r =? 0) then mret (SS_PLUGIN_FAILURE, None, rich)
    else
      buf ← from_opt OutOfBounds (rich !! Z.to_nat id);
      mret (SS_PLUGIN_SUCCESS, Some (ResStr (text buf)), rich)
  else if id =? PLUGIN_FIELDS_COMM then mret (SS_PLUGIN_SUCCESS, Some (ResStr (ev_comm event)), rich)
  else if id =? PLUGIN_FIELDS_PID then mret (SS_PLUGIN_SUCCESS, Some (ResU64 (ev_pid event)), rich)
  else if id =? PLUGIN_FIELDS_TID then mret (SS_PLUGIN_SUCCESS, Some (ResU64 (ev_tid event)), rich)
  else if id =? PLUGIN_FIELDS_PPID then mret (SS_PLUGIN_SUCCESS, Some (ResU64 (ev_ppid event)), rich)
  else if id =? PLUGIN_FIELDS_CMDLINE then mret (SS_PLUGIN_SUCCESS, Some (ResStr (ev_cmdline event)), rich)
  else if id =? PLUGIN_FIELDS_FULLPATH then mret (SS_PLUGIN_SUCCESS, Some (ResStr (ev_fullpath event)), rich)
  else mret (SS_PLUGIN_FAILURE, None, rich).
End rich.

(** ** Lemmas *)
Inductive field_arg := NoArg | KeyArg | ValueArg.

Definition field_of (id : Z) (a : field_arg) : extract_field :=
  match a with
  | NoArg => mk_extract_field id false None
  | KeyArg => mk_extract_field id true (Some "key")
  | ValueArg => mk_extract_field id true (Some "value")
  end.

Lemma field_id_of id a : field_id (field_of id a) = id.
Proof. by destruct a. Qed.

Section facts.
Context (m : machine) (log : linx_log_t) (Hlog : log_file log ≠ NoFile) (rich_value_size str_max_size : Z).
Context (e : linx_event_t) (mem : memory) (row : linx_syscall_table_t) (name : string) (args : list (string * string)) (data : Z).
Context (Hrow : g_linx_syscall_table (ev_syscall_id e) = Ret [] row) (Hname : st_name row = Some name).
Context (Hnum : Z.to_nat (enter_num row) = length args) (Hargs : reads mem str_max_size row 0 LINX_EVENT_HEADER_SIZE args data).
Context (Hfds : (Z.to_nat (ev_nfds e) ≤ length (ev_fds e))%nat) (Hpaths : (Z.to_nat (ev_nfds e) ≤ length (ev_fd_path e))%nat).
Context (Hsize : 0 < rich_value_size < 2 ^ 63).

(** A formatter that prints into the whole buffer. *)
Definition prints_here (f : formatter) (s : string) : Prop :=
  ∀ buf, Z.of_nat (length buf) = rich_value_size →
    ∃ buf', f buf 0 rich_value_size = Ret [] (len s, buf') ∧ length buf' = length buf ∧ holds buf' 0 s.

Lemma prints_as_here f s fit : prints_as f s fit → fit rich_value_size = true → prints_here f s.
Proof.
  intros [Hr _] Hf buf Hl. destruct (Hr buf 0 rich_value_size) as (buf' & E & [Hlen _] & Hh); [lia..|].
  rewrite Hf in *. exists buf'. auto.
Qed.

Lemma get_logged_here f s buf :
  prints_here f s → Z.of_nat (length buf) = rich_value_size →
  ∃ buf', get_logged log rich_value_size f buf = Ret [] (len s, buf') ∧ length buf' = length buf ∧ holds buf' 0 s.
Proof.
  intros Hf Hl. destruct (Hf buf Hl) as (buf' & E & H). exists buf'. split; [|done]. unfold get_logged.
  rewrite E, bind_Ret_nil. pose proof (len_nonneg s). by rewrite (proj2 (Z.ltb_ge _ 0)), bind_ret_l by done.
Qed.

(** What a field shows, by its number and its argument. *)
Definition field_text (id : Z) (a : field_arg) : option (string * (Z → bool)) :=
  let simple s := Some (s, text_fits s) in
  let fds texts := if 0 <? ev_nfds e then Some (String.concat ", " texts, fds_fit texts) else None in
  match id, a with
  | 0, NoArg => simple (both (fmt_d (ev_syscall_id e)) name)
  | 0, KeyArg => simple (fmt_d (ev_syscall_id e))
  | 0, ValueArg => simple name
  | 1, NoArg => Some (both (fmt_lu (ev_uid e)) (user_text m e), both_fits (fmt_lu (ev_uid e)) (user_text m e))
  | 1, KeyArg => simple (fmt_lu (ev_uid e))
  | 1, ValueArg => simple (user_text m e)
  | 2, NoArg => Some (both (fmt_lu (ev_gid e)) (group_text m e), both_fits (fmt_lu (ev_gid e)) (group_text m e))
  | 2, KeyArg => simple (fmt_lu (ev_gid e))
  | 2, ValueArg => simple (group_text m e)
  | 3, NoArg => fds (fd_texts e (λ fd path, both (fmt_d fd) path))
  | 3, KeyArg => fds (fd_texts e (λ fd _, fmt_d fd))
  | 3, ValueArg => fds (fd_texts e (λ _ path, path))
  | 4, _ => Some (args_text args, λ size, (0 <? size) && pieces_fit (("(", None) :: args_shapes args) size 0)
  | 5, _ => simple (time_text m e)
  | 6, _ => simple (dir_text e)
  | _, _ => None
  end.

(** The formatter the two functions call. *)
Definition rich_call (id : Z) (a : field_arg) : option formatter :=
  match id, a with
  | 0, NoArg => Some (linx_event_get_syscall e)
  | 0, KeyArg => Some (linx_event_get_syscall_id e)
  | 0, ValueArg => Some (linx_event_get_syscall_name e)
  | 1, NoArg => Some (linx_event_get_user_all m e)
  | 1, KeyArg => Some (linx_event_get_user_id e)
  | 1, ValueArg => Some (linx_event_get_user m e)
  | 2, NoArg => Some (linx_event_get_group_all m e)
  | 2, KeyArg => Some (linx_event_get_group_id e)
  | 2, ValueArg => Some (linx_event_get_group m e)
  | 3, NoArg => Some (linx_event_get_fds e)
  | 3, KeyArg => Some (linx_event_get_fds_id e)
  | 3, ValueArg => Some (linx_event_get_fds_name e)
  | 4, _ => Some (linx_event_get_args mem str_max_size e)
  | 5, _ => Some (linx_event_get_time m e)
  | 6, _ => Some (linx_event_get_dir e)
  | _, _ => None
  end.

Lemma field_text_range id a x : field_text id a = Some x → id = 0 ∨ id = 1 ∨ id = 2 ∨ id = 3 ∨ id = 4 ∨ id = 5 ∨ id = 6.
Proof. clear. destruct id as [|id|id]; [tauto| |by destruct a]. do 3 (destruct id as [id|id|]; try tauto); by destruct a. Qed.

Lemma rich_call_prints id a s fit :
  field_text id a = Some (s, fit) → fit rich_value_size = true → ∃ f, rich_call id a = Some f ∧ prints_here f s.
Proof.
  intros Hs Hf. pose proof (field_text_range _ _ _ Hs) as Hid.
  destruct Hid as [->|[->|[->|[->|[->|[->| ->]]]]]]; destruct a; cbn [field_text] in Hs;
    try (destruct (Z.ltb_spec 0 (ev_nfds e)); [|done]); injection Hs as <- <-; (eexists; split; [reflexivity|]).
  all: try (eapply prints_as_here;
    [solve [eauto with prints nocore | by eapply get_args_prints | apply get_fds_prints; lia | apply get_fds_id_prints; lia
           | apply get_fds_name_prints; lia]|exact Hf]).
  all: intros buf Hl; destruct (get_time_run m e buf 0 rich_value_size) as (buf' & E & [Hlen _] & Hh); [lia..|exact Hf|];
    exists buf'; auto.
Qed.

Lemma rich_switch_call id a f buf r buf' :
  rich_call id a = Some f → get_logged log rich_value_size f buf = Ret [] (r, buf') → 0 ≤ r →
  rich_switch m log rich_value_size str_max_size e mem (field_of id a) buf = Ret [] (r, buf').
Proof.
  intros Hc Hg Hr.
  assert (id = 0 ∨ id = 1 ∨ id = 2 ∨ id = 3 ∨ id = 4 ∨ id = 5 ∨ id = 6) as Hid.
  { destruct id as [|id|id]; [tauto| |by destruct a]. do 3 (destruct id as [id|id|]; try tauto); by destruct a. }
  assert (('(ret, b) ← get_logged log rich_value_size f buf; _ ← (if ret <? 0 then LINX_LOG log LINX_LOG_ERROR else mret ()); mret (ret, b))
    = Ret [] (r, buf')) as Hw.
  { rewrite Hg, bind_Ret_nil. rewrite (proj2 (Z.ltb_ge r 0)) by done. by rewrite bind_ret_l. }
  destruct Hid as [->|[->|[->|[->|[->|[->| ->]]]]]]; destruct a; injection Hc as <-;
    unfold rich_switch, linx_event_rich_msg_has_args; cbn [field_of field_id arg_present arg_key from_opt];
    rewrite ?bind_ret_l; first [exact Hw|exact Hg].
Qed.

(** A field of an event is the text, when it fits into its buffer. *)
Lemma extract_rich_field rich id a s fit buf :
  field_text id a = Some (s, fit) → fit rich_value_size = true → no_nul s = true →
  rich !! Z.to_nat id = Some buf → Z.of_nat (length buf) = rich_value_size →
  ∃ buf', length buf' = length buf
    ∧ extract_event_field m log rich_value_size str_max_size e mem rich (field_of id a)
      = Ret [] (SS_PLUGIN_SUCCESS, Some (ResStr s), <[Z.to_nat id := buf']> rich).
Proof.
  intros Hs Hf Hn Hb Hl. destruct (rich_call_prints id a s fit Hs Hf) as (f & Hc & Hp).
  assert (0 ≤ id < PLUGIN_FIELDS_COMM) as Hid by (pose proof (field_text_range _ _ _ Hs); unfold PLUGIN_FIELDS_COMM; lia).
  destruct (get_logged_here f s buf Hp Hl) as (buf' & Hg & Hlen & Hh). exists buf'. split; [done|].
  unfold extract_event_field. rewrite field_id_of. rewrite (proj2 (Z.leb_le 0 id)), (proj2 (Z.ltb_lt id _)) by lia. cbn [andb].
  unfold linx_event_rich_msg. rewrite field_id_of, Hb. cbn [from_opt]. rewrite bind_ret_l.
  pose proof (len_nonneg s). rewrite (rich_switch_call id a f buf (len s) buf' Hc Hg) by done. rewrite bind_Ret_nil, bind_ret_l.
  replace (if 0 <? len s then 0 else len s) with 0 by (destruct (Z.ltb_spec 0 (len s)); lia). cbn [negb Z.eqb].
  rewrite list_lookup_insert_eq by (by eapply lookup_lt_Some). cbn [from_opt]. rewrite bind_ret_l.
  by rewrite (text_holds s buf' Hn Hh).
Qed.

(** The fields that are read where they are. *)
Definition plain_field (id : Z) : option extracted :=
  match id with
  | 7 => Some (ResStr (ev_comm e))
  | 8 => Some (ResU64 (ev_pid e))
  | 9 => Some (ResU64 (ev_tid e))
  | 10 => Some (ResU64 (ev_ppid e))
  | 11 => Some (ResStr (ev_cmdline e))
  | 12 => Some (ResStr (ev_fullpath e))
  | _ => None
  end.

Lemma extract_plain_field rich id a v :
  plain_field id = Some v →
  extract_event_field m log rich_value_size str_max_size e mem rich (field_of id a)
  = Ret [] (SS_PLUGIN_SUCCESS, Some v, rich).
Proof.
  clear Hsize Hpaths Hfds Hargs Hnum Hname Hrow Hlog.
  intros Hv. assert (id = 7 ∨ id = 8 ∨ id = 9 ∨ id = 10 ∨ id = 11 ∨ id = 12) as Hid.
  { destruct id as [|id|id]; try done. do 4 (destruct id as [id|id|]; try tauto; try done). }
  unfold extract_event_field. rewrite field_id_of. by destruct Hid as [->|[->|[->|[->|[->| ->]]]]]; injection Hv as <-.
Qed.

(** Without descriptors the field is what was printed for an earlier event. *)
Lemma no_fds_stale rich buf :
  ev_nfds e = 0 → rich !! 3%nat = Some buf →
  extract_event_field m log rich_value_size str_max_size e mem rich (field_of 3 NoArg)
  = Ret [] (SS_PLUGIN_SUCCESS, Some (ResStr (text buf)), rich).
Proof.
  intros Hz Hb. unfold extract_event_field. change ((0 <=? field_id (field_of 3 NoArg)) && (field_id (field_of 3 NoArg) <? PLUGIN_FIELDS_COMM)) with true.
  cbv iota. unfold linx_event_rich_msg. change (Z.to_nat (field_id (field_of 3 NoArg))) with 3%nat. rewrite Hb. cbn [from_opt]. rewrite bind_ret_l.
  rewrite (rich_switch_call 3 NoArg (linx_event_get_fds e) buf 0 buf eq_refl); [|unfold get_logged; by rewrite no_fds_untouched|done].
  rewrite bind_Ret_nil, bind_ret_l. change (negb ((if 0 <? 0 then 0 else 0) =? 0)) with false. cbv iota.
  rewrite list_insert_id by done. rewrite Hb. by cbn [from_opt].
Qed.
End facts.
