(* ===== verification/Plugin.v ===== *)
(** * The plugin (kernel/ebpf/plugin/plugin)

    The host loads the plugin, initialises it with one document, opens the
    capture with another, asks for batches of events and for fields of events,
    and closes and destroys it.  Here the parts meet: configuration, log,
    collector, fields and the file of events.

    Allocation, the files, libbpf and the host's own encoding of events are
    inputs.  Messages to the host go through [g_init_state]; what the host does
    with them is left out. *)
From S2P Require Import Prelude CString Memory EventType Bpf SyscallTable CollectorPath CollectorRing PluginFormat.
From S2P Require Import CollectorPrograms1 CollectorPrograms2 Collector PluginLog PluginFile PluginConfig PluginEbpf PluginLine PluginRich.
From S2P Require Config Engine.
From Stdlib Require Import Ascii.

#[local] Open Scope Z_scope.

(** ** Information (plugin_info.c, plugin_event_source.c, plugin_main.c) *)
Definition PLUGIN_ID : Z := 999.
Definition PLUGIN_NPARAMS : Z := 2.
Definition plugin_get_id : Z := PLUGIN_ID.
Definition plugin_get_event_source : string := "linx_ebpf".
Definition plugin_get_version : string := "0.1.0".
Definition plugin_get_name : string := "syscall_sequence_plugin".
Definition plugin_get_description : string := "该插件加载ebpf程序,采集进程的系统调用序列,并输出到对应的文件或终端中".
Definition plugin_get_contact : string := "linx".
Definition plugin_get_extract_event_sources : string := "[" +:+ quoted "linx_ebpf" +:+ "]".

(** Members of the two documents, with the default or description that the
    host is shown. *)
Definition PLUGIN_INIT_CONFIG_MACRO_ALL : list (string * string) :=
  [("rich_value_size", "1024"); ("str_max_size", "1024"); ("putfile", quoted "true"); ("path", quoted "1.txt");
   ("format", quoted "json"); ("log_level", quoted "INFO"); ("log_file", quoted "2.txt")].

Definition plugin_init_schema : string :=
  "{" +:+ newline
  +:+ String.concat "" ((λ x, "    " +:+ quoted x.1 +:+ ": " +:+ x.2 +:+ "," +:+ newline) <$> PLUGIN_INIT_CONFIG_MACRO_ALL)
  +:+ quoted "end" +:+ ":" +:+ quoted "用于通过falco-json检查" +:+ newline +:+ "}".

Definition PLUGIN_OPEN_CONFIG_MACRO_ALL : list (string * string) :=
  [("filter_own", "在bpf采集过程中,是否过滤插件自身的系统调用,取值为true或false");
   ("filter_falco", "在bpf采集过程中过滤掉falco的系统调用,取值为ture或false");
   ("filter_pids", "在bpf采集过程中要过滤掉对应pid的系统调用,取值为实质的pid");
   ("filter_comms", "在bpf采集过程中要过滤掉对应comm的系统调用,取值为ls、cat等");
   ("drop_mode", "在bpf采集过程中,是否放弃采集所有系统调用,取值为true或false");
   ("drop_failed", "在bpf采集过程中是否放弃采集失败的系统调用,取值为treu或false");
   ("interest_syscall_file", "在bpf采集过程中要采集的系统调用,取值是指向一个特定格式的json文件路径")].

Definition plugin_open_params : string :=
  "[" +:+ newline
  +:+ String.concat "" ((λ x, "    {" +:+ newline +:+ "        " +:+ quoted "value" +:+ ": " +:+ quoted x.1 +:+ "," +:+ newline
        +:+ "        " +:+ quoted "desc" +:+ ": " +:+ quoted x.2 +:+ newline +:+ "    }," +:+ newline)
      <$> PLUGIN_OPEN_CONFIG_MACRO_ALL)
  +:+ "]" +:+ newline.

(** ** State *)

(** What [plugin_init] allocates; the three stores of pointers into an event
    are not kept, their texts are read at once. *)
Record plugin_init_state_t := mk_init_state {
  is_lasterr : string;
  is_rich_value : linx_event_rich_t
}.

(** [g_init_state]: null, freed or valid. *)
Inductive init_pointer :=
  | InitNull
  | InitFreed
  | Init (s : plugin_init_state_t).

Record plugin_world := mk_plugin {
  pw_config : plugin_config_t;
  pw_log : linx_log_t;
  pw_files : file_world;
  pw_init : init_pointer
}.

(** The plugin before anything is called. *)
Definition plugin_loaded : plugin_world := mk_plugin g_plugin_config g_linx_log (mk_files g_linx_event_putfile None) InitNull.

(** What is allocated. *)
Inductive block :=
  | BlockInit
  | BlockLasterr
  | BlockRich (i : nat)
  | BlockOpen
  | BlockEvent.

(** The system the plugin runs on. *)
Record plugin_host := mk_plugin_host {
  ph_calloc : block → bool;
  ph_files : file_host;
  ph_fopen : string → bool;
  ph_ebpf : Engine.host;
  ph_fs_text : string → option string;
  ph_heap_tail : string;
  ph_getpid : Z;
  ph_machine : machine
}.

Definition LINX_PLUGIN_LOG (w : plugin_world) : outcome unit :=
  match pw_init w with InitNull => Ub NullDeref | InitFreed => Ub BadAddress | Init _ => mret () end.

Section plugin.
Context `{CJsonValues} (h : plugin_host).

(** ** Initialising and ending (plugin_main.c) *)

(** What was allocated before a failure is lost. *)
Definition plugin_init (config : option string) (w : plugin_world) : outcome (ss_plugin_rc * plugin_world) :=
  if negb (ph_calloc h BlockInit) then mret (SS_PLUGIN_FAILURE, w)
  else if negb (ph_calloc h BlockLasterr) then mret (SS_PLUGIN_FAILURE, w)
  else
    '(ic, files) ← plugin_config_parse_init_config (pw_log w) (ph_files h) config (init_config (pw_config w), pw_files w);
    let log := linx_log_init (ph_fopen h) (ic_log_level ic) (Some (ic_log_file ic)) in
    let c := mk_plugin_config ic (open_config (pw_config w)) in
    match linx_event_rich_init (ph_calloc h ∘ BlockRich) (ic_rich_value_size ic) with
    | None => _ ← LINX_LOG log LINX_LOG_ERROR; mret (SS_PLUGIN_FAILURE, mk_plugin c log files (pw_init w))
    | Some rich =>
        let w := mk_plugin c log files (Init (mk_init_state "" rich)) in
        _ ← LINX_PLUGIN_LOG w;
        mret (SS_PLUGIN_SUCCESS, w)
    end.

(** The last message goes through the state that was just freed. *)
Definition plugin_destroy (w : plugin_world) : outcome (plugin_world * option (list Z)) :=
  _ ← LINX_PLUGIN_LOG w;
  let log := linx_log_close (pw_log w) in
  let contents := linx_event_putfile_clean (ph_files h) (pw_files w) in
  let w := mk_plugin (pw_config w) log (mk_files (fw_putfile (pw_files w)) None) InitFreed in
  _ ← LINX_PLUGIN_LOG w;
  mret (w, contents).

Definition plugin_get_last_error (w : plugin_world) : outcome string :=
  match pw_init w with InitNull => Ub NullDeref | InitFreed => Ub BadAddress | Init s => mret (is_lasterr s) end.

(** ** Events (plugin_event_source.c)

    An event of the host: its time and what its encoding made of the number of
    the plugin and the bytes from the collector. *)
Section events.
Context {encoded : Type} (scap_event_encode_params : Z → ringbuf_data → encoded + string)
  (scap_event_decode_params : encoded → option (Z * ringbuf_data)).

Record ss_plugin_event := mk_plugin_event { pe_ts : Z; pe_params : encoded }.

(** [evt] is empty until the first batch. *)
Record plugin_open_state_t := mk_open_state {
  os_evt : option ss_plugin_event;
  os_skel : skel_pointer;
  os_ringbuf_data : ringbuf_data
}.

Definition zero_event : linx_event_t :=
  mk_event 0 0 0 0 0 0 0 0 0 0 (replicate 12 0) (replicate 12 "") "" "" "" "" (replicate 6 0).

Definition plugin_open (params : option string) (w : plugin_world)
    : outcome (ss_plugin_rc * option plugin_open_state_t * plugin_world) :=
  _ ← LINX_PLUGIN_LOG w;
  if negb (ph_calloc h BlockOpen) then mret (SS_PLUGIN_FAILURE, None, w)
  else if negb (ph_calloc h BlockEvent) then mret (SS_PLUGIN_FAILURE, None, w)
  else
    oc ← plugin_config_parse_open_config (pw_log w) (ph_fs_text h) (ph_heap_tail h) (ph_getpid h) params (open_config (pw_config w));
    let w := mk_plugin (mk_plugin_config (init_config (pw_config w)) oc) (pw_log w) (pw_files w) (pw_init w) in
    '(r, skel) ← linx_ebpf_init (ph_ebpf h) (pw_log w) oc;
    if negb (r =? 0) then mret (SS_PLUGIN_FAILURE, None, w)
    else
      _ ← LINX_PLUGIN_LOG w;
      mret (SS_PLUGIN_SUCCESS, Some (mk_open_state None skel (zero_event, ∅)), w).

(** The object stays loaded and attached. *)
Definition plugin_close (w : plugin_world) : outcome unit := _ ← LINX_PLUGIN_LOG w; LINX_PLUGIN_LOG w.

Section poll.
Context (ring_buffer__poll :
  (linx_ringbuf_t → ringbuf_data → outcome (Z * ringbuf_data)) → list linx_ringbuf_t → ringbuf_data →
  outcome (Z * ringbuf_data * list linx_ringbuf_t)).

(** Code, number of events, and the states. *)
Definition plugin_next_batch (w : plugin_world) (s : plugin_open_state_t) (ring : list linx_ringbuf_t)
    : outcome (ss_plugin_rc * Z * plugin_world * plugin_open_state_t * list linx_ringbuf_t) :=
  '(scap_ret, data, ring) ← linx_ebpf_get_ringbuf_msg ring_buffer__poll (pw_log w) ring (os_ringbuf_data s);
  let s := mk_open_state (os_evt s) (os_skel s) data in
  if scap_ret <? 0 then _ ← LINX_PLUGIN_LOG w; mret (SS_PLUGIN_FAILURE, 0, w, s, ring)
  else if scap_ret =? 0 then mret (SS_PLUGIN_TIMEOUT, 0, w, s, ring)
  else
    match scap_event_encode_params PLUGIN_ID data with
    | inr error =>
        _ ← LINX_PLUGIN_LOG w;
        match pw_init w with
        | Init st =>
            mret (SS_PLUGIN_FAILURE, 0,
              mk_plugin (pw_config w) (pw_log w) (pw_files w) (Init (mk_init_state error (is_rich_value st))), s, ring)
        | _ => Ub BadAddress
        end
    | inl params =>
        let s := mk_open_state (Some (mk_plugin_event (ev_time data.1) params)) (os_skel s) data in
        let ic := init_config (pw_config w) in
        files ← linx_event_putfile (ph_machine h) (ic_str_max_size ic) data.2 data.1 (ph_files h) (pw_log w) (ic_output_config ic) (pw_files w);
        mret (SS_PLUGIN_SUCCESS, 1, mk_plugin (pw_config w) (pw_log w) files (pw_init w), s, ring)
    end.
End poll.

(** ** Fields (plugin_field_extraction.c) *)
Definition plugin_extract_fields (w : plugin_world) (evt : ss_plugin_event) (f : extract_field)
    : outcome (ss_plugin_rc * option extracted * plugin_world) :=
  match scap_event_decode_params (pe_params evt) with
  | None => mret (SS_PLUGIN_FAILURE, None, w)
  | Some (id, data) =>
      if negb (id =? PLUGIN_ID) then mret (SS_PLUGIN_FAILURE, None, w)
      else
        match pw_init w with
        | Init st =>
            let ic := init_config (pw_config w) in
            '(rc, v, rich) ← extract_event_field (ph_machine h) (pw_log w) (ic_rich_value_size ic) (ic_str_max_size ic)
                               data.1 data.2 (is_rich_value st) f;
            mret (rc, v, mk_plugin (pw_config w) (pw_log w) (pw_files w) (Init (mk_init_state (is_lasterr st) rich)))
        | InitNull => Ub NullDeref
        | InitFreed => Ub BadAddress
        end
  end.
End events.
End plugin.

(** ** Lemmas *)

(** The arrays of an event. *)
Record event_ok (e : linx_event_t) : Prop := {
  eo_fds : length (ev_fds e) = LINX_FDS_MAX_SIZE;
  eo_paths : length (ev_fd_path e) = LINX_FDS_MAX_SIZE;
  eo_nfds : 0 ≤ ev_nfds e ≤ Z.of_nat LINX_FDS_MAX_SIZE
}.

Lemma task_file_loop_lengths c i n nfds e :
  let '(nfds', (fds, paths)) := task_file_loop c i n nfds e in
  (nfds ≤ nfds' ≤ nfds + n)%nat ∧ length fds = length e.1 ∧ length paths = length e.2.
Proof.
  revert i nfds e. induction n as [|n IH]; intros i nfds e; cbn [task_file_loop].
  - destruct e as [fds paths]. cbn. lia.
  - destruct (read_pointer _ _) as [file|].
    + specialize (IH (S i) (S nfds) (<[nfds := Z.of_nat i]> e.1, <[nfds := (linx_get_file_path (ck_kernel c) (ck_layout c) file LINX_PATH_MAX_SIZE).2]> e.2)).
      destruct (task_file_loop _ _ _ _ _) as [nfds' [fds paths]]. cbn [fst snd] in IH. rewrite !length_insert in IH. lia.
    + specialize (IH (S i) nfds e). destruct (task_file_loop _ _ _ _ _) as [nfds' [fds paths]]. lia.
Qed.

Lemma load_header_ok c id type res e sizes :
  event_ok e → event_ok (set_params_size sizes (load_header c id type res e)).
Proof.
  intros [Hf Hp Hn]. unfold load_header, linx_get_task_file. destruct (_ || _); [by split|].
  set (max := if _ <? _ then _ else _). assert (Z.to_nat max ≤ LINX_FDS_MAX_SIZE)%nat as Hmax.
  { unfold max. destruct (Z.ltb_spec (ck_max_fds c) (Z.of_nat LINX_FDS_MAX_SIZE)); lia. }
  pose proof (task_file_loop_lengths c 0 (Z.to_nat max) 0 (ev_fds e, ev_fd_path e)) as H.
  destruct (task_file_loop _ _ _ _ _) as [nfds [fds paths]]. cbn [fst snd] in H. destruct H as (H1 & H2 & H3).
  split; cbn [set_params_size ev_fds ev_fd_path ev_nfds]; [congruence|congruence|lia].
Qed.

(** ** What the header of an event says

    Stated of the running task and of the memory of the kernel alone. *)
Record task_numbers := mk_numbers { tn_process : Z; tn_thread : Z; tn_parent : Z; tn_user : Z; tn_group : Z }.

(** The helpers answer two numbers of 32 bits in one of 64. *)
Record numbers_of (k : kernel) (n : task_numbers) : Prop := {
  no_ids : bpf_get_current_pid_tgid k = tn_process n * 2 ^ 32 + tn_thread n;
  no_owner : bpf_get_current_uid_gid k = tn_group n * 2 ^ 32 + tn_user n;
  no_parent : t_parent_tgid (bpf_get_current_task_btf k) = Some (tn_parent n);
  no_range : 0 ≤ tn_thread n < 2 ^ 32 ∧ 0 ≤ tn_user n < 2 ^ 32 ∧ 0 ≤ tn_parent n < 2 ^ 32
}.

(** The open ones of the [n] descriptors from [i], with their files. *)
Definition open_files (k : kernel) (table : Z) (i n : nat) : list (Z * Z) :=
  omap (λ i, pair (Z.of_nat i) <$> read_pointer k (table + 8 * Z.of_nat i)) (seq i n).

(** The header [e] of the return of the call [id] with the result [ret].  The
    member [tid] holds the number of the process and [pid] that of the
    thread. *)
Record header_shows (c : ckernel) (n : task_numbers) (id ret : Z) (e : linx_event_t) : Prop := {
  hs_tid : ev_tid e = tn_process n;
  hs_pid : ev_pid e = tn_thread n;
  hs_ppid : ev_ppid e = tn_parent n;
  hs_uid : ev_uid e = tn_user n;
  hs_gid : ev_gid e = tn_group n;
  hs_time : ev_time e = (g_boot_time (ck_kernel c) + bpf_ktime_get_boot_ns (ck_kernel c)) `mod` 2 ^ 64;
  hs_res : ev_res e = ret `mod` 2 ^ 64;
  hs_type : ev_type e = 1;
  hs_id : ev_syscall_id e = id;
  hs_comm : ev_comm e = text (bpf_get_current_comm (ck_kernel c));
  hs_cmdline mm bytes b :
    t_mm (bpf_get_current_task_btf (ck_kernel c)) = Some mm →
    mm_arg_end mm - mm_arg_start mm = Z.of_nat (length (bytes ++ [b])) → (length (bytes ++ [b]) ≤ 127)%nat →
    bpf_probe_read (ck_kernel c) USER (mm_arg_start mm) (length (bytes ++ [b])) = Some (bytes ++ [b]) →
    ev_cmdline e = text ((λ b, if b =? 0 then 32 else b) <$> bytes);
  hs_fullpath : ck_exe_file c ≠ 0 →
    ev_fullpath e = (linx_get_file_path (ck_kernel c) (ck_layout c) (ck_exe_file c) 256).2;
  hs_parent bs : ck_parent_comm c ≠ 0 → bpf_probe_read_str (ck_kernel c) KERNEL (ck_parent_comm c) 256 = Some bs →
    ev_p_fullpath e = text bs;
  hs_files : 0 < ck_max_fds c → ck_fd_table c ≠ 0 →
    let opened := open_files (ck_kernel c) (ck_fd_table c) 0 (Z.to_nat (Z.min (ck_max_fds c) 12)) in
    ev_nfds e = Z.of_nat (length opened)
    ∧ take (length opened) (ev_fds e) = opened.*1
    ∧ take (length opened) (ev_fd_path e) = (λ f, (linx_get_file_path (ck_kernel c) (ck_layout c) f 256).2) <$> opened.*2
}.

Lemma open_files_length k table i n : (length (open_files k table i n) ≤ n)%nat.
Proof.
  unfold open_files. revert i. induction n as [|n IH]; intros i; cbn; [lia|]. specialize (IH (S i)).
  destruct (read_pointer _ _); cbn; lia.
Qed.

Lemma take_S_insert {A} n (x : A) l : (n < length l)%nat → take (S n) (<[n := x]> l) = take n l ++ [x].
Proof.
  intros Hn. rewrite (take_S_r _ _ x) by (by apply list_lookup_insert_eq). by rewrite take_insert_ge.
Qed.

Lemma task_file_loop_opened c i n nfds e :
  let opened := open_files (ck_kernel c) (ck_fd_table c) i n in
  (nfds + length opened ≤ length e.1)%nat → (nfds + length opened ≤ length e.2)%nat →
  let '(nfds', (fds, paths)) := task_file_loop c i n nfds e in
  nfds' = (nfds + length opened)%nat
  ∧ take nfds' fds = take nfds e.1 ++ opened.*1
  ∧ take nfds' paths = take nfds e.2 ++ ((λ f, (linx_get_file_path (ck_kernel c) (ck_layout c) f 256).2) <$> opened.*2).
Proof.
  revert i nfds e. induction n as [|n IH]; intros i nfds e; cbn [task_file_loop].
  { destruct e as [fds paths]. cbn. rewrite Nat.add_0_r, !app_nil_r. done. }
  unfold open_files. cbn [seq omap list_omap]. fold (open_files (ck_kernel c) (ck_fd_table c) (S i) n).
  destruct (read_pointer _ _) as [file|]; cbn [fmap option_fmap option_map].
  - cbn [length fmap list_fmap fst snd]. intros H1 H2.
    set (e' := (<[nfds := Z.of_nat i]> e.1, <[nfds := (linx_get_file_path (ck_kernel c) (ck_layout c) file 256).2]> e.2)).
    specialize (IH (S i) (S nfds) e'). cbv zeta in IH. unfold e' in IH at 1 2. cbn [fst snd] in IH. rewrite !length_insert in IH.
    specialize (IH ltac:(lia) ltac:(lia)). change LINX_PATH_MAX_SIZE with 256. fold e'.
    destruct (task_file_loop c (S i) n (S nfds) e') as [nfds' [fds paths]]. destruct IH as (-> & Hf & Hp).
    unfold e' in Hf, Hp. cbn [fst snd] in Hf, Hp. rewrite take_S_insert in Hf by lia. rewrite take_S_insert in Hp by lia.
    rewrite <- app_assoc in Hf, Hp. split; [lia|]. split; [exact Hf|exact Hp].
  - intros H1 H2. by apply IH.
Qed.

Lemma text_terminated l : text (l ++ [0]) = text l.
Proof. induction l as [|b l IH]; cbn; [done|]. destruct (b =? 0); [done|]. by rewrite IH. Qed.

Lemma cmdline_shown c task cmdline mm bytes b :
  t_mm task = Some mm → mm_arg_end mm - mm_arg_start mm = Z.of_nat (length (bytes ++ [b])) →
  (length (bytes ++ [b]) ≤ 127)%nat →
  bpf_probe_read (ck_kernel c) USER (mm_arg_start mm) (length (bytes ++ [b])) = Some (bytes ++ [b]) →
  linx_get_process_cmdline c task cmdline = text ((λ b, if b =? 0 then 32 else b) <$> bytes).
Proof.
  intros Hmm Hl H127 Hr. unfold linx_get_process_cmdline. rewrite Hmm, Hl, wrap_small by lia.
  assert (Z.of_nat (length (bytes ++ [b])) ≤ 127) as Hz by lia.
  rewrite (proj2 (Z.leb_gt _ 0)) by (rewrite length_app; cbn; lia).
  rewrite (proj2 (Z.ltb_ge (LINX_CMDLINE_MAX_SIZE - 1) _)) by (unfold LINX_CMDLINE_MAX_SIZE; lia). cbn [orb].
  rewrite Nat2Z.id, Hr. cbn [from_option id]. rewrite fmap_app, length_app. cbn [length fmap list_fmap].
  replace (length bytes + 1 - 1)%nat with (length ((λ b, if b =? 0 then 32 else b)%Z <$> bytes) + 0)%nat by (rewrite length_fmap; lia).
  rewrite insert_app_r. apply text_terminated.
Qed.

Lemma load_header_shows c n id ret e sizes :
  numbers_of (ck_kernel c) n → 0 ≤ id < 2 ^ 32 → event_ok e →
  header_shows c n id ret (set_params_size sizes (load_header c id LINX_SYSCALL_TYPE_EXIT ret e)).
Proof.
  intros [Hi Ho Hp (R1 & R2 & R3)] Hid [Hf Hpa Hn]. unfold load_header.
  destruct (linx_get_task_file c e) as [[nfds fds] paths] eqn:Efiles.
  assert (∀ a b, 0 ≤ b < 2 ^ 32 → wrap 32 (a * 2 ^ 32 + b) = b ∧ Z.shiftr (a * 2 ^ 32 + b) 32 = a) as Hhalves.
  { unfold wrap. intros a b' Hb. rewrite Z.shiftr_div_pow2, Z.add_comm, Z.mod_add, Z.div_add by lia.
    rewrite Z.mod_small, Z.div_small by done. lia. }
  split; cbn [set_params_size ev_tid ev_pid ev_ppid ev_uid ev_gid ev_time ev_res ev_type ev_syscall_id ev_comm ev_cmdline
    ev_fullpath ev_p_fullpath ev_nfds ev_fds ev_fd_path].
  - rewrite Hi. by apply Hhalves.
  - rewrite Hi. by apply Hhalves.
  - unfold linx_get_ppid. rewrite Hp. cbn. by apply wrap_small.
  - rewrite Ho. by apply Hhalves.
  - rewrite Ho. by apply Hhalves.
  - done.
  - done.
  - done.
  - by apply wrap_small.
  - done.
  - intros mm bytes b. apply cmdline_shown.
  - intros Hx. unfold linx_get_comm_fullpath. by rewrite (proj2 (Z.eqb_neq _ _) Hx).
  - intros bs Hx Hr. unfold linx_get_parent_fullpath. rewrite (proj2 (Z.eqb_neq _ _) Hx).
    change LINX_PATH_MAX_SIZE with 256. by rewrite Hr.
  - intros Hm Ht. unfold linx_get_task_file in Efiles. rewrite (proj2 (Z.eqb_neq _ _) Ht) in Efiles.
    rewrite (proj2 (Z.eqb_neq (ck_max_fds c) 0)) in Efiles by lia. cbn [orb] in Efiles.
    assert ((if ck_max_fds c <? Z.of_nat LINX_FDS_MAX_SIZE then ck_max_fds c else Z.of_nat LINX_FDS_MAX_SIZE)
      = Z.min (ck_max_fds c) 12) as E.
    { change (Z.of_nat LINX_FDS_MAX_SIZE) with 12. destruct (Z.ltb_spec (ck_max_fds c) 12); lia. }
    rewrite E in Efiles. clear E. set (m := Z.to_nat (Z.min (ck_max_fds c) 12)) in *.
    assert (length (open_files (ck_kernel c) (ck_fd_table c) 0 m) ≤ 12)%nat as Hle.
    { etransitivity; [apply open_files_length|]. lia. }
    pose proof (task_file_loop_opened c 0 m 0 (ev_fds e, ev_fd_path e)) as H. cbv zeta in H. cbn [fst snd] in H.
    rewrite Hf, Hpa in H. specialize (H Hle Hle).
    destruct (task_file_loop c 0 m 0 (ev_fds e, ev_fd_path e)) as [nfds' [fds' paths']]. injection Efiles as <- <- <-.
    destruct H as (-> & H1 & H2). cbn [take app Nat.add] in *. split_and!; [done|exact H1|exact H2].
Qed.

Section receive.
Context (poll : (linx_ringbuf_t → ringbuf_data → outcome (Z * ringbuf_data)) → list linx_ringbuf_t → ringbuf_data →
  outcome (Z * ringbuf_data * list linx_ringbuf_t)).
Context (Hpoll : poll_law poll).

(** All events of the ring are taken, the last one is kept. *)
Lemma poll_keeps_last log older r data :
  Forall (λ x, rb_payload_pos x ≤ LINX_EVENT_MAX_SIZE) (older ++ [r]) → Z.of_nat (length (older ++ [r])) < 2 ^ 31 →
  linx_ebpf_get_ringbuf_msg poll log (older ++ [r]) data = Ret [] (Z.of_nat (length (older ++ [r])), received r, []).
Proof.
  intros Hs Hl. unfold linx_ebpf_get_ringbuf_msg.
  assert (∀ x b, rb_payload_pos x ≤ LINX_EVENT_MAX_SIZE → linx_handle_event log x b = Ret [] (0, received x)) as Hh.
  { intros x b Hx. unfold linx_handle_event. by rewrite (proj2 (Z.ltb_ge _ _)) by lia. }
  rewrite Hpoll; [|done|].
  2:{ intros x b Hx. rewrite Forall_forall in Hs. exists (received x). by apply Hh, Hs. }
  assert (call_back (linx_handle_event log) (older ++ [r]) data = Ret [] (received r)) as ->; [|by rewrite bind_Ret_nil].
  clear Hl. revert data. induction older as [|x older IH]; intros data; cbn [app call_back]; inversion Hs as [|? ? Hx Hs']; subst.
  - rewrite Hh, bind_Ret_nil by done. done.
  - rewrite Hh, bind_Ret_nil by done. by apply IH.
Qed.
End receive.

(** A plugin that is initialised, with its seven buffers, and does not write
    events to a file. *)
Record plugin_ready (w : plugin_world) (st : plugin_init_state_t) : Prop := {
  pr_init : pw_init w = Init st;
  pr_log : log_file (pw_log w) ≠ NoFile;
  pr_size : 0 < ic_rich_value_size (init_config (pw_config w)) < 2 ^ 63;
  pr_buffers : length (is_rich_value st) = Z.to_nat PLUGIN_FIELDS_COMM;
  pr_sizes : Forall (λ b, Z.of_nat (length b) = ic_rich_value_size (init_config (pw_config w))) (is_rich_value st);
  pr_put : oc_put_flag (ic_output_config (init_config (pw_config w))) = false
}.

(** The last message of [plugin_destroy] always goes through a pointer that is
    null or was freed. *)
Lemma plugin_destroy_undefined h w : ∃ f, plugin_destroy h w = Ub f.
Proof. destruct w as [config log files [| |st]]; by eexists. Qed.

(** C4: a system call the collector has observed reaches the host as it was.
    For every call of the table that is stored as the table says, the event its
    program sends when it returns is the one the next batch delivers, with its
    time, whatever was in the ring before, which is lost.  Its header shows the
    running task: the numbers of process, thread, parent, user and group, the
    time, the result, the call, the command and its arguments, the files of
    the program and of the open descriptors.  Every field the host extracts
    shows what the header says and the arguments the call was made with; the
    members [tid] and [pid] hold the process and the thread, so that the
    field of the process shows the thread and that of the thread the
    process. *)
Theorem plugin_reports_syscall {encoded : Type} h w st (s : @plugin_open_state_t encoded) encode decode poll
    r c regs ret rb l older t :
  plugin_ready w st → poll_law poll → (∀ d, ∃ p, encode PLUGIN_ID d = inl p ∧ decode p = Some (PLUGIN_ID, d)) →
  Forall (λ x, rb_payload_pos x ≤ LINX_EVENT_MAX_SIZE) older → Z.of_nat (length older) < 2 ^ 31 - 1 →
  r ∈ syscall_rows → (∀ n, st_name r = Some n → listed stored_otherwise n = false) →
  kernel_ok (ck_kernel c) → bpf_ringbuf_output (ck_kernel c) = true → event_ok (rb_event rb) →
  numbers_of (ck_kernel c) t →
  get_syscall_id regs = st_id r → describe (ic_str_max_size (init_config (pw_config w))) (ck_kernel c) r regs = Some l →
  ∃ n x rb' evt s', st_name r = Some n ∧ (n +:+ "_x", x) ∈ collector_programs
    ∧ run_program x c regs ret rb = Ret [] (rb', Some rb')
    ∧ header_shows c t (st_id r) ret (rb_event rb')
    ∧ plugin_next_batch h encode poll w s (older ++ [rb']) = Ret [] (SS_PLUGIN_SUCCESS, 1, w, s', [])
    ∧ os_evt s' = Some evt ∧ pe_ts evt = ev_time (rb_event rb')
    ∧ (∀ id a str fit, field_text (ph_machine h) (rb_event rb') n l id a = Some (str, fit) →
         fit (ic_rich_value_size (init_config (pw_config w))) = true → no_nul str = true →
         ∃ w', plugin_extract_fields h decode w evt (field_of id a) = Ret [] (SS_PLUGIN_SUCCESS, Some (ResStr str), w'))
    ∧ (∀ id a v,
         (id, v) ∈ [(PLUGIN_FIELDS_COMM, ResStr (text (bpf_get_current_comm (ck_kernel c))));
                    (PLUGIN_FIELDS_PID, ResU64 (tn_thread t)); (PLUGIN_FIELDS_TID, ResU64 (tn_process t));
                    (PLUGIN_FIELDS_PPID, ResU64 (tn_parent t));
                    (PLUGIN_FIELDS_CMDLINE, ResStr (ev_cmdline (rb_event rb')));
                    (PLUGIN_FIELDS_FULLPATH, ResStr (ev_fullpath (rb_event rb')))] →
         plugin_extract_fields h decode w evt (field_of id a) = Ret [] (SS_PLUGIN_SUCCESS, Some v, w)).
Proof.
  intros [Hinit Hlog Hsize Hbufs Hsizes Hput] Hpoll Hcode Hold Hlen Hr Hn Hk Hout Hev Ht Hid Hd.
  destruct (collected_event r c regs ret rb _ l Hr Hn Hk Hid Hd)
    as (n & x & rb' & sizes & data & Hname & Hin & Hrun & He & Hpos & Hi & Hrow & Hnum & Hreads).
  rewrite Hout in Hrun. destruct (Hcode (received rb')) as (p & Henc & Hdec).
  destruct w as [config log files init]. cbn [pw_config pw_log pw_files pw_init] in *. subst init.
  set (evt := mk_plugin_event (ev_time (rb_event rb')) p).
  assert (header_shows c t (st_id r) ret (rb_event rb')) as Hshow.
  { rewrite He. apply load_header_shows; [done| |done]. destruct (row_bounds r Hr) as [Hb _].
    unfold LINX_SYSCALL_MAX_IDX in Hb. lia. }
  exists n, x, rb', evt, (mk_open_state (Some evt) (os_skel s) (received rb')).
  split; [done|]. split; [done|]. split; [done|]. split; [done|]. split; [|split; [done|split; [done|split]]].
  - unfold plugin_next_batch. cbn [pw_log pw_files pw_config pw_init]. rewrite (poll_keeps_last poll Hpoll), bind_Ret_nil.
    + rewrite (proj2 (Z.ltb_ge _ 0)) by lia. rewrite (proj2 (Z.eqb_neq _ 0)) by (rewrite length_app; cbn; lia). rewrite Henc.
      unfold linx_event_putfile. rewrite Hput. cbn [negb]. rewrite LINX_LOG_open, bind_ret_l by done. by rewrite bind_ret_l.
    + apply Forall_app. split; [done|]. by constructor.
    + rewrite length_app. cbn. lia.
  - intros id a str fit Hf Hfit Hnul. unfold plugin_extract_fields. cbn [pe_params evt]. rewrite Hdec. rewrite Z.eqb_refl.
    cbn [negb pw_init pw_config pw_log pw_files fst snd received].
    destruct (load_header_ok c (st_id r) LINX_SYSCALL_TYPE_EXIT ret (rb_event rb) sizes Hev) as [Ef Ep Hb].
    rewrite <- He in Ef, Ep, Hb.
    assert (0 ≤ id < PLUGIN_FIELDS_COMM) as Hidr by (pose proof (field_text_range _ _ _ _ _ _ _ Hf); unfold PLUGIN_FIELDS_COMM; lia).
    destruct (lookup_lt_is_Some_2 (is_rich_value st) (Z.to_nat id)) as [buf Hbuf]; [lia|].
    destruct (extract_rich_field (ph_machine h) log (ic_rich_value_size (init_config config)) (ic_str_max_size (init_config config))
      (rb_event rb') (received_memory rb') r n l data Hrow Hname Hnum Hreads ltac:(lia) ltac:(lia) Hsize (is_rich_value st) id a str fit buf
      Hf Hfit Hnul Hbuf) as (buf' & _ & E).
    { rewrite Forall_lookup in Hsizes. by eapply Hsizes. }
    rewrite E, bind_Ret_nil. by eexists.
  - intros id a v Hv. unfold plugin_extract_fields. cbn [pe_params evt]. rewrite Hdec. rewrite Z.eqb_refl.
    cbn [negb pw_init pw_config pw_log pw_files fst snd received].
    assert (plain_field (rb_event rb') id = Some v) as Hv'.
    { destruct Hshow as [E1 E2 E3 _ _ _ _ _ _ E4 _ _ _ _]. rewrite !elem_of_cons in Hv.
      destruct Hv as [Hv|[Hv|[Hv|[Hv|[Hv|[Hv|Hv]]]]]]; [| | | | | |inversion Hv]; injection Hv as -> ->; cbn; congruence. }
    rewrite (extract_plain_field _ _ _ _ _ _ _ id a v Hv'), bind_Ret_nil. by destruct st.
Qed.

(** ** Example *)
Definition plugin_world_ex : plugin_world :=
  mk_plugin g_plugin_config open_log_ex files_ex (Init (mk_init_state "" (replicate 7 (replicate 1024 0)))).

Definition plugin_host_ex : plugin_host :=
  mk_plugin_host (λ _, true) (file_host_ex []) (λ _, true) Engine.host_ex (λ _, None) "" 42 machine_ex.

Definition poll_ex (callback : linx_ringbuf_t → ringbuf_data → outcome (Z * ringbuf_data)) (records : list linx_ringbuf_t)
    (b : ringbuf_data) : outcome (Z * ringbuf_data * list linx_ringbuf_t) :=
  b ← call_back callback records b; mret (Z.of_nat (length records), b, []).

Lemma plugin_world_ex_ready : plugin_ready plugin_world_ex (mk_init_state "" (replicate 7 (replicate 1024 0))).
Proof. split; [done|done|cbn; lia|done| |done]. apply Forall_replicate. by vm_compute. Qed.

(** A thread 78 of the process 77, whose parent is 4. *)
Definition plugin_kernel_ex : kernel :=
  mk_kernel (77 * 2 ^ 32 + 78) (5 * 2 ^ 32 + 6) 10 (replicate 15 65 ++ [0]) (mk_task (Some 4) None None 0 None None 0)
    (λ _ _ n, Some (replicate n 65)) (λ _ _ lim, if lim <? 2 then Some [] else Some [65; 0]) (λ _, 0%nat) true 1000.

Definition plugin_ckernel_ex : ckernel := mk_ckernel plugin_kernel_ex layout_ex 0 0 0 0.

Lemma plugin_kernel_ex_ok : kernel_ok plugin_kernel_ex.
Proof. destruct collector_kernel_ex_ok. by split. Qed.

(** unlinkat(-100, "A", 512), after an event that is lost: its batch, and its
    arguments and the number of its thread as the host reads them. *)
Lemma plugin_reports_syscall_ex :
  ∃ rb' evt s' w',
    header_shows plugin_ckernel_ex (mk_numbers 77 78 4 6 5) 263 0 (rb_event rb')
    ∧ plugin_next_batch plugin_host_ex (λ _ d, inl d) poll_ex plugin_world_ex (mk_open_state None Engine.SkelNull (zero_event, ∅))
      [collector_ringbuf_ex; rb'] = Ret [] (SS_PLUGIN_SUCCESS, 1, plugin_world_ex, s', [])
    ∧ os_evt s' = Some evt
    ∧ plugin_extract_fields plugin_host_ex (λ d, Some (PLUGIN_ID, d)) plugin_world_ex evt (field_of 4 NoArg)
      = Ret [] (SS_PLUGIN_SUCCESS, Some (ResStr "(dfd=-100, pathname=A, flag=512)"), w')
    ∧ plugin_extract_fields plugin_host_ex (λ d, Some (PLUGIN_ID, d)) plugin_world_ex evt (field_of 8 NoArg)
      = Ret [] (SS_PLUGIN_SUCCESS, Some (ResU64 78), plugin_world_ex).
Proof.
  destruct (plugin_reports_syscall plugin_host_ex plugin_world_ex (mk_init_state "" (replicate 7 (replicate 1024 0)))
    (mk_open_state None Engine.SkelNull (zero_event, ∅)) (λ _ d, inl d) (λ d, Some (PLUGIN_ID, d)) poll_ex
    syscall_unlinkat plugin_ckernel_ex unlinkat_regs_ex 0 collector_ringbuf_ex
    [("dfd", "-100"); ("pathname", "A"); ("flag", "512")] [collector_ringbuf_ex] (mk_numbers 77 78 4 6 5))
    as (n & x & rb' & evt & s' & _ & _ & _ & Hh & Hb & Hs & _ & Hf & Hv).
  - exact plugin_world_ex_ready.
  - done.
  - intros d. by exists d.
  - apply Forall_singleton. cbn. by vm_compute.
  - by vm_compute.
  - exact unlinkat_in.
  - by intros n [= <-].
  - exact plugin_kernel_ex_ok.
  - done.
  - split; cbn; [done|done|lia].
  - split; cbn; [done|done|done|lia].
  - done.
  - reflexivity.
  - destruct (Hf 4 NoArg _ _ eq_refl eq_refl eq_refl) as [w' E]. exists rb', evt, s', w'.
    split; [exact Hh|]. split; [exact Hb|]. split; [exact Hs|]. split; [exact E|].
    apply (Hv 8 NoArg). rewrite !elem_of_cons. right. left. reflexivity.
Defined.
