(* ===== verification/Xdp.v ===== *)
(** * The packet program (kernel/ebpf/ebpf/xdp/xdp_pass.bpf.c)

    Attached to an interface by the collector's loader, it looks at every
    packet, prints a line for a TCP segment over IPv4 and lets the packet pass.
    The file in kernel/ebpf/xdp is the same.

    A packet is its bytes from [data] to [data_end]; a pointer is an offset
    into them.  A read behind the end is a fault, so that the checks of the
    program show in the model. *)
From S2P Require Import Prelude.

#[local] Open Scope Z_scope.

Definition ETH_P_IP : Z := 2048.
Definition IPPROTO_TCP : Z := 6.
Definition XDP_PASS : Z := 2.

(** Sizes of the headers, and the offsets of the members that are read. *)
Definition sizeof_ethhdr : Z := 14.
Definition sizeof_iphdr : Z := 20.
Definition sizeof_tcphdr : Z := 20.
Definition o_h_proto : Z := 12.
Definition o_protocol : Z := 9.

Section packet.
Context (packet : list Z).

Definition data_end : Z := Z.of_nat (length packet).

Definition read_u8 (a : Z) : outcome Z :=
  if 0 <=? a then from_opt OutOfBounds (packet !! Z.to_nat a) else Ub OutOfBounds.

(** [bpf_ntohs] of a member of 16 bits. *)
Definition read_be16 (a : Z) : outcome Z := high ← read_u8 a; low ← read_u8 (a + 1); mret (256 * high + low).

Definition is_tcp (eth : Z) : outcome bool :=
  if data_end <? eth + sizeof_ethhdr then mret false
  else
    h_proto ← read_be16 (eth + o_h_proto);
    if negb (h_proto =? ETH_P_IP) then mret false
    else
      let ip := eth + sizeof_ethhdr in
      if data_end <? ip + sizeof_iphdr then mret false
      else
        protocol ← read_u8 (ip + o_protocol);
        mret (protocol =? IPPROTO_TCP).

Definition tcp_header_bytes : Z := 32.

(** The verdict, and the number in the line that is printed, if one is. *)
Definition xdp_pass : outcome (Z * option Z) :=
  let eth := 0 in
  tcp ← is_tcp eth;
  if negb tcp then mret (XDP_PASS, None)
  else
    let ip := eth + sizeof_ethhdr in
    first ← read_u8 ip;
    let ip_hdr_len := Z.land first 15 * 4 in
    if ip_hdr_len <? sizeof_iphdr then mret (XDP_PASS, None)
    else if data_end <? ip + ip_hdr_len then mret (XDP_PASS, None)
    else
      let tcp := ip + ip_hdr_len in
      if data_end <? tcp + sizeof_tcphdr then mret (XDP_PASS, None)
      else if data_end <? tcp + tcp_header_bytes then mret (XDP_PASS, None)
      else mret (XDP_PASS, Some tcp_header_bytes).

(** ** Lemmas *)
Lemma read_u8_inside a : 0 ≤ a < data_end → read_u8 a = Ret [] (nth (Z.to_nat a) packet 0).
Proof.
  unfold data_end. intros [H0 H]. unfold read_u8. rewrite (proj2 (Z.leb_le _ _)) by done.
  destruct (lookup_lt_is_Some_2 packet (Z.to_nat a)) as [x Hx]; [lia|]. rewrite Hx. cbn [from_opt].
  by rewrite (nth_lookup_Some _ _ _ _ Hx).
Qed.

Definition byte (a : Z) : Z := nth (Z.to_nat a) packet 0.

(** A TCP segment over IPv4 with 32 bytes at least from its header on. *)
Definition has_segment : bool :=
  (34 <=? data_end) && (256 * byte 12 + byte 13 =? ETH_P_IP) && (byte 23 =? IPPROTO_TCP)
  && (20 <=? Z.land (byte 14) 15 * 4) && (14 + Z.land (byte 14) 15 * 4 + 32 <=? data_end).

(** Every packet passes, nothing outside of it is read, and the line is
    printed for exactly the segments with 32 bytes: a segment with a plain
    header and less than twelve bytes behind it is not seen. *)
Theorem xdp_pass_total : xdp_pass = Ret [] (XDP_PASS, if has_segment then Some tcp_header_bytes else None).
Proof.
  unfold xdp_pass, is_tcp, has_segment, read_be16, sizeof_ethhdr, sizeof_iphdr, sizeof_tcphdr, tcp_header_bytes, o_h_proto, o_protocol, byte.
  change (0 + 14) with 14. change (0 + 12 + 1) with 13. change (0 + 12) with 12. change (14 + 9) with 23. change (14 + 20) with 34.
  destruct (Z.ltb_spec data_end 14) as [H|H].
  - rewrite (proj2 (Z.leb_gt 34 data_end)) by lia. by rewrite bind_ret_l.
  - rewrite (read_u8_inside 12), (read_u8_inside 13) by lia. rewrite !bind_Ret_nil, bind_ret_l.
    destruct (256 * _ + _ =? ETH_P_IP); cbn [negb]; [|by rewrite bind_ret_l, andb_false_r].
    destruct (Z.ltb_spec data_end 34) as [H'|H'].
    + rewrite (proj2 (Z.leb_gt 34 data_end)) by lia. by rewrite bind_ret_l.
    + rewrite (read_u8_inside 23), (read_u8_inside 14) by lia. rewrite (proj2 (Z.leb_le 34 data_end)) by lia. rewrite !bind_Ret_nil.
      destruct (_ =? IPPROTO_TCP); cbn [negb andb]; rewrite bind_ret_l; [|done]. cbn [negb]. rewrite ?bind_Ret_nil.
      set (n := Z.land _ 15 * 4). destruct (Z.ltb_spec n 20), (Z.leb_spec 20 n); try lia; [done|].
      destruct (Z.ltb_spec data_end (14 + n)), (Z.ltb_spec data_end (14 + n + 20)), (Z.ltb_spec data_end (14 + n + 32)),
        (Z.leb_spec (14 + n + 32) data_end); try lia; done.
Qed.
End packet.

(** A SYN without options, 54 bytes, is not printed; with twelve bytes of
    options it is. *)
Definition segment_ex (n : nat) : list Z :=
  replicate 12 0 ++ [8; 0; 69] ++ replicate 8 0 ++ [6] ++ replicate 10 0 ++ replicate n 0.

Example xdp_pass_short : xdp_pass (segment_ex 20) = Ret [] (XDP_PASS, None).
Proof. reflexivity. Qed.

Example xdp_pass_long : xdp_pass (segment_ex 32) = Ret [] (XDP_PASS, Some 32).
Proof. reflexivity. Qed.
